(* ===== verification/_CoqProject ===== *)
-Q . S2P
Prelude.v
Seq.v
State.v
Buffer.v
Checksum.v
Codec.v
CodecOptions.v
CodecFrames.v
Ring.v
RingConc.v
Congestion.v
Timer.v
Contract.v
Tcb.v
Conn.v
Engine.v
EngineRx.v
EngineTx.v
EngineLife.v
EngineInv.v
Runtime.v
EngineReset.v
Handshake.v
Teardown.v
Stream.v
Socket.v
UdpChecksum.v
UdpFrame.v
UdpLayout.v
Udp6Frame.v
Tunnel.v
TunnelTrip.v
Routing.v
NeighborCache.v
Arp.v
Icmp.v
Icmp6.v
Ndp.v
Robust.v
UdpSocket.v
UdpRobust.v
UdpWire.v
MpscRing.v
FramePool.v
SpscRing.v
Pipeline.v
PipelineInv.v
PipelineSafe.v
PipelineLive.v
MmapRing.v
Quic.v
QuicLoop.v
DpdkPort.v
DpdkMbuf.v
Async.v
Perf.v
PipelineRecv.v
ProcTables.v
UdpSetup.v
RawBackend.v
UdpInit.v
UdpMbuf.v
Ipv6Text.v
