(* ===== verification/Prelude.v ===== *)
(** * dpdk-stdlib-rust: verification of the userspace network stack

    ** The program

    The repository is a userspace network stack with the interface of [std::net].
    One thread owns the TCP engine (dpdk-stdlib-tcp): it takes frames from a packet
    backend, commands from the applications and timer ticks, and answers with frames
    for the backend.  An application holds a [ConnectionHandle] shared with the engine:
    two lock-free byte rings, an end-of-file flag, an error slot and a condition
    variable.  The UDP crate (dpdk-stdlib-udp) builds and parses frames over IPv4 and
    IPv6, with optional 802.1Q tags and GUE, VXLAN or GENEVE tunnels, chooses next hops
    from a routing table, and resolves neighbours with ARP and neighbour discovery; both
    answer echo requests and report ICMP errors.  dpdk-stdlib-net holds what the two
    share: checksums, the neighbour resolver, the backends.

    ** Files and sources

    Paths are below src/; a definition has the name of the Rust item it translates.

    - Prelude: machine integers, the outcome monad ([Done] or [Panic]: an index out of
      range, an overflow, an [unwrap] of nothing), bounds-checked buffer access, tactics and
      generic lemmas.  Buffer: the lemmas about code that fills a buffer store by store.
    - Seq, State: dpdk-stdlib-tcp/src/seq.rs, state.rs, error.rs, isn.rs.
    - Checksum: dpdk-stdlib-net/src/checksum.rs.  Codec, CodecOptions, CodecFrames:
      dpdk-stdlib-tcp/src/codec.rs.
    - Ring, RingConc: dpdk-stdlib-tcp/src/ring.rs, first as sequential operations, then
      as the steps of a producer and a consumer.
    - Congestion, Timer: congestion.rs, timer.rs.  Contract, Tcb: contract.rs, tcb.rs.
    - Conn: the handlers of engine.rs that work on one connection.  Engine: the tables,
      the other handlers and the entry points [on_segment_with_macs], [on_command] and
      [on_tick].  EngineRx, EngineTx, EngineLife, EngineInv, EngineReset: their properties.
    - Runtime: runtime.rs and the loop of stream.rs.  Handshake, Teardown: two engines that
      exchange bytes.
    - Stream: the blocking read of stream.rs as one thread, the engine as the other.
      Socket: tcp_stream.rs, tcp_listener.rs, split.rs and the rest of stream.rs.
    - UdpChecksum, UdpFrame, UdpLayout: dpdk-stdlib-udp/src/lib.rs, the part that builds
      and parses frames.  Udp6Frame: ipv6.rs.
    - Tunnel, TunnelTrip: gue.rs, vxlan.rs, geneve.rs.  Routing: routing.rs.
    - NeighborCache: the caches of arp.rs and ndp.rs, modelled once over the class
      [FastKey], and dpdk-stdlib-net/src/neighbor.rs.  Arp, Icmp, Icmp6, Ndp: arp.rs,
      icmp.rs, icmpv6.rs, ndp.rs and ipv6_addr.rs.
    - Robust: all parsers of received bytes together.
    - UdpSocket, UdpRobust, UdpWire: the sockets of dpdk-stdlib-udp/src/lib.rs (binding, the
      receive path with its automatic replies, queues, sending), that nothing received can crash
      them, and a datagram from one socket to another.
    - MpscRing, SpscRing: dpdk-stdlib-udp/src/ring.rs.  FramePool: frame_pool.rs.  SpscRing also
      states the interface [BoundedQueue] with its laws, which the pipeline is verified against.
    - Pipeline, PipelineInv, PipelineSafe, PipelineLive, PipelineRecv: topology.rs and the pipeline mode of
      lib.rs: the dispatcher, the workers and the application as one transition system, and the blocking
      receive beside it.
    - Async: dpdk-stdlib-tokio: a task that polls a stream and the engine that wakes it, and the receive
      loop with its idle backoff.  Perf: the latency sampler and counters of perf.rs.
    - MmapRing: dpdk-stdlib-net/src/ring_buffer.rs and the mapped rings of backend_raw.rs, shared with
      the kernel; the bytes of a frame hold its header as in memory.
    - Quic, QuicLoop: dpdk-stdlib-quic/src: congestion marks, paths, the transmit and receive queues
      and a turn of the event loop, over classes for the messages and the endpoint of the QUIC library.
    - DpdkPort, DpdkMbuf: dpdk/src and backend_dpdk.rs: environment, pools and ports as the calls they make
      of the library, and the packet buffers as pointers lent by it.
    - UdpSetup, UdpInit: binding over both versions and over a given backend, the builder, the initialisation of the shared
      port, multicast groups and the choice of a backend.  UdpMbuf: the transmit and receive paths of lib.rs down to packet buffers.
    - ProcTables: the readers of the kernel's ARP and route tables (lib.rs and dpdk-stdlib-quic/src/provider.rs), against what the
      kernel prints.
    - RawBackend: dpdk-stdlib-net/src/backend_raw.rs as the system calls it makes.
    - Ipv6Text: addresses as text, in ipv6_addr.rs and ndp.rs, with the standard library's parser and printer written out.

    State is passed explicitly: a handler takes the record of the struct it is a method
    of and returns the new one.  Handles are shared, so the engine keeps them in a store
    and names them; what the code signals to other threads (oneshot answers, wake-ups,
    condition variables) is a list of events.  Threads that interleave are step relations
    with one step for each access to shared memory.  Where only the order of the engine's
    accesses matters (Stream, Async), that it notifies after it has written is a rule of the model, read off engine.rs.  Instants and durations are
    nanoseconds; the clock reading is an argument of each handler.

    ** What the theorems show

    - Data integrity.  What the application reads is a prefix of the peer's stream
      under loss, repetition and reordering, and everything that has arrived is delivered
      ([receiver_stream_integrity], [receiver_delivers_arrived]); every segment sent carries
      the application's bytes of its position, the zero-window probe excepted ([sender_stream_integrity]); the byte ring
      is a bounded queue, sequentially and with both threads running ([ring_refines_fifo],
      [concurrent_stream_integrity]).
    - Life cycle.  Every connection follows the TCP state machine, unless a connect command for its
      four-tuple replaces it, and the tables stay consistent in every reachable engine, where connect commands
      bring a handle no connection holds; handshake and close
      succeed over the wire, byte for byte, up to the answer of the server's accept; resets follow RFC 5961; expired connections go away;
      timeouts retransmit below the retry limit and abort at it.
    - Windows, time and congestion.  Transmission stays in the windows; the driver never
      sleeps past a deadline; a blocked reader is always woken; congestion events never
      overflow.
    - Wire formats.  Each builder is inverted by its parser (TCP, UDP over IPv4 and IPv6,
      GUE, VXLAN, GENEVE), checksums verify, and no byte string makes any parser panic or loop
      ([every_frame_is_survived]).
    - Neighbours and routes.  The lookup is a longest-prefix match; the caches refine
      the map of what was learned; ARP and neighbour discovery resolve over
      the wire; echo requests are answered and quoted errors find their socket.
    - Sockets.  A datagram sent, plain, tagged or tunnelled, is received with its payload and
      source ([datagram_over_the_wire]); bursts are delivered in order; the receive buffer is
      a queue bounded in packets and bytes; no burst of frames panics or
      reconfigures a socket ([socket_survives_every_burst]).
    - Pipeline.  Both rings refine a bounded queue on which every thread can go on, and the pool has each frame in one
      place, in every interleaving ([mpsc_refines_bounded_queue], [spsc_refines_bounded_queue], [pool_frames_have_one_owner]); so the pipeline never leaks, shares or corrupts a frame
      ([pipeline_conserves_frames]), hands over only what arrived
      ([pipeline_delivers_received_datagrams]) and does hand it over
      ([datagrams_reach_the_application]); plans fit the NIC; a blocking
      receive ends by its deadline ([blocking_receive_completes]).
    - Asynchronous use.  A task never sleeps through its wake-up ([polled_stream_never_misses_wakeup]); a receive with
      idle backoff returns the first arrival ([backoff_returns_first_arrival]).  The sampler's percentiles
      are those of the latest samples ([percentiles_of_latest_samples]).
    - Rings shared with the kernel.  Each is a bounded queue, whatever the interleaving with the kernel
      ([mmap_rx_refines_fifo], [mmap_tx_refines_fifo]), as long as the kernel accepts every frame it is given; their geometry lies in the mapping.
    - QUIC.  Every segment a message writes is queued and read back by the peer with its congestion mark; a turn of the event loop
      accounts for every datagram and frame ([quic_turn_accounts]).
    - DPDK.  Whatever the library answers, ports are used as DPDK allows and no packet buffer is leaked or freed
      twice ([backend_returns_every_mbuf]); but the backend's drop cleans the environment up too early.
    - Set-up.  A bound socket has announced its address to the link ([binding_announces_address]), with the two bytes that the checksum
      offload damages in an IPv6 announcement; the port is brought up as DPDK
      allows, or everything is released ([init_resources_is_legal]); the kernel's ARP table, as printed, is read back
      ([kernel_arp_table_read_back]), and so is every printed IPv6 address ([scoped_address_roundtrip]).
    - Raw sockets.  A program over a backend in basic mode returns its descriptor on every path
      ([raw_session_returns_descriptors]) and loses no packet ([recv_basic_loses_nothing]); with mapped rings
      construction fails and leaks it ([mmap_mode_leaks_descriptor]).
    - Buffers of sockets.  The send through packet buffers is what the socket model says ([socket_send_refines_descriptor]);
      the pipeline's senders write past a buffer that is too small ([direct_send_overruns_buffer]).
    - Defects.  Seven theorems ([overlapping_reorder_panics], [partial_ack_breaks_retransmission],
      [close_wait_resends_acked_data], [syn_window_scaled_twice], [fast_path_torn],
      [eof_overtakes_data], [first_app_ring_is_always_preferred]) exhibit runs in which the code does not do what it means to; the
      integrity theorems above carry the hypotheses that exclude the first three (segments that do not
      overlap, acknowledgments of whole segments).

    ** Bounds and fuel

    Loops that are not structural have fuel, and each has a theorem or lemma that it is enough, so no
    result depends on it: [FOLD_FUEL] = 3 carry folds of a 32-bit sum of at most 64 KiB
    and [FOLD_FUEL64] = 6 of a 64-bit one; the walks over options and extension headers
    have one unit more than the bytes they may consume, and every round consumes
    one.  The write loop and the port allocator of Socket are given the number
    of rounds as an argument.  [usize] has 64 bits.  Widths are kept: [u32 (a + b)] wraps where the source wraps,
    and an unchecked addition that leaves its width is a [Panic], as in a build with overflow checks.

    ** Not modelled

    Threads and process globals, dpdk-sys/ (FFI) and the C library and kernel behind it: what they
    return is an argument.  SipHash (crate siphasher) is a parameter of the ISN generator.  The
    kernel-socket arms of [TcpStream] and [UdpSocket].  Of the tokio crate, the runtime's
    set-up and the wrappers that only forward; of perf.rs, floating-point rates, the reporter thread and printing.  The plain setters of [UdpSocket] (timeouts, modes), the performance
    reporter and the thread of the QUIC provider. *)

From stdpp Require Import base numbers list gmap option.
From Stdlib Require Import ZArith Lia.

#[global] Open Scope Z_scope.

(** ** Machine integers

    A Rust unsigned integer of width [w] is a [Z] in [0, 2^w).  The functions
    [u8] .. [u64] are the truncating casts ([as u8] ...); wrapping, saturating
    and checked operations are written out.  [usize] is 64 bits wide (x86-64 and
    aarch64, the targets of the project). *)
Definition u8 (z : Z) : Z := z mod 256.

Definition u16 (z : Z) : Z := z mod 65536.

Definition u32 (z : Z) : Z := z mod 4294967296.

Definition u64 (z : Z) : Z := z mod 18446744073709551616.

Definition U16_MAX : Z := 65535.

Definition U32_MAX : Z := 4294967295.

Definition is_u8 (z : Z) : Prop := 0 <= z < 256.

Definition is_u16 (z : Z) : Prop := 0 <= z < 65536.

Definition is_u32 (z : Z) : Prop := 0 <= z < 4294967296.

Definition is_u64 (z : Z) : Prop := 0 <= z < 18446744073709551616.

(** [wrapping_add] and [wrapping_sub] at 32 and 64 bits. *)
Definition wadd32 (a b : Z) : Z := u32 (a + b).

Definition wsub32 (a b : Z) : Z := u32 (a - b).

Definition wadd64 (a b : Z) : Z := u64 (a + b).

Definition wsub64 (a b : Z) : Z := u64 (a - b).

(** [saturating_add] and [saturating_mul] at 32 bits, [saturating_sub] at any
    width. *)
Definition sadd32 (a b : Z) : Z := Z.min (a + b) U32_MAX.

Definition smul32 (a b : Z) : Z := Z.min (a * b) U32_MAX.

Definition ssub (a b : Z) : Z := Z.max 0 (a - b).

#[global] Instance is_u8_dec z : Decision (is_u8 z).
Proof. unfold is_u8; apply _. Defined.

#[global] Instance is_u16_dec z : Decision (is_u16 z).
Proof. unfold is_u16; apply _. Defined.

#[global] Instance is_u32_dec z : Decision (is_u32 z).
Proof. unfold is_u32; apply _. Defined.

#[global] Instance is_u64_dec z : Decision (is_u64 z).
Proof. unfold is_u64; apply _. Defined.

(** ** Outcomes

    [Done] is a normal return, [Panic] a Rust panic (an index or a slice out of
    range, a length mismatch of [copy_from_slice]) and [OutOfFuel] a loop the
    model stopped; the theorems show which of the three can happen. *)
Inductive outcome (A : Type) : Type :=
| Done (a : A)
| Panic
| OutOfFuel.

Arguments Done {A} a.
Arguments Panic {A}.
Arguments OutOfFuel {A}.

(** [Result<A, E>]. *)
Inductive result (A E : Type) : Type :=
| Ok (a : A)
| Err (e : E).

Arguments Ok {A E} a.
Arguments Err {A E} e.

Definition obind {A B} (m : outcome A) (k : A -> outcome B) : outcome B :=
  match m with
  | Done a => k a
  | Panic => Panic
  | OutOfFuel => OutOfFuel
  end.

Declare Scope rust_scope.
Delimit Scope rust_scope with rust.
#[global] Open Scope rust_scope.

Notation "'let!' x := m 'in' k" := (obind m (fun x => k))
  (at level 10, x pattern, m at level 100, k at level 200,
   format "'[v' 'let!'  x  :=  m  'in' '/' k ']'") : rust_scope.

(** ** Bytes and slices

    Buffers are lists of bytes ([Z] in [0, 256)), indices are [nat].  Reading
    or writing outside the buffer panics, as the bounds checks of Rust do. *)
Definition idx (l : list Z) (i : nat) : outcome Z :=
  match l !! i with
  | Some b => Done b
  | None => Panic
  end.

(** [&l[a..b]]. *)
Definition slice (l : list Z) (a b : nat) : outcome (list Z) :=
  if (a <=? b)%nat && (b <=? length l)%nat
  then Done (take (b - a) (drop a l))
  else Panic.

(** [l[i] = v]. *)
Definition store (l : list Z) (i : nat) (v : Z) : outcome (list Z) :=
  if (i <? length l)%nat then Done (<[i := v]> l) else Panic.

(** [l[a..b].copy_from_slice(src)]. *)
Definition blit (l : list Z) (a b : nat) (src : list Z) : outcome (list Z) :=
  if (a <=? b)%nat && (b <=? length l)%nat && (length src =? b - a)%nat
  then Done (take a l ++ src ++ drop b l)
  else Panic.

(** [to_be_bytes] and [from_be_bytes] of [u16] and [u32]. *)
Definition be16 (z : Z) : list Z := [u8 (z / 256); u8 z].

Definition be32 (z : Z) : list Z :=
  [u8 (z / 16777216); u8 (z / 65536); u8 (z / 256); u8 z].

Definition of_be16 (a b : Z) : Z := a * 256 + b.

Definition of_be32 (a b c d : Z) : Z :=
  a * 16777216 + b * 65536 + c * 256 + d.

(** [len] as an integer. *)
Definition zlen {A} (l : list A) : Z := Z.of_nat (length l).

(** A MAC address, [[u8; 6]]. *)
Record Mac := MkMac { mac0 : Z; mac1 : Z; mac2 : Z; mac3 : Z; mac4 : Z; mac5 : Z }.

Definition mac_bytes (m : Mac) : list Z :=
  [mac0 m; mac1 m; mac2 m; mac3 m; mac4 m; mac5 m].

#[global] Instance Mac_eq_dec : EqDecision Mac.
Proof. solve_decision. Defined.

Definition mac_zero : Mac := MkMac 0 0 0 0 0 0.

(** ** Record update

    [r <| f := v |>] is the record [r] with field [f] replaced by [v]; a
    record type enters the notation with an [Eta] instance, its constructor
    applied to its projections. *)
Class Eta (R : Type) := eta : R -> R.

Class FieldSetter {R T : Type} (f : R -> T) := with_field : T -> R -> R.

Arguments with_field {R T} f {FieldSetter} v r : simpl never.

Ltac derive_setter f :=
  match type of f with
  | ?R -> ?T =>
      let body := eval hnf in (@eta R _) in
      let abs := eval pattern f in body in
      match abs with
      | ?g _ => exact (fun (v : T) (r : R) => g (fun _ => v) r)
      end
  end.

#[global] Hint Extern 1 (FieldSetter ?f) => derive_setter f : typeclass_instances.

Notation "r <| f := v |>" := (with_field f v r)
  (at level 1, f at next level, left associativity,
   format "r  <| f  :=  v |>") : rust_scope.

#[global] Instance eta_Mac : Eta Mac := fun m =>
  MkMac (mac0 m) (mac1 m) (mac2 m) (mac3 m) (mac4 m) (mac5 m).

(** ** Automation

    [rsimpl] reads fields through record updates; [bcase] splits on the integer
    comparisons of an [if]; [mod_lia] is [lia] with the moduli expanded;
    [wrap_lia] first unfolds the machine-integer operations. *)
Ltac rsimpl_one :=
  match goal with
  | |- context [?p (with_field ?f ?v ?r)] =>
      first
        [ constr_eq p f; change (p (with_field f v r)) with v
        | change (p (with_field f v r)) with (p r) ]
  end.

Ltac rsimpl := repeat rsimpl_one.

Ltac rsimpl_in H :=
  repeat match type of H with
  | context [?p (with_field ?f ?v ?r)] =>
      first
        [ constr_eq p f; change (p (with_field f v r)) with v in H
        | change (p (with_field f v r)) with (p r) in H ]
  end.

Ltac mod_lia := Z.to_euclidean_division_equations; lia.

Ltac unfold_words :=
  unfold wadd32, wsub32, wadd64, wsub64, sadd32, smul32, ssub, u8, u16, u32, u64,
    is_u8, is_u16, is_u32, is_u64, U16_MAX, U32_MAX, zlen in *.

Ltac wrap_lia := unfold_words; mod_lia.

Ltac bcase_on c :=
  lazymatch c with
  | (?a <? ?b)%Z => destruct (Z.ltb_spec a b)
  | (?a <=? ?b)%Z => destruct (Z.leb_spec a b)
  | (?a =? ?b)%Z => destruct (Z.eqb_spec a b)
  | (?a <? ?b)%nat => destruct (Nat.ltb_spec a b)
  | (?a <=? ?b)%nat => destruct (Nat.leb_spec a b)
  | (?a =? ?b)%nat => destruct (Nat.eqb_spec a b)
  | bool_decide ?P => destruct (bool_decide_reflect P)
  | negb ?d => bcase_on d
  | andb ?d ?e => first [bcase_on d | bcase_on e]
  | orb ?d ?e => first [bcase_on d | bcase_on e]
  | _ => let E := fresh "Hc" in destruct c eqn:E
  end.

Ltac bcase :=
  match goal with
  | |- context [if ?c then _ else _] => bcase_on c; cbn [negb andb orb]
  end.

Create HintDb words discriminated.

(** ** Shared lemmas *)

Lemma u8_range z : is_u8 (u8 z).
Proof. wrap_lia. Qed.

Lemma u16_range z : is_u16 (u16 z).
Proof. wrap_lia. Qed.

Lemma u32_range z : is_u32 (u32 z).
Proof. wrap_lia. Qed.

Lemma u64_range z : is_u64 (u64 z).
Proof. wrap_lia. Qed.

Lemma u8_small z : is_u8 z -> u8 z = z.
Proof. wrap_lia. Qed.

Lemma u16_small z : is_u16 z -> u16 z = z.
Proof. wrap_lia. Qed.

Lemma u32_small z : is_u32 z -> u32 z = z.
Proof. wrap_lia. Qed.

Lemma u64_small z : is_u64 z -> u64 z = z.
Proof. wrap_lia. Qed.

#[export] Hint Resolve u8_range u16_range u32_range u64_range : words.

#[export] Hint Extern 5 (is_u8 _) => unfold is_u8 in *; lia : words.
#[export] Hint Extern 5 (is_u16 _) => unfold is_u16 in *; lia : words.
#[export] Hint Extern 5 (is_u32 _) => unfold is_u32 in *; lia : words.

Lemma of_be16_be16 z : is_u16 z -> of_be16 (u8 (z / 256)) (u8 z) = z.
Proof. unfold of_be16. wrap_lia. Qed.

Lemma of_be32_be32 z :
  is_u32 z ->
  of_be32 (u8 (z / 16777216)) (u8 (z / 65536)) (u8 (z / 256)) (u8 z) = z.
Proof. unfold of_be32. wrap_lia. Qed.

Lemma be16_bytes z : Forall is_u8 (be16 z).
Proof. unfold be16. auto 10 with words. Qed.

Lemma be32_bytes z : Forall is_u8 (be32 z).
Proof. unfold be32. auto 10 with words. Qed.

(** Every element of an explicit list (with [be16]/[be32] parts) is a byte. *)
Ltac bytes :=
  repeat apply Forall_app_2; auto using be16_bytes, be32_bytes;
  repeat (apply Forall_cons_2; [solve [auto with words]|]); try apply Forall_nil_2.

Lemma lor_shiftl8 a b : is_u8 b -> Z.lor (Z.shiftl a 8) b = a * 256 + b.
Proof.
  intros Hb. rewrite Z.shiftl_mul_pow2 by lia. change (2 ^ 8) with 256.
  rewrite <- Z.lxor_lor; [rewrite <- Z.add_nocarry_lxor; [done|] |];
    apply Z.bits_inj'; intros n Hn; rewrite Z.land_spec, Z.bits_0.
  all: destruct (Z.lt_ge_cases n 8).
  all: try (change 256 with (2 ^ 8); rewrite Z.mul_pow2_bits_low by lia; done).
  all: rewrite andb_comm, (Z.bits_above_log2 b n); [done|unfold is_u8 in Hb; lia|].
  all: destruct (Z.eq_dec b 0) as [->|]; [cbn; lia|].
  all: apply Z.log2_lt_pow2; [unfold is_u8 in Hb; lia|].
  all: eapply Z.lt_le_trans; [unfold is_u8 in Hb; apply Hb|].
  all: change 256 with (2 ^ 8); apply Z.pow_le_mono_r; lia.
Qed.

Lemma obind_of_done {A B} (m : outcome A) (k : A -> outcome B) a :
  m = Done a -> obind m k = k a.
Proof. by intros ->. Qed.

Lemma obind_Done {A B} (a : A) (k : A -> outcome B) : obind (Done a) k = k a.
Proof. done. Qed.

Lemma idx_cons_0 a l : idx (a :: l) 0 = Done a.
Proof. done. Qed.

Lemma idx_cons_S a l n : idx (a :: l) (S n) = idx l n.
Proof. done. Qed.

Lemma idx_app pre l k : idx (pre ++ l) (length pre + k) = idx l k.
Proof. unfold idx. by rewrite lookup_app_r, Nat.add_comm, Nat.add_sub by lia. Qed.

Lemma idx_app_0 pre l : idx (pre ++ l) (length pre) = idx l 0.
Proof. rewrite <- (Nat.add_0_r (length pre)). apply idx_app. Qed.

Lemma idx_done l i b : l !! i = Some b -> idx l i = Done b.
Proof. unfold idx. by intros ->. Qed.

Lemma idx_in_range l i :
  (i < length l)%nat -> exists b, l !! i = Some b /\ idx l i = Done b.
Proof.
  intros [b Hb]%lookup_lt_is_Some_2. exists b. eauto using idx_done.
Qed.

Lemma slice_in_range l a b :
  (a <= b <= length l)%nat -> slice l a b = Done (take (b - a) (drop a l)).
Proof.
  intros Hr. unfold slice. repeat bcase; (done || lia).
Qed.

Lemma slice_app_mid l1 l2 l3 :
  slice (l1 ++ l2 ++ l3) (length l1) (length l1 + length l2) = Done l2.
Proof.
  rewrite slice_in_range by (rewrite !length_app; lia).
  rewrite drop_app_length, Nat.add_comm, Nat.add_sub. by rewrite take_app_length.
Qed.

Lemma blit_app_mid l1 l2 l3 src :
  length src = length l2 ->
  blit (l1 ++ l2 ++ l3) (length l1) (length l1 + length l2) src
  = Done (l1 ++ src ++ l3).
Proof.
  intros Hs. unfold blit. rewrite !length_app.
  repeat bcase; try lia. rewrite take_app_length.
  rewrite (app_assoc l1 l2 l3), drop_app_length' by (rewrite length_app; lia).
  done.
Qed.

Lemma zlen_app {A} (l k : list A) : zlen (l ++ k) = zlen l + zlen k.
Proof. unfold zlen. rewrite length_app. lia. Qed.

Lemma zlen_nonneg {A} (l : list A) : 0 <= zlen l.
Proof. unfold zlen. lia. Qed.

Lemma zlen_nil {A} : zlen (@nil A) = 0.
Proof. done. Qed.
