(* ===== verification/Seq.v ===== *)
(** * Sequence numbers (dpdk-stdlib-tcp/src/seq.rs)

    [SeqNum] is the 32-bit serial number of [seq.rs] with its modular
    comparisons.  The specification side is an unbounded stream position [x : Z]
    whose wire form is [u32 x]: the theorems relate the modular comparisons to
    the order of positions that are less than 2^31 apart, which is the window in
    which TCP uses them. *)

From stdpp Require Import base numbers.
From Stdlib Require Import ZArith Lia.
From S2P Require Import Prelude.

Module SeqNum.

Definition t : Type := Z.

(** Half of the sequence space. *)
Definition HALF : Z := 2147483648.

(** [SeqNum::lt]. *)
Definition lt (self other : t) : bool :=
  let diff := wsub32 other self in
  negb (diff =? 0) && (diff <? Z.shiftl 1 31).

(** [SeqNum::le]. *)
Definition le (self other : t) : bool :=
  (self =? other) || lt self other.

(** [SeqNum::gt]. *)
Definition gt (self other : t) : bool := lt other self.

(** [SeqNum::add]. *)
Definition add (self : t) (offset : Z) : t := wadd32 self offset.

(** [SeqNum::diff]. *)
Definition diff (self other : t) : Z := wsub32 self other.

(** [SeqNum::in_range]. *)
Definition in_range (self start end_ : t) : bool :=
  le start self && lt self end_.

(** ** Wire forms of stream positions *)

Lemma diff_positions x y : 0 <= y - x < 4294967296 -> diff (u32 y) (u32 x) = y - x.
Proof. unfold diff. wrap_lia. Qed.

Lemma add_position x n : add (u32 x) n = u32 (x + n).
Proof. unfold add. wrap_lia. Qed.

Lemma eq_positions x y :
  - 4294967296 < x - y < 4294967296 -> (u32 x =? u32 y) = (x =? y).
Proof.
  intros H. apply Bool.eq_iff_eq_true. rewrite !Z.eqb_eq. wrap_lia.
Qed.

Lemma lt_positions x y :
  - HALF < y - x < HALF -> lt (u32 x) (u32 y) = (x <? y).
Proof.
  unfold lt, HALF. intros H. change (Z.shiftl 1 31) with 2147483648.
  apply Bool.eq_iff_eq_true.
  rewrite andb_true_iff, negb_true_iff, Z.eqb_neq, !Z.ltb_lt. wrap_lia.
Qed.

Lemma gt_positions x y :
  - HALF < y - x < HALF -> gt (u32 x) (u32 y) = (y <? x).
Proof. intros H. unfold gt. apply lt_positions. lia. Qed.

Lemma le_positions x y :
  - HALF < y - x < HALF -> le (u32 x) (u32 y) = (x <=? y).
Proof.
  intros H. unfold le. rewrite lt_positions, eq_positions by (unfold HALF in *; lia).
  apply Bool.eq_iff_eq_true. rewrite orb_true_iff, Z.eqb_eq, Z.ltb_lt, Z.leb_le. lia.
Qed.

(** ** Order on raw 32-bit values *)

Lemma lt_irrefl a : lt a a = false.
Proof. unfold lt. replace (wsub32 a a) with 0 by wrap_lia. done. Qed.

Lemma lt_asym a b : is_u32 a -> is_u32 b -> lt a b = true -> lt b a = false.
Proof.
  unfold lt. change (Z.shiftl 1 31) with 2147483648. intros Ha Hb.
  rewrite andb_true_iff, negb_true_iff, Z.eqb_neq, Z.ltb_lt. intros [H1 H2].
  apply andb_false_iff. right. apply Z.ltb_ge. wrap_lia.
Qed.

Lemma add_diff a n : is_u32 a -> is_u32 n -> diff (add a n) a = n.
Proof. unfold diff, add. wrap_lia. Qed.

Lemma diff_add a b : is_u32 a -> is_u32 b -> add a (diff b a) = b.
Proof. unfold diff, add. wrap_lia. Qed.

Lemma add_add a m n : add (add a m) n = add a (m + n).
Proof. unfold add. wrap_lia. Qed.

Lemma add_range a n : is_u32 (add a n).
Proof. unfold add, wadd32. auto with words. Qed.

Lemma diff_range a b : is_u32 (diff a b).
Proof. unfold diff, wsub32. auto with words. Qed.

Lemma add_0 a : is_u32 a -> add a 0 = a.
Proof. unfold add. wrap_lia. Qed.

#[export] Hint Resolve add_range diff_range : words.

(** On 32-bit values, [gt a b] says that [a] is ahead of [b] by less than half
    the space. *)
Lemma gt_spec a b :
  gt a b = true <-> 0 < diff a b < HALF.
Proof.
  unfold gt, lt, diff, HALF. change (Z.shiftl 1 31) with 2147483648.
  rewrite andb_true_iff, negb_true_iff, Z.eqb_neq, Z.ltb_lt. wrap_lia.
Qed.

Lemma le_spec a b :
  is_u32 a -> is_u32 b -> le a b = true <-> diff b a < HALF.
Proof.
  intros Ha Hb. unfold le. rewrite orb_true_iff, Z.eqb_eq.
  change (lt a b) with (gt b a). rewrite gt_spec.
  unfold diff, HALF. wrap_lia.
Qed.

(** The comparisons of [SeqNum] refine the order of unbounded stream
    positions: for positions less than 2^31 apart, [lt], [le], [gt] and
    [in_range] on the wire values answer exactly as the order of the positions,
    wherever the 32-bit counter wraps. *)
Theorem comparisons_refine_positions x s e :
  - HALF < x - s < HALF -> - HALF < e - x < HALF ->
  lt (u32 s) (u32 x) = (s <? x) /\
  le (u32 s) (u32 x) = (s <=? x) /\
  gt (u32 s) (u32 x) = (x <? s) /\
  in_range (u32 x) (u32 s) (u32 e) = (s <=? x) && (x <? e).
Proof.
  intros H1 H2. split_and!.
  - apply lt_positions. lia.
  - apply le_positions. lia.
  - apply gt_positions. lia.
  - unfold in_range. rewrite le_positions, lt_positions by lia. done.
Qed.

(** A window that straddles the wrap of the counter: 2^32 - 3 .. 2^32 + 3. *)
Lemma comparisons_refine_positions_witness :
  lt (u32 4294967293) (u32 4294967296) = true /\
  le (u32 4294967293) (u32 4294967296) = true /\
  gt (u32 4294967293) (u32 4294967296) = false /\
  in_range (u32 4294967296) (u32 4294967293) (u32 4294967299) = true.
Proof.
  exact (comparisons_refine_positions 4294967296 4294967293 4294967299
           (conj eq_refl eq_refl) (conj eq_refl eq_refl)).
Defined.

(** Two distinct sequence numbers are ordered in exactly one direction,
    except when they are exactly half the space apart, where neither precedes the
    other; the order is therefore not total and, over the full space, not
    transitive. *)
Theorem lt_trichotomy a b :
  is_u32 a -> is_u32 b ->
  (lt a b = true /\ lt b a = false /\ a <> b) \/
  (lt a b = false /\ lt b a = true /\ a <> b) \/
  (lt a b = false /\ lt b a = false /\ (a = b \/ diff a b = HALF)).
Proof.
  intros Ha Hb. unfold lt, diff, HALF. change (Z.shiftl 1 31) with 2147483648.
  destruct (Z.eqb_spec (wsub32 b a) 0), (Z.ltb_spec (wsub32 b a) 2147483648),
    (Z.eqb_spec (wsub32 a b) 0), (Z.ltb_spec (wsub32 a b) 2147483648); cbn;
    try (left; split_and!; (done || wrap_lia));
    try (right; left; split_and!; (done || wrap_lia));
    try (right; right; split_and!; (done || wrap_lia)).
  all: exfalso; wrap_lia.
Qed.

Lemma lt_trichotomy_witness :
  is_u32 0 /\ is_u32 HALF /\
  ((lt 0 HALF = true /\ lt HALF 0 = false /\ 0 <> HALF) \/
   (lt 0 HALF = false /\ lt HALF 0 = true /\ 0 <> HALF) \/
   (lt 0 HALF = false /\ lt HALF 0 = false /\ (0 = HALF \/ diff 0 HALF = HALF))).
Proof.
  split; [by vm_compute|]. split; [by vm_compute|].
  apply (lt_trichotomy 0 HALF); by vm_compute.
Defined.

Example lt_not_transitive :
  lt 0 1431655765 = true /\ lt 1431655765 2863311530 = true /\
  lt 0 2863311530 = false.
Proof. vm_compute. done. Qed.

End SeqNum.
