(* ===== verification/State.v ===== *)
(** * States, addresses, errors and initial sequence numbers

    [TcpState] and [FourTuple] of dpdk-stdlib-tcp/src/state.rs, [TcpError] and
    its [io::ErrorKind] of error.rs, and the [IsnGenerator] of isn.rs.  IP and
    socket addresses are those of [std::net]. *)

From stdpp Require Import base numbers list countable gmap strings.
From Stdlib Require Import ZArith Lia.
From S2P Require Import Prelude Seq.

(** ** Addresses ([std::net]) *)

Record Ipv4Addr := MkIpv4 { oct0 : Z; oct1 : Z; oct2 : Z; oct3 : Z }.

(** [Ipv4Addr::octets]. *)
Definition octets (a : Ipv4Addr) : list Z := [oct0 a; oct1 a; oct2 a; oct3 a].

Inductive SocketAddr : Type :=
| V4 (ip : Ipv4Addr) (port_ : Z)
| V6 (ip : Z) (port_ flowinfo scope_id : Z).

(** [SocketAddr::port]. *)
Definition port (a : SocketAddr) : Z :=
  match a with
  | V4 _ p => p
  | V6 _ p _ _ => p
  end.

#[global] Instance Ipv4Addr_eq_dec : EqDecision Ipv4Addr.
Proof. solve_decision. Defined.

#[global] Program Instance Ipv4Addr_countable : Countable Ipv4Addr :=
  inj_countable' (fun a => (oct0 a, oct1 a, oct2 a, oct3 a))
    (fun '(a, b, c, d) => MkIpv4 a b c d) _.
Next Obligation. by intros []. Qed.

#[global] Instance SocketAddr_eq_dec : EqDecision SocketAddr.
Proof. solve_decision. Defined.

#[global] Program Instance SocketAddr_countable : Countable SocketAddr :=
  inj_countable'
    (fun a => match a with
              | V4 ip p => inl (ip, p)
              | V6 ip p f s => inr (ip, p, f, s)
              end)
    (fun x => match x with
              | inl (ip, p) => V4 ip p
              | inr (ip, p, f, s) => V6 ip p f s
              end) _.
Next Obligation. by intros []. Qed.

(** Well-formed addresses: every component has its machine width. *)
Definition wf_ipv4 (a : Ipv4Addr) : Prop :=
  is_u8 (oct0 a) /\ is_u8 (oct1 a) /\ is_u8 (oct2 a) /\ is_u8 (oct3 a).

Definition wf_v4 (a : SocketAddr) : Prop :=
  match a with
  | V4 ip p => wf_ipv4 ip /\ is_u16 p
  | V6 _ _ _ _ => False
  end.

(** ** TCP states *)

Inductive TcpState : Type :=
| Closed | Listen | SynSent | SynReceived | Established | FinWait1 | FinWait2
| CloseWait | Closing | LastAck | TimeWait.

#[global] Instance TcpState_eq_dec : EqDecision TcpState.
Proof. solve_decision. Defined.

(** [state as u8]. *)
Definition to_u8 (s : TcpState) : Z :=
  match s with
  | Closed => 0 | Listen => 1 | SynSent => 2 | SynReceived => 3
  | Established => 4 | FinWait1 => 5 | FinWait2 => 6 | CloseWait => 7
  | Closing => 8 | LastAck => 9 | TimeWait => 10
  end.

(** [TcpState::from_u8]. *)
Definition from_u8 (v : Z) : option TcpState :=
  match v with
  | 0 => Some Closed
  | 1 => Some Listen
  | 2 => Some SynSent
  | 3 => Some SynReceived
  | 4 => Some Established
  | 5 => Some FinWait1
  | 6 => Some FinWait2
  | 7 => Some CloseWait
  | 8 => Some Closing
  | 9 => Some LastAck
  | 10 => Some TimeWait
  | _ => None
  end.

Lemma from_to_u8 s : from_u8 (to_u8 s) = Some s.
Proof. by destruct s. Qed.

(** ** Connection keys *)

Record FourTuple := MkFourTuple { local : SocketAddr; remote : SocketAddr }.

#[global] Instance FourTuple_eq_dec : EqDecision FourTuple.
Proof. solve_decision. Defined.

#[global] Program Instance FourTuple_countable : Countable FourTuple :=
  inj_countable' (fun k => (local k, remote k))
    (fun '(l, r) => MkFourTuple l r) _.
Next Obligation. by intros []. Qed.

(** [FourTuple::to_bytes]: twelve bytes, all zero unless both ends are IPv4. *)
Definition to_bytes (k : FourTuple) : list Z :=
  match local k, remote k with
  | V4 l lp, V4 r rp => octets l ++ be16 lp ++ octets r ++ be16 rp
  | _, _ => replicate 12 0
  end.

(** ** Errors *)

Inductive TcpError : Type :=
| ConnectionRefused
| ConnectionReset
| ConnectionAborted
| BrokenPipe
| NotConnected
| TimedOut
| AddrInUse
| AddrNotAvailable
| InvalidPacket (what : string)
| ResourceLimit (what : string).

(** The [io::ErrorKind]s the crate produces. *)
Inductive ErrorKind : Type :=
| KConnectionRefused | KConnectionReset | KConnectionAborted | KBrokenPipe
| KNotConnected | KTimedOut | KAddrInUse | KAddrNotAvailable | KInvalidData
| KOther | KWouldBlock | KPermissionDenied | KInvalidInput.

(** [impl From<TcpError> for io::Error], the kind. *)
Definition error_kind (e : TcpError) : ErrorKind :=
  match e with
  | ConnectionRefused => KConnectionRefused
  | ConnectionReset => KConnectionReset
  | ConnectionAborted => KConnectionAborted
  | BrokenPipe => KBrokenPipe
  | NotConnected => KNotConnected
  | TimedOut => KTimedOut
  | AddrInUse => KAddrInUse
  | AddrNotAvailable => KAddrNotAvailable
  | InvalidPacket _ => KInvalidData
  | ResourceLimit _ => KOther
  end.

(** ** Initial sequence numbers

    Time is measured in nanoseconds since an arbitrary origin ([Instant]); a
    [Duration] is a number of nanoseconds. *)
Record IsnGenerator := MkIsnGenerator {
  secret : list Z;
  boot_instant : Z }.

(** [u64::from_le_bytes] of an 8-byte slice. *)
Fixpoint of_le_bytes (bs : list Z) : Z :=
  match bs with
  | [] => 0
  | b :: r => b + 256 * of_le_bytes r
  end.

Section Isn.

(** [SipHasher24::new_with_keys(k0, k1)], one [write] and [finish] (crate
    [siphasher]). *)
Context (siphash24 : Z -> Z -> list Z -> Z).

(** [IsnGenerator::generate]; [Instant::duration_since] saturates at zero. *)
Definition generate (g : IsnGenerator) (four_tuple : FourTuple) (now : Z) : SeqNum.t :=
  let elapsed := Z.max 0 (now - boot_instant g) in
  let m := u32 (elapsed / 1000 / 4) in
  let key_lo := of_le_bytes (take 8 (secret g)) in
  let key_hi := of_le_bytes (take 8 (drop 8 (secret g))) in
  let hash := u32 (siphash24 key_lo key_hi (to_bytes four_tuple)) in
  wadd32 m hash.

Lemma generate_range g k now : is_u32 (generate g k now).
Proof. unfold generate, wadd32. auto with words. Qed.

End Isn.

(** ** Theorems *)

Lemma be16_inj p q : is_u16 p -> is_u16 q -> be16 p = be16 q -> p = q.
Proof.
  unfold be16. intros Hp Hq [= H1 H2].
  rewrite <- (of_be16_be16 p), <- (of_be16_be16 q), H1, H2 by done. done.
Qed.

(** The twelve bytes hashed for the initial sequence number identify the
    connection: two IPv4 4-tuples with the same [to_bytes] are equal. *)
Theorem to_bytes_injective k1 k2 :
  wf_v4 (local k1) -> wf_v4 (remote k1) -> wf_v4 (local k2) -> wf_v4 (remote k2) ->
  to_bytes k1 = to_bytes k2 -> k1 = k2.
Proof.
  destruct k1 as [[l1 lp1|] [r1 rp1|]], k2 as [[l2 lp2|] [r2 rp2|]];
    cbn [local remote wf_v4]; try done.
  intros [_ Hlp1] [_ Hrp1] [_ Hlp2] [_ Hrp2].
  destruct l1, r1, l2, r2; unfold to_bytes; cbn.
  intros [= -> -> -> -> Hl1 Hl2 -> -> -> -> Hr1 Hr2].
  assert (lp1 = lp2) as -> by (apply be16_inj; [done..|]; unfold be16; congruence).
  assert (rp1 = rp2) as -> by (apply be16_inj; [done..|]; unfold be16; congruence).
  done.
Qed.

Lemma to_bytes_injective_witness :
  let k := MkFourTuple (V4 (MkIpv4 10 0 0 1) 1234) (V4 (MkIpv4 10 0 0 2) 80) in
  to_bytes k = [10; 0; 0; 1; 4; 210; 10; 0; 0; 2; 0; 80] /\ k = k.
Proof.
  split; [reflexivity|].
  apply to_bytes_injective; by vm_compute.
Defined.

(** The 4 microsecond clock of RFC 6528: for a fixed connection and a
    fixed boot secret, the initial sequence number advances by exactly the
    number of elapsed 4-microsecond ticks, whatever the keyed hash is. *)
Theorem isn_advances_with_clock siphash24 g k t1 t2 :
  boot_instant g <= t1 -> t1 <= t2 -> t2 - boot_instant g < 4000 * 4294967296 ->
  SeqNum.diff (generate siphash24 g k t2) (generate siphash24 g k t1)
  = (t2 - boot_instant g) / 1000 / 4 - (t1 - boot_instant g) / 1000 / 4.
Proof.
  intros H1 H2 H3. unfold generate, SeqNum.diff.
  rewrite !Z.max_r by lia. set (h := u32 (siphash24 _ _ _)).
  assert (is_u32 h) as Hh by (subst h; auto with words). clearbody h.
  wrap_lia.
Qed.

Lemma isn_advances_with_clock_witness :
  let g := MkIsnGenerator (replicate 16 3) 0 in
  let k := MkFourTuple (V4 (MkIpv4 10 0 0 1) 1234) (V4 (MkIpv4 10 0 0 2) 80) in
  let hash := fun k0 k1 bs => k0 + 31 * k1 + of_le_bytes bs in
  SeqNum.diff (generate hash g k 400000) (generate hash g k 0) = 100.
Proof.
  intros g k hash.
  rewrite (isn_advances_with_clock hash g k 0 400000); subst g k hash; cbn; done || lia.
Defined.
