(* ===== verification/Buffer.v ===== *)
(** * Packet buffers

    Reasoning about code that fills a buffer with stores at increasing offsets and
    reads it back: one lemma per kind of store on a buffer split into the part already
    written and the rest, and the tactics that walk over such code.  [resize] is
    [Vec::resize]. *)

From stdpp Require Import base numbers list.
From Stdlib Require Import ZArith Lia.
From S2P Require Import Prelude State.

#[local] Open Scope nat_scope.

(** [v.resize(n, 0)]. *)
Definition resize (v : list Z) (n : nat) : list Z := take n v ++ replicate (n - length v) 0%Z.

Lemma length_resize v n : length (resize v n) = n.
Proof. unfold resize. rewrite length_app, length_take, length_replicate. lia. Qed.

(** [&l[a..]]. *)
Definition slice_from (l : list Z) (a : nat) : outcome (list Z) :=
  if a <=? length l then Done (drop a l) else Panic.

Lemma slice_from_done l a : a <= length l -> slice_from l a = Done (drop a l).
Proof.
  intros H. unfold slice_from. by rewrite (proj2 (Nat.leb_le _ _)).
Qed.

Lemma idx_drop l a k : idx (drop a l) k = idx l (a + k).
Proof. unfold idx. by rewrite lookup_drop. Qed.

(** ** Reads *)

(** Reads in range: rewrite every [idx] of the goal whose index is in range. *)
Ltac idx_total :=
  repeat match goal with
  | |- context [idx ?l ?i] =>
      let b := fresh "b" in let E := fresh "E" in
      destruct (idx_in_range l i) as (b & _ & E);
      [lia | rewrite E; clear E; cbn [obind]]
  end.

(** Reads the bytes at literal indices of a buffer whose header is explicit. *)
Ltac reads :=
  repeat match goal with
    | |- context [idx ?F ?k] =>
        let v := eval hnf in (idx F k) in
        lazymatch v with Done _ => change (idx F k) with v end;
        rewrite obind_Done; cbv beta
    end.

(** Runs the next operation of a sequence, whose result [E] gives. *)
Ltac run_step E := rewrite E; rewrite ?obind_Done; cbv beta iota.

(** ** Stores *)

(** A [blit] of [src] at [a] that the source guards by [!src.is_empty()]. *)
Lemma guarded_blit frame a src :
  a <= length frame ->
  (match src with [] => Done frame | _ :: _ => blit frame a (a + length src) src end)
  = blit frame a (a + length src) src.
Proof.
  intros Ha. destruct src; [|done]. unfold blit. cbn [length].
  rewrite Nat.add_0_r, Nat.leb_refl, Nat.sub_diag. cbn [Nat.eqb andb].
  rewrite (proj2 (Nat.leb_le _ _)) by done. cbn [app]. by rewrite take_drop.
Qed.

(** ** Sequential stores

    [write_frame] fills the buffer from left to right; [done_] is the part
    already written and [todo] the rest of the buffer. *)
Lemma blit_next done_ todo a b src :
  a = length done_ -> b = a + length src -> length src <= length todo ->
  blit (done_ ++ todo) a b src = Done ((done_ ++ src) ++ drop (length src) todo).
Proof.
  intros -> -> Hl. rewrite <- (take_drop (length src) todo) at 1.
  replace (length done_ + length src) with (length done_ + length (take (length src) todo))
    by (rewrite length_take; lia).
  rewrite blit_app_mid by (rewrite length_take; lia). by rewrite app_assoc.
Qed.

Lemma store_next done_ todo a v :
  a = length done_ -> 1 <= length todo ->
  store (done_ ++ todo) a v = Done ((done_ ++ [v]) ++ drop 1 todo).
Proof.
  intros -> Hl. destruct todo as [|x todo]; [cbn in Hl; lia|].
  unfold store. rewrite length_app. cbn [length drop].
  destruct (Nat.ltb_spec (length done_) (length done_ + S (length todo))); [|lia].
  rewrite insert_app_r_alt, Nat.sub_diag by lia. cbn. by rewrite <- app_assoc.
Qed.

(** One sequential store; the length of what is left is kept in the context. *)
Ltac shrink n t :=
  let H := fresh "Htodo" in
  assert (length (drop n t) = length t - n) as H by apply length_drop;
  match goal with E : length t = _ |- _ => rewrite E in H; clear E end;
  generalize dependent (drop n t); clear t;
  let t' := fresh "todo" in
  intros t' H; cbn [length mac_bytes octets be16 be32] in H.

Ltac next_store :=
  match goal with
  | |- context [blit (?d ++ ?t) ?a ?b ?s] =>
      rewrite (blit_next d t a b s) by first [reflexivity | cbn; lia];
      rewrite obind_Done; cbv beta; shrink (length s) t
  | |- context [store (?d ++ ?t) ?a ?v] =>
      rewrite (store_next d t a v) by first [reflexivity | cbn; lia];
      rewrite obind_Done; cbv beta; shrink 1 t
  end.

Lemma slice_mid l1 l2 l3 a b :
  a = length l1 -> b = a + length l2 -> slice (l1 ++ l2 ++ l3) a b = Done l2.
Proof. intros -> ->. apply slice_app_mid. Qed.

Lemma blit_mid l1 l2 l3 a b src :
  a = length l1 -> b = a + length l2 -> length src = length l2 ->
  blit (l1 ++ l2 ++ l3) a b src = Done (l1 ++ src ++ l3).
Proof. intros -> -> Hs. by apply blit_app_mid. Qed.

(** ** Packed fields *)

(** Fields that do not overlap: [|] is addition. *)
Lemma lor_shiftl_small a b n :
  (0 <= n)%Z -> (0 <= b < 2 ^ n)%Z -> Z.lor (Z.shiftl a n) b = (a * 2 ^ n + b)%Z.
Proof.
  intros Hn Hb. rewrite Z.shiftl_mul_pow2 by lia.
  rewrite <- Z.lxor_lor; [rewrite <- Z.add_nocarry_lxor; [done|] |];
    apply Z.bits_inj'; intros m Hm; rewrite Z.land_spec, Z.bits_0.
  all: destruct (Z.lt_ge_cases m n); [by rewrite Z.mul_pow2_bits_low by lia|].
  all: rewrite <- (Z.mod_small b (2 ^ n)), Z.mod_pow2_bits_high by lia; apply andb_false_r.
Qed.

Lemma land_low x n : (0 <= n)%Z -> Z.land x (Z.ones n) = (x mod 2 ^ n)%Z.
Proof. apply Z.land_ones. Qed.

Lemma shiftr_div x n : (0 <= n)%Z -> Z.shiftr x n = (x / 2 ^ n)%Z.
Proof. apply Z.shiftr_div_pow2. Qed.
