(* ===== verification/Checksum.v ===== *)
(** * Internet checksums

    [ipv4_checksum] and [udp_pseudo_header_checksum] of
    dpdk-stdlib-net/src/checksum.rs and [tcp_checksum] of
    dpdk-stdlib-tcp/src/codec.rs.  The specification is one's-complement
    arithmetic: [word_sum] is the unbounded sum of the big-endian 16-bit words,
    and a block whose checksum field holds the computed value sums to zero again,
    which is the test a receiver makes. *)

From stdpp Require Import base numbers list.
From Stdlib Require Import ZArith Lia.
From S2P Require Import Prelude.

(** The loop [for i in (0..len).step_by(2)]: the 16-bit big-endian words, the
    last one padded with a zero byte, added with [wrapping_add]. *)
Fixpoint add_words (sum : Z) (l : list Z) : Z :=
  match l with
  | a :: b :: r => add_words (wadd32 sum (Z.lor (Z.shiftl a 8) b)) r
  | [a] => wadd32 sum (Z.shiftl a 8)
  | [] => sum
  end.

(** [while sum >> 16 != 0 { sum = (sum & 0xFFFF) + (sum >> 16); }]. *)
Fixpoint fold_carry (fuel : nat) (sum : Z) : outcome Z :=
  match fuel with
  | O => OutOfFuel
  | S n =>
      if negb (Z.shiftr sum 16 =? 0)
      then fold_carry n (Z.land sum 65535 + Z.shiftr sum 16)
      else Done sum
  end.

(** Two rounds always clear the carries of a [u32]; the third call tests the
    loop condition. *)
Definition FOLD_FUEL : nat := 3.

(** [ipv4_checksum]. *)
Definition ipv4_checksum (header : list Z) : outcome Z :=
  let! sum := fold_carry FOLD_FUEL (add_words 0 header) in
  Done (u16 (Z.lnot (u16 sum))).

(** [udp_pseudo_header_checksum]: folded, not complemented. *)
Definition udp_pseudo_header_checksum (src_ip dst_ip : list Z) (udp_len : Z) : outcome Z :=
  let sum := add_words 0 src_ip in
  let sum := add_words sum dst_ip in
  let sum := wadd32 sum 17 in
  let sum := wadd32 sum udp_len in
  let! sum := fold_carry FOLD_FUEL sum in
  Done (u16 sum).

(** [tcp_checksum]. *)
Definition tcp_checksum (src_ip dst_ip tcp_segment : list Z) : outcome Z :=
  let tcp_len := u32 (zlen tcp_segment) in
  let sum := add_words 0 src_ip in
  let sum := add_words sum dst_ip in
  let sum := wadd32 sum 6 in
  let sum := wadd32 sum tcp_len in
  let sum := add_words sum tcp_segment in
  let! sum := fold_carry FOLD_FUEL sum in
  Done (u16 (Z.lnot (u16 sum))).

(** ** Specification: unbounded word sums *)
Fixpoint word_sum (l : list Z) : Z :=
  match l with
  | a :: b :: r => (a * 256 + b) + word_sum r
  | [a] => a * 256
  | [] => 0
  end.

(** Induction two bytes at a time. *)
Lemma pair_ind (P : list Z -> Prop) :
  P [] -> (forall a, P [a]) -> (forall a b r, P r -> P (a :: b :: r)) ->
  forall l, P l.
Proof.
  intros H0 H1 H2. fix IH 1. intros [|a [|b r]]; [done|done|].
  apply H2, IH.
Qed.

Lemma word_sum_bounds l :
  Forall is_u8 l -> 0 <= word_sum l <= 65535 * ((zlen l + 1) / 2).
Proof.
  induction l as [|a|a b r IH] using pair_ind; intros Hl; cbn [word_sum].
  - unfold zlen. cbn [length]. mod_lia.
  - inversion_clear Hl. unfold zlen, is_u8 in *. cbn [length]. mod_lia.
  - inversion_clear Hl as [|? ? Ha Hl']. inversion_clear Hl' as [|? ? Hb Hr].
    specialize (IH Hr). unfold is_u8, zlen in *. cbn [length].
    replace (Z.of_nat (S (S (length r))) + 1) with (Z.of_nat (length r) + 1 + 1 * 2) by lia.
    rewrite Z.div_add by lia. lia.
Qed.

Lemma add_words_sum l sum :
  Forall is_u8 l -> 0 <= sum -> sum + word_sum l < 4294967296 ->
  add_words sum l = sum + word_sum l.
Proof.
  revert sum. induction l as [|a|a b r IH] using pair_ind; intros sum Hl Hs Hb;
    cbn [add_words word_sum] in *.
  - lia.
  - rewrite Z.shiftl_mul_pow2 by lia. inversion_clear Hl. unfold is_u8 in *. wrap_lia.
  - inversion_clear Hl as [|? ? Ha Hl']. inversion_clear Hl' as [|? ? Hb' Hr].
    rewrite lor_shiftl8 by done.
    pose proof (word_sum_bounds r Hr) as Hw.
    replace (wadd32 sum (a * 256 + b)) with (sum + (a * 256 + b))
      by (unfold is_u8 in *; wrap_lia).
    rewrite IH; [lia|done|unfold is_u8 in *; lia|lia].
Qed.

Lemma word_sum_app_even l k n :
  length l = (2 * n)%nat -> word_sum (l ++ k) = word_sum l + word_sum k.
Proof.
  revert n. induction l as [|a|a b r IH] using pair_ind; intros n Hn; cbn in *.
  - lia.
  - lia.
  - rewrite (IH (n - 1)%nat); lia.
Qed.

Lemma word_sum_be16 c : is_u16 c -> word_sum (be16 c) = c.
Proof. unfold be16. cbn [word_sum]. wrap_lia. Qed.

(** The folded value: 16 bits, congruent modulo 2^16 - 1, zero only for zero. *)
Lemma fold_carry_spec s :
  is_u32 s ->
  exists r, fold_carry FOLD_FUEL s = Done r /\ 0 <= r <= 65535 /\
    r mod 65535 = s mod 65535 /\ (r = 0 <-> s = 0).
Proof.
  intros Hs. unfold FOLD_FUEL.
  assert (forall z, Z.shiftr z 16 = z / 65536) as Hshift
    by (intros z; rewrite Z.shiftr_div_pow2 by lia; done).
  assert (forall z, Z.land z 65535 = z mod 65536) as Hland
    by (intros z; change 65535 with (Z.ones 16); rewrite Z.land_ones by lia; done).
  cbn [fold_carry]. rewrite !Hshift, !Hland, ?Hshift, ?Hland.
  set (s1 := s mod 65536 + s / 65536).
  assert (0 <= s1 <= 131070 /\ (s1 = 0 <-> s = 0) /\ s1 mod 65535 = s mod 65535)
    as (Hs1 & Hz1 & Hm1) by (subst s1; wrap_lia).
  set (s2 := s1 mod 65536 + s1 / 65536).
  assert (0 <= s2 <= 65535 /\ (s2 = 0 <-> s1 = 0) /\ s2 mod 65535 = s1 mod 65535)
    as (Hs2 & Hz2 & Hm2) by (subst s2; wrap_lia).
  destruct (Z.eqb_spec (s / 65536) 0) as [E|_]; cbn [negb].
  { exists s. split_and!; [done|wrap_lia..|done|done]. }
  destruct (Z.eqb_spec (s1 / 65536) 0) as [E|_]; cbn [negb].
  { exists s1. split_and!; [done|wrap_lia..|done|done]. }
  destruct (Z.eqb_spec (s2 / 65536) 0) as [_|E]; cbn [negb]; [|exfalso; mod_lia].
  exists s2. split_and!; [done|lia..|congruence|tauto].
Qed.

(** Inserting the complement of the folded sum makes the block sum to zero. *)
Lemma complement_sums_to_zero s r c :
  0 <= s -> 0 <= r <= 65535 -> r mod 65535 = s mod 65535 -> (r = 0 <-> s = 0) ->
  c = u16 (Z.lnot (u16 r)) -> s + c < 4294967296 ->
  (let! r := fold_carry FOLD_FUEL (s + c) in Done (u16 (Z.lnot (u16 r)))) = Done 0.
Proof.
  intros Hs Hr Hm Hz Hc Hb.
  assert (c = 65535 - r) as Hc' by (subst c; unfold Z.lnot; wrap_lia).
  destruct (fold_carry_spec (s + c)) as (r' & -> & Hr' & Hm' & Hz'); [wrap_lia|].
  cbn [obind]. assert (r' = 65535) as ->; [|done].
  assert (r' <> 0) by (rewrite Hz'; lia).
  assert (r' mod 65535 = 0); [|mod_lia].
  rewrite Hm', Hc'. rewrite <- (Z_mod_plus_full (s + (65535 - r)) (-1) 65535).
  replace (s + (65535 - r) + -1 * 65535) with (s - r) by lia.
  rewrite Zminus_mod, Hm, Z.sub_diag. done.
Qed.

(** The checksum of a block with a zeroed checksum field, in terms of the sum. *)
Lemma ipv4_checksum_sum l :
  Forall is_u8 l -> zlen l <= 65536 ->
  exists r, ipv4_checksum l = Done (u16 (Z.lnot (u16 r))) /\ 0 <= r <= 65535 /\
    r mod 65535 = word_sum l mod 65535 /\ (r = 0 <-> word_sum l = 0).
Proof.
  intros Hl Hlen. pose proof (word_sum_bounds l Hl) as Hw.
  unfold ipv4_checksum. rewrite add_words_sum by (done || mod_lia).
  destruct (fold_carry_spec (0 + word_sum l)) as (r & -> & H); [unfold is_u32; mod_lia|].
  rewrite Z.add_0_l in H. eauto.
Qed.

Lemma u16_not_range z : is_u16 (u16 (Z.lnot z)).
Proof. auto with words. Qed.

(** The byte sum of the TCP pseudo-header. *)
Definition pseudo_sum (src_ip dst_ip : list Z) (len : Z) : Z :=
  word_sum src_ip + word_sum dst_ip + 6 + len.

Lemma tcp_checksum_sum src dst seg :
  Forall is_u8 src -> Forall is_u8 dst -> Forall is_u8 seg ->
  length src = 4%nat -> length dst = 4%nat -> zlen seg <= 65536 ->
  exists r, tcp_checksum src dst seg = Done (u16 (Z.lnot (u16 r))) /\ 0 <= r <= 65535 /\
    r mod 65535 = (pseudo_sum src dst (zlen seg) + word_sum seg) mod 65535 /\
    (r = 0 <-> pseudo_sum src dst (zlen seg) + word_sum seg = 0) /\
    tcp_checksum src dst seg =
      (let! r := fold_carry FOLD_FUEL (pseudo_sum src dst (zlen seg) + word_sum seg) in
       Done (u16 (Z.lnot (u16 r)))).
Proof.
  intros Hs Hd Hg Ls Ld Lg.
  pose proof (word_sum_bounds src Hs) as Bs. pose proof (word_sum_bounds dst Hd) as Bd.
  pose proof (word_sum_bounds seg Hg) as Bg. pose proof (zlen_nonneg seg) as Bl.
  assert (zlen src = 4) as Zs by (unfold zlen; lia).
  assert (zlen dst = 4) as Zd by (unfold zlen; lia).
  rewrite Zs in Bs. rewrite Zd in Bd. change ((4 + 1) / 2) with 2 in *.
  assert ((zlen seg + 1) / 2 <= 32768) as Bh by mod_lia.
  unfold tcp_checksum, pseudo_sum.
  rewrite (add_words_sum src) by (done || lia). rewrite Z.add_0_l.
  rewrite (add_words_sum dst) by (done || lia).
  rewrite (u32_small (zlen seg)) by (unfold is_u32; lia).
  set (P := word_sum src + word_sum dst) in *.
  replace (wadd32 P 6) with (P + 6) by wrap_lia.
  replace (wadd32 (P + 6) (zlen seg)) with (P + 6 + zlen seg) by (unfold wadd32, u32; mod_lia).
  rewrite (add_words_sum seg) by (done || lia).
  destruct (fold_carry_spec (P + 6 + zlen seg + word_sum seg)) as (r & Hr & H);
    [unfold is_u32; lia|].
  exists r. rewrite Hr. cbn [obind]. tauto.
Qed.

(** A receiver accepts the IPv4 header checksum: for any block of bytes
    with a 16-bit field at an even offset, storing in that field the checksum
    computed with the field zeroed makes [ipv4_checksum] of the block zero. *)
Lemma ipv4_checksum_verifies pre post n c :
  Forall is_u8 pre -> Forall is_u8 post -> length pre = (2 * n)%nat ->
  zlen pre + 2 + zlen post <= 65536 ->
  ipv4_checksum (pre ++ be16 0 ++ post) = Done c ->
  is_u16 c /\ ipv4_checksum (pre ++ be16 c ++ post) = Done 0.
Proof.
  intros Hpre Hpost Hn Hlen Hc.
  assert (forall c, word_sum (pre ++ be16 c ++ post)
                    = word_sum pre + (word_sum (be16 c) + word_sum post)) as Hsum.
  { intros c'. rewrite (word_sum_app_even _ _ n), (word_sum_app_even _ _ 1) by done. done. }
  assert (forall c, Forall is_u8 (pre ++ be16 c ++ post)) as Hall
    by (intros c'; auto using Forall_app_2, be16_bytes).
  assert (forall c, zlen (pre ++ be16 c ++ post) <= 65536) as Hl
    by (intros c'; rewrite !zlen_app; unfold be16, zlen in *; cbn; lia).
  destruct (ipv4_checksum_sum _ (Hall 0) (Hl 0)) as (r & Hr & Hb & Hm & Hz).
  rewrite Hc in Hr. injection Hr as ->.
  split; [apply u16_not_range|]. set (c := u16 (Z.lnot (u16 r))).
  assert (is_u16 c) as Hc16 by apply u16_not_range.
  pose proof (word_sum_bounds _ (Hall c)) as Bc. specialize (Hl c).
  unfold ipv4_checksum. rewrite add_words_sum by (done || mod_lia).
  assert (is_u16 0) as H0 by done.
  rewrite Hsum, (word_sum_be16 0) in Hm, Hz by done.
  rewrite Hsum, (word_sum_be16 c) in Bc by done.
  rewrite Hsum, (word_sum_be16 c) by done.
  replace (0 + (word_sum pre + (c + word_sum post)))
    with (word_sum pre + (0 + word_sum post) + c) by lia.
  pose proof (word_sum_bounds _ Hpre). pose proof (word_sum_bounds _ Hpost).
  apply complement_sums_to_zero with (r := r); try done; [lia|mod_lia].
Qed.

(** A receiver accepts the TCP checksum: storing in the checksum field of a
    segment (an even offset into it) the value [tcp_checksum] computes with the
    field zeroed makes [tcp_checksum] of the finished segment zero, pseudo-header
    included. *)
Lemma tcp_checksum_verifies src dst pre post n c :
  Forall is_u8 src -> Forall is_u8 dst -> length src = 4%nat -> length dst = 4%nat ->
  Forall is_u8 pre -> Forall is_u8 post -> length pre = (2 * n)%nat ->
  zlen pre + 2 + zlen post <= 65536 ->
  tcp_checksum src dst (pre ++ be16 0 ++ post) = Done c ->
  is_u16 c /\ tcp_checksum src dst (pre ++ be16 c ++ post) = Done 0.
Proof.
  intros Hs Hd Ls Ld Hpre Hpost Hn Hlen Hc.
  assert (forall c, word_sum (pre ++ be16 c ++ post)
                    = word_sum pre + (word_sum (be16 c) + word_sum post)) as Hsum.
  { intros c'. rewrite (word_sum_app_even _ _ n), (word_sum_app_even _ _ 1) by done. done. }
  assert (forall c, Forall is_u8 (pre ++ be16 c ++ post)) as Hall
    by (intros c'; auto using Forall_app_2, be16_bytes).
  assert (forall c, zlen (pre ++ be16 c ++ post) = zlen pre + 2 + zlen post) as Hl
    by (intros c'; rewrite !zlen_app; unfold be16, zlen in *; cbn; lia).
  destruct (tcp_checksum_sum src dst _ Hs Hd (Hall 0) Ls Ld) as (r & Hr & Hb & Hm & Hz & _);
    [rewrite Hl; lia|].
  rewrite Hc in Hr. injection Hr as ->.
  split; [apply u16_not_range|]. set (c := u16 (Z.lnot (u16 r))).
  assert (is_u16 c) as Hc16 by apply u16_not_range.
  destruct (tcp_checksum_sum src dst _ Hs Hd (Hall c) Ls Ld) as (r' & _ & _ & _ & _ & ->);
    [rewrite Hl; lia|].
  assert (is_u16 0) as H0 by done.
  rewrite Hl, Hsum, (word_sum_be16 0) in Hm, Hz by done.
  rewrite Hl, Hsum, (word_sum_be16 c) by done.
  set (P := pseudo_sum _ _ _) in *.
  replace (P + (word_sum pre + (c + word_sum post)))
    with (P + (word_sum pre + (0 + word_sum post)) + c) by lia.
  pose proof (word_sum_bounds _ Hpre). pose proof (word_sum_bounds _ Hpost).
  pose proof (word_sum_bounds _ Hs) as Bs. pose proof (word_sum_bounds _ Hd) as Bd.
  assert (zlen src = 4) as Zs by (unfold zlen; lia).
  assert (zlen dst = 4) as Zd by (unfold zlen; lia).
  pose proof (zlen_nonneg pre). pose proof (zlen_nonneg post).
  rewrite Zs in Bs. rewrite Zd in Bd. change ((4 + 1) / 2) with 2 in *.
  apply complement_sums_to_zero with (r := r); try done; unfold is_u16 in *; subst P;
    unfold pseudo_sum; mod_lia.
Qed.
