(* ===== verification/Codec.v ===== *)
(** * TCP codec (dpdk-stdlib-tcp/src/codec.rs)

    Flags, options, frame parameters, the frame writer shared by
    [build_tcp_frame] and [build_tcp_packet], and the parsers.  Every buffer
    access goes through the bounds-checked operations of the prelude, so a panic
    of the source is a [Panic] of the model; error messages keep the fixed part of
    the source's [format!] strings. *)

From stdpp Require Import base numbers list strings.
From Stdlib Require Import ZArith Lia.
From S2P Require Import Prelude Seq State Checksum.

#[local] Open Scope nat_scope.

(** ** Constants *)
Definition ETH_HEADER_LEN : nat := 14.
Definition IPV4_HEADER_LEN : nat := 20.
Definition TCP_HEADER_LEN : nat := 20.
Definition MIN_FRAME_LEN : nat := ETH_HEADER_LEN + IPV4_HEADER_LEN + TCP_HEADER_LEN.
Definition ETH_TYPE_IPV4 : Z := 2048.
Definition IP_PROTO_TCP : Z := 6.

(** ** Flags *)
Module TcpFlags.

Definition FIN : Z := 1.
Definition SYN : Z := 2.
Definition RST : Z := 4.
Definition PSH : Z := 8.
Definition ACK : Z := 16.
Definition URG : Z := 32.

(** [TcpFlags::contains]. *)
Definition contains (self flag : Z) : bool := (Z.land self flag =? flag)%Z.

(** [TcpFlags::union] and [impl BitOr]. *)
Definition union (self other : Z) : Z := Z.lor self other.

(** [TcpFlags::is_empty]. *)
Definition is_empty (self : Z) : bool := (self =? 0)%Z.

End TcpFlags.

(** ** Data *)
Record TcpOptions := MkTcpOptions {
  o_mss : option Z;
  o_window_scale : option Z;
  o_sack_permitted : bool;
  o_timestamps : option (Z * Z);
  o_sack_blocks : list (Z * Z) }.

#[global] Instance eta_TcpOptions : Eta TcpOptions := fun o =>
  MkTcpOptions (o_mss o) (o_window_scale o) (o_sack_permitted o) (o_timestamps o)
    (o_sack_blocks o).

(** [TcpOptions::default]. *)
Definition options_default : TcpOptions := MkTcpOptions None None false None [].

Record ParsedTcpSegment := MkSegment {
  seg_src : SocketAddr;
  seg_dst : SocketAddr;
  seg_seq : SeqNum.t;
  seg_ack : SeqNum.t;
  seg_flags : Z;
  seg_window : Z;
  seg_options : TcpOptions;
  seg_payload : list Z }.

Record TcpFrameParams := MkFrameParams {
  p_src_mac : Mac;
  p_dst_mac : Mac;
  p_src : SocketAddr;
  p_dst : SocketAddr;
  p_seq : SeqNum.t;
  p_ack : SeqNum.t;
  p_flags : Z;
  p_window : Z;
  p_options : TcpOptions;
  p_payload : list Z;
  p_ttl : Z }.

(** [compute_mss]. *)
Definition compute_mss (mtu ip_header_len : Z) : Z :=
  ssub (ssub mtu ip_header_len) (Z.of_nat TCP_HEADER_LEN).

(** [extract_v4_addr]. *)
Definition extract_v4_addr (addr : SocketAddr) : result (Ipv4Addr * Z) TcpError :=
  match addr with
  | V4 ip p => Ok (ip, p)
  | V6 _ _ _ _ => Err (InvalidPacket "IPv6 not supported in TCP codec (use build_tcp6_frame)")
  end.

(** ** Options *)

(** The padding loop [while buf.len() % 4 != 0 { buf.push(0); }]; at most three
    bytes are pushed. *)
Fixpoint pad_loop (fuel : nat) (buf : list Z) : list Z :=
  match fuel with
  | O => buf
  | S n => if (length buf mod 4 =? 0) then buf else pad_loop n (buf ++ [0%Z])
  end.

(** One SACK block as it is written. *)
Definition sack_block_bytes (b : Z * Z) : list Z := be32 (fst b) ++ be32 (snd b).

(** [serialize_options]. *)
Definition serialize_options (options : TcpOptions) (flags : Z) : list Z :=
  let is_syn := TcpFlags.contains flags TcpFlags.SYN in
  let buf := [] in
  let buf :=
    match o_mss options with
    | Some mss => buf ++ [2; 4]%Z ++ be16 mss
    | None => if is_syn then buf ++ [2; 4]%Z ++ be16 1460 else buf
    end in
  let buf :=
    match o_window_scale options with
    | Some ws => buf ++ [1; 3; 3; ws]%Z
    | None => if is_syn then buf ++ [1; 3; 3; 7]%Z else buf
    end in
  let buf :=
    if o_sack_permitted options || is_syn then buf ++ [1; 1; 4; 2]%Z else buf in
  let buf :=
    match o_timestamps options with
    | Some (tsval, tsecr) => buf ++ [1; 1; 8; 10]%Z ++ be32 tsval ++ be32 tsecr
    | None => if is_syn then buf ++ [1; 1; 8; 10]%Z ++ be32 0 ++ be32 0 else buf
    end in
  let buf :=
    match o_sack_blocks options with
    | [] => buf
    | blocks =>
        let block_len := 2 + length blocks * 8 in
        buf ++ [1; 1]%Z ++ [5%Z; u8 (Z.of_nat block_len)]
          ++ concat (sack_block_bytes <$> blocks)
    end in
  pad_loop 4 buf.

(** The inner loop [for b in 0..block_count] of the SACK option. *)
Fixpoint sack_loop (data : list Z) (i b todo : nat) (opts : TcpOptions)
    : outcome TcpOptions :=
  match todo with
  | O => Done opts
  | S n =>
      let off := i + 2 + b * 8 in
      if off + 8 <=? length data then
        let! d0 := idx data off in
        let! d1 := idx data (off + 1) in
        let! d2 := idx data (off + 2) in
        let! d3 := idx data (off + 3) in
        let! d4 := idx data (off + 4) in
        let! d5 := idx data (off + 5) in
        let! d6 := idx data (off + 6) in
        let! d7 := idx data (off + 7) in
        let left := of_be32 d0 d1 d2 d3 in
        let right := of_be32 d4 d5 d6 d7 in
        sack_loop data i (S b) n
          (opts <| o_sack_blocks := o_sack_blocks opts ++ [(left, right)] |>)
      else sack_loop data i (S b) n opts
  end.

(** The loop of [parse_options]; every iteration advances [i]. *)
Fixpoint options_loop (fuel : nat) (data : list Z) (i : nat) (opts : TcpOptions)
    : outcome TcpOptions :=
  match fuel with
  | O => OutOfFuel
  | S n =>
      if i <? length data then
        let! kind := idx data i in
        if (kind =? 0)%Z then Done opts
        else if (kind =? 1)%Z then options_loop n data (i + 1) opts
        else if (kind =? 2)%Z then
          if i + 4 <=? length data then
            let! len := idx data (i + 1) in
            if (len =? 4)%Z then
              let! a := idx data (i + 2) in
              let! b := idx data (i + 3) in
              options_loop n data (i + 4) (opts <| o_mss := Some (of_be16 a b) |>)
            else Done opts
          else Done opts
        else if (kind =? 3)%Z then
          if i + 3 <=? length data then
            let! len := idx data (i + 1) in
            if (len =? 3)%Z then
              let! ws := idx data (i + 2) in
              options_loop n data (i + 3) (opts <| o_window_scale := Some ws |>)
            else Done opts
          else Done opts
        else if (kind =? 4)%Z then
          if i + 2 <=? length data then
            let! len := idx data (i + 1) in
            if (len =? 2)%Z then
              options_loop n data (i + 2) (opts <| o_sack_permitted := true |>)
            else Done opts
          else Done opts
        else if (kind =? 5)%Z then
          if length data <? i + 2 then Done opts
          else
            let! len8 := idx data (i + 1) in
            let len := Z.to_nat len8 in
            if (length data <? i + len) || (len <? 2) then Done opts
            else
              let block_count := (len - 2) / 8 in
              let! opts := sack_loop data i 0 block_count opts in
              options_loop n data (i + len) opts
        else if (kind =? 8)%Z then
          if i + 10 <=? length data then
            let! len := idx data (i + 1) in
            if (len =? 10)%Z then
              let! d2 := idx data (i + 2) in
              let! d3 := idx data (i + 3) in
              let! d4 := idx data (i + 4) in
              let! d5 := idx data (i + 5) in
              let! d6 := idx data (i + 6) in
              let! d7 := idx data (i + 7) in
              let! d8 := idx data (i + 8) in
              let! d9 := idx data (i + 9) in
              options_loop n data (i + 10)
                (opts <| o_timestamps :=
                           Some (of_be32 d2 d3 d4 d5, of_be32 d6 d7 d8 d9) |>)
            else Done opts
          else Done opts
        else
          if length data <=? i + 1 then Done opts
          else
            let! len8 := idx data (i + 1) in
            let len := Z.to_nat len8 in
            if (len <? 2) || (length data <? i + len) then Done opts
            else options_loop n data (i + len) opts
      else Done opts
  end.

(** [parse_options]. *)
Definition parse_options (data : list Z) : outcome TcpOptions :=
  options_loop (S (length data)) data 0 options_default.

(** ** Frames *)

(** [write_frame]: every store of the source, in its order. *)
Definition write_frame (frame : list Z) (src_mac dst_mac : Mac)
    (src_ip dst_ip : Ipv4Addr) (src_port dst_port : Z) (seq ack : SeqNum.t)
    (flags window : Z) (options_bytes payload : list Z) (ttl ip_total_len : Z)
    (tcp_header_len : nat) : outcome (list Z) :=
  let src_ip_bytes := octets src_ip in
  let dst_ip_bytes := octets dst_ip in
  (* Ethernet header *)
  let! frame := blit frame 0 6 (mac_bytes dst_mac) in
  let! frame := blit frame 6 12 (mac_bytes src_mac) in
  let! frame := blit frame 12 14 (be16 ETH_TYPE_IPV4) in
  (* IPv4 header *)
  let ip := ETH_HEADER_LEN in
  let! frame := store frame ip 69 in
  let! frame := store frame (ip + 1) 0 in
  let! frame := blit frame (ip + 2) (ip + 4) (be16 ip_total_len) in
  let! frame := blit frame (ip + 4) (ip + 6) [0; 0]%Z in
  let! frame := blit frame (ip + 6) (ip + 8) [64; 0]%Z in
  let! frame := store frame (ip + 8) ttl in
  let! frame := store frame (ip + 9) IP_PROTO_TCP in
  let! frame := blit frame (ip + 10) (ip + 12) [0; 0]%Z in
  let! frame := blit frame (ip + 12) (ip + 16) src_ip_bytes in
  let! frame := blit frame (ip + 16) (ip + 20) dst_ip_bytes in
  let! header := slice frame ip (ip + IPV4_HEADER_LEN) in
  let! ip_cksum := ipv4_checksum header in
  let! frame := blit frame (ip + 10) (ip + 12) (be16 ip_cksum) in
  (* TCP header *)
  let tcp := ETH_HEADER_LEN + IPV4_HEADER_LEN in
  let! frame := blit frame tcp (tcp + 2) (be16 src_port) in
  let! frame := blit frame (tcp + 2) (tcp + 4) (be16 dst_port) in
  let! frame := blit frame (tcp + 4) (tcp + 8) (be32 seq) in
  let! frame := blit frame (tcp + 8) (tcp + 12) (be32 ack) in
  let data_offset := u8 (Z.of_nat (tcp_header_len / 4)) in
  let! frame := store frame (tcp + 12) (u8 (Z.shiftl data_offset 4)) in
  let! frame := store frame (tcp + 13) flags in
  let! frame := blit frame (tcp + 14) (tcp + 16) (be16 window) in
  let! frame := blit frame (tcp + 16) (tcp + 18) [0; 0]%Z in
  let! frame := blit frame (tcp + 18) (tcp + 20) [0; 0]%Z in
  (* Options *)
  let! frame :=
    match options_bytes with
    | [] => Done frame
    | _ => blit frame (tcp + TCP_HEADER_LEN)
             (tcp + TCP_HEADER_LEN + length options_bytes) options_bytes
    end in
  (* Payload *)
  let payload_start := tcp + tcp_header_len in
  let! frame :=
    match payload with
    | [] => Done frame
    | _ => blit frame payload_start (payload_start + length payload) payload
    end in
  (* TCP checksum *)
  let! tcp_segment := slice frame tcp (payload_start + length payload) in
  let! cksum := tcp_checksum src_ip_bytes dst_ip_bytes tcp_segment in
  blit frame (tcp + 16) (tcp + 18) (be16 cksum).

(** [build_tcp_frame]. *)
Definition build_tcp_frame (params : TcpFrameParams) : outcome (result (list Z) TcpError) :=
  match extract_v4_addr (p_src params), extract_v4_addr (p_dst params) with
  | Err e, _ => Done (Err e)
  | _, Err e => Done (Err e)
  | Ok (src_ip, src_port), Ok (dst_ip, dst_port) =>
      let options_bytes := serialize_options (p_options params) (p_flags params) in
      let tcp_header_len := TCP_HEADER_LEN + length options_bytes in
      let ip_total_len :=
        u16 (Z.of_nat (IPV4_HEADER_LEN + tcp_header_len + length (p_payload params))) in
      let total_frame_len :=
        ETH_HEADER_LEN + IPV4_HEADER_LEN + tcp_header_len + length (p_payload params) in
      let frame := replicate total_frame_len 0%Z in
      let! frame :=
        write_frame frame (p_src_mac params) (p_dst_mac params) src_ip dst_ip
          src_port dst_port (p_seq params) (p_ack params) (p_flags params)
          (p_window params) options_bytes (p_payload params) (p_ttl params)
          ip_total_len tcp_header_len in
      Done (Ok frame)
  end.

(** The fields of a DPDK mbuf the codec touches (dpdk/src/mbuf.rs): [buf_addr]
    is [None] for a null buffer pointer. *)
Record Mbuf := MkMbuf {
  buf_addr : option (list Z);
  buf_len : Z;
  data_offset : Z;
  data_len : Z;
  pkt_len : Z }.

#[global] Instance eta_Mbuf : Eta Mbuf := fun m =>
  MkMbuf (buf_addr m) (buf_len m) (data_offset m) (data_len m) (pkt_len m).

(** [Mbuf::data]: the [data_len] bytes at [data_offset]. *)
Definition mbuf_data (m : Mbuf) : option (list Z) :=
  match buf_addr m with
  | None => None
  | Some buf => Some (take (Z.to_nat (data_len m)) (drop (Z.to_nat (data_offset m)) buf))
  end.

(** A write through [Mbuf::data_mut]: the bytes at [data_offset] are replaced. *)
Definition mbuf_write (m : Mbuf) (bytes : list Z) : Mbuf :=
  match buf_addr m with
  | None => m
  | Some buf =>
      let off := Z.to_nat (data_offset m) in
      m <| buf_addr := Some (take off buf ++ bytes ++ drop (off + length bytes) buf) |>
  end.

(** [build_tcp_packet]. *)
Definition build_tcp_packet (mbuf : Mbuf) (params : TcpFrameParams)
    : outcome (Mbuf * result unit TcpError) :=
  match extract_v4_addr (p_src params), extract_v4_addr (p_dst params) with
  | Err e, _ => Done (mbuf, Err e)
  | _, Err e => Done (mbuf, Err e)
  | Ok (src_ip, src_port), Ok (dst_ip, dst_port) =>
      let options_bytes := serialize_options (p_options params) (p_flags params) in
      let tcp_header_len := TCP_HEADER_LEN + length options_bytes in
      let ip_total_len :=
        u16 (Z.of_nat (IPV4_HEADER_LEN + tcp_header_len + length (p_payload params))) in
      let total_frame_len :=
        ETH_HEADER_LEN + IPV4_HEADER_LEN + tcp_header_len + length (p_payload params) in
      let available_room := ssub (buf_len mbuf) (data_offset mbuf) in
      if Z.to_nat available_room <? total_frame_len
      then Done (mbuf, Err (InvalidPacket "mbuf buffer too small"))
      else
        let mbuf := mbuf <| data_len := available_room |> in
        match mbuf_data mbuf with
        | None => Done (mbuf, Err (InvalidPacket "mbuf has no data region"))
        | Some data =>
            let! frame := slice data 0 total_frame_len in
            let! frame :=
              write_frame frame (p_src_mac params) (p_dst_mac params) src_ip dst_ip
                src_port dst_port (p_seq params) (p_ack params) (p_flags params)
                (p_window params) options_bytes (p_payload params) (p_ttl params)
                ip_total_len tcp_header_len in
            let mbuf := mbuf_write mbuf frame in
            let mbuf := mbuf <| data_len := u16 (Z.of_nat total_frame_len) |> in
            let mbuf := mbuf <| pkt_len := u32 (Z.of_nat total_frame_len) |> in
            Done (mbuf, Ok tt)
        end
  end.

(** [parse_tcp_packet]. *)
Definition parse_tcp_packet (frame : list Z) : outcome (result ParsedTcpSegment TcpError) :=
  if length frame <? MIN_FRAME_LEN
  then Done (Err (InvalidPacket "frame too short"))
  else
    let! e0 := idx frame 12 in
    let! e1 := idx frame 13 in
    if negb (of_be16 e0 e1 =? ETH_TYPE_IPV4)%Z
    then Done (Err (InvalidPacket "not IPv4"))
    else
      let ip := ETH_HEADER_LEN in
      let! ver_ihl := idx frame ip in
      let ip_ihl := Z.to_nat (Z.land ver_ihl 15) in
      let ip_header_len := ip_ihl * 4 in
      let! proto := idx frame (ip + 9) in
      if negb (proto =? IP_PROTO_TCP)%Z
      then Done (Err (InvalidPacket "not TCP"))
      else
        let! s0 := idx frame (ip + 12) in
        let! s1 := idx frame (ip + 13) in
        let! s2 := idx frame (ip + 14) in
        let! s3 := idx frame (ip + 15) in
        let src_ip := MkIpv4 s0 s1 s2 s3 in
        let! d0 := idx frame (ip + 16) in
        let! d1 := idx frame (ip + 17) in
        let! d2 := idx frame (ip + 18) in
        let! d3 := idx frame (ip + 19) in
        let dst_ip := MkIpv4 d0 d1 d2 d3 in
        let tcp := ETH_HEADER_LEN + ip_header_len in
        if length frame <? tcp + TCP_HEADER_LEN
        then Done (Err (InvalidPacket "frame too short for TCP header"))
        else
          let! t0 := idx frame tcp in
          let! t1 := idx frame (tcp + 1) in
          let src_port := of_be16 t0 t1 in
          let! t2 := idx frame (tcp + 2) in
          let! t3 := idx frame (tcp + 3) in
          let dst_port := of_be16 t2 t3 in
          let! t4 := idx frame (tcp + 4) in
          let! t5 := idx frame (tcp + 5) in
          let! t6 := idx frame (tcp + 6) in
          let! t7 := idx frame (tcp + 7) in
          let seq := of_be32 t4 t5 t6 t7 in
          let! t8 := idx frame (tcp + 8) in
          let! t9 := idx frame (tcp + 9) in
          let! t10 := idx frame (tcp + 10) in
          let! t11 := idx frame (tcp + 11) in
          let ack := of_be32 t8 t9 t10 t11 in
          let! t12 := idx frame (tcp + 12) in
          let data_offset := Z.to_nat (Z.shiftr t12 4) in
          if data_offset <? 5
          then Done (Err (InvalidPacket "invalid data-offset"))
          else
            let tcp_header_len := data_offset * 4 in
            if length frame <? tcp + tcp_header_len
            then Done (Err (InvalidPacket "frame too short for TCP options"))
            else
              let! flags := idx frame (tcp + 13) in
              let! t14 := idx frame (tcp + 14) in
              let! t15 := idx frame (tcp + 15) in
              let window := of_be16 t14 t15 in
              let! opt_bytes := slice frame (tcp + TCP_HEADER_LEN) (tcp + tcp_header_len) in
              let! options := parse_options opt_bytes in
              let payload_start := tcp + tcp_header_len in
              let! l0 := idx frame (ip + 2) in
              let! l1 := idx frame (ip + 3) in
              let ip_total_len := Z.to_nat (of_be16 l0 l1) in
              let ip_end := Nat.min (ip + ip_total_len) (length frame) in
              let! payload :=
                if payload_start <? ip_end
                then slice frame payload_start ip_end
                else Done [] in
              Done (Ok (MkSegment (V4 src_ip src_port) (V4 dst_ip dst_port)
                          seq ack flags window options payload)).
