(* ===== verification/CodecOptions.v ===== *)
(** * TCP option codec: totality and round trip

    [parse_options] returns on every byte string, without panic, and inverts
    [serialize_options] on every option set that fits the header. *)

From stdpp Require Import base numbers list strings.
From Stdlib Require Import ZArith Lia.
From S2P Require Import Prelude Buffer Seq State Checksum Codec.

#[local] Open Scope nat_scope.

(** ** Totality *)

Lemma sack_loop_total data todo i b opts :
  exists o, sack_loop data i b todo opts = Done o.
Proof.
  revert b opts. induction todo as [|n IH]; intros b opts; cbn [sack_loop]; [eauto|].
  bcase; [|apply IH]. idx_total. apply IH.
Qed.

Lemma options_loop_total fuel data i opts :
  length data - i < fuel -> exists o, options_loop fuel data i opts = Done o.
Proof.
  revert i opts. induction fuel as [|n IH]; intros i opts Hf; [lia|].
  cbn [options_loop]. bcase; [|eauto]. idx_total.
  repeat (bcase; idx_total); eauto; try (apply IH; lia).
  destruct (sack_loop_total data ((Z.to_nat b0 - 2) / 8) i 0 opts) as [o ->].
  cbn [obind]. apply IH. lia.
Qed.

(** Enough fuel is as good as any. *)
Lemma options_loop_fuel f1 f2 data i opts :
  length data - i < f1 -> length data - i < f2 ->
  options_loop f1 data i opts = options_loop f2 data i opts.
Proof.
  revert f2 i opts. induction f1 as [|n IH]; intros [|m] i opts H1 H2; try lia.
  cbn [options_loop]. bcase; [|done]. idx_total.
  repeat (bcase; idx_total); try done; try (apply IH; lia).
  destruct (sack_loop_total data ((Z.to_nat b0 - 2) / 8) i 0 opts) as [o ->].
  cbn [obind]. apply IH; lia.
Qed.

(** ** Parsing a concatenation, one option at a time *)

(** The parser standing at the start of [rest], after [pre]. *)
Definition run (pre rest : list Z) (o : TcpOptions) : outcome TcpOptions :=
  options_loop (S (length rest)) (pre ++ rest) (length pre) o.

Lemma run_fuel f pre rest o :
  length rest < f -> options_loop f (pre ++ rest) (length pre) o = run pre rest o.
Proof. intros H. apply options_loop_fuel; rewrite length_app; lia. Qed.

Lemma run_advance f pre x r o i :
  i = length pre + length x -> length r < f ->
  options_loop f (pre ++ x ++ r) i o = run (pre ++ x) r o.
Proof.
  intros -> Hf. rewrite app_assoc, <- length_app. by apply run_fuel.
Qed.

(** ** One iteration of the loop, by kind of option *)

(** Unfold one iteration and follow the reads given by the hypotheses. *)
Ltac loop_step :=
  intros; cbn [options_loop];
  repeat match goal with
  | |- context [obind (Done _) _] => rewrite obind_Done; cbv beta
  | H : idx ?d ?i = Done _ |- context [idx ?d ?i] => rewrite H
  | |- context [if (?a <? ?b) then _ else _] => destruct (Nat.ltb_spec a b); [|lia]
  | |- context [if (?a <? ?b) then _ else _] => destruct (Nat.ltb_spec a b); [lia|]
  | |- context [if (?a <=? ?b) then _ else _] => destruct (Nat.leb_spec a b); [|lia]
  | |- context [if (?a <=? ?b) then _ else _] => destruct (Nat.leb_spec a b); [lia|]
  | |- context [if (?a =? ?b)%Z then _ else _] =>
      let r := eval vm_compute in (a =? b)%Z in
      match r with
      | true => change (a =? b)%Z with true
      | false => change (a =? b)%Z with false
      end; cbv iota
  end.

Section Iteration.

Context (n : nat) (data : list Z) (i : nat) (o : TcpOptions).

Lemma loop_end : length data <= i -> options_loop (S n) data i o = Done o.
Proof. loop_step. done. Qed.

Lemma loop_eol : idx data i = Done 0%Z -> i < length data ->
  options_loop (S n) data i o = Done o.
Proof. loop_step. done. Qed.

Lemma loop_nop : idx data i = Done 1%Z -> i < length data ->
  options_loop (S n) data i o = options_loop n data (i + 1) o.
Proof. loop_step. done. Qed.

Lemma loop_mss a b :
  i + 4 <= length data ->
  idx data i = Done 2%Z -> idx data (i + 1) = Done 4%Z ->
  idx data (i + 2) = Done a -> idx data (i + 3) = Done b ->
  options_loop (S n) data i o
  = options_loop n data (i + 4) (o <| o_mss := Some (of_be16 a b) |>).
Proof. loop_step. done. Qed.

Lemma loop_ws w :
  i + 3 <= length data ->
  idx data i = Done 3%Z -> idx data (i + 1) = Done 3%Z -> idx data (i + 2) = Done w ->
  options_loop (S n) data i o
  = options_loop n data (i + 3) (o <| o_window_scale := Some w |>).
Proof. loop_step. done. Qed.

Lemma loop_sack_permitted :
  i + 2 <= length data ->
  idx data i = Done 4%Z -> idx data (i + 1) = Done 2%Z ->
  options_loop (S n) data i o
  = options_loop n data (i + 2) (o <| o_sack_permitted := true |>).
Proof. loop_step. done. Qed.

Lemma loop_timestamps a b c d e f g h :
  i + 10 <= length data ->
  idx data i = Done 8%Z -> idx data (i + 1) = Done 10%Z ->
  idx data (i + 2) = Done a -> idx data (i + 3) = Done b ->
  idx data (i + 4) = Done c -> idx data (i + 5) = Done d ->
  idx data (i + 6) = Done e -> idx data (i + 7) = Done f ->
  idx data (i + 8) = Done g -> idx data (i + 9) = Done h ->
  options_loop (S n) data i o
  = options_loop n data (i + 10)
      (o <| o_timestamps := Some (of_be32 a b c d, of_be32 e f g h) |>).
Proof. loop_step. done. Qed.

Lemma loop_sack len o' :
  i + 2 <= length data -> i + Z.to_nat len <= length data -> 2 <= Z.to_nat len ->
  idx data i = Done 5%Z -> idx data (i + 1) = Done len ->
  sack_loop data i 0 ((Z.to_nat len - 2) / 8) o = Done o' ->
  options_loop (S n) data i o = options_loop n data (i + Z.to_nat len) o'.
Proof.
  intros H1 H2 H3 Hk Hl Hs. loop_step.
  replace ((length data <? i + Z.to_nat len) || (Z.to_nat len <? 2)) with false
    by (symmetry; apply orb_false_iff; rewrite !Nat.ltb_ge; lia).
  rewrite Hs, obind_Done. done.
Qed.

End Iteration.

(** ** Sequences of options *)

Lemma run_nil pre o : run pre [] o = Done o.
Proof. unfold run. rewrite app_nil_r. by apply loop_end. Qed.

(** Reads of the bytes that follow [pre]. *)
Ltac run_reads :=
  unfold run at 1; cbn [length];
  match goal with
  | |- context [options_loop (S ?f)] =>
      let n := fresh "n" in let H := fresh "Hn" in remember f as n eqn:H
  end.

Ltac run_idx :=
  first [ rewrite idx_app | rewrite idx_app_0 ];
  rewrite ?idx_cons_S, ?idx_cons_0; reflexivity.

Ltac run_len := rewrite length_app; cbn [length]; lia.

Lemma run_eol pre r o : run pre (0%Z :: r) o = Done o.
Proof. run_reads. apply loop_eol; [run_idx|run_len]. Qed.

Lemma run_nop pre r o : run pre (1%Z :: r) o = run (pre ++ [1%Z]) r o.
Proof.
  run_reads. rewrite loop_nop; [|run_idx|run_len].
  apply (run_advance _ pre [1%Z]); cbn [length]; lia.
Qed.

Lemma run_mss pre a b r o :
  run pre (2%Z :: 4%Z :: a :: b :: r) o
  = run (pre ++ [2%Z; 4%Z; a; b]) r (o <| o_mss := Some (of_be16 a b) |>).
Proof.
  run_reads. erewrite loop_mss; [|run_len|run_idx..].
  apply (run_advance _ pre [2%Z; 4%Z; a; b]); cbn [length]; lia.
Qed.

Lemma run_ws pre w r o :
  run pre (3%Z :: 3%Z :: w :: r) o
  = run (pre ++ [3%Z; 3%Z; w]) r (o <| o_window_scale := Some w |>).
Proof.
  run_reads. erewrite loop_ws; [|run_len|run_idx..].
  apply (run_advance _ pre [3%Z; 3%Z; w]); cbn [length]; lia.
Qed.

Lemma run_sack_permitted pre r o :
  run pre (4%Z :: 2%Z :: r) o
  = run (pre ++ [4%Z; 2%Z]) r (o <| o_sack_permitted := true |>).
Proof.
  run_reads. erewrite loop_sack_permitted; [|run_len|run_idx..].
  apply (run_advance _ pre [4%Z; 2%Z]); cbn [length]; lia.
Qed.

Lemma run_timestamps pre a b c d e f g h r o :
  run pre (8%Z :: 10%Z :: a :: b :: c :: d :: e :: f :: g :: h :: r) o
  = run (pre ++ [8%Z; 10%Z; a; b; c; d; e; f; g; h]) r
      (o <| o_timestamps := Some (of_be32 a b c d, of_be32 e f g h) |>).
Proof.
  run_reads. erewrite loop_timestamps; [|run_len|run_idx..].
  apply (run_advance _ pre [8%Z; 10%Z; a; b; c; d; e; f; g; h]); cbn [length]; lia.
Qed.

(** ** SACK blocks *)

Definition wf_block (b : Z * Z) : Prop := is_u32 (fst b) /\ is_u32 (snd b).

Definition block_bytes (bs : list (Z * Z)) : list Z := concat (sack_block_bytes <$> bs).

Lemma block_bytes_cons b bs : block_bytes (b :: bs) = sack_block_bytes b ++ block_bytes bs.
Proof. done. Qed.

Lemma length_block_bytes bs : length (block_bytes bs) = length bs * 8.
Proof.
  induction bs as [|b bs IH]; [done|].
  rewrite block_bytes_cons, length_app, IH. cbn. lia.
Qed.

Lemma add_sack_nil o : o <| o_sack_blocks := o_sack_blocks o ++ [] |> = o.
Proof. rewrite app_nil_r. by destruct o. Qed.

Lemma sack_loop_blocks pre done_ todo r b o :
  length done_ = 2 + b * 8 -> Forall wf_block todo ->
  sack_loop (pre ++ done_ ++ block_bytes todo ++ r) (length pre) b (length todo) o
  = Done (o <| o_sack_blocks := o_sack_blocks o ++ todo |>).
Proof.
  revert done_ b o. induction todo as [|[x y] todo IH]; intros done_ b o Hd Hw.
  { cbn [length sack_loop]. by rewrite add_sack_nil. }
  inversion_clear Hw as [|? ? [Hx Hy] Hw'].
  cbn [length sack_loop]. rewrite block_bytes_cons.
  destruct (Nat.leb_spec (length pre + 2 + b * 8 + 8)
    (length (pre ++ done_ ++ (sack_block_bytes (x, y) ++ block_bytes todo) ++ r)))
    as [_|Hlt]; [|rewrite !length_app in Hlt; cbn in Hlt; lia].
  rewrite (app_assoc pre done_).
  replace (length pre + 2 + b * 8) with (length (pre ++ done_))
    by (rewrite length_app; lia).
  unfold sack_block_bytes at 1 2 3 4 5 6 7 8. cbn [fst snd be32 app].
  rewrite idx_app_0, !idx_app.
  repeat (progress (rewrite ?idx_cons_S, ?idx_cons_0, ?obind_Done; cbv beta)).
  rewrite !of_be32_be32 by done.
  replace ((pre ++ done_) ++ _) with
    (pre ++ (done_ ++ sack_block_bytes (x, y)) ++ block_bytes todo ++ r)
    by (rewrite <- !app_assoc; done).
  rewrite IH; [|rewrite length_app; cbn; lia|done].
  rsimpl. rewrite <- app_assoc. cbn [app]. by destruct o.
Qed.

Lemma run_sack pre bs r o :
  Forall wf_block bs -> length bs <= 31 ->
  run pre (5%Z :: u8 (Z.of_nat (2 + length bs * 8)) :: block_bytes bs ++ r) o
  = run (pre ++ 5%Z :: u8 (Z.of_nat (2 + length bs * 8)) :: block_bytes bs) r
      (o <| o_sack_blocks := o_sack_blocks o ++ bs |>).
Proof.
  intros Hw Hl. rewrite u8_small by (unfold is_u8; lia).
  set (len := Z.of_nat _).
  assert (Z.to_nat len = 2 + length bs * 8) as Hlen by lia.
  run_reads. rewrite length_app, length_block_bytes in Hn.
  erewrite loop_sack with (len := len) (o' := o <| o_sack_blocks := _ |>).
  - apply (run_advance _ pre (5%Z :: len :: block_bytes bs));
      cbn [length]; rewrite ?length_block_bytes; lia.
  - run_len.
  - rewrite length_app. cbn [length]. rewrite length_app, length_block_bytes. lia.
  - lia.
  - run_idx.
  - run_idx.
  - replace ((Z.to_nat len - 2) / 8) with (length bs)
      by (rewrite Hlen, Nat.add_comm, Nat.add_sub, Nat.div_mul; lia).
    apply (sack_loop_blocks pre [5%Z; len] bs r 0 o); done.
Qed.

(** ** The serializer as a concatenation *)

Definition mss_part (o : TcpOptions) (syn : bool) : list Z :=
  match o_mss o with
  | Some mss => [2; 4]%Z ++ be16 mss
  | None => if syn then [2; 4]%Z ++ be16 1460 else []
  end.

Definition ws_part (o : TcpOptions) (syn : bool) : list Z :=
  match o_window_scale o with
  | Some ws => [1; 3; 3; ws]%Z
  | None => if syn then [1; 3; 3; 7]%Z else []
  end.

Definition sackperm_part (o : TcpOptions) (syn : bool) : list Z :=
  if o_sack_permitted o || syn then [1; 1; 4; 2]%Z else [].

Definition ts_part (o : TcpOptions) (syn : bool) : list Z :=
  match o_timestamps o with
  | Some (v, e) => [1; 1; 8; 10]%Z ++ be32 v ++ be32 e
  | None => if syn then [1; 1; 8; 10]%Z ++ be32 0 ++ be32 0 else []
  end.

Definition sack_part (o : TcpOptions) : list Z :=
  match o_sack_blocks o with
  | [] => []
  | bs => [1; 1; 5; u8 (Z.of_nat (2 + length bs * 8))]%Z ++ block_bytes bs
  end.

Lemma pad_loop_spec buf :
  exists k, k < 4 /\ pad_loop 4 buf = buf ++ replicate k 0%Z /\
    length (pad_loop 4 buf) mod 4 = 0.
Proof.
  assert (forall f b, length b mod 4 = 0 \/ 4 - length b mod 4 < f ->
    length (pad_loop f b) mod 4 = 0 /\
    exists k, k <= (if length b mod 4 =? 0 then 0 else 4 - length b mod 4) /\
      pad_loop f b = b ++ replicate k 0%Z) as Hgen.
  { induction f as [|f IH]; intros b Hb; cbn [pad_loop].
    - split; [lia|]. exists 0. split; [lia|by rewrite app_nil_r].
    - destruct (Nat.eqb_spec (length b mod 4) 0) as [E|E].
      + split; [done|]. exists 0. split; [lia|by rewrite app_nil_r].
      + assert (length (b ++ [0%Z]) mod 4 = (length b mod 4 + 1) mod 4) as Hm.
        { rewrite length_app. cbn [length]. rewrite Nat.Div0.add_mod. done. }
        assert (length b mod 4 < 4) by (apply Nat.mod_upper_bound; lia).
        destruct (IH (b ++ [0%Z])) as (H1 & k & Hk & Heq).
        { rewrite Hm. destruct (Nat.eq_dec (length b mod 4) 3) as [->|]; [by left|].
          right. rewrite Nat.mod_small by lia. lia. }
        split; [done|]. exists (S k). split.
        * rewrite Hm in Hk.
          destruct (Nat.eq_dec (length b mod 4) 3) as [E3|].
          { rewrite E3 in Hk |- *. cbn in Hk. lia. }
          rewrite Nat.mod_small in Hk by lia.
          destruct (Nat.eqb_spec (length b mod 4 + 1) 0); lia.
        * rewrite Heq, <- app_assoc. done. }
  destruct (Hgen 4 buf) as (H1 & k & Hk & Heq).
  { pose proof (Nat.mod_upper_bound (length buf) 4).
    destruct (Nat.eq_dec (length buf mod 4) 0); lia. }
  exists k. split_and!; [|done|done].
  destruct (Nat.eqb_spec (length buf mod 4) 0); [lia|].
  pose proof (Nat.mod_upper_bound (length buf) 4). lia.
Qed.

Lemma serialize_options_parts o flags :
  let syn := TcpFlags.contains flags TcpFlags.SYN in
  serialize_options o flags
  = pad_loop 4 (mss_part o syn ++ ws_part o syn ++ sackperm_part o syn
                  ++ ts_part o syn ++ sack_part o).
Proof.
  intros syn. unfold serialize_options, mss_part, ws_part, sackperm_part, ts_part, sack_part.
  fold syn. f_equal.
  destruct (o_mss o), (o_window_scale o), (o_sack_permitted o), (o_timestamps o) as [[]|],
    (o_sack_blocks o), syn; cbn [orb app]; rewrite <- ?app_assoc; cbn [app];
    rewrite ?app_nil_r; done.
Qed.

(** ** Round trip *)

(** Every option value has its machine width. *)
Definition wf_options (o : TcpOptions) : Prop :=
  (forall m, o_mss o = Some m -> is_u16 m) /\
  (forall w, o_window_scale o = Some w -> is_u8 w) /\
  (forall v e, o_timestamps o = Some (v, e) -> is_u32 v /\ is_u32 e) /\
  Forall wf_block (o_sack_blocks o).

(** What the peer reads: the given options, with the defaults the serializer
    adds to a SYN. *)
Definition effective_options (o : TcpOptions) (flags : Z) : TcpOptions :=
  let syn := TcpFlags.contains flags TcpFlags.SYN in
  MkTcpOptions
    (match o_mss o with Some m => Some m | None => if syn then Some 1460%Z else None end)
    (match o_window_scale o with
     | Some w => Some w | None => if syn then Some 7%Z else None end)
    (o_sack_permitted o || syn)
    (match o_timestamps o with
     | Some ts => Some ts | None => if syn then Some (0, 0)%Z else None end)
    (o_sack_blocks o).

(** A parser standing before [part ++ r] with accumulator [a] reaches [r] with
    accumulator [b]. *)
Definition reads (part : list Z) (a b : TcpOptions) : Prop :=
  forall pre r, exists pre', run pre (part ++ r) a = run pre' r b.

Lemma reads_app p q a b c : reads p a b -> reads q b c -> reads (p ++ q) a c.
Proof.
  intros Hp Hq pre r. rewrite <- app_assoc.
  destruct (Hp pre (q ++ r)) as [pre' ->]. apply Hq.
Qed.

Lemma reads_nil a : reads [] a a.
Proof. intros pre r. by exists pre. Qed.

Lemma reads_done part k a b :
  reads part a b -> run [] (part ++ replicate k 0%Z) a = Done b.
Proof.
  intros H. destruct (H [] (replicate k 0%Z)) as [pre' ->].
  destruct k; [apply run_nil|apply run_eol].
Qed.

(** Closes [reads] of a literal part with the single-option lemmas. *)
Ltac reads_literal :=
  intros pre r; cbn [app be16 be32];
  rewrite ?run_nop, ?run_mss, ?run_ws, ?run_sack_permitted, ?run_timestamps;
  rewrite ?of_be16_be16, ?of_be32_be32 by auto with words;
  eexists; reflexivity.

Lemma reads_parts o flags :
  let syn := TcpFlags.contains flags TcpFlags.SYN in
  wf_options o -> length (o_sack_blocks o) <= 31 ->
  reads (mss_part o syn ++ ws_part o syn ++ sackperm_part o syn
           ++ ts_part o syn ++ sack_part o) options_default (effective_options o flags).
Proof.
  intros syn (Hm & _ & Ht & Hb) Hl. unfold effective_options. fold syn.
  assert (forall m, is_u16 m -> forall a, reads ([2; 4]%Z ++ be16 m) a
    (a <| o_mss := Some m |>)) as Rm by (intros m Hm' a; reads_literal).
  assert (forall v e a, is_u32 v -> is_u32 e ->
    reads ([1; 1; 8; 10]%Z ++ be32 v ++ be32 e) a (a <| o_timestamps := Some (v, e) |>))
    as Rt by (intros v e a Hv He; reads_literal).
  apply reads_app with
    (b := MkTcpOptions (match o_mss o with
            Some m => Some m | None => if syn then Some 1460%Z else None end)
            None false None []).
  { unfold mss_part. destruct (o_mss o) as [m|]; [apply (Rm m); auto|].
    destruct syn; [apply (Rm 1460%Z); done|apply reads_nil]. }
  eapply reads_app with (b := MkTcpOptions _
            (match o_window_scale o with
             | Some w => Some w | None => if syn then Some 7%Z else None end)
            false None []).
  { unfold ws_part. destruct (o_window_scale o) as [w|]; [reads_literal|].
    destruct syn; [reads_literal|apply reads_nil]. }
  eapply reads_app with (b := MkTcpOptions _ _ (o_sack_permitted o || syn) None []).
  { unfold sackperm_part. destruct (o_sack_permitted o || syn);
      [reads_literal|apply reads_nil]. }
  eapply reads_app with (b := MkTcpOptions _ _ _
            (match o_timestamps o with
             | Some ts => Some ts | None => if syn then Some (0, 0)%Z else None end) []).
  { unfold ts_part. destruct (o_timestamps o) as [[v e]|] eqn:Ets.
    - destruct (Ht _ _ eq_refl). by apply (Rt v e).
    - destruct syn; [by apply (Rt 0 0)%Z|apply reads_nil]. }
  unfold sack_part. destruct (o_sack_blocks o) as [|b bs] eqn:Ebs; [apply reads_nil|].
  rewrite <- Ebs in *. clear Ebs b bs. intros pre r. cbn [app].
  rewrite !run_nop, run_sack by done. eexists; reflexivity.
Qed.

(** TCP options round trip: for every set of options whose values have their
    machine width and with at most 31 SACK blocks, [parse_options] of
    [serialize_options] returns exactly those options, completed with the defaults
    the serializer adds to a SYN. *)
Lemma options_roundtrip o flags :
  wf_options o -> length (o_sack_blocks o) <= 31 ->
  parse_options (serialize_options o flags) = Done (effective_options o flags).
Proof.
  intros Hw Hl. rewrite serialize_options_parts.
  destruct (pad_loop_spec (mss_part o (TcpFlags.contains flags TcpFlags.SYN)
    ++ ws_part o (TcpFlags.contains flags TcpFlags.SYN)
    ++ sackperm_part o (TcpFlags.contains flags TcpFlags.SYN)
    ++ ts_part o (TcpFlags.contains flags TcpFlags.SYN) ++ sack_part o)) as (k & _ & -> & _).
  apply (reads_done _ k _ _ (reads_parts o flags Hw Hl)).
Qed.

(** The serialized options always fill whole 32-bit words. *)
Lemma serialize_options_aligned o flags : length (serialize_options o flags) mod 4 = 0.
Proof.
  rewrite serialize_options_parts.
  edestruct pad_loop_spec as (k & _ & _ & H). apply H.
Qed.

Lemma serialize_options_default flags :
  TcpFlags.contains flags TcpFlags.SYN = false ->
  serialize_options options_default flags = [].
Proof. intros H. unfold serialize_options. rewrite H. done. Qed.

(** [parse_options] returns on every byte string: the loop terminates within
    one iteration per byte and no read is out of bounds. *)
Lemma parse_options_total data : exists o, parse_options data = Done o.
Proof. apply options_loop_total. lia. Qed.

(** SACK blocks take at least eight bytes each. *)
Lemma sack_blocks_fit o flags :
  4 + length (o_sack_blocks o) * 8 <= length (serialize_options o flags) \/
  o_sack_blocks o = [].
Proof.
  destruct (o_sack_blocks o) as [|b bs] eqn:E; [by right|]. left.
  rewrite serialize_options_parts.
  match goal with |- context [pad_loop 4 ?b] =>
    destruct (pad_loop_spec b) as (k & _ & -> & _) end.
  assert (length (sack_part o) = 4 + length (b :: bs) * 8) as Hs.
  { unfold sack_part. rewrite E. cbn iota. by rewrite length_app, length_block_bytes. }
  rewrite !length_app, Hs. lia.
Qed.
