(* ===== verification/CodecFrames.v ===== *)
(** * TCP frames: layout, totality and round trip

    The stores of [write_frame] produce the Ethernet, IPv4 and TCP headers in
    network order, whatever the buffer held before; [parse_tcp_packet] never
    panics and reads back what [build_tcp_frame] wrote. *)

From stdpp Require Import base numbers list strings.
From Stdlib Require Import ZArith Lia.
From S2P Require Import Prelude Buffer Seq State Checksum Codec CodecOptions.

#[local] Open Scope nat_scope.

(** ** Wire layout *)

Definition eth_header (dst src : Mac) : list Z :=
  mac_bytes dst ++ mac_bytes src ++ be16 ETH_TYPE_IPV4.

Definition ip_header (total ttl cksum : Z) (src dst : Ipv4Addr) : list Z :=
  [69; 0]%Z ++ be16 total ++ [0; 0; 64; 0; ttl; 6]%Z ++ be16 cksum
    ++ octets src ++ octets dst.

Definition tcp_header (sp dp seq ack off flags win cksum : Z) : list Z :=
  be16 sp ++ be16 dp ++ be32 seq ++ be32 ack ++ [off; flags] ++ be16 win
    ++ be16 cksum ++ [0; 0]%Z.

(** The data-offset byte of a header of [n] bytes. *)
Definition offset_byte (n : nat) : Z := u8 (Z.shiftl (u8 (Z.of_nat (n / 4))) 4).

Definition tcp_part (sp dp seq ack off flags win cksum : Z) (opts payload : list Z) : list Z :=
  tcp_header sp dp seq ack off flags win cksum ++ opts ++ payload.

(** The headers around their checksum fields. *)
Definition ip_pre (total ttl : Z) : list Z :=
  [69; 0]%Z ++ be16 total ++ [0; 0; 64; 0; ttl; 6]%Z.

Lemma ip_header_split total ttl cksum src dst :
  ip_header total ttl cksum src dst
  = ip_pre total ttl ++ be16 cksum ++ octets src ++ octets dst.
Proof. unfold ip_header, ip_pre. by rewrite <- !app_assoc. Qed.

Definition tcp_pre (sp dp seq ack off flags win : Z) : list Z :=
  be16 sp ++ be16 dp ++ be32 seq ++ be32 ack ++ [off; flags] ++ be16 win.

Lemma tcp_part_split sp dp seq ack off flags win cksum opts payload :
  tcp_part sp dp seq ack off flags win cksum opts payload
  = tcp_pre sp dp seq ack off flags win ++ be16 cksum ++ [0; 0]%Z ++ opts ++ payload.
Proof. unfold tcp_part, tcp_header, tcp_pre. by rewrite <- !app_assoc. Qed.

Section Layout.

Context (src_mac dst_mac : Mac) (src_ip dst_ip : Ipv4Addr) (sp dp seq ack flags win : Z)
  (opts payload : list Z) (ttl total : Z).

Let hlen := 20 + length opts.

(** The stores of [write_frame], up to the two checksums. *)
Lemma write_frame_layout frame :
  length frame = 54 + length opts + length payload ->
  write_frame frame src_mac dst_mac src_ip dst_ip sp dp seq ack flags win opts payload
    ttl total hlen
  = (let! c1 := ipv4_checksum (ip_header total ttl 0 src_ip dst_ip) in
     let! c2 := tcp_checksum (octets src_ip) (octets dst_ip)
                  (tcp_part sp dp seq ack (offset_byte hlen) flags win 0 opts payload) in
     Done (eth_header dst_mac src_mac ++ ip_header total ttl c1 src_ip dst_ip
             ++ tcp_part sp dp seq ack (offset_byte hlen) flags win c2 opts payload)).
Proof.
  intros Hlen. unfold write_frame, ETH_HEADER_LEN, IPV4_HEADER_LEN, TCP_HEADER_LEN.
  cbn [Nat.add]. fold (offset_byte hlen).
  change frame with ([] ++ frame).
  do 13 next_store.
  match goal with |- context [slice ?f 14 34] =>
    replace f with (eth_header dst_mac src_mac ++ ip_header total ttl 0 src_ip dst_ip ++ todo)
      by reflexivity end.
  rewrite slice_mid, obind_Done by reflexivity. cbv beta.
  destruct (ipv4_checksum _) as [c1| |]; [|done..]. rewrite !obind_Done. cbv beta.
  rewrite (ip_header_split total ttl 0), <- !app_assoc, (app_assoc (eth_header _ _)).
  rewrite blit_mid, obind_Done by reflexivity. cbv beta.
  match goal with |- context [blit ?f 34 36 _] =>
    replace f with ((eth_header dst_mac src_mac ++ ip_header total ttl c1 src_ip dst_ip)
      ++ todo) by reflexivity end.
  do 9 next_store.
  rewrite guarded_blit by (rewrite length_app; cbn; lia). next_store.
  rewrite guarded_blit by (rewrite length_app; cbn; lia).
  match goal with |- context [blit (?d ++ ?t) ?a ?b payload] =>
    rewrite (blit_next d t a b payload)
      by (subst hlen; rewrite ?length_app; cbn; lia) end.
  rewrite obind_Done. cbv beta.
  rewrite (drop_ge todo) by lia. rewrite app_nil_r.
  match goal with |- context [slice ?f 34 _] =>
    replace f with ((eth_header dst_mac src_mac ++ ip_header total ttl c1 src_ip dst_ip)
      ++ tcp_part sp dp seq ack (offset_byte hlen) flags win 0 opts payload ++ [])
      by (unfold tcp_part, tcp_header; rewrite app_nil_r; rewrite <- !app_assoc; reflexivity)
  end.
  rewrite slice_mid; [|reflexivity|subst hlen; unfold tcp_part; rewrite !length_app; cbn; lia].
  rewrite obind_Done. cbv beta.
  destruct (tcp_checksum _ _ _) as [c2| |]; [|done..]. rewrite !obind_Done. cbv beta.
  rewrite (tcp_part_split _ _ _ _ _ _ _ 0), <- !app_assoc.
  do 2 rewrite (app_assoc _ (ip_header _ _ _ _ _)).
  rewrite (app_assoc _ (tcp_pre _ _ _ _ _ _ _)).
  rewrite blit_mid by reflexivity.
  by rewrite tcp_part_split, <- !app_assoc, app_nil_r.
Qed.

End Layout.

(** ** The builders return *)

Lemma add_words_range l s : is_u32 s -> is_u32 (add_words s l).
Proof.
  revert s. induction l as [|a|a b r IH] using pair_ind; intros s Hs; cbn [add_words].
  - done.
  - unfold wadd32. auto with words.
  - apply IH. unfold wadd32. auto with words.
Qed.

Lemma ipv4_checksum_total l : exists c, ipv4_checksum l = Done c /\ is_u16 c.
Proof.
  unfold ipv4_checksum.
  destruct (fold_carry_spec (add_words 0 l)) as (r & -> & _); [by apply add_words_range|].
  eexists. split; [reflexivity|auto with words].
Qed.

Lemma tcp_checksum_total src dst seg : exists c, tcp_checksum src dst seg = Done c /\ is_u16 c.
Proof.
  unfold tcp_checksum.
  edestruct fold_carry_spec as (r & -> & _);
    [apply add_words_range; unfold wadd32; auto with words|].
  eexists. split; [reflexivity|auto with words].
Qed.

(** The frame a parameter set is written to, given the two checksums. *)
Definition frame_of (p : TcpFrameParams) (src_ip dst_ip : Ipv4Addr) (sp dp c1 c2 : Z)
    : list Z :=
  let opts := serialize_options (p_options p) (p_flags p) in
  let total := u16 (Z.of_nat (40 + length opts + length (p_payload p))) in
  eth_header (p_dst_mac p) (p_src_mac p) ++ ip_header total (p_ttl p) c1 src_ip dst_ip
    ++ tcp_part sp dp (p_seq p) (p_ack p) (offset_byte (20 + length opts)) (p_flags p)
         (p_window p) c2 opts (p_payload p).

(** Whatever the buffer holds, writing a frame into it gives [frame_of]. *)
Lemma write_frame_any p src_ip dst_ip sp dp frame :
  let opts := serialize_options (p_options p) (p_flags p) in
  length frame = 54 + length opts + length (p_payload p) ->
  exists c1 c2, is_u16 c1 /\ is_u16 c2 /\
    ipv4_checksum (ip_header (u16 (Z.of_nat (40 + length opts + length (p_payload p))))
                     (p_ttl p) 0 src_ip dst_ip) = Done c1 /\
    tcp_checksum (octets src_ip) (octets dst_ip)
      (tcp_part sp dp (p_seq p) (p_ack p) (offset_byte (20 + length opts)) (p_flags p)
         (p_window p) 0 opts (p_payload p)) = Done c2 /\
    write_frame frame (p_src_mac p) (p_dst_mac p) src_ip dst_ip sp dp (p_seq p) (p_ack p)
      (p_flags p) (p_window p) opts (p_payload p) (p_ttl p)
      (u16 (Z.of_nat (40 + length opts + length (p_payload p)))) (20 + length opts)
    = Done (frame_of p src_ip dst_ip sp dp c1 c2).
Proof.
  intros opts Hlen. rewrite write_frame_layout by done.
  edestruct ipv4_checksum_total as (c1 & E1 & H1).
  edestruct tcp_checksum_total as (c2 & E2 & H2).
  exists c1, c2. rewrite E1, obind_Done, E2, obind_Done. split_and!; done.
Qed.

Lemma build_tcp_frame_v4 p src_ip sp dst_ip dp :
  p_src p = V4 src_ip sp -> p_dst p = V4 dst_ip dp ->
  exists c1 c2, build_tcp_frame p = Done (Ok (frame_of p src_ip dst_ip sp dp c1 c2)) /\
    is_u16 c1 /\ is_u16 c2 /\
    (let opts := serialize_options (p_options p) (p_flags p) in
     ipv4_checksum (ip_header (u16 (Z.of_nat (40 + length opts + length (p_payload p))))
                      (p_ttl p) 0 src_ip dst_ip) = Done c1 /\
     tcp_checksum (octets src_ip) (octets dst_ip)
       (tcp_part sp dp (p_seq p) (p_ack p) (offset_byte (20 + length opts)) (p_flags p)
          (p_window p) 0 opts (p_payload p)) = Done c2).
Proof.
  intros Es Ed. unfold build_tcp_frame. rewrite Es, Ed. cbn [extract_v4_addr].
  destruct (write_frame_any p src_ip dst_ip sp dp (replicate
    (14 + 20 + (20 + length (serialize_options (p_options p) (p_flags p)))
     + length (p_payload p)) 0%Z)) as (c1 & c2 & H1 & H2 & E1 & E2 & Hw).
  { rewrite length_replicate. lia. }
  exists c1, c2. unfold ETH_HEADER_LEN, IPV4_HEADER_LEN, TCP_HEADER_LEN.
  change (20 + (20 + length (serialize_options (p_options p) (p_flags p))) +
    length (p_payload p)) with (40 + length (serialize_options (p_options p) (p_flags p)) +
    length (p_payload p)).
  rewrite Hw. split_and!; done.
Qed.

(** The builder never panics: for every parameter set [build_tcp_frame]
    returns, with a frame exactly when both addresses are IPv4 and with
    [InvalidPacket] otherwise. *)
Theorem build_tcp_frame_total p :
  (exists frame, build_tcp_frame p = Done (Ok frame) /\
     length frame = 54 + length (serialize_options (p_options p) (p_flags p))
                    + length (p_payload p) /\
     (exists a b c d, p_src p = V4 a b /\ p_dst p = V4 c d)) \/
  (exists e, build_tcp_frame p = Done (Err (InvalidPacket e)) /\
     ~ (exists a b c d, p_src p = V4 a b /\ p_dst p = V4 c d)).
Proof.
  destruct (p_src p) as [a b|] eqn:Es; [destruct (p_dst p) as [c d|] eqn:Ed|].
  - left. destruct (build_tcp_frame_v4 p a b c d Es Ed) as (c1 & c2 & -> & _).
    eexists. split_and!; [reflexivity| |eauto 10].
    unfold frame_of, tcp_part, tcp_header. rewrite !length_app. cbn. lia.
  - right. unfold build_tcp_frame. rewrite Es, Ed. cbn. eexists. split; [reflexivity|].
    intros (? & ? & ? & ? & ? & ?). congruence.
  - right. unfold build_tcp_frame. rewrite Es. cbn. eexists. split; [reflexivity|].
    intros (? & ? & ? & ? & ? & ?). congruence.
Qed.

(** The parser never panics: [parse_tcp_packet] returns a segment or an
    error for every byte string, however short or corrupt its length fields are. *)
Theorem parse_tcp_packet_total frame : exists r, parse_tcp_packet frame = Done r.
Proof.
  unfold parse_tcp_packet, MIN_FRAME_LEN, ETH_HEADER_LEN, IPV4_HEADER_LEN, TCP_HEADER_LEN.
  bcase; [eauto|]. idx_total. bcase; [|eauto]. idx_total. bcase; [|eauto].
  set (tcp := 14 + Z.to_nat (Z.land b1 15) * 4).
  bcase; [eauto|]. idx_total. bcase; [eauto|]. bcase; [eauto|]. idx_total.
  rewrite slice_in_range, obind_Done by lia. cbv beta.
  edestruct parse_options_total as [o ->]. rewrite obind_Done. cbv beta.
  bcase; [rewrite slice_in_range by lia|]; rewrite obind_Done; eauto.
Qed.

(** ** Round trip *)

Definition wf_mac (m : Mac) : Prop := Forall is_u8 (mac_bytes m).

(** Every field of the parameters has its machine width, the addresses are
    IPv4, and the frame fits: at most 40 bytes of options (the data-offset field)
    and 65535 bytes of IPv4 datagram (the total-length field). *)
Record wf_params (p : TcpFrameParams) : Prop := {
  wf_p_src : wf_v4 (p_src p);
  wf_p_dst : wf_v4 (p_dst p);
  wf_p_seq : is_u32 (p_seq p);
  wf_p_ack : is_u32 (p_ack p);
  wf_p_window : is_u16 (p_window p);
  wf_p_flags : is_u8 (p_flags p);
  wf_p_ttl : is_u8 (p_ttl p);
  wf_p_payload : Forall is_u8 (p_payload p);
  wf_p_options : wf_options (p_options p);
  wf_p_opts_len : length (serialize_options (p_options p) (p_flags p)) <= 40;
  wf_p_total :
    (40 + zlen (serialize_options (p_options p) (p_flags p)) + zlen (p_payload p)
     <= 65535)%Z }.

(** The segment the peer reads. *)
Definition segment_of (p : TcpFrameParams) : ParsedTcpSegment :=
  MkSegment (p_src p) (p_dst p) (p_seq p) (p_ack p) (p_flags p) (p_window p)
    (effective_options (p_options p) (p_flags p)) (p_payload p).

Lemma offset_byte_shift n :
  n <= 60 -> n mod 4 = 0 -> Z.to_nat (Z.shiftr (offset_byte n) 4) * 4 = n.
Proof.
  intros Hn Hm. unfold offset_byte.
  rewrite Z.shiftl_mul_pow2, Z.shiftr_div_pow2 by lia. change (2 ^ 4)%Z with 16%Z.
  assert (n / 4 <= 15 /\ n = 4 * (n / 4)) as [H1 H2].
  { pose proof (Nat.div_mod_eq n 4). split; lia. }
  rewrite (u8_small (Z.of_nat (n / 4))) by (unfold is_u8; lia).
  rewrite u8_small by (unfold is_u8; lia). rewrite Z.div_mul by lia. lia.
Qed.

Lemma ipv4_eta a : MkIpv4 (oct0 a) (oct1 a) (oct2 a) (oct3 a) = a.
Proof. by destruct a. Qed.

Section Parse.

Context (p : TcpFrameParams) (src_ip : Ipv4Addr) (sp : Z) (dst_ip : Ipv4Addr) (dp c1 c2 : Z)
  (pad : list Z).

Let opts := serialize_options (p_options p) (p_flags p).
Let F := frame_of p src_ip dst_ip sp dp c1 c2 ++ pad.

Lemma frame_split : F = firstn 54 F ++ opts ++ p_payload p ++ pad.
Proof. subst F. unfold frame_of, tcp_part. rewrite <- !app_assoc. reflexivity. Qed.

Lemma frame_split_len :
  length F = 54 + length opts + length (p_payload p) + length pad.
Proof.
  assert (length (firstn 54 F) = 54) as H54 by reflexivity.
  rewrite frame_split, !length_app, H54. lia.
Qed.

Lemma frame_options : slice F 54 (54 + length opts) = Done opts.
Proof. rewrite frame_split. by apply slice_mid. Qed.

Lemma frame_payload :
  slice F (54 + length opts) (54 + length opts + length (p_payload p)) = Done (p_payload p).
Proof.
  rewrite frame_split, app_assoc. apply slice_mid; [rewrite length_app|]; reflexivity.
Qed.

(** Parsing a frame laid out by the builder, with any bytes after it. *)
Lemma parse_frame_of :
  wf_params p -> p_src p = V4 src_ip sp -> p_dst p = V4 dst_ip dp ->
  parse_tcp_packet F = Done (Ok (segment_of p)).
Proof.
  intros [Hsrc Hdst Hseq Hack Hwin _ _ _ Hopt Hol Htot] Es Ed.
  rewrite Es in Hsrc. rewrite Ed in Hdst. destruct Hsrc as [_ Hsp], Hdst as [_ Hdp].
  assert (parse_options opts = Done (effective_options (p_options p) (p_flags p))) as Hpo.
  { apply options_roundtrip; [done|].
    destruct (sack_blocks_fit (p_options p) (p_flags p)) as [?| ->]; cbn; lia. }
  fold opts in Hol, Htot.
  assert (Z.to_nat (Z.shiftr (offset_byte (20 + length opts)) 4) * 4 = 20 + length opts) as Hoff.
  { apply offset_byte_shift; [lia|]. rewrite <- Nat.Div0.add_mod_idemp_r.
    unfold opts. by rewrite serialize_options_aligned. }
  unfold parse_tcp_packet, MIN_FRAME_LEN, ETH_HEADER_LEN, IPV4_HEADER_LEN, TCP_HEADER_LEN.
  rewrite (proj2 (Nat.ltb_ge _ _)) by (rewrite frame_split_len; lia). reads.
  match goal with |- context [negb ?c] => change (negb c) with false end.
  cbv iota zeta. reads.
  change (14 + Z.to_nat (Z.land 69 15) * 4) with 34. fold opts. rewrite Hoff.
  change (negb (6 =? IP_PROTO_TCP)%Z) with false. cbv iota.
  rewrite (proj2 (Nat.ltb_ge _ (34 + 20))), (proj2 (Nat.ltb_ge _ 5)),
    (proj2 (Nat.ltb_ge _ (34 + (20 + length opts)))) by (rewrite ?frame_split_len; lia).
  change (34 + (20 + length opts)) with (54 + length opts). change (34 + 20) with 54.
  rewrite frame_options, obind_Done. cbv beta. rewrite Hpo, obind_Done. cbv beta. reads.
  rewrite !of_be16_be16, !of_be32_be32 by auto with words. fold opts.
  unfold zlen in Htot. rewrite u16_small by (unfold is_u16; lia).
  rewrite Nat2Z.id, frame_split_len, Nat.min_l by lia.
  change (14 + (40 + ?a + ?b)) with (54 + a + b).
  unfold segment_of. rewrite Es, Ed, !ipv4_eta.
  bcase.
  - rewrite frame_payload, obind_Done. done.
  - rewrite obind_Done. destruct (p_payload p); [done|cbn in *; lia].
Qed.

End Parse.

(** C26: round trip, with the padding a NIC may leave after the datagram: what
    [build_tcp_frame] writes, [parse_tcp_packet] reads back as the same segment,
    with the options the handshake defaults to filled in. *)
Theorem frame_roundtrip p pad :
  wf_params p ->
  exists frame, build_tcp_frame p = Done (Ok frame) /\
    parse_tcp_packet (frame ++ pad) = Done (Ok (segment_of p)).
Proof.
  intros Hwf. pose proof (wf_p_src p Hwf) as Hs. pose proof (wf_p_dst p Hwf) as Hd.
  destruct (p_src p) as [a b|] eqn:Es; [|done]. destruct (p_dst p) as [c d|] eqn:Ed; [|done].
  destruct (build_tcp_frame_v4 p a b c d Es Ed) as (c1 & c2 & -> & _).
  eexists. split; [reflexivity|]. by apply parse_frame_of.
Qed.

(** A data segment with a SACK block, and a SYN. *)
Definition sample_params (flags : Z) (payload : list Z) : TcpFrameParams :=
  MkFrameParams (MkMac 2 0 0 0 0 1) (MkMac 2 0 0 0 0 2)
    (V4 (MkIpv4 10 0 0 1) 8080%Z) (V4 (MkIpv4 10 0 0 2) 443%Z) 4294967290%Z 305419896%Z flags 64240%Z
    (MkTcpOptions None None false None [(1, 2)]%Z) payload 64%Z.

Lemma sample_params_wf flags payload :
  is_u8 flags -> Forall is_u8 payload -> (zlen payload <= 1000)%Z ->
  wf_params (sample_params flags payload).
Proof.
  intros Hf Hb Hp. assert (length (serialize_options (p_options (sample_params flags payload))
    (p_flags (sample_params flags payload))) <= 40) as Hl.
  { cbn [sample_params p_options p_flags]. unfold serialize_options.
    destruct (TcpFlags.contains _ _); cbn; lia. }
  constructor; try done; try lia.
  - split_and!; [done..|]. apply Forall_singleton. split; unfold is_u32; cbn; lia.
  - unfold zlen in *. change (p_payload _) with payload. lia.
Qed.

Lemma frame_roundtrip_witness :
  wf_params (sample_params TcpFlags.SYN [1; 2; 3]%Z) /\
  exists frame, build_tcp_frame (sample_params TcpFlags.SYN [1; 2; 3]%Z) = Done (Ok frame) /\
    parse_tcp_packet (frame ++ [7; 7]%Z)
    = Done (Ok (segment_of (sample_params TcpFlags.SYN [1; 2; 3]%Z))).
Proof.
  assert (wf_params (sample_params TcpFlags.SYN [1; 2; 3]%Z)) as H
    by (apply sample_params_wf; by repeat constructor).
  split; [exact H|]. exact (frame_roundtrip _ [7; 7]%Z H).
Defined.

(** ** Checksums of a built frame *)

Lemma pad_bytes buf : Forall is_u8 buf -> Forall is_u8 (pad_loop 4 buf).
Proof.
  intros H. destruct (pad_loop_spec buf) as (k & _ & -> & _).
  apply Forall_app_2; [done|]. by apply Forall_replicate.
Qed.

Lemma serialize_options_bytes o flags :
  wf_options o -> Forall is_u8 (serialize_options o flags).
Proof.
  intros (_ & Hw & _). rewrite serialize_options_parts. apply pad_bytes.
  unfold mss_part, ws_part, sackperm_part, ts_part, sack_part.
  set (syn := TcpFlags.contains _ _).
  repeat apply Forall_app_2.
  - destruct (o_mss o), syn; bytes.
  - destruct (o_window_scale o) eqn:E, syn; bytes.
  - destruct (_ || _); bytes.
  - destruct (o_timestamps o) as [[]|], syn; bytes.
  - destruct (o_sack_blocks o) as [|b bs]; [done|]. apply Forall_app_2; [bytes|].
    unfold block_bytes. apply Forall_concat, Forall_fmap, Forall_true. intros [x y].
    apply Forall_app_2; apply be32_bytes.
Qed.

Lemma octets_bytes a : wf_ipv4 a -> Forall is_u8 (octets a).
Proof. intros (? & ? & ? & ?). unfold octets. auto. Qed.

Lemma ip_pre_bytes total ttl : is_u8 ttl -> Forall is_u8 (ip_pre total ttl).
Proof.
  intros Ht. unfold ip_pre. bytes.
Qed.

Lemma tcp_pre_bytes sp dp seq ack n flags win :
  is_u8 flags -> Forall is_u8 (tcp_pre sp dp seq ack (offset_byte n) flags win).
Proof.
  intros Hf. unfold tcp_pre. unfold offset_byte. bytes.
Qed.

(** A receiver that verifies checksums accepts every frame the builder
    makes: the IPv4 header of the frame sums to zero, and so does its TCP segment
    together with the pseudo-header. *)
Theorem frame_checksums_verify p src_ip sp dst_ip dp :
  wf_params p -> p_src p = V4 src_ip sp -> p_dst p = V4 dst_ip dp ->
  exists frame iph seg, build_tcp_frame p = Done (Ok frame) /\
    slice frame 14 34 = Done iph /\ slice frame 34 (length frame) = Done seg /\
    ipv4_checksum iph = Done 0%Z /\
    tcp_checksum (octets src_ip) (octets dst_ip) seg = Done 0%Z.
Proof.
  intros [Hsrc Hdst _ _ _ Hfl Httl Hpay Hopt Hol Htot] Es Ed.
  rewrite Es in Hsrc. rewrite Ed in Hdst. destruct Hsrc as [Hsi _], Hdst as [Hdi _].
  destruct (build_tcp_frame_v4 p src_ip sp dst_ip dp Es Ed)
    as (c1 & c2 & Hb & _ & _ & E1 & E2). cbv zeta in E1, E2. unfold frame_of in Hb.
  set (opts := serialize_options (p_options p) (p_flags p)) in *.
  set (total := u16 _) in *. set (off := offset_byte _) in *.
  rewrite ip_header_split in E1. rewrite tcp_part_split in E2.
  eexists _, (ip_header total (p_ttl p) c1 src_ip dst_ip), (tcp_part sp dp _ _ off _ _ c2 opts _).
  split_and!; [exact Hb|by apply slice_mid| | |].
  - rewrite app_assoc, <- (app_nil_r (tcp_part _ _ _ _ _ _ _ _ _ _)) at 1.
    apply slice_mid; [done|]. by rewrite !length_app.
  - rewrite ip_header_split. apply (ipv4_checksum_verifies _ _ 5 c1); auto using ip_pre_bytes.
    + apply Forall_app_2; by apply octets_bytes.
    + done.
  - rewrite tcp_part_split. unfold zlen in Htot. subst off.
    apply (tcp_checksum_verifies _ _ _ _ 8 c2); auto using octets_bytes, tcp_pre_bytes.
    + apply Forall_app_2; [bytes|].
      apply Forall_app_2; [by apply serialize_options_bytes|done].
    + clearbody opts. rewrite !zlen_app. unfold zlen. cbn. lia.
Qed.

Lemma frame_checksums_verify_witness :
  wf_params (sample_params TcpFlags.ACK [1; 2; 3]%Z) /\
  exists frame iph seg,
    build_tcp_frame (sample_params TcpFlags.ACK [1; 2; 3]%Z) = Done (Ok frame) /\
    slice frame 14 34 = Done iph /\ slice frame 34 (length frame) = Done seg /\
    ipv4_checksum iph = Done 0%Z /\
    tcp_checksum (octets (MkIpv4 10 0 0 1)) (octets (MkIpv4 10 0 0 2)) seg = Done 0%Z.
Proof.
  assert (wf_params (sample_params TcpFlags.ACK [1; 2; 3]%Z)) as H
    by (apply sample_params_wf; by repeat constructor).
  split; [exact H|]. exact (frame_checksums_verify _ _ 8080 _ 443 H eq_refl eq_refl).
Defined.

(** ** The mbuf builder *)

(** The frame written does not depend on what the buffer held. *)
Lemma write_frame_buffer f0 f src_mac dst_mac si di sp dp seq ack flags win opts payload ttl
    total :
  write_frame f0 src_mac dst_mac si di sp dp seq ack flags win opts payload ttl total
    (TCP_HEADER_LEN + length opts) = Done f ->
  length f0 = ETH_HEADER_LEN + IPV4_HEADER_LEN + (TCP_HEADER_LEN + length opts)
              + length payload ->
  length f = length f0 /\
  forall g, length g = length f0 ->
    write_frame g src_mac dst_mac si di sp dp seq ack flags win opts payload ttl total
      (TCP_HEADER_LEN + length opts) = Done f.
Proof.
  intros Hw Hl. change (length f0 = 54 + length opts + length payload) in Hl.
  unfold TCP_HEADER_LEN in *. pose proof Hw as Hw'. rewrite write_frame_layout in Hw by done.
  split; [|intros g Hg; rewrite write_frame_layout by lia; done].
  destruct (ipv4_checksum _) as [c1| |]; [|done..]. rewrite obind_Done in Hw. cbv beta in Hw.
  destruct (tcp_checksum _ _ _) as [c2| |]; [|done..]. rewrite obind_Done in Hw.
  match type of Hw with Done ?x = _ => assert (f = x) as -> by congruence end.
  unfold tcp_part, tcp_header. rewrite !length_app, Hl. cbn. lia.
Qed.

(** The invariant of an mbuf with a data buffer: [buf_len] is the size of the
    buffer, a [u16], and the data offset lies inside it. *)
Definition wf_mbuf (m : Mbuf) : Prop :=
  exists buf, buf_addr m = Some buf /\ zlen buf = buf_len m /\ is_u16 (buf_len m) /\
    (0 <= data_offset m <= buf_len m)%Z.

Lemma mbuf_write_data m buf bytes :
  buf_addr m = Some buf -> (0 <= data_offset m)%Z ->
  Z.to_nat (data_offset m) + length bytes <= length buf ->
  forall n k, Z.to_nat n = length bytes ->
  mbuf_data ((mbuf_write m bytes) <| data_len := n |> <| pkt_len := k |>) = Some bytes.
Proof.
  intros Hb Ho Hl n k Hn. unfold mbuf_data, mbuf_write. rewrite Hb. rsimpl. rewrite Hn.
  rewrite drop_app_length' by (rewrite length_take; lia).
  by rewrite take_app_length.
Qed.

(** The zero-copy builder agrees with the allocating one: on an mbuf with
    enough room, [build_tcp_packet] succeeds, leaves exactly the bytes
    [build_tcp_frame] returns as the mbuf's data whatever the buffer held, and
    keeps the bytes around them and the buffer size. *)
Theorem build_tcp_packet_agrees m p frame :
  wf_mbuf m -> build_tcp_frame p = Done (Ok frame) ->
  (zlen frame <= buf_len m - data_offset m)%Z ->
  exists m', build_tcp_packet m p = Done (m', Ok tt) /\
    mbuf_data m' = Some frame /\ pkt_len m' = zlen frame /\
    data_offset m' = data_offset m /\ wf_mbuf m'.
Proof.
  intros (buf & Hbuf & Hlen & Hu & Hoff) Hf Hroom.
  unfold build_tcp_frame in Hf. unfold build_tcp_packet.
  destruct (extract_v4_addr (p_src p)) as [[si sp]|] eqn:Es; [|done].
  destruct (extract_v4_addr (p_dst p)) as [[di dp]|] eqn:Ed; [|done].
  set (opts := serialize_options _ _) in *.
  set (tot := ETH_HEADER_LEN + IPV4_HEADER_LEN + (TCP_HEADER_LEN + length opts)
              + length (p_payload p)) in *.
  assert (length frame = tot /\ forall g, length g = tot -> write_frame g (p_src_mac p)
    (p_dst_mac p) si di sp dp (p_seq p) (p_ack p) (p_flags p) (p_window p) opts (p_payload p)
    (p_ttl p) (u16 (Z.of_nat (IPV4_HEADER_LEN + (TCP_HEADER_LEN + length opts)
    + length (p_payload p)))) (TCP_HEADER_LEN + length opts) = Done frame) as [Hft Hany].
  { destruct (write_frame _ _ _ _ _ _ _ _ _ _ _ _ _ _ _ _) as [f| |] eqn:E; [|done..].
    injection Hf as ->. apply write_frame_buffer in E; rewrite length_replicate in *; done. }
  unfold zlen in *. assert (Z.to_nat (buf_len m - data_offset m) >= tot) as Hr by lia.
  unfold ssub. rewrite Z.max_r by lia.
  rewrite (proj2 (Nat.ltb_ge _ _)) by lia.
  unfold mbuf_data at 1. rsimpl. rewrite Hbuf.
  rewrite slice_in_range by (rewrite length_take, length_drop; lia). rewrite obind_Done.
  rewrite Hany by (rewrite !length_take, length_drop, length_take, length_drop; lia). rewrite obind_Done.
  rewrite <- Hft, u16_small, u32_small by (unfold is_u16, is_u32 in *; lia).
  eexists. split_and!; [reflexivity|..].
  - eapply mbuf_write_data; rsimpl; [exact Hbuf|lia..].
  - done.
  - unfold mbuf_write. rsimpl. rewrite Hbuf. done.
  - unfold wf_mbuf, mbuf_write. rsimpl. rewrite Hbuf. rsimpl. eexists. split_and!; try done; try lia.
    unfold zlen. rewrite !length_app, length_take, length_drop. lia.
Qed.

Definition sample_frame : list Z :=
  Eval vm_compute in
    match build_tcp_frame (sample_params TcpFlags.ACK [1; 2; 3]%Z) with
    | Done (Ok f) => f
    | _ => []
    end.

Lemma build_tcp_packet_agrees_witness :
  let m := MkMbuf (Some (replicate 200 255%Z)) 200 64 0 0 in
  let p := sample_params TcpFlags.ACK [1; 2; 3]%Z in
  build_tcp_frame p = Done (Ok sample_frame) /\
  exists m', build_tcp_packet m p = Done (m', Ok tt) /\
    mbuf_data m' = Some sample_frame /\ pkt_len m' = zlen sample_frame /\
    data_offset m' = data_offset m /\ wf_mbuf m'.
Proof.
  intros m p. assert (build_tcp_frame p = Done (Ok sample_frame)) as E by (vm_compute; reflexivity).
  split; [exact E|]. apply (build_tcp_packet_agrees m p sample_frame); [|exact E|done].
  exists (replicate 200 255%Z). split_and!; [reflexivity|reflexivity|..]; unfold is_u16; cbn; lia.
Defined.
