(* ===== verification/RingConc.v ===== *)
(** * The byte ring with a concurrent producer and consumer

    One thread runs [SpscByteRing::write], the other [SpscByteRing::read], in
    any interleaving of their loads, byte copies and offset stores.  The acquire
    and release orderings of the source make the two offsets the only shared
    locations that matter; a step of the relation is one atomic access or the copy
    of one byte.  [sent] and [rcvd] are ghost logs of the bytes of all completed
    writes and reads. *)

From stdpp Require Import base numbers list.
From Stdlib Require Import ZArith Lia Relations.
From S2P Require Import Prelude Ring.

Import SpscByteRing.

Module Concurrent.

(** The producer inside [write]: its loaded [head], the data, the count [n] it
    committed to and the [k] bytes already copied. *)
Inductive producer : Type :=
| PIdle
| PCopy (head : Z) (data : list Z) (n : Z) (k : nat).

(** The consumer inside [read]: its loaded [tail], the count and the bytes
    copied so far. *)
Inductive consumer : Type :=
| CIdle
| CCopy (tail : Z) (n : Z) (acc : list Z).

Record sys := MkSys {
  ring : t;
  prod : producer;
  cons_ : consumer;
  sent : list Z;
  rcvd : list Z }.

#[global] Instance eta_sys : Eta sys := fun s =>
  MkSys (ring s) (prod s) (cons_ s) (sent s) (rcvd s).

(** Index of byte [k] of a copy of [n] bytes that starts at offset [off]: in the
    first chunk up to the end of the buffer, then from its beginning. *)
Definition chunk_index (r : t) (off n : Z) (k : nat) : nat :=
  let start := Z.land off (capacity r - 1) in
  let first_chunk := Z.min n (capacity r - start) in
  Z.to_nat (if Z.of_nat k <? first_chunk then start + Z.of_nat k
            else Z.of_nat k - first_chunk).

Inductive step : sys -> sys -> Prop :=
| step_write_begin s data free n :
    prod s = PIdle ->
    free = capacity (ring s) - wsub64 (head (ring s)) (tail (ring s)) ->
    n = Z.min (zlen data) free -> n <> 0 ->
    step s (s <| prod := PCopy (head (ring s)) data n 0 |>)
| step_write_byte s h data n k b :
    prod s = PCopy h data n k -> Z.of_nat k < n -> data !! k = Some b ->
    step s (s <| ring := (ring s) <| buf :=
                           <[chunk_index (ring s) h n k := b]> (buf (ring s)) |> |>
              <| prod := PCopy h data n (S k) |>)
| step_write_end s h data n k :
    prod s = PCopy h data n k -> Z.of_nat k = n ->
    step s (s <| ring := (ring s) <| head := wadd64 h n |> |>
              <| prod := PIdle |>
              <| sent := sent s ++ take (Z.to_nat n) data |>)
| step_read_begin s len n :
    cons_ s = CIdle -> 0 <= len ->
    n = Z.min len (wsub64 (head (ring s)) (tail (ring s))) -> n <> 0 ->
    step s (s <| cons_ := CCopy (tail (ring s)) n [] |>)
| step_read_byte s tl n acc b :
    cons_ s = CCopy tl n acc -> zlen acc < n ->
    buf (ring s) !! chunk_index (ring s) tl n (length acc) = Some b ->
    step s (s <| cons_ := CCopy tl n (acc ++ [b]) |>)
| step_read_end s tl n acc :
    cons_ s = CCopy tl n acc -> zlen acc = n ->
    step s (s <| ring := (ring s) <| tail := wadd64 tl n |> |>
              <| cons_ := CIdle |>
              <| rcvd := rcvd s ++ acc |>).

Definition init (cap : Z) : sys := MkSys (new cap) PIdle CIdle [] [].

Definition reachable (cap : Z) (s : sys) : Prop :=
  clos_refl_trans_1n sys step (init cap) s.

(** ** Invariant *)

(** Unbounded positions: [zlen (sent s)] is where the producer stands and
    [zlen (rcvd s)] where the consumer stands. *)
Definition prod_inv (s : sys) : Prop :=
  match prod s with
  | PIdle => True
  | PCopy h data n k =>
      h = head (ring s) /\ Z.of_nat k <= n <= zlen data /\
      zlen (sent s) + n <= zlen (rcvd s) + capacity (ring s) /\
      forall i : nat, (i < k)%nat ->
        cell (ring s) (zlen (sent s) + Z.of_nat i) = data !!! i
  end.

Definition cons_inv (s : sys) : Prop :=
  match cons_ s with
  | CIdle => True
  | CCopy tl n acc =>
      tl = tail (ring s) /\ zlen acc <= n /\ zlen (rcvd s) + n <= zlen (sent s) /\
      acc = take (length acc) (drop (length (rcvd s)) (sent s))
  end.

Record inv (s : sys) : Prop := {
  inv_capacity : exists k, 0 <= k < 64 /\ capacity (ring s) = 2 ^ k;
  inv_buf : zlen (buf (ring s)) = capacity (ring s);
  inv_head : head (ring s) = u64 (zlen (sent s));
  inv_tail : tail (ring s) = u64 (zlen (rcvd s));
  inv_used : 0 <= zlen (sent s) - zlen (rcvd s) <= capacity (ring s);
  inv_cells : forall i : nat, zlen (rcvd s) <= Z.of_nat i < zlen (sent s) ->
    cell (ring s) (Z.of_nat i) = sent s !!! i;
  inv_prefix : rcvd s = take (length (rcvd s)) (sent s);
  inv_prod : prod_inv s;
  inv_cons : cons_inv s }.

Lemma inv_wf s : inv s -> wf (ring s).
Proof.
  intros H. pose proof (inv_used s H) as Hu. pose proof (zlen_nonneg (rcvd s)).
  destruct (inv_capacity s H) as (k & Hk & Hc).
  assert (capacity (ring s) <= 2 ^ 63) by (rewrite Hc; apply Z.pow_le_mono_r; lia).
  constructor; [by apply H..| | |]; rewrite ?(inv_head s H), ?(inv_tail s H).
  - apply u64_range.
  - apply u64_range.
  - wrap_lia.
Qed.

Lemma inv_available s : inv s -> available_read (ring s) = zlen (sent s) - zlen (rcvd s).
Proof.
  intros H. pose proof (inv_used s H) as Hu. destruct (capacity_pos _ (inv_wf s H)) as [_ Hc].
  unfold available_read. rewrite (inv_head s H), (inv_tail s H). wrap_lia.
Qed.

(** The index of a copied byte is the cell of its stream position. *)
Lemma chunk_index_cell r off n k :
  wf r -> 0 <= n <= capacity r -> Z.of_nat k < n ->
  chunk_index r off n k = Z.to_nat ((off + Z.of_nat k) mod capacity r).
Proof.
  intros Hwf Hn Hk. destruct (capacity_pos r Hwf) as [Hp _].
  unfold chunk_index. rewrite land_capacity by done. f_equal.
  pose proof (Z.mod_pos_bound off (capacity r) Hp).
  rewrite <- Zplus_mod_idemp_l. set (start := off mod capacity r) in *.
  bcase; [symmetry; apply Z.mod_small; lia|].
  replace (start + Z.of_nat k)
    with (Z.of_nat k - Z.min n (capacity r - start) + 1 * capacity r) by lia.
  rewrite Z_mod_plus_full, Z.mod_small; lia.
Qed.

(** Cells less than [capacity] apart are distinct. *)
Lemma cell_insert r x y b :
  wf r -> x - capacity r < y < x + capacity r ->
  cell (r <| buf := <[Z.to_nat (x mod capacity r) := b]> (buf r) |>) y
  = if y =? x then b else cell r y.
Proof.
  intros Hwf Hxy. destruct (capacity_pos r Hwf) as [Hp _]. unfold cell. rsimpl.
  pose proof (Z.mod_pos_bound x _ Hp). pose proof (Z.mod_pos_bound y _ Hp).
  pose proof (wf_buf r Hwf) as Hb. unfold zlen in Hb.
  bcase.
  - subst y. apply list_lookup_total_insert_eq. lia.
  - apply list_lookup_total_insert_ne. intros E.
    assert (x mod capacity r = y mod capacity r) as E2 by lia.
    assert ((x - y) mod capacity r = 0) as E3.
    { rewrite Zminus_mod, E2, Z.sub_diag. done. }
    apply Z.mod_divide in E3; [|lia]. destruct E3 as [q Hq].
    assert (q = 0) by nia. lia.
Qed.

Lemma inv_init cap : cap <= 2 ^ 63 -> inv (init cap).
Proof.
  intros Hc. destruct (new_spec cap Hc) as (Hwf & _). destruct (capacity_pos _ Hwf).
  constructor; unfold prod_inv, cons_inv; cbn [init ring prod cons_ sent rcvd]; try done;
    try apply Hwf; rewrite ?zlen_nil; lia.
Qed.

Section Preservation.

Context (s : sys) (H : inv s).

Let Hwf := inv_wf s H.

Lemma cell_written x b y :
  zlen (rcvd s) <= y < x -> x < zlen (rcvd s) + capacity (ring s) ->
  cell ((ring s) <| buf := <[Z.to_nat (x mod capacity (ring s)) := b]> (buf (ring s)) |>) y
  = cell (ring s) y.
Proof. intros Hy Hx. rewrite cell_insert by (done || lia). bcase; [lia|done]. Qed.

Lemma inv_write_begin data n :
  prod s = PIdle ->
  n = Z.min (zlen data) (capacity (ring s) - available_read (ring s)) ->
  inv (s <| prod := PCopy (head (ring s)) data n 0 |>).
Proof.
  intros Hp Hn. constructor; rsimpl; try apply H. unfold prod_inv. rsimpl.
  rewrite inv_available in Hn by done. pose proof (zlen_nonneg data).
  pose proof (inv_used s H). split_and!; (done || lia).
Qed.

Lemma inv_write_byte h data n k b :
  prod s = PCopy h data n k -> Z.of_nat k < n -> data !! k = Some b ->
  inv (s <| ring := (ring s) <| buf :=
                      <[chunk_index (ring s) h n k := b]> (buf (ring s)) |> |>
         <| prod := PCopy h data n (S k) |>).
Proof.
  intros Hp Hk Hb. pose proof (inv_prod s H) as Hi. unfold prod_inv in Hi. rewrite Hp in Hi.
  destruct Hi as (-> & Hn & Hroom & Hc). pose proof (inv_used s H) as Hu.
  rewrite chunk_index_cell by (done || lia).
  replace ((head (ring s) + Z.of_nat k) mod capacity (ring s))
    with ((zlen (sent s) + Z.of_nat k) mod capacity (ring s)).
  2: { rewrite (inv_head s H), <- Zplus_mod_idemp_l, <- (wrap_capacity _ Hwf (zlen (sent s))).
       by rewrite Zplus_mod_idemp_l. }
  constructor; rsimpl; try apply H.
  - unfold zlen. rewrite length_insert. apply H.
  - intros i Hi. rewrite cell_written by lia. by apply H.
  - unfold prod_inv. rsimpl. split_and!; try done; try lia.
    intros i Hi. destruct (Nat.eq_dec i k) as [->|].
    + rewrite cell_insert, Z.eqb_refl by (done || destruct (capacity_pos _ Hwf); lia).
      symmetry. by apply list_lookup_total_correct.
    + rewrite cell_written by lia. apply Hc. lia.
Qed.

Lemma inv_write_end h data n k :
  prod s = PCopy h data n k -> Z.of_nat k = n ->
  inv (s <| ring := (ring s) <| head := wadd64 h n |> |>
         <| prod := PIdle |>
         <| sent := sent s ++ take (Z.to_nat n) data |>).
Proof.
  intros Hp Hk. pose proof (inv_prod s H) as Hi. unfold prod_inv in Hi. rewrite Hp in Hi.
  destruct Hi as (-> & Hn & Hroom & Hc). pose proof (inv_used s H) as Hu.
  assert (zlen (take (Z.to_nat n) data) = n) as Hl.
  { unfold zlen in *. rewrite length_take. lia. }
  assert (length (rcvd s) <= length (sent s))%nat by (unfold zlen in *; lia).
  constructor; rsimpl; try apply H; rewrite ?zlen_app, ?Hl; try done; try lia.
  - rewrite (inv_head s H). wrap_lia.
  - intros i Hi. change (cell _ (Z.of_nat i)) with (cell (ring s) (Z.of_nat i)).
    rewrite list_lookup_total_alt. destruct (Z.lt_ge_cases (Z.of_nat i) (zlen (sent s))).
    + rewrite (inv_cells s H), list_lookup_total_alt, lookup_app_l by (unfold zlen in *; lia). done.
    + unfold zlen in *. rewrite lookup_app_r, lookup_take_lt by lia.
      replace (Z.of_nat i)
        with (Z.of_nat (length (sent s)) + Z.of_nat (i - length (sent s))) by lia.
      rewrite Hc, list_lookup_total_alt by lia. done.
  - rewrite take_app_le by done. apply H.
  - pose proof (inv_cons s H) as Hcons. unfold cons_inv in *. rsimpl.
    destruct (cons_ s) as [|tl m acc]; [done|]. destruct Hcons as (-> & ? & ? & E).
    rewrite zlen_app. split_and!; try done; try lia.
    rewrite drop_app_le, take_app_le by (rewrite ?length_drop; unfold zlen in *; lia). done.
Qed.

Lemma inv_read_begin len n :
  cons_ s = CIdle -> 0 <= len -> n = Z.min len (available_read (ring s)) ->
  inv (s <| cons_ := CCopy (tail (ring s)) n [] |>).
Proof.
  intros Hc Hlen Hn. constructor; rsimpl; try apply H. unfold cons_inv. rsimpl.
  rewrite inv_available in Hn by done. pose proof (inv_used s H).
  unfold zlen in *. cbn [length]. split_and!; [done|lia|lia|done].
Qed.

Lemma inv_read_byte tl n acc b :
  cons_ s = CCopy tl n acc -> zlen acc < n ->
  buf (ring s) !! chunk_index (ring s) tl n (length acc) = Some b ->
  inv (s <| cons_ := CCopy tl n (acc ++ [b]) |>).
Proof.
  intros Hc Hl Hb. pose proof (inv_cons s H) as Hi. unfold cons_inv in Hi. rewrite Hc in Hi.
  destruct Hi as (-> & Hn & Hroom & Hacc). pose proof (inv_used s H) as Hu.
  pose proof (zlen_nonneg acc).
  rewrite chunk_index_cell in Hb by (done || unfold zlen in *; lia).
  apply list_lookup_total_correct in Hb.
  constructor; rsimpl; try apply H. unfold cons_inv. rsimpl. cbv iota. rewrite zlen_app.
  split_and!; try done; try (change (zlen [b]) with 1; lia).
  rewrite length_app, Nat.add_comm. cbn [length Nat.add].
  assert (drop (length (rcvd s)) (sent s) !! length acc = Some b) as Hlk.
  { rewrite lookup_drop. unfold zlen in *.
    fold (cell (ring s) (tail (ring s) + Z.of_nat (length acc))) in Hb.
    rewrite (inv_tail s H), (cell_wrap _ Hwf _ (Z.of_nat (length (rcvd s) + length acc))) in Hb
      by (unfold zlen; wrap_lia).
    rewrite (inv_cells s H) in Hb by (unfold zlen; lia).
    rewrite <- Hb. apply list_lookup_lookup_total_lt. lia. }
  by rewrite (take_S_r _ _ b), <- Hacc.
Qed.

Lemma inv_read_end tl n acc :
  cons_ s = CCopy tl n acc -> zlen acc = n ->
  inv (s <| ring := (ring s) <| tail := wadd64 tl n |> |>
         <| cons_ := CIdle |>
         <| rcvd := rcvd s ++ acc |>).
Proof.
  intros Hc Hl. pose proof (inv_cons s H) as Hi. unfold cons_inv in Hi. rewrite Hc in Hi.
  destruct Hi as (-> & Hn & Hroom & Hacc). pose proof (inv_used s H) as Hu.
  pose proof (zlen_nonneg acc).
  constructor; rsimpl; try apply H; rewrite ?zlen_app; try lia; try done.
  - rewrite (inv_tail s H). wrap_lia.
  - intros i Hi. change (cell _ (Z.of_nat i)) with (cell (ring s) (Z.of_nat i)).
    apply H. lia.
  - rewrite length_app, <- (take_drop (length (rcvd s)) (sent s)).
    rewrite take_app_add', <- (inv_prefix s H), <- Hacc; [done|].
    rewrite length_take. unfold zlen in *. lia.
  - pose proof (inv_prod s H) as Hp. unfold prod_inv in *. rsimpl.
    destruct (prod s) as [|h data m k]; [done|]. destruct Hp as (-> & ? & ? & Hcell).
    rewrite zlen_app. split_and!; try done; lia.
Qed.

End Preservation.

Lemma inv_step s s' : inv s -> step s s' -> inv s'.
Proof.
  intros H Hs. destruct Hs.
  - subst. by apply inv_write_begin.
  - by apply inv_write_byte.
  - by eapply inv_write_end.
  - by eapply inv_read_begin.
  - by apply inv_read_byte.
  - by apply inv_read_end.
Qed.

Lemma reachable_inv cap s : cap <= 2 ^ 63 -> reachable cap s -> inv s.
Proof.
  intros Hc Hr. assert (inv (init cap)) as Hi by (by apply inv_init).
  unfold reachable in Hr. induction Hr as [|x y z Hxy Hyz IH]; [done|].
  apply IH. by eapply inv_step.
Qed.

(** C8: in every interleaving of a concurrent writer and reader the consumer
    sees the producer's byte stream: what it has read, together with what it has
    copied so far, is a prefix of what was written; the unread rest is the ring's
    contents; and every byte copy of either side stays inside the buffer. *)
Theorem concurrent_stream_integrity cap s :
  cap <= 2 ^ 63 -> reachable cap s ->
  sent s = rcvd s ++ contents (ring s) /\
  (forall tl n acc, cons_ s = CCopy tl n acc ->
     (rcvd s ++ acc) `prefix_of` sent s /\
     (zlen acc < n ->
      (chunk_index (ring s) tl n (length acc) < length (buf (ring s)))%nat)) /\
  (forall h data n k, prod s = PCopy h data n k -> Z.of_nat k < n ->
     (chunk_index (ring s) h n k < length (buf (ring s)) /\ k < length data)%nat).
Proof.
  intros Hc Hr. pose proof (reachable_inv cap s Hc Hr) as H. pose proof (inv_wf s H) as Hwf.
  destruct (capacity_pos _ Hwf) as [Hp _]. pose proof (inv_used s H) as Hu.
  pose proof (inv_buf s H) as Hb. unfold zlen in Hb.
  assert (forall off n k, 0 <= n <= capacity (ring s) -> Z.of_nat k < n ->
    (chunk_index (ring s) off n k < length (buf (ring s)))%nat) as Hin.
  { intros off n k Hn Hk. rewrite chunk_index_cell by done.
    pose proof (Z.mod_pos_bound (off + Z.of_nat k) _ Hp). lia. }
  split_and!.
  - rewrite <- (take_drop (length (rcvd s)) (sent s)), <- (inv_prefix s H). f_equal.
    symmetry. apply contents_intro; rewrite inv_available by done.
    + unfold zlen in *. rewrite length_drop. lia.
    + intros i Hi. rewrite list_lookup_total_alt, lookup_drop, <- list_lookup_total_alt.
      rewrite <- (inv_cells s H) by (unfold zlen in *; lia). apply cell_wrap; [done|].
      rewrite (inv_tail s H). unfold zlen. wrap_lia.
  - intros tl n acc E. pose proof (inv_cons s H) as Hi. unfold cons_inv in Hi. rewrite E in Hi.
    destruct Hi as (-> & Hn & Hroom & Hacc). split.
    + rewrite <- (take_drop (length (rcvd s)) (sent s)), <- (inv_prefix s H).
      apply prefix_app. rewrite Hacc. apply prefix_take.
    + intros Hl. apply Hin; unfold zlen in *; lia.
  - intros h data n k E Hk. pose proof (inv_prod s H) as Hi. unfold prod_inv in Hi.
    rewrite E in Hi. destruct Hi as (-> & Hn & Hroom & _). unfold zlen in *.
    split; [apply Hin|]; lia.
Qed.

(** ** Sequential operations are runs of the step relation *)

(** The state of a producer that has copied [k] bytes into [b]. *)
Definition copying (s : sys) (data : list Z) (n : Z) (b : list Z) (k : nat) : sys :=
  s <| ring := (ring s) <| buf := b |> |> <| prod := PCopy (head (ring s)) data n k |>.

Lemma copying_start s data n :
  copying s data n (buf (ring s)) 0 = s <| prod := PCopy (head (ring s)) data n 0 |>.
Proof. by destruct s as [[] ? ? ? ?]. Qed.

Lemma copying_end s data n b k :
  prod s = PIdle ->
  let c := copying s data n b k in
  c <| ring := (ring c) <| head := wadd64 (head (ring s)) n |> |> <| prod := PIdle |>
    <| sent := sent c ++ take (Z.to_nat n) data |>
  = s <| ring := (ring s) <| buf := b |> <| head := wadd64 (head (ring s)) n |> |>
      <| sent := sent s ++ take (Z.to_nat n) data |>.
Proof. destruct s as [[] ? ? ? ?]. cbn. by intros ->. Qed.

Lemma copy_steps s data n (k : nat) :
  wf (ring s) -> 0 <= n <= zlen data -> n <= capacity (ring s) -> Z.of_nat k <= n ->
  exists b, clos_refl_trans_1n sys step
      (copying s data n (buf (ring s)) 0) (copying s data n b k) /\
    length b = length (buf (ring s)) /\
    forall j : nat, Z.of_nat j < capacity (ring s) ->
      b !!! j = (if (Z.of_nat j - head (ring s)) mod capacity (ring s) <? Z.of_nat k
                 then data !!! Z.to_nat ((Z.of_nat j - head (ring s)) mod capacity (ring s))
                 else buf (ring s) !!! j).
Proof.
  intros Hwf Hn Hc. destruct (capacity_pos _ Hwf) as [Hp _].
  induction k as [|k IH]; intros Hk.
  { exists (buf (ring s)). split_and!; [constructor|done|].
    intros j Hj. pose proof (Z.mod_pos_bound (Z.of_nat j - head (ring s)) _ Hp).
    bcase; [lia|done]. }
  destruct IH as (b & Hst & Lb & Gb); [lia|].
  assert (is_Some (data !! k)) as [x Hx] by (apply lookup_lt_is_Some_2; unfold zlen in *; lia).
  set (i := chunk_index (ring s) (head (ring s)) n k).
  exists (<[i := x]> b). split_and!; [|by rewrite length_insert|].
  - apply clos_rt_rt1n. eapply rt_trans; [by apply clos_rt1n_rt|]. apply rt_step.
    apply (step_write_byte (copying s data n b k) (head (ring s)) data n k x); [done|lia|done].
  - intros j Hj. unfold i. rewrite chunk_index_cell by (done || lia).
    pose proof (wf_buf _ Hwf) as Hb. unfold zlen in Hb.
    pose proof (Z.mod_pos_bound (head (ring s) + Z.of_nat k) _ Hp).
    set (p := (head (ring s) + Z.of_nat k) mod capacity (ring s)) in *.
    assert ((p - head (ring s)) mod capacity (ring s) = Z.of_nat k) as Hpk.
    { subst p. rewrite Zminus_mod_idemp_l.
      replace (head (ring s) + Z.of_nat k - head (ring s)) with (Z.of_nat k) by lia.
      apply Z.mod_small. lia. }
    destruct (Nat.eq_dec j (Z.to_nat p)) as [->|Hne].
    + rewrite list_lookup_total_insert_eq, Z2Nat.id, Hpk by lia. bcase; [|lia].
      rewrite Nat2Z.id. symmetry. by apply list_lookup_total_correct.
    + rewrite list_lookup_total_insert_ne, Gb by lia.
      assert ((Z.of_nat j - head (ring s)) mod capacity (ring s) <> Z.of_nat k) as Hd.
      { intros E. apply Hne. subst p. rewrite <- E, Zplus_mod_idemp_r.
        replace (head (ring s) + (Z.of_nat j - head (ring s))) with (Z.of_nat j) by lia.
        rewrite Z.mod_small by lia. lia. }
      repeat bcase; (done || lia).
Qed.

(** A call of [write] that is not interrupted is a run of the producer's
    steps: the step relation and the function of the source agree on the final
    ring, byte for byte. *)
Theorem write_is_producer_run s data r' n :
  wf (ring s) -> prod s = PIdle -> write (ring s) data = Done (r', n) ->
  clos_refl_trans_1n sys step s
    (s <| ring := r' |> <| sent := sent s ++ take (Z.to_nat n) data |>).
Proof.
  intros Hwf Hp Hw. pose proof (available_range _ Hwf) as Ha. pose proof (zlen_nonneg data).
  destruct (capacity_pos _ Hwf) as [Hpos _]. pose proof (wf_buf _ Hwf) as Hb0.
  unfold write in Hw. fold (available_read (ring s)) in Hw.
  destruct (Z.ltb_spec (capacity (ring s)) (available_read (ring s))); [done|].
  destruct (Z.eqb_spec (Z.min (zlen data) (capacity (ring s) - available_read (ring s))) 0) as [E|E].
  { injection Hw as <- <-. rewrite take_0, app_nil_r.
    replace (s <| ring := ring s |> <| sent := sent s |>) with s by (by destruct s).
    constructor. }
  set (m := Z.min (zlen data) (capacity (ring s) - available_read (ring s))) in *.
  destruct (write_copies (ring s) data m) as (b & Eb & Lb & Gb); [done|lia..|].
  destruct (copy_steps s data m (Z.to_nat m)) as (b' & Hst & Lb' & Gb'); [done|lia..|].
  cbv zeta in Eb. destruct (copy_at (buf (ring s)) _ _) as [b1| |]; [|done..].
  cbn [obind] in Eb, Hw. rewrite Eb in Hw. cbn [obind] in Hw. injection Hw as <- <-.
  assert (b' = b) as ->.
  { unfold zlen in *. apply (list_eq_same_length _ _ (length b)); [done|lia|].
    intros j x y Hj Hx%list_lookup_total_correct Hy%list_lookup_total_correct.
    rewrite <- Hx, <- Hy, Gb, Gb', Z2Nat.id by lia. done. }
  apply clos_rt_rt1n. eapply rt_trans.
  { apply rt_step. by apply (step_write_begin s data _ m Hp eq_refl). }
  eapply rt_trans; [apply clos_rt1n_rt; rewrite <- copying_start; exact Hst|].
  apply rt_step. rewrite <- (copying_end s data m b (Z.to_nat m) Hp).
  apply (step_write_end (copying s data m b (Z.to_nat m)) (head (ring s)) data m (Z.to_nat m));
    [done|lia].
Qed.

(** A writer of three bytes into a ring of two, and a reader that has copied
    one of the two bytes. *)
Definition sample_end : sys :=
  MkSys (Mk [7; 8] 2 0 2) PIdle (CCopy 0 2 [7]) [7; 8] [].

Lemma sample_reachable : reachable 2 sample_end.
Proof.
  unfold reachable.
  eapply Relation_Operators.rt1n_trans; [apply (step_write_begin _ [7; 8; 9] 2 2); reflexivity || discriminate|].
  eapply Relation_Operators.rt1n_trans; [by apply (step_write_byte _ 0 [7; 8; 9] 2 0 7)|].
  eapply Relation_Operators.rt1n_trans; [by apply (step_write_byte _ 0 [7; 8; 9] 2 1 8)|].
  eapply Relation_Operators.rt1n_trans; [by apply (step_write_end _ 0 [7; 8; 9] 2 2)|].
  eapply Relation_Operators.rt1n_trans; [by apply (step_read_begin _ 5 2)|].
  eapply Relation_Operators.rt1n_trans; [by apply (step_read_byte _ 0 2 [] 7)|].
  apply Relation_Operators.rt1n_refl.
Qed.

Lemma concurrent_stream_integrity_witness :
  reachable 2 sample_end /\ sent sample_end = rcvd sample_end ++ contents (ring sample_end) /\
  (rcvd sample_end ++ [7]) `prefix_of` sent sample_end.
Proof.
  pose proof sample_reachable as Hr.
  destruct (concurrent_stream_integrity 2 sample_end ltac:(lia) Hr) as (H1 & H2 & _).
  split; [exact Hr|]. split; [exact H1|]. exact (proj1 (H2 0 2 [7] eq_refl)).
Defined.

Lemma write_is_producer_run_witness :
  write (ring (init 2)) [7; 8; 9] = Done (Mk [7; 8] 2 0 2, 2) /\
  clos_refl_trans_1n sys step (init 2)
    ((init 2) <| ring := Mk [7; 8] 2 0 2 |> <| sent := [7; 8] |>).
Proof.
  split; [reflexivity|].
  apply (write_is_producer_run (init 2) [7; 8; 9] (Mk [7; 8] 2 0 2) 2); try reflexivity.
  apply (new_spec 2). lia.
Defined.

End Concurrent.
