(* ===== verification/Congestion.v ===== *)
(** * Congestion control (dpdk-stdlib-tcp/src/congestion.rs)

    RFC 5681 window management and the RFC 6298 retransmission timeout.  A
    [Duration] is a number of nanoseconds; the divisions of [Duration] by an
    integer truncate, as [Z] division of non-negative numbers does.  The [u32]
    additions that the source does not saturate are checked: an overflow is a
    [Panic] of the model. *)

From stdpp Require Import base numbers list.
From Stdlib Require Import ZArith Lia.
From S2P Require Import Prelude Seq.

Definition SECOND : Z := 1000000000.

Definition MILLISECOND : Z := 1000000.

(** [u32] addition that panics on overflow. *)
Definition add32 (a b : Z) : outcome Z := if a + b <=? U32_MAX then Done (a + b) else Panic.

Module Congestion.

Record CongestionState := MkCongestion {
  cwnd : Z;
  ssthresh : Z;
  srtt : option Z;
  rttvar : option Z;
  rto : Z;
  in_recovery : bool;
  recovery_point : SeqNum.t;
  dup_ack_count : Z }.

#[global] Instance eta_CongestionState : Eta CongestionState := fun c =>
  MkCongestion (cwnd c) (ssthresh c) (srtt c) (rttvar c) (rto c) (in_recovery c)
    (recovery_point c) (dup_ack_count c).

(** [CongestionState::initial_window]. *)
Definition initial_window (mss : Z) : Z := Z.min (10 * mss) (Z.max (2 * mss) 14600).

(** [CongestionState::new]. *)
Definition new (mss : Z) : CongestionState :=
  MkCongestion (initial_window mss) U32_MAX None None (1 * SECOND) false 0 0.

(** [Duration::clamp]. *)
Definition clamp (d lo hi : Z) : Z := if d <? lo then lo else if hi <? d then hi else d.

(** [CongestionState::update_rtt]; [Panic] is a failed [unwrap]. *)
Definition update_rtt (c : CongestionState) (sample : Z) : outcome CongestionState :=
  let! c :=
    match srtt c with
    | None => Done (c <| srtt := Some sample |> <| rttvar := Some (sample / 2) |>)
    | Some s =>
        match rttvar c with
        | None => Panic
        | Some v =>
            let diff := if s <? sample then sample - s else s - sample in
            Done (c <| rttvar := Some (v * 3 / 4 + diff / 4) |>
                    <| srtt := Some (s * 7 / 8 + sample / 8) |>)
        end
    end in
  match srtt c, rttvar c with
  | Some s, Some v =>
      let r := s + Z.max (1 * MILLISECOND) (v * 4) in
      Done (c <| rto := clamp r (1 * SECOND) (60 * SECOND) |>)
  | _, _ => Panic
  end.

(** [CongestionState::on_ack]. *)
Definition on_ack (c : CongestionState) (bytes_acked mss : Z) : CongestionState :=
  if in_recovery c then c
  else
    let c := c <| dup_ack_count := 0 |> in
    if cwnd c <? ssthresh c
    then c <| cwnd := sadd32 (cwnd c) mss |>
    else
      let increment := smul32 mss mss / Z.max (cwnd c) 1 in
      c <| cwnd := sadd32 (cwnd c) (Z.max increment 1) |>.

(** [CongestionState::on_triple_dup_ack]. *)
Definition on_triple_dup_ack (c : CongestionState) (flight_size mss : Z)
    : outcome CongestionState :=
  let c := c <| ssthresh := Z.max (flight_size / 2) (2 * mss) |> in
  let! w := add32 (ssthresh c) (3 * mss) in
  Done (c <| cwnd := w |> <| in_recovery := true |>).

(** [CongestionState::on_partial_ack]. *)
Definition on_partial_ack (c : CongestionState) (bytes_acked mss : Z) : CongestionState :=
  c <| cwnd := ssub (cwnd c) bytes_acked |>.

(** [CongestionState::on_recovery_exit]. *)
Definition on_recovery_exit (c : CongestionState) : CongestionState :=
  c <| cwnd := ssthresh c |> <| in_recovery := false |> <| dup_ack_count := 0 |>.

(** [CongestionState::effective_window]. *)
Definition effective_window (c : CongestionState) (rwnd : Z) : Z := Z.min (cwnd c) rwnd.

(** [CongestionState::backoff_rto]. *)
Definition backoff_rto (c : CongestionState) : CongestionState :=
  c <| rto := Z.min (rto c * 2) (60 * SECOND) |>.

(** [CongestionState::on_rto]. *)
Definition on_rto (c : CongestionState) (flight_size mss : Z) : CongestionState :=
  c <| ssthresh := Z.max (flight_size / 2) (2 * mss) |>
    <| cwnd := mss |> <| in_recovery := false |> <| dup_ack_count := 0 |>.

(** ** Events *)

(** The calls a connection can make, in any order. *)
Inductive event : Type :=
| EvRtt (sample : Z)
| EvAck (bytes_acked mss : Z)
| EvTripleDupAck (flight_size mss : Z)
| EvPartialAck (bytes_acked mss : Z)
| EvRecoveryExit
| EvBackoff
| EvRto (flight_size mss : Z).

Definition run_event (c : CongestionState) (e : event) : outcome CongestionState :=
  match e with
  | EvRtt sample => update_rtt c sample
  | EvAck bytes mss => Done (on_ack c bytes mss)
  | EvTripleDupAck flight mss => on_triple_dup_ack c flight mss
  | EvPartialAck bytes mss => Done (on_partial_ack c bytes mss)
  | EvRecoveryExit => Done (on_recovery_exit c)
  | EvBackoff => Done (backoff_rto c)
  | EvRto flight mss => Done (on_rto c flight mss)
  end.

Fixpoint run_events (c : CongestionState) (es : list event) : outcome CongestionState :=
  match es with
  | [] => Done c
  | e :: es => let! c := run_event c e in run_events c es
  end.

(** Arguments of the machine widths: [u16] segment sizes, [u32] byte counts and
    non-negative round-trip samples. *)
Definition wf_event (e : event) : Prop :=
  match e with
  | EvRtt sample => 0 <= sample
  | EvAck n mss | EvTripleDupAck n mss | EvPartialAck n mss | EvRto n mss =>
      is_u32 n /\ 1 <= mss < 65536
  | EvRecoveryExit | EvBackoff => True
  end.

(** ** Invariant *)

(** The two RTT estimators are set together, the timeout stays in its RFC 6298
    bounds and the windows in their machine width; after a loss the threshold is at
    least two segments of the size in use then, so at least 2. *)
Record wf (c : CongestionState) : Prop := {
  wf_cwnd : is_u32 (cwnd c);
  wf_ssthresh : 2 <= ssthresh c <= U32_MAX;
  wf_rto : 1 * SECOND <= rto c <= 60 * SECOND;
  wf_rtt : match srtt c, rttvar c with
           | Some s, Some v => 0 <= s /\ 0 <= v
           | None, None => True
           | _, _ => False
           end }.

Lemma clamp_range d lo hi : lo <= hi -> lo <= clamp d lo hi <= hi.
Proof. unfold clamp. repeat bcase; lia. Qed.

Lemma new_wf mss : is_u16 mss -> wf (new mss).
Proof.
  intros H. unfold is_u16 in H. constructor; cbn; unfold is_u32, initial_window, U32_MAX, SECOND; lia.
Qed.

Lemma update_rtt_spec c sample :
  wf c -> 0 <= sample ->
  exists c' s v, update_rtt c sample = Done c' /\ srtt c' = Some s /\ rttvar c' = Some v /\
    0 <= s /\ 0 <= v /\
    rto c' = clamp (s + Z.max MILLISECOND (v * 4)) (1 * SECOND) (60 * SECOND) /\
    cwnd c' = cwnd c /\ ssthresh c' = ssthresh c /\ in_recovery c' = in_recovery c /\
    match srtt c with
    | Some s0 => Z.min s0 sample - 1 <= s <= Z.max s0 sample
    | None => s = sample
    end.
Proof.
  intros H Hs. pose proof (wf_rtt c H) as Hr. unfold update_rtt.
  destruct (srtt c) as [s0|] eqn:Es, (rttvar c) as [v0|] eqn:Ev; try done.
  - rewrite obind_Done. rsimpl. eexists _, _, _. split; [reflexivity|]. rsimpl.
    split_and!; try done; try mod_lia. bcase; mod_lia.
  - rewrite obind_Done. rsimpl. eexists _, _, _. split; [reflexivity|]. rsimpl.
    split_and!; try done; mod_lia.
Qed.

Lemma run_event_wf c e :
  wf c -> wf_event e -> exists c', run_event c e = Done c' /\ wf c'.
Proof.
  intros H He. pose proof (wf_cwnd c H) as Hc. pose proof (wf_ssthresh c H) as Ht.
  unfold is_u32, U32_MAX in *.
  destruct e; cbn [run_event wf_event] in *.
  - destruct (update_rtt_spec c sample H He) as (c' & s & v & -> & Es & Ev & ? & ? & Er & E1 & E2 & _).
    exists c'. split; [done|]. constructor; rewrite ?E1, ?E2, ?Es, ?Ev, ?Er; try apply H.
    + apply clamp_range. unfold SECOND. lia.
    + done.
  - eexists. split; [reflexivity|]. unfold on_ack. destruct (in_recovery c); [done|]. rsimpl.
    bcase; constructor; rsimpl; try apply H; unfold is_u32, sadd32, smul32, U32_MAX; [lia|].
    assert (0 <= Z.min (mss * mss) 4294967295 / Z.max (cwnd c) 1) by (apply Z.div_pos; nia). lia.
  - unfold on_triple_dup_ack. rsimpl. unfold add32, U32_MAX.
    destruct (Z.leb_spec (Z.max (flight_size / 2) (2 * mss) + 3 * mss) 4294967295);
      [|unfold is_u32 in He; mod_lia].
    rewrite obind_Done. eexists. split; [reflexivity|].
    constructor; rsimpl; try apply H; unfold is_u32, U32_MAX in *; mod_lia.
  - eexists. split; [reflexivity|]. constructor; unfold on_partial_ack; rsimpl; try apply H.
    unfold is_u32 in *. unfold ssub. lia.
  - eexists. split; [reflexivity|]. constructor; unfold on_recovery_exit; rsimpl; try apply H.
    unfold is_u32. lia.
  - eexists. split; [reflexivity|]. pose proof (wf_rto c H).
    constructor; unfold backoff_rto; rsimpl; try apply H. unfold SECOND in *. lia.
  - eexists. split; [reflexivity|]. constructor; unfold on_rto; rsimpl; try apply H;
      unfold is_u32, U32_MAX in *; mod_lia.
Qed.

(** Whatever sequence of round-trip samples, ACKs, duplicate ACKs, partial
    ACKs and timeouts a connection sees, no window computation overflows and no
    estimator is read unset; the timeout stays within 1 s and 60 s, and the
    threshold never falls below two bytes. *)
Theorem congestion_run_safe mss es :
  is_u16 mss -> Forall wf_event es ->
  exists c, run_events (new mss) es = Done c /\ wf c.
Proof.
  intros Hm. apply new_wf in Hm. revert Hm. generalize (new mss).
  induction es as [|e es IH]; intros c Hc He; [by exists c|].
  inversion_clear He as [|? ? H1 H2]. destruct (run_event_wf c e Hc H1) as (c' & E & Hc').
  cbn [run_events]. rewrite E, obind_Done. by apply IH.
Qed.

Lemma congestion_run_safe_witness :
  exists c, run_events (new 1460)
    [EvRtt 20000000; EvAck 1460 1460; EvTripleDupAck 20000 1460; EvRecoveryExit;
     EvAck 1460 1460; EvBackoff; EvRto 4294967295 1460] = Done c /\ wf c.
Proof.
  apply (congestion_run_safe 1460); [unfold is_u16; lia|].
  repeat (apply Forall_cons_2; [cbn; unfold is_u32; lia|]). apply Forall_nil_2.
Defined.

(** ** Backoff *)

Lemma backoff_iter c n :
  wf c -> rto (Nat.iter n backoff_rto c) = Z.min (rto c * 2 ^ Z.of_nat n) (60 * SECOND).
Proof.
  intros H. pose proof (wf_rto c H). induction n as [|n IH].
  - cbn [Nat.iter nat_rect]. change (2 ^ Z.of_nat 0) with 1. lia.
  - cbn [Nat.iter nat_rect]. unfold backoff_rto at 1. rsimpl.
    change (nat_rect _ _ _ n) with (Nat.iter n backoff_rto c). rewrite IH.
    rewrite Nat2Z.inj_succ, Z.pow_succ_r by lia. lia.
Qed.

(** Exponential backoff: [n] consecutive timeouts multiply the timeout by
    [2^n], capped at 60 s; so after 6 of them it is at the cap whatever it was. *)
Theorem backoff_exponential c n :
  wf c ->
  rto (Nat.iter n backoff_rto c) = Z.min (rto c * 2 ^ Z.of_nat n) (60 * SECOND) /\
  ((6 <= n)%nat -> rto (Nat.iter n backoff_rto c) = 60 * SECOND).
Proof.
  intros H. rewrite backoff_iter by done. split; [done|]. intros Hn.
  pose proof (wf_rto c H). assert (2 ^ 6 <= 2 ^ Z.of_nat n) by (apply Z.pow_le_mono_r; lia).
  unfold SECOND in *. nia.
Qed.

Lemma backoff_exponential_witness :
  rto (Nat.iter 3 backoff_rto (new 1460)) = 8 * SECOND /\
  rto (Nat.iter 7 backoff_rto (new 1460)) = 60 * SECOND.
Proof.
  assert (wf (new 1460)) as H by (apply new_wf; unfold is_u16; lia). split.
  - rewrite (proj1 (backoff_exponential _ 3 H)). reflexivity.
  - apply (backoff_exponential _ 7 H). lia.
Defined.

(** The smoothed round-trip time stays within the range of the samples: one
    nanosecond of truncation aside, the new estimate lies between the old estimate
    and the sample, and the first sample is taken as it is. *)
Theorem srtt_between c sample :
  wf c -> 0 <= sample ->
  exists c' s, update_rtt c sample = Done c' /\ srtt c' = Some s /\
    match srtt c with
    | Some s0 => Z.min s0 sample - 1 <= s <= Z.max s0 sample
    | None => s = sample
    end.
Proof.
  intros H Hs. destruct (update_rtt_spec c sample H Hs) as (c' & s & v & H').
  exists c', s. tauto.
Qed.

Lemma srtt_between_witness :
  exists c' s, update_rtt (new 1460) 20000000 = Done c' /\ srtt c' = Some s /\ s = 20000000.
Proof.
  apply (srtt_between (new 1460) 20000000); [apply new_wf; unfold is_u16; lia|lia].
Defined.

(** ** Window growth *)

Section Growth.

Context (mss : Z) (Hmss : 1 <= mss < 65536).

(** One ACK in congestion avoidance. *)
Lemma on_ack_avoidance c n w :
  in_recovery c = false -> ssthresh c <= cwnd c -> is_u32 (cwnd c) ->
  1 <= w -> w <= cwnd c -> w <= mss * mss ->
  let c' := on_ack c n mss in
  cwnd c <= cwnd c' <= cwnd c + mss * mss / w /\ is_u32 (cwnd c') /\
  (cwnd c < cwnd c' \/ cwnd c = U32_MAX) /\
  ssthresh c' = ssthresh c /\ in_recovery c' = false.
Proof.
  intros Hr Ht Hu Hw Hwc Hwm. unfold on_ack. rewrite Hr. cbv zeta. rsimpl.
  bcase; [lia|]. rsimpl. unfold sadd32, smul32, is_u32, U32_MAX in *.
  assert (mss * mss <= 4294967295) by nia. rewrite (Z.min_l (mss * mss)) by lia.
  rewrite (Z.max_l (cwnd c) 1) by lia.
  assert (mss * mss / cwnd c <= mss * mss / w) by (apply Z.div_le_compat_l; nia).
  assert (1 <= mss * mss / w) by (apply Z.div_le_lower_bound; lia).
  assert (0 <= mss * mss / cwnd c) by (apply Z.div_pos; lia).
  split_and!; try lia; done.
Qed.

(** The growth over [k] ACKs of congestion avoidance. *)
Lemma on_ack_many k c n w :
  in_recovery c = false -> ssthresh c <= cwnd c -> is_u32 (cwnd c) ->
  1 <= w -> w <= cwnd c -> w <= mss * mss ->
  let c' := Nat.iter k (fun c => on_ack c n mss) c in
  cwnd c <= cwnd c' <= cwnd c + Z.of_nat k * (mss * mss / w) /\ is_u32 (cwnd c') /\
  ssthresh c' = ssthresh c /\ in_recovery c' = false.
Proof.
  intros Hr Ht Hu Hw Hwc Hwm. induction k as [|k IH].
  - cbn. split_and!; try done; unfold is_u32 in *; lia.
  - cbn [Nat.iter nat_rect]. change (nat_rect _ _ _ k) with (Nat.iter k (fun c => on_ack c n mss) c).
    destruct IH as (IH1 & IH2 & IH3 & IH4).
    destruct (on_ack_avoidance (Nat.iter k (fun c => on_ack c n mss) c) n w)
      as (H1 & H2 & _ & H3 & H4); try done; try lia.
    cbv zeta. split_and!; try done; try lia.
Qed.

(** Congestion avoidance is additive increase: one window's worth of ACKs
    (at most [cwnd / mss] of them) raises the congestion window by at most one
    segment and never lowers it. *)
Theorem avoidance_additive_increase c n k :
  in_recovery c = false -> ssthresh c <= cwnd c -> is_u32 (cwnd c) ->
  mss <= cwnd c <= mss * mss -> Z.of_nat k * mss <= cwnd c ->
  cwnd c <= cwnd (Nat.iter k (fun c => on_ack c n mss) c) <= cwnd c + mss.
Proof.
  intros Hr Ht Hu Hc Hk. destruct (on_ack_many k c n (cwnd c)) as (H & _); try done; try lia.
  assert (Z.of_nat k * (mss * mss / cwnd c) <= mss); [|lia].
  pose proof (Z.mul_div_le (mss * mss) (cwnd c)). nia.
Qed.

End Growth.

Definition avoidance_sample : CongestionState :=
  MkCongestion 14600 14600 None None SECOND false 0 0.

Lemma avoidance_additive_increase_witness :
  14600 <= cwnd (Nat.iter 10 (fun c => on_ack c 1460 1460) avoidance_sample) <= 14600 + 1460.
Proof.
  refine (avoidance_additive_increase 1460 _ avoidance_sample 1460 10 eq_refl _ _ _ _);
    cbn [avoidance_sample cwnd ssthresh]; unfold is_u32; lia.
Defined.

End Congestion.
