(* ===== verification/Timer.v ===== *)
(** * Timer wheel (dpdk-stdlib-tcp/src/timer.rs)

    The wheel is the source's map from (connection, timer type) to a deadline;
    an [Instant] is a number of nanoseconds.  [HashMap::retain] visits the entries
    in an order the language does not fix: [expired] returns the fired entries in
    the map's own enumeration order, and the theorems state what they are, not in
    which order. *)

From stdpp Require Import base numbers list gmap fin_maps.
From Stdlib Require Import ZArith Lia.
From S2P Require Import Prelude Seq State.

Inductive TimerType : Type :=
| Rto | Persist | Keepalive | TimeWaitTimer | FinWait2Timer | DelayedAck.

#[global] Instance TimerType_eq_dec : EqDecision TimerType.
Proof. solve_decision. Defined.

Definition timer_index (t : TimerType) : nat :=
  match t with
  | Rto => 0 | Persist => 1 | Keepalive => 2 | TimeWaitTimer => 3 | FinWait2Timer => 4
  | DelayedAck => 5
  end.

Definition timer_of_index (n : nat) : option TimerType :=
  match n with
  | 0%nat => Some Rto | 1%nat => Some Persist | 2%nat => Some Keepalive
  | 3%nat => Some TimeWaitTimer | 4%nat => Some FinWait2Timer | 5%nat => Some DelayedAck
  | _ => None
  end.

#[global] Program Instance TimerType_countable : Countable TimerType :=
  inj_countable timer_index timer_of_index _.
Next Obligation. by intros []. Qed.

Module TimerWheel.

Record TimerEntry := MkEntry {
  key : FourTuple;
  timer_type : TimerType;
  deadline : Z }.

Definition t : Type := gmap (FourTuple * TimerType) Z.

(** [TimerWheel::new]. *)
Definition new : t := ∅.

(** [TimerWheel::insert]. *)
Definition insert (w : t) (k : FourTuple) (ty : TimerType) (d : Z) : t := <[(k, ty) := d]> w.

(** [TimerWheel::cancel]. *)
Definition cancel (w : t) (k : FourTuple) (ty : TimerType) : t * bool :=
  (delete (k, ty) w, bool_decide (is_Some (w !! (k, ty)))).

(** [TimerWheel::cancel_all]. *)
Definition cancel_all (w : t) (k : FourTuple) : t :=
  filter (fun e : (FourTuple * TimerType) * Z => e.1.1 <> k) w.

Definition entry_of (e : (FourTuple * TimerType) * Z) : TimerEntry :=
  MkEntry e.1.1 e.1.2 e.2.

(** [TimerWheel::expired]. *)
Definition expired (w : t) (now : Z) : t * list TimerEntry :=
  (filter (fun e : (FourTuple * TimerType) * Z => ~ e.2 <= now) w,
   entry_of <$> filter (fun e : (FourTuple * TimerType) * Z => e.2 <= now) (map_to_list w)).

(** [Iterator::min] over the deadlines. *)
Definition min_opt (a : Z) (acc : option Z) : option Z :=
  match acc with
  | None => Some a
  | Some b => Some (if a <? b then a else b)
  end.

(** [TimerWheel::next_deadline]. *)
Definition next_deadline (w : t) : option Z :=
  foldr (fun e acc => min_opt e.2 acc) None (map_to_list w).

(** [TimerWheel::is_active], [len] and [is_empty]. *)
Definition is_active (w : t) (k : FourTuple) (ty : TimerType) : bool :=
  bool_decide (is_Some (w !! (k, ty))).

Definition len (w : t) : nat := size w.

Definition is_empty (w : t) : bool := (size w =? 0)%nat.

(** ** Expiry *)

#[local] Instance entry_of_inj : Inj eq eq entry_of.
Proof. intros [[k ty] d] [[k' ty'] d'] [= -> -> ->]. done. Qed.

Lemma min_list (l : list ((FourTuple * TimerType) * Z)) :
  match foldr (fun e acc => min_opt e.2 acc) None l with
  | None => l = []
  | Some d => (exists k, (k, d) ∈ l) /\ (forall k d', (k, d') ∈ l -> d <= d')
  end.
Proof.
  induction l as [|[k d] l IH]; [done|]. cbn [foldr fst snd].
  destruct (foldr _ None l) as [m|]; cbn [min_opt].
  - destruct IH as [[k' Hk'] Hmin]. bcase.
    + split; [exists k; set_solver|]. intros k2 d2 Hin.
      apply elem_of_cons in Hin as [[= -> ->]|Hin]; [lia|]. specialize (Hmin _ _ Hin). lia.
    + split; [exists k'; set_solver|]. intros k2 d2 Hin.
      apply elem_of_cons in Hin as [[= -> ->]|Hin]; [lia|]. eauto.
  - subst l. split; [exists k; set_solver|]. intros k2 d2 Hin.
    apply list_elem_of_singleton in Hin as [= -> ->]. lia.
Qed.

Lemma next_deadline_spec w :
  match next_deadline w with
  | None => w = ∅
  | Some d => (exists k, w !! k = Some d) /\ (forall k d', w !! k = Some d' -> d <= d')
  end.
Proof.
  unfold next_deadline. pose proof (min_list (map_to_list w)) as H.
  destruct (foldr _ None _) as [d|].
  - destruct H as [[k Hk] Hmin]. split.
    + exists k. by apply elem_of_map_to_list.
    + intros k' d' Hd. apply (Hmin k'). by apply elem_of_map_to_list.
  - by apply map_to_list_empty_iff.
Qed.

(** A tick fires exactly the timers that are due: [expired] returns each
    timer whose deadline has passed once, and no other; it keeps exactly the others,
    and afterwards the next deadline lies in the future. *)
Theorem expired_partitions w now w' fired :
  expired w now = (w', fired) ->
  NoDup fired /\
  (forall k ty d, MkEntry k ty d ∈ fired <-> w !! (k, ty) = Some d /\ d <= now) /\
  (forall k ty d, w' !! (k, ty) = Some d <-> w !! (k, ty) = Some d /\ now < d) /\
  (forall d, next_deadline w' = Some d -> now < d).
Proof.
  intros E. injection E as <- <-. split_and!.
  - apply (NoDup_fmap_2 _). apply NoDup_filter, NoDup_map_to_list.
  - intros k ty d. rewrite list_elem_of_fmap. split.
    + intros ([[k' ty'] d'] & [= -> -> ->] & Hin). apply list_elem_of_filter in Hin as [Hd Hin].
      by apply elem_of_map_to_list in Hin.
    + intros [Hw Hd]. exists ((k, ty), d). split; [done|]. apply list_elem_of_filter.
      split; [done|]. by apply elem_of_map_to_list.
  - intros k ty d. unfold t in *. rewrite map_lookup_filter_Some. cbn. intuition lia.
  - intros d Hd. pose proof (next_deadline_spec
      (filter (fun e : (FourTuple * TimerType) * Z => ~ e.2 <= now) w)) as H.
    rewrite Hd in H. destruct H as [[k Hk] _]. apply map_lookup_filter_Some in Hk as [_ Hk].
    cbn in Hk. lia.
Qed.

Definition sample_key : FourTuple :=
  MkFourTuple (V4 (MkIpv4 10 0 0 1) 80) (V4 (MkIpv4 10 0 0 2) 5000).

Definition sample_wheel : t := insert (insert new sample_key Rto 10) sample_key Keepalive 30.

Lemma expired_partitions_witness :
  let (w', fired) := expired sample_wheel 20 in
  MkEntry sample_key Rto 10 ∈ fired /\ w' !! (sample_key, Keepalive) = Some 30 /\
  (forall d, next_deadline w' = Some d -> 20 < d).
Proof.
  destruct (expired sample_wheel 20) as [w' fired] eqn:E.
  destruct (expired_partitions _ _ _ _ E) as (_ & H1 & H2 & H3).
  split; [apply H1; split; [reflexivity|lia]|].
  split; [apply H2; split; [reflexivity|lia]|]. exact H3.
Defined.

End TimerWheel.
