(* ===== verification/Contract.v ===== *)
(** * The application/engine contract (dpdk-stdlib-tcp/src/contract.rs)

    The shared [ConnectionHandle], the commands of the application and the
    signals of the engine.  A handle is shared by [Arc]: the engine model keeps
    handles in a store and names them by a number, so every holder of the number
    sees the same handle.  The locks around single fields disappear (each guards
    one atomic read or update); condition variables and wakers become the
    [wake] events a handler emits. *)

From stdpp Require Import base numbers list strings.
From Stdlib Require Import ZArith Lia.
From S2P Require Import Prelude Seq State Ring.

(** ** Engine wakeup *)

Record EngineWakeup := MkWakeup { flag : bool }.

(** [EngineWakeup::signal], the flag. *)
Definition wakeup_signal (w : EngineWakeup) : EngineWakeup := MkWakeup true.

(** [EngineWakeup::try_recv]: swap the flag with [false]. *)
Definition wakeup_try_recv (w : EngineWakeup) : EngineWakeup * bool := (MkWakeup false, flag w).

(** [EngineWakeup::wait]: what happens while the thread sleeps is the argument
    [during], the flag it finds when it wakes, and whether the sleep timed out. *)
Definition wakeup_wait (w : EngineWakeup) (during : EngineWakeup) (timed_out : bool)
    : EngineWakeup * bool :=
  if flag w then (MkWakeup false, true)
  else (MkWakeup false, flag during || negb timed_out).

(** ** Oneshot channels *)

(** The shared slot of a channel. *)
Definition oneshot (A : Type) : Type := option A.

Definition oneshot_send {A} (slot : oneshot A) (value : A) : oneshot A := Some value.

(** One turn of the loop of [OneshotReceiver::recv]: [None] waits again. *)
Definition oneshot_take {A} (slot : oneshot A) : oneshot A * option A := (None, slot).

(** ** Options and commands *)

(** Durations are nanoseconds. *)
Record KeepaliveConfig := MkKeepalive { idle : Z; interval : Z; count : Z }.

Inductive SocketOption : Type :=
| Nodelay (b : bool)
| OptKeepalive (c : option KeepaliveConfig)
| Linger (d : option Z)
| RecvBufSize (n : Z)
| SendBufSize (n : Z)
| ReuseAddr (b : bool)
| Ttl (n : Z)
| ReadTimeout (d : option Z)
| WriteTimeout (d : option Z)
| Nonblocking (b : bool).

(** [std::net::Shutdown]. *)
Inductive Shutdown : Type := ShutRead | ShutWrite | ShutBoth.

(** Oneshot senders and handles are names into the engine's stores. *)
Definition sender : Type := nat.

Definition handle_id : Type := nat.

Inductive EngineCommand : Type :=
| CmdConnect (local remote : SocketAddr) (src_mac dst_mac : Mac) (handle : handle_id)
    (response : sender)
| CmdListen (addr : SocketAddr) (backlog : Z) (response : sender)
| CmdAccept (listen_addr : SocketAddr) (response : sender)
| CmdShutdown (key : FourTuple) (how : Shutdown)
| CmdSetOption (key : FourTuple) (option_ : SocketOption)
| CmdClose (key : FourTuple) (linger : option Z).

(** [CommandSender::send]: enqueue, then signal; [false] when the receiver is
    gone (the command is returned in a [SendError], the signal is still given). *)
Definition command_send (queue : list EngineCommand) (receiver_alive : bool) (w : EngineWakeup)
    (cmd : EngineCommand) : list EngineCommand * EngineWakeup * bool :=
  (if receiver_alive then queue ++ [cmd] else queue, wakeup_signal w, receiver_alive).

(** ** Connection handles *)

Record ConnectionHandle := MkHandle {
  rx_ring : SpscByteRing.t;
  tx_ring : SpscByteRing.t;
  h_state : Z;
  eof : bool;
  error : option TcpError;
  app_refcount : Z;
  cmd_live : bool;
  h_key : FourTuple;
  h_linger : option Z }.

#[global] Instance eta_ConnectionHandle : Eta ConnectionHandle := fun h =>
  MkHandle (rx_ring h) (tx_ring h) (h_state h) (eof h) (error h) (app_refcount h) (cmd_live h)
    (h_key h) (h_linger h).

(** Wake-ups of application threads: [notify_all], [write_waker.wake], and the
    condition variable alone. *)
Inductive wake : Type := NotifyAll | WakeWriter | NotifyCondvar.

(** [ConnectionHandle::new]; [cmd_live] tells a live command sender from the
    dummy one. *)
Definition handle_new (rx_capacity tx_capacity : Z) (cmd_live : bool) (key : FourTuple)
    : ConnectionHandle :=
  MkHandle (SpscByteRing.new rx_capacity) (SpscByteRing.new tx_capacity) (to_u8 Closed) false
    None 1 cmd_live key None.

(** [ConnectionHandle::tcp_state]. *)
Definition tcp_state (h : ConnectionHandle) : TcpState :=
  match from_u8 (h_state h) with Some s => s | None => Closed end.

(** [ConnectionHandle::set_state]. *)
Definition set_state (h : ConnectionHandle) (s : TcpState) : ConnectionHandle :=
  h <| h_state := to_u8 s |>.

(** [ConnectionHandle::latch_error]. *)
Definition latch_error (h : ConnectionHandle) (err : TcpError) : ConnectionHandle :=
  match error h with
  | None => h <| error := Some err |>
  | Some _ => h
  end.

(** [ConnectionHandle::set_eof]. *)
Definition set_eof (h : ConnectionHandle) : ConnectionHandle := h <| eof := true |>.

(** [ConnectionHandle::peek_error]. *)
Definition peek_error (h : ConnectionHandle) : option TcpError := error h.

(** ** Lemmas *)

Lemma tcp_state_set_state h s : tcp_state (set_state h s) = s.
Proof. unfold tcp_state, set_state. rsimpl. by rewrite from_to_u8. Qed.

Lemma latch_error_sticky h e1 e2 : latch_error (latch_error h e1) e2 = latch_error h e1.
Proof.
  unfold latch_error. destruct (error h) eqn:E; rsimpl; [by rewrite E|done].
Qed.

Lemma latch_error_some h e : is_Some (error (latch_error h e)).
Proof. unfold latch_error. destruct (error h) eqn:E; rsimpl; [rewrite E|]; eauto. Qed.
