(* ===== verification/Tcb.v ===== *)
(** * Transmission control block (dpdk-stdlib-tcp/src/tcb.rs)

    The per-connection state of the engine, field by field.  [send_buf] and the
    queue entries' offsets into it are a list and [nat]s; instants and durations
    are nanoseconds; [handle] names the shared handle; the reorder buffer's
    [BTreeMap<u32, Vec<u8>>] is a finite map. *)

From stdpp Require Import base numbers list gmap.
From Stdlib Require Import ZArith Lia.
From S2P Require Import Prelude Seq State Ring Congestion Contract.

(** [DEFAULT_PEER_MSS] (lib.rs). *)
Definition DEFAULT_PEER_MSS : Z := 536.

Record RetransmitEntry := MkEntry {
  e_seq : SeqNum.t;
  e_offset : nat;
  e_len : nat;
  e_sent_at : Z;
  e_retransmit_count : Z }.

#[global] Instance eta_RetransmitEntry : Eta RetransmitEntry := fun e =>
  MkEntry (e_seq e) (e_offset e) (e_len e) (e_sent_at e) (e_retransmit_count e).

Record Tcb := MkTcb {
  t_key : FourTuple;
  t_state : TcpState;
  snd_una : SeqNum.t;
  snd_nxt : SeqNum.t;
  snd_wnd : Z;
  snd_wl1 : SeqNum.t;
  snd_wl2 : SeqNum.t;
  iss : SeqNum.t;
  rcv_nxt : SeqNum.t;
  rcv_wnd : Z;
  irs : SeqNum.t;
  snd_scale : Z;
  rcv_scale : Z;
  local_mss : Z;
  peer_mss : Z;
  congestion : Congestion.CongestionState;
  rto_deadline : option Z;
  persist_deadline : option Z;
  keepalive_deadline : option Z;
  time_wait_deadline : option Z;
  fin_wait2_deadline : option Z;
  delayed_ack_deadline : option Z;
  retransmit_count : Z;
  send_buf : list Z;
  retransmit_queue : list RetransmitEntry;
  reorder_buffer : gmap Z (list Z);
  nodelay : bool;
  has_unacked_data : bool;
  fin_pending : bool;
  persist_backoff : Z;
  keepalive_probes_sent : Z;
  last_data_received : option Z;
  segments_since_ack : Z;
  keepalive : option KeepaliveConfig;
  t_linger : option Z;
  recv_buf_size : Z;
  send_buf_size : Z;
  reuseaddr : bool;
  t_ttl : Z;
  t_src_mac : Mac;
  t_dst_mac : Mac;
  t_handle : handle_id }.

#[global] Instance eta_Tcb : Eta Tcb := fun t =>
  MkTcb (t_key t) (t_state t) (snd_una t) (snd_nxt t) (snd_wnd t) (snd_wl1 t) (snd_wl2 t)
    (iss t) (rcv_nxt t) (rcv_wnd t) (irs t) (snd_scale t) (rcv_scale t) (local_mss t)
    (peer_mss t) (congestion t) (rto_deadline t) (persist_deadline t) (keepalive_deadline t)
    (time_wait_deadline t) (fin_wait2_deadline t) (delayed_ack_deadline t)
    (retransmit_count t) (send_buf t) (retransmit_queue t) (reorder_buffer t) (nodelay t)
    (has_unacked_data t) (fin_pending t) (persist_backoff t) (keepalive_probes_sent t)
    (last_data_received t) (segments_since_ack t) (keepalive t) (t_linger t)
    (recv_buf_size t) (send_buf_size t) (reuseaddr t) (t_ttl t) (t_src_mac t) (t_dst_mac t)
    (t_handle t).

(** Field setters, named so that they are derived once. *)
#[global] Instance set_t_key : FieldSetter t_key := ltac:(derive_setter t_key).
#[global] Instance set_t_state : FieldSetter t_state := ltac:(derive_setter t_state).
#[global] Instance set_snd_una : FieldSetter snd_una := ltac:(derive_setter snd_una).
#[global] Instance set_snd_nxt : FieldSetter snd_nxt := ltac:(derive_setter snd_nxt).
#[global] Instance set_snd_wnd : FieldSetter snd_wnd := ltac:(derive_setter snd_wnd).
#[global] Instance set_snd_wl1 : FieldSetter snd_wl1 := ltac:(derive_setter snd_wl1).
#[global] Instance set_snd_wl2 : FieldSetter snd_wl2 := ltac:(derive_setter snd_wl2).
#[global] Instance set_iss : FieldSetter iss := ltac:(derive_setter iss).
#[global] Instance set_rcv_nxt : FieldSetter rcv_nxt := ltac:(derive_setter rcv_nxt).
#[global] Instance set_rcv_wnd : FieldSetter rcv_wnd := ltac:(derive_setter rcv_wnd).
#[global] Instance set_irs : FieldSetter irs := ltac:(derive_setter irs).
#[global] Instance set_snd_scale : FieldSetter snd_scale := ltac:(derive_setter snd_scale).
#[global] Instance set_rcv_scale : FieldSetter rcv_scale := ltac:(derive_setter rcv_scale).
#[global] Instance set_local_mss : FieldSetter local_mss := ltac:(derive_setter local_mss).
#[global] Instance set_peer_mss : FieldSetter peer_mss := ltac:(derive_setter peer_mss).
#[global] Instance set_congestion : FieldSetter congestion := ltac:(derive_setter congestion).
#[global] Instance set_rto_deadline : FieldSetter rto_deadline := ltac:(derive_setter rto_deadline).
#[global] Instance set_persist_deadline : FieldSetter persist_deadline := ltac:(derive_setter persist_deadline).
#[global] Instance set_keepalive_deadline : FieldSetter keepalive_deadline := ltac:(derive_setter keepalive_deadline).
#[global] Instance set_time_wait_deadline : FieldSetter time_wait_deadline := ltac:(derive_setter time_wait_deadline).
#[global] Instance set_fin_wait2_deadline : FieldSetter fin_wait2_deadline := ltac:(derive_setter fin_wait2_deadline).
#[global] Instance set_delayed_ack_deadline : FieldSetter delayed_ack_deadline := ltac:(derive_setter delayed_ack_deadline).
#[global] Instance set_retransmit_count : FieldSetter retransmit_count := ltac:(derive_setter retransmit_count).
#[global] Instance set_send_buf : FieldSetter send_buf := ltac:(derive_setter send_buf).
#[global] Instance set_retransmit_queue : FieldSetter retransmit_queue := ltac:(derive_setter retransmit_queue).
#[global] Instance set_reorder_buffer : FieldSetter reorder_buffer := ltac:(derive_setter reorder_buffer).
#[global] Instance set_nodelay : FieldSetter nodelay := ltac:(derive_setter nodelay).
#[global] Instance set_has_unacked_data : FieldSetter has_unacked_data := ltac:(derive_setter has_unacked_data).
#[global] Instance set_fin_pending : FieldSetter fin_pending := ltac:(derive_setter fin_pending).
#[global] Instance set_persist_backoff : FieldSetter persist_backoff := ltac:(derive_setter persist_backoff).
#[global] Instance set_keepalive_probes_sent : FieldSetter keepalive_probes_sent := ltac:(derive_setter keepalive_probes_sent).
#[global] Instance set_last_data_received : FieldSetter last_data_received := ltac:(derive_setter last_data_received).
#[global] Instance set_segments_since_ack : FieldSetter segments_since_ack := ltac:(derive_setter segments_since_ack).
#[global] Instance set_keepalive : FieldSetter keepalive := ltac:(derive_setter keepalive).
#[global] Instance set_t_linger : FieldSetter t_linger := ltac:(derive_setter t_linger).
#[global] Instance set_recv_buf_size : FieldSetter recv_buf_size := ltac:(derive_setter recv_buf_size).
#[global] Instance set_send_buf_size : FieldSetter send_buf_size := ltac:(derive_setter send_buf_size).
#[global] Instance set_reuseaddr : FieldSetter reuseaddr := ltac:(derive_setter reuseaddr).
#[global] Instance set_t_ttl : FieldSetter t_ttl := ltac:(derive_setter t_ttl).
#[global] Instance set_t_src_mac : FieldSetter t_src_mac := ltac:(derive_setter t_src_mac).
#[global] Instance set_t_dst_mac : FieldSetter t_dst_mac := ltac:(derive_setter t_dst_mac).
#[global] Instance set_t_handle : FieldSetter t_handle := ltac:(derive_setter t_handle).

(** [Tcb::new]. *)
Definition tcb_new (key : FourTuple) (iss_ : SeqNum.t) (local_mss_ : Z) (handle : handle_id)
    (src_mac dst_mac : Mac) : Tcb :=
  {| t_key := key; t_state := Closed;
     snd_una := iss_; snd_nxt := iss_; snd_wnd := 0; snd_wl1 := 0; snd_wl2 := 0; iss := iss_;
     rcv_nxt := 0; rcv_wnd := 0; irs := 0; snd_scale := 0; rcv_scale := 0;
     local_mss := local_mss_; peer_mss := DEFAULT_PEER_MSS;
     congestion := Congestion.new local_mss_;
     rto_deadline := None; persist_deadline := None; keepalive_deadline := None;
     time_wait_deadline := None; fin_wait2_deadline := None; delayed_ack_deadline := None;
     retransmit_count := 0; send_buf := []; retransmit_queue := []; reorder_buffer := ∅;
     nodelay := false; has_unacked_data := false; fin_pending := false;
     persist_backoff := 1 * SECOND; keepalive_probes_sent := 0; last_data_received := None;
     segments_since_ack := 0; keepalive := None; t_linger := None; recv_buf_size := 65536;
     send_buf_size := 65536; reuseaddr := false; t_ttl := 64; t_src_mac := src_mac;
     t_dst_mac := dst_mac; t_handle := handle |}.

(** [Tcb::effective_mss]. *)
Definition effective_mss (t : Tcb) : Z := Z.min (local_mss t) (peer_mss t).

(** [Tcb::flight_size]. *)
Definition flight_size (t : Tcb) : Z := SeqNum.diff (snd_nxt t) (snd_una t).

(** [Tcb::available_send_window]. *)
Definition available_send_window (t : Tcb) : Z :=
  let effective := Congestion.effective_window (congestion t) (snd_wnd t) in
  ssub effective (flight_size t).

(** [Tcb::nagle_should_send]. *)
Definition nagle_should_send (t : Tcb) (pending_bytes : nat) : bool :=
  if nodelay t then true
  else if negb (has_unacked_data t) then true
  else if effective_mss t <=? Z.of_nat pending_bytes then true
  else false.
