(* ===== verification/Conn.v ===== *)
(** * Segment processing of one connection (dpdk-stdlib-tcp/src/engine.rs)

    The handlers of [TcpEngine] that work on one TCB and its shared handle.  In
    the source each fetches [&mut Tcb] from the table and reaches the handle
    through it; here a [conn] bundles the two with the wake-ups the handler gives,
    and Engine.v looks them up and stores them back.

    Frames are returned as the [TcpFrameParams] given to [build_tcp_frame]; the
    entry points of Engine.v build them, in order, as the source does at each
    site.  A handler reads the clock once ([now]).  Arithmetic overflow, a shift by
    the width or more, and an out-of-range access are [Panic], the behaviour of a
    build with overflow checks. *)

From stdpp Require Import base numbers list gmap.
From Stdlib Require Import ZArith Lia.
From S2P Require Import Prelude Seq State Codec Ring Congestion Contract Tcb.

(** [TIME_WAIT_DURATION], [FIN_WAIT2_TIMEOUT], [DELAYED_ACK_TIMEOUT]. *)
Definition TIME_WAIT_DURATION : Z := 120 * SECOND.

Definition FIN_WAIT2_TIMEOUT : Z := 60 * SECOND.

Definition DELAYED_ACK_TIMEOUT : Z := 200 * MILLISECOND.

Record conn := MkConn {
  c_tcb : Tcb;
  c_handle : ConnectionHandle;
  c_wakes : list wake }.

#[global] Instance eta_conn : Eta conn := fun c =>
  MkConn (c_tcb c) (c_handle c) (c_wakes c).

(** A wake-up of the application. *)
Definition wake_up (c : conn) (w : wake) : conn := c <| c_wakes := c_wakes c ++ [w] |>.

(** [a << s] and [a >> s] on [u32]. *)
Definition shl32 (a s : Z) : outcome Z :=
  if s <? 32 then Done (u32 (Z.shiftl a s)) else Panic.

Definition shr32 (a s : Z) : outcome Z :=
  if s <? 32 then Done (Z.shiftr a s) else Panic.

(** [u32] subtraction that panics on underflow. *)
Definition sub32 (a b : Z) : outcome Z := if b <=? a then Done (a - b) else Panic.

(** ** Helpers of engine.rs *)

(** [is_in_window]. *)
Definition is_in_window (seq rcv_nxt : SeqNum.t) (rcv_wnd : Z) : bool :=
  if rcv_wnd =? 0 then seq =? rcv_nxt
  else
    let rcv_end := SeqNum.add rcv_nxt rcv_wnd in
    (seq =? rcv_nxt) || (SeqNum.gt seq rcv_nxt && SeqNum.gt rcv_end seq).

(** [encode_established_window]. *)
Definition encode_established_window (t : Tcb) (h : ConnectionHandle) : outcome Z :=
  let! free := SpscByteRing.available_write (rx_ring h) in
  let available := u32 free in
  let half_buffer := u32 (recv_buf_size t) / 2 in
  let mss := effective_mss t in
  let threshold := Z.min mss half_buffer in
  let wnd := if available <? threshold then 0 else Z.min available (rcv_wnd t) in
  let! scaled := shr32 wnd (rcv_scale t) in
  Done (Z.min scaled U16_MAX).

(** [encode_window]. *)
Definition encode_window (rcv_wnd _rcv_scale : Z) : Z := Z.min rcv_wnd U16_MAX.

(** [segment_len]. *)
Definition segment_len (seg : ParsedTcpSegment) : outcome Z :=
  let len := u32 (zlen (seg_payload seg)) in
  let! len := if TcpFlags.contains (seg_flags seg) TcpFlags.SYN then add32 len 1 else Done len in
  if TcpFlags.contains (seg_flags seg) TcpFlags.FIN then add32 len 1 else Done len.

(** [port_of] and the wildcard address of a listener. *)
Definition wildcard (p : Z) : SocketAddr := V4 (MkIpv4 0 0 0 0) p.

(** The frame parameters common to all segments of a connection. *)
Definition tcb_params (t : Tcb) (seq ack : SeqNum.t) (flags window : Z) (options : TcpOptions)
    (payload : list Z) : TcpFrameParams :=
  MkFrameParams (t_src_mac t) (t_dst_mac t) (local (t_key t)) (remote (t_key t)) seq ack flags
    window options payload (t_ttl t).

(** A segment with the window of an established connection and no options. *)
Definition segment_params (c : conn) (seq : SeqNum.t) (flags : Z) (payload : list Z)
    : outcome TcpFrameParams :=
  let! w := encode_established_window (c_tcb c) (c_handle c) in
  Done (tcb_params (c_tcb c) seq (rcv_nxt (c_tcb c)) flags w options_default payload).

(** [build_ack_for_tcb]. *)
Definition build_ack_for_tcb (c : conn) : outcome TcpFrameParams :=
  segment_params c (snd_nxt (c_tcb c)) TcpFlags.ACK [].

(** [build_syn_frame] and [build_syn_ack_frame]. *)
Definition syn_options (t : Tcb) : TcpOptions :=
  MkTcpOptions (Some (local_mss t)) (Some (rcv_scale t)) true (Some (0, 0)) [].

Definition build_syn_frame (t : Tcb) : TcpFrameParams :=
  tcb_params t (iss t) 0 TcpFlags.SYN (encode_window (rcv_wnd t) 0) (syn_options t) [].

Definition build_syn_ack_frame (t : Tcb) : TcpFrameParams :=
  tcb_params t (iss t) (rcv_nxt t) (TcpFlags.union TcpFlags.SYN TcpFlags.ACK)
    (encode_window (rcv_wnd t) 0) (syn_options t) [].

(** [send_rst_for_segment]. *)
Definition send_rst_for_segment (seg : ParsedTcpSegment) : outcome (list TcpFrameParams) :=
  let has_ack := TcpFlags.contains (seg_flags seg) TcpFlags.ACK in
  let! ack :=
    if has_ack then Done 0
    else let! len := segment_len seg in Done (SeqNum.add (seg_seq seg) len) in
  Done [MkFrameParams mac_zero mac_zero (seg_dst seg) (seg_src seg)
          (if has_ack then seg_ack seg else 0) ack
          (if has_ack then TcpFlags.RST else TcpFlags.union TcpFlags.RST TcpFlags.ACK)
          0 options_default [] 64].

(** ** ACK processing *)

(** [retransmit_queue.retain]: entries not yet fully acknowledged. *)
Definition retain_unacked (una : SeqNum.t) (q : list RetransmitEntry) : list RetransmitEntry :=
  filter (fun e => SeqNum.gt (SeqNum.add (e_seq e) (u32 (Z.of_nat (e_len e)))) una = true) q.

(** Whether an ACK is new: in [(snd_una, snd_nxt]]. *)
Definition ack_is_new (t : Tcb) (ack : SeqNum.t) : bool :=
  SeqNum.gt ack (snd_una t) && SeqNum.le ack (snd_nxt t).

(** Drop [drain_n] acknowledged bytes off the front of [send_buf] and rebase the
    offsets of the entries that stay. *)
Definition drain_acked (t : Tcb) (drain_n : nat) : Tcb :=
  if (0 <? drain_n)%nat then
    t <| send_buf := drop drain_n (send_buf t) |>
      <| retransmit_queue :=
           (fun e => e <| e_offset := (e_offset e - drain_n)%nat |>) <$> retransmit_queue t |>
  else t.

(** Nothing in flight any more: clear the Nagle latch. *)
Definition clear_nagle (t : Tcb) : Tcb :=
  if snd_una t =? snd_nxt t then t <| has_unacked_data := false |> else t.

(** A new ACK in ESTABLISHED. *)
Definition established_new_ack (t : Tcb) (ack : SeqNum.t) : Tcb :=
  let bytes_acked := SeqNum.diff ack (snd_una t) in
  let t := t <| snd_una := ack |>
             <| retransmit_queue := retain_unacked ack (retransmit_queue t) |> in
  let t := drain_acked t (Nat.min (Z.to_nat bytes_acked) (length (send_buf t))) in
  let t := clear_nagle t in
  t <| congestion := Congestion.on_ack (congestion t) bytes_acked (effective_mss t) |>.

(** The window update of ESTABLISHED, with the source's precedence of [||]
    and [&&]. *)
Definition update_send_window (t : Tcb) (seg : ParsedTcpSegment) : outcome Tcb :=
  if SeqNum.gt (seg_seq seg) (snd_wl1 t)
     || ((seg_seq seg =? snd_wl1 t) && SeqNum.le (seg_ack seg) (snd_nxt t)
           && SeqNum.gt (seg_ack seg) (snd_wl2 t)
         || (seg_ack seg =? snd_wl2 t))
  then
    let! w := shl32 (seg_window seg) (snd_scale t) in
    Done (t <| snd_wnd := w |> <| snd_wl1 := seg_seq seg |> <| snd_wl2 := seg_ack seg |>)
  else Done t.

(** The ACK part of [handle_established]. *)
Definition established_ack (c : conn) (seg : ParsedTcpSegment) : outcome conn :=
  let c :=
    if ack_is_new (c_tcb c) (seg_ack seg)
    then wake_up (c <| c_tcb := established_new_ack (c_tcb c) (seg_ack seg) |>) WakeWriter
    else c in
  let! t := update_send_window (c_tcb c) seg in
  Done (c <| c_tcb := t |>).

(** ** Data delivery *)

(** Append to the receive ring and advance [rcv_nxt] by what fits. *)
Definition deliver (c : conn) (data : list Z) : outcome (conn * Z) :=
  let! (ring, written) := SpscByteRing.write (rx_ring (c_handle c)) data in
  let c := c <| c_handle := (c_handle c) <| rx_ring := ring |> |> in
  Done (c <| c_tcb := (c_tcb c)
              <| rcv_nxt := SeqNum.add (rcv_nxt (c_tcb c)) (u32 written) |> |>,
        written).

(** Rebase the reorder buffer: subtract [n] from every key. *)
Definition rebase (m : gmap Z (list Z)) (n : Z) : outcome (gmap Z (list Z)) :=
  if bool_decide (map_Forall (fun k _ => n <= k) m)
  then Done (kmap (fun k => k - n) m)
  else Panic.

(** [while let Some(data) = rebased.remove(&0)]; every turn removes an entry,
    so the number of entries is enough fuel. *)
Fixpoint drain_reorder (fuel : nat) (c : conn) (rebased : gmap Z (list Z)) (drained_count : Z)
    : outcome (conn * gmap Z (list Z) * Z) :=
  match rebased !! 0 with
  | None => Done (c, rebased, drained_count)
  | Some data =>
      match fuel with
      | O => OutOfFuel
      | S n =>
          let rebased := delete 0 rebased in
          let! (c, w) := deliver c data in
          let! drained_count := add32 drained_count 1 in
          let! rebased :=
            if (0 <? w) && negb (bool_decide (rebased = ∅))
            then rebase rebased (u32 w) else Done rebased in
          drain_reorder n c rebased drained_count
      end
  end.

(** The in-order branch of [handle_established]. *)
Definition established_in_order (c : conn) (seg : ParsedTcpSegment) (now : Z)
    : outcome (conn * list TcpFrameParams) :=
  let! (c, written) := deliver c (seg_payload seg) in
  let! (c, drained_count) :=
    if bool_decide (reorder_buffer (c_tcb c) = ∅) then Done (c, 0)
    else
      let! rebased := rebase (reorder_buffer (c_tcb c)) (u32 written) in
      let! (c, rebased, drained_count) := drain_reorder (size rebased) c rebased 0 in
      Done (c <| c_tcb := (c_tcb c) <| reorder_buffer := rebased |> |>, drained_count) in
  let c := wake_up c NotifyAll in
  let! inc := add32 1 drained_count in
  let! since := add32 (segments_since_ack (c_tcb c)) inc in
  let c := c <| c_tcb := (c_tcb c) <| segments_since_ack := since |> |> in
  if 2 <=? segments_since_ack (c_tcb c) then
    let c := c <| c_tcb := (c_tcb c) <| segments_since_ack := 0 |>
                             <| delayed_ack_deadline := None |> |> in
    let! ack := build_ack_for_tcb c in
    Done (c, [ack])
  else
    match delayed_ack_deadline (c_tcb c) with
    | None =>
        Done (c <| c_tcb := (c_tcb c)
                   <| delayed_ack_deadline := Some (now + DELAYED_ACK_TIMEOUT) |> |>, [])
    | Some _ => Done (c, [])
    end.

(** The out-of-order branch. *)
Definition established_out_of_order (c : conn) (seg : ParsedTcpSegment)
    : outcome (conn * list TcpFrameParams) :=
  let t := c_tcb c in
  let offset := SeqNum.diff (seg_seq seg) (rcv_nxt t) in
  let t := t <| reorder_buffer := <[offset := seg_payload seg]> (reorder_buffer t) |> in
  let t := t <| segments_since_ack := 0 |> <| delayed_ack_deadline := None |> in
  let c := c <| c_tcb := t |> in
  let! dup_ack := build_ack_for_tcb c in
  Done (c, [dup_ack]).

(** The data part of [handle_established], for a non-empty payload. *)
Definition established_data (c : conn) (seg : ParsedTcpSegment) (now : Z)
    : outcome (conn * list TcpFrameParams) :=
  let t := (c_tcb c) <| last_data_received := Some now |> <| keepalive_probes_sent := 0 |> in
  let t :=
    match keepalive t with
    | Some ka => t <| keepalive_deadline := Some (now + idle ka) |>
    | None => t
    end in
  let c := c <| c_tcb := t |> in
  if seg_seq seg =? rcv_nxt t then established_in_order c seg now
  else if SeqNum.gt (seg_seq seg) (rcv_nxt t) then established_out_of_order c seg
  else Done (c, []).

(** The FIN part of [handle_established]. *)
Definition established_fin (c : conn) (seg : ParsedTcpSegment) (outbound : list TcpFrameParams)
    : outcome (conn * list TcpFrameParams) :=
  let fin_seq := SeqNum.add (seg_seq seg) (u32 (zlen (seg_payload seg))) in
  if fin_seq =? rcv_nxt (c_tcb c) then
    let t := c_tcb c in
    let t := t <| rcv_nxt := SeqNum.add (rcv_nxt t) 1 |> <| t_state := CloseWait |>
               <| segments_since_ack := 0 |> <| delayed_ack_deadline := None |> in
    let c := c <| c_tcb := t |>
               <| c_handle := set_state (set_eof (c_handle c)) CloseWait |> in
    let c := wake_up c NotifyAll in
    let! ack := build_ack_for_tcb c in
    Done (c, [ack])
  else Done (c, outbound).

(** [handle_established]. *)
Definition handle_established (c : conn) (seg : ParsedTcpSegment) (now : Z)
    : outcome (conn * list TcpFrameParams) :=
  let! c :=
    if TcpFlags.contains (seg_flags seg) TcpFlags.ACK then established_ack c seg else Done c in
  let! (c, outbound) :=
    match seg_payload seg with
    | [] => Done (c, [])
    | _ => established_data c seg now
    end in
  if TcpFlags.contains (seg_flags seg) TcpFlags.FIN
  then established_fin c seg outbound
  else Done (c, outbound).

(** ** Teardown *)

(** The ACK processing of FIN_WAIT_1 and CLOSE_WAIT. *)
Definition closing_new_ack (t : Tcb) (ack : SeqNum.t) : Tcb :=
  let bytes_acked := SeqNum.diff ack (snd_una t) in
  let t := t <| snd_una := ack |> in
  let t := t <| retransmit_queue := retain_unacked ack (retransmit_queue t) |> in
  t <| congestion := Congestion.on_ack (congestion t) bytes_acked (effective_mss t) |>.

(** [handle_fin_wait_1]. *)
Definition handle_fin_wait_1 (c : conn) (seg : ParsedTcpSegment) (now : Z)
    : outcome (conn * list TcpFrameParams) :=
  let has_ack := TcpFlags.contains (seg_flags seg) TcpFlags.ACK in
  let c :=
    if has_ack && ack_is_new (c_tcb c) (seg_ack seg)
    then c <| c_tcb := closing_new_ack (c_tcb c) (seg_ack seg) |> else c in
  let our_fin_acked := has_ack && (seg_ack seg =? snd_nxt (c_tcb c)) in
  let! c :=
    match seg_payload seg with
    | [] => Done c
    | _ =>
        if seg_seq seg =? rcv_nxt (c_tcb c)
        then let! (c, _) := deliver c (seg_payload seg) in Done (wake_up c NotifyAll)
        else Done c
    end in
  let fin_seq := SeqNum.add (seg_seq seg) (u32 (zlen (seg_payload seg))) in
  let peer_fin := TcpFlags.contains (seg_flags seg) TcpFlags.FIN
                  && (fin_seq =? rcv_nxt (c_tcb c)) in
  let t := c_tcb c in
  if our_fin_acked && peer_fin then
    let t := t <| rcv_nxt := SeqNum.add (rcv_nxt t) 1 |> <| t_state := TimeWait |>
               <| time_wait_deadline := Some (now + TIME_WAIT_DURATION) |> in
    let c := wake_up (c <| c_tcb := t |>
                        <| c_handle := set_state (set_eof (c_handle c)) TimeWait |>) NotifyAll in
    let! ack := build_ack_for_tcb c in
    Done (c, [ack])
  else if our_fin_acked then
    let t := t <| t_state := FinWait2 |>
               <| fin_wait2_deadline := Some (now + FIN_WAIT2_TIMEOUT) |>
               <| rto_deadline := None |> in
    Done (c <| c_tcb := t |> <| c_handle := set_state (c_handle c) FinWait2 |>, [])
  else if peer_fin then
    let t := t <| rcv_nxt := SeqNum.add (rcv_nxt t) 1 |> <| t_state := Closing |> in
    let c := wake_up (c <| c_tcb := t |>
                        <| c_handle := set_state (set_eof (c_handle c)) Closing |>) NotifyAll in
    let! ack := build_ack_for_tcb c in
    Done (c, [ack])
  else Done (c, []).

(** [handle_fin_wait_2]. *)
Definition handle_fin_wait_2 (c : conn) (seg : ParsedTcpSegment) (now : Z)
    : outcome (conn * list TcpFrameParams) :=
  let! (c, outbound) :=
    match seg_payload seg with
    | [] => Done (c, [])
    | _ =>
        if seg_seq seg =? rcv_nxt (c_tcb c)
        then
          let! (c, _) := deliver c (seg_payload seg) in
          let c := wake_up c NotifyAll in
          let! ack := build_ack_for_tcb c in
          Done (c, [ack])
        else Done (c, [])
    end in
  let fin_seq := SeqNum.add (seg_seq seg) (u32 (zlen (seg_payload seg))) in
  if TcpFlags.contains (seg_flags seg) TcpFlags.FIN && (fin_seq =? rcv_nxt (c_tcb c)) then
    let t := c_tcb c in
    let t := t <| rcv_nxt := SeqNum.add (rcv_nxt t) 1 |> <| t_state := TimeWait |>
               <| time_wait_deadline := Some (now + TIME_WAIT_DURATION) |>
               <| fin_wait2_deadline := None |> in
    let c := wake_up (c <| c_tcb := t |>
                        <| c_handle := set_state (set_eof (c_handle c)) TimeWait |>) NotifyAll in
    let! ack := build_ack_for_tcb c in
    Done (c, [ack])
  else Done (c, outbound).

(** [handle_close_wait]. *)
Definition handle_close_wait (c : conn) (seg : ParsedTcpSegment) : conn :=
  if TcpFlags.contains (seg_flags seg) TcpFlags.ACK && ack_is_new (c_tcb c) (seg_ack seg)
  then wake_up (c <| c_tcb := closing_new_ack (c_tcb c) (seg_ack seg) |>) WakeWriter
  else c.

(** [handle_closing]. *)
Definition handle_closing (c : conn) (seg : ParsedTcpSegment) (now : Z) : conn :=
  if TcpFlags.contains (seg_flags seg) TcpFlags.ACK && (seg_ack seg =? snd_nxt (c_tcb c)) then
    c <| c_tcb := (c_tcb c) <| t_state := TimeWait |>
                    <| time_wait_deadline := Some (now + TIME_WAIT_DURATION) |>
                    <| rto_deadline := None |> |>
      <| c_handle := set_state (c_handle c) TimeWait |>
  else c.

(** [handle_time_wait]. *)
Definition handle_time_wait (c : conn) (seg : ParsedTcpSegment) (now : Z)
    : outcome (conn * list TcpFrameParams) :=
  if TcpFlags.contains (seg_flags seg) TcpFlags.FIN then
    let c := c <| c_tcb := (c_tcb c)
                    <| time_wait_deadline := Some (now + TIME_WAIT_DURATION) |> |> in
    let! ack := build_ack_for_tcb c in
    Done (c, [ack])
  else Done (c, []).

(** ** Transmission *)

(** The body of [tx_ring.read(&mut drain_buf)] loop: 4096 bytes at a time until
    the ring is empty.  A ring of [n] bytes needs at most [n] reads and the last,
    empty one. *)
Definition DRAIN_BUF_LEN : nat := 4096.

Fixpoint drain_tx (fuel : nat) (h : ConnectionHandle) (buf : list Z) (drain_buf : list Z)
    : outcome (ConnectionHandle * list Z) :=
  let! (ring, drain_buf, n) := SpscByteRing.read (tx_ring h) drain_buf in
  let h := h <| tx_ring := ring |> in
  if n =? 0 then Done (h, buf)
  else
    match fuel with
    | O => OutOfFuel
    | S fuel => drain_tx fuel h (buf ++ take (Z.to_nat n) drain_buf) drain_buf
    end.

(** Drain the transmit ring into [send_buf]. *)
Definition drain_tx_ring (c : conn) : outcome conn :=
  let fuel := Z.to_nat (SpscByteRing.available_read (tx_ring (c_handle c))) in
  let! (h, buf) :=
    drain_tx fuel (c_handle c) (send_buf (c_tcb c)) (replicate DRAIN_BUF_LEN 0) in
  Done (c <| c_handle := h |> <| c_tcb := (c_tcb c) <| send_buf := buf |> |>).

(** [retransmit_queue.last().map(|e| e.offset + e.len).unwrap_or(0)]. *)
Definition already_sent_offset (t : Tcb) : nat :=
  match last (retransmit_queue t) with
  | Some e => e_offset e + e_len e
  | None => 0
  end.

Definition unsent_in_buf (t : Tcb) : nat := length (send_buf t) - already_sent_offset t.

(** The length of the next segment, [None] where the loop breaks. *)
Definition next_segment_len (t : Tcb) (mss : nat) : option nat :=
  let available_window := Z.to_nat (available_send_window t) in
  if (available_window =? 0)%nat || (length (send_buf t) =? 0)%nat then None
  else
    let unsent := unsent_in_buf t in
    if (unsent =? 0)%nat then None
    else if negb (nagle_should_send t unsent) then None
    else
      let len := Nat.min (Nat.min unsent mss) available_window in
      if (len =? 0)%nat then None else Some len.

(** The state after a segment of [len] bytes was sent. *)
Definition record_segment (t : Tcb) (len : nat) (now : Z) : Tcb :=
  let offset := already_sent_offset t in
  let seq := snd_nxt t in
  let t := t <| snd_nxt := SeqNum.add (snd_nxt t) (u32 (Z.of_nat len)) |>
             <| has_unacked_data := true |> in
  let t := t <| retransmit_queue := retransmit_queue t ++ [MkEntry seq offset len now 0] |> in
  match rto_deadline t with
  | None => t <| rto_deadline := Some (now + Congestion.rto (congestion t)) |>
  | Some _ => t
  end.

(** The segmentation loop of [on_tick]; every turn sends at least one byte of
    [send_buf], so the unsent bytes are enough fuel. *)
Fixpoint segment_loop (fuel : nat) (mss : nat) (c : conn) (now : Z)
    (outbound : list TcpFrameParams) : outcome (conn * list TcpFrameParams) :=
  match next_segment_len (c_tcb c) mss with
  | None => Done (c, outbound)
  | Some len =>
      match fuel with
      | O => OutOfFuel
      | S fuel =>
          let t := c_tcb c in
          let payload := take len (drop (already_sent_offset t) (send_buf t)) in
          let! frame := segment_params c (snd_nxt t) TcpFlags.ACK payload in
          segment_loop fuel mss (c <| c_tcb := record_segment t len now |>) now
            (outbound ++ [frame])
      end
  end.

(** [send_fin]. *)
Definition send_fin (c : conn) (now : Z) : outcome (conn * list TcpFrameParams) :=
  let c := c <| c_tcb := (c_tcb c) <| fin_pending := false |> |> in
  let new_state :=
    match t_state (c_tcb c) with
    | Established => Some FinWait1
    | CloseWait => Some LastAck
    | _ => None
    end in
  match new_state with
  | None => Done (c, [])
  | Some s =>
      let t := c_tcb c in
      let! frame := segment_params c (snd_nxt t) (TcpFlags.union TcpFlags.FIN TcpFlags.ACK) [] in
      let t := t <| snd_nxt := SeqNum.add (snd_nxt t) 1 |> <| t_state := s |> in
      let t :=
        match rto_deadline t with
        | None => t <| rto_deadline := Some (now + Congestion.rto (congestion t)) |>
        | Some _ => t
        end in
      Done (c <| c_tcb := t |> <| c_handle := set_state (c_handle c) s |>, [frame])
  end.

(** [handle_shutdown] on an existing connection. *)
Definition shutdown_conn (c : conn) (how : Shutdown) (now : Z)
    : outcome (conn * list TcpFrameParams) :=
  match how with
  | ShutWrite | ShutBoth =>
      match t_state (c_tcb c) with
      | Established | CloseWait =>
          let c := c <| c_tcb := (c_tcb c) <| fin_pending := true |> |> in
          let! c := drain_tx_ring c in
          if (unsent_in_buf (c_tcb c) =? 0)%nat then send_fin c now else Done (c, [])
      | _ => Done (c, [])
      end
  | ShutRead => Done (wake_up (c <| c_handle := set_eof (c_handle c) |>) NotifyAll, [])
  end.

(** [handle_set_option] on an existing connection. *)
Definition set_option_conn (c : conn) (option_ : SocketOption) : conn :=
  let t := c_tcb c in
  match option_ with
  | Nodelay v => c <| c_tcb := t <| nodelay := v |> |>
  | OptKeepalive None =>
      c <| c_tcb := t <| keepalive := None |> <| keepalive_deadline := None |>
                      <| keepalive_probes_sent := 0 |> |>
  | OptKeepalive (Some ka) => c <| c_tcb := t <| keepalive := Some ka |> |>
  | Linger v => c <| c_tcb := t <| t_linger := v |> |>
                  <| c_handle := (c_handle c) <| h_linger := v |> |>
  | RecvBufSize n =>
      c <| c_tcb := t <| recv_buf_size := n |> <| rcv_wnd := Z.min (rcv_wnd t) (u32 n) |> |>
  | SendBufSize n => c <| c_tcb := t <| send_buf_size := n |> |>
  | ReuseAddr v => c <| c_tcb := t <| reuseaddr := v |> |>
  | Ttl v => c <| c_tcb := t <| t_ttl := v |> |>
  | ReadTimeout _ | WriteTimeout _ | Nonblocking _ => c
  end.

(** ** Timers *)

(** [now >= deadline] for an armed timer. *)
Definition due (deadline : option Z) (now : Z) : bool :=
  match deadline with
  | Some d => d <=? now
  | None => false
  end.

(** What a tick does with a connection: keep it, or remove its TCB (and, for a
    retransmission timeout, fail a pending connect). *)
Inductive tick_result : Type :=
| TickKeep (c : conn) (outbound : list TcpFrameParams)
| TickAbort (c : conn) (fail_connect : bool).

(** Latch [TimedOut] and close the handle. *)
Definition abort_timed_out (c : conn) : conn :=
  wake_up (c <| c_handle := set_eof (set_state (latch_error (c_handle c) TimedOut) Closed) |>)
    NotifyAll.

(** The retransmission timeout. *)
Definition rto_fire (c : conn) (now max_retries : Z) : outcome tick_result :=
  let! n := add32 (retransmit_count (c_tcb c)) 1 in
  let c := c <| c_tcb := (c_tcb c) <| retransmit_count := n |> |> in
  if max_retries <? n then Done (TickAbort (abort_timed_out c) true)
  else
    let t := c_tcb c in
    let cc := Congestion.backoff_rto
                (Congestion.on_rto (congestion t) (flight_size t) (effective_mss t)) in
    let t := t <| congestion := cc |> <| rto_deadline := Some (now + Congestion.rto cc) |> in
    let c := c <| c_tcb := t |> in
    match retransmit_queue t with
    | [] => Done (TickKeep c [])
    | entry :: _ =>
        let payload := take (e_len entry) (drop (e_offset entry) (send_buf t)) in
        match payload with
        | [] => Done (TickKeep c [])
        | _ =>
            let! frame := segment_params c (e_seq entry) TcpFlags.ACK payload in
            Done (TickKeep c [frame])
        end
    end.

(** The zero-window probe. *)
Definition persist_fire (c : conn) (now : Z) : outcome tick_result :=
  let t := c_tcb c in
  let probe_seq := SeqNum.add (snd_una t) (flight_size t) in
  let! frame := segment_params c probe_seq TcpFlags.ACK [0] in
  let t := t <| persist_backoff := Z.min (persist_backoff t * 2) (60 * SECOND) |> in
  let t := t <| persist_deadline := Some (now + persist_backoff t) |> in
  Done (TickKeep (c <| c_tcb := t |>) [frame]).

(** The keepalive probe. *)
Definition keepalive_fire (c : conn) (ka : KeepaliveConfig) (now : Z) : outcome tick_result :=
  let! n := add32 (keepalive_probes_sent (c_tcb c)) 1 in
  let c := c <| c_tcb := (c_tcb c) <| keepalive_probes_sent := n |> |> in
  if count ka <? n then Done (TickAbort (abort_timed_out c) false)
  else
    let probe_seq := SeqNum.add (snd_una (c_tcb c)) U32_MAX in
    let! frame := segment_params c probe_seq TcpFlags.ACK [] in
    Done (TickKeep
            (c <| c_tcb := (c_tcb c) <| keepalive_deadline := Some (now + interval ka) |> |>)
            [frame]).

(** The delayed ACK. *)
Definition delayed_ack_fire (c : conn) : outcome (conn * list TcpFrameParams) :=
  let c := c <| c_tcb := (c_tcb c) <| delayed_ack_deadline := None |>
                           <| segments_since_ack := 0 |> |> in
  let! ack := build_ack_for_tcb c in
  Done (c, [ack]).

(** Arming and clearing of the persist and keepalive timers after a drain. *)
Definition tick_arm_timers (t : Tcb) (now : Z) : Tcb :=
  let has_unsent := (already_sent_offset t <? length (send_buf t))%nat in
  let t :=
    if (available_send_window t =? 0) && has_unsent
       && bool_decide (persist_deadline t = None)
    then
      let t := t <| persist_backoff := Congestion.rto (congestion t) |> in
      t <| persist_deadline := Some (now + persist_backoff t) |>
    else t in
  let t :=
    if (0 <? available_send_window t) && negb (bool_decide (persist_deadline t = None))
    then t <| persist_deadline := None |> <| persist_backoff := 1 * SECOND |>
    else t in
  match t_state t, keepalive t, keepalive_deadline t with
  | Established, Some ka, None => t <| keepalive_deadline := Some (now + idle ka) |>
  | _, _, _ => t
  end.

(** The wake-up of writers at the end of a drain. *)
Definition tick_wake (c : conn) (prev_available : Z) : outcome conn :=
  let new_available := available_send_window (c_tcb c) in
  if 0 <? new_available then
    if prev_available =? 0 then Done (wake_up (wake_up c WakeWriter) NotifyCondvar)
    else
      let! free := SpscByteRing.available_write (tx_ring (c_handle c)) in
      if 0 <? free then Done (wake_up (wake_up c WakeWriter) NotifyCondvar) else Done c
  else Done c.

(** The TX drain of a tick, for a connection in ESTABLISHED or CLOSE_WAIT. *)
Definition tick_transmit (c : conn) (now : Z) : outcome (conn * list TcpFrameParams) :=
  let! c := drain_tx_ring c in
  let prev_available := available_send_window (c_tcb c) in
  let mss := Z.to_nat (effective_mss (c_tcb c)) in
  let! (c, outbound) := segment_loop (unsent_in_buf (c_tcb c)) mss c now [] in
  let c := c <| c_tcb := tick_arm_timers (c_tcb c) now |> in
  if fin_pending (c_tcb c) && (unsent_in_buf (c_tcb c) =? 0)%nat
     && (SpscByteRing.available_read (tx_ring (c_handle c)) =? 0)
  then
    let! (c, fin_frames) := send_fin c now in
    Done (c, outbound ++ fin_frames)
  else
    let! c := tick_wake c prev_available in
    Done (c, outbound).

(** The delayed ACK and the drain, which follow when no earlier timer fired. *)
Definition tick_rest (c : conn) (now : Z) : outcome tick_result :=
  let! (c, acks) :=
    if due (delayed_ack_deadline (c_tcb c)) now then delayed_ack_fire c else Done (c, []) in
  match t_state (c_tcb c) with
  | Established | CloseWait =>
      let! (c, outbound) := tick_transmit c now in
      Done (TickKeep c (acks ++ outbound))
  | _ => Done (TickKeep c acks)
  end.

(** Pass 2 of [on_tick] for one connection. *)
Definition tick_conn (c : conn) (now max_retries : Z) : outcome tick_result :=
  let t := c_tcb c in
  if due (rto_deadline t) now && negb (length (retransmit_queue t) =? 0)%nat
  then rto_fire c now max_retries
  else if due (persist_deadline t) now then persist_fire c now
  else
    match keepalive t with
    | Some ka => if due (keepalive_deadline t) now then keepalive_fire c ka now
                 else tick_rest c now
    | None => tick_rest c now
    end.
