(* ===== verification/Engine.v ===== *)
(** * The TCP engine (dpdk-stdlib-tcp/src/engine.rs)

    The engine's tables, the handlers that use them, and its three entry points:
    segments, commands and ticks.

    Handles are shared between the engine and the application, so they live in
    the store [handles], and a TCB or a completed connection names its handle.
    Oneshot responses and wake-ups are appended to [events] in the order they are
    given.  The order in which a [HashMap] lists its keys is not fixed by the
    language: it is the parameter [key_order]. *)

From stdpp Require Import base numbers list gmap strings.
From Stdlib Require Import ZArith Lia.
From S2P Require Import Prelude Seq State Codec Ring Congestion Contract Tcb Conn.

Record EngineConfig := MkConfig {
  max_tcbs : Z;
  default_backlog : Z;
  cfg_local_mss : Z;
  default_rcv_wnd : Z;
  default_rcv_scale : Z;
  initial_rto : Z;
  max_retries : Z }.

(** [EngineConfig::default]. *)
Definition config_default : EngineConfig := MkConfig 1024 128 1460 65535 7 (1 * SECOND) 15.

Record ListenState := MkListen {
  backlog : Z;
  accept_queue : list sender;
  completed : list (FourTuple * handle_id) }.

#[global] Instance eta_ListenState : Eta ListenState := fun l =>
  MkListen (backlog l) (accept_queue l) (completed l).

(** What the engine tells application threads. *)
Inductive event : Type :=
| EvWake (h : handle_id) (w : wake)
| EvConnect (s : sender) (r : result FourTuple TcpError)
| EvListen (s : sender) (r : result unit TcpError)
| EvAccept (s : sender) (r : result (FourTuple * handle_id) TcpError).

Record TcpEngine := MkEngine {
  tcbs : gmap FourTuple Tcb;
  listeners : gmap SocketAddr ListenState;
  pending_connects : gmap FourTuple sender;
  isn_gen : IsnGenerator;
  config : EngineConfig;
  has_cmd_tx : bool;
  handles : gmap handle_id ConnectionHandle;
  next_handle : handle_id;
  events : list event }.

#[global] Instance eta_TcpEngine : Eta TcpEngine := fun e =>
  MkEngine (tcbs e) (listeners e) (pending_connects e) (isn_gen e) (config e) (has_cmd_tx e)
    (handles e) (next_handle e) (events e).

#[global] Instance set_tcbs : FieldSetter tcbs := ltac:(derive_setter tcbs).
#[global] Instance set_listeners : FieldSetter listeners := ltac:(derive_setter listeners).
#[global] Instance set_pending_connects : FieldSetter pending_connects :=
  ltac:(derive_setter pending_connects).
#[global] Instance set_handles : FieldSetter handles := ltac:(derive_setter handles).
#[global] Instance set_next_handle : FieldSetter next_handle := ltac:(derive_setter next_handle).
#[global] Instance set_events : FieldSetter events := ltac:(derive_setter events).

(** [TcpEngine::new] and [with_cmd_tx]; the secret is drawn by [IsnGenerator::new]. *)
Definition engine_new (gen : IsnGenerator) (cfg : EngineConfig) (cmd_tx : bool) : TcpEngine :=
  MkEngine ∅ ∅ ∅ gen cfg cmd_tx ∅ 0%nat [].

(** ** Access to a connection *)

(** The TCB of a key with the handle it names. *)
Definition get_conn (e : TcpEngine) (key : FourTuple) : outcome (option conn) :=
  match tcbs e !! key with
  | None => Done None
  | Some t =>
      match handles e !! t_handle t with
      | None => Panic
      | Some h => Done (Some (MkConn t h []))
      end
  end.

(** Publish the handle and the wake-ups of a connection. *)
Definition publish (e : TcpEngine) (c : conn) : TcpEngine :=
  let h := t_handle (c_tcb c) in
  e <| handles := <[h := c_handle c]> (handles e) |>
    <| events := events e ++ (EvWake h <$> c_wakes c) |>.

(** The connection after its handler ran on [&mut Tcb]. *)
Definition put_conn (e : TcpEngine) (key : FourTuple) (c : conn) : TcpEngine :=
  let e := publish e c in e <| tcbs := <[key := c_tcb c]> (tcbs e) |>.

(** The connection removed from the table. *)
Definition remove_conn (e : TcpEngine) (key : FourTuple) (c : conn) : TcpEngine :=
  let e := publish e c in e <| tcbs := delete key (tcbs e) |>.

Definition emit (e : TcpEngine) (ev : event) : TcpEngine :=
  e <| events := events e ++ [ev] |>.

(** A handler on an existing connection; no effect on an unknown key. *)
Definition with_conn (e : TcpEngine) (key : FourTuple)
    (f : conn -> outcome (conn * list TcpFrameParams))
    : outcome (TcpEngine * list TcpFrameParams) :=
  let! oc := get_conn e key in
  match oc with
  | None => Done (e, [])
  | Some c => let! (c, out) := f c in Done (put_conn e key c, out)
  end.

(** Fail a pending connect. *)
Definition fail_pending (e : TcpEngine) (key : FourTuple) (err : TcpError) : TcpEngine :=
  match pending_connects e !! key with
  | Some s =>
      emit (e <| pending_connects := delete key (pending_connects e) |>) (EvConnect s (Err err))
  | None => e
  end.

(** [handle.latch_error(err); set_state(Closed); ...; notify_all()]. *)
Definition close_handle (c : conn) (err : option TcpError) (with_eof : bool) : conn :=
  let h := c_handle c in
  let h := match err with Some x => latch_error h x | None => h end in
  let h := set_state h Closed in
  let h := if with_eof then set_eof h else h in
  wake_up (c <| c_handle := h |>) NotifyAll.

(** [Vec::pop]. *)
Definition vec_pop {A} (l : list A) : option (A * list A) :=
  match last l with
  | Some x => Some (x, take (length l - 1) l)
  | None => None
  end.

Section Engine.

(** [SipHasher24] (crate [siphasher]) and the key order of the TCB table. *)
Context (siphash24 : Z -> Z -> list Z -> Z).
Context (key_order : gmap FourTuple Tcb -> list FourTuple).

(** ** Connect, listen, accept *)

(** [handle_connect]. *)
Definition handle_connect (e : TcpEngine) (local_ remote_ : SocketAddr) (src_mac dst_mac : Mac)
    (handle : handle_id) (response : sender) (now : Z)
    : outcome (TcpEngine * list TcpFrameParams) :=
  let four_tuple := MkFourTuple local_ remote_ in
  if max_tcbs (config e) <=? Z.of_nat (size (tcbs e)) then
    Done (emit e (EvConnect response (Err (ResourceLimit "max TCBs exceeded"))), [])
  else
    let iss_ := generate siphash24 (isn_gen e) four_tuple now in
    let t := tcb_new four_tuple iss_ (cfg_local_mss (config e)) handle src_mac dst_mac in
    let t := t <| t_state := SynSent |> <| snd_nxt := SeqNum.add iss_ 1 |>
               <| rcv_wnd := default_rcv_wnd (config e) |>
               <| rcv_scale := default_rcv_scale (config e) |>
               <| rto_deadline := Some (now + initial_rto (config e)) |> in
    match handles e !! handle with
    | None => Panic
    | Some h =>
        let e := e <| handles := <[handle := set_state h SynSent]> (handles e) |> in
        let syn_frame := build_syn_frame t in
        let e := e <| tcbs := <[four_tuple := t]> (tcbs e) |>
                   <| pending_connects := <[four_tuple := response]> (pending_connects e) |> in
        Done (e, [syn_frame])
    end.

(** [handle_listen]. *)
Definition handle_listen (e : TcpEngine) (addr : SocketAddr) (backlog_ : Z) (response : sender)
    : TcpEngine :=
  let b := if backlog_ =? 0 then default_backlog (config e) else backlog_ in
  emit (e <| listeners := <[addr := MkListen b [] []]> (listeners e) |>)
    (EvListen response (Ok tt)).

(** [handle_accept]. *)
Definition handle_accept (e : TcpEngine) (listen_addr : SocketAddr) (response : sender)
    : TcpEngine :=
  match listeners e !! listen_addr with
  | Some l =>
      match vec_pop (completed l) with
      | Some (conn_, rest) =>
          emit (e <| listeners := <[listen_addr := l <| completed := rest |>]> (listeners e) |>)
            (EvAccept response (Ok conn_))
      | None =>
          e <| listeners := <[listen_addr :=
                 l <| accept_queue := accept_queue l ++ [response] |>]> (listeners e) |>
      end
  | None => emit e (EvAccept response (Err NotConnected))
  end.

(** ** Passive open *)

(** The listener of an address: exact, then wildcard. *)
Definition find_listener (e : TcpEngine) (addr : SocketAddr) : option SocketAddr :=
  match listeners e !! addr with
  | Some _ => Some addr
  | None =>
      match listeners e !! wildcard (port addr) with
      | Some _ => Some (wildcard (port addr))
      | None => None
      end
  end.

(** The embryonic connections of a listener. *)
Definition embryonic (e : TcpEngine) (listen_addr : SocketAddr) : nat :=
  size (filter (fun kt : FourTuple * Tcb =>
          t_state kt.2 = SynReceived /\
          (local (t_key kt.2) = listen_addr \/ port (local (t_key kt.2)) = port listen_addr))
        (tcbs e)).

(** The TCB of a passive open; [Panic] is the shift of the peer's window by its
    scale. *)
Definition passive_tcb (e : TcpEngine) (seg : ParsedTcpSegment) (four_tuple : FourTuple)
    (handle : handle_id) (src_mac dst_mac : Mac) (now : Z) : outcome Tcb :=
  let iss_ := generate siphash24 (isn_gen e) four_tuple now in
  let peer_mss_ := match o_mss (seg_options seg) with Some m => m | None => DEFAULT_PEER_MSS end in
  let peer_wscale :=
    match o_window_scale (seg_options seg) with Some w => w | None => 0 end in
  let! w := shl32 (seg_window seg) peer_wscale in
  let t := tcb_new four_tuple iss_ (cfg_local_mss (config e)) handle src_mac dst_mac in
  Done (t <| t_state := SynReceived |> <| snd_nxt := SeqNum.add iss_ 1 |>
          <| rcv_nxt := SeqNum.add (seg_seq seg) 1 |> <| irs := seg_seq seg |>
          <| peer_mss := peer_mss_ |> <| snd_scale := peer_wscale |>
          <| rcv_scale := default_rcv_scale (config e) |>
          <| rcv_wnd := default_rcv_wnd (config e) |> <| snd_wnd := w |>
          <| rto_deadline := Some (now + initial_rto (config e)) |>
          <| congestion := Congestion.new (Z.min (cfg_local_mss (config e)) peer_mss_) |>).

(** [handle_syn_with_macs], with the MAC addresses of the outbound frames. *)
Definition handle_syn_macs (e : TcpEngine) (seg : ParsedTcpSegment) (four_tuple : FourTuple)
    (src_mac dst_mac : Mac) (now : Z) : outcome (TcpEngine * list TcpFrameParams) :=
  let reject := let! out := send_rst_for_segment seg in Done (e, out) in
  let listen_addr := seg_dst seg in
  match find_listener e listen_addr with
  | None => reject
  | Some addr =>
      match listeners e !! addr with
      | None => reject
      | Some l =>
          let pending_count := Z.of_nat (embryonic e listen_addr + length (completed l)) in
          if backlog l <=? pending_count then reject
          else if max_tcbs (config e) <=? Z.of_nat (size (tcbs e)) then reject
          else
            let hid := next_handle e in
            let! t := passive_tcb e seg four_tuple hid src_mac dst_mac now in
            let h := set_state (handle_new 65536 65536 (has_cmd_tx e) four_tuple) SynReceived in
            let e := e <| handles := <[hid := h]> (handles e) |> <| next_handle := S hid |> in
            let syn_ack := build_syn_ack_frame t in
            Done (e <| tcbs := <[four_tuple := t]> (tcbs e) |>, [syn_ack])
      end
  end.

(** [handle_syn]: the placeholder addresses of [extract_macs_from_segment]. *)
Definition handle_syn (e : TcpEngine) (seg : ParsedTcpSegment) (four_tuple : FourTuple) (now : Z)
    : outcome (TcpEngine * list TcpFrameParams) :=
  handle_syn_macs e seg four_tuple mac_zero mac_zero now.

(** ** Handshake completion *)

(** [handle_syn_ack], the connection. *)
Definition syn_ack_conn (c : conn) (seg : ParsedTcpSegment) : outcome (conn * list TcpFrameParams) :=
  let t := c_tcb c in
  let peer_mss_ := match o_mss (seg_options seg) with Some m => m | None => DEFAULT_PEER_MSS end in
  let peer_wscale :=
    match o_window_scale (seg_options seg) with Some w => w | None => 0 end in
  let! w := shl32 (seg_window seg) peer_wscale in
  let t := t <| t_state := Established |> <| snd_una := seg_ack seg |>
             <| rcv_nxt := SeqNum.add (seg_seq seg) 1 |> <| irs := seg_seq seg |>
             <| rto_deadline := None |> <| peer_mss := peer_mss_ |>
             <| snd_scale := peer_wscale |> <| snd_wnd := w |>
             <| congestion := Congestion.new (Z.min (local_mss t) peer_mss_) |> in
  let c := wake_up (c <| c_tcb := t |> <| c_handle := set_state (c_handle c) Established |>)
             NotifyAll in
  Done (c, [tcb_params t (snd_nxt t) (rcv_nxt t) TcpFlags.ACK
              (encode_window (rcv_wnd t) (rcv_scale t)) options_default []]).

(** [handle_syn_ack]. *)
Definition handle_syn_ack (e : TcpEngine) (seg : ParsedTcpSegment) (four_tuple : FourTuple)
    : outcome (TcpEngine * list TcpFrameParams) :=
  let! oc := get_conn e four_tuple in
  match oc with
  | None => Done (e, [])
  | Some c =>
      if negb (seg_ack seg =? SeqNum.add (iss (c_tcb c)) 1) then Done (e, [])
      else
        let! (c, out) := syn_ack_conn c seg in
        let e := put_conn e four_tuple c in
        let e :=
          match pending_connects e !! four_tuple with
          | Some s =>
              emit (e <| pending_connects := delete four_tuple (pending_connects e) |>)
                (EvConnect s (Ok four_tuple))
          | None => e
          end in
        Done (e, out)
  end.

(** Hand a completed connection to a waiting accept or queue it. *)
Definition deliver_accept (e : TcpEngine) (key : FourTuple) (handle : handle_id)
    (listen_addr : SocketAddr) : TcpEngine :=
  match find_listener e listen_addr with
  | None => e
  | Some addr =>
      match listeners e !! addr with
      | None => e
      | Some l =>
          match vec_pop (accept_queue l) with
          | Some (s, rest) =>
              emit (e <| listeners := <[addr := l <| accept_queue := rest |>]> (listeners e) |>)
                (EvAccept s (Ok (key, handle)))
          | None =>
              e <| listeners := <[addr := l <| completed := completed l ++ [(key, handle)] |>]>
                                  (listeners e) |>
          end
      end
  end.

(** [handle_ack_for_syn_received]. *)
Definition handle_ack_for_syn_received (e : TcpEngine) (seg : ParsedTcpSegment)
    (four_tuple : FourTuple) : outcome (TcpEngine * list TcpFrameParams) :=
  let! oc := get_conn e four_tuple in
  match oc with
  | None => Done (e, [])
  | Some c =>
      let t := c_tcb c in
      if negb (bool_decide (t_state t = SynReceived)) then Done (e, [])
      else if negb (seg_ack seg =? SeqNum.add (iss t) 1) then Done (e, [])
      else
        let t := t <| t_state := Established |> <| snd_una := seg_ack seg |>
                   <| rto_deadline := None |> in
        let c := wake_up (c <| c_tcb := t |>
                            <| c_handle := set_state (c_handle c) Established |>) NotifyAll in
        let e := put_conn e four_tuple c in
        Done (deliver_accept e four_tuple (t_handle t) (local (t_key t)), [])
  end.

(** [handle_last_ack]. *)
Definition handle_last_ack (e : TcpEngine) (seg : ParsedTcpSegment) (four_tuple : FourTuple)
    : outcome (TcpEngine * list TcpFrameParams) :=
  let! oc := get_conn e four_tuple in
  match oc with
  | None => Done (e, [])
  | Some c =>
      if TcpFlags.contains (seg_flags seg) TcpFlags.ACK && (seg_ack seg =? snd_nxt (c_tcb c))
      then Done (remove_conn e four_tuple (close_handle c None false), [])
      else Done (e, [])
  end.

(** [handle_existing_tcb]. *)
Definition handle_existing_tcb (e : TcpEngine) (seg : ParsedTcpSegment) (four_tuple : FourTuple)
    (now : Z) : outcome (TcpEngine * list TcpFrameParams) :=
  match tcbs e !! four_tuple with
  | None => Done (e, [])
  | Some t =>
      let has f := TcpFlags.contains (seg_flags seg) f in
      match t_state t with
      | SynSent =>
          if has TcpFlags.SYN && has TcpFlags.ACK then handle_syn_ack e seg four_tuple
          else Done (e, [])
      | SynReceived =>
          if has TcpFlags.ACK && negb (has TcpFlags.SYN)
          then handle_ack_for_syn_received e seg four_tuple else Done (e, [])
      | Established => with_conn e four_tuple (fun c => handle_established c seg now)
      | FinWait1 => with_conn e four_tuple (fun c => handle_fin_wait_1 c seg now)
      | FinWait2 => with_conn e four_tuple (fun c => handle_fin_wait_2 c seg now)
      | CloseWait => with_conn e four_tuple (fun c => Done (handle_close_wait c seg, []))
      | LastAck => handle_last_ack e seg four_tuple
      | Closing => with_conn e four_tuple (fun c => Done (handle_closing c seg now, []))
      | TimeWait => with_conn e four_tuple (fun c => handle_time_wait c seg now)
      | Closed | Listen => Done (e, [])
      end
  end.

(** ** Resets *)

(** [handle_rst_rfc5961]. *)
Definition handle_rst_rfc5961 (e : TcpEngine) (seg : ParsedTcpSegment) (four_tuple : FourTuple)
    : outcome (TcpEngine * list TcpFrameParams) :=
  let! oc := get_conn e four_tuple in
  match oc with
  | None => Done (e, [])
  | Some c =>
      let t := c_tcb c in
      if seg_seq seg =? rcv_nxt t then
        Done (remove_conn e four_tuple (close_handle c (Some ConnectionReset) true), [])
      else if is_in_window (seg_seq seg) (rcv_nxt t) (rcv_wnd t) then
        let! challenge_ack := build_ack_for_tcb c in
        Done (e, [challenge_ack])
      else Done (e, [])
  end.

(** [handle_rst]. *)
Definition handle_rst (e : TcpEngine) (seg : ParsedTcpSegment) (four_tuple : FourTuple)
    : outcome (TcpEngine * list TcpFrameParams) :=
  let! oc := get_conn e four_tuple in
  match oc with
  | None => Done (e, [])
  | Some c =>
      let t := c_tcb c in
      match t_state t with
      | SynSent =>
          if TcpFlags.contains (seg_flags seg) TcpFlags.ACK
             && (seg_ack seg =? SeqNum.add (iss t) 1)
          then
            let e := remove_conn e four_tuple (close_handle c (Some ConnectionRefused) false) in
            Done (fail_pending e four_tuple ConnectionRefused, [])
          else Done (e, [])
      | SynReceived =>
          if seg_seq seg =? rcv_nxt t
          then Done (remove_conn e four_tuple (close_handle c (Some ConnectionReset) false), [])
          else Done (e, [])
      | Established | FinWait1 | FinWait2 | CloseWait | Closing | LastAck | TimeWait =>
          handle_rst_rfc5961 e seg four_tuple
      | Closed | Listen => Done (e, [])
      end
  end.

(** ** Close *)

(** [handle_shutdown]. *)
Definition handle_shutdown (e : TcpEngine) (key : FourTuple) (how : Shutdown) (now : Z)
    : outcome (TcpEngine * list TcpFrameParams) :=
  with_conn e key (fun c => shutdown_conn c how now).

(** [handle_close_rst]. *)
Definition handle_close_rst (e : TcpEngine) (key : FourTuple)
    : outcome (TcpEngine * list TcpFrameParams) :=
  let! oc := get_conn e key in
  match oc with
  | None => Done (e, [])
  | Some c =>
      let t := c_tcb c in
      let frame := tcb_params t (snd_nxt t) (rcv_nxt t)
                     (TcpFlags.union TcpFlags.RST TcpFlags.ACK) 0 options_default [] in
      Done (remove_conn e key (close_handle c (Some ConnectionAborted) true), [frame])
  end.

(** [handle_close]. *)
Definition handle_close (e : TcpEngine) (key : FourTuple) (linger : option Z) (now : Z)
    : outcome (TcpEngine * list TcpFrameParams) :=
  match linger with
  | Some 0 => handle_close_rst e key
  | _ => handle_shutdown e key ShutWrite now
  end.

(** [handle_set_option]. *)
Definition handle_set_option (e : TcpEngine) (key : FourTuple) (option_ : SocketOption)
    : outcome (TcpEngine * list TcpFrameParams) :=
  with_conn e key (fun c => Done (set_option_conn c option_, [])).

(** ** Entry points *)

(** The dispatch of [on_segment] and [on_segment_with_macs]: with the frame's
    MAC addresses, or without. *)
Definition segment_step (e : TcpEngine) (seg : ParsedTcpSegment) (macs : option (Mac * Mac))
    (now : Z) : outcome (TcpEngine * list TcpFrameParams) :=
  let four_tuple := MkFourTuple (seg_dst seg) (seg_src seg) in
  let has f := TcpFlags.contains (seg_flags seg) f in
  if has TcpFlags.RST then handle_rst e seg four_tuple
  else if bool_decide (is_Some (tcbs e !! four_tuple)) then handle_existing_tcb e seg four_tuple now
  else if has TcpFlags.SYN && negb (has TcpFlags.ACK) then
    match macs with
    | None => handle_syn e seg four_tuple now
    | Some (frame_src_mac, frame_dst_mac) =>
        handle_syn_macs e seg four_tuple frame_dst_mac frame_src_mac now
    end
  else Done (e, []).

(** The dispatch of [on_command]. *)
Definition command_step (e : TcpEngine) (cmd : EngineCommand) (now : Z)
    : outcome (TcpEngine * list TcpFrameParams) :=
  match cmd with
  | CmdConnect l r sm dm h s => handle_connect e l r sm dm h s now
  | CmdListen addr b s => Done (handle_listen e addr b s, [])
  | CmdAccept addr s => Done (handle_accept e addr s, [])
  | CmdShutdown key how => handle_shutdown e key how now
  | CmdSetOption key o => handle_set_option e key o
  | CmdClose key linger => handle_close e key linger now
  end.

(** Pass 1 of [on_tick]: the connections whose TIME_WAIT or FIN_WAIT_2 ended. *)
Definition is_expired (t : Tcb) (now : Z) : bool :=
  match t_state t with
  | TimeWait => due (time_wait_deadline t) now
  | FinWait2 => due (fin_wait2_deadline t) now
  | _ => false
  end.

Definition key_expired (e : TcpEngine) (now : Z) (k : FourTuple) : bool :=
  match tcbs e !! k with
  | Some t => is_expired t now
  | None => false
  end.

Definition expired_keys (e : TcpEngine) (keys : list FourTuple) (now : Z) : list FourTuple :=
  filter (fun k => key_expired e now k = true) keys.

Fixpoint expire_all (e : TcpEngine) (keys : list FourTuple) : outcome TcpEngine :=
  match keys with
  | [] => Done e
  | k :: ks =>
      let! oc := get_conn e k in
      match oc with
      | None => expire_all e ks
      | Some c => expire_all (remove_conn e k (close_handle c None true)) ks
      end
  end.

(** Pass 2 of [on_tick]: one connection, then all of them. *)
Definition tick_key (e : TcpEngine) (key : FourTuple) (now : Z)
    : outcome (TcpEngine * list TcpFrameParams) :=
  let! oc := get_conn e key in
  match oc with
  | None => Done (e, [])
  | Some c =>
      let! r := tick_conn c now (max_retries (config e)) in
      match r with
      | TickKeep c out => Done (put_conn e key c, out)
      | TickAbort c fail_connect =>
          let e := remove_conn e key c in
          Done (if fail_connect then fail_pending e key TimedOut else e, [])
      end
  end.

Fixpoint tick_keys (e : TcpEngine) (keys : list FourTuple) (now : Z)
    : outcome (TcpEngine * list TcpFrameParams) :=
  match keys with
  | [] => Done (e, [])
  | k :: ks =>
      let! (e, out) := tick_key e k now in
      let! (e, out') := tick_keys e ks now in
      Done (e, out ++ out')
  end.

(** The body of [on_tick]. *)
Definition tick_step (e : TcpEngine) (now : Z) : outcome (TcpEngine * list TcpFrameParams) :=
  let! e := expire_all e (expired_keys e (key_order (tcbs e)) now) in
  tick_keys e (key_order (tcbs e)) now.

(** [build_tcp_frame] at every site: a frame that cannot be built is skipped. *)
Fixpoint transmit (ps : list TcpFrameParams) : outcome (list (list Z)) :=
  match ps with
  | [] => Done []
  | p :: ps =>
      let! r := build_tcp_frame p in
      let! fs := transmit ps in
      Done (match r with Ok f => f :: fs | Err _ => fs end)
  end.

Definition framed (m : outcome (TcpEngine * list TcpFrameParams))
    : outcome (TcpEngine * list (list Z)) :=
  let! (e, ps) := m in
  let! fs := transmit ps in
  Done (e, fs).

(** [on_segment], [on_segment_with_macs], [on_command] and [on_tick]. *)
Definition on_segment e seg now := framed (segment_step e seg None now).

Definition on_segment_with_macs e seg (frame_src_mac frame_dst_mac : Mac) now :=
  framed (segment_step e seg (Some (frame_src_mac, frame_dst_mac)) now).

Definition on_command e cmd now := framed (command_step e cmd now).

Definition on_tick e now := framed (tick_step e now).

(** ** Timers *)

(** [earliest] joined with one deadline. *)
Definition join_deadline (earliest : option Z) (d : option Z) : option Z :=
  match d with
  | None => earliest
  | Some d =>
      Some (match earliest with
            | Some e => if d <? e then d else e
            | None => d
            end)
  end.

Definition tcb_deadlines (t : Tcb) : list (option Z) :=
  [rto_deadline t; persist_deadline t; keepalive_deadline t; time_wait_deadline t;
   fin_wait2_deadline t; delayed_ack_deadline t].

(** [next_timer_deadline]. *)
Definition next_timer_deadline (e : TcpEngine) : option Z :=
  foldl (fun acc k =>
           match tcbs e !! k with
           | Some t => foldl join_deadline acc (tcb_deadlines t)
           | None => acc
           end) None (key_order (tcbs e)).

End Engine.
