(* ===== verification/EngineRx.v ===== *)
(** * Receive path: the delivered bytes are the peer's stream

    The peer cuts its byte stream into segments; the network may lose, repeat and
    reorder them, and the application reads in between.  Whatever happens, what the
    application gets is a prefix of the stream; and when the receive ring has room,
    a prefix that has arrived is delivered. *)

From stdpp Require Import base numbers list gmap.
From Stdlib Require Import ZArith Lia.
From S2P Require Import Prelude Seq State Codec Ring Congestion Contract Tcb Conn.

(** ** Segmented streams *)

Section Stream.

(** The segments the peer cuts its stream into, and the sequence number of the
    first byte (an unbounded integer; only its residue is on the wire). *)
Context (bs : list (list Z)) (base : Z).

Definition stream : list Z := concat bs.

(** Stream position of segment [i]. *)
Definition pos (i : nat) : Z := zlen (concat (take i bs)).

Lemma pos_S i b : bs !! i = Some b -> pos (S i) = pos i + zlen b.
Proof.
  intros Hb. unfold pos. rewrite (take_S_r _ _ b) by done.
  rewrite concat_app, zlen_app. cbn [concat]. by rewrite app_nil_r.
Qed.

Lemma pos_mono i j : (i <= j)%nat -> pos i <= pos j.
Proof.
  intros H. unfold pos. replace j with (i + (j - i))%nat by lia. generalize (j - i)%nat. intros d.
  rewrite <- (take_drop i (take (i + d) bs)), take_take, Nat.min_l by lia.
  rewrite concat_app, zlen_app. pose proof (zlen_nonneg (concat (drop i (take (i + d) bs)))). lia.
Qed.

Lemma pos_nonneg i : 0 <= pos i.
Proof. apply zlen_nonneg. Qed.

Lemma pos_le_stream i : pos i <= zlen stream.
Proof.
  unfold pos, stream. rewrite <- (take_drop i bs) at 2. rewrite concat_app, zlen_app.
  pose proof (zlen_nonneg (concat (drop i bs))). lia.
Qed.

(** A segment's bytes are the stream's at its position. *)
Lemma stream_at i b :
  bs !! i = Some b -> take (length b) (drop (Z.to_nat (pos i)) stream) = b.
Proof.
  intros Hb. unfold stream, pos, zlen. rewrite Nat2Z.id.
  rewrite <- (take_drop_middle bs i b Hb) at 2. rewrite concat_app. cbn [concat].
  by rewrite drop_app_length, take_app_length.
Qed.

Lemma stream_extend n i b w :
  bs !! i = Some b -> n = pos i -> 0 <= w <= zlen b ->
  take (Z.to_nat n) stream ++ take (Z.to_nat w) b = take (Z.to_nat (n + w)) stream.
Proof.
  intros Hb -> Hw. pose proof (pos_nonneg i).
  rewrite Z2Nat.inj_add, <- take_take_drop by lia. f_equal.
  rewrite <- (stream_at i b Hb) at 1. rewrite take_take. f_equal. unfold zlen in Hw. lia.
Qed.

Hypothesis bs_nonempty : Forall (fun b => b <> []) bs.

Hypothesis stream_short : zlen stream < 2 ^ 31.

Lemma seg_len_pos i b : bs !! i = Some b -> 0 < zlen b.
Proof.
  intros Hb. assert (b <> []) as Hne by (eapply Forall_lookup_1 in bs_nonempty; done).
  destruct b; [done|]. unfold zlen. cbn. lia.
Qed.

(** Segments at or after position [pos i] other than [i] start after its end. *)
Lemma pos_after i j b : bs !! i = Some b -> pos i < pos j -> pos i + zlen b <= pos j.
Proof.
  intros Hb Hlt. rewrite <- (pos_S i b Hb). apply pos_mono.
  destruct (Nat.le_gt_cases j i) as [Hle|]; [|lia]. apply pos_mono in Hle. lia.
Qed.

Lemma pos_inj i j b b' :
  bs !! i = Some b -> bs !! j = Some b' -> pos i = pos j -> i = j.
Proof.
  intros Hi Hj E. destruct (Nat.lt_trichotomy i j) as [Hlt|[|Hgt]]; [|done|].
  - pose proof (pos_mono (S i) j ltac:(lia)) as H. rewrite (pos_S i b Hi) in H.
    pose proof (seg_len_pos i b Hi). lia.
  - pose proof (pos_mono (S j) i ltac:(lia)) as H. rewrite (pos_S j b' Hj) in H.
    pose proof (seg_len_pos j b' Hj). lia.
Qed.

(** ** Buffered segments *)

(** The reorder buffer holds segments of the stream, keyed by their distance
    from the next expected position [n]. *)
Definition holds (n : Z) (m : gmap Z (list Z)) : Prop :=
  forall k d, m !! k = Some d -> 0 <= k /\ exists i, bs !! i = Some d /\ pos i = n + k.

(** Every segment of [seen] is delivered or buffered. *)
Definition covers (n : Z) (m : gmap Z (list Z)) (seen : list nat) : Prop :=
  forall j b, j ∈ seen -> bs !! j = Some b ->
    pos j + zlen b <= n \/ m !! (pos j - n) = Some b.

#[local] Instance sub_inj w : Inj eq eq (fun k : Z => k - w).
Proof. intros a b E. lia. Qed.

Lemma size_kmap_sub w (m : gmap Z (list Z)) :
  size (kmap (fun k => k - w) m : gmap Z (list Z)) = size m.
Proof.
  rewrite <- !length_map_to_list, (map_to_list_kmap (fun k => k - w)). apply length_fmap.
Qed.

Lemma rebase_holds n m w i b :
  holds n m -> m !! 0 = None -> bs !! i = Some b -> n = pos i -> 0 <= w <= zlen b ->
  exists m', rebase m w = Done m' /\ size m' = size m /\ holds (n + w) m' /\
    (forall k, m' !! (k - w) = m !! k).
Proof.
  intros Hm H0 Hb -> Hw. unfold rebase. rewrite bool_decide_eq_true_2.
  - eexists. split; [reflexivity|]. split_and!.
    + apply size_kmap_sub.
    + intros k' d Hk'. apply lookup_kmap_Some in Hk' as (k & -> & Hk); [|apply _].
      destruct (Hm k d Hk) as (Hk0 & j & Hj & Hp).
      assert (k <> 0) by (intros ->; congruence).
      pose proof (pos_after i j b Hb ltac:(lia)). split; [lia|].
      exists j. split; [done|lia].
    + intros k. apply (lookup_kmap (fun k => k - w)).
  - intros k d Hk. destruct (Hm k d Hk) as (Hk0 & j & Hj & Hp).
    assert (k <> 0) by (intros ->; congruence).
    pose proof (pos_after i j b Hb ltac:(lia)). lia.
Qed.

(** The rebase that follows a delivery, skipped when nothing was written or
    nothing is left. *)
Lemma rebase_step n m w i b :
  holds n m -> m !! 0 = None -> bs !! i = Some b -> n = pos i -> 0 <= w <= zlen b ->
  exists m', (if (0 <? w) && negb (bool_decide (m = ∅)) then rebase m w else Done m) = Done m' /\
    size m' = size m /\ holds (n + w) m' /\ (forall k, m' !! (k - w) = m !! k).
Proof.
  intros Hm H0 Hb Hn Hw. destruct (Z.ltb_spec 0 w); [case_bool_decide as He|]; cbn [andb negb].
  - subst m. exists ∅. by split_and!.
  - by eapply rebase_holds.
  - exists m. assert (w = 0) as -> by lia. rewrite Z.add_0_r. split_and!; [done..|].
    intros k. by rewrite Z.sub_0_r.
Qed.

Lemma holds_delete n m k : holds n m -> holds n (delete k m).
Proof. intros H k' d Hd. apply lookup_delete_Some in Hd as [_ Hd]. by apply H. Qed.

(** ** Delivery *)

(** The receive side of a connection at stream position [n]: [got] is what the
    application has read. *)
Record rx_at (c : conn) (got : list Z) (n : Z) : Prop := {
  rx_nxt : rcv_nxt (c_tcb c) = u32 (base + n);
  rx_ring_wf : SpscByteRing.wf (rx_ring (c_handle c));
  rx_bytes : got ++ SpscByteRing.contents (rx_ring (c_handle c)) = take (Z.to_nat n) stream;
  rx_pos : 0 <= n <= zlen stream }.

(** A step of the receive path that leaves everything else of the connection
    as it was. *)
Definition rx_only (c c' : conn) : Prop :=
  SpscByteRing.capacity (rx_ring (c_handle c')) = SpscByteRing.capacity (rx_ring (c_handle c)) /\
  rcv_scale (c_tcb c') = rcv_scale (c_tcb c) /\ snd_scale (c_tcb c') = snd_scale (c_tcb c) /\
  segments_since_ack (c_tcb c') = segments_since_ack (c_tcb c) /\
  reorder_buffer (c_tcb c') = reorder_buffer (c_tcb c).

#[global] Instance rx_only_preorder : PreOrder rx_only.
Proof.
  split; unfold rx_only; [done|].
  intros a b c (? & ? & ? & ? & ?) (? & ? & ? & ? & ?). split_and!; congruence.
Qed.

Lemma deliver_segment c got n i b :
  rx_at c got n -> bs !! i = Some b -> n = pos i ->
  exists c' w, deliver c b = Done (c', w) /\ 0 <= w <= zlen b /\ rx_at c' got (n + w) /\
    rx_only c c' /\
    (zlen stream <= SpscByteRing.capacity (rx_ring (c_handle c)) -> w = zlen b).
Proof.
  intros [Hn Hwf Hb Hp] Hi Hpos. unfold deliver.
  destruct (SpscByteRing.write_spec _ b Hwf) as (r' & -> & Hwf' & Hcap & Hc).
  set (w := Z.min _ _) in *. rewrite obind_Done.
  pose proof (SpscByteRing.available_range _ Hwf) as Hav. pose proof (zlen_nonneg b).
  assert (0 <= w <= zlen b) as Hw by lia.
  pose proof (pos_S i b Hi) as HS. pose proof (pos_le_stream (S i)) as Hle.
  destruct (SpscByteRing.capacity_pos _ Hwf) as [_ Hcmax].
  eexists _, w. split; [reflexivity|]. split; [exact Hw|]. split_and!; try done.
  - constructor; rsimpl; try done; try lia.
    + rewrite Hn. unfold SeqNum.add. wrap_lia.
    + rewrite Hc, app_assoc, Hb. apply (stream_extend n i b w); try done; lia.
  - intros Hroom. pose proof (SpscByteRing.available_contents _ Hwf) as Eav.
    apply (f_equal length) in Hb. rewrite length_app, length_take in Hb.
    unfold zlen in *. lia.
Qed.

Lemma covers_delete n m seen i b w :
  covers n m seen -> bs !! i = Some b -> n = pos i -> w = zlen b ->
  forall m', (forall k, k <> 0 -> m' !! (k - w) = m !! k) -> covers (n + w) m' seen.
Proof.
  intros Hc Hi -> -> m' Hm j d Hj Hd. destruct (Hc j d Hj Hd) as [Hle|Hk].
  - left. pose proof (zlen_nonneg b). lia.
  - destruct (Z.eq_dec (pos j) (pos i)) as [E|E].
    + left. pose proof (pos_inj j i d b Hd Hi E) as ->. rewrite Hd in Hi. injection Hi as ->. lia.
    + right. rewrite <- Hk, <- Hm by lia. f_equal. lia.
Qed.

(** The drain loop: with as much fuel as entries it returns, having delivered a
    run of buffered segments; afterwards the next expected segment is not
    buffered. *)
Lemma drain_reorder_spec fuel : forall c got n m seen cnt,
  rx_at c got n -> holds n m -> (size m <= fuel)%nat -> 0 <= cnt ->
  cnt + Z.of_nat (size m) <= U32_MAX ->
  exists c' n' m' cnt', drain_reorder fuel c m cnt = Done (c', m', cnt') /\
    rx_at c' got n' /\ n <= n' /\ rx_only c c' /\ holds n' m' /\ m' !! 0 = None /\
    0 <= cnt' <= cnt + Z.of_nat (size m) /\
    (zlen stream <= SpscByteRing.capacity (rx_ring (c_handle c)) ->
     covers n m seen -> (exists k, n = pos k) ->
     covers n' m' seen /\ (exists k, n' = pos k)).
Proof.
  induction fuel as [|fuel IH]; intros c got n m seen cnt Hrx Hm Hf Hc0 Hcnt.
  { assert (m = ∅) as -> by (apply map_size_empty_iff; lia).
    exists c, n, ∅, cnt. cbn. rewrite lookup_empty. split_and!; try done; try lia. }
  cbn [drain_reorder]. destruct (m !! 0) as [data|] eqn:E0.
  2: { exists c, n, m, cnt. split_and!; try done; try lia. }
  destruct (Hm 0 data E0) as (_ & i & Hi & Hpos).
  assert (n = pos i) as Hni by lia.
  destruct (deliver_segment c got n i data Hrx Hi Hni) as (c1 & w & -> & Hw & Hrx1 & Hro1 & Hfull).
  rewrite obind_Done.
  assert (size m = S (size (delete 0 m))) as Hsz.
  { rewrite map_size_delete_Some by done. assert (size m <> 0%nat); [|lia].
    intros E. apply map_size_empty_iff in E. subst m. by rewrite lookup_empty in E0. }
  unfold add32 at 1. unfold U32_MAX in *.
  destruct (Z.leb_spec (cnt + 1) 4294967295); [|lia]. rewrite obind_Done.
  assert (holds n (delete 0 m)) as Hm1 by (by apply holds_delete).
  assert (exists m1, (if (0 <? w) && negb (bool_decide (delete 0 m = ∅))
            then rebase (delete 0 m) (u32 w) else Done (delete 0 m)) = Done m1 /\
          size m1 = size (delete 0 m) /\ holds (n + w) m1 /\
          (forall k, k <> 0 -> m1 !! (k - w) = m !! k)) as (m1 & -> & Hsz1 & Hh1 & Hl1).
  { rewrite u32_small by (unfold is_u32; pose proof (pos_S i data Hi);
      pose proof (pos_le_stream (S i)); pose proof (pos_nonneg i); lia).
    destruct (rebase_step n (delete 0 m) w i data) as (m1 & E & E1 & E2 & E3); try done.
    { by rewrite lookup_delete_eq. }
    exists m1. split_and!; try done. intros k Hk. by rewrite E3, lookup_delete_ne. }
  rewrite obind_Done.
  destruct (IH c1 got (n + w) m1 seen (cnt + 1)) as (c' & n' & m' & cnt' & HI); [done|done|lia..|].
  destruct HI as (Hd & Hrx' & Hn' & Hro' & Hh' & H0' & Hc' & Hcov).
  exists c', n', m', cnt'. split_and!; try done; try lia.
  - by etransitivity.
  - intros Hroom Hcv _. apply Hcov.
    + destruct Hro1 as [-> _]. done.
    + eapply covers_delete; eauto.
    + exists (S i). rewrite (pos_S i data Hi), Hni, (Hfull Hroom). done.
Qed.

(** ** The receive invariant *)

(** Scales that cannot make a shift panic, and a delayed-ACK counter below its
    threshold. *)
Definition rx_params (c : conn) : Prop :=
  rcv_scale (c_tcb c) < 32 /\ snd_scale (c_tcb c) < 32 /\
  0 <= segments_since_ack (c_tcb c) <= 1.

Record rx_inv (c : conn) (got : list Z) (n : Z) (seen : list nat) : Prop := {
  inv_at : rx_at c got n;
  inv_holds : holds n (reorder_buffer (c_tcb c));
  inv_gap : reorder_buffer (c_tcb c) !! 0 = None;
  inv_params : rx_params c;
  inv_covers : zlen stream <= SpscByteRing.capacity (rx_ring (c_handle c)) ->
    covers n (reorder_buffer (c_tcb c)) seen /\ exists k, n = pos k }.

Lemma holds_size n m : 0 <= n -> holds n m -> Z.of_nat (size m) <= zlen stream + 1.
Proof.
  intros Hn Hm. rewrite <- size_dom.
  assert (dom m ⊆ (list_to_set (seqZ 0 (zlen stream + 1)) : gset Z)) as Hsub.
  { intros k Hk. apply elem_of_dom in Hk as [d Hd]. destruct (Hm k d Hd) as (H0 & i & _ & Hp).
    apply elem_of_list_to_set, elem_of_seqZ. pose proof (pos_le_stream i). lia. }
  apply subseteq_size in Hsub. rewrite size_list_to_set in Hsub by apply NoDup_seqZ.
  rewrite length_seqZ in Hsub. pose proof (zlen_nonneg stream). lia.
Qed.

Lemma window_total t h :
  SpscByteRing.wf (rx_ring h) -> rcv_scale t < 32 ->
  exists w, encode_established_window t h = Done w.
Proof.
  intros Hwf Hs. unfold encode_established_window, SpscByteRing.available_write, shr32.
  pose proof (SpscByteRing.available_range _ Hwf) as Ha. unfold SpscByteRing.available_read in Ha.
  destruct (Z.ltb_spec (SpscByteRing.capacity (rx_ring h))
    (wsub64 (SpscByteRing.head (rx_ring h)) (SpscByteRing.tail (rx_ring h)))); [lia|].
  rewrite obind_Done. destruct (Z.ltb_spec (rcv_scale t) 32); [|lia].
  rewrite obind_Done. eauto.
Qed.

Lemma ack_total c :
  SpscByteRing.wf (rx_ring (c_handle c)) -> rcv_scale (c_tcb c) < 32 ->
  exists p, build_ack_for_tcb c = Done p.
Proof.
  intros Hwf Hs. unfold build_ack_for_tcb, segment_params.
  destruct (window_total (c_tcb c) (c_handle c) Hwf Hs) as [w ->]. rewrite obind_Done. eauto.
Qed.

(** ACK processing does not touch the receive side. *)
Lemma new_ack_receive_side t ack :
  let t' := established_new_ack t ack in
  rcv_nxt t' = rcv_nxt t /\ reorder_buffer t' = reorder_buffer t /\
  rcv_scale t' = rcv_scale t /\ snd_scale t' = snd_scale t /\
  segments_since_ack t' = segments_since_ack t.
Proof.
  unfold established_new_ack, clear_nagle, drain_acked. cbv zeta. rsimpl.
  destruct (0 <? _)%nat; destruct (_ =? _); rsimpl; done.
Qed.

Lemma ack_leaves_receive_side c seg :
  let c1 := if ack_is_new (c_tcb c) (seg_ack seg)
            then wake_up (c <| c_tcb := established_new_ack (c_tcb c) (seg_ack seg) |>) WakeWriter else c in
  c_handle c1 = c_handle c /\
  rcv_nxt (c_tcb c1) = rcv_nxt (c_tcb c) /\ reorder_buffer (c_tcb c1) = reorder_buffer (c_tcb c) /\
  rcv_scale (c_tcb c1) = rcv_scale (c_tcb c) /\ snd_scale (c_tcb c1) = snd_scale (c_tcb c) /\
  segments_since_ack (c_tcb c1) = segments_since_ack (c_tcb c).
Proof.
  intros c1. subst c1. destruct (ack_is_new _ _); [|done]. unfold wake_up. rsimpl.
  destruct (new_ack_receive_side (c_tcb c) (seg_ack seg)) as (? & ? & ? & ? & ?). done.
Qed.

Lemma established_ack_returned c seg c' :
  established_ack c seg = Done c' -> c_handle c' = c_handle c /\
    rcv_nxt (c_tcb c') = rcv_nxt (c_tcb c) /\
    reorder_buffer (c_tcb c') = reorder_buffer (c_tcb c) /\
    rcv_scale (c_tcb c') = rcv_scale (c_tcb c) /\ snd_scale (c_tcb c') = snd_scale (c_tcb c) /\
    segments_since_ack (c_tcb c') = segments_since_ack (c_tcb c).
Proof.
  unfold established_ack. pose proof (ack_leaves_receive_side c seg) as Hc1. cbv zeta in Hc1.
  set (c1 := if ack_is_new _ _ then _ else _) in *. clearbody c1. unfold update_send_window, shl32.
  destruct (_ || _); [destruct (_ <? _); [|done]|]; rewrite !obind_Done; intros [= <-]; by rsimpl.
Qed.

(** An acknowledgment stops the engine only at a send scale of 32 or more. *)
Lemma established_ack_outcome c seg :
  (exists c', established_ack c seg = Done c') \/ (established_ack c seg = Panic /\ 32 <= snd_scale (c_tcb c)).
Proof.
  unfold established_ack. pose proof (ack_leaves_receive_side c seg) as (_ & _ & _ & _ & Hsc & _). cbv zeta in Hsc.
  set (c1 := if ack_is_new _ _ then _ else _) in *. clearbody c1. unfold update_send_window, shl32. rewrite Hsc.
  destruct (_ || _); [destruct (Z.ltb_spec (snd_scale (c_tcb c)) 32); [|right; split; [done|lia]]|];
    rewrite !obind_Done; left; by eexists.
Qed.

Lemma established_ack_receive_side c seg :
  snd_scale (c_tcb c) < 32 ->
  exists c', established_ack c seg = Done c' /\ c_handle c' = c_handle c /\
    rcv_nxt (c_tcb c') = rcv_nxt (c_tcb c) /\
    reorder_buffer (c_tcb c') = reorder_buffer (c_tcb c) /\
    rcv_scale (c_tcb c') = rcv_scale (c_tcb c) /\ snd_scale (c_tcb c') = snd_scale (c_tcb c) /\
    segments_since_ack (c_tcb c') = segments_since_ack (c_tcb c).
Proof.
  intros Hs. destruct (established_ack_outcome c seg) as [[c' E]|[_ H]]; [|lia].
  exists c'. split; [done|]. by apply (established_ack_returned c seg).
Qed.

(** The receive invariant only reads the fields of [rx_only] and [rx_at]. *)
Lemma rx_inv_ext c c' got n seen :
  c_handle c' = c_handle c -> rcv_nxt (c_tcb c') = rcv_nxt (c_tcb c) ->
  reorder_buffer (c_tcb c') = reorder_buffer (c_tcb c) ->
  rx_params c' -> rx_inv c got n seen -> rx_inv c' got n seen.
Proof.
  intros Hh Hr Hb Hp [[] ? ? ? ?]. constructor; rewrite ?Hh, ?Hb; try done.
  constructor; rewrite ?Hh, ?Hr; done.
Qed.

(** A data segment of the peer's stream, with any acknowledgment and options. *)
Definition peer_segment (i : nat) (seg : ParsedTcpSegment) : Prop :=
  bs !! i = Some (seg_payload seg) /\ seg_seq seg = u32 (base + pos i) /\
  TcpFlags.contains (seg_flags seg) TcpFlags.FIN = false.

Definition drain_phase (c : conn) (written : Z) : outcome (conn * Z) :=
  if bool_decide (reorder_buffer (c_tcb c) = ∅) then Done (c, 0)
  else
    let! rebased := rebase (reorder_buffer (c_tcb c)) (u32 written) in
    let! (c, rebased, drained_count) := drain_reorder (size rebased) c rebased 0 in
    Done (c <| c_tcb := (c_tcb c) <| reorder_buffer := rebased |> |>, drained_count).

(** Receive-side parameters that delivery keeps. *)
Definition same_params (c c' : conn) : Prop :=
  SpscByteRing.capacity (rx_ring (c_handle c')) = SpscByteRing.capacity (rx_ring (c_handle c)) /\
  rcv_scale (c_tcb c') = rcv_scale (c_tcb c) /\ snd_scale (c_tcb c') = snd_scale (c_tcb c) /\
  segments_since_ack (c_tcb c') = segments_since_ack (c_tcb c).

Lemma covers_cons n m i b seen :
  bs !! i = Some b -> pos i + zlen b <= n -> covers n m seen -> covers n m (i :: seen).
Proof.
  intros Hi Hn Hc j d Hj Hd. apply elem_of_cons in Hj as [->|Hj]; [|by apply Hc].
  rewrite Hi in Hd. injection Hd as <-. by left.
Qed.

Lemma drain_phase_spec c got i b w seen :
  rx_at c got (pos i + w) -> bs !! i = Some b -> 0 <= w <= zlen b ->
  holds (pos i) (reorder_buffer (c_tcb c)) -> reorder_buffer (c_tcb c) !! 0 = None ->
  exists c' n' cnt, drain_phase c w = Done (c', cnt) /\ rx_at c' got n' /\ pos i + w <= n' /\
    holds n' (reorder_buffer (c_tcb c')) /\ reorder_buffer (c_tcb c') !! 0 = None /\
    same_params c c' /\ 0 <= cnt <= zlen stream + 1 /\
    (zlen stream <= SpscByteRing.capacity (rx_ring (c_handle c)) -> w = zlen b ->
     covers (pos i) (reorder_buffer (c_tcb c)) seen ->
     covers n' (reorder_buffer (c_tcb c')) (i :: seen) /\ exists k, n' = pos k).
Proof.
  intros Hrx Hi Hw Hh H0. unfold drain_phase. pose proof (pos_S i b Hi) as HS.
  pose proof (pos_nonneg i) as Hp0. pose proof (pos_le_stream (S i)) as Hple.
  case_bool_decide as He.
  { exists c, (pos i + w), 0. rewrite He. split_and!; try done; try lia.
    intros Hroom -> Hc. split; [|exists (S i); lia].
    apply (covers_cons _ _ _ b); [done|lia|].
    intros j d Hj Hd. destruct (Hc j d Hj Hd) as [|Hl]; [left; lia|]. by rewrite lookup_empty in Hl. }
  rewrite u32_small by (unfold is_u32; lia).
  destruct (rebase_holds (pos i) _ w i b Hh H0 Hi eq_refl Hw) as (m1 & -> & Hsz & Hh1 & Hl1).
  rewrite obind_Done. pose proof (holds_size (pos i + w) m1 ltac:(lia) Hh1) as Hm1.
  destruct (drain_reorder_spec (size m1) c got (pos i + w) m1 (i :: seen) 0)
    as (c' & n' & m' & cnt & -> & Hrx' & Hn' & Hro & Hh' & H0' & Hcnt & Hcov);
    try done; try lia; [unfold U32_MAX; lia|].
  rewrite obind_Done. eexists _, n', cnt. split; [reflexivity|]. rsimpl.
  destruct Hro as (E1 & E2 & E3 & E4 & _).
  split_and!; try done; try lia.
  - destruct Hrx'. by constructor.
  - intros Hroom -> Hc. apply Hcov; [done| |exists (S i); lia].
    apply (covers_cons _ _ _ b); [done|lia|].
    apply (covers_delete (pos i) (reorder_buffer (c_tcb c)) seen i b (zlen b)); done.
Qed.

Lemma in_order_arrival c got n seen i seg now :
  rx_inv c got n seen -> peer_segment i seg -> n = pos i ->
  exists c' out n', established_in_order c seg now = Done (c', out) /\
    rx_inv c' got n' (i :: seen) /\ n <= n' /\
    SpscByteRing.capacity (rx_ring (c_handle c')) = SpscByteRing.capacity (rx_ring (c_handle c)).
Proof.
  intros [Hat Hh H0 (Hs1 & Hs2 & Hsince) Hcov] (Hi & _ & _) ->.
  unfold established_in_order.
  destruct (deliver_segment c got (pos i) i _ Hat Hi eq_refl)
    as (c1 & w & -> & Hw & Hat1 & (E1 & E2 & E3 & E4 & E5) & Hfull).
  rewrite obind_Done. fold (drain_phase c1 w). rewrite <- E5 in Hh, H0.
  destruct (drain_phase_spec c1 got i _ w seen Hat1 Hi Hw Hh H0)
    as (c2 & n' & cnt & -> & Hat2 & Hn' & Hh2 & H02 & (F1 & F2 & F3 & F4) & Hcnt & Hcov2).
  rewrite obind_Done. pose proof (zlen_nonneg stream).
  unfold add32 at 1. unfold U32_MAX. destruct (Z.leb_spec (1 + cnt) 4294967295); [|lia].
  rewrite obind_Done. unfold wake_up. rsimpl. unfold add32 at 1. unfold U32_MAX.
  destruct (Z.leb_spec (segments_since_ack (c_tcb c2) + (1 + cnt)) 4294967295); [|lia].
  rewrite obind_Done. rsimpl.
  assert (forall c3, c_handle c3 = c_handle c2 -> rcv_nxt (c_tcb c3) = rcv_nxt (c_tcb c2) ->
    reorder_buffer (c_tcb c3) = reorder_buffer (c_tcb c2) ->
    rcv_scale (c_tcb c3) = rcv_scale (c_tcb c2) -> snd_scale (c_tcb c3) = snd_scale (c_tcb c2) ->
    0 <= segments_since_ack (c_tcb c3) <= 1 -> rx_inv c3 got n' (i :: seen)) as Hfin.
  { intros c3 G1 G2 G3 G4 G5 G6. constructor; rewrite ?G1, ?G3; try done.
    - destruct Hat2. constructor; rewrite ?G1, ?G2; done.
    - split_and!; lia.
    - rewrite F1, E1. intros Hr. apply Hcov2; [congruence|by apply Hfull|].
      rewrite E5. by apply Hcov. }
  destruct (Z.leb_spec 2 (segments_since_ack (c_tcb c2) + (1 + cnt))).
  - edestruct ack_total as [p Hp]; [|  |rewrite Hp]; rsimpl; [apply Hat2|lia|].
    rewrite obind_Done. eexists _, _, n'. split; [reflexivity|]. split_and!; [|lia|rsimpl; congruence].
    apply Hfin; rsimpl; done.
  - destruct (delayed_ack_deadline (c_tcb c2)); (eexists _, _, n'; split; [reflexivity|];
      split_and!; [|lia|rsimpl; congruence]); apply Hfin; rsimpl; try done; lia.
Qed.

Lemma out_of_order_arrival c got n seen i seg :
  rx_inv c got n seen -> peer_segment i seg -> n < pos i ->
  exists c' out, established_out_of_order c seg = Done (c', out) /\
    rx_inv c' got n (i :: seen) /\ c_handle c' = c_handle c.
Proof.
  intros [Hat Hh H0 (Hs1 & Hs2 & Hsince) Hcov] (Hi & Hseq & _) Hlt.
  pose proof (rx_pos _ _ _ Hat) as Hn. pose proof (pos_le_stream i) as Hle.
  unfold established_out_of_order.
  replace (SeqNum.diff (seg_seq seg) (rcv_nxt (c_tcb c))) with (pos i - n).
  2: { rewrite Hseq, (rx_nxt _ _ _ Hat), SeqNum.diff_positions by lia. lia. }
  edestruct ack_total as [p Hp]; [| |rewrite Hp]; rsimpl; [apply Hat|lia|].
  rewrite obind_Done. eexists _, _. split; [reflexivity|]. rsimpl. split; [|done].
  constructor; rsimpl.
  - destruct Hat. by constructor.
  - intros k d Hk. apply lookup_insert_Some in Hk as [[<- <-]|[_ Hk]]; [|by apply Hh].
    split; [lia|]. exists i. split; [done|lia].
  - rewrite lookup_insert_ne by lia. done.
  - split_and!; rsimpl; lia.
  - intros Hroom. destruct (Hcov Hroom) as [Hc Hk]. split; [|done].
    intros j d Hj Hd. destruct (Z.eq_dec (pos j) (pos i)) as [E|E].
    + right. pose proof (pos_inj j i d _ Hd Hi E) as ->. rewrite Hi in Hd. injection Hd as <-.
      by rewrite lookup_insert_eq.
    + apply elem_of_cons in Hj as [->|Hj]; [done|].
      destruct (Hc j d Hj Hd) as [|Hl]; [by left|right]. by rewrite lookup_insert_ne by lia.
Qed.

Lemma old_arrival c got n seen i seg :
  rx_inv c got n seen -> peer_segment i seg -> pos i < n -> rx_inv c got n (i :: seen).
Proof.
  intros [Hat Hh H0 Hs Hcov] (Hi & _) Hlt. constructor; try done.
  intros Hroom. destruct (Hcov Hroom) as [Hc [k ->]]. split; [|by exists k].
  apply (covers_cons _ _ _ (seg_payload seg)); [done| |done]. exact (pos_after i k _ Hi Hlt).
Qed.

(** One arrival. *)
Lemma arrival c got n seen i seg now :
  rx_inv c got n seen -> peer_segment i seg ->
  exists c' out n', handle_established c seg now = Done (c', out) /\
    rx_inv c' got n' (i :: seen) /\ n <= n' /\
    SpscByteRing.capacity (rx_ring (c_handle c')) = SpscByteRing.capacity (rx_ring (c_handle c)).
Proof.
  intros Hinv Hseg. pose proof Hseg as (Hi & Hseq & Hfin).
  unfold handle_established. rewrite Hfin.
  assert (exists c1, (if TcpFlags.contains (seg_flags seg) TcpFlags.ACK
      then established_ack c seg else Done c) = Done c1 /\ rx_inv c1 got n seen /\
      c_handle c1 = c_handle c) as (c1 & -> & Hinv1 & <-).
  { destruct (TcpFlags.contains (seg_flags seg) TcpFlags.ACK); [|by exists c].
    destruct (inv_params _ _ _ _ Hinv) as (? & ? & ?).
    destruct (established_ack_receive_side c seg) as (c1 & -> & E1 & E2 & E3 & E4 & E5 & E6); [lia|].
    exists c1. split_and!; try done. eapply rx_inv_ext; try done. split_and!; lia. }
  rewrite obind_Done.
  assert (seg_payload seg <> []) as Hne.
  { pose proof (seg_len_pos i _ Hi). by destruct (seg_payload seg). }
  replace (match seg_payload seg with [] => Done (c1, []) | _ :: _ => established_data c1 seg now end)
    with (established_data c1 seg now) by (by destruct (seg_payload seg)).
  unfold established_data.
  set (t := match keepalive _ with Some ka => _ | None => _ end).
  assert (rx_inv (c1 <| c_tcb := t |>) got n seen) as Hinv2.
  { subst t. destruct (inv_params _ _ _ _ Hinv1) as (? & ? & ?).
    destruct (keepalive _); (eapply rx_inv_ext; [..|exact Hinv1]); rsimpl; done. }
  assert (rcv_nxt t = u32 (base + n)) as Hnxt by apply (inv_at _ _ _ _ Hinv2).
  pose proof (rx_pos _ _ _ (inv_at _ _ _ _ Hinv)) as Hn.
  pose proof (pos_le_stream i) as Hle. pose proof (pos_nonneg i) as Hp0.
  rewrite Hnxt, Hseq, SeqNum.eq_positions, SeqNum.gt_positions
    by (unfold SeqNum.HALF; lia).
  destruct (Z.eqb_spec (base + pos i) (base + n)) as [E|E];
    [|destruct (Z.ltb_spec (base + n) (base + pos i)) as [Hlt|Hge]].
  - destruct (in_order_arrival _ got n seen i seg now Hinv2 Hseg) as (c' & out & n' & -> & H & ? & ?);
      [lia|]. rewrite obind_Done. eauto 10.
  - destruct (out_of_order_arrival _ got n seen i seg Hinv2 Hseg) as (c' & out & -> & H & E');
      [lia|]. rewrite obind_Done. exists c', out, n. split_and!; try done; try lia. by rewrite E'.
  - rewrite obind_Done. eexists _, _, n. split; [reflexivity|]. split_and!; try done; try lia.
    eapply old_arrival; [done|done|lia].
Qed.

(** ** Runs *)

(** What happens to the receive side: a segment arrives, or the application
    reads up to [len] bytes. *)
Inductive rx_event : Type :=
| Arrive (seg : ParsedTcpSegment) (now : Z)
| AppRead (len : nat).

(** A run from a connection in ESTABLISHED; the second result is everything the
    application has read. *)
Fixpoint rx_run (c : conn) (evs : list rx_event) (got : list Z) : outcome (conn * list Z) :=
  match evs with
  | [] => Done (c, got)
  | Arrive seg now :: evs =>
      let! (c, _) := handle_established c seg now in rx_run c evs got
  | AppRead len :: evs =>
      let! (ring, out, n) := SpscByteRing.read (rx_ring (c_handle c)) (replicate len 0) in
      rx_run (c <| c_handle := (c_handle c) <| rx_ring := ring |> |>) evs
        (got ++ take (Z.to_nat n) out)
  end.

(** Events whose arrivals are segments of the peer's stream, and the indices of
    those segments. *)
Inductive from_peer : list rx_event -> list nat -> Prop :=
| from_peer_nil : from_peer [] []
| from_peer_arrive i seg now evs is_ :
    peer_segment i seg -> from_peer evs is_ -> from_peer (Arrive seg now :: evs) (i :: is_)
| from_peer_read len evs is_ : from_peer evs is_ -> from_peer (AppRead len :: evs) is_.

Lemma app_read c got n seen len :
  rx_inv c got n seen ->
  exists ring out k, SpscByteRing.read (rx_ring (c_handle c)) (replicate len 0)
      = Done (ring, out, k) /\
    rx_inv (c <| c_handle := (c_handle c) <| rx_ring := ring |> |>)
      (got ++ take (Z.to_nat k) out) n seen /\
    SpscByteRing.capacity ring = SpscByteRing.capacity (rx_ring (c_handle c)).
Proof.
  intros [[Hnxt Hwf Hb Hp] Hh H0 Hs Hcov].
  destruct (SpscByteRing.read_spec _ (replicate len 0) Hwf) as (r & E & Hwf' & Hcap & Hc).
  set (k := Z.min _ _) in *. eexists r, _, k. split; [exact E|]. split; [|done].
  pose proof (SpscByteRing.available_range _ Hwf).
  pose proof (SpscByteRing.available_contents _ Hwf) as Hav.
  pose proof (zlen_nonneg (replicate len 0)).
  constructor; rsimpl; try done; [|by rewrite Hcap].
  constructor; rsimpl; try done.
  rewrite Hc, <- Hb, <- app_assoc. f_equal.
  rewrite <- (take_drop (Z.to_nat k) (SpscByteRing.contents (rx_ring (c_handle c)))) at 3.
  f_equal. rewrite take_app_le, take_take, Nat.min_id; [done|].
  rewrite length_take. unfold zlen in *. lia.
Qed.

Lemma rx_run_inv evs is_ :
  from_peer evs is_ ->
  forall c got n seen, rx_inv c got n seen ->
  exists c' got' n', rx_run c evs got = Done (c', got') /\
    rx_inv c' got' n' (rev is_ ++ seen) /\
    SpscByteRing.capacity (rx_ring (c_handle c')) = SpscByteRing.capacity (rx_ring (c_handle c)).
Proof.
  induction 1 as [|i seg now evs is_ Hseg _ IH|len evs is_ _ IH]; intros c got n seen Hinv;
    cbn [rx_run rev app].
  - exists c, got, n. done.
  - destruct (arrival c got n seen i seg now Hinv Hseg) as (c1 & out & n1 & -> & H1 & _ & Hcap).
    rewrite obind_Done. destruct (IH c1 got n1 (i :: seen) H1) as (c' & got' & n' & E & H' & Hc').
    exists c', got', n'. rewrite <- app_assoc. cbn [app]. split_and!; try done. congruence.
  - destruct (app_read c got n seen len Hinv) as (r & out & k & -> & H1 & Hcap).
    rewrite obind_Done. destruct (IH _ _ n seen H1) as (c' & got' & n' & E & H' & Hc').
    exists c', got', n'. split_and!; try done. rsimpl_in Hc'. congruence.
Qed.

(** A connection about to receive the first byte of the stream. *)
Definition rx_start (c : conn) : Prop :=
  rcv_nxt (c_tcb c) = u32 base /\ SpscByteRing.wf (rx_ring (c_handle c)) /\
  SpscByteRing.contents (rx_ring (c_handle c)) = [] /\ reorder_buffer (c_tcb c) = ∅ /\
  rx_params c.

Lemma rx_start_inv c : rx_start c -> rx_inv c [] 0 [].
Proof.
  intros (Hn & Hwf & Hc & Hr & Hp). constructor; rewrite ?Hr; try done.
  - constructor; rewrite ?Hc; try done.
    + by rewrite Z.add_0_r.
    + pose proof (zlen_nonneg stream). lia.
  - intros _. split; [by intros j b Hj%elem_of_nil|by exists 0%nat].
Qed.

(** C1: receive-side stream integrity: segments of the peer's stream may be
    lost, repeated and reordered, carry any acknowledgments, and be interleaved with
    reads of any size, at any initial sequence number; the engine never panics on
    them, and what the application has read followed by what waits in its ring is a
    prefix of the stream, exactly as long as [rcv_nxt] acknowledges. *)
Theorem receiver_stream_integrity c evs is_ :
  rx_start c -> from_peer evs is_ ->
  exists c' got n, rx_run c evs [] = Done (c', got) /\
    got ++ SpscByteRing.contents (rx_ring (c_handle c')) = take (Z.to_nat n) stream /\
    rcv_nxt (c_tcb c') = u32 (base + n) /\ 0 <= n <= zlen stream.
Proof.
  intros Hs Hf. destruct (rx_run_inv evs is_ Hf c [] 0 [] (rx_start_inv c Hs))
    as (c' & got & n & E & [[Hn _ Hb Hp] _ _ _ _] & _).
  exists c', got, n. done.
Qed.

(** C34: nothing that has arrived is withheld: when the receive ring can hold the
    stream and every segment up to segment [i] has arrived at least once, in any
    order, all of their bytes have been delivered. *)
Theorem receiver_delivers_arrived c evs is_ i :
  rx_start c -> from_peer evs is_ ->
  zlen stream <= SpscByteRing.capacity (rx_ring (c_handle c)) ->
  (i < length bs)%nat -> (forall j, (j <= i)%nat -> j ∈ is_) ->
  exists c' got n, rx_run c evs [] = Done (c', got) /\
    got ++ SpscByteRing.contents (rx_ring (c_handle c')) = take (Z.to_nat n) stream /\
    pos (S i) <= n.
Proof.
  intros Hs Hf Hroom Hi Hall. destruct (rx_run_inv evs is_ Hf c [] 0 [] (rx_start_inv c Hs))
    as (c' & got & n & E & [[Hn _ Hb Hp] _ H0 _ Hcov] & Hcap).
  exists c', got, n. split_and!; try done. rewrite Hcap in Hcov.
  destruct (Hcov Hroom) as [Hc [k Hk]].
  destruct (Z.le_gt_cases (pos (S i)) n) as [|Hlt]; [done|exfalso].
  assert (k <= i)%nat as Hki.
  { destruct (Nat.le_gt_cases k i) as [|Hgt]; [done|].
    pose proof (pos_mono (S i) k ltac:(lia)). lia. }
  destruct (lookup_lt_is_Some_2 bs k) as [b Hbk]; [lia|].
  destruct (Hc k b) as [Hle|Hl]; [|done| |].
  - rewrite app_nil_r. rewrite list_elem_of_In, <- in_rev, <- list_elem_of_In. by apply Hall.
  - pose proof (seg_len_pos k b Hbk). lia.
  - rewrite Hk, Z.sub_diag in Hl. congruence.
Qed.

End Stream.

(** A three-segment stream whose sequence numbers wrap, arriving backwards. *)
Definition demo_stream : list (list Z) := [[1; 2]; [3]; [4; 5]].

Definition demo_key : FourTuple :=
  MkFourTuple (V4 (MkIpv4 10 0 0 1) 80) (V4 (MkIpv4 10 0 0 2) 5000).

Definition demo_conn (nxt : Z) : conn :=
  MkConn ((tcb_new demo_key 7 1460 0%nat mac_zero mac_zero)
            <| t_state := Established |> <| rcv_nxt := nxt |> <| rcv_wnd := 65535 |>)
    (handle_new 16 16 true demo_key) [].

Definition demo_segment (seq : Z) (payload : list Z) : ParsedTcpSegment :=
  MkSegment (remote demo_key) (local demo_key) seq 7 TcpFlags.ACK 1000 options_default payload.

Definition demo_events : list rx_event :=
  [Arrive (demo_segment 1 [4; 5]) 10; Arrive (demo_segment 0 [3]) 20;
   Arrive (demo_segment 4294967294 [1; 2]) 30; AppRead 3; Arrive (demo_segment 0 [3]) 40].

Lemma demo_from_peer : from_peer demo_stream 4294967294 demo_events [2; 1; 0; 1]%nat.
Proof.
  unfold demo_events.
  repeat match goal with
  | |- from_peer _ _ (Arrive _ _ :: _) _ =>
      apply from_peer_arrive; [split_and!; reflexivity|]
  | |- from_peer _ _ (AppRead _ :: _) _ => apply from_peer_read
  end. apply from_peer_nil.
Qed.

Lemma demo_start : rx_start 4294967294 (demo_conn 4294967294).
Proof.
  split_and!; try reflexivity; try done. apply (SpscByteRing.new_spec 16). lia.
Qed.

Lemma demo_nonempty : Forall (fun b => b <> []) demo_stream.
Proof. repeat (apply Forall_cons_2; [done|]). apply Forall_nil_2. Qed.

Lemma receiver_stream_integrity_witness :
  exists c' got n, rx_run (demo_conn 4294967294) demo_events [] = Done (c', got) /\
    got ++ SpscByteRing.contents (rx_ring (c_handle c')) = take (Z.to_nat n) (stream demo_stream) /\
    rcv_nxt (c_tcb c') = u32 (4294967294 + n) /\ 0 <= n <= zlen (stream demo_stream).
Proof.
  apply (receiver_stream_integrity demo_stream 4294967294 demo_nonempty ltac:(by vm_compute)
           (demo_conn 4294967294) demo_events [2; 1; 0; 1]%nat demo_start demo_from_peer).
Defined.

Lemma receiver_delivers_arrived_witness :
  exists c' got n, rx_run (demo_conn 4294967294) demo_events [] = Done (c', got) /\
    got ++ SpscByteRing.contents (rx_ring (c_handle c')) = take (Z.to_nat n) (stream demo_stream) /\
    5 <= n.
Proof.
  apply (receiver_delivers_arrived demo_stream 4294967294 demo_nonempty ltac:(by vm_compute)
           (demo_conn 4294967294) demo_events [2; 1; 0; 1]%nat 2 demo_start demo_from_peer).
  - by vm_compute.
  - cbn. lia.
  - intros j Hj. destruct j as [|[|[|j]]]; [..|lia]; repeat constructor.
Defined.

(** An in-order payload longer than the distance of a buffered segment stops the engine. *)
Lemma overlap_panics c seg now k d :
  SpscByteRing.wf (rx_ring (c_handle c)) ->
  seg_seq seg = rcv_nxt (c_tcb c) ->
  reorder_buffer (c_tcb c) !! k = Some d ->
  let free := SpscByteRing.capacity (rx_ring (c_handle c)) - SpscByteRing.available_read (rx_ring (c_handle c)) in
  k < Z.min (zlen (seg_payload seg)) free -> 0 <= Z.min (zlen (seg_payload seg)) free <= U32_MAX ->
  established_data c seg now = Panic.
Proof.
  intros Hwf Hseq Hk free Hlt Hw. unfold established_data.
  set (t := match keepalive _ with Some ka => _ | None => _ end).
  assert (rcv_nxt t = rcv_nxt (c_tcb c) /\ reorder_buffer t = reorder_buffer (c_tcb c))
    as [E1 E2] by (subst t; destruct (keepalive _); rsimpl; done).
  rewrite E1, Hseq, Z.eqb_refl. unfold established_in_order, deliver. rsimpl.
  destruct (SpscByteRing.write_spec _ (seg_payload seg) Hwf) as (r & -> & _).
  fold free. rewrite !obind_Done. rsimpl. rewrite E2.
  rewrite bool_decide_eq_false_2 by (intros E; rewrite E in Hk; by rewrite lookup_empty in Hk).
  rewrite u32_small by (unfold is_u32, U32_MAX in *; lia).
  unfold rebase. rewrite bool_decide_eq_false_2; [done|].
  intros HF. specialize (HF k d Hk). cbv beta in HF. lia.
Qed.

(** C40: the reorder buffer does not tolerate overlap: an in-order segment that
    delivers more bytes than the distance of a buffered segment underflows the
    rebase [k - written] and panics (with overflow checks; without them the key
    wraps and the buffered bytes are stranded).  This is so whatever flags the
    segment carries and whatever it acknowledges.  The receive ring is well
    formed, and [k] is less than the number of bytes of the segment that fit it,
    which is below 2^32.  The integrity theorem above is therefore stated for a
    peer that always cuts its stream the same way. *)
Theorem overlapping_reorder_panics c seg now k d :
  SpscByteRing.wf (rx_ring (c_handle c)) ->
  seg_seq seg = rcv_nxt (c_tcb c) ->
  reorder_buffer (c_tcb c) !! k = Some d -> 0 <= k ->
  let free := SpscByteRing.capacity (rx_ring (c_handle c))
              - SpscByteRing.available_read (rx_ring (c_handle c)) in
  k < Z.min (zlen (seg_payload seg)) free <= U32_MAX ->
  handle_established c seg now = Panic.
Proof.
  intros Hwf Hseq Hk Hk0 free Hlt. unfold handle_established.
  assert (exists x p, seg_payload seg = x :: p) as (x & p & Ep).
  { destruct (seg_payload seg) as [|x p]; [|by eexists _, _]. change (zlen []) with 0 in Hlt. lia. }
  assert (forall c', c_handle c' = c_handle c -> rcv_nxt (c_tcb c') = rcv_nxt (c_tcb c) ->
    reorder_buffer (c_tcb c') = reorder_buffer (c_tcb c) -> established_data c' seg now = Panic) as Hpanic.
  { intros c' Hh Hn Hb. apply (overlap_panics c' seg now k d); rewrite ?Hh, ?Hn, ?Hb; try done; fold free; lia. }
  destruct (TcpFlags.contains (seg_flags seg) TcpFlags.ACK);
    [destruct (established_ack_outcome c seg) as [[c' E]|[-> _]]; [|done]; rewrite E;
     apply established_ack_returned in E as (Hh & Hn & Hb & _)|];
    rewrite obind_Done, Ep; by rewrite Hpanic.
Qed.

(** Bytes 2..3 of a stream arrive first, then a retransmission of bytes 0..3; both segments carry an ACK. *)
Lemma overlapping_reorder_panics_witness :
  let late := MkSegment (remote demo_key) (local demo_key) 102 7 TcpFlags.ACK 1000 options_default [3; 4] in
  let again := MkSegment (remote demo_key) (local demo_key) 100 7 TcpFlags.ACK 1000 options_default [1; 2; 3; 4] in
  exists c out, handle_established (demo_conn 100) late 0 = Done (c, out) /\ handle_established c again 1 = Panic.
Proof.
  intros late again.
  destruct (handle_established (demo_conn 100) late 0) as [[c out]| |] eqn:E; [|vm_compute in E; discriminate E..].
  exists c, out. split; [reflexivity|]. vm_compute in E. injection E as <- <-.
  eapply (overlapping_reorder_panics _ again 1 2 [3; 4]); try reflexivity; try lia.
  - apply (SpscByteRing.new_spec 16). lia.
  - vm_compute. split; [reflexivity|discriminate].
Defined.
