(* ===== verification/EngineTx.v ===== *)
(** * Transmit path: every data segment carries the application's bytes

    The application's writes form a stream; the engine drains them into its send
    buffer, cuts segments, retransmits the oldest one on a timeout and drops what is
    acknowledged.  Every segment it sends carries the bytes of the stream at the
    position its sequence number names, and never more than the windows allow. *)

From stdpp Require Import base numbers list gmap.
From Stdlib Require Import ZArith Lia.
From S2P Require Import Prelude Seq State Codec Ring Congestion Contract Tcb Conn EngineRx.

(** ** The retransmission queue *)

Section Queue.

(** Sequence number of the first byte of the stream (unbounded), and the
    engine's retransmission limit. *)
Context (base : Z) (max_retries : Z).

(** The queue covers the positions from [p] to [s], entry after entry, with
    offsets relative to the send buffer, which starts at position [a]. *)
Fixpoint covers_range (a p : Z) (q : list RetransmitEntry) (s : Z) : Prop :=
  match q with
  | [] => p = s
  | e :: q =>
      e_seq e = u32 (base + p) /\ Z.of_nat (e_offset e) = p - a /\ (0 < e_len e)%nat /\
      covers_range a (p + Z.of_nat (e_len e)) q s
  end.

Lemma covers_range_le a p q s : covers_range a p q s -> p <= s.
Proof.
  revert p. induction q as [|e q IH]; intros p; cbn [covers_range]; [lia|].
  intros (_ & _ & Hl & H). apply IH in H. lia.
Qed.

Lemma covers_range_app a p q1 q2 s :
  covers_range a p (q1 ++ q2) s <->
  exists m, covers_range a p q1 m /\ covers_range a m q2 s.
Proof.
  revert p. induction q1 as [|e q1 IH]; intros p; cbn [covers_range app].
  - split; [eauto|]. by intros (m & -> & H).
  - rewrite IH. split.
    + intros (H1 & H2 & H3 & m & H4 & H5). exists m. done.
    + intros (m & (H1 & H2 & H3 & H4) & H5). split_and!; eauto.
Qed.

(** The end of the last entry. *)
Lemma covers_range_last a q s :
  covers_range a a q s ->
  Z.of_nat (match last q with Some e => e_offset e + e_len e | None => 0 end) = s - a.
Proof.
  intros H. destruct q as [|e q] using rev_ind; [cbn in *; lia|].
  apply covers_range_app in H as (m & _ & H). cbn [covers_range] in H.
  rewrite last_snoc. destruct H as (_ & Ho & _ & Hs). lia.
Qed.

(** The positions acknowledged by [k] entries of the queue. *)
Lemma covers_range_split a p q s k :
  covers_range a p q s ->
  exists m, covers_range a p (take k q) m /\ covers_range a m (drop k q) s /\ p <= m <= s.
Proof.
  intros H. rewrite <- (take_drop k q) in H. apply covers_range_app in H as (m & H1 & H2).
  exists m. split_and!; [done|done|by eapply covers_range_le|by eapply covers_range_le].
Qed.

(** Rebasing the offsets to a send buffer that starts at [a']. *)
Lemma covers_range_rebase a a' p q s n :
  covers_range a p q s -> a' <= p -> n = Z.to_nat (a' - a) -> a <= a' ->
  covers_range a' p ((fun e => e <| e_offset := (e_offset e - n)%nat |>) <$> q) s.
Proof.
  intros H Hp -> Ha. revert p H Hp. induction q as [|e q IH]; intros p H Hp; [done|].
  cbn [covers_range fmap list_fmap] in *. rsimpl. destruct H as (H1 & H2 & H3 & H4).
  split_and!; try done; try lia. apply IH; [done|lia].
Qed.

(** The filter drops the entries before an acknowledged boundary and keeps the
    others. *)
Lemma retain_before a p q m una :
  covers_range a p q m -> m <= una -> una - p < 2 ^ 31 ->
  retain_unacked (u32 (base + una)) q = [].
Proof.
  revert p. induction q as [|e q IH]; intros p H Hm Hd; [done|].
  destruct H as (H1 & _ & H3 & H4). pose proof (covers_range_le _ _ _ _ H4).
  unfold retain_unacked in *. rewrite filter_cons_False; [eapply IH; [exact H4|lia..]|].
  rewrite H1, SeqNum.add_position, (u32_small (Z.of_nat (e_len e))) by (unfold is_u32; lia).
  rewrite SeqNum.gt_positions by (unfold SeqNum.HALF; lia).
  destruct (Z.ltb_spec (base + una) (base + p + Z.of_nat (e_len e))); [lia|done].
Qed.

Lemma retain_after a p q s una :
  covers_range a p q s -> una <= p -> s - una < 2 ^ 31 ->
  retain_unacked (u32 (base + una)) q = q.
Proof.
  revert p. induction q as [|e q IH]; intros p H Hm Hd; [done|].
  destruct H as (H1 & _ & H3 & H4). pose proof (covers_range_le _ _ _ _ H4).
  unfold retain_unacked in *. rewrite filter_cons_True; [f_equal; eapply IH; [exact H4|lia..]|].
  rewrite H1, SeqNum.add_position, (u32_small (Z.of_nat (e_len e))) by (unfold is_u32; lia).
  rewrite SeqNum.gt_positions by (unfold SeqNum.HALF; lia).
  destruct (Z.ltb_spec (base + una) (base + p + Z.of_nat (e_len e))); [done|lia].
Qed.

(** ** The send invariant *)

(** [x] is everything the application has written, [a] what is acknowledged
    and [s] what has been sent. *)
Record tx_inv (c : conn) (x : list Z) (a s : Z) : Prop := {
  tx_una : snd_una (c_tcb c) = u32 (base + a);
  tx_nxt : snd_nxt (c_tcb c) = u32 (base + s);
  tx_pos : 0 <= a <= s;
  tx_ring_wf : SpscByteRing.wf (tx_ring (c_handle c));
  tx_bytes : send_buf (c_tcb c) ++ SpscByteRing.contents (tx_ring (c_handle c))
             = drop (Z.to_nat a) x;
  tx_sent : s - a <= zlen (send_buf (c_tcb c));
  tx_queue : covers_range a a (retransmit_queue (c_tcb c)) s;
  tx_short : zlen x < 2 ^ 31;
  tx_end : a <= zlen x;
  tx_rx_ring : SpscByteRing.wf (rx_ring (c_handle c));
  tx_scales : rcv_scale (c_tcb c) < 32 /\ snd_scale (c_tcb c) < 32;
  tx_count : 0 <= retransmit_count (c_tcb c) <= max_retries /\ max_retries < U32_MAX }.

(** A segment that carries stream bytes at the position it names. *)
Definition carries (x : list Z) (p : TcpFrameParams) : Prop :=
  exists pos, 0 <= pos /\ p_seq p = u32 (base + pos) /\
    p_payload p = take (length (p_payload p)) (drop (Z.to_nat pos) x) /\
    pos + zlen (p_payload p) <= zlen x.

Lemma carries_extend x y p : carries x p -> carries (x ++ y) p.
Proof.
  intros (pos & H0 & Hs & Hp & Hl). exists pos. split_and!; try done.
  - unfold zlen in Hl. rewrite drop_app_le by lia. rewrite take_app_le; [done|].
    rewrite length_drop. lia.
  - rewrite zlen_app. pose proof (zlen_nonneg y). lia.
Qed.

(** Bytes of the send buffer are bytes of the stream. *)
Lemma send_buf_bytes c x a s off len :
  tx_inv c x a s -> (off + len <= length (send_buf (c_tcb c)))%nat ->
  take len (drop off (send_buf (c_tcb c))) = take len (drop (Z.to_nat (a + Z.of_nat off)) x).
Proof.
  intros H Hl. pose proof (tx_bytes _ _ _ _ H) as Hb. pose proof (tx_pos _ _ _ _ H).
  rewrite Z2Nat.inj_add, Nat2Z.id, <- drop_drop, <- Hb by lia.
  rewrite drop_app_le by lia. rewrite take_app_le; [done|]. rewrite length_drop. lia.
Qed.

Lemma buf_in_stream c x a s : tx_inv c x a s -> a + zlen (send_buf (c_tcb c)) <= zlen x.
Proof.
  intros H. pose proof (tx_bytes _ _ _ _ H) as Hb. pose proof (tx_pos _ _ _ _ H).
  pose proof (tx_end _ _ _ _ H). apply (f_equal length) in Hb.
  rewrite length_app, length_drop in Hb. unfold zlen in *. lia.
Qed.

Lemma already_sent c x a s :
  tx_inv c x a s -> Z.of_nat (already_sent_offset (c_tcb c)) = s - a.
Proof. intros H. apply covers_range_last, (tx_queue _ _ _ _ H). Qed.

(** ** Sending *)

Lemma next_segment_bounds t mss len :
  next_segment_len t mss = Some len ->
  (0 < len <= unsent_in_buf t)%nat /\ Z.of_nat len <= available_send_window t /\ (len <= mss)%nat.
Proof.
  unfold next_segment_len. repeat bcase; try done.
  all: intros [= <-]; lia.
Qed.

(** One turn of the segmentation loop. *)
Lemma record_segment_inv c x a s len now :
  tx_inv c x a s -> (0 < len <= unsent_in_buf (c_tcb c))%nat ->
  tx_inv (c <| c_tcb := record_segment (c_tcb c) len now |>) x a (s + Z.of_nat len).
Proof.
  intros H Hl. pose proof (already_sent _ _ _ _ H) as Hoff. pose proof (buf_in_stream _ _ _ _ H).
  unfold unsent_in_buf in Hl. pose proof (tx_short _ _ _ _ H). pose proof (tx_pos _ _ _ _ H).
  assert (covers_range a a (retransmit_queue (c_tcb c)
    ++ [MkEntry (snd_nxt (c_tcb c)) (already_sent_offset (c_tcb c)) len now 0])
    (s + Z.of_nat len)) as Hq.
  { apply covers_range_app. exists s. split; [apply H|]. cbn [covers_range e_seq e_offset e_len].
    split_and!; [apply H|lia..|done]. }
  assert (SeqNum.add (snd_nxt (c_tcb c)) (u32 (Z.of_nat len)) = u32 (base + (s + Z.of_nat len)))
    as Hnxt.
  { rewrite (tx_nxt _ _ _ _ H), SeqNum.add_position, (u32_small (Z.of_nat len))
      by (unfold zlen, is_u32 in *; lia). f_equal. lia. }
  unfold record_segment. cbv zeta. rsimpl.
  destruct (rto_deadline (c_tcb c)); constructor; rsimpl; try done; try apply H;
    unfold zlen in *; lia.
Qed.

(** The window that limits sending, and the bytes in flight. *)
Definition send_limit (t : Tcb) : Z := Z.min (Congestion.cwnd (congestion t)) (snd_wnd t).

Lemma flight_size_pos c x a s : tx_inv c x a s -> flight_size (c_tcb c) = s - a.
Proof.
  intros H. pose proof (tx_pos _ _ _ _ H). pose proof (tx_short _ _ _ _ H).
  pose proof (tx_sent _ _ _ _ H). pose proof (buf_in_stream _ _ _ _ H).
  unfold flight_size. rewrite (tx_una _ _ _ _ H), (tx_nxt _ _ _ _ H), SeqNum.diff_positions; lia.
Qed.

(** What sending leaves alone. *)
Definition tx_frame (c c' : conn) : Prop :=
  c_handle c' = c_handle c /\ send_buf (c_tcb c') = send_buf (c_tcb c) /\
  fin_pending (c_tcb c') = fin_pending (c_tcb c) /\ t_state (c_tcb c') = t_state (c_tcb c) /\
  snd_wnd (c_tcb c') = snd_wnd (c_tcb c) /\ congestion (c_tcb c') = congestion (c_tcb c).

#[local] Instance tx_frame_preorder : PreOrder tx_frame.
Proof.
  split; unfold tx_frame; [done|].
  intros a b c (? & ? & ? & ? & ? & ?) (? & ? & ? & ? & ? & ?). split_and!; congruence.
Qed.

Lemma record_segment_frame c len now :
  tx_frame c (c <| c_tcb := record_segment (c_tcb c) len now |>).
Proof.
  unfold tx_frame, record_segment. cbv zeta. rsimpl.
  destruct (rto_deadline (c_tcb c)); rsimpl; done.
Qed.

Lemma segment_total c seq flags payload :
  SpscByteRing.wf (rx_ring (c_handle c)) -> rcv_scale (c_tcb c) < 32 ->
  exists p, segment_params c seq flags payload = Done p /\ p_seq p = seq /\
    p_payload p = payload /\ p_flags p = flags.
Proof.
  intros Hwf Hs. unfold segment_params.
  destruct (window_total (c_tcb c) (c_handle c) Hwf Hs) as [w ->]. rewrite obind_Done.
  eexists. split; [reflexivity|]. done.
Qed.

(** The segment of the next bytes carries them. *)
Lemma next_carries c x a s len p :
  tx_inv c x a s -> (0 < len <= unsent_in_buf (c_tcb c))%nat ->
  p_seq p = snd_nxt (c_tcb c) ->
  p_payload p = take len (drop (already_sent_offset (c_tcb c)) (send_buf (c_tcb c))) ->
  carries x p /\ length (p_payload p) = len.
Proof.
  intros H Hl Es Ep. pose proof (already_sent _ _ _ _ H) as Hoff.
  pose proof (buf_in_stream _ _ _ _ H) as Hx. pose proof (tx_pos _ _ _ _ H).
  unfold unsent_in_buf in Hl.
  assert (length (p_payload p) = len) as Elen.
  { rewrite Ep, length_take, length_drop. lia. }
  split; [|done]. exists s. rewrite Elen. split_and!; [lia|rewrite Es; apply H| |].
  - rewrite Ep. rewrite (send_buf_bytes _ _ _ _ _ _ H) by lia. do 2 f_equal. lia.
  - unfold zlen in *. lia.
Qed.

Lemma segment_loop_spec fuel : forall mss c x a s now out,
  tx_inv c x a s -> (unsent_in_buf (c_tcb c) <= fuel)%nat ->
  exists c' out' s', segment_loop fuel mss c now out = Done (c', out ++ out') /\
    tx_inv c' x a s' /\ s <= s' /\ s' - a <= Z.max (s - a) (send_limit (c_tcb c)) /\
    Forall (fun p => carries x p /\ (length (p_payload p) <= mss)%nat) out' /\
    tx_frame c c' /\ next_segment_len (c_tcb c') mss = None.
Proof.
  induction fuel as [|fuel IH]; intros mss c x a s now out H Hf; cbn [segment_loop].
  all: destruct (next_segment_len (c_tcb c) mss) as [len|] eqn:E.
  all: try (exists c, [], s; rewrite app_nil_r; split_and!; (done || lia || constructor)).
  all: pose proof (next_segment_bounds _ _ _ E) as (Hl & Hw & Hm).
  { lia. }
  destruct (segment_total c (snd_nxt (c_tcb c)) TcpFlags.ACK
    (take len (drop (already_sent_offset (c_tcb c)) (send_buf (c_tcb c)))))
    as (p & -> & Es & Ep & _); [apply H|apply H|].
  rewrite obind_Done. pose proof (record_segment_inv c x a s len now H Hl) as H1.
  pose proof (record_segment_frame c len now) as F1.
  set (c1 := c <| c_tcb := _ |>) in *.
  assert (unsent_in_buf (c_tcb c1) <= fuel)%nat as Hf1.
  { unfold unsent_in_buf in *. pose proof (already_sent _ _ _ _ H).
    pose proof (already_sent _ _ _ _ H1). destruct F1 as (_ & -> & _). lia. }
  destruct (IH mss c1 x a _ now (out ++ [p]) H1 Hf1)
    as (c' & out' & s' & -> & H' & Hs' & Hlim & Hall & F' & Hend).
  destruct (next_carries c x a s len p H Hl Es Ep) as [Hc Elen].
  exists c', (p :: out'), s'. split_and!; try done; try lia.
  - by rewrite <- app_assoc.
  - assert (send_limit (c_tcb c1) = send_limit (c_tcb c)) as El.
    { unfold send_limit. destruct F1 as (_ & _ & _ & _ & -> & ->). done. }
    rewrite El in Hlim. unfold available_send_window, Congestion.effective_window in Hw.
    rewrite (flight_size_pos _ _ _ _ H) in Hw. unfold ssub, send_limit in *. lia.
  - constructor; [split; [done|lia]|done].
  - by etransitivity.
Qed.

(** ** Draining the application's ring *)

Lemma drain_tx_spec fuel : forall h buf db,
  SpscByteRing.wf (tx_ring h) -> (0 < length db)%nat ->
  SpscByteRing.available_read (tx_ring h) <= Z.of_nat fuel ->
  exists ring, drain_tx fuel h buf db
      = Done (h <| tx_ring := ring |>, buf ++ SpscByteRing.contents (tx_ring h)) /\
    SpscByteRing.wf ring /\ SpscByteRing.contents ring = [].
Proof.
  induction fuel as [|fuel IH]; intros h buf db Hwf Hdb Hf; cbn [drain_tx].
  all: destruct (SpscByteRing.read_spec (tx_ring h) db Hwf) as (r & -> & Hwf' & _ & Hc).
  all: pose proof (SpscByteRing.available_range _ Hwf) as Ha.
  all: pose proof (SpscByteRing.available_contents _ Hwf) as Hav.
  all: rewrite obind_Done; unfold zlen in *.
  all: set (n := Z.min _ _) in *; destruct (Z.eqb_spec n 0) as [E|E].
  all: try lia.
  1,2: assert (SpscByteRing.contents (tx_ring h) = []) as Hnil by (apply length_zero_iff_nil; lia).
  1,2: exists r; rewrite Hc, Hnil, app_nil_r, drop_nil; done.
  set (out := take (Z.to_nat n) (SpscByteRing.contents (tx_ring h)) ++ drop (Z.to_nat n) db).
  assert (take (Z.to_nat n) out = take (Z.to_nat n) (SpscByteRing.contents (tx_ring h))) as Ht.
  { subst out. rewrite take_app_le, take_take, Nat.min_id; [done|]. rewrite length_take. lia. }
  destruct (IH (h <| tx_ring := r |>) (buf ++ take (Z.to_nat n) out) out)
    as (r' & E' & Hwf'' & Hc'').
  - done.
  - subst out. rewrite length_app, length_take, length_drop. lia.
  - rsimpl. rewrite (SpscByteRing.available_contents _ Hwf'), Hc. unfold zlen.
    rewrite length_drop. lia.
  - exists r'. rewrite E'. split_and!; try done. rsimpl. rewrite Hc, Ht, <- app_assoc, take_drop.
    done.
Qed.

Lemma drain_tx_ring_inv c x a s :
  tx_inv c x a s ->
  exists c', drain_tx_ring c = Done c' /\ tx_inv c' x a s /\
    SpscByteRing.contents (tx_ring (c_handle c')) = [] /\
    send_buf (c_tcb c') = drop (Z.to_nat a) x /\
    fin_pending (c_tcb c') = fin_pending (c_tcb c) /\ t_state (c_tcb c') = t_state (c_tcb c) /\
    snd_wnd (c_tcb c') = snd_wnd (c_tcb c) /\ congestion (c_tcb c') = congestion (c_tcb c).
Proof.
  intros H. unfold drain_tx_ring. pose proof (SpscByteRing.available_range _ (tx_ring_wf _ _ _ _ H)).
  destruct (drain_tx_spec (Z.to_nat (SpscByteRing.available_read (tx_ring (c_handle c))))
    (c_handle c) (send_buf (c_tcb c)) (replicate DRAIN_BUF_LEN 0)) as (r & -> & Hwf & Hc).
  - apply H.
  - rewrite length_replicate. unfold DRAIN_BUF_LEN. lia.
  - lia.
  - rewrite obind_Done. eexists. split; [reflexivity|]. rsimpl.
    rewrite (tx_bytes _ _ _ _ H). split_and!; try done.
    constructor; rsimpl; try apply H; try done.
    + by rewrite Hc, app_nil_r.
    + pose proof (tx_sent _ _ _ _ H). pose proof (buf_in_stream _ _ _ _ H).
      pose proof (tx_pos _ _ _ _ H). unfold zlen in *. rewrite length_drop. lia.
Qed.

(** Timer bookkeeping keeps the send side. *)
Lemma tick_arm_timers_frame t now :
  let t' := tick_arm_timers t now in
  snd_una t' = snd_una t /\ snd_nxt t' = snd_nxt t /\ send_buf t' = send_buf t /\
  retransmit_queue t' = retransmit_queue t /\ rcv_scale t' = rcv_scale t /\
  snd_scale t' = snd_scale t /\ fin_pending t' = fin_pending t /\
  retransmit_count t' = retransmit_count t /\ t_state t' = t_state t /\
  snd_wnd t' = snd_wnd t /\ congestion t' = congestion t.
Proof.
  unfold tick_arm_timers.
  set (t1 := if _ && _ && _ then _ else t).
  assert (snd_una t1 = snd_una t /\ snd_nxt t1 = snd_nxt t /\ send_buf t1 = send_buf t /\
    retransmit_queue t1 = retransmit_queue t /\ rcv_scale t1 = rcv_scale t /\
    snd_scale t1 = snd_scale t /\ fin_pending t1 = fin_pending t /\
    retransmit_count t1 = retransmit_count t /\ t_state t1 = t_state t /\
    snd_wnd t1 = snd_wnd t /\ congestion t1 = congestion t) as H1.
  { subst t1. destruct (_ && _ && _); rsimpl; done. }
  clearbody t1. destruct H1 as (<- & <- & <- & <- & <- & <- & <- & <- & <- & <- & <-).
  set (t2 := if _ && _ then _ else t1).
  assert (snd_una t2 = snd_una t1 /\ snd_nxt t2 = snd_nxt t1 /\ send_buf t2 = send_buf t1 /\
    retransmit_queue t2 = retransmit_queue t1 /\ rcv_scale t2 = rcv_scale t1 /\
    snd_scale t2 = snd_scale t1 /\ fin_pending t2 = fin_pending t1 /\
    retransmit_count t2 = retransmit_count t1 /\ t_state t2 = t_state t1 /\
    snd_wnd t2 = snd_wnd t1 /\ congestion t2 = congestion t1) as H2.
  { subst t2. destruct (_ && _); rsimpl; done. }
  clearbody t2. destruct H2 as (<- & <- & <- & <- & <- & <- & <- & <- & <- & <- & <-).
  destruct (t_state t2) eqn:?, (keepalive t2), (keepalive_deadline t2); rsimpl; done.
Qed.

Lemma tick_arm_timers_inv c x a s now :
  tx_inv c x a s -> tx_inv (c <| c_tcb := tick_arm_timers (c_tcb c) now |>) x a s.
Proof.
  intros H. destruct (tick_arm_timers_frame (c_tcb c) now)
    as (E1 & E2 & E3 & E4 & E5 & E6 & E7 & E8 & _).
  constructor; rsimpl; rewrite ?E1, ?E2, ?E3, ?E4, ?E5, ?E6, ?E8; apply H.
Qed.

Lemma tick_wake_total c prev :
  SpscByteRing.wf (tx_ring (c_handle c)) ->
  exists ws, tick_wake c prev = Done (c <| c_wakes := ws |>).
Proof.
  intros Hwf. unfold tick_wake, wake_up. rsimpl.
  assert (Done c = Done (c <| c_wakes := c_wakes c |>)) as Hid by (by destruct c).
  destruct (0 <? _); [|rewrite Hid; eauto]. destruct (prev =? 0).
  { eexists. reflexivity. }
  unfold SpscByteRing.available_write. pose proof (SpscByteRing.available_range _ Hwf) as Ha.
  unfold SpscByteRing.available_read in Ha.
  destruct (Z.ltb_spec (SpscByteRing.capacity (tx_ring (c_handle c)))
    (wsub64 (SpscByteRing.head (tx_ring (c_handle c)))
      (SpscByteRing.tail (tx_ring (c_handle c))))); [lia|].
  rewrite obind_Done. destruct (0 <? _); [eexists; reflexivity|rewrite Hid; eauto].
Qed.

Lemma tx_inv_wakes c x a s ws : tx_inv c x a s -> tx_inv (c <| c_wakes := ws |>) x a s.
Proof. intros []. by constructor. Qed.

(** The keepalive timer's configuration and count, which sending leaves alone. *)
Definition ka_same (c c' : conn) : Prop :=
  keepalive (c_tcb c') = keepalive (c_tcb c) /\
  keepalive_probes_sent (c_tcb c') = keepalive_probes_sent (c_tcb c).

Lemma segment_loop_ka fuel : forall mss c now out c' out',
  segment_loop fuel mss c now out = Done (c', out') -> ka_same c c'.
Proof.
  induction fuel as [|fuel IH]; intros mss c now out c' out'; cbn [segment_loop];
    destruct (next_segment_len (c_tcb c) mss) as [len|]; intros E; try done; try (by injection E as <- _).
  destruct (segment_params _ _ _ _) as [p| |]; [|done..]. rewrite obind_Done in E. apply IH in E as [E1 E2].
  unfold ka_same. rewrite E1, E2. unfold record_segment. cbv zeta. rsimpl.
  by destruct (rto_deadline (c_tcb c)).
Qed.

Lemma arm_timers_ka t now :
  keepalive (tick_arm_timers t now) = keepalive t /\
  keepalive_probes_sent (tick_arm_timers t now) = keepalive_probes_sent t.
Proof.
  unfold tick_arm_timers. cbv zeta. set (t1 := if _ && _ && _ then _ else t).
  assert (keepalive t1 = keepalive t /\ keepalive_probes_sent t1 = keepalive_probes_sent t) as [<- <-]
    by (subst t1; by destruct (_ && _ && _)).
  clearbody t1. set (t2 := if _ && _ then _ else t1).
  assert (keepalive t2 = keepalive t1 /\ keepalive_probes_sent t2 = keepalive_probes_sent t1) as [<- <-]
    by (subst t2; by destruct (_ && _)).
  clearbody t2. destruct (t_state t2), (keepalive t2) eqn:?, (keepalive_deadline t2); rsimpl; done.
Qed.

(** A transmit tick without a pending FIN. *)
Lemma tick_transmit_spec c x a s now :
  tx_inv c x a s -> fin_pending (c_tcb c) = false ->
  exists c' out s', tick_transmit c now = Done (c', out) /\ tx_inv c' x a s' /\ s <= s' /\
    s' - a <= Z.max (s - a) (send_limit (c_tcb c)) /\
    Forall (fun p => carries x p /\ zlen (p_payload p) <= Z.max 0 (effective_mss (c_tcb c))) out /\
    SpscByteRing.contents (tx_ring (c_handle c')) = [] /\ fin_pending (c_tcb c') = false /\ ka_same c c'.
Proof.
  intros H Hfin. unfold tick_transmit.
  assert (exists c1, drain_tx_ring c = Done c1 /\ tx_inv c1 x a s /\
    SpscByteRing.contents (tx_ring (c_handle c1)) = [] /\ fin_pending (c_tcb c1) = false /\
    send_limit (c_tcb c1) = send_limit (c_tcb c) /\
    effective_mss (c_tcb c1) = effective_mss (c_tcb c) /\ ka_same c c1) as (c1 & -> & H1 & Hc1 & Hf1 & Hl1 & Hm1 & K1).
  { unfold drain_tx_ring. pose proof H as H'. apply drain_tx_ring_inv in H'.
    destruct H' as (c1 & E & H1 & Hc1 & _ & Hf & _ & Hw & Hcg). exists c1.
    split_and!; try done; try congruence.
    - unfold send_limit. by rewrite Hw, Hcg.
    - unfold drain_tx_ring in E. destruct (drain_tx _ _ _ _) as [[h buf]| |]; [|done..].
      rewrite obind_Done in E. injection E as <-. unfold effective_mss. rsimpl. done.
    - unfold drain_tx_ring in E. destruct (drain_tx _ _ _ _) as [[h buf]| |]; [|done..].
      rewrite obind_Done in E. injection E as <-. unfold ka_same. rsimpl. done. }
  rewrite obind_Done.
  destruct (segment_loop_spec (unsent_in_buf (c_tcb c1)) (Z.to_nat (effective_mss (c_tcb c1)))
    c1 x a s now []) as (c2 & out & s' & E2 & H2 & Hs & Hlim & Hall & F2 & _); [done|lia|].
  pose proof (segment_loop_ka _ _ _ _ _ _ _ E2) as K2. rewrite E2.
  rewrite obind_Done. destruct F2 as (Fh & Fb & Ff & _).
  pose proof (tick_arm_timers_inv c2 x a s' now H2) as H3. pose proof (arm_timers_ka (c_tcb c2) now) as K3.
  destruct (tick_arm_timers_frame (c_tcb c2) now) as (_ & _ & _ & _ & _ & _ & Ef & _).
  set (c3 := c2 <| c_tcb := _ |>) in *.
  assert (fin_pending (c_tcb c3) = false) as Hf3 by (subst c3; rsimpl; congruence).
  rewrite Hf3. cbn [andb]. cbv iota.
  destruct (tick_wake_total c3 (available_send_window (c_tcb c1))) as [ws ->]; [apply H3|].
  rewrite obind_Done. eexists _, out, s'. split; [reflexivity|]. split_and!; try done.
  - by apply tx_inv_wakes.
  - congruence.
  - eapply Forall_impl; [exact Hall|]. intros p [Hp Hlen]. split; [done|].
    rewrite <- Hm1. unfold zlen. lia.
  - subst c3. rsimpl. rewrite Fh. done.
  - destruct K1, K2, K3. subst c3. unfold ka_same. rsimpl. split; congruence.
Qed.

(** ** Acknowledgments and retransmissions *)

(** The acknowledgment number that covers the first [k] entries of the queue. *)
Definition ack_of (t : Tcb) (k : nat) : SeqNum.t :=
  match last (take k (retransmit_queue t)) with
  | Some e => SeqNum.add (e_seq e) (u32 (Z.of_nat (e_len e)))
  | None => snd_una t
  end.

Lemma covers_range_ack a q m e :
  covers_range a a q m -> last q = Some e -> Z.of_nat (e_len e) < 2 ^ 32 ->
  SeqNum.add (e_seq e) (u32 (Z.of_nat (e_len e))) = u32 (base + m).
Proof.
  intros H Hl Hlen. destruct q as [|e' q] using rev_ind; [done|].
  rewrite last_snoc in Hl. injection Hl as ->.
  apply covers_range_app in H as (m' & _ & H). cbn [covers_range] in H.
  destruct H as (Es & _ & _ & <-).
  rewrite Es, SeqNum.add_position, (u32_small (Z.of_nat _)) by (unfold is_u32; lia). f_equal. lia.
Qed.

(** The fields a new ACK changes. *)
Lemma new_ack_send_side t ack n :
  n = Nat.min (Z.to_nat (SeqNum.diff ack (snd_una t))) (length (send_buf t)) -> (0 < n)%nat ->
  let t' := established_new_ack t ack in
  snd_una t' = ack /\ snd_nxt t' = snd_nxt t /\ send_buf t' = drop n (send_buf t) /\
  retransmit_queue t' = (fun e => e <| e_offset := (e_offset e - n)%nat |>)
                          <$> retain_unacked ack (retransmit_queue t) /\
  rcv_scale t' = rcv_scale t /\ snd_scale t' = snd_scale t /\
  retransmit_count t' = retransmit_count t.
Proof.
  intros Hn Hpos. unfold established_new_ack, clear_nagle, drain_acked. cbv zeta. rsimpl.
  rewrite <- Hn, (proj2 (Nat.ltb_lt 0 n) Hpos).
  destruct (_ =? _); rsimpl; split_and!; reflexivity.
Qed.

Lemma new_ack_inv c x a s a' q2 :
  tx_inv c x a s -> a < a' <= s ->
  retain_unacked (u32 (base + a')) (retransmit_queue (c_tcb c)) = q2 ->
  covers_range a a' q2 s ->
  tx_inv (c <| c_tcb := established_new_ack (c_tcb c) (u32 (base + a')) |>) x a' s.
Proof.
  intros H Ha Hq Hc. pose proof (tx_pos _ _ _ _ H). pose proof (tx_sent _ _ _ _ H).
  pose proof (tx_short _ _ _ _ H). pose proof (buf_in_stream _ _ _ _ H).
  pose proof (tx_end _ _ _ _ H).
  destruct (new_ack_send_side (c_tcb c) (u32 (base + a')) (Z.to_nat (a' - a)))
    as (E1 & E2 & E3 & E4 & E5 & E6 & E7).
  { rewrite (tx_una _ _ _ _ H), SeqNum.diff_positions by lia. unfold zlen in *. lia. }
  { lia. }
  constructor; rsimpl; rewrite ?E1, ?E2, ?E3, ?E4, ?E5, ?E6, ?E7, ?Hq; try apply H; try lia.
  - rewrite <- drop_app_le by (unfold zlen in *; lia).
    rewrite (tx_bytes _ _ _ _ H), drop_drop. f_equal. lia.
  - unfold zlen in *. rewrite length_drop. lia.
  - eapply covers_range_rebase; [exact Hc|lia|lia|lia].
Qed.

Lemma update_window_inv c x a s seg t :
  tx_inv c x a s -> update_send_window (c_tcb c) seg = Done t ->
  tx_inv (c <| c_tcb := t |>) x a s.
Proof.
  intros H. unfold update_send_window. destruct (_ || _).
  - destruct (shl32 _ _); cbn [obind]; [|done..]. intros [= <-].
    constructor; rsimpl; apply H.
  - intros [= <-]. by destruct c.
Qed.

Lemma new_ack_fin_pending t ack : fin_pending (established_new_ack t ack) = fin_pending t.
Proof.
  unfold established_new_ack, clear_nagle, drain_acked. cbv zeta. rsimpl.
  destruct (0 <? _)%nat; destruct (_ =? _); rsimpl; reflexivity.
Qed.

Lemma update_window_total t seg :
  snd_scale t < 32 ->
  exists t', update_send_window t seg = Done t' /\ fin_pending t' = fin_pending t.
Proof.
  intros Hs. unfold update_send_window, shl32. destruct (_ || _); [|eauto].
  destruct (Z.ltb_spec (snd_scale t) 32); [|lia]. rewrite obind_Done.
  eexists. split; [reflexivity|]. rsimpl. reflexivity.
Qed.

(** An acknowledgment of whole segments. *)
Lemma ack_inv c x a s k seg :
  tx_inv c x a s -> seg_ack seg = ack_of (c_tcb c) k ->
  exists c' a', established_ack c seg = Done c' /\ tx_inv c' x a' s /\ a <= a' /\
    fin_pending (c_tcb c') = fin_pending (c_tcb c).
Proof.
  intros H Hack. pose proof (tx_pos _ _ _ _ H). pose proof (tx_short _ _ _ _ H).
  pose proof (tx_sent _ _ _ _ H). pose proof (buf_in_stream _ _ _ _ H).
  destruct (covers_range_split a a _ s k (tx_queue _ _ _ _ H)) as (a' & HA & HB & Ha').
  assert (seg_ack seg = u32 (base + a')) as Ea.
  { rewrite Hack. unfold ack_of. destruct (last (take k _)) as [e|] eqn:El.
    - eapply covers_range_ack; [exact HA|exact El|].
      destruct (take k _) as [|e' q] using rev_ind; [done|]. rewrite last_snoc in El.
      injection El as ->. apply covers_range_app in HA as (m & Hm & Hl).
      cbn [covers_range] in Hl. apply covers_range_le in Hm. lia.
    - apply last_None in El. rewrite El in HA. cbn in HA. rewrite <- HA. apply H. }
  set (c1 := if ack_is_new (c_tcb c) (seg_ack seg)
             then wake_up (c <| c_tcb := established_new_ack (c_tcb c) (seg_ack seg) |>) WakeWriter
             else c).
  assert (tx_inv c1 x a' s /\ fin_pending (c_tcb c1) = fin_pending (c_tcb c)) as [Hinv1 Hf1].
  { subst c1. unfold ack_is_new.
    rewrite Ea, (tx_una _ _ _ _ H), (tx_nxt _ _ _ _ H), SeqNum.gt_positions, SeqNum.le_positions
      by (unfold SeqNum.HALF; lia).
    destruct (Z.ltb_spec (base + a) (base + a')), (Z.leb_spec (base + a') (base + s));
      cbn [andb]; try lia.
    - split.
      + apply tx_inv_wakes. apply (new_ack_inv _ _ a _ _ (drop k (retransmit_queue (c_tcb c))));
          try done; [lia|].
        rewrite <- (take_drop k (retransmit_queue (c_tcb c))) at 1.
        unfold retain_unacked. rewrite filter_app. fold (retain_unacked (u32 (base + a'))).
        change (filter _ (take k _)) with
          (retain_unacked (u32 (base + a')) (take k (retransmit_queue (c_tcb c)))).
        change (filter _ (drop k _)) with
          (retain_unacked (u32 (base + a')) (drop k (retransmit_queue (c_tcb c)))).
        rewrite (retain_before a a _ a'), (retain_after a a' _ s) by (done || lia). done.
      + rsimpl. by apply new_ack_fin_pending.
    - assert (a' = a) as -> by lia. done. }
  unfold established_ack. fold c1.
  destruct (update_window_total (c_tcb c1) seg) as (t' & E & Ef); [apply Hinv1|].
  rewrite E, obind_Done. eexists _, a'. split; [reflexivity|]. split_and!; [|lia|].
  - by eapply update_window_inv.
  - rsimpl. congruence.
Qed.

(** A retransmission timeout with data outstanding: the connection gives up
    after its limit of retries, and resends the oldest segment otherwise. *)
Lemma rto_gives_up c x a s now :
  tx_inv c x a s -> max_retries <= retransmit_count (c_tcb c) ->
  exists c', rto_fire c now max_retries = Done (TickAbort c' true) /\
    error (c_handle c') = error (latch_error (c_handle c) TimedOut) /\
    tcp_state (c_handle c') = Closed /\ eof (c_handle c') = true /\ NotifyAll ∈ c_wakes c'.
Proof.
  intros H Hlim. pose proof (tx_count _ _ _ _ H) as Hc. unfold rto_fire, add32.
  destruct (Z.leb_spec (retransmit_count (c_tcb c) + 1) U32_MAX); [|lia]. rewrite obind_Done.
  destruct (Z.ltb_spec max_retries (retransmit_count (c_tcb c) + 1)); [|lia].
  eexists. split; [reflexivity|]. unfold abort_timed_out, wake_up. rsimpl. split_and!.
  - done.
  - apply (tcp_state_set_state (latch_error (c_handle c) TimedOut) Closed).
  - done.
  - apply elem_of_app. right. by left.
Qed.

Lemma rto_resends c x a s now e q :
  tx_inv c x a s -> retransmit_queue (c_tcb c) = e :: q -> retransmit_count (c_tcb c) < max_retries ->
  exists c' p, rto_fire c now max_retries = Done (TickKeep c' [p]) /\ tx_inv c' x a s /\
    carries x p /\ p_seq p = snd_una (c_tcb c) /\ length (p_payload p) = e_len e /\ (0 < e_len e)%nat /\
    retransmit_count (c_tcb c') = retransmit_count (c_tcb c) + 1 /\
    rto_deadline (c_tcb c') = Some (now + Congestion.rto (congestion (c_tcb c'))) /\
    fin_pending (c_tcb c') = fin_pending (c_tcb c) /\ keepalive (c_tcb c') = keepalive (c_tcb c) /\
    keepalive_probes_sent (c_tcb c') = keepalive_probes_sent (c_tcb c).
Proof.
  intros H Eq Hlim. pose proof (tx_count _ _ _ _ H) as Hc. unfold rto_fire, add32.
  destruct (Z.leb_spec (retransmit_count (c_tcb c) + 1) U32_MAX); [|lia]. rewrite obind_Done.
  destruct (Z.ltb_spec max_retries (retransmit_count (c_tcb c) + 1)); [lia|].
  rsimpl. rewrite Eq.
  pose proof (tx_queue _ _ _ _ H) as Hr. rewrite Eq in Hr. destruct Hr as (Es & Eo & El & Hr).
  pose proof (covers_range_le _ _ _ _ Hr). pose proof (tx_sent _ _ _ _ H).
  assert (e_offset e = 0%nat) as Eo0 by lia. rewrite Eo0, drop_0.
  pose proof (buf_in_stream _ _ _ _ H). pose proof (tx_pos _ _ _ _ H).
  assert (length (take (e_len e) (send_buf (c_tcb c))) = e_len e) as Hlen
    by (rewrite length_take; unfold zlen in *; lia).
  destruct (take (e_len e) (send_buf (c_tcb c))) as [|b bs] eqn:Ep; [cbn in Hlen; lia|].
  edestruct segment_total as (p & Hp & E1 & E2 & _); [| |rewrite Hp]; rsimpl; [apply H|apply H|].
  rewrite obind_Done. eexists _, p. split; [reflexivity|]. split_and!; try reflexivity; try done.
  - constructor; rsimpl; rewrite ?Eq; try apply H; [|lia]. done.
  - exists a. rewrite E1, E2, Hlen, <- Ep. split_and!; [lia|done| |].
    + rewrite <- (drop_0 (send_buf (c_tcb c))).
      rewrite (send_buf_bytes _ _ _ _ _ _ H) by (unfold zlen in *; lia). do 2 f_equal. lia.
    + unfold zlen in *. rewrite length_take. lia.
  - rewrite E1, Es. symmetry. apply H.
  - by rewrite E2.
Qed.

Lemma app_write_inv c x a s data :
  tx_inv c x a s -> zlen x + zlen data < 2 ^ 31 ->
  exists ring n, SpscByteRing.write (tx_ring (c_handle c)) data = Done (ring, n) /\
    tx_inv (c <| c_handle := (c_handle c) <| tx_ring := ring |> |>)
      (x ++ take (Z.to_nat n) data) a s.
Proof.
  intros H Hs. destruct (SpscByteRing.write_spec _ data (tx_ring_wf _ _ _ _ H))
    as (r & -> & Hwf & _ & Hc).
  set (n := Z.min _ _) in *. exists r, n. split; [done|]. pose proof (tx_end _ _ _ _ H) as He.
  pose proof (tx_pos _ _ _ _ H). pose proof (zlen_nonneg data).
  assert (zlen (take (Z.to_nat n) data) <= zlen data) as Ht
    by (unfold zlen; rewrite length_take; lia).
  pose proof (zlen_nonneg (take (Z.to_nat n) data)).
  constructor; rsimpl; try apply H; try done.
  - rewrite Hc, app_assoc, (tx_bytes _ _ _ _ H), drop_app_le by (unfold zlen in *; lia). done.
  - rewrite zlen_app. lia.
  - rewrite zlen_app. lia.
Qed.

(** ** Ticks *)

(** The keepalive timer is off, or its count of probes is below its limit. *)
Definition ka_ok (t : Tcb) : Prop :=
  match keepalive t with
  | Some ka => 0 <= keepalive_probes_sent t <= count ka /\ count ka < U32_MAX
  | None => True
  end.

Lemma ka_same_ok c c' : ka_same c c' -> ka_ok (c_tcb c) -> ka_ok (c_tcb c').
Proof. unfold ka_ok. by intros [-> ->]. Qed.

Lemma ack_segment_params c p : build_ack_for_tcb c = Done p -> p_payload p = [].
Proof.
  unfold build_ack_for_tcb, segment_params. destruct (encode_established_window _ _); [|done..].
  by intros [= <-].
Qed.

(** The events of a sending connection: the application writes, the peer
    acknowledges the first [k] outstanding segments (or repeats an old
    acknowledgment, [k = 0]) with any window, the engine's tick runs, with the timers that are due. *)
Inductive tx_event : Type :=
| TxWrite (data : list Z)
| TxAck (k : nat) (seq window now : Z)
| TxTick (now : Z).

(** What a frame sent by the event [ev] in the state [c] may be: without payload (an ACK or a
    keepalive probe); bytes of the stream [x]; or the probe of a tick whose persist
    timer is due and whose retransmission timer is not: one zero byte at [snd_nxt]. *)
Definition segment_ok (x : list Z) (c : conn) (ev : tx_event) (p : TcpFrameParams) : Prop :=
  p_payload p = [] \/ carries x p \/
  exists now, ev = TxTick now /\ due (persist_deadline (c_tcb c)) now = true /\
    (due (rto_deadline (c_tcb c)) now && negb (length (retransmit_queue (c_tcb c)) =? 0)%nat) = false /\
    p_seq p = snd_nxt (c_tcb c) /\ p_payload p = [0].

Lemma segment_ok_extend x y c ev p : segment_ok x c ev p -> segment_ok (x ++ y) c ev p.
Proof. intros [H|[H|H]]; [by left|right; left; by apply carries_extend|by right; right]. Qed.

(** The zero-window probe. *)
Lemma persist_spec c x a s now :
  tx_inv c x a s ->
  exists c' p, persist_fire c now = Done (TickKeep c' [p]) /\ tx_inv c' x a s /\
    p_seq p = snd_nxt (c_tcb c) /\ p_payload p = [0] /\
    fin_pending (c_tcb c') = fin_pending (c_tcb c) /\ ka_same c c'.
Proof.
  intros H. unfold persist_fire.
  destruct (segment_total c (SeqNum.add (snd_una (c_tcb c)) (flight_size (c_tcb c)))
    TcpFlags.ACK [0]) as (p & -> & E1 & E2 & _); [apply H|apply H|].
  rewrite obind_Done. eexists _, p. split; [reflexivity|]. rsimpl. split_and!; try done.
  - constructor; rsimpl; apply H.
  - rewrite E1. apply SeqNum.diff_add; [rewrite (tx_una _ _ _ _ H)|rewrite (tx_nxt _ _ _ _ H)]; apply u32_range.
Qed.

(** The keepalive probe carries nothing. *)
Lemma keepalive_spec c x a s ka now :
  tx_inv c x a s -> ka_ok (c_tcb c) -> keepalive (c_tcb c) = Some ka ->
  exists r, keepalive_fire c ka now = Done r /\
    match r with
    | TickKeep c' out => tx_inv c' x a s /\ Forall (fun p => p_payload p = []) out /\
        fin_pending (c_tcb c') = fin_pending (c_tcb c) /\ ka_ok (c_tcb c')
    | TickAbort _ _ => True
    end.
Proof.
  unfold ka_ok. intros H Hk Ek. rewrite Ek in Hk. unfold keepalive_fire, add32.
  destruct (Z.leb_spec (keepalive_probes_sent (c_tcb c) + 1) U32_MAX); [|lia]. rewrite obind_Done. rsimpl.
  destruct (Z.ltb_spec (count ka) (keepalive_probes_sent (c_tcb c) + 1)); [by eexists|].
  edestruct segment_total as (p & Hp & E1 & E2 & _); [| |rewrite Hp]; rsimpl; [apply H|apply H|].
  rewrite obind_Done. eexists. split; [reflexivity|]. cbv beta iota. rsimpl. rewrite Ek. split_and!; try done; try lia.
  - constructor; rsimpl; apply H.
  - by constructor.
Qed.

(** The delayed ACK and the drain. *)
Lemma tick_rest_spec c x a s now :
  tx_inv c x a s -> ka_ok (c_tcb c) -> fin_pending (c_tcb c) = false ->
  exists c' out s', tick_rest c now = Done (TickKeep c' out) /\ tx_inv c' x a s' /\
    Forall (fun p => p_payload p = [] \/ carries x p) out /\
    fin_pending (c_tcb c') = false /\ ka_ok (c_tcb c').
Proof.
  intros H Hk Hf. unfold tick_rest.
  assert (exists c1 acks, (if due (delayed_ack_deadline (c_tcb c)) now then delayed_ack_fire c else Done (c, []))
      = Done (c1, acks) /\ tx_inv c1 x a s /\ Forall (fun p => p_payload p = [] \/ carries x p) acks /\
    fin_pending (c_tcb c1) = false /\ ka_ok (c_tcb c1)) as (c1 & acks & -> & H1 & Ha & Hf1 & Hk1).
  { destruct (due _ now); [|exists c, []; by split_and!]. unfold delayed_ack_fire.
    set (c1 := c <| c_tcb := _ |>). assert (tx_inv c1 x a s) as H1 by (constructor; subst c1; rsimpl; apply H).
    destruct (ack_total c1) as [p E]; [apply H1|apply H1|]. rewrite E, obind_Done. apply ack_segment_params in E.
    eexists _, _. split; [reflexivity|]. split_and!; [done| | |]; [|by subst c1; rsimpl..]. constructor; [by left|done]. }
  rewrite obind_Done.
  assert (exists c' out s', tick_transmit c1 now = Done (c', out) /\ tx_inv c' x a s' /\
    Forall (fun p => p_payload p = [] \/ carries x p) (acks ++ out) /\
    fin_pending (c_tcb c') = false /\ ka_ok (c_tcb c')) as (c' & out & s' & E & H' & Ho & Hf' & Hk').
  { destruct (tick_transmit_spec c1 x a s now H1 Hf1) as (c' & out & s' & E & H' & _ & _ & Ho & _ & Hf' & K).
    exists c', out, s'. split_and!; try done; [|by eapply ka_same_ok].
    apply Forall_app_2; [done|]. eapply Forall_impl; [exact Ho|]. intros p [Hc _]. by right. }
  destruct (t_state (c_tcb c1)); rewrite ?E, ?obind_Done;
    first [by exists c', (acks ++ out), s'|by exists c1, acks, s].
Qed.

(** A tick, whatever timer is due. *)
Lemma tick_spec c x a s now :
  tx_inv c x a s -> ka_ok (c_tcb c) -> fin_pending (c_tcb c) = false ->
  exists r, tick_conn c now max_retries = Done r /\
    match r with
    | TickKeep c' out => exists s', tx_inv c' x a s' /\ Forall (segment_ok x c (TxTick now)) out /\
        fin_pending (c_tcb c') = false /\ ka_ok (c_tcb c')
    | TickAbort _ _ => True
    end.
Proof.
  intros H Hk Hf. unfold tick_conn.
  destruct (due (rto_deadline (c_tcb c)) now && negb (length (retransmit_queue (c_tcb c)) =? 0)%nat) eqn:Erto.
  { apply andb_prop in Erto as [_ Eq]. destruct (retransmit_queue (c_tcb c)) as [|e q] eqn:Erq; [done|].
    destruct (Z.lt_ge_cases (retransmit_count (c_tcb c)) max_retries) as [Hlt|Hge].
    - destruct (rto_resends c x a s now e q H Erq Hlt) as (c' & p & -> & H' & Hc & _ & _ & _ & _ & _ & Ef & Ek).
      eexists. split; [reflexivity|]. exists s. split_and!; [done| |congruence|by eapply ka_same_ok].
      constructor; [right; by left|done].
    - destruct (rto_gives_up c x a s now H Hge) as (c' & -> & _). by eexists. }
  destruct (due (persist_deadline (c_tcb c)) now) eqn:Ep.
  { destruct (persist_spec c x a s now H) as (c' & p & -> & H' & E1 & E2 & Ef & Ek).
    eexists. split; [reflexivity|]. exists s. split_and!; [done| |congruence|by eapply ka_same_ok].
    constructor; [right; right; by exists now|done]. }
  assert (exists r, tick_rest c now = Done r /\ match r with
    | TickKeep c' out => exists s', tx_inv c' x a s' /\ Forall (segment_ok x c (TxTick now)) out /\
        fin_pending (c_tcb c') = false /\ ka_ok (c_tcb c')
    | TickAbort _ _ => True end) as Hrest.
  { destruct (tick_rest_spec c x a s now H Hk Hf) as (c' & out & s' & -> & H' & Ho & Hr).
    eexists. split; [reflexivity|]. exists s'. split_and!; try done; try apply Hr.
    eapply Forall_impl; [exact Ho|]. intros p [?|?]; [by left|right; by left]. }
  destruct (keepalive (c_tcb c)) as [ka|] eqn:Ek; [|done]. destruct (due (keepalive_deadline (c_tcb c)) now); [|done].
  destruct (keepalive_spec c x a s ka now H Hk Ek) as ([c' out|c' b] & -> & Hr); eexists; (split; [reflexivity|]); [|done].
  destruct Hr as (H' & Ho & Ef & Hk'). exists s. split_and!; [done| |congruence|done].
  eapply Forall_impl; [exact Ho|]. by left.
Qed.

(** ** Runs *)

Definition ack_segment (c : conn) (k : nat) (seq window : Z) : ParsedTcpSegment :=
  MkSegment (remote (t_key (c_tcb c))) (local (t_key (c_tcb c))) seq (ack_of (c_tcb c) k)
    TcpFlags.ACK window options_default [].

(** The connection, what the application has written, and for each acknowledgment and tick the state before it and
    the frames it sent; a tick that gives the connection up ends the run. *)
Fixpoint tx_run (c : conn) (evs : list tx_event) (x : list Z) (log : list (conn * tx_event * list TcpFrameParams))
    : outcome (conn * list Z * list (conn * tx_event * list TcpFrameParams)) :=
  match evs with
  | [] => Done (c, x, log)
  | TxWrite data :: evs =>
      let! (ring, n) := SpscByteRing.write (tx_ring (c_handle c)) data in
      tx_run (c <| c_handle := (c_handle c) <| tx_ring := ring |> |>) evs
        (x ++ take (Z.to_nat n) data) log
  | TxAck k seq window now :: evs =>
      let! (c', out) := handle_established c (ack_segment c k seq window) now in
      tx_run c' evs x (log ++ [(c, TxAck k seq window now, out)])
  | TxTick now :: evs =>
      let! r := tick_conn c now max_retries in
      match r with
      | TickKeep c' out => tx_run c' evs x (log ++ [(c, TxTick now, out)])
      | TickAbort c' _ => Done (c', x, log ++ [(c, TxTick now, [])])
      end
  end.

Fixpoint written_bytes (evs : list tx_event) : Z :=
  match evs with
  | [] => 0
  | TxWrite data :: evs => zlen data + written_bytes evs
  | _ :: evs => written_bytes evs
  end.

Lemma written_bytes_nonneg evs : 0 <= written_bytes evs.
Proof.
  induction evs as [|[data| |] evs IH]; cbn; try done. pose proof (zlen_nonneg data). lia.
Qed.

Lemma established_ack_ka c seg c' : established_ack c seg = Done c' -> ka_same c c'.
Proof.
  unfold established_ack. intros E. set (c1 := if ack_is_new _ _ then _ else c) in E.
  assert (ka_same c c1) as K.
  { subst c1. destruct (ack_is_new _ _); [|done]. unfold wake_up, ka_same. rsimpl.
    unfold established_new_ack, clear_nagle, drain_acked. cbv zeta. rsimpl.
    destruct (0 <? _)%nat; destruct (_ =? _); rsimpl; done. }
  clearbody c1. unfold update_send_window, shl32 in E. destruct (_ || _).
  - destruct (snd_scale (c_tcb c1) <? 32); [|done]. rewrite !obind_Done in E. injection E as <-. exact K.
  - rewrite obind_Done in E. injection E as <-. exact K.
Qed.

Lemma ack_event_inv c x a s k seq window now :
  tx_inv c x a s ->
  exists c' a', handle_established c (ack_segment c k seq window) now = Done (c', []) /\
    tx_inv c' x a' s /\ fin_pending (c_tcb c') = fin_pending (c_tcb c) /\ ka_same c c'.
Proof.
  intros H. destruct (ack_inv c x a s k (ack_segment c k seq window) H eq_refl)
    as (c' & a' & E & H' & _ & Ef).
  exists c', a'. unfold handle_established. change (TcpFlags.contains _ TcpFlags.ACK) with true.
  cbv iota. pose proof (established_ack_ka _ _ _ E). rewrite E, obind_Done. change (seg_payload _) with (@nil Z). cbv iota.
  rewrite obind_Done. change (TcpFlags.contains _ TcpFlags.FIN) with false. done.
Qed.

Definition log_ok (x : list Z) (log : list (conn * tx_event * list TcpFrameParams)) : Prop :=
  Forall (fun '(c, ev, out) => Forall (segment_ok x c ev) out) log.

Lemma log_ok_extend x y log : log_ok x log -> log_ok (x ++ y) log.
Proof.
  intros H. eapply Forall_impl; [exact H|]. intros [[c ev] out] Ho.
  eapply Forall_impl; [exact Ho|]. intros p. apply segment_ok_extend.
Qed.

Lemma log_ok_snoc x log c ev out : log_ok x log -> Forall (segment_ok x c ev) out -> log_ok x (log ++ [(c, ev, out)]).
Proof. intros H Ho. apply Forall_app_2; [done|]. by constructor. Qed.

Lemma tx_run_spec evs : forall c x a s log,
  tx_inv c x a s -> ka_ok (c_tcb c) -> fin_pending (c_tcb c) = false -> zlen x + written_bytes evs < 2 ^ 31 ->
  log_ok x log ->
  exists c' x' log', tx_run c evs x log = Done (c', x', log') /\
    x `prefix_of` x' /\ log_ok x' log'.
Proof.
  induction evs as [|ev evs IH]; intros c x a s log H Hk Hf Hs Hlog.
  { by exists c, x, log. }
  destruct ev as [data|k seq window now|now]; cbn [tx_run written_bytes] in *.
  - pose proof (written_bytes_nonneg evs).
    destruct (app_write_inv c x a s data H) as (r & n & -> & H1); [lia|]. rewrite obind_Done.
    destruct (IH _ _ a s log H1) as (c' & x' & fs & E & Hp & Hall); [done|done| | |].
    + rewrite zlen_app. assert (zlen (take (Z.to_nat n) data) <= zlen data); [|lia].
      unfold zlen. rewrite length_take. lia.
    + by apply log_ok_extend.
    + exists c', x', fs. split_and!; try done. etransitivity; [|exact Hp]. by apply prefix_app_r.
  - destruct (ack_event_inv c x a s k seq window now H) as (c1 & a1 & -> & H1 & Ef & Hk1).
    rewrite obind_Done. eapply IH; [exact H1|by eapply ka_same_ok|congruence|done|]. by apply log_ok_snoc.
  - destruct (tick_spec c x a s now H Hk Hf) as ([c1 out|c1 b] & -> & Hr); rewrite obind_Done.
    + destruct Hr as (s1 & H1 & Ho & Ef & Hk1). eapply IH; [exact H1|done|done|done|]. by apply log_ok_snoc.
    + eexists _, x, _. split; [reflexivity|]. split; [done|]. by apply log_ok_snoc.
Qed.

(** A connection about to send the first byte. *)
Definition tx_start (c : conn) : Prop :=
  snd_una (c_tcb c) = u32 base /\ snd_nxt (c_tcb c) = u32 base /\
  SpscByteRing.wf (tx_ring (c_handle c)) /\ SpscByteRing.wf (rx_ring (c_handle c)) /\
  SpscByteRing.contents (tx_ring (c_handle c)) = [] /\ send_buf (c_tcb c) = [] /\
  retransmit_queue (c_tcb c) = [] /\ fin_pending (c_tcb c) = false /\
  rcv_scale (c_tcb c) < 32 /\ snd_scale (c_tcb c) < 32 /\
  0 <= retransmit_count (c_tcb c) <= max_retries /\ max_retries < U32_MAX /\ ka_ok (c_tcb c).

Lemma tx_start_inv c : tx_start c -> tx_inv c [] 0 0.
Proof.
  intros (H1 & H2 & H3 & H4 & H5 & H6 & H7 & H8 & H9 & H10 & H11 & H12 & _).
  constructor; rewrite ?H1, ?H2, ?H5, ?H6, ?H7, ?Z.add_0_r; try done.
Qed.

(** C2: transmit-side stream integrity.  From a connection about to send its first byte, whatever the application writes
    (less than 2^31 bytes in all), whenever the engine's tick runs and whichever of its timers are due, and
    whatever windows the peer announces with acknowledgments of whole segments (new or repeated, without data): the engine returns
    normally, and every frame of every tick either has no payload (ACKs, keepalive
    probes), or carries exactly the bytes of the application's stream [x] at the position its sequence number
    names, first transmissions and retransmissions alike, or is the zero-window probe, which
    is sent only by a tick whose persist timer is due and whose retransmission timer is not, and
    carries one zero byte at [snd_nxt] in place of the stream's next one.  The application does not
    shut down, the window scales are below 32, and acknowledgments inside a segment and the states after a FIN are excluded: see
    [partial_ack_breaks_retransmission] and [close_wait_resends_acked_data]. *)
Theorem sender_stream_integrity c evs :
  tx_start c -> written_bytes evs < 2 ^ 31 ->
  exists c' x log, tx_run c evs [] [] = Done (c', x, log) /\
    Forall (fun '(c0, ev, out) => Forall (segment_ok x c0 ev) out) log.
Proof.
  intros Hs Hb. pose proof (tx_start_inv c Hs) as H.
  destruct (tx_run_spec evs c [] 0 0 [] H) as (c' & x & log & E & _ & Hall); [apply Hs..| | |].
  - done.
  - constructor.
  - by exists c', x, log.
Qed.

(** C35: a transmit tick empties the application's ring, keeps every segment
    within the segment size, and never lets the data in flight exceed the smaller
    of congestion and peer window (beyond what already was in flight). *)
Theorem transmit_respects_windows c x a s now :
  tx_inv c x a s -> fin_pending (c_tcb c) = false ->
  exists c' out, tick_transmit c now = Done (c', out) /\
    Forall (fun p => zlen (p_payload p) <= Z.max 0 (effective_mss (c_tcb c))) out /\
    flight_size (c_tcb c') <=
      Z.max (flight_size (c_tcb c)) (Z.min (Congestion.cwnd (congestion (c_tcb c))) (snd_wnd (c_tcb c))) /\
    SpscByteRing.contents (tx_ring (c_handle c')) = [].
Proof.
  intros H Hf. destruct (tick_transmit_spec c x a s now H Hf)
    as (c' & out & s' & E & H' & _ & Hl & Ho & Hc & _).
  exists c', out. split_and!; try done.
  - eapply Forall_impl; [exact Ho|]. by intros p [].
  - rewrite (flight_size_pos _ _ _ _ H), (flight_size_pos _ _ _ _ H'). exact Hl.
Qed.

(** C37: the retransmission timer with data outstanding.  When the limit of retries is reached the timeout closes the
    connection: the TCB is given up, the handle is [Closed] with end of file and
    [TimedOut] latched (unless an error already is), everybody is woken, and nothing is
    sent.  Below the limit it resends exactly the oldest unacknowledged segment, starting at [snd_una],
    counts one more retry and arms the timer again. *)
Theorem rto_retransmits_or_aborts c x a s now e q :
  tx_inv c x a s -> retransmit_queue (c_tcb c) = e :: q ->
  if max_retries <=? retransmit_count (c_tcb c) then
    exists c', rto_fire c now max_retries = Done (TickAbort c' true) /\
      error (c_handle c') = error (latch_error (c_handle c) TimedOut) /\
      tcp_state (c_handle c') = Closed /\ eof (c_handle c') = true /\ NotifyAll ∈ c_wakes c'
  else
    exists c' p, rto_fire c now max_retries = Done (TickKeep c' [p]) /\
      carries x p /\ p_seq p = snd_una (c_tcb c) /\ length (p_payload p) = e_len e /\ (0 < e_len e)%nat /\
      retransmit_count (c_tcb c') = retransmit_count (c_tcb c) + 1 /\
      rto_deadline (c_tcb c') = Some (now + Congestion.rto (congestion (c_tcb c'))).
Proof.
  intros H Hq. destruct (Z.leb_spec max_retries (retransmit_count (c_tcb c))).
  - by eapply rto_gives_up.
  - destruct (rto_resends c x a s now e q H Hq) as (c' & p & E & _ & Hr); [lia|].
    exists c', p. tauto.
Qed.

End Queue.

(** A connection with a segment size of 4, at a sequence number about to wrap. *)
Definition demo_sender : conn :=
  MkConn ((tcb_new demo_key 4294967293 4 0%nat mac_zero mac_zero)
            <| t_state := Established |> <| snd_una := 4294967294 |> <| snd_nxt := 4294967294 |>
            <| snd_wnd := 1000 |> <| rcv_wnd := 65535 |>)
    (handle_new 16 16 true demo_key) [].

Lemma demo_sender_start : tx_start 4294967294 15 demo_sender.
Proof.
  split_and!; try reflexivity; try (apply (SpscByteRing.new_spec 16)); cbn; try lia.
Qed.

(** The peer closes its window after the first segment; after two seconds a zero-window probe is sent. *)
Lemma sender_stream_integrity_witness :
  exists c' x log,
    tx_run 15 demo_sender
      [TxWrite [1; 2; 3; 4; 5; 6; 7]; TxTick 10; TxAck 2 0 0 11; TxTick 20; TxWrite [8; 9];
       TxTick 2000000000; TxAck 0 1 900 2000000001; TxTick 2000000002] [] [] = Done (c', x, log) /\
    Forall (fun '(c0, ev, out) => Forall (segment_ok 4294967294 x c0 ev) out) log.
Proof.
  destruct (sender_stream_integrity 4294967294 15 demo_sender
    [TxWrite [1; 2; 3; 4; 5; 6; 7]; TxTick 10; TxAck 2 0 0 11; TxTick 20; TxWrite [8; 9];
     TxTick 2000000000; TxAck 0 1 900 2000000001; TxTick 2000000002]) as (c' & x & log & E & H);
    [exact demo_sender_start|by vm_compute|]. exists c', x, log. exact (conj E H).
Defined.

Lemma transmit_respects_windows_witness :
  exists c' out, tick_transmit demo_sender 10 = Done (c', out) /\
    Forall (fun p => zlen (p_payload p) <= Z.max 0 (effective_mss (c_tcb demo_sender))) out /\
    flight_size (c_tcb c') <= Z.max (flight_size (c_tcb demo_sender))
      (Z.min (Congestion.cwnd (congestion (c_tcb demo_sender))) (snd_wnd (c_tcb demo_sender))) /\
    SpscByteRing.contents (tx_ring (c_handle c')) = [].
Proof.
  apply (transmit_respects_windows 4294967294 15 demo_sender [] 0 0); [|reflexivity].
  exact (tx_start_inv 4294967294 15 _ demo_sender_start).
Defined.

(** The same connection with the bytes 1 to 4 outstanding. *)
Definition demo_outstanding : conn :=
  demo_sender <| c_tcb := (c_tcb demo_sender) <| snd_nxt := 2 |> <| send_buf := [1; 2; 3; 4] |>
    <| retransmit_queue := [MkEntry 4294967294 0 4 0 0] |> <| has_unacked_data := true |>
    <| rto_deadline := Some 1000 |> |>.

Lemma demo_outstanding_inv : tx_inv 4294967294 15 demo_outstanding [1; 2; 3; 4] 0 4.
Proof.
  assert (SpscByteRing.wf (SpscByteRing.new 16)) as Hwf by (apply (SpscByteRing.new_spec 16); lia).
  constructor; try reflexivity; try exact Hwf; try (split; [discriminate|reflexivity]);
    try (split; reflexivity); try (vm_compute; discriminate); [lia| |].
  - split_and!; reflexivity || (cbn; lia).
  - split; [split; discriminate|reflexivity].
Qed.

Lemma rto_retransmits_or_aborts_witness :
  exists c' p, rto_fire demo_outstanding 2000 15 = Done (TickKeep c' [p]) /\
    carries 4294967294 [1; 2; 3; 4] p /\ p_seq p = snd_una (c_tcb demo_outstanding) /\ length (p_payload p) = 4%nat.
Proof.
  destruct (rto_retransmits_or_aborts 4294967294 15 demo_outstanding [1; 2; 3; 4] 0 4 2000
    (MkEntry 4294967294 0 4 0 0) []) as (c' & p & E & Hc & Hs & Hl & _);
    [exact demo_outstanding_inv|reflexivity|]. exists c', p. exact (conj E (conj Hc (conj Hs Hl))).
Defined.

(** ** Where stream integrity is lost *)

(** Zero-window probes never give up: each doubles the interval up to 60 s and
    rearms; but the probe carries a zero byte at [snd_nxt], whatever the next byte of
    the stream is, so a peer whose window has opened takes a byte the application
    did not write. *)
Theorem persist_probe_rearms c now :
  SpscByteRing.wf (rx_ring (c_handle c)) -> rcv_scale (c_tcb c) < 32 ->
  is_u32 (snd_una (c_tcb c)) -> is_u32 (snd_nxt (c_tcb c)) ->
  exists c' p, persist_fire c now = Done (TickKeep c' [p]) /\
    p_seq p = snd_nxt (c_tcb c) /\ p_payload p = [0] /\
    persist_deadline (c_tcb c')
      = Some (now + Z.min (persist_backoff (c_tcb c) * 2) (60 * SECOND)) /\
    send_buf (c_tcb c') = send_buf (c_tcb c) /\ snd_nxt (c_tcb c') = snd_nxt (c_tcb c).
Proof.
  intros Hwf Hs Hu Hn. unfold persist_fire.
  destruct (segment_total c (SeqNum.add (snd_una (c_tcb c)) (flight_size (c_tcb c)))
    TcpFlags.ACK [0] Hwf Hs) as (p & -> & E1 & E2 & _).
  rewrite obind_Done. eexists _, p. split; [reflexivity|]. rsimpl. split_and!; try done.
  rewrite E1. by apply SeqNum.diff_add.
Qed.

(** The application's next byte is 5; the probe sends 0 in its place. *)
Lemma persist_probe_rearms_witness :
  let c := demo_outstanding <| c_tcb := (c_tcb demo_outstanding)
             <| send_buf := [1; 2; 3; 4; 5] |> <| snd_wnd := 0 |> |> in
  exists c' p, persist_fire c 7 = Done (TickKeep c' [p]) /\
    p_seq p = snd_nxt (c_tcb c) /\ p_payload p = [0] /\
    persist_deadline (c_tcb c') = Some (7 + Z.min (persist_backoff (c_tcb c) * 2) (60 * SECOND)) /\
    send_buf (c_tcb c') = send_buf (c_tcb c) /\ snd_nxt (c_tcb c') = snd_nxt (c_tcb c).
Proof.
  intros c. apply (persist_probe_rearms c 7).
  - apply (SpscByteRing.new_spec 16). lia.
  - reflexivity.
  - split; [discriminate|reflexivity].
  - split; [discriminate|reflexivity].
Defined.

(** An acknowledgment inside a segment is not handled: the entry keeps its
    sequence number while its bytes move to the front of the send buffer, so the next
    retransmission sends the later bytes under the earlier sequence number.  Here
    bytes 1 and 2 of 1..4 are acknowledged and the resend pairs sequence number of
    byte 1 with bytes 3, 4. *)
Theorem partial_ack_breaks_retransmission :
  exists c1 c2 p,
    handle_established demo_outstanding
      (MkSegment (remote demo_key) (local demo_key) 0 0 TcpFlags.ACK 1000 options_default []) 0
    = Done (c1, []) /\
    rto_fire c1 2000 15 = Done (TickKeep c2 [p]) /\
    p_seq p = 4294967294 /\ p_payload p = [3; 4] /\ ~ carries 4294967294 [1; 2; 3; 4] p.
Proof.
  eexists _, _, _. split; [vm_compute; reflexivity|]. split; [vm_compute; reflexivity|].
  split; [reflexivity|]. split; [reflexivity|].
  intros (q & H0 & Hq & Hp & Hl). cbn in Hq, Hp, Hl.
  assert (q = 0 \/ q = 1 \/ q = 2) as [-> | [-> | ->]] by (unfold zlen in Hl; cbn in Hl; lia);
    [discriminate Hp|discriminate Hp|].
  vm_compute in Hq. discriminate.
Qed.

(** In CLOSE_WAIT acknowledged bytes are not removed from the send buffer:
    after the peer has acknowledged all four bytes, the next tick sends them again
    as new data after the end of the stream. *)
Theorem close_wait_resends_acked_data :
  exists c1 c2 p,
    let c := demo_outstanding <| c_tcb := (c_tcb demo_outstanding) <| t_state := CloseWait |> |> in
    c1 = handle_close_wait c
           (MkSegment (remote demo_key) (local demo_key) 0 2 TcpFlags.ACK 1000 options_default []) /\
    snd_una (c_tcb c1) = snd_nxt (c_tcb c1) /\
    tick_transmit c1 2000 = Done (c2, [p]) /\
    p_seq p = snd_nxt (c_tcb c) /\ p_payload p = [1; 2; 3; 4].
Proof.
  eexists _, _, _. split; [reflexivity|]. split; [reflexivity|].
  split; [vm_compute; reflexivity|]. split; reflexivity.
Qed.
