(* ===== verification/EngineLife.v ===== *)
(** * Life cycle of connections

    The engine's tables stay consistent and every connection moves along the
    edges of the TCP state machine, whatever segments, commands and ticks arrive;
    the handle always publishes the state of its TCB. *)

From stdpp Require Import base numbers list gmap.
From Stdlib Require Import ZArith Lia Relations.
From S2P Require Import Prelude Seq State Codec Ring Congestion Contract Tcb Conn Engine.

(** ** The state machine *)

(** The transitions of a live connection. *)
Inductive legal : TcpState -> TcpState -> Prop :=
| legal_stay s : legal s s
| legal_syn_sent : legal SynSent Established
| legal_syn_received : legal SynReceived Established
| legal_peer_fin : legal Established CloseWait
| legal_our_fin : legal Established FinWait1
| legal_our_fin_after : legal CloseWait LastAck
| legal_fin_acked : legal FinWait1 FinWait2
| legal_both_fins : legal FinWait1 TimeWait
| legal_simultaneous : legal FinWait1 Closing
| legal_fin_wait2 : legal FinWait2 TimeWait
| legal_closing : legal Closing TimeWait.

Create HintDb legal discriminated.

#[export] Hint Constructors legal : legal.

(** The handle publishes the state of the TCB. *)
Definition synced (c : conn) : Prop := tcp_state (c_handle c) = t_state (c_tcb c).

(** A handler's effect on identity and state. *)
Record conn_step (c c' : conn) : Prop := {
  step_key : t_key (c_tcb c') = t_key (c_tcb c);
  step_handle : t_handle (c_tcb c') = t_handle (c_tcb c);
  step_legal : legal (t_state (c_tcb c)) (t_state (c_tcb c'));
  step_synced : synced c -> synced c' }.

(** A step that does not touch identity or state. *)
Definition keeps (c c' : conn) : Prop :=
  t_key (c_tcb c') = t_key (c_tcb c) /\ t_handle (c_tcb c') = t_handle (c_tcb c) /\
  t_state (c_tcb c') = t_state (c_tcb c) /\ h_state (c_handle c') = h_state (c_handle c).

#[local] Instance keeps_preorder : PreOrder keeps.
Proof.
  split; unfold keeps; [done|].
  intros a b c (? & ? & ? & ?) (? & ? & ? & ?). split_and!; congruence.
Qed.

Lemma keeps_step c c' : keeps c c' -> conn_step c c'.
Proof.
  intros (H1 & H2 & H3 & H4). constructor; try done.
  - rewrite H3. constructor.
  - unfold synced, tcp_state. by rewrite H3, H4.
Qed.

Lemma keeps_then_step a b c : keeps a b -> conn_step b c -> conn_step a c.
Proof.
  intros (H1 & H2 & H3 & H4) [S1 S2 S3 S4]. constructor; try congruence.
  intros Ha. apply S4. unfold synced, tcp_state in *. by rewrite H3, H4.
Qed.

Lemma step_then_keeps a b c : conn_step a b -> keeps b c -> conn_step a c.
Proof.
  intros [S1 S2 S3 S4] (H1 & H2 & H3 & H4). constructor; try congruence.
  intros Ha. specialize (S4 Ha). unfold synced, tcp_state in *. by rewrite H3, H4.
Qed.

(** Proves [keeps] of record updates. *)
Ltac keep := unfold keeps, wake_up, set_eof; rsimpl; split_and!; reflexivity.

Lemma Done_inj {A} (a b : A) : Done a = Done b -> a = b.
Proof. by intros [=]. Qed.

Lemma TickKeep_inj c o c' o' : TickKeep c o = TickKeep c' o' -> c = c' /\ o = o'.
Proof. by intros [=]. Qed.

(** Case analysis of a handler that returned. *)
Ltac returned :=
  repeat match goal with
  | H : Panic = Done _ |- _ => discriminate H
  | H : OutOfFuel = Done _ |- _ => discriminate H
  | H : Done _ = Done _ |- _ => apply Done_inj in H; subst
  | H : (_, _) = (_, _) |- _ => apply pair_equal_spec in H as [? ?]; subst
  | H : TickKeep _ _ = TickKeep _ _ |- _ => apply TickKeep_inj in H as [? ?]; subst
  | H : obind ?m _ = Done _ |- _ =>
      let E := fresh "E" in destruct m eqn:E; cbn [obind] in H; try discriminate H
  | H : (let (_, _) := ?p in _) = Done _ |- _ => destruct p
  end.

Lemma deliver_keeps c data c' w : deliver c data = Done (c', w) -> keeps c c'.
Proof. unfold deliver. intros H. returned. keep. Qed.

Lemma drain_reorder_keeps fuel : forall c m cnt c' m' cnt',
  drain_reorder fuel c m cnt = Done (c', m', cnt') -> keeps c c'.
Proof.
  induction fuel as [|fuel IH]; intros c m cnt c' m' cnt'; cbn [drain_reorder];
    (destruct (m !! 0) as [d|]; [|intros H; returned; reflexivity]).
  - discriminate.
  - intros H. returned. etransitivity; [eapply deliver_keeps; eassumption|]. eapply IH; eassumption.
Qed.

Lemma new_ack_keeps c ack : keeps c (c <| c_tcb := established_new_ack (c_tcb c) ack |>).
Proof.
  unfold keeps, established_new_ack, clear_nagle, drain_acked. cbv zeta. rsimpl.
  destruct (0 <? _)%nat; destruct (_ =? _); rsimpl; split_and!; reflexivity.
Qed.

Lemma established_ack_keeps c seg c' : established_ack c seg = Done c' -> keeps c c'.
Proof.
  unfold established_ack, update_send_window.
  set (c1 := if ack_is_new _ _ then _ else _).
  assert (keeps c c1) as H1.
  { subst c1. destruct (ack_is_new _ _); [|reflexivity].
    etransitivity; [apply (new_ack_keeps c (seg_ack seg))|keep]. }
  intros H. etransitivity; [exact H1|]. clearbody c1. destruct (_ || _); returned; keep.
Qed.

Lemma in_order_keeps c seg now c' out :
  established_in_order c seg now = Done (c', out) -> keeps c c'.
Proof.
  unfold established_in_order. intros H. returned.
  assert (keeps c c1) as H1.
  { pose proof (deliver_keeps _ _ _ _ E) as Hd. etransitivity; [exact Hd|].
    clear -E0. destruct (bool_decide _); returned; [reflexivity|].
    apply drain_reorder_keeps in E1. transitivity c; [exact E1|keep]. }
  etransitivity; [exact H1|].
  clear -H. destruct (_ <=? _); [|destruct (delayed_ack_deadline _)]; returned; keep.
Qed.

Lemma established_data_keeps c seg now c' out :
  established_data c seg now = Done (c', out) -> keeps c c'.
Proof.
  unfold established_data. set (t := match keepalive _ with Some ka => _ | None => _ end).
  assert (keeps c (c <| c_tcb := t |>)) as H1 by (subst t; destruct (keepalive _); keep).
  intros H. etransitivity; [exact H1|]. clearbody t.
  destruct (_ =? _); [by eapply in_order_keeps|]. destruct (SeqNum.gt _ _); [|by returned].
  unfold established_out_of_order in H. returned. keep.
Qed.

(** ** Handlers follow the state machine *)

(** A move to state [s], published in the handle. *)
Lemma moves_step c c' s :
  t_key (c_tcb c') = t_key (c_tcb c) -> t_handle (c_tcb c') = t_handle (c_tcb c) ->
  t_state (c_tcb c') = s -> h_state (c_handle c') = to_u8 s ->
  legal (t_state (c_tcb c)) s -> conn_step c c'.
Proof.
  intros H1 H2 H3 H4 H5. constructor; try done; [congruence|].
  intros _. unfold synced, tcp_state. by rewrite H3, H4, from_to_u8.
Qed.

Ltac moves s :=
  eapply (moves_step _ _ s); unfold wake_up, set_state, set_eof; rsimpl;
  try reflexivity; eauto with legal.

Lemma handle_established_step c seg now c' out :
  t_state (c_tcb c) = Established -> handle_established c seg now = Done (c', out) ->
  conn_step c c'.
Proof.
  intros Hs. unfold handle_established. intros H. returned.
  assert (keeps c a) as H1 by (destruct (TcpFlags.contains _ TcpFlags.ACK);
    [by eapply established_ack_keeps|returned; reflexivity]).
  assert (keeps a c0) as H2 by (destruct (seg_payload seg);
    [returned; reflexivity|by eapply established_data_keeps]).
  apply (keeps_then_step c c0); [by etransitivity|].
  assert (t_state (c_tcb c0) = Established) as Hs0
    by (destruct H1 as (_ & _ & ? & _), H2 as (_ & _ & ? & _); congruence).
  clear -H Hs0. destruct (TcpFlags.contains _ _); [|returned; apply keeps_step; reflexivity].
  unfold established_fin in H. destruct (_ =? _); returned; [|apply keeps_step; reflexivity].
  moves CloseWait. rewrite Hs0. constructor.
Qed.

Lemma closing_new_ack_keeps c ack : keeps c (c <| c_tcb := closing_new_ack (c_tcb c) ack |>).
Proof. unfold closing_new_ack. keep. Qed.

Lemma handle_fin_wait_1_step c seg now c' out :
  t_state (c_tcb c) = FinWait1 -> handle_fin_wait_1 c seg now = Done (c', out) -> conn_step c c'.
Proof.
  intros Hs. unfold handle_fin_wait_1.
  set (c1 := if _ && ack_is_new _ _ then _ else c).
  assert (keeps c c1) as H1.
  { subst c1. destruct (_ && _); [apply closing_new_ack_keeps|reflexivity]. }
  clearbody c1. intros H. returned.
  assert (keeps c1 a) as H2.
  { destruct (seg_payload seg) eqn:Ep; [returned; reflexivity|]. destruct (_ =? _);
      returned; [|reflexivity].
    etransitivity; [eapply deliver_keeps; eassumption|]. keep. }
  apply (keeps_then_step c a); [by etransitivity|].
  assert (t_state (c_tcb a) = FinWait1) as Hs0
    by (destruct H1 as (_ & _ & ? & _), H2 as (_ & _ & ? & _); congruence).
  clear -H Hs0. destruct (_ && (_ =? snd_nxt _)); cbn [andb] in H.
  - destruct (_ && _); returned.
    + moves TimeWait. rewrite Hs0. constructor.
    + moves FinWait2. rewrite Hs0. constructor.
  - destruct (_ && _); returned.
    + moves Closing. rewrite Hs0. constructor.
    + apply keeps_step. reflexivity.
Qed.

Lemma handle_fin_wait_2_step c seg now c' out :
  t_state (c_tcb c) = FinWait2 -> handle_fin_wait_2 c seg now = Done (c', out) -> conn_step c c'.
Proof.
  intros Hs. unfold handle_fin_wait_2. intros H. returned.
  assert (keeps c c0) as H1.
  { destruct (seg_payload seg) eqn:Ep; [returned; reflexivity|]. destruct (_ =? _);
      returned; [|reflexivity].
    etransitivity; [eapply deliver_keeps; eassumption|]. keep. }
  apply (keeps_then_step c c0); [done|].
  assert (t_state (c_tcb c0) = FinWait2) as Hs0 by (destruct H1 as (_ & _ & ? & _); congruence).
  clear -H Hs0. destruct (_ && _); returned; [|apply keeps_step; reflexivity].
  moves TimeWait. rewrite Hs0. constructor.
Qed.

Lemma handle_close_wait_step c seg : conn_step c (handle_close_wait c seg).
Proof.
  apply keeps_step. unfold handle_close_wait. destruct (_ && _); [|reflexivity].
  etransitivity; [apply (closing_new_ack_keeps c (seg_ack seg))|keep].
Qed.

Lemma handle_closing_step c seg now :
  t_state (c_tcb c) = Closing -> conn_step c (handle_closing c seg now).
Proof.
  intros Hs. unfold handle_closing. destruct (_ && _); [|apply keeps_step; reflexivity].
  moves TimeWait. rewrite Hs. constructor.
Qed.

Lemma handle_time_wait_step c seg now c' out :
  handle_time_wait c seg now = Done (c', out) -> conn_step c c'.
Proof.
  unfold handle_time_wait. intros H. apply keeps_step.
  destruct (TcpFlags.contains _ _); returned; [keep|reflexivity].
Qed.

Lemma send_fin_step c now c' out : send_fin c now = Done (c', out) -> conn_step c c'.
Proof.
  unfold send_fin. rsimpl. intros H.
  destruct (t_state (c_tcb c)) eqn:Hs; returned; try (apply keeps_step; keep).
  - rsimpl. destruct (rto_deadline (c_tcb c)); moves FinWait1; rewrite Hs; constructor.
  - rsimpl. destruct (rto_deadline (c_tcb c)); moves LastAck; rewrite Hs; constructor.
Qed.

Lemma drain_tx_keeps fuel : forall h buf db h' buf',
  drain_tx fuel h buf db = Done (h', buf') -> h_state h' = h_state h.
Proof.
  induction fuel as [|fuel IH]; intros h buf db h' buf'; cbn [drain_tx]; intros H; returned;
    destruct (_ =? 0); returned; rsimpl; try done.
  apply IH in H. by rsimpl_in H.
Qed.

Lemma drain_tx_ring_keeps c c' : drain_tx_ring c = Done c' -> keeps c c'.
Proof.
  unfold drain_tx_ring. intros H. returned. apply drain_tx_keeps in E.
  unfold keeps. rsimpl. done.
Qed.

Lemma segment_loop_keeps fuel : forall mss c now out c' out',
  segment_loop fuel mss c now out = Done (c', out') -> keeps c c'.
Proof.
  induction fuel as [|fuel IH]; intros mss c now out c' out'; cbn [segment_loop];
    (destruct (next_segment_len _ _) as [len|]; [|intros H; returned; reflexivity]).
  - discriminate.
  - intros H. returned. apply IH in H. etransitivity; [|exact H].
    unfold record_segment. cbv zeta. rsimpl.
    destruct (rto_deadline (c_tcb c)); keep.
Qed.

Lemma shutdown_conn_step c how now c' out :
  shutdown_conn c how now = Done (c', out) -> conn_step c c'.
Proof.
  assert (forall c, (let c := c <| c_tcb := (c_tcb c) <| fin_pending := true |> |> in
    let! c := drain_tx_ring c in
    if (unsent_in_buf (c_tcb c) =? 0)%nat then send_fin c now else Done (c, [])) = Done (c', out)
    -> conn_step c c') as Hw.
  { intros c0 H. cbv zeta in H. returned. apply drain_tx_ring_keeps in E.
    apply (keeps_then_step _ a); [etransitivity; [|exact E]; keep|].
    destruct (_ =? _)%nat; [by eapply send_fin_step|]. returned. apply keeps_step. reflexivity. }
  unfold shutdown_conn. destruct how.
  - intros H. returned. apply keeps_step. keep.
  - destruct (t_state (c_tcb c)); (exact (Hw c) || (intros H; returned; apply keeps_step; reflexivity)).
  - destruct (t_state (c_tcb c)); (exact (Hw c) || (intros H; returned; apply keeps_step; reflexivity)).
Qed.

Lemma set_option_conn_step c o : conn_step c (set_option_conn c o).
Proof. apply keeps_step. destruct o as [| [] | | | | | | | |]; keep. Qed.

(** ** Ticks *)

(** A connection the engine gives up on: closed, with end-of-file and an error
    for the application. *)
Definition aborted (c c' : conn) : Prop :=
  t_key (c_tcb c') = t_key (c_tcb c) /\ t_handle (c_tcb c') = t_handle (c_tcb c) /\
  tcp_state (c_handle c') = Closed /\ eof (c_handle c') = true /\
  error (c_handle c') = error (latch_error (c_handle c) TimedOut).

Lemma latch_error_h_state h e : h_state (latch_error h e) = h_state h.
Proof. unfold latch_error. by destruct (error h). Qed.

Lemma abort_timed_out_aborted c : aborted c (abort_timed_out c).
Proof.
  unfold aborted, abort_timed_out, wake_up, set_eof, set_state. rsimpl. split_and!; try reflexivity.
Qed.

Lemma tick_arm_timers_keeps c now :
  keeps c (c <| c_tcb := tick_arm_timers (c_tcb c) now |>).
Proof.
  unfold tick_arm_timers. set (t1 := if _ && _ && _ then _ else _).
  assert (keeps c (c <| c_tcb := t1 |>)) as H1 by (subst t1; destruct (_ && _ && _); keep).
  clearbody t1. set (t2 := if _ && _ then _ else t1).
  assert (keeps (c <| c_tcb := t1 |>) (c <| c_tcb := t2 |>)) as H2
    by (subst t2; destruct (_ && _); keep).
  clearbody t2. etransitivity; [exact H1|]. etransitivity; [exact H2|].
  destruct (t_state t2) eqn:?, (keepalive t2), (keepalive_deadline t2); unfold keeps; rsimpl;
    split_and!; congruence.
Qed.

Lemma tick_wake_keeps c prev c' : tick_wake c prev = Done c' -> keeps c c'.
Proof.
  unfold tick_wake. destruct (0 <? _); [|intros H; returned; reflexivity].
  destruct (prev =? 0); [intros H; returned; keep|]. intros H. returned.
  destruct (0 <? _); returned; [keep|reflexivity].
Qed.

Lemma tick_transmit_step c now c' out : tick_transmit c now = Done (c', out) -> conn_step c c'.
Proof.
  unfold tick_transmit. intros H. returned.
  apply drain_tx_ring_keeps in E. apply segment_loop_keeps in E0.
  pose proof (tick_arm_timers_keeps c0 now) as E1.
  set (c1 := c0 <| c_tcb := _ |>) in *. clearbody c1.
  apply (keeps_then_step c c1); [etransitivity; [exact E|]; etransitivity; [exact E0|exact E1]|].
  clear -H. destruct (_ && _ && _); returned.
  - by eapply send_fin_step.
  - apply keeps_step. by eapply tick_wake_keeps.
Qed.

Lemma tick_rest_step c now c' out : tick_rest c now = Done (TickKeep c' out) -> conn_step c c'.
Proof.
  unfold tick_rest. intros H. returned.
  assert (keeps c c0) as H1.
  { destruct (due _ _); [unfold delayed_ack_fire in E|]; returned; [keep|reflexivity]. }
  apply (keeps_then_step c c0); [done|]. clear -H.
  destruct (t_state (c_tcb c0)); returned; try (apply keeps_step; reflexivity);
    by eapply tick_transmit_step.
Qed.

Lemma tick_rest_keeps_conn c now r :
  tick_rest c now = Done r -> exists c' out, r = TickKeep c' out.
Proof.
  unfold tick_rest. intros H. returned. destruct (t_state (c_tcb c0)); returned; eauto.
Qed.

Lemma tick_conn_step c now max_retries r :
  tick_conn c now max_retries = Done r ->
  match r with
  | TickKeep c' _ => conn_step c c'
  | TickAbort c' _ => aborted c c'
  end.
Proof.
  unfold tick_conn. destruct (_ && _).
  { unfold rto_fire. intros H. returned. destruct (_ <? _); returned.
    - destruct (abort_timed_out_aborted
        (c <| c_tcb := (c_tcb c) <| retransmit_count := a |> |>)) as (? & ? & ? & ? & ?).
      done.
    - rsimpl_in H. revert H.
      destruct (retransmit_queue _) as [|e q]; [intros H; returned; apply keeps_step; keep|].
      destruct (take _ _); intros H; returned; apply keeps_step; keep. }
  destruct (due _ _).
  { unfold persist_fire. intros H. returned. apply keeps_step. keep. }
  assert (tick_rest c now = Done r -> match r with
    | TickKeep c' _ => conn_step c c' | TickAbort c' _ => aborted c c' end) as Hrest.
  { intros H. destruct (tick_rest_keeps_conn _ _ _ H) as (c' & out & ->).
    by eapply tick_rest_step. }
  destruct (keepalive (c_tcb c)) as [ka|]; [|exact Hrest].
  destruct (due _ _); [|exact Hrest].
  unfold keepalive_fire. intros H. returned. destruct (_ <? _); returned.
  - destruct (abort_timed_out_aborted
      (c <| c_tcb := (c_tcb c) <| keepalive_probes_sent := a |> |>)) as (? & ? & ? & ? & ?).
    done.
  - apply keeps_step. keep.
Qed.
