(* ===== verification/EngineInv.v ===== *)
(** * The engine's tables

    The invariant of the TCB, handle and pending-connect tables, preserved by
    every entry point, and the theorem that every connection of every run moves along
    the TCP state machine, unless a connect for the same four-tuple replaces it. *)

From stdpp Require Import base numbers list gmap.
From Stdlib Require Import ZArith Lia Relations.
From S2P Require Import Prelude Seq State Codec Ring Congestion Contract Tcb Conn Engine.
From S2P Require Import EngineLife.

(** ** Invariant *)

(** Every TCB is filed under its own key, is in a live state, owns its handle
    alone and publishes its state there; a connect in progress has a caller to
    answer; handle names are fresh above [next_handle]; the table respects its
    limit. *)
Record engine_inv (e : TcpEngine) : Prop := {
  ei_key : forall k t, tcbs e !! k = Some t -> t_key t = k;
  ei_live : forall k t, tcbs e !! k = Some t -> t_state t <> Closed /\ t_state t <> Listen;
  ei_handle : forall k t, tcbs e !! k = Some t ->
    exists h, handles e !! t_handle t = Some h /\ tcp_state h = t_state t;
  ei_owner : forall k1 k2 t1 t2, tcbs e !! k1 = Some t1 -> tcbs e !! k2 = Some t2 ->
    t_handle t1 = t_handle t2 -> k1 = k2;
  ei_fresh : forall i, is_Some (handles e !! i) -> (i < next_handle e)%nat;
  ei_pending : forall k t, tcbs e !! k = Some t -> t_state t = SynSent ->
    is_Some (pending_connects e !! k);
  ei_limit : Z.of_nat (size (tcbs e)) <= Z.max 0 (max_tcbs (config e)) }.

(** What a step that only works on the connections [ks] does to the table. *)
Record engine_move (ks : list FourTuple) (e e' : TcpEngine) : Prop := {
  em_inv : engine_inv e';
  em_config : config e' = config e;
  em_frame : forall k, k ∉ ks -> tcbs e' !! k = tcbs e !! k;
  em_legal : forall k t t', tcbs e !! k = Some t -> tcbs e' !! k = Some t' ->
    legal (t_state t) (t_state t') /\ t_handle t' = t_handle t;
  em_new : forall k t', tcbs e !! k = None -> tcbs e' !! k = Some t' ->
    t_state t' = SynSent \/ t_state t' = SynReceived }.

Lemma move_refl ks e : engine_inv e -> engine_move ks e e.
Proof.
  intros H. constructor; try done.
  - intros k t t' -> [= <-]. split; [constructor|done].
  - congruence.
Qed.

(** Steps on disjoint sets of connections compose. *)
Lemma move_compose ks1 ks2 e e1 e2 :
  (forall k, k ∈ ks1 -> k ∉ ks2) ->
  engine_move ks1 e e1 -> engine_move ks2 e1 e2 -> engine_move (ks1 ++ ks2) e e2.
Proof.
  intros Hd [I1 C1 F1 L1 N1] [I2 C2 F2 L2 N2].
  assert (forall k, tcbs e2 !! k = tcbs e1 !! k \/ tcbs e1 !! k = tcbs e !! k) as Hone.
  { intros k. destruct (decide (k ∈ ks1)) as [H|H]; [left; apply F2; by apply Hd|right; by apply F1]. }
  constructor; try done; [congruence|..].
  - intros k Hk. rewrite elem_of_app in Hk. rewrite F2, F1 by tauto. done.
  - intros k t t' Ht Ht'. destruct (Hone k) as [E|E].
    + apply (L1 k); congruence.
    + apply (L2 k); congruence.
  - intros k t' Ht Ht'. destruct (Hone k) as [E|E].
    + apply (N1 k); congruence.
    + apply (N2 k); congruence.
Qed.

(** The invariant does not read listeners or events, and pending connects only
    where it must. *)
Lemma inv_ext e e' :
  engine_inv e -> tcbs e' = tcbs e -> handles e' = handles e -> next_handle e' = next_handle e ->
  config e' = config e ->
  (forall k t, tcbs e !! k = Some t -> t_state t = SynSent ->
     is_Some (pending_connects e' !! k)) ->
  engine_inv e'.
Proof.
  intros [] Ht Hh Hn Hc Hp. constructor; rewrite ?Ht, ?Hh, ?Hn, ?Hc; try done.
Qed.

Lemma move_ext ks e e1 e2 :
  engine_move ks e e1 -> tcbs e2 = tcbs e1 -> handles e2 = handles e1 ->
  next_handle e2 = next_handle e1 -> config e2 = config e1 ->
  (forall k t, tcbs e1 !! k = Some t -> t_state t = SynSent ->
     is_Some (pending_connects e2 !! k)) ->
  engine_move ks e e2.
Proof.
  intros [I C F L N] Ht Hh Hn Hc Hp. constructor; rewrite ?Ht; try done.
  - by eapply inv_ext.
  - congruence.
Qed.

Lemma legal_live s s' :
  legal s s' -> s <> Closed /\ s <> Listen -> s' <> Closed /\ s' <> Listen.
Proof. intros []; done. Qed.

Lemma legal_syn_sent_inv s : legal s SynSent -> s = SynSent.
Proof. by inversion 1. Qed.

(** ** Access to a connection *)

Lemma get_conn_inv e key oc :
  get_conn e key = Done oc ->
  match oc with
  | None => tcbs e !! key = None
  | Some c => c_wakes c = [] /\ tcbs e !! key = Some (c_tcb c) /\
              handles e !! t_handle (c_tcb c) = Some (c_handle c)
  end.
Proof.
  unfold get_conn. destruct (tcbs e !! key) as [t|] eqn:Et; [|by intros [= <-]].
  destruct (handles e !! t_handle t) eqn:Eh; [|done]. by intros [= <-].
Qed.

(** Under the invariant every lookup succeeds. *)
Lemma get_conn_total e key :
  engine_inv e -> exists oc, get_conn e key = Done oc.
Proof.
  intros H. unfold get_conn. destruct (tcbs e !! key) as [t|] eqn:Et; [|eauto].
  destruct (ei_handle e H key t Et) as (h & -> & _). eauto.
Qed.

Section Access.

Context (e : TcpEngine) (key : FourTuple) (c : conn).
Context (H : engine_inv e) (Ht : tcbs e !! key = Some (c_tcb c))
  (Hh : handles e !! t_handle (c_tcb c) = Some (c_handle c)).

Lemma found_synced : synced c.
Proof.
  destruct (ei_handle e H key _ Ht) as (h & E & Hs). unfold synced. congruence.
Qed.

Lemma other_handle k t : tcbs e !! k = Some t -> k <> key -> t_handle t <> t_handle (c_tcb c).
Proof. intros Hk Hne E. apply Hne. by eapply (ei_owner e H). Qed.

Lemma put_conn_move c' : conn_step c c' -> engine_move [key] e (put_conn e key c').
Proof.
  intros [S1 S2 S3 S4]. pose proof (ei_key e H _ _ Ht) as Hk. pose proof (S4 found_synced) as Hs.
  constructor.
  - constructor; unfold put_conn, publish; rsimpl.
    + intros k t. rewrite lookup_insert_Some. intros [[<- <-]|[_ E]]; [congruence|].
      by apply (ei_key e H).
    + intros k t. rewrite lookup_insert_Some. intros [[<- <-]|[_ E]]; [|by apply (ei_live e H k)].
      eapply legal_live; [exact S3|]. by apply (ei_live e H key).
    + intros k t. rewrite lookup_insert_Some. intros [[<- <-]|[Hne E]].
      * exists (c_handle c'). rewrite lookup_insert_eq. done.
      * destruct (ei_handle e H k t E) as (h & Eh & Hst). exists h.
        rewrite lookup_insert_ne; [done|]. rewrite S2. symmetry. by apply (other_handle k).
    + intros k1 k2 t1 t2. rewrite !lookup_insert_Some.
      intros [[<- <-]|[N1 E1]] [[<- <-]|[N2 E2]] E.
      * done.
      * exfalso. apply (other_handle k2 t2 E2); congruence.
      * exfalso. apply (other_handle k1 t1 E1); congruence.
      * by eapply (ei_owner e H).
    + intros i. rewrite lookup_insert_is_Some'. intros [<-|Hi]; [|by apply (ei_fresh e H)].
      rewrite S2. apply (ei_fresh e H). eexists. exact Hh.
    + intros k t. rewrite lookup_insert_Some. intros [[<- <-]|[_ E]] Hst.
      * apply (ei_pending e H key (c_tcb c) Ht). rewrite Hst in S3. by apply legal_syn_sent_inv.
      * by eapply (ei_pending e H).
    + rewrite map_size_insert_Some by (by rewrite Ht). apply H.
  - done.
  - intros k Hne. unfold put_conn, publish. rsimpl.
    rewrite lookup_insert_ne; [done|]. intros ->. apply Hne. by apply list_elem_of_singleton.
  - intros k t t' E. unfold put_conn, publish. rsimpl. rewrite lookup_insert_Some.
    intros [[<- <-]|[_ E']]; [split; congruence|]. assert (t' = t) as -> by congruence. split; [constructor|done].
  - intros k t' E. unfold put_conn, publish. rsimpl. rewrite lookup_insert_Some.
    intros [[<- <-]|[_ E']]; congruence.
Qed.

Lemma remove_conn_move c' :
  t_handle (c_tcb c') = t_handle (c_tcb c) -> engine_move [key] e (remove_conn e key c').
Proof.
  intros S2. constructor.
  - constructor; unfold remove_conn, publish; rsimpl.
    + intros k t. rewrite lookup_delete_Some. intros [_ E]. by apply (ei_key e H).
    + intros k t. rewrite lookup_delete_Some. intros [_ E]. by apply (ei_live e H k).
    + intros k t. rewrite lookup_delete_Some. intros [Hne E].
      destruct (ei_handle e H k t E) as (h & Eh & Hst). exists h.
      rewrite lookup_insert_ne; [done|]. rewrite S2. symmetry. by apply (other_handle k).
    + intros k1 k2 t1 t2. rewrite !lookup_delete_Some. intros [_ E1] [_ E2] E.
      by eapply (ei_owner e H).
    + intros i. rewrite lookup_insert_is_Some'. intros [<-|Hi]; [|by apply (ei_fresh e H)].
      rewrite S2. apply (ei_fresh e H). eexists. exact Hh.
    + intros k t. rewrite lookup_delete_Some. intros [_ E] Hst. by eapply (ei_pending e H).
    + rewrite map_size_delete_Some by (by rewrite Ht). pose proof (ei_limit e H). lia.
  - done.
  - intros k Hne. unfold remove_conn, publish. rsimpl.
    rewrite lookup_delete_ne; [done|]. intros ->. apply Hne. by apply list_elem_of_singleton.
  - intros k t t' E. unfold remove_conn, publish. rsimpl. rewrite lookup_delete_Some.
    intros [_ E']. assert (t' = t) as -> by congruence. split; [constructor|done].
  - intros k t' E. unfold remove_conn, publish. rsimpl. rewrite lookup_delete_Some.
    intros [_ E']. congruence.
Qed.

Lemma removed_key c' : tcbs (remove_conn e key c') !! key = None.
Proof. unfold remove_conn, publish. rsimpl. apply lookup_delete_eq. Qed.

End Access.

Lemma with_conn_move e key f e' out :
  engine_inv e ->
  (forall c c' out, tcbs e !! key = Some (c_tcb c) -> f c = Done (c', out) -> conn_step c c') ->
  with_conn e key f = Done (e', out) -> engine_move [key] e e'.
Proof.
  intros H Hf. unfold with_conn. destruct (get_conn e key) as [oc| |] eqn:Eg; cbn [obind]; [|done..].
  apply get_conn_inv in Eg. destruct oc as [c|]; [|intros E; returned; by apply move_refl].
  destruct Eg as (_ & Ht & Hh). intros E. returned. apply (put_conn_move e key c); try done.
  by eapply Hf.
Qed.

Lemma emit_move ks e e1 ev : engine_move ks e e1 -> engine_move ks e (emit e1 ev).
Proof.
  intros H. eapply move_ext; [exact H|done..|]. intros k t E Hs.
  by eapply (ei_pending _ (em_inv _ _ _ H)).
Qed.

(** Forgetting the pending connect of a key that is no longer in SYN_SENT. *)
Lemma fail_pending_move ks e e1 key err :
  engine_move ks e e1 -> tcbs e1 !! key = None ->
  engine_move ks e (fail_pending e1 key err).
Proof.
  intros H Hn. unfold fail_pending. destruct (pending_connects e1 !! key); [|done].
  apply emit_move. eapply move_ext; [exact H|done..|]. intros k t E Hs. rsimpl.
  rewrite lookup_delete_ne by congruence. by eapply (ei_pending _ (em_inv _ _ _ H)).
Qed.

(** A connection with a handle of its own is added, or takes the place of the one with its
    four-tuple. *)
Lemma new_conn_inv e e' k t hid h :
  engine_inv e ->
  tcbs e' = <[k := t]> (tcbs e) -> handles e' = <[hid := h]> (handles e) ->
  config e' = config e -> (next_handle e <= next_handle e')%nat -> (hid < next_handle e')%nat ->
  t_key t = k -> t_handle t = hid -> (t_state t = SynSent \/ t_state t = SynReceived) ->
  tcp_state h = t_state t -> (forall k' t', tcbs e !! k' = Some t' -> t_handle t' <> hid) ->
  (forall k' s, pending_connects e !! k' = Some s -> is_Some (pending_connects e' !! k')) ->
  (t_state t = SynSent -> is_Some (pending_connects e' !! k)) ->
  Z.of_nat (size (tcbs e)) < max_tcbs (config e) ->
  engine_inv e'.
Proof.
  intros H Et Eh Ec Hnx Hhid Hk Hth Hst Hsync Hun Hp Hps Hlim. constructor; rewrite ?Et, ?Eh, ?Ec.
  - intros k' t'. rewrite lookup_insert_Some. intros [[<- <-]|[_ E]]; [done|].
    by apply (ei_key e H).
  - intros k' t'. rewrite lookup_insert_Some. intros [[<- <-]|[_ E]]; [|by apply (ei_live e H k')].
    destruct Hst as [-> | ->]; done.
  - intros k' t'. rewrite lookup_insert_Some. intros [[<- <-]|[_ E]].
    + exists h. rewrite Hth, lookup_insert_eq. done.
    + destruct (ei_handle e H k' t' E) as (h' & Eh' & Hs). exists h'.
      rewrite lookup_insert_ne; [done|]. symmetry. by apply (Hun k').
  - intros k1 k2 t1 t2. rewrite !lookup_insert_Some.
    intros [[<- <-]|[N1 E1]] [[<- <-]|[N2 E2]] E; [done|..].
    + exfalso. apply (Hun k2 t2 E2). congruence.
    + exfalso. apply (Hun k1 t1 E1). congruence.
    + by eapply (ei_owner e H).
  - intros i. rewrite lookup_insert_is_Some'. intros [<-|Hi]; [done|].
    apply (ei_fresh e H) in Hi. lia.
  - intros k' t'. rewrite lookup_insert_Some. intros [[<- <-]|[_ E]] Hs; [by apply Hps|].
    destruct (ei_pending e H k' t' E Hs) as [s Es]. by eapply Hp.
  - rewrite map_size_insert. destruct (tcbs e !! k); unfold id; lia.
Qed.

Lemma new_conn_move e e' k t :
  engine_inv e' -> tcbs e !! k = None -> tcbs e' = <[k := t]> (tcbs e) -> config e' = config e ->
  (t_state t = SynSent \/ t_state t = SynReceived) -> engine_move [k] e e'.
Proof.
  intros H Hn Et Ec Hst. constructor; [done|done|..].
  - intros k' Hne. rewrite Et, lookup_insert_ne; [done|]. intros ->. apply Hne.
    by apply list_elem_of_singleton.
  - intros k' t1 t2 E1. rewrite Et, lookup_insert_Some. intros [[<- <-]|[_ E2]]; [congruence|].
    assert (t2 = t1) as -> by congruence. split; [constructor|done].
  - intros k' t' E1. rewrite Et, lookup_insert_Some. intros [[<- <-]|[_ E2]]; [done|congruence].
Qed.

Section Moves.

Context (siphash24 : Z -> Z -> list Z -> Z).

Lemma passive_tcb_fields e seg k hid sm dm now t :
  passive_tcb siphash24 e seg k hid sm dm now = Done t ->
  t_key t = k /\ t_handle t = hid /\ t_state t = SynReceived.
Proof.
  unfold passive_tcb. destruct (shl32 _ _); cbn [obind]; [|discriminate..].
  intros E. apply Done_inj in E. subst t. split; [reflexivity|]. split; reflexivity.
Qed.

Lemma handle_syn_move e seg k sm dm now e' out :
  engine_inv e -> tcbs e !! k = None ->
  handle_syn_macs siphash24 e seg k sm dm now = Done (e', out) -> engine_move [k] e e'.
Proof.
  intros H Hn. unfold handle_syn_macs.
  assert ((let! out := send_rst_for_segment seg in Done (e, out)) = Done (e', out) ->
          engine_move [k] e e') as Hrej by (intros E; returned; by apply move_refl).
  destruct (find_listener e _) as [addr|]; [|exact Hrej].
  destruct (listeners e !! addr) as [l|]; [|exact Hrej].
  destruct (_ <=? _); [exact Hrej|].
  destruct (Z.leb_spec (max_tcbs (config e)) (Z.of_nat (size (tcbs e)))); [exact Hrej|].
  assert (tcp_state (set_state (handle_new 65536 65536 (has_cmd_tx e) k) SynReceived)
          = SynReceived) as Hh by apply tcp_state_set_state.
  generalize dependent (set_state (handle_new 65536 65536 (has_cmd_tx e) k) SynReceived).
  intros h Hh E. destruct (passive_tcb _ _ _ _ _ _ _ _) as [t| |] eqn:Et; cbn [obind] in E;
    [|discriminate E..].
  apply passive_tcb_fields in Et as (Et1 & Et2 & Et3).
  apply Done_inj, pair_equal_spec in E as [<- _].
  apply (new_conn_move e _ k t); try assumption; try reflexivity; rsimpl; [|by right].
  apply (new_conn_inv e _ k t (next_handle e) h); try assumption; try reflexivity; rsimpl.
  - lia.
  - lia.
  - by right.
  - congruence.
  - intros k' t' Et Eq. destruct (ei_handle e H k' t' Et) as (h0 & Eh & _).
    assert (t_handle t' < next_handle e)%nat by (apply (ei_fresh e H); eexists; exact Eh).
    unfold handle_id in *. lia.
  - intros k' s ->. eauto.
  - congruence.
Qed.

Lemma syn_ack_fields c seg c' out :
  syn_ack_conn c seg = Done (c', out) ->
  t_key (c_tcb c') = t_key (c_tcb c) /\ t_handle (c_tcb c') = t_handle (c_tcb c) /\
  t_state (c_tcb c') = Established /\
  h_state (c_handle c') = h_state (set_state (c_handle c) Established).
Proof.
  unfold syn_ack_conn. destruct (shl32 _ _); cbn [obind]; [|discriminate..].
  intros E. apply Done_inj, pair_equal_spec in E as [<- _].
  split; [reflexivity|]. split; [reflexivity|]. split; reflexivity.
Qed.

Lemma syn_ack_step c seg c' out :
  t_state (c_tcb c) = SynSent -> syn_ack_conn c seg = Done (c', out) -> conn_step c c'.
Proof.
  intros Hs E. apply syn_ack_fields in E as (E1 & E2 & E3 & E4). constructor; try done.
  - rewrite Hs, E3. constructor.
  - intros _. unfold synced, tcp_state. rewrite E4, E3. apply tcp_state_set_state.
Qed.

Lemma handle_syn_ack_move e seg k e' out :
  engine_inv e -> (forall t, tcbs e !! k = Some t -> t_state t = SynSent) ->
  handle_syn_ack e seg k = Done (e', out) -> engine_move [k] e e'.
Proof.
  intros H Hst. unfold handle_syn_ack.
  destruct (get_conn e k) as [oc| |] eqn:Eg; cbn [obind]; [|done..]. apply get_conn_inv in Eg.
  destruct oc as [c|]; [|intros E; returned; by apply move_refl]. destruct Eg as (_ & Ht & Hh).
  destruct (negb _); [intros E; returned; by apply move_refl|].
  destruct (syn_ack_conn c seg) as [[c' o]| |] eqn:Es; cbn [obind]; [|discriminate..].
  intros E. apply Done_inj, pair_equal_spec in E as [<- _].
  pose proof (syn_ack_fields _ _ _ _ Es) as (_ & _ & Hest & _).
  apply syn_ack_step in Es; [|by apply Hst].
  assert (engine_move [k] e (put_conn e k c')) as Hm by (by apply (put_conn_move e k c)).
  destruct (pending_connects (put_conn e k c') !! k) as [s|]; [|done].
  apply emit_move. eapply move_ext; [exact Hm|done..|]. intros k' t E Hs. rsimpl.
  assert (k' <> k) as Hne.
  { intros ->. unfold put_conn in E. rsimpl_in E. rewrite lookup_insert_eq in E.
    injection E as <-. congruence. }
  rewrite lookup_delete_ne by congruence. by eapply (ei_pending _ (em_inv _ _ _ Hm)).
Qed.

Lemma deliver_accept_move ks e e1 key h addr :
  engine_move ks e e1 -> engine_move ks e (deliver_accept e1 key h addr).
Proof.
  intros Hm.
  assert (forall ls, engine_move ks e (e1 <| listeners := ls |>)) as Hl.
  { intros ls. eapply move_ext; [exact Hm|done..|].
    intros k t E Hs. by eapply (ei_pending _ (em_inv _ _ _ Hm)). }
  unfold deliver_accept. destruct (find_listener e1 addr) as [a|]; [|done].
  destruct (listeners e1 !! a) as [l|]; [|done].
  destruct (vec_pop _) as [[s rest]|]; [apply emit_move|]; apply Hl.
Qed.

Lemma handle_ack_move e seg k e' out :
  engine_inv e -> handle_ack_for_syn_received e seg k = Done (e', out) -> engine_move [k] e e'.
Proof.
  intros H. unfold handle_ack_for_syn_received.
  destruct (get_conn e k) as [oc| |] eqn:Eg; cbn [obind]; [|done..]. apply get_conn_inv in Eg.
  destruct oc as [c|]; [|intros E; returned; by apply move_refl]. destruct Eg as (_ & Ht & Hh).
  case_bool_decide as Hst; cbn [negb]; [|intros E; returned; by apply move_refl].
  destruct (negb _); intros E; returned; [by apply move_refl|].
  apply deliver_accept_move. apply (put_conn_move e k c); try done.
  moves Established. rewrite Hst. constructor.
Qed.

Lemma handle_last_ack_move e seg k e' out :
  engine_inv e -> handle_last_ack e seg k = Done (e', out) -> engine_move [k] e e'.
Proof.
  intros H. unfold handle_last_ack.
  destruct (get_conn e k) as [oc| |] eqn:Eg; cbn [obind]; [|done..]. apply get_conn_inv in Eg.
  destruct oc as [c|]; [|intros E; returned; by apply move_refl]. destruct Eg as (_ & Ht & Hh).
  destruct (_ && _); intros E; returned; [|by apply move_refl].
  apply (remove_conn_move e k c); done.
Qed.

Lemma handle_existing_move e seg k now e' out :
  engine_inv e -> handle_existing_tcb e seg k now = Done (e', out) -> engine_move [k] e e'.
Proof.
  intros H. unfold handle_existing_tcb.
  destruct (tcbs e !! k) as [t|] eqn:Et; [|intros E; returned; by apply move_refl].
  assert (Done (e, []) = Done (e', out) -> engine_move [k] e e') as Hid
    by (intros E; returned; by apply move_refl).
  destruct (t_state t) eqn:Es; try exact Hid.
  - destruct (_ && _); [|exact Hid]. apply handle_syn_ack_move; [done|]. congruence.
  - destruct (_ && _); [|exact Hid]. by apply handle_ack_move.
  - apply with_conn_move; [done|]. intros c c' o Hc Hf.
    eapply handle_established_step; [congruence|exact Hf].
  - apply with_conn_move; [done|]. intros c c' o Hc Hf.
    eapply handle_fin_wait_1_step; [congruence|exact Hf].
  - apply with_conn_move; [done|]. intros c c' o Hc Hf.
    eapply handle_fin_wait_2_step; [congruence|exact Hf].
  - apply with_conn_move; [done|]. intros c c' o Hc Hf. returned. apply handle_close_wait_step.
  - apply with_conn_move; [done|]. intros c c' o Hc Hf. returned.
    apply handle_closing_step. congruence.
  - by apply handle_last_ack_move.
  - apply with_conn_move; [done|]. intros c c' o Hc Hf. by eapply handle_time_wait_step.
Qed.

Lemma handle_rst_move e seg k e' out :
  engine_inv e -> handle_rst e seg k = Done (e', out) -> engine_move [k] e e'.
Proof.
  intros H. unfold handle_rst.
  destruct (get_conn e k) as [oc| |] eqn:Eg; cbn [obind]; [|done..]. pose proof Eg as Eg'.
  apply get_conn_inv in Eg.
  destruct oc as [c|]; [|intros E; returned; by apply move_refl]. destruct Eg as (_ & Ht & Hh).
  assert (Done (e, []) = Done (e', out) -> engine_move [k] e e') as Hid
    by (intros E; returned; by apply move_refl).
  assert (handle_rst_rfc5961 e seg k = Done (e', out) -> engine_move [k] e e') as Hrfc.
  { unfold handle_rst_rfc5961. rewrite Eg'. cbn [obind].
    destruct (_ =? _); [intros E; returned; by apply (remove_conn_move e k c)|].
    destruct (is_in_window _ _ _); [intros E; returned; by apply move_refl|exact Hid]. }
  destruct (t_state (c_tcb c)); try exact Hid; try exact Hrfc.
  - destruct (_ && _); [|exact Hid]. intros E. returned.
    apply fail_pending_move; [by apply (remove_conn_move e k c)|apply removed_key].
  - destruct (_ =? _); [|exact Hid]. intros E. returned. by apply (remove_conn_move e k c).
Qed.

Lemma segment_step_move e seg macs now e' out :
  engine_inv e -> segment_step siphash24 e seg macs now = Done (e', out) ->
  engine_move [MkFourTuple (seg_dst seg) (seg_src seg)] e e'.
Proof.
  intros H. unfold segment_step. set (k := MkFourTuple _ _).
  destruct (TcpFlags.contains _ TcpFlags.RST); [by apply handle_rst_move|].
  case_bool_decide as Hin; [by apply handle_existing_move|].
  assert (tcbs e !! k = None) as Hn by (by apply eq_None_not_Some).
  destruct (_ && _); [|intros E; returned; by apply move_refl].
  destruct macs as [[sm dm]|]; by apply handle_syn_move.
Qed.

(** ** Commands *)

(** A connect comes with a handle that no connection uses yet: [connect_v4] and [connect_timeout] (stream.rs)
    make one for every call.  Nothing is asked of its four-tuple. *)
Definition command_ok (e : TcpEngine) (cmd : EngineCommand) : Prop :=
  match cmd with
  | CmdConnect _ _ _ _ h _ => forall k t, tcbs e !! k = Some t -> t_handle t <> h
  | _ => True
  end.

(** The connect of a four-tuple that has a connection: its TCB is replaced by a new one in SYN_SENT
    with the handle of the command; nothing else in the table changes. *)
Definition replaced (e : TcpEngine) (l r : SocketAddr) (h : handle_id) (e' : TcpEngine) : Prop :=
  exists t t', tcbs e !! MkFourTuple l r = Some t /\ tcbs e' = <[MkFourTuple l r := t']> (tcbs e) /\
    t_state t' = SynSent /\ t_handle t' = h /\ t_handle t <> h.

Definition command_key (cmd : EngineCommand) : list FourTuple :=
  match cmd with
  | CmdConnect l r _ _ _ _ => [MkFourTuple l r]
  | CmdShutdown key _ | CmdSetOption key _ | CmdClose key _ => [key]
  | CmdListen _ _ _ | CmdAccept _ _ => []
  end.

Lemma handle_close_move e key linger now e' out :
  engine_inv e -> handle_close e key linger now = Done (e', out) -> engine_move [key] e e'.
Proof.
  intros H.
  assert (handle_shutdown e key ShutWrite now = Done (e', out) -> engine_move [key] e e') as Hs.
  { apply with_conn_move; [done|]. intros c c' o Hc Hf. by eapply shutdown_conn_step. }
  unfold handle_close. destruct linger as [[| |]|]; try exact Hs.
  unfold handle_close_rst. destruct (get_conn e key) as [oc| |] eqn:Eg; cbn [obind]; [|done..].
  apply get_conn_inv in Eg. destruct oc as [c|]; [|intros E; returned; by apply move_refl].
  destruct Eg as (_ & Ht & Hh). intros E. returned. by apply (remove_conn_move e key c).
Qed.

Lemma handle_connect_effect e l r sm dm h s now e' out :
  engine_inv e -> (forall k t, tcbs e !! k = Some t -> t_handle t <> h) ->
  handle_connect siphash24 e l r sm dm h s now = Done (e', out) ->
  engine_inv e' /\ config e' = config e /\
  (engine_move [MkFourTuple l r] e e' \/ replaced e l r h e').
Proof.
  intros H Hun. unfold handle_connect.
  destruct (Z.leb_spec (max_tcbs (config e)) (Z.of_nat (size (tcbs e)))).
  { intros E. returned.
    match goal with |- engine_inv ?x /\ _ => assert (engine_move [MkFourTuple l r] e x) as Hm by (apply emit_move; by apply move_refl) end.
    split; [apply Hm|]. split; [done|by left]. }
  destruct (handles e !! h) as [hd|] eqn:Eh; [|done]. intros E. returned.
  match goal with |- engine_inv ?x /\ _ => set (e1 := x) end.
  set (t := (tcb_new _ _ _ _ _ _) <| t_state := SynSent |> <| snd_nxt := _ |> <| rcv_wnd := _ |> <| rcv_scale := _ |>
              <| rto_deadline := _ |>) in e1.
  assert (engine_inv e1) as H1.
  { eapply (new_conn_inv e e1 (MkFourTuple l r) t h (set_state hd SynSent)); try done; subst e1; rsimpl; try reflexivity; try lia.
    - apply (ei_fresh e H). eexists. exact Eh.
    - by left.
    - intros k' s' Es. destruct (decide (MkFourTuple l r = k')) as [<-|Hne].
      + rewrite lookup_insert_eq. eauto.
      + rewrite lookup_insert_ne by done. eauto.
    - intros _. rewrite lookup_insert_eq. eauto. }
  split; [done|]. split; [done|]. destruct (tcbs e !! MkFourTuple l r) as [t0|] eqn:E0.
  - right. exists t0, t. split_and!; try done. by eapply Hun.
  - left. apply (new_conn_move e e1 _ t); try done. by left.
Qed.

(** The other commands. *)
Lemma command_step_move e cmd now e' out :
  engine_inv e -> match cmd with CmdConnect _ _ _ _ _ _ => False | _ => True end ->
  command_step siphash24 e cmd now = Done (e', out) ->
  engine_move (command_key cmd) e e'.
Proof.
  intros H Hok. destruct cmd as [l r sm dm h s|addr b s|addr s|key how|key o|key linger];
    cbn [command_step command_key].
  - done.
  - intros E. returned. apply emit_move. eapply move_ext; [by apply (move_refl [] e)|done..|].
    intros k t E Hs. by eapply (ei_pending e H).
  - intros E. returned. unfold handle_accept.
    destruct (listeners e !! addr) as [l|]; [|apply emit_move; by apply move_refl].
    assert (forall ls, engine_move [] e (e <| listeners := ls |>)) as Hl.
    { intros ls. eapply move_ext; [by apply (move_refl [] e)|done..|].
      intros k t E Hs. by eapply (ei_pending e H). }
    destruct (vec_pop _) as [[c rest]|]; [apply emit_move|]; apply Hl.
  - unfold handle_shutdown. apply with_conn_move; [done|]. intros c c' o Hc Hf.
    by eapply shutdown_conn_step.
  - unfold handle_set_option. apply with_conn_move; [done|]. intros c c' oo Hc Hf. returned. apply set_option_conn_step.
  - by apply handle_close_move.
Qed.

(** ** Ticks *)

Lemma expire_all_move ks : forall e e',
  engine_inv e -> NoDup ks -> expire_all e ks = Done e' ->
  engine_move ks e e' /\ (forall k, k ∈ ks -> tcbs e' !! k = None).
Proof.
  induction ks as [|k ks IH]; intros e e' H Hnd; cbn [expire_all].
  { intros E. returned. split; [by apply move_refl|]. intros k []%elem_of_nil. }
  apply NoDup_cons in Hnd as [Hk Hnd].
  destruct (get_conn e k) as [oc| |] eqn:Eg; cbn [obind]; [|done..]. apply get_conn_inv in Eg.
  assert (exists e1, engine_move [k] e e1 /\ tcbs e1 !! k = None /\
            (match oc with
             | None => expire_all e ks
             | Some c => expire_all (remove_conn e k (close_handle c None true)) ks
             end = expire_all e1 ks)) as (e1 & Hm & Hn & ->).
  { destruct oc as [c|].
    - destruct Eg as (_ & Ht & Hh). eexists. split; [|split; [|reflexivity]].
      + by apply (remove_conn_move e k c).
      + apply removed_key.
    - exists e. split; [by apply move_refl|done]. }
  intros E. destruct (IH e1 e' (em_inv _ _ _ Hm) Hnd E) as [Hm' Hn']. split.
  - apply (move_compose [k] ks e e1 e'); try done.
    intros k' ->%list_elem_of_singleton. done.
  - intros k' [->|Hk']%elem_of_cons; [|by apply Hn'].
    by rewrite (em_frame _ _ _ Hm' k Hk).
Qed.

Lemma tick_key_move e k now e' out :
  engine_inv e -> tick_key e k now = Done (e', out) -> engine_move [k] e e'.
Proof.
  intros H. unfold tick_key.
  destruct (get_conn e k) as [oc| |] eqn:Eg; cbn [obind]; [|done..]. apply get_conn_inv in Eg.
  destruct oc as [c|]; [|intros E; returned; by apply move_refl]. destruct Eg as (_ & Ht & Hh).
  destruct (tick_conn _ _ _) as [r| |] eqn:Er; cbn [obind]; [|done..].
  apply tick_conn_step in Er. destruct r as [c' o|c' fail]; intros E; returned.
  - by apply (put_conn_move e k c).
  - destruct Er as (_ & Ehd & _).
    pose proof (remove_conn_move e k c H Ht Hh c' Ehd) as Hm.
    destruct fail; [|exact Hm]. apply fail_pending_move; [exact Hm|apply removed_key].
Qed.

Lemma tick_keys_move now ks : forall e e' out,
  engine_inv e -> NoDup ks -> tick_keys e ks now = Done (e', out) -> engine_move ks e e'.
Proof.
  induction ks as [|k ks IH]; intros e e' out H Hnd; cbn [tick_keys];
    intros E; returned; [by apply move_refl|].
  apply NoDup_cons in Hnd as [Hk Hnd]. apply tick_key_move in E0; [|done].
  apply (move_compose [k] ks e t e'); [|done|].
  - intros k' ->%list_elem_of_singleton. done.
  - eapply IH; [apply E0|done|eassumption].
Qed.

(** The order in which the engine's hash map is walked: some permutation of its
    keys. *)
Context (key_order : gmap FourTuple Tcb -> list FourTuple).
Context (key_order_perm : forall m, key_order m ≡ₚ (map_to_list m).*1).

Lemma key_order_NoDup m : NoDup (key_order m).
Proof. rewrite key_order_perm. apply NoDup_fst_map_to_list. Qed.

Lemma elem_of_key_order m k : k ∈ key_order m <-> is_Some (m !! k).
Proof.
  rewrite key_order_perm, list_elem_of_fmap. split.
  - intros ([k' t] & -> & Hin). apply elem_of_map_to_list in Hin. eauto.
  - intros [t Ht]. exists (k, t). split; [done|]. by apply elem_of_map_to_list.
Qed.

Lemma tick_step_move e now e' out :
  engine_inv e -> tick_step key_order e now = Done (e', out) -> exists ks, engine_move ks e e'.
Proof.
  intros H. unfold tick_step. set (ks := expired_keys _ _ _). intros E.
  destruct (expire_all e ks) as [e1| |] eqn:E1; cbn [obind] in E; [|discriminate..].
  apply expire_all_move in E1 as [Hm Hn]; [|done|].
  2:{ apply NoDup_filter, key_order_NoDup. }
  exists (ks ++ key_order (tcbs e1)). apply (move_compose _ _ e e1 e'); [|done|].
  - intros k Hk. rewrite elem_of_key_order, (Hn k Hk). by intros [? ?].
  - eapply tick_keys_move; [apply Hm|apply key_order_NoDup|exact E].
Qed.

(** ** Runs of the engine *)

(** The engine thread handles a segment, a command or a tick; between those an
    application thread creates a handle ([TcpStream::connect]) or works on a handle's
    rings and flags; only the engine writes the published state. *)
Inductive engine_step (e : TcpEngine) : TcpEngine -> Prop :=
| step_segment seg now e' fs :
    on_segment siphash24 e seg now = Done (e', fs) -> engine_step e e'
| step_segment_macs seg sm dm now e' fs :
    on_segment_with_macs siphash24 e seg sm dm now = Done (e', fs) -> engine_step e e'
| step_command cmd now e' fs :
    command_ok e cmd -> on_command siphash24 e cmd now = Done (e', fs) -> engine_step e e'
| step_tick now e' fs :
    on_tick key_order e now = Done (e', fs) -> engine_step e e'
| step_new_handle h :
    engine_step e (e <| handles := <[next_handle e := h]> (handles e) |>
                     <| next_handle := S (next_handle e) |>)
| step_app i h h' :
    handles e !! i = Some h -> h_state h' = h_state h ->
    engine_step e (e <| handles := <[i := h']> (handles e) |>).

(** The engines that a run reaches. *)
Inductive reachable_engine (cfg : EngineConfig) : TcpEngine -> Prop :=
| reach_new gen cmd_tx : reachable_engine cfg (engine_new gen cfg cmd_tx)
| reach_step e e' : reachable_engine cfg e -> engine_step e e' -> reachable_engine cfg e'.

Lemma framed_inv m e fs :
  framed m = Done (e, fs) -> exists ps, m = Done (e, ps) /\ transmit ps = Done fs.
Proof.
  unfold framed. destruct m as [[e1 ps]| |]; cbn [obind]; [|done..].
  destruct (transmit ps) as [fs1| |] eqn:E; cbn [obind]; [|done..].
  intros [= -> ->]. eauto.
Qed.

Lemma engine_new_inv gen cfg cmd_tx : engine_inv (engine_new gen cfg cmd_tx).
Proof.
  constructor; cbn [engine_new tcbs handles next_handle pending_connects config];
    try (intros *; rewrite lookup_empty; discriminate).
  - intros i. rewrite lookup_empty. by intros [? ?].
  - rewrite map_size_empty. lia.
Qed.

(** Handles that the application adds or works on. *)
Lemma handles_move e e' :
  engine_inv e -> tcbs e' = tcbs e -> pending_connects e' = pending_connects e ->
  config e' = config e ->
  (forall i, is_Some (handles e' !! i) -> (i < next_handle e')%nat) ->
  (forall i h, handles e !! i = Some h ->
     exists h', handles e' !! i = Some h' /\ h_state h' = h_state h) ->
  engine_move [] e e'.
Proof.
  intros H Et Ep Ec Hf Hs. constructor; [constructor|..]; rewrite ?Et, ?Ep, ?Ec; try apply H;
    try done.
  - intros k t E. destruct (ei_handle e H k t E) as (h & Eh & Hst).
    destruct (Hs _ _ Eh) as (h' & Eh' & Heq). exists h'. split; [done|].
    unfold tcp_state in *. by rewrite Heq.
  - intros k t t' E E'. assert (t' = t) as -> by congruence. split; [constructor|done].
  - congruence.
Qed.

(** What a step does to the table: it works on some connections, or it is a connect that replaces one. *)
Definition replaces (e e' : TcpEngine) (l r : SocketAddr) (h : handle_id) : Prop :=
  (exists sm dm s now fs, on_command siphash24 e (CmdConnect l r sm dm h s) now = Done (e', fs)) /\
  replaced e l r h e'.

Lemma command_effect e cmd now e' fs :
  engine_inv e -> command_ok e cmd -> on_command siphash24 e cmd now = Done (e', fs) ->
  engine_inv e' /\ config e' = config e /\
  ((exists ks, engine_move ks e e') \/ exists l r h, replaces e e' l r h).
Proof.
  intros H Hok Ef. pose proof Ef as (ps & E & _)%framed_inv.
  destruct cmd as [l r sm dm h s|addr b s|addr s|key how|key o|key linger].
  1: { destruct (handle_connect_effect e l r sm dm h s now e' ps H Hok E) as (Hi & Hc & [Hm|Hr]); (split; [done|]; split; [done|]).
       - left. by eexists.
       - right. exists l, r, h. split; [by exists sm, dm, s, now, fs|done]. }
  all: apply command_step_move in E; [|done..]; split; [apply E|]; split; [apply E|]; left; by eexists.
Qed.

Lemma engine_step_effect e e' : engine_inv e -> engine_step e e' ->
  engine_inv e' /\ config e' = config e /\
  ((exists ks, engine_move ks e e') \/ exists l r h, replaces e e' l r h).
Proof.
  intros H Hs.
  assert (forall ks, engine_move ks e e' -> engine_inv e' /\ config e' = config e /\
    ((exists ks, engine_move ks e e') \/ exists l r h, replaces e e' l r h)) as Hmv
    by (intros ks Hm; split; [apply Hm|]; split; [apply Hm|]; left; by exists ks).
  destruct Hs as [seg now e' fs E|seg sm dm now e' fs E|cmd now e' fs Hok E
    |now e' fs E|h|i h h' Eh Hst].
  - apply framed_inv in E as (ps & E & _). eapply Hmv. by eapply segment_step_move.
  - apply framed_inv in E as (ps & E & _). eapply Hmv. by eapply segment_step_move.
  - by eapply command_effect.
  - apply framed_inv in E as (ps & E & _). apply tick_step_move in E as (ks & Hm); [|done]. by eapply Hmv.
  - apply (Hmv []). apply handles_move; try done; rsimpl.
    + intros i. rewrite lookup_insert_is_Some'. intros [<-|Hi]; [lia|].
      apply (ei_fresh e H) in Hi. lia.
    + intros i h0 Eh. exists h0. rewrite lookup_insert_ne; [done|].
      intros <-. assert (next_handle e < next_handle e)%nat; [|lia].
      apply (ei_fresh e H). eexists. exact Eh.
  - apply (Hmv []). apply handles_move; try done; rsimpl.
    + intros j. rewrite lookup_insert_is_Some'. intros [<-|Hi]; apply (ei_fresh e H); eauto.
    + intros j h0 Ej. destruct (decide (i = j)) as [<-|Hne].
      * exists h'. rewrite lookup_insert_eq. split; congruence.
      * exists h0. by rewrite lookup_insert_ne.
Qed.

Lemma engine_reachable_inv cfg e : reachable_engine cfg e -> engine_inv e /\ config e = cfg.
Proof.
  induction 1 as [gen cmd_tx|e e' _ [H Hc] Hs]; [split; [apply engine_new_inv|done]|].
  destruct (engine_step_effect e e' H Hs) as (Hi & Hc' & _). split; [done|congruence].
Qed.

(** C4: In every engine that any interleaving of segments, commands, ticks
    and application activity reaches, the tables agree: each TCB sits under
    its own four-tuple in a live state, its handle exists, belongs to it alone and
    publishes exactly its state, a connection in SYN_SENT still has its caller
    waiting, and the table never exceeds [max_tcbs]. *)
Theorem reachable_tables_consistent cfg e k t :
  reachable_engine cfg e -> tcbs e !! k = Some t ->
  t_key t = k /\ t_state t <> Closed /\ t_state t <> Listen /\
  (exists h, get_conn e k = Done (Some (MkConn t h [])) /\ tcp_state h = t_state t) /\
  (forall k' t', tcbs e !! k' = Some t' -> t_handle t' = t_handle t -> k' = k) /\
  (t_state t = SynSent -> is_Some (pending_connects e !! k)) /\
  Z.of_nat (size (tcbs e)) <= max_tcbs cfg.
Proof.
  intros [H Hc]%engine_reachable_inv Ht. destruct (ei_live e H k t Ht) as [Hl1 Hl2].
  destruct (ei_handle e H k t Ht) as (h & Eh & Hst).
  split_and!; try done.
  - by apply (ei_key e H).
  - exists h. unfold get_conn. by rewrite Ht, Eh.
  - intros k' t' Ht' E. by eapply (ei_owner e H).
  - by apply (ei_pending e H).
  - pose proof (ei_limit e H) as Hlim. rewrite Hc in Hlim.
    assert (size (tcbs e) <> 0)%nat; [|lia].
    intros Hz%map_size_empty_inv. by rewrite Hz, lookup_empty in Ht.
Qed.

(** C3: Whatever the engine does next, every connection follows the TCP state
    machine: a connection present before and after keeps its handle and moves along an edge of the
    RFC 793 diagram (or stays), and a new one starts in SYN_SENT or SYN_RECEIVED.  There is one exception, as the code has
    no test against it: a connect command for a four-tuple that has a connection replaces that connection, whatever its
    state, by a new one in SYN_SENT with the command's handle.  The connect commands of the run bring a handle that no TCB holds, as the two
    functions that send them do; the four-tuple is arbitrary. *)
Theorem connections_follow_state_machine cfg e e' k :
  reachable_engine cfg e -> engine_step e e' ->
  match tcbs e !! k, tcbs e' !! k with
  | Some t, Some t' =>
      legal (t_state t) (t_state t') /\ t_handle t' = t_handle t \/
      replaces e e' (local k) (remote k) (t_handle t')
  | None, Some t' => t_state t' = SynSent \/ t_state t' = SynReceived
  | _, None => True
  end.
Proof.
  intros [H _]%engine_reachable_inv Hs. destruct (engine_step_effect e e' H Hs) as (_ & _ & [[ks Hm]|(l & r & h & Hr)]).
  - destruct (tcbs e !! k) as [t|] eqn:E; destruct (tcbs e' !! k) as [t'|] eqn:E'; try done.
    + left. by eapply (em_legal _ _ _ Hm).
    + by eapply (em_new _ _ _ Hm).
  - pose proof Hr as (Hcmd & t0 & t1 & E0 & E1 & Hs1 & Hh1 & Hne). rewrite E1. destruct (decide (MkFourTuple l r = k)) as [<-|Hk].
    + rewrite E0, lookup_insert_eq. right. by rewrite Hh1.
    + rewrite lookup_insert_ne by done. destruct (tcbs e !! k) as [t|]; [|done]. left. split; [constructor|done].
Qed.

End Moves.

(** ** A run *)

(** A client at 10.0.0.2 that connects to 10.0.0.1: the handle is created, the
    connect command opens, and the SYN-ACK of the server arrives. *)
Definition run_hash (_ _ : Z) (_ : list Z) : Z := 1000.

Definition run_order (m : gmap FourTuple Tcb) : list FourTuple := (map_to_list m).*1.

Definition run_key : FourTuple :=
  MkFourTuple (V4 (MkIpv4 10 0 0 2) 5000) (V4 (MkIpv4 10 0 0 1) 80).

Definition run_start : TcpEngine :=
  engine_new (MkIsnGenerator (replicate 16 0) 0) config_default true.

Definition run_handle : TcpEngine :=
  run_start <| handles := <[0%nat := handle_new 16 16 true run_key]> (handles run_start) |>
            <| next_handle := 1%nat |>.

Definition run_connect : EngineCommand :=
  CmdConnect (local run_key) (remote run_key) mac_zero mac_zero 0%nat 7%nat.

Definition after (e : TcpEngine) (m : outcome (TcpEngine * list (list Z))) : TcpEngine :=
  match m with Done (e', _) => e' | _ => e end.

Definition run_syn_sent : TcpEngine :=
  after run_handle (on_command run_hash run_handle run_connect 5).

Definition run_syn_ack : ParsedTcpSegment :=
  MkSegment (remote run_key) (local run_key) 7000 1001
    (TcpFlags.SYN + TcpFlags.ACK) 1000 options_default [].

Definition run_established : TcpEngine :=
  after run_syn_sent (on_segment run_hash run_syn_sent run_syn_ack 6).

Lemma run_syn_sent_reachable :
  reachable_engine run_hash run_order config_default run_syn_sent.
Proof.
  apply (reach_step _ _ _ run_handle); [apply (reach_step _ _ _ run_start)|].
  - apply reach_new.
  - apply (step_new_handle _ _ run_start).
  - eapply (step_command _ _ _ run_connect 5).
    + intros k t E. discriminate E.
    + vm_compute. reflexivity.
Qed.

Lemma run_established_step : engine_step run_hash run_order run_syn_sent run_established.
Proof. eapply (step_segment _ _ _ run_syn_ack 6). vm_compute. reflexivity. Qed.

Lemma run_state_is (e : TcpEngine) (s : TcpState) :
  (match tcbs e !! run_key with Some t => bool_decide (t_state t = s) | None => false end) = true ->
  exists t, tcbs e !! run_key = Some t /\ t_state t = s.
Proof.
  destruct (tcbs e !! run_key) as [t|]; [|done]. intros E%bool_decide_eq_true. eauto.
Qed.

Lemma reachable_tables_consistent_witness :
  exists t h, tcbs run_established !! run_key = Some t /\ t_state t = Established /\
    get_conn run_established run_key = Done (Some (MkConn t h [])) /\ tcp_state h = Established /\
    Z.of_nat (size (tcbs run_established)) <= 1024.
Proof.
  destruct (run_state_is run_established Established ltac:(by vm_compute)) as (t & Et & Es).
  destruct (reachable_tables_consistent run_hash run_order
              ltac:(intros m; reflexivity) config_default run_established run_key t
              (reach_step _ _ _ _ _ run_syn_sent_reachable run_established_step) Et)
    as (_ & _ & _ & (h & Eg & Eh) & _ & _ & Hlim).
  exists t, h. rewrite Es in Eh. exact (conj Et (conj Es (conj Eg (conj Eh Hlim)))).
Defined.

Lemma connections_follow_state_machine_witness :
  exists t t', tcbs run_syn_sent !! run_key = Some t /\ t_state t = SynSent /\
    tcbs run_established !! run_key = Some t' /\ t_state t' = Established /\
    (legal SynSent Established /\ t_handle t' = t_handle t \/
     replaces run_hash run_syn_sent run_established (local run_key) (remote run_key) (t_handle t')).
Proof.
  destruct (run_state_is run_syn_sent SynSent ltac:(by vm_compute)) as (t & Et & Es).
  destruct (run_state_is run_established Established ltac:(by vm_compute)) as (t' & Et' & Es').
  pose proof (connections_follow_state_machine run_hash run_order
              ltac:(intros m; reflexivity) config_default run_syn_sent run_established run_key
              run_syn_sent_reachable run_established_step) as Hl.
  rewrite Et, Et', Es, Es' in Hl.
  exists t, t'. exact (conj Et (conj Es (conj Et' (conj Es' Hl)))).
Defined.

(** The exception: the established connection of this run, and a second connect with the same addresses; the
    first handle still says that its connection is established. *)
Definition run_second : TcpEngine :=
  run_established <| handles := <[1%nat := handle_new 16 16 true run_key]> (handles run_established) |>
                  <| next_handle := 2%nat |>.

Definition run_replaced : TcpEngine :=
  after run_second (on_command run_hash run_second (CmdConnect (local run_key) (remote run_key) mac_zero mac_zero 1%nat 8%nat) 20).

Example connect_replaces_established :
  (match tcbs run_replaced !! run_key with Some t => bool_decide (t_state t = SynSent /\ t_handle t = 1%nat) | None => false end) = true /\
  (match handles run_replaced !! 0%nat with Some h => bool_decide (tcp_state h = Established) | None => false end) = true /\
  size (tcbs run_replaced) = 1%nat.
Proof. split_and!; vm_compute; reflexivity. Qed.
