(* ===== verification/Runtime.v ===== *)
(** * The engine drivers (dpdk-stdlib-tcp/src/runtime.rs and stream.rs)

    One iteration of the thread that owns the engine ([drive_once], and the body of
    [engine_loop] that does the same without the warning): frames from the backend,
    commands from the applications, timers; and how long the thread may sleep
    before it.  The backend is outside the model: what [recv_frames] returns and how
    [send_frame] answers are arguments.  Every call of the engine has the clock
    reading it would make. *)

From stdpp Require Import base numbers list gmap.
From Stdlib Require Import ZArith Lia.
From S2P Require Import Prelude Seq State Codec Congestion Contract Tcb Conn Engine EngineInv.

(** ** Sending *)

(** The engine, the frames handed to [send_frame], and the [TX_ERR_ONCE] flag. *)
Record driver := MkDriver {
  d_engine : TcpEngine;
  d_sent : list (list Z);
  d_warned : bool }.

#[global] Instance eta_driver : Eta driver := fun d => MkDriver (d_engine d) (d_sent d) (d_warned d).

#[global] Instance ErrorKind_eq_dec : EqDecision ErrorKind.
Proof. solve_decision. Defined.

Section Driver.

Context (siphash24 : Z -> Z -> list Z -> Z).
Context (key_order : gmap FourTuple Tcb -> list FourTuple).
(** [PacketBackend::send_frame]. *)
Context (send_frame : list Z -> result Z ErrorKind).

(** [send_or_warn]: a warning once, for an error other than a full ring. *)
Definition send_or_warn (d : driver) (out : list Z) : driver :=
  let d := d <| d_sent := d_sent d ++ [out] |> in
  match send_frame out with
  | Ok _ => d
  | Err k => if bool_decide (k = KWouldBlock) then d else d <| d_warned := true |>
  end.

(** An engine call followed by the transmission of its frames. *)
Definition send_all (d : driver) (m : outcome (TcpEngine * list (list Z))) : outcome driver :=
  let! (e, outs) := m in
  Done (foldl send_or_warn (d <| d_engine := e |>) outs).

(** [copy_from_slice] into a [[u8; 6]]. *)
Definition mac_of (bs : list Z) : outcome Mac :=
  match bs with
  | [a; b; c; d; e; f] => Done (MkMac a b c d e f)
  | _ => Panic
  end.

(** One received frame: addresses off the Ethernet header, then the engine. *)
Definition rx_frame (e : TcpEngine) (frame : list Z) (now : Z)
    : outcome (TcpEngine * list (list Z)) :=
  if (length frame <? 14)%nat then Done (e, [])
  else
    let! d6 := slice frame 0 6 in
    let! dst_mac := mac_of d6 in
    let! s6 := slice frame 6 12 in
    let! src_mac := mac_of s6 in
    let! r := parse_tcp_packet frame in
    match r with
    | Ok seg => on_segment_with_macs siphash24 e seg src_mac dst_mac now
    | Err _ => Done (e, [])
    end.

Fixpoint drive_rx (d : driver) (frames : list (list Z * Z)) : outcome driver :=
  match frames with
  | [] => Done d
  | (frame, now) :: fs =>
      let! d := send_all d (rx_frame (d_engine d) frame now) in
      drive_rx d fs
  end.

(** The commands that [try_recv] finds until it finds none. *)
Fixpoint drive_commands (d : driver) (cmds : list (EngineCommand * Z)) : outcome driver :=
  match cmds with
  | [] => Done d
  | (cmd, now) :: cs =>
      let! d := send_all d (on_command siphash24 (d_engine d) cmd now) in
      drive_commands d cs
  end.

(** [drive_once]; [rx] is what [recv_frames(32)] returns. *)
Definition drive_once (d : driver) (rx : result (list (list Z * Z)) ErrorKind)
    (cmds : list (EngineCommand * Z)) (now : Z) : outcome driver :=
  let! d := match rx with Ok frames => drive_rx d frames | Err _ => Done d end in
  let! d := drive_commands d cmds in
  send_all d (on_tick key_order (d_engine d) now).

(** The body of [engine_loop]: the same work, with the results of [send_frame]
    ignored. *)
Definition loop_sent (d : driver) (m : outcome (TcpEngine * list (list Z))) : outcome driver :=
  let! (e, outs) := m in
  Done (d <| d_engine := e |> <| d_sent := d_sent d ++ outs |>).

Fixpoint loop_rx (d : driver) (frames : list (list Z * Z)) : outcome driver :=
  match frames with
  | [] => Done d
  | (frame, now) :: fs =>
      let! d := loop_sent d (rx_frame (d_engine d) frame now) in
      loop_rx d fs
  end.

Fixpoint loop_commands (d : driver) (cmds : list (EngineCommand * Z)) : outcome driver :=
  match cmds with
  | [] => Done d
  | (cmd, now) :: cs =>
      let! d := loop_sent d (on_command siphash24 (d_engine d) cmd now) in
      loop_commands d cs
  end.

Definition loop_once (d : driver) (rx : result (list (list Z * Z)) ErrorKind)
    (cmds : list (EngineCommand * Z)) (now : Z) : outcome driver :=
  let! d := match rx with Ok frames => loop_rx d frames | Err _ => Done d end in
  let! d := loop_commands d cmds in
  loop_sent d (on_tick key_order (d_engine d) now).

(** ** Waiting *)

Inductive RxReadiness : Type :=
| ReadyFd
| PollOnly
| ReadyCondvar (guard : bool).

Definition MICROSECOND : Z := 1000.

(** The constants of the two loops: the wait with no timer armed, and the nap of
    a poll-only backend. *)
Record wait_config := MkWait { idle_wait : Z; poll_nap : Z }.

(** [run_engine_driver] and [engine_loop]. *)
Definition driver_config : wait_config := MkWait (10 * MILLISECOND) (200 * MICROSECOND).

Definition loop_config : wait_config := MkWait (100 * MILLISECOND) (1 * MILLISECOND).

(** The bound that the loop puts on its sleep. *)
Definition wait_timeout (cfg : wait_config) (e : TcpEngine) (now : Z) : Z :=
  match next_timer_deadline key_order e with
  | Some d => ssub d now
  | None => idle_wait cfg
  end.

(** The wait at the top of the loop: the wakeup flag it leaves and the longest
    it may sleep; the second [try_recv] of the condition-variable arm sees the flag
    the first one left, or a signal in between ([signalled]). *)
Definition driver_wait (cfg : wait_config) (ready : RxReadiness) (w : EngineWakeup)
    (signalled : bool) (timeout : Z) : EngineWakeup * Z :=
  match ready with
  | ReadyCondvar guard =>
      let (w, got) := wakeup_try_recv w in
      if got then (w, 0)
      else
        let w := if signalled then wakeup_signal w else w in
        if guard then (w, 0)
        else
          let (w, got) := wakeup_try_recv w in
          if got then (w, 0) else (w, timeout)
  | PollOnly =>
      let (w, got) := wakeup_try_recv w in
      if got then (w, 0) else (w, Z.min timeout (poll_nap cfg))
  | ReadyFd => if flag w then (MkWakeup false, 0) else (MkWakeup false, timeout)
  end.

End Driver.

(** ** The wait never passes a deadline *)

(** [earliest] is at most [d]. *)
Definition at_most (earliest : option Z) (d : Z) : Prop :=
  match earliest with Some e => e <= d | None => False end.

Lemma join_deadline_at_most acc o d :
  at_most acc d \/ o = Some d -> at_most (join_deadline acc o) d.
Proof.
  unfold join_deadline, at_most. intros [H| ->].
  - destruct o; [|done]. destruct acc; [|done]. bcase; lia.
  - destruct acc; [bcase|]; lia.
Qed.

Lemma foldl_join_at_most ds : forall acc d,
  at_most acc d \/ Some d ∈ ds -> at_most (foldl join_deadline acc ds) d.
Proof.
  induction ds as [|o ds IH]; intros acc d H; cbn [foldl].
  - destruct H as [H|[]%elem_of_nil]. done.
  - apply IH. rewrite elem_of_cons in H. destruct H as [H|[H|H]].
    + left. apply join_deadline_at_most. by left.
    + left. apply join_deadline_at_most. by right.
    + by right.
Qed.

(** The join is [acc] or one of the deadlines. *)
Lemma foldl_join_source ds : forall acc e,
  foldl join_deadline acc ds = Some e -> acc = Some e \/ Some e ∈ ds.
Proof.
  induction ds as [|o ds IH]; intros acc e; cbn [foldl]; [by left|].
  intros [H|H]%IH; [|right; by apply list_elem_of_further].
  unfold join_deadline in H. destruct o as [d|]; [|by left].
  destruct acc as [a|].
  - destruct (d <? a); injection H as <-; [right; apply list_elem_of_here|by left].
  - injection H as <-. right. apply list_elem_of_here.
Qed.

Section Waiting.

Context (key_order : gmap FourTuple Tcb -> list FourTuple).
Context (key_order_perm : forall m, key_order m ≡ₚ (map_to_list m).*1).

Let scan (e : TcpEngine) (acc : option Z) (ks : list FourTuple) : option Z :=
  foldl (fun acc k =>
           match tcbs e !! k with
           | Some t => foldl join_deadline acc (tcb_deadlines t)
           | None => acc
           end) acc ks.

Lemma scan_at_most e ks : forall acc d,
  at_most acc d \/ (exists k t, k ∈ ks /\ tcbs e !! k = Some t /\ Some d ∈ tcb_deadlines t) ->
  at_most (scan e acc ks) d.
Proof.
  unfold scan. induction ks as [|k ks IH]; intros acc d H; cbn [foldl].
  - destruct H as [H|(k & t & []%elem_of_nil & _)]. done.
  - apply IH. destruct H as [H|(k' & t & [->|Hk]%elem_of_cons & Ht & Hd)].
    + left. destruct (tcbs e !! k); [|done]. apply foldl_join_at_most. by left.
    + left. rewrite Ht. apply foldl_join_at_most. by right.
    + right. by exists k', t.
Qed.

Lemma scan_source e ks : forall acc d,
  scan e acc ks = Some d ->
  acc = Some d \/ exists k t, tcbs e !! k = Some t /\ Some d ∈ tcb_deadlines t.
Proof.
  unfold scan. induction ks as [|k ks IH]; intros acc d; cbn [foldl]; [by left|].
  intros [H|H]%IH; [|by right]. destruct (tcbs e !! k) as [t|] eqn:Et; [|by left].
  apply foldl_join_source in H as [H|H]; [by left|right; by exists k, t].
Qed.

Lemma next_timer_deadline_at_most e k t d :
  tcbs e !! k = Some t -> Some d ∈ tcb_deadlines t -> at_most (next_timer_deadline key_order e) d.
Proof.
  intros Ht Hd. apply scan_at_most. right. exists k, t. split; [|done].
  apply (elem_of_key_order key_order key_order_perm). eauto.
Qed.

Lemma driver_wait_bound cfg ready w sig timeout :
  0 <= poll_nap cfg -> 0 <= timeout ->
  0 <= snd (driver_wait cfg ready w sig timeout) <= timeout.
Proof.
  intros Hn H. unfold driver_wait, wakeup_try_recv.
  destruct ready as [| |[]], (flag w), sig; cbn [snd flag wakeup_signal]; lia.
Qed.

(** C38: the sleep of both engine loops is bounded by every armed timer: whatever
    the backend's readiness mode, the wait before the next tick ends no later than
    any deadline of any connection (at once, when it has passed), and it is the earliest
    armed deadline that bounds it; a pending wake-up is taken without sleeping. *)
Theorem driver_never_oversleeps cfg e ready w sig now k t d :
  cfg = driver_config \/ cfg = loop_config ->
  tcbs e !! k = Some t -> Some d ∈ tcb_deadlines t ->
  let sleep := snd (driver_wait cfg ready w sig (wait_timeout key_order cfg e now)) in
  0 <= sleep /\ now + sleep <= Z.max now d /\
  (flag w = true -> sleep = 0) /\
  (exists k' t' d', tcbs e !! k' = Some t' /\ Some d' ∈ tcb_deadlines t' /\
     wait_timeout key_order cfg e now = Z.max 0 (d' - now)).
Proof.
  intros Hcfg Ht Hd. cbv zeta.
  pose proof (next_timer_deadline_at_most e k t d Ht Hd) as Hm.
  destruct (next_timer_deadline key_order e) as [d'|] eqn:En; [|done]. cbn [at_most] in Hm.
  assert (wait_timeout key_order cfg e now = Z.max 0 (d' - now)) as Hw
    by (unfold wait_timeout; by rewrite En).
  assert (0 <= poll_nap cfg) as Hnap by (destruct Hcfg as [-> | ->]; vm_compute; discriminate).
  pose proof (driver_wait_bound cfg ready w sig _ Hnap
    (ltac:(lia) : 0 <= wait_timeout key_order cfg e now)) as Hb.
  split_and!; [lia|lia|..].
  - intros Hf. unfold driver_wait, wakeup_try_recv. rewrite Hf. by destruct ready.
  - apply scan_source in En as [?|(k' & t' & Ht' & Hd')]; [done|]. by exists k', t', d'.
Qed.

End Waiting.

Lemma driver_never_oversleeps_witness :
  let sleep := snd (driver_wait driver_config ReadyFd (MkWakeup false) false
                      (wait_timeout run_order driver_config run_syn_sent 5)) in
  0 <= sleep /\ 5 + sleep <= Z.max 5 (5 + SECOND).
Proof.
  destruct (run_state_is run_syn_sent SynSent ltac:(by vm_compute)) as (t & Et & _).
  assert (Some (5 + SECOND) ∈ tcb_deadlines t) as Hd.
  { apply list_elem_of_lookup. exists 0%nat. revert Et. vm_compute. by intros [= <-]. }
  destruct (driver_never_oversleeps run_order ltac:(intros m; reflexivity) driver_config run_syn_sent
              ReadyFd (MkWakeup false) false 5 run_key t (5 + SECOND) (or_introl eq_refl) Et Hd) as (H1 & H2 & _).
  split; [exact H1|exact H2].
Defined.

(** ** The two loops do the same *)

(** The engine and the frames handed to the backend. *)
Definition visible (o : outcome driver) : outcome (TcpEngine * list (list Z)) :=
  let! d := o in Done (d_engine d, d_sent d).

Section Agree.

Context (siphash24 : Z -> Z -> list Z -> Z).
Context (key_order : gmap FourTuple Tcb -> list FourTuple).
Context (send_frame : list Z -> result Z ErrorKind).

Definition same_view (d d' : driver) : Prop := d_engine d = d_engine d' /\ d_sent d = d_sent d'.

(** Outcomes that look alike from outside. *)
Definition agree (o o' : outcome driver) : Prop :=
  match o, o' with
  | Done d, Done d' => same_view d d'
  | Panic, Panic | OutOfFuel, OutOfFuel => True
  | _, _ => False
  end.

Lemma agree_bind o o' f g :
  agree o o' -> (forall d d', same_view d d' -> agree (f d) (g d')) -> agree (obind o f) (obind o' g).
Proof. intros H Hf. destruct o, o'; try done. by apply Hf. Qed.

Lemma sends_visible outs : forall d,
  d_engine (foldl (send_or_warn send_frame) d outs) = d_engine d /\
  d_sent (foldl (send_or_warn send_frame) d outs) = d_sent d ++ outs.
Proof.
  induction outs as [|f outs IH]; intros d; cbn [foldl]; [by rewrite app_nil_r|].
  destruct (IH (send_or_warn send_frame d f)) as [-> ->]. unfold send_or_warn.
  destruct (send_frame f); [|destruct (bool_decide _)]; rsimpl; by rewrite <- app_assoc.
Qed.

Lemma send_agrees d d' m : same_view d d' -> agree (send_all send_frame d m) (loop_sent d' m).
Proof.
  intros [He Hs]. unfold send_all, loop_sent. destruct m as [[e outs]| |]; cbn; [|done..].
  destruct (sends_visible outs (d <| d_engine := e |>)) as [E1 E2].
  split; [exact E1|]. rewrite E2. rsimpl. by rewrite Hs.
Qed.

(** The two engine loops of the crate are interchangeable: for the same
    frames, commands and clock readings, and whatever the backend answers,
    [drive_once] and the body of [engine_loop] end with the same engine, hand the
    same frames to the backend in the same order, and panic in the same cases. *)
Theorem loops_agree d rx cmds now :
  visible (drive_once siphash24 key_order send_frame d rx cmds now)
  = visible (loop_once siphash24 key_order d rx cmds now).
Proof.
  assert (forall fs d d', same_view d d' ->
    agree (drive_rx siphash24 send_frame d fs) (loop_rx siphash24 d' fs)) as Hrx.
  { induction fs as [|[f t] fs IH]; intros d1 d1' Hv; [exact Hv|]. cbn [drive_rx loop_rx].
    apply agree_bind; [|exact IH]. rewrite (proj1 Hv). by apply send_agrees. }
  assert (forall cs d d', same_view d d' ->
    agree (drive_commands siphash24 send_frame d cs) (loop_commands siphash24 d' cs)) as Hcmd.
  { induction cs as [|[c t] cs IH]; intros d1 d1' Hv; [exact Hv|].
    cbn [drive_commands loop_commands]. apply agree_bind; [|exact IH].
    rewrite (proj1 Hv). by apply send_agrees. }
  assert (agree (drive_once siphash24 key_order send_frame d rx cmds now)
            (loop_once siphash24 key_order d rx cmds now)) as H.
  { unfold drive_once, loop_once. apply agree_bind.
    - destruct rx; [by apply Hrx|done].
    - intros d1 d1' Hv. apply agree_bind; [by apply Hcmd|].
      intros d2 d2' Hv2. rewrite (proj1 Hv2). by apply send_agrees. }
  destruct (drive_once _ _ _ _ _ _ _), (loop_once _ _ _ _ _ _); try done.
  unfold visible. cbn. destruct H as [-> ->]. done.
Qed.

End Agree.
