(* ===== verification/EngineReset.v ===== *)
(** * Resets and expiry

    How a reset is answered (RFC 5961), how a connection that may not be kept is
    dropped by a tick, and what the application sees of each. *)

From stdpp Require Import base numbers list gmap.
From Stdlib Require Import ZArith Lia.
From S2P Require Import Prelude Seq State Codec Ring Congestion Contract Tcb Conn Engine.
From S2P Require Import EngineLife EngineInv.

(** ** The receive window *)

(** [is_in_window] is membership of [rcv_nxt, rcv_nxt + rcv_wnd) on the sequence
    circle, with the window closed to the single point [rcv_nxt] at zero. *)
Lemma is_in_window_spec seq rcv_nxt rcv_wnd :
  is_u32 seq -> is_u32 rcv_nxt -> 0 <= rcv_wnd < 2147483648 ->
  is_in_window seq rcv_nxt rcv_wnd
  = (SeqNum.diff seq rcv_nxt =? 0) || (SeqNum.diff seq rcv_nxt <? rcv_wnd).
Proof.
  intros Hs Hn Hw. unfold is_in_window, SeqNum.gt, SeqNum.lt, SeqNum.diff, SeqNum.add.
  unfold_words. apply Bool.eq_true_iff_eq.
  destruct (Z.eqb_spec rcv_wnd 0);
    change (Z.shiftl 1 31) with 2147483648;
    rewrite ?orb_true_iff, ?andb_true_iff, ?negb_true_iff, ?Z.eqb_neq, ?Z.eqb_eq, ?Z.ltb_lt; mod_lia.
Qed.

(** The states in which RFC 5961 applies. *)
Definition synchronized (s : TcpState) : bool :=
  match s with
  | Established | FinWait1 | FinWait2 | CloseWait | Closing | LastAck | TimeWait => true
  | Closed | Listen | SynSent | SynReceived => false
  end.

(** A handle that the application sees closed, with an error if one was given. *)
Lemma close_handle_seen c err :
  let h := c_handle (close_handle c (Some err) true) in
  tcp_state h = Closed /\ eof h = true /\ error h = error (latch_error (c_handle c) err).
Proof. unfold close_handle. cbv zeta. rsimpl. split_and!; reflexivity. Qed.

Lemma latched_some h err : is_Some (error (latch_error h err)).
Proof. unfold latch_error. destruct (error h) eqn:E; [rewrite E|]; eauto. Qed.

Lemma latched_first h err : error h = None -> error (latch_error h err) = Some err.
Proof. intros E. unfold latch_error. by rewrite E. Qed.

Section Reset.

Context (siphash24 : Z -> Z -> list Z -> Z).

(** C36: blind resets (RFC 5961): in every synchronized state, a reset that
    hits [rcv_nxt] exactly removes the connection and its handle reports
    CLOSED, end-of-file and an error (ConnectionReset, if nothing failed
    before); a reset elsewhere in the receive window leaves the engine as it is and is
    answered by a challenge ACK; any other reset is ignored. *)
Theorem reset_follows_rfc5961 e seg macs now t h :
  let k := MkFourTuple (seg_dst seg) (seg_src seg) in
  let d := SeqNum.diff (seg_seq seg) (rcv_nxt t) in
  TcpFlags.contains (seg_flags seg) TcpFlags.RST = true ->
  tcbs e !! k = Some t -> handles e !! t_handle t = Some h -> synchronized (t_state t) = true ->
  is_u32 (seg_seq seg) -> is_u32 (rcv_nxt t) -> 0 <= rcv_wnd t < 2147483648 ->
  (d = 0 -> exists e' h', segment_step siphash24 e seg macs now = Done (e', []) /\
     tcbs e' = delete k (tcbs e) /\ handles e' = <[t_handle t := h']> (handles e) /\
     tcp_state h' = Closed /\ eof h' = true /\ is_Some (error h') /\
     (error h = None -> error h' = Some ConnectionReset)) /\
  (0 < d < rcv_wnd t -> segment_step siphash24 e seg macs now
     = let! p := build_ack_for_tcb (MkConn t h []) in Done (e, [p])) /\
  (d <> 0 -> rcv_wnd t <= d -> segment_step siphash24 e seg macs now = Done (e, [])).
Proof.
  intros k d Hrst Ht Hh Hst Hs Hn Hw.
  assert (segment_step siphash24 e seg macs now = handle_rst_rfc5961 e seg k) as ->.
  { unfold segment_step. rewrite Hrst. fold k. unfold handle_rst, get_conn. rewrite Ht, Hh.
    cbn [obind c_tcb]. destruct (t_state t); done. }
  unfold handle_rst_rfc5961, get_conn. rewrite Ht, Hh. cbn [obind c_tcb].
  assert (d = 0 <-> seg_seq seg = rcv_nxt t) as Hd
    by (subst d; unfold SeqNum.diff; wrap_lia).
  rewrite is_in_window_spec by done. fold d. split_and!.
  - intros E. rewrite (proj1 Hd E), Z.eqb_refl.
    destruct (close_handle_seen (MkConn t h []) ConnectionReset) as (H1 & H2 & H3).
    eexists _, _. split; [reflexivity|]. split_and!; [reflexivity|reflexivity|exact H1|exact H2|..].
    + rewrite H3. apply latched_some.
    + intros E0. rewrite H3. by apply latched_first.
  - intros Hd'. rewrite (proj2 (Z.eqb_neq _ _)) by (intros E%Hd; lia).
    rewrite (proj2 (Z.eqb_neq d 0)), (proj2 (Z.ltb_lt _ _)) by lia. done.
  - intros Hd0 Hd'. rewrite (proj2 (Z.eqb_neq _ _)) by (intros E%Hd; lia).
    rewrite (proj2 (Z.eqb_neq d 0)), (proj2 (Z.ltb_ge _ _)) by lia. done.
Qed.

End Reset.

(** An established connection of the run, hit by three resets. *)
Definition rst_segment (seq : Z) : ParsedTcpSegment :=
  MkSegment (remote run_key) (local run_key) seq 0 TcpFlags.RST 0 options_default [].

Definition rst_tcb : Tcb :=
  match tcbs run_established !! run_key with
  | Some t => t
  | None => tcb_new run_key 0 0 0%nat mac_zero mac_zero
  end.

Definition rst_handle : ConnectionHandle :=
  match handles run_established !! 0%nat with
  | Some h => h
  | None => handle_new 16 16 true run_key
  end.

Lemma reset_follows_rfc5961_witness :
  (exists e', segment_step run_hash run_established (rst_segment 7001) None 9 = Done (e', [])) /\
  segment_step run_hash run_established (rst_segment 6000) None 9 = Done (run_established, []).
Proof.
  pose proof (fun seq (Hseq : is_u32 seq) => reset_follows_rfc5961 run_hash run_established (rst_segment seq)
    None 9 rst_tcb rst_handle ltac:(reflexivity) ltac:(by vm_compute) ltac:(by vm_compute)
    ltac:(by vm_compute) Hseq ltac:(by vm_compute) ltac:(by vm_compute)) as H.
  destruct (H 7001 ltac:(by vm_compute)) as (H1 & _ & _).
  destruct (H 6000 ltac:(by vm_compute)) as (_ & _ & H3). split.
  - destruct (H1 ltac:(by vm_compute)) as (e' & h' & E & _). by exists e'.
  - apply H3; by vm_compute.
Defined.

(** ** Expiry *)

(** No connection uses the handle [i] any more. *)
Definition unowned (e : TcpEngine) (i : handle_id) : Prop :=
  forall k t, tcbs e !! k = Some t -> t_handle t <> i.

(** A step on one connection keeps the handles it does not own, and every TCB
    keeps its handle. *)
Record handle_frame (i : handle_id) (e e' : TcpEngine) : Prop := {
  hf_handle : handles e' !! i = handles e !! i;
  hf_unowned : unowned e' i }.

Lemma put_conn_frame e key c c' i :
  unowned e i -> tcbs e !! key = Some (c_tcb c) -> t_handle (c_tcb c') = t_handle (c_tcb c) ->
  handle_frame i e (put_conn e key c').
Proof.
  intros Hu Ht Hh. pose proof (Hu _ _ Ht) as Hne. constructor; unfold put_conn, publish.
  - rsimpl. rewrite Hh, lookup_insert_ne; done.
  - intros k t. rsimpl. rewrite lookup_insert_Some. intros [[<- <-]|[_ E]]; [congruence|].
    by apply (Hu k).
Qed.

Lemma remove_conn_frame e key c c' i :
  unowned e i -> tcbs e !! key = Some (c_tcb c) -> t_handle (c_tcb c') = t_handle (c_tcb c) ->
  handle_frame i e (remove_conn e key c').
Proof.
  intros Hu Ht Hh. pose proof (Hu _ _ Ht) as Hne. constructor; unfold remove_conn, publish.
  - rsimpl. rewrite Hh, lookup_insert_ne; done.
  - intros k t. rsimpl. rewrite lookup_delete_Some. intros [_ E]. by apply (Hu k).
Qed.

Lemma handle_frame_trans i e1 e2 e3 :
  handle_frame i e1 e2 -> (unowned e2 i -> handle_frame i e2 e3) -> handle_frame i e1 e3.
Proof.
  intros [H1 U1] H. destruct (H U1) as [H2 U2]. constructor; [congruence|done].
Qed.

Lemma fail_pending_frame i e e1 k err : handle_frame i e e1 -> handle_frame i e (fail_pending e1 k err).
Proof.
  intros [H U]. unfold fail_pending. destruct (pending_connects e1 !! k); [|done].
  constructor; [exact H|exact U].
Qed.

Lemma tick_key_frame e k now e' out i :
  unowned e i -> tick_key e k now = Done (e', out) -> handle_frame i e e'.
Proof.
  intros Hu. unfold tick_key.
  destruct (get_conn e k) as [oc| |] eqn:Eg; cbn [obind]; [|done..]. apply get_conn_inv in Eg.
  destruct oc as [c|]; [|intros E; returned; by constructor]. destruct Eg as (_ & Ht & _).
  destruct (tick_conn _ _ _) as [r| |] eqn:Er; cbn [obind]; [|done..].
  apply tick_conn_step in Er. destruct r as [c' o|c' fail]; intros E; returned.
  - apply (put_conn_frame e k c); [done|done|apply Er].
  - destruct Er as (_ & Er & _).
    assert (handle_frame i e (remove_conn e k c')) as Hf by (by apply (remove_conn_frame e k c)).
    destruct fail; [by apply fail_pending_frame|done].
Qed.

Lemma tick_keys_frame now i ks : forall e e' out,
  unowned e i -> tick_keys e ks now = Done (e', out) -> handle_frame i e e'.
Proof.
  induction ks as [|k ks IH]; intros e e' out Hu; cbn [tick_keys]; intros E; returned;
    [by constructor|].
  eapply handle_frame_trans; [by eapply tick_key_frame|]. intros Hu'. by eapply IH.
Qed.

(** The connections that pass 1 removes leave their handles closed. *)
Lemma expire_all_closes ks : forall e e' k t,
  engine_inv e -> expire_all e ks = Done e' -> k ∈ ks -> tcbs e !! k = Some t ->
  (exists h, handles e' !! t_handle t = Some h /\ tcp_state h = Closed /\ eof h = true) /\
  unowned e' (t_handle t).
Proof.
  assert (forall ks e e' i, unowned e i -> expire_all e ks = Done e' -> handle_frame i e e') as Hfr.
  { clear ks. induction ks as [|k ks IH]; intros e e' i Hu; cbn [expire_all]; intros E;
      [returned; by constructor|].
    destruct (get_conn e k) as [oc| |] eqn:Eg; cbn [obind] in E; [|done..].
    apply get_conn_inv in Eg. destruct oc as [c|]; [|by apply IH]. destruct Eg as (_ & Ht & _).
    eapply handle_frame_trans; [by apply (remove_conn_frame e k c (close_handle c None true))|].
    intros Hu'. by eapply IH. }
  induction ks as [|k0 ks IH]; intros e e' k t H E Hk Ht; [by apply elem_of_nil in Hk|].
  cbn [expire_all] in E. destruct (get_conn e k0) as [oc| |] eqn:Eg; cbn [obind] in E; [|done..].
  apply get_conn_inv in Eg. destruct oc as [c|].
  - destruct Eg as (_ & Ht0 & Hh0). pose proof (remove_conn_move e k0 c H Ht0 Hh0
      (close_handle c None true) eq_refl) as Hm.
    destruct (decide (k = k0)) as [->|Hne].
    + assert (t = c_tcb c) as -> by congruence.
      assert (unowned (remove_conn e k0 (close_handle c None true)) (t_handle (c_tcb c))) as Hu.
      { intros k' t'. unfold remove_conn, publish. rsimpl. rewrite lookup_delete_Some.
        intros [Hne' E'] Eq. apply Hne'. symmetry. by eapply (ei_owner e H). }
      destruct (Hfr _ _ _ _ Hu E) as [Hh Hu']. split; [|done].
      exists (c_handle (close_handle c None true)). rewrite Hh. split; [|split; reflexivity].
      unfold remove_conn, publish. rsimpl. apply lookup_insert_eq.
    + apply (IH _ e' k t (em_inv _ _ _ Hm) E).
      * apply elem_of_cons in Hk as [?|Hk]; [congruence|exact Hk].
      * rewrite (em_frame _ _ _ Hm); [done|]. by intros ->%list_elem_of_singleton.
  - apply (IH e e' k t H E); [|done]. apply elem_of_cons in Hk as [->|Hk]; [congruence|exact Hk].
Qed.

Section Expiry.

Context (siphash24 : Z -> Z -> list Z -> Z).
Context (key_order : gmap FourTuple Tcb -> list FourTuple).
Context (key_order_perm : forall m, key_order m ≡ₚ (map_to_list m).*1).

Lemma tick_keys_absent now k ks : forall e e' out,
  tcbs e !! k = None -> tick_keys e ks now = Done (e', out) -> tcbs e' !! k = None.
Proof.
  induction ks as [|k0 ks IH]; intros e e' out Hn; cbn [tick_keys]; intros E; returned; [done|].
  apply (IH _ _ _) in E1; [done|]. clear E1. unfold tick_key in E0.
  destruct (get_conn e k0) as [oc| |] eqn:Eg; cbn [obind] in E0; [|done..].
  apply get_conn_inv in Eg. destruct oc as [c|]; returned; [|done].
  destruct Eg as (_ & Ht & _). assert (k <> k0) as Hne by congruence.
  destruct a as [c' o|c' fail]; returned.
  - unfold put_conn, publish. rsimpl. by rewrite lookup_insert_ne.
  - assert (tcbs (remove_conn e k0 c') !! k = None) as Hr.
    { unfold remove_conn, publish. rsimpl. by rewrite lookup_delete_ne. }
    destruct fail; [|done]. unfold fail_pending.
    destruct (pending_connects _ !! k0); [|done]. exact Hr.
Qed.

(** A connection whose TIME_WAIT or FIN_WAIT_2 time is over does not
    survive the next tick: whatever else that tick does, the TCB is gone
    afterwards, and its handle shows CLOSED and end-of-file. *)
Theorem expired_connection_removed cfg e now e' fs k t :
  reachable_engine siphash24 key_order cfg e ->
  on_tick key_order e now = Done (e', fs) ->
  tcbs e !! k = Some t -> is_expired t now = true ->
  tcbs e' !! k = None /\
  exists h, handles e' !! t_handle t = Some h /\ tcp_state h = Closed /\ eof h = true.
Proof.
  intros [H _]%(engine_reachable_inv _ _ key_order_perm) Et Ht Hx.
  apply framed_inv in Et as (ps & Et & _).
  unfold tick_step in Et. set (ks := expired_keys _ _ _) in Et.
  destruct (expire_all e ks) as [e1| |] eqn:E1; cbn [obind] in Et; [|discriminate..].
  assert (k ∈ ks) as Hk.
  { apply list_elem_of_filter. split.
    - unfold key_expired. by rewrite Ht.
    - apply (elem_of_key_order key_order key_order_perm). eauto. }
  destruct (expire_all_closes ks e e1 k t H E1 Hk Ht) as [(h & Hh & Hc & Ho) Hu].
  apply expire_all_move in E1 as [_ Hn]; [|done|].
  2:{ apply NoDup_filter, (key_order_NoDup key_order key_order_perm). }
  split; [eapply tick_keys_absent; [by apply Hn|exact Et]|].
  exists h. rewrite (hf_handle _ _ _ (tick_keys_frame now _ _ _ _ _ Hu Et)). done.
Qed.

End Expiry.

(** The run goes on: the application shuts down, the peer acknowledges and
    closes, and two minutes pass. *)
Definition run_fin_wait : TcpEngine :=
  after run_established (on_command run_hash run_established (CmdShutdown run_key ShutWrite) 10).

Definition run_peer_fin : ParsedTcpSegment :=
  MkSegment (remote run_key) (local run_key) 7001 1002
    (TcpFlags.FIN + TcpFlags.ACK) 1000 options_default [].

Definition run_time_wait : TcpEngine :=
  after run_fin_wait (on_segment run_hash run_fin_wait run_peer_fin 20).

Definition run_late : Z := 20 + TIME_WAIT_DURATION.

Lemma run_time_wait_reachable :
  reachable_engine run_hash run_order config_default run_time_wait.
Proof.
  apply (reach_step _ _ _ run_fin_wait); [apply (reach_step _ _ _ run_established)|].
  - exact (reach_step _ _ _ _ _ run_syn_sent_reachable run_established_step).
  - eapply (step_command _ _ _ (CmdShutdown run_key ShutWrite) 10); [done|vm_compute; reflexivity].
  - eapply (step_segment _ _ _ run_peer_fin 20). vm_compute. reflexivity.
Qed.

Lemma run_tick_done :
  exists fs, on_tick run_order run_time_wait run_late
    = Done (after run_time_wait (on_tick run_order run_time_wait run_late), fs).
Proof. eexists. vm_compute. reflexivity. Qed.

Lemma run_time_wait_expired :
  exists t, tcbs run_time_wait !! run_key = Some t /\ t_state t = TimeWait /\
    is_expired t run_late = true.
Proof.
  assert (match tcbs run_time_wait !! run_key with
          | Some t => bool_decide (t_state t = TimeWait) && is_expired t run_late
          | None => false end = true) as H by (by vm_compute).
  destruct (tcbs run_time_wait !! run_key) as [t|]; [|discriminate H].
  apply andb_true_iff in H as [H%bool_decide_eq_true Hx]. by exists t.
Qed.

Lemma expired_connection_removed_witness :
  exists t e', tcbs run_time_wait !! run_key = Some t /\ t_state t = TimeWait /\
    tcbs e' !! run_key = None.
Proof.
  destruct run_time_wait_expired as (t & Et & Es & Hx). destruct run_tick_done as (fs & Ek).
  destruct (expired_connection_removed run_hash run_order ltac:(intros m; reflexivity)
    config_default run_time_wait run_late _ fs run_key t run_time_wait_reachable Ek Et Hx)
    as [Hn _].
  eexists t, _. exact (conj Et (conj Es Hn)).
Defined.
