(* ===== verification/Handshake.v ===== *)
(** * Opening a connection over the wire

    The three-way handshake between two engines that exchange the bytes of their
    frames: every frame one driver transmits is given to the other's receive
    path, checksums, options and MAC addresses included. *)

From stdpp Require Import base numbers list gmap.
From Stdlib Require Import ZArith Lia.
From S2P Require Import Prelude Seq State Codec CodecOptions CodecFrames Ring Congestion.
From S2P Require Import Contract Tcb Conn Engine EngineLife EngineInv Runtime.

#[local] Open Scope Z_scope.

(** ** Frames between engines *)

Lemma mac_of_bytes m : mac_of (mac_bytes m) = Done m.
Proof. by destruct m. Qed.

(** A frame that the builder made is received as the segment it was built from,
    with the MAC addresses of its Ethernet header. *)
Lemma built_frame_received p :
  wf_params p ->
  exists f, build_tcp_frame p = Done (Ok f) /\
    forall hash e now, rx_frame hash e f now
      = on_segment_with_macs hash e (segment_of p) (p_src_mac p) (p_dst_mac p) now.
Proof.
  intros Hwf. pose proof (wf_p_src p Hwf) as Hs. pose proof (wf_p_dst p Hwf) as Hd.
  destruct (p_src p) as [a b|] eqn:Es; [|done]. destruct (p_dst p) as [c d|] eqn:Ed; [|done].
  destruct (build_tcp_frame_v4 p a b c d Es Ed) as (c1 & c2 & -> & _).
  eexists. split; [reflexivity|]. intros hash e now.
  pose proof (parse_frame_of p a b c d c1 c2 [] Hwf Es Ed) as Hp. rewrite app_nil_r in Hp.
  pose proof (frame_split_len p a b c d c1 c2 []) as Hl. rewrite app_nil_r in Hl.
  unfold rx_frame. rewrite (proj2 (Nat.ltb_ge _ _)) by lia.
  rewrite !slice_in_range by lia. rewrite Hp.
  change (take (6 - 0) _) with (mac_bytes (p_dst_mac p)).
  change (take (12 - 6) _) with (mac_bytes (p_src_mac p)).
  cbn [obind]. rewrite !mac_of_bytes. reflexivity.
Qed.

Lemma transmit_one p f : build_tcp_frame p = Done (Ok f) -> transmit [p] = Done [f].
Proof. intros H. cbn [transmit]. rewrite H. reflexivity. Qed.

Lemma framed_one e p f :
  build_tcp_frame p = Done (Ok f) -> framed (Done (e, [p])) = Done (e, [f]).
Proof. intros H. unfold framed. cbn [obind]. by rewrite (transmit_one p f H). Qed.

(** ** The frames of a handshake are well formed *)

(** The configuration of an engine that can open connections. *)
Record config_ok (cfg : EngineConfig) : Prop := {
  cfg_mss_u16 : is_u16 (cfg_local_mss cfg);
  cfg_scale_shift : 0 <= default_rcv_scale cfg < 32;
  cfg_wnd_u32 : is_u32 (default_rcv_wnd cfg) }.

Lemma syn_options_len mss scale flags :
  TcpFlags.contains flags TcpFlags.SYN = true ->
  length (serialize_options (MkTcpOptions (Some mss) (Some scale) true (Some (0, 0)) []) flags)
    = 24%nat.
Proof. intros H. unfold serialize_options. rewrite H. reflexivity. Qed.

Lemma plain_options_len flags :
  TcpFlags.contains flags TcpFlags.SYN = false ->
  length (serialize_options options_default flags) = 0%nat.
Proof. intros H. unfold serialize_options. rewrite H. reflexivity. Qed.

Lemma encode_window_u16 w s : is_u32 w -> is_u16 (encode_window w s).
Proof. unfold encode_window. wrap_lia. Qed.

Lemma syn_params_wf t seq ack flags :
  wf_v4 (local (t_key t)) -> wf_v4 (remote (t_key t)) -> is_u32 seq -> is_u32 ack ->
  is_u8 flags -> TcpFlags.contains flags TcpFlags.SYN = true ->
  is_u32 (rcv_wnd t) -> is_u16 (local_mss t) -> 0 <= rcv_scale t < 32 -> is_u8 (t_ttl t) ->
  wf_params (tcb_params t seq ack flags (encode_window (rcv_wnd t) 0) (syn_options t) []).
Proof.
  intros Hl Hr Hs Ha Hf Hsyn Hw Hm Hsc Httl. constructor; try done; cbn [tcb_params p_options
    p_flags p_payload p_window].
  - by apply encode_window_u16.
  - unfold syn_options, wf_options. cbn [o_mss o_window_scale o_timestamps o_sack_blocks].
    split_and!; try done.
    + by intros m [= <-].
    + intros w [= <-]. unfold is_u8. lia.
    + intros v e [= <- <-]. unfold is_u32. lia.
  - unfold syn_options. rewrite syn_options_len by done. lia.
Qed.

Lemma ack_params_wf t seq ack w :
  wf_v4 (local (t_key t)) -> wf_v4 (remote (t_key t)) -> is_u32 seq -> is_u32 ack -> is_u16 w ->
  is_u8 (t_ttl t) -> wf_params (tcb_params t seq ack TcpFlags.ACK w options_default []).
Proof.
  intros Hl Hr Hs Ha Hw Httl. constructor; try done; cbn [tcb_params p_options p_flags p_payload].
  rewrite plain_options_len by done. lia.
Qed.

(** ** One step each *)

(** What a fresh TCB of either side says of itself. *)
Record opening (t : Tcb) (k : FourTuple) (cfg : EngineConfig) (h : handle_id) : Prop := {
  op_key : t_key t = k;
  op_handle : t_handle t = h;
  op_iss : is_u32 (iss t);
  op_nxt : snd_nxt t = SeqNum.add (iss t) 1;
  op_mss : local_mss t = cfg_local_mss cfg;
  op_scale : rcv_scale t = default_rcv_scale cfg;
  op_wnd : rcv_wnd t = default_rcv_wnd cfg;
  op_ttl : t_ttl t = 64 }.

Section Steps.

Context (siphash24 : Z -> Z -> list Z -> Z).

(** The client opens. *)
Lemma connect_opens e l r sm dm h hd s now :
  Z.of_nat (size (tcbs e)) < max_tcbs (config e) -> handles e !! h = Some hd ->
  exists e1 t, handle_connect siphash24 e l r sm dm h s now = Done (e1, [build_syn_frame t]) /\
    opening t (MkFourTuple l r) (config e) h /\ t_state t = SynSent /\
    t_src_mac t = sm /\ t_dst_mac t = dm /\
    tcbs e1 = <[MkFourTuple l r := t]> (tcbs e) /\
    handles e1 = <[h := set_state hd SynSent]> (handles e) /\
    pending_connects e1 = <[MkFourTuple l r := s]> (pending_connects e) /\
    events e1 = events e /\ config e1 = config e.
Proof.
  intros Hroom Hh. unfold handle_connect.
  destruct (Z.leb_spec (max_tcbs (config e)) (Z.of_nat (size (tcbs e)))); [lia|]. rewrite Hh.
  eexists _, _. split; [reflexivity|]. split; [|split_and!; reflexivity].
  constructor; try reflexivity. apply generate_range.
Qed.

(** The server answers a SYN. *)
Lemma syn_answered e seg k addr ls sm dm now mss scale :
  find_listener e (seg_dst seg) = Some addr -> listeners e !! addr = Some ls ->
  Z.of_nat (embryonic e (seg_dst seg) + length (completed ls)) < backlog ls ->
  Z.of_nat (size (tcbs e)) < max_tcbs (config e) ->
  o_mss (seg_options seg) = Some mss -> o_window_scale (seg_options seg) = Some scale -> 
  scale < 32 ->
  exists e1 t hd, handle_syn_macs siphash24 e seg k sm dm now = Done (e1, [build_syn_ack_frame t]) /\
    opening t k (config e) (next_handle e) /\ t_state t = SynReceived /\
    t_src_mac t = sm /\ t_dst_mac t = dm /\ rcv_nxt t = SeqNum.add (seg_seq seg) 1 /\
    peer_mss t = mss /\ snd_scale t = scale /\ 
    snd_wnd t = u32 (Z.shiftl (seg_window seg) scale) /\
    tcbs e1 = <[k := t]> (tcbs e) /\
    handles e1 = <[next_handle e := hd]> (handles e) /\ tcp_state hd = SynReceived /\
    listeners e1 = listeners e /\ events e1 = events e /\ config e1 = config e.
Proof.
  intros Hf Hl Hb Hroom Hm Hs Hsc. unfold handle_syn_macs. rewrite Hf, Hl.
  destruct (Z.leb_spec (backlog ls)
    (Z.of_nat (embryonic e (seg_dst seg) + length (completed ls)))); [lia|].
  destruct (Z.leb_spec (max_tcbs (config e)) (Z.of_nat (size (tcbs e)))); [lia|].
  unfold passive_tcb, shl32. rewrite Hm, Hs. destruct (Z.ltb_spec scale 32); [|lia].
  rewrite !obind_Done. cbv beta zeta.
  set (hd := set_state (handle_new _ _ _ _) _). 
  assert (tcp_state hd = SynReceived) as Hhd by apply tcp_state_set_state. clearbody hd.
  eexists _, _, hd. split; [reflexivity|]. split; [|split_and!; try reflexivity; assumption].
  constructor; try reflexivity. apply generate_range.
Qed.

(** The client completes the handshake. *)
Lemma syn_ack_completes e seg k t hd s mss scale :
  tcbs e !! k = Some t -> handles e !! t_handle t = Some hd ->
  pending_connects e !! k = Some s -> seg_ack seg = SeqNum.add (iss t) 1 ->
  o_mss (seg_options seg) = Some mss -> o_window_scale (seg_options seg) = Some scale ->
  scale < 32 ->
  exists e1 t',
    handle_syn_ack e seg k = Done (e1, [tcb_params t' (snd_nxt t') (rcv_nxt t') TcpFlags.ACK
      (encode_window (rcv_wnd t') (rcv_scale t')) options_default []]) /\
    (t_key t', t_handle t', iss t', snd_nxt t', local_mss t', rcv_scale t', rcv_wnd t', t_ttl t')
      = (t_key t, t_handle t, iss t, snd_nxt t, local_mss t, rcv_scale t, rcv_wnd t, t_ttl t) /\
    (t_src_mac t', t_dst_mac t') = (t_src_mac t, t_dst_mac t) /\
    t_state t' = Established /\ snd_una t' = seg_ack seg /\
    rcv_nxt t' = SeqNum.add (seg_seq seg) 1 /\ peer_mss t' = mss /\ snd_scale t' = scale /\
    snd_wnd t' = u32 (Z.shiftl (seg_window seg) scale) /\
    tcbs e1 !! k = Some t' /\
    (exists hd', handles e1 !! t_handle t' = Some hd' /\ tcp_state hd' = Established) /\
    pending_connects e1 !! k = None /\
    events e1 = events e ++ [EvWake (t_handle t) NotifyAll; EvConnect s (Ok k)].
Proof.
  intros Ht Hh Hp Hack Hm Hs Hsc. unfold handle_syn_ack, get_conn. rewrite Ht, Hh. cbn [obind].
  rewrite Hack, Z.eqb_refl. cbn [negb]. unfold syn_ack_conn, shl32. rewrite Hm, Hs.
  destruct (Z.ltb_spec scale 32); [|lia]. rewrite !obind_Done. cbv beta zeta.
  match goal with |- context [put_conn e k ?c] => set (c' := c) end.
  assert (pending_connects (put_conn e k c') = pending_connects e) as -> by reflexivity.
  rewrite Hp. eexists _, (c_tcb c'). split; [reflexivity|].
  split_and!; try reflexivity.
  - exact Hack.
  - unfold emit, put_conn, publish. rsimpl. apply lookup_insert_eq.
  - exists (c_handle c'). split; [|apply tcp_state_set_state].
    unfold emit, put_conn, publish. rsimpl. apply lookup_insert_eq.
  - unfold emit, put_conn, publish. rsimpl. apply lookup_delete_eq.
  - unfold emit, put_conn, publish. rsimpl. rewrite <- app_assoc. reflexivity.
Qed.

(** The server completes the handshake. *)
Lemma ack_completes e seg k t hd :
  tcbs e !! k = Some t -> handles e !! t_handle t = Some hd -> t_state t = SynReceived ->
  seg_ack seg = SeqNum.add (iss t) 1 ->
  exists e1 e2 t',
    handle_ack_for_syn_received e seg k = Done (e2, []) /\
    e2 = deliver_accept e1 k (t_handle t) (local (t_key t)) /\
    (t_key t', t_handle t', iss t', snd_nxt t', rcv_nxt t', local_mss t', peer_mss t')
      = (t_key t, t_handle t, iss t, snd_nxt t, rcv_nxt t, local_mss t, peer_mss t) /\
    (rcv_scale t', snd_scale t', rcv_wnd t', t_src_mac t', t_dst_mac t')
      = (rcv_scale t, snd_scale t, rcv_wnd t, t_src_mac t, t_dst_mac t) /\
    t_state t' = Established /\ snd_una t' = seg_ack seg /\
    tcbs e1 !! k = Some t' /\
    (exists hd', handles e1 !! t_handle t' = Some hd' /\ tcp_state hd' = Established) /\
    listeners e1 = listeners e /\ events e1 = events e ++ [EvWake (t_handle t) NotifyAll].
Proof.
  intros Ht Hh Hst Hack. unfold handle_ack_for_syn_received, get_conn. rewrite Ht, Hh. cbn [obind].
  cbn [c_tcb]. rewrite bool_decide_true by done. cbn [negb]. rewrite Hack, Z.eqb_refl.
  cbn [negb]. cbv zeta. match goal with |- context [put_conn e k ?c] => set (c' := c) end.
  exists (put_conn e k c'). eexists _, (c_tcb c').
  split; [reflexivity|]. split; [reflexivity|]. split_and!; try reflexivity.
  - unfold put_conn, publish. rsimpl. apply lookup_insert_eq.
  - exists (c_handle c'). split; [|apply tcp_state_set_state].
    unfold put_conn, publish. rsimpl. apply lookup_insert_eq.
Qed.

Lemma deliver_accept_tables e k h a :
  tcbs (deliver_accept e k h a) = tcbs e /\ handles (deliver_accept e k h a) = handles e.
Proof.
  unfold deliver_accept. destruct (find_listener e a) as [b|]; [|done].
  destruct (listeners e !! b); [|done]. destruct (vec_pop _) as [[]|]; done.
Qed.

(** The application of the listener [ls] at [addr] of the engine [e]: [e2] is what the engine is after
    it handed over the connection [c].  The accept call that waits last is answered; without one the
    connection is kept, and the next accept call gets it. *)
Definition accepted (e e2 : TcpEngine) (addr : SocketAddr) (ls : ListenState) (c : FourTuple * handle_id) : Prop :=
  (forall waiting s, accept_queue ls = waiting ++ [s] ->
     events e2 = events e ++ [EvWake c.2 NotifyAll; EvAccept s (Ok c)] /\
     listeners e2 = <[addr := MkListen (backlog ls) waiting (completed ls)]> (listeners e)) /\
  (accept_queue ls = [] ->
     events e2 = events e ++ [EvWake c.2 NotifyAll] /\
     listeners e2 = <[addr := MkListen (backlog ls) [] (completed ls ++ [c])]> (listeners e) /\
     forall s, events (handle_accept e2 addr s) = events e2 ++ [EvAccept s (Ok c)]).

Lemma vec_pop_snoc {A} (l : list A) x : vec_pop (l ++ [x]) = Some (x, l).
Proof.
  unfold vec_pop. rewrite last_snoc, length_app. cbn [length]. rewrite Nat.add_sub.
  by rewrite take_app_length.
Qed.

Lemma deliver_accepts e e1 k h a addr ls :
  find_listener e a = Some addr -> listeners e !! addr = Some ls -> listeners e1 = listeners e ->
  events e1 = events e ++ [EvWake h NotifyAll] -> accepted e (deliver_accept e1 k h a) addr ls (k, h).
Proof.
  intros Hf Hl El Ee. assert (find_listener e1 a = Some addr) as Hf1 by (rewrite <- Hf; unfold find_listener; by rewrite El).
  unfold deliver_accept. rewrite Hf1, El, Hl. split.
  - intros waiting s Hq. rewrite Hq, vec_pop_snoc. unfold emit. rsimpl. rewrite Ee, <- app_assoc. done.
  - intros Hq. rewrite Hq. change (vec_pop (@nil sender)) with (@None (sender * list sender)). cbv iota beta. rsimpl.
    rewrite Ee. split; [done|]. assert (ls <| completed := completed ls ++ [(k, h)] |> = MkListen (backlog ls) [] (completed ls ++ [(k, h)])) as ->
      by (rewrite <- Hq; done).
    split; [done|]. intros s. unfold handle_accept. rsimpl. rewrite lookup_insert_eq. cbn [completed]. rewrite vec_pop_snoc.
    unfold emit. rsimpl. by rewrite Ee.
Qed.

End Steps.

(** ** The handshake *)

(** Two ends of one connection that agree. *)
Record connected (tc ts : Tcb) : Prop := {
  cn_client : t_state tc = Established;
  cn_server : t_state ts = Established;
  cn_forward : snd_nxt tc = rcv_nxt ts /\ snd_una tc = snd_nxt tc;
  cn_backward : snd_nxt ts = rcv_nxt tc /\ snd_una ts = snd_nxt ts;
  cn_mss : effective_mss tc = effective_mss ts;
  cn_scale : snd_scale tc = rcv_scale ts /\ snd_scale ts = rcv_scale tc;
  cn_macs : t_src_mac tc = t_dst_mac ts /\ t_dst_mac tc = t_src_mac ts }.

(** Both ends published their state to the application. *)
Definition published (e : TcpEngine) (k : FourTuple) (t : Tcb) : Prop :=
  tcbs e !! k = Some t /\
  exists hd, handles e !! t_handle t = Some hd /\ tcp_state hd = t_state t.

Lemma existing_routed hash e seg t sm dm now :
  TcpFlags.contains (seg_flags seg) TcpFlags.RST = false ->
  tcbs e !! MkFourTuple (seg_dst seg) (seg_src seg) = Some t ->
  on_segment_with_macs hash e seg sm dm now
  = framed (handle_existing_tcb e seg (MkFourTuple (seg_dst seg) (seg_src seg)) now).
Proof.
  intros Hr Ht. unfold on_segment_with_macs, segment_step. rewrite Hr.
  rewrite bool_decide_true by (rewrite Ht; eauto). done.
Qed.

Lemma syn_routed hash e seg sm dm now :
  seg_flags seg = TcpFlags.SYN -> tcbs e !! MkFourTuple (seg_dst seg) (seg_src seg) = None ->
  on_segment_with_macs hash e seg sm dm now
  = framed (handle_syn_macs hash e seg (MkFourTuple (seg_dst seg) (seg_src seg)) dm sm now).
Proof.
  intros Hf Ht. unfold on_segment_with_macs, segment_step. rewrite Hf.
  rewrite bool_decide_false by (rewrite Ht; by intros [? ?]). done.
Qed.

Section Handshake.

(** Two hosts: each with its ISN hash, a valid configuration and room for a
    connection; the client's handle exists and the server listens. *)
Context (hash_c hash_s : Z -> Z -> list Z -> Z) (client server : TcpEngine).
Context (l r : SocketAddr) (sm dm : Mac) (h : handle_id) (hd : ConnectionHandle) (resp : sender).
Context (addr : SocketAddr) (ls : ListenState) (now0 now1 now2 now3 : Z).
Context (Hl : wf_v4 l) (Hr : wf_v4 r).
Context (Hcc : config_ok (config client)) (Hcs : config_ok (config server)).
Context (Hroom_c : Z.of_nat (size (tcbs client)) < max_tcbs (config client)).
Context (Hroom_s : Z.of_nat (size (tcbs server)) < max_tcbs (config server)).
Context (Hhandle : handles client !! h = Some hd).
Context (Hnew : tcbs server !! MkFourTuple r l = None).
Context (Hlisten : find_listener server r = Some addr) (Hls : listeners server !! addr = Some ls).
Context (Hbacklog : Z.of_nat (embryonic server r + length (completed ls)) < backlog ls).

(** Between the SYN and the SYN-ACK: both TCBs exist. *)
Record half_open (client1 server1 : TcpEngine) (t0 t1 : Tcb) (hd1 : ConnectionHandle) : Prop := {
  ho_client : opening t0 (MkFourTuple l r) (config client) h;
  ho_server : opening t1 (MkFourTuple r l) (config server) (next_handle server);
  ho_states : t_state t0 = SynSent /\ t_state t1 = SynReceived;
  ho_macs : t_src_mac t0 = sm /\ t_dst_mac t0 = dm /\ t_src_mac t1 = dm /\ t_dst_mac t1 = sm;
  ho_seq : rcv_nxt t1 = snd_nxt t0;
  ho_mss : peer_mss t1 = local_mss t0;
  ho_scale : snd_scale t1 = rcv_scale t0;
  ho_tcb0 : tcbs client1 !! MkFourTuple l r = Some t0;
  ho_tcb1 : tcbs server1 !! MkFourTuple r l = Some t1;
  ho_hd0 : handles client1 !! t_handle t0 = Some (set_state hd SynSent);
  ho_hd1 : handles server1 !! t_handle t1 = Some hd1;
  ho_pending : pending_connects client1 !! MkFourTuple l r = Some resp;
  ho_events : events client1 = events client;
  ho_events_s : events server1 = events server;
  ho_listeners : listeners server1 = listeners server }.

Lemma open_half_way :
  exists client1 server1 syn t0 t1 hd1,
    on_command hash_c client (CmdConnect l r sm dm h resp) now0 = Done (client1, [syn]) /\
    rx_frame hash_s server syn now1 = framed (Done (server1, [build_syn_ack_frame t1])) /\
    half_open client1 server1 t0 t1 hd1.
Proof.
  destruct Hcc as [Cm Cs Cw].
  destruct (connect_opens hash_c client l r sm dm h hd resp now0 Hroom_c Hhandle)
    as (c1 & t0 & Ec & Op0 & St0 & Sm0 & Dm0 & Tb0 & Hd0 & Pd0 & Ev0 & Cf0).
  pose proof Op0 as [K0 H0 I0 N0 M0 S0 W0 T0].
  destruct (built_frame_received (build_syn_frame t0)) as (syn & Bsyn & Rsyn).
  { apply syn_params_wf; rewrite ?K0, ?M0, ?S0, ?W0, ?T0; done. }
  pose (seg0 := segment_of (build_syn_frame t0)).
  assert (MkFourTuple (seg_dst seg0) (seg_src seg0) = MkFourTuple r l) as Hk0
    by (cbn; by rewrite K0).
  assert (seg_dst seg0 = r) as Hdst0 by (cbn; by rewrite K0).
  destruct (syn_answered hash_s server seg0 (MkFourTuple r l) addr ls dm sm now1
              (local_mss t0) (rcv_scale t0))
    as (s1 & t1 & hd1 & Es & Op1 & St1 & Sm1 & Dm1 & Rn1 & Pm1 & Sc1 & _ &
        Tb1 & Hd1 & _ & Ls1 & Ev1 & _); rewrite ?Hdst0; try done.
  { rewrite S0. lia. }
  exists c1, s1, syn, t0, t1, hd1. split; [|split].
  - unfold on_command, command_step. rewrite Ec. by apply framed_one.
  - rewrite Rsyn, syn_routed; fold seg0; rewrite ?Hk0; try done. f_equal. rewrite <- Es.
    f_equal; done.
  - constructor; try done.
    + rewrite N0. exact Rn1.
    + rewrite Tb0. apply lookup_insert_eq.
    + rewrite Tb1. apply lookup_insert_eq.
    + rewrite H0, Hd0. apply lookup_insert_eq.
    + rewrite (op_handle _ _ _ _ Op1), Hd1. apply lookup_insert_eq.
    + rewrite Pd0. apply lookup_insert_eq.
Qed.

(** The frame with which the client acknowledges the SYN-ACK. *)
Definition third_ack (t : Tcb) : TcpFrameParams :=
  tcb_params t (snd_nxt t) (rcv_nxt t) TcpFlags.ACK (encode_window (rcv_wnd t) (rcv_scale t))
    options_default [].

(** The client's TCB once it is established. *)
Record client_open (client2 : TcpEngine) (t0 t1 tc : Tcb) : Prop := {
  co_tcb : published client2 (MkFourTuple l r) tc;
  co_state : t_state tc = Established;
  co_same : (t_key tc, snd_nxt tc, local_mss tc, rcv_scale tc, rcv_wnd tc, t_ttl tc)
            = (t_key t0, snd_nxt t0, local_mss t0, rcv_scale t0, rcv_wnd t0, t_ttl t0);
  co_macs : t_src_mac tc = sm /\ t_dst_mac tc = dm;
  co_acked : snd_una tc = snd_nxt tc;
  co_rcv : rcv_nxt tc = snd_nxt t1;
  co_mss : peer_mss tc = local_mss t1;
  co_scale : snd_scale tc = rcv_scale t1;
  co_wnd : snd_wnd tc = u32 (Z.shiftl (Z.min (rcv_wnd t1) U16_MAX) (rcv_scale t1));
  co_events : events client2
    = events client ++ [EvWake h NotifyAll; EvConnect resp (Ok (MkFourTuple l r))] }.

Lemma client_completes client1 server1 t0 t1 hd1 :
  half_open client1 server1 t0 t1 hd1 ->
  exists syn_ack client2 tc,
    framed (Done (server1, [build_syn_ack_frame t1])) = Done (server1, [syn_ack]) /\
    rx_frame hash_c client1 syn_ack now2 = framed (Done (client2, [third_ack tc])) /\
    client_open client2 t0 t1 tc.
Proof.
  intros [[K0 H0 I0 N0 M0 S0 W0 T0] [K1 H1 I1 N1 M1 S1 W1 T1] [St0 St1] (Sm0 & Dm0 & _) Rn1 Pm1
    Sc1 Tb0 Tb1 Hd0 Hd1 Pd Ev0 Evs Ls1].
  destruct Hcs as [Sm Ss Sw].
  destruct (built_frame_received (build_syn_ack_frame t1)) as (syn_ack & Bsa & Rsa).
  { apply syn_params_wf; rewrite ?K1, ?M1, ?S1, ?W1, ?T1; try done.
    rewrite Rn1, N0. apply u32_range. }
  pose (seg1 := segment_of (build_syn_ack_frame t1)).
  assert (MkFourTuple (seg_dst seg1) (seg_src seg1) = MkFourTuple l r) as Hk1
    by (cbn; by rewrite K1).
  destruct (syn_ack_completes client1 seg1 (MkFourTuple l r) t0 (set_state hd SynSent) resp
              (local_mss t1) (rcv_scale t1))
    as (c2 & tc & Ea & F1 & F2 & Stc & Uc & Rc & Pc & Scc & Wc & Lc2 & Hc2 & _ & Ev2); try done.
  { cbn. by rewrite Rn1. }
  { rewrite S1. lia. }
  injection F1 as Fk Fh Fi Fn Fm Fs Fw Ft. injection F2 as Fsm Fdm.
  exists syn_ack, c2, tc. split; [by apply framed_one|]. split.
  - rewrite Rsa, (existing_routed _ _ _ t0); fold seg1; rewrite ?Hk1; [|done..].
    unfold handle_existing_tcb. rewrite Tb0, St0.
    change (TcpFlags.contains _ _ && TcpFlags.contains _ _) with true. cbv iota. by rewrite Ea.
  - constructor; try done; try congruence.
    + split; [done|]. by rewrite Stc.
    + split; congruence.
    + rewrite Uc, Fn. cbn. exact Rn1.
    + rewrite Rc, N1. done.
Qed.

Lemma server_completes client1 server1 client2 t0 t1 tc hd1 :
  half_open client1 server1 t0 t1 hd1 -> client_open client2 t0 t1 tc ->
  exists ack server2 ts,
    framed (Done (client2, [third_ack tc])) = Done (client2, [ack]) /\
    rx_frame hash_s server1 ack now3 = Done (server2, []) /\
    connected tc ts /\ published server2 (MkFourTuple r l) ts /\
    t_handle ts = next_handle server /\
    accepted server server2 addr ls (MkFourTuple r l, t_handle ts) /\
    (rcv_wnd ts, rcv_scale ts) = (rcv_wnd t1, rcv_scale t1).
Proof.
  intros [[K0 H0 I0 N0 M0 S0 W0 T0] [K1 H1 I1 N1 M1 S1 W1 T1] [St0 St1] (_ & _ & Sm1 & Dm1) Rn1
    Pm1 Sc1 Tb0 Tb1 Hd0 Hd1 Pd Ev0 Evs Ls1] [Pt Stc Same [Mc1 Mc2] Ua Rc Pc Scc Wc Ev].
  injection Same as Fk Fn Fm Fs Fw Ft.
  destruct (built_frame_received (third_ack tc)) as (ack & Back & Rack).
  { apply ack_params_wf; rewrite ?Fk, ?K0, ?Fn, ?N0, ?Rc, ?N1, ?Fw, ?W0, ?Ft, ?T0;
      try done; try apply u32_range. apply encode_window_u16, Hcc. }
  pose (seg2 := segment_of (third_ack tc)).
  assert (MkFourTuple (seg_dst seg2) (seg_src seg2) = MkFourTuple r l) as Hk2
    by (cbn; by rewrite Fk, K0).
  destruct (ack_completes server1 seg2 (MkFourTuple r l) t1 hd1)
    as (s1' & s2 & ts & Eb & Edel & G1 & G2 & Sts & Us & Ls2 & Hs2 & Lis2 & Ev3); try done.
  { cbn. by rewrite Rc. }
  injection G1 as Gk Gh Gi Gn Gr Gm Gp. injection G2 as Gs Gsc Grw Gsm Gdm.
  exists ack, s2, ts. split; [by apply framed_one|]. split_and!.
  - rewrite Rack, (existing_routed _ _ _ t1); fold seg2; rewrite ?Hk2; [|done..].
    unfold handle_existing_tcb. rewrite Tb1, St1.
    change (TcpFlags.contains _ _ && negb _) with true. cbv iota. by rewrite Eb.
  - constructor; try done; try (split; congruence).
    + split; [congruence|]. rewrite Us. cbn. congruence.
    + unfold effective_mss. rewrite Fm, Pc, Gm, Gp, Pm1. apply Z.min_comm.
  - rewrite Edel. unfold published. rewrite (proj1 (deliver_accept_tables _ _ _ _)),
      (proj2 (deliver_accept_tables _ _ _ _)), Sts. done.
  - congruence.
  - rewrite Edel, Gh, K1. apply deliver_accepts; [done|done|congruence|congruence].
  - congruence.
Qed.

Lemma handshake_completes :
  exists client1 server1 client2 server2 syn syn_ack ack t0 t1 tc ts hd1,
    on_command hash_c client (CmdConnect l r sm dm h resp) now0 = Done (client1, [syn]) /\
    rx_frame hash_s server syn now1 = Done (server1, [syn_ack]) /\
    rx_frame hash_c client1 syn_ack now2 = Done (client2, [ack]) /\
    rx_frame hash_s server1 ack now3 = Done (server2, []) /\
    half_open client1 server1 t0 t1 hd1 /\ client_open client2 t0 t1 tc /\
    connected tc ts /\ published server2 (MkFourTuple r l) ts /\
    t_handle ts = next_handle server /\
    accepted server server2 addr ls (MkFourTuple r l, t_handle ts) /\
    (rcv_wnd ts, rcv_scale ts) = (rcv_wnd t1, rcv_scale t1).
Proof.
  destruct open_half_way as (c1 & s1 & syn & t0 & t1 & hd1 & E1 & E2 & Ho).
  destruct (client_completes _ _ _ _ _ Ho) as (syn_ack & c2 & tc & E3 & E4 & Co).
  destruct (server_completes _ _ _ _ _ _ _ Ho Co)
    as (ack & s2 & ts & E5 & E6 & Hcn & Hp & Hd & Hl' & Hw).
  exists c1, s1, c2, s2, syn, syn_ack, ack, t0, t1, tc, ts, hd1.
  rewrite E2, E4, E3. split_and!; done.
Qed.

(** C5: the three-way handshake works over the wire: a connect command on one
    engine and a listener on another, with the bytes of each frame handed to the other
    side's receive path, take exactly SYN, SYN-ACK and ACK to two ESTABLISHED
    TCBs that agree on sequence numbers, MSS, window scales and MAC addresses;
    both handles publish the state and the connecting thread is answered.  The server's application is
    answered too: an accept call that waits at the listener gets the connection
    (the one that came last, which is taken out of the queue); if none waits the connection is
    kept and the next accept call at the listener returns it.  The hypotheses: IPv4 addresses, room for a TCB
    on both sides, the client's handle exists, no TCB of the server has the four-tuple, and the backlog of the listener is not used up. *)
Theorem handshake_over_the_wire :
  exists client1 server1 client2 server2 syn syn_ack ack tc ts,
    on_command hash_c client (CmdConnect l r sm dm h resp) now0 = Done (client1, [syn]) /\
    rx_frame hash_s server syn now1 = Done (server1, [syn_ack]) /\
    rx_frame hash_c client1 syn_ack now2 = Done (client2, [ack]) /\
    rx_frame hash_s server1 ack now3 = Done (server2, []) /\
    connected tc ts /\ published client2 (MkFourTuple l r) tc /\
    published server2 (MkFourTuple r l) ts /\
    events client2 = events client ++ [EvWake h NotifyAll; EvConnect resp (Ok (MkFourTuple l r))] /\
    t_handle ts = next_handle server /\
    accepted server server2 addr ls (MkFourTuple r l, t_handle ts).
Proof.
  destruct handshake_completes as (c1 & s1 & c2 & s2 & syn & syn_ack & ack & t0 & t1 & tc &
    ts & hd1 & E1 & E2 & E3 & E4 & Ho & Co & Hcn & Hp & Hd & Hl' & Hw).
  exists c1, s1, c2, s2, syn, syn_ack, ack, tc, ts. destruct Co. split_and!; done.
Qed.

(** The window of a SYN is scaled, although the SYN carries it unscaled:
    after the handshake the client believes the server's receive window is
    2^scale times what the server advertised (RFC 7323, section 2.2, exempts the
    window of a SYN from scaling). *)
Theorem syn_window_scaled_twice :
  exists client1 server1 client2 ack syn syn_ack tc,
    on_command hash_c client (CmdConnect l r sm dm h resp) now0 = Done (client1, [syn]) /\
    rx_frame hash_s server syn now1 = Done (server1, [syn_ack]) /\
    rx_frame hash_c client1 syn_ack now2 = Done (client2, [ack]) /\
    tcbs client2 !! MkFourTuple l r = Some tc /\
    snd_wnd tc = u32 (Z.min (default_rcv_wnd (config server)) U16_MAX
                      * 2 ^ default_rcv_scale (config server)).
Proof.
  destruct handshake_completes as (c1 & s1 & c2 & s2 & syn & syn_ack & ack & t0 & t1 & tc &
    ts & hd1 & E1 & E2 & E3 & E4 & Ho & Co & _).
  exists c1, s1, c2, ack, syn, syn_ack, tc. split_and!; try done.
  - apply Co.
  - destruct Ho as [_ [_ _ _ _ _ S1 W1 _] _ _ _ _ _ _ _ _ _ _ _ _ _].
    rewrite (co_wnd _ _ _ _ Co), W1, S1. rewrite Z.shiftl_mul_pow2; [done|]. apply Hcs.
Qed.

End Handshake.

(** ** A concrete handshake *)

Definition demo_listen : SocketAddr := V4 (MkIpv4 10 0 0 1) 80.

Definition demo_server : TcpEngine :=
  run_start <| listeners := {[ demo_listen := MkListen 16 [] [] ]} |>.

Lemma config_default_ok : config_ok config_default.
Proof. constructor; cbn; unfold is_u16, is_u32; lia. Qed.

Lemma demo_addr_ok : wf_v4 (local run_key) /\ wf_v4 (remote run_key).
Proof. split; vm_compute; split_and!; done. Qed.

Lemma handshake_over_the_wire_witness :
  exists client2 server2 tc ts, connected tc ts /\ published client2 run_key tc /\
    published server2 (MkFourTuple (remote run_key) (local run_key)) ts /\
    events (handle_accept server2 demo_listen 3%nat) =
      events server2 ++ [EvAccept 3%nat (Ok (MkFourTuple (remote run_key) (local run_key), t_handle ts))].
Proof.
  destruct (handshake_over_the_wire run_hash run_hash run_handle demo_server
    (local run_key) (remote run_key) (MkMac 2 0 0 0 0 2) (MkMac 2 0 0 0 0 1) 0%nat
    (handle_new 16 16 true run_key) 7%nat demo_listen (MkListen 16 [] []) 5 6 7 8
    (proj1 demo_addr_ok) (proj2 demo_addr_ok) config_default_ok config_default_ok
    ltac:(reflexivity) ltac:(reflexivity) ltac:(reflexivity) ltac:(reflexivity)
    ltac:(reflexivity) ltac:(reflexivity) ltac:(reflexivity))
    as (c1 & s1 & c2 & s2 & syn & syn_ack & ack & tc & ts & _ & _ & _ & _ & H1 & H2 & H3 & _ & _ & H4).
  exists c2, s2, tc, ts. destruct (proj2 H4 eq_refl) as (_ & _ & H5). exact (conj H1 (conj H2 (conj H3 (H5 3%nat)))).
Defined.

Lemma syn_window_scaled_twice_witness :
  exists client2 tc, tcbs client2 !! run_key = Some tc /\ snd_wnd tc = 65535 * 128.
Proof.
  destruct (syn_window_scaled_twice run_hash run_hash run_handle demo_server
    (local run_key) (remote run_key) (MkMac 2 0 0 0 0 2) (MkMac 2 0 0 0 0 1) 0%nat
    (handle_new 16 16 true run_key) 7%nat demo_listen (MkListen 16 [] []) 5 6 7 8
    (proj1 demo_addr_ok) (proj2 demo_addr_ok) config_default_ok config_default_ok
    ltac:(reflexivity) ltac:(reflexivity) ltac:(reflexivity) ltac:(reflexivity)
    ltac:(reflexivity) ltac:(reflexivity) ltac:(reflexivity))
    as (c1 & s1 & c2 & ack & syn & syn_ack & tc & _ & _ & _ & H1 & H2).
  exists c2, tc. exact (conj H1 H2).
Defined.
