(* ===== verification/Teardown.v ===== *)
(** * Closing a connection over the wire

    The four-way close between two engines that exchange frames as bytes: each
    side shuts down, each FIN is acknowledged, the passive side frees its TCB and
    the active side ends in TIME_WAIT. *)

From stdpp Require Import base numbers list gmap.
From Stdlib Require Import ZArith Lia.
From S2P Require Import Prelude Seq State Codec CodecOptions CodecFrames Ring Congestion.
From S2P Require Import Contract Tcb Conn Engine EngineRx EngineTx EngineLife EngineInv.
From S2P Require Import Runtime Handshake.

#[local] Open Scope Z_scope.

(** ** A connection with nothing in flight *)

(** Every byte is acknowledged, both buffers towards the peer are empty, and the
    fields that go into frames have their widths. *)
Record quiet (k : FourTuple) (c : conn) : Prop := {
  q_key : t_key (c_tcb c) = k;
  q_local : wf_v4 (local k);
  q_remote : wf_v4 (remote k);
  q_nxt : is_u32 (snd_nxt (c_tcb c));
  q_una : is_u32 (snd_una (c_tcb c));
  q_rcv : is_u32 (rcv_nxt (c_tcb c));
  q_buf : send_buf (c_tcb c) = [];
  q_queue : retransmit_queue (c_tcb c) = [];
  q_tx : SpscByteRing.wf (tx_ring (c_handle c));
  q_tx_empty : SpscByteRing.contents (tx_ring (c_handle c)) = [];
  q_rx : SpscByteRing.wf (rx_ring (c_handle c));
  q_wnd : 0 <= rcv_wnd (c_tcb c);
  q_rscale : 0 <= rcv_scale (c_tcb c) < 32;
  q_sscale : snd_scale (c_tcb c) < 32;
  q_ttl : is_u8 (t_ttl (c_tcb c)) }.

Lemma window_u16 t h :
  SpscByteRing.wf (rx_ring h) -> 0 <= rcv_scale t < 32 -> 0 <= rcv_wnd t ->
  exists w, encode_established_window t h = Done w /\ is_u16 w.
Proof.
  intros Hwf Hs Hw. destruct (window_total t h Hwf (proj2 Hs)) as [w Ew]. exists w. split; [done|].
  unfold encode_established_window, shr32 in Ew.
  destruct (SpscByteRing.available_write _) as [free| |]; cbn [obind] in Ew; [|done..].
  destruct (rcv_scale t <? 32); cbn [obind] in Ew; [|done]. injection Ew as <-.
  set (v := if _ <? _ then 0 else Z.min (u32 free) (rcv_wnd t)).
  assert (0 <= v) by (subst v; destruct (_ <? _); pose proof (u32_range free);
                      unfold is_u32 in *; lia).
  assert (0 <= Z.shiftr v (rcv_scale t)) by (by apply Z.shiftr_nonneg).
  unfold is_u16, U16_MAX. lia.
Qed.

(** A control segment of a quiet connection. *)
Lemma quiet_segment k c flags :
  quiet k c -> is_u8 flags -> TcpFlags.contains flags TcpFlags.SYN = false ->
  exists p, segment_params c (snd_nxt (c_tcb c)) flags [] = Done p /\ wf_params p /\
    segment_of p = MkSegment (local k) (remote k) (snd_nxt (c_tcb c)) (rcv_nxt (c_tcb c)) flags
                     (p_window p) options_default [].
Proof.
  intros H Hf Hsyn. unfold segment_params.
  destruct (window_u16 (c_tcb c) (c_handle c)) as (w & -> & Hw); [apply H..|].
  rewrite obind_Done. eexists. split; [reflexivity|]. split.
  - constructor; cbn [tcb_params p_src p_dst p_seq p_ack p_window p_flags p_ttl p_payload p_options];
      rewrite ?(q_key _ _ H); try done; try apply H.
    + rewrite plain_options_len by done. lia.
    + unfold zlen. rewrite plain_options_len by done. cbn. lia.
  - unfold segment_of. cbn [tcb_params p_src p_dst p_seq p_ack p_window p_flags p_options p_payload].
    rewrite (q_key _ _ H). unfold effective_options. rewrite Hsyn. reflexivity.
Qed.

(** What the close handlers leave alone. *)
Definition identity (c : conn) :=
  (t_key (c_tcb c), t_handle (c_tcb c), (t_src_mac (c_tcb c), t_dst_mac (c_tcb c)),
   send_buf (c_tcb c), retransmit_queue (c_tcb c),
   (rcv_wnd (c_tcb c), rcv_scale (c_tcb c), snd_scale (c_tcb c), t_ttl (c_tcb c))).

Lemma quiet_step k c c' :
  quiet k c -> identity c' = identity c ->
  is_u32 (snd_nxt (c_tcb c')) -> is_u32 (snd_una (c_tcb c')) -> is_u32 (rcv_nxt (c_tcb c')) ->
  SpscByteRing.wf (tx_ring (c_handle c')) -> SpscByteRing.contents (tx_ring (c_handle c')) = [] ->
  SpscByteRing.wf (rx_ring (c_handle c')) -> quiet k c'.
Proof.
  intros [] [=]. constructor; try done; try congruence; try lia.
Qed.

(** ** The steps *)

Definition FIN_ACK : Z := TcpFlags.union TcpFlags.FIN TcpFlags.ACK.

(** The outcome of one step: the connection in state [s] with these sequence
    numbers, its handle telling so. *)
Record closing_step (k : FourTuple) (c c' : conn) (s : TcpState) (nxt una rcv : SeqNum.t) : Prop := {
  cl_quiet : quiet k c';
  cl_identity : identity c' = identity c;
  cl_state : t_state (c_tcb c') = s;
  cl_published : tcp_state (c_handle c') = s;
  cl_nxt : snd_nxt (c_tcb c') = nxt;
  cl_una : snd_una (c_tcb c') = una;
  cl_rcv : rcv_nxt (c_tcb c') = rcv }.

(** Draining an empty ring. *)
Lemma quiet_drain k c :
  quiet k c ->
  exists c', drain_tx_ring (c <| c_tcb := (c_tcb c) <| fin_pending := true |> |>) = Done c' /\
    quiet k c' /\ identity c' = identity c /\
    (t_state (c_tcb c'), snd_nxt (c_tcb c'), snd_una (c_tcb c'), rcv_nxt (c_tcb c'))
    = (t_state (c_tcb c), snd_nxt (c_tcb c), snd_una (c_tcb c), rcv_nxt (c_tcb c)).
Proof.
  intros H. unfold drain_tx_ring. rsimpl.
  destruct (drain_tx_spec (Z.to_nat (SpscByteRing.available_read (tx_ring (c_handle c))))
    (c_handle c) (send_buf (c_tcb c)) (replicate DRAIN_BUF_LEN 0)) as (r & -> & Hwf & Hc).
  - apply H.
  - rewrite length_replicate. unfold DRAIN_BUF_LEN. lia.
  - pose proof (SpscByteRing.available_range _ (q_tx _ _ H)). lia.
  - rewrite obind_Done, (q_buf _ _ H), (q_tx_empty _ _ H). cbn [app]. eexists.
    split; [reflexivity|]. split; [|split; [|reflexivity]].
    + apply (quiet_step k c); rsimpl; try done; try apply H.
      unfold identity. rsimpl. by rewrite (q_buf _ _ H).
    + unfold identity. rsimpl. by rewrite (q_buf _ _ H).
Qed.

(** The states in which a FIN goes out, and where it leads. *)
Definition sends_fin (s s' : TcpState) : Prop :=
  (s = Established /\ s' = FinWait1) \/ (s = CloseWait /\ s' = LastAck).

Lemma send_fin_quiet k c now s :
  quiet k c -> sends_fin (t_state (c_tcb c)) s ->
  exists c' p w, send_fin c now = Done (c', [p]) /\ wf_params p /\
    segment_of p = MkSegment (local k) (remote k) (snd_nxt (c_tcb c)) (rcv_nxt (c_tcb c)) FIN_ACK w
                     options_default [] /\
    closing_step k c c' s (SeqNum.add (snd_nxt (c_tcb c)) 1) (snd_una (c_tcb c)) (rcv_nxt (c_tcb c)).
Proof.
  intros H Hst. set (c2 := c <| c_tcb := (c_tcb c) <| fin_pending := false |> |>).
  assert (quiet k c2) as H2 by (apply (quiet_step k c); subst c2; rsimpl; try apply H; done).
  destruct (quiet_segment k c2 FIN_ACK H2) as (p & Ep & Hp & Hseg); [done|done|].
  change (snd_nxt (c_tcb c2)) with (snd_nxt (c_tcb c)) in Ep.
  assert (send_fin c now = let! frame := segment_params c2 (snd_nxt (c_tcb c)) FIN_ACK [] in
    let t := (c_tcb c2) <| snd_nxt := SeqNum.add (snd_nxt (c_tcb c)) 1 |> <| t_state := s |> in
    let t := match rto_deadline t with
             | None => t <| rto_deadline := Some (now + Congestion.rto (congestion t)) |>
             | Some _ => t
             end in
    Done (c2 <| c_tcb := t |> <| c_handle := set_state (c_handle c2) s |>, [frame])) as ->.
  { unfold send_fin. fold c2. change (t_state (c_tcb c2)) with (t_state (c_tcb c)).
    destruct Hst as [[-> ->]|[-> ->]]; reflexivity. }
  rewrite Ep, obind_Done. cbv zeta.
  match goal with |- exists c' p w, Done (?d, _) = _ /\ _ => set (c3 := d) end.
  exists c3, p, (p_window p). split; [reflexivity|]. split; [done|]. split; [done|].
  assert (identity c3 = identity c2 /\ t_state (c_tcb c3) = s /\
    snd_nxt (c_tcb c3) = SeqNum.add (snd_nxt (c_tcb c)) 1 /\
    snd_una (c_tcb c3) = snd_una (c_tcb c) /\ rcv_nxt (c_tcb c3) = rcv_nxt (c_tcb c))
    as (I3 & S3 & N3 & U3 & R3)
    by (subst c3; rsimpl; destruct (rto_deadline _); split_and!; reflexivity).
  constructor; [|rewrite I3; reflexivity|exact S3|apply tcp_state_set_state|done..].
  apply (quiet_step k c2); [exact H2|exact I3|rewrite N3; apply u32_range|rewrite U3; apply H
    |rewrite R3; apply H|apply H2|apply H2|apply H2].
Qed.

(** A shutdown with nothing left to send puts the FIN out at once. *)
Lemma fin_sent k c now s :
  quiet k c -> sends_fin (t_state (c_tcb c)) s ->
  exists c' p w, shutdown_conn c ShutWrite now = Done (c', [p]) /\ wf_params p /\
    segment_of p = MkSegment (local k) (remote k) (snd_nxt (c_tcb c)) (rcv_nxt (c_tcb c)) FIN_ACK w
                     options_default [] /\
    closing_step k c c' s (SeqNum.add (snd_nxt (c_tcb c)) 1) (snd_una (c_tcb c)) (rcv_nxt (c_tcb c)).
Proof.
  intros H Hst. destruct (quiet_drain k c H) as (c1 & Ed & H1 & Hid & Hseq).
  injection Hseq as Es En Eu Er.
  destruct (send_fin_quiet k c1 now s H1) as (c3 & p & w & Ef & Hp & Hseg & Hcl);
    [by rewrite Es|]. rewrite En, Er in Hseg. rewrite En, Eu, Er in Hcl.
  exists c3, p, w. split; [|split; [done|split; [done|]]].
  - assert (unsent_in_buf (c_tcb c1) = 0%nat) as Hun
      by (unfold unsent_in_buf; by rewrite (q_buf _ _ H1)).
    unfold shutdown_conn. cbv zeta. rewrite Ed, !obind_Done, Hun, Ef.
    destruct Hst as [[-> _]|[-> _]]; reflexivity.
  - destruct Hcl. constructor; congruence.
Qed.

(** Updating the send window touches nothing else. *)
Lemma update_window_keeps k c seg :
  quiet k c ->
  exists t, update_send_window (c_tcb c) seg = Done t /\
    identity (c <| c_tcb := t |>) = identity c /\
    (t_state t, snd_nxt t, snd_una t, rcv_nxt t)
    = (t_state (c_tcb c), snd_nxt (c_tcb c), snd_una (c_tcb c), rcv_nxt (c_tcb c)).
Proof.
  intros H. unfold update_send_window, shl32. pose proof (q_sscale _ _ H).
  destruct (_ || _); [|exists (c_tcb c); split; [done|split; reflexivity]].
  destruct (Z.ltb_spec (snd_scale (c_tcb c)) 32); [|lia]. rewrite obind_Done.
  eexists. split; [reflexivity|]. split; reflexivity.
Qed.

Lemma gt_irrefl a : SeqNum.gt a a = false.
Proof. unfold SeqNum.gt, SeqNum.lt, wsub32. by rewrite Z.sub_diag. Qed.

Lemma add_zero a : is_u32 a -> SeqNum.add a (u32 0) = a.
Proof. unfold SeqNum.add. wrap_lia. Qed.

(** The connection [c'] after the peer's FIN was consumed acknowledges it. *)
Lemma fin_acknowledged k c c' s :
  quiet k c -> identity c' = identity c ->
  (snd_nxt (c_tcb c'), snd_una (c_tcb c')) = (snd_nxt (c_tcb c), snd_una (c_tcb c)) ->
  rcv_nxt (c_tcb c') = SeqNum.add (rcv_nxt (c_tcb c)) 1 ->
  t_state (c_tcb c') = s -> tcp_state (c_handle c') = s ->
  (tx_ring (c_handle c'), rx_ring (c_handle c')) = (tx_ring (c_handle c), rx_ring (c_handle c)) ->
  exists p w, build_ack_for_tcb c' = Done p /\ wf_params p /\
    segment_of p = MkSegment (local k) (remote k) (snd_nxt (c_tcb c))
                     (SeqNum.add (rcv_nxt (c_tcb c)) 1) TcpFlags.ACK w options_default [] /\
    closing_step k c c' s (snd_nxt (c_tcb c)) (snd_una (c_tcb c)) (SeqNum.add (rcv_nxt (c_tcb c)) 1).
Proof.
  intros H Hid [= En Eu] Er Es Hp [= Et Ex].
  assert (quiet k c') as H'.
  { apply (quiet_step k c); try done; rewrite ?En, ?Eu, ?Er, ?Et, ?Ex; try apply H.
    apply u32_range. }
  destruct (quiet_segment k c' TcpFlags.ACK H') as (p & Ep & Hwf & Hseg); [done|done|].
  exists p, (p_window p). rewrite En, Er in Hseg. split; [exact Ep|]. split_and!; [done|done|].
  by constructor.
Qed.

(** The peer's FIN in ESTABLISHED. *)
Lemma fin_received k c now w :
  quiet k c -> t_state (c_tcb c) = Established -> snd_una (c_tcb c) = snd_nxt (c_tcb c) ->
  let seg := MkSegment (remote k) (local k) (rcv_nxt (c_tcb c)) (snd_nxt (c_tcb c)) FIN_ACK w
               options_default [] in
  exists c' p w', handle_established c seg now = Done (c', [p]) /\ wf_params p /\
    segment_of p = MkSegment (local k) (remote k) (snd_nxt (c_tcb c))
                     (SeqNum.add (rcv_nxt (c_tcb c)) 1) TcpFlags.ACK w' options_default [] /\
    closing_step k c c' CloseWait (snd_nxt (c_tcb c)) (snd_nxt (c_tcb c))
      (SeqNum.add (rcv_nxt (c_tcb c)) 1) /\ eof (c_handle c') = true.
Proof.
  intros H Hst Hu seg. destruct (update_window_keeps k c seg H) as (t & Et & Hid & Hseq).
  injection Hseq as Es En Eu Er.
  assert (ack_is_new (c_tcb c) (seg_ack seg) = false) as Hold.
  { unfold ack_is_new. cbn [seg seg_ack]. rewrite Hu. by rewrite gt_irrefl. }
  unfold handle_established. change (TcpFlags.contains (seg_flags seg) TcpFlags.ACK) with true.
  change (TcpFlags.contains (seg_flags seg) TcpFlags.FIN) with true. cbv iota.
  unfold established_ack. rewrite Hold. cbv zeta. rewrite Et, !obind_Done.
  cbn [seg seg_payload]. rewrite obind_Done. unfold established_fin. rsimpl.
  cbn [seg seg_seq seg_payload]. rewrite Er, (@zlen_nil Z), add_zero, Z.eqb_refl by apply H.
  match goal with |- context [build_ack_for_tcb ?d] => set (c3 := d) end.
  destruct (fin_acknowledged k c c3 CloseWait) as (p & w' & -> & Hwf & Hseg & Hcl); try done.
  - rewrite <- En, <- Eu. reflexivity.
  - rewrite obind_Done. rewrite Hu in Hcl. exists c3, p, w'. split_and!; done.
Qed.

(** The ACK of our FIN in FIN_WAIT_1. *)
Lemma fin_ack_received k c now w :
  quiet k c -> t_state (c_tcb c) = FinWait1 ->
  snd_nxt (c_tcb c) = SeqNum.add (snd_una (c_tcb c)) 1 ->
  let seg := MkSegment (remote k) (local k) (rcv_nxt (c_tcb c)) (snd_nxt (c_tcb c)) TcpFlags.ACK w
               options_default [] in
  exists c', handle_fin_wait_1 c seg now = Done (c', []) /\
    closing_step k c c' FinWait2 (snd_nxt (c_tcb c)) (snd_nxt (c_tcb c)) (rcv_nxt (c_tcb c)) /\
    fin_wait2_deadline (c_tcb c') = Some (now + FIN_WAIT2_TIMEOUT).
Proof.
  intros H Hst Hn seg.
  assert (ack_is_new (c_tcb c) (seg_ack seg) = true) as Hnew.
  { unfold ack_is_new, SeqNum.le. cbn [seg seg_ack]. rewrite Z.eqb_refl.
    pose proof (q_una _ _ H). rewrite Hn.
    unfold SeqNum.gt, SeqNum.lt, SeqNum.add. rewrite !andb_true_iff, negb_true_iff, Z.eqb_neq, Z.ltb_lt.
    change (Z.shiftl 1 31) with 2147483648. split; [|by rewrite orb_true_l]. wrap_lia. }
  unfold handle_fin_wait_1. change (TcpFlags.contains (seg_flags seg) TcpFlags.ACK) with true.
  change (TcpFlags.contains (seg_flags seg) TcpFlags.FIN) with false. rewrite Hnew.
  cbn [andb seg seg_ack seg_payload]. cbv zeta. rewrite obind_Done.
  set (c1 := c <| c_tcb := closing_new_ack (c_tcb c) (snd_nxt (c_tcb c)) |>).
  assert (identity c1 = identity c) as Hid.
  { unfold identity. subst c1. unfold closing_new_ack. rsimpl. by rewrite (q_queue _ _ H). }
  change (snd_nxt (c_tcb c1)) with (snd_nxt (c_tcb c)). rewrite Z.eqb_refl.
  eexists. split; [reflexivity|]. split; [|reflexivity]. constructor; try reflexivity.
  - apply (quiet_step k c); try apply H. rewrite <- Hid. reflexivity.
  - rewrite <- Hid. reflexivity.
Qed.

(** The peer's FIN in FIN_WAIT_2. *)
Lemma last_fin_received k c now w :
  quiet k c -> t_state (c_tcb c) = FinWait2 -> 
  let seg := MkSegment (remote k) (local k) (rcv_nxt (c_tcb c)) (snd_nxt (c_tcb c)) FIN_ACK w
               options_default [] in
  exists c' p w', handle_fin_wait_2 c seg now = Done (c', [p]) /\ wf_params p /\
    segment_of p = MkSegment (local k) (remote k) (snd_nxt (c_tcb c))
                     (SeqNum.add (rcv_nxt (c_tcb c)) 1) TcpFlags.ACK w' options_default [] /\
    closing_step k c c' TimeWait (snd_nxt (c_tcb c)) (snd_una (c_tcb c))
      (SeqNum.add (rcv_nxt (c_tcb c)) 1) /\ eof (c_handle c') = true /\
    time_wait_deadline (c_tcb c') = Some (now + TIME_WAIT_DURATION).
Proof.
  intros H Hst seg. unfold handle_fin_wait_2. cbn [seg seg_payload]. rewrite obind_Done.
  change (TcpFlags.contains (seg_flags seg) TcpFlags.FIN) with true. cbn [seg seg_seq seg_payload].
  rewrite (@zlen_nil Z), add_zero, Z.eqb_refl by apply H. cbn [andb]. cbv zeta.
  match goal with |- context [build_ack_for_tcb ?d] => set (c3 := d) end.
  destruct (fin_acknowledged k c c3 TimeWait) as (p & w' & -> & Hwf & Hseg & Hcl); try done.
  rewrite obind_Done. exists c3, p, w'. split_and!; done.
Qed.

(** ** The engines *)

(** The connection [c] of the engine [e], as a handler finds it. *)
Definition has_conn (e : TcpEngine) (k : FourTuple) (c : conn) : Prop :=
  tcbs e !! k = Some (c_tcb c) /\ handles e !! t_handle (c_tcb c) = Some (c_handle c) /\
  c_wakes c = [].

Definition at_rest (c : conn) : conn := MkConn (c_tcb c) (c_handle c) [].

Lemma has_conn_get e k c : has_conn e k c -> get_conn e k = Done (Some c).
Proof.
  intros (Ht & Hh & Hw). unfold get_conn. rewrite Ht, Hh. destruct c. cbn in *. by subst.
Qed.

Lemma has_conn_put e k c : has_conn (put_conn e k c) k (at_rest c).
Proof.
  unfold has_conn, put_conn, publish. rsimpl. cbn [at_rest c_tcb c_handle c_wakes].
  rewrite !lookup_insert_eq. done.
Qed.

Lemma quiet_rest k c : quiet k c -> quiet k (at_rest c).
Proof. intros []. constructor; done. Qed.

Lemma closing_rest k c c' s nxt una rcv :
  closing_step k c c' s nxt una rcv -> closing_step k c (at_rest c') s nxt una rcv.
Proof. intros []. constructor; try done. by apply quiet_rest. Qed.

(** A shutdown command on a connection with nothing to send. *)
Lemma shutdown_command hash e k c now s :
  has_conn e k c -> quiet k c -> sends_fin (t_state (c_tcb c)) s ->
  exists e' c' f w, on_command hash e (CmdShutdown k ShutWrite) now = Done (e', [f]) /\
    has_conn e' k c' /\
    closing_step k c c' s (SeqNum.add (snd_nxt (c_tcb c)) 1) (snd_una (c_tcb c)) (rcv_nxt (c_tcb c)) /\
    forall hash' e0 now', exists sm dm, rx_frame hash' e0 f now'
      = on_segment_with_macs hash' e0 (MkSegment (local k) (remote k) (snd_nxt (c_tcb c))
          (rcv_nxt (c_tcb c)) FIN_ACK w options_default []) sm dm now'.
Proof.
  intros Hc Hq Hs. destruct (fin_sent k c now s Hq Hs) as (c' & p & w & Ef & Hwf & Hseg & Hcl).
  destruct (built_frame_received p Hwf) as (f & Bf & Rf).
  exists (put_conn e k c'), (at_rest c'), f, w. split_and!.
  - unfold on_command, command_step, handle_shutdown, with_conn.
    rewrite (has_conn_get e k c Hc), obind_Done, Ef, obind_Done. by apply framed_one.
  - apply has_conn_put.
  - by apply closing_rest.
  - intros hash' e0 now'. eexists _, _. rewrite Rf, Hseg. reflexivity.
Qed.

(** A segment for the connection goes to its handler. *)
Lemma routed_to_conn hash e k c seg sm dm now f c' out :
  has_conn e k c -> seg_src seg = remote k -> seg_dst seg = local k ->
  TcpFlags.contains (seg_flags seg) TcpFlags.RST = false ->
  handle_existing_tcb e seg k now = with_conn e k f -> f c = Done (c', out) ->
  on_segment_with_macs hash e seg sm dm now = framed (Done (put_conn e k c', out)).
Proof.
  intros Hc Hs Hd Hr Hh Hf.
  assert (MkFourTuple (seg_dst seg) (seg_src seg) = k) as Hk by (rewrite Hs, Hd; by destruct k).
  rewrite (existing_routed _ _ _ (c_tcb c)); [|done|rewrite Hk; apply Hc].
  rewrite Hk, Hh. unfold with_conn. by rewrite (has_conn_get e k c Hc), obind_Done, Hf.
Qed.

(** A handler that acknowledges, and the frame of its ACK. *)
Lemma acknowledged hash e k c seg sm dm now f c' p :
  has_conn e k c -> seg_src seg = remote k -> seg_dst seg = local k ->
  TcpFlags.contains (seg_flags seg) TcpFlags.RST = false ->
  handle_existing_tcb e seg k now = with_conn e k f -> f c = Done (c', [p]) -> wf_params p ->
  exists e' fr, on_segment_with_macs hash e seg sm dm now = Done (e', [fr]) /\
    has_conn e' k (at_rest c') /\
    forall hash' e0 now', exists sm' dm', rx_frame hash' e0 fr now'
      = on_segment_with_macs hash' e0 (segment_of p) sm' dm' now'.
Proof.
  intros Hc Hs Hd Hr Hh Hf Hwf. destruct (built_frame_received p Hwf) as (fr & Bf & Rf).
  exists (put_conn e k c'), fr. split_and!.
  - rewrite (routed_to_conn hash e k c seg sm dm now f c' [p]); try done. by apply framed_one.
  - apply has_conn_put.
  - intros hash' e0 now'. rewrite Rf. eauto.
Qed.

Section Close.

(** An idle established connection between two engines. *)
Context (hash_c hash_s : Z -> Z -> list Z -> Z) (client server : TcpEngine).
Context (l r : SocketAddr) (cc cs : conn) (now0 now1 now2 now3 now4 now5 : Z).
Let kc := MkFourTuple l r.
Let ks := MkFourTuple r l.
Context (Hcc : has_conn client kc cc) (Hcs : has_conn server ks cs).
Context (Qc : quiet kc cc) (Qs : quiet ks cs).
Context (Hcn : connected (c_tcb cc) (c_tcb cs)).

(** The client's half: FIN, ACK. *)
Record half_closed (client2 server1 : TcpEngine) (c2 s1 : conn) : Prop := {
  hc_client : has_conn client2 kc c2;
  hc_server : has_conn server1 ks s1;
  hc_c2 : closing_step kc cc c2 FinWait2 (SeqNum.add (snd_nxt (c_tcb cc)) 1)
            (SeqNum.add (snd_nxt (c_tcb cc)) 1) (rcv_nxt (c_tcb cc));
  hc_s1 : closing_step ks cs s1 CloseWait (snd_nxt (c_tcb cs)) (snd_nxt (c_tcb cs))
            (SeqNum.add (rcv_nxt (c_tcb cs)) 1);
  hc_eof : eof (c_handle s1) = true }.

Lemma client_closes :
  exists client1 client2 server1 fin ack c2 s1,
    on_command hash_c client (CmdShutdown kc ShutWrite) now0 = Done (client1, [fin]) /\
    rx_frame hash_s server fin now1 = Done (server1, [ack]) /\
    rx_frame hash_c client1 ack now2 = Done (client2, []) /\
    half_closed client2 server1 c2 s1.
Proof.
  destruct Hcn as [Sc Ss [F1 F2] [B1 B2] _ _ _].
  destruct (shutdown_command hash_c client kc cc now0 FinWait1 Hcc Qc) as
    (client1 & c1 & fin & w & E1 & H1 & L1 & R1); [by left|].
  destruct (fin_received ks cs now1 w Qs Ss B2) as (s1 & p & w' & E2 & Wp & Sp & L2 & Eof).
  destruct (R1 hash_s server now1) as (sm & dm & Rs). rewrite F1, <- B1 in Rs.
  match type of E2 with handle_established _ ?sg _ = _ => set (seg1 := sg) in E2 end.
  change (rx_frame hash_s server fin now1 = on_segment_with_macs hash_s server seg1 sm dm now1) in Rs.
  destruct (acknowledged hash_s server ks cs seg1 sm dm now1
    (fun c => handle_established c seg1 now1) s1 p Hcs eq_refl eq_refl eq_refl ltac:(unfold handle_existing_tcb; by rewrite (proj1 Hcs), Ss)
    E2 Wp) as (server1 & ack & E3 & H2 & R2).
  destruct L1 as [Q1 I1 S1 P1 N1 U1 V1].
  destruct (fin_ack_received kc c1 now2 w' Q1 S1) as (c2 & E4 & L4 & _); [by rewrite N1, U1, F2|].
  destruct (R2 hash_c client1 now2) as (sm' & dm' & Rc). rewrite Sp, B1, <- F1, <- N1, <- V1 in Rc.
  exists client1, (put_conn client1 kc c2), server1, fin, ack, (at_rest c2), (at_rest s1).
  split_and!; [done|by rewrite Rs| |].
  - match type of E4 with handle_fin_wait_1 _ ?sg _ = _ => set (seg2 := sg) in E4 end.
    change (rx_frame hash_c client1 ack now2
            = on_segment_with_macs hash_c client1 seg2 sm' dm' now2) in Rc.
    rewrite Rc, (routed_to_conn hash_c client1 kc c1 seg2 sm' dm' now2
      (fun c => handle_fin_wait_1 c seg2 now2) c2 [] H1 eq_refl eq_refl eq_refl
      ltac:(unfold handle_existing_tcb; by rewrite (proj1 H1), S1) E4). done.
  - constructor; [apply has_conn_put|done| |by apply closing_rest|done].
    apply closing_rest. destruct L4. constructor; congruence.
Qed.

(** The server's half: FIN, ACK, and the TCB is gone. *)
Lemma server_closes client2 server1 c2 s1 :
  half_closed client2 server1 c2 s1 ->
  exists client3 server2 server3 fin ack c3,
    on_command hash_s server1 (CmdShutdown ks ShutWrite) now3 = Done (server2, [fin]) /\
    rx_frame hash_c client2 fin now4 = Done (client3, [ack]) /\
    rx_frame hash_s server2 ack now5 = Done (server3, []) /\
    has_conn client3 kc c3 /\ t_state (c_tcb c3) = TimeWait /\
    tcp_state (c_handle c3) = TimeWait /\ eof (c_handle c3) = true /\
    time_wait_deadline (c_tcb c3) = Some (now4 + TIME_WAIT_DURATION) /\
    tcbs server3 !! ks = None /\
    exists h, handles server3 !! t_handle (c_tcb cs) = Some h /\ tcp_state h = Closed.
Proof.
  intros [Hc2 Hs1 [Q2 I2 S2 P2 N2 U2 V2] [Q1 I1 S1 P1 N1 U1 V1] _].
  destruct Hcn as [_ _ [F1 F2] [B1 B2] _ _ _].
  destruct (shutdown_command hash_s server1 ks s1 now3 LastAck Hs1 Q1) as
    (server2 & s2 & fin & w & E1 & H1 & L1 & R1); [by right|].
  destruct (last_fin_received kc c2 now4 w Q2 S2) as (c3 & p & w' & E2 & Wp & Sp & L2 & Eof & Tw).
  destruct (R1 hash_c client2 now4) as (sm & dm & Rc).
  rewrite N1, V1, B1, <- F1, <- N2, <- V2 in Rc.
  match type of E2 with handle_fin_wait_2 _ ?sg _ = _ => set (seg1 := sg) in E2 end.
  change (rx_frame hash_c client2 fin now4
          = on_segment_with_macs hash_c client2 seg1 sm dm now4) in Rc.
  destruct (acknowledged hash_c client2 kc c2 seg1 sm dm now4
    (fun c => handle_fin_wait_2 c seg1 now4) c3 p Hc2 eq_refl eq_refl eq_refl ltac:(unfold handle_existing_tcb; by rewrite (proj1 Hc2), S2)
    E2 Wp) as (client3 & ack & E3 & H2 & R2).
  destruct L1 as [Q3 I3 S3 P3 N3 U3 V3]. destruct L2 as [_ _ S4 P4 _ _ _].
  destruct (R2 hash_s server2 now5) as (sm' & dm' & Rs).
  set (gone := close_handle s2 None false).
  exists client3, server2, (remove_conn server2 ks gone), fin, ack, (at_rest c3).
  split_and!; try done; [by rewrite Rc| |apply removed_key|].
  - rewrite Rs, (existing_routed _ _ _ (c_tcb s2)); rewrite Sp; try apply H1; [|done].
    unfold handle_existing_tcb. cbn [seg_dst seg_src]. change (MkFourTuple _ _) with ks.
    rewrite (proj1 H1), S3. unfold handle_last_ack. rewrite (has_conn_get server2 ks s2 H1).
    rewrite obind_Done. cbn [seg_flags seg_ack]. rewrite V2, <- B1, <- N1, <- N3, Z.eqb_refl. done.
  - exists (c_handle gone). split; [|apply tcp_state_set_state].
    injection I1 as _ I1. injection I3 as _ I3. unfold remove_conn, publish. rsimpl.
    change (t_handle (c_tcb gone)) with (t_handle (c_tcb s2)). rewrite <- I1, <- I3.
    apply lookup_insert_eq.
Qed.

(** C6: the four-way close works over the wire: when both applications of an
    idle connection shut down, FIN, ACK, FIN and ACK (as bytes) take the passive
    side's TCB out of its table with the handle CLOSED, and the active side to
    TIME_WAIT with its deadline two minutes later; both applications see
    end-of-file. *)
Theorem close_over_the_wire :
  exists client1 client2 client3 server1 server2 server3 fin ack fin' ack' s1 c3,
    on_command hash_c client (CmdShutdown kc ShutWrite) now0 = Done (client1, [fin]) /\
    rx_frame hash_s server fin now1 = Done (server1, [ack]) /\
    rx_frame hash_c client1 ack now2 = Done (client2, []) /\
    has_conn server1 ks s1 /\ t_state (c_tcb s1) = CloseWait /\ eof (c_handle s1) = true /\
    on_command hash_s server1 (CmdShutdown ks ShutWrite) now3 = Done (server2, [fin']) /\
    rx_frame hash_c client2 fin' now4 = Done (client3, [ack']) /\
    rx_frame hash_s server2 ack' now5 = Done (server3, []) /\
    has_conn client3 kc c3 /\ t_state (c_tcb c3) = TimeWait /\ eof (c_handle c3) = true /\
    time_wait_deadline (c_tcb c3) = Some (now4 + TIME_WAIT_DURATION) /\
    tcbs server3 !! ks = None /\
    exists h, handles server3 !! t_handle (c_tcb cs) = Some h /\ tcp_state h = Closed.
Proof.
  destruct client_closes as (client1 & client2 & server1 & fin & ack & c2 & s1 & A1 & A2 & A3 & Hh).
  destruct (server_closes client2 server1 c2 s1 Hh) as
    (client3 & server2 & server3 & fin' & ack' & c3 & B1 & B2 & B3 & B4 & B5 & _ & B7 & B8 & B9 & B10).
  exists client1, client2, client3, server1, server2, server3, fin, ack, fin', ack', s1, c3.
  destruct Hh as [_ Hs1 _ Ls1 Es1]. pose proof (cl_state _ _ _ _ _ _ _ Ls1). split_and!; done.
Qed.

End Close.

(** ** A concrete close *)

Definition demo_handle (k : FourTuple) : ConnectionHandle :=
  set_state (handle_new 16 16 true k) Established.

Definition demo_side (k : FourTuple) (nxt rcv : Z) (sm dm : Mac) : conn :=
  MkConn ((tcb_new k nxt 1460 0%nat sm dm) <| t_state := Established |> <| rcv_nxt := rcv |>
            <| rcv_wnd := 65535 |> <| snd_wnd := 65535 |>) (demo_handle k) [].

Definition demo_engine (k : FourTuple) (c : conn) : TcpEngine :=
  run_start <| tcbs := {[ k := c_tcb c ]} |> <| handles := {[ 0%nat := c_handle c ]} |>.

Definition demo_back : FourTuple := MkFourTuple (remote run_key) (local run_key).

Definition demo_c : conn := demo_side run_key 4294967295 70 (MkMac 2 0 0 0 0 2) (MkMac 2 0 0 0 0 1).

Definition demo_s : conn := demo_side demo_back 70 4294967295 (MkMac 2 0 0 0 0 1) (MkMac 2 0 0 0 0 2).

Lemma demo_side_quiet k nxt rcv sm dm :
  wf_v4 (local k) -> wf_v4 (remote k) -> is_u32 nxt -> is_u32 rcv ->
  quiet k (demo_side k nxt rcv sm dm).
Proof.
  intros Hl Hr Hn Hv. destruct (SpscByteRing.new_spec 16 ltac:(lia)) as (Hwf & _ & Hnil).
  constructor; try done.
Qed.

Lemma close_over_the_wire_witness :
  exists server3, tcbs server3 !! demo_back = None /\
    exists h, handles server3 !! 0%nat = Some h /\ tcp_state h = Closed.
Proof.
  destruct (close_over_the_wire run_hash run_hash (demo_engine run_key demo_c)
    (demo_engine demo_back demo_s) (local run_key) (remote run_key) demo_c demo_s 1 2 3 4 5 6
    ltac:(done) ltac:(done)
    (demo_side_quiet run_key 4294967295 70 _ _ (proj1 demo_addr_ok) (proj2 demo_addr_ok)
       ltac:(by vm_compute) ltac:(by vm_compute))
    (demo_side_quiet demo_back 70 4294967295 _ _ (proj2 demo_addr_ok) (proj1 demo_addr_ok)
       ltac:(by vm_compute) ltac:(by vm_compute))
    ltac:(constructor; done))
    as (_ & _ & _ & _ & _ & server3 & _ & _ & _ & _ & _ & _ & _ & _ & _ & _ & _ & _ & _ & _ & _ &
        _ & _ & _ & _ & Hn & Hh).
  exists server3. exact (conj Hn Hh).
Defined.
