(* ===== verification/Stream.v ===== *)
(** * Blocking reads (dpdk-stdlib-tcp/src/stream.rs, split.rs, tcp_stream.rs)

    [DpdkTcpStream::read] and the engine share a handle: the reader looks at the
    error slot, the receive ring and the end-of-file flag, and parks on the
    condition variable under [notify_lock]; the engine changes the handle without
    that lock and then calls [notify_all], which takes it.  The two threads
    interleave at every access of the shared state (ring operations are single
    steps here; their own interleavings are the subject of [RingConc]). *)

From stdpp Require Import base numbers list gmap.
From Stdlib Require Import ZArith Lia Relations.
From S2P Require Import Prelude Seq State Ring Contract.

#[local] Open Scope Z_scope.

(** ** The two threads *)

(** Where the reader is in [read]. *)
Inductive rpc : Type :=
| RCheckError
| RTryRead
| RCheckEof
| RLock
| RRecheckRing
| RRecheckEof
| RRecheckError
| RParked
| RWoken
| RDone (r : result Z ErrorKind).

(** The engine owes a [notify_all] once it has changed the handle; in it, it
    holds [notify_lock]. *)
Inductive epc : Type := EIdle | EPending | ELocked.

Inductive side : Type := Reader | EngineSide.

Record rsys := MkRsys {
  r_handle : ConnectionHandle;
  r_buf : list Z;
  r_pc : rpc;
  r_lock : option side;
  r_engine : epc;
  r_sent : list Z;
  r_got : list Z }.

#[global] Instance eta_rsys : Eta rsys := fun s =>
  MkRsys (r_handle s) (r_buf s) (r_pc s) (r_lock s) (r_engine s) (r_sent s) (r_got s).

#[global] Instance set_r_handle : FieldSetter r_handle := ltac:(derive_setter r_handle).
#[global] Instance set_r_buf : FieldSetter r_buf := ltac:(derive_setter r_buf).
#[global] Instance set_r_pc : FieldSetter r_pc := ltac:(derive_setter r_pc).
#[global] Instance set_r_lock : FieldSetter r_lock := ltac:(derive_setter r_lock).
#[global] Instance set_r_engine : FieldSetter r_engine := ltac:(derive_setter r_engine).
#[global] Instance set_r_sent : FieldSetter r_sent := ltac:(derive_setter r_sent).
#[global] Instance set_r_got : FieldSetter r_got := ltac:(derive_setter r_got).

(** What ends the reader's wait. *)
Definition ready (h : ConnectionHandle) : Prop :=
  0 < SpscByteRing.available_read (rx_ring h) \/ eof h = true \/ error h <> None.

Section Read.

(** The stream's settings: non-blocking mode, and whether a read timeout is set. *)
Context (nonblocking timed : bool).

(** The steps of [read]. *)
Inductive read_step (s : rsys) : rsys -> Prop :=
| read_call buf r :
    r_pc s = RDone r -> read_step s (s <| r_buf := buf |> <| r_pc := RCheckError |>)
| read_error e :
    r_pc s = RCheckError -> peek_error (r_handle s) = Some e ->
    read_step s (s <| r_pc := RDone (Err (error_kind e)) |>)
| read_no_error :
    r_pc s = RCheckError -> peek_error (r_handle s) = None ->
    read_step s (s <| r_pc := RTryRead |>)
| read_some ring buf n :
    r_pc s = RTryRead -> SpscByteRing.read (rx_ring (r_handle s)) (r_buf s) = Done (ring, buf, n) ->
    0 < n ->
    read_step s (s <| r_handle := (r_handle s) <| rx_ring := ring |> |> <| r_buf := buf |>
                   <| r_got := r_got s ++ take (Z.to_nat n) buf |> <| r_pc := RDone (Ok n) |>)
| read_none ring buf :
    r_pc s = RTryRead -> SpscByteRing.read (rx_ring (r_handle s)) (r_buf s) = Done (ring, buf, 0) ->
    read_step s (s <| r_pc := RCheckEof |>)
| read_eof :
    r_pc s = RCheckEof -> eof (r_handle s) = true -> read_step s (s <| r_pc := RDone (Ok 0) |>)
| read_would_block :
    r_pc s = RCheckEof -> eof (r_handle s) = false -> nonblocking = true ->
    read_step s (s <| r_pc := RDone (Err KWouldBlock) |>)
| read_wants_lock :
    r_pc s = RCheckEof -> eof (r_handle s) = false -> nonblocking = false ->
    read_step s (s <| r_pc := RLock |>)
| read_locks :
    r_pc s = RLock -> r_lock s = None ->
    read_step s (s <| r_lock := Some Reader |> <| r_pc := RRecheckRing |>)
| recheck_ring_hit :
    r_pc s = RRecheckRing -> 0 < SpscByteRing.available_read (rx_ring (r_handle s)) ->
    read_step s (s <| r_lock := None |> <| r_pc := RCheckError |>)
| recheck_ring_miss :
    r_pc s = RRecheckRing -> SpscByteRing.available_read (rx_ring (r_handle s)) <= 0 ->
    read_step s (s <| r_pc := RRecheckEof |>)
| recheck_eof_hit :
    r_pc s = RRecheckEof -> eof (r_handle s) = true ->
    read_step s (s <| r_lock := None |> <| r_pc := RCheckError |>)
| recheck_eof_miss :
    r_pc s = RRecheckEof -> eof (r_handle s) = false -> read_step s (s <| r_pc := RRecheckError |>)
| recheck_error_hit :
    r_pc s = RRecheckError -> error (r_handle s) <> None ->
    read_step s (s <| r_lock := None |> <| r_pc := RCheckError |>)
| read_parks :
    r_pc s = RRecheckError -> error (r_handle s) = None ->
    read_step s (s <| r_lock := None |> <| r_pc := RParked |>)
| read_timed_out :
    r_pc s = RRecheckError -> error (r_handle s) = None -> timed = true ->
    read_step s (s <| r_lock := None |> <| r_pc := RDone (Err KTimedOut) |>)
| read_wakes_alone :
    r_pc s = RParked -> read_step s (s <| r_pc := RWoken |>)
| read_relocks :
    r_pc s = RWoken -> r_lock s = None -> read_step s (s <| r_pc := RCheckError |>).

(** The steps of the engine thread on the handle.  The order of its accesses is taken from engine.rs, where the handlers that
    write the ring, the end-of-file flag or the error slot of a handle call [notify_all] on it afterwards; the
    engine owes a notification from the write on. *)
Inductive feed_step (s : rsys) : rsys -> Prop :=
| feed_data data ring w :
    r_engine s <> ELocked -> SpscByteRing.write (rx_ring (r_handle s)) data = Done (ring, w) ->
    feed_step s (s <| r_handle := (r_handle s) <| rx_ring := ring |> |>
                   <| r_sent := r_sent s ++ take (Z.to_nat w) data |> <| r_engine := EPending |>)
| feed_eof :
    r_engine s <> ELocked ->
    feed_step s (s <| r_handle := set_eof (r_handle s) |> <| r_engine := EPending |>)
| feed_error e :
    r_engine s <> ELocked ->
    feed_step s (s <| r_handle := latch_error (r_handle s) e |> <| r_engine := EPending |>)
| notify_locks :
    r_engine s = EPending -> r_lock s = None ->
    feed_step s (s <| r_lock := Some EngineSide |> <| r_engine := ELocked |>)
| notify_wakes :
    r_engine s = ELocked ->
    feed_step s (s <| r_lock := None |> <| r_engine := EIdle |>
                   <| r_pc := match r_pc s with RParked => RWoken | pc => pc end |>).

Definition step (s s' : rsys) : Prop := read_step s s' \/ feed_step s s'.

(** A new handle with an empty receive ring; the application has not read yet. *)
Definition start (h : ConnectionHandle) : rsys := MkRsys h [] (RDone (Ok 0)) None EIdle [] [].

Definition fresh (h : ConnectionHandle) : Prop :=
  SpscByteRing.wf (rx_ring h) /\ SpscByteRing.contents (rx_ring h) = [].

Inductive reachable_read : rsys -> Prop :=
| reach_start h : fresh h -> reachable_read (start h)
| reach_read s s' : reachable_read s -> step s s' -> reachable_read s'.

(** ** Invariant *)

(** What the reader, having checked it under the lock, has missed since. *)
Definition missed (h : ConnectionHandle) (pc : rpc) : Prop :=
  match pc with
  | RRecheckEof => 0 < SpscByteRing.available_read (rx_ring h)
  | RRecheckError => 0 < SpscByteRing.available_read (rx_ring h) \/ eof h = true
  | RParked => ready h
  | _ => False
  end.

Definition holds_lock (pc : rpc) : bool :=
  match pc with RRecheckRing | RRecheckEof | RRecheckError => true | _ => false end.

Record read_inv (s : rsys) : Prop := {
  ri_wf : SpscByteRing.wf (rx_ring (r_handle s));
  ri_stream : r_sent s = r_got s ++ SpscByteRing.contents (rx_ring (r_handle s));
  ri_lock : r_lock s = (if holds_lock (r_pc s) then Some Reader
                        else match r_engine s with ELocked => Some EngineSide | _ => None end);
  ri_exclusive : holds_lock (r_pc s) = true -> r_engine s <> ELocked;
  ri_owed : missed (r_handle s) (r_pc s) -> r_engine s <> EIdle }.

Lemma read_step_inv s s' : read_inv s -> read_step s s' -> read_inv s'.
Proof.
  intros [Hwf Hst Hlk Hex How] Hs.
  destruct Hs as [buf r Hpc|e Hpc He|Hpc He|ring buf n Hpc Hr Hn|ring buf Hpc Hr|Hpc He|Hpc He Hb
    |Hpc He Hb|Hpc Hl|Hpc Ha|Hpc Ha|Hpc He|Hpc He|Hpc He|Hpc He|Hpc He Ht|Hpc|Hpc Hl];
    rewrite Hpc in Hlk, Hex, How; cbn [holds_lock missed] in Hlk, Hex, How.
  4:{ destruct (SpscByteRing.read_spec (rx_ring (r_handle s)) (r_buf s) Hwf)
        as (r' & E & Hwf' & _ & Hc).
      rewrite E in Hr. injection Hr as -> <- <-.
      pose proof (SpscByteRing.available_contents _ Hwf) as Hav.
      constructor; rsimpl; try done. rewrite Hst, Hc, <- app_assoc. f_equal.
      rewrite take_app_le, take_take, Nat.min_id, take_drop; [done|].
      rewrite length_take. unfold zlen in *. lia. }
  all: constructor; rsimpl; cbn [holds_lock missed]; try done; try (intros; discriminate).
  all: try (by destruct (r_engine s); [..|destruct (Hex eq_refl)]).
  - intros _ E. rewrite E, Hl in Hlk. done.
  - lia.
  - intros [H|H]; [by apply How|congruence].
  - intros [H|[H|H]]; [by apply How; left|by apply How; right|done].
Qed.

(** The engine's changes only make the handle readier, and leave it owing. *)
Lemma feed_step_inv s s' : read_inv s -> feed_step s s' -> read_inv s'.
Proof.
  intros [Hwf Hst Hlk Hex How] Hs. destruct Hs as [data ring w He Hw|He|e He|He Hl|He].
  - destruct (SpscByteRing.write_spec (rx_ring (r_handle s)) data Hwf) as (r' & E & Hwf' & _ & Hc).
    rewrite E in Hw. injection Hw as -> <-. constructor; rsimpl; try done.
    + by rewrite Hst, Hc, <- app_assoc.
    + rewrite Hlk. destruct (holds_lock _), (r_engine s); done.
  - constructor; rsimpl; try done. rewrite Hlk. destruct (holds_lock _), (r_engine s); done.
  - assert (rx_ring (latch_error (r_handle s) e) = rx_ring (r_handle s)) as Er
      by (unfold latch_error; by destruct (error (r_handle s))).
    constructor; rsimpl; rewrite ?Er; try done.
    rewrite Hlk. destruct (holds_lock _), (r_engine s); done.
  - constructor; rsimpl; try done.
    + rewrite Hl in Hlk. destruct (holds_lock (r_pc s)); done.
    + intros H. rewrite H in Hlk. by rewrite Hl in Hlk.
  - rewrite He in Hlk. destruct (holds_lock (r_pc s)) eqn:Hh; [by destruct (Hex eq_refl)|].
    constructor; rsimpl; try done.
    + destruct (r_pc s); done.
    + destruct (r_pc s); done.
Qed.

Lemma reachable_read_inv s : reachable_read s -> read_inv s.
Proof.
  induction 1 as [h [Hwf Hnil]|s s' _ IH [Hs|Hs]].
  - constructor; cbn; try done.
  - by eapply read_step_inv.
  - by eapply feed_step_inv.
Qed.

(** C30: no wake-up is lost: in every interleaving of a blocking reader and the
    engine, a reader that is parked although there is something for it (data,
    end-of-file or an error) has an engine that still owes it a notification and
    can deliver it in at most two of its own steps, without waiting for the reader;
    and what reads have returned followed by the ring is exactly what the engine
    delivered. *)
Theorem reader_never_misses_wakeup s :
  reachable_read s ->
  r_sent s = r_got s ++ SpscByteRing.contents (rx_ring (r_handle s)) /\
  (r_pc s = RParked -> ready (r_handle s) ->
   exists s1 s2, (s1 = s \/ feed_step s s1) /\ feed_step s1 s2 /\ r_pc s2 = RWoken).
Proof.
  intros H%reachable_read_inv. destruct H as [Hwf Hst Hlk Hex How]. split; [exact Hst|].
  intros Hpc Hr. rewrite Hpc in Hlk, How. cbn [holds_lock missed] in Hlk, How.
  specialize (How Hr). destruct (r_engine s) eqn:Ee; [done| |].
  - eexists _, _. split; [right; by apply notify_locks|]. split; [by apply notify_wakes|].
    rsimpl. by rewrite Hpc.
  - exists s. eexists. split; [by left|]. split; [by apply notify_wakes|]. rsimpl. by rewrite Hpc.
Qed.

End Read.

(** ** End of file *)

Definition race_key : FourTuple := MkFourTuple (V4 (MkIpv4 10 0 0 2) 5000) (V4 (MkIpv4 10 0 0 1) 80).

Definition race_start : rsys := start (handle_new 16 16 true race_key).

Definition race_ring (ring : outcome (SpscByteRing.t * Z)) : SpscByteRing.t :=
  match ring with Done (r, _) => r | _ => SpscByteRing.new 16 end.

(** The reader has found the ring empty and is about to look at the flag; then
    three bytes and the FIN of the peer arrive. *)
Definition race_before : rsys := race_start <| r_buf := [0; 0; 0; 0] |> <| r_pc := RCheckEof |>.

Definition race_filled : rsys :=
  race_before
    <| r_handle := (r_handle race_before)
         <| rx_ring := race_ring (SpscByteRing.write (rx_ring (r_handle race_before)) [1; 2; 3]) |> |>
    <| r_sent := [1; 2; 3] |> <| r_engine := EPending |>.

Definition race_closed : rsys :=
  race_filled <| r_handle := set_eof (r_handle race_filled) |> <| r_engine := EPending |>.

Definition race_end : rsys := race_closed <| r_pc := RDone (Ok 0) |>.

Definition race_at (pc : rpc) (lock : option side) : rsys :=
  race_start <| r_buf := [0; 0; 0; 0] |> <| r_pc := pc |> <| r_lock := lock |>.

Lemma race_before_reachable : reachable_read false false (race_at RCheckEof None).
Proof.
  apply (reach_read _ _ (race_at RTryRead None)); [apply (reach_read _ _ (race_at RCheckError None));
    [apply (reach_read _ _ race_start)|]|].
  - apply reach_start. destruct (SpscByteRing.new_spec 16 ltac:(lia)) as (Hw & Hn & _).
    split; [exact Hw|exact Hn].
  - left. exact (read_call _ _ race_start [0; 0; 0; 0] (Ok 0) eq_refl).
  - left. exact (read_no_error _ _ (race_at RCheckError None) eq_refl eq_refl).
  - left. refine (read_none _ _ (race_at RTryRead None) _ _ eq_refl _). by vm_compute.
Qed.

Lemma race_reachable : reachable_read false false race_end.
Proof.
  apply (reach_read _ _ race_closed); [apply (reach_read _ _ race_filled)|].
  - apply (reach_read _ _ (race_at RCheckEof None)); [exact race_before_reachable|]. right.
    refine (feed_data (race_at RCheckEof None) [1; 2; 3] _ 3 _ _); [done|by vm_compute].
  - right. exact (feed_eof race_filled ltac:(discriminate)).
  - left. exact (read_eof _ _ race_closed eq_refl eq_refl).
Qed.

(** A reader that parked just before the bytes arrived. *)
Definition race_parked : rsys :=
  (race_at RParked None)
    <| r_handle := (r_handle race_before)
         <| rx_ring := race_ring (SpscByteRing.write (rx_ring (r_handle race_before)) [1; 2; 3]) |> |>
    <| r_sent := [1; 2; 3] |> <| r_engine := EPending |>.

Lemma race_parked_reachable : reachable_read false false race_parked.
Proof.
  apply (reach_read _ _ (race_at RParked None)).
  2:{ right. refine (feed_data (race_at RParked None) [1; 2; 3] _ 3 _ _); [done|by vm_compute]. }
  apply (reach_read _ _ (race_at RRecheckError (Some Reader)));
    [apply (reach_read _ _ (race_at RRecheckEof (Some Reader)));
      [apply (reach_read _ _ (race_at RRecheckRing (Some Reader)));
        [apply (reach_read _ _ (race_at RLock None));
          [apply (reach_read _ _ (race_at RCheckEof None)); [exact race_before_reachable|]|]|]|]|].
  - left. exact (read_wants_lock false false (race_at RCheckEof None) eq_refl eq_refl eq_refl).
  - left. exact (read_locks _ _ (race_at RLock None) eq_refl eq_refl).
  - left. refine (recheck_ring_miss _ _ (race_at RRecheckRing (Some Reader)) eq_refl _).
    by vm_compute.
  - left. exact (recheck_eof_miss _ _ (race_at RRecheckEof (Some Reader)) eq_refl eq_refl).
  - left. exact (read_parks _ _ (race_at RRecheckError (Some Reader)) eq_refl eq_refl).
Qed.

(** End-of-file may overtake data: [read] looks at the ring first and at
    the end-of-file flag second, so when the peer's last bytes and its FIN arrive
    in between, a read with room in its buffer returns [Ok(0)], end-of-file to
    its caller, with the bytes still unread in the ring. *)
Theorem eof_overtakes_data :
  exists s, reachable_read false false s /\ r_pc s = RDone (Ok 0) /\ length (r_buf s) = 4%nat /\
    SpscByteRing.contents (rx_ring (r_handle s)) = [1; 2; 3].
Proof.
  exists race_end. split; [exact race_reachable|]. split; [done|]. split; [done|]. by vm_compute.
Qed.

Lemma reader_never_misses_wakeup_witness :
  exists s1 s2, (s1 = race_parked \/ feed_step race_parked s1) /\ feed_step s1 s2 /\
    r_pc s2 = RWoken.
Proof.
  refine (proj2 (reader_never_misses_wakeup false false race_parked race_parked_reachable) eq_refl _).
  left. by vm_compute.
Defined.
