(* ===== verification/Socket.v ===== *)
(** * The socket layer (dpdk-stdlib-tcp/src/stream.rs, tcp_stream.rs, split.rs, tcp_listener.rs)

    What the application's calls do to the handle and to the command queue: writes,
    options, shutdown, drop and split, connects and listens, and the allocation of
    ephemeral ports.  Only the DPDK arm of [TcpStream] and [TcpListener] is
    modelled: the IPv6 arm is the kernel's socket. *)

From stdpp Require Import base numbers list gmap.
From Stdlib Require Import ZArith Lia.
From S2P Require Import Prelude Seq State Ring Congestion Contract Tcb Conn.

#[local] Open Scope Z_scope.

(** ** The application's side *)

(** A handle, the command queue to the engine, whether the engine still
    receives, and the engine's wake-up flag. *)
Record app := MkApp {
  a_handle : ConnectionHandle;
  a_queue : list EngineCommand;
  a_alive : bool;
  a_wakeup : EngineWakeup }.

#[global] Instance eta_app : Eta app := fun a =>
  MkApp (a_handle a) (a_queue a) (a_alive a) (a_wakeup a).

Record DpdkTcpStream := MkStream {
  s_key : FourTuple;
  nonblocking : bool;
  read_timeout : option Z;
  write_timeout : option Z }.

(** [DpdkTcpStream::new]. *)
Definition stream_new (key : FourTuple) : DpdkTcpStream := MkStream key false None None.

(** [DpdkTcpStream::local_addr] and [peer_addr]. *)
Definition local_addr (s : DpdkTcpStream) : SocketAddr := local (s_key s).

Definition peer_addr (s : DpdkTcpStream) : SocketAddr := remote (s_key s).

(** [cmd_tx.send(cmd).map_err(|_| BrokenPipe)]. *)
Definition send_cmd (a : app) (cmd : EngineCommand) : app * result unit ErrorKind :=
  let '(q, w, ok) := command_send (a_queue a) (a_alive a) (a_wakeup a) cmd in
  (a <| a_queue := q |> <| a_wakeup := w |>, if ok then Ok tt else Err KBrokenPipe).

(** ** Writing *)

(** How one turn of the loop in [write] ends. *)
Inductive turn : Type :=
| Return (r : result Z ErrorKind)
| Again
| Park.

(** One turn of [DpdkTcpStream::write], with the handle not changing under it;
    [remaining] is what is left of the write timeout. *)
Definition write_turn (s : DpdkTcpStream) (a : app) (buf : list Z) (remaining : option Z)
    : outcome (app * turn) :=
  match peek_error (a_handle a) with
  | Some e => Done (a, Return (Err (error_kind e)))
  | None =>
      let! (ring, n) := SpscByteRing.write (tx_ring (a_handle a)) buf in
      if 0 <? n then
        Done (a <| a_handle := (a_handle a) <| tx_ring := ring |> |>
                <| a_wakeup := wakeup_signal (a_wakeup a) |>, Return (Ok n))
      else if nonblocking s then Done (a, Return (Err KWouldBlock))
      else
        let! free := SpscByteRing.available_write (tx_ring (a_handle a)) in
        if (0 <? free) || bool_decide (is_Some (peek_error (a_handle a))) then Done (a, Again)
        else
          match remaining with
          | Some 0 => Done (a, Return (Err KTimedOut))
          | _ => Done (a, Park)
          end
  end.

(** The loop, as long as it does not park. *)
Fixpoint write_loop (fuel : nat) (s : DpdkTcpStream) (a : app) (buf : list Z) (remaining : option Z)
    : outcome (app * turn) :=
  let! (a, t) := write_turn s a buf remaining in
  match t with
  | Again => match fuel with O => OutOfFuel | S fuel => write_loop fuel s a buf remaining end
  | _ => Done (a, t)
  end.

(** ** Options, shutdown and error queries of [TcpStream] *)

(** [TcpStream::shutdown]. *)
Definition shutdown (s : DpdkTcpStream) (a : app) (how : Shutdown) : app * result unit ErrorKind :=
  send_cmd a (CmdShutdown (s_key s) how).

(** The setters that send a [SetOption]: read and write timeout, nodelay, TTL,
    non-blocking, keepalive, reuseaddr and buffer sizes. *)
Definition set_option (s : DpdkTcpStream) (a : app) (o : SocketOption)
    : app * result unit ErrorKind :=
  send_cmd a (CmdSetOption (s_key s) o).

Definition tcp_set_read_timeout s a (d : option Z) := set_option s a (ReadTimeout d).
Definition tcp_set_write_timeout s a (d : option Z) := set_option s a (WriteTimeout d).
Definition tcp_set_nodelay s a (b : bool) := set_option s a (Nodelay b).
Definition tcp_set_ttl s a (ttl : Z) := set_option s a (Ttl (u8 ttl)).
Definition tcp_set_nonblocking s a (b : bool) := set_option s a (Nonblocking b).
Definition tcp_set_keepalive s a (c : option KeepaliveConfig) := set_option s a (OptKeepalive c).
Definition tcp_set_reuseaddr s a (b : bool) := set_option s a (ReuseAddr b).
Definition tcp_set_recv_buffer_size s a (n : Z) := set_option s a (RecvBufSize n).
Definition tcp_set_send_buffer_size s a (n : Z) := set_option s a (SendBufSize n).

(** [TcpStream::set_linger]: the handle first, then the engine. *)
Definition tcp_set_linger (s : DpdkTcpStream) (a : app) (d : option Z)
    : app * result unit ErrorKind :=
  set_option s (a <| a_handle := (a_handle a) <| h_linger := d |> |>) (Linger d).

(** [TcpStream::take_error], [linger], [nodelay], [ttl]. *)
Definition take_error (a : app) : option ErrorKind :=
  match peek_error (a_handle a) with Some e => Some (error_kind e) | None => None end.

Definition tcp_linger (a : app) : option Z := h_linger (a_handle a).

(** [TcpStream::peek]. *)
Definition tcp_peek (a : app) (buf : list Z) : outcome (list Z * result Z ErrorKind) :=
  let! (buf, n) := SpscByteRing.peek (rx_ring (a_handle a)) buf in
  if 0 <? n then Done (buf, Ok n)
  else if eof (a_handle a) then Done (buf, Ok 0)
  else
    match peek_error (a_handle a) with
    | Some e => Done (buf, Err (error_kind e))
    | None => Done (buf, Err KWouldBlock)
    end.

(** ** Dropping and splitting *)

(** [app_refcount.fetch_sub(1) == 1], then a [Close] with the handle's linger. *)
Definition release (a : app) (key : FourTuple) : app :=
  let n := app_refcount (a_handle a) in
  let a := a <| a_handle := (a_handle a) <| app_refcount := wsub64 n 1 |> |> in
  if n =? 1 then fst (send_cmd a (CmdClose key (h_linger (a_handle a)))) else a.

(** [Drop for DpdkTcpStream], [OwnedReadHalf] and [OwnedWriteHalf]. *)
Definition drop_stream (a : app) (key : FourTuple) : app := release a key.

Definition drop_read_half (a : app) (key : FourTuple) : app := release a key.

Definition drop_write_half (a : app) (key : FourTuple) : app :=
  release (fst (send_cmd a (CmdShutdown key ShutWrite))) key.

(** [into_split_dpdk] (the stream itself is forgotten). *)
Definition into_split (a : app) : app :=
  a <| a_handle := (a_handle a) <| app_refcount := 2 |> |>.

(** ** Connecting and listening *)

(** [connect_v4] and [connect_timeout], up to the wait: the neighbour's address,
    a handle with 64 KiB rings (named [hid]) and the command.  The caller's handle
    is the one of [a]. *)
Definition connect_send (resolve : SocketAddr -> result Mac ErrorKind) (src_mac : Mac) (a : app)
    (remote_ local_ : SocketAddr) (hid : handle_id) (resp : sender) : app * result unit ErrorKind :=
  match resolve remote_ with
  | Err e => (a, Err e)
  | Ok dst_mac =>
      let a := a <| a_handle := handle_new 65536 65536 true (MkFourTuple local_ remote_) |> in
      send_cmd a (CmdConnect local_ remote_ src_mac dst_mac hid resp)
  end.

(** What the caller makes of the engine's answer; [None] is the timeout of
    [connect_timeout]. *)
Definition connect_result (key : FourTuple) (answer : option (result FourTuple TcpError))
    : result DpdkTcpStream ErrorKind :=
  match answer with
  | Some (Ok _) => Ok (stream_new key)
  | Some (Err e) => Err (error_kind e)
  | None => Err KTimedOut
  end.

(** [TcpListener::bind] and [accept]. *)
Definition bind_send (a : app) (addr : SocketAddr) (resp : sender) : app * result unit ErrorKind :=
  send_cmd a (CmdListen addr 128 resp).

Definition accept_send (a : app) (addr : SocketAddr) (resp : sender) : app * result unit ErrorKind :=
  send_cmd a (CmdAccept addr resp).

Definition accept_result (answer : result (FourTuple * handle_id) TcpError)
    : result (DpdkTcpStream * SocketAddr) ErrorKind :=
  match answer with
  | Ok (key, _) => Ok (stream_new key, remote key)
  | Err e => Err (error_kind e)
  end.

(** ** Ephemeral ports *)

Definition RANGE_START : Z := 49152.

Definition RANGE_END : Z := 65535.

(** The start of [TcpContext::new], from the low bits of the clock. *)
Definition port_seed (subsec_nanos : Z) : Z :=
  Z.min (49152 + u16 subsec_nanos mod 16384) U16_MAX.

(** [TcpContext::allocate_port] on the counter [next_port]. *)
Fixpoint allocate_port (fuel : nat) (next_port : Z) : outcome (Z * Z) :=
  match fuel with
  | O => OutOfFuel
  | S fuel =>
      let port := next_port in
      let next_port := u16 (next_port + 1) in
      if RANGE_START <=? port then
        if port <=? RANGE_END then Done (next_port, port) else allocate_port fuel RANGE_START
      else allocate_port fuel next_port
  end.

(** ** Writing: every call that offers bytes decides in one turn *)

(** Room left in the transmit ring. *)
Definition tx_free (a : app) : Z :=
  SpscByteRing.capacity (tx_ring (a_handle a)) - SpscByteRing.available_read (tx_ring (a_handle a)).

(** What a [write] of [len] bytes should answer. *)
Definition write_answer (s : DpdkTcpStream) (a : app) (len : Z) (remaining : option Z) : turn :=
  match peek_error (a_handle a), remaining with
  | Some e, _ => Return (Err (error_kind e))
  | None, _ =>
      if 0 <? tx_free a then Return (Ok (Z.min len (tx_free a)))
      else if nonblocking s then Return (Err KWouldBlock)
      else match remaining with Some 0 => Return (Err KTimedOut) | _ => Park end
  end.

Definition accepted (t : turn) : nat :=
  match t with Return (Ok n) => Z.to_nat n | _ => 0 end.

Lemma available_write_free a :
  SpscByteRing.wf (tx_ring (a_handle a)) ->
  SpscByteRing.available_write (tx_ring (a_handle a)) = Done (tx_free a).
Proof.
  intros Hwf. pose proof (SpscByteRing.available_range _ Hwf).
  unfold SpscByteRing.available_write, tx_free. unfold SpscByteRing.available_read in *.
  by destruct (Z.ltb_spec (SpscByteRing.capacity (tx_ring (a_handle a)))
    (wsub64 (SpscByteRing.head (tx_ring (a_handle a))) (SpscByteRing.tail (tx_ring (a_handle a)))));
    [lia|].
Qed.

Lemma tx_free_nonneg a : SpscByteRing.wf (tx_ring (a_handle a)) -> 0 <= tx_free a.
Proof. intros Hwf. pose proof (SpscByteRing.available_range _ Hwf). unfold tx_free. lia. Qed.

(** One turn on a ring in good order, as a function of the free space. *)
Lemma write_turn_spec s a buf remaining :
  SpscByteRing.wf (tx_ring (a_handle a)) -> (0 < zlen buf \/ tx_free a = 0) ->
  exists a', write_turn s a buf remaining = Done (a', write_answer s a (zlen buf) remaining) /\
    SpscByteRing.contents (tx_ring (a_handle a'))
      = SpscByteRing.contents (tx_ring (a_handle a)) ++
        take (accepted (write_answer s a (zlen buf) remaining)) buf /\
    ((0 < accepted (write_answer s a (zlen buf) remaining))%nat -> flag (a_wakeup a') = true).
Proof.
  intros Hwf Hb. pose proof (tx_free_nonneg a Hwf) as Hf.
  destruct (SpscByteRing.write_spec _ buf Hwf) as (r' & Hw & _ & _ & Hc).
  fold (tx_free a) in Hw, Hc. unfold write_turn, write_answer.
  destruct (peek_error (a_handle a)) as [e|] eqn:Ee.
  { exists a. cbn [accepted]. rewrite take_0, app_nil_r. split_and!; [done..|lia]. }
  rewrite Hw. cbn [obind]. pose proof (zlen_nonneg buf).
  destruct (Z.ltb_spec 0 (tx_free a)).
  - destruct (Z.ltb_spec 0 (Z.min (zlen buf) (tx_free a))); [|lia].
    eexists. split; [reflexivity|]. rsimpl. cbn [accepted]. by rewrite Hc.
  - destruct (Z.ltb_spec 0 (Z.min (zlen buf) (tx_free a))); [lia|].
    exists a. rewrite available_write_free by done. cbn [obind].
    destruct (Z.ltb_spec 0 (tx_free a)); [lia|]. cbn [orb].
    destruct (nonblocking s), remaining as [[]|]; cbn [accepted];
      rewrite take_0, app_nil_r; (split_and!; [done..|lia]).
Qed.

(** A blocking, non-blocking or timed [write] of a non-empty buffer never
    spins: the first turn of its loop returns or parks.  A latched error is
    reported; otherwise as many bytes as fit are appended to the transmit queue in
    order, the engine is signalled and their number returned; on a full queue the
    call reports WouldBlock, TimedOut at its deadline, or parks. *)
Theorem nonempty_write_decides s a buf remaining :
  SpscByteRing.wf (tx_ring (a_handle a)) -> buf <> [] ->
  exists a', write_loop 0 s a buf remaining = Done (a', write_answer s a (zlen buf) remaining) /\
    SpscByteRing.contents (tx_ring (a_handle a'))
      = SpscByteRing.contents (tx_ring (a_handle a)) ++
        take (accepted (write_answer s a (zlen buf) remaining)) buf /\
    ((0 < accepted (write_answer s a (zlen buf) remaining))%nat -> flag (a_wakeup a') = true).
Proof.
  intros Hwf Hb.
  destruct (write_turn_spec s a buf remaining Hwf) as (a' & Ht & Hr).
  { left. destruct buf; [done|]. unfold zlen. cbn [length]. lia. }
  exists a'. split; [|done]. cbn [write_loop]. rewrite Ht. cbn [obind].
  unfold write_answer. destruct (peek_error _); [done|]. repeat bcase; try done.
  by destruct remaining as [[]|].
Qed.

(** A stream with a four-byte transmit ring. *)
Definition small_app : app :=
  let h := handle_new 4 4 true (MkFourTuple (V4 (MkIpv4 10 0 0 2) 49152) (V4 (MkIpv4 10 0 0 1) 80)) in
  MkApp h [] true (MkWakeup false).

Lemma small_app_wf : SpscByteRing.wf (tx_ring (a_handle small_app)).
Proof. apply (SpscByteRing.new_spec 4). lia. Qed.

Lemma nonempty_write_decides_witness :
  exists a', write_loop 0 (stream_new (h_key (a_handle small_app))) small_app [1;2;3;4;5;6] None
      = Done (a', Return (Ok 4)) /\
    SpscByteRing.contents (tx_ring (a_handle a')) = [1;2;3;4].
Proof.
  destruct (nonempty_write_decides (stream_new (h_key (a_handle small_app))) small_app
    [1;2;3;4;5;6] None small_app_wf) as (a' & H1 & H2 & _); [discriminate|].
  exists a'. exact (conj H1 H2).
Defined.

(** An empty [write] on a blocking stream with room in its queue never
    returns: the ring accepts zero bytes, the recheck under the lock sees free
    space, and the loop goes round again, whatever the number of turns. *)
Theorem empty_write_spins fuel s a remaining :
  SpscByteRing.wf (tx_ring (a_handle a)) -> peek_error (a_handle a) = None ->
  nonblocking s = false -> 0 < tx_free a ->
  write_loop fuel s a [] remaining = OutOfFuel.
Proof.
  intros Hwf He Hn Hf.
  assert (write_turn s a [] remaining = Done (a, Again)) as Ht.
  { destruct (SpscByteRing.write_spec _ [] Hwf) as (r' & Hw & _ & _ & _).
    unfold write_turn. rewrite He, Hw. cbn [obind].
    destruct (Z.ltb_spec 0 (Z.min (@zlen Z []) (SpscByteRing.capacity (tx_ring (a_handle a))
      - SpscByteRing.available_read (tx_ring (a_handle a))))); [rewrite zlen_nil in *; lia|].
    rewrite Hn, available_write_free by done. cbn [obind].
    by destruct (Z.ltb_spec 0 (tx_free a)); [|lia]. }
  induction fuel; cbn [write_loop]; rewrite Ht; cbn [obind]; done.
Qed.

Lemma empty_write_spins_witness :
  write_loop 1000 (stream_new (h_key (a_handle small_app))) small_app [] None = OutOfFuel.
Proof. apply empty_write_spins; [exact small_app_wf|reflexivity|reflexivity|reflexivity]. Defined.

(** ** Splitting and dropping *)

(** The two halves of a split stream close the connection exactly once, whichever is
    dropped first: with the engine alive the commands are one write shutdown, then one
    [Close] with the linger of the handle, and the reference count ends at zero. *)
Theorem split_halves_close_once a key (read_first : bool) :
  a_alive a = true ->
  let a' := if read_first then drop_write_half (drop_read_half (into_split a) key) key
            else drop_read_half (drop_write_half (into_split a) key) key in
  a_queue a' = a_queue a ++ [CmdShutdown key ShutWrite; CmdClose key (h_linger (a_handle a))] /\
  app_refcount (a_handle a') = 0 /\ flag (a_wakeup a') = true.
Proof.
  destruct a as [h q al w]. intros Hal. cbn in Hal. subst al.
  destruct read_first; (split_and!; [|reflexivity..]); cbn [a_queue a_handle];
    exact (eq_sym (app_assoc q [_] [_])).
Qed.

Lemma split_halves_close_once_witness :
  a_queue (drop_write_half (drop_read_half (into_split small_app) (h_key (a_handle small_app)))
             (h_key (a_handle small_app)))
  = [CmdShutdown (h_key (a_handle small_app)) ShutWrite;
     CmdClose (h_key (a_handle small_app)) None].
Proof.
  exact (proj1 (split_halves_close_once small_app (h_key (a_handle small_app)) true eq_refl)).
Defined.

(** ** Ephemeral ports *)

Lemma allocate_port_in_range fuel next :
  RANGE_START <= next <= RANGE_END ->
  allocate_port (S fuel) next = Done (u16 (next + 1), next).
Proof.
  intros Hn. cbn [allocate_port]. by repeat bcase; try lia.
Qed.

Lemma allocate_port_below (k : nat) : forall next,
  0 <= next < RANGE_START -> RANGE_START - next <= Z.of_nat k ->
  allocate_port (S k) next = Done (u16 (RANGE_START + 1), RANGE_START).
Proof.
  induction k as [|k IH]; intros next Hn Hk; [lia|]. unfold RANGE_START in *.
  cbn [allocate_port]. unfold RANGE_START. destruct (Z.leb_spec 49152 next); [lia|].
  rewrite u16_small by (unfold is_u16; lia).
  destruct (Z.eq_dec (next + 1) 49152) as [->|].
  - apply (allocate_port_in_range k 49152). unfold RANGE_START, RANGE_END. lia.
  - apply IH; lia.
Qed.

(** [allocate_port] terminates from every value of its 16-bit counter, within
    49153 turns of its loop, and answers a port of the ephemeral range: the counter
    itself when it is in the range, the first port when it has wrapped below it; the
    counter then stands one further, so consecutive calls walk the whole range in
    order before they repeat a port. *)
Theorem allocate_port_terminates next :
  is_u16 next ->
  let port := Z.max next RANGE_START in
  allocate_port (Z.to_nat 49153) next = Done (u16 (port + 1), port) /\
  RANGE_START <= port <= RANGE_END /\
  (port < RANGE_END -> Z.max (u16 (port + 1)) RANGE_START = port + 1) /\
  (port = RANGE_END -> Z.max (u16 (port + 1)) RANGE_START = RANGE_START).
Proof.
  intros Hn port. unfold is_u16, RANGE_START, RANGE_END in *. split_and!; try (subst port; lia).
  - replace (Z.to_nat 49153) with (S (Z.to_nat 49152)) by lia. subst port.
    destruct (Z.le_gt_cases 49152 next).
    + rewrite Z.max_l by lia. apply allocate_port_in_range. unfold RANGE_START, RANGE_END. lia.
    + rewrite Z.max_r by lia. apply allocate_port_below; unfold RANGE_START; lia.
  - intros Hp. rewrite u16_small by (unfold is_u16; lia). lia.
  - by intros ->.
Qed.

Lemma allocate_port_terminates_witness :
  allocate_port (Z.to_nat 49153) 0 = Done (49153, 49152).
Proof. exact (proj1 (allocate_port_terminates 0 ltac:(unfold is_u16; lia))). Defined.
