(* ===== verification/UdpChecksum.v ===== *)
(** * UDP checksums (dpdk-stdlib-udp/src/lib.rs, ipv6.rs)

    [ones_complement_sum] adds four bytes at a time into a [u64]; it is equal to the
    two-byte loop of the other checksums.  [udp_checksum] and [udp6_checksum] skip
    the checksum field of the header they are given and never answer zero; a segment
    that carries the value they compute sums to [0xFFFF] with its pseudo-header,
    which is what the verifiers test. *)

From stdpp Require Import base numbers list.
From Stdlib Require Import ZArith Lia.
From S2P Require Import Prelude Checksum.

#[local] Open Scope Z_scope.

Definition IP_PROTO_UDP : Z := 17.

(** ** The sums *)

(** [data.chunks_exact(4)]: the big-endian 32-bit words, and the remainder.  The
    accumulator is a [u64]; it cannot overflow for slices under 2^34 bytes
    ([add_quads_spec]). *)
Fixpoint add_quads (acc : Z) (l : list Z) : Z * list Z :=
  match l with
  | a :: b :: c :: d :: r => add_quads (acc + of_be32 a b c d) r
  | _ => (acc, l)
  end.

(** Four rounds clear the carries of a [u64] below 2^62; the last calls test the
    loop condition. *)
Definition FOLD_FUEL64 : nat := 6.

(** [ones_complement_sum]. *)
Definition ones_complement_sum (data : list Z) : outcome Z :=
  let '(acc, rem) := add_quads 0 data in
  let acc := match rem with a :: b :: _ => acc + Z.lor (Z.shiftl a 8) b | _ => acc end in
  let acc :=
    if (length rem mod 2 =? 1)%nat then acc + Z.shiftl (List.last rem 0) 8 else acc in
  let! acc := fold_carry FOLD_FUEL64 acc in
  Done (u32 acc).

(** The header loop: 16-bit words, the one at index 6 skipped. *)
Fixpoint header_words (i : nat) (sum : Z) (l : list Z) : Z :=
  match l with
  | a :: b :: r =>
      header_words (i + 2) (if (i =? 6)%nat then sum else wadd32 sum (Z.lor (Z.shiftl a 8) b)) r
  | [a] => if (i =? 6)%nat then sum else wadd32 sum (Z.shiftl a 8)
  | [] => sum
  end.

(** The end of both checksums: fold, complement, and never zero. *)
Definition finish_checksum (sum : Z) : outcome Z :=
  let! sum := fold_carry FOLD_FUEL sum in
  let result := u16 (Z.lnot (u16 sum)) in
  Done (if result =? 0 then 65535 else result).

(** [udp_checksum]; the two addresses are the octets of IPv4 addresses. *)
Definition udp_checksum (src_ip dst_ip udp_header payload : list Z) : outcome Z :=
  let sum := add_words 0 src_ip in
  let sum := add_words sum dst_ip in
  let sum := wadd32 sum IP_PROTO_UDP in
  let udp_len := u32 (8 + zlen payload) in
  let sum := wadd32 sum udp_len in
  let sum := header_words 0 sum udp_header in
  let! p := ones_complement_sum payload in
  finish_checksum (wadd32 sum p).

(** [checksum_add] of ipv6.rs. *)
Definition checksum_add (sum : Z) (data : list Z) : outcome Z :=
  let! s := ones_complement_sum data in Done (wadd32 sum s).

(** [fold32] of ipv6.rs. *)
Definition fold32 (sum : Z) : outcome Z :=
  let! s := fold_carry FOLD_FUEL sum in Done (u16 s).

(** [udp6_checksum]; the addresses are the 16 octets of IPv6 addresses. *)
Definition udp6_checksum (src_ip dst_ip udp_header payload : list Z) : outcome Z :=
  let! sum := checksum_add 0 src_ip in
  let! sum := checksum_add sum dst_ip in
  let udp_len := u32 (8 + zlen payload) in
  let sum := wadd32 sum (Z.shiftr udp_len 16) in
  let sum := wadd32 sum (Z.land udp_len 65535) in
  let sum := wadd32 sum IP_PROTO_UDP in
  let sum := header_words 0 sum udp_header in
  let! sum := checksum_add sum payload in
  let! s := fold32 sum in
  let result := u16 (Z.lnot s) in
  Done (if result =? 0 then 65535 else result).

(** [udp6_pseudo_header_checksum]. *)
Definition udp6_pseudo_header_checksum (src_ip dst_ip : list Z) (udp_len : Z) : outcome Z :=
  let! sum := checksum_add 0 src_ip in
  let! sum := checksum_add sum dst_ip in
  let sum := wadd32 sum (Z.shiftr udp_len 16) in
  let sum := wadd32 sum (Z.land udp_len 65535) in
  let sum := wadd32 sum IP_PROTO_UDP in
  fold32 sum.

(** ** Folding *)

(** [r] is the one's-complement residue of [s]. *)
Definition residue (s r : Z) : Prop :=
  0 <= r <= 65535 /\ r mod 65535 = s mod 65535 /\ (r = 0 <-> s = 0).

Lemma residue_unique s s' r r' :
  residue s r -> residue s' r' -> s mod 65535 = s' mod 65535 -> (s = 0 <-> s' = 0) -> r = r'.
Proof. intros (Hr & Hm & Hz) (Hr' & Hm' & Hz') Hs H0. rewrite <- Hm, <- Hm' in Hs. mod_lia. Qed.

Definition fold_ok (fuel : nat) (s : Z) : Prop :=
  exists r, fold_carry fuel s = Done r /\ residue s r.

(** One turn of the folding loop. *)
Lemma fold_ok_step fuel s :
  0 <= s -> (s <= 65535 \/ fold_ok fuel (s mod 65536 + s / 65536)) -> fold_ok (S fuel) s.
Proof.
  intros Hs Hf. unfold fold_ok. cbn [fold_carry].
  rewrite Z.shiftr_div_pow2 by lia. change (2 ^ 16) with 65536.
  change 65535 with (Z.ones 16) at 1. rewrite Z.land_ones by lia. change (2 ^ 16) with 65536.
  destruct (Z.eqb_spec (s / 65536) 0) as [E|E]; cbn [negb].
  - exists s. split; [done|]. unfold residue. mod_lia.
  - destruct Hf as [Hf|(r & -> & Hr & Hm & Hz)]; [exfalso; mod_lia|].
    exists r. split; [done|]. split_and!; [lia..| |].
    + rewrite Hm. rewrite (Z.div_mod s 65536) at 3 by lia.
      replace (65536 * (s / 65536) + s mod 65536)
        with (s mod 65536 + s / 65536 + s / 65536 * 65535) by lia.
      by rewrite Z.mod_add by lia.
    + rewrite Hz. mod_lia.
Qed.

Lemma fold_ok64 s : 0 <= s < 2 ^ 62 -> fold_ok FOLD_FUEL64 s.
Proof.
  intros Hs. unfold FOLD_FUEL64.
  assert (forall x b, 0 <= x < b * 65536 -> 0 <= x mod 65536 + x / 65536 < b + 65536) as Hb
    by (intros x b H; mod_lia).
  apply fold_ok_step; [lia|]. right. apply (Hb _ (2 ^ 46)) in Hs. revert Hs.
  generalize (s mod 65536 + s / 65536). clear s. intros s Hs.
  assert (0 <= s < (2 ^ 30 + 1) * 65536) as Hs' by lia. clear Hs.
  apply fold_ok_step; [lia|]. right. apply Hb in Hs'. revert Hs'.
  generalize (s mod 65536 + s / 65536). clear s. intros s Hs.
  assert (0 <= s < (2 ^ 14 + 2) * 65536) as Hs' by lia. clear Hs.
  apply fold_ok_step; [lia|]. right. apply Hb in Hs'. revert Hs'.
  generalize (s mod 65536 + s / 65536). clear s. intros s Hs.
  apply fold_ok_step; [lia|]. destruct (Z.le_gt_cases s 65535); [by left|right].
  apply fold_ok_step; [mod_lia|]. left. mod_lia.
Qed.

Lemma fold_ok32 s : is_u32 s -> fold_ok FOLD_FUEL s.
Proof. intros (r & E & H)%fold_carry_spec. exists r. by split. Qed.

(** ** The four-byte sum *)

Lemma quad_ind (P : list Z -> Prop) :
  P [] -> (forall a, P [a]) -> (forall a b, P [a; b]) -> (forall a b c, P [a; b; c]) ->
  (forall a b c d r, P r -> P (a :: b :: c :: d :: r)) -> forall l, P l.
Proof.
  intros H0 H1 H2 H3 H4. fix IH 1. intros [|a [|b [|c [|d r]]]]; [done..|]. apply H4, IH.
Qed.

(** The words of a slice, as the four-byte loop adds them up. *)
Lemma add_quads_spec l acc :
  Forall is_u8 l -> 0 <= acc ->
  exists acc' rem, add_quads acc l = (acc', rem) /\ Forall is_u8 rem /\ (length rem < 4)%nat /\
    acc <= acc' <= acc + 2 ^ 30 * zlen l /\
    (acc' + word_sum rem) mod 65535 = (acc + word_sum l) mod 65535 /\
    (acc' + word_sum rem = 0 <-> acc + word_sum l = 0).
Proof.
  revert acc. induction l as [|a|a b|a b c|a b c d r IH] using quad_ind; intros acc Hl Ha;
    try (exists acc; eexists; split; [reflexivity|]; rewrite ?zlen_nil; unfold zlen; cbn [length];
         split_and!; (done || lia)).
  inversion_clear Hl as [|? ? Hba Hl1]. inversion_clear Hl1 as [|? ? Hbb Hl2].
  inversion_clear Hl2 as [|? ? Hbc Hl3]. inversion_clear Hl3 as [|? ? Hbd Hr].
  unfold is_u8 in *. cbn [add_quads].
  destruct (IH (acc + of_be32 a b c d)) as (acc' & rem & E & Hrem & Hlen & Hb & Hm & Hz);
    [done|unfold of_be32; lia|].
  pose proof (word_sum_bounds r Hr) as Hw. clear IH.
  exists acc', rem. split_and!; try done.
  - unfold of_be32 in Hb. lia.
  - unfold of_be32, zlen in *. cbn [length]. lia.
  - rewrite Hm. unfold of_be32. cbn [word_sum].
    replace (acc + (a * 16777216 + b * 65536 + c * 256 + d) + word_sum r)
      with (acc + (a * 256 + b + (c * 256 + d + word_sum r)) + (a * 256 + b) * 65535) by lia.
    by rewrite Z.mod_add by lia.
  - rewrite Hz. unfold of_be32. cbn [word_sum]. lia.
Qed.

Lemma ones_sum_rem rem acc :
  Forall is_u8 rem -> (length rem < 4)%nat ->
  (let acc := match rem with a :: b :: _ => acc + Z.lor (Z.shiftl a 8) b | _ => acc end in
   if (length rem mod 2 =? 1)%nat then acc + Z.shiftl (List.last rem 0) 8 else acc)
  = acc + word_sum rem.
Proof.
  intros Hb Hl. destruct rem as [|a [|b [|c [|]]]]; cbn in *; try lia.
  - rewrite Z.shiftl_mul_pow2 by lia. lia.
  - rewrite lor_shiftl8 by (inversion_clear Hb as [|? ? _ Hb']; by inversion_clear Hb'). lia.
  - rewrite lor_shiftl8, Z.shiftl_mul_pow2
      by (try lia; inversion_clear Hb as [|? ? _ Hb']; by inversion_clear Hb'). lia.
Qed.

Lemma ones_complement_residue data :
  Forall is_u8 data -> zlen data <= 2 ^ 31 ->
  exists r, ones_complement_sum data = Done r /\ residue (word_sum data) r.
Proof.
  intros Hd Hl. unfold ones_complement_sum.
  destruct (add_quads_spec data 0) as (acc & rem & -> & Hr & Hlen & Hb & Hm & Hz); [done..|].
  cbv zeta. pose proof (ones_sum_rem rem acc Hr Hlen) as E. cbv zeta in E. rewrite E. clear E.
  pose proof (word_sum_bounds rem Hr) as Hw.
  assert ((zlen rem + 1) / 2 <= 2) by (unfold zlen in *; mod_lia).
  destruct (fold_ok64 (acc + word_sum rem)) as (r & -> & Hres & Hmr & Hzr); [lia|].
  exists r. cbn [obind]. rewrite u32_small by (unfold is_u32; lia). split; [done|].
  rewrite !Z.add_0_l in *. split_and!; [lia..|congruence|tauto].
Qed.

(** The word-at-a-time sum of the transmit path is the byte-pair sum it replaces: for
    every slice of up to 64 KiB, [ones_complement_sum] returns exactly the 16-bit
    value that folding the sum of all big-endian byte pairs gives. *)
Theorem ones_complement_sum_is_pair_sum data :
  Forall is_u8 data -> zlen data <= 65536 ->
  ones_complement_sum data = fold_carry FOLD_FUEL (add_words 0 data).
Proof.
  intros Hd Hl. destruct (ones_complement_residue data Hd) as (r & -> & Hr); [lia|].
  pose proof (word_sum_bounds data Hd).
  rewrite add_words_sum by (done || mod_lia). rewrite Z.add_0_l.
  destruct (fold_ok32 (word_sum data)) as (r' & -> & Hr'); [unfold is_u32; mod_lia|].
  f_equal. by apply (residue_unique (word_sum data) (word_sum data)).
Qed.

Lemma ones_complement_sum_is_pair_sum_witness :
  ones_complement_sum [255; 255; 1; 2; 3; 4; 5] = fold_carry FOLD_FUEL (add_words 0 [255; 255; 1; 2; 3; 4; 5]).
Proof. apply ones_complement_sum_is_pair_sum; [repeat constructor; lia|unfold zlen; cbn; lia]. Defined.

(** ** The checksums *)

(** The header loop ignores the checksum field of an eight-byte header. *)
Lemma header_words_skip sum h a b :
  length h = 6%nat -> header_words 0 sum (h ++ [a; b]) = add_words sum h.
Proof. intros H. by destruct h as [|? [|? [|? [|? [|? [|? [|]]]]]]]. Qed.

Lemma finish_spec sum :
  is_u32 sum -> 0 < sum ->
  exists c, finish_checksum sum = Done c /\ 1 <= c <= 65535 /\ (sum + c) mod 65535 = 0.
Proof.
  intros Hs Hp. destruct (fold_ok32 sum Hs) as (r & E & Hr & Hm & Hz).
  unfold finish_checksum. rewrite E. cbn [obind].
  assert (u16 (Z.lnot (u16 r)) = 65535 - r) as -> by (unfold Z.lnot; wrap_lia).
  assert (1 <= r) by lia.
  eexists. split; [reflexivity|].
  assert (forall c, (r + c) mod 65535 = 0 -> (sum + c) mod 65535 = 0) as Hc.
  { intros c Hc. rewrite <- Zplus_mod_idemp_l, <- Hm, Zplus_mod_idemp_l. done. }
  destruct (Z.eqb_spec (65535 - r) 0); (split; [lia|apply Hc]).
  - replace r with 65535 by lia. done.
  - replace (r + (65535 - r)) with 65535 by lia. done.
Qed.

(** A positive sum that is a multiple of 65535 folds to [0xFFFF]. *)
Lemma fold_to_ffff s :
  is_u32 s -> 0 < s -> s mod 65535 = 0 -> fold_carry FOLD_FUEL s = Done 65535.
Proof.
  intros Hs Hp Hm. destruct (fold_ok32 s Hs) as (r & -> & Hr & Hmr & Hz).
  rewrite Hm in Hmr. assert (r <> 0) by lia. f_equal. mod_lia.
Qed.

(** The sum of the pseudo-header and the header without its checksum. *)
Definition udp_sum (src dst h payload : list Z) : Z :=
  word_sum src + word_sum dst + 17 + (8 + zlen payload) + word_sum h.

Lemma word_sum_small l n : Forall is_u8 l -> length l = n -> (n <= 16)%nat -> 0 <= word_sum l <= 65535 * 8.
Proof.
  intros Hl <- Hn. pose proof (word_sum_bounds l Hl) as Hb. unfold zlen in Hb.
  assert ((Z.of_nat (length l) + 1) / 2 <= 8) by mod_lia. lia.
Qed.

Section Udp4.

Context (src dst h payload : list Z)
  (Hsrc : Forall is_u8 src) (Hdst : Forall is_u8 dst) (Hh : Forall is_u8 h)
  (Hpay : Forall is_u8 payload) (Lsrc : length src = 4%nat) (Ldst : length dst = 4%nat)
  (Lh : length h = 6%nat) (Lpay : zlen payload <= 65527).

Lemma udp_sum_bounds : 0 < udp_sum src dst h payload <= 2000000.
Proof.
  pose proof (word_sum_small src 4 Hsrc Lsrc). pose proof (word_sum_small dst 4 Hdst Ldst).
  pose proof (word_sum_small h 6 Hh Lh). pose proof (zlen_nonneg payload).
  unfold udp_sum. lia.
Qed.

(** [udp_checksum] in terms of unbounded sums: [p] is the residue of the payload. *)
Lemma udp_checksum_sum a b :
  exists p, residue (word_sum payload) p /\
    udp_checksum src dst (h ++ [a; b]) payload = finish_checksum (udp_sum src dst h payload + p).
Proof.
  pose proof udp_sum_bounds as Hb. pose proof (zlen_nonneg payload).
  pose proof (word_sum_small src 4 Hsrc Lsrc). pose proof (word_sum_small dst 4 Hdst Ldst).
  pose proof (word_sum_small h 6 Hh Lh).
  destruct (ones_complement_residue payload Hpay) as (p & Ep & Hp); [lia|].
  exists p. split; [done|]. unfold udp_checksum, IP_PROTO_UDP. rewrite Ep. cbn [obind].
  rewrite header_words_skip by done.
  rewrite (add_words_sum src) by (done || lia). rewrite Z.add_0_l.
  rewrite (add_words_sum dst) by (done || lia).
  rewrite (u32_small (8 + _)) by (unfold is_u32; lia).
  unfold wadd32. rewrite (u32_small (_ + 17)) by (unfold is_u32; lia).
  rewrite (u32_small (_ + _ + 17 + _)) by (unfold is_u32; lia).
  rewrite (add_words_sum h) by (done || unfold udp_sum in *; lia).
  rewrite u32_small by (destruct Hp as [? _]; unfold is_u32, udp_sum in *; lia). done.
Qed.

(** The checksum exists, is not zero, and makes the segment sum to zero. *)
Lemma udp_checksum_spec a b :
  exists c, udp_checksum src dst (h ++ [a; b]) payload = Done c /\ 1 <= c <= 65535 /\
    (udp_sum src dst h payload + word_sum payload + c) mod 65535 = 0.
Proof.
  pose proof udp_sum_bounds as Hb.
  destruct (udp_checksum_sum a b) as (p & (Hp & Hm & _) & ->).
  destruct (finish_spec (udp_sum src dst h payload + p)) as (c & -> & Hc & Hs);
    [unfold is_u32; lia..|].
  exists c. split_and!; [done|lia..|].
  replace (udp_sum src dst h payload + word_sum payload + c)
    with (word_sum payload + (udp_sum src dst h payload + c)) by lia.
  rewrite <- Zplus_mod_idemp_l, <- Hm, Zplus_mod_idemp_l, <- Hs. f_equal. lia.
Qed.

End Udp4.

(** IPv6: only the first six bytes of the header matter. *)
Lemma udp6_checksum_skip src dst h a b c d payload :
  length h = 6%nat ->
  udp6_checksum src dst (h ++ [a; b]) payload = udp6_checksum src dst (h ++ [c; d]) payload.
Proof.
  intros H. unfold udp6_checksum.
  destruct (checksum_add 0 src) as [s1| |]; cbn [obind]; [|done..].
  destruct (checksum_add s1 dst) as [s2| |]; cbn [obind]; [|done..].
  by rewrite !header_words_skip.
Qed.

Section Udp6.

Context (src dst h payload : list Z)
  (Hsrc : Forall is_u8 src) (Hdst : Forall is_u8 dst) (Hh : Forall is_u8 h)
  (Hpay : Forall is_u8 payload) (Lsrc : length src = 16%nat) (Ldst : length dst = 16%nat)
  (Lh : length h = 6%nat) (Lpay : zlen payload <= 65527).

Lemma udp6_checksum_sum a b :
  exists s d p, residue (word_sum src) s /\ residue (word_sum dst) d /\
    residue (word_sum payload) p /\
    udp6_checksum src dst (h ++ [a; b]) payload
    = finish_checksum (s + d + (8 + zlen payload) + 17 + word_sum h + p).
Proof.
  pose proof (zlen_nonneg payload). pose proof (word_sum_small h 6 Hh Lh).
  destruct (ones_complement_residue src Hsrc) as (s & Es & Hs); [unfold zlen; lia|].
  destruct (ones_complement_residue dst Hdst) as (d & Ed & Hd); [unfold zlen; lia|].
  destruct (ones_complement_residue payload Hpay) as (p & Ep & Hp); [lia|].
  exists s, d, p. split_and!; try done. destruct Hs as [Hs _], Hd as [Hd _], Hp as [Hp _].
  unfold udp6_checksum, checksum_add, fold32, finish_checksum, IP_PROTO_UDP.
  rewrite Es. cbn [obind]. rewrite Ed. cbn [obind]. rewrite Ep. cbn [obind].
  rewrite header_words_skip by done.
  rewrite (u32_small (8 + _)) by (unfold is_u32; lia).
  rewrite (Z.shiftr_div_pow2 _ 16) by lia.
  change 65535 with (Z.ones 16) at 1. rewrite Z.land_ones by lia. change (2 ^ 16) with 65536.
  rewrite (Z.div_small (8 + _)), (Z.mod_small (8 + _)) by lia.
  unfold wadd32. rewrite Z.add_0_l, Z.add_0_r.
  rewrite (u32_small s), (u32_small (s + d)) by (unfold is_u32; lia).
  rewrite (u32_small (s + d)) by (unfold is_u32; lia).
  rewrite (u32_small (s + d + _)) by (unfold is_u32; lia).
  rewrite (u32_small (_ + 17)) by (unfold is_u32; lia).
  rewrite (add_words_sum h) by (done || lia).
  rewrite u32_small by (unfold is_u32; lia).
  destruct (fold_carry _ _); cbn [obind]; [|done..].
  do 2 f_equal; repeat f_equal; unfold Z.lnot; wrap_lia.
Qed.

Lemma udp6_checksum_spec a b :
  exists c, udp6_checksum src dst (h ++ [a; b]) payload = Done c /\ 1 <= c <= 65535.
Proof.
  pose proof (zlen_nonneg payload). pose proof (word_sum_small h 6 Hh Lh).
  destruct (udp6_checksum_sum a b) as (s & d & p & [Hs _] & [Hd _] & [Hp _] & ->).
  destruct (finish_spec (s + d + (8 + zlen payload) + 17 + word_sum h + p)) as (c & -> & Hc & _);
    [unfold is_u32; lia..|]. eauto.
Qed.

End Udp6.
