(* ===== verification/UdpFrame.v ===== *)
(** * UDP frames over IPv4 (dpdk-stdlib-udp/src/lib.rs)

    802.1Q tags ([VlanConfig], [detect_vlan]), the checksum verifiers, the frame
    builders and the parsers.  The blocks of stores the builders have in common, in
    the order of the source, are the [put_] functions: the Ethernet header, the IPv4
    header with its checksum, the UDP header and its checksum. *)

From stdpp Require Import base numbers list strings.
From Stdlib Require Import ZArith Lia.
From S2P Require Import Prelude State Buffer Checksum Codec UdpChecksum.

#[local] Open Scope nat_scope.

(** ** Constants and errors *)

Definition UDP_HEADER_LEN : nat := 8.
Definition TOTAL_HEADER_LEN : nat := ETH_HEADER_LEN + IPV4_HEADER_LEN + UDP_HEADER_LEN.
Definition ETH_TYPE_VLAN : Z := 33024.
Definition VLAN_TAG_LEN : nat := 4.
Definition TOTAL_HEADER_LEN_VLAN : nat :=
  ETH_HEADER_LEN + VLAN_TAG_LEN + IPV4_HEADER_LEN + UDP_HEADER_LEN.
Definition MAX_FRAME_SIZE : Z := 14 + 9001.

(** [UdpError]; the errors of [io] and [dpdk] are carried as they are. *)
Inductive UdpError : Type :=
| UdpInvalidPacket
| ChecksumMismatch
| PacketTooShort (expected actual : Z)
| PayloadTooLarge (max actual : Z)
| PortNotStarted
| UdpNotConnected
| Ipv6NotSupported
| UdpIo (kind : ErrorKind)
| UdpDpdk.

(** ** VLAN tags *)

Inductive VlanMode : Type :=
| Access
| Trunk (allowed_vlans : list Z) (native_vlan : option Z)
| PortTagging.

Record VlanConfig := MkVlan {
  vlan_id : Z;
  priority : Z;
  dei : bool;
  mode : VlanMode;
  force_software : bool }.

#[global] Instance eta_VlanConfig : Eta VlanConfig := fun v =>
  MkVlan (vlan_id v) (priority v) (dei v) (mode v) (force_software v).

(** [VlanConfig::new] and the builder methods; [new] and [with_priority] assert
    their ranges. *)
Definition vlan_new (vlan_id : Z) : outcome VlanConfig :=
  if (vlan_id <=? 4094)%Z then Done (MkVlan vlan_id 0 false PortTagging false) else Panic.

Definition with_priority (v : VlanConfig) (p : Z) : outcome VlanConfig :=
  if (p <=? 7)%Z then Done (v <| priority := p |>) else Panic.

Definition with_dei (v : VlanConfig) (b : bool) : VlanConfig := v <| dei := b |>.

Definition with_mode (v : VlanConfig) (m : VlanMode) : VlanConfig := v <| mode := m |>.

Definition with_force_software (v : VlanConfig) (b : bool) : VlanConfig :=
  v <| force_software := b |>.

(** [VlanConfig::tags_on_tx]. *)
Definition tags_on_tx (v : VlanConfig) : bool :=
  match mode v with Access => false | _ => true end.

(** [VlanConfig::accepts_frame]. *)
Definition accepts_frame (v : VlanConfig) (frame_vid : option Z) : bool :=
  match mode v, frame_vid with
  | Access, None => true
  | Access, Some vid => (vid =? vlan_id v)%Z
  | Trunk allowed _, Some vid => bool_decide (vid ∈ allowed)
  | Trunk _ native, None => bool_decide (is_Some native)
  | PortTagging, Some vid => (vid =? vlan_id v)%Z
  | PortTagging, None => false
  end.

(** [VlanConfig::encode_tci] and [from_tci]. *)
Definition encode_tci (v : VlanConfig) : Z :=
  let pcp := u16 (Z.shiftl (Z.land (priority v) 7) 13) in
  let d := if dei v then Z.shiftl 1 12 else 0%Z in
  let vid := Z.land (vlan_id v) 4095 in
  Z.lor (Z.lor pcp d) vid.

Definition from_tci (tci : Z) : VlanConfig :=
  MkVlan (Z.land tci 4095) (u8 (Z.land (Z.shiftr tci 13) 7))
    (negb (Z.land (Z.shiftr tci 12) 1 =? 0)%Z) PortTagging false.

Record FrameLayout := MkLayout {
  ethertype : Z;
  l3_offset : nat;
  vlan_tci : option Z }.

(** Big-endian 16-bit field at [i]. *)
Definition read16 (l : list Z) (i : nat) : outcome Z :=
  let! a := idx l i in
  let! b := idx l (i + 1) in
  Done (of_be16 a b).

(** [detect_vlan]. *)
Definition detect_vlan (frame : list Z) (hw_vlan_tci : option Z) : outcome (option FrameLayout) :=
  if length frame <? ETH_HEADER_LEN then Done None
  else
    let! outer_ethertype := read16 frame 12 in
    if (outer_ethertype =? ETH_TYPE_VLAN)%Z then
      if length frame <? ETH_HEADER_LEN + VLAN_TAG_LEN then Done None
      else
        let! tci := read16 frame 14 in
        let! inner_ethertype := read16 frame 16 in
        Done (Some (MkLayout inner_ethertype (ETH_HEADER_LEN + VLAN_TAG_LEN) (Some tci)))
    else Done (Some (MkLayout outer_ethertype ETH_HEADER_LEN hw_vlan_tci)).

(** ** Verifying checksums *)

(** The header length from the IHL field, in bytes. *)
Definition ihl_bytes (b : Z) : nat := Z.to_nat (Z.land b 15) * 4.

(** [verify_ipv4_checksum]. *)
Definition verify_ipv4_checksum (frame : list Z) : outcome bool :=
  let! layout := detect_vlan frame None in
  match layout with
  | None => Done false
  | Some layout =>
      let l3 := l3_offset layout in
      if length frame <? l3 + IPV4_HEADER_LEN then Done false
      else
        let! ip_header := slice_from frame l3 in
        let! b0 := idx ip_header 0 in
        let ip_header_len := ihl_bytes b0 in
        if (ip_header_len <? 20) || (length frame <? l3 + ip_header_len) then Done false
        else
          let! words := slice ip_header 0 ip_header_len in
          let! sum := fold_carry FOLD_FUEL (add_words 0 words) in
          Done (u16 sum =? 65535)%Z
  end.

(** [verify_udp_checksum]. *)
Definition verify_udp_checksum (frame : list Z) : outcome bool :=
  let! layout := detect_vlan frame None in
  match layout with
  | None => Done false
  | Some layout =>
      let l3 := l3_offset layout in
      if length frame <? l3 + IPV4_HEADER_LEN + UDP_HEADER_LEN then Done false
      else
        let! b0 := idx frame l3 in
        let udp_start := l3 + ihl_bytes b0 in
        if length frame <? udp_start + UDP_HEADER_LEN then Done false
        else
          let! stored_cksum := read16 frame (udp_start + 6) in
          if (stored_cksum =? 0)%Z then Done true
          else
            let! src_ip := slice frame (l3 + 12) (l3 + 16) in
            let! dst_ip := slice frame (l3 + 16) (l3 + 20) in
            let! udp_len := read16 frame (udp_start + 4) in
            if length frame <? udp_start + Z.to_nat udp_len then Done false
            else
              let sum := add_words 0 src_ip in
              let sum := add_words sum dst_ip in
              let sum := wadd32 sum IP_PROTO_UDP in
              let sum := wadd32 sum udp_len in
              let! udp_data := slice frame udp_start (udp_start + Z.to_nat udp_len) in
              let! s := ones_complement_sum udp_data in
              let! sum := fold_carry FOLD_FUEL (wadd32 sum s) in
              Done (u16 sum =? 65535)%Z
  end.

(** ** Building *)

(** The Ethernet header at [off]. *)
Definition put_eth (out : list Z) (off : nat) (dst src : Mac) (etype : Z) : outcome (list Z) :=
  let! out := blit out off (off + 6) (mac_bytes dst) in
  let! out := blit out (off + 6) (off + 12) (mac_bytes src) in
  blit out (off + 12) (off + 14) (be16 etype).

(** The IPv4 header at [ip], then its checksum. *)
Definition put_ipv4 (out : list Z) (ip : nat) (tos ip_total_len ttl : Z) (src dst : Ipv4Addr)
    : outcome (list Z) :=
  let! out := store out ip 69 in
  let! out := store out (ip + 1) tos in
  let! out := blit out (ip + 2) (ip + 4) (be16 ip_total_len) in
  let! out := blit out (ip + 4) (ip + 6) [0; 0]%Z in
  let! out := blit out (ip + 6) (ip + 8) [64; 0]%Z in
  let! out := store out (ip + 8) ttl in
  let! out := store out (ip + 9) IP_PROTO_UDP in
  let! out := blit out (ip + 10) (ip + 12) [0; 0]%Z in
  let! out := blit out (ip + 12) (ip + 16) (octets src) in
  let! out := blit out (ip + 16) (ip + 20) (octets dst) in
  let! header := slice out ip (ip + IPV4_HEADER_LEN) in
  let! ip_cksum := ipv4_checksum header in
  blit out (ip + 10) (ip + 12) (be16 ip_cksum).

(** The UDP header at [u], with a zero checksum ([write_udp_header] of ipv6.rs). *)
Definition put_udp (out : list Z) (u : nat) (src_port dst_port udp_len : Z) : outcome (list Z) :=
  let! out := blit out u (u + 2) (be16 src_port) in
  let! out := blit out (u + 2) (u + 4) (be16 dst_port) in
  let! out := blit out (u + 4) (u + 6) (be16 udp_len) in
  blit out (u + 6) (u + 8) [0; 0]%Z.

(** The checksum of the UDP header at [u] and [payload]. *)
Definition put_udp_cksum (out : list Z) (u : nat) (src dst : Ipv4Addr) (payload : list Z)
    : outcome (list Z) :=
  let! header := slice out u (u + UDP_HEADER_LEN) in
  let! cksum := udp_checksum (octets src) (octets dst) header payload in
  blit out (u + 6) (u + 8) (be16 cksum).

(** The two lengths every builder computes. *)
Definition ip_total_len (payload : list Z) : Z :=
  u16 (Z.of_nat (IPV4_HEADER_LEN + UDP_HEADER_LEN + length payload)).

Definition udp_len (payload : list Z) : Z := u16 (Z.of_nat (UDP_HEADER_LEN + length payload)).

(** The stores of an untagged frame, from the Ethernet header to the UDP checksum. *)
Definition put_udp_frame (out : list Z) (src_mac dst_mac : Mac) (src_ip dst_ip : Ipv4Addr)
    (src_port dst_port : Z) (payload : list Z) (ttl tos : Z) : outcome (list Z) :=
  let! out := put_eth out 0 dst_mac src_mac ETH_TYPE_IPV4 in
  let! out := put_ipv4 out ETH_HEADER_LEN tos (ip_total_len payload) ttl src_ip dst_ip in
  let udp := ETH_HEADER_LEN + IPV4_HEADER_LEN in
  let! out := put_udp out udp src_port dst_port (udp_len payload) in
  let! out := blit out TOTAL_HEADER_LEN (TOTAL_HEADER_LEN + length payload) payload in
  put_udp_cksum out udp src_ip dst_ip payload.

(** The guard of the builders: the payload must fit the largest frame. *)
Definition too_large (header : nat) (payload : list Z) : option UdpError :=
  let max_payload := (MAX_FRAME_SIZE - Z.of_nat header)%Z in
  if (max_payload <? zlen payload)%Z then Some (PayloadTooLarge max_payload (zlen payload))
  else None.

(** [build_udp_frame]. *)
Definition build_udp_frame (src_mac dst_mac : Mac) (src_ip dst_ip : Ipv4Addr)
    (src_port dst_port : Z) (payload : list Z) (ttl : Z) : outcome (result (list Z) UdpError) :=
  match too_large TOTAL_HEADER_LEN payload with
  | Some e => Done (Err e)
  | None =>
      let frame := replicate (TOTAL_HEADER_LEN + length payload) 0%Z in
      let! frame := put_udp_frame frame src_mac dst_mac src_ip dst_ip src_port dst_port payload ttl 0 in
      Done (Ok frame)
  end.

(** [build_udp_frame_into_with_tos]: the caller's buffer and the length. *)
Definition build_udp_frame_into_with_tos (out : list Z) (src_mac dst_mac : Mac)
    (src_ip dst_ip : Ipv4Addr) (src_port dst_port : Z) (payload : list Z) (ttl tos : Z)
    : outcome (list Z * result Z UdpError) :=
  match too_large TOTAL_HEADER_LEN payload with
  | Some e => Done (out, Err e)
  | None =>
      let total_len := TOTAL_HEADER_LEN + length payload in
      let! out := put_udp_frame (resize out total_len) src_mac dst_mac src_ip dst_ip src_port
                    dst_port payload ttl tos in
      Done (out, Ok (Z.of_nat total_len))
  end.

(** [build_udp_frame_into]. *)
Definition build_udp_frame_into (out : list Z) (src_mac dst_mac : Mac)
    (src_ip dst_ip : Ipv4Addr) (src_port dst_port : Z) (payload : list Z) (ttl : Z)
    : outcome (list Z * result Z UdpError) :=
  match too_large TOTAL_HEADER_LEN payload with
  | Some e => Done (out, Err e)
  | None =>
      let total_len := TOTAL_HEADER_LEN + length payload in
      let! out := put_udp_frame (resize out total_len) src_mac dst_mac src_ip dst_ip src_port
                    dst_port payload ttl 0 in
      Done (out, Ok (Z.of_nat total_len))
  end.

(** [build_udp_frame_into_vlan]. *)
Definition build_udp_frame_into_vlan (out : list Z) (src_mac dst_mac : Mac)
    (src_ip dst_ip : Ipv4Addr) (src_port dst_port : Z) (payload : list Z) (ttl : Z)
    (vlan : VlanConfig) : outcome (list Z * result Z UdpError) :=
  match too_large TOTAL_HEADER_LEN_VLAN payload with
  | Some e => Done (out, Err e)
  | None =>
      let total_len := TOTAL_HEADER_LEN_VLAN + length payload in
      let out := resize out total_len in
      let! out := blit out 0 6 (mac_bytes dst_mac) in
      let! out := blit out 6 12 (mac_bytes src_mac) in
      let! out := blit out 12 14 (be16 ETH_TYPE_VLAN) in
      let! out := blit out 14 16 (be16 (encode_tci vlan)) in
      let! out := blit out 16 18 (be16 ETH_TYPE_IPV4) in
      let ip := ETH_HEADER_LEN + VLAN_TAG_LEN in
      let! out := put_ipv4 out ip 0 (ip_total_len payload) ttl src_ip dst_ip in
      let udp_off := ip + IPV4_HEADER_LEN in
      let! out := put_udp out udp_off src_port dst_port (udp_len payload) in
      let! out := blit out TOTAL_HEADER_LEN_VLAN (TOTAL_HEADER_LEN_VLAN + length payload) payload in
      let! out := put_udp_cksum out udp_off src_ip dst_ip payload in
      Done (out, Ok (Z.of_nat total_len))
  end.

(** [build_udp_packet], into the data region of an mbuf.  The error value of a too
    small region subtracts the header length from its size, which overflows when the
    region is smaller than the headers. *)
Definition build_udp_packet (mbuf : Mbuf) (src_mac dst_mac : Mac) (src_ip dst_ip : Ipv4Addr)
    (src_port dst_port : Z) (payload : list Z) (ttl : Z) : outcome (Mbuf * result unit UdpError) :=
  match too_large TOTAL_HEADER_LEN payload with
  | Some e => Done (mbuf, Err e)
  | None =>
      let total_len := TOTAL_HEADER_LEN + length payload in
      match mbuf_data mbuf with
      | None => Done (mbuf, Err UdpInvalidPacket)
      | Some data =>
          if length data <? total_len then
            if length data <? TOTAL_HEADER_LEN then Panic
            else Done (mbuf, Err (PayloadTooLarge (Z.of_nat (length data - TOTAL_HEADER_LEN))
                                    (zlen payload)))
          else
            let! data := put_udp_frame data src_mac dst_mac src_ip dst_ip src_port dst_port
                           payload ttl 0 in
            let mbuf := mbuf_write mbuf data in
            let mbuf := mbuf <| data_len := u16 (Z.of_nat total_len) |> in
            let mbuf := mbuf <| pkt_len := u32 (Z.of_nat total_len) |> in
            Done (mbuf, Ok tt)
      end
  end.

(** ** Parsing *)

(** [&frame[a..b].try_into::<[u8; 6]>()] as a MAC address; [None] on another length. *)
Definition to_mac (l : list Z) : option Mac :=
  match l with
  | [a; b; c; d; e; f] => Some (MkMac a b c d e f)
  | _ => None
  end.

(** [Ipv4Addr::new] of the four bytes at [i]. *)
Definition read_ipv4 (l : list Z) (i : nat) : outcome Ipv4Addr :=
  let! a := idx l i in
  let! b := idx l (i + 1) in
  let! c := idx l (i + 2) in
  let! d := idx l (i + 3) in
  Done (MkIpv4 a b c d).

Record ParsedUdpPacket := MkUdpPacket {
  u_src_mac : Mac;
  u_dst_mac : Mac;
  u_src_ip : Ipv4Addr;
  u_dst_ip : Ipv4Addr;
  u_src_port : Z;
  u_dst_port : Z;
  u_payload : list Z;
  u_vlan_id : option Z }.

(** [ParsedUdpPacketRef]: the payload borrows from the frame. *)
Record ParsedUdpPacketRef := MkUdpPacketRef {
  r_src_mac : Mac;
  r_src_ip : Ipv4Addr;
  r_dst_ip : Ipv4Addr;
  r_src_port : Z;
  r_dst_port : Z;
  r_payload : list Z;
  r_vlan_id : option Z }.

Definition vid_of (tci : option Z) : option Z :=
  match tci with Some t => Some (Z.land t 4095) | None => None end.

(** [parse_udp_packet]. *)
Definition parse_udp_packet (frame : list Z) : outcome (option ParsedUdpPacket) :=
  let! layout := detect_vlan frame None in
  match layout with
  | None => Done None
  | Some layout =>
  let l3 := l3_offset layout in
  if length frame <? l3 + IPV4_HEADER_LEN + UDP_HEADER_LEN then Done None
  else if negb (ethertype layout =? ETH_TYPE_IPV4)%Z then Done None
  else
    let! dst := slice frame 0 6 in
    match to_mac dst with None => Done None | Some dst_mac =>
    let! src := slice frame 6 12 in
    match to_mac src with None => Done None | Some src_mac =>
    let! ip_header := slice_from frame l3 in
    let! b0 := idx ip_header 0 in
    if negb (Z.land (Z.shiftr b0 4) 15 =? 4)%Z then Done None
    else
      let ip_header_len := ihl_bytes b0 in
      if ip_header_len <? 20 then Done None
      else
        let! proto := idx ip_header 9 in
        if negb (proto =? IP_PROTO_UDP)%Z then Done None
        else
          let! src_ip := read_ipv4 ip_header 12 in
          let! dst_ip := read_ipv4 ip_header 16 in
          let udp_start := l3 + ip_header_len in
          if length frame <? udp_start + UDP_HEADER_LEN then Done None
          else
            let! udp_header := slice_from frame udp_start in
            let! src_port := read16 udp_header 0 in
            let! dst_port := read16 udp_header 2 in
            let! udp_len := read16 udp_header 4 in
            let udp_len := Z.to_nat udp_len in
            if (udp_len <? UDP_HEADER_LEN) || (length frame <? udp_start + udp_len) then Done None
            else
              let payload_start := udp_start + UDP_HEADER_LEN in
              let payload_len := udp_len - UDP_HEADER_LEN in
              let! payload := slice frame payload_start (payload_start + payload_len) in
              Done (Some (MkUdpPacket src_mac dst_mac src_ip dst_ip src_port dst_port payload
                            (vid_of (vlan_tci layout))))
    end end
  end.

(** [parse_udp_packet_ref]. *)
Definition parse_udp_packet_ref (frame : list Z) : outcome (option ParsedUdpPacketRef) :=
  let! layout := detect_vlan frame None in
  match layout with
  | None => Done None
  | Some layout =>
  let l3 := l3_offset layout in
  if length frame <? l3 + IPV4_HEADER_LEN + UDP_HEADER_LEN then Done None
  else if negb (ethertype layout =? ETH_TYPE_IPV4)%Z then Done None
  else
    let! src := slice frame 6 12 in
    match to_mac src with None => Done None | Some src_mac =>
    let! ip_header := slice_from frame l3 in
    let! b0 := idx ip_header 0 in
    if negb (Z.land (Z.shiftr b0 4) 15 =? 4)%Z then Done None
    else
      let ip_header_len := ihl_bytes b0 in
      if ip_header_len <? 20 then Done None
      else
        let! proto := idx ip_header 9 in
        if negb (proto =? IP_PROTO_UDP)%Z then Done None
        else
          let! src_ip := read_ipv4 ip_header 12 in
          let! dst_ip := read_ipv4 ip_header 16 in
          let udp_start := l3 + ip_header_len in
          if length frame <? udp_start + UDP_HEADER_LEN then Done None
          else
            let! udp_header := slice_from frame udp_start in
            let! src_port := read16 udp_header 0 in
            let! dst_port := read16 udp_header 2 in
            let! udp_len := read16 udp_header 4 in
            let udp_len := Z.to_nat udp_len in
            if (udp_len <? UDP_HEADER_LEN) || (length frame <? udp_start + udp_len) then Done None
            else
              let payload_start := udp_start + UDP_HEADER_LEN in
              let payload_len := udp_len - UDP_HEADER_LEN in
              let! payload := slice frame payload_start (payload_start + payload_len) in
              Done (Some (MkUdpPacketRef src_mac src_ip dst_ip src_port dst_port payload
                            (vid_of (vlan_tci layout))))
    end
  end.

(** [parse_udp_from_mbuf]. *)
Definition parse_udp_from_mbuf (mbuf : Mbuf) : outcome (option ParsedUdpPacket) :=
  match mbuf_data mbuf with
  | None => Done None
  | Some data => parse_udp_packet data
  end.
