(* ===== verification/UdpLayout.v ===== *)
(** * Layout, totality and round trip of UDP frames over IPv4

    What the blocks of stores of [UdpFrame] leave in a buffer whatever it held, that
    the builders and the parsers never panic, and that frames are read back and
    verified by the receiver. *)

From stdpp Require Import base numbers list strings.
From Stdlib Require Import ZArith Lia.
From S2P Require Import Prelude State Buffer Checksum Codec CodecOptions CodecFrames.
From S2P Require Import UdpChecksum UdpFrame.

#[local] Open Scope nat_scope.

(** ** Blocks *)

Definition eth_bytes (dst src : Mac) (etype : Z) : list Z :=
  mac_bytes dst ++ mac_bytes src ++ be16 etype.

Definition ip4_pre (tos total ttl : Z) : list Z :=
  [69; tos]%Z ++ be16 total ++ [0; 0; 64; 0; ttl; 17]%Z.

Definition ip4_raw (tos total ttl cksum : Z) (src dst : Ipv4Addr) : list Z :=
  ip4_pre tos total ttl ++ be16 cksum ++ octets src ++ octets dst.

(** The checksum a block of bytes gets; [ipv4_checksum] always returns. *)
Definition cksum_of (l : list Z) : Z := match ipv4_checksum l with Done c => c | _ => 0%Z end.

Lemma cksum_of_done l : ipv4_checksum l = Done (cksum_of l).
Proof. unfold cksum_of. by destruct (ipv4_checksum_total l) as (c & -> & _). Qed.

(** The IPv4 header with its checksum. *)
Definition ip4_bytes (tos total ttl : Z) (src dst : Ipv4Addr) : list Z :=
  ip4_raw tos total ttl (cksum_of (ip4_raw tos total ttl 0 src dst)) src dst.

Definition udp_pre (sp dp len : Z) : list Z := be16 sp ++ be16 dp ++ be16 len.

Definition udp_bytes (sp dp len cksum : Z) : list Z := udp_pre sp dp len ++ be16 cksum.

(** The checksum of a UDP header and payload; [udp_checksum] returns for every
    payload up to 65527 bytes ([udp_checksum_spec]). *)
Definition ucksum_of (src dst : list Z) (header payload : list Z) : Z :=
  match udp_checksum src dst header payload with Done c => c | _ => 0%Z end.

(** One store after the part already written. *)
Ltac put_next :=
  match goal with
  | |- context [blit (?d ++ ?t) ?a ?b ?s] =>
      rewrite (blit_next d t a b s)
        by (rewrite ?length_app, ?length_drop; cbn [length mac_bytes octets be16 be32]; lia)
  | |- context [store (?d ++ ?t) ?a ?v] =>
      rewrite (store_next d t a v)
        by (rewrite ?length_app, ?length_drop; cbn [length mac_bytes octets be16 be32]; lia)
  end; rewrite ?obind_Done; cbv beta.

Lemma put_eth_next d t off dst src etype :
  off = length d -> 14 <= length t ->
  put_eth (d ++ t) off dst src etype = Done ((d ++ eth_bytes dst src etype) ++ drop 14 t).
Proof.
  intros -> Ht. unfold put_eth. do 3 put_next. by rewrite !drop_drop, <- !app_assoc.
Qed.

Lemma put_ipv4_next d t ip tos total ttl src dst :
  ip = length d -> 20 <= length t ->
  put_ipv4 (d ++ t) ip tos total ttl src dst
  = Done ((d ++ ip4_bytes tos total ttl src dst) ++ drop 20 t).
Proof.
  intros -> Ht. unfold put_ipv4, IPV4_HEADER_LEN, IP_PROTO_UDP. do 10 put_next.
  rewrite !drop_drop. cbn [length mac_bytes octets be16 Nat.add].
  match goal with |- context [slice ?f _ _] =>
    replace f with (d ++ ip4_raw tos total ttl 0 src dst ++ drop 20 t)
      by (unfold ip4_raw, ip4_pre; rewrite <- !app_assoc; reflexivity) end.
  rewrite slice_mid, obind_Done by reflexivity. cbv beta.
  rewrite cksum_of_done, obind_Done. cbv beta. unfold ip4_bytes.
  set (c := cksum_of _). unfold ip4_raw. rewrite <- !app_assoc, (app_assoc d).
  rewrite (blit_mid (d ++ ip4_pre tos total ttl) (be16 0))
    by (rewrite ?length_app; cbn; lia). by rewrite <- !app_assoc.
Qed.

Lemma put_udp_next d t u sp dp len :
  u = length d -> 8 <= length t ->
  put_udp (d ++ t) u sp dp len = Done ((d ++ udp_bytes sp dp len 0) ++ drop 8 t).
Proof.
  intros -> Ht. unfold put_udp. do 4 put_next. by rewrite !drop_drop, <- !app_assoc.
Qed.

(** The checksum of a finished header, in place; [k] is what the source passes as
    the payload. *)
Lemma put_udp_cksum_at d rest u sp dp len src dst k c :
  u = length d -> udp_checksum (octets src) (octets dst) (udp_bytes sp dp len 0) k = Done c ->
  put_udp_cksum (d ++ udp_bytes sp dp len 0 ++ rest) u src dst k
  = Done (d ++ udp_bytes sp dp len c ++ rest).
Proof.
  intros -> Hc. unfold put_udp_cksum, UDP_HEADER_LEN.
  rewrite slice_mid, obind_Done by reflexivity. cbv beta. rewrite Hc, obind_Done. cbv beta.
  unfold udp_bytes. rewrite <- !app_assoc, (app_assoc d).
  rewrite (blit_mid (d ++ udp_pre sp dp len) (be16 0)) by (rewrite ?length_app; cbn; lia).
  by rewrite <- !app_assoc.
Qed.

(** ** Frames *)

(** A UDP datagram from the IPv4 header on. *)
Definition dgram (tos ttl : Z) (src dst : Ipv4Addr) (sp dp c : Z) (payload : list Z) : list Z :=
  ip4_bytes tos (ip_total_len payload) ttl src dst
    ++ udp_bytes sp dp (udp_len payload) c ++ payload.

(** The datagram with the checksum [udp_checksum] gives. *)
Definition datagram (tos ttl : Z) (src dst : Ipv4Addr) (sp dp : Z) (payload : list Z) : list Z :=
  dgram tos ttl src dst sp dp
    (ucksum_of (octets src) (octets dst) (udp_bytes sp dp (udp_len payload) 0) payload) payload.

(** Both addresses are octets and the payload is made of bytes; it fits a datagram. *)
Definition wf_udp (src dst : Ipv4Addr) (payload : list Z) : Prop :=
  wf_ipv4 src /\ wf_ipv4 dst /\ Forall is_u8 payload /\ (zlen payload <= 65507)%Z.

Lemma udp_pre_bytes sp dp len : Forall is_u8 (udp_pre sp dp len).
Proof. unfold udp_pre. bytes. Qed.

Lemma ucksum_of_done src dst sp dp len payload :
  wf_udp src dst payload ->
  udp_checksum (octets src) (octets dst) (udp_bytes sp dp len 0) payload
  = Done (ucksum_of (octets src) (octets dst) (udp_bytes sp dp len 0) payload).
Proof.
  intros (Hs & Hd & Hp & Hl). unfold ucksum_of, udp_bytes. change (be16 0) with [0; 0]%Z.
  destruct (udp_checksum_spec (octets src) (octets dst) (udp_pre sp dp len) payload
    ) with (a := 0%Z) (b := 0%Z) as (c & -> & _); auto using octets_bytes, udp_pre_bytes. lia.
Qed.

Lemma length_datagram tos ttl src dst sp dp payload :
  length (datagram tos ttl src dst sp dp payload) = 28 + length payload.
Proof.
  unfold datagram, dgram. rewrite !length_app. reflexivity.
Qed.

(** Writing a datagram after [d]: the block the builders share. *)
Lemma put_datagram d t ip tos ttl src dst sp dp payload :
  ip = length d -> length t = 28 + length payload -> wf_udp src dst payload ->
  (let! out := put_ipv4 (d ++ t) ip tos (ip_total_len payload) ttl src dst in
   let! out := put_udp out (ip + 20) sp dp (udp_len payload) in
   let! out := blit out (ip + 28) (ip + 28 + length payload) payload in
   put_udp_cksum out (ip + 20) src dst payload)
  = Done (d ++ datagram tos ttl src dst sp dp payload).
Proof.
  intros -> Ht Hwf. rewrite put_ipv4_next, obind_Done by lia. cbv beta.
  rewrite put_udp_next, obind_Done by (rewrite ?length_app, ?length_drop; cbn; lia). cbv beta.
  match goal with |- context [blit (?d ++ ?t) ?a ?b ?s] =>
    rewrite (blit_next d t a b s) by (rewrite ?length_app, ?length_drop; cbn; lia) end.
  rewrite obind_Done. cbv beta.
  rewrite drop_ge by (rewrite !length_drop; lia). rewrite app_nil_r, <- !app_assoc, (app_assoc d).
  erewrite put_udp_cksum_at; [|by rewrite length_app|by apply ucksum_of_done].
  unfold datagram, dgram. by rewrite <- !app_assoc.
Qed.

Lemma put_udp_frame_layout out src_mac dst_mac src dst sp dp payload ttl tos :
  length out = 42 + length payload -> wf_udp src dst payload ->
  put_udp_frame out src_mac dst_mac src dst sp dp payload ttl tos
  = Done (eth_bytes dst_mac src_mac ETH_TYPE_IPV4 ++ datagram tos ttl src dst sp dp payload).
Proof.
  intros Hl Hwf. unfold put_udp_frame, ETH_HEADER_LEN, IPV4_HEADER_LEN, TOTAL_HEADER_LEN.
  change out with ([] ++ out). rewrite put_eth_next, obind_Done by (cbn; lia). cbv beta.
  apply (put_datagram ([] ++ eth_bytes dst_mac src_mac ETH_TYPE_IPV4)); [done| |done].
  rewrite length_drop. lia.
Qed.

(** ** The builders *)

(** The link header: MAC addresses, an optional 802.1Q tag, the IPv4 type. *)
Definition link_bytes (dst src : Mac) (tci : option Z) : list Z :=
  mac_bytes dst ++ mac_bytes src
    ++ match tci with None => [] | Some t => be16 ETH_TYPE_VLAN ++ be16 t end
    ++ be16 ETH_TYPE_IPV4.

(** The frame a UDP payload is sent in. *)
Definition udp_frame (src_mac dst_mac : Mac) (tci : option Z) (src dst : Ipv4Addr) (sp dp : Z)
    (payload : list Z) (ttl tos : Z) : list Z :=
  link_bytes dst_mac src_mac tci ++ datagram tos ttl src dst sp dp payload.

Definition link_len (tci : option Z) : nat := match tci with None => 14 | Some _ => 18 end.

Lemma length_link dst src tci : length (link_bytes dst src tci) = link_len tci.
Proof. by destruct tci. Qed.

Lemma length_udp_frame src_mac dst_mac tci src dst sp dp payload ttl tos :
  length (udp_frame src_mac dst_mac tci src dst sp dp payload ttl tos)
  = link_len tci + 28 + length payload.
Proof. unfold udp_frame. rewrite length_app, length_link, length_datagram. lia. Qed.

(** Four steps and a continuation. *)
Lemma obind_chain4 {A B} (m : outcome A) (f g h : A -> outcome A) (k : A -> outcome B) :
  (let! a := m in let! b := f a in let! c := g b in let! d := h c in k d)
  = obind (let! a := m in let! b := f a in let! c := g b in h c) k.
Proof.
  destruct m as [a| |]; [|done..]. cbn [obind]. destruct (f a) as [b| |]; [|done..]. cbn [obind].
  by destruct (g b).
Qed.

Lemma build_vlan_layout out src_mac dst_mac src dst sp dp payload ttl vlan :
  wf_udp src dst payload -> (zlen payload <= 8969)%Z ->
  build_udp_frame_into_vlan out src_mac dst_mac src dst sp dp payload ttl vlan
  = Done (udp_frame src_mac dst_mac (Some (encode_tci vlan)) src dst sp dp payload ttl 0,
          Ok (46 + zlen payload)%Z).
Proof.
  intros Hwf Hl. unfold build_udp_frame_into_vlan, too_large, MAX_FRAME_SIZE.
  change (14 + 9001 - Z.of_nat TOTAL_HEADER_LEN_VLAN)%Z with 8969%Z.
  rewrite (proj2 (Z.ltb_ge _ _)) by lia.
  pose proof (length_resize out (TOTAL_HEADER_LEN_VLAN + length payload)) as Hr.
  revert Hr. generalize (resize out (TOTAL_HEADER_LEN_VLAN + length payload)).
  unfold TOTAL_HEADER_LEN_VLAN, ETH_HEADER_LEN, VLAN_TAG_LEN, IPV4_HEADER_LEN, UDP_HEADER_LEN.
  cbn [Nat.add]. intros o Ho. change o with ([] ++ o). do 5 put_next.
  rewrite !drop_drop. cbn [length mac_bytes be16 Nat.add].
  etransitivity; [apply obind_chain4|].
  erewrite obind_of_done.
  2: { apply (put_datagram (((((([] ++ mac_bytes dst_mac) ++ mac_bytes src_mac) ++
         be16 ETH_TYPE_VLAN) ++ be16 (encode_tci vlan)) ++ be16 ETH_TYPE_IPV4)) _ 18);
       [done|rewrite length_drop; lia|done]. }
  unfold udp_frame, link_bytes, zlen. rewrite <- !app_assoc. do 3 f_equal. lia.
Qed.

(** What [build_udp_frame] returns. *)
Lemma build_udp_frame_bytes src_mac dst_mac src dst sp dp payload ttl :
  wf_udp src dst payload -> (zlen payload <= 8973)%Z ->
  build_udp_frame src_mac dst_mac src dst sp dp payload ttl
  = Done (Ok (udp_frame src_mac dst_mac None src dst sp dp payload ttl 0)).
Proof.
  intros Hwf Hl. unfold build_udp_frame, too_large, MAX_FRAME_SIZE.
  change (14 + 9001 - Z.of_nat TOTAL_HEADER_LEN)%Z with 8973%Z.
  rewrite (proj2 (Z.ltb_ge _ _)) by lia.
  by rewrite put_udp_frame_layout by (rewrite ?length_replicate; done).
Qed.

(** What [build_udp_frame_into] leaves in the buffer. *)
Lemma build_udp_into_bytes out src_mac dst_mac src dst sp dp payload ttl :
  wf_udp src dst payload -> (zlen payload <= 8973)%Z ->
  build_udp_frame_into out src_mac dst_mac src dst sp dp payload ttl
  = Done (udp_frame src_mac dst_mac None src dst sp dp payload ttl 0, Ok (42 + zlen payload)%Z).
Proof.
  intros Hwf Hl. unfold build_udp_frame_into, too_large, MAX_FRAME_SIZE.
  change (14 + 9001 - Z.of_nat TOTAL_HEADER_LEN)%Z with 8973%Z.
  rewrite (proj2 (Z.ltb_ge _ _)) by lia.
  rewrite put_udp_frame_layout by (rewrite ?length_resize; done). cbn [obind]. do 3 f_equal. unfold zlen. cbn. lia.
Qed.

(** The four IPv4 builders agree and never panic: with a payload that fits the largest
    frame they write the same Ethernet, IPv4 and UDP headers and the payload, with no
    byte of the buffer's previous contents, and report the exact length; the tagged
    builder differs by the four tag bytes only; a larger payload is refused and leaves
    the buffer alone. *)
Theorem udp_builders_agree out src_mac dst_mac src dst sp dp payload ttl tos vlan :
  wf_udp src dst payload ->
  let fr tci := udp_frame src_mac dst_mac tci src dst sp dp payload ttl in
  (if (zlen payload <=? 8973)%Z then
     build_udp_frame src_mac dst_mac src dst sp dp payload ttl = Done (Ok (fr None 0%Z)) /\
     build_udp_frame_into out src_mac dst_mac src dst sp dp payload ttl
       = Done (fr None 0%Z, Ok (42 + zlen payload)%Z) /\
     build_udp_frame_into_with_tos out src_mac dst_mac src dst sp dp payload ttl tos
       = Done (fr None tos, Ok (42 + zlen payload)%Z)
   else
     let e := PayloadTooLarge 8973 (zlen payload) in
     build_udp_frame src_mac dst_mac src dst sp dp payload ttl = Done (Err e) /\
     build_udp_frame_into out src_mac dst_mac src dst sp dp payload ttl = Done (out, Err e) /\
     build_udp_frame_into_with_tos out src_mac dst_mac src dst sp dp payload ttl tos
       = Done (out, Err e)) /\
  build_udp_frame_into_vlan out src_mac dst_mac src dst sp dp payload ttl vlan
  = if (zlen payload <=? 8969)%Z then
      Done (fr (Some (encode_tci vlan)) 0%Z, Ok (46 + zlen payload)%Z)
    else Done (out, Err (PayloadTooLarge 8969 (zlen payload))).
Proof.
  intros Hwf fr. split.
  - unfold build_udp_frame_into, build_udp_frame_into_with_tos, build_udp_frame, too_large,
      MAX_FRAME_SIZE.
    change (14 + 9001 - Z.of_nat TOTAL_HEADER_LEN)%Z with 8973%Z.
    destruct (Z.leb_spec (zlen payload) 8973).
    + rewrite !(proj2 (Z.ltb_ge _ _)) by lia.
      rewrite !put_udp_frame_layout by (rewrite ?length_resize, ?length_replicate; done).
      rewrite !obind_Done. subst fr. cbv beta. unfold zlen.
      split_and!; repeat f_equal; unfold TOTAL_HEADER_LEN, ETH_HEADER_LEN, IPV4_HEADER_LEN,
        UDP_HEADER_LEN; lia.
    + rewrite !(proj2 (Z.ltb_lt _ _)) by lia. done.
  - destruct (Z.leb_spec (zlen payload) 8969); [by apply build_vlan_layout|].
    unfold build_udp_frame_into_vlan, too_large, MAX_FRAME_SIZE.
    change (14 + 9001 - Z.of_nat TOTAL_HEADER_LEN_VLAN)%Z with 8969%Z.
    by rewrite (proj2 (Z.ltb_lt _ _)) by lia.
Qed.

Lemma udp_builders_agree_witness :
  build_udp_frame_into [1; 2; 3]%Z (MkMac 2 0 0 0 0 1) (MkMac 2 0 0 0 0 2) (MkIpv4 10 0 0 1)
    (MkIpv4 10 0 0 2) 5000 53 [104; 105]%Z 64
  = Done (udp_frame (MkMac 2 0 0 0 0 1) (MkMac 2 0 0 0 0 2) None (MkIpv4 10 0 0 1)
      (MkIpv4 10 0 0 2) 5000 53 [104; 105]%Z 64 0, Ok 44%Z).
Proof.
  exact (proj1 (proj2 (proj1 (udp_builders_agree [1; 2; 3]%Z (MkMac 2 0 0 0 0 1) (MkMac 2 0 0 0 0 2)
    (MkIpv4 10 0 0 1) (MkIpv4 10 0 0 2) 5000 53 [104; 105]%Z 64 0 (from_tci 0)
    ltac:(split_and!; [done|done|repeat constructor; unfold is_u8; lia|done]))))).
Defined.

(** ** Reading a frame back *)

Lemma slice_from_app pre rest : slice_from (pre ++ rest) (length pre) = Done rest.
Proof. rewrite slice_from_done by (rewrite length_app; lia). by rewrite drop_app_length. Qed.

Lemma to_mac_bytes m : to_mac (mac_bytes m) = Some m.
Proof. by destruct m. Qed.

Lemma detect_vlan_link dst src tci rest :
  (forall t, tci = Some t -> is_u16 t) ->
  detect_vlan (link_bytes dst src tci ++ rest) None
  = Done (Some (MkLayout ETH_TYPE_IPV4 (link_len tci) tci)).
Proof.
  intros Ht. unfold detect_vlan.
  rewrite (proj2 (Nat.ltb_ge _ ETH_HEADER_LEN))
    by (rewrite length_app, length_link; unfold ETH_HEADER_LEN; destruct tci; cbn; lia).
  destruct tci as [t|]; [|done].
  rewrite (proj2 (Nat.ltb_ge _ (ETH_HEADER_LEN + VLAN_TAG_LEN)))
    by (rewrite length_app, length_link; unfold ETH_HEADER_LEN, VLAN_TAG_LEN; cbn; lia).
  unfold read16. change (idx (link_bytes dst src (Some t) ++ rest) 14) with (Done (u8 (t / 256))).
  change (idx (link_bytes dst src (Some t) ++ rest) (14 + 1)) with (Done (u8 t)).
  rewrite !obind_Done. cbv beta. rewrite of_be16_be16 by auto. reflexivity.
Qed.

Lemma link_macs dst src tci rest :
  slice (link_bytes dst src tci ++ rest) 0 6 = Done (mac_bytes dst) /\
  slice (link_bytes dst src tci ++ rest) 6 12 = Done (mac_bytes src).
Proof.
  unfold link_bytes. rewrite <- !app_assoc. split.
  - by apply (slice_mid []).
  - by apply (slice_mid (mac_bytes dst)).
Qed.

(** What the parsers read from the datagram that follows [pre]. *)
Section Datagram.

Context (tos ttl : Z) (src dst : Ipv4Addr) (sp dp : Z) (payload : list Z)
  (Hsp : is_u16 sp) (Hdp : is_u16 dp) (Hlen : (zlen payload <= 65507)%Z).

#[local] Abbreviation D := (datagram tos ttl src dst sp dp payload).

Lemma udp_len_value : udp_len payload = (8 + zlen payload)%Z.
Proof using Hlen. unfold udp_len, zlen in *. rewrite u16_small; unfold is_u16, UDP_HEADER_LEN; lia. Qed.

Lemma datagram_fields rest :
  idx (D ++ rest) 0 = Done 69%Z /\ idx (D ++ rest) 9 = Done 17%Z /\
  read_ipv4 (D ++ rest) 12 = Done src /\ read_ipv4 (D ++ rest) 16 = Done dst.
Proof using. split_and!; try reflexivity; by destruct src, dst. Qed.

Lemma datagram_ports rest :
  read16 (drop 20 (D ++ rest)) 0 = Done sp /\ read16 (drop 20 (D ++ rest)) 2 = Done dp /\
  read16 (drop 20 (D ++ rest)) 4 = Done (8 + zlen payload)%Z.
Proof using Hsp Hdp Hlen.
  rewrite <- udp_len_value.
  assert (forall z a b, a = u8 (z / 256) -> b = u8 z -> is_u16 z -> Done (of_be16 a b) = Done z) as H
    by (intros z a b -> -> Hz; by rewrite of_be16_be16).
  split_and!; (apply H; [reflexivity|reflexivity|]); try done.
  unfold udp_len. auto with words.
Qed.

Lemma datagram_payload pre rest :
  slice (pre ++ D ++ rest) (length pre + 28) (length pre + 28 + length payload) = Done payload.
Proof using.
  unfold datagram, dgram. rewrite <- !app_assoc.
  set (i := ip4_bytes _ _ _ _ _). set (u := udp_bytes _ _ _ _).
  replace (pre ++ i ++ u ++ payload ++ rest) with ((pre ++ i ++ u) ++ payload ++ rest)
    by (by rewrite <- !app_assoc).
  apply slice_mid; [|done]. by rewrite !length_app.
Qed.

End Datagram.

(** The parser on a frame of the builders. *)
Lemma udp_frame_parses src_mac dst_mac tci src dst sp dp payload ttl tos pad :
  wf_udp src dst payload -> is_u16 sp -> is_u16 dp ->
  (forall t, tci = Some t -> is_u16 t) ->
  parse_udp_packet (udp_frame src_mac dst_mac tci src dst sp dp payload ttl tos ++ pad)
  = Done (Some (MkUdpPacket src_mac dst_mac src dst sp dp payload (vid_of tci))).
Proof.
  intros (Hs & Hd & Hp & Hl) Hsp Hdp Ht.
  pose proof (datagram_fields tos ttl src dst sp dp payload pad) as (F0 & F9 & F12 & F16).
  pose proof (datagram_ports tos ttl src dst sp dp payload Hsp Hdp Hl pad) as (P0 & P2 & P4).
  pose proof (datagram_payload tos ttl src dst sp dp payload (link_bytes dst_mac src_mac tci) pad)
    as Hpay.
  pose proof (length_datagram tos ttl src dst sp dp payload) as HD.
  unfold udp_frame. rewrite <- app_assoc. unfold zlen in *.
  set (D := datagram _ _ _ _ _ _ _) in *. unfold parse_udp_packet.
  rewrite detect_vlan_link, obind_Done by done. cbv beta iota.
  cbn [l3_offset ethertype vlan_tci].
  destruct (link_macs dst_mac src_mac tci (D ++ pad)) as [M1 M2].
  rewrite <- (length_link dst_mac src_mac tci) in *. set (L := link_bytes _ _ _) in *.
  rewrite (proj2 (Nat.ltb_ge _ (length L + _ + _)))
    by (rewrite !length_app; unfold IPV4_HEADER_LEN, UDP_HEADER_LEN; lia).
  change (negb (ETH_TYPE_IPV4 =? ETH_TYPE_IPV4)%Z) with false. cbv iota.
  run_step M1. run_step (to_mac_bytes dst_mac). run_step M2. run_step (to_mac_bytes src_mac).
  run_step (slice_from_app L (D ++ pad)). run_step F0.
  change (negb (Z.land (Z.shiftr 69 4) 15 =? 4)%Z) with false. change (ihl_bytes 69) with 20.
  change (20 <? 20) with false. cbv iota. run_step F9.
  change (negb (17 =? IP_PROTO_UDP)%Z) with false. cbv iota. run_step F12. run_step F16.
  rewrite (proj2 (Nat.ltb_ge _ (length L + 20 + _)))
    by (rewrite !length_app; unfold UDP_HEADER_LEN; lia).
  rewrite slice_from_done, obind_Done by (rewrite !length_app; lia). cbv beta.
  rewrite <- drop_drop, drop_app_length. run_step P0. run_step P2. run_step P4.
  unfold UDP_HEADER_LEN.
  replace (Z.to_nat (8 + Z.of_nat (length payload))) with (8 + length payload) by lia.
  rewrite (proj2 (Nat.ltb_ge _ 8)), (proj2 (Nat.ltb_ge _ (length L + 20 + (8 + _))))
    by (rewrite ?length_app; lia). cbn [orb].
  replace (length L + 20 + 8) with (length L + 28) by lia.
  replace (8 + length payload - 8) with (length payload) by lia.
  by run_step Hpay.
Qed.

(** A UDP frame is read back as it was built, tagged or not and whatever padding follows
    it: the addresses, the ports, the payload and the VLAN identifier of the tag. *)
Theorem udp_frame_roundtrip src_mac dst_mac tci src dst sp dp payload ttl tos pad :
  wf_udp src dst payload -> is_u16 sp -> is_u16 dp ->
  (forall t, tci = Some t -> is_u16 t) ->
  parse_udp_packet (udp_frame src_mac dst_mac tci src dst sp dp payload ttl tos ++ pad)
  = Done (Some (MkUdpPacket src_mac dst_mac src dst sp dp payload (vid_of tci))).
Proof. apply udp_frame_parses. Qed.

Lemma udp_frame_roundtrip_witness :
  parse_udp_packet (udp_frame (MkMac 2 0 0 0 0 1) (MkMac 2 0 0 0 0 2) (Some 4106%Z) (MkIpv4 10 0 0 1)
    (MkIpv4 10 0 0 2) 5000 53 [104; 105]%Z 64 0 ++ [0; 0; 0]%Z)
  = Done (Some (MkUdpPacket (MkMac 2 0 0 0 0 1) (MkMac 2 0 0 0 0 2) (MkIpv4 10 0 0 1)
      (MkIpv4 10 0 0 2) 5000 53 [104; 105]%Z (Some 10%Z))).
Proof.
  apply (udp_frame_roundtrip (MkMac 2 0 0 0 0 1) (MkMac 2 0 0 0 0 2) (Some 4106%Z)).
  - split_and!; [done|done|repeat constructor; unfold is_u8; lia|done].
  - done.
  - done.
  - intros t E. injection E as <-. done.
Defined.

(** ** The parsers never panic *)

Lemma to_mac_total l : length l = 6 -> exists m, to_mac l = Some m.
Proof. intros H. destruct l as [|? [|? [|? [|? [|? [|? [|]]]]]]]; try done. eexists. reflexivity. Qed.

Lemma read16_total l i : i + 1 < length l -> exists z, read16 l i = Done z.
Proof. intros H. unfold read16. idx_total. eauto. Qed.

Lemma read_ipv4_total l i : i + 3 < length l -> exists z, read_ipv4 l i = Done z.
Proof. intros H. unfold read_ipv4. idx_total. eauto. Qed.

Lemma detect_vlan_total frame tci :
  exists r, detect_vlan frame tci = Done r /\
    forall l, r = Some l -> 14 <= l3_offset l <= length frame.
Proof.
  unfold detect_vlan, ETH_HEADER_LEN, VLAN_TAG_LEN.
  destruct (Nat.ltb_spec (length frame) 14); [by exists None|].
  destruct (read16_total frame 12) as [e ->]; [lia|]. cbn [obind].
  destruct (Z.eqb_spec e ETH_TYPE_VLAN).
  - destruct (Nat.ltb_spec (length frame) (14 + 4)); [by exists None|].
    destruct (read16_total frame 14) as [t ->]; [lia|]. cbn [obind].
    destruct (read16_total frame 16) as [t' ->]; [lia|]. cbn [obind].
    eexists. split; [reflexivity|]. intros l [= <-]. cbn [l3_offset]. lia.
  - eexists. split; [reflexivity|]. intros l [= <-]. cbn [l3_offset]. lia.
Qed.

(** Resolves the next read of a parser, in range by the guards passed. *)
Ltac parse_step :=
  match goal with
  | |- context [obind (slice_from ?l ?a)] =>
      rewrite (slice_from_done l a) by (rewrite ?length_drop; lia)
  | |- context [obind (slice ?l ?a ?b)] => rewrite (slice_in_range l a b) by (rewrite ?length_drop; lia)
  | |- context [obind (idx ?l ?i)] =>
      let E := fresh in destruct (idx_in_range l i) as (? & _ & E);
      [rewrite ?length_drop; lia|rewrite E; clear E]
  | |- context [obind (read16 ?l ?i)] =>
      let E := fresh in destruct (read16_total l i) as [? E]; [rewrite ?length_drop; lia|rewrite E; clear E]
  | |- context [obind (read_ipv4 ?l ?i)] =>
      let E := fresh in destruct (read_ipv4_total l i) as [? E];
      [rewrite ?length_drop; lia|rewrite E; clear E]
  | |- context [match to_mac ?l with _ => _ end] =>
      let E := fresh in destruct (to_mac_total l) as [? E];
      [rewrite length_take, ?length_drop; lia|rewrite E; clear E]
  | |- context [if ?c then _ else _] => bcase_on c; cbn [negb andb orb]
  end; rewrite ?obind_Done; cbv beta iota.

(** The packet a borrowing parser reports. *)
Definition ref_of (p : ParsedUdpPacket) : ParsedUdpPacketRef :=
  MkUdpPacketRef (u_src_mac p) (u_src_ip p) (u_dst_ip p) (u_src_port p) (u_dst_port p)
    (u_payload p) (u_vlan_id p).

(** Both UDP parsers return on every byte string (no truncated header, wrong length
    field or short frame makes them index out of range), and the zero-copy parser
    answers exactly what the allocating one does, the destination MAC apart. *)
Theorem udp_parsers_total_and_agree frame :
  exists r, parse_udp_packet frame = Done r /\
    parse_udp_packet_ref frame = Done (option_map ref_of r).
Proof.
  unfold parse_udp_packet, parse_udp_packet_ref.
  destruct (detect_vlan_total frame None) as ([l|] & -> & Hl); [|by exists None].
  specialize (Hl l eq_refl). cbn [obind]. unfold IPV4_HEADER_LEN, UDP_HEADER_LEN.
  assert (forall b, ihl_bytes b >= 0) as Hi by (intros; lia).
  repeat parse_step; try (by exists None).
  eexists. split; [reflexivity|]. done.
Qed.

(** ** The receiver's checks *)

Lemma ip4_pre_bytes tos total ttl :
  is_u8 tos -> is_u8 ttl -> Forall is_u8 (ip4_pre tos total ttl).
Proof. intros H1 H2. unfold ip4_pre. bytes. Qed.

Lemma checksum_zero_fold l :
  ipv4_checksum l = Done 0%Z ->
  exists r, fold_carry FOLD_FUEL (add_words 0 l) = Done r /\ u16 r = 65535%Z.
Proof.
  unfold ipv4_checksum. destruct (fold_carry _ _) as [r| |]; [|done..]. intros H0. exists r.
  split; [done|]. cbn [obind] in H0. assert (u16 (Z.lnot (u16 r)) = 0%Z) as E by congruence.
  unfold Z.lnot in E. wrap_lia.
Qed.

Lemma ip4_bytes_fold tos total ttl src dst :
  is_u8 tos -> is_u8 ttl -> wf_ipv4 src -> wf_ipv4 dst ->
  exists r, fold_carry FOLD_FUEL (add_words 0 (ip4_bytes tos total ttl src dst)) = Done r /\
    u16 r = 65535%Z.
Proof.
  intros Ht Hl Hs Hd.
  destruct (ipv4_checksum_verifies (ip4_pre tos total ttl) (octets src ++ octets dst) 5
    (cksum_of (ip4_raw tos total ttl 0 src dst))) as [_ H0];
    [by apply ip4_pre_bytes|apply Forall_app_2; by apply octets_bytes|done|
     rewrite zlen_app; unfold zlen; cbn; lia|apply cksum_of_done|].
  exact (checksum_zero_fold _ H0).
Qed.

Lemma udp_bytes_sum sp dp len c payload :
  is_u16 c ->
  word_sum (udp_bytes sp dp len c ++ payload)
  = (word_sum (udp_pre sp dp len) + c + word_sum payload)%Z.
Proof.
  intros Hc. unfold udp_bytes. rewrite <- app_assoc, (word_sum_app_even _ _ 3) by done.
  rewrite (word_sum_app_even (be16 c) _ 1), word_sum_be16 by done. lia.
Qed.

(** The sum the verifier folds. *)
Lemma segment_fold src dst sp dp payload :
  wf_udp src dst payload ->
  let c := ucksum_of (octets src) (octets dst) (udp_bytes sp dp (udp_len payload) 0) payload in
  exists s, ones_complement_sum (udp_bytes sp dp (udp_len payload) c ++ payload) = Done s /\
    (c <> 0)%Z /\ is_u16 c /\
    fold_carry FOLD_FUEL
      (wadd32 (wadd32 (wadd32 (add_words (add_words 0 (octets src)) (octets dst)) IP_PROTO_UDP)
         (8 + zlen payload)) s) = Done 65535%Z.
Proof.
  intros (Hs & Hd & Hp & Hl) c. apply octets_bytes in Hs, Hd. pose proof (zlen_nonneg payload).
  pose proof (udp_pre_bytes sp dp (udp_len payload)) as Hh.
  destruct (udp_checksum_spec (octets src) (octets dst) (udp_pre sp dp (udp_len payload)) payload)
    with (a := 0%Z) (b := 0%Z) as (c' & Ec & Hc & Hm); try done; [lia|].
  assert (c = c') as -> by (subst c; unfold ucksum_of, udp_bytes; change (be16 0) with [0; 0]%Z; by rewrite Ec).
  assert (is_u16 c') as Hc16 by (unfold is_u16; lia).
  destruct (ones_complement_residue (udp_bytes sp dp (udp_len payload) c' ++ payload))
    as (s & Es & Hsr & Hsm & _).
  { unfold udp_bytes. auto using Forall_app_2, be16_bytes. }
  { rewrite zlen_app. change (zlen (udp_bytes _ _ _ _)) with 8%Z. lia. }
  exists s. rewrite udp_bytes_sum in Hsm by done. split_and!; [done|lia|done|].
  pose proof (udp_sum_bounds (octets src) (octets dst) _ payload Hs Hd Hh eq_refl eq_refl eq_refl
    ltac:(lia)) as Hb. unfold udp_sum in Hb, Hm.
  pose proof (word_sum_small _ 4 Hs eq_refl). pose proof (word_sum_small _ 4 Hd eq_refl).
  pose proof (word_sum_small _ 6 Hh eq_refl).
  rewrite (add_words_sum (octets src)) by (done || lia). rewrite Z.add_0_l.
  rewrite (add_words_sum (octets dst)) by (done || lia).
  unfold wadd32, IP_PROTO_UDP.
  rewrite (u32_small (_ + 17)) by (unfold is_u32; lia).
  rewrite (u32_small (_ + _ + 17 + _)) by (unfold is_u32; lia).
  rewrite u32_small by (unfold is_u32; lia).
  apply fold_to_ffff; [unfold is_u32; lia|lia|].
  rewrite <- Zplus_mod_idemp_r, Hsm, Zplus_mod_idemp_r, <- Hm. f_equal. lia.
Qed.

Section Verify.

Context (L : list Z) (tci : option Z) (tos ttl : Z) (src dst : Ipv4Addr) (sp dp : Z)
  (payload pad : list Z) (Hwf : wf_udp src dst payload) (Hto : is_u8 tos) (Htt : is_u8 ttl).
Context (HL : length L = link_len tci)
  (Hdet : detect_vlan (L ++ datagram tos ttl src dst sp dp payload ++ pad) None
          = Done (Some (MkLayout ETH_TYPE_IPV4 (link_len tci) tci))).

#[local] Abbreviation F := (L ++ datagram tos ttl src dst sp dp payload ++ pad).
#[local] Abbreviation ck :=
  (ucksum_of (octets src) (octets dst) (udp_bytes sp dp (udp_len payload) 0) payload).

Lemma frame_len : length F = link_len tci + 28 + length payload + length pad.
Proof using HL. rewrite !length_app, length_datagram, HL. lia. Qed.

Lemma frame_cksum_field : read16 F (link_len tci + 26) = Done ck.
Proof using HL Hwf.
  destruct (segment_fold src dst sp dp payload Hwf) as (s & _ & _ & Hc16 & _).
  rewrite <- HL. unfold read16. rewrite <- !Nat.add_assoc, !idx_app.
  change (Done (of_be16 (u8 (ck / 256)) (u8 ck)) = Done ck). by rewrite of_be16_be16.
Qed.

Lemma frame_len_field : read16 F (link_len tci + 24) = Done (8 + zlen payload)%Z.
Proof using HL Hwf.
  destruct Hwf as (_ & _ & _ & Hl). rewrite <- HL, <- (udp_len_value payload Hl).
  unfold read16. rewrite <- !Nat.add_assoc, !idx_app.
  change (Done (of_be16 (u8 (udp_len payload / 256)) (u8 (udp_len payload)))
          = Done (udp_len payload)).
  rewrite of_be16_be16; [done|]. unfold udp_len. auto with words.
Qed.

Lemma frame_addresses :
  slice F (link_len tci + 12) (link_len tci + 16) = Done (octets src) /\
  slice F (link_len tci + 16) (link_len tci + 20) = Done (octets dst).
Proof using HL.
  unfold datagram, dgram, ip4_bytes, ip4_raw. set (k := be16 (cksum_of _)).
  set (U := udp_bytes _ _ _ _). set (P := ip4_pre _ _ _).
  replace (L ++ ((P ++ k ++ octets src ++ octets dst) ++ U ++ payload) ++ pad)
    with ((L ++ P ++ k) ++ octets src ++ octets dst ++ U ++ payload ++ pad) by (by rewrite <- !app_assoc).
  split; [apply slice_mid; [rewrite !length_app, HL|]; cbn; lia|].
  rewrite (app_assoc _ (octets src)). apply slice_mid; [rewrite !length_app, HL|]; cbn; lia.
Qed.

Lemma frame_segment :
  slice F (link_len tci + 20) (link_len tci + 20 + (8 + length payload))
  = Done (udp_bytes sp dp (udp_len payload) ck ++ payload).
Proof using HL.
  unfold datagram, dgram. set (U := udp_bytes _ _ _ _). set (I := ip4_bytes _ _ _ _ _).
  replace (L ++ (I ++ U ++ payload) ++ pad) with ((L ++ I) ++ (U ++ payload) ++ pad)
    by (by rewrite <- !app_assoc).
  apply slice_mid; rewrite ?length_app, ?HL; cbn; lia.
Qed.

Lemma verify_ipv4_frame : verify_ipv4_checksum F = Done true.
Proof using Hwf Hto Htt HL Hdet.
  destruct Hwf as (Hs & Hd & _). unfold verify_ipv4_checksum. run_step Hdet. cbn [l3_offset].
  destruct (ip4_bytes_fold tos (ip_total_len payload) ttl src dst Hto Htt Hs Hd) as (r & Er & Hr).
  rewrite (proj2 (Nat.ltb_ge _ _)) by (rewrite frame_len; unfold IPV4_HEADER_LEN; lia).
  rewrite <- HL at 1. run_step (slice_from_app L (datagram tos ttl src dst sp dp payload ++ pad)).
  change (idx (datagram tos ttl src dst sp dp payload ++ pad) 0) with (Done 69%Z). rewrite obind_Done.
  cbv beta zeta. change (ihl_bytes 69) with 20. change (20 <? 20) with false.
  rewrite (proj2 (Nat.ltb_ge _ _)) by (rewrite frame_len; lia). cbn [orb].
  assert (slice (datagram tos ttl src dst sp dp payload ++ pad) 0 20
          = Done (ip4_bytes tos (ip_total_len payload) ttl src dst)) as E
    by (unfold datagram, dgram; rewrite <- !app_assoc; by apply (slice_mid [])).
  run_step E.
  run_step Er. by rewrite Hr.
Qed.

Lemma verify_udp_frame : verify_udp_checksum F = Done true.
Proof using Hwf HL Hdet.
  destruct (segment_fold src dst sp dp payload Hwf) as (s & Es & Hc & _ & Hf).
  destruct frame_addresses as [S1 S2]. pose proof frame_cksum_field as Hck.
  pose proof frame_segment as S3. pose proof frame_len_field as Hle. pose proof frame_len as Hn.
  assert (idx F (link_len tci) = Done 69%Z) as H0 by (rewrite <- HL; apply idx_app_0).
  set (f := F) in *. unfold verify_udp_checksum. run_step Hdet. cbn [l3_offset].
  rewrite (proj2 (Nat.ltb_ge _ _)) by (rewrite Hn; unfold IPV4_HEADER_LEN, UDP_HEADER_LEN; lia).
  run_step H0. change (ihl_bytes 69) with 20.
  rewrite (proj2 (Nat.ltb_ge _ _)) by (rewrite Hn; unfold UDP_HEADER_LEN; lia).
  replace (link_len tci + 20 + 6) with (link_len tci + 26) by lia. run_step Hck.
  rewrite (proj2 (Z.eqb_neq _ _)) by done. run_step S1. run_step S2.
  replace (link_len tci + 20 + 4) with (link_len tci + 24) by lia. run_step Hle.
  unfold zlen in *. replace (Z.to_nat (8 + Z.of_nat (length payload))) with (8 + length payload) by lia.
  rewrite (proj2 (Nat.ltb_ge _ _)) by (rewrite Hn; lia).
  run_step S3. run_step Es. by run_step Hf.
Qed.

End Verify.

(** A receiver that verifies checksums accepts every UDP frame the builders make, tagged
    or not and padded or not: the IPv4 header check and the UDP check over the pseudo-header both answer
    true, and the UDP checksum field is never zero, the value that disables the check. *)
Theorem udp_frame_checksums_verify src_mac dst_mac tci src dst sp dp payload ttl tos pad :
  wf_udp src dst payload -> is_u8 ttl -> is_u8 tos -> (forall t, tci = Some t -> is_u16 t) ->
  let f := udp_frame src_mac dst_mac tci src dst sp dp payload ttl tos ++ pad in
  verify_ipv4_checksum f = Done true /\ verify_udp_checksum f = Done true /\
  exists c, read16 f (link_len tci + 26) = Done c /\ c <> 0%Z.
Proof.
  intros Hwf Htt Hto Ht f. pose proof (length_link dst_mac src_mac tci) as HL.
  pose proof (detect_vlan_link dst_mac src_mac tci (datagram tos ttl src dst sp dp payload ++ pad) Ht) as Hd.
  unfold f, udp_frame. rewrite <- app_assoc.
  split_and!; [by eapply verify_ipv4_frame|by eapply verify_udp_frame|].
  eexists. split; [by apply frame_cksum_field|].
  by destruct (segment_fold src dst sp dp payload Hwf) as (s & _ & Hc & _).
Qed.

Lemma udp_frame_checksums_verify_witness :
  verify_udp_checksum (udp_frame (MkMac 2 0 0 0 0 1) (MkMac 2 0 0 0 0 2) None (MkIpv4 10 0 0 1)
    (MkIpv4 10 0 0 2) 5000 53 [104; 105; 106]%Z 64 0 ++ [0; 0]%Z) = Done true.
Proof.
  exact (proj1 (proj2 (udp_frame_checksums_verify (MkMac 2 0 0 0 0 1) (MkMac 2 0 0 0 0 2) None
    (MkIpv4 10 0 0 1) (MkIpv4 10 0 0 2) 5000 53 [104; 105; 106]%Z 64 0 [0; 0]%Z
    ltac:(split_and!; [done|done|repeat constructor; unfold is_u8; lia|done]) ltac:(done) ltac:(done)
    ltac:(intros t E; discriminate E)))).
Defined.

(** ** Tags *)

(** The range the constructors assert. *)
Definition wf_vlan (v : VlanConfig) : Prop := (0 <= vlan_id v <= 4094 /\ 0 <= priority v <= 7)%Z.

Lemma encode_tci_value v :
  wf_vlan v -> encode_tci v = (priority v * 8192 + (if dei v then 4096 else 0) + vlan_id v)%Z.
Proof.
  intros [Hv Hp]. unfold encode_tci.
  change 7%Z with (Z.ones 3). change 4095%Z with (Z.ones 12). rewrite !land_low by lia.
  rewrite (Z.mod_small (priority v)), (Z.mod_small (vlan_id v)) by lia.
  rewrite (Z.shiftl_mul_pow2 _ 13), u16_small by (unfold is_u16; lia).
  replace (priority v * 2 ^ 13)%Z with (Z.shiftl (priority v) 13)
    by (by rewrite Z.shiftl_mul_pow2 by lia).
  rewrite lor_shiftl_small by (try lia; by destruct (dei v)).
  replace (priority v * 2 ^ 13 + (if dei v then Z.shiftl 1 12 else 0))%Z
    with (Z.shiftl (priority v * 2 + (if dei v then 1 else 0)) 12)
    by (rewrite Z.shiftl_mul_pow2 by lia; change (Z.shiftl 1 12) with 4096%Z; destruct (dei v); lia).
  rewrite lor_shiftl_small by lia. destruct (dei v); lia.
Qed.

Lemma encode_tci_u16 v : wf_vlan v -> is_u16 (encode_tci v).
Proof.
  intros H. rewrite encode_tci_value by done. destruct H. unfold is_u16. destruct (dei v); lia.
Qed.

(** The tag a sender encodes is the tag a receiver decodes. *)
Lemma tci_roundtrip v :
  wf_vlan v ->
  from_tci (encode_tci v) = MkVlan (vlan_id v) (priority v) (dei v) PortTagging false.
Proof.
  intros H. unfold from_tci. rewrite encode_tci_value by done. destruct H as [Hv Hp].
  change 4095%Z with (Z.ones 12). change 7%Z with (Z.ones 3). change 1%Z with (Z.ones 1).
  rewrite !land_low, !shiftr_div by lia. f_equal.
  - destruct (dei v); mod_lia.
  - rewrite u8_small; [|unfold is_u8]; destruct (dei v); mod_lia.
  - destruct (dei v); [rewrite (proj2 (Z.eqb_neq _ _))|rewrite (proj2 (Z.eqb_eq _ _))];
      try done; mod_lia.
Qed.

(** ** The mbuf builder on a short data region *)

(** With a data region of fewer than 42 bytes [build_udp_packet] does not report an
    error: the size it puts into the error underflows. *)
Lemma build_udp_packet_short_region mbuf data src_mac dst_mac src dst sp dp payload ttl :
  mbuf_data mbuf = Some data -> length data < 42 -> (zlen payload <= 8973)%Z ->
  build_udp_packet mbuf src_mac dst_mac src dst sp dp payload ttl = Panic.
Proof.
  intros Hd Hl Hp. unfold build_udp_packet, too_large, MAX_FRAME_SIZE.
  change (14 + 9001 - Z.of_nat TOTAL_HEADER_LEN)%Z with 8973%Z.
  rewrite (proj2 (Z.ltb_ge _ _)) by lia. rewrite Hd.
  unfold TOTAL_HEADER_LEN, ETH_HEADER_LEN, IPV4_HEADER_LEN, UDP_HEADER_LEN. cbn [Nat.add].
  rewrite !(proj2 (Nat.ltb_lt _ _)) by lia. done.
Qed.
