(* ===== verification/Udp6Frame.v ===== *)
(** * UDP frames over IPv6 (dpdk-stdlib-udp/src/ipv6.rs)

    The walk over the extension headers, the builders, the verifier and the parsers.
    An [Ipv6Addr] is its 128-bit value. *)

From stdpp Require Import base numbers list strings.
From Stdlib Require Import ZArith Lia.
From S2P Require Import Prelude State Buffer Checksum Codec CodecOptions CodecFrames.
From S2P Require Import UdpChecksum UdpFrame UdpLayout.

#[local] Open Scope nat_scope.

(** ** Addresses *)

Definition Ipv6Addr : Type := Z.

Fixpoint be_bytes (n : nat) (z : Z) : list Z :=
  match n with
  | O => []
  | S k => u8 (z / 256 ^ Z.of_nat k) :: be_bytes k z
  end.

(** [Ipv6Addr::octets]. *)
Definition octets6 (a : Ipv6Addr) : list Z := be_bytes 16 a.

(** [Ipv6Addr::from] of 16 octets. *)
Definition of_octets6 (l : list Z) : Ipv6Addr := fold_left (fun acc b => acc * 256 + b)%Z l 0%Z.

Definition is_u128 (z : Z) : Prop := (0 <= z < 2 ^ 128)%Z.

(** ** Constants *)

Definition IPV6_HEADER_LEN : nat := 40.
Definition ETH_TYPE_IPV6 : Z := 34525.
Definition TOTAL_HEADER_LEN_V6 : nat := ETH_HEADER_LEN + IPV6_HEADER_LEN + UDP_HEADER_LEN.
Definition IP_PROTO_HOPOPT : Z := 0.
Definition IP_PROTO_ROUTING : Z := 43.
Definition IP_PROTO_FRAGMENT : Z := 44.
Definition IP_PROTO_ICMPV6 : Z := 58.
Definition IP_PROTO_DSTOPTS : Z := 60.
Definition MAX_FRAME_SIZE_V6 : Z := 14 + 9001.

(** ** Extension headers *)

Record Ipv6NextHeader := MkNextHeader { protocol : Z; payload_offset : nat }.

(** The loop of [walk_extension_headers]. *)
Fixpoint walk_loop (fuel : nat) (data : list Z) (next_header : Z) (offset : nat)
    : outcome (option Ipv6NextHeader) :=
  match fuel with
  | O => OutOfFuel
  | S fuel =>
      if (next_header =? IP_PROTO_HOPOPT)%Z || (next_header =? IP_PROTO_ROUTING)%Z
         || (next_header =? IP_PROTO_DSTOPTS)%Z then
        if length data <? offset + 2 then Done None
        else
          let! ext_next := idx data offset in
          let! l := idx data (offset + 1) in
          let ext_len := (Z.to_nat l + 1) * 8 in
          if length data <? offset + ext_len then Done None
          else walk_loop fuel data ext_next (offset + ext_len)
      else if (next_header =? IP_PROTO_FRAGMENT)%Z then
        if length data <? offset + 8 then Done None
        else
          let! ext_next := idx data offset in
          walk_loop fuel data ext_next (offset + 8)
      else Done (Some (MkNextHeader next_header offset))
  end.

(** [walk_extension_headers]: every turn but the last moves at least eight bytes
    on, so [length data] turns are more than enough. *)
Definition walk_extension_headers (data : list Z) : outcome (option Ipv6NextHeader) :=
  if length data <? IPV6_HEADER_LEN then Done None
  else
    let! next_header := idx data 6 in
    walk_loop (S (length data)) data next_header IPV6_HEADER_LEN.

(** ** Building *)

(** [write_ipv6_header]. *)
Definition write_ipv6_header (buf : list Z) (ip : nat) (src dst : Ipv6Addr)
    (payload_length next_header hop_limit : Z) : outcome (list Z) :=
  let! buf := store buf ip 96 in
  let! buf := store buf (ip + 1) 0 in
  let! buf := store buf (ip + 2) 0 in
  let! buf := store buf (ip + 3) 0 in
  let! buf := blit buf (ip + 4) (ip + 6) (be16 payload_length) in
  let! buf := store buf (ip + 6) next_header in
  let! buf := store buf (ip + 7) hop_limit in
  let! buf := blit buf (ip + 8) (ip + 24) (octets6 src) in
  blit buf (ip + 24) (ip + 40) (octets6 dst).

(** The checksum of the UDP header at [u] and [payload]. *)
Definition put_udp6_cksum (out : list Z) (u : nat) (src dst : Ipv6Addr) (payload : list Z)
    : outcome (list Z) :=
  let! header := slice out u (u + UDP_HEADER_LEN) in
  let! cksum := udp6_checksum (octets6 src) (octets6 dst) header payload in
  blit out (u + 6) (u + 8) (be16 cksum).

(** The stores of the two builders. *)
Definition put_udp6_frame (out : list Z) (src_mac dst_mac : Mac) (src_ip dst_ip : Ipv6Addr)
    (src_port dst_port : Z) (payload : list Z) (hop_limit : Z) : outcome (list Z) :=
  let! out := put_eth out 0 dst_mac src_mac ETH_TYPE_IPV6 in
  let! out := write_ipv6_header out ETH_HEADER_LEN src_ip dst_ip (udp_len payload) IP_PROTO_UDP
                hop_limit in
  let udp_off := ETH_HEADER_LEN + IPV6_HEADER_LEN in
  let! out := put_udp out udp_off src_port dst_port (udp_len payload) in
  let! out := blit out TOTAL_HEADER_LEN_V6 (TOTAL_HEADER_LEN_V6 + length payload) payload in
  put_udp6_cksum out udp_off src_ip dst_ip payload.

Definition too_large6 (payload : list Z) : option UdpError :=
  let max_payload := (MAX_FRAME_SIZE_V6 - Z.of_nat TOTAL_HEADER_LEN_V6)%Z in
  if (max_payload <? zlen payload)%Z then Some (PayloadTooLarge max_payload (zlen payload))
  else None.

(** [build_udp6_frame]. *)
Definition build_udp6_frame (src_mac dst_mac : Mac) (src_ip dst_ip : Ipv6Addr)
    (src_port dst_port : Z) (payload : list Z) (hop_limit : Z)
    : outcome (result (list Z) UdpError) :=
  match too_large6 payload with
  | Some e => Done (Err e)
  | None =>
      let! frame := put_udp6_frame (replicate (TOTAL_HEADER_LEN_V6 + length payload) 0%Z)
                      src_mac dst_mac src_ip dst_ip src_port dst_port payload hop_limit in
      Done (Ok frame)
  end.

(** [build_udp6_frame_into]. *)
Definition build_udp6_frame_into (out : list Z) (src_mac dst_mac : Mac) (src_ip dst_ip : Ipv6Addr)
    (src_port dst_port : Z) (payload : list Z) (hop_limit : Z)
    : outcome (list Z * result Z UdpError) :=
  match too_large6 payload with
  | Some e => Done (out, Err e)
  | None =>
      let total_len := TOTAL_HEADER_LEN_V6 + length payload in
      let! out := put_udp6_frame (resize out total_len) src_mac dst_mac src_ip dst_ip src_port
                    dst_port payload hop_limit in
      Done (out, Ok (Z.of_nat total_len))
  end.

(** ** Verifying and parsing *)

(** [verify_udp6_checksum]. *)
Definition verify_udp6_checksum (frame : list Z) : outcome bool :=
  let! layout := detect_vlan frame None in
  match layout with
  | None => Done false
  | Some layout =>
  if negb (ethertype layout =? ETH_TYPE_IPV6)%Z then Done false
  else
    let l3 := l3_offset layout in
    if length frame <? l3 + IPV6_HEADER_LEN then Done false
    else
      let! data := slice_from frame l3 in
      let! nh := walk_extension_headers data in
      match nh with
      | None => Done false
      | Some nh =>
      if negb (protocol nh =? IP_PROTO_UDP)%Z then Done false
      else
        let udp_start := l3 + payload_offset nh in
        if length frame <? udp_start + UDP_HEADER_LEN then Done false
        else
          let! stored_cksum := read16 frame (udp_start + 6) in
          if (stored_cksum =? 0)%Z then Done false
          else
            let! src := slice frame (l3 + 8) (l3 + 24) in
            let! dst := slice frame (l3 + 24) (l3 + 40) in
            let! udp_len := read16 frame (udp_start + 4) in
            let udp_len := Z.to_nat udp_len in
            if (udp_len <? UDP_HEADER_LEN) || (length frame <? udp_start + udp_len)
            then Done false
            else
              let! udp_header := slice frame udp_start (udp_start + UDP_HEADER_LEN) in
              let! payload := slice frame (udp_start + UDP_HEADER_LEN) (udp_start + udp_len) in
              let! computed := udp6_checksum (octets6 (of_octets6 src)) (octets6 (of_octets6 dst))
                                 udp_header payload in
              Done (computed =? stored_cksum)%Z
      end
  end.

Record ParsedUdp6Packet := MkUdp6Packet {
  v6_src_mac : Mac;
  v6_dst_mac : Mac;
  v6_src_ip : Ipv6Addr;
  v6_dst_ip : Ipv6Addr;
  v6_src_port : Z;
  v6_dst_port : Z;
  v6_payload : list Z;
  v6_vlan_id : option Z }.

Record ParsedUdp6PacketRef := MkUdp6PacketRef {
  v6r_src_mac : Mac;
  v6r_src_ip : Ipv6Addr;
  v6r_dst_ip : Ipv6Addr;
  v6r_src_port : Z;
  v6r_dst_port : Z;
  v6r_payload : list Z;
  v6r_vlan_id : option Z }.

(** [parse_udp6_packet]. *)
Definition parse_udp6_packet (frame : list Z) : outcome (option ParsedUdp6Packet) :=
  let! layout := detect_vlan frame None in
  match layout with
  | None => Done None
  | Some layout =>
  let l3 := l3_offset layout in
  if negb (ethertype layout =? ETH_TYPE_IPV6)%Z then Done None
  else if length frame <? l3 + IPV6_HEADER_LEN then Done None
  else
    let! b0 := idx frame l3 in
    if negb (Z.shiftr b0 4 =? 6)%Z then Done None
    else
      let! src := slice frame 6 12 in
      match to_mac src with None => Done None | Some src_mac =>
      let! dst := slice frame 0 6 in
      match to_mac dst with None => Done None | Some dst_mac =>
      let! src_ip := slice frame (l3 + 8) (l3 + 24) in
      let! dst_ip := slice frame (l3 + 24) (l3 + 40) in
      let! data := slice_from frame l3 in
      let! nh := walk_extension_headers data in
      match nh with None => Done None | Some nh =>
      if negb (protocol nh =? IP_PROTO_UDP)%Z then Done None
      else
        let udp_start := l3 + payload_offset nh in
        if length frame <? udp_start + UDP_HEADER_LEN then Done None
        else
          let! src_port := read16 frame udp_start in
          let! dst_port := read16 frame (udp_start + 2) in
          let! udp_len := read16 frame (udp_start + 4) in
          let udp_len := Z.to_nat udp_len in
          if (udp_len <? UDP_HEADER_LEN) || (length frame <? udp_start + udp_len) then Done None
          else
            let payload_start := udp_start + UDP_HEADER_LEN in
            let payload_len := udp_len - UDP_HEADER_LEN in
            let! payload := slice frame payload_start (payload_start + payload_len) in
            Done (Some (MkUdp6Packet src_mac dst_mac (of_octets6 src_ip) (of_octets6 dst_ip)
                          src_port dst_port payload (vid_of (vlan_tci layout))))
      end end end
  end.

(** [parse_udp6_packet_ref]. *)
Definition parse_udp6_packet_ref (frame : list Z) : outcome (option ParsedUdp6PacketRef) :=
  let! layout := detect_vlan frame None in
  match layout with
  | None => Done None
  | Some layout =>
  let l3 := l3_offset layout in
  if negb (ethertype layout =? ETH_TYPE_IPV6)%Z then Done None
  else if length frame <? l3 + IPV6_HEADER_LEN then Done None
  else
    let! b0 := idx frame l3 in
    if negb (Z.shiftr b0 4 =? 6)%Z then Done None
    else
      let! src := slice frame 6 12 in
      match to_mac src with None => Done None | Some src_mac =>
      let! src_ip := slice frame (l3 + 8) (l3 + 24) in
      let! dst_ip := slice frame (l3 + 24) (l3 + 40) in
      let! data := slice_from frame l3 in
      let! nh := walk_extension_headers data in
      match nh with None => Done None | Some nh =>
      if negb (protocol nh =? IP_PROTO_UDP)%Z then Done None
      else
        let udp_start := l3 + payload_offset nh in
        if length frame <? udp_start + UDP_HEADER_LEN then Done None
        else
          let! src_port := read16 frame udp_start in
          let! dst_port := read16 frame (udp_start + 2) in
          let! udp_len := read16 frame (udp_start + 4) in
          let udp_len := Z.to_nat udp_len in
          if (udp_len <? UDP_HEADER_LEN) || (length frame <? udp_start + udp_len) then Done None
          else
            let payload_start := udp_start + UDP_HEADER_LEN in
            let payload_len := udp_len - UDP_HEADER_LEN in
            let! payload := slice frame payload_start (payload_start + payload_len) in
            Done (Some (MkUdp6PacketRef src_mac (of_octets6 src_ip) (of_octets6 dst_ip)
                          src_port dst_port payload (vid_of (vlan_tci layout))))
      end end
  end.

(** ** Addresses: octets and back *)

Lemma length_be_bytes n z : length (be_bytes n z) = n.
Proof. induction n; cbn; lia. Qed.

Lemma be_bytes_u8 n z : Forall is_u8 (be_bytes n z).
Proof. induction n; constructor; auto with words. Qed.

Lemma fold_be_bytes n : forall acc z,
  (0 <= z)%Z -> fold_left (fun acc b => acc * 256 + b)%Z (be_bytes n z) acc
  = (acc * 256 ^ Z.of_nat n + z mod 256 ^ Z.of_nat n)%Z.
Proof.
  induction n as [|n IH]; intros acc z Hz; cbn [be_bytes fold_left].
  - change (256 ^ Z.of_nat 0)%Z with 1%Z. rewrite Z.mod_1_r. lia.
  - rewrite IH by done. rewrite Nat2Z.inj_succ, Z.pow_succ_r by lia.
    rewrite (Z.mul_comm 256), Z.rem_mul_r by lia. unfold u8. lia.
Qed.

Lemma of_octets6_octets6 a : is_u128 a -> of_octets6 (octets6 a) = a.
Proof.
  intros H. unfold of_octets6, octets6. rewrite fold_be_bytes by apply H.
  rewrite Z.mul_0_l, Z.add_0_l. apply Z.mod_small, H.
Qed.

(** ** Extension headers: termination and bounds *)

Definition is_extension (p : Z) : bool :=
  (p =? IP_PROTO_HOPOPT)%Z || (p =? IP_PROTO_ROUTING)%Z || (p =? IP_PROTO_DSTOPTS)%Z
  || (p =? IP_PROTO_FRAGMENT)%Z.

Lemma walk_loop_total fuel data : forall nh offset,
  length data - offset < fuel -> offset <= length data -> offset mod 8 = 0 ->
  exists r, walk_loop fuel data nh offset = Done r /\
    forall h, r = Some h -> offset <= payload_offset h <= length data /\
      payload_offset h mod 8 = 0 /\ is_extension (protocol h) = false.
Proof.
  induction fuel as [|fuel IH]; intros nh offset Hf Ho Hm; [lia|]. cbn [walk_loop].
  destruct ((nh =? IP_PROTO_HOPOPT)%Z || (nh =? IP_PROTO_ROUTING)%Z || (nh =? IP_PROTO_DSTOPTS)%Z)
    eqn:E1.
  - destruct (Nat.ltb_spec (length data) (offset + 2)); [by exists None|].
    destruct (idx_in_range data offset) as (b & _ & ->); [lia|]. cbn [obind].
    destruct (idx_in_range data (offset + 1)) as (l & _ & ->); [lia|]. cbn [obind].
    destruct (Nat.ltb_spec (length data) (offset + (Z.to_nat l + 1) * 8)); [by exists None|].
    destruct (IH b (offset + (Z.to_nat l + 1) * 8)) as (r & Hr & Hb); [lia..| |].
    + rewrite Nat.Div0.mod_add. done.
    + exists r. split; [done|]. intros h Hh. destruct (Hb h Hh) as (? & ? & ?). split_and!; [lia..|done|done].
  - destruct (nh =? IP_PROTO_FRAGMENT)%Z eqn:E2.
    + destruct (Nat.ltb_spec (length data) (offset + 8)); [by exists None|].
      destruct (idx_in_range data offset) as (b & _ & ->); [lia|]. cbn [obind].
      destruct (IH b (offset + 8)) as (r & Hr & Hb); [lia..| |].
      * change 8 with (1 * 8) at 1. rewrite Nat.Div0.mod_add. done.
      * exists r. split; [done|]. intros h Hh. destruct (Hb h Hh) as (? & ? & ?).
        split_and!; [lia..|done|done].
    + eexists. split; [reflexivity|]. intros h [= <-]. cbn [payload_offset protocol].
      split_and!; [lia..|done|]. unfold is_extension. by rewrite E1, E2.
Qed.

(** The walk over IPv6 extension headers terminates on every packet, however long or
    corrupt the chain is, and never reads outside it: it answers [None], or an upper-layer
    protocol that is not itself an extension header, at an offset past the fixed header,
    inside the packet and aligned to eight bytes. *)
Theorem extension_walk_terminates data :
  exists r, walk_extension_headers data = Done r /\
    forall h, r = Some h ->
      40 <= payload_offset h <= length data /\ payload_offset h mod 8 = 0 /\
      is_extension (protocol h) = false.
Proof.
  unfold walk_extension_headers, IPV6_HEADER_LEN.
  destruct (Nat.ltb_spec (length data) 40); [by exists None|].
  destruct (idx_in_range data 6) as (b & _ & ->); [lia|]. cbn [obind].
  apply walk_loop_total; [lia..|done].
Qed.

(** The walk as the parsers use it. *)
Lemma walk_total data :
  exists r, walk_extension_headers data = Done r /\
    forall h, r = Some h -> 40 <= payload_offset h <= length data.
Proof.
  unfold walk_extension_headers, IPV6_HEADER_LEN.
  destruct (Nat.ltb_spec (length data) 40); [by exists None|].
  destruct (idx_in_range data 6) as (b & _ & ->); [lia|]. cbn [obind].
  destruct (walk_loop_total (S (length data)) data b 40) as (r & Hr & Hb); [lia..|done|].
  exists r. split; [done|]. intros h Hh. destruct (Hb h Hh) as (? & _). lia.
Qed.

(** ** Layout *)

Definition ip6_bytes (len nh hop : Z) (src dst : Ipv6Addr) : list Z :=
  [96; 0; 0; 0]%Z ++ be16 len ++ [nh; hop] ++ octets6 src ++ octets6 dst.

Lemma write_ipv6_next d t ip src dst len nh hop :
  ip = length d -> 40 <= length t ->
  write_ipv6_header (d ++ t) ip src dst len nh hop
  = Done ((d ++ ip6_bytes len nh hop src dst) ++ drop 40 t).
Proof.
  intros -> Ht. unfold write_ipv6_header. do 7 put_next.
  rewrite blit_next, obind_Done
    by (rewrite ?length_app, ?length_drop; unfold octets6; rewrite ?length_be_bytes; cbn; lia).
  cbv beta.
  rewrite blit_next by (rewrite ?length_app, ?length_drop; unfold octets6;
    rewrite ?length_be_bytes; cbn; lia).
  rewrite !drop_drop. unfold ip6_bytes. by rewrite <- !app_assoc.
Qed.

Definition u6cksum_of (src dst : list Z) (header payload : list Z) : Z :=
  match udp6_checksum src dst header payload with Done c => c | _ => 0%Z end.

Definition wf_udp6 (src dst : Ipv6Addr) (payload : list Z) : Prop :=
  is_u128 src /\ is_u128 dst /\ Forall is_u8 payload /\ (zlen payload <= 65507)%Z.

Lemma u6cksum_of_spec src dst sp dp len payload a b :
  Forall is_u8 payload -> (zlen payload <= 65527)%Z ->
  udp6_checksum (octets6 src) (octets6 dst) (udp_pre sp dp len ++ [a; b]) payload
  = Done (u6cksum_of (octets6 src) (octets6 dst) (udp_bytes sp dp len 0) payload) /\
  (1 <= u6cksum_of (octets6 src) (octets6 dst) (udp_bytes sp dp len 0) payload <= 65535)%Z.
Proof.
  intros Hp Hl. unfold u6cksum_of, udp_bytes. change (be16 0) with [0; 0]%Z.
  destruct (udp6_checksum_spec (octets6 src) (octets6 dst) (udp_pre sp dp len) payload)
    with (a := 0%Z) (b := 0%Z) as (c & E & Hc);
    try apply be_bytes_u8; try apply length_be_bytes; try done; [apply udp_pre_bytes|].
  by rewrite (udp6_checksum_skip _ _ _ a b 0%Z 0%Z), E.
Qed.

(** A UDP datagram from the IPv6 header on. *)
Definition datagram6 (hop : Z) (src dst : Ipv6Addr) (sp dp : Z) (payload : list Z) : list Z :=
  ip6_bytes (udp_len payload) IP_PROTO_UDP hop src dst
    ++ udp_bytes sp dp (udp_len payload)
         (u6cksum_of (octets6 src) (octets6 dst) (udp_bytes sp dp (udp_len payload) 0) payload)
    ++ payload.

Definition udp6_frame (src_mac dst_mac : Mac) (src dst : Ipv6Addr) (sp dp : Z)
    (payload : list Z) (hop : Z) : list Z :=
  eth_bytes dst_mac src_mac ETH_TYPE_IPV6 ++ datagram6 hop src dst sp dp payload.

Lemma put_udp6_cksum_at d rest u sp dp len src dst k c :
  u = length d -> udp6_checksum (octets6 src) (octets6 dst) (udp_bytes sp dp len 0) k = Done c ->
  put_udp6_cksum (d ++ udp_bytes sp dp len 0 ++ rest) u src dst k
  = Done (d ++ udp_bytes sp dp len c ++ rest).
Proof.
  intros -> Hc. unfold put_udp6_cksum, UDP_HEADER_LEN.
  rewrite slice_mid, obind_Done by reflexivity. cbv beta. rewrite Hc, obind_Done. cbv beta.
  unfold udp_bytes. rewrite <- !app_assoc, (app_assoc d).
  rewrite (blit_mid (d ++ udp_pre sp dp len) (be16 0)) by (rewrite ?length_app; cbn; lia).
  by rewrite <- !app_assoc.
Qed.

Lemma length_ip6 len nh hop src dst : length (ip6_bytes len nh hop src dst) = 40.
Proof. reflexivity. Qed.

Lemma put_udp6_frame_layout out src_mac dst_mac src dst sp dp payload hop :
  length out = 62 + length payload -> wf_udp6 src dst payload ->
  put_udp6_frame out src_mac dst_mac src dst sp dp payload hop
  = Done (udp6_frame src_mac dst_mac src dst sp dp payload hop).
Proof.
  intros Hl (_ & _ & Hp & Hz). unfold put_udp6_frame, ETH_HEADER_LEN, IPV6_HEADER_LEN, TOTAL_HEADER_LEN_V6.
  change out with ([] ++ out). rewrite put_eth_next, obind_Done by (cbn; lia). cbv beta.
  rewrite write_ipv6_next, obind_Done by (rewrite ?length_drop; done || lia). cbv beta.
  rewrite put_udp_next, obind_Done by (rewrite ?length_drop; done || lia). cbv beta.
  rewrite blit_next, obind_Done by (rewrite ?length_drop; done || lia). cbv beta.
  rewrite drop_ge by (rewrite !length_drop; lia). rewrite app_nil_r.
  rewrite <- (app_assoc _ (udp_bytes _ _ _ _) payload).
  erewrite put_udp6_cksum_at; [|done|].
  2: { unfold udp_bytes. change (be16 0) with [0; 0]%Z.
       apply (u6cksum_of_spec src dst sp dp (udp_len payload) payload 0 0); [done|lia]. }
  unfold udp6_frame, datagram6. by rewrite <- !app_assoc.
Qed.

(** ** Reading a frame back *)

Section Read.

Context (src_mac dst_mac : Mac) (src dst : Ipv6Addr) (sp dp : Z) (payload : list Z) (hop : Z)
  (pad : list Z) (Hwf : wf_udp6 src dst payload).

#[local] Abbreviation F := (udp6_frame src_mac dst_mac src dst sp dp payload hop ++ pad).
#[local] Abbreviation ck :=
  (u6cksum_of (octets6 src) (octets6 dst) (udp_bytes sp dp (udp_len payload) 0) payload).

Lemma frame6_split :
  F = (eth_bytes dst_mac src_mac ETH_TYPE_IPV6
         ++ ip6_bytes (udp_len payload) IP_PROTO_UDP hop src dst)
        ++ udp_bytes sp dp (udp_len payload) ck ++ payload ++ pad.
Proof using. unfold udp6_frame, datagram6. by rewrite <- !app_assoc. Qed.

Lemma frame6_len : length F = 62 + length payload + length pad.
Proof using. rewrite frame6_split, !length_app. cbn. lia. Qed.

Lemma frame6_layout : detect_vlan F None = Done (Some (MkLayout ETH_TYPE_IPV6 14 None)).
Proof using.
  unfold detect_vlan. rewrite (proj2 (Nat.ltb_ge _ _)) by (rewrite frame6_len; unfold ETH_HEADER_LEN; lia).
  reflexivity.
Qed.

Lemma frame6_macs :
  slice F 0 6 = Done (mac_bytes dst_mac) /\ slice F 6 12 = Done (mac_bytes src_mac).
Proof using.
  unfold udp6_frame, eth_bytes. rewrite <- !app_assoc. split.
  - by apply (slice_mid []).
  - by apply (slice_mid (mac_bytes dst_mac)).
Qed.

Lemma frame6_addresses :
  slice F (14 + 8) (14 + 24) = Done (octets6 src) /\ slice F (14 + 24) (14 + 40) = Done (octets6 dst).
Proof using.
  rewrite frame6_split. unfold ip6_bytes. set (U := udp_bytes _ _ _ _).
  set (E := eth_bytes _ _ _). set (h := [IP_PROTO_UDP; hop]).
  replace ((E ++ [96; 0; 0; 0]%Z ++ be16 (udp_len payload) ++ h ++ octets6 src ++ octets6 dst)
            ++ U ++ payload ++ pad)
    with ((E ++ [96; 0; 0; 0]%Z ++ be16 (udp_len payload) ++ h) ++ octets6 src ++ octets6 dst
            ++ U ++ payload ++ pad) by (by rewrite <- !app_assoc).
  split; [by apply slice_mid|]. rewrite (app_assoc _ (octets6 src)). by apply slice_mid.
Qed.

Lemma frame6_walk :
  slice_from F 14 = Done (drop 14 F) /\
  walk_extension_headers (drop 14 F) = Done (Some (MkNextHeader IP_PROTO_UDP 40)).
Proof using.
  split; [apply slice_from_done; rewrite frame6_len; lia|].
  unfold walk_extension_headers, IPV6_HEADER_LEN.
  rewrite (proj2 (Nat.ltb_ge _ _)) by (rewrite length_drop, frame6_len; lia). reflexivity.
Qed.

Lemma frame6_fields :
  is_u16 sp -> is_u16 dp ->
  read16 F 54 = Done sp /\ read16 F 56 = Done dp /\ read16 F 58 = Done (8 + zlen payload)%Z /\
  read16 F 60 = Done ck.
Proof using Hwf.
  intros Hsp Hdp. destruct Hwf as (_ & _ & Hp & Hl). rewrite <- (udp_len_value payload Hl).
  assert (forall z a b, a = u8 (z / 256) -> b = u8 z -> is_u16 z -> Done (of_be16 a b) = Done z) as H
    by (intros z a b -> -> Hz; by rewrite of_be16_be16).
  destruct (u6cksum_of_spec src dst sp dp (udp_len payload) payload 0 0) as [_ Hc]; [done|lia|].
  split_and!; (apply H; [reflexivity|reflexivity|]); try done.
  - unfold udp_len. auto with words.
  - unfold is_u16. lia.
Qed.

Lemma frame6_payload : slice F 62 (62 + length payload) = Done payload.
Proof using.
  rewrite frame6_split, (app_assoc _ (udp_bytes _ _ _ _)). by apply slice_mid.
Qed.

Lemma frame6_header : slice F 54 62 = Done (udp_bytes sp dp (udp_len payload) ck).
Proof using. rewrite frame6_split. by apply slice_mid. Qed.

(** The guards both readers pass before the UDP header. *)
Ltac enter_frame6 D Hn :=
  run_step D; cbn [ethertype l3_offset vlan_tci];
  change (negb (ETH_TYPE_IPV6 =? ETH_TYPE_IPV6)%Z) with false; unfold IPV6_HEADER_LEN, UDP_HEADER_LEN;
  rewrite (proj2 (Nat.ltb_ge _ _)) by (rewrite Hn; lia); cbv iota.

Ltac enter_udp6 W1 W2 Hn :=
  run_step W1; run_step W2; cbn [protocol payload_offset];
  change (negb (IP_PROTO_UDP =? IP_PROTO_UDP)%Z) with false;
  change (14 + 40) with 54; change (54 + 8) with 62; change (54 + 2) with 56;
  change (54 + 4) with 58; change (54 + 6) with 60;
  rewrite (proj2 (Nat.ltb_ge _ _)) by (rewrite Hn; lia); cbv iota.

(** The length field: the payload and nothing of the padding. *)
Ltac udp6_length P3 Hn :=
  run_step P3; unfold zlen;
  replace (Z.to_nat (8 + Z.of_nat (length payload))) with (8 + length payload) by lia;
  rewrite (proj2 (Nat.ltb_ge _ 8)), (proj2 (Nat.ltb_ge _ (54 + (8 + _)))) by lia; cbn [orb].

Lemma parse_frame6 :
  is_u16 sp -> is_u16 dp ->
  parse_udp6_packet F = Done (Some (MkUdp6Packet src_mac dst_mac src dst sp dp payload None)).
Proof using Hwf.
  intros Hsp Hdp. destruct frame6_addresses as [A1 A2], frame6_macs as [M1 M2], frame6_walk as [W1 W2].
  destruct (frame6_fields Hsp Hdp) as (P1 & P2 & P3 & _). pose proof frame6_payload as Y.
  pose proof frame6_layout as D. pose proof frame6_len as Hn.
  assert (idx F 14 = Done 96%Z) as I by done. destruct Hwf as (Hs & Hd & _).
  set (f := F) in *. unfold parse_udp6_packet. enter_frame6 D Hn.
  run_step I. change (negb (Z.shiftr 96 4 =? 6)%Z) with false. cbv iota.
  run_step M2. run_step (to_mac_bytes src_mac). run_step M1. run_step (to_mac_bytes dst_mac).
  run_step A1. run_step A2. enter_udp6 W1 W2 Hn. run_step P1. run_step P2. udp6_length P3 Hn.
  replace (8 + length payload - 8) with (length payload) by lia. run_step Y.
  by rewrite !of_octets6_octets6.
Qed.

Lemma verify_frame6 : is_u16 sp -> is_u16 dp -> verify_udp6_checksum F = Done true.
Proof using Hwf.
  intros Hsp Hdp. destruct frame6_addresses as [A1 A2], frame6_walk as [W1 W2].
  destruct (frame6_fields Hsp Hdp) as (_ & _ & P3 & P4). pose proof frame6_payload as Y.
  pose proof frame6_header as Hh. pose proof frame6_layout as D. pose proof frame6_len as Hn.
  destruct Hwf as (Hs & Hd & Hp & Hl).
  pose proof (fun a b => u6cksum_of_spec src dst sp dp (udp_len payload) payload a b Hp
    ltac:(lia)) as Hck. destruct (Hck 0%Z 0%Z) as [_ Hc].
  set (f := F) in *. unfold verify_udp6_checksum. enter_frame6 D Hn. enter_udp6 W1 W2 Hn.
  change (14 + 40) with 54 in A2.
  run_step P4. rewrite (proj2 (Z.eqb_neq _ 0)) by lia. run_step A1. run_step A2. udp6_length P3 Hn.
  run_step Hh. change (54 + (8 + length payload)) with (62 + length payload). run_step Y.
  rewrite !of_octets6_octets6 by done. unfold udp_bytes at 1.
  destruct (Hck (u8 (ck / 256)) (u8 ck)) as [E _]. change (be16 ck) with [u8 (ck / 256); u8 ck].
  run_step E. by rewrite Z.eqb_refl.
Qed.

End Read.

(** A UDP/IPv6 frame is what its receiver reads and accepts: [build_udp6_frame_into] writes
    it whatever the buffer held, [parse_udp6_packet] reads back the addresses, the ports
    and the payload, whatever padding follows, and [verify_udp6_checksum] accepts it. *)
Theorem udp6_frame_roundtrip out src_mac dst_mac src dst sp dp payload hop pad :
  wf_udp6 src dst payload -> is_u16 sp -> is_u16 dp -> (zlen payload <= 8953)%Z ->
  exists frame,
    build_udp6_frame src_mac dst_mac src dst sp dp payload hop = Done (Ok frame) /\
    build_udp6_frame_into out src_mac dst_mac src dst sp dp payload hop
      = Done (frame, Ok (zlen frame)) /\
    parse_udp6_packet (frame ++ pad)
      = Done (Some (MkUdp6Packet src_mac dst_mac src dst sp dp payload None)) /\
    verify_udp6_checksum (frame ++ pad) = Done true.
Proof.
  intros Hwf Hsp Hdp Hmax. exists (udp6_frame src_mac dst_mac src dst sp dp payload hop).
  unfold build_udp6_frame, build_udp6_frame_into, too_large6, MAX_FRAME_SIZE_V6.
  change (14 + 9001 - Z.of_nat TOTAL_HEADER_LEN_V6)%Z with 8953%Z.
  rewrite (proj2 (Z.ltb_ge _ _)) by lia.
  rewrite !put_udp6_frame_layout, !obind_Done by (rewrite ?length_replicate, ?length_resize; done).
  split_and!; [done|done|by apply parse_frame6|by apply verify_frame6].
Qed.

Lemma udp6_frame_roundtrip_witness :
  exists frame,
    build_udp6_frame (MkMac 2 0 0 0 0 1) (MkMac 2 0 0 0 0 2) 1%Z 2%Z 5000 53 [104; 105]%Z 64 = Done (Ok frame) /\
    verify_udp6_checksum (frame ++ [0]%Z) = Done true.
Proof.
  destruct (udp6_frame_roundtrip [] (MkMac 2 0 0 0 0 1) (MkMac 2 0 0 0 0 2) 1%Z 2%Z 5000 53 [104; 105]%Z 64 [0]%Z)
    as (f & H1 & _ & _ & H2);
    [split_and!; [done|done|repeat constructor; unfold is_u8; lia|done]|done|done|done|].
  exists f. exact (conj H1 H2).
Defined.

(** ** The parsers never panic *)

Definition ref6_of (p : ParsedUdp6Packet) : ParsedUdp6PacketRef :=
  MkUdp6PacketRef (v6_src_mac p) (v6_src_ip p) (v6_dst_ip p) (v6_src_port p) (v6_dst_port p)
    (v6_payload p) (v6_vlan_id p).

(** Both IPv6 parsers return on every byte string, with the same answer. *)
Lemma udp6_parsers_total_and_agree frame :
  exists r, parse_udp6_packet frame = Done r /\
    parse_udp6_packet_ref frame = Done (option_map ref6_of r).
Proof.
  unfold parse_udp6_packet, parse_udp6_packet_ref.
  destruct (detect_vlan_total frame None) as ([l|] & -> & Hl); [|by exists None].
  specialize (Hl l eq_refl). cbn [obind]. unfold IPV6_HEADER_LEN, UDP_HEADER_LEN.
  repeat parse_step; try (by exists None).
  destruct (walk_total (drop (l3_offset l) frame)) as ([h|] & -> & Hh); [|by exists None].
  specialize (Hh h eq_refl). rewrite length_drop in Hh. cbn [obind].
  repeat parse_step; try (by exists None). eexists. split; [reflexivity|]. done.
Qed.
