(* ===== verification/Tunnel.v ===== *)
(** * Tunnels: GUE, VXLAN and GENEVE (dpdk-stdlib-udp/src/gue.rs, vxlan.rs, geneve.rs)

    Each tunnel has a header with its encoder and parser, builders with an IPv4 and an
    IPv6 outer packet, and the matching decapsulators.  The six builders and the six
    decapsulators repeat the same blocks; the blocks are definitions of their own. *)

From stdpp Require Import base numbers list strings.
From Stdlib Require Import ZArith Lia.
From S2P Require Import Prelude State Buffer Checksum Codec UdpChecksum UdpFrame Udp6Frame.

#[local] Open Scope nat_scope.

(** ** Blocks of the decapsulators *)

(** The outer IPv4 and UDP headers at [l3]: the source address and the offset after
    them, when the destination port is [port]. *)
Definition outer_v4 (frame : list Z) (l3 : nat) (port : Z) : outcome (option (Ipv4Addr * nat)) :=
  if length frame <? l3 + IPV4_HEADER_LEN then Done None
  else
    let! oip := slice_from frame l3 in
    let! p := idx oip 9 in
    if negb (p =? IP_PROTO_UDP)%Z then Done None
    else
      let! outer_src_ip := read_ipv4 oip 12 in
      let! b0 := idx oip 0 in
      let oip_ihl := ihl_bytes b0 in
      if oip_ihl <? 20 then Done None
      else
        let oudp_off := l3 + oip_ihl in
        if length frame <? oudp_off + UDP_HEADER_LEN then Done None
        else
          let! outer_dst_port := read16 frame (oudp_off + 2) in
          if negb (outer_dst_port =? port)%Z then Done None
          else Done (Some (outer_src_ip, oudp_off + UDP_HEADER_LEN)).

(** The outer IPv6 and UDP headers. *)
Definition outer_v6 (frame : list Z) (l3 : nat) (port : Z) : outcome (option (Ipv6Addr * nat)) :=
  if length frame <? l3 + IPV6_HEADER_LEN then Done None
  else
    let! oip := slice_from frame l3 in
    let! b0 := idx oip 0 in
    if negb (Z.shiftr b0 4 =? 6)%Z then Done None
    else
      let! nh := idx oip 6 in
      if negb (nh =? IP_PROTO_UDP)%Z then Done None
      else
        let! src := slice oip 8 24 in
        let oudp_off := l3 + IPV6_HEADER_LEN in
        if length frame <? oudp_off + UDP_HEADER_LEN then Done None
        else
          let! outer_dst_port := read16 frame (oudp_off + 2) in
          if negb (outer_dst_port =? port)%Z then Done None
          else Done (Some (of_octets6 src, oudp_off + UDP_HEADER_LEN)).

(** The inner Ethernet header at [ieth]: destination, source and the offset after it. *)
Definition inner_eth (frame : list Z) (ieth : nat) : outcome (option (Mac * Mac * nat)) :=
  if length frame <? ieth + ETH_HEADER_LEN then Done None
  else
    let! d := slice frame ieth (ieth + 6) in
    match to_mac d with None => Done None | Some inner_dst_mac =>
    let! s := slice frame (ieth + 6) (ieth + 12) in
    match to_mac s with None => Done None | Some inner_src_mac =>
    let! inner_ethertype := read16 frame (ieth + 12) in
    if negb (inner_ethertype =? ETH_TYPE_IPV4)%Z then Done None
    else Done (Some (inner_dst_mac, inner_src_mac, ieth + ETH_HEADER_LEN))
    end end.

(** The inner datagram. *)
Record inner := MkInner {
  inner_src_ip : Ipv4Addr;
  inner_dst_ip : Ipv4Addr;
  inner_src_port : Z;
  inner_dst_port : Z;
  inner_payload : list Z }.

(** The inner IPv4 and UDP headers at [off], and the payload. *)
Definition inner_v4 (frame : list Z) (off : nat) : outcome (option inner) :=
  if length frame <? off + IPV4_HEADER_LEN then Done None
  else
    let! iip := slice_from frame off in
    let! b0 := idx iip 0 in
    if negb (Z.shiftr b0 4 =? 4)%Z then Done None
    else
      let iip_ihl := ihl_bytes b0 in
      if (iip_ihl <? 20) || (length frame <? off + iip_ihl) then Done None
      else
        let! p := idx iip 9 in
        if negb (p =? IP_PROTO_UDP)%Z then Done None
        else
          let! src := read_ipv4 iip 12 in
          let! dst := read_ipv4 iip 16 in
          let iudp_off := off + iip_ihl in
          if length frame <? iudp_off + UDP_HEADER_LEN then Done None
          else
            let! sp := read16 frame iudp_off in
            let! dp := read16 frame (iudp_off + 2) in
            let! len := read16 frame (iudp_off + 4) in
            let inner_udp_len := Z.to_nat len in
            if (inner_udp_len <? UDP_HEADER_LEN) || (length frame <? iudp_off + inner_udp_len)
            then Done None
            else
              let payload_start := iudp_off + UDP_HEADER_LEN in
              let payload_len := inner_udp_len - UDP_HEADER_LEN in
              let! payload := slice frame payload_start (payload_start + payload_len) in
              Done (Some (MkInner src dst sp dp payload)).

(** ** Blocks of the builders *)

(** [f(&mut out[a..b])]. *)
Definition update_slice (out : list Z) (a b : nat) (f : list Z -> outcome (list Z))
    : outcome (list Z) :=
  let! s := slice out a b in
  let! s := f s in
  blit out a b s.

(** The inner IPv4 packet at [iip]: headers, payload and UDP checksum. *)
Definition put_inner (out : list Z) (iip : nat) (src dst : Ipv4Addr) (sp dp : Z)
    (payload : list Z) : outcome (list Z) :=
  let! out := put_ipv4 out iip 0 (ip_total_len payload) 64 src dst in
  let iudp := iip + IPV4_HEADER_LEN in
  let! out := put_udp out iudp sp dp (udp_len payload) in
  let poff := iudp + UDP_HEADER_LEN in
  let! out := blit out poff (poff + length payload) payload in
  put_udp_cksum out iudp src dst payload.

(** The outer UDP checksum, over everything after the outer UDP header. *)
Definition put_outer_cksum (out : list Z) (oudp total_len : nat) (src dst : Ipv4Addr)
    : outcome (list Z) :=
  let! outer_payload := slice out (oudp + UDP_HEADER_LEN) total_len in
  put_udp_cksum out oudp src dst outer_payload.

Definition put_outer_cksum6 (out : list Z) (oudp total_len : nat) (src dst : Ipv6Addr)
    : outcome (list Z) :=
  let! outer_payload := slice out (oudp + UDP_HEADER_LEN) total_len in
  put_udp6_cksum out oudp src dst outer_payload.

(** ** GUE *)

Module Gue.

Definition GUE_HEADER_LEN : nat := 4.
Definition GUE_DEFAULT_PORT : Z := 6080.
Definition GUE_VERSION : Z := 0.
Definition GUE_PROTO_IPV4 : Z := 4.
Definition GUE_ENCAP_OVERHEAD : nat := IPV4_HEADER_LEN + UDP_HEADER_LEN + GUE_HEADER_LEN.

Record GueConfig := MkGueConfig { remote_ip : Ipv4Addr; remote_port : Z; local_port : Z }.

Definition config_new (ip : Ipv4Addr) : GueConfig :=
  MkGueConfig ip GUE_DEFAULT_PORT GUE_DEFAULT_PORT.

Record GueHeader := MkGue { version : Z; c_flag : bool; hlen : Z; proto : Z; flags : Z }.

Definition new_data (proto : Z) : GueHeader := MkGue GUE_VERSION false 0 proto 0.

Definition total_len (h : GueHeader) : nat := GUE_HEADER_LEN + Z.to_nat (hlen h) * 4.

(** [GueHeader::encode]. *)
Definition encode (h : GueHeader) (out : list Z) : outcome (list Z) :=
  let! out := store out 0 (Z.lor (Z.lor (u8 (Z.shiftl (version h) 6)) (if c_flag h then 32 else 0))
                             (Z.land (hlen h) 31)) in
  let! out := store out 1 (proto h) in
  blit out 2 4 (be16 (flags h)).

(** [GueHeader::parse]. *)
Definition parse (data : list Z) : outcome (option GueHeader) :=
  if length data <? GUE_HEADER_LEN then Done None
  else
    let! b0 := idx data 0 in
    let version := Z.land (Z.shiftr b0 6) 3 in
    let c_flag := negb (Z.land (Z.shiftr b0 5) 1 =? 0)%Z in
    let hlen := Z.land b0 31 in
    let! proto := idx data 1 in
    let! flags := read16 data 2 in
    if negb (version =? GUE_VERSION)%Z then Done None
    else
      let total := GUE_HEADER_LEN + Z.to_nat hlen * 4 in
      if length data <? total then Done None
      else Done (Some (MkGue version c_flag hlen proto flags)).

(** [build_gue_frame_into]. *)
Definition build_gue_frame_into (out : list Z) (outer_src_mac outer_dst_mac : Mac)
    (outer_src_ip outer_dst_ip : Ipv4Addr) (outer_src_port outer_dst_port : Z)
    (src dst : Ipv4Addr) (sp dp : Z) (payload : list Z) (ttl : Z)
    : outcome (list Z * result Z UdpError) :=
  let inner_pkt_len := IPV4_HEADER_LEN + UDP_HEADER_LEN + length payload in
  let outer_udp_payload := GUE_HEADER_LEN + inner_pkt_len in
  let outer_udp_len := u16 (Z.of_nat (UDP_HEADER_LEN + outer_udp_payload)) in
  let outer_ip_total := u16 (Z.of_nat (IPV4_HEADER_LEN + UDP_HEADER_LEN + outer_udp_payload)) in
  let total := ETH_HEADER_LEN + Z.to_nat outer_ip_total in
  let out := resize out total in
  let! out := put_eth out 0 outer_dst_mac outer_src_mac ETH_TYPE_IPV4 in
  let oip := ETH_HEADER_LEN in
  let! out := put_ipv4 out oip 0 outer_ip_total ttl outer_src_ip outer_dst_ip in
  let oudp := oip + IPV4_HEADER_LEN in
  let! out := put_udp out oudp outer_src_port outer_dst_port outer_udp_len in
  let gue_off := oudp + UDP_HEADER_LEN in
  let! out := update_slice out gue_off (gue_off + GUE_HEADER_LEN) (encode (new_data GUE_PROTO_IPV4)) in
  let iip := gue_off + GUE_HEADER_LEN in
  let! out := put_inner out iip src dst sp dp payload in
  let! out := put_outer_cksum out oudp total outer_src_ip outer_dst_ip in
  Done (out, Ok (Z.of_nat total)).

(** [GueDecapResult] and [GueDecapResult6]: the inner datagram, the outer source and
    the header. *)
Record GueDecapResult (ip : Type) := MkGueDecap {
  decap_inner : inner;
  outer_src_ip : ip;
  gue_header : GueHeader }.

Arguments MkGueDecap {ip} _ _ _.

(** From the GUE header at [gue_off] on. *)
Definition decap_at {ip} (frame : list Z) (o : option (ip * nat))
    : outcome (option (GueDecapResult ip)) :=
  match o with None => Done None | Some (outer_src_ip, gue_off) =>
  let! data := slice_from frame gue_off in
  let! h := parse data in
  match h with None => Done None | Some gue_hdr =>
  if c_flag gue_hdr then Done None
  else if negb (proto gue_hdr =? GUE_PROTO_IPV4)%Z then Done None
  else
    let! i := inner_v4 frame (gue_off + total_len gue_hdr) in
    match i with None => Done None | Some i =>
    Done (Some (MkGueDecap i outer_src_ip gue_hdr))
    end
  end end.

(** [try_decap_gue] and [try_decap_gue_v6]. *)
Definition try_decap_gue (frame : list Z) (l3_offset : nat) (gue_local_port : Z)
    : outcome (option (GueDecapResult Ipv4Addr)) :=
  let! o := outer_v4 frame l3_offset gue_local_port in decap_at frame o.

Definition try_decap_gue_v6 (frame : list Z) (l3_offset : nat) (gue_local_port : Z)
    : outcome (option (GueDecapResult Ipv6Addr)) :=
  let! o := outer_v6 frame l3_offset gue_local_port in decap_at frame o.

(** [build_gue_frame_into_v6]. *)
Definition build_gue_frame_into_v6 (out : list Z) (outer_src_mac outer_dst_mac : Mac)
    (outer_src_ip outer_dst_ip : Ipv6Addr) (outer_src_port outer_dst_port : Z)
    (src dst : Ipv4Addr) (sp dp : Z) (payload : list Z) (hop_limit : Z)
    : outcome (list Z * result Z UdpError) :=
  let inner_pkt_len := IPV4_HEADER_LEN + UDP_HEADER_LEN + length payload in
  let outer_udp_payload := GUE_HEADER_LEN + inner_pkt_len in
  let outer_udp_len := u16 (Z.of_nat (UDP_HEADER_LEN + outer_udp_payload)) in
  let total := ETH_HEADER_LEN + IPV6_HEADER_LEN + Z.to_nat outer_udp_len in
  let out := resize out total in
  let! out := put_eth out 0 outer_dst_mac outer_src_mac ETH_TYPE_IPV6 in
  let oip := ETH_HEADER_LEN in
  let! out := write_ipv6_header out oip outer_src_ip outer_dst_ip outer_udp_len IP_PROTO_UDP
                hop_limit in
  let oudp := oip + IPV6_HEADER_LEN in
  let! out := put_udp out oudp outer_src_port outer_dst_port outer_udp_len in
  let gue_off := oudp + UDP_HEADER_LEN in
  let! out := update_slice out gue_off (gue_off + GUE_HEADER_LEN) (encode (new_data GUE_PROTO_IPV4)) in
  let iip := gue_off + GUE_HEADER_LEN in
  let! out := put_inner out iip src dst sp dp payload in
  let! out := put_outer_cksum6 out oudp total outer_src_ip outer_dst_ip in
  Done (out, Ok (Z.of_nat total)).

End Gue.

(** ** VXLAN *)

(** The 24-bit network identifier as three bytes, and back. *)
Definition vni_bytes (vni : Z) : list Z :=
  [u8 (Z.land (Z.shiftr vni 16) 255); u8 (Z.land (Z.shiftr vni 8) 255); u8 (Z.land vni 255)].

Definition of_vni (a b c : Z) : Z := Z.lor (Z.lor (Z.shiftl a 16) (Z.shiftl b 8)) c.

(** The tunnel endpoint of VXLAN and GENEVE: remote address, identifier, ports and
    inner MAC addresses ([VxlanConfig], [GeneveConfig] and their IPv6 variants). *)
Record VtepConfig (ip : Type) := MkVtep {
  vtep_remote_ip : ip;
  vtep_vni : Z;
  vtep_remote_port : Z;
  vtep_local_port : Z;
  vtep_src_mac : Mac;
  vtep_dst_mac : Mac }.

Arguments MkVtep {ip} _ _ _ _ _ _.

Definition mac_broadcast : Mac := MkMac 255 255 255 255 255 255.

Definition VNI_MAX : Z := 16777215.

(** What the decapsulators of both report: the inner datagram and MAC addresses, the
    outer source and the tunnel header. *)
Record L2DecapResult (ip header : Type) := MkL2Decap {
  l2_inner : inner;
  l2_outer_src : ip;
  l2_header : header;
  l2_src_mac : Mac;
  l2_dst_mac : Mac }.

Arguments MkL2Decap {ip header} _ _ _ _ _.

(** The inner frame at [off]. *)
Definition decap_frame {ip header} (frame : list Z) (src : ip) (hdr : header) (off : nat)
    : outcome (option (L2DecapResult ip header)) :=
  let! e := inner_eth frame off in
  match e with None => Done None | Some (inner_dst_mac, inner_src_mac, iip_off) =>
  let! i := inner_v4 frame iip_off in
  match i with None => Done None | Some i =>
  Done (Some (MkL2Decap i src hdr inner_src_mac inner_dst_mac))
  end end.

(** The VNI filter: [None] accepts every identifier. *)
Definition vni_mismatch (expected_vni : option Z) (vni : Z) : bool :=
  match expected_vni with Some expected => negb (vni =? expected)%Z | None => false end.

(** The inner Ethernet frame at [ieth]. *)
Definition put_inner_frame (out : list Z) (ieth : nat) (inner_src_mac inner_dst_mac : Mac)
    (src dst : Ipv4Addr) (sp dp : Z) (payload : list Z) : outcome (list Z) :=
  let! out := put_eth out ieth inner_dst_mac inner_src_mac ETH_TYPE_IPV4 in
  put_inner out (ieth + ETH_HEADER_LEN) src dst sp dp payload.

(** The length of the inner frame, through the 16-bit IP total length. *)
Definition inner_frame_len (payload : list Z) : nat :=
  ETH_HEADER_LEN + Z.to_nat (ip_total_len payload).

Module Vxlan.

Definition VXLAN_HEADER_LEN : nat := 8.
Definition VXLAN_DEFAULT_PORT : Z := 4789.
Definition VXLAN_FLAGS_I : Z := 8.
Definition VXLAN_ENCAP_OVERHEAD : nat :=
  IPV4_HEADER_LEN + UDP_HEADER_LEN + VXLAN_HEADER_LEN + ETH_HEADER_LEN.

(** [VxlanConfig::new]; a [vni] over 24 bits panics. *)
Definition config_new {ip} (remote_ip : ip) (vni : Z) : outcome (VtepConfig ip) :=
  if (vni <=? VNI_MAX)%Z
  then Done (MkVtep remote_ip vni VXLAN_DEFAULT_PORT VXLAN_DEFAULT_PORT mac_zero mac_broadcast)
  else Panic.

Record VxlanHeader := MkVxlan { i_flag : bool; vni : Z }.

Definition header_new (vni : Z) : VxlanHeader := MkVxlan true vni.

(** [VxlanHeader::encode]. *)
Definition encode (h : VxlanHeader) (out : list Z) : outcome (list Z) :=
  let! out := store out 0 (if i_flag h then VXLAN_FLAGS_I else 0%Z) in
  let! out := store out 1 0 in
  let! out := store out 2 0 in
  let! out := store out 3 0 in
  let! out := store out 4 (u8 (Z.land (Z.shiftr (vni h) 16) 255)) in
  let! out := store out 5 (u8 (Z.land (Z.shiftr (vni h) 8) 255)) in
  let! out := store out 6 (u8 (Z.land (vni h) 255)) in
  store out 7 0.

(** [VxlanHeader::parse]. *)
Definition parse (data : list Z) : outcome (option VxlanHeader) :=
  if length data <? VXLAN_HEADER_LEN then Done None
  else
    let! b0 := idx data 0 in
    let i_flag := negb (Z.land b0 VXLAN_FLAGS_I =? 0)%Z in
    if negb i_flag then Done None
    else
      let! a := idx data 4 in
      let! b := idx data 5 in
      let! c := idx data 6 in
      Done (Some (MkVxlan i_flag (of_vni a b c))).

(** [build_vxlan_frame_into]. *)
Definition build_vxlan_frame_into (out : list Z) (outer_src_mac outer_dst_mac : Mac)
    (outer_src_ip outer_dst_ip : Ipv4Addr) (outer_src_port outer_dst_port vni : Z)
    (inner_src_mac inner_dst_mac : Mac) (src dst : Ipv4Addr) (sp dp : Z) (payload : list Z)
    (ttl : Z) : outcome (list Z * result Z UdpError) :=
  let outer_udp_payload_len := VXLAN_HEADER_LEN + inner_frame_len payload in
  let outer_udp_len := u16 (Z.of_nat (UDP_HEADER_LEN + outer_udp_payload_len)) in
  let outer_ip_total := u16 (Z.of_nat (IPV4_HEADER_LEN + Z.to_nat outer_udp_len)) in
  let total := ETH_HEADER_LEN + Z.to_nat outer_ip_total in
  let out := resize out total in
  let! out := put_eth out 0 outer_dst_mac outer_src_mac ETH_TYPE_IPV4 in
  let oip := ETH_HEADER_LEN in
  let! out := put_ipv4 out oip 0 outer_ip_total ttl outer_src_ip outer_dst_ip in
  let oudp := oip + IPV4_HEADER_LEN in
  let! out := put_udp out oudp outer_src_port outer_dst_port outer_udp_len in
  let vxlan_off := oudp + UDP_HEADER_LEN in
  let! out := update_slice out vxlan_off (vxlan_off + VXLAN_HEADER_LEN) (encode (header_new vni)) in
  let ieth := vxlan_off + VXLAN_HEADER_LEN in
  let! out := put_inner_frame out ieth inner_src_mac inner_dst_mac src dst sp dp payload in
  let! out := put_outer_cksum out oudp total outer_src_ip outer_dst_ip in
  Done (out, Ok (Z.of_nat total)).

(** [build_vxlan_frame_into_v6]. *)
Definition build_vxlan_frame_into_v6 (out : list Z) (outer_src_mac outer_dst_mac : Mac)
    (outer_src_ip outer_dst_ip : Ipv6Addr) (outer_src_port outer_dst_port vni : Z)
    (inner_src_mac inner_dst_mac : Mac) (src dst : Ipv4Addr) (sp dp : Z) (payload : list Z)
    (hop_limit : Z) : outcome (list Z * result Z UdpError) :=
  let outer_udp_payload_len := VXLAN_HEADER_LEN + inner_frame_len payload in
  let outer_udp_len := u16 (Z.of_nat (UDP_HEADER_LEN + outer_udp_payload_len)) in
  let total := ETH_HEADER_LEN + IPV6_HEADER_LEN + Z.to_nat outer_udp_len in
  let out := resize out total in
  let! out := put_eth out 0 outer_dst_mac outer_src_mac ETH_TYPE_IPV6 in
  let oip := ETH_HEADER_LEN in
  let! out := write_ipv6_header out oip outer_src_ip outer_dst_ip outer_udp_len IP_PROTO_UDP
                hop_limit in
  let oudp := oip + IPV6_HEADER_LEN in
  let! out := put_udp out oudp outer_src_port outer_dst_port outer_udp_len in
  let vxlan_off := oudp + UDP_HEADER_LEN in
  let! out := update_slice out vxlan_off (vxlan_off + VXLAN_HEADER_LEN) (encode (header_new vni)) in
  let ieth := vxlan_off + VXLAN_HEADER_LEN in
  let! out := put_inner_frame out ieth inner_src_mac inner_dst_mac src dst sp dp payload in
  let! out := put_outer_cksum6 out oudp total outer_src_ip outer_dst_ip in
  Done (out, Ok (Z.of_nat total)).

(** From the VXLAN header on. *)
Definition decap_at {ip} (frame : list Z) (expected_vni : option Z) (o : option (ip * nat))
    : outcome (option (L2DecapResult ip VxlanHeader)) :=
  match o with None => Done None | Some (outer_src_ip, vxlan_off) =>
  let! data := slice_from frame vxlan_off in
  let! h := parse data in
  match h with None => Done None | Some vxlan_hdr =>
  if vni_mismatch expected_vni (vni vxlan_hdr) then Done None
  else decap_frame frame outer_src_ip vxlan_hdr (vxlan_off + VXLAN_HEADER_LEN)
  end end.

(** [try_decap_vxlan] and [try_decap_vxlan_v6]. *)
Definition try_decap_vxlan (frame : list Z) (l3_offset : nat) (vxlan_local_port : Z)
    (expected_vni : option Z) : outcome (option (L2DecapResult Ipv4Addr VxlanHeader)) :=
  let! o := outer_v4 frame l3_offset vxlan_local_port in decap_at frame expected_vni o.

Definition try_decap_vxlan_v6 (frame : list Z) (l3_offset : nat) (vxlan_local_port : Z)
    (expected_vni : option Z) : outcome (option (L2DecapResult Ipv6Addr VxlanHeader)) :=
  let! o := outer_v6 frame l3_offset vxlan_local_port in decap_at frame expected_vni o.

End Vxlan.

(** ** GENEVE *)

Module Geneve.

Definition GENEVE_BASE_HEADER_LEN : nat := 8.
Definition GENEVE_DEFAULT_PORT : Z := 6081.
Definition GENEVE_INNER_ETYPE_ETH : Z := 25944.
Definition GENEVE_VERSION : Z := 0.
Definition GENEVE_ENCAP_OVERHEAD : nat :=
  IPV4_HEADER_LEN + UDP_HEADER_LEN + GENEVE_BASE_HEADER_LEN + ETH_HEADER_LEN.

(** [GeneveConfig::new]. *)
Definition config_new {ip} (remote_ip : ip) (vni : Z) : outcome (VtepConfig ip) :=
  if (vni <=? VNI_MAX)%Z
  then Done (MkVtep remote_ip vni GENEVE_DEFAULT_PORT GENEVE_DEFAULT_PORT mac_zero mac_broadcast)
  else Panic.

Record GeneveTlvOption := MkTlv { class : Z; option_type : Z; tlv_data : list Z }.

Record GeneveHeader := MkGeneve {
  version : Z;
  options_len : nat;
  oam : bool;
  critical : bool;
  protocol_type : Z;
  vni : Z;
  options : list GeneveTlvOption }.

Definition header_new (vni : Z) : GeneveHeader :=
  MkGeneve GENEVE_VERSION 0 false false GENEVE_INNER_ETYPE_ETH vni [].

Definition header_len (h : GeneveHeader) : nat := GENEVE_BASE_HEADER_LEN + options_len h.

(** The loop of [encode] over the options. *)
Fixpoint encode_options (out : list Z) (off : nat) (opts : list GeneveTlvOption)
    : outcome (list Z) :=
  match opts with
  | [] => Done out
  | opt :: opts =>
      let data_len_words := u8 (Z.of_nat (length (tlv_data opt) / 4)) in
      let! out := store out off (u8 (Z.shiftr (class opt) 8)) in
      let! out := store out (off + 1) (u8 (class opt)) in
      let! out := store out (off + 2) (option_type opt) in
      let! out := store out (off + 3) (Z.land data_len_words 31) in
      let! out := blit out (off + 4) (off + 4 + length (tlv_data opt)) (tlv_data opt) in
      encode_options out (off + (4 + length (tlv_data opt))) opts
  end.

(** [GeneveHeader::encode]. *)
Definition encode (h : GeneveHeader) (out : list Z) : outcome (list Z) :=
  let opt_len_words := u8 (Z.of_nat (options_len h / 4)) in
  let! out := store out 0 (Z.lor (u8 (Z.shiftl (Z.land (version h) 3) 6)) (Z.land opt_len_words 63)) in
  let! out := store out 1 (Z.lor (if oam h then 128 else 0) (if critical h then 64 else 0)) in
  let! out := blit out 2 4 (be16 (protocol_type h)) in
  let! out := store out 4 (u8 (Z.land (Z.shiftr (vni h) 16) 255)) in
  let! out := store out 5 (u8 (Z.land (Z.shiftr (vni h) 8) 255)) in
  let! out := store out 6 (u8 (Z.land (vni h) 255)) in
  let! out := store out 7 0 in
  encode_options out GENEVE_BASE_HEADER_LEN (options h).

(** The option loop of [parse]. *)
Fixpoint parse_options (fuel : nat) (data : list Z) (off total_len : nat)
    (acc : list GeneveTlvOption) : outcome (option (list GeneveTlvOption)) :=
  match fuel with
  | O => OutOfFuel
  | S fuel =>
      if off + 4 <=? total_len then
        let! class := read16 data off in
        let! option_type := idx data (off + 2) in
        let! l := idx data (off + 3) in
        let data_len := Z.to_nat (Z.land l 31) * 4 in
        if total_len <? off + 4 + data_len then Done None
        else
          let! d := slice data (off + 4) (off + 4 + data_len) in
          parse_options fuel data (off + (4 + data_len)) total_len
            (acc ++ [MkTlv class option_type d])
      else Done (Some acc)
  end.

(** [GeneveHeader::parse]; every option takes at least four bytes, so [total_len]
    turns are enough. *)
Definition parse (data : list Z) : outcome (option GeneveHeader) :=
  if length data <? GENEVE_BASE_HEADER_LEN then Done None
  else
    let! b0 := idx data 0 in
    let version := Z.land (Z.shiftr b0 6) 3 in
    if negb (version =? GENEVE_VERSION)%Z then Done None
    else
      let opt_len_words := Z.to_nat (Z.land b0 63) in
      let options_len := opt_len_words * 4 in
      let total_len := GENEVE_BASE_HEADER_LEN + options_len in
      if length data <? total_len then Done None
      else
        let! b1 := idx data 1 in
        let oam := negb (Z.land b1 128 =? 0)%Z in
        let critical := negb (Z.land b1 64 =? 0)%Z in
        let! protocol_type := read16 data 2 in
        if negb (protocol_type =? GENEVE_INNER_ETYPE_ETH)%Z then Done None
        else
          let! a := idx data 4 in
          let! b := idx data 5 in
          let! c := idx data 6 in
          let! opts := parse_options (S total_len) data GENEVE_BASE_HEADER_LEN total_len [] in
          match opts with
          | None => Done None
          | Some options =>
              Done (Some (MkGeneve version options_len oam critical protocol_type (of_vni a b c)
                            options))
          end.

(** [build_geneve_frame_into]. *)
Definition build_geneve_frame_into (out : list Z) (outer_src_mac outer_dst_mac : Mac)
    (outer_src_ip outer_dst_ip : Ipv4Addr) (outer_src_port outer_dst_port : Z)
    (geneve_header : GeneveHeader) (inner_src_mac inner_dst_mac : Mac) (src dst : Ipv4Addr)
    (sp dp : Z) (payload : list Z) (ttl : Z) : outcome (list Z * result Z UdpError) :=
  let geneve_len := header_len geneve_header in
  let outer_udp_payload_len := geneve_len + inner_frame_len payload in
  let outer_udp_len := u16 (Z.of_nat (UDP_HEADER_LEN + outer_udp_payload_len)) in
  let outer_ip_total := u16 (Z.of_nat (IPV4_HEADER_LEN + Z.to_nat outer_udp_len)) in
  let total := ETH_HEADER_LEN + Z.to_nat outer_ip_total in
  let out := resize out total in
  let! out := put_eth out 0 outer_dst_mac outer_src_mac ETH_TYPE_IPV4 in
  let oip := ETH_HEADER_LEN in
  let! out := put_ipv4 out oip 0 outer_ip_total ttl outer_src_ip outer_dst_ip in
  let oudp := oip + IPV4_HEADER_LEN in
  let! out := put_udp out oudp outer_src_port outer_dst_port outer_udp_len in
  let geneve_off := oudp + UDP_HEADER_LEN in
  let! out := update_slice out geneve_off (geneve_off + geneve_len) (encode geneve_header) in
  let ieth := geneve_off + geneve_len in
  let! out := put_inner_frame out ieth inner_src_mac inner_dst_mac src dst sp dp payload in
  let! out := put_outer_cksum out oudp total outer_src_ip outer_dst_ip in
  Done (out, Ok (Z.of_nat total)).

(** [build_geneve_frame_into_v6]. *)
Definition build_geneve_frame_into_v6 (out : list Z) (outer_src_mac outer_dst_mac : Mac)
    (outer_src_ip outer_dst_ip : Ipv6Addr) (outer_src_port outer_dst_port : Z)
    (geneve_header : GeneveHeader) (inner_src_mac inner_dst_mac : Mac) (src dst : Ipv4Addr)
    (sp dp : Z) (payload : list Z) (hop_limit : Z) : outcome (list Z * result Z UdpError) :=
  let geneve_len := header_len geneve_header in
  let outer_udp_payload_len := geneve_len + inner_frame_len payload in
  let outer_udp_len := u16 (Z.of_nat (UDP_HEADER_LEN + outer_udp_payload_len)) in
  let total := ETH_HEADER_LEN + IPV6_HEADER_LEN + Z.to_nat outer_udp_len in
  let out := resize out total in
  let! out := put_eth out 0 outer_dst_mac outer_src_mac ETH_TYPE_IPV6 in
  let oip := ETH_HEADER_LEN in
  let! out := write_ipv6_header out oip outer_src_ip outer_dst_ip outer_udp_len IP_PROTO_UDP
                hop_limit in
  let oudp := oip + IPV6_HEADER_LEN in
  let! out := put_udp out oudp outer_src_port outer_dst_port outer_udp_len in
  let geneve_off := oudp + UDP_HEADER_LEN in
  let! out := update_slice out geneve_off (geneve_off + geneve_len) (encode geneve_header) in
  let ieth := geneve_off + geneve_len in
  let! out := put_inner_frame out ieth inner_src_mac inner_dst_mac src dst sp dp payload in
  let! out := put_outer_cksum6 out oudp total outer_src_ip outer_dst_ip in
  Done (out, Ok (Z.of_nat total)).

(** From the GENEVE header on. *)
Definition decap_at {ip} (frame : list Z) (expected_vni : option Z) (o : option (ip * nat))
    : outcome (option (L2DecapResult ip GeneveHeader)) :=
  match o with None => Done None | Some (outer_src_ip, geneve_off) =>
  let! data := slice_from frame geneve_off in
  let! h := parse data in
  match h with None => Done None | Some geneve_hdr =>
  if vni_mismatch expected_vni (vni geneve_hdr) then Done None
  else decap_frame frame outer_src_ip geneve_hdr (geneve_off + header_len geneve_hdr)
  end end.

(** [try_decap_geneve] and [try_decap_geneve_v6]. *)
Definition try_decap_geneve (frame : list Z) (l3_offset : nat) (geneve_local_port : Z)
    (expected_vni : option Z) : outcome (option (L2DecapResult Ipv4Addr GeneveHeader)) :=
  let! o := outer_v4 frame l3_offset geneve_local_port in decap_at frame expected_vni o.

Definition try_decap_geneve_v6 (frame : list Z) (l3_offset : nat) (geneve_local_port : Z)
    (expected_vni : option Z) : outcome (option (L2DecapResult Ipv6Addr GeneveHeader)) :=
  let! o := outer_v6 frame l3_offset geneve_local_port in decap_at frame expected_vni o.

End Geneve.
