(* ===== verification/TunnelTrip.v ===== *)
(** * Tunnels: layout, totality and round trip

    A tunnel frame is a UDP frame whose payload is the tunnel header and the inner
    packet ([gue_layout], [vxlan_layout], [geneve_layout]); decapsulating it gives back
    the inner datagram, and no byte string makes a decapsulator panic. *)

From stdpp Require Import base numbers list strings.
From Stdlib Require Import ZArith Lia.
From S2P Require Import Prelude State Buffer Checksum Codec CodecOptions CodecFrames.
From S2P Require Import UdpChecksum UdpFrame UdpLayout Udp6Frame Tunnel.

#[local] Open Scope nat_scope.

(** ** Bytes *)

Lemma datagram_bytes tos ttl src dst sp dp payload :
  is_u8 tos -> is_u8 ttl -> wf_udp src dst payload ->
  Forall is_u8 (datagram tos ttl src dst sp dp payload).
Proof.
  intros Hto Htt (Hs & Hd & Hp & _). unfold datagram, dgram, ip4_bytes, ip4_raw, udp_bytes.
  rewrite !Forall_app. split_and!; auto using ip4_pre_bytes, be16_bytes, octets_bytes, udp_pre_bytes.
Qed.

Lemma eth_bytes_bytes dst src etype :
  wf_mac dst -> wf_mac src -> Forall is_u8 (eth_bytes dst src etype).
Proof. intros. unfold eth_bytes. auto using Forall_app_2, be16_bytes. Qed.

(** ** Writing *)

(** The last part of a buffer. *)
Lemma slice_end d u p a b :
  a = length d + length u -> b = a + length p -> slice (d ++ u ++ p) a b = Done p.
Proof.
  intros -> ->. replace (d ++ u ++ p) with ((d ++ u) ++ p ++ []) by (by rewrite app_nil_r, <- app_assoc).
  apply slice_mid; by rewrite ?length_app.
Qed.

(** A header encoded into the next [n] bytes. *)
Lemma update_slice_next d t a b n f s :
  a = length d -> b = a + n -> n <= length t -> length s = n ->
  f (take n t) = Done s -> update_slice (d ++ t) a b f = Done ((d ++ s) ++ drop n t).
Proof.
  intros -> -> Hn Hs Hf. unfold update_slice.
  assert (d ++ t = d ++ take n t ++ drop n t) as -> by (by rewrite take_drop).
  assert (length (take n t) = n) as Ht by (rewrite length_take; lia).
  rewrite slice_mid by (done || lia). rewrite obind_Done. cbv beta. rewrite Hf, obind_Done. cbv beta.
  rewrite blit_mid by lia. by rewrite <- app_assoc.
Qed.

Lemma put_inner_next d t iip src dst sp dp payload :
  iip = length d -> length t = 28 + length payload -> wf_udp src dst payload ->
  put_inner (d ++ t) iip src dst sp dp payload = Done (d ++ datagram 0 64 src dst sp dp payload).
Proof.
  intros Hd Ht Hwf. rewrite <- (put_datagram d t iip 0 64 src dst sp dp payload) by done.
  unfold put_inner, IPV4_HEADER_LEN, UDP_HEADER_LEN. by rewrite <- (Nat.add_assoc iip 20 8).
Qed.

Lemma put_outer_cksum_at d oudp total src dst sp dp payload :
  oudp = length d -> total = oudp + 8 + length payload -> wf_udp src dst payload ->
  put_outer_cksum (d ++ udp_bytes sp dp (udp_len payload) 0 ++ payload) oudp total src dst
  = Done (d ++ udp_bytes sp dp (udp_len payload)
            (ucksum_of (octets src) (octets dst) (udp_bytes sp dp (udp_len payload) 0) payload)
            ++ payload).
Proof.
  intros Hd -> Hwf. unfold put_outer_cksum, UDP_HEADER_LEN.
  run_step (slice_end d (udp_bytes sp dp (udp_len payload) 0) payload (oudp + 8)
    (oudp + 8 + length payload) ltac:(subst oudp; done) eq_refl). erewrite put_udp_cksum_at; [done|done|by apply ucksum_of_done].
Qed.

Lemma put_outer_cksum6_at d oudp total src dst sp dp payload :
  oudp = length d -> total = oudp + 8 + length payload -> wf_udp6 src dst payload ->
  put_outer_cksum6 (d ++ udp_bytes sp dp (udp_len payload) 0 ++ payload) oudp total src dst
  = Done (d ++ udp_bytes sp dp (udp_len payload)
            (u6cksum_of (octets6 src) (octets6 dst) (udp_bytes sp dp (udp_len payload) 0) payload)
            ++ payload).
Proof.
  intros Hd -> (_ & _ & Hp & Hl). unfold put_outer_cksum6, UDP_HEADER_LEN.
  run_step (slice_end d (udp_bytes sp dp (udp_len payload) 0) payload (oudp + 8)
    (oudp + 8 + length payload) ltac:(subst oudp; done) eq_refl). erewrite put_udp6_cksum_at; [done|done|].
  unfold udp_bytes. change (be16 0) with [0; 0]%Z.
  apply (u6cksum_of_spec src dst sp dp (udp_len payload) payload 0 0); [done|lia].
Qed.

(** The outer packet around a tunnel header [H], written by [put1], and the inner packet
    [N], written by [put2]. *)
Section Outer.

Context (out : list Z) (osm odm : Mac) (osp odp ttl : Z) (H N : list Z)
  (put1 put2 : list Z -> outcome (list Z)).

#[local] Abbreviation B := (H ++ N).

Lemma put_body d t :
  length t = length B ->
  (length H <= length t -> put1 (d ++ t) = Done ((d ++ H) ++ drop (length H) t)) ->
  (forall t, length t = length N -> put2 ((d ++ H) ++ t) = Done ((d ++ H) ++ N)) ->
  (let! o := put1 (d ++ t) in put2 o) = Done (d ++ B).
Proof using.
  intros Ht H1 H2. rewrite length_app in Ht. rewrite H1, obind_Done by lia. cbv beta.
  rewrite H2 by (rewrite length_drop; lia). by rewrite <- app_assoc.
Qed.

(** Two steps and a continuation. *)
Lemma obind_chain2 {X} (m : outcome (list Z)) f (k : list Z -> outcome X) :
  (let! a := m in let! b := f a in k b) = obind (let! a := m in f a) k.
Proof using. by destruct m. Qed.

Lemma outer4_layout osrc odst total iptot ulen :
  total = 42 + length B -> wf_udp osrc odst B -> iptot = ip_total_len B -> ulen = udp_len B ->
  (forall d t, length d = 42 -> length H <= length t ->
     put1 (d ++ t) = Done ((d ++ H) ++ drop (length H) t)) ->
  (forall d t, length d = 42 -> length t = length N ->
     put2 ((d ++ H) ++ t) = Done ((d ++ H) ++ N)) ->
  (let! o := put_eth (resize out total) 0 odm osm ETH_TYPE_IPV4 in
   let! o := put_ipv4 o 14 0 iptot ttl osrc odst in
   let! o := put_udp o 34 osp odp ulen in
   let! o := put1 o in
   let! o := put2 o in
   let! o := put_outer_cksum o 34 total osrc odst in
   Done (o, @Ok Z UdpError (Z.of_nat total)))
  = Done (udp_frame osm odm None osrc odst osp odp B ttl 0, Ok (Z.of_nat total)).
Proof using.
  intros Ht Hwf -> -> H1 H2. pose proof (length_resize out total) as Hr. revert Hr.
  generalize (resize out total). intros o Ho. change o with ([] ++ o).
  rewrite put_eth_next, obind_Done by (cbn; lia). cbv beta.
  rewrite put_ipv4_next, obind_Done by (rewrite ?length_drop; done || lia). cbv beta.
  rewrite put_udp_next, obind_Done by (rewrite ?length_drop; done || lia). cbv beta.
  rewrite obind_chain2, put_body, obind_Done
    by first [by rewrite !length_drop; lia | by apply H1 | by intros; apply H2]. cbv beta.
  rewrite <- (app_assoc _ (udp_bytes _ _ _ _)).
  rewrite put_outer_cksum_at by (done || lia). rewrite obind_Done.
  unfold udp_frame, link_bytes, eth_bytes, datagram, dgram. by rewrite <- !app_assoc.
Qed.

Lemma outer6_layout osrc odst total ulen :
  total = 62 + length B -> wf_udp6 osrc odst B -> ulen = udp_len B ->
  (forall d t, length d = 62 -> length H <= length t ->
     put1 (d ++ t) = Done ((d ++ H) ++ drop (length H) t)) ->
  (forall d t, length d = 62 -> length t = length N ->
     put2 ((d ++ H) ++ t) = Done ((d ++ H) ++ N)) ->
  (let! o := put_eth (resize out total) 0 odm osm ETH_TYPE_IPV6 in
   let! o := write_ipv6_header o 14 osrc odst ulen IP_PROTO_UDP ttl in
   let! o := put_udp o 54 osp odp ulen in
   let! o := put1 o in
   let! o := put2 o in
   let! o := put_outer_cksum6 o 54 total osrc odst in
   Done (o, @Ok Z UdpError (Z.of_nat total)))
  = Done (udp6_frame osm odm osrc odst osp odp B ttl, Ok (Z.of_nat total)).
Proof using.
  intros Ht Hwf -> H1 H2. pose proof (length_resize out total) as Hr. revert Hr.
  generalize (resize out total). intros o Ho. change o with ([] ++ o).
  rewrite put_eth_next, obind_Done by (cbn; lia). cbv beta.
  rewrite write_ipv6_next, obind_Done by (rewrite ?length_drop; done || lia). cbv beta.
  rewrite put_udp_next, obind_Done by (rewrite ?length_drop; done || lia). cbv beta.
  rewrite obind_chain2, put_body, obind_Done
    by first [by rewrite !length_drop; lia | by apply H1 | by intros; apply H2]. cbv beta.
  rewrite <- (app_assoc _ (udp_bytes _ _ _ _)).
  rewrite put_outer_cksum6_at by (done || lia). rewrite obind_Done.
  unfold udp6_frame, datagram6. by rewrite <- !app_assoc.
Qed.

End Outer.

(** ** Reading *)

Lemma read16_app pre rest k : read16 (pre ++ rest) (length pre + k) = read16 rest k.
Proof. unfold read16. by rewrite <- Nat.add_assoc, !idx_app. Qed.

Lemma outer_v4_datagram L tos ttl src dst sp dp B pad :
  is_u16 dp ->
  outer_v4 (L ++ datagram tos ttl src dst sp dp B ++ pad) (length L) dp
  = Done (Some (src, length L + 28)).
Proof.
  intros Hdp. pose proof (datagram_fields tos ttl src dst sp dp B pad) as (F0 & F9 & F12 & _).
  pose proof (length_datagram tos ttl src dst sp dp B) as HD.
  assert (read16 (datagram tos ttl src dst sp dp B ++ pad) 22 = Done dp) as P2.
  { change (Done (of_be16 (u8 (dp / 256)) (u8 dp)) = Done dp). by rewrite of_be16_be16. }
  set (D := datagram _ _ _ _ _ _ _) in *. unfold outer_v4, IPV4_HEADER_LEN, UDP_HEADER_LEN.
  rewrite (proj2 (Nat.ltb_ge _ _)) by (rewrite !length_app; lia).
  run_step (slice_from_app L (D ++ pad)). run_step F9.
  change (negb (17 =? IP_PROTO_UDP)%Z) with false. cbv iota. run_step F12. run_step F0.
  change (ihl_bytes 69) with 20. change (20 <? 20) with false. cbv iota.
  rewrite (proj2 (Nat.ltb_ge _ _)) by (rewrite !length_app; lia).
  rewrite <- !Nat.add_assoc, read16_app. change (20 + 2) with 22. run_step P2.
  by rewrite Z.eqb_refl.
Qed.

Lemma outer_v6_datagram L hop src dst sp dp B pad :
  is_u128 src -> is_u16 dp ->
  outer_v6 (L ++ datagram6 hop src dst sp dp B ++ pad) (length L) dp
  = Done (Some (src, length L + 48)).
Proof.
  intros Hs Hdp.
  assert (length (datagram6 hop src dst sp dp B) = 48 + length B) as HD
    by (unfold datagram6; rewrite !length_app; reflexivity).
  assert (read16 (datagram6 hop src dst sp dp B ++ pad) 42 = Done dp) as P2.
  { change (Done (of_be16 (u8 (dp / 256)) (u8 dp)) = Done dp). by rewrite of_be16_be16. }
  assert (idx (datagram6 hop src dst sp dp B ++ pad) 0 = Done 96%Z) as F0 by done.
  assert (idx (datagram6 hop src dst sp dp B ++ pad) 6 = Done 17%Z) as F6 by done.
  assert (slice (datagram6 hop src dst sp dp B ++ pad) 8 24 = Done (octets6 src)) as S8.
  { unfold datagram6, ip6_bytes. rewrite <- !app_assoc, 2!app_assoc. by apply slice_mid. }
  set (D := datagram6 _ _ _ _ _ _) in *. unfold outer_v6, IPV6_HEADER_LEN, UDP_HEADER_LEN.
  rewrite (proj2 (Nat.ltb_ge _ _)) by (rewrite !length_app; lia).
  run_step (slice_from_app L (D ++ pad)). run_step F0.
  change (negb (Z.shiftr 96 4 =? 6)%Z) with false. cbv iota. run_step F6.
  change (negb (17 =? IP_PROTO_UDP)%Z) with false. cbv iota. run_step S8.
  rewrite (proj2 (Nat.ltb_ge _ _)) by (rewrite !length_app; lia).
  rewrite <- !Nat.add_assoc, read16_app. change (40 + 2) with 42. run_step P2.
  rewrite Z.eqb_refl. by rewrite of_octets6_octets6.
Qed.

Lemma inner_v4_datagram pre tos ttl src dst sp dp payload pad :
  is_u16 sp -> is_u16 dp -> (zlen payload <= 65507)%Z ->
  inner_v4 (pre ++ datagram tos ttl src dst sp dp payload ++ pad) (length pre)
  = Done (Some (MkInner src dst sp dp payload)).
Proof.
  intros Hsp Hdp Hl.
  pose proof (datagram_fields tos ttl src dst sp dp payload pad) as (F0 & F9 & F12 & F16).
  pose proof (datagram_ports tos ttl src dst sp dp payload Hsp Hdp Hl pad) as (P0 & P2 & P4).
  pose proof (datagram_payload tos ttl src dst sp dp payload pre pad) as Y.
  pose proof (length_datagram tos ttl src dst sp dp payload) as HD.
  assert (forall l k, read16 (drop 20 l) k = read16 l (20 + k)) as Hdr
    by (intros; unfold read16; by rewrite !idx_drop, Nat.add_assoc).
  rewrite Hdr in P0, P2, P4. change (20 + 0) with 20 in P0. set (D := datagram _ _ _ _ _ _ _) in *.
  unfold inner_v4, IPV4_HEADER_LEN, UDP_HEADER_LEN.
  rewrite (proj2 (Nat.ltb_ge _ _)) by (rewrite !length_app; lia).
  run_step (slice_from_app pre (D ++ pad)). run_step F0.
  change (negb (Z.shiftr 69 4 =? 4)%Z) with false. change (ihl_bytes 69) with 20.
  change (20 <? 20) with false. cbv iota.
  rewrite (proj2 (Nat.ltb_ge _ _)) by (rewrite !length_app; lia). cbn [orb]. run_step F9.
  change (negb (17 =? IP_PROTO_UDP)%Z) with false. cbv iota. run_step F12. run_step F16.
  rewrite (proj2 (Nat.ltb_ge _ _)) by (rewrite !length_app; lia).
  rewrite <- !(Nat.add_assoc (length pre) 20), !read16_app.
  run_step P0. run_step P2. run_step P4.
  unfold zlen. replace (Z.to_nat (8 + Z.of_nat (length payload))) with (8 + length payload) by lia.
  rewrite <- ?(Nat.add_assoc (length pre) 20).
  rewrite (proj2 (Nat.ltb_ge _ 8)), (proj2 (Nat.ltb_ge _ (length pre + (20 + _))))
    by (rewrite ?length_app; lia). cbn [orb]. change (20 + 8) with 28.
  replace (8 + length payload - 8) with (length payload) by lia. by run_step Y.
Qed.

Lemma inner_eth_bytes pre dst src rest :
  inner_eth (pre ++ eth_bytes dst src ETH_TYPE_IPV4 ++ rest) (length pre)
  = Done (Some (dst, src, length pre + 14)).
Proof.
  unfold inner_eth, ETH_HEADER_LEN.
  rewrite (proj2 (Nat.ltb_ge _ _)) by (rewrite !length_app; cbn; lia).
  assert (slice (pre ++ eth_bytes dst src ETH_TYPE_IPV4 ++ rest) (length pre) (length pre + 6)
          = Done (mac_bytes dst) /\
          slice (pre ++ eth_bytes dst src ETH_TYPE_IPV4 ++ rest) (length pre + 6) (length pre + 12)
          = Done (mac_bytes src)) as [S1 S2].
  { unfold eth_bytes. rewrite <- !app_assoc. split; [by apply slice_mid|].
    rewrite app_assoc. apply slice_mid; [rewrite length_app|cbn]; cbn; lia. }
  run_step S1. run_step (to_mac_bytes dst). run_step S2. run_step (to_mac_bytes src).
  rewrite read16_app. reflexivity.
Qed.

(** Where the body of a tunnel frame starts, and what the endpoint finds before it. *)
Lemma outer_v4_frame osm odm osrc odst osp odp B ttl pad :
  is_u16 odp ->
  outer_v4 (udp_frame osm odm None osrc odst osp odp B ttl 0 ++ pad) 14 odp = Done (Some (osrc, 42)) /\
  exists pre, length pre = 42 /\
    udp_frame osm odm None osrc odst osp odp B ttl 0 ++ pad = pre ++ B ++ pad.
Proof.
  intros Hp. unfold udp_frame. split.
  - rewrite <- app_assoc. by apply (outer_v4_datagram (link_bytes odm osm None)).
  - unfold datagram, dgram. set (I := ip4_bytes _ _ _ _ _). set (U := udp_bytes _ _ _ _).
    exists (link_bytes odm osm None ++ I ++ U). by rewrite <- !app_assoc.
Qed.

Lemma outer_v6_frame osm odm osrc odst osp odp B hop pad :
  is_u128 osrc -> is_u16 odp ->
  outer_v6 (udp6_frame osm odm osrc odst osp odp B hop ++ pad) 14 odp = Done (Some (osrc, 62)) /\
  exists pre, length pre = 62 /\
    udp6_frame osm odm osrc odst osp odp B hop ++ pad = pre ++ B ++ pad.
Proof.
  intros Hs Hp. unfold udp6_frame. split.
  - rewrite <- app_assoc. by apply (outer_v6_datagram (eth_bytes odm osm ETH_TYPE_IPV6)).
  - unfold datagram6. set (I := ip6_bytes _ _ _ _ _). set (U := udp_bytes _ _ _ _).
    exists (eth_bytes odm osm ETH_TYPE_IPV6 ++ I ++ U). by rewrite <- !app_assoc.
Qed.

Lemma length_udp6_frame osm odm osrc odst osp odp B hop :
  length (udp6_frame osm odm osrc odst osp odp B hop) = 62 + length B.
Proof. rewrite <- (app_nil_r (udp6_frame _ _ _ _ _ _ _ _)), frame6_len. cbn. lia. Qed.

(** Side conditions on concrete values. *)
Ltac concrete := unfold wf_ipv4, wf_mac, is_u128, is_u16, is_u8, zlen; cbn; lia.

Ltac concrete_udp :=
  split_and!; first [repeat constructor; concrete | concrete].

(** ** GUE *)

Module GueTrip.

Import Gue.

Definition gue_bytes (h : GueHeader) : list Z :=
  [Z.lor (Z.lor (u8 (Z.shiftl (version h) 6)) (if c_flag h then 32 else 0)) (Z.land (hlen h) 31);
   proto h] ++ be16 (flags h).

Lemma gue_encode_bytes h out : length out = 4 -> encode h out = Done (gue_bytes h).
Proof. intros H. by destruct out as [|a [|b [|c [|d [|]]]]]. Qed.

(** The headers the wire format can carry and the parser accepts. *)
Definition wf_header (h : GueHeader) : Prop :=
  version h = GUE_VERSION /\ (0 <= hlen h <= 31)%Z /\ is_u16 (flags h).

(** The header is read back as it was written, extensions of [hlen] words included. *)
Lemma gue_header_roundtrip h rest :
  wf_header h -> Z.to_nat (hlen h) * 4 <= length rest ->
  parse (gue_bytes h ++ rest) = Done (Some h).
Proof.
  destruct h as [v c hl pr fl]. intros (Hv & Hh & Hf) Hr. cbn [version hlen flags] in *. subst v.
  unfold gue_bytes. cbn [version c_flag hlen proto flags].
  assert (Z.lor (Z.lor (u8 (Z.shiftl GUE_VERSION 6)) (if c then 32 else 0)) (Z.land hl 31)
          = ((if c then 1 else 0) * 32 + hl)%Z) as ->.
  { change 31%Z with (Z.ones 5). rewrite land_low, Z.mod_small by lia.
    rewrite <- (lor_shiftl_small _ hl 5) by lia. by destruct c. }
  set (x := ((if c then 1 else 0) * 32 + hl)%Z). set (F := ([x; pr] ++ be16 fl) ++ rest).
  assert (Z.land (Z.shiftr x 6) 3 = 0%Z) as E0
    by (change 3%Z with (Z.ones 2); rewrite land_low, shiftr_div by lia; subst x; destruct c; mod_lia).
  assert (Z.land (Z.shiftr x 5) 1 = if c then 1%Z else 0%Z) as E1
    by (change 1%Z with (Z.ones 1) at 1; rewrite land_low, shiftr_div by lia; subst x; destruct c; mod_lia).
  assert (Z.land x 31 = hl) as E2
    by (change 31%Z with (Z.ones 5); rewrite land_low by lia; subst x; destruct c; mod_lia).
  assert (read16 F 2 = Done fl) as E3
    by (change (Done (of_be16 (u8 (fl / 256)) (u8 fl)) = Done fl); by rewrite of_be16_be16).
  assert (idx F 1 = Done pr) as E4 by done. assert (idx F 0 = Done x) as E5 by done.
  unfold parse, GUE_HEADER_LEN. rewrite (proj2 (Nat.ltb_ge _ _)) by (subst F; cbn; lia).
  run_step E5. run_step E4. run_step E3. rewrite E0, E1, E2.
  change (negb (0 =? GUE_VERSION)%Z) with false. cbv iota.
  rewrite (proj2 (Nat.ltb_ge _ _)) by (subst F; cbn; lia). by destruct c.
Qed.

Definition gue_body (src dst : Ipv4Addr) (sp dp : Z) (payload : list Z) : list Z :=
  gue_bytes (new_data GUE_PROTO_IPV4) ++ datagram 0 64 src dst sp dp payload.

Lemma length_gue_body src dst sp dp payload :
  length (gue_body src dst sp dp payload) = 32 + length payload.
Proof. unfold gue_body. rewrite length_app, length_datagram. reflexivity. Qed.

Lemma gue_body_wf osrc odst src dst sp dp payload :
  wf_ipv4 osrc -> wf_ipv4 odst -> wf_udp src dst payload -> (zlen payload <= 65475)%Z ->
  wf_udp osrc odst (gue_body src dst sp dp payload).
Proof.
  intros H1 H2 Hwf Hl. split_and!; [done..| |].
  - apply Forall_app_2; [by repeat constructor|]. by apply datagram_bytes.
  - unfold zlen in *. rewrite length_gue_body. lia.
Qed.

(** The two stores the builders make after the outer headers. *)
Lemma gue_put d t off src dst sp dp payload :
  length d = off -> wf_udp src dst payload ->
  (4 <= length t -> update_slice (d ++ t) off (off + GUE_HEADER_LEN) (encode (new_data GUE_PROTO_IPV4))
     = Done ((d ++ gue_bytes (new_data GUE_PROTO_IPV4)) ++ drop 4 t)) /\
  (length t = 28 + length payload ->
   put_inner ((d ++ gue_bytes (new_data GUE_PROTO_IPV4)) ++ t) (off + GUE_HEADER_LEN) src dst sp dp payload
     = Done ((d ++ gue_bytes (new_data GUE_PROTO_IPV4)) ++ datagram 0 64 src dst sp dp payload)).
Proof.
  intros Hd Hwf. split; intros Ht.
  - apply update_slice_next; try done. apply gue_encode_bytes. rewrite length_take. lia.
  - apply put_inner_next; [|done..]. rewrite length_app, Hd. done.
Qed.

Lemma gue_layout out osm odm osrc odst osp odp src dst sp dp payload ttl :
  wf_udp osrc odst (gue_body src dst sp dp payload) -> wf_udp src dst payload ->
  build_gue_frame_into out osm odm osrc odst osp odp src dst sp dp payload ttl
  = Done (udp_frame osm odm None osrc odst osp odp (gue_body src dst sp dp payload) ttl 0,
          Ok (74 + zlen payload)%Z).
Proof.
  intros Ho Hwf. pose proof Ho as (_ & _ & _ & Hl). unfold zlen in Hl. rewrite length_gue_body in Hl.
  unfold build_gue_frame_into.
  assert (u16 (Z.of_nat (IPV4_HEADER_LEN + UDP_HEADER_LEN +
    (GUE_HEADER_LEN + (IPV4_HEADER_LEN + UDP_HEADER_LEN + length payload))))
    = ip_total_len (gue_body src dst sp dp payload)) as ->
    by (unfold ip_total_len; by rewrite length_gue_body).
  assert (Z.to_nat (ip_total_len (gue_body src dst sp dp payload)) = 60 + length payload) as ->.
  { unfold ip_total_len. rewrite length_gue_body, u16_small; unfold is_u16, IPV4_HEADER_LEN, UDP_HEADER_LEN; lia. }
  etransitivity; [apply outer4_layout with (H := gue_bytes (new_data GUE_PROTO_IPV4))
    (N := datagram 0 64 src dst sp dp payload);
    fold (gue_body src dst sp dp payload);
    [by rewrite length_gue_body|done|done|unfold udp_len; by rewrite length_gue_body|..]|].
  - intros d t Hd Ht. by apply (gue_put d t _ src dst sp dp payload).
  - intros d t Hd Ht. rewrite length_datagram in Ht. by apply (gue_put d t _ src dst sp dp payload).
  - fold (gue_body src dst sp dp payload). unfold zlen, ETH_HEADER_LEN. do 3 f_equal. lia.
Qed.

Lemma gue6_layout out osm odm osrc odst osp odp src dst sp dp payload hop :
  wf_udp6 osrc odst (gue_body src dst sp dp payload) -> wf_udp src dst payload ->
  build_gue_frame_into_v6 out osm odm osrc odst osp odp src dst sp dp payload hop
  = Done (udp6_frame osm odm osrc odst osp odp (gue_body src dst sp dp payload) hop,
          Ok (94 + zlen payload)%Z).
Proof.
  intros Ho Hwf. pose proof Ho as (_ & _ & _ & Hl). unfold zlen in Hl. rewrite length_gue_body in Hl.
  unfold build_gue_frame_into_v6.
  assert (u16 (Z.of_nat (UDP_HEADER_LEN +
    (GUE_HEADER_LEN + (IPV4_HEADER_LEN + UDP_HEADER_LEN + length payload))))
    = udp_len (gue_body src dst sp dp payload)) as ->
    by (unfold udp_len; by rewrite length_gue_body).
  assert (Z.to_nat (udp_len (gue_body src dst sp dp payload)) = 40 + length payload) as ->.
  { unfold udp_len. rewrite length_gue_body, u16_small; unfold is_u16, UDP_HEADER_LEN; lia. }
  etransitivity; [apply outer6_layout with (H := gue_bytes (new_data GUE_PROTO_IPV4))
    (N := datagram 0 64 src dst sp dp payload);
    fold (gue_body src dst sp dp payload); [by rewrite length_gue_body|done|done|..]|].
  - intros d t Hd Ht. by apply (gue_put d t _ src dst sp dp payload).
  - intros d t Hd Ht. rewrite length_datagram in Ht. by apply (gue_put d t _ src dst sp dp payload).
  - fold (gue_body src dst sp dp payload). unfold zlen, ETH_HEADER_LEN, IPV6_HEADER_LEN.
    do 3 f_equal. lia.
Qed.

Lemma decap_body {ip} (o : ip) pre src dst sp dp payload pad :
  is_u16 sp -> is_u16 dp -> (zlen payload <= 65475)%Z ->
  decap_at (pre ++ gue_body src dst sp dp payload ++ pad) (Some (o, length pre))
  = Done (Some (MkGueDecap (MkInner src dst sp dp payload) o (new_data GUE_PROTO_IPV4))).
Proof.
  intros Hsp Hdp Hl. unfold decap_at, gue_body. rewrite <- app_assoc.
  set (h := gue_bytes _). set (D := datagram _ _ _ _ _ _ _).
  run_step (slice_from_app pre (h ++ D ++ pad)).
  assert (parse (h ++ D ++ pad) = Done (Some (new_data GUE_PROTO_IPV4))) as E
    by (apply gue_header_roundtrip; [done|cbn; lia]).
  run_step E. cbn [c_flag proto new_data]. rewrite Z.eqb_refl. cbn [negb].
  rewrite (app_assoc pre). replace (length pre + total_len (new_data GUE_PROTO_IPV4))
    with (length (pre ++ h)) by (rewrite length_app; done).
  subst D. rewrite inner_v4_datagram; [done|done|done|lia].
Qed.

(** GUE encapsulation is undone by decapsulation: for IPv4 and for IPv6 outer packets the
    builder writes an ordinary UDP frame whose payload is the GUE header and the inner
    packet, whatever the buffer held, and the endpoint that listens on the outer port
    recovers the inner addresses, ports and payload and the outer source, whatever
    padding follows. *)
Theorem gue_roundtrip out osm odm osrc odst osrc6 odst6 osp odp src dst sp dp payload ttl pad :
  wf_ipv4 osrc -> wf_ipv4 odst -> is_u128 osrc6 -> is_u128 odst6 ->
  is_u16 odp -> is_u16 sp -> is_u16 dp -> wf_udp src dst payload -> (zlen payload <= 65475)%Z ->
  let r {ip} (o : ip) := MkGueDecap (MkInner src dst sp dp payload) o (new_data GUE_PROTO_IPV4) in
  (exists f n, build_gue_frame_into out osm odm osrc odst osp odp src dst sp dp payload ttl
      = Done (f, Ok n) /\ n = zlen f /\ try_decap_gue (f ++ pad) 14 odp = Done (Some (r osrc))) /\
  (exists f n, build_gue_frame_into_v6 out osm odm osrc6 odst6 osp odp src dst sp dp payload ttl
      = Done (f, Ok n) /\ n = zlen f /\ try_decap_gue_v6 (f ++ pad) 14 odp = Done (Some (r osrc6))).
Proof.
  intros H1 H2 H3 H4 Hop Hsp Hdp Hwf Hl r.
  pose proof (gue_body_wf osrc odst src dst sp dp payload H1 H2 Hwf Hl) as Ho.
  assert (wf_udp6 osrc6 odst6 (gue_body src dst sp dp payload)) as Ho6
    by (destruct Ho as (_ & _ & ? & ?); by split_and!).
  split; eexists _, _.
  - split; [apply (gue_layout _ _ _ _ _ _ _ _ _ _ _ _ _ Ho Hwf)|].
    split; [unfold zlen; rewrite length_udp_frame, length_gue_body; cbn [link_len]; lia|].
    destruct (outer_v4_frame osm odm osrc odst osp odp (gue_body src dst sp dp payload) ttl pad Hop)
      as (E & pre & Hpre & Hf).
    unfold try_decap_gue. run_step E. rewrite Hf, <- Hpre. by apply decap_body.
  - split; [apply (gue6_layout _ _ _ _ _ _ _ _ _ _ _ _ _ Ho6 Hwf)|].
    split; [unfold zlen; rewrite length_udp6_frame, length_gue_body; lia|].
    destruct (outer_v6_frame osm odm osrc6 odst6 osp odp (gue_body src dst sp dp payload) ttl pad H3 Hop)
      as (E & pre & Hpre & Hf).
    unfold try_decap_gue_v6. run_step E. rewrite Hf, <- Hpre. by apply decap_body.
Qed.

Lemma gue_roundtrip_witness :
  exists f n, build_gue_frame_into [] (MkMac 2 0 0 0 0 1) (MkMac 2 0 0 0 0 2) (MkIpv4 10 0 0 1)
      (MkIpv4 10 0 0 2) 6080 6080 (MkIpv4 192 168 0 1) (MkIpv4 192 168 0 2) 7 9 [1; 2]%Z 64
    = Done (f, Ok n) /\
    try_decap_gue (f ++ [0]%Z) 14 6080
    = Done (Some (MkGueDecap (MkInner (MkIpv4 192 168 0 1) (MkIpv4 192 168 0 2) 7 9 [1; 2]%Z)
        (MkIpv4 10 0 0 1) (new_data GUE_PROTO_IPV4))).
Proof.
  destruct (gue_roundtrip [] (MkMac 2 0 0 0 0 1) (MkMac 2 0 0 0 0 2) (MkIpv4 10 0 0 1)
    (MkIpv4 10 0 0 2) 1%Z 2%Z 6080 6080 (MkIpv4 192 168 0 1) (MkIpv4 192 168 0 2) 7 9 [1; 2]%Z 64 [0]%Z)
    as [(f & n & H1 & _ & H2) _];
    [concrete|concrete|concrete|concrete|concrete|concrete|concrete|concrete_udp|concrete|].
  exists f, n. exact (conj H1 H2).
Defined.

End GueTrip.

(** ** Network identifiers *)

Definition is_vni (v : Z) : Prop := (0 <= v <= VNI_MAX)%Z.

Lemma vni_bytes_value v :
  is_vni v -> vni_bytes v = [v / 65536; (v / 256) mod 256; v mod 256]%Z.
Proof.
  unfold is_vni, VNI_MAX. intros H. unfold vni_bytes. change 255%Z with (Z.ones 8).
  rewrite !land_low, !shiftr_div by lia. change (2 ^ 8)%Z with 256%Z. change (2 ^ 16)%Z with 65536%Z.
  rewrite !(u8_small (_ mod 256)) by (unfold is_u8; mod_lia).
  rewrite (Z.mod_small (v / 65536)) by mod_lia. done.
Qed.

Lemma of_vni_bytes v :
  is_vni v -> of_vni (v / 65536) ((v / 256) mod 256) (v mod 256) = v.
Proof.
  unfold is_vni, VNI_MAX. intros H. unfold of_vni.
  rewrite <- (Z.mul_1_r (v / 65536)) at 1.
  assert (Z.lor (Z.shiftl (v / 65536) 16) (Z.shiftl ((v / 256) mod 256) 8)
          = Z.shiftl (v / 256) 8) as E.
  { rewrite lor_shiftl_small by (rewrite ?Z.shiftl_mul_pow2 by lia; mod_lia).
    rewrite !Z.shiftl_mul_pow2 by lia. mod_lia. }
  rewrite Z.mul_1_r, E, lor_shiftl_small by mod_lia. mod_lia.
Qed.

(** ** The inner Ethernet frame *)

Definition l2_body (H : list Z) (ism idm : Mac) (src dst : Ipv4Addr) (sp dp : Z)
    (payload : list Z) : list Z :=
  H ++ eth_bytes idm ism ETH_TYPE_IPV4 ++ datagram 0 64 src dst sp dp payload.

Lemma length_l2_body H ism idm src dst sp dp payload :
  length (l2_body H ism idm src dst sp dp payload) = length H + 42 + length payload.
Proof. unfold l2_body. rewrite !length_app, length_datagram. cbn. lia. Qed.

Lemma put_inner_frame_next d t ieth ism idm src dst sp dp payload :
  ieth = length d -> length t = 42 + length payload -> wf_udp src dst payload ->
  put_inner_frame (d ++ t) ieth ism idm src dst sp dp payload
  = Done (d ++ eth_bytes idm ism ETH_TYPE_IPV4 ++ datagram 0 64 src dst sp dp payload).
Proof.
  intros -> Ht Hwf. unfold put_inner_frame, ETH_HEADER_LEN.
  rewrite put_eth_next, obind_Done by lia. cbv beta.
  rewrite put_inner_next; [by rewrite <- app_assoc| |rewrite length_drop; lia|done].
  by rewrite length_app.
Qed.

Section L2.

Context (H : list Z) (ism idm : Mac) (src dst : Ipv4Addr) (sp dp : Z) (payload : list Z)
  (HH : Forall is_u8 H) (Hm1 : wf_mac ism) (Hm2 : wf_mac idm) (Hwf : wf_udp src dst payload)
  (Hl : (zlen H + 42 + zlen payload <= 65507)%Z).

#[local] Abbreviation B := (l2_body H ism idm src dst sp dp payload).

Lemma l2_body_bytes : Forall is_u8 B /\ (zlen B <= 65507)%Z.
Proof using HH Hm1 Hm2 Hwf Hl.
  split.
  - unfold l2_body. rewrite !Forall_app. split_and!; [done|by apply eth_bytes_bytes|by apply datagram_bytes].
  - unfold zlen in *. rewrite length_l2_body. lia.
Qed.

(** The lengths the builders compute through 16-bit fields. *)
Lemma l2_lengths :
  u16 (Z.of_nat (UDP_HEADER_LEN + (length H + inner_frame_len payload))) = udp_len B /\
  Z.to_nat (udp_len B) = 50 + length H + length payload /\
  u16 (Z.of_nat (IPV4_HEADER_LEN + Z.to_nat (udp_len B))) = ip_total_len B /\
  Z.to_nat (ip_total_len B) = 70 + length H + length payload.
Proof using Hl.
  unfold zlen in Hl.
  assert (inner_frame_len payload = 42 + length payload) as E.
  { unfold inner_frame_len, ip_total_len, ETH_HEADER_LEN, IPV4_HEADER_LEN, UDP_HEADER_LEN.
    rewrite u16_small by (unfold is_u16; lia). lia. }
  assert (Z.to_nat (udp_len B) = 50 + length H + length payload) as E2.
  { unfold udp_len, UDP_HEADER_LEN. rewrite length_l2_body, u16_small by (unfold is_u16; lia). lia. }
  split_and!; [|done| |].
  - rewrite E. unfold udp_len, UDP_HEADER_LEN. rewrite length_l2_body. do 2 f_equal. lia.
  - rewrite E2. unfold ip_total_len, UDP_HEADER_LEN, IPV4_HEADER_LEN. rewrite length_l2_body. do 2 f_equal. lia.
  - unfold ip_total_len, UDP_HEADER_LEN, IPV4_HEADER_LEN.
    rewrite length_l2_body, u16_small by (unfold is_u16; lia). lia.
Qed.

(** The builders of VXLAN and GENEVE, with the encoder of their header. *)
Lemma l2_layout4 (enc : list Z -> outcome (list Z)) out osm odm osrc odst osp odp ttl n :
  n = length H -> (forall s, length s = n -> enc s = Done H) -> wf_ipv4 osrc -> wf_ipv4 odst ->
  (let outer_udp_len := u16 (Z.of_nat (UDP_HEADER_LEN + (n + inner_frame_len payload))) in
   let outer_ip_total := u16 (Z.of_nat (IPV4_HEADER_LEN + Z.to_nat outer_udp_len)) in
   let total := 14 + Z.to_nat outer_ip_total in
   let! o := put_eth (resize out total) 0 odm osm ETH_TYPE_IPV4 in
   let! o := put_ipv4 o 14 0 outer_ip_total ttl osrc odst in
   let! o := put_udp o 34 osp odp outer_udp_len in
   let! o := update_slice o 42 (42 + n) enc in
   let! o := put_inner_frame o (42 + n) ism idm src dst sp dp payload in
   let! o := put_outer_cksum o 34 total osrc odst in
   Done (o, @Ok Z UdpError (Z.of_nat total)))
  = Done (udp_frame osm odm None osrc odst osp odp B ttl 0, Ok (zlen (udp_frame osm odm None osrc odst osp odp B ttl 0))).
Proof using HH Hm1 Hm2 Hwf Hl.
  intros -> Henc Hs Hd. destruct l2_lengths as (E1 & _ & E3 & E4), l2_body_bytes as [Hb Hz].
  cbv zeta. rewrite E1, E3, E4. unfold zlen at 1. rewrite length_udp_frame, length_l2_body. cbn [link_len].
  replace (14 + 28 + (length H + 42 + length payload)) with (14 + (70 + length H + length payload)) by lia.
  apply outer4_layout with (N := eth_bytes idm ism ETH_TYPE_IPV4 ++ datagram 0 64 src dst sp dp payload);
    fold (l2_body H ism idm src dst sp dp payload); [rewrite length_l2_body; lia|by split_and!|done|done|..].
  - intros d t Hdd Ht. apply update_slice_next; try (done || lia). apply Henc. rewrite length_take. lia.
  - intros d t Hdd Ht. apply put_inner_frame_next; [rewrite length_app; lia| |done].
    rewrite length_app, length_datagram in Ht. cbn in Ht. lia.
Qed.

Lemma l2_layout6 (enc : list Z -> outcome (list Z)) out osm odm osrc odst osp odp hop n :
  n = length H -> (forall s, length s = n -> enc s = Done H) -> is_u128 osrc -> is_u128 odst ->
  (let outer_udp_len := u16 (Z.of_nat (UDP_HEADER_LEN + (n + inner_frame_len payload))) in
   let total := 54 + Z.to_nat outer_udp_len in
   let! o := put_eth (resize out total) 0 odm osm ETH_TYPE_IPV6 in
   let! o := write_ipv6_header o 14 osrc odst outer_udp_len IP_PROTO_UDP hop in
   let! o := put_udp o 54 osp odp outer_udp_len in
   let! o := update_slice o 62 (62 + n) enc in
   let! o := put_inner_frame o (62 + n) ism idm src dst sp dp payload in
   let! o := put_outer_cksum6 o 54 total osrc odst in
   Done (o, @Ok Z UdpError (Z.of_nat total)))
  = Done (udp6_frame osm odm osrc odst osp odp B hop, Ok (zlen (udp6_frame osm odm osrc odst osp odp B hop))).
Proof using HH Hm1 Hm2 Hwf Hl.
  intros -> Henc Hs Hd. destruct l2_lengths as (E1 & E2 & _), l2_body_bytes as [Hb Hz].
  cbv zeta. rewrite E1, E2. unfold zlen at 1. rewrite length_udp6_frame, length_l2_body.
  replace (62 + (length H + 42 + length payload)) with (54 + (50 + length H + length payload)) by lia.
  apply outer6_layout with (N := eth_bytes idm ism ETH_TYPE_IPV4 ++ datagram 0 64 src dst sp dp payload);
    fold (l2_body H ism idm src dst sp dp payload); [rewrite length_l2_body; lia|by split_and!|done|..].
  - intros d t Hdd Ht. apply update_slice_next; try (done || lia). apply Henc. rewrite length_take. lia.
  - intros d t Hdd Ht. apply put_inner_frame_next; [rewrite length_app; lia| |done].
    rewrite length_app, length_datagram in Ht. cbn in Ht. lia.
Qed.

(** The inner frame, after the tunnel header. *)
Lemma decap_frame_body {ip header} (o : ip) (hdr : header) pre pad :
  is_u16 sp -> is_u16 dp ->
  decap_frame (pre ++ B ++ pad) o hdr (length pre + length H)
  = Done (Some (MkL2Decap (MkInner src dst sp dp payload) o hdr ism idm)).
Proof using Hl.
  intros Hsp Hdp. unfold decap_frame, l2_body.
  replace (pre ++ (H ++ eth_bytes idm ism ETH_TYPE_IPV4 ++ datagram 0 64 src dst sp dp payload) ++ pad)
    with ((pre ++ H) ++ eth_bytes idm ism ETH_TYPE_IPV4 ++ datagram 0 64 src dst sp dp payload ++ pad)
    by (by rewrite <- !app_assoc).
  rewrite <- length_app. run_step (inner_eth_bytes (pre ++ H) idm ism
    (datagram 0 64 src dst sp dp payload ++ pad)).
  rewrite (app_assoc (pre ++ H)).
  replace (length (pre ++ H) + 14) with (length ((pre ++ H) ++ eth_bytes idm ism ETH_TYPE_IPV4))
    by (rewrite (length_app (pre ++ H)); done).
  rewrite inner_v4_datagram; [done|done|done|]. pose proof (zlen_nonneg H). lia.
Qed.

End L2.

(** ** VXLAN *)

Module VxlanTrip.

Import Vxlan.

Definition vxlan_bytes (vni : Z) : list Z := [8; 0; 0; 0]%Z ++ vni_bytes vni ++ [0]%Z.

Lemma vxlan_encode_bytes vni s : length s = 8 -> encode (header_new vni) s = Done (vxlan_bytes vni).
Proof. intros H. by destruct s as [|? [|? [|? [|? [|? [|? [|? [|? [|]]]]]]]]]. Qed.

Lemma vxlan_bytes_u8 vni : Forall is_u8 (vxlan_bytes vni).
Proof. unfold vxlan_bytes, vni_bytes. cbn [app]. bytes. Qed.

Lemma vxlan_header_roundtrip vni rest :
  is_vni vni -> parse (vxlan_bytes vni ++ rest) = Done (Some (header_new vni)).
Proof.
  intros H. unfold vxlan_bytes. rewrite vni_bytes_value by done.
  unfold parse, VXLAN_HEADER_LEN. rewrite (proj2 (Nat.ltb_ge _ _)) by (cbn; lia).
  reads. change (negb (negb (Z.land 8 VXLAN_FLAGS_I =? 0)%Z)) with false. cbv iota.
  reads. by rewrite of_vni_bytes.
Qed.

(** The endpoint reads the body behind the outer headers [pre]. *)
Lemma vxlan_decap_body {ip} (o : ip) pre vni ism idm src dst sp dp payload pad expected :
  is_vni vni -> wf_mac ism -> wf_mac idm -> is_u16 sp -> is_u16 dp -> wf_udp src dst payload ->
  (zlen payload <= 65457)%Z ->
  decap_at (pre ++ l2_body (vxlan_bytes vni) ism idm src dst sp dp payload ++ pad) expected
    (Some (o, length pre))
  = Done (if vni_mismatch expected vni then None else
            Some (MkL2Decap (MkInner src dst sp dp payload) o (header_new vni) ism idm)).
Proof.
  intros Hv Hm1 Hm2 Hsp Hdp Hwf Hl.
  assert (zlen (vxlan_bytes vni) + 42 + zlen payload <= 65507)%Z as Hb
    by (change (zlen (vxlan_bytes vni)) with 8%Z; lia).
  pose proof (vxlan_bytes_u8 vni) as Hu. unfold decap_at.
  run_step (slice_from_app pre (l2_body (vxlan_bytes vni) ism idm src dst sp dp payload ++ pad)).
  unfold l2_body at 1. rewrite <- app_assoc. rewrite vxlan_header_roundtrip, obind_Done by done. cbv beta iota.
  cbn [Vxlan.vni header_new]. destruct (vni_mismatch expected vni); [done|].
  by apply (decap_frame_body (vxlan_bytes vni)).
Qed.

Lemma vxlan_layout out osm odm osrc odst osp odp vni ism idm src dst sp dp payload ttl :
  wf_ipv4 osrc -> wf_ipv4 odst -> wf_mac ism -> wf_mac idm -> wf_udp src dst payload ->
  (zlen payload <= 65457)%Z ->
  let f := udp_frame osm odm None osrc odst osp odp (l2_body (vxlan_bytes vni) ism idm src dst sp dp payload)
             ttl 0 in
  build_vxlan_frame_into out osm odm osrc odst osp odp vni ism idm src dst sp dp payload ttl
  = Done (f, Ok (zlen f)).
Proof.
  intros H1 H2 Hm1 Hm2 Hwf Hl.
  assert (zlen (vxlan_bytes vni) + 42 + zlen payload <= 65507)%Z as Hb
    by (change (zlen (vxlan_bytes vni)) with 8%Z; lia).
  by apply (l2_layout4 (vxlan_bytes vni) ism idm src dst sp dp payload (vxlan_bytes_u8 vni) Hm1 Hm2 Hwf Hb
    (encode (header_new vni)) out osm odm osrc odst osp odp ttl 8 eq_refl (vxlan_encode_bytes vni)).
Qed.

(** VXLAN encapsulation is undone by decapsulation, and only for the right network: for
    IPv4 and for IPv6 outer packets the endpoint recovers the inner MAC addresses, IP
    addresses, ports and payload, the outer source and the identifier, whatever padding
    follows; an endpoint that filters for another identifier gets nothing. *)
Theorem vxlan_roundtrip out osm odm osrc odst osrc6 odst6 osp odp vni ism idm src dst sp dp payload
    ttl pad expected :
  wf_ipv4 osrc -> wf_ipv4 odst -> is_u128 osrc6 -> is_u128 odst6 -> is_u16 odp ->
  is_vni vni -> wf_mac ism -> wf_mac idm -> is_u16 sp -> is_u16 dp ->
  wf_udp src dst payload -> (zlen payload <= 65457)%Z ->
  let r {ip} (o : ip) := if vni_mismatch expected vni then None else
    Some (MkL2Decap (MkInner src dst sp dp payload) o (header_new vni) ism idm) in
  (exists f, build_vxlan_frame_into out osm odm osrc odst osp odp vni ism idm src dst sp dp payload ttl
      = Done (f, Ok (zlen f)) /\ try_decap_vxlan (f ++ pad) 14 odp expected = Done (r osrc)) /\
  (exists f, build_vxlan_frame_into_v6 out osm odm osrc6 odst6 osp odp vni ism idm src dst sp dp payload ttl
      = Done (f, Ok (zlen f)) /\ try_decap_vxlan_v6 (f ++ pad) 14 odp expected = Done (r osrc6)).
Proof.
  intros H1 H2 H3 H4 Hop Hv Hm1 Hm2 Hsp Hdp Hwf Hl r.
  assert (zlen (vxlan_bytes vni) + 42 + zlen payload <= 65507)%Z as Hb
    by (change (zlen (vxlan_bytes vni)) with 8%Z; lia).
  pose proof (vxlan_bytes_u8 vni) as Hu.
  pose proof (fun ip (o : ip) pre => vxlan_decap_body o pre vni ism idm src dst sp dp payload pad expected
    Hv Hm1 Hm2 Hsp Hdp Hwf Hl) as Hdec.
  split; eexists.
  - split; [by apply vxlan_layout|].
    edestruct (outer_v4_frame osm odm osrc odst osp odp) as (E & pre & Hpre & Hf); [done|].
    unfold try_decap_vxlan. run_step E. rewrite Hf, <- Hpre. apply Hdec.
  - split; [by apply (l2_layout6 (vxlan_bytes vni) ism idm src dst sp dp payload Hu Hm1 Hm2 Hwf Hb
      (encode (header_new vni)) out osm odm osrc6 odst6 osp odp ttl 8 eq_refl (vxlan_encode_bytes vni))|].
    edestruct (outer_v6_frame osm odm osrc6 odst6 osp odp) as (E & pre & Hpre & Hf); [done..|].
    unfold try_decap_vxlan_v6. run_step E. rewrite Hf, <- Hpre. apply Hdec.
Qed.

Lemma vxlan_roundtrip_witness :
  exists f, build_vxlan_frame_into [] (MkMac 2 0 0 0 0 1) (MkMac 2 0 0 0 0 2) (MkIpv4 10 0 0 1)
      (MkIpv4 10 0 0 2) 4789 4789 5000 (MkMac 4 0 0 0 0 1) (MkMac 4 0 0 0 0 2) (MkIpv4 192 168 0 1)
      (MkIpv4 192 168 0 2) 7 9 [1; 2]%Z 64 = Done (f, Ok (zlen f)) /\
    try_decap_vxlan (f ++ [0]%Z) 14 4789 (Some 5001%Z) = Done None.
Proof.
  destruct (vxlan_roundtrip [] (MkMac 2 0 0 0 0 1) (MkMac 2 0 0 0 0 2) (MkIpv4 10 0 0 1)
    (MkIpv4 10 0 0 2) 1%Z 2%Z 4789 4789 5000 (MkMac 4 0 0 0 0 1) (MkMac 4 0 0 0 0 2) (MkIpv4 192 168 0 1)
    (MkIpv4 192 168 0 2) 7 9 [1; 2]%Z 64 [0]%Z (Some 5001%Z)) as [(f & E1 & E2) _];
    [concrete|concrete|concrete|concrete|concrete|unfold is_vni, VNI_MAX; lia|repeat constructor; concrete|
     repeat constructor; concrete|concrete|concrete|concrete_udp|concrete|].
  exists f. exact (conj E1 E2).
Defined.

End VxlanTrip.

(** ** GENEVE *)

Module GeneveTrip.

Import Geneve.

(** One option on the wire. *)
Definition tlv_bytes (o : GeneveTlvOption) : list Z :=
  [u8 (Z.shiftr (class o) 8); u8 (class o); option_type o;
   Z.land (u8 (Z.of_nat (length (tlv_data o) / 4))) 31] ++ tlv_data o.

Definition options_bytes (opts : list GeneveTlvOption) : list Z := concat (tlv_bytes <$> opts).

Definition geneve_bytes (h : GeneveHeader) : list Z :=
  [Z.lor (u8 (Z.shiftl (Z.land (version h) 3) 6)) (Z.land (u8 (Z.of_nat (options_len h / 4))) 63);
   Z.lor (if oam h then 128 else 0) (if critical h then 64 else 0)]
    ++ be16 (protocol_type h) ++ vni_bytes (vni h) ++ [0]%Z ++ options_bytes (options h).

(** Options whose data is a whole number of words, at most 31 of them. *)
Definition wf_tlv (o : GeneveTlvOption) : Prop :=
  is_u16 (class o) /\ is_u8 (option_type o) /\ Forall is_u8 (tlv_data o) /\
  length (tlv_data o) mod 4 = 0 /\ length (tlv_data o) <= 124.

(** Headers that fit the wire format: version 0, an Ethernet payload, a 24-bit identifier,
    and an options length that is the length of the options, at most 63 words. *)
Definition wf_geneve (h : GeneveHeader) : Prop :=
  version h = GENEVE_VERSION /\ protocol_type h = GENEVE_INNER_ETYPE_ETH /\ is_vni (vni h) /\
  Forall wf_tlv (options h) /\ options_len h = length (options_bytes (options h)) /\
  options_len h <= 252.

Lemma length_tlv o : length (tlv_bytes o) = 4 + length (tlv_data o).
Proof. done. Qed.

Lemma length_options_cons o opts :
  length (options_bytes (o :: opts)) = 4 + length (tlv_data o) + length (options_bytes opts).
Proof. unfold options_bytes. cbn [fmap list_fmap concat]. rewrite length_app, length_tlv. done. Qed.

Lemma options_aligned opts : Forall wf_tlv opts -> length (options_bytes opts) mod 4 = 0.
Proof.
  induction 1 as [|o opts (_ & _ & _ & Hm & _) _ IH]; [done|]. rewrite length_options_cons.
  rewrite <- Nat.add_assoc, (Nat.Div0.add_mod 4), (Nat.Div0.add_mod (length _)), Hm, IH. done.
Qed.

Lemma encode_options_next opts : forall d t,
  length t = length (options_bytes opts) ->
  encode_options (d ++ t) (length d) opts = Done (d ++ options_bytes opts).
Proof.
  induction opts as [|o opts IH]; intros d t Ht; cbn [encode_options].
  - destruct t; [done|]. cbn in Ht. lia.
  - rewrite length_options_cons in Ht. do 5 put_next.
    rewrite !drop_drop. match goal with |- context [encode_options (?x ++ ?y) ?n _] =>
      replace n with (length x) by (rewrite !length_app; cbn; lia) end.
    rewrite IH by (rewrite length_drop; cbn [length] in *; lia).
    unfold options_bytes. cbn [fmap list_fmap concat]. unfold tlv_bytes at 2. by rewrite <- !app_assoc.
Qed.

Lemma geneve_encode_bytes h s :
  wf_geneve h -> length s = header_len h -> encode h s = Done (geneve_bytes h).
Proof.
  intros (_ & _ & _ & _ & Ho & _) Hs. unfold header_len, GENEVE_BASE_HEADER_LEN in Hs.
  unfold encode. change s with ([] ++ s). do 7 put_next. rewrite !drop_drop.
  match goal with |- context [encode_options (?x ++ ?y) _ _] =>
    change GENEVE_BASE_HEADER_LEN with (length x) end.
  rewrite encode_options_next by (rewrite length_drop; cbn; lia).
  unfold geneve_bytes, vni_bytes. by rewrite <- !app_assoc.
Qed.

Lemma tlv_bytes_u8 o : wf_tlv o -> Forall is_u8 (tlv_bytes o).
Proof.
  intros (Hc & Ht & Hd & Hm & Hl). unfold tlv_bytes. apply Forall_app_2; [|done].
  change 31%Z with (Z.ones 5). rewrite land_low by lia. bytes.
  apply Forall_cons_2; [unfold is_u8; mod_lia|done].
Qed.

Lemma geneve_bytes_u8 h : wf_geneve h -> Forall is_u8 (geneve_bytes h).
Proof.
  intros (Hv & _ & _ & Ho & _ & _). unfold geneve_bytes. rewrite Hv. rewrite !Forall_app. split_and!.
  - change 63%Z with (Z.ones 6). rewrite land_low by lia. change (u8 _) with 0%Z at 1.
    rewrite Z.lor_0_l. repeat apply Forall_cons_2; [unfold is_u8; mod_lia| |done].
    by destruct (oam h), (critical h).
  - apply be16_bytes.
  - unfold vni_bytes. bytes.
  - by repeat constructor.
  - unfold options_bytes. apply Forall_concat, Forall_fmap. eapply Forall_impl; [exact Ho|].
    apply tlv_bytes_u8.
Qed.

Lemma length_geneve h :
  wf_geneve h -> length (geneve_bytes h) = header_len h.
Proof.
  intros (_ & _ & _ & _ & Ho & _). unfold geneve_bytes, header_len, GENEVE_BASE_HEADER_LEN.
  rewrite !length_app, Ho. reflexivity.
Qed.

(** The option loop, standing before [opts]. *)
Lemma parse_options_trip opts : forall fuel pre rest acc,
  Forall wf_tlv opts -> length (options_bytes opts) < fuel ->
  parse_options fuel (pre ++ options_bytes opts ++ rest) (length pre)
    (length pre + length (options_bytes opts)) acc
  = Done (Some (acc ++ opts)).
Proof.
  induction opts as [|o opts IH]; intros fuel pre rest acc Hw Hf; (destruct fuel as [|fuel]; [lia|]);
    cbn [parse_options].
  - change (length (options_bytes [])) with 0.
    rewrite (proj2 (Nat.leb_gt _ _)) by lia. by rewrite app_nil_r.
  - apply Forall_cons in Hw as [(Hc & Ht & Hd & Hm & Hl) Hw].
    rewrite length_options_cons in *. rewrite (proj2 (Nat.leb_le _ _)) by lia.
    unfold options_bytes. cbn [fmap list_fmap concat]. fold (options_bytes opts).
    rewrite <- (app_assoc (tlv_bytes o)).
    set (w := Z.land (u8 (Z.of_nat (length (tlv_data o) / 4))) 31).
    assert (Z.to_nat (Z.land w 31) * 4 = length (tlv_data o)) as Ew.
    { subst w. change 31%Z with (Z.ones 5). rewrite !land_low by lia.
      assert (length (tlv_data o) / 4 <= 31) by (apply Nat.Div0.div_le_upper_bound; lia).
      rewrite Z.mod_mod, u8_small, Z.mod_small by (unfold is_u8; lia). rewrite Nat2Z.id.
      pose proof (Nat.div_mod_eq (length (tlv_data o)) 4). lia. }
    assert (forall k, idx (pre ++ tlv_bytes o ++ options_bytes opts ++ rest) (length pre + k)
              = idx (tlv_bytes o ++ options_bytes opts ++ rest) k) as Hi by (intros; apply idx_app).
    assert (read16 (pre ++ tlv_bytes o ++ options_bytes opts ++ rest) (length pre) = Done (class o)) as E0.
    { rewrite <- (Nat.add_0_r (length pre)), read16_app.
      change (Done (of_be16 (u8 (Z.shiftr (class o) 8)) (u8 (class o))) = Done (class o)).
      rewrite shiftr_div by lia. by rewrite of_be16_be16. }
    run_step E0. rewrite !Hi.
    change (idx (tlv_bytes o ++ options_bytes opts ++ rest) 2) with (Done (option_type o)).
    change (idx (tlv_bytes o ++ options_bytes opts ++ rest) 3) with (Done w).
    rewrite !obind_Done. cbv beta. rewrite Ew.
    rewrite (proj2 (Nat.ltb_ge _ _)) by lia.
    assert (slice (pre ++ tlv_bytes o ++ options_bytes opts ++ rest) (length pre + 4)
              (length pre + 4 + length (tlv_data o)) = Done (tlv_data o)) as Es.
    { unfold tlv_bytes. set (x := [_; _; _; _]). rewrite <- (app_assoc x), (app_assoc pre x).
      apply slice_mid; [rewrite length_app; done|done]. }
    run_step Es. rewrite (app_assoc pre).
    replace (length pre + (4 + length (tlv_data o))) with (length (pre ++ tlv_bytes o))
      by (by rewrite length_app).
    replace (length pre + (4 + length (tlv_data o) + length (options_bytes opts)))
      with (length (pre ++ tlv_bytes o) + length (options_bytes opts))
      by (rewrite length_app, length_tlv; lia).
    rewrite IH by (done || lia). rewrite <- app_assoc. by destruct o.
Qed.

(** The header is read back with its flags, identifier and options. *)
Lemma geneve_header_roundtrip h rest :
  wf_geneve h -> parse (geneve_bytes h ++ rest) = Done (Some h).
Proof.
  intros Hw. pose proof (length_geneve h Hw) as Hlen. destruct Hw as (Hv & Hp & Hn & Ho & Hol & Hmax).
  pose proof (options_aligned _ Ho) as Hal. rewrite <- Hol in Hal.
  assert (options_len h / 4 <= 63) as H63 by (apply Nat.Div0.div_le_upper_bound; lia).
  assert (options_len h = options_len h / 4 * 4) as Hd4
    by (pose proof (Nat.div_mod_eq (options_len h) 4); lia).
  pose proof (parse_options_trip (options h) (S (8 + options_len h))) as Hpo.
  unfold geneve_bytes in *. rewrite (vni_bytes_value _ Hn) in *. rewrite Hv, Hp in *.
  set (b1 := Z.lor (if oam h then 128 else 0) (if critical h then 64 else 0)) in *.
  assert (Z.lor (u8 (Z.shiftl (Z.land GENEVE_VERSION 3) 6)) (Z.land (u8 (Z.of_nat (options_len h / 4))) 63)
          = Z.of_nat (options_len h / 4)) as E0.
  { change 63%Z with (Z.ones 6). rewrite land_low, (u8_small (Z.of_nat _)), Z.mod_small by (unfold is_u8; lia). done. }
  rewrite E0 in *. set (b0 := Z.of_nat (options_len h / 4)) in *.
  set (hd := [b0; b1] ++ be16 GENEVE_INNER_ETYPE_ETH ++
     [vni h / 65536; (vni h / 256) mod 256; vni h mod 256]%Z ++ [0]%Z).
  replace (([b0; b1] ++ be16 GENEVE_INNER_ETYPE_ETH ++
     [vni h / 65536; (vni h / 256) mod 256; vni h mod 256]%Z ++ [0]%Z ++ options_bytes (options h)) ++ rest)
    with (hd ++ options_bytes (options h) ++ rest) by (subst hd; by rewrite <- !app_assoc).
  unfold parse, GENEVE_BASE_HEADER_LEN.
  rewrite (proj2 (Nat.ltb_ge _ 8)) by (rewrite length_app; cbn; lia).
  change (idx (hd ++ options_bytes (options h) ++ rest) 0) with (Done b0). rewrite obind_Done. cbv beta zeta.
  assert (Z.land (Z.shiftr b0 6) 3 = 0%Z) as ->
    by (change 3%Z with (Z.ones 2); rewrite land_low, shiftr_div by lia; subst b0; mod_lia).
  assert (Z.to_nat (Z.land b0 63) * 4 = options_len h) as ->
    by (change 63%Z with (Z.ones 6); rewrite land_low, Z.mod_small by lia; subst b0; lia).
  change (negb (0 =? GENEVE_VERSION)%Z) with false. cbv iota.
  rewrite (proj2 (Nat.ltb_ge _ _)) by (rewrite !length_app, <- Hol; cbn; lia).
  reads. assert (read16 (hd ++ options_bytes (options h) ++ rest) 2 = Done GENEVE_INNER_ETYPE_ETH) as E2
    by reflexivity.
  run_step E2. rewrite Z.eqb_refl. cbn [negb]. reads.
  specialize (Hpo hd rest [] Ho). rewrite <- Hol in Hpo. change (length hd) with 8 in Hpo.
  rewrite Hpo by lia. rewrite obind_Done. cbv beta iota. rewrite of_vni_bytes by done.
  destruct h as [v ol oa cr pt vn os]. cbn in *. subst v pt b1. by destruct oa, cr.
Qed.

Lemma geneve_fits h (payload : list Z) :
  wf_geneve h -> (zlen payload <= 65205)%Z -> (zlen (geneve_bytes h) + 42 + zlen payload <= 65507)%Z.
Proof.
  intros Hv Hl. pose proof (length_geneve h Hv) as Hlen.
  unfold zlen. rewrite Hlen. destruct Hv as (_ & _ & _ & _ & _ & ?).
    unfold zlen, header_len, GENEVE_BASE_HEADER_LEN in *. lia.
Qed.

(** The endpoint reads the body behind the outer headers [pre]. *)
Lemma geneve_decap_body {ip} (o : ip) pre h ism idm src dst sp dp payload pad expected :
  wf_geneve h -> wf_mac ism -> wf_mac idm -> is_u16 sp -> is_u16 dp -> wf_udp src dst payload ->
  (zlen payload <= 65205)%Z ->
  decap_at (pre ++ l2_body (geneve_bytes h) ism idm src dst sp dp payload ++ pad) expected
    (Some (o, length pre))
  = Done (if vni_mismatch expected (vni h) then None else
            Some (MkL2Decap (MkInner src dst sp dp payload) o h ism idm)).
Proof.
  intros Hv Hm1 Hm2 Hsp Hdp Hwf Hl. pose proof (length_geneve h Hv) as Hlen.
  pose proof (geneve_fits h payload Hv Hl) as Hb. pose proof (geneve_bytes_u8 h Hv) as Hu. unfold decap_at.
  run_step (slice_from_app pre (l2_body (geneve_bytes h) ism idm src dst sp dp payload ++ pad)).
  unfold l2_body at 1. rewrite <- app_assoc. rewrite geneve_header_roundtrip, obind_Done by done. cbv beta iota.
  destruct (vni_mismatch expected (vni h)); [done|]. rewrite <- Hlen.
  by apply (decap_frame_body (geneve_bytes h)).
Qed.

Lemma geneve_layout out osm odm osrc odst osp odp h ism idm src dst sp dp payload ttl :
  wf_ipv4 osrc -> wf_ipv4 odst -> wf_geneve h -> wf_mac ism -> wf_mac idm -> wf_udp src dst payload ->
  (zlen payload <= 65205)%Z ->
  let f := udp_frame osm odm None osrc odst osp odp (l2_body (geneve_bytes h) ism idm src dst sp dp payload)
             ttl 0 in
  build_geneve_frame_into out osm odm osrc odst osp odp h ism idm src dst sp dp payload ttl
  = Done (f, Ok (zlen f)).
Proof.
  intros H1 H2 Hv Hm1 Hm2 Hwf Hl. pose proof (length_geneve h Hv) as Hlen.
  by apply (l2_layout4 (geneve_bytes h) ism idm src dst sp dp payload (geneve_bytes_u8 h Hv) Hm1 Hm2 Hwf
    (geneve_fits h payload Hv Hl) (encode h) out osm odm osrc odst osp odp ttl _ (eq_sym Hlen)
    (fun s => geneve_encode_bytes h s Hv)).
Qed.

(** C32: GENEVE encapsulation is undone by decapsulation, options included, and only for the
    right network: for IPv4 and for IPv6 outer packets the endpoint recovers the header
    with its flags, identifier and TLV options, the inner addresses, ports and payload
    and the outer source, whatever padding follows; an endpoint that filters for another
    identifier gets nothing. *)
Theorem geneve_roundtrip out osm odm osrc odst osrc6 odst6 osp odp h ism idm src dst sp dp payload
    ttl pad expected :
  wf_ipv4 osrc -> wf_ipv4 odst -> is_u128 osrc6 -> is_u128 odst6 -> is_u16 odp ->
  wf_geneve h -> wf_mac ism -> wf_mac idm -> is_u16 sp -> is_u16 dp ->
  wf_udp src dst payload -> (zlen payload <= 65205)%Z ->
  let r {ip} (o : ip) := if vni_mismatch expected (vni h) then None else
    Some (MkL2Decap (MkInner src dst sp dp payload) o h ism idm) in
  (exists f, build_geneve_frame_into out osm odm osrc odst osp odp h ism idm src dst sp dp payload ttl
      = Done (f, Ok (zlen f)) /\ try_decap_geneve (f ++ pad) 14 odp expected = Done (r osrc)) /\
  (exists f, build_geneve_frame_into_v6 out osm odm osrc6 odst6 osp odp h ism idm src dst sp dp payload ttl
      = Done (f, Ok (zlen f)) /\ try_decap_geneve_v6 (f ++ pad) 14 odp expected = Done (r osrc6)).
Proof.
  intros H1 H2 H3 H4 Hop Hv Hm1 Hm2 Hsp Hdp Hwf Hl r. pose proof (length_geneve h Hv) as Hlen.
  pose proof (geneve_fits h payload Hv Hl) as Hb.
  pose proof (geneve_bytes_u8 h Hv) as Hu.
  pose proof (fun ip (o : ip) pre => geneve_decap_body o pre h ism idm src dst sp dp payload pad expected
    Hv Hm1 Hm2 Hsp Hdp Hwf Hl) as Hdec.
  split; eexists.
  - split; [by apply geneve_layout|].
    edestruct (outer_v4_frame osm odm osrc odst osp odp) as (E & pre & Hpre & Hf); [done|].
    unfold try_decap_geneve. run_step E. rewrite Hf, <- Hpre. apply Hdec.
  - split; [by apply (l2_layout6 (geneve_bytes h) ism idm src dst sp dp payload Hu Hm1 Hm2 Hwf Hb
      (encode h) out osm odm osrc6 odst6 osp odp ttl _ (eq_sym Hlen) (fun s => geneve_encode_bytes h s Hv))|].
    edestruct (outer_v6_frame osm odm osrc6 odst6 osp odp) as (E & pre & Hpre & Hf); [done..|].
    unfold try_decap_geneve_v6. run_step E. rewrite Hf, <- Hpre. apply Hdec.
Qed.

(** A header with one option of a single word. *)
Definition sample_header : GeneveHeader :=
  MkGeneve 0 8 false true GENEVE_INNER_ETYPE_ETH 5000 [MkTlv 258 7 [1; 2; 3; 4]%Z].

Lemma sample_header_wf : wf_geneve sample_header.
Proof.
  split_and!; [done|done|unfold is_vni, VNI_MAX; cbn; lia| |done|cbn; lia].
  apply Forall_singleton. split_and!; cbn; [concrete|concrete|repeat constructor; concrete|done|lia].
Qed.

Lemma geneve_roundtrip_witness :
  exists f, build_geneve_frame_into [] (MkMac 2 0 0 0 0 1) (MkMac 2 0 0 0 0 2) (MkIpv4 10 0 0 1)
      (MkIpv4 10 0 0 2) 6081 6081 sample_header (MkMac 4 0 0 0 0 1) (MkMac 4 0 0 0 0 2)
      (MkIpv4 192 168 0 1) (MkIpv4 192 168 0 2) 7 9 [1; 2]%Z 64 = Done (f, Ok (zlen f)) /\
    try_decap_geneve (f ++ [0]%Z) 14 6081 (Some 5000%Z)
    = Done (Some (MkL2Decap (MkInner (MkIpv4 192 168 0 1) (MkIpv4 192 168 0 2) 7 9 [1; 2]%Z)
        (MkIpv4 10 0 0 1) sample_header (MkMac 4 0 0 0 0 1) (MkMac 4 0 0 0 0 2))).
Proof.
  destruct (geneve_roundtrip [] (MkMac 2 0 0 0 0 1) (MkMac 2 0 0 0 0 2) (MkIpv4 10 0 0 1)
    (MkIpv4 10 0 0 2) 1%Z 2%Z 6081 6081 sample_header (MkMac 4 0 0 0 0 1) (MkMac 4 0 0 0 0 2)
    (MkIpv4 192 168 0 1) (MkIpv4 192 168 0 2) 7 9 [1; 2]%Z 64 [0]%Z (Some 5000%Z)) as [(f & E1 & E2) _];
    [concrete|concrete|concrete|concrete|concrete|exact sample_header_wf|repeat constructor; concrete|
     repeat constructor; concrete|concrete|concrete|concrete_udp|concrete|].
  exists f. exact (conj E1 E2).
Defined.

Lemma geneve_parse_options_total fuel : forall data off total acc,
  total - off < fuel -> total <= length data ->
  exists r, parse_options fuel data off total acc = Done r.
Proof.
  induction fuel as [|fuel IH]; intros data off total acc Hf Hl; [lia|]. cbn [parse_options].
  repeat parse_step; eauto. apply IH; lia.
Qed.

Lemma parse_total data :
  exists r, parse data = Done r /\ forall h, r = Some h -> header_len h <= length data.
Proof.
  unfold parse, GENEVE_BASE_HEADER_LEN.
  assert (forall r : option GeneveHeader, r = None -> exists r', Done r = Done r' /\
    forall h, r' = Some h -> header_len h <= length data) as Hnone by (intros ? ->; by eexists).
  repeat parse_step; try (by apply Hnone).
  edestruct geneve_parse_options_total as [r ->]; [| |cbn [obind]]; [lia|lia|].
  destruct r as [os|]; [|by apply Hnone]. eexists. split; [reflexivity|]. intros h [= <-].
  unfold header_len, GENEVE_BASE_HEADER_LEN. cbn [options_len]. lia.
Qed.

End GeneveTrip.

(** ** No packet makes a decapsulator panic *)

Lemma outer_v4_total frame l3 port :
  exists r, outer_v4 frame l3 port = Done r /\
    forall s off, r = Some (s, off) -> off <= length frame.
Proof.
  unfold outer_v4, IPV4_HEADER_LEN, UDP_HEADER_LEN. repeat parse_step; try (by exists None).
  eexists. split; [reflexivity|]. intros s off [= <- <-]. lia.
Qed.

Lemma outer_v6_total frame l3 port :
  exists r, outer_v6 frame l3 port = Done r /\
    forall s off, r = Some (s, off) -> off <= length frame.
Proof.
  unfold outer_v6, IPV6_HEADER_LEN, UDP_HEADER_LEN. repeat parse_step; try (by exists None).
  eexists. split; [reflexivity|]. intros s off [= <- <-]. lia.
Qed.

Lemma inner_v4_total frame off : exists r, inner_v4 frame off = Done r.
Proof. unfold inner_v4, IPV4_HEADER_LEN, UDP_HEADER_LEN. repeat parse_step; eauto. Qed.

Lemma inner_eth_total frame off : exists r, inner_eth frame off = Done r.
Proof. unfold inner_eth, ETH_HEADER_LEN. repeat parse_step; eauto. Qed.

Lemma decap_frame_total {ip header} frame (o : ip) (h : header) off :
  exists r, decap_frame frame o h off = Done r.
Proof.
  unfold decap_frame. destruct (inner_eth_total frame off) as [[[[d s] n]|] ->]; [|by eexists].
  cbn [obind]. destruct (inner_v4_total frame n) as [[i|] ->]; by eexists.
Qed.

Lemma gue_decap_total {ip} frame (o : option (ip * nat)) :
  (forall s off, o = Some (s, off) -> off <= length frame) ->
  exists r, Gue.decap_at frame o = Done r.
Proof.
  intros Ho. unfold Gue.decap_at. destruct o as [[s off]|]; [|by eexists].
  specialize (Ho _ _ eq_refl). rewrite slice_from_done, obind_Done by done. cbv beta.
  assert (exists r, Gue.parse (drop off frame) = Done r) as [r ->].
  { generalize (drop off frame). intros data. unfold Gue.parse, Gue.GUE_HEADER_LEN. repeat parse_step; eauto. }
  cbn [obind]. destruct r as [h|]; [|by eexists].
  destruct (Gue.c_flag h); [by eexists|]. destruct (negb _); [by eexists|].
  destruct (inner_v4_total frame (off + Gue.total_len h)) as [[i|] ->]; by eexists.
Qed.

Lemma vxlan_decap_total {ip} frame e (o : option (ip * nat)) :
  (forall s off, o = Some (s, off) -> off <= length frame) ->
  exists r, Vxlan.decap_at frame e o = Done r.
Proof.
  intros Ho. unfold Vxlan.decap_at. destruct o as [[s off]|]; [|by eexists].
  specialize (Ho _ _ eq_refl). rewrite slice_from_done, obind_Done by done. cbv beta.
  assert (exists r, Vxlan.parse (drop off frame) = Done r) as [r ->].
  { generalize (drop off frame). intros data. unfold Vxlan.parse, Vxlan.VXLAN_HEADER_LEN. repeat parse_step; eauto. }
  cbn [obind]. destruct r as [h|]; [|by eexists].
  destruct (vni_mismatch _ _); [by eexists|]. apply decap_frame_total.
Qed.

Lemma geneve_decap_total {ip} frame e (o : option (ip * nat)) :
  (forall s off, o = Some (s, off) -> off <= length frame) ->
  exists r, Geneve.decap_at frame e o = Done r.
Proof.
  intros Ho. unfold Geneve.decap_at. destruct o as [[s off]|]; [|by eexists].
  specialize (Ho _ _ eq_refl). rewrite slice_from_done, obind_Done by done. cbv beta.
  destruct (GeneveTrip.parse_total (drop off frame)) as ([h|] & -> & _); [|by eexists]. cbn [obind].
  destruct (vni_mismatch _ _); [by eexists|]. apply decap_frame_total.
Qed.

(** No packet from the network can crash or hang a tunnel endpoint: on every byte string,
    layer-3 offset, port and identifier filter the six decapsulators return, with a result
    or with none; the GENEVE option loop terminates within the options length. *)
Theorem decapsulators_total frame l3 port vni :
  (exists r, Gue.try_decap_gue frame l3 port = Done r) /\
  (exists r, Gue.try_decap_gue_v6 frame l3 port = Done r) /\
  (exists r, Vxlan.try_decap_vxlan frame l3 port vni = Done r) /\
  (exists r, Vxlan.try_decap_vxlan_v6 frame l3 port vni = Done r) /\
  (exists r, Geneve.try_decap_geneve frame l3 port vni = Done r) /\
  (exists r, Geneve.try_decap_geneve_v6 frame l3 port vni = Done r).
Proof.
  unfold Gue.try_decap_gue, Gue.try_decap_gue_v6, Vxlan.try_decap_vxlan, Vxlan.try_decap_vxlan_v6,
    Geneve.try_decap_geneve, Geneve.try_decap_geneve_v6.
  destruct (outer_v4_total frame l3 port) as (o4 & -> & H4).
  destruct (outer_v6_total frame l3 port) as (o6 & -> & H6). cbn [obind].
  split_and!; auto using @gue_decap_total, @vxlan_decap_total, @geneve_decap_total.
Qed.
