(* ===== verification/Routing.v ===== *)
(** * Routing (dpdk-stdlib-udp/src/routing.rs)

    Next-hop lookup: the local subnet, longest-prefix match over the static routes, the
    default gateway; and the detection of the configuration from the text of
    [/proc/net/route] and [/proc/net/arp].  Text is a list of (ASCII) character codes;
    the file system is the argument of [detect_from_os]. *)

From stdpp Require Import base numbers list option.
From Stdlib Require Import ZArith Lia.
From S2P Require Import Prelude State Buffer UdpFrame Tunnel.

#[local] Open Scope Z_scope.

(** ** Tables *)

Inductive NextHop : Type :=
| Direct (ip : Ipv4Addr)
| Gateway (ip : Ipv4Addr).

Record RouteEntry := MkRoute { network : Ipv4Addr; prefix_len : Z; gateway : Ipv4Addr }.

(** [u32::from(Ipv4Addr)]. *)
Definition ip_bits (a : Ipv4Addr) : Z := of_be32 (oct0 a) (oct1 a) (oct2 a) (oct3 a).

(** [!0u32 << (32 - prefix_len)], the mask of a non-zero prefix length; over 32 the
    subtraction overflows. *)
Definition mask_of (prefix_len : Z) : outcome Z :=
  if prefix_len =? 0 then Done 0
  else if 32 <? prefix_len then Panic
  else Done (u32 (Z.shiftl U32_MAX (32 - prefix_len))).

(** [RouteEntry::matches]. *)
Definition matches (r : RouteEntry) (addr : Ipv4Addr) : outcome bool :=
  let! mask := mask_of (prefix_len r) in
  Done (Z.land (ip_bits addr) mask =? Z.land (ip_bits (network r)) mask).

Record NetworkConfig := MkConfig {
  local_ip : Ipv4Addr;
  local_prefix_len : Z;
  default_gateway : option Ipv4Addr;
  static_routes : list RouteEntry;
  c_mtu : Z;
  c_vlan : option VlanConfig;
  c_gue : option Gue.GueConfig;
  c_vxlan : option (VtepConfig Ipv4Addr);
  c_geneve : option (VtepConfig Ipv4Addr) }.

#[global] Instance eta_NetworkConfig : Eta NetworkConfig := fun c =>
  MkConfig (local_ip c) (local_prefix_len c) (default_gateway c) (static_routes c) (c_mtu c)
    (c_vlan c) (c_gue c) (c_vxlan c) (c_geneve c).

Definition UNSPECIFIED : Ipv4Addr := MkIpv4 0 0 0 0.

Definition BROADCAST : Ipv4Addr := MkIpv4 255 255 255 255.

(** [NetworkConfig::new], over the defaults. *)
Definition config_new (local_ip : Ipv4Addr) (prefix_len : Z) : NetworkConfig :=
  MkConfig local_ip prefix_len None [] 1500 None None None None.

(** [with_gateway], [with_route], [with_mtu]. *)
Definition with_gateway (c : NetworkConfig) (g : Ipv4Addr) : NetworkConfig :=
  c <| default_gateway := Some g |>.

Definition with_route (c : NetworkConfig) (n : Ipv4Addr) (p : Z) (g : Ipv4Addr) : NetworkConfig :=
  c <| static_routes := static_routes c ++ [MkRoute n p g] |>.

Definition with_mtu (c : NetworkConfig) (mtu : Z) : NetworkConfig := c <| c_mtu := mtu |>.

(** [NetworkConfig::is_local]. *)
Definition is_local (c : NetworkConfig) (addr : Ipv4Addr) : outcome bool :=
  if local_prefix_len c =? 0 then Done false
  else
    let! mask := mask_of (local_prefix_len c) in
    Done (Z.land (ip_bits (local_ip c)) mask =? Z.land (ip_bits addr) mask).

(** [NetworkConfig::max_udp_payload]. *)
Definition config_max_udp_payload (c : NetworkConfig) : Z := ssub (c_mtu c) 28.

(** [RoutingTable]: [None] is pass-through. *)
Record RoutingTable := MkTable { config : option NetworkConfig }.

Definition table_new : RoutingTable := MkTable None.

Definition with_config (c : NetworkConfig) : RoutingTable := MkTable (Some c).

Definition is_configured (t : RoutingTable) : bool := bool_decide (is_Some (config t)).

(** The branch for the broadcast address of the local subnet. *)
Definition subnet_broadcast (c : NetworkConfig) (dst_ip : Ipv4Addr) : outcome bool :=
  if (0 <? local_prefix_len c) && (local_prefix_len c <? 32) then
    let! mask := mask_of (local_prefix_len c) in
    let network := Z.land (ip_bits (local_ip c)) mask in
    let not_mask := u32 (Z.lnot mask) in
    let host_bits := Z.land (ip_bits dst_ip) not_mask in
    Done ((Z.land (ip_bits dst_ip) mask =? network) && (host_bits =? not_mask))
  else Done false.

(** The loop over the static routes: the best prefix length so far and its gateway. *)
Fixpoint best_match (dst_ip : Ipv4Addr) (rs : list RouteEntry) (best : option (Z * Ipv4Addr))
    : outcome (option (Z * Ipv4Addr)) :=
  match rs with
  | [] => Done best
  | route :: rs =>
      let! m := matches route dst_ip in
      let best :=
        if m then
          match best with
          | Some (best_len, _) =>
              if prefix_len route <=? best_len then best
              else Some (prefix_len route, gateway route)
          | None => Some (prefix_len route, gateway route)
          end
        else best in
      best_match dst_ip rs best
  end.

(** [RoutingTable::lookup]. *)
Definition lookup (t : RoutingTable) (dst_ip : Ipv4Addr) : outcome NextHop :=
  if bool_decide (dst_ip = BROADCAST) then Done (Direct dst_ip)
  else
    match config t with
    | None => Done (Direct dst_ip)
    | Some c =>
        if (oct0 dst_ip =? 169) && (oct1 dst_ip =? 254) then Done (Direct dst_ip)
        else if (224 <=? oct0 dst_ip) && (oct0 dst_ip <=? 239) then Done (Direct dst_ip)
        else
          let! local := is_local c dst_ip in
          if local then Done (Direct dst_ip)
          else
            let! bc := subnet_broadcast c dst_ip in
            if bc then Done (Direct dst_ip)
            else
              let! best := best_match dst_ip (static_routes c) None in
              match best with
              | Some (_, gw) => Done (Gateway gw)
              | None =>
                  match default_gateway c with
                  | Some gw => Done (Gateway gw)
                  | None => Done (Direct dst_ip)
                  end
              end
    end.

(** [mtu], [set_mtu] and [max_udp_payload]. *)
Definition table_mtu (t : RoutingTable) : Z :=
  match config t with Some c => c_mtu c | None => 1500 end.

Definition set_mtu (t : RoutingTable) (mtu : Z) : RoutingTable :=
  match config t with
  | Some c => MkTable (Some (c <| c_mtu := mtu |>))
  | None => MkTable (Some ((config_new UNSPECIFIED 0) <| c_mtu := mtu |>))
  end.

Definition table_max_udp_payload (t : RoutingTable) : Z :=
  match config t with Some c => config_max_udp_payload c | None => 1472 end.

(** ** Specification: longest-prefix match *)

(** The first [p] bits of both addresses agree. *)
Definition same_prefix (p : Z) (a b : Ipv4Addr) : Prop :=
  ip_bits a / 2 ^ (32 - p) = ip_bits b / 2 ^ (32 - p).

Definition covers (r : RouteEntry) (dst : Ipv4Addr) : Prop :=
  same_prefix (prefix_len r) dst (network r).

(** [r] is the first of the longest routes of [rs] that cover [dst]. *)
Definition longest_match (rs : list RouteEntry) (dst : Ipv4Addr) (r : RouteEntry) : Prop :=
  exists l1 l2, rs = l1 ++ r :: l2 /\ covers r dst /\
    (forall r', r' ∈ l1 -> covers r' dst -> prefix_len r' < prefix_len r) /\
    (forall r', r' ∈ l2 -> covers r' dst -> prefix_len r' <= prefix_len r).

Definition wf_route (r : RouteEntry) : Prop := 0 <= prefix_len r <= 32 /\ wf_ipv4 (network r).

Definition wf_config (c : NetworkConfig) : Prop :=
  0 <= local_prefix_len c <= 32 /\ wf_ipv4 (local_ip c) /\ Forall wf_route (static_routes c).

(** The addresses that never use a gateway. *)
Definition always_direct (c : NetworkConfig) (dst : Ipv4Addr) : Prop :=
  dst = BROADCAST \/ (oct0 dst = 169 /\ oct1 dst = 254) \/ 224 <= oct0 dst <= 239 \/
  (0 < local_prefix_len c /\ same_prefix (local_prefix_len c) (local_ip c) dst).

Lemma ip_bits_u32 a : wf_ipv4 a -> is_u32 (ip_bits a).
Proof. intros (? & ? & ? & ?). unfold is_u8, is_u32, ip_bits, of_be32 in *. lia. Qed.

(** Masking off the host bits is division by the size of the subnet. *)
Lemma land_mask_div x p m :
  is_u32 x -> 0 < p <= 32 -> mask_of p = Done m -> Z.land x m = x / 2 ^ (32 - p) * 2 ^ (32 - p).
Proof.
  intros Hx Hp. unfold mask_of. destruct (Z.eqb_spec p 0); [lia|].
  destruct (Z.ltb_spec 32 p); [lia|]. intros [= <-].
  change U32_MAX with (Z.ones 32). change (u32 ?z) with (z mod 2 ^ 32).
  rewrite <- Z.land_ones by lia. unfold is_u32 in Hx.
  apply Z.bits_inj'. intros i Hi.
  rewrite !Z.land_spec, Z.shiftl_spec, <- Z.shiftr_div_pow2, <- Z.shiftl_mul_pow2 by lia.
  rewrite Z.shiftl_spec by lia.
  destruct (Z.lt_ge_cases i (32 - p)).
  - rewrite !(Z.testbit_neg_r _ (i - (32 - p))) by lia. by rewrite andb_false_r.
  - rewrite Z.shiftr_spec by lia. replace (i - (32 - p) + (32 - p)) with i by lia.
    destruct (Z.lt_ge_cases i 32).
    + rewrite !Z.ones_spec_low by lia. by rewrite !andb_true_r.
    + rewrite <- (Z.mod_small x (2 ^ 32)), Z.mod_pow2_bits_high by lia. done.
Qed.

Lemma mask_of_done p : 0 <= p <= 32 -> exists m, mask_of p = Done m.
Proof.
  intros Hp. unfold mask_of. destruct (p =? 0); [eauto|].
  destruct (Z.ltb_spec 32 p); [lia|eauto].
Qed.

(** Equality under the mask is equality of prefixes. *)
Lemma mask_eq_iff p m a b :
  wf_ipv4 a -> wf_ipv4 b -> 0 <= p <= 32 -> mask_of p = Done m ->
  Z.land (ip_bits a) m = Z.land (ip_bits b) m <-> same_prefix p a b.
Proof.
  intros Ha%ip_bits_u32 Hb%ip_bits_u32 Hp Hm. unfold same_prefix.
  destruct (Z.eq_dec p 0) as [->|].
  - cbn in Hm. injection Hm as <-. rewrite !Z.land_0_r. unfold is_u32 in *.
    rewrite !Z.div_small by (cbn; lia). done.
  - rewrite !(land_mask_div _ p m) by (done || lia).
    assert (0 < 2 ^ (32 - p)) by (apply Z.pow_pos_nonneg; lia). split; nia.
Qed.

Lemma matches_spec r dst :
  wf_route r -> wf_ipv4 dst -> exists b, matches r dst = Done b /\ (b = true <-> covers r dst).
Proof.
  intros [Hp Hn] Hd. unfold matches. destruct (mask_of_done _ Hp) as [m Hm]. rewrite Hm. cbn [obind].
  eexists. split; [reflexivity|]. rewrite Z.eqb_eq. by apply mask_eq_iff.
Qed.

(** The loop invariant: [best] is the longest match of the routes seen. *)
Definition is_best (seen : list RouteEntry) (dst : Ipv4Addr) (best : option (Z * Ipv4Addr)) : Prop :=
  match best with
  | None => forall r, r ∈ seen -> ~ covers r dst
  | Some (p, g) => exists r, longest_match seen dst r /\ p = prefix_len r /\ g = gateway r
  end.

Lemma is_best_skip seen dst best r :
  is_best seen dst best ->
  (covers r dst -> exists p g, best = Some (p, g) /\ prefix_len r <= p) ->
  is_best (seen ++ [r]) dst best.
Proof.
  intros Hb Hr. destruct best as [[p g]|]; cbn in *.
  - destruct Hb as (r0 & (l1 & l2 & -> & Hc & H1 & H2) & -> & ->). exists r0. split_and!; try done.
    exists l1, (l2 ++ [r]). rewrite <- app_assoc. split_and!; try done.
    intros r' [Hr'| ->%list_elem_of_singleton]%elem_of_app Hcov; [by apply H2|].
    destruct (Hr Hcov) as (? & ? & [= <- <-] & ?). done.
  - intros r' [Hr'| ->%list_elem_of_singleton]%elem_of_app; [by apply Hb|].
    intros Hcov. destruct (Hr Hcov) as (? & ? & ? & _). done.
Qed.

Lemma is_best_take seen dst best r :
  is_best seen dst best -> covers r dst ->
  (forall p g, best = Some (p, g) -> p < prefix_len r) ->
  is_best (seen ++ [r]) dst (Some (prefix_len r, gateway r)).
Proof.
  intros Hb Hc Hr. exists r. split_and!; try done. exists seen, []. split_and!; try done.
  - intros r' Hin Hcov. destruct best as [[p g]|]; cbn in Hb; [|by destruct (Hb r' Hin)].
    destruct Hb as (r0 & (l1 & l2 & -> & _ & H1 & H2) & -> & ->). specialize (Hr _ _ eq_refl).
    apply elem_of_app in Hin as [Hin|[->|Hin]%elem_of_cons]; [|lia|].
    + specialize (H1 r' Hin Hcov). lia.
    + specialize (H2 r' Hin Hcov). lia.
  - by intros r' []%elem_of_nil.
Qed.

Lemma best_match_spec dst rs : forall seen best,
  wf_ipv4 dst -> Forall wf_route rs -> is_best seen dst best ->
  exists b, best_match dst rs best = Done b /\ is_best (seen ++ rs) dst b.
Proof.
  induction rs as [|r rs IH]; intros seen best Hd Hw Hb; cbn [best_match].
  - exists best. by rewrite app_nil_r.
  - apply Forall_cons_1 in Hw as [Hr Hw]. destruct (matches_spec r dst Hr Hd) as (m & -> & Hm). cbn [obind].
    change (seen ++ r :: rs) with (seen ++ [r] ++ rs). rewrite (app_assoc seen).
    apply IH; [done|done|]. destruct m.
    + assert (covers r dst) as Hc by (by apply Hm). destruct best as [[p g]|].
      * destruct (Z.leb_spec (prefix_len r) p); [apply is_best_skip; eauto|].
        eapply is_best_take; [done..|]. intros ? ? [= <- <-]. done.
      * by eapply is_best_take.
    + apply is_best_skip; [done|]. intros Hc. apply Hm in Hc. done.
Qed.

Lemma is_local_spec c dst :
  wf_config c -> wf_ipv4 dst ->
  exists b, is_local c dst = Done b /\
    (b = true <-> 0 < local_prefix_len c /\ same_prefix (local_prefix_len c) (local_ip c) dst).
Proof.
  intros (Hp & Hl & _) Hd. unfold is_local. destruct (Z.eqb_spec (local_prefix_len c) 0) as [E|E].
  - exists false. split; [done|]. split; [done|lia].
  - destruct (mask_of_done _ Hp) as [m Hm]. rewrite Hm. cbn [obind]. eexists. split; [reflexivity|].
    rewrite Z.eqb_eq, (mask_eq_iff _ m) by done. split; [intros; split; [lia|done]|tauto].
Qed.

(** The branch for the subnet broadcast never adds anything: such an address is local. *)
Lemma subnet_broadcast_local c dst :
  wf_config c -> wf_ipv4 dst -> is_local c dst = Done false -> subnet_broadcast c dst = Done false.
Proof.
  intros (Hp & Hl & _) Hd Hloc. unfold subnet_broadcast.
  destruct (Z.ltb_spec 0 (local_prefix_len c)); cbn [andb]; [|done].
  destruct (Z.ltb_spec (local_prefix_len c) 32); [|done].
  unfold is_local in Hloc. destruct (Z.eqb_spec (local_prefix_len c) 0); [lia|].
  destruct (mask_of _) as [m| |]; cbn [obind] in *; [|done..]. f_equal.
  apply andb_false_intro1. rewrite Z.eqb_sym. congruence.
Qed.

(** C28: Next-hop lookup is longest-prefix match: every lookup in a table with valid prefixes
    returns; broadcast, link-local, multicast and on-subnet destinations are reached
    directly; any other destination goes to the gateway of the longest static route that
    covers it (the first of equal length), else to the default gateway, else directly. *)
Theorem lookup_is_longest_prefix_match c dst :
  wf_config c -> wf_ipv4 dst ->
  exists hop, lookup (with_config c) dst = Done hop /\
    (always_direct c dst -> hop = Direct dst) /\
    (~ always_direct c dst ->
     (exists r, longest_match (static_routes c) dst r /\ hop = Gateway (gateway r)) \/
     ((forall r, r ∈ static_routes c -> ~ covers r dst) /\
      hop = match default_gateway c with Some gw => Gateway gw | None => Direct dst end)).
Proof.
  intros Hwf Hd. unfold lookup, with_config. cbn [config].
  destruct (is_local_spec c dst Hwf Hd) as (loc & Hloc & Hl).
  assert (forall P : NextHop -> Prop, always_direct c dst -> exists hop, Done (Direct dst) = Done hop /\
    (always_direct c dst -> hop = Direct dst) /\ (~ always_direct c dst -> P hop)) as Hdir
    by (intros P Ha; eexists; split; [reflexivity|]; split; [done|tauto]).
  destruct (bool_decide_reflect (dst = BROADCAST)); [apply Hdir; by left|].
  destruct (Z.eqb_spec (oct0 dst) 169), (Z.eqb_spec (oct1 dst) 254); cbn [andb];
    [apply Hdir; right; left; tauto|..].
  all: destruct (Z.leb_spec 224 (oct0 dst)), (Z.leb_spec (oct0 dst) 239); cbn [andb];
    try (apply Hdir; right; right; left; lia).
  all: rewrite Hloc; cbn [obind]; destruct loc;
    [apply Hdir; right; right; right; tauto|].
  all: rewrite subnet_broadcast_local by done; cbn [obind].
  all: destruct (best_match_spec dst (static_routes c) [] None) as (b & -> & Hb);
    [done|apply Hwf|by intros ? []%elem_of_nil|]; cbn [obind app] in *.
  all: destruct b as [[p g]|]; cbn in Hb; [destruct Hb as (r & Hr & -> & ->)|];
    [|destruct (default_gateway c) eqn:Eg]; eexists; (split; [reflexivity|]); (split;
    [intros [?|[?|[?|?]]]; try done; try lia; by assert (false = true) by tauto|]); eauto.
Qed.

(** A /24 with a default gateway, a /8 and a more specific /16. *)
Definition sample_config : NetworkConfig :=
  with_route (with_route (with_gateway (config_new (MkIpv4 10 0 1 100) 24) (MkIpv4 10 0 1 1))
    (MkIpv4 172 0 0 0) 8 (MkIpv4 10 0 1 8)) (MkIpv4 172 16 0 0) 16 (MkIpv4 10 0 1 16).

Lemma lookup_is_longest_prefix_match_witness :
  wf_config sample_config /\ wf_ipv4 (MkIpv4 172 16 5 5) /\
  exists hop, lookup (with_config sample_config) (MkIpv4 172 16 5 5) = Done hop /\
    hop = Gateway (MkIpv4 10 0 1 16).
Proof.
  assert (wf_config sample_config) as Hc.
  { change (0 <= 24 <= 32 /\ wf_ipv4 (MkIpv4 10 0 1 100) /\
      Forall wf_route [MkRoute (MkIpv4 172 0 0 0) 8 (MkIpv4 10 0 1 8);
        MkRoute (MkIpv4 172 16 0 0) 16 (MkIpv4 10 0 1 16)]).
    split; [lia|]. split; [unfold wf_ipv4, is_u8; cbn; lia|].
    apply Forall_cons_2; [|apply Forall_singleton];
      (split; [cbn; lia|unfold wf_ipv4, is_u8; cbn; lia]). }
  assert (wf_ipv4 (MkIpv4 172 16 5 5)) as Hd by (unfold wf_ipv4, is_u8; cbn; lia).
  split; [exact Hc|]. split; [exact Hd|].
  destruct (lookup_is_longest_prefix_match sample_config (MkIpv4 172 16 5 5) Hc Hd) as (hop & E & _).
  exists hop. split; [exact E|]. vm_compute in E. congruence.
Defined.

(** ** Text *)

Definition text : Type := list Z.

Definition is_space (c : Z) : bool := (c =? 32) || ((9 <=? c) && (c <=? 13)).

(** [split]: the parts between the characters [sep] accepts. *)
Fixpoint split_on (sep : Z -> bool) (s cur : text) : list text :=
  match s with
  | [] => [cur]
  | c :: s => if sep c then cur :: split_on sep s [] else split_on sep s (cur ++ [c])
  end.

(** [str::split_whitespace]. *)
Definition split_whitespace (s : text) : list text :=
  List.filter (fun t => negb (bool_decide (t = []))) (split_on is_space s []).

(** [str::lines]: no part after a final newline; a carriage return before it is dropped. *)
Definition strip_cr (l : text) : text :=
  if List.last l 0 =? 13 then removelast l else l.

Definition lines (s : text) : list text :=
  let parts := split_on (Z.eqb 10) s [] in
  let parts := if bool_decide (List.last parts [] = []) then removelast parts else parts in
  strip_cr <$> parts.

(** [str::trim]. *)
Fixpoint trim_start (s : text) : text :=
  match s with
  | c :: s' => if is_space c then trim_start s' else s
  | [] => []
  end.

Definition trim (s : text) : text := reverse (trim_start (reverse (trim_start s))).

(** A digit in a radix up to 16. *)
Definition digit (radix c : Z) : option Z :=
  let v :=
    if (48 <=? c) && (c <=? 57) then c - 48
    else if (97 <=? c) && (c <=? 102) then c - 87
    else if (65 <=? c) && (c <=? 70) then c - 55
    else 99 in
  if v <? radix then Some v else None.

Fixpoint digits (radix max acc : Z) (s : text) : option Z :=
  match s with
  | [] => Some acc
  | c :: s =>
      match digit radix c with
      | None => None
      | Some d => let v := acc * radix + d in if v <=? max then digits radix max v s else None
      end
  end.

(** [from_str_radix] of an unsigned type with maximum [max]: an optional plus sign, at
    least one digit, no overflow. *)
Definition from_str_radix (radix max : Z) (s : text) : option Z :=
  match s with
  | [] => None
  | 43 :: [] => None
  | 43 :: s => digits radix max 0 s
  | _ => digits radix max 0 s
  end.

(** [parse::<Ipv4Addr>]: four decimal octets without sign or leading zeros. *)
Definition parse_octet (s : text) : option Z :=
  match s with
  | [] => None
  | 48 :: _ :: _ => None
  | _ => if (3 <? length s)%nat then None else digits 10 255 0 s
  end.

Definition parse_ipv4 (s : text) : option Ipv4Addr :=
  match split_on (Z.eqb 46) s [] with
  | [a; b; c; d] =>
      match parse_octet a, parse_octet b, parse_octet c, parse_octet d with
      | Some a, Some b, Some c, Some d => Some (MkIpv4 a b c d)
      | _, _, _, _ => None
      end
  | _ => None
  end.

(** ** The kernel's tables *)

Record ProcRouteEntry := MkProcRoute {
  iface : text;
  pr_destination : Z;
  pr_gateway : Z;
  pr_mask : Z;
  pr_mtu : Z }.

(** One line of [parse_proc_route]; [None] skips it. *)
Definition parse_route_line (line : text) : option ProcRouteEntry :=
  let fields := split_whitespace line in
  match fields with
  | f0 :: f1 :: f2 :: _ :: _ :: _ :: _ :: f7 :: rest =>
      match from_str_radix 16 U32_MAX f1, from_str_radix 16 U32_MAX f2,
            from_str_radix 16 U32_MAX f7 with
      | Some destination, Some gateway, Some mask =>
          let mtu := match rest with
                     | f8 :: _ => default 0 (from_str_radix 10 U16_MAX f8)
                     | [] => 0
                     end in
          Some (MkProcRoute f0 destination gateway mask mtu)
      | _, _, _ => None
      end
  | _ => None
  end.

(** [parse_proc_route]. *)
Definition parse_proc_route (content : text) : list ProcRouteEntry :=
  omap parse_route_line (drop 1 (lines content)).

(** [parse_mac]. *)
Definition parse_mac (s : text) : option Mac :=
  match mapM (from_str_radix 16 255) (split_on (Z.eqb 58) s []) with
  | Some [a; b; c; d; e; f] => Some (MkMac a b c d e f)
  | _ => None
  end.

Record ProcArpEntry := MkProcArp { pa_ip : Ipv4Addr; pa_mac : Mac; pa_device : text }.

Definition parse_arp_line (line : text) : option ProcArpEntry :=
  match split_whitespace line with
  | f0 :: _ :: _ :: f3 :: _ :: f5 :: _ =>
      match parse_ipv4 f0, parse_mac f3 with
      | Some ip, Some mac => Some (MkProcArp ip mac f5)
      | _, _ => None
      end
  | _ => None
  end.

(** [parse_proc_arp]. *)
Definition parse_proc_arp (content : text) : list ProcArpEntry :=
  omap parse_arp_line (drop 1 (lines content)).

(** [le_hex_to_ipv4] and [u32::from_ne_bytes] on the little-endian targets. *)
Definition le_hex_to_ipv4 (v : Z) : Ipv4Addr :=
  MkIpv4 (u8 v) (u8 (v / 256)) (u8 (v / 65536)) (u8 (v / 16777216)).

Definition from_ne_octets (a : Ipv4Addr) : Z := of_be32 (oct3 a) (oct2 a) (oct1 a) (oct0 a).

(** [u32::leading_ones], over the [n] top bits left. *)
Fixpoint leading_ones (n : nat) (v : Z) : Z :=
  match n with
  | O => 0
  | S n => if Z.testbit v (Z.of_nat n) then 1 + leading_ones n v else 0
  end.

(** [mask_to_prefix_len]. *)
Definition mask_to_prefix_len (mask : Z) : Z := leading_ones 32 (ip_bits (le_hex_to_ipv4 mask)).

(** The state of the loop of [detect_from_os]. *)
Record detected := MkDetected {
  d_iface : option text;
  d_prefix : Z;
  d_gateway : option Ipv4Addr }.

Definition detect_step (local_u32 : Z) (d : detected) (e : ProcRouteEntry) : detected :=
  let gw :=
    if (pr_destination e =? 0) && (pr_mask e =? 0) && negb (pr_gateway e =? 0)
    then Some (le_hex_to_ipv4 (pr_gateway e)) else d_gateway d in
  if negb (pr_mask e =? 0)
     && (Z.land local_u32 (pr_mask e) =? Z.land (pr_destination e) (pr_mask e))
     && (d_prefix d <? mask_to_prefix_len (pr_mask e))
  then MkDetected (Some (iface e)) (mask_to_prefix_len (pr_mask e)) gw
  else MkDetected (d_iface d) (d_prefix d) gw.

(** The MTU of the interface: a non-zero MTU of one of its routes, else the file of
    [/sys/class/net]. *)
Definition detect_mtu (routes : list ProcRouteEntry) (i : text) (sysfs : text -> option text) : Z :=
  match List.find (fun e => bool_decide (iface e = i) && (0 <? pr_mtu e)) routes with
  | Some e => pr_mtu e
  | None =>
      match sysfs i with
      | Some content => default 0 (from_str_radix 10 U16_MAX (trim content))
      | None => 0
      end
  end.

(** [detect_from_os]; the arguments are the contents of the route file, the ARP file and
    the interface's MTU file, [None] when they cannot be read. *)
Definition detect_from_os (local_ip : Ipv4Addr) (route_file arp_file : option text)
    (sysfs : text -> option text) : option (NetworkConfig * list ProcArpEntry) :=
  match route_file with
  | None => None
  | Some content =>
      let routes := parse_proc_route content in
      if bool_decide (routes = []) then None
      else
        let d := fold_left (detect_step (from_ne_octets local_ip)) routes (MkDetected None 0 None) in
        if d_prefix d =? 0 then None
        else
          let c := config_new local_ip (d_prefix d) in
          let c := match d_gateway d with Some gw => with_gateway c gw | None => c end in
          let mtu := match d_iface d with Some i => detect_mtu routes i sysfs | None => 0 end in
          let c := if 0 <? mtu then with_mtu c mtu else c in
          let arp_entries :=
            match arp_file with
            | None => []
            | Some content =>
                let all := parse_proc_arp content in
                match d_iface d with
                | Some i => List.filter (fun e => bool_decide (pa_device e = i)) all
                | None => all
                end
            end in
          Some (c, arp_entries)
  end.

(** [RoutingTable::auto_detect]. *)
Definition auto_detect (local_ip : Ipv4Addr) (route_file arp_file : option text)
    (sysfs : text -> option text) : RoutingTable * list ProcArpEntry :=
  match detect_from_os local_ip route_file arp_file sysfs with
  | Some (c, arp) => (with_config c, arp)
  | None => (table_new, [])
  end.

(** ** Detection *)

(** A route of the kernel's table that covers the local address. *)
Definition covers_local (local_u32 : Z) (e : ProcRouteEntry) : bool :=
  negb (pr_mask e =? 0)
  && (Z.land local_u32 (pr_mask e) =? Z.land (pr_destination e) (pr_mask e)).

(** What the loop has found among the routes seen. *)
Definition detected_ok (local_u32 : Z) (seen : list ProcRouteEntry) (d : detected) : Prop :=
  0 <= d_prefix d /\
  (forall e, e ∈ seen -> covers_local local_u32 e = true -> mask_to_prefix_len (pr_mask e) <= d_prefix d) /\
  (d_prefix d = 0 \/ exists e, e ∈ seen /\ covers_local local_u32 e = true /\
     d_prefix d = mask_to_prefix_len (pr_mask e) /\ d_iface d = Some (iface e)).

Lemma leading_ones_range n v : 0 <= leading_ones n v <= Z.of_nat n.
Proof. induction n as [|n IH]; cbn [leading_ones]; [lia|]. destruct (Z.testbit _ _); lia. Qed.

Lemma detect_step_ok u seen d e :
  detected_ok u seen d -> detected_ok u (seen ++ [e]) (detect_step u d e).
Proof.
  intros (H0 & Hmax & Hat). unfold detect_step. fold (covers_local u e).
  assert (forall P : ProcRouteEntry -> Prop, (exists e, e ∈ seen /\ P e) -> exists e', e' ∈ seen ++ [e] /\ P e')
    as Hin by (intros P (x & Hx & HP); exists x; split; [apply elem_of_app; by left|done]).
  destruct (covers_local u e) eqn:Ec; cbn [andb].
  - destruct (Z.ltb_spec (d_prefix d) (mask_to_prefix_len (pr_mask e))); split_and!; cbn [d_prefix d_iface];
      try lia.
    + intros e' [He| ->%list_elem_of_singleton]%elem_of_app Hc; [specialize (Hmax e' He Hc); lia|lia].
    + right. exists e. split_and!; try done. apply elem_of_app. right. by apply list_elem_of_singleton.
    + intros e' [He| ->%list_elem_of_singleton]%elem_of_app Hc; [by apply Hmax|lia].
    + destruct Hat as [?|Hat]; [by left|right; by apply Hin].
  - split_and!; cbn [d_prefix d_iface]; try lia.
    + intros e' [He| ->%list_elem_of_singleton]%elem_of_app Hc; [by apply Hmax|congruence].
    + destruct Hat as [?|Hat]; [by left|right; by apply Hin].
Qed.

Lemma detect_loop_ok u rs : forall seen d,
  detected_ok u seen d -> detected_ok u (seen ++ rs) (fold_left (detect_step u) rs d).
Proof.
  induction rs as [|e rs IH]; intros seen d Hd; cbn [fold_left]; [by rewrite app_nil_r|].
  change (seen ++ e :: rs) with (seen ++ [e] ++ rs). rewrite (app_assoc seen).
  apply IH. by apply detect_step_ok.
Qed.

(** Auto-detection finds the local subnet: when [detect_from_os] configures the table, the
    prefix length is that of a kernel route which covers the local address, no covering
    route is more specific, and the ARP entries it returns are those of that route's
    interface; when it does not, the route file was unreadable or no covering route has
    a non-zero prefix. *)
Theorem detect_finds_local_subnet ip content arp sysfs :
  let routes := parse_proc_route content in
  let covering e := e ∈ routes /\ covers_local (from_ne_octets ip) e = true in
  match detect_from_os ip (Some content) arp sysfs with
  | Some (c, entries) =>
      exists e, covering e /\ local_ip c = ip /\
        local_prefix_len c = mask_to_prefix_len (pr_mask e) /\ 0 < local_prefix_len c <= 32 /\
        (forall e', covering e' -> mask_to_prefix_len (pr_mask e') <= local_prefix_len c) /\
        Forall (fun a => pa_device a = iface e) entries
  | None => forall e, covering e -> mask_to_prefix_len (pr_mask e) = 0
  end.
Proof.
  intros routes covering. unfold detect_from_os. fold routes.
  pose proof (detect_loop_ok (from_ne_octets ip) routes [] (MkDetected None 0 None)) as Hd.
  destruct Hd as (H0 & Hmax & Hat); [split_and!; [done|by intros ? []%elem_of_nil|by left]|].
  cbn [app] in *. destruct (bool_decide_reflect (routes = [])) as [E|_].
  { intros e [He _]. rewrite E in He. by apply elem_of_nil in He. }
  set (d := fold_left _ routes _) in *. destruct (Z.eqb_spec (d_prefix d) 0) as [E|E].
  { intros e [He Hc]. specialize (Hmax e He Hc).
    pose proof (leading_ones_range 32 (ip_bits (le_hex_to_ipv4 (pr_mask e)))).
    unfold mask_to_prefix_len in *. lia. }
  destruct Hat as [?|(e & He & Hc & Hp & Hi)]; [done|]. exists e. rewrite Hi.
  pose proof (leading_ones_range 32 (ip_bits (le_hex_to_ipv4 (pr_mask e)))) as Hr.
  fold (mask_to_prefix_len (pr_mask e)) in Hr.
  set (c := if 0 <? _ then _ else _).
  assert (local_ip c = ip /\ local_prefix_len c = d_prefix d) as [-> ->].
  { subst c. destruct (0 <? _), (d_gateway d); done. }
  split_and!; try done; try lia.
  - intros e' [He' Hc']. by apply Hmax.
  - destruct arp as [a|]; [|by apply Forall_nil_2]. apply List.Forall_forall. intros x Hx.
    apply filter_In in Hx as [_ Hx]. by apply bool_decide_eq_true in Hx.
Qed.
