(* ===== verification/NeighborCache.v ===== *)
(** * Neighbour caches (dpdk-stdlib-udp/src/arp.rs, ndp.rs; dpdk-stdlib-net/src/neighbor.rs)

    [ArpCache] and [NdpCache] are the same structure over two address types: a map
    with timestamps behind a lock, and the pair learned last in atomics that lookups
    read without the lock.  They are modelled once, over the class [FastKey] of
    addresses that can be packed into machine words.  Sequentially the cache refines
    a simple specification; with a writer and a reader interleaved at every atomic
    access, the two halves of the fast path can be torn apart.  [ArpResolver] is the
    cache of the TCP stack. *)

From stdpp Require Import base numbers list gmap countable.
From Stdlib Require Import ZArith Lia Relations.
From S2P Require Import Prelude State Buffer Codec CodecOptions CodecFrames UdpFrame Udp6Frame Routing.

#[local] Open Scope Z_scope.

(** ** MAC addresses in a word *)

(** [mac_to_u64]. *)
Definition mac_to_u64 (m : Mac) : Z :=
  Z.lor (Z.lor (Z.lor (Z.lor (Z.lor (Z.shiftl (mac0 m) 40) (Z.shiftl (mac1 m) 32))
    (Z.shiftl (mac2 m) 24)) (Z.shiftl (mac3 m) 16)) (Z.shiftl (mac4 m) 8)) (mac5 m).

(** [u64_to_mac]. *)
Definition u64_to_mac (v : Z) : Mac :=
  MkMac (u8 (Z.shiftr v 40)) (u8 (Z.shiftr v 32)) (u8 (Z.shiftr v 24)) (u8 (Z.shiftr v 16))
    (u8 (Z.shiftr v 8)) (u8 v).

(** A field below [x * 2 ^ n] that does not overlap it. *)
Lemma lor_field x y n : 0 <= n -> 0 <= y < 2 ^ n -> Z.lor (x * 2 ^ n) y = x * 2 ^ n + y.
Proof.
  intros Hn Hy. rewrite <- lor_shiftl_small by done. by rewrite Z.shiftl_mul_pow2.
Qed.

Lemma mac_to_u64_sum m :
  wf_mac m ->
  mac_to_u64 m = ((((mac0 m * 256 + mac1 m) * 256 + mac2 m) * 256 + mac3 m) * 256 + mac4 m) * 256
                 + mac5 m.
Proof.
  destruct m as [a b c d e f]. intros H. unfold wf_mac, mac_bytes in H. cbn in H.
  repeat match goal with H : Forall _ (_ :: _) |- _ => apply Forall_cons_1 in H as [? H] end.
  unfold mac_to_u64, is_u8 in *. cbn [mac0 mac1 mac2 mac3 mac4 mac5].
  rewrite !Z.shiftl_mul_pow2 by lia.
  rewrite (lor_field a (b * 2 ^ 32)) by lia.
  replace (a * 2 ^ 40 + b * 2 ^ 32) with ((a * 256 + b) * 2 ^ 32) by ring.
  rewrite (lor_field _ (c * 2 ^ 24)) by lia.
  replace ((a * 256 + b) * 2 ^ 32 + c * 2 ^ 24) with (((a * 256 + b) * 256 + c) * 2 ^ 24) by ring.
  rewrite (lor_field _ (d * 2 ^ 16)) by lia.
  replace (((a * 256 + b) * 256 + c) * 2 ^ 24 + d * 2 ^ 16)
    with ((((a * 256 + b) * 256 + c) * 256 + d) * 2 ^ 16) by ring.
  rewrite (lor_field _ (e * 2 ^ 8)) by lia.
  replace ((((a * 256 + b) * 256 + c) * 256 + d) * 2 ^ 16 + e * 2 ^ 8)
    with (((((a * 256 + b) * 256 + c) * 256 + d) * 256 + e) * 2 ^ 8) by ring.
  rewrite lor_field by lia. lia.
Qed.

(** One more byte at the low end. *)
Lemma byte_split x y n : 0 <= n -> is_u8 y -> (x * 256 + y) / 2 ^ (8 + n) = x / 2 ^ n.
Proof.
  intros Hn Hy. unfold is_u8 in Hy. rewrite Z.pow_add_r by lia.
  rewrite <- Z.div_div by (try apply Z.pow_pos_nonneg; lia).
  change (2 ^ 8) with 256. rewrite Z.div_add_l, (Z.div_small y) by lia. by rewrite Z.add_0_r.
Qed.

Lemma low_byte x y : is_u8 y -> u8 (x * 256 + y) = y.
Proof. wrap_lia. Qed.

Lemma u64_mac_roundtrip m : wf_mac m -> u64_to_mac (mac_to_u64 m) = m.
Proof.
  intros H. rewrite mac_to_u64_sum by done. unfold wf_mac, mac_bytes in H.
  repeat match goal with H : Forall _ (_ :: _) |- _ => apply Forall_cons_1 in H as [? H] end.
  unfold u64_to_mac. rewrite !Z.shiftr_div_pow2 by lia.
  change 40 with (8 + 32) at 1. rewrite byte_split by (done || lia).
  change 32 with (8 + 24) at 1 2. rewrite !byte_split by (done || lia).
  change 24 with (8 + 16) at 1 2 3. rewrite !byte_split by (done || lia).
  change 16 with (8 + 8) at 1 2 3 4. rewrite !byte_split by (done || lia).
  change 8 with (8 + 0) at 1 2 3 4 5. rewrite !byte_split by (done || lia).
  rewrite !Z.div_1_r, !low_byte by done. destruct m; cbn in *. f_equal. by apply u8_small.
Qed.

Lemma mac_to_u64_inj m m' : wf_mac m -> wf_mac m' -> mac_to_u64 m = mac_to_u64 m' -> m = m'.
Proof.
  intros H H' E. by rewrite <- (u64_mac_roundtrip m H), E, u64_mac_roundtrip.
Qed.

(** ** Addresses in words *)

(** An address type whose values pack into machine words; [no_key] is what the
    atomics hold when they are empty. *)
Class FastKey (K W : Type) := {
  pack : K -> W;
  no_key : W;
  wf_key : K -> Prop;
  pack_inj : forall a b, wf_key a -> wf_key b -> pack a = pack b -> a = b }.

(** ** The cache *)

(** [ARP_CACHE_TTL] and [NDP_CACHE_TTL], in nanoseconds. *)
Definition CACHE_TTL : Z := 300000000000.

Record CacheEntry := MkEntry { e_mac : Mac; timestamp : Z }.

(** [is_expired] at the time [now]. *)
Definition is_expired (now : Z) (e : CacheEntry) : bool := CACHE_TTL <? ssub now (timestamp e).

Section Cache.

Context {K W : Type} `{Countable K} `{EqDecision W} `{!FastKey K W}.

Record NeighborCache := MkCache {
  entries : gmap K CacheEntry;
  fast_ip : W;
  fast_mac : Z }.

#[local] Instance eta_cache : Eta NeighborCache := fun c => MkCache (entries c) (fast_ip c) (fast_mac c).

(** [new]. *)
Definition cache_new : NeighborCache := MkCache ∅ no_key 0.

(** The locked lookup. *)
Definition slow_lookup (c : NeighborCache) (now : Z) (ip : K) : option Mac :=
  match entries c !! ip with
  | Some e => if is_expired now e then None else Some (e_mac e)
  | None => None
  end.

(** [lookup]. *)
Definition cache_lookup (c : NeighborCache) (now : Z) (ip : K) : option Mac :=
  if bool_decide (fast_ip c <> no_key) && bool_decide (fast_ip c = pack ip)
  then Some (u64_to_mac (fast_mac c))
  else slow_lookup c now ip.

(** [insert]. *)
Definition cache_insert (c : NeighborCache) (now : Z) (ip : K) (mac : Mac) : NeighborCache :=
  let c := c <| fast_ip := pack ip |> in
  let c := c <| fast_mac := mac_to_u64 mac |> in
  c <| entries := <[ip := MkEntry mac now]> (entries c) |>.

(** [insert_if_changed]. *)
Definition insert_if_changed (c : NeighborCache) (now : Z) (ip : K) (mac : Mac) : NeighborCache :=
  if bool_decide (fast_ip c = pack ip) && (fast_mac c =? mac_to_u64 mac) then c
  else
    let c := c <| fast_ip := pack ip |> in
    let c := c <| fast_mac := mac_to_u64 mac |> in
    c <| entries := <[ip := MkEntry mac now]> (entries c) |>.

(** [remove]. *)
Definition cache_remove (c : NeighborCache) (ip : K) : NeighborCache :=
  let c := if bool_decide (fast_ip c = pack ip)
           then c <| fast_ip := no_key |> <| fast_mac := 0 |> else c in
  c <| entries := delete ip (entries c) |>.

(** [purge_expired]. *)
Definition purge_expired (c : NeighborCache) (now : Z) : NeighborCache :=
  c <| entries := filter (fun '(_, e) => is_expired now e = false) (entries c) |>.

(** [clear]. *)
Definition cache_clear (c : NeighborCache) : NeighborCache :=
  let c := c <| fast_ip := no_key |> <| fast_mac := 0 |> in
  c <| entries := ∅ |>.

(** [len] and [is_empty]. *)
Definition cache_len (c : NeighborCache) : Z := Z.of_nat (size (entries c)).

Definition cache_is_empty (c : NeighborCache) : bool := bool_decide (entries c = ∅).

(** ** Specification

    What has been learned and when, without forgetting on expiry, and the address
    learned last.  An answer is given while it is younger than the time to live; the
    address learned last is answered at any age, and learning the same pair again does
    not renew its age. *)

Inductive cache_op : Type :=
| OpInsert (ip : K) (mac : Mac)
| OpInsertIfChanged (ip : K) (mac : Mac)
| OpRemove (ip : K)
| OpPurge
| OpClear
| OpLookup (ip : K).

Definition cache_step (c : NeighborCache) (now : Z) (op : cache_op) : NeighborCache * option Mac :=
  match op with
  | OpInsert ip mac => (cache_insert c now ip mac, None)
  | OpInsertIfChanged ip mac => (insert_if_changed c now ip mac, None)
  | OpRemove ip => (cache_remove c ip, None)
  | OpPurge => (purge_expired c now, None)
  | OpClear => (cache_clear c, None)
  | OpLookup ip => (c, cache_lookup c now ip)
  end.

Record knowledge := MkKnowledge { known : gmap K (Mac * Z); latest : option K }.

Definition learn (s : knowledge) (now : Z) (ip : K) (mac : Mac) : knowledge :=
  MkKnowledge (<[ip := (mac, now)]> (known s)) (Some ip).

Definition answer (s : knowledge) (now : Z) (ip : K) : option Mac :=
  match known s !! ip with
  | Some (mac, t) =>
      if bool_decide (latest s = Some ip) || (ssub now t <=? CACHE_TTL) then Some mac else None
  | None => None
  end.

Definition knowledge_step (s : knowledge) (now : Z) (op : cache_op) : knowledge * option Mac :=
  match op with
  | OpInsert ip mac => (learn s now ip mac, None)
  | OpInsertIfChanged ip mac =>
      (if bool_decide (latest s = Some ip /\ fst <$> known s !! ip = Some mac) then s
       else learn s now ip mac, None)
  | OpRemove ip =>
      (MkKnowledge (delete ip (known s))
         (if bool_decide (latest s = Some ip) then None else latest s), None)
  | OpPurge => (s, None)
  | OpClear => (MkKnowledge ∅ None, None)
  | OpLookup ip => (s, answer s now ip)
  end.

(** Runs a sequence of timed operations and collects the answers. *)
Fixpoint run_ops {S : Type} (step : S -> Z -> cache_op -> S * option Mac) (s : S)
    (ops : list (Z * cache_op)) : list (option Mac) :=
  match ops with
  | [] => []
  | (now, op) :: ops => let (s, r) := step s now op in r :: run_ops step s ops
  end.

(** Addresses that can be kept in the fast path, and MAC addresses made of bytes. *)
Definition wf_op (op : cache_op) : Prop :=
  match op with
  | OpInsert ip mac | OpInsertIfChanged ip mac => wf_key ip /\ pack ip <> no_key /\ wf_mac mac
  | OpRemove ip | OpLookup ip => wf_key ip /\ pack ip <> no_key
  | OpPurge | OpClear => True
  end.

(** Well-formed operations at times that do not decrease. *)
Fixpoint timely (t : Z) (ops : list (Z * cache_op)) : Prop :=
  match ops with
  | [] => True
  | (now, op) :: ops => t <= now /\ wf_op op /\ timely now ops
  end.

(** ** Refinement *)

Record refines (t : Z) (c : NeighborCache) (s : knowledge) : Prop := {
  entries_known ip e : entries c !! ip = Some e -> known s !! ip = Some (e_mac e, timestamp e);
  known_entries ip mac t' :
    known s !! ip = Some (mac, t') ->
    entries c !! ip = Some (MkEntry mac t') \/ entries c !! ip = None /\ CACHE_TTL < ssub t t';
  fast_latest :
    match latest s with
    | Some ip => wf_key ip /\ pack ip <> no_key /\ fast_ip c = pack ip /\
        exists mac t', known s !! ip = Some (mac, t') /\ wf_mac mac /\ fast_mac c = mac_to_u64 mac
    | None => fast_ip c = no_key
    end }.

Lemma refines_new t : refines t cache_new (MkKnowledge ∅ None).
Proof. split; cbn; [intros ? ? Hl|intros ? ? ? Hl|done]; by rewrite lookup_empty in Hl. Qed.

Lemma refines_later t t' c s : t <= t' -> refines t c s -> refines t' c s.
Proof.
  intros Ht [H1 H2 H3]. split; [done| |done]. intros ip mac u Hk.
  destruct (H2 _ _ _ Hk) as [?|[? ?]]; [by left|right]. split; [done|]. unfold ssub in *. lia.
Qed.

(** The fast path holds [ip] exactly when [ip] was learned last. *)
Lemma fast_is_latest t c s ip :
  refines t c s -> wf_key ip -> pack ip <> no_key -> (fast_ip c = pack ip <-> latest s = Some ip).
Proof.
  intros [_ _ Hf] Hw Hn. destruct (latest s) as [k|].
  - destruct Hf as (Hk & _ & -> & _). split; [intros E; by rewrite (pack_inj _ _ Hk Hw E)|].
    by intros [= ->].
  - split; [intros E; by rewrite Hf in E|done].
Qed.

Lemma refines_learn t c s ip mac :
  refines t c s -> wf_key ip -> pack ip <> no_key -> wf_mac mac ->
  refines t (cache_insert c t ip mac) (learn s t ip mac).
Proof.
  intros [H1 H2 _] Hw Hn Hm. unfold cache_insert. split; rsimpl; cbn [learn known latest].
  - intros k e. destruct (decide (k = ip)) as [->|Hk].
    + rewrite !lookup_insert_eq. by intros [= <-].
    + rewrite !lookup_insert_ne by done. apply H1.
  - intros k m u. destruct (decide (k = ip)) as [->|Hk].
    + rewrite !lookup_insert_eq. intros [= <- <-]. by left.
    + rewrite !lookup_insert_ne by done. apply H2.
  - repeat split; try done. exists mac, t. by rewrite lookup_insert_eq.
Qed.

(** A pair just learned is answered for the time to live. *)
Lemma lookup_insert_fresh c now now' ip mac :
  wf_mac mac -> ssub now' now <= CACHE_TTL -> cache_lookup (cache_insert c now ip mac) now' ip = Some mac.
Proof.
  intros Hm Ht. unfold cache_lookup, slow_lookup, cache_insert. rsimpl.
  rewrite lookup_insert_eq, (bool_decide_true (pack ip = pack ip)) by done. unfold is_expired.
  cbn [timestamp e_mac]. rewrite (proj2 (Z.ltb_ge _ _)), u64_mac_roundtrip by done.
  by case_bool_decide.
Qed.

(** A pair learned by [insert_if_changed] is answered at any time while it is the last. *)
Lemma lookup_insert_changed c now now' ip mac :
  wf_mac mac -> pack ip <> no_key -> cache_lookup (insert_if_changed c now ip mac) now' ip = Some mac.
Proof.
  intros Hm Hn. unfold cache_lookup, insert_if_changed.
  destruct (bool_decide_reflect (fast_ip c = pack ip)) as [E|E];
    [destruct (Z.eqb_spec (fast_mac c) (mac_to_u64 mac)) as [F|F]|]; cbn [andb]; rsimpl.
  1: rewrite E, F. all: rewrite (bool_decide_true (pack ip <> no_key)), bool_decide_true by done; cbn [andb].
  all: by rewrite u64_mac_roundtrip.
Qed.

Lemma refines_if_changed t c s ip mac :
  refines t c s -> wf_key ip -> pack ip <> no_key -> wf_mac mac ->
  refines t (insert_if_changed c t ip mac)
    (if bool_decide (latest s = Some ip /\ fst <$> known s !! ip = Some mac) then s
     else learn s t ip mac).
Proof.
  intros R Hw Hn Hm. pose proof (fast_is_latest _ _ _ _ R Hw Hn) as Hf.
  assert ((bool_decide (fast_ip c = pack ip) && (fast_mac c =? mac_to_u64 mac)) =
    bool_decide (latest s = Some ip /\ fst <$> known s !! ip = Some mac)) as E.
  { rewrite (bool_decide_ext _ _ Hf), bool_decide_and. case_bool_decide as Hl; [|done].
    destruct R as [_ _ Hfl]. rewrite Hl in Hfl. destruct Hfl as (_ & _ & _ & m & u & -> & Hm' & ->).
    rewrite andb_true_l. symmetry. destruct (Z.eqb_spec (mac_to_u64 m) (mac_to_u64 mac)) as [Em|Em].
    - apply mac_to_u64_inj in Em; [|done..]. apply bool_decide_true. by rewrite Em.
    - apply bool_decide_false. cbn. by intros [= ->]. }
  unfold insert_if_changed. rewrite E. clear E.
  case_bool_decide; [done|]. by apply refines_learn.
Qed.

Lemma refines_remove t c s ip :
  refines t c s -> wf_key ip -> pack ip <> no_key ->
  refines t (cache_remove c ip)
    (MkKnowledge (delete ip (known s)) (if bool_decide (latest s = Some ip) then None else latest s)).
Proof.
  intros R Hw Hn. pose proof (fast_is_latest _ _ _ _ R Hw Hn) as Hf. destruct R as [H1 H2 H3].
  unfold cache_remove. rewrite (bool_decide_ext _ _ Hf).
  split; cbn [known latest].
  - intros k e. case_bool_decide; rsimpl; (destruct (decide (k = ip)) as [->|Hk];
      [by rewrite lookup_delete_eq|rewrite !lookup_delete_ne by done; apply H1]).
  - intros k m u. case_bool_decide; rsimpl; (destruct (decide (k = ip)) as [->|Hk];
      [by rewrite lookup_delete_eq|rewrite !lookup_delete_ne by done; apply H2]).
  - case_bool_decide as Hl; rsimpl; [done|]. destruct (latest s) as [k|]; [|done].
    rewrite lookup_delete_ne by congruence. done.
Qed.

Lemma refines_purge t c s : refines t c s -> refines t (purge_expired c t) s.
Proof.
  intros [H1 H2 H3]. unfold purge_expired. split; rsimpl; [| |done].
  - intros ip e [Hl _]%map_lookup_filter_Some. by apply H1.
  - intros ip m u Hk. destruct (H2 _ _ _ Hk) as [Hl|[Hl Ht]].
    + destruct (is_expired t (MkEntry m u)) eqn:E.
      * right. split; [|by apply Z.ltb_lt in E]. apply map_lookup_filter_None. right.
        intros e He. rewrite Hl in He. injection He as <-. by rewrite E.
      * left. by apply map_lookup_filter_Some.
    + right. split; [|done]. apply map_lookup_filter_None. by left.
Qed.

Lemma lookup_answers t c s ip :
  refines t c s -> wf_key ip -> pack ip <> no_key -> cache_lookup c t ip = answer s t ip.
Proof.
  intros R Hw Hn. pose proof (fast_is_latest _ _ _ _ R Hw Hn) as Hf. destruct R as [H1 H2 H3].
  unfold cache_lookup, answer. rewrite (bool_decide_ext _ _ Hf).
  destruct (bool_decide_reflect (latest s = Some ip)) as [Hl|Hl].
  - rewrite Hl in H3. destruct H3 as (_ & _ & Hi & m & u & -> & Hm & ->).
    rewrite bool_decide_true by congruence. cbn [andb orb]. by rewrite u64_mac_roundtrip.
  - rewrite andb_false_r. cbn [orb]. unfold slow_lookup, is_expired.
    destruct (known s !! ip) as [[m u]|] eqn:Ek.
    + destruct (H2 _ _ _ Ek) as [->|[-> Ht]]; cbn [timestamp e_mac]; repeat bcase; (done || lia).
    + destruct (entries c !! ip) as [e|] eqn:Ee; [|done]. apply H1 in Ee. congruence.
Qed.

Lemma refines_step t c s op :
  refines t c s -> wf_op op ->
  refines t (cache_step c t op).1 (knowledge_step s t op).1 /\
  (cache_step c t op).2 = (knowledge_step s t op).2.
Proof.
  intros R. destruct op as [ip mac|ip mac|ip| | |ip]; cbn [wf_op cache_step knowledge_step fst snd].
  - intros (? & ? & ?). split; [by apply refines_learn|done].
  - intros (? & ? & ?). split; [by apply refines_if_changed|done].
  - intros (? & ?). split; [by apply refines_remove|done].
  - intros _. split; [by apply refines_purge|done].
  - intros _. split; [|done]. unfold cache_clear. split; rsimpl; cbn; [intros ? ? Hl|intros ? ? ? Hl|done];
      by rewrite lookup_empty in Hl.
  - intros (? & ?). split; [done|by apply lookup_answers].
Qed.

Lemma run_refines t c s ops :
  refines t c s -> timely t ops -> run_ops cache_step c ops = run_ops knowledge_step s ops.
Proof.
  revert t c s. induction ops as [|[now op] ops IH]; intros t c s R; [done|].
  cbn [timely run_ops]. intros (Ht & Hop & Hops). apply (refines_later _ now) in R; [|done].
  destruct (refines_step now c s op R Hop) as [R' E].
  destruct (cache_step c now op) as [c' r], (knowledge_step s now op) as [s' r']. cbn in R', E.
  subst r'. f_equal. by apply (IH now).
Qed.

End Cache.

Arguments NeighborCache K W {_ _}.
Arguments cache_op : clear implicits.
Arguments knowledge K {_ _}.

(** C29: For every sequence of operations at times that do not decrease, the ARP or NDP cache
    (map, timestamps and packed fast path) gives exactly the answers of the
    specification: the MAC address learned last for the address, if it was written at
    most five minutes ago or belongs to the address learned last of all; never another
    host's. *)
Theorem cache_refines_knowledge {K W} `{Countable K} `{EqDecision W} `{!FastKey K W} t ops :
  timely t ops ->
  run_ops cache_step (cache_new (K := K) (W := W)) ops = run_ops knowledge_step (MkKnowledge ∅ None) ops.
Proof. apply run_refines, refines_new. Qed.

(** ** The two caches *)

Lemma ip_bits_inj a b : wf_ipv4 a -> wf_ipv4 b -> ip_bits a = ip_bits b -> a = b.
Proof.
  intros Ha Hb E. assert (forall x, wf_ipv4 x -> be32 (ip_bits x) = octets x) as R.
  { intros [w x y z] (? & ? & ? & ?). unfold be32, ip_bits, of_be32, octets. cbn [oct0 oct1 oct2 oct3] in *.
    repeat f_equal; wrap_lia. }
  pose proof (R a Ha) as Ra. rewrite E, (R b Hb) in Ra. destruct a, b. by injection Ra as -> -> -> ->.
Qed.

(** [ArpCache]: [u32::from(ip)] in one atomic. *)
#[global] Instance arp_key : FastKey Ipv4Addr Z := {
  pack := ip_bits;
  no_key := 0;
  wf_key := wf_ipv4;
  pack_inj := ip_bits_inj }.

Definition ArpCache : Type := NeighborCache Ipv4Addr Z.

(** [ipv6_to_u64_pair]. *)
Definition ipv6_to_u64_pair (a : Ipv6Addr) : Z * Z :=
  (of_octets6 (take 8 (octets6 a)), of_octets6 (drop 8 (octets6 a))).

Lemma of_octets6_app l k :
  of_octets6 (l ++ k) = of_octets6 l * 256 ^ zlen k + of_octets6 k.
Proof.
  unfold of_octets6, Ipv6Addr. rewrite fold_left_app. generalize (fold_left (fun acc b => acc * 256 + b) l 0).
  induction k as [|x k IH] using rev_ind; intros acc; [unfold zlen; cbn [length Z.of_nat fold_left]; lia|].
  rewrite !fold_left_app. cbn [fold_left]. rewrite IH, zlen_app, Z.pow_add_r by (unfold zlen; lia).
  change (256 ^ zlen [x]) with 256. ring.
Qed.

Lemma ipv6_pair_inj a b :
  is_u128 a -> is_u128 b -> ipv6_to_u64_pair a = ipv6_to_u64_pair b -> a = b.
Proof.
  unfold ipv6_to_u64_pair. intros Ha Hb [E1 E2]%pair_equal_spec.
  rewrite <- (of_octets6_octets6 a Ha), <- (of_octets6_octets6 b Hb).
  rewrite <- (take_drop 8 (octets6 a)), <- (take_drop 8 (octets6 b)), !of_octets6_app.
  by rewrite E1, E2.
Qed.

(** [NdpCache]: the two halves of the address in two atomics. *)
#[global] Instance ndp_key : FastKey Ipv6Addr (Z * Z) := {
  pack := ipv6_to_u64_pair;
  no_key := (0, 0);
  wf_key := is_u128;
  pack_inj := ipv6_pair_inj }.

#[global] Instance Ipv6Addr_eq_dec : EqDecision Ipv6Addr := Z.eq_dec.

#[global] Instance Ipv6Addr_countable : Countable Ipv6Addr := _ : Countable Z.

Definition NdpCache : Type := NeighborCache Ipv6Addr (Z * Z).

(** Two hosts, and a cache that keeps the last one past its time to live. *)
Definition host_a : Ipv4Addr := MkIpv4 10 0 0 1.

Definition host_b : Ipv4Addr := MkIpv4 10 0 0 2.

Definition mac_a : Mac := MkMac 2 0 0 0 0 1.

Definition mac_b : Mac := MkMac 2 0 0 0 0 2.

(** A literal MAC address is made of bytes. *)
Ltac concrete_mac :=
  match goal with |- wf_mac ?m =>
    unfold wf_mac; let l := eval vm_compute in (mac_bytes m) in change (mac_bytes m) with l; bytes
  end.

Lemma cache_refines_knowledge_witness :
  let ops := [(0, OpInsert host_a mac_a); (1, OpInsert host_b mac_b); (2, OpLookup host_a);
              (400000000000, OpPurge); (400000000001, OpLookup host_a);
              (400000000002, OpLookup host_b)] in
  run_ops cache_step (cache_new : ArpCache) ops = [None; None; Some mac_a; None; None; Some mac_b].
Proof.
  cbv zeta. rewrite (cache_refines_knowledge 0); [vm_compute; reflexivity|].
  cbn [timely wf_op]. repeat split; try (vm_compute; congruence); concrete_mac.
Defined.

(** ** Writers and readers without the lock

    [insert] stores the address, then the MAC address, and only then takes the lock;
    [lookup] reads them in the same order.  One writer and one reader interleave at
    these accesses. *)

Inductive writer_pc : Type :=
| WIdle
| WStoredIp (ip : Ipv4Addr) (mac : Mac)
| WStoredMac (ip : Ipv4Addr) (mac : Mac).

Inductive reader_pc : Type :=
| LIdle
| LMatched (ip : Ipv4Addr)
| LMissed (ip : Ipv4Addr)
| LDone (ip : Ipv4Addr) (r : option Mac).

Record cache_sys := MkSys {
  y_cache : ArpCache;
  y_writer : writer_pc;
  y_reader : reader_pc;
  y_learned : list (Ipv4Addr * Mac) }.

#[local] Instance eta_arp_cache : Eta ArpCache :=
  fun c => MkCache (entries c) (fast_ip c) (fast_mac c).

#[local] Instance eta_cache_sys : Eta cache_sys :=
  fun s => MkSys (y_cache s) (y_writer s) (y_reader s) (y_learned s).

Inductive access (s : cache_sys) : cache_sys -> Prop :=
| insert_stores_ip ip mac :
    y_writer s = WIdle ->
    access s (s <| y_cache := (y_cache s) <| fast_ip := pack ip |> |>
                <| y_writer := WStoredIp ip mac |> <| y_learned := (ip, mac) :: y_learned s |>)
| insert_stores_mac ip mac :
    y_writer s = WStoredIp ip mac ->
    access s (s <| y_cache := (y_cache s) <| fast_mac := mac_to_u64 mac |> |>
                <| y_writer := WStoredMac ip mac |>)
| insert_locks ip mac now :
    y_writer s = WStoredMac ip mac ->
    access s (s <| y_cache := (y_cache s) <| entries := <[ip := MkEntry mac now]> (entries (y_cache s)) |> |>
                <| y_writer := WIdle |>)
| lookup_matches ip :
    fast_ip (y_cache s) <> no_key -> fast_ip (y_cache s) = pack ip ->
    access s (s <| y_reader := LMatched ip |>)
| lookup_misses ip :
    fast_ip (y_cache s) = no_key \/ fast_ip (y_cache s) <> pack ip ->
    access s (s <| y_reader := LMissed ip |>)
| lookup_reads_mac ip :
    y_reader s = LMatched ip ->
    access s (s <| y_reader := LDone ip (Some (u64_to_mac (fast_mac (y_cache s)))) |>)
| lookup_locks ip now :
    y_reader s = LMissed ip ->
    access s (s <| y_reader := LDone ip (slow_lookup (y_cache s) now ip) |>).

Definition sys_new : cache_sys := MkSys cache_new WIdle LIdle [].

(** An insertion that nothing interleaves with is [cache_insert], and such a lookup
    is [cache_lookup]. *)
Lemma insert_is_run s ip mac now :
  y_writer s = WIdle ->
  rtc access s (s <| y_cache := cache_insert (y_cache s) now ip mac |>
                  <| y_learned := (ip, mac) :: y_learned s |>).
Proof.
  intros Hw. eapply rtc_l; [by eapply (insert_stores_ip s ip mac)|].
  eapply rtc_l; [by eapply insert_stores_mac|].
  eapply rtc_l; [by eapply (insert_locks _ ip mac now)|].
  destruct s as [[] ? ? ?]; cbn in Hw; subst. reflexivity.
Qed.

Lemma lookup_is_run s ip now :
  rtc access s (s <| y_reader := LDone ip (cache_lookup (y_cache s) now ip) |>).
Proof.
  unfold cache_lookup. destruct (bool_decide_reflect (fast_ip (y_cache s) <> no_key)) as [Hn|Hn];
    [destruct (bool_decide_reflect (fast_ip (y_cache s) = pack ip)) as [Hp|Hp]|].
  - eapply rtc_l; [by apply (lookup_matches _ ip)|]. apply rtc_once.
    exact (lookup_reads_mac (s <| y_reader := LMatched ip |>) ip eq_refl).
  - eapply rtc_l; [by apply (lookup_misses _ ip); right|]. apply rtc_once.
    exact (lookup_locks (s <| y_reader := LMissed ip |>) ip now eq_refl).
  - eapply rtc_l; [apply (lookup_misses _ ip); left; destruct (decide (fast_ip (y_cache s) = no_key)); tauto|].
    apply rtc_once. exact (lookup_locks (s <| y_reader := LMissed ip |>) ip now eq_refl).
Qed.

(** The fast path of the cache can be torn: a lookup that runs between the two atomic
    stores of an insertion matches the new address and returns the MAC address of the
    host learned before it, a pair that was never learned.  A datagram sent meanwhile goes
    to the wrong host. *)
Theorem fast_path_torn :
  exists s, rtc access sys_new s /\ y_reader s = LDone host_b (Some mac_a) /\
    y_learned s = [(host_b, mac_b); (host_a, mac_a)].
Proof.
  eexists. split; [|split].
  - etrans; [by apply (insert_is_run sys_new host_a mac_a 0)|].
    eapply rtc_l; [by eapply (insert_stores_ip _ host_b mac_b)|].
    eapply rtc_l; [by eapply (lookup_matches _ host_b)|].
    apply rtc_once. by apply (lookup_reads_mac _ host_b).
  - vm_compute. reflexivity.
  - reflexivity.
Qed.

(** ** The resolver of the TCP stack *)

Inductive IpAddr : Type := IpV4 (a : Ipv4Addr) | IpV6 (a : Ipv6Addr).

#[global] Instance IpAddr_eq_dec : EqDecision IpAddr.
Proof. solve_decision. Defined.

#[global] Program Instance IpAddr_countable : Countable IpAddr :=
  inj_countable' (fun a => match a with IpV4 a => inl a | IpV6 a => inr a end)
    (fun x => match x with inl a => IpV4 a | inr a => IpV6 a end) _.
Next Obligation. by intros []. Qed.

Record ResolverEntry := MkResolverEntry { r_mac : Mac; expires : Z }.

Record ArpResolver := MkResolver {
  r_cache : gmap IpAddr ResolverEntry;
  gateway_mac : option Mac;
  r_ttl : Z }.

Definition resolver_new : ArpResolver := MkResolver ∅ None 300000000000.

Definition with_gateway_mac (mac : Mac) : ArpResolver := MkResolver ∅ (Some mac) 300000000000.

(** [ArpResolver::insert]. *)
Definition resolver_insert (r : ArpResolver) (now : Z) (ip : IpAddr) (mac : Mac) : ArpResolver :=
  MkResolver (<[ip := MkResolverEntry mac (now + r_ttl r)]> (r_cache r)) (gateway_mac r) (r_ttl r).

(** [ArpResolver::lookup_cached]. *)
Definition lookup_cached (r : ArpResolver) (now : Z) (ip : IpAddr) : option Mac :=
  match gateway_mac r with
  | Some mac => Some mac
  | None =>
      match r_cache r !! ip with
      | Some e => if now <? expires e then Some (r_mac e) else None
      | None => None
      end
  end.

(** [ArpResolver::resolve]. *)
Definition resolver_resolve (r : ArpResolver) (now : Z) (ip : IpAddr) : result Mac ErrorKind :=
  match gateway_mac r with
  | Some mac => Ok mac
  | None =>
      match lookup_cached r now ip with
      | Some mac => Ok mac
      | None => Err KAddrNotAvailable
      end
  end.

(** A static entry resolves until its time to live is over, and not after. *)
Lemma resolver_entry_lifetime now now' ip mac :
  resolver_resolve (resolver_insert resolver_new now ip mac) now' ip =
  if now' <? now + 300000000000 then Ok mac else Err KAddrNotAvailable.
Proof.
  unfold resolver_resolve, lookup_cached, resolver_insert. cbn [gateway_mac r_cache resolver_new r_ttl].
  rewrite lookup_insert_eq. cbn [expires r_mac]. by bcase.
Qed.
