(* ===== verification/Arp.v ===== *)
(** * Address resolution (dpdk-stdlib-udp/src/arp.rs)

    ARP packets, their frames and the handler that answers requests and learns from
    everything it sees. *)

From stdpp Require Import base numbers list gmap.
From Stdlib Require Import ZArith Lia.
From S2P Require Import Prelude State Buffer Codec CodecOptions CodecFrames UdpFrame UdpLayout Routing NeighborCache.

#[local] Open Scope nat_scope.

Definition ETH_TYPE_ARP : Z := 2054.
Definition ARP_HW_TYPE_ETHERNET : Z := 1.
Definition ARP_PROTO_TYPE_IPV4 : Z := 2048.
Definition ARP_OP_REQUEST : Z := 1.
Definition ARP_OP_REPLY : Z := 2.
Definition ARP_PACKET_LEN : nat := 28.
Definition ETH_ARP_FRAME_LEN : nat := 14 + ARP_PACKET_LEN.

Record ArpPacket := MkArp {
  hw_type : Z;
  proto_type : Z;
  hw_len : Z;
  proto_len : Z;
  operation : Z;
  sender_mac : Mac;
  sender_ip : Ipv4Addr;
  target_mac : Mac;
  target_ip : Ipv4Addr }.

(** [ArpPacket::request] and [reply]. *)
Definition arp_request (sender_mac : Mac) (sender_ip target_ip : Ipv4Addr) : ArpPacket :=
  MkArp ARP_HW_TYPE_ETHERNET ARP_PROTO_TYPE_IPV4 6 4 ARP_OP_REQUEST sender_mac sender_ip mac_zero
    target_ip.

Definition arp_reply (sender_mac : Mac) (sender_ip : Ipv4Addr) (target_mac : Mac)
    (target_ip : Ipv4Addr) : ArpPacket :=
  MkArp ARP_HW_TYPE_ETHERNET ARP_PROTO_TYPE_IPV4 6 4 ARP_OP_REPLY sender_mac sender_ip target_mac
    target_ip.

Definition is_request (p : ArpPacket) : bool := (operation p =? ARP_OP_REQUEST)%Z.

Definition is_reply (p : ArpPacket) : bool := (operation p =? ARP_OP_REPLY)%Z.

(** The type of the frame and the offset of the ARP packet, behind a VLAN tag or not. *)
Definition arp_layout (frame : list Z) : outcome (option (Z * nat)) :=
  if 14 <=? length frame then
    let! outer := read16 frame 12 in
    if (outer =? ETH_TYPE_VLAN)%Z && (18 <=? length frame) then
      let! inner := read16 frame 16 in
      Done (Some (inner, 18))
    else Done (Some (outer, 14))
  else Done None.

(** [parse_arp_packet]. *)
Definition parse_arp_packet (frame : list Z) : outcome (option ArpPacket) :=
  let! layout := arp_layout frame in
  match layout with
  | None => Done None
  | Some (ethertype, arp_offset) =>
      if negb (ethertype =? ETH_TYPE_ARP)%Z then Done None
      else if length frame <? arp_offset + 28 then Done None
      else
        let! arp := slice_from frame arp_offset in
        let! hw_type := read16 arp 0 in
        let! proto_type := read16 arp 2 in
        let! hw_len := idx arp 4 in
        let! proto_len := idx arp 5 in
        let! operation := read16 arp 6 in
        if negb (hw_type =? ARP_HW_TYPE_ETHERNET)%Z || negb (proto_type =? ARP_PROTO_TYPE_IPV4)%Z
        then Done None
        else if negb (hw_len =? 6)%Z || negb (proto_len =? 4)%Z then Done None
        else
          let! smac := slice arp 8 14 in
          match to_mac smac with
          | None => Done None
          | Some sender_mac =>
              let! sender_ip := read_ipv4 arp 14 in
              let! tmac := slice arp 18 24 in
              match to_mac tmac with
              | None => Done None
              | Some target_mac =>
                  let! target_ip := read_ipv4 arp 24 in
                  Done (Some (MkArp hw_type proto_type hw_len proto_len operation sender_mac
                                sender_ip target_mac target_ip))
              end
          end
  end.

(** [build_arp_frame]. *)
Definition build_arp_frame (src_mac dst_mac : Mac) (arp : ArpPacket) : outcome (list Z) :=
  let frame := replicate ETH_ARP_FRAME_LEN 0%Z in
  let! frame := blit frame 0 6 (mac_bytes dst_mac) in
  let! frame := blit frame 6 12 (mac_bytes src_mac) in
  let! frame := blit frame 12 14 (be16 ETH_TYPE_ARP) in
  let! frame := blit frame 14 16 (be16 (hw_type arp)) in
  let! frame := blit frame 16 18 (be16 (proto_type arp)) in
  let! frame := store frame 18 (hw_len arp) in
  let! frame := store frame 19 (proto_len arp) in
  let! frame := blit frame 20 22 (be16 (operation arp)) in
  let! frame := blit frame 22 28 (mac_bytes (sender_mac arp)) in
  let! frame := blit frame 28 32 (octets (sender_ip arp)) in
  let! frame := blit frame 32 38 (mac_bytes (target_mac arp)) in
  blit frame 38 42 (octets (target_ip arp)).

Definition broadcast_mac : Mac := MkMac 255 255 255 255 255 255.

(** [build_arp_request], [build_gratuitous_arp] and [build_arp_reply]. *)
Definition build_arp_request (src_mac : Mac) (src_ip target_ip : Ipv4Addr) : outcome (list Z) :=
  build_arp_frame src_mac broadcast_mac (arp_request src_mac src_ip target_ip).

Definition build_gratuitous_arp (src_mac : Mac) (src_ip : Ipv4Addr) : outcome (list Z) :=
  build_arp_frame src_mac broadcast_mac (arp_request src_mac src_ip src_ip).

Definition build_arp_reply (src_mac : Mac) (src_ip : Ipv4Addr) (dst_mac : Mac) (dst_ip : Ipv4Addr)
    : outcome (list Z) :=
  build_arp_frame src_mac dst_mac (arp_reply src_mac src_ip dst_mac dst_ip).

(** ** The handler *)

Record ArpHandler := MkArpHandler {
  local_mac : Mac;
  local_ips : list Ipv4Addr;
  arp_cache : ArpCache }.

#[global] Instance eta_ArpHandler : Eta ArpHandler := fun h =>
  MkArpHandler (local_mac h) (local_ips h) (arp_cache h).

(** [ArpHandler::new] and [with_cache]. *)
Definition handler_with_cache (mac : Mac) (ip : Ipv4Addr) (c : ArpCache) : ArpHandler :=
  MkArpHandler mac [ip] c.

Definition arp_handler_new (mac : Mac) (ip : Ipv4Addr) : ArpHandler :=
  handler_with_cache mac ip cache_new.

(** [ArpHandler::add_local_ip]. *)
Definition add_local_ip (h : ArpHandler) (ip : Ipv4Addr) : ArpHandler :=
  if bool_decide (ip ∈ local_ips h) then h else h <| local_ips := local_ips h ++ [ip] |>.

(** [ArpHandler::process_arp]. *)
Definition process_arp (h : ArpHandler) (now : Z) (frame : list Z)
    : outcome (ArpHandler * option (list Z)) :=
  let! parsed := parse_arp_packet frame in
  match parsed with
  | None => Done (h, None)
  | Some arp =>
      let h := h <| arp_cache := cache_insert (arp_cache h) now (sender_ip arp) (sender_mac arp) |> in
      if is_request arp then
        if bool_decide (target_ip arp ∈ local_ips h) then
          let! reply := build_arp_reply (local_mac h) (target_ip arp) (sender_mac arp)
                          (sender_ip arp) in
          Done (h, Some reply)
        else Done (h, None)
      else Done (h, None)
  end.

(** [ArpHandler::resolve]. *)
Definition arp_resolve (h : ArpHandler) (now : Z) (ip : Ipv4Addr) : option Mac :=
  if bool_decide (ip = BROADCAST) then Some broadcast_mac else cache_lookup (arp_cache h) now ip.

(** [ArpHandler::make_request] and [make_gratuitous_arp]. *)
Definition make_request (h : ArpHandler) (target_ip : Ipv4Addr) : outcome (option (list Z)) :=
  match local_ips h with
  | [] => Done None
  | src_ip :: _ => let! f := build_arp_request (local_mac h) src_ip target_ip in Done (Some f)
  end.

Definition make_gratuitous_arp (h : ArpHandler) : outcome (option (list Z)) :=
  match local_ips h with
  | [] => Done None
  | src_ip :: _ => let! f := build_gratuitous_arp (local_mac h) src_ip in Done (Some f)
  end.

(** ** Frames *)

Definition arp_bytes (p : ArpPacket) : list Z :=
  be16 (hw_type p) ++ be16 (proto_type p) ++ [hw_len p; proto_len p] ++ be16 (operation p)
    ++ mac_bytes (sender_mac p) ++ octets (sender_ip p) ++ mac_bytes (target_mac p)
    ++ octets (target_ip p).

Lemma build_arp_frame_bytes src dst p :
  build_arp_frame src dst p = Done (eth_bytes dst src ETH_TYPE_ARP ++ arp_bytes p).
Proof.
  reflexivity.
Qed.

(** An Ethernet/IPv4 packet whose operation fits its field. *)
Definition wf_arp (p : ArpPacket) : Prop :=
  hw_type p = ARP_HW_TYPE_ETHERNET /\ proto_type p = ARP_PROTO_TYPE_IPV4 /\ hw_len p = 6%Z /\
  proto_len p = 4%Z /\ is_u16 (operation p).

(** A parsed packet, with any padding behind it. *)
Lemma arp_roundtrip src dst p pad :
  wf_arp p ->
  parse_arp_packet ((eth_bytes dst src ETH_TYPE_ARP ++ arp_bytes p) ++ pad) = Done (Some p).
Proof.
  destruct p as [hw pr hl pl op [] [] [] []], dst, src. intros (H1 & H2 & H3 & H4 & H5).
  cbn in H1, H2, H3, H4, H5. subst.
  unfold arp_bytes.
  cbn [hw_type proto_type hw_len proto_len operation sender_mac sender_ip target_mac target_ip].
  unfold be16 at 3.
  rewrite <- (of_be16_be16 op) at 3 by done.
  generalize (u8 (op / 256)) (u8 op). intros o1 o2.
  set (F := (_ ++ _) ++ pad). unfold parse_arp_packet.
  change (arp_layout F) with (Done (Some (ETH_TYPE_ARP, 14))). rewrite obind_Done. cbv beta iota.
  change (negb (ETH_TYPE_ARP =? ETH_TYPE_ARP)%Z) with false.
  change (length F <? 14 + 28) with false. cbv iota.
  rewrite slice_from_done by (cbn; lia). reflexivity.
Qed.

(** [parse_arp_packet] never panics. *)
Lemma parse_arp_total frame : exists r, parse_arp_packet frame = Done r.
Proof.
  unfold parse_arp_packet.
  assert (exists l, arp_layout frame = Done l) as [[[t o]|] ->]; [|rewrite obind_Done; cbv beta iota|by eauto].
  { unfold arp_layout. repeat parse_step; eauto. }
  repeat parse_step; eauto.
Qed.

(** ** Resolution *)

(** What a handler does with a well-formed frame. *)
Lemma process_arp_frame h now src dst p pad :
  wf_arp p ->
  process_arp h now ((eth_bytes dst src ETH_TYPE_ARP ++ arp_bytes p) ++ pad) =
  let h' := h <| arp_cache := cache_insert (arp_cache h) now (sender_ip p) (sender_mac p) |> in
  Done (h', if is_request p && bool_decide (target_ip p ∈ local_ips h)
            then Some (eth_bytes (sender_mac p) (local_mac h) ETH_TYPE_ARP ++
                       arp_bytes (arp_reply (local_mac h) (target_ip p) (sender_mac p) (sender_ip p)))
            else None).
Proof.
  intros Hp. unfold process_arp. rewrite arp_roundtrip, obind_Done by done. cbv beta iota zeta. rsimpl.
  destruct (is_request p); [|done]. case_bool_decide; [|done].
  unfold build_arp_reply. by rewrite build_arp_frame_bytes.
Qed.

(** Learning from a frame makes its sender resolvable. *)
Lemma resolve_learned h now now' ip mac :
  wf_mac mac -> ip <> BROADCAST -> (ssub now' now <= CACHE_TTL)%Z ->
  arp_resolve (h <| arp_cache := cache_insert (arp_cache h) now ip mac |>) now' ip = Some mac.
Proof.
  intros Hm Hb Ht. unfold arp_resolve. rewrite bool_decide_false by done. rsimpl.
  by apply lookup_insert_fresh.
Qed.

(** C31: Address resolution over the wire: the request one host broadcasts for an address of another,
    padded or not, is answered by exactly one reply; once the reply has arrived (and is
    not answered in turn) both hosts resolve each other's address to the right MAC
    address for the time to live, while a host that does not own the address stays silent. *)
Theorem arp_resolves_over_the_wire ha hb hc ipa ipb ips now1 now2 now pad1 pad2 :
  local_ips ha = ipa :: ips -> ipb ∈ local_ips hb -> ipb ∉ local_ips hc ->
  wf_mac (local_mac ha) -> wf_mac (local_mac hb) -> ipa <> BROADCAST -> ipb <> BROADCAST ->
  (ssub now now1 <= CACHE_TTL)%Z -> (ssub now now2 <= CACHE_TTL)%Z ->
  exists request reply ha' hb' hc',
    make_request ha ipb = Done (Some request) /\
    process_arp hb now1 (request ++ pad1) = Done (hb', Some reply) /\
    process_arp hc now1 (request ++ pad1) = Done (hc', None) /\
    process_arp ha now2 (reply ++ pad2) = Done (ha', None) /\
    arp_resolve ha' now ipb = Some (local_mac hb) /\ arp_resolve hb' now ipa = Some (local_mac ha).
Proof.
  intros Ha Hb Hc Hma Hmb Hia Hib Ht1 Ht2. unfold make_request. rewrite Ha.
  unfold build_arp_request. rewrite build_arp_frame_bytes.
  do 5 eexists. split_and!; [reflexivity| | | | |].
  - rewrite process_arp_frame by done. cbn [is_request operation arp_request target_ip].
    rewrite bool_decide_true by done. reflexivity.
  - rewrite process_arp_frame by done. cbn [is_request operation arp_request target_ip].
    rewrite bool_decide_false by done. reflexivity.
  - by rewrite process_arp_frame.
  - by apply resolve_learned.
  - by apply resolve_learned.
Qed.

Lemma arp_resolves_over_the_wire_witness :
  exists request reply ha' hb' hc',
    make_request (arp_handler_new mac_a host_a) host_b = Done (Some request) /\
    process_arp (arp_handler_new mac_b host_b) 5 (request ++ replicate 18 0%Z) = Done (hb', Some reply) /\
    process_arp (arp_handler_new mac_b (MkIpv4 10 0 0 3)) 5 (request ++ replicate 18 0%Z) = Done (hc', None) /\
    process_arp (arp_handler_new mac_a host_a) 7 (reply ++ []) = Done (ha', None) /\
    arp_resolve ha' 1000 host_b = Some mac_b /\ arp_resolve hb' 1000 host_a = Some mac_a.
Proof.
  apply (arp_resolves_over_the_wire (arp_handler_new mac_a host_a) (arp_handler_new mac_b host_b)
    (arp_handler_new mac_b (MkIpv4 10 0 0 3)) host_a host_b []).
  - reflexivity.
  - apply list_elem_of_singleton. reflexivity.
  - intros E%list_elem_of_singleton. discriminate E.
  - concrete_mac.
  - concrete_mac.
  - discriminate.
  - discriminate.
  - vm_compute. congruence.
  - vm_compute. congruence.
Defined.
