(* ===== verification/Icmp.v ===== *)
(** * ICMP over IPv4 (dpdk-stdlib-udp/src/icmp.rs)

    Echo requests and replies, error messages that quote a datagram of ours, and the
    handler that answers the first and reports the second. *)

From stdpp Require Import base numbers list.
From Stdlib Require Import ZArith Lia.
From S2P Require Import Prelude State Buffer Checksum Codec CodecOptions CodecFrames UdpChecksum UdpFrame UdpLayout.

#[local] Open Scope nat_scope.

Definition IP_PROTO_ICMP : Z := 1.
Definition ICMP_TYPE_ECHO_REPLY : Z := 0.
Definition ICMP_TYPE_DEST_UNREACHABLE : Z := 3.
Definition ICMP_TYPE_REDIRECT : Z := 5.
Definition ICMP_TYPE_ECHO_REQUEST : Z := 8.
Definition ICMP_TYPE_TIME_EXCEEDED : Z := 11.
Definition ICMP_TYPE_PARAMETER_PROBLEM : Z := 12.
Definition ICMP_CODE_ECHO : Z := 0.
Definition ICMP_CODE_FRAG_NEEDED : Z := 4.
Definition ICMP_HEADER_LEN : nat := 8.
Definition MIN_ICMP_ERROR_PAYLOAD : nat := IPV4_HEADER_LEN + UDP_HEADER_LEN.

(** ** Packets *)

Record IcmpPacket := MkIcmp {
  i_src_mac : Mac;
  i_dst_mac : Mac;
  i_src_ip : Ipv4Addr;
  i_dst_ip : Ipv4Addr;
  i_ttl : Z;
  icmp_type : Z;
  icmp_code : Z;
  i_checksum : Z;
  identifier : Z;
  sequence : Z;
  i_payload : list Z }.

Definition is_echo_request (p : IcmpPacket) : bool :=
  (icmp_type p =? ICMP_TYPE_ECHO_REQUEST)%Z && (icmp_code p =? ICMP_CODE_ECHO)%Z.

Definition is_echo_reply (p : IcmpPacket) : bool :=
  (icmp_type p =? ICMP_TYPE_ECHO_REPLY)%Z && (icmp_code p =? ICMP_CODE_ECHO)%Z.

(** The types that carry a quoted datagram ([IcmpPacket::is_error]). *)
Definition is_error_type (t : Z) : bool :=
  (t =? ICMP_TYPE_DEST_UNREACHABLE)%Z || (t =? ICMP_TYPE_TIME_EXCEEDED)%Z
  || (t =? ICMP_TYPE_REDIRECT)%Z || (t =? ICMP_TYPE_PARAMETER_PROBLEM)%Z.

(** [IcmpPacket::make_echo_reply]. *)
Definition make_echo_reply (p : IcmpPacket) (reply_src_mac : Mac) : option IcmpPacket :=
  if negb (is_echo_request p) then None
  else Some (MkIcmp reply_src_mac (i_src_mac p) (i_dst_ip p) (i_src_ip p) 64 ICMP_TYPE_ECHO_REPLY
               ICMP_CODE_ECHO 0 (identifier p) (sequence p) (i_payload p)).

(** ** Errors *)

Record IcmpErrorInfo := MkIcmpError {
  x_type : Z;
  x_code : Z;
  error_source : Ipv4Addr;
  original_dst_ip : Ipv4Addr;
  original_src_ip : Ipv4Addr;
  original_dst_port : Z;
  original_src_port : Z;
  next_hop_mtu : Z }.

(** [IcmpErrorInfo::to_io_error], the kind. *)
Definition to_io_error (e : IcmpErrorInfo) : ErrorKind :=
  match x_type e, x_code e with
  | 3%Z, 0%Z | 3%Z, 1%Z => KOther
  | 3%Z, 2%Z | 3%Z, 3%Z => KConnectionRefused
  | 3%Z, 4%Z => KOther
  | 3%Z, 13%Z => KPermissionDenied
  | 3%Z, _ => KOther
  | 11%Z, 0%Z | 11%Z, 1%Z => KTimedOut
  | 5%Z, _ => KOther
  | 12%Z, _ => KInvalidData
  | _, _ => KOther
  end.

(** [parse_icmp_error]. *)
Definition parse_icmp_error (frame : list Z) : outcome (option IcmpErrorInfo) :=
  let! layout := detect_vlan frame None in
  match layout with
  | None => Done None
  | Some layout =>
      let l3 := l3_offset layout in
      if negb (ethertype layout =? ETH_TYPE_IPV4)%Z then Done None
      else if length frame <? l3 + IPV4_HEADER_LEN + ICMP_HEADER_LEN + MIN_ICMP_ERROR_PAYLOAD
      then Done None
      else
        let! outer_ip := slice_from frame l3 in
        let! b0 := idx outer_ip 0 in
        if negb (Z.land (Z.shiftr b0 4) 15 =? 4)%Z then Done None
        else
          let outer_ihl := ihl_bytes b0 in
          if outer_ihl <? 20 then Done None
          else
            let! protocol := idx outer_ip 9 in
            if negb (protocol =? IP_PROTO_ICMP)%Z then Done None
            else
              let! error_source := read_ipv4 outer_ip 12 in
              let icmp_start := l3 + outer_ihl in
              if length frame <? icmp_start + ICMP_HEADER_LEN + MIN_ICMP_ERROR_PAYLOAD then Done None
              else
                let! icmp := slice_from frame icmp_start in
                let! icmp_type := idx icmp 0 in
                let! icmp_code := idx icmp 1 in
                if negb (is_error_type icmp_type) then Done None
                else
                  let! next_hop_mtu :=
                    if (icmp_type =? ICMP_TYPE_DEST_UNREACHABLE)%Z
                       && (icmp_code =? ICMP_CODE_FRAG_NEEDED)%Z
                    then read16 icmp 6 else Done 0%Z in
                  let orig_ip_start := icmp_start + ICMP_HEADER_LEN in
                  let! orig_ip := slice_from frame orig_ip_start in
                  let! o0 := idx orig_ip 0 in
                  if negb (Z.land (Z.shiftr o0 4) 15 =? 4)%Z then Done None
                  else
                    let orig_ihl := ihl_bytes o0 in
                    if orig_ihl <? 20 then Done None
                    else
                      let! orig_protocol := idx orig_ip 9 in
                      if negb (orig_protocol =? IP_PROTO_UDP)%Z then Done None
                      else
                        let! original_src_ip := read_ipv4 orig_ip 12 in
                        let! original_dst_ip := read_ipv4 orig_ip 16 in
                        let orig_udp_start := orig_ip_start + orig_ihl in
                        if length frame <? orig_udp_start + 4 then Done None
                        else
                          let! original_src_port := read16 frame orig_udp_start in
                          let! original_dst_port := read16 frame (orig_udp_start + 2) in
                          Done (Some (MkIcmpError icmp_type icmp_code error_source original_dst_ip
                                        original_src_ip original_dst_port original_src_port
                                        next_hop_mtu))
  end.

(** ** Echo packets *)

(** [icmp_checksum]. *)
Definition icmp_checksum (data : list Z) : outcome Z :=
  let! sum := fold_carry FOLD_FUEL (add_words 0 data) in
  Done (u16 (Z.lnot (u16 sum))).

(** [parse_icmp_packet]. *)
Definition parse_icmp_packet (frame : list Z) : outcome (option IcmpPacket) :=
  let! layout := detect_vlan frame None in
  match layout with
  | None => Done None
  | Some layout =>
      let l3 := l3_offset layout in
      if negb (ethertype layout =? ETH_TYPE_IPV4)%Z then Done None
      else if length frame <? l3 + IPV4_HEADER_LEN + ICMP_HEADER_LEN then Done None
      else
        let! dmac := slice frame 0 6 in
        let! smac := slice frame 6 12 in
        match to_mac dmac with
        | None => Done None
        | Some dst_mac =>
        match to_mac smac with
        | None => Done None
        | Some src_mac =>
            let! ip_header := slice_from frame l3 in
            let! b0 := idx ip_header 0 in
            if negb (Z.land (Z.shiftr b0 4) 15 =? 4)%Z then Done None
            else
              let ip_header_len := ihl_bytes b0 in
              if ip_header_len <? 20 then Done None
              else
                let! protocol := idx ip_header 9 in
                if negb (protocol =? IP_PROTO_ICMP)%Z then Done None
                else
                  let! ttl := idx ip_header 8 in
                  let! src_ip := read_ipv4 ip_header 12 in
                  let! dst_ip := read_ipv4 ip_header 16 in
                  let icmp_start := l3 + ip_header_len in
                  if length frame <? icmp_start + ICMP_HEADER_LEN then Done None
                  else
                    let! icmp := slice_from frame icmp_start in
                    let! ty := idx icmp 0 in
                    let! code := idx icmp 1 in
                    let! checksum := read16 icmp 2 in
                    let! identifier := read16 icmp 4 in
                    let! sequence := read16 icmp 6 in
                    let! payload :=
                      if icmp_start + ICMP_HEADER_LEN <? length frame
                      then slice_from frame (icmp_start + ICMP_HEADER_LEN) else Done [] in
                    Done (Some (MkIcmp src_mac dst_mac src_ip dst_ip ttl ty code checksum identifier
                                  sequence payload))
        end
        end
  end.

(** [build_icmp_frame]. *)
Definition build_icmp_frame (p : IcmpPacket) : outcome (list Z) :=
  let total_len := ETH_HEADER_LEN + IPV4_HEADER_LEN + ICMP_HEADER_LEN + length (i_payload p) in
  let frame := replicate total_len 0%Z in
  let! frame := put_eth frame 0 (i_dst_mac p) (i_src_mac p) ETH_TYPE_IPV4 in
  let ip := ETH_HEADER_LEN in
  let ip_total_len := u16 (Z.of_nat (IPV4_HEADER_LEN + ICMP_HEADER_LEN + length (i_payload p))) in
  let! frame := store frame ip 69 in
  let! frame := store frame (ip + 1) 0 in
  let! frame := blit frame (ip + 2) (ip + 4) (be16 ip_total_len) in
  let! frame := blit frame (ip + 4) (ip + 6) [0; 0]%Z in
  let! frame := blit frame (ip + 6) (ip + 8) [64; 0]%Z in
  let! frame := store frame (ip + 8) (i_ttl p) in
  let! frame := store frame (ip + 9) IP_PROTO_ICMP in
  let! frame := blit frame (ip + 10) (ip + 12) [0; 0]%Z in
  let! frame := blit frame (ip + 12) (ip + 16) (octets (i_src_ip p)) in
  let! frame := blit frame (ip + 16) (ip + 20) (octets (i_dst_ip p)) in
  let! header := slice frame ip (ip + IPV4_HEADER_LEN) in
  let! ip_cksum := ipv4_checksum header in
  let! frame := blit frame (ip + 10) (ip + 12) (be16 ip_cksum) in
  let icmp_start := ETH_HEADER_LEN + IPV4_HEADER_LEN in
  let! frame := store frame icmp_start (icmp_type p) in
  let! frame := store frame (icmp_start + 1) (icmp_code p) in
  let! frame := blit frame (icmp_start + 2) (icmp_start + 4) [0; 0]%Z in
  let! frame := blit frame (icmp_start + 4) (icmp_start + 6) (be16 (identifier p)) in
  let! frame := blit frame (icmp_start + 6) (icmp_start + 8) (be16 (sequence p)) in
  let! frame := match i_payload p with
                | [] => Done frame
                | _ :: _ => blit frame (icmp_start + ICMP_HEADER_LEN) (length frame) (i_payload p)
                end in
  let! icmp := slice_from frame icmp_start in
  let! icmp_cksum := icmp_checksum icmp in
  blit frame (icmp_start + 2) (icmp_start + 4) (be16 icmp_cksum).

(** [build_echo_request] and [build_echo_reply]. *)
Definition build_echo (ty : Z) (src_mac dst_mac : Mac) (src_ip dst_ip : Ipv4Addr)
    (identifier sequence : Z) (payload : list Z) : outcome (list Z) :=
  build_icmp_frame (MkIcmp src_mac dst_mac src_ip dst_ip 64 ty ICMP_CODE_ECHO 0 identifier sequence
                      payload).

Definition build_echo_request := build_echo ICMP_TYPE_ECHO_REQUEST.

Definition build_echo_reply := build_echo ICMP_TYPE_ECHO_REPLY.

(** ** The handler *)

Inductive IcmpAction : Type :=
| ActReply (frame : list Z)
| ActError (info : IcmpErrorInfo).

Record IcmpHandler := MkIcmpHandler { i_local_mac : Mac; i_local_ips : list Ipv4Addr }.

(** [IcmpHandler::new] and [add_local_ip]. *)
Definition icmp_handler_new (mac : Mac) (ip : Ipv4Addr) : IcmpHandler := MkIcmpHandler mac [ip].

Definition icmp_add_local_ip (h : IcmpHandler) (ip : Ipv4Addr) : IcmpHandler :=
  if bool_decide (ip ∈ i_local_ips h) then h
  else MkIcmpHandler (i_local_mac h) (i_local_ips h ++ [ip]).

(** The reply to a parsed packet, when it is an echo request for us. *)
Definition echo_answer (h : IcmpHandler) (p : IcmpPacket) : outcome (option (list Z)) :=
  if is_echo_request p && bool_decide (i_dst_ip p ∈ i_local_ips h) then
    match make_echo_reply p (i_local_mac h) with
    | None => Done None
    | Some reply => let! f := build_icmp_frame reply in Done (Some f)
    end
  else Done None.

(** [IcmpHandler::process_icmp]. *)
Definition process_icmp (h : IcmpHandler) (frame : list Z) : outcome (option (list Z)) :=
  let! packet := parse_icmp_packet frame in
  match packet with
  | None => Done None
  | Some p => echo_answer h p
  end.

(** [IcmpHandler::process_icmp_full]. *)
Definition process_icmp_full (h : IcmpHandler) (frame : list Z) : outcome (option IcmpAction) :=
  let! packet := parse_icmp_packet frame in
  let! reply := match packet with None => Done None | Some p => echo_answer h p end in
  match reply with
  | Some f => Done (Some (ActReply f))
  | None =>
      let! err := parse_icmp_error frame in
      match err with
      | Some info =>
          if bool_decide (original_src_ip info ∈ i_local_ips h) then Done (Some (ActError info))
          else Done None
      | None => Done None
      end
  end.

(** ** Layout *)

Definition icmp_ip_pre (total ttl : Z) : list Z :=
  [69; 0]%Z ++ be16 total ++ [0; 0; 64; 0; ttl; IP_PROTO_ICMP]%Z.

Definition icmp_ip_raw (total ttl cksum : Z) (src dst : Ipv4Addr) : list Z :=
  icmp_ip_pre total ttl ++ be16 cksum ++ octets src ++ octets dst.

Definition icmp_ip_bytes (total ttl : Z) (src dst : Ipv4Addr) : list Z :=
  icmp_ip_raw total ttl (cksum_of (icmp_ip_raw total ttl 0 src dst)) src dst.

Definition icmp_msg (ty code cksum id seq : Z) (payload : list Z) : list Z :=
  [ty; code]%Z ++ be16 cksum ++ be16 id ++ be16 seq ++ payload.

(** The message with its checksum. *)
Definition icmp_bytes (p : IcmpPacket) : list Z :=
  icmp_msg (icmp_type p) (icmp_code p)
    (cksum_of (icmp_msg (icmp_type p) (icmp_code p) 0 (identifier p) (sequence p) (i_payload p)))
    (identifier p) (sequence p) (i_payload p).

Definition icmp_total (p : IcmpPacket) : Z := u16 (Z.of_nat (28 + length (i_payload p))).

Definition icmp_frame (p : IcmpPacket) : list Z :=
  eth_bytes (i_dst_mac p) (i_src_mac p) ETH_TYPE_IPV4
    ++ icmp_ip_bytes (icmp_total p) (i_ttl p) (i_src_ip p) (i_dst_ip p) ++ icmp_bytes p.

Lemma icmp_checksum_ipv4 l : icmp_checksum l = ipv4_checksum l.
Proof. done. Qed.

Lemma build_icmp_frame_bytes p : build_icmp_frame p = Done (icmp_frame p).
Proof.
  unfold build_icmp_frame, ETH_HEADER_LEN, IPV4_HEADER_LEN, ICMP_HEADER_LEN.
  set (t := replicate _ 0%Z).
  assert (length t = 42 + length (i_payload p)) as Ht by (subst t; by rewrite length_replicate).
  clearbody t. rewrite <- (app_nil_l t). rewrite put_eth_next, obind_Done by (done || lia). cbv beta.
  rewrite app_nil_l. set (E := eth_bytes _ _ _). assert (length E = 14) as HE by done.
  assert (length (drop 14 t) = 28 + length (i_payload p)) as Ht' by (rewrite length_drop; lia).
  generalize dependent (drop 14 t). clear t Ht. intros t Ht.
  change (u16 _) with (icmp_total p).
  do 10 put_next. rewrite !drop_drop. cbn [length octets be16 Nat.add].
  match goal with |- context [slice ?f _ _] =>
    replace f with (E ++ icmp_ip_raw (icmp_total p) (i_ttl p) 0 (i_src_ip p) (i_dst_ip p) ++ drop 20 t)
      by (unfold icmp_ip_raw, icmp_ip_pre; rewrite <- !app_assoc; reflexivity) end.
  rewrite slice_mid, obind_Done by (done || reflexivity). cbv beta.
  rewrite cksum_of_done, obind_Done. cbv beta.
  set (c := cksum_of _). unfold icmp_ip_raw. rewrite <- !app_assoc.
  rewrite (app_assoc E), (blit_mid (E ++ icmp_ip_pre (icmp_total p) (i_ttl p)) (be16 0)), obind_Done
    by (rewrite ?length_app; cbn; lia). cbv beta.
  set (H := E ++ icmp_ip_bytes (icmp_total p) (i_ttl p) (i_src_ip p) (i_dst_ip p)).
  match goal with |- context [store ?f 34] =>
    replace f with (H ++ drop 20 t) by (unfold H, icmp_ip_bytes, icmp_ip_raw; by rewrite <- !app_assoc) end.
  assert (length H = 34) as HH by (unfold H; by rewrite length_app, HE).
  assert (length (drop 20 t) = 8 + length (i_payload p)) as Ht' by (rewrite length_drop; lia).
  generalize dependent (drop 20 t). clear t Ht c. intros t Ht.
  do 5 put_next. rewrite !drop_drop. cbn [length be16 Nat.add].
  match goal with |- context [blit ?f 42 (length ?f) _] =>
    assert (length f = 42 + length (i_payload p)) as Hf
      by (rewrite !length_app, length_drop; cbn; lia);
    rewrite Hf, guarded_blit by lia
  end.
  rewrite blit_next by (rewrite ?length_app, ?length_drop; cbn; lia).
  rewrite obind_Done. cbv beta. rewrite drop_drop, drop_ge, app_nil_r by lia.
  match goal with |- context [slice_from ?f 34] =>
    replace f with (H ++ icmp_msg (icmp_type p) (icmp_code p) 0 (identifier p) (sequence p) (i_payload p))
      by (unfold icmp_msg; rewrite <- !app_assoc; reflexivity) end.
  rewrite slice_from_done by (rewrite length_app; lia). rewrite obind_Done. cbv beta.
  rewrite drop_app_length' by done. rewrite icmp_checksum_ipv4, cksum_of_done, obind_Done. cbv beta.
  unfold icmp_frame, icmp_bytes. set (c := cksum_of _). unfold icmp_msg.
  rewrite (app_assoc H), (blit_mid (H ++ [icmp_type p; icmp_code p]) (be16 0))
    by (rewrite ?length_app; cbn; lia). subst H. by rewrite <- !app_assoc.
Qed.

(** The packet a receiver makes of a frame: what the length field would cut off as
    padding is part of the payload. *)
Definition received (p : IcmpPacket) (pad : list Z) : IcmpPacket :=
  MkIcmp (i_src_mac p) (i_dst_mac p) (i_src_ip p) (i_dst_ip p) (i_ttl p) (icmp_type p) (icmp_code p)
    (cksum_of (icmp_msg (icmp_type p) (icmp_code p) 0 (identifier p) (sequence p) (i_payload p)))
    (identifier p) (sequence p) (i_payload p ++ pad).

Definition wf_icmp (p : IcmpPacket) : Prop := is_u16 (identifier p) /\ is_u16 (sequence p).

Lemma cksum_of_u16 l : is_u16 (cksum_of l).
Proof. unfold cksum_of. destruct (ipv4_checksum_total l) as (c & -> & Hc). exact Hc. Qed.

(** The parser on a frame with an untagged, option-free header. *)
Lemma parse_icmp_raw dm sm tot ttl ck src dst ty code c1 c2 i1 i2 s1 s2 tail :
  parse_icmp_packet (eth_bytes dm sm ETH_TYPE_IPV4 ++ icmp_ip_raw tot ttl ck src dst
                       ++ [ty; code; c1; c2; i1; i2; s1; s2] ++ tail)
  = Done (Some (MkIcmp sm dm src dst ttl ty code (of_be16 c1 c2) (of_be16 i1 i2) (of_be16 s1 s2) tail)).
Proof. destruct dm, sm, src, dst, tail as [|x tail]; reflexivity. Qed.

Lemma parse_icmp_frame p pad :
  wf_icmp p -> parse_icmp_packet (icmp_frame p ++ pad) = Done (Some (received p pad)).
Proof.
  intros [Hi Hs]. unfold icmp_frame, icmp_bytes, received, icmp_ip_bytes, icmp_msg, be16 at 1 2 3.
  rewrite <- !app_assoc. set (c := cksum_of _).
  etrans; [apply (parse_icmp_raw (i_dst_mac p) (i_src_mac p))|].
  rewrite !of_be16_be16; [done|done|done|apply cksum_of_u16].
Qed.

(** The parsers never panic. *)
Lemma parse_icmp_total frame : exists r, parse_icmp_packet frame = Done r.
Proof.
  unfold parse_icmp_packet. destruct (detect_vlan_total frame None) as (r & -> & Hr).
  rewrite obind_Done. cbv beta. destruct r as [l|]; [|by eauto].
  unfold IPV4_HEADER_LEN, ICMP_HEADER_LEN, ihl_bytes. repeat parse_step; eauto.
Qed.

Lemma parse_icmp_error_total frame : exists r, parse_icmp_error frame = Done r.
Proof.
  unfold parse_icmp_error. destruct (detect_vlan_total frame None) as (r & -> & Hr).
  rewrite obind_Done. cbv beta. destruct r as [l|]; [|by eauto].
  unfold MIN_ICMP_ERROR_PAYLOAD, IPV4_HEADER_LEN, ICMP_HEADER_LEN, UDP_HEADER_LEN, ihl_bytes.
  repeat parse_step; eauto.
Qed.

(** ** Echo *)

(** The checksum of a finished message verifies. *)
Lemma icmp_bytes_verify p :
  is_u8 (icmp_type p) -> is_u8 (icmp_code p) -> Forall is_u8 (i_payload p) ->
  (zlen (i_payload p) <= 65528)%Z -> icmp_checksum (icmp_bytes p) = Done 0%Z.
Proof.
  intros Ht Hc Hp Hl. unfold icmp_bytes, icmp_msg. rewrite icmp_checksum_ipv4.
  apply (ipv4_checksum_verifies [icmp_type p; icmp_code p] _ 1); [bytes|bytes|done| |apply cksum_of_done].
  rewrite !zlen_app. unfold zlen in *. cbn. lia.
Qed.

(** A ping is echoed: a host answers an echo request to one of its addresses, through either entry
    point, by a frame that the requester parses as an echo reply from the pinged
    address to itself with the same identifier and sequence number, whose ICMP checksum
    verifies, and whose payload is that of the request followed by the padding the
    frame arrived with (none unless the link padded it). *)
Theorem ping_echoed h p pad :
  is_echo_request p = true -> i_dst_ip p ∈ i_local_ips h -> wf_icmp p ->
  Forall is_u8 (i_payload p) -> Forall is_u8 pad -> (zlen (i_payload p ++ pad) <= 65507)%Z ->
  exists request reply q,
    build_icmp_frame p = Done request /\
    process_icmp h (request ++ pad) = Done (Some reply) /\
    process_icmp_full h (request ++ pad) = Done (Some (ActReply reply)) /\
    parse_icmp_packet reply = Done (Some q) /\ is_echo_reply q = true /\
    i_src_mac q = i_local_mac h /\ i_dst_mac q = i_src_mac p /\
    i_src_ip q = i_dst_ip p /\ i_dst_ip q = i_src_ip p /\
    identifier q = identifier p /\ sequence q = sequence p /\ i_payload q = i_payload p ++ pad /\
    icmp_checksum (drop 34 reply) = Done 0%Z.
Proof.
  intros Hr Hip Hw Hp Hpad Hl. unfold process_icmp_full, process_icmp.
  exists (icmp_frame p). rewrite build_icmp_frame_bytes, parse_icmp_frame by done.
  rewrite !obind_Done. cbv beta iota. unfold echo_answer, make_echo_reply.
  assert (is_echo_request (received p pad) = true) as Hr' by done. rewrite Hr'. cbn [negb andb].
  rewrite bool_decide_true by done. rewrite build_icmp_frame_bytes, !obind_Done. cbv beta iota.
  do 2 eexists. split_and!; [done|reflexivity|reflexivity| |..].
  - rewrite <- (app_nil_r (icmp_frame _)). by rewrite parse_icmp_frame.
  - done.
  - done.
  - done.
  - done.
  - done.
  - done.
  - done.
  - apply app_nil_r.
  - unfold icmp_frame. rewrite (app_assoc (eth_bytes _ _ _)), drop_app_length' by reflexivity.
    apply icmp_bytes_verify; cbn [icmp_type icmp_code i_payload received].
    1-2: by unfold is_u8. 1: by apply Forall_app_2. unfold zlen in *; lia.
Qed.

Definition ping : IcmpPacket :=
  MkIcmp (MkMac 2 0 0 0 0 1) (MkMac 2 0 0 0 0 2) (MkIpv4 10 0 0 1) (MkIpv4 10 0 0 2) 64
    ICMP_TYPE_ECHO_REQUEST ICMP_CODE_ECHO 0 77 1 [1; 2; 3; 4]%Z.

Lemma ping_echoed_witness :
  exists request reply q,
    build_icmp_frame ping = Done request /\
    process_icmp (icmp_handler_new (MkMac 2 0 0 0 0 2) (MkIpv4 10 0 0 2)) (request ++ [0; 0]%Z)
      = Done (Some reply) /\
    parse_icmp_packet reply = Done (Some q) /\ i_payload q = [1; 2; 3; 4; 0; 0]%Z.
Proof.
  destruct (ping_echoed (icmp_handler_new (MkMac 2 0 0 0 0 2) (MkIpv4 10 0 0 2)) ping [0; 0]%Z)
    as (f & r & q & H1 & H2 & _ & H3 & _ & _ & _ & _ & _ & _ & _ & H4 & _).
  - reflexivity.
  - apply list_elem_of_singleton. reflexivity.
  - split; vm_compute; split; congruence.
  - cbn [i_payload ping]. bytes.
  - bytes.
  - vm_compute. congruence.
  - exists f, r, q. split_and!; assumption.
Defined.

(** ** Errors *)

(** An error frame: the header of a router's packet, the ICMP header, and what the
    router quotes. *)
Definition icmp_error_frame (dm sm : Mac) (tot ttl ck : Z) (router us : Ipv4Addr)
    (ty code c1 c2 x1 x2 m1 m2 : Z) (quoted : list Z) : list Z :=
  eth_bytes dm sm ETH_TYPE_IPV4 ++ icmp_ip_raw tot ttl ck router us
    ++ [ty; code; c1; c2; x1; x2; m1; m2] ++ quoted.

(** The next-hop MTU of an error. *)
Definition mtu_of (ty code m1 m2 : Z) : Z :=
  if (ty =? ICMP_TYPE_DEST_UNREACHABLE)%Z && (code =? ICMP_CODE_FRAG_NEEDED)%Z
  then of_be16 m1 m2 else 0%Z.

(** The parser on an error that quotes at least the first 28 bytes of a datagram. *)
Lemma parse_icmp_error_quoted dm sm tot ttl ck router us ty code c1 c2 x1 x2 m1 m2
    tos len qttl qck src dst sp dp ulen uck rest :
  is_error_type ty = true -> is_u16 sp -> is_u16 dp ->
  parse_icmp_error (icmp_error_frame dm sm tot ttl ck router us ty code c1 c2 x1 x2 m1 m2
    (ip4_raw tos len qttl qck src dst ++ udp_bytes sp dp ulen uck ++ rest))
  = Done (Some (MkIcmpError ty code router dst src dp sp (mtu_of ty code m1 m2))).
Proof.
  intros Ht Hs Hd. rewrite <- (of_be16_be16 sp) at 2 by done. rewrite <- (of_be16_be16 dp) at 2 by done.
  unfold udp_bytes, udp_pre. unfold be16 at 1 2.
  generalize (u8 (sp / 256)) (u8 sp) (u8 (dp / 256)) (u8 dp). intros s1 s2 d1 d2.
  destruct dm, sm, router, us, src, dst. unfold is_error_type in Ht.
  assert (ty = 3 \/ ty = 11 \/ ty = 5 \/ ty = 12)%Z as Hty.
  { unfold ICMP_TYPE_DEST_UNREACHABLE, ICMP_TYPE_TIME_EXCEEDED, ICMP_TYPE_REDIRECT,
      ICMP_TYPE_PARAMETER_PROBLEM in Ht. lia. }
  destruct Hty as [->|[->|[->| ->]]]; [|reflexivity..].
  transitivity (let! mtu := if (code =? ICMP_CODE_FRAG_NEEDED)%Z then Done (of_be16 m1 m2) else Done 0%Z in
    Done (Some (MkIcmpError 3 code (MkIpv4 oct0 oct1 oct2 oct3) (MkIpv4 oct12 oct13 oct14 oct15)
      (MkIpv4 oct8 oct9 oct10 oct11) (of_be16 d1 d2) (of_be16 s1 s2) mtu))); [reflexivity|].
  unfold mtu_of. cbn [andb Z.eqb Pos.eqb]. by destruct (code =? ICMP_CODE_FRAG_NEEDED)%Z.
Qed.

(** An error message finds its sender: an ICMP error of any kind that quotes at least the IP header
    and eight bytes of a datagram this host built is reported with exactly the
    addresses and ports of that datagram (and the next-hop MTU when fragmentation is
    needed); one that quotes a datagram of another host is dropped. *)
Theorem icmp_error_reaches_sender h dm sm tot ttl ck router us ty code c1 c2 x1 x2 m1 m2 n
    usm udm src dst sp dp payload uttl f :
  is_error_type ty = true -> is_u16 sp -> is_u16 dp -> wf_udp src dst payload ->
  (zlen payload <= 8973)%Z -> 28 <= n ->
  build_udp_frame usm udm src dst sp dp payload uttl = Done (Ok f) ->
  process_icmp_full h (icmp_error_frame dm sm tot ttl ck router us ty code c1 c2 x1 x2 m1 m2
                         (take n (drop 14 f)))
  = Done (if bool_decide (src ∈ i_local_ips h)
          then Some (ActError (MkIcmpError ty code router dst src dp sp (mtu_of ty code m1 m2)))
          else None).
Proof.
  intros Ht Hs Hd Hw Hl Hn. rewrite build_udp_frame_bytes by done. intros [= <-].
  change (drop 14 _) with (datagram 0 uttl src dst sp dp payload).
  replace n with (28 + (n - 28)) by lia. generalize (n - 28). clear n Hn. intros n.
  unfold datagram, dgram, ip4_bytes.
  match goal with |- context [take _ (?h ++ ?u ++ _)] =>
    change (take (28 + n) (h ++ u ++ payload)) with (h ++ u ++ take n payload) end.
  unfold process_icmp_full. rewrite parse_icmp_error_quoted by done.
  unfold icmp_error_frame. rewrite parse_icmp_raw, !obind_Done. cbv beta iota.
  unfold echo_answer, is_echo_request. cbn [icmp_type icmp_code i_dst_ip].
  replace (ty =? ICMP_TYPE_ECHO_REQUEST)%Z with false.
  - cbn [andb]. rewrite !obind_Done. cbv beta iota. cbn [original_src_ip]. by case_bool_decide.
  - unfold is_error_type, ICMP_TYPE_DEST_UNREACHABLE, ICMP_TYPE_TIME_EXCEEDED, ICMP_TYPE_REDIRECT,
      ICMP_TYPE_PARAMETER_PROBLEM, ICMP_TYPE_ECHO_REQUEST in *. lia.
Qed.

Lemma icmp_error_reaches_sender_witness :
  let src := MkIpv4 10 0 0 1 in let dst := MkIpv4 10 0 0 2 in
  exists f, build_udp_frame (MkMac 2 0 0 0 0 1) (MkMac 2 0 0 0 0 2) src dst 5000 53 [104; 105]%Z 64
    = Done (Ok f) /\
  process_icmp_full (icmp_handler_new (MkMac 2 0 0 0 0 1) src)
    (icmp_error_frame (MkMac 2 0 0 0 0 1) (MkMac 2 0 0 0 0 2) 56 64 0 dst src 3 3 0 0 0 0 0 0
       (take 28 (drop 14 f)))
  = Done (Some (ActError (MkIcmpError 3 3 dst dst src 53 5000 0))).
Proof.
  cbv zeta. eexists. split; [vm_compute; reflexivity|].
  erewrite (icmp_error_reaches_sender _ _ _ _ _ _ _ _ 3 3 0 0 0 0 0 0 28 (MkMac 2 0 0 0 0 1)
    (MkMac 2 0 0 0 0 2) (MkIpv4 10 0 0 1) (MkIpv4 10 0 0 2) 5000 53 [104; 105]%Z 64).
  - reflexivity.
  - reflexivity.
  - vm_compute. split; congruence.
  - vm_compute. split; congruence.
  - split_and!; [vm_compute; repeat split; congruence..|bytes|vm_compute; congruence].
  - vm_compute. congruence.
  - lia.
  - vm_compute. reflexivity.
Defined.
