(* ===== verification/Icmp6.v ===== *)
(** * ICMPv6 (dpdk-stdlib-udp/src/icmpv6.rs)

    Echo and error messages over IPv6: the counterpart of [Icmp], with the
    pseudo-header in the checksum and the extension headers walked over. *)

From stdpp Require Import base numbers list.
From Stdlib Require Import ZArith Lia.
From S2P Require Import Prelude State Buffer Checksum Codec CodecOptions CodecFrames UdpChecksum UdpFrame UdpLayout Udp6Frame.

#[local] Open Scope nat_scope.

Definition ICMPV6_TYPE_ECHO_REQUEST : Z := 128.
Definition ICMPV6_TYPE_ECHO_REPLY : Z := 129.
Definition ICMPV6_CODE_ECHO : Z := 0.
Definition ICMPV6_HEADER_LEN : nat := 8.
Definition ICMPV6_TYPE_DEST_UNREACHABLE : Z := 1.
Definition ICMPV6_TYPE_PACKET_TOO_BIG : Z := 2.
Definition ICMPV6_TYPE_TIME_EXCEEDED : Z := 3.
Definition ICMPV6_TYPE_PARAMETER_PROBLEM : Z := 4.

(** ** Packets *)

Record Icmpv6Packet := MkIcmp6 {
  j_src_mac : Mac;
  j_dst_mac : Mac;
  j_src_ip : Ipv6Addr;
  j_dst_ip : Ipv6Addr;
  j_hop_limit : Z;
  j_type : Z;
  j_code : Z;
  j_checksum : Z;
  j_identifier : Z;
  j_sequence : Z;
  j_payload : list Z }.

Definition is_echo6_request (p : Icmpv6Packet) : bool :=
  (j_type p =? ICMPV6_TYPE_ECHO_REQUEST)%Z && (j_code p =? ICMPV6_CODE_ECHO)%Z.

Definition is_echo6_reply (p : Icmpv6Packet) : bool :=
  (j_type p =? ICMPV6_TYPE_ECHO_REPLY)%Z && (j_code p =? ICMPV6_CODE_ECHO)%Z.

(** [Icmpv6Packet::make_echo_reply]. *)
Definition make_echo6_reply (p : Icmpv6Packet) (reply_src_mac : Mac) : option Icmpv6Packet :=
  if negb (is_echo6_request p) then None
  else Some (MkIcmp6 reply_src_mac (j_src_mac p) (j_dst_ip p) (j_src_ip p) 64
               ICMPV6_TYPE_ECHO_REPLY ICMPV6_CODE_ECHO 0 (j_identifier p) (j_sequence p)
               (j_payload p)).

(** ** Checksum *)

(** The message loop: 16-bit words, the one at index 2 skipped. *)
Fixpoint message_words (i : nat) (sum : Z) (l : list Z) : Z :=
  match l with
  | a :: b :: r =>
      message_words (i + 2) (if i =? 2 then sum else wadd32 sum (Z.lor (Z.shiftl a 8) b)) r
  | [a] => if i =? 2 then sum else wadd32 sum (Z.shiftl a 8)
  | [] => sum
  end.

(** [icmpv6_checksum]. *)
Definition icmpv6_checksum (src_ip dst_ip : Ipv6Addr) (icmp_data : list Z) : outcome Z :=
  let sum := add_words 0 (octets6 src_ip) in
  let sum := add_words sum (octets6 dst_ip) in
  let icmp_len := u32 (zlen icmp_data) in
  let sum := wadd32 sum (Z.shiftr icmp_len 16) in
  let sum := wadd32 sum (Z.land icmp_len 65535) in
  let sum := wadd32 sum IP_PROTO_ICMPV6 in
  let sum := message_words 0 sum icmp_data in
  finish_checksum sum.

(** ** Parsing *)

(** What both parsers do first: the offset of the network header and that of the
    ICMPv6 message, behind any extension headers. *)
Definition find_icmp6 (frame : list Z) : outcome (option (nat * nat)) :=
  let! layout := detect_vlan frame None in
  match layout with
  | None => Done None
  | Some layout =>
      let l3 := l3_offset layout in
      if negb (ethertype layout =? ETH_TYPE_IPV6)%Z then Done None
      else if length frame <? l3 + IPV6_HEADER_LEN then Done None
      else
        let! b0 := idx frame l3 in
        if negb (Z.shiftr b0 4 =? 6)%Z then Done None
        else
          let! data := slice_from frame l3 in
          let! nh := walk_extension_headers data in
          match nh with
          | None => Done None
          | Some nh =>
              if negb (protocol nh =? IP_PROTO_ICMPV6)%Z then Done None
              else
                let icmp_start := l3 + payload_offset nh in
                if length frame <? icmp_start + ICMPV6_HEADER_LEN then Done None
                else Done (Some (l3, icmp_start))
          end
  end.

(** [parse_icmpv6_packet]. *)
Definition parse_icmpv6_packet (frame : list Z) : outcome (option Icmpv6Packet) :=
  let! found := find_icmp6 frame in
  match found with
  | None => Done None
  | Some (l3, icmp_start) =>
      let! ty := idx frame icmp_start in
      let! code := idx frame (icmp_start + 1) in
      if negb (ty =? ICMPV6_TYPE_ECHO_REQUEST)%Z && negb (ty =? ICMPV6_TYPE_ECHO_REPLY)%Z
      then Done None
      else
        let! dmac := slice frame 0 6 in
        match to_mac dmac with
        | None => Done None
        | Some dst_mac =>
            let! smac := slice frame 6 12 in
            match to_mac smac with
            | None => Done None
            | Some src_mac =>
                let! src := slice frame (l3 + 8) (l3 + 24) in
                let! dst := slice frame (l3 + 24) (l3 + 40) in
                let! hop_limit := idx frame (l3 + 7) in
                let! checksum := read16 frame (icmp_start + 2) in
                let! identifier := read16 frame (icmp_start + 4) in
                let! sequence := read16 frame (icmp_start + 6) in
                let! payload :=
                  if icmp_start + ICMPV6_HEADER_LEN <? length frame
                  then slice_from frame (icmp_start + ICMPV6_HEADER_LEN) else Done [] in
                Done (Some (MkIcmp6 src_mac dst_mac (of_octets6 src) (of_octets6 dst) hop_limit ty code
                              checksum identifier sequence payload))
            end
        end
  end.

(** ** Building *)

(** [build_icmpv6_frame]; its stores into the IPv6 header are those of
    [write_ipv6_header]. *)
Definition build_icmpv6_frame (p : Icmpv6Packet) : outcome (list Z) :=
  let icmp_len := ICMPV6_HEADER_LEN + length (j_payload p) in
  let total_len := ETH_HEADER_LEN + IPV6_HEADER_LEN + icmp_len in
  let frame := replicate total_len 0%Z in
  let! frame := put_eth frame 0 (j_dst_mac p) (j_src_mac p) ETH_TYPE_IPV6 in
  let! frame := write_ipv6_header frame ETH_HEADER_LEN (j_src_ip p) (j_dst_ip p)
                  (u16 (Z.of_nat icmp_len)) IP_PROTO_ICMPV6 (j_hop_limit p) in
  let icmp := ETH_HEADER_LEN + IPV6_HEADER_LEN in
  let! frame := store frame icmp (j_type p) in
  let! frame := store frame (icmp + 1) (j_code p) in
  let! frame := blit frame (icmp + 4) (icmp + 6) (be16 (j_identifier p)) in
  let! frame := blit frame (icmp + 6) (icmp + 8) (be16 (j_sequence p)) in
  let! frame := match j_payload p with
                | [] => Done frame
                | _ :: _ => blit frame (icmp + ICMPV6_HEADER_LEN) (length frame) (j_payload p)
                end in
  let! message := slice_from frame icmp in
  let! cksum := icmpv6_checksum (j_src_ip p) (j_dst_ip p) message in
  blit frame (icmp + 2) (icmp + 4) (be16 cksum).

(** [build_echo6_request]. *)
Definition build_echo6_request (src_mac dst_mac : Mac) (src_ip dst_ip : Ipv6Addr)
    (identifier sequence : Z) (payload : list Z) : outcome (list Z) :=
  build_icmpv6_frame (MkIcmp6 src_mac dst_mac src_ip dst_ip 64 ICMPV6_TYPE_ECHO_REQUEST
                        ICMPV6_CODE_ECHO 0 identifier sequence payload).

(** ** Errors *)

Record Icmpv6ErrorInfo := MkIcmp6Error {
  y_type : Z;
  y_code : Z;
  error_source6 : Ipv6Addr;
  original_dst_ip6 : Ipv6Addr;
  original_src_ip6 : Ipv6Addr;
  original_dst_port6 : Z;
  original_src_port6 : Z;
  mtu6 : Z }.

(** [Icmpv6ErrorInfo::to_io_error], the kind. *)
Definition to_io_error6 (e : Icmpv6ErrorInfo) : ErrorKind :=
  match y_type e, y_code e with
  | 1%Z, 0%Z => KOther
  | 1%Z, 1%Z => KPermissionDenied
  | 1%Z, 2%Z | 1%Z, 3%Z => KOther
  | 1%Z, 4%Z => KConnectionRefused
  | 1%Z, _ => KOther
  | 2%Z, _ => KOther
  | 3%Z, 0%Z | 3%Z, 1%Z => KTimedOut
  | 4%Z, _ => KInvalidData
  | _, _ => KOther
  end.

Definition is_error6_type (t : Z) : bool :=
  (t =? ICMPV6_TYPE_DEST_UNREACHABLE)%Z || (t =? ICMPV6_TYPE_PACKET_TOO_BIG)%Z
  || (t =? ICMPV6_TYPE_TIME_EXCEEDED)%Z || (t =? ICMPV6_TYPE_PARAMETER_PROBLEM)%Z.

(** Big-endian 32-bit field at [i]. *)
Definition read32 (l : list Z) (i : nat) : outcome Z :=
  let! a := idx l i in
  let! b := idx l (i + 1) in
  let! c := idx l (i + 2) in
  let! d := idx l (i + 3) in
  Done (of_be32 a b c d).

(** [parse_icmpv6_error]. *)
Definition parse_icmpv6_error (frame : list Z) : outcome (option Icmpv6ErrorInfo) :=
  let! found := find_icmp6 frame in
  match found with
  | None => Done None
  | Some (l3, icmp_start) =>
      let! ty := idx frame icmp_start in
      let! code := idx frame (icmp_start + 1) in
      if negb (is_error6_type ty) then Done None
      else
        let! mtu := if (ty =? ICMPV6_TYPE_PACKET_TOO_BIG)%Z then read32 frame (icmp_start + 4)
                    else Done 0%Z in
        let orig_pkt_start := icmp_start + ICMPV6_HEADER_LEN in
        if length frame <? orig_pkt_start + IPV6_HEADER_LEN + UDP_HEADER_LEN then Done None
        else
          let! orig_ipv6 := slice_from frame orig_pkt_start in
          let! o0 := idx orig_ipv6 0 in
          if negb (Z.shiftr o0 4 =? 6)%Z then Done None
          else
            let! src := slice orig_ipv6 8 24 in
            let! dst := slice orig_ipv6 24 40 in
            let! remaining := slice_from frame orig_pkt_start in
            let! orig_nh := walk_extension_headers remaining in
            match orig_nh with
            | None => Done None
            | Some orig_nh =>
                if negb (protocol orig_nh =? IP_PROTO_UDP)%Z then Done None
                else
                  let orig_udp_start := orig_pkt_start + payload_offset orig_nh in
                  if length frame <? orig_udp_start + 4 then Done None
                  else
                    let! original_src_port := read16 frame orig_udp_start in
                    let! original_dst_port := read16 frame (orig_udp_start + 2) in
                    let! error_source := slice frame (l3 + 8) (l3 + 24) in
                    Done (Some (MkIcmp6Error ty code (of_octets6 error_source) (of_octets6 dst)
                                  (of_octets6 src) original_dst_port original_src_port mtu))
            end
  end.

(** ** The handler *)

Inductive Icmpv6Action : Type :=
| ActReply6 (frame : list Z)
| ActError6 (info : Icmpv6ErrorInfo).

Record Icmpv6Handler := MkIcmp6Handler { j_local_mac : Mac; j_local_ips : list Ipv6Addr }.

(** [Icmpv6Handler::new] and [add_local_ip]. *)
Definition icmp6_handler_new (mac : Mac) (ip : Ipv6Addr) : Icmpv6Handler := MkIcmp6Handler mac [ip].

Definition icmp6_add_local_ip (h : Icmpv6Handler) (ip : Ipv6Addr) : Icmpv6Handler :=
  if existsb (Z.eqb ip) (j_local_ips h) then h
  else MkIcmp6Handler (j_local_mac h) (j_local_ips h ++ [ip]).

(** The reply to a parsed packet, when it is an echo request for us. *)
Definition echo6_answer (h : Icmpv6Handler) (p : Icmpv6Packet) : outcome (option (list Z)) :=
  if is_echo6_request p && existsb (Z.eqb (j_dst_ip p)) (j_local_ips h) then
    match make_echo6_reply p (j_local_mac h) with
    | None => Done None
    | Some reply => let! f := build_icmpv6_frame reply in Done (Some f)
    end
  else Done None.

(** [Icmpv6Handler::process_icmpv6]. *)
Definition process_icmpv6 (h : Icmpv6Handler) (frame : list Z) : outcome (option (list Z)) :=
  let! packet := parse_icmpv6_packet frame in
  match packet with
  | None => Done None
  | Some p => echo6_answer h p
  end.

(** [Icmpv6Handler::process_icmpv6_full]. *)
Definition process_icmpv6_full (h : Icmpv6Handler) (frame : list Z) : outcome (option Icmpv6Action) :=
  let! packet := parse_icmpv6_packet frame in
  let! reply := match packet with None => Done None | Some p => echo6_answer h p end in
  match reply with
  | Some f => Done (Some (ActReply6 f))
  | None =>
      let! err := parse_icmpv6_error frame in
      match err with
      | Some info =>
          if existsb (Z.eqb (original_src_ip6 info)) (j_local_ips h) then Done (Some (ActError6 info))
          else Done None
      | None => Done None
      end
  end.

(** ** The checksum *)

Lemma message_words_rest l : forall i sum, 2 < i -> message_words i sum l = add_words sum l.
Proof.
  induction l as [|a|a b r IH] using pair_ind; intros i sum Hi; cbn [message_words add_words];
    rewrite ?(proj2 (Nat.eqb_neq i 2)) by lia; [done..|]. apply IH. lia.
Qed.

Lemma message_words_skip sum a b c d r :
  message_words 0 sum (a :: b :: c :: d :: r) = add_words (wadd32 sum (Z.lor (Z.shiftl a 8) b)) r.
Proof. cbn [message_words Nat.eqb Nat.add]. apply message_words_rest. lia. Qed.

(** The sum of the pseudo-header and the message without its checksum. *)
Definition icmp6_sum (src dst : Ipv6Addr) (a b : Z) (r : list Z) : Z :=
  word_sum (octets6 src) + word_sum (octets6 dst) + (4 + zlen r) + 58 + (a * 256 + b) + word_sum r.

Lemma octets6_sum a : (0 <= word_sum (octets6 a) <= 65535 * 8)%Z.
Proof. apply (word_sum_small _ 16); [apply be_bytes_u8|apply length_be_bytes|lia]. Qed.

Lemma length_octets6 a : length (octets6 a) = 16.
Proof. apply length_be_bytes. Qed.

(** The checksum exists, is not zero, and makes the message sum to zero with its
    pseudo-header. *)
Lemma icmpv6_checksum_spec src dst a b c d r :
  is_u8 a -> is_u8 b -> Forall is_u8 r -> (zlen r <= 65531)%Z ->
  exists k, icmpv6_checksum src dst (a :: b :: c :: d :: r) = Done k /\ (1 <= k <= 65535)%Z /\
    ((icmp6_sum src dst a b r + k) mod 65535 = 0)%Z.
Proof.
  intros Ha Hb Hr Hl. pose proof (octets6_sum src). pose proof (octets6_sum dst).
  pose proof (word_sum_bounds r Hr) as Hw. pose proof (zlen_nonneg r).
  assert (((zlen r + 1) / 2 <= 32766)%Z) by mod_lia.
  unfold icmpv6_checksum, IP_PROTO_ICMPV6. rewrite message_words_skip.
  replace (zlen (a :: b :: c :: d :: r)) with (4 + zlen r)%Z by (unfold zlen; cbn [length]; lia).
  rewrite (u32_small (4 + zlen r)) by (unfold is_u32; lia).
  rewrite (Z.shiftr_div_pow2 _ 16) by lia. change 65535%Z with (Z.ones 16) at 1.
  rewrite Z.land_ones by lia. change (2 ^ 16)%Z with 65536%Z.
  rewrite (Z.div_small (4 + _)), (Z.mod_small (4 + _)) by lia.
  rewrite (add_words_sum (octets6 src)) by (try apply be_bytes_u8; lia). rewrite Z.add_0_l.
  rewrite (add_words_sum (octets6 dst)) by (try apply be_bytes_u8; lia).
  rewrite lor_shiftl8 by done. unfold is_u8 in Ha, Hb.
  set (S := (word_sum (octets6 src) + word_sum (octets6 dst))%Z) in *.
  unfold wadd32. rewrite Z.add_0_r, (u32_small S), (u32_small (S + _)) by (unfold is_u32; lia).
  rewrite (u32_small (_ + 58)), (u32_small (_ + (_ + b))) by (unfold is_u32; lia).
  rewrite add_words_sum by (done || lia).
  subst S. change (word_sum (octets6 src) + word_sum (octets6 dst) + (4 + zlen r) + 58 + (a * 256 + b)
    + word_sum r)%Z with (icmp6_sum src dst a b r).
  apply finish_spec; unfold is_u32, icmp6_sum; lia.
Qed.

(** ** Layout *)

Definition msg6 (ty code cksum id seq : Z) (payload : list Z) : list Z :=
  [ty; code]%Z ++ be16 cksum ++ be16 id ++ be16 seq ++ payload.

Definition cksum6_of (src dst : Ipv6Addr) (msg : list Z) : Z :=
  match icmpv6_checksum src dst msg with Done c => c | _ => 0%Z end.

(** The message with its checksum. *)
Definition icmp6_bytes (p : Icmpv6Packet) : list Z :=
  msg6 (j_type p) (j_code p)
    (cksum6_of (j_src_ip p) (j_dst_ip p)
       (msg6 (j_type p) (j_code p) 0 (j_identifier p) (j_sequence p) (j_payload p)))
    (j_identifier p) (j_sequence p) (j_payload p).

Definition icmp6_frame (p : Icmpv6Packet) : list Z :=
  eth_bytes (j_dst_mac p) (j_src_mac p) ETH_TYPE_IPV6
    ++ ip6_bytes (u16 (Z.of_nat (8 + length (j_payload p)))) IP_PROTO_ICMPV6 (j_hop_limit p)
         (j_src_ip p) (j_dst_ip p)
    ++ icmp6_bytes p.

Record wf_icmp6 (p : Icmpv6Packet) : Prop := {
  wf6_src : is_u128 (j_src_ip p);
  wf6_dst : is_u128 (j_dst_ip p);
  wf6_type : is_u8 (j_type p);
  wf6_code : is_u8 (j_code p);
  wf6_id : is_u16 (j_identifier p);
  wf6_seq : is_u16 (j_sequence p);
  wf6_payload : Forall is_u8 (j_payload p);
  wf6_len : (zlen (j_payload p) <= 65527)%Z }.

Lemma cksum6_of_spec p :
  wf_icmp6 p ->
  let m := msg6 (j_type p) (j_code p) 0 (j_identifier p) (j_sequence p) (j_payload p) in
  icmpv6_checksum (j_src_ip p) (j_dst_ip p) m = Done (cksum6_of (j_src_ip p) (j_dst_ip p) m) /\
  (1 <= cksum6_of (j_src_ip p) (j_dst_ip p) m <= 65535)%Z /\
  ((icmp6_sum (j_src_ip p) (j_dst_ip p) (j_type p) (j_code p)
      (be16 (j_identifier p) ++ be16 (j_sequence p) ++ j_payload p)
    + cksum6_of (j_src_ip p) (j_dst_ip p) m) mod 65535 = 0)%Z.
Proof.
  intros [Hs Hd Ht Hc Hi Hq Hp Hl] m. unfold cksum6_of, m, msg6. cbn [app be16].
  destruct (icmpv6_checksum_spec (j_src_ip p) (j_dst_ip p) (j_type p) (j_code p) (u8 (0 / 256)) (u8 0)
    (be16 (j_identifier p) ++ be16 (j_sequence p) ++ j_payload p)) as (k & E & Hk & Hm);
    [done|done|bytes|rewrite !zlen_app; unfold zlen in *; cbn; lia|].
  cbn [app be16] in E. rewrite E. split_and!; [done|lia..|done].
Qed.

Lemma build_icmpv6_frame_bytes p : wf_icmp6 p -> build_icmpv6_frame p = Done (icmp6_frame p).
Proof.
  intros Hw. unfold build_icmpv6_frame, ETH_HEADER_LEN, IPV6_HEADER_LEN, ICMPV6_HEADER_LEN.
  set (n := length (j_payload p)). set (t := replicate _ 0%Z).
  assert (length t = 62 + n) as Ht by (subst t; by rewrite length_replicate).
  rewrite <- (app_nil_l t). rewrite put_eth_next, obind_Done by (done || lia). cbv beta.
  rewrite write_ipv6_next, obind_Done by (rewrite ?length_drop; cbn; lia). cbv beta.
  rewrite app_nil_l, drop_drop. change (drop (14 + 40) t) with (repeat 0%Z 8 ++ replicate n 0%Z).
  match goal with |- context [store (?d ++ _) _ _] => set (H := d) end.
  assert (length H = 54) as HH by (unfold H; reflexivity). clear Ht t. cbn [repeat].
  rewrite <- !app_comm_cons, app_nil_l.
  do 2 put_next. cbn [drop].
  match goal with |- context [blit (?d ++ _ :: _ :: ?t) _ _ _] =>
    replace (d ++ _ :: _ :: t) with ((d ++ [0; 0]%Z) ++ t) by (by rewrite <- app_assoc) end.
  do 2 put_next. cbn [drop be16 length Nat.add]. rewrite ?drop_0.
  match goal with |- context [blit ?f 62 (length ?f) _] =>
    assert (length f = 62 + n) as Hf by (rewrite !length_app, length_replicate; cbn; lia);
    rewrite Hf, guarded_blit by lia end.
  rewrite blit_next by (rewrite ?length_app, ?length_replicate; cbn; lia).
  rewrite obind_Done. cbv beta. rewrite drop_ge, app_nil_r by (rewrite length_replicate; lia).
  match goal with |- context [slice_from ?f 54] =>
    replace f with (H ++ msg6 (j_type p) (j_code p) 0 (j_identifier p) (j_sequence p) (j_payload p))
      by (unfold msg6; rewrite <- !app_assoc; reflexivity) end.
  rewrite slice_from_done by (rewrite length_app; lia). rewrite obind_Done. cbv beta.
  rewrite drop_app_length' by done. destruct (cksum6_of_spec p Hw) as (E & _). cbv zeta in E.
  rewrite E, obind_Done. cbv beta. unfold icmp6_frame, icmp6_bytes. set (c := cksum6_of _ _ _).
  unfold msg6. rewrite (app_assoc H), (blit_mid (H ++ [j_type p; j_code p]) (be16 0))
    by (rewrite ?length_app; cbn; lia). subst H. by rewrite <- !app_assoc.
Qed.

(** ** Parsing *)

(** An option-free IPv6 header with the 16 octets of its addresses, and a message. *)
Definition raw6 (dm sm : Mac) (len nh hop : Z) (src dst msg : list Z) : list Z :=
  eth_bytes dm sm ETH_TYPE_IPV6 ++ ([96; 0; 0; 0]%Z ++ be16 len ++ [nh; hop] ++ src ++ dst) ++ msg.

(** Splits a list of sixteen bytes. *)
Ltac explode16 l H :=
  do 16 (destruct l as [|? l]; [discriminate H|]); destruct l; [clear H|discriminate H].

Lemma parse_icmp6_raw dm sm len hop src dst ty code c1 c2 i1 i2 s1 s2 tail :
  length src = 16 -> length dst = 16 -> ty = ICMPV6_TYPE_ECHO_REQUEST \/ ty = ICMPV6_TYPE_ECHO_REPLY ->
  parse_icmpv6_packet (raw6 dm sm len IP_PROTO_ICMPV6 hop src dst ([ty; code; c1; c2; i1; i2; s1; s2] ++ tail))
  = Done (Some (MkIcmp6 sm dm (of_octets6 src) (of_octets6 dst) hop ty code (of_be16 c1 c2)
                  (of_be16 i1 i2) (of_be16 s1 s2) tail)).
Proof.
  intros Hs Hd Ht. explode16 src Hs. explode16 dst Hd.
  destruct dm, sm, Ht as [->| ->], tail as [|x tail]; reflexivity.
Qed.

(** The packet a receiver makes of a frame, padding included. *)
Definition received6 (p : Icmpv6Packet) (pad : list Z) : Icmpv6Packet :=
  MkIcmp6 (j_src_mac p) (j_dst_mac p) (j_src_ip p) (j_dst_ip p) (j_hop_limit p) (j_type p) (j_code p)
    (cksum6_of (j_src_ip p) (j_dst_ip p)
       (msg6 (j_type p) (j_code p) 0 (j_identifier p) (j_sequence p) (j_payload p)))
    (j_identifier p) (j_sequence p) (j_payload p ++ pad).

Lemma parse_icmp6_frame p pad :
  wf_icmp6 p -> j_type p = ICMPV6_TYPE_ECHO_REQUEST \/ j_type p = ICMPV6_TYPE_ECHO_REPLY ->
  parse_icmpv6_packet (icmp6_frame p ++ pad) = Done (Some (received6 p pad)).
Proof.
  intros Hw Ht. destruct (cksum6_of_spec p Hw) as (_ & Hc & _). cbv zeta in Hc.
  unfold icmp6_frame, icmp6_bytes, received6. set (c := cksum6_of _ _ _) in *. clearbody c.
  match goal with |- parse_icmpv6_packet ?f = _ =>
    replace f with (raw6 (j_dst_mac p) (j_src_mac p) (u16 (Z.of_nat (8 + length (j_payload p))))
      IP_PROTO_ICMPV6 (j_hop_limit p) (octets6 (j_src_ip p)) (octets6 (j_dst_ip p))
      ([j_type p; j_code p; u8 (c / 256); u8 c; u8 (j_identifier p / 256); u8 (j_identifier p);
        u8 (j_sequence p / 256); u8 (j_sequence p)] ++ j_payload p ++ pad))
    by (unfold raw6, msg6, ip6_bytes, be16; by rewrite <- !app_assoc) end.
  rewrite parse_icmp6_raw by (done || apply length_octets6).
  destruct Hw. rewrite !of_be16_be16 by (done || unfold is_u16; lia).
  by rewrite !of_octets6_octets6.
Qed.

(** The parsers never panic. *)
Lemma find_icmp6_total frame :
  exists r, find_icmp6 frame = Done r /\
    forall l3 i, r = Some (l3, i) -> l3 + 40 <= length frame /\ l3 + 40 <= i /\ i + 8 <= length frame /\ 14 <= l3.
Proof.
  unfold find_icmp6, IPV6_HEADER_LEN, ICMPV6_HEADER_LEN.
  destruct (detect_vlan_total frame None) as (r & -> & Hr). rewrite obind_Done. cbv beta.
  destruct r as [l|]; [|by exists None]. specialize (Hr l eq_refl). cbv zeta.
  repeat parse_step; try by exists None.
  match goal with |- context [walk_extension_headers ?d] =>
    destruct (walk_total d) as ([nh|] & -> & Hw) end; rewrite obind_Done; cbv beta iota zeta;
    [|by exists None]. specialize (Hw nh eq_refl).
  repeat parse_step; try by exists None. eexists. split; [reflexivity|]. intros ? ? [= <- <-]. lia.
Qed.

Lemma parse_icmp6_total frame : exists r, parse_icmpv6_packet frame = Done r.
Proof.
  unfold parse_icmpv6_packet. destruct (find_icmp6_total frame) as (r & -> & Hr).
  rewrite obind_Done. cbv beta. destruct r as [[l3 i]|]; [|by eauto].
  destruct (Hr _ _ eq_refl) as (? & ? & ? & ?). unfold ICMPV6_HEADER_LEN. repeat parse_step; eauto.
Qed.

Lemma read32_total l i : i + 3 < length l -> exists z, read32 l i = Done z.
Proof. intros H. unfold read32. idx_total. eauto. Qed.

Lemma parse_icmp6_error_total frame : exists r, parse_icmpv6_error frame = Done r.
Proof.
  unfold parse_icmpv6_error. destruct (find_icmp6_total frame) as (r & -> & Hr).
  rewrite obind_Done. cbv beta. destruct r as [[l3 i]|]; [|by eauto].
  destruct (Hr _ _ eq_refl) as (? & ? & ? & ?).
  unfold IPV6_HEADER_LEN, ICMPV6_HEADER_LEN, UDP_HEADER_LEN.
  destruct (idx_in_range frame i) as (ty & _ & ->); [lia|]. cbn [obind].
  destruct (idx_in_range frame (i + 1)) as (code & _ & ->); [lia|]. cbn [obind].
  destruct (is_error6_type ty); cbn [negb]; [|by eauto].
  assert (exists m, (if (ty =? ICMPV6_TYPE_PACKET_TOO_BIG)%Z then read32 frame (i + 4) else Done 0%Z) = Done m)
    as [m ->] by (bcase; [apply read32_total; lia|eauto]).
  rewrite obind_Done. cbv beta zeta. repeat parse_step; eauto.
  match goal with |- context [walk_extension_headers ?d] =>
    destruct (walk_total d) as ([nh|] & -> & Hw) end; rewrite obind_Done; cbv beta iota zeta; [|by eauto].
  repeat parse_step; eauto.
Qed.

(** ** Echo and errors *)

Lemma existsb_eqb x l : existsb (Z.eqb x) l = true <-> x ∈ l.
Proof.
  rewrite existsb_exists. split.
  - intros (y & Hy & ->%Z.eqb_eq). by apply list_elem_of_In.
  - intros H. exists x. split; [by apply list_elem_of_In|apply Z.eqb_refl].
Qed.

(** A ping over IPv6 is echoed, and the checksum of the reply is that of RFC 4443: the
    message and its pseudo-header sum to zero. *)
Theorem ping6_echoed h p pad :
  is_echo6_request p = true -> j_dst_ip p ∈ j_local_ips h -> wf_icmp6 p ->
  Forall is_u8 pad -> (zlen (j_payload p ++ pad) <= 65527)%Z ->
  exists request reply q,
    build_icmpv6_frame p = Done request /\
    process_icmpv6 h (request ++ pad) = Done (Some reply) /\
    process_icmpv6_full h (request ++ pad) = Done (Some (ActReply6 reply)) /\
    parse_icmpv6_packet reply = Done (Some q) /\ is_echo6_reply q = true /\
    j_src_mac q = j_local_mac h /\ j_dst_mac q = j_src_mac p /\
    j_src_ip q = j_dst_ip p /\ j_dst_ip q = j_src_ip p /\
    j_identifier q = j_identifier p /\ j_sequence q = j_sequence p /\ j_payload q = j_payload p ++ pad /\
    ((icmp6_sum (j_src_ip q) (j_dst_ip q) (j_type q) (j_code q)
        (be16 (j_identifier q) ++ be16 (j_sequence q) ++ j_payload q) + j_checksum q) mod 65535 = 0)%Z.
Proof.
  intros Hr Hip Hw Hpad Hl. exists (icmp6_frame p). unfold process_icmpv6_full, process_icmpv6.
  assert (j_type p = ICMPV6_TYPE_ECHO_REQUEST) as Ht.
  { unfold is_echo6_request in Hr. apply andb_true_iff in Hr as [Hr _]. by apply Z.eqb_eq. }
  rewrite build_icmpv6_frame_bytes, parse_icmp6_frame by auto. rewrite !obind_Done. cbv beta iota.
  unfold echo6_answer, make_echo6_reply.
  assert (is_echo6_request (received6 p pad) = true) as Hr' by done. rewrite Hr'. cbn [negb andb].
  rewrite (proj2 (existsb_eqb _ _)) by done.
  set (r := MkIcmp6 _ _ _ _ _ _ _ _ _ _ _).
  assert (wf_icmp6 r) as Hwr.
  { destruct Hw. subst r. split; cbn [received6 j_src_ip j_dst_ip j_type j_code j_identifier j_sequence
      j_payload]; try done. by apply Forall_app_2. }
  rewrite build_icmpv6_frame_bytes, !obind_Done by done. cbv beta iota.
  exists (icmp6_frame r), (received6 r []). split_and!; try done.
  - rewrite <- (app_nil_r (icmp6_frame r)). apply parse_icmp6_frame; [done|by right].
  - apply app_nil_r.
  - destruct (cksum6_of_spec r Hwr) as (_ & _ & Hs). cbn [received6 j_payload]. by rewrite app_nil_r.
Qed.

(** The MTU of an error. *)
Definition mtu6_of (ty x1 x2 x3 x4 : Z) : Z :=
  if (ty =? ICMPV6_TYPE_PACKET_TOO_BIG)%Z then of_be32 x1 x2 x3 x4 else 0%Z.

Lemma parse_icmp6_error_raw dm sm len hop router us ty code c1 c2 x1 x2 x3 x4 qlen qhop src dst s1 s2 d1 d2
    l1 l2 k1 k2 rest :
  length router = 16 -> length us = 16 -> length src = 16 -> length dst = 16 -> is_error6_type ty = true ->
  parse_icmpv6_error (raw6 dm sm len IP_PROTO_ICMPV6 hop router us
    ([ty; code; c1; c2; x1; x2; x3; x4]
       ++ ([96; 0; 0; 0]%Z ++ be16 qlen ++ [IP_PROTO_UDP; qhop] ++ src ++ dst)
       ++ [s1; s2; d1; d2; l1; l2; k1; k2] ++ rest))
  = Done (Some (MkIcmp6Error ty code (of_octets6 router) (of_octets6 dst) (of_octets6 src)
                  (of_be16 d1 d2) (of_be16 s1 s2) (mtu6_of ty x1 x2 x3 x4))).
Proof.
  intros Hr Hu Hs Hd Ht. explode16 router Hr. explode16 us Hu. explode16 src Hs. explode16 dst Hd.
  destruct dm, sm. unfold is_error6_type, ICMPV6_TYPE_DEST_UNREACHABLE, ICMPV6_TYPE_PACKET_TOO_BIG,
    ICMPV6_TYPE_TIME_EXCEEDED, ICMPV6_TYPE_PARAMETER_PROBLEM in Ht.
  assert (ty = 1 \/ ty = 2 \/ ty = 3 \/ ty = 4)%Z as [->|[->|[->| ->]]] by lia; reflexivity.
Qed.

(** An ICMPv6 error that quotes a datagram this host built is reported with exactly
    its addresses and ports (and the MTU when the packet was too big); one that quotes a
    datagram of another host is dropped. *)
Theorem icmp6_error_reaches_sender h dm sm len hop router us ty code c1 c2 x1 x2 x3 x4 n
    usm udm src dst sp dp payload uhop f :
  is_error6_type ty = true -> is_u16 sp -> is_u16 dp -> wf_udp6 src dst payload ->
  (zlen payload <= 8953)%Z -> is_u128 router -> is_u128 us -> 48 <= n ->
  build_udp6_frame usm udm src dst sp dp payload uhop = Done (Ok f) ->
  process_icmpv6_full h
    (raw6 dm sm len IP_PROTO_ICMPV6 hop (octets6 router) (octets6 us)
       ([ty; code; c1; c2; x1; x2; x3; x4] ++ take n (drop 14 f)))
  = Done (if existsb (Z.eqb src) (j_local_ips h)
          then Some (ActError6 (MkIcmp6Error ty code router dst src dp sp (mtu6_of ty x1 x2 x3 x4)))
          else None).
Proof.
  intros Ht Hs Hd Hw Hl Hr Hu Hn. unfold build_udp6_frame, too_large6, MAX_FRAME_SIZE_V6.
  change (14 + 9001 - Z.of_nat TOTAL_HEADER_LEN_V6)%Z with 8953%Z.
  rewrite (proj2 (Z.ltb_ge _ _)) by lia.
  rewrite put_udp6_frame_layout by (rewrite ?length_replicate; done). rewrite obind_Done. intros [= <-].
  change (drop 14 _) with (datagram6 uhop src dst sp dp payload).
  replace n with (48 + (n - 48)) by lia. generalize (n - 48). clear n Hn. intros n.
  unfold datagram6, udp_bytes, udp_pre, ip6_bytes. generalize (u6cksum_of (octets6 src) (octets6 dst)
    ((be16 sp ++ be16 dp ++ be16 (udp_len payload)) ++ be16 0) payload). intros k.
  match goal with |- context [take (48 + n) ?l] =>
    change (take (48 + n) l) with
      (([96; 0; 0; 0]%Z ++ be16 (udp_len payload) ++ [IP_PROTO_UDP; uhop] ++ octets6 src ++ octets6 dst)
       ++ [u8 (sp / 256); u8 sp; u8 (dp / 256); u8 dp; u8 (udp_len payload / 256);
           u8 (udp_len payload); u8 (k / 256); u8 k] ++ take n payload) end.
  unfold process_icmpv6_full. rewrite parse_icmp6_error_raw by (done || apply length_octets6).
  destruct Hw as (H6s & H6d & _). rewrite !of_octets6_octets6, !of_be16_be16 by done.
  match goal with |- context [parse_icmpv6_packet ?fr] =>
    assert (parse_icmpv6_packet fr = Done None) as -> end.
  { unfold is_error6_type, ICMPV6_TYPE_DEST_UNREACHABLE, ICMPV6_TYPE_PACKET_TOO_BIG,
      ICMPV6_TYPE_TIME_EXCEEDED, ICMPV6_TYPE_PARAMETER_PROBLEM in Ht.
    assert (ty = 1 \/ ty = 2 \/ ty = 3 \/ ty = 4)%Z as [->|[->|[->| ->]]] by lia; reflexivity. }
  rewrite !obind_Done. cbv beta iota. cbn [original_src_ip6]. by destruct (existsb _ _).
Qed.
