(* ===== verification/Ndp.v ===== *)
(** * Neighbour discovery (dpdk-stdlib-udp/src/ndp.rs, ipv6_addr.rs)

    Neighbour solicitations and advertisements, their option list, and the handler
    that answers and learns; the cache is [NdpCache] of [NeighborCache]. *)

From stdpp Require Import base numbers list gmap.
From Stdlib Require Import ZArith Lia.
From S2P Require Import Prelude State Buffer Checksum Codec CodecOptions CodecFrames UdpChecksum UdpFrame UdpLayout Udp6Frame Icmp6 Routing NeighborCache.

#[local] Open Scope nat_scope.

(** ** Addresses *)

(** [addr.octets()[i]]. *)
Definition octet6 (a : Ipv6Addr) (i : nat) : Z := nth i (octets6 a) 0%Z.

(** [Ipv6Addr::new] of eight 16-bit segments. *)
Definition ipv6_new (segments : list Z) : Ipv6Addr := fold_left (fun acc s => acc * 65536 + s)%Z segments 0%Z.

(** [is_link_local]. *)
Definition is_link_local (a : Ipv6Addr) : bool :=
  (octet6 a 0 =? 254)%Z && (Z.land (octet6 a 1) 192 =? 128)%Z.

(** [solicited_node_multicast_addr]. *)
Definition solicited_node_multicast_addr (a : Ipv6Addr) : Ipv6Addr :=
  ipv6_new [65282; 0; 0; 0; 0; 1; Z.lor 65280 (octet6 a 13);
            Z.lor (Z.shiftl (octet6 a 14) 8) (octet6 a 15)]%Z.

(** [solicited_node_multicast_mac] and [ipv6_multicast_mac]. *)
Definition solicited_node_multicast_mac (a : Ipv6Addr) : Mac :=
  MkMac 51 51 255 (octet6 a 13) (octet6 a 14) (octet6 a 15).

Definition ipv6_multicast_mac (a : Ipv6Addr) : Mac :=
  MkMac 51 51 (octet6 a 12) (octet6 a 13) (octet6 a 14) (octet6 a 15).

(** [ff02::1]. *)
Definition ALL_NODES : Ipv6Addr := ipv6_new [65282; 0; 0; 0; 0; 0; 0; 1]%Z.

(** ** Messages *)

Definition ICMPV6_TYPE_NEIGHBOR_SOLICITATION : Z := 135.
Definition ICMPV6_TYPE_NEIGHBOR_ADVERTISEMENT : Z := 136.
Definition NDP_OPT_SOURCE_LINK_LAYER : Z := 1.
Definition NDP_OPT_TARGET_LINK_LAYER : Z := 2.
Definition NDP_MIN_BODY_LEN : nat := 24.
Definition NDP_OPT_LINK_LAYER_LEN : nat := 8.
Definition NDP_FRAME_LEN : nat :=
  ETH_HEADER_LEN + IPV6_HEADER_LEN + NDP_MIN_BODY_LEN + NDP_OPT_LINK_LAYER_LEN.
Definition NDP_HOP_LIMIT : Z := 255.
Definition NA_FLAG_SOLICITED : Z := 1073741824.
Definition NA_FLAG_OVERRIDE : Z := 536870912.

Record NdpPacket := MkNdp {
  n_src_mac : Mac;
  n_dst_mac : Mac;
  n_src_ip : Ipv6Addr;
  n_dst_ip : Ipv6Addr;
  n_type : Z;
  n_flags : Z;
  n_target : Ipv6Addr;
  link_layer_addr : option Mac }.

(** The loop of [parse_ndp_ll_option]. *)
Fixpoint ll_option_loop (fuel : nat) (frame : list Z) (offset : nat) (expected_type : Z)
    : outcome (option Mac) :=
  match fuel with
  | O => OutOfFuel
  | S fuel =>
      if length frame <? offset + 2 then Done None
      else
        let! opt_type := idx frame offset in
        let! opt_len := idx frame (offset + 1) in
        if (opt_len =? 0)%Z then Done None
        else
          let opt_bytes := Z.to_nat opt_len * 8 in
          if length frame <? offset + opt_bytes then Done None
          else if (opt_type =? expected_type)%Z && (8 <=? opt_bytes) then
            let! mac := slice frame (offset + 2) (offset + 8) in
            Done (to_mac mac)
          else ll_option_loop fuel frame (offset + opt_bytes) expected_type
  end.

(** [parse_ndp_ll_option]: every turn but the last moves on, so [length frame]
    turns are more than enough. *)
Definition parse_ndp_ll_option (frame : list Z) (options_start : nat) (icmp_type : Z)
    : outcome (option Mac) :=
  let expected_type := if (icmp_type =? ICMPV6_TYPE_NEIGHBOR_SOLICITATION)%Z
                       then NDP_OPT_SOURCE_LINK_LAYER else NDP_OPT_TARGET_LINK_LAYER in
  ll_option_loop (S (length frame)) frame options_start expected_type.

(** [parse_ndp_packet]. *)
Definition parse_ndp_packet (frame : list Z) : outcome (option NdpPacket) :=
  if length frame <? ETH_HEADER_LEN + IPV6_HEADER_LEN + NDP_MIN_BODY_LEN then Done None
  else
    let! etype := read16 frame 12 in
    if negb (etype =? ETH_TYPE_IPV6)%Z then Done None
    else
      let l3 := ETH_HEADER_LEN in
      let! b0 := idx frame l3 in
      if negb (Z.shiftr b0 4 =? 6)%Z then Done None
      else
        let! next_header := idx frame (l3 + 6) in
        if negb (next_header =? IP_PROTO_ICMPV6)%Z then Done None
        else
          let! hop_limit := idx frame (l3 + 7) in
          if negb (hop_limit =? NDP_HOP_LIMIT)%Z then Done None
          else
            let icmp_start := l3 + IPV6_HEADER_LEN in
            if length frame <? icmp_start + NDP_MIN_BODY_LEN then Done None
            else
              let! ty := idx frame icmp_start in
              if negb (ty =? ICMPV6_TYPE_NEIGHBOR_SOLICITATION)%Z
                 && negb (ty =? ICMPV6_TYPE_NEIGHBOR_ADVERTISEMENT)%Z then Done None
              else
                let! code := idx frame (icmp_start + 1) in
                if negb (code =? 0)%Z then Done None
                else
                  let! dmac := slice frame 0 6 in
                  match to_mac dmac with
                  | None => Done None
                  | Some dst_mac =>
                      let! smac := slice frame 6 12 in
                      match to_mac smac with
                      | None => Done None
                      | Some src_mac =>
                          let! src := slice frame (l3 + 8) (l3 + 24) in
                          let! dst := slice frame (l3 + 24) (l3 + 40) in
                          let! flags := read32 frame (icmp_start + 4) in
                          let! target := slice frame (icmp_start + 8) (icmp_start + 24) in
                          let! ll := parse_ndp_ll_option frame (icmp_start + 24) ty in
                          Done (Some (MkNdp src_mac dst_mac (of_octets6 src) (of_octets6 dst) ty
                            (if (ty =? ICMPV6_TYPE_NEIGHBOR_ADVERTISEMENT)%Z then flags else 0%Z)
                            (of_octets6 target) ll))
                      end
                  end.

(** [build_neighbor_solicitation]. *)
Definition build_neighbor_solicitation (src_mac : Mac) (src_ip target_ip : Ipv6Addr)
    : outcome (list Z) :=
  let frame := replicate NDP_FRAME_LEN 0%Z in
  let snm_addr := solicited_node_multicast_addr target_ip in
  let dst_mac := ipv6_multicast_mac snm_addr in
  let! frame := put_eth frame 0 dst_mac src_mac ETH_TYPE_IPV6 in
  let l3 := ETH_HEADER_LEN in
  let icmp_len := NDP_MIN_BODY_LEN + NDP_OPT_LINK_LAYER_LEN in
  let! frame := store frame l3 96 in
  let! frame := blit frame (l3 + 4) (l3 + 6) (be16 (u16 (Z.of_nat icmp_len))) in
  let! frame := store frame (l3 + 6) IP_PROTO_ICMPV6 in
  let! frame := store frame (l3 + 7) NDP_HOP_LIMIT in
  let! frame := blit frame (l3 + 8) (l3 + 24) (octets6 src_ip) in
  let! frame := blit frame (l3 + 24) (l3 + 40) (octets6 snm_addr) in
  let icmp_start := l3 + IPV6_HEADER_LEN in
  let! frame := store frame icmp_start ICMPV6_TYPE_NEIGHBOR_SOLICITATION in
  let! frame := store frame (icmp_start + 1) 0 in
  let! frame := blit frame (icmp_start + 8) (icmp_start + 24) (octets6 target_ip) in
  let opt_start := icmp_start + 24 in
  let! frame := store frame opt_start NDP_OPT_SOURCE_LINK_LAYER in
  let! frame := store frame (opt_start + 1) 1 in
  let! frame := blit frame (opt_start + 2) (opt_start + 8) (mac_bytes src_mac) in
  let! message := slice frame icmp_start (icmp_start + icmp_len) in
  let! cksum := icmpv6_checksum src_ip snm_addr message in
  blit frame (icmp_start + 2) (icmp_start + 4) (be16 cksum).

(** [build_neighbor_advertisement]. *)
Definition build_neighbor_advertisement (src_mac : Mac) (src_ip : Ipv6Addr) (dst_mac : Mac)
    (dst_ip : Ipv6Addr) (flags : Z) : outcome (list Z) :=
  let frame := replicate NDP_FRAME_LEN 0%Z in
  let! frame := put_eth frame 0 dst_mac src_mac ETH_TYPE_IPV6 in
  let l3 := ETH_HEADER_LEN in
  let icmp_len := NDP_MIN_BODY_LEN + NDP_OPT_LINK_LAYER_LEN in
  let! frame := store frame l3 96 in
  let! frame := blit frame (l3 + 4) (l3 + 6) (be16 (u16 (Z.of_nat icmp_len))) in
  let! frame := store frame (l3 + 6) IP_PROTO_ICMPV6 in
  let! frame := store frame (l3 + 7) NDP_HOP_LIMIT in
  let! frame := blit frame (l3 + 8) (l3 + 24) (octets6 src_ip) in
  let! frame := blit frame (l3 + 24) (l3 + 40) (octets6 dst_ip) in
  let icmp_start := l3 + IPV6_HEADER_LEN in
  let! frame := store frame icmp_start ICMPV6_TYPE_NEIGHBOR_ADVERTISEMENT in
  let! frame := store frame (icmp_start + 1) 0 in
  let! frame := blit frame (icmp_start + 4) (icmp_start + 8) (be32 flags) in
  let! frame := blit frame (icmp_start + 8) (icmp_start + 24) (octets6 src_ip) in
  let opt_start := icmp_start + 24 in
  let! frame := store frame opt_start NDP_OPT_TARGET_LINK_LAYER in
  let! frame := store frame (opt_start + 1) 1 in
  let! frame := blit frame (opt_start + 2) (opt_start + 8) (mac_bytes src_mac) in
  let! message := slice frame icmp_start (icmp_start + icmp_len) in
  let! cksum := icmpv6_checksum src_ip dst_ip message in
  blit frame (icmp_start + 2) (icmp_start + 4) (be16 cksum).

(** [build_gratuitous_na]. *)
Definition build_gratuitous_na (src_mac : Mac) (src_ip : Ipv6Addr) : outcome (list Z) :=
  build_neighbor_advertisement src_mac src_ip (ipv6_multicast_mac ALL_NODES) ALL_NODES NA_FLAG_OVERRIDE.

(** ** The handler *)

Record NdpHandler := MkNdpHandler {
  ndp_mac : Mac;
  ndp_ips : list Ipv6Addr;
  ndp_cache : NdpCache }.

#[global] Instance eta_NdpHandler : Eta NdpHandler := fun h =>
  MkNdpHandler (ndp_mac h) (ndp_ips h) (ndp_cache h).

(** [NdpHandler::new] and [with_cache]. *)
Definition ndp_with_cache (mac : Mac) (ip : Ipv6Addr) (c : NdpCache) : NdpHandler :=
  MkNdpHandler mac [ip] c.

Definition ndp_handler_new (mac : Mac) (ip : Ipv6Addr) : NdpHandler := ndp_with_cache mac ip cache_new.

(** [NdpHandler::add_local_ip]. *)
Definition ndp_add_local_ip (h : NdpHandler) (ip : Ipv6Addr) : NdpHandler :=
  if bool_decide (ip ∈ ndp_ips h) then h else h <| ndp_ips := ndp_ips h ++ [ip] |>.

Definition ndp_learn (h : NdpHandler) (now : Z) (ip : Ipv6Addr) (mac : Mac) : NdpHandler :=
  h <| ndp_cache := insert_if_changed (ndp_cache h) now ip mac |>.

(** [NdpHandler::process_ndp]. *)
Definition process_ndp (h : NdpHandler) (now : Z) (frame : list Z)
    : outcome (NdpHandler * option (list Z)) :=
  let! parsed := parse_ndp_packet frame in
  match parsed with
  | None => Done (h, None)
  | Some pkt =>
      if (n_type pkt =? ICMPV6_TYPE_NEIGHBOR_SOLICITATION)%Z then
        let h := match link_layer_addr pkt with
                 | Some sender_mac =>
                     if negb (n_src_ip pkt =? 0)%Z then ndp_learn h now (n_src_ip pkt) sender_mac else h
                 | None => h
                 end in
        if bool_decide (n_target pkt ∈ ndp_ips h) then
          let flags := Z.lor NA_FLAG_SOLICITED NA_FLAG_OVERRIDE in
          let! na := build_neighbor_advertisement (ndp_mac h) (n_target pkt) (n_src_mac pkt)
                       (n_src_ip pkt) flags in
          Done (h, Some na)
        else Done (h, None)
      else if (n_type pkt =? ICMPV6_TYPE_NEIGHBOR_ADVERTISEMENT)%Z then
        let h := match link_layer_addr pkt with
                 | Some target_mac => ndp_learn h now (n_target pkt) target_mac
                 | None => h
                 end in
        Done (h, None)
      else Done (h, None)
  end.

(** [NdpHandler::resolve]. *)
Definition ndp_resolve (h : NdpHandler) (now : Z) (ip : Ipv6Addr) : option Mac :=
  if (octet6 ip 0 =? 255)%Z then Some (ipv6_multicast_mac ip) else cache_lookup (ndp_cache h) now ip.

(** [NdpHandler::make_solicitation] and [make_gratuitous_na]. *)
Definition make_solicitation (h : NdpHandler) (target_ip : Ipv6Addr) : outcome (option (list Z)) :=
  match ndp_ips h with
  | [] => Done None
  | src_ip :: _ => let! f := build_neighbor_solicitation (ndp_mac h) src_ip target_ip in Done (Some f)
  end.

Definition make_gratuitous_na (h : NdpHandler) : outcome (option (list Z)) :=
  match ndp_ips h with
  | [] => Done None
  | src_ip :: _ => let! f := build_gratuitous_na (ndp_mac h) src_ip in Done (Some f)
  end.

(** [seed_cache_from_proc]. *)
Definition seed_cache_from_proc (c : NdpCache) (now : Z) (entries : list (Ipv6Addr * Mac)) : NdpCache :=
  fold_left (fun c '(ip, mac) => cache_insert c now ip mac) entries c.

(** ** Frames *)

(** A message with one link-layer option. *)
Definition ndp_msg (ty cksum flags : Z) (target : list Z) (opt : Z) (mac : Mac) : list Z :=
  [ty; 0]%Z ++ be16 cksum ++ be32 flags ++ target ++ [opt; 1]%Z ++ mac_bytes mac.

Definition ndp_cksum (src dst : Ipv6Addr) (ty flags : Z) (target : Ipv6Addr) (opt : Z) (mac : Mac) : Z :=
  cksum6_of src dst (ndp_msg ty 0 flags (octets6 target) opt mac).

Lemma ndp_cksum_done src dst ty flags target opt mac :
  is_u8 ty -> is_u8 opt -> wf_mac mac ->
  icmpv6_checksum src dst (ndp_msg ty 0 flags (octets6 target) opt mac)
  = Done (ndp_cksum src dst ty flags target opt mac).
Proof.
  intros Ht Ho Hm. unfold ndp_cksum, cksum6_of, ndp_msg. cbn [app be16].
  destruct (icmpv6_checksum_spec src dst ty 0 (u8 (0 / 256)) (u8 0)
    (be32 flags ++ octets6 target ++ [opt; 1]%Z ++ mac_bytes mac)) as (k & E & _); [done|done| | |].
  - apply Forall_app_2; [apply be32_bytes|]. apply Forall_app_2; [apply be_bytes_u8|].
    constructor; [done|]. constructor; [done|]. exact Hm.
  - rewrite !zlen_app. unfold zlen. rewrite length_octets6. cbn. lia.
  - cbn [app] in E. by rewrite E.
Qed.

(** The frame of an advertisement, and of a solicitation for [target]. *)
Definition na_frame (src_mac : Mac) (src : Ipv6Addr) (dst_mac : Mac) (dst : Ipv6Addr) (flags : Z) : list Z :=
  raw6 dst_mac src_mac 32 IP_PROTO_ICMPV6 NDP_HOP_LIMIT (octets6 src) (octets6 dst)
    (ndp_msg ICMPV6_TYPE_NEIGHBOR_ADVERTISEMENT
       (ndp_cksum src dst ICMPV6_TYPE_NEIGHBOR_ADVERTISEMENT flags src NDP_OPT_TARGET_LINK_LAYER src_mac)
       flags (octets6 src) NDP_OPT_TARGET_LINK_LAYER src_mac).

Definition ns_frame (src_mac : Mac) (src target : Ipv6Addr) : list Z :=
  let snm := solicited_node_multicast_addr target in
  raw6 (ipv6_multicast_mac snm) src_mac 32 IP_PROTO_ICMPV6 NDP_HOP_LIMIT (octets6 src) (octets6 snm)
    (ndp_msg ICMPV6_TYPE_NEIGHBOR_SOLICITATION
       (ndp_cksum src snm ICMPV6_TYPE_NEIGHBOR_SOLICITATION 0 target NDP_OPT_SOURCE_LINK_LAYER src_mac)
       0 (octets6 target) NDP_OPT_SOURCE_LINK_LAYER src_mac).

Lemma build_na_bytes src_mac src dst_mac dst flags :
  wf_mac src_mac ->
  build_neighbor_advertisement src_mac src dst_mac dst flags = Done (na_frame src_mac src dst_mac dst flags).
Proof.
  intros Hm. transitivity (
    let! c := icmpv6_checksum src dst (ndp_msg ICMPV6_TYPE_NEIGHBOR_ADVERTISEMENT 0 flags (octets6 src)
                NDP_OPT_TARGET_LINK_LAYER src_mac) in
    Done (raw6 dst_mac src_mac 32 IP_PROTO_ICMPV6 NDP_HOP_LIMIT (octets6 src) (octets6 dst)
      (ndp_msg ICMPV6_TYPE_NEIGHBOR_ADVERTISEMENT c flags (octets6 src) NDP_OPT_TARGET_LINK_LAYER src_mac)));
    [|by rewrite ndp_cksum_done].
  unfold build_neighbor_advertisement, ndp_msg, raw6. unfold octets6.
  generalize (length_be_bytes 16 src) (length_be_bytes 16 dst).
  generalize (be_bytes 16 src) (be_bytes 16 dst). intros s d Hs Hd.
  explode16 s Hs. explode16 d Hd. destruct src_mac, dst_mac. reflexivity.
Qed.

Lemma build_ns_bytes src_mac src target :
  wf_mac src_mac ->
  build_neighbor_solicitation src_mac src target = Done (ns_frame src_mac src target).
Proof.
  intros Hm. unfold build_neighbor_solicitation, ns_frame. cbv zeta.
  generalize (solicited_node_multicast_addr target). intros snm. generalize (ipv6_multicast_mac snm). intros dm.
  transitivity (
    let! c := icmpv6_checksum src snm (ndp_msg ICMPV6_TYPE_NEIGHBOR_SOLICITATION 0 0 (octets6 target)
                NDP_OPT_SOURCE_LINK_LAYER src_mac) in
    Done (raw6 dm src_mac 32 IP_PROTO_ICMPV6 NDP_HOP_LIMIT (octets6 src) (octets6 snm)
      (ndp_msg ICMPV6_TYPE_NEIGHBOR_SOLICITATION c 0 (octets6 target) NDP_OPT_SOURCE_LINK_LAYER src_mac)));
    [|by rewrite ndp_cksum_done].
  unfold ndp_msg, raw6. unfold octets6.
  generalize (length_be_bytes 16 src) (length_be_bytes 16 snm) (length_be_bytes 16 target).
  generalize (be_bytes 16 src) (be_bytes 16 snm) (be_bytes 16 target). intros s d t Hs Hd Ht.
  explode16 s Hs. explode16 d Hd. explode16 t Ht. destruct src_mac, dm. reflexivity.
Qed.

(** The parser on a message with one link-layer option, padded or not. *)
Lemma parse_ndp_raw dm sm len src dst ty c1 c2 f1 f2 f3 f4 target opt mac pad :
  length src = 16 -> length dst = 16 -> length target = 16 ->
  (ty = ICMPV6_TYPE_NEIGHBOR_SOLICITATION /\ opt = NDP_OPT_SOURCE_LINK_LAYER \/
   ty = ICMPV6_TYPE_NEIGHBOR_ADVERTISEMENT /\ opt = NDP_OPT_TARGET_LINK_LAYER) ->
  parse_ndp_packet (raw6 dm sm len IP_PROTO_ICMPV6 NDP_HOP_LIMIT src dst
    (([ty; 0; c1; c2; f1; f2; f3; f4]%Z ++ target ++ [opt; 1]%Z ++ mac_bytes mac) ++ pad))
  = Done (Some (MkNdp sm dm (of_octets6 src) (of_octets6 dst) ty
      (if (ty =? ICMPV6_TYPE_NEIGHBOR_ADVERTISEMENT)%Z then of_be32 f1 f2 f3 f4 else 0%Z)
      (of_octets6 target) (Some mac))).
Proof.
  intros Hs Hd Ht. explode16 src Hs. explode16 dst Hd. explode16 target Ht.
  destruct dm, sm, mac. intros [[-> ->]|[-> ->]]; reflexivity.
Qed.

Lemma raw6_app dm sm len nh hop src dst msg pad :
  raw6 dm sm len nh hop src dst msg ++ pad = raw6 dm sm len nh hop src dst (msg ++ pad).
Proof. unfold raw6. by rewrite <- !app_assoc. Qed.

Lemma parse_na_frame src_mac src dst_mac dst flags pad :
  is_u128 src -> is_u128 dst -> is_u32 flags ->
  parse_ndp_packet (na_frame src_mac src dst_mac dst flags ++ pad)
  = Done (Some (MkNdp src_mac dst_mac src dst ICMPV6_TYPE_NEIGHBOR_ADVERTISEMENT flags src (Some src_mac))).
Proof.
  intros Hs Hd Hf. unfold na_frame. rewrite raw6_app. etrans.
  - apply (parse_ndp_raw dst_mac src_mac); try apply length_octets6. by right.
  - rewrite !of_octets6_octets6 by done. by rewrite of_be32_be32.
Qed.

Lemma snm_u128 a : is_u128 (solicited_node_multicast_addr a).
Proof.
  unfold solicited_node_multicast_addr, octet6.
  assert (forall i, is_u8 (nth i (octets6 a) 0%Z)) as H.
  { intros i. destruct (nth_in_or_default i (octets6 a) 0%Z) as [Hi| ->]; [|done].
    pose proof (be_bytes_u8 16 a) as Hb. rewrite List.Forall_forall in Hb. by apply Hb. }
  pose proof (H 13) as H13. pose proof (H 14) as H14. pose proof (H 15) as H15.
  rewrite lor_shiftl8 by done. change 65280%Z with (Z.shiftl 255 8). rewrite lor_shiftl8 by done.
  unfold is_u128, ipv6_new, is_u8 in *. cbn [fold_left]. lia.
Qed.

Lemma parse_ns_frame src_mac src target pad :
  is_u128 src -> is_u128 target ->
  exists dm dst, parse_ndp_packet (ns_frame src_mac src target ++ pad)
  = Done (Some (MkNdp src_mac dm src dst ICMPV6_TYPE_NEIGHBOR_SOLICITATION 0 target (Some src_mac))).
Proof.
  intros Hs Ht. unfold ns_frame. cbv zeta. rewrite raw6_app. do 2 eexists. etrans.
  - apply (parse_ndp_raw _ src_mac); try apply length_octets6. by left.
  - rewrite (of_octets6_octets6 src), (of_octets6_octets6 target) by done. reflexivity.
Qed.

(** The option walk terminates and never reads outside the frame, and the parser never
    panics. *)
Lemma ll_option_total fuel frame ty : forall offset,
  Forall is_u8 frame -> length frame - offset < fuel ->
  exists r, ll_option_loop fuel frame offset ty = Done r.
Proof.
  induction fuel as [|fuel IH]; intros offset Hb Hf; [lia|]. cbn [ll_option_loop].
  destruct (Nat.ltb_spec (length frame) (offset + 2)); [by eauto|].
  destruct (idx_in_range frame offset) as (t & _ & ->); [lia|]. cbn [obind].
  destruct (idx_in_range frame (offset + 1)) as (l & El & ->); [lia|]. cbn [obind].
  assert (is_u8 l) as Hl by (eapply Forall_lookup_1; eauto). unfold is_u8 in Hl.
  destruct (Z.eqb_spec l 0); [by eauto|].
  destruct (Nat.ltb_spec (length frame) (offset + Z.to_nat l * 8)); [by eauto|].
  destruct (t =? ty)%Z; cbn [andb]; [|apply IH; [done|lia]].
  destruct (Nat.leb_spec 8 (Z.to_nat l * 8)); [|lia].
  rewrite slice_in_range, obind_Done by lia. eauto.
Qed.

Lemma parse_ndp_total frame : Forall is_u8 frame -> exists r, parse_ndp_packet frame = Done r.
Proof.
  intros Hb. unfold parse_ndp_packet, ETH_HEADER_LEN, IPV6_HEADER_LEN, NDP_MIN_BODY_LEN.
  repeat parse_step; eauto.
  all: destruct (read32_total frame (14 + 40 + 4)) as [f ->]; [lia|]; rewrite obind_Done; cbv beta.
  all: repeat parse_step; eauto; unfold parse_ndp_ll_option; rewrite ?obind_Done; cbv beta.
  all: match goal with |- context [ll_option_loop ?n ?fr ?o ?t] =>
    destruct (ll_option_total n fr t o) as [r ->]; [done|lia|] end; rewrite obind_Done; eauto.
Qed.

(** ** Resolution *)

Lemma ndp_key_nonzero (ip : Ipv6Addr) : is_u128 ip -> ip <> 0%Z -> ipv6_to_u64_pair ip <> (0, 0)%Z.
Proof.
  intros Hip Hz E. apply Hz. apply (ipv6_pair_inj ip 0%Z Hip); [vm_compute; split; congruence|exact E].
Qed.

Lemma ndp_resolve_learned h now now' ip mac :
  wf_mac mac -> is_u128 ip -> ip <> 0%Z -> octet6 ip 0 <> 255%Z ->
  ndp_resolve (ndp_learn h now ip mac) now' ip = Some mac.
Proof.
  intros Hm Hip Hz Ho. unfold ndp_resolve, ndp_learn. rewrite (proj2 (Z.eqb_neq _ _)) by done. rsimpl.
  apply lookup_insert_changed; [done|]. by apply ndp_key_nonzero.
Qed.

(** Neighbour discovery over the wire: the solicitation one host multicasts for an address of another,
    padded or not, is answered by exactly one advertisement; once that has arrived (and is
    not answered in turn) both hosts resolve each other's address to the right MAC
    address, while a host that does not own the address stays silent. *)
Theorem ndp_resolves_over_the_wire ha hb hc ipa ipb ips now1 now2 now pad1 pad2 :
  ndp_ips ha = ipa :: ips -> ipb ∈ ndp_ips hb -> ipb ∉ ndp_ips hc ->
  wf_mac (ndp_mac ha) -> wf_mac (ndp_mac hb) ->
  is_u128 ipa -> ipa <> 0%Z -> octet6 ipa 0 <> 255%Z ->
  is_u128 ipb -> ipb <> 0%Z -> octet6 ipb 0 <> 255%Z ->
  exists solicitation advertisement ha' hb' hc',
    make_solicitation ha ipb = Done (Some solicitation) /\
    process_ndp hb now1 (solicitation ++ pad1) = Done (hb', Some advertisement) /\
    process_ndp hc now1 (solicitation ++ pad1) = Done (hc', None) /\
    process_ndp ha now2 (advertisement ++ pad2) = Done (ha', None) /\
    ndp_resolve ha' now ipb = Some (ndp_mac hb) /\ ndp_resolve hb' now ipa = Some (ndp_mac ha).
Proof.
  intros Ha Hb Hc Hma Hmb Hia Hza Hoa Hib Hzb Hob. unfold make_solicitation. rewrite Ha, build_ns_bytes by done.
  destruct (parse_ns_frame (ndp_mac ha) ipa ipb pad1) as (dm & dst & E); [done..|].
  exists (ns_frame (ndp_mac ha) ipa ipb),
    (na_frame (ndp_mac hb) ipb (ndp_mac ha) ipa (Z.lor NA_FLAG_SOLICITED NA_FLAG_OVERRIDE)),
    (ndp_learn ha now2 ipb (ndp_mac hb)), (ndp_learn hb now1 ipa (ndp_mac ha)),
    (ndp_learn hc now1 ipa (ndp_mac ha)).
  unfold process_ndp. rewrite E, !obind_Done. cbv beta iota zeta.
  cbn [n_type n_src_ip n_target n_src_mac link_layer_addr].
  rewrite (proj2 (Z.eqb_neq ipa 0)) by done. cbn [negb Z.eqb Pos.eqb].
  change (ndp_ips (ndp_learn hb now1 ipa (ndp_mac ha))) with (ndp_ips hb).
  change (ndp_ips (ndp_learn hc now1 ipa (ndp_mac ha))) with (ndp_ips hc).
  change (ndp_mac (ndp_learn hb now1 ipa (ndp_mac ha))) with (ndp_mac hb).
  rewrite (bool_decide_true (ipb ∈ ndp_ips hb)), (bool_decide_false (ipb ∈ ndp_ips hc)) by done.
  split_and!; [done| |done| |by apply ndp_resolve_learned|by apply ndp_resolve_learned].
  - by rewrite build_na_bytes.
  - rewrite parse_na_frame; [done..|vm_compute; split; congruence].
Qed.

Lemma ndp_resolves_over_the_wire_witness :
  exists solicitation advertisement ha' hb' hc',
    make_solicitation (ndp_handler_new mac_a 42%Z) 43%Z = Done (Some solicitation) /\
    process_ndp (ndp_handler_new mac_b 43%Z) 5 (solicitation ++ []) = Done (hb', Some advertisement) /\
    process_ndp (ndp_handler_new mac_b 44%Z) 5 (solicitation ++ []) = Done (hc', None) /\
    process_ndp (ndp_handler_new mac_a 42%Z) 7 (advertisement ++ []) = Done (ha', None) /\
    ndp_resolve ha' 9 43%Z = Some mac_b /\ ndp_resolve hb' 9 42%Z = Some mac_a.
Proof.
  apply (ndp_resolves_over_the_wire (ndp_handler_new mac_a 42%Z) (ndp_handler_new mac_b 43%Z)
    (ndp_handler_new mac_b 44%Z) 42%Z 43%Z []).
  - reflexivity.
  - apply list_elem_of_singleton. reflexivity.
  - intros E%list_elem_of_singleton. discriminate E.
  - concrete_mac.
  - concrete_mac.
  - vm_compute. split; congruence.
  - discriminate.
  - vm_compute. discriminate.
  - vm_compute. split; congruence.
  - discriminate.
  - vm_compute. discriminate.
Defined.

(** A solicitation from the unspecified address (duplicate address detection) is
    answered with a solicited advertisement addressed to that very address. *)
Lemma dad_answered_to_unspecified h src_mac target now :
  target ∈ ndp_ips h -> wf_mac (ndp_mac h) -> wf_mac src_mac -> is_u128 target ->
  process_ndp h now (ns_frame src_mac 0%Z target) =
  Done (h, Some (na_frame (ndp_mac h) target src_mac 0%Z (Z.lor NA_FLAG_SOLICITED NA_FLAG_OVERRIDE))).
Proof.
  intros Hin Hm Hs Ht. destruct (parse_ns_frame src_mac 0%Z target []) as (dm & dst & E);
    [vm_compute; split; congruence|done|]. rewrite app_nil_r in E.
  unfold process_ndp. rewrite E, obind_Done. cbv beta iota zeta.
  cbn [n_type n_src_ip n_target n_src_mac link_layer_addr negb Z.eqb Pos.eqb].
  rewrite bool_decide_true by done. by rewrite build_na_bytes.
Qed.
