(* ===== verification/Robust.v ===== *)
(** * No frame from the network crashes the stack

    Every parser that sees bytes from the wire, on every byte string: the TCP codec,
    the UDP parsers, the six tunnel decapsulators, ARP, ICMP,
    ICMPv6 and neighbour discovery. *)

From stdpp Require Import base numbers list.
From Stdlib Require Import ZArith Lia.
From S2P Require Import Prelude State Buffer Checksum Codec CodecOptions CodecFrames UdpChecksum UdpFrame UdpLayout Udp6Frame Tunnel TunnelTrip Arp Icmp Icmp6 Ndp.

#[local] Open Scope nat_scope.

Definition returns {A} (o : outcome A) : Prop := exists r, o = Done r.

(** C27: No frame from the network can crash or hang the stack: on every byte string, however
    short, long or corrupt in its length fields, offsets, option lists and extension
    headers, each of the seventeen parsers that see received bytes returns (it neither
    indexes out of range nor loops), and the zero-copy UDP parsers answer what the
    allocating ones do. *)
Theorem every_frame_is_survived frame l3 port vni :
  Forall is_u8 frame ->
  returns (parse_tcp_packet frame) /\
  (exists r, parse_udp_packet frame = Done r /\ parse_udp_packet_ref frame = Done (option_map ref_of r)) /\
  (exists r, parse_udp6_packet frame = Done r /\ parse_udp6_packet_ref frame = Done (option_map ref6_of r)) /\
  returns (Gue.try_decap_gue frame l3 port) /\ returns (Gue.try_decap_gue_v6 frame l3 port) /\
  returns (Vxlan.try_decap_vxlan frame l3 port vni) /\ returns (Vxlan.try_decap_vxlan_v6 frame l3 port vni) /\
  returns (Geneve.try_decap_geneve frame l3 port vni) /\
  returns (Geneve.try_decap_geneve_v6 frame l3 port vni) /\
  returns (parse_arp_packet frame) /\ returns (parse_icmp_packet frame) /\ returns (parse_icmp_error frame) /\
  returns (parse_icmpv6_packet frame) /\ returns (parse_icmpv6_error frame) /\ returns (parse_ndp_packet frame).
Proof.
  intros Hb. unfold returns. destruct (decapsulators_total frame l3 port vni) as (? & ? & ? & ? & ? & ?).
  split_and!; auto using parse_tcp_packet_total, udp_parsers_total_and_agree,
    udp6_parsers_total_and_agree, parse_arp_total, parse_icmp_total, parse_icmp_error_total,
    parse_icmp6_total, parse_icmp6_error_total, parse_ndp_total.
Qed.

Lemma every_frame_is_survived_witness :
  returns (parse_ndp_packet (replicate 86 255%Z)) /\ returns (parse_arp_packet (replicate 86 255%Z)).
Proof.
  destruct (every_frame_is_survived (replicate 86 255%Z) 14 4789 None) as
    (_ & _ & _ & _ & _ & _ & _ & _ & _ & Ha & _ & _ & _ & _ & Hn).
  - apply Forall_replicate. vm_compute. split; congruence.
  - exact (conj Hn Ha).
Defined.
