(* ===== verification/UdpSocket.v ===== *)
(** * UDP sockets (dpdk-stdlib-udp/src/lib.rs)

    The receive queue, the transmit path of the backends, and the socket: what it does
    with every received frame, how it sends, and how it waits for an ARP reply.  The
    run-to-completion path is modelled; performance counters are left out.  The packet
    backend is outside the model: its answers are functions of everything handed to it so
    far, and the frames it delivers are arguments.  Every call has the clock reading it
    would make. *)

From stdpp Require Import base numbers list gmap.
From Stdlib Require Import ZArith Lia.
From S2P Require Import Prelude State Buffer Checksum Codec UdpChecksum UdpFrame Udp6Frame Tunnel Routing NeighborCache Arp Icmp Icmp6 Ndp.

#[local] Open Scope Z_scope.

(** ** Connection state and receive queue *)

Record ConnectionState := MkConnState {
  cs_local : SocketAddr;
  cs_remote : SocketAddr;
  packets_received : Z;
  packets_sent : Z;
  bytes_received : Z;
  bytes_sent : Z }.

#[global] Instance eta_ConnectionState : Eta ConnectionState := fun c =>
  MkConnState (cs_local c) (cs_remote c) (packets_received c) (packets_sent c)
    (bytes_received c) (bytes_sent c).

(** [ConnectionState::new], [record_send] and [record_recv]: the counters are [u64]. *)
Definition conn_state_new (l r : SocketAddr) : ConnectionState := MkConnState l r 0 0 0 0.

Definition add_u64 (a b : Z) : outcome Z := if a + b <? 2 ^ 64 then Done (a + b) else Panic.

Definition record_send (c : ConnectionState) (bytes : Z) : outcome ConnectionState :=
  let! p := add_u64 (packets_sent c) 1 in
  let! b := add_u64 (bytes_sent c) bytes in
  Done (c <| packets_sent := p |> <| bytes_sent := b |>).

Definition record_recv (c : ConnectionState) (bytes : Z) : outcome ConnectionState :=
  let! p := add_u64 (packets_received c) 1 in
  let! b := add_u64 (bytes_received c) bytes in
  Done (c <| packets_received := p |> <| bytes_received := b |>).

Definition DEFAULT_RECV_BUFFER_BYTES : Z := 262144.
Definition DEFAULT_RECV_BUFFER_PACKETS : Z := 4096.
Definition MAX_POOLED_BUFFERS : nat := 256.
Definition USIZE_MAX : Z := 18446744073709551615.

(** [ReceiveQueue]; the top of the [free_list] is its head. *)
Record ReceiveQueue := MkQueue {
  packets : list (list Z * SocketAddr);
  max_packets : Z;
  max_bytes : Z;
  current_bytes : Z;
  free_list : list (list Z) }.

#[global] Instance eta_ReceiveQueue : Eta ReceiveQueue := fun q =>
  MkQueue (packets q) (max_packets q) (max_bytes q) (current_bytes q) (free_list q).

Definition with_limits (max_packets max_bytes : Z) : ReceiveQueue :=
  MkQueue [] max_packets max_bytes 0 [].

(** [ReceiveQueue::push_slice]. *)
Definition push_slice (q : ReceiveQueue) (payload : list Z) (src : SocketAddr)
    : ReceiveQueue * bool :=
  let size := zlen payload in
  if (max_packets q <=? zlen (packets q))
     || (max_bytes q <? Z.min (current_bytes q + size) USIZE_MAX) then (q, false)
  else
    let v := [] ++ payload in
    (q <| free_list := tail (free_list q) |>
       <| current_bytes := current_bytes q + size |>
       <| packets := packets q ++ [(v, src)] |>, true).

(** [ReceiveQueue::pop_into]: the queue, the caller's buffer and the answer. *)
Definition pop_into (q : ReceiveQueue) (buf : list Z)
    : outcome (ReceiveQueue * list Z * option (Z * SocketAddr)) :=
  match packets q with
  | [] => Done (q, buf, None)
  | (payload, src) :: rest =>
      let q := q <| packets := rest |>
                 <| current_bytes := ssub (current_bytes q) (zlen payload) |> in
      let copy_len := Nat.min (length buf) (length payload) in
      let! data := slice payload 0 copy_len in
      let! buf := blit buf 0 copy_len data in
      let q := if (length (free_list q) <? MAX_POOLED_BUFFERS)%nat
               then q <| free_list := payload :: free_list q |> else q in
      Done (q, buf, Some (Z.of_nat copy_len, src))
  end.

Definition set_max_bytes (q : ReceiveQueue) (n : Z) : ReceiveQueue := q <| max_bytes := n |>.

(** ** Transmission *)

Definition RTE_ETH_TX_OFFLOAD_VLAN_INSERT : Z := 1.
Definition RTE_ETH_TX_OFFLOAD_IPV4_CKSUM : Z := 2.
Definition RTE_ETH_TX_OFFLOAD_UDP_CKSUM : Z := 4.
Definition RTE_MBUF_F_TX_IPV4 : Z := Z.shiftl 1 55.
Definition RTE_MBUF_F_TX_IPV6 : Z := Z.shiftl 1 56.
Definition RTE_MBUF_F_TX_IP_CKSUM : Z := Z.shiftl 1 54.
Definition RTE_MBUF_F_TX_UDP_CKSUM : Z := Z.shiftl 3 52.
Definition RTE_MBUF_F_TX_VLAN : Z := Z.shiftl 1 57.

(** The DPDK port with its active offloads and the room of the mbuf it allocates ([None]
    when the allocation fails), or one of the other backends. *)
Inductive SocketBackend : Type :=
| Dpdk (active_tx_offload : Z) (mbuf_room : option nat)
| Generic.

(** What is handed to the hardware queue or to the backend: the bytes and the mbuf's
    metadata. *)
Record TxDesc := MkTx {
  tx_data : list Z;
  tx_ol_flags : Z;
  tx_vlan_tci : option Z;
  tx_l3_len : Z }.

Definition has_bit (flags bit : Z) : bool := negb (Z.land flags bit =? 0).

(** The part of [SocketBackend::send_frame_mode] between the copy into the mbuf and the
    burst: what it leaves to the hardware, and the fields it prepares for it. *)
Definition offload_ipv4 (tx_offload : Z) (data : list Z) : outcome (list Z * Z * Z) :=
  let has_ip_cksum := has_bit tx_offload RTE_ETH_TX_OFFLOAD_IPV4_CKSUM in
  let has_udp_cksum := has_bit tx_offload RTE_ETH_TX_OFFLOAD_UDP_CKSUM in
  if has_ip_cksum || has_udp_cksum then
    let! (data, f1) :=
      if has_ip_cksum then
        let! data := store data (ETH_HEADER_LEN + 10) 0 in
        let! data := store data (ETH_HEADER_LEN + 10 + 1) 0 in
        Done (data, RTE_MBUF_F_TX_IP_CKSUM)
      else Done (data, 0) in
    let! (data, f2) :=
      if has_udp_cksum then
        let! src_ip := slice data (ETH_HEADER_LEN + 12) (ETH_HEADER_LEN + 16) in
        let! dst_ip := slice data (ETH_HEADER_LEN + 16) (ETH_HEADER_LEN + 20) in
        let udp_off := (ETH_HEADER_LEN + IPV4_HEADER_LEN)%nat in
        let! udp_len := read16 data (udp_off + 4) in
        let! phdr_cksum := udp_pseudo_header_checksum src_ip dst_ip udp_len in
        let! data := blit data (udp_off + 6) (udp_off + 8) (be16 phdr_cksum) in
        Done (data, RTE_MBUF_F_TX_UDP_CKSUM)
      else Done (data, 0) in
    Done (data, Z.lor (Z.lor RTE_MBUF_F_TX_IPV4 f1) f2, 20)
  else Done (data, 0, 0).

Definition offload_ipv6 (tx_offload : Z) (data : list Z) : outcome (list Z * Z * Z) :=
  if has_bit tx_offload RTE_ETH_TX_OFFLOAD_UDP_CKSUM then
    let! src_ip := slice data (ETH_HEADER_LEN + 8) (ETH_HEADER_LEN + 24) in
    let! dst_ip := slice data (ETH_HEADER_LEN + 24) (ETH_HEADER_LEN + 40) in
    let udp_off := (ETH_HEADER_LEN + IPV6_HEADER_LEN)%nat in
    let! udp_len := read16 data (udp_off + 4) in
    let! phdr_cksum := udp6_pseudo_header_checksum src_ip dst_ip udp_len in
    let! data := blit data (udp_off + 6) (udp_off + 8) (be16 phdr_cksum) in
    Done (data, Z.lor RTE_MBUF_F_TX_IPV6 RTE_MBUF_F_TX_UDP_CKSUM, 40)
  else Done (data, 0, 0).

Definition tx_offload_data (tx_offload : Z) (frame : list Z) : outcome (list Z * Z * Z) :=
  if negb (tx_offload =? 0) && (ETH_HEADER_LEN + 2 <=? length frame)%nat then
    let! ethertype := read16 frame 12 in
    if (ethertype =? ETH_TYPE_IPV4) && (TOTAL_HEADER_LEN <=? length frame)%nat
    then offload_ipv4 tx_offload frame
    else if (ethertype =? ETH_TYPE_IPV6) && (TOTAL_HEADER_LEN_V6 <=? length frame)%nat
    then offload_ipv6 tx_offload frame
    else Done (frame, 0, 0)
  else Done (frame, 0, 0).

(** The mbuf that [send_frame_mode] fills, or the error before it does; the other
    backends get the frame as it is.  [copy_from_slice] panics when the [u16] length of the
    mbuf is not the frame's. *)
Definition tx_desc (b : SocketBackend) (frame : list Z) (hw_vlan_tci : option Z)
    : outcome (result TxDesc ErrorKind) :=
  match b with
  | Generic => Done (Ok (MkTx frame 0 None 0))
  | Dpdk tx_offload mbuf_room =>
      match mbuf_room with
      | None => Done (Err KOther)
      | Some room =>
          if (room <? length frame)%nat then Done (Err KInvalidInput)
          else if negb (u16 (zlen frame) =? zlen frame) then Panic
          else
            let vlan := match hw_vlan_tci with
                        | Some tci => if has_bit tx_offload RTE_ETH_TX_OFFLOAD_VLAN_INSERT
                                      then Some tci else None
                        | None => None
                        end in
            let f0 := match vlan with Some _ => RTE_MBUF_F_TX_VLAN | None => 0 end in
            let! (data, flags, l3_len) := tx_offload_data tx_offload frame in
            Done (Ok (MkTx data (Z.lor f0 flags) vlan l3_len))
      end
  end.

(** ** The socket *)

Inductive AddressFamily : Type := IPv4 | IPv6.

Record UdpSocket := MkSocket {
  s_local_addr : SocketAddr;
  s_connected_addr : option SocketAddr;
  s_backend : SocketBackend;
  s_mac : Mac;
  s_ttl : Z;
  s_dst_mac : Mac;
  s_arp : ArpHandler;
  s_icmp : IcmpHandler;
  s_icmpv6 : Icmpv6Handler;
  s_ndp : NdpHandler;
  s_connection_state : option ConnectionState;
  s_queue : ReceiveQueue;
  s_auto_arp : bool;
  s_auto_icmp : bool;
  s_auto_reply_drops : Z;
  s_has_buffered_packets : bool;
  s_routing : RoutingTable;
  s_vlan : option VlanConfig;
  s_gue : option Gue.GueConfig;
  s_vxlan : option (VtepConfig Ipv4Addr);
  s_geneve : option (VtepConfig Ipv4Addr);
  s_rx_dropped_packets : Z;
  s_rx_dropped_bytes : Z;
  s_error_queue : list ErrorKind;
  s_has_pending_error : bool;
  s_family : AddressFamily;
  s_only_v6 : bool;
  s_scratch : list Z;
  s_handed : list (TxDesc * result Z ErrorKind) }.

#[global] Instance eta_UdpSocket : Eta UdpSocket := fun s =>
  MkSocket (s_local_addr s) (s_connected_addr s) (s_backend s) (s_mac s) (s_ttl s) (s_dst_mac s)
    (s_arp s) (s_icmp s) (s_icmpv6 s) (s_ndp s) (s_connection_state s) (s_queue s)
    (s_auto_arp s) (s_auto_icmp s) (s_auto_reply_drops s) (s_has_buffered_packets s)
    (s_routing s) (s_vlan s) (s_gue s) (s_vxlan s) (s_geneve s) (s_rx_dropped_packets s)
    (s_rx_dropped_bytes s) (s_error_queue s) (s_has_pending_error s) (s_family s)
    (s_only_v6 s) (s_scratch s) (s_handed s).

(** [rx_enqueue] and [record_rx_drop]; the drop counters are wrapping atomics. *)
Definition rx_enqueue (s : UdpSocket) (payload : list Z) (src : SocketAddr) (payload_len : Z)
    : UdpSocket :=
  let '(q, pushed) := push_slice (s_queue s) payload src in
  if pushed then s <| s_queue := q |> <| s_has_buffered_packets := true |>
  else s <| s_queue := q |>
         <| s_rx_dropped_packets := wadd64 (s_rx_dropped_packets s) 1 |>
         <| s_rx_dropped_bytes := wadd64 (s_rx_dropped_bytes s) payload_len |>.

(** [rx_dequeue_into]. *)
Definition rx_dequeue_into (s : UdpSocket) (buf : list Z)
    : outcome (UdpSocket * list Z * option (Z * SocketAddr)) :=
  let! (q, buf, popped) := pop_into (s_queue s) buf in
  let s := s <| s_queue := q |> in
  let s := if bool_decide (packets q = []) then s <| s_has_buffered_packets := false |> else s in
  Done (s, buf, popped).

(** [queue_icmp_error] and [take_error]. *)
Definition MAX_ERROR_QUEUE : nat := 16.

Definition queue_icmp_error (s : UdpSocket) (e : ErrorKind) : UdpSocket :=
  if (length (s_error_queue s) <? MAX_ERROR_QUEUE)%nat
  then s <| s_error_queue := s_error_queue s ++ [e] |> <| s_has_pending_error := true |>
  else s.

Definition take_error (s : UdpSocket) : UdpSocket * option ErrorKind :=
  if s_has_pending_error s then
    let err := head (s_error_queue s) in
    let s := s <| s_error_queue := tail (s_error_queue s) |> in
    (if bool_decide (s_error_queue s = []) then s <| s_has_pending_error := false |> else s, err)
  else (s, None).

(** [connect]. *)
Definition udp_connect (s : UdpSocket) (addr : SocketAddr) : UdpSocket :=
  s <| s_connection_state := Some (conn_state_new (s_local_addr s) addr) |>
    <| s_connected_addr := Some addr |>.

(** [set_ttl], [set_only_v6] and [set_recv_buffer_size]. *)
Definition set_ttl (s : UdpSocket) (ttl : Z) : UdpSocket := s <| s_ttl := u8 ttl |>.

Definition set_only_v6 (s : UdpSocket) (b : bool) : result UdpSocket ErrorKind :=
  match s_family s with
  | IPv6 => Ok (s <| s_only_v6 := b |>)
  | IPv4 => Err KInvalidInput
  end.

Definition set_recv_buffer_size (s : UdpSocket) (bytes : Z) : result UdpSocket ErrorKind :=
  if bytes =? 0 then Err KInvalidInput
  else Ok (s <| s_queue := set_max_bytes (s_queue s) bytes |>).

(** [allocate_ephemeral_port] on the global counter: the port and the new counter. *)
Definition allocate_ephemeral_port (next : Z) : Z * Z :=
  if (32768 <=? next) && (next <=? 60999) then (next, u16 (next + 1)) else (32768, 32769).

(** [auto_detect_routing]: what [detect_from_proc] found, if anything. *)
Definition auto_detect_routing (local_ip : Ipv4Addr) (now : Z)
    (found : option (NetworkConfig * list ProcArpEntry)) (h : ArpHandler)
    : RoutingTable * ArpHandler :=
  if bool_decide (local_ip = UNSPECIFIED) then (table_new, h)
  else
    match found with
    | Some (config, arp_entries) =>
        (with_config config,
         fold_left (fun h e => h <| arp_cache :=
                      cache_insert (arp_cache h) now (pa_ip e) (pa_mac e) |>) arp_entries h)
    | None => (table_new, h)
    end.

(** The socket that [bind_v4_on], [bind_v6] and [bind_with_backend] construct. *)
Definition socket_new (local : SocketAddr) (backend : SocketBackend) (mac : Mac)
    (arp_handler : ArpHandler) (arp_ip : Ipv4Addr) (local_ipv6 : Ipv6Addr)
    (routing : RoutingTable) : UdpSocket :=
  MkSocket local None backend mac 64 broadcast_mac arp_handler (icmp_handler_new mac arp_ip)
    (icmp6_handler_new mac local_ipv6) (ndp_handler_new mac local_ipv6) None
    (with_limits DEFAULT_RECV_BUFFER_PACKETS DEFAULT_RECV_BUFFER_BYTES) true true 0 false
    routing None None None None 0 0 [] false
    (match local with V4 _ _ => IPv4 | V6 _ _ _ _ => IPv6 end) false [] [].

Section Backend.

(** How the backend answers: what was handed to it before, the frame, and whether the caller
    may wait. *)
Context (answer : list (TxDesc * result Z ErrorKind) -> TxDesc -> bool -> result Z ErrorKind).

(** [SocketBackend::send_frame_mode]. *)
Definition send_frame_mode (s : UdpSocket) (frame : list Z) (hw_vlan_tci : option Z)
    (blocking : bool) : outcome (UdpSocket * result Z ErrorKind) :=
  let! d := tx_desc (s_backend s) frame hw_vlan_tci in
  match d with
  | Err e => Done (s, Err e)
  | Ok d =>
      let r := answer (s_handed s) d blocking in
      let s := s <| s_handed := s_handed s ++ [(d, r)] |> in
      match s_backend s, r with
      | Dpdk _ _, Ok sent => Done (s, if sent =? 0 then Err KWouldBlock else Ok (zlen frame))
      | _, _ => Done (s, r)
      end
  end.

(** [send_auto_reply]. *)
Definition send_auto_reply (s : UdpSocket) (frame : list Z) (blocking : bool)
    : outcome UdpSocket :=
  let! (s, r) := send_frame_mode s frame None blocking in
  match r with
  | Err KWouldBlock =>
      Done (if blocking then s else s <| s_auto_reply_drops := wadd64 (s_auto_reply_drops s) 1 |>)
  | _ => Done s
  end.

(** [send_gratuitous_arp]: the result is ignored when [bind] calls it. *)
Definition send_gratuitous_arp (s : UdpSocket) : outcome (UdpSocket * result unit ErrorKind) :=
  let! f := make_gratuitous_arp (s_arp s) in
  match f with
  | Some frame =>
      let! (s, r) := send_frame_mode s frame None true in
      Done (s, match r with Ok _ => Ok tt | Err e => Err e end)
  | None => Done (s, Ok tt)
  end.

(** [bind_v4_on]: the address, the global port counter, the shared ARP cache, and the port's
    hardware address, offloads and MTU. *)
Definition bind_v4_on (ip : Ipv4Addr) (p next now : Z) (cache : ArpCache)
    (backend : SocketBackend) (mac : Mac) (mtu : Z)
    (found : option (NetworkConfig * list ProcArpEntry)) : outcome (UdpSocket * Z) :=
  let '(p, next) := if p =? 0 then allocate_ephemeral_port next else (p, next) in
  let '(routing, h) := auto_detect_routing ip now found (handler_with_cache mac ip cache) in
  let routing := if table_mtu routing <? mtu then set_mtu routing mtu else routing in
  let! (s, _) := send_gratuitous_arp (socket_new (V4 ip p) backend mac h ip 0 routing) in
  Done (s, next).

(** *** Received frames

    [process_frame_zerocopy_locked] returns [None] on every path and works on the socket,
    the caller's buffer and the result of the burst so far; each of its parts either
    returns ([Some]) or falls through to the next ([None]). *)
Definition rx_out : Type := UdpSocket * list Z * option (Z * SocketAddr).

(** The end of the five UDP paths: the connected-peer test, the first datagram of the
    burst into the buffer, the others into the queue; [track] updates the connection's
    counters, which the tunnel paths do not. *)
Definition rx_deliver (s : UdpSocket) (buf : list Z) (result : option (Z * SocketAddr))
    (payload : list Z) (src_addr : SocketAddr) (track : bool) : outcome rx_out :=
  let stranger := match s_connected_addr s with
                  | Some connected => negb (bool_decide (src_addr = connected))
                  | None => false
                  end in
  if stranger then Done (rx_enqueue s payload src_addr (zlen payload), buf, result)
  else
    match result with
    | None =>
        let copy_len := Nat.min (length buf) (length payload) in
        let! data := slice payload 0 copy_len in
        let! buf := blit buf 0 copy_len data in
        let! s :=
          match track, s_connection_state s with
          | true, Some state =>
              let! state := record_recv state (Z.of_nat copy_len) in
              Done (s <| s_connection_state := Some state |>)
          | _, _ => Done s
          end in
        Done (s, buf, Some (Z.of_nat copy_len, src_addr))
    | Some _ => Done (rx_enqueue s payload src_addr (zlen payload), buf, result)
    end.

Definition rx_arp (s : UdpSocket) (now : Z) (blocking : bool) (layout : FrameLayout)
    (frame : list Z) : outcome (option UdpSocket) :=
  if (ethertype layout =? ETH_TYPE_ARP) && s_auto_arp s then
    let! (h, reply) := process_arp (s_arp s) now frame in
    let s := s <| s_arp := h |> in
    let! s := match reply with Some f => send_auto_reply s f blocking | None => Done s end in
    Done (Some s)
  else Done None.

Definition rx_icmp (s : UdpSocket) (blocking : bool) (layout : FrameLayout) (frame : list Z)
    : outcome (option UdpSocket) :=
  if (ethertype layout =? ETH_TYPE_IPV4) && (l3_offset layout + 9 <? length frame)%nat then
    let! protocol := idx frame (l3_offset layout + 9) in
    if protocol =? IP_PROTO_ICMP then
      let! action := process_icmp_full (s_icmp s) frame in
      let! s := match action with
                | Some (ActReply reply_frame) =>
                    if s_auto_icmp s then send_auto_reply s reply_frame blocking else Done s
                | Some (ActError error_info) =>
                    let local_port := match s_local_addr s with V4 _ p => p | V6 _ _ _ _ => 0 end in
                    Done (if original_src_port error_info =? local_port
                          then queue_icmp_error s (to_io_error error_info) else s)
                | None => Done s
                end in
      Done (Some s)
    else Done None
  else Done None.

Definition rx_ndp (s : UdpSocket) (now : Z) (blocking : bool) (layout : FrameLayout)
    (frame : list Z) : outcome (option UdpSocket) :=
  if (ethertype layout =? ETH_TYPE_IPV6) && s_auto_arp s
     && (ETH_HEADER_LEN + IPV6_HEADER_LEN <? length frame)%nat then
    let! next_header := idx frame (ETH_HEADER_LEN + 6) in
    if next_header =? IP_PROTO_ICMPV6 then
      let! icmp_type := idx frame (ETH_HEADER_LEN + IPV6_HEADER_LEN) in
      if (icmp_type =? ICMPV6_TYPE_NEIGHBOR_SOLICITATION)
         || (icmp_type =? ICMPV6_TYPE_NEIGHBOR_ADVERTISEMENT) then
        let! (h, na) := process_ndp (s_ndp s) now frame in
        let s := s <| s_ndp := h |> in
        let! s := match na with Some f => send_auto_reply s f blocking | None => Done s end in
        Done (Some s)
      else Done None
    else Done None
  else Done None.

Definition rx_icmpv6 (s : UdpSocket) (blocking : bool) (layout : FrameLayout) (frame : list Z)
    : outcome (option UdpSocket) :=
  if (ethertype layout =? ETH_TYPE_IPV6)
     && (l3_offset layout + IPV6_HEADER_LEN <? length frame)%nat then
    let! packet := slice_from frame (l3_offset layout) in
    let! nh := walk_extension_headers packet in
    match nh with
    | Some nh =>
        if protocol nh =? IP_PROTO_ICMPV6 then
          let! action := process_icmpv6_full (s_icmpv6 s) frame in
          let! s := match action with
                    | Some (ActReply6 reply_frame) =>
                        if s_auto_icmp s then send_auto_reply s reply_frame blocking else Done s
                    | Some (ActError6 error_info) =>
                        Done (if original_src_port6 error_info =? port (s_local_addr s)
                              then queue_icmp_error s (to_io_error6 error_info) else s)
                    | None => Done s
                    end in
          Done (Some s)
        else Done None
    | None => Done None
    end
  else Done None.

(** The three tunnels: what the decapsulator found, or nothing. *)
Definition decap_inner4 (s : UdpSocket) (layout : FrameLayout) (frame : list Z)
    : outcome (option inner) :=
  if negb (ethertype layout =? ETH_TYPE_IPV4) then Done None
  else
    let! g := match s_gue s with
              | Some cfg => Gue.try_decap_gue frame (l3_offset layout) (Gue.local_port cfg)
              | None => Done None
              end in
    match g with
    | Some d => Done (Some (Gue.decap_inner _ d))
    | None =>
        let! v := match s_vxlan s with
                  | Some cfg => Vxlan.try_decap_vxlan frame (l3_offset layout)
                                  (vtep_local_port _ cfg) (Some (vtep_vni _ cfg))
                  | None => Done None
                  end in
        match v with
        | Some d => Done (Some (l2_inner _ _ d))
        | None =>
            let! e := match s_geneve s with
                      | Some cfg => Geneve.try_decap_geneve frame (l3_offset layout)
                                      (vtep_local_port _ cfg) (Some (vtep_vni _ cfg))
                      | None => Done None
                      end in
            match e with
            | Some d => Done (Some (l2_inner _ _ d))
            | None => Done None
            end
        end
    end.

Definition rx_tunnel (s : UdpSocket) (local_port : Z) (buf : list Z)
    (result : option (Z * SocketAddr)) (layout : FrameLayout) (frame : list Z)
    : outcome (option rx_out) :=
  let! d := decap_inner4 s layout frame in
  match d with
  | None => Done None
  | Some i =>
      if negb (inner_dst_port i =? local_port) then Done (Some (s, buf, result))
      else
        let! out := rx_deliver s buf result (inner_payload i)
                      (V4 (inner_src_ip i) (inner_src_port i)) false in
        Done (Some out)
  end.

Definition rx_udp4 (s : UdpSocket) (now local_port : Z) (buf : list Z)
    (result : option (Z * SocketAddr)) (frame : list Z) : outcome (option rx_out) :=
  if s_only_v6 s then Done None
  else
    let! parsed := parse_udp_packet_ref frame in
    match parsed with
    | None => Done None
    | Some p =>
        let! ok := verify_ipv4_checksum frame in
        if negb ok then Done (Some (s, buf, result)) else
        let! ok := verify_udp_checksum frame in
        if negb ok then Done (Some (s, buf, result)) else
        let s := s <| s_arp := (s_arp s) <| arp_cache :=
                        cache_insert (arp_cache (s_arp s)) now (r_src_ip p) (r_src_mac p) |> |> in
        if negb (r_dst_port p =? local_port) then Done (Some (s, buf, result))
        else
          let! out := rx_deliver s buf result (r_payload p) (V4 (r_src_ip p) (r_src_port p)) true in
          Done (Some out)
    end.

Definition rx_udp6 (s : UdpSocket) (now local_port : Z) (buf : list Z)
    (result : option (Z * SocketAddr)) (frame : list Z) : outcome rx_out :=
  let! parsed := parse_udp6_packet_ref frame in
  match parsed with
  | None => Done (s, buf, result)
  | Some p =>
      let! ok := verify_udp6_checksum frame in
      if negb ok then Done (s, buf, result) else
      let s := s <| s_ndp := (s_ndp s) <| ndp_cache :=
                      insert_if_changed (ndp_cache (s_ndp s)) now (v6r_src_ip p) (v6r_src_mac p) |> |> in
      if negb (v6r_dst_port p =? local_port) then Done (s, buf, result)
      else rx_deliver s buf result (v6r_payload p) (V6 (v6r_src_ip p) (v6r_src_port p) 0 0) true
  end.

(** [process_frame_zerocopy_locked]. *)
Definition vlan_accepts (s : UdpSocket) (layout : FrameLayout) : bool :=
  match s_vlan s with
  | Some vlan_cfg => accepts_frame vlan_cfg (vid_of (vlan_tci layout))
  | None => true
  end.

Definition process_frame (s : UdpSocket) (now : Z) (blocking : bool) (frame : list Z)
    (local_port : Z) (buf : list Z) (result : option (Z * SocketAddr)) (hw_vlan_tci : option Z)
    : outcome rx_out :=
  let! layout := detect_vlan frame hw_vlan_tci in
  match layout with None => Done (s, buf, result) | Some layout =>
  if negb (vlan_accepts s layout) then Done (s, buf, result) else
  let! r := rx_arp s now blocking layout frame in
  match r with Some s => Done (s, buf, result) | None =>
  let! r := rx_icmp s blocking layout frame in
  match r with Some s => Done (s, buf, result) | None =>
  let! r := rx_ndp s now blocking layout frame in
  match r with Some s => Done (s, buf, result) | None =>
  let! r := rx_icmpv6 s blocking layout frame in
  match r with Some s => Done (s, buf, result) | None =>
  let! r := rx_tunnel s local_port buf result layout frame in
  match r with Some out => Done out | None =>
  let! r := rx_udp4 s now local_port buf result frame in
  match r with Some out => Done out | None =>
  rx_udp6 s now local_port buf result frame
  end end end end end end end.

(** *** Receiving *)

(** A burst: each frame with the VLAN tag the hardware stripped from it. *)
Fixpoint process_burst (s : UdpSocket) (now : Z) (blocking : bool)
    (frames : list (list Z * option Z)) (local_port : Z) (buf : list Z)
    (result : option (Z * SocketAddr)) : outcome rx_out :=
  match frames with
  | [] => Done (s, buf, result)
  | (frame, hw_vlan_tci) :: frames =>
      let! (s, buf, result) :=
        process_frame s now blocking frame local_port buf result hw_vlan_tci in
      process_burst s now blocking frames local_port buf result
  end.

(** [try_recv_from_inline_poll]: the queue first, then one poll of the backend, which
    answers with [burst]. *)
Definition try_recv_from (s : UdpSocket) (now : Z) (blocking : bool)
    (burst : result (list (list Z * option Z)) ErrorKind) (buf : list Z)
    : outcome (UdpSocket * list Z * result (option (Z * SocketAddr)) ErrorKind) :=
  let! (s, buf, popped) := rx_dequeue_into s buf in
  match popped with
  | Some r => Done (s, buf, Ok (Some r))
  | None =>
      match burst with
      | Err e => Done (s, buf, Err e)
      | Ok frames =>
          let! (s, buf, result) :=
            process_burst s now blocking frames (port (s_local_addr s)) buf None in
          Done (s, buf, Ok result)
      end
  end.

(** [recv_from_inline]: poll [i] happens at [clock i] and yields [bursts i]. *)
Fixpoint recv_from_loop (fuel i : nat) (s : UdpSocket) (clock : nat -> Z)
    (bursts : nat -> result (list (list Z * option Z)) ErrorKind) (deadline : option Z)
    (buf : list Z) : outcome (UdpSocket * list Z * result (Z * SocketAddr) ErrorKind) :=
  match fuel with
  | O => OutOfFuel
  | S fuel =>
      if match deadline with Some dl => dl <=? clock i | None => false end
      then Done (s, buf, Err KWouldBlock)
      else
        let! (s, buf, r) := try_recv_from s (clock i) true (bursts i) buf in
        match r with
        | Err e => Done (s, buf, Err e)
        | Ok (Some r) => Done (s, buf, Ok r)
        | Ok None => recv_from_loop fuel (S i) s clock bursts deadline buf
        end
  end.

(** *** Waiting for an ARP reply *)

(** One frame received while waiting. *)
Definition arp_wait_frame (s : UdpSocket) (now : Z) (frame : list Z) : outcome UdpSocket :=
  if (14 <=? length frame)%nat then
    let! ethertype := read16 frame 12 in
    if ethertype =? ETH_TYPE_ARP then
      let! (h, reply) := process_arp (s_arp s) now frame in
      let s := s <| s_arp := h |> in
      match reply with
      | Some f => let! (s, _) := send_frame_mode s f None true in Done s
      | None => Done s
      end
    else if ethertype =? ETH_TYPE_IPV4 then
      let! parsed := parse_udp_packet frame in
      match parsed with
      | None => Done s
      | Some p =>
          let! src_mac := slice frame 6 12 in
          match to_mac src_mac with
          | None => Panic
          | Some src_mac =>
              let s := s <| s_arp := (s_arp s) <| arp_cache :=
                              cache_insert (arp_cache (s_arp s)) now (u_src_ip p) src_mac |> |> in
              Done (rx_enqueue s (u_payload p) (V4 (u_src_ip p) (u_src_port p)) (zlen (u_payload p)))
          end
      end
    else Done s
  else Done s.

Fixpoint arp_wait_frames (s : UdpSocket) (now : Z) (frames : list (list Z)) : outcome UdpSocket :=
  match frames with
  | [] => Done s
  | frame :: frames => let! s := arp_wait_frame s now frame in arp_wait_frames s now frames
  end.

Context (recv : nat -> result (list (list Z)) ErrorKind) (clock : nat -> Z).

(** The polls of one attempt, from poll [i] on. *)
Fixpoint arp_polls (n i : nat) (s : UdpSocket) (target_ip : Ipv4Addr)
    : outcome (UdpSocket * result (option Mac) ErrorKind) :=
  match n with
  | O => Done (s, Ok None)
  | S n =>
      match recv i with
      | Err e => Done (s, Err e)
      | Ok frames =>
          let! s := arp_wait_frames s (clock i) frames in
          match arp_resolve (s_arp s) (clock i) target_ip with
          | Some mac => Done (s, Ok (Some mac))
          | None => arp_polls n (S i) s target_ip
          end
      end
  end.

Definition MAX_ATTEMPTS : nat := 3.
Definition POLLS_PER_ATTEMPT : nat := Z.to_nat 10000.

Fixpoint arp_attempts (attempts i : nat) (s : UdpSocket) (arp_frame : list Z)
    (target_ip : Ipv4Addr) : outcome (UdpSocket * result Mac ErrorKind) :=
  match attempts with
  | O => Done (s, Err KAddrNotAvailable)
  | S attempts =>
      let! (s, r) := send_frame_mode s arp_frame None true in
      match r with
      | Err e => Done (s, Err e)
      | Ok _ =>
          let! (s, r) := arp_polls POLLS_PER_ATTEMPT i s target_ip in
          match r with
          | Err e => Done (s, Err e)
          | Ok (Some mac) => Done (s, Ok mac)
          | Ok None => arp_attempts attempts (i + POLLS_PER_ATTEMPT) s arp_frame target_ip
          end
      end
  end.

(** [resolve_arp]. *)
Definition resolve_arp (s : UdpSocket) (target_ip : Ipv4Addr)
    : outcome (UdpSocket * result Mac ErrorKind) :=
  let! f := make_request (s_arp s) target_ip in
  match f with
  | None => Done (s, Ok (s_dst_mac s))
  | Some arp_frame => arp_attempts MAX_ATTEMPTS 0 s arp_frame target_ip
  end.

(** *** Sending *)

(** The largest payload of [send_to_v4]. *)
Definition max_payload4 (s : UdpSocket) : Z :=
  let m := table_max_udp_payload (s_routing s) in
  match s_vxlan s, s_geneve s, s_gue s with
  | Some _, _, _ => ssub m (Z.of_nat Vxlan.VXLAN_ENCAP_OVERHEAD)
  | None, Some _, _ => ssub m (Z.of_nat Geneve.GENEVE_ENCAP_OVERHEAD)
  | None, None, Some _ => ssub m (Z.of_nat Gue.GUE_ENCAP_OVERHEAD)
  | None, None, None => m
  end.

(** Whose hardware address is needed: the tunnel's remote end, or the destination. *)
Definition arp_target_ip (s : UdpSocket) (dst_ip : Ipv4Addr) : Ipv4Addr :=
  match s_vxlan s, s_geneve s, s_gue s with
  | Some cfg, _, _ => vtep_remote_ip _ cfg
  | None, Some cfg, _ => vtep_remote_ip _ cfg
  | None, None, Some cfg => Gue.remote_ip cfg
  | None, None, None => dst_ip
  end.

(** [has_hw_vlan_insert]. *)
Definition has_hw_vlan_insert (s : UdpSocket) : bool :=
  match s_backend s with
  | Dpdk tx_offload _ => has_bit tx_offload RTE_ETH_TX_OFFLOAD_VLAN_INSERT
  | Generic => false
  end.

(** The frame, built in the scratch buffer, and the tag left to the hardware. *)
Definition build_frame4 (s : UdpSocket) (dst_mac : Mac) (src_ip : Ipv4Addr) (src_port : Z)
    (dst_ip : Ipv4Addr) (dst_port : Z) (buf : list Z)
    : outcome (list Z * result Z UdpError * option Z) :=
  match s_vxlan s, s_geneve s, s_gue s with
  | Some cfg, _, _ =>
      let! (out, r) := Vxlan.build_vxlan_frame_into (s_scratch s) (s_mac s) dst_mac
        src_ip (vtep_remote_ip _ cfg) (vtep_local_port _ cfg) (vtep_remote_port _ cfg)
        (vtep_vni _ cfg) (vtep_src_mac _ cfg) (vtep_dst_mac _ cfg)
        src_ip dst_ip src_port dst_port buf (s_ttl s) in
      Done (out, r, None)
  | None, Some cfg, _ =>
      let! (out, r) := Geneve.build_geneve_frame_into (s_scratch s) (s_mac s) dst_mac
        src_ip (vtep_remote_ip _ cfg) (vtep_local_port _ cfg) (vtep_remote_port _ cfg)
        (Geneve.header_new (vtep_vni _ cfg)) (vtep_src_mac _ cfg) (vtep_dst_mac _ cfg)
        src_ip dst_ip src_port dst_port buf (s_ttl s) in
      Done (out, r, None)
  | None, None, Some cfg =>
      let! (out, r) := Gue.build_gue_frame_into (s_scratch s) (s_mac s) dst_mac
        src_ip (Gue.remote_ip cfg) (Gue.local_port cfg) (Gue.remote_port cfg)
        src_ip dst_ip src_port dst_port buf (s_ttl s) in
      Done (out, r, None)
  | None, None, None =>
      let plain tci :=
        let! (out, r) := build_udp_frame_into (s_scratch s) (s_mac s) dst_mac
          src_ip dst_ip src_port dst_port buf (s_ttl s) in
        Done (out, r, tci) in
      match s_vlan s with
      | Some v =>
          if tags_on_tx v then
            if has_hw_vlan_insert s && negb (force_software v) then plain (Some (encode_tci v))
            else
              let! (out, r) := build_udp_frame_into_vlan (s_scratch s) (s_mac s) dst_mac
                src_ip dst_ip src_port dst_port buf (s_ttl s) v in
              Done (out, r, None)
          else plain None
      | None => plain None
      end
  end.

(** Hand the scratch buffer to the backend and count the datagram. *)
Definition transmit (s : UdpSocket) (hw_vlan_tci : option Z) (blocking : bool) (len : Z)
    : outcome (UdpSocket * result Z ErrorKind) :=
  let! (s, r) := send_frame_mode s (s_scratch s) hw_vlan_tci blocking in
  match r with
  | Err e => Done (s, Err e)
  | Ok _ =>
      match s_connection_state s with
      | Some c =>
          let! c := record_send c len in
          Done (s <| s_connection_state := Some c |>, Ok len)
      | None => Done (s, Ok len)
      end
  end.

(** The hardware address of the next hop: cached, asked for, or the configured one. *)
Definition next_hop_mac (s : UdpSocket) (now : Z) (arp_target : Ipv4Addr)
    : outcome (UdpSocket * result Mac ErrorKind) :=
  match arp_resolve (s_arp s) now arp_target with
  | Some mac => Done (s, Ok mac)
  | None => if s_auto_arp s then resolve_arp s arp_target else Done (s, Ok (s_dst_mac s))
  end.

(** [send_to_v4]. *)
Definition send_to_v4 (s : UdpSocket) (now : Z) (buf : list Z) (dst_ip : Ipv4Addr)
    (dst_port : Z) (blocking : bool) : outcome (UdpSocket * result Z ErrorKind) :=
  let '(src_ip, src_port) := match s_local_addr s with
                             | V4 ip p => (ip, p)
                             | V6 _ p _ _ => (UNSPECIFIED, p)
                             end in
  if max_payload4 s <? zlen buf then Done (s, Err KInvalidInput)
  else
    let! hop := lookup (s_routing s) (arp_target_ip s dst_ip) in
    let arp_target := match hop with Direct ip => ip | Gateway gw => gw end in
    let! (s, mac) := next_hop_mac s now arp_target in
    match mac with
    | Err e => Done (s, Err e)
    | Ok dst_mac =>
        let! (out, built, hw_vlan_tci) := build_frame4 s dst_mac src_ip src_port dst_ip dst_port buf in
        let s := s <| s_scratch := out |> in
        match built with
        | Err _ => Done (s, Err KOther)
        | Ok _ => transmit s hw_vlan_tci blocking (zlen buf)
        end
    end.

(** [send_to_v6]. *)
Definition send_to_v6 (s : UdpSocket) (now : Z) (buf : list Z) (dst_ip : Ipv6Addr)
    (dst_port : Z) (blocking : bool) : outcome (UdpSocket * result Z ErrorKind) :=
  match s_local_addr s with
  | V4 _ _ => Done (s, Err KInvalidInput)
  | V6 src_ip src_port _ _ =>
      if ssub (table_mtu (s_routing s)) 48 <? zlen buf then Done (s, Err KInvalidInput)
      else
        let! (s, dst_mac) :=
          match ndp_resolve (s_ndp s) now dst_ip with
          | Some mac => Done (s, mac)
          | None =>
              if octet6 dst_ip 0 =? 255 then Done (s, ipv6_multicast_mac dst_ip)
              else
                let! ns := make_solicitation (s_ndp s) dst_ip in
                match ns with
                | Some f =>
                    let! (s, _) := send_frame_mode s f None blocking in Done (s, broadcast_mac)
                | None => Done (s, broadcast_mac)
                end
          end in
        let! (out, built) := build_udp6_frame_into (s_scratch s) (s_mac s) dst_mac src_ip dst_ip
          src_port dst_port buf (s_ttl s) in
        let s := s <| s_scratch := out |> in
        match built with
        | Err _ => Done (s, Err KOther)
        | Ok _ => transmit s None blocking (zlen buf)
        end
  end.

(** [send_to_addr_mode] and [send]. *)
Definition send_to_addr_mode (s : UdpSocket) (now : Z) (buf : list Z) (addr : SocketAddr)
    (blocking : bool) : outcome (UdpSocket * result Z ErrorKind) :=
  match addr with
  | V4 ip p => send_to_v4 s now buf ip p blocking
  | V6 ip p _ _ => send_to_v6 s now buf ip p blocking
  end.

Definition udp_send (s : UdpSocket) (now : Z) (buf : list Z)
    : outcome (UdpSocket * result Z ErrorKind) :=
  match s_connected_addr s with
  | None => Done (s, Err KNotConnected)
  | Some addr => send_to_addr_mode s now buf addr true
  end.

End Backend.

(** ** The receive buffer

    The specification of the socket's buffer: a queue of datagrams bounded in packets and in
    bytes, with a count of what did not fit. *)
Record fifo := MkFifo { pending : list (list Z * SocketAddr); lost : Z; lost_bytes : Z }.

Definition total_bytes (l : list (list Z * SocketAddr)) : Z :=
  foldr (fun p acc => zlen (fst p) + acc) 0 l.

Definition fifo_arrive (mp mb : Z) (f : fifo) (payload : list Z) (src : SocketAddr) : fifo :=
  if (zlen (pending f) <? mp) && (total_bytes (pending f) + zlen payload <=? mb)
  then MkFifo (pending f ++ [(payload, src)]) (lost f) (lost_bytes f)
  else MkFifo (pending f) (lost f + 1) (lost_bytes f + zlen payload).

(** A read takes the oldest datagram and returns the part that fits. *)
Definition fifo_read (f : fifo) (n : nat) : fifo * option (list Z * SocketAddr) :=
  match pending f with
  | [] => (f, None)
  | (payload, src) :: rest => (MkFifo rest (lost f) (lost_bytes f), Some (take n payload, src))
  end.

Inductive rx_op : Type :=
| Arrive (payload : list Z) (src : SocketAddr)
| Read (buf : list Z).

(** The answers of the reads of a run: what they put at the front of their buffers, and the
    source. *)
Fixpoint socket_run (s : UdpSocket) (ops : list rx_op)
    : outcome (UdpSocket * list (option (list Z * SocketAddr))) :=
  match ops with
  | [] => Done (s, [])
  | Arrive payload src :: ops => socket_run (rx_enqueue s payload src (zlen payload)) ops
  | Read buf :: ops =>
      let! (s, buf, r) := rx_dequeue_into s buf in
      let! (s, rs) := socket_run s ops in
      Done (s, option_map (fun '(n, src) => (take (Z.to_nat n) buf, src)) r :: rs)
  end.

Fixpoint fifo_run (mp mb : Z) (f : fifo) (ops : list rx_op)
    : fifo * list (option (list Z * SocketAddr)) :=
  match ops with
  | [] => (f, [])
  | Arrive payload src :: ops => fifo_run mp mb (fifo_arrive mp mb f payload src) ops
  | Read buf :: ops =>
      let '(f, r) := fifo_read f (length buf) in
      let '(f, rs) := fifo_run mp mb f ops in (f, r :: rs)
  end.

Record buffer_refines (mp mb : Z) (s : UdpSocket) (f : fifo) : Prop := {
  br_packets : packets (s_queue s) = pending f;
  br_bytes : current_bytes (s_queue s) = total_bytes (pending f);
  br_limit : total_bytes (pending f) <= mb;
  br_max : max_packets (s_queue s) = mp /\ max_bytes (s_queue s) = mb;
  br_flag : s_has_buffered_packets s = negb (bool_decide (pending f = []));
  br_lost : s_rx_dropped_packets s = u64 (lost f);
  br_lost_bytes : s_rx_dropped_bytes s = u64 (lost_bytes f) }.

Lemma total_bytes_app l m : total_bytes (l ++ m) = total_bytes l + total_bytes m.
Proof. unfold total_bytes. induction l as [|p l IH]; [done|]. simpl. rewrite IH. lia. Qed.

Lemma total_bytes_nonneg l : 0 <= total_bytes l.
Proof.
  unfold total_bytes. induction l as [|p l IH]; [done|]. simpl. pose proof (zlen_nonneg (fst p)). lia.
Qed.

Lemma wadd64_u64 a b : wadd64 (u64 a) b = u64 (a + b).
Proof. unfold wadd64, u64. apply Zplus_mod_idemp_l. Qed.

Lemma enqueue_refines mp mb s f payload src :
  mb < USIZE_MAX -> buffer_refines mp mb s f ->
  buffer_refines mp mb (rx_enqueue s payload src (zlen payload)) (fifo_arrive mp mb f payload src).
Proof.
  intros Hmb [Hp Hb Hl [Hm Hm'] Hf Hd Hdb]. unfold rx_enqueue, push_slice, fifo_arrive.
  rewrite Hp, Hb, Hm, Hm'. pose proof (total_bytes_nonneg (pending f)). pose proof (zlen_nonneg payload).
  assert ((mp <=? zlen (pending f))
          || (mb <? Z.min (total_bytes (pending f) + zlen payload) USIZE_MAX)
          = negb ((zlen (pending f) <? mp) && (total_bytes (pending f) + zlen payload <=? mb))) as ->.
  { rewrite negb_andb, Z.leb_antisym. f_equal. rewrite <- Z.ltb_antisym. apply eq_bool_prop_intro.
    rewrite !Is_true_true, !Z.ltb_lt. unfold USIZE_MAX in *. lia. }
  destruct ((zlen (pending f) <? mp) && (total_bytes (pending f) + zlen payload <=? mb)) eqn:E;
    cbn [negb].
  - apply andb_prop in E as [_ E]. apply Z.leb_le in E.
    split; rsimpl; cbn [pending lost lost_bytes]; rewrite ?total_bytes_app; cbn [total_bytes foldr fst]; try done; try lia.
    symmetry. apply negb_true_iff, bool_decide_eq_false. by destruct (pending f).
  - split; rsimpl; cbn [pending lost lost_bytes]; rewrite ?Hd, ?Hdb, ?wadd64_u64; done.
Qed.

Lemma dequeue_refines mp mb s f buf :
  buffer_refines mp mb s f ->
  exists s' buf' r, rx_dequeue_into s buf = Done (s', buf', r) /\
    buffer_refines mp mb s' (fst (fifo_read f (length buf))) /\
    option_map (fun '(n, src) => (take (Z.to_nat n) buf', src)) r = snd (fifo_read f (length buf)).
Proof.
  intros [Hp Hb Hl [Hm Hm'] Hf Hd Hdb]. unfold rx_dequeue_into, pop_into, fifo_read. rewrite Hp, Hb.
  destruct (pending f) as [|[payload src] rest] eqn:Ef.
  - cbn [obind]. eexists _, _, _. split; [reflexivity|]. cbn [fst snd option_map]. split; [|done].
    rewrite Hp. cbn [bool_decide]. split; rsimpl; rewrite ?Ef; done.
  - rewrite slice_in_range by lia. cbn [obind]. unfold blit.
    rewrite (proj2 (Nat.leb_le 0 _)), (proj2 (Nat.leb_le _ (length buf))) by lia.
    rewrite (proj2 (Nat.eqb_eq _ _)) by (rewrite length_take, length_drop; lia).
    cbn [andb obind]. eexists _, _, _. split; [reflexivity|]. cbn [fst snd option_map]. split.
    + pose proof (total_bytes_nonneg rest) as Hr. cbn [total_bytes foldr fst] in Hl, Hb |- *.
      fold (total_bytes rest) in Hl, Hb |- *. pose proof (zlen_nonneg payload).
      assert (ssub (zlen payload + total_bytes rest) (zlen payload) = total_bytes rest) as Hs
        by (unfold ssub; lia).
      rsimpl. destruct (length (free_list (s_queue s)) <? MAX_POOLED_BUFFERS)%nat; rsimpl;
        (destruct (bool_decide_reflect (rest = [])) as [->|Hne];
         split; rsimpl; cbn [pending lost lost_bytes] in *; rewrite ?Hs, ?Hf; try done; try lia;
         symmetry; apply negb_true_iff; by rewrite bool_decide_eq_false).
    + rewrite Nat2Z.id, drop_0, Nat.sub_0_r. rewrite take_0, app_nil_l. do 2 f_equal.
      rewrite take_app_length' by (rewrite length_take; lia).
      destruct (Nat.le_ge_cases (length buf) (length payload)).
      * by rewrite Nat.min_l by done.
      * rewrite Nat.min_r by done. by rewrite !take_ge by lia.
Qed.

(** The receive buffer of a socket is a bounded queue: whatever datagrams arrive and however the
    application reads in between, every read returns the oldest datagram not read yet, cut to its
    buffer; a datagram is refused exactly when the packet or the byte limit would be
    exceeded, and then it is counted; the byte account is exact and the limit never exceeded. *)
Theorem receive_buffer_refines_fifo mp mb s f ops :
  mb < USIZE_MAX -> buffer_refines mp mb s f ->
  exists s' answers, socket_run s ops = Done (s', answers) /\
    answers = snd (fifo_run mp mb f ops) /\
    buffer_refines mp mb s' (fst (fifo_run mp mb f ops)).
Proof.
  intros Hmb. revert s f. induction ops as [|[payload src|buf] ops IH]; intros s f Hr.
  - by eexists _, _.
  - cbn. by apply IH, enqueue_refines.
  - cbn. destruct (dequeue_refines mp mb s f buf Hr) as (s1 & buf1 & r & -> & Hr1 & Er). cbn [obind].
    destruct (fifo_read f (length buf)) as [f1 a]. cbn in Hr1, Er.
    destruct (IH s1 f1 Hr1) as (s2 & rs & -> & Ers & Hr2). cbn [obind].
    destruct (fifo_run mp mb f1 ops) as [f2 rs']. cbn in *. subst. eauto.
Qed.

(** A socket at 10.0.0.2 on the DPDK backend. *)
Definition sample_socket : UdpSocket :=
  socket_new (V4 host_b 53) (Dpdk 0 (Some 2048%nat)) mac_b (arp_handler_new mac_b host_b) host_b 0 table_new.

Lemma receive_buffer_refines_fifo_witness :
  exists s', socket_run sample_socket
    [Arrive [1; 2; 3] (V4 host_a 7); Arrive [4] (V4 host_a 8); Read [0; 0]; Read [0; 0]; Read [0]]
  = Done (s', [Some ([1; 2], V4 host_a 7); Some ([4], V4 host_a 8); None]).
Proof.
  destruct (receive_buffer_refines_fifo 4096 262144 sample_socket (MkFifo [] 0 0)
    [Arrive [1; 2; 3] (V4 host_a 7); Arrive [4] (V4 host_a 8); Read [0; 0]; Read [0; 0]; Read [0]])
    as (s' & rs & H & E & _).
  - reflexivity.
  - split; try split; reflexivity || (vm_compute; congruence).
  - exists s'. rewrite H, E. reflexivity.
Defined.
