(* ===== verification/UdpRobust.v ===== *)
(** * A socket survives every frame

    The whole receive handler of a UDP socket returns on every byte string the network can
    deliver, replies and errors included, and leaves the socket's configuration alone. *)

From stdpp Require Import base numbers list gmap.
From Stdlib Require Import ZArith Lia.
From S2P Require Import Prelude State Buffer Checksum Codec CodecOptions CodecFrames UdpChecksum UdpFrame UdpLayout Udp6Frame Tunnel TunnelTrip Routing NeighborCache Arp Icmp Icmp6 Ndp UdpSocket.

#[local] Open Scope nat_scope.

(** ** Checksum verifiers *)

Lemma fold_total s : is_u32 s -> exists r, fold_carry FOLD_FUEL s = Done r.
Proof. intros (r & E & _)%fold_carry_spec. eauto. Qed.

Lemma wadd32_u32 a b : is_u32 (wadd32 a b).
Proof. unfold wadd32, is_u32. wrap_lia. Qed.

#[local] Hint Resolve wadd32_u32 : core.

Lemma slice_bytes l a b s : Forall is_u8 l -> slice l a b = Done s -> Forall is_u8 s.
Proof. unfold slice. intros Hl. destruct (_ && _); [|done]. intros [= <-]. by apply Forall_take, Forall_drop. Qed.

Lemma ones_total l : Forall is_u8 l -> (zlen l <= 65535)%Z -> exists r, ones_complement_sum l = Done r.
Proof. intros Hl Hn. destruct (ones_complement_residue l Hl) as (r & E & _); [lia|eauto]. Qed.

Lemma verify_ipv4_total frame : exists b, verify_ipv4_checksum frame = Done b.
Proof.
  unfold verify_ipv4_checksum. destruct (detect_vlan_total frame None) as ([l|] & -> & Hl); [|by exists false].
  specialize (Hl l eq_refl). cbn [obind]. unfold IPV4_HEADER_LEN. cbv zeta.
  repeat parse_step; try by eexists.
  match goal with |- context [fold_carry _ ?s] => destruct (fold_total s) as [r ->] end; [by apply add_words_range|].
  by eexists.
Qed.

Lemma verify_udp_total frame :
  Forall is_u8 frame -> (zlen frame <= 65535)%Z -> exists b, verify_udp_checksum frame = Done b.
Proof.
  intros Hb Hn. unfold verify_udp_checksum.
  destruct (detect_vlan_total frame None) as ([l|] & -> & Hl); [|by exists false].
  specialize (Hl l eq_refl). cbn [obind]. unfold IPV4_HEADER_LEN, UDP_HEADER_LEN. cbv zeta.
  repeat parse_step; try by eexists.
  match goal with |- context [ones_complement_sum ?d] => destruct (ones_total d) as [o ->] end.
  - by apply Forall_take, Forall_drop.
  - unfold zlen in *. rewrite length_take. lia.
  - cbn [obind]. match goal with |- context [fold_carry _ ?s] => destruct (fold_total s) as [r ->]; [done|] end.
    by eexists.
Qed.

Lemma checksum_add_total s l :
  Forall is_u8 l -> (zlen l <= 65535)%Z -> exists r, checksum_add s l = Done r /\ is_u32 r.
Proof. intros Hl Hn. unfold checksum_add. destruct (ones_total l Hl Hn) as [r ->]. eexists. split; [reflexivity|done]. Qed.

Lemma fold32_total s : is_u32 s -> exists r, fold32 s = Done r.
Proof. intros H. unfold fold32. destruct (fold_total s H) as [r ->]. by eexists. Qed.

Lemma udp6_checksum_total src dst h payload :
  Forall is_u8 src -> Forall is_u8 dst -> Forall is_u8 payload ->
  (zlen src <= 65535)%Z -> (zlen dst <= 65535)%Z -> (zlen payload <= 65535)%Z ->
  exists c, udp6_checksum src dst h payload = Done c.
Proof.
  intros Hs Hd Hp Ls Ld Lp. unfold udp6_checksum.
  destruct (checksum_add_total 0 src Hs Ls) as (a & -> & _). cbn [obind].
  destruct (checksum_add_total a dst Hd Ld) as (b & -> & _). cbn [obind]. cbv zeta.
  match goal with |- context [checksum_add ?s payload] =>
    destruct (checksum_add_total s payload Hp Lp) as (c & -> & Hc) end. cbn [obind].
  destruct (fold32_total c Hc) as [r ->]. cbn [obind]. eauto.
Qed.

Lemma verify_udp6_total frame :
  Forall is_u8 frame -> (zlen frame <= 65535)%Z -> exists b, verify_udp6_checksum frame = Done b.
Proof.
  intros Hb Hn. unfold verify_udp6_checksum.
  destruct (detect_vlan_total frame None) as ([l|] & -> & Hl); [|by exists false].
  specialize (Hl l eq_refl). cbn [obind]. unfold IPV6_HEADER_LEN, UDP_HEADER_LEN. cbv zeta.
  repeat parse_step; try by eexists.
  match goal with |- context [walk_extension_headers ?d] =>
    destruct (walk_total d) as ([nh|] & -> & Hw) end; rewrite obind_Done; cbv beta iota zeta; [|by eexists].
  repeat parse_step; try by eexists.
  unfold zlen in *.
  match goal with |- context [udp6_checksum ?a ?b ?c ?d] => destruct (udp6_checksum_total a b c d) as [k ->] end;
    try apply be_bytes_u8; try (by apply Forall_take, Forall_drop); unfold zlen;
    try (rewrite length_octets6; lia); try (rewrite length_take; lia).
  by eexists.
Qed.

(** ** Building: a store keeps the length and what is before it *)

Lemma store_keep n l i v :
  n <= i -> i < length l -> exists l', store l i v = Done l' /\ length l' = length l /\ take n l' = take n l.
Proof.
  intros Hn Hi. unfold store. rewrite (proj2 (Nat.ltb_lt _ _)) by done. eexists. split; [reflexivity|].
  split; [by rewrite length_insert|]. by apply take_insert_ge.
Qed.

Lemma blit_keep n l a b src :
  n <= a -> a <= b -> b <= length l -> length src = b - a ->
  exists l', blit l a b src = Done l' /\ length l' = length l /\ take n l' = take n l.
Proof.
  intros Hn Hab Hb Hs. unfold blit.
  rewrite (proj2 (Nat.leb_le _ _)), (proj2 (Nat.leb_le _ _)), (proj2 (Nat.eqb_eq _ _)) by done.
  eexists. split; [reflexivity|]. split.
  - rewrite !length_app, length_take, length_drop. lia.
  - rewrite take_app_le by (rewrite length_take; lia). rewrite take_take. by rewrite Nat.min_l by done.
Qed.

(** Runs the next store of a builder, behind the first [n] bytes. *)
Ltac keep_step n :=
  let l' := fresh "l" in let E := fresh in let Hl := fresh "Hl" in let Ht := fresh "Ht" in
  match goal with
  | |- context [store ?l ?i ?v] =>
      destruct (store_keep n l i v) as (l' & E & Hl & Ht); [lia|lia|rewrite E; clear E]
  | |- context [blit ?l ?a ?b ?s] =>
      destruct (blit_keep n l a b s) as (l' & E & Hl & Ht); [lia|lia|lia|cbn; lia|rewrite E; clear E]
  end; rewrite ?obind_Done; cbv beta iota.

Lemma icmpv6_checksum_total src dst m : exists c, icmpv6_checksum src dst m = Done c.
Proof.
  unfold icmpv6_checksum, finish_checksum. cbv zeta.
  assert (forall i l s, is_u32 s -> is_u32 (message_words i s l)) as H.
  { fix IH 2. intros i [|a [|b l]] s Hs; cbn [message_words]; [done| |apply IH]; destruct (i =? 2); done. }
  match goal with |- context [fold_carry _ ?s] => destruct (fold_total s) as [r ->] end; [by apply H|].
  cbn [obind]. eauto.
Qed.

(** The addresses of the IPv6 header of a frame are bytes; the lengths fit. *)
Definition addresses_ok (f : list Z) : Prop := Forall is_u8 (take 32 (drop 22 f)).

Lemma header_addresses f dm sm len nh hop src dst :
  take 54 f = eth_bytes dm sm ETH_TYPE_IPV6 ++ ip6_bytes len nh hop src dst -> addresses_ok f.
Proof.
  intros E. unfold addresses_ok. change 32 with (54 - 22). rewrite <- skipn_firstn_comm, E.
  unfold ip6_bytes. rewrite !app_assoc, <- app_assoc, drop_app_length' by done.
  apply Forall_app_2; apply be_bytes_u8.
Qed.

Lemma build_icmp6_total p :
  exists f, build_icmpv6_frame p = Done f /\ length f = 62 + length (j_payload p) /\ addresses_ok f.
Proof.
  unfold build_icmpv6_frame, ETH_HEADER_LEN, IPV6_HEADER_LEN, ICMPV6_HEADER_LEN.
  set (n := length (j_payload p)). set (t := replicate _ 0%Z).
  assert (length t = 62 + n) as Ht by (subst t; by rewrite length_replicate).
  rewrite <- (app_nil_l t). rewrite put_eth_next, obind_Done by (done || lia). cbv beta.
  rewrite write_ipv6_next, obind_Done by (rewrite ?length_drop; cbn; lia). cbv beta.
  rewrite app_nil_l, drop_drop. clearbody t.
  match goal with |- context [?e ++ ip6_bytes ?a ?b ?c ?d ?x] =>
    set (H := e ++ ip6_bytes a b c d x); assert (length H = 54) as HH by done end.
  set (f0 := H ++ _). assert (length f0 = 62 + n) as Hf0 by (subst f0; rewrite length_app, length_drop; lia).
  assert (take 54 f0 = H) as Ht0 by (subst f0; by rewrite take_app_length').
  clearbody f0. do 4 keep_step 54.
  assert (exists l', match j_payload p with [] => Done l2 | _ :: _ => blit l2 (14 + 40 + 8) (length l2) (j_payload p) end
            = Done l' /\ length l' = length l2 /\ take 54 l' = take 54 l2) as (l3 & -> & Hl3 & Ht5).
  { assert (length l2 = 62 + length (j_payload p)) as E by (fold n; lia). clear -E.
    destruct (j_payload p); [by eauto|]. apply blit_keep; lia. }
  rewrite obind_Done. cbv beta. rewrite slice_from_done, obind_Done by lia. cbv beta.
  edestruct icmpv6_checksum_total as [c ->]. rewrite obind_Done. cbv beta.
  keep_step 54. eexists. split; [reflexivity|]. split; [lia|].
  eapply header_addresses. rewrite Ht6, Ht5, Ht4, Ht3, Ht2, Ht1, Ht0. reflexivity.
Qed.

(** ** Handing frames to the backend *)

(** A frame of a reply: not too long, and with an IPv6 header of bytes if it has one. *)
Definition sendable (f : list Z) : Prop :=
  (zlen f <= 65535)%Z /\ (62 <= length f -> read16 f 12 = Done ETH_TYPE_IPV6 -> addresses_ok f).

Lemma pseudo_total src dst len : exists c, udp_pseudo_header_checksum src dst len = Done c.
Proof.
  unfold udp_pseudo_header_checksum. cbv zeta.
  match goal with |- context [fold_carry _ ?s] => destruct (fold_total s) as [r ->]; [done|] end. by eexists.
Qed.

Lemma pseudo6_total src dst len :
  Forall is_u8 src -> Forall is_u8 dst -> (zlen src <= 65535)%Z -> (zlen dst <= 65535)%Z ->
  exists c, udp6_pseudo_header_checksum src dst len = Done c.
Proof.
  intros Hs Hd Ls Ld. unfold udp6_pseudo_header_checksum.
  destruct (checksum_add_total 0 src Hs Ls) as (a & -> & _). cbn [obind].
  destruct (checksum_add_total a dst Hd Ld) as (b & -> & _). cbn [obind]. cbv zeta.
  by apply fold32_total.
Qed.

Lemma offload4_total off f : 42 <= length f -> exists r, offload_ipv4 off f = Done r.
Proof.
  intros Hl. unfold offload_ipv4, ETH_HEADER_LEN, IPV4_HEADER_LEN.
  generalize (has_bit off RTE_ETH_TX_OFFLOAD_IPV4_CKSUM) as b1.
  generalize (has_bit off RTE_ETH_TX_OFFLOAD_UDP_CKSUM) as b2. intros [] []; cbv beta iota zeta; cbn [orb].
  4: by eexists.
  all: repeat keep_step 0; rewrite ?obind_Done; cbv beta iota; repeat parse_step.
  all: try (edestruct pseudo_total as [c ->]; rewrite obind_Done; cbv beta; keep_step 0); by eexists.
Qed.

Lemma offload6_total off f : 62 <= length f -> addresses_ok f -> exists r, offload_ipv6 off f = Done r.
Proof.
  unfold addresses_ok. intros Hl Ha. unfold offload_ipv6, ETH_HEADER_LEN, IPV6_HEADER_LEN.
  destruct (has_bit off RTE_ETH_TX_OFFLOAD_UDP_CKSUM); [|by eexists]. repeat parse_step.
  assert (take 16 (drop 22 f) = take 16 (take 32 (drop 22 f))) as E1 by (by rewrite take_take).
  assert (take 16 (drop 38 f) = drop 16 (take 32 (drop 22 f))) as E2
    by (rewrite skipn_firstn_comm, drop_drop; done).
  edestruct pseudo6_total as [c ->].
  - change (14 + 24 - (14 + 8)) with 16. change (14 + 8) with 22. rewrite E1. by apply Forall_take.
  - change (14 + 40 - (14 + 24)) with 16. change (14 + 24) with 38. rewrite E2. by apply Forall_drop.
  - unfold zlen. rewrite length_take. lia.
  - unfold zlen. rewrite length_take. lia.
  - rewrite obind_Done. cbv beta. keep_step 0. by eexists.
Qed.

Lemma tx_offload_total off f : sendable f -> exists r, tx_offload_data off f = Done r.
Proof.
  intros [_ Ha]. unfold tx_offload_data, ETH_HEADER_LEN.
  destruct (negb (off =? 0)%Z); cbn [andb]; [|by eexists].
  destruct (Nat.leb_spec (14 + 2) (length f)); [|by eexists].
  destruct (read16_total f 12) as [e E]; [lia|]. rewrite E. cbn [obind].
  unfold TOTAL_HEADER_LEN, TOTAL_HEADER_LEN_V6, ETH_HEADER_LEN, IPV4_HEADER_LEN, IPV6_HEADER_LEN, UDP_HEADER_LEN.
  destruct (Z.eqb_spec e ETH_TYPE_IPV4); cbn [andb].
  - destruct (Nat.leb_spec (14 + 20 + 8) (length f)); [by apply offload4_total|].
    subst e. change (ETH_TYPE_IPV4 =? ETH_TYPE_IPV6)%Z with false. by eexists.
  - destruct (Z.eqb_spec e ETH_TYPE_IPV6) as [->|]; cbn [andb]; [|by eexists].
    destruct (Nat.leb_spec (14 + 40 + 8) (length f)); [|by eexists]. apply offload6_total; auto.
Qed.

(** ** Replies *)

Lemma short_sendable f : length f < 62 -> sendable f.
Proof. intros H. split; [unfold zlen; lia|lia]. Qed.

Lemma arp_answer_total h now frame :
  exists h' r, process_arp h now frame = Done (h', r) /\
    local_mac h' = local_mac h /\ local_ips h' = local_ips h /\ forall f, r = Some f -> sendable f.
Proof.
  unfold process_arp. destruct (parse_arp_total frame) as [[arp|] ->]; cbn [obind]; [|by eexists _, _].
  cbv zeta. destruct (is_request arp); [|by eexists _, _].
  destruct (bool_decide _); [|by eexists _, _]. unfold build_arp_reply. rewrite build_arp_frame_bytes. cbn [obind].
  eexists _, _. split; [reflexivity|]. rsimpl. split_and!; [done..|]. intros f [= <-]. apply short_sendable. cbn. lia.
Qed.

Lemma parse_icmp_len frame :
  exists r, parse_icmp_packet frame = Done r /\
    forall p, r = Some p -> 42 + length (i_payload p) <= length frame.
Proof.
  unfold parse_icmp_packet. destruct (detect_vlan_total frame None) as (r & -> & Hr).
  rewrite obind_Done. cbv beta. destruct r as [l|]; [|by exists None]. specialize (Hr l eq_refl).
  unfold IPV4_HEADER_LEN, ICMP_HEADER_LEN. repeat parse_step; try by exists None.
  all: eexists; split; [reflexivity|]; intros p [= <-]; cbn [i_payload length]; rewrite ?length_drop; lia.
Qed.

Lemma icmp_answer_total h frame :
  (zlen frame <= 65535)%Z ->
  exists r, process_icmp_full h frame = Done r /\ forall f, r = Some (ActReply f) -> sendable f.
Proof.
  intros Hn. unfold process_icmp_full, echo_answer, make_echo_reply.
  destruct (parse_icmp_len frame) as (r & -> & Hr). cbn [obind].
  destruct (parse_icmp_error_total frame) as [e He].
  destruct r as [p|]; [destruct (is_echo_request p); cbn [negb andb]; [destruct (bool_decide _)|]|].
  1: { rewrite build_icmp_frame_bytes. cbn [obind]. eexists. split; [reflexivity|]. intros f [= <-].
       specialize (Hr p eq_refl). split; [unfold zlen in *; cbn; lia|]. intros _ E. discriminate. }
  all: cbn [obind]; rewrite He; cbn [obind]; destruct e as [i|]; [destruct (bool_decide _)|]; by eexists.
Qed.

Lemma parse_icmp6_len frame :
  exists r, parse_icmpv6_packet frame = Done r /\
    forall p, r = Some p -> 62 + length (j_payload p) <= length frame.
Proof.
  unfold parse_icmpv6_packet. destruct (find_icmp6_total frame) as (r & -> & Hr).
  rewrite obind_Done. cbv beta. destruct r as [[l3 i]|]; [|by exists None].
  destruct (Hr _ _ eq_refl) as (? & ? & ? & ?). unfold ICMPV6_HEADER_LEN. repeat parse_step; try by exists None.
  all: eexists; split; [reflexivity|]; intros p [= <-]; cbn [j_payload length]; rewrite ?length_drop; lia.
Qed.

Lemma icmp6_answer_total h frame :
  (zlen frame <= 65535)%Z ->
  exists r, process_icmpv6_full h frame = Done r /\ forall f, r = Some (ActReply6 f) -> sendable f.
Proof.
  intros Hn. unfold process_icmpv6_full, echo6_answer, make_echo6_reply.
  destruct (parse_icmp6_len frame) as (r & -> & Hr). cbn [obind].
  destruct (parse_icmp6_error_total frame) as [e He].
  destruct r as [p|]; [destruct (is_echo6_request p); cbn [negb andb]; [destruct (existsb _ _)|]|].
  1: { match goal with |- context [build_icmpv6_frame ?q] =>
         destruct (build_icmp6_total q) as (f & -> & Hl & Ha) end. cbn [obind j_payload] in *.
       eexists. split; [reflexivity|]. intros f' [= <-]. specialize (Hr p eq_refl).
       split; [unfold zlen in *; lia|done]. }
  all: cbn [obind]; rewrite He; cbn [obind]; destruct e as [i|]; [destruct (existsb _ _)|]; by eexists.
Qed.

Lemma na_sendable sm src dm dst flags : sendable (na_frame sm src dm dst flags).
Proof.
  assert (length (na_frame sm src dm dst flags) = 86) as Hl.
  { unfold na_frame, raw6, ndp_msg. rewrite !length_app, !length_octets6. reflexivity. }
  split; [unfold zlen; lia|]. intros _ _. eapply header_addresses. unfold na_frame, raw6.
  rewrite app_assoc, take_app_length'; [reflexivity|].
  rewrite !length_app, !length_octets6. reflexivity.
Qed.

Lemma ndp_answer_total h now frame :
  Forall is_u8 frame -> wf_mac (ndp_mac h) ->
  exists h' r, process_ndp h now frame = Done (h', r) /\
    ndp_mac h' = ndp_mac h /\ ndp_ips h' = ndp_ips h /\ forall f, r = Some f -> sendable f.
Proof.
  intros Hb Hm. unfold process_ndp. destruct (parse_ndp_total frame Hb) as [[p|] ->]; cbn [obind]; [|by eexists _, _].
  destruct (_ =? _)%Z; [|destruct (_ =? _)%Z; [|by eexists _, _]]; cbv zeta.
  - set (h1 := match link_layer_addr p with Some _ => _ | None => h end).
    assert (ndp_mac h1 = ndp_mac h /\ ndp_ips h1 = ndp_ips h) as [E1 E2].
    { subst h1. destruct (link_layer_addr p); [destruct (negb _)|]; done. }
    rewrite E1. destruct (bool_decide _).
    + rewrite build_na_bytes by done. cbn [obind]. eexists _, _. split; [reflexivity|].
      split_and!; [done..|]. intros f [= <-]. apply na_sendable.
    + by eexists _, _.
  - eexists _, _. split; [reflexivity|]. destruct (link_layer_addr p); done.
Qed.

(** ** The handler *)

(** What no received frame changes. *)
Definition config_of (s : UdpSocket) :=
  (s_local_addr s, s_connected_addr s, s_backend s, s_mac s, s_ttl s, s_dst_mac s, s_icmp s, s_icmpv6 s,
   (local_mac (s_arp s), local_ips (s_arp s), ndp_mac (s_ndp s), ndp_ips (s_ndp s)),
   (s_auto_arp s, s_auto_icmp s, s_routing s, s_vlan s, s_gue s, s_vxlan s, s_geneve s),
   (s_family s, s_only_v6 s, max_packets (s_queue s), max_bytes (s_queue s))).

(** The connection's counters have room for one more datagram. *)
Definition room (s : UdpSocket) (buf : list Z) : Prop :=
  match s_connection_state s with
  | Some c => (packets_received c + 1 < 2 ^ 64 /\ bytes_received c + zlen buf < 2 ^ 64)%Z
  | None => True
  end.

Section Handler.

Context (answer : list (TxDesc * result Z ErrorKind) -> TxDesc -> bool -> result Z ErrorKind).

Lemma send_total s f tci blocking :
  sendable f ->
  exists s' r, send_frame_mode answer s f tci blocking = Done (s', r) /\
    config_of s' = config_of s /\ s_connection_state s' = s_connection_state s.
Proof.
  intros Hf. unfold send_frame_mode, tx_desc. destruct (s_backend s) as [off room|] eqn:Eb.
  - destruct room as [room|]; [|by eexists _, _]. destruct (room <? length f); [by eexists _, _|].
    destruct Hf as [Hl Ha]. rewrite u16_small, Z.eqb_refl by (pose proof (zlen_nonneg f); unfold is_u16; lia).
    cbn [negb]. cbv zeta. destruct (tx_offload_total off f (conj Hl Ha)) as [[[d fl] l3] ->]. cbn [obind].
    rsimpl. rewrite Eb. destruct (answer _ _ _) as [n|e]; eexists _, _; (split; [reflexivity|]); done.
  - cbn [obind]. rsimpl. rewrite Eb. by eexists _, _.
Qed.

Lemma auto_reply_total s f blocking :
  sendable f ->
  exists s', send_auto_reply answer s f blocking = Done s' /\
    config_of s' = config_of s /\ s_connection_state s' = s_connection_state s.
Proof.
  intros Hf. unfold send_auto_reply. destruct (send_total s f None blocking Hf) as (s' & r & -> & Hc). cbn [obind].
  destruct r as [n|[]]; [by eauto..|destruct blocking; by eauto|by eauto|by eauto].
Qed.

(** What every stage leaves behind. *)
Definition kept (s s' : UdpSocket) : Prop :=
  config_of s' = config_of s /\ s_connection_state s' = s_connection_state s.

Lemma reply_kept s o blocking :
  (forall f, o = Some f -> sendable f) ->
  exists s', match o with Some f => send_auto_reply answer s f blocking | None => Done s end = Done s' /\ kept s s'.
Proof. destruct o as [f|]; intros H; [by apply auto_reply_total, H|by exists s]. Qed.

Lemma rx_arp_total s now blocking l frame :
  exists r, rx_arp answer s now blocking l frame = Done r /\ forall s', r = Some s' -> kept s s'.
Proof.
  unfold rx_arp. destruct (_ && _); [|by exists None].
  destruct (arp_answer_total (s_arp s) now frame) as (h & o & -> & E1 & E2 & Ho). cbn [obind]. cbv zeta.
  destruct (reply_kept (s <| s_arp := h |>) o blocking Ho) as (s' & -> & Hk1 & Hk2). cbn [obind].
  eexists. split; [reflexivity|]. intros ? [= <-]. split; [|done]. rewrite Hk1. unfold config_of. rsimpl. by rewrite E1, E2.
Qed.

Lemma queue_error_kept s e : kept s (queue_icmp_error s e).
Proof. unfold queue_icmp_error. by destruct (_ <? _). Qed.

Lemma rx_icmp_total s blocking l frame :
  (zlen frame <= 65535)%Z ->
  exists r, rx_icmp answer s blocking l frame = Done r /\ forall s', r = Some s' -> kept s s'.
Proof.
  intros Hn. unfold rx_icmp. destruct (_ =? _)%Z; cbn [andb]; [|by exists None].
  destruct (Nat.ltb_spec (l3_offset l + 9) (length frame)); [|by exists None].
  destruct (idx_in_range frame (l3_offset l + 9)) as (b & _ & ->); [lia|]. cbn [obind].
  destruct (b =? _)%Z; [|by exists None].
  destruct (icmp_answer_total (s_icmp s) frame Hn) as (r & -> & Hr). cbn [obind].
  destruct r as [[f|info]|]; cbn [obind].
  - destruct (s_auto_icmp s); cbn [obind].
    + destruct (auto_reply_total s f blocking (Hr f eq_refl)) as (s' & -> & Hk). cbn [obind].
      eexists. split; [reflexivity|]. by intros ? [= <-].
    + eexists. split; [reflexivity|]. by intros ? [= <-].
  - eexists. split; [reflexivity|]. intros ? [= <-]. destruct (_ =? _)%Z; [apply queue_error_kept|done].
  - eexists. split; [reflexivity|]. by intros ? [= <-].
Qed.

Lemma rx_ndp_total s now blocking l frame :
  Forall is_u8 frame -> wf_mac (ndp_mac (s_ndp s)) ->
  exists r, rx_ndp answer s now blocking l frame = Done r /\ forall s', r = Some s' -> kept s s'.
Proof.
  intros Hb Hm. unfold rx_ndp, ETH_HEADER_LEN, IPV6_HEADER_LEN.
  destruct ((_ =? _)%Z && s_auto_arp s); cbn [andb]; [|by exists None].
  destruct (Nat.ltb_spec (14 + 40) (length frame)); [|by exists None].
  destruct (idx_in_range frame (14 + 6)) as (b & _ & ->); [lia|]. cbn [obind].
  destruct (b =? _)%Z; [|by exists None].
  destruct (idx_in_range frame (14 + 40)) as (t & _ & ->); [lia|]. cbn [obind].
  destruct (_ || _); [|by exists None].
  destruct (ndp_answer_total (s_ndp s) now frame Hb Hm) as (h & o & -> & E1 & E2 & Ho). cbn [obind]. cbv zeta.
  destruct (reply_kept (s <| s_ndp := h |>) o blocking Ho) as (s' & -> & Hk1 & Hk2). cbn [obind].
  eexists. split; [reflexivity|]. intros ? [= <-]. split; [|done]. rewrite Hk1. unfold config_of. rsimpl. by rewrite E1, E2.
Qed.

Lemma rx_icmpv6_total s blocking l frame :
  (zlen frame <= 65535)%Z ->
  exists r, rx_icmpv6 answer s blocking l frame = Done r /\ forall s', r = Some s' -> kept s s'.
Proof.
  intros Hn. unfold rx_icmpv6, IPV6_HEADER_LEN. destruct (_ =? _)%Z; cbn [andb]; [|by exists None].
  destruct (Nat.ltb_spec (l3_offset l + 40) (length frame)); [|by exists None].
  rewrite slice_from_done, obind_Done by lia. cbv beta.
  edestruct walk_total as ([nh|] & -> & _); cbn [obind]; [|by exists None].
  destruct (_ =? _)%Z; [|by exists None].
  destruct (icmp6_answer_total (s_icmpv6 s) frame Hn) as (r & -> & Hr). cbn [obind].
  destruct r as [[f|info]|]; cbn [obind].
  - destruct (s_auto_icmp s); cbn [obind].
    + destruct (auto_reply_total s f blocking (Hr f eq_refl)) as (s' & -> & Hk). cbn [obind].
      eexists. split; [reflexivity|]. by intros ? [= <-].
    + eexists. split; [reflexivity|]. by intros ? [= <-].
  - eexists. split; [reflexivity|]. intros ? [= <-]. destruct (_ =? _)%Z; [apply queue_error_kept|done].
  - eexists. split; [reflexivity|]. by intros ? [= <-].
Qed.

(** What the handler leaves behind: the configuration, the length of the buffer, a result
    once there is one; and only the first datagram of a burst touches the connection. *)
Definition handled (s : UdpSocket) (buf : list Z) (result : option (Z * SocketAddr)) (out : rx_out) : Prop :=
  let '(s', buf', result') := out in
  config_of s' = config_of s /\ length buf' = length buf /\
  (forall r, result = Some r -> result' = Some r) /\
  (result' = None -> s_connection_state s' = s_connection_state s).

Lemma kept_handled s s' buf result : kept s s' -> handled s buf result (s', buf, result).
Proof. intros [H1 H2]. by split_and!. Qed.

Lemma enqueue_kept s payload src n : kept s (rx_enqueue s payload src n).
Proof. unfold rx_enqueue, push_slice. by destruct (_ || _). Qed.

Lemma rx_deliver_total s buf result payload src track :
  (result = None -> room s buf) ->
  exists out, rx_deliver s buf result payload src track = Done out /\ handled s buf result out.
Proof.
  intros Hr. unfold rx_deliver. cbv zeta. destruct (match s_connected_addr s with Some _ => _ | None => _ end).
  { eexists. split; [reflexivity|]. apply kept_handled, enqueue_kept. }
  destruct result as [r|]; [eexists; split; [reflexivity|apply kept_handled, enqueue_kept]|].
  rewrite slice_in_range, obind_Done by lia. cbv beta.
  edestruct (blit_keep 0 buf 0 (length buf `min` length payload)) as (buf' & -> & Hl & _);
    [lia|lia|lia|rewrite length_take, drop_0; lia|]. rewrite obind_Done. cbv beta.
  specialize (Hr eq_refl). unfold room in Hr.
  destruct track; cbn [obind]; [|by eexists]. destruct (s_connection_state s) as [c|]; cbn [obind]; [|by eexists].
  destruct Hr as [H1 H2]. unfold record_recv, add_u64. unfold zlen in H2.
  rewrite !(proj2 (Z.ltb_lt _ _)) by lia. cbn [obind]. by eexists.
Qed.

Lemma decap_total s l frame : exists r, decap_inner4 s l frame = Done r.
Proof.
  unfold decap_inner4. destruct (negb _); [by eexists|].
  assert (exists g, match s_gue s with
            | Some cfg => Gue.try_decap_gue frame (l3_offset l) (Gue.local_port cfg)
            | None => Done None end = Done g) as [g ->].
  { destruct (s_gue s) as [c|]; [|by eexists].
    by destruct (decapsulators_total frame (l3_offset l) (Gue.local_port c) None) as (? & _). }
  cbn [obind]. destruct g; [by eexists|].
  assert (exists g, match s_vxlan s with
            | Some cfg => Vxlan.try_decap_vxlan frame (l3_offset l) (vtep_local_port _ cfg) (Some (vtep_vni _ cfg))
            | None => Done None end = Done g) as [v ->].
  { destruct (s_vxlan s) as [c|]; [|by eexists].
    by destruct (decapsulators_total frame (l3_offset l) (vtep_local_port _ c) (Some (vtep_vni _ c)))
      as (_ & _ & ? & _). }
  cbn [obind]. destruct v; [by eexists|].
  assert (exists g, match s_geneve s with
            | Some cfg => Geneve.try_decap_geneve frame (l3_offset l) (vtep_local_port _ cfg) (Some (vtep_vni _ cfg))
            | None => Done None end = Done g) as [e ->].
  { destruct (s_geneve s) as [c|]; [|by eexists].
    by destruct (decapsulators_total frame (l3_offset l) (vtep_local_port _ c) (Some (vtep_vni _ c)))
      as (_ & _ & _ & _ & ? & _). }
  cbn [obind]. destruct e; by eexists.
Qed.

Lemma unchanged_handled s buf result : handled s buf result (s, buf, result).
Proof. by apply kept_handled. Qed.

#[local] Hint Resolve unchanged_handled : core.

Lemma rx_tunnel_total s port buf result l frame :
  (result = None -> room s buf) ->
  exists r, rx_tunnel s port buf result l frame = Done r /\ forall out, r = Some out -> handled s buf result out.
Proof.
  intros Hr. unfold rx_tunnel. destruct (decap_total s l frame) as [[i|] ->]; cbn [obind]; [|by exists None].
  destruct (negb _); [eexists; split; [reflexivity|]; by intros ? [= <-]|].
  destruct (rx_deliver_total s buf result (inner_payload i) (V4 (inner_src_ip i) (inner_src_port i)) false Hr)
    as (out & -> & Ho). cbn [obind]. eexists. split; [reflexivity|]. by intros ? [= <-].
Qed.

(** Delivery to a socket that has just learned a neighbour. *)
Lemma learned_deliver s s1 buf result payload src track :
  kept s s1 -> (result = None -> room s buf) ->
  exists out, rx_deliver s1 buf result payload src track = Done out /\ handled s buf result out.
Proof.
  intros [H1 H2] Hr. destruct (rx_deliver_total s1 buf result payload src track) as ([[s2 b] r] & -> & Hh).
  - intros E. specialize (Hr E). unfold room in *. by rewrite H2.
  - eexists. split; [reflexivity|]. cbn in *. destruct Hh as (E1 & E2 & E3 & E4). rewrite E1.
    split_and!; [done..|]. intros E. by rewrite E4.
Qed.

Lemma rx_udp4_total s now port buf result frame :
  Forall is_u8 frame -> (zlen frame <= 65535)%Z -> (result = None -> room s buf) ->
  exists r, rx_udp4 s now port buf result frame = Done r /\ forall out, r = Some out -> handled s buf result out.
Proof.
  intros Hb Hn Hr. unfold rx_udp4. destruct (s_only_v6 s); [by exists None|].
  destruct (udp_parsers_total_and_agree frame) as (o & _ & ->). cbn [obind].
  destruct o as [p|]; cbn [option_map]; [|by exists None].
  destruct (verify_ipv4_total frame) as [b1 ->]. cbn [obind].
  destruct b1; cbn [negb]; [|eexists; split; [reflexivity|]; by intros ? [= <-]].
  destruct (verify_udp_total frame Hb Hn) as [b2 ->]. cbn [obind].
  destruct b2; cbn [negb]; [|eexists; split; [reflexivity|]; by intros ? [= <-]]. cbv zeta.
  destruct (negb _); [eexists; split; [reflexivity|]; intros ? [= <-]; by apply kept_handled|].
  edestruct (learned_deliver s) as (out & -> & Ho); [|exact Hr|]; [done|]. cbn [obind].
  eexists. split; [reflexivity|]. by intros ? [= <-].
Qed.

Lemma rx_udp6_total s now port buf result frame :
  Forall is_u8 frame -> (zlen frame <= 65535)%Z -> (result = None -> room s buf) ->
  exists out, rx_udp6 s now port buf result frame = Done out /\ handled s buf result out.
Proof.
  intros Hb Hn Hr. unfold rx_udp6.
  destruct (udp6_parsers_total_and_agree frame) as (o & _ & ->). cbn [obind].
  destruct o as [p|]; cbn [option_map]; [|by eexists].
  destruct (verify_udp6_total frame Hb Hn) as [b1 ->]. cbn [obind].
  destruct b1; cbn [negb]; [|by eexists]. cbv zeta.
  destruct (negb _); [eexists; split; [reflexivity|]; by apply kept_handled|].
  edestruct (learned_deliver s) as (out & -> & Ho); [|exact Hr|by eexists]; done.
Qed.

Lemma process_frame_total s now blocking frame port buf result tci :
  Forall is_u8 frame -> (zlen frame <= 65535)%Z -> wf_mac (ndp_mac (s_ndp s)) -> (result = None -> room s buf) ->
  exists out, process_frame answer s now blocking frame port buf result tci = Done out /\ handled s buf result out.
Proof.
  intros Hb Hn Hm Hr. unfold process_frame.
  destruct (detect_vlan_total frame tci) as ([l|] & -> & _); cbn [obind]; [|by eexists].
  destruct (negb _); [by eexists|].
  destruct (rx_arp_total s now blocking l frame) as ([s1|] & -> & H1); cbn [obind];
    [by eexists; split; [reflexivity|apply kept_handled; auto]|].
  destruct (rx_icmp_total s blocking l frame Hn) as ([s1|] & -> & H2); cbn [obind];
    [by eexists; split; [reflexivity|apply kept_handled; auto]|].
  destruct (rx_ndp_total s now blocking l frame Hb Hm) as ([s1|] & -> & H3); cbn [obind];
    [by eexists; split; [reflexivity|apply kept_handled; auto]|].
  destruct (rx_icmpv6_total s blocking l frame Hn) as ([s1|] & -> & H4); cbn [obind];
    [by eexists; split; [reflexivity|apply kept_handled; auto]|].
  destruct (rx_tunnel_total s port buf result l frame Hr) as ([out|] & -> & H5); cbn [obind]; [by eauto|].
  destruct (rx_udp4_total s now port buf result frame Hb Hn Hr) as ([out|] & -> & H6); cbn [obind]; [by eauto|].
  by apply rx_udp6_total.
Qed.

Lemma process_burst_total now blocking port : forall frames s buf result,
  Forall (fun f => Forall is_u8 (fst f) /\ (zlen (fst f) <= 65535)%Z) frames -> wf_mac (ndp_mac (s_ndp s)) ->
  (result = None -> room s buf) ->
  exists out, process_burst answer s now blocking frames port buf result = Done out /\ handled s buf result out.
Proof.
  induction frames as [|[f tci] frames IH]; intros s buf result Hf Hm Hr; [by eexists|].
  apply Forall_cons_1 in Hf as [[Hb Hn] Hf]. cbn [process_burst].
  destruct (process_frame_total s now blocking f port buf result tci Hb Hn Hm Hr) as ([[s1 b1] r1] & -> & H1).
  cbn [obind]. destruct H1 as (E1 & E2 & E3 & E4).
  assert (ndp_mac (s_ndp s1) = ndp_mac (s_ndp s)) as Em by (unfold config_of in E1; congruence).
  destruct (IH s1 b1 r1 Hf) as ([[s2 b2] r2] & -> & F1 & F2 & F3 & F4).
  - by rewrite Em.
  - intros E. unfold room in *. rewrite E4 by done. assert (result = None) as Hnone.
    { destruct result as [r|]; [|done]. specialize (E3 r eq_refl). congruence. }
    specialize (Hr Hnone). destruct (s_connection_state s); [|done]. unfold zlen in *. by rewrite E2.
  - eexists. split; [reflexivity|]. cbn. split_and!; [congruence|congruence|auto|]. intros E. rewrite F4 by done.
    apply E4. destruct r1 as [x|]; [|done]. specialize (F3 x eq_refl). congruence.
Qed.

Lemma dequeue_total s buf :
  exists s' buf' r, rx_dequeue_into s buf = Done (s', buf', r) /\ kept s s' /\ length buf' = length buf.
Proof.
  unfold rx_dequeue_into, pop_into. destruct (packets (s_queue s)) as [|[payload src] rest] eqn:E; cbn [obind].
  - eexists _, _, _. split; [reflexivity|]. rsimpl. rewrite E. done.
  - rewrite slice_in_range, obind_Done by lia. cbv beta.
    edestruct (blit_keep 0 buf 0 (length buf `min` length payload)) as (buf' & -> & Hl & _);
      [lia|lia|lia|rewrite length_take, drop_0; lia|]. cbn [obind]. eexists _, _, _. split; [reflexivity|].
    split; [|done]. unfold kept, config_of. rsimpl. destruct (_ <? _); rsimpl; destruct (bool_decide _); done.
Qed.

(** C24: No traffic can crash a socket or reconfigure it: for every socket and every burst of frames of at most
    64 KiB, whatever their bytes, the whole receive path (VLAN filter, ARP, ICMP, neighbour
    discovery and ICMPv6 with their replies through the backend and its checksum
    offloads, the three tunnels, both UDP paths with their checksums) returns; the
    addresses, tunnels, routes, limits and flags of the socket are what they were, and the buffer
    keeps its length. *)
Theorem socket_survives_every_burst s now blocking frames buf :
  Forall (fun f => Forall is_u8 (fst f) /\ (zlen (fst f) <= 65535)%Z) frames ->
  wf_mac (ndp_mac (s_ndp s)) -> room s buf ->
  exists s' buf' r, try_recv_from answer s now blocking (Ok frames) buf = Done (s', buf', Ok r) /\
    config_of s' = config_of s /\ length buf' = length buf.
Proof.
  intros Hf Hm Hr. unfold try_recv_from.
  destruct (dequeue_total s buf) as (s1 & b1 & r1 & -> & [E1 E2] & E3). cbn [obind].
  destruct r1 as [r1|]; [by eexists _, _, _|].
  destruct (process_burst_total now blocking (port (s_local_addr s1)) frames s1 b1 None Hf)
    as ([[s2 b2] r2] & -> & F1 & F2 & _).
  - assert (ndp_mac (s_ndp s1) = ndp_mac (s_ndp s)) as -> by (unfold config_of in E1; congruence). done.
  - intros _. unfold room in *. rewrite E2. destruct (s_connection_state s); [|done]. unfold zlen in *. by rewrite E3.
  - cbn [obind]. eexists _, _, _. split; [reflexivity|]. split; congruence.
Qed.

End Handler.

Lemma socket_survives_every_burst_witness :
  exists s' buf' r,
    try_recv_from (fun _ _ _ => Ok 1%Z) sample_socket 0 true
      (Ok [(replicate 90 255%Z, None); ([8; 6]%Z, Some 5%Z); (replicate 60 8%Z, None)]) (replicate 16 0%Z)
    = Done (s', buf', Ok r) /\ config_of s' = config_of sample_socket /\ length buf' = 16.
Proof.
  apply (socket_survives_every_burst (fun _ _ _ => Ok 1%Z) sample_socket 0 true
    [(replicate 90 255%Z, None); ([8; 6]%Z, Some 5%Z); (replicate 60 8%Z, None)] (replicate 16 0%Z)).
  - repeat constructor; try (vm_compute; congruence).
  - repeat constructor; vm_compute; congruence.
  - exact I.
Defined.
