(* ===== verification/UdpWire.v ===== *)
(** * A datagram over the wire

    What a socket sends, plain, tagged or through any of the three tunnels, is what the
    matching socket receives; and what the receive path does that a UDP socket should not. *)

From stdpp Require Import base numbers list gmap.
From Stdlib Require Import ZArith Lia.
From S2P Require Import Prelude State Buffer Checksum Codec CodecOptions CodecFrames UdpChecksum UdpFrame UdpLayout Udp6Frame Tunnel TunnelTrip Routing NeighborCache Arp Icmp Icmp6 Ndp UdpSocket UdpRobust.

#[local] Open Scope Z_scope.

(** ** Senders *)

Definition wf_vtep (c : VtepConfig Ipv4Addr) : Prop :=
  wf_ipv4 (vtep_remote_ip _ c) /\ is_vni (vtep_vni _ c) /\ is_u16 (vtep_remote_port _ c) /\
  wf_mac (vtep_src_mac _ c) /\ wf_mac (vtep_dst_mac _ c).

(** The configuration of a socket has the machine widths of its fields. *)
Record wf_socket (s : UdpSocket) : Prop := {
  ws_ttl : is_u8 (s_ttl s);
  ws_vlan : forall v, s_vlan s = Some v -> wf_vlan v;
  ws_gue : forall c, s_gue s = Some c -> wf_ipv4 (Gue.remote_ip c) /\ is_u16 (Gue.remote_port c);
  ws_vxlan : forall c, s_vxlan s = Some c -> wf_vtep c;
  ws_geneve : forall c, s_geneve s = Some c -> wf_vtep c }.

(** The tag of its frames: the tunnels send untagged ones. *)
Definition wire_tag (s : UdpSocket) : option Z :=
  match s_vxlan s, s_geneve s, s_gue s, s_vlan s with
  | None, None, None, Some v => if tags_on_tx v then Some (encode_tci v) else None
  | _, _, _, _ => None
  end.

(** The outer addresses, ports and payload of a datagram. *)
Definition wire_dst (s : UdpSocket) (dst : Ipv4Addr) : Ipv4Addr := arp_target_ip s dst.

Definition wire_ports (s : UdpSocket) (sp dp : Z) : Z * Z :=
  match s_vxlan s, s_geneve s, s_gue s with
  | Some c, _, _ => (vtep_local_port _ c, vtep_remote_port _ c)
  | None, Some c, _ => (vtep_local_port _ c, vtep_remote_port _ c)
  | None, None, Some c => (Gue.local_port c, Gue.remote_port c)
  | None, None, None => (sp, dp)
  end.

Definition wire_body (s : UdpSocket) (src dst : Ipv4Addr) (sp dp : Z) (payload : list Z) : list Z :=
  match s_vxlan s, s_geneve s, s_gue s with
  | Some c, _, _ => l2_body (VxlanTrip.vxlan_bytes (vtep_vni _ c)) (vtep_src_mac _ c) (vtep_dst_mac _ c)
                      src dst sp dp payload
  | None, Some c, _ =>
      l2_body (GeneveTrip.geneve_bytes (Geneve.header_new (vtep_vni _ c))) (vtep_src_mac _ c)
        (vtep_dst_mac _ c) src dst sp dp payload
  | None, None, Some _ => GueTrip.gue_body src dst sp dp payload
  | None, None, None => payload
  end.

Definition wire_frame (s : UdpSocket) (dmac : Mac) (src dst : Ipv4Addr) (sp dp : Z) (payload : list Z)
    : list Z :=
  udp_frame (s_mac s) dmac (wire_tag s) src (wire_dst s dst) (fst (wire_ports s sp dp))
    (snd (wire_ports s sp dp)) (wire_body s src dst sp dp payload) (s_ttl s) 0.

(** No work is left to the hardware, and its buffers hold the frames of the largest MTU. *)
Definition software_backend (b : SocketBackend) : Prop :=
  match b with
  | Generic => True
  | Dpdk off (Some room) => off = 0 /\ (Z.to_nat 9100 <= room)%nat
  | Dpdk _ None => False
  end.

Lemma wf_geneve_new vni : is_vni vni -> GeneveTrip.wf_geneve (Geneve.header_new vni).
Proof. intros H. split_and!; try done; cbn; lia. Qed.

Lemma build_frame4_wire s dmac src dst sp dp payload :
  wf_socket s -> software_backend (s_backend s) -> wf_udp src dst payload -> zlen payload <= 8969 ->
  exists n, build_frame4 s dmac src sp dst dp payload
    = Done (wire_frame s dmac src dst sp dp payload, Ok n, None).
Proof.
  intros [Httl Hvl Hg Hv He] Hb Hwf Hl. pose proof Hwf as (Hs & Hd & _).
  unfold build_frame4, wire_frame, wire_tag, wire_dst, wire_ports, wire_body, arp_target_ip.
  destruct (s_vxlan s) as [c|]; [|destruct (s_geneve s) as [c|]; [|destruct (s_gue s) as [c|]]].
  - destruct (Hv c eq_refl) as (H1 & H2 & H3 & H4 & H5).
    rewrite VxlanTrip.vxlan_layout by (done || lia). cbn [obind]. by eexists.
  - destruct (He c eq_refl) as (H1 & H2 & H3 & H4 & H5).
    rewrite GeneveTrip.geneve_layout by (done || lia || by apply wf_geneve_new). cbn [obind]. by eexists.
  - destruct (Hg c eq_refl) as (H1 & H2).
    rewrite GueTrip.gue_layout by (done || apply GueTrip.gue_body_wf; done || lia). cbn [obind]. by eexists.
  - assert (forall t : option Z, exists n, (let! (out, r) := build_udp_frame_into (s_scratch s) (s_mac s) dmac src dst sp dp
              payload (s_ttl s) in Done (out, r, t))
            = Done (udp_frame (s_mac s) dmac None src dst sp dp payload (s_ttl s) 0, Ok n, t)) as Hp.
    { intros t. rewrite build_udp_into_bytes by (done || lia). cbn [obind]. by eexists. }
    assert (has_hw_vlan_insert s = false) as Hw.
    { unfold has_hw_vlan_insert. destruct (s_backend s) as [off [room|]|]; [|done..].
      destruct Hb as [-> _]. done. }
    destruct (s_vlan s) as [v|]; [|apply Hp]. destruct (tags_on_tx v); [|apply Hp]. rewrite Hw. cbn [andb].
    rewrite build_vlan_layout by (done || lia). cbn [obind]. by eexists.
Qed.

(** ** Receivers *)

(** The sender's tunnel ends at the receiver. *)
Definition tunnel_matches (s r : UdpSocket) : Prop :=
  match s_vxlan s, s_geneve s, s_gue s with
  | Some c, _, _ => s_gue r = None /\ exists c', s_vxlan r = Some c' /\
      vtep_local_port _ c' = vtep_remote_port _ c /\ vtep_vni _ c' = vtep_vni _ c
  | None, Some c, _ => s_gue r = None /\ s_vxlan r = None /\ exists c', s_geneve r = Some c' /\
      vtep_local_port _ c' = vtep_remote_port _ c /\ vtep_vni _ c' = vtep_vni _ c
  | None, None, Some c => exists c', s_gue r = Some c' /\ Gue.local_port c' = Gue.remote_port c
  | None, None, None => s_gue r = None /\ s_vxlan r = None /\ s_geneve r = None
  end.

(** The receiver takes the sender's tags, and datagrams of its address. *)
Definition accepts (r s : UdpSocket) (peer : SocketAddr) : Prop :=
  vlan_accepts r (MkLayout ETH_TYPE_IPV4 (link_len (wire_tag s)) (wire_tag s)) = true /\
  s_only_v6 r = false /\ (s_connected_addr r = None \/ s_connected_addr r = Some peer).

Lemma wire_tag_u16 s : wf_socket s -> forall t, wire_tag s = Some t -> is_u16 t.
Proof.
  intros Hs t. unfold wire_tag. destruct (s_vxlan s), (s_geneve s), (s_gue s); try done.
  destruct (s_vlan s) as [v|] eqn:E; [|done]. destruct (tags_on_tx v); [|done]. intros [= <-].
  by apply encode_tci_u16, (ws_vlan s Hs).
Qed.

Lemma wire_ports_u16 s sp dp : wf_socket s -> is_u16 dp -> is_u16 (snd (wire_ports s sp dp)).
Proof.
  intros Hs Hdp. unfold wire_ports.
  destruct (s_vxlan s) as [c|] eqn:Ev; [by apply (ws_vxlan s Hs c Ev)|].
  destruct (s_geneve s) as [c|] eqn:Ee; [by apply (ws_geneve s Hs c Ee)|].
  destruct (s_gue s) as [c|] eqn:Eg; [by apply (ws_gue s Hs c Eg)|done].
Qed.

(** Once there is a result to give, the first datagram of a burst goes to the caller. *)
Lemma deliver_first r buf payload src track :
  s_connected_addr r = None \/ s_connected_addr r = Some src -> room r buf ->
  exists r' buf', rx_deliver r buf None payload src track
      = Done (r', buf', Some (Z.of_nat (Nat.min (length buf) (length payload)), src)) /\
    take (Nat.min (length buf) (length payload)) buf' = take (length buf) payload /\
    s_queue r' = s_queue r /\ config_of r' = config_of r.
Proof.
  intros Hc Hr. unfold rx_deliver. cbv zeta.
  assert (match s_connected_addr r with Some c => negb (bool_decide (src = c)) | None => false end = false) as ->.
  { destruct Hc as [->| ->]; [done|]. by rewrite bool_decide_eq_true_2. }
  rewrite slice_in_range, obind_Done by lia. cbv beta. unfold blit.
  rewrite (proj2 (Nat.leb_le 0 _)), (proj2 (Nat.leb_le _ (length buf))) by lia.
  rewrite (proj2 (Nat.eqb_eq _ _)) by (rewrite length_take, length_drop; lia).
  cbn [andb obind]. rewrite take_0, app_nil_l, Nat.sub_0_r, drop_0.
  assert (forall l, take (Nat.min (length buf) (length payload)) (take (Nat.min (length buf) (length payload)) payload ++ l)
            = take (length buf) payload) as Ht.
  { intros l. rewrite take_app_length' by (rewrite length_take; lia).
    destruct (Nat.le_ge_cases (length buf) (length payload)).
    - by rewrite Nat.min_l by done.
    - rewrite Nat.min_r by done. by rewrite !take_ge by lia. }
  unfold room in Hr. destruct track; cbn [obind]; [|by eexists _, _].
  destruct (s_connection_state r) as [c|]; cbn [obind]; [|by eexists _, _].
  destruct Hr as [H1 H2]. unfold record_recv, add_u64. unfold zlen in H2.
  rewrite !(proj2 (Z.ltb_lt _ _)) by lia. cbn [obind]. by eexists _, _.
Qed.

Section Wire.

Context (answer : list (TxDesc * result Z ErrorKind) -> TxDesc -> bool -> result Z ErrorKind).

(** A UDP frame passes the filters and reaches the tunnels and the UDP parsers. *)
Lemma process_udp_frame r now b port buf result tag sm dm src dst sp dp B ttl pad :
  (forall t, tag = Some t -> is_u16 t) ->
  vlan_accepts r (MkLayout ETH_TYPE_IPV4 (link_len tag) tag) = true ->
  let f := udp_frame sm dm tag src dst sp dp B ttl 0 ++ pad in
  process_frame answer r now b f port buf result None
  = (let! x := rx_tunnel r port buf result (MkLayout ETH_TYPE_IPV4 (link_len tag) tag) f in
     match x with Some out => Done out | None =>
     let! x := rx_udp4 r now port buf result f in
     match x with Some out => Done out | None => rx_udp6 r now port buf result f end end).
Proof.
  intros Ht Hv f.
  assert (idx f (link_len tag + 9) = Done 17) as H9.
  { unfold f, udp_frame. rewrite <- app_assoc, <- (length_link dm sm tag), idx_app.
    by destruct (datagram_fields 0 ttl src dst sp dp B pad) as (_ & E & _). }
  assert (detect_vlan f None = Done (Some (MkLayout ETH_TYPE_IPV4 (link_len tag) tag))) as Hd
    by (unfold f, udp_frame; rewrite <- app_assoc; by apply detect_vlan_link).
  clearbody f. unfold process_frame. rewrite Hd. cbn [obind]. rewrite Hv. cbn [negb].
  unfold rx_arp, rx_icmp, rx_ndp, rx_icmpv6. cbn [ethertype l3_offset vlan_tci].
  change (ETH_TYPE_IPV4 =? ETH_TYPE_ARP) with false. change (ETH_TYPE_IPV4 =? ETH_TYPE_IPV6) with false.
  change (ETH_TYPE_IPV4 =? ETH_TYPE_IPV4) with true. cbn [andb obind].
  destruct (link_len tag + 9 <? length f)%nat; [rewrite H9|]; reflexivity.
Qed.

(** Two sockets that differ in the ARP cache only. *)
Definition same_but_arp (r r' : UdpSocket) : Prop :=
  exists h : ArpHandler, r' = r <| s_arp := h |> /\ local_mac h = local_mac (s_arp r) /\ local_ips h = local_ips (s_arp r).

Lemma same_but_arp_refl r : same_but_arp r r.
Proof. exists (s_arp r). by destruct r. Qed.

(** The decapsulated datagram is for the port, and is delivered. *)
Ltac inner_delivers :=
  cbn [negb obind l2_inner Gue.decap_inner];
  cbn [inner_dst_port inner_payload inner_src_ip inner_src_port]; rewrite Z.eqb_refl; cbn [negb];
  match goal with
  | Hr1 : same_but_arp _ ?r1, E1 : _ = rx_deliver ?r1 _ _ _ _ ?track |- _ =>
      exists r1, track; split; [exact Hr1|]; rewrite <- E1; by destruct (rx_deliver _ _ _ _ _ _)
  end.

(** The frame of a datagram brings the matching socket to deliver it. *)
Lemma wire_reaches s r now b buf result dmac src dst sp dp payload pad :
  wf_socket s -> wf_udp src dst payload -> zlen payload <= 8969 -> is_u16 sp -> is_u16 dp ->
  tunnel_matches s r -> vlan_accepts r (MkLayout ETH_TYPE_IPV4 (link_len (wire_tag s)) (wire_tag s)) = true ->
  s_only_v6 r = false ->
  exists r1 track, same_but_arp r r1 /\
    process_frame answer r now b (wire_frame s dmac src dst sp dp payload ++ pad) dp buf result None
    = rx_deliver r1 buf result payload (V4 src sp) track.
Proof.
  intros Hs Hwf Hl Hsp Hdp Hm Hv H6. pose proof Hwf as (Hsrc & Hdst & _).
  pose proof (wire_ports_u16 s sp dp Hs Hdp) as Hop. pose proof (wire_tag_u16 s Hs) as Htag.
  unfold wire_frame. rewrite process_udp_frame by done.
  unfold tunnel_matches, wire_tag, wire_dst, arp_target_ip, wire_ports, wire_body in *.
  assert (exists r1 track, same_but_arp r r1 /\
    (let! x := (let! out := rx_deliver r buf result payload (V4 src sp) false in Done (Some out)) in
     match x with Some out => Done out | None => Panic end) = rx_deliver r1 buf result payload (V4 src sp) track)
    as (r1 & track & Hr1 & E1).
  { exists r, false. split; [apply same_but_arp_refl|]. by destruct (rx_deliver _ _ _ _ _ _). }
  unfold rx_tunnel, decap_inner4. cbn [ethertype l3_offset link_len].
  change (negb (ETH_TYPE_IPV4 =? ETH_TYPE_IPV4)) with false. cbv iota.
  destruct (s_vxlan s) as [c|] eqn:Ev; [|destruct (s_geneve s) as [c|] eqn:Ee; [|destruct (s_gue s) as [c|] eqn:Eg]];
    cbn [fst snd] in *.
  - destruct Hm as (-> & c' & -> & -> & ->). cbn [obind].
    destruct (ws_vxlan s Hs c Ev) as (W1 & W2 & W3 & W4 & W5). unfold Vxlan.try_decap_vxlan.
    edestruct (outer_v4_frame (s_mac s) dmac src (vtep_remote_ip _ c) (vtep_local_port _ c)
      (vtep_remote_port _ c)) as (E & pre & Hpre & Hf); [done|]. run_step E. rewrite Hf, <- Hpre.
    rewrite VxlanTrip.vxlan_decap_body by (done || lia). unfold vni_mismatch. rewrite Z.eqb_refl.
    inner_delivers.
  - destruct Hm as (-> & -> & c' & -> & -> & ->). cbn [obind].
    destruct (ws_geneve s Hs c Ee) as (W1 & W2 & W3 & W4 & W5). unfold Geneve.try_decap_geneve.
    edestruct (outer_v4_frame (s_mac s) dmac src (vtep_remote_ip _ c) (vtep_local_port _ c)
      (vtep_remote_port _ c)) as (E & pre & Hpre & Hf); [done|]. run_step E. rewrite Hf, <- Hpre.
    rewrite GeneveTrip.geneve_decap_body by (done || lia || by apply wf_geneve_new).
    unfold vni_mismatch. cbn [Geneve.vni Geneve.header_new]. rewrite Z.eqb_refl. inner_delivers.
  - destruct Hm as (c' & -> & ->). destruct (ws_gue s Hs c Eg) as (W1 & W2). unfold Gue.try_decap_gue.
    edestruct (outer_v4_frame (s_mac s) dmac src (Gue.remote_ip c) (Gue.local_port c) (Gue.remote_port c))
      as (E & pre & Hpre & Hf); [done|]. run_step E. rewrite Hf, <- Hpre.
    rewrite GueTrip.decap_body by (done || lia). inner_delivers.
  - destruct Hm as (-> & -> & ->). cbn [obind]. unfold rx_udp4. rewrite H6. clear E1 Hr1 r1 track.
    set (f := udp_frame _ _ _ _ _ _ _ _ _ _ ++ pad).
    edestruct (udp_parsers_total_and_agree f) as (p & Ep & ->).
    unfold f in Ep. rewrite udp_frame_parses in Ep by done. injection Ep as <-. cbn [option_map obind].
    destruct (udp_frame_checksums_verify (s_mac s) dmac
      (match s_vlan s with Some v => if tags_on_tx v then Some (encode_tci v) else None | None => None end)
      src dst sp dp payload (s_ttl s) 0 pad Hwf (ws_ttl s Hs) ltac:(done) Htag) as (C1 & C2 & _).
    fold f in C1, C2. rewrite C1. cbn [obind negb]. rewrite C2. cbn [obind negb]. unfold ref_of.
    cbn [u_src_mac u_src_ip u_src_port u_dst_port u_payload].
    cbn [r_dst_port r_src_ip r_src_mac r_src_port r_payload]. rewrite Z.eqb_refl. cbn [negb]. cbv zeta.
    match goal with |- context [rx_deliver ?q _ _ _ _ _] => exists q, true end.
    split; [by eexists|]. by destruct (rx_deliver _ _ _ _ _ _).
Qed.

Lemma length_wire_frame s dmac src dst sp dp payload :
  (length (wire_frame s dmac src dst sp dp payload) <= 92 + length payload)%nat.
Proof.
  unfold wire_frame, wire_body. rewrite length_udp_frame.
  assert (link_len (wire_tag s) <= 18)%nat by (destruct (wire_tag s); cbn; lia).
  destruct (s_vxlan s) as [c|] eqn:Ev; [|destruct (s_geneve s) as [c|] eqn:Ee; [|destruct (s_gue s) as [c|] eqn:Eg]].
  all: unfold wire_tag in *; rewrite ?Ev, ?Ee, ?Eg in *; cbn [link_len] in *.
  - rewrite length_l2_body. cbn. lia.
  - rewrite length_l2_body. cbn. lia.
  - rewrite GueTrip.length_gue_body. lia.
  - lia.
Qed.

(** A backend without offloads gets the frame as it is. *)
Lemma software_desc b f :
  software_backend b -> (length f <= Z.to_nat 9100)%nat ->
  tx_desc b f None = Done (Ok (MkTx f 0 None 0)).
Proof.
  intros Hb Hl. unfold tx_desc. destruct b as [off [room|]|]; [|done|done]. destruct Hb as [-> Hr].
  rewrite (proj2 (Nat.ltb_ge _ _)) by lia. rewrite u16_small, Z.eqb_refl by (unfold is_u16, zlen; lia). done.
Qed.

Definition send_room (s : UdpSocket) (payload : list Z) : Prop :=
  match s_connection_state s with
  | Some c => packets_sent c + 1 < 2 ^ 64 /\ bytes_sent c + zlen payload < 2 ^ 64
  | None => True
  end.

Context (recv : nat -> result (list (list Z)) ErrorKind) (clock : nat -> Z).

(** C9: A datagram arrives as it was sent: for every socket whose configuration fits its machine widths
    and whose backend takes frames without offloads, and every payload within the MTU, [send_to]
    to a resolved next hop succeeds, hands exactly one frame to the backend, and that
    frame, with any padding the link adds, makes the matching socket answer the payload (cut to the
    caller's buffer) and the sender's address, whether the frames are plain, 802.1Q-tagged,
    or in a GUE, VXLAN or GENEVE tunnel. *)
Theorem datagram_over_the_wire s r now now' b b' buf src sp dst dp payload hop dmac n pad :
  s_local_addr s = V4 src sp -> wf_socket s -> software_backend (s_backend s) ->
  wf_udp src dst payload -> is_u16 sp -> is_u16 dp -> zlen payload <= Z.min (max_payload4 s) 8969 ->
  lookup (s_routing s) (arp_target_ip s dst) = Done hop ->
  arp_resolve (s_arp s) now (match hop with Direct ip => ip | Gateway gw => gw end) = Some dmac ->
  (forall d, answer (s_handed s) d b = Ok n) -> n <> 0 -> send_room s payload ->
  tunnel_matches s r -> accepts r s (V4 src sp) -> room r buf ->
  let k := Nat.min (length buf) (length payload) in
  exists s' frame r' buf',
    send_to_v4 answer recv clock s now payload dst dp b = Done (s', Ok (zlen payload)) /\
    s_handed s' = s_handed s ++ [(MkTx frame 0 None 0, Ok n)] /\
    process_frame answer r now' b' (frame ++ pad) dp buf None None
      = Done (r', buf', Some (Z.of_nat k, V4 src sp)) /\
    take k buf' = take (length buf) payload.
Proof.
  intros Hla Hs Hb Hwf Hsp Hdp Hl Hhop Hmac Ha Hn Hsr Hm Hacc Hr k.
  destruct Hacc as (Hv & H6 & Hc).
  destruct (wire_reaches s r now' b' buf None dmac src dst sp dp payload pad Hs Hwf ltac:(lia) Hsp Hdp Hm Hv H6)
    as (r1 & track & Hr1 & Hrx).
  destruct (deliver_first r1 buf payload (V4 src sp) track) as (r' & buf' & Ed & Hbuf & _);
    [by destruct Hr1 as (h & -> & _)|by destruct Hr1 as (h & -> & _)|].
  pose proof (eq_trans Hrx Ed) as Hrx'. clear Hrx Ed.
  destruct (build_frame4_wire s dmac src dst sp dp payload Hs Hb Hwf ltac:(lia)) as (m & Hbuild).
  set (f := wire_frame s dmac src dst sp dp payload) in *.
  assert (length f <= Z.to_nat 9100)%nat as Hlf.
  { subst f. pose proof (length_wire_frame s dmac src dst sp dp payload). unfold zlen in Hl. lia. }
  unfold send_to_v4. rewrite Hla, (proj2 (Z.ltb_ge _ _)) by lia. rewrite Hhop. cbn [obind].
  unfold next_hop_mac. rewrite Hmac. cbn [obind]. rewrite Hbuild. cbn [obind]. unfold transmit, send_frame_mode.
  rsimpl. rewrite (software_desc _ f Hb Hlf). cbn [obind]. rsimpl. rewrite Ha.
  assert (exists v', (match s_backend s with
            | Dpdk _ _ => if n =? 0 then Err KWouldBlock else Ok (zlen f)
            | Generic => Ok n end) = (Ok v' : result Z ErrorKind)) as [v Hv'].
  { destruct (s_backend s); [rewrite (proj2 (Z.eqb_neq _ _)) by done|]; eauto. }
  match goal with |- context [match s_backend s with Dpdk _ _ => Done (?x, _) | Generic => _ end] =>
    assert (match s_backend s with
            | Dpdk _ _ => Done (x, if n =? 0 then Err KWouldBlock else Ok (zlen f))
            | Generic => Done (x, Ok n) end = Done (x, (Ok v : result Z ErrorKind))) as ->
      by (destruct (s_backend s); by rewrite Hv') end.
  cbn [obind]. rsimpl. unfold send_room in Hsr. destruct (s_connection_state s) as [c|]; cbn [obind].
  - unfold record_send, add_u64. rewrite !(proj2 (Z.ltb_lt _ _)) by lia. cbn [obind]. by eexists _, f, _, _.
  - by eexists _, f, _, _.
Qed.

End Wire.

(** ** Bursts *)

(** A datagram of another socket, in the frame that [build_frame4_wire] gives it, with padding. *)
Record datagram := MkDatagram {
  d_from : UdpSocket;
  d_mac : Mac;
  d_src : Ipv4Addr;
  d_sport : Z;
  d_dst : Ipv4Addr;
  d_payload : list Z;
  d_pad : list Z }.

Definition d_frame (dp : Z) (d : datagram) : list Z * option Z :=
  (wire_frame (d_from d) (d_mac d) (d_src d) (d_dst d) (d_sport d) dp (d_payload d) ++ d_pad d, None).

Definition d_entry (d : datagram) : list Z * SocketAddr := (d_payload d, V4 (d_src d) (d_sport d)).

(** The socket [r] takes the datagram for its port [dp]. *)
Definition deliverable (r : UdpSocket) (dp : Z) (d : datagram) : Prop :=
  wf_socket (d_from d) /\ wf_udp (d_src d) (d_dst d) (d_payload d) /\ zlen (d_payload d) <= 8969 /\
  is_u16 (d_sport d) /\ is_u16 dp /\ tunnel_matches (d_from d) r /\
  vlan_accepts r (MkLayout ETH_TYPE_IPV4 (link_len (wire_tag (d_from d))) (wire_tag (d_from d))) = true /\
  s_only_v6 r = false.

(** Its buffer has room for all of [ds]. *)
Definition has_room (r : UdpSocket) (ds : list datagram) : Prop :=
  zlen (packets (s_queue r)) + zlen ds <= max_packets (s_queue r) /\
  current_bytes (s_queue r) + total_bytes (map d_entry ds) <= max_bytes (s_queue r) /\
  max_bytes (s_queue r) < USIZE_MAX.

Lemma deliverable_config r r' dp d : config_of r' = config_of r -> deliverable r dp d -> deliverable r' dp d.
Proof.
  unfold config_of, deliverable, tunnel_matches, vlan_accepts. intros E. injection E as E. repeat
    match goal with H : ?p r' = ?p r |- _ => rewrite H; clear H end. done.
Qed.

(** A datagram that is not for the caller's buffer goes to the end of the queue. *)
Lemma enqueue_with_room r d ds :
  has_room r (d :: ds) ->
  let r' := rx_enqueue r (d_payload d) (V4 (d_src d) (d_sport d)) (zlen (d_payload d)) in
  packets (s_queue r') = packets (s_queue r) ++ [d_entry d] /\ has_room r' ds /\ kept r r'.
Proof.
  intros (H1 & H2 & H3) r'.
  assert (0 <= total_bytes (map d_entry ds)) by apply total_bytes_nonneg.
  cbn [map total_bytes foldr d_entry fst] in H2. fold (total_bytes (map d_entry ds)) in H2.
  assert (push_slice (s_queue r) (d_payload d) (V4 (d_src d) (d_sport d))
    = ((s_queue r) <| free_list := tail (free_list (s_queue r)) |>
         <| current_bytes := current_bytes (s_queue r) + zlen (d_payload d) |>
         <| packets := packets (s_queue r) ++ [d_entry d] |>, true)) as E.
  { unfold push_slice, USIZE_MAX in *. unfold zlen in H1. cbn [length] in H1.
    rewrite (proj2 (Z.leb_gt _ _)), (proj2 (Z.ltb_ge _ _)) by (unfold zlen in *; lia). done. }
  split; [|split; [|apply enqueue_kept]]; subst r'; unfold rx_enqueue, has_room; rewrite E; rsimpl; [done|].
  unfold zlen in *. rewrite length_app. cbn [length] in *. lia.
Qed.

Section Bursts.

Context (answer : list (TxDesc * result Z ErrorKind) -> TxDesc -> bool -> result Z ErrorKind).

Lemma queued_datagram r now b buf result d ds dp :
  deliverable r dp d -> has_room r (d :: ds) ->
  (is_Some result \/ exists peer, s_connected_addr r = Some peer /\ peer <> V4 (d_src d) (d_sport d)) ->
  exists r', process_frame answer r now b (fst (d_frame dp d)) dp buf result None = Done (r', buf, result) /\
    packets (s_queue r') = packets (s_queue r) ++ [d_entry d] /\ has_room r' ds /\ kept r r'.
Proof.
  intros (W1 & W2 & W3 & W4 & W5 & W6 & W7 & W8) Hr Hq.
  destruct (wire_reaches answer (d_from d) r now b buf result (d_mac d) (d_src d) (d_dst d) (d_sport d) dp (d_payload d)
    (d_pad d) W1 W2 W3 W4 W5 W6 W7 W8) as (r1 & track & (h & Er1 & Eh1 & Eh2) & E).
  assert (kept r r1 /\ s_queue r1 = s_queue r) as [Hk Eq]
    by (subst r1; unfold kept, config_of; rsimpl; by rewrite Eh1, Eh2).
  assert (s_connected_addr r1 = s_connected_addr r) as Ec by by subst r1.
  clear Er1. unfold has_room in Hr. rewrite <- Eq in Hr.
  destruct (enqueue_with_room r1 d ds Hr) as (E1 & E2 & E3).
  eexists. split; [|rewrite Eq in E1; split_and!; [exact E1|exact E2|]].
  - cbn [d_frame fst]. rewrite E. unfold rx_deliver. rewrite Ec.
    destruct Hq as [[x ->]|(peer & -> & Hne)]; [by destruct (match s_connected_addr r with Some _ => _ | None => _ end)|].
    by rewrite bool_decide_eq_false_2 by congruence.
  - destruct Hk, E3. split; congruence.
Qed.

Lemma queued_burst now b buf x dp : forall ds r,
  Forall (deliverable r dp) ds -> has_room r ds ->
  exists r', process_burst answer r now b (map (d_frame dp) ds) dp buf (Some x) = Done (r', buf, Some x) /\
    packets (s_queue r') = packets (s_queue r) ++ map d_entry ds.
Proof.
  induction ds as [|d ds IH]; intros r Hd Hr; [exists r; by rewrite app_nil_r|].
  inversion Hd as [|?? Hd1 Hds]; subst.
  destruct (queued_datagram r now b buf (Some x) d ds dp Hd1 Hr) as (r1 & E1 & Ep & Hr1 & Hk); [left; eauto|].
  destruct (IH r1) as (r' & E & Ep'); [|done|].
  { eapply Forall_impl; [exact Hds|]. intros a Ha. by eapply deliverable_config; [apply Hk|]. }
  exists r'. cbn [map process_burst]. cbn [d_frame fst] in E1 |- *. rewrite E1. cbn [obind].
  split; [exact E|]. rewrite Ep', Ep, <- app_assoc. done.
Qed.

(** A poll with nothing buffered goes to the backend. *)
Lemma poll_the_backend r now b frames buf :
  packets (s_queue r) = [] ->
  exists r0, config_of r0 = config_of r /\ s_queue r0 = s_queue r /\ s_connection_state r0 = s_connection_state r /\
    try_recv_from answer r now b (Ok frames) buf
    = (let! (s, buf, result) := process_burst answer r0 now b frames (port (s_local_addr r)) buf None in
       Done (s, buf, Ok result)).
Proof.
  intros Hq. exists (r <| s_has_buffered_packets := false |>).
  split_and!; [done..|]. unfold try_recv_from, rx_dequeue_into, pop_into. rewrite Hq. cbn [obind]. rewrite Hq.
  rewrite bool_decide_eq_true_2 by done. by destruct r.
Qed.

(** A burst reaches the application in order: when an unconnected socket (or one connected to the
    sender of the first datagram) polls, has nothing buffered, and the backend delivers any number of
    datagrams for its port (tagged, tunnelled, padded, from any senders), the caller gets the first one, and all the
    others wait in the buffer in the order of the wire, none lost as long as the limits allow. *)
Theorem burst_is_delivered_in_order r now b buf d ds :
  packets (s_queue r) = [] -> Forall (deliverable r (port (s_local_addr r))) (d :: ds) ->
  has_room r (d :: ds) -> room r buf ->
  (s_connected_addr r = None \/ s_connected_addr r = Some (V4 (d_src d) (d_sport d))) ->
  let k := Nat.min (length buf) (length (d_payload d)) in
  exists r' buf',
    try_recv_from answer r now b (Ok (map (d_frame (port (s_local_addr r))) (d :: ds))) buf
      = Done (r', buf', Ok (Some (Z.of_nat k, V4 (d_src d) (d_sport d)))) /\
    take k buf' = take (length buf) (d_payload d) /\
    packets (s_queue r') = map d_entry ds.
Proof.
  intros Hq Hd Hr Hrm Hc k. inversion Hd as [|?? Hd1 Hds]; subst.
  destruct (poll_the_backend r now b (map (d_frame (port (s_local_addr r))) (d :: ds)) buf Hq)
    as (r0 & Ec & Eq & Es & ->). set (dp := port (s_local_addr r)) in *.
  assert (s_connected_addr r0 = s_connected_addr r) as Ed by (unfold config_of in Ec; congruence).
  destruct (deliverable_config r r0 dp d Ec Hd1) as (W1 & W2 & W3 & W4 & W5 & W6 & W7 & W8).
  destruct (wire_reaches answer (d_from d) r0 now b buf None (d_mac d) (d_src d) (d_dst d) (d_sport d) dp (d_payload d)
    (d_pad d) W1 W2 W3 W4 W5 W6 W7 W8) as (r1 & track & Hr1 & E).
  destruct (deliver_first r1 buf (d_payload d) (V4 (d_src d) (d_sport d)) track) as (r2 & buf2 & E2 & Hbuf & Eq2 & Ec2).
  { destruct Hr1 as (h & -> & _). rsimpl. by rewrite Ed. }
  { destruct Hr1 as (h & -> & _). unfold room in *. rsimpl. by rewrite Es. }
  assert (config_of r2 = config_of r /\ s_queue r2 = s_queue r) as [Ec' Eq'].
  { destruct Hr1 as (h & -> & Eh1 & Eh2). rewrite Eq2, <- Eq. split; [|done].
    rewrite Ec2, <- Ec. unfold config_of. rsimpl. by rewrite Eh1, Eh2. }
  destruct (queued_burst now b buf2 (Z.of_nat k, V4 (d_src d) (d_sport d)) dp ds r2) as (r3 & E3 & Ep).
  { eapply Forall_impl; [exact Hds|]. intros a Ha. by eapply deliverable_config. }
  { destruct Hr as (H1 & H2 & H3). unfold has_room. rewrite Eq'. unfold zlen in *.
    cbn [map total_bytes foldr length] in *. fold (total_bytes (map d_entry ds)) in H2.
    pose proof (zlen_nonneg (fst (d_entry d))). lia. }
  exists r3, buf2. cbn [map process_burst d_frame]. rewrite E, E2. cbn [obind].
  fold k. rewrite E3. cbn [obind]. split_and!; [done|done|]. by rewrite Ep, Eq', Hq.
Qed.

(** A connected socket still hands over the datagrams of strangers: a poll that receives one
    answers nothing, but puts it into the buffer, and the next poll returns it with the stranger's
    address although the socket is connected to another peer. *)
Theorem connected_socket_hands_over_strangers r now b buf d peer now2 b2 burst buf2 :
  packets (s_queue r) = [] -> deliverable r (port (s_local_addr r)) d -> has_room r [d] ->
  s_connected_addr r = Some peer -> peer <> V4 (d_src d) (d_sport d) ->
  let k := Nat.min (length buf2) (length (d_payload d)) in
  exists r1 r2 buf2',
    try_recv_from answer r now b (Ok [d_frame (port (s_local_addr r)) d]) buf = Done (r1, buf, Ok None) /\
    s_connected_addr r1 = Some peer /\
    try_recv_from answer r1 now2 b2 burst buf2
      = Done (r2, buf2', Ok (Some (Z.of_nat k, V4 (d_src d) (d_sport d)))).
Proof.
  intros Hq Hd Hr Hc Hne k.
  destruct (poll_the_backend r now b [d_frame (port (s_local_addr r)) d] buf Hq) as (r0 & Ec & Eq & _ & ->).
  set (dp := port (s_local_addr r)) in *.
  destruct (queued_datagram r0 now b buf None d [] dp) as (r1 & E1 & Ep & _ & Hk & _).
  { by eapply deliverable_config. }
  { unfold has_room. by rewrite Eq. }
  { right. exists peer. split; [|done]. unfold config_of in Ec. congruence. }
  exists r1. unfold d_frame in *. cbn [fst process_burst] in *. rewrite E1. cbn [obind].
  rewrite Eq, Hq in Ep. cbn [app] in Ep. unfold try_recv_from, rx_dequeue_into, pop_into. rewrite Ep. cbn [d_entry].
  rewrite slice_in_range by lia. cbn [obind]. unfold blit.
  rewrite (proj2 (Nat.leb_le 0 _)), (proj2 (Nat.leb_le _ (length buf2))) by lia.
  rewrite (proj2 (Nat.eqb_eq _ _)) by (rewrite length_take, length_drop; lia). cbn [andb obind].
  eexists _, _. split_and!; [done| |done].
  unfold kept, config_of in *. congruence.
Qed.

End Bursts.

(** ** Witness: two sockets joined by a VXLAN tunnel *)

Definition vtep (remote : Ipv4Addr) : VtepConfig Ipv4Addr :=
  MkVtep remote 5000 4789 4789 (MkMac 4 0 0 0 0 1) (MkMac 4 0 0 0 0 2).

Definition tunnel_sender : UdpSocket :=
  (socket_new (V4 host_a 7000) Generic mac_a
     (handler_with_cache mac_a host_a (cache_insert cache_new 0 host_b mac_b)) host_a 0 table_new)
    <| s_vxlan := Some (vtep host_b) |>.

Definition tunnel_receiver : UdpSocket := sample_socket <| s_vxlan := Some (vtep host_a) |>.

Lemma datagram_over_the_wire_witness :
  exists s' frame r' buf',
    send_to_v4 (fun _ _ _ => Ok 1) (fun _ => Ok []) (fun _ => 0) tunnel_sender 1 [104; 105] (MkIpv4 192 168 0 9) 53 true
      = Done (s', Ok 2) /\
    s_handed s' = [(MkTx frame 0 None 0, Ok 1)] /\
    process_frame (fun _ _ _ => Ok 1) tunnel_receiver 2 true (frame ++ [0]) 53 [0; 0; 0] None None
      = Done (r', buf', Some (2, V4 host_a 7000)) /\ take 2 buf' = [104; 105].
Proof.
  apply (datagram_over_the_wire (fun _ _ _ => Ok 1) (fun _ => Ok []) (fun _ => 0) tunnel_sender tunnel_receiver 1 2
    true true [0; 0; 0] host_a 7000 (MkIpv4 192 168 0 9) 53 [104; 105] (Direct host_b) mac_b 1 [0]).
  - reflexivity.
  - split; [vm_compute; split; congruence|done|done| |done]. intros c [= <-].
    split_and!; try (vm_compute; split; congruence); try (vm_compute; split_and!; congruence).
    all: repeat constructor; vm_compute; congruence.
  - exact I.
  - split_and!; try (vm_compute; split_and!; congruence); try (repeat constructor; vm_compute; congruence).
  - vm_compute. split; congruence.
  - vm_compute. split; congruence.
  - vm_compute. congruence.
  - vm_compute. reflexivity.
  - vm_compute. reflexivity.
  - reflexivity.
  - discriminate.
  - exact I.
  - split; [reflexivity|]. exists (vtep host_a). split_and!; reflexivity.
  - split_and!; [reflexivity..|]. left. reflexivity.
  - exact I.
Defined.

(** Two datagrams from two senders in one burst, and one for a socket connected elsewhere. *)
Definition plain_sender (ip : Ipv4Addr) : UdpSocket :=
  socket_new (V4 ip 7000) Generic mac_a (arp_handler_new mac_a ip) ip 0 table_new.

Definition sample_datagram (ip : Ipv4Addr) (payload : list Z) : datagram :=
  MkDatagram (plain_sender ip) mac_b ip 7000 host_b payload [0; 0].

Lemma sample_deliverable r ip payload :
  s_gue r = None -> s_vxlan r = None -> s_geneve r = None -> s_vlan r = None -> s_only_v6 r = false ->
  wf_ipv4 ip -> Forall is_u8 payload -> zlen payload <= 8969 ->
  deliverable r 53 (sample_datagram ip payload).
Proof.
  intros H1 H2 H3 H4 H5 Hip Hp Hl. unfold deliverable, vlan_accepts. rewrite H4.
  assert (wf_ipv4 host_b) by (repeat split; vm_compute; congruence).
  assert (zlen payload <= 65507) by lia.
  split_and!; try done; split; try done; cbn; lia.
Qed.

Lemma burst_is_delivered_in_order_witness :
  exists r' buf',
    try_recv_from (fun _ _ _ => Ok 1) sample_socket 5 true
      (Ok (map (d_frame 53) [sample_datagram host_a [1; 2; 3]; sample_datagram host_b [4]])) [0; 0]
      = Done (r', buf', Ok (Some (2, V4 host_a 7000))) /\
    take 2 buf' = [1; 2] /\ packets (s_queue r') = [([4], V4 host_b 7000)].
Proof.
  apply (burst_is_delivered_in_order (fun _ _ _ => Ok 1) sample_socket 5 true [0; 0]
    (sample_datagram host_a [1; 2; 3]) [sample_datagram host_b [4]]).
  - reflexivity.
  - apply Forall_cons_2; [|apply Forall_cons_2; [|apply Forall_nil_2]]; apply sample_deliverable; try reflexivity;
      try (repeat split; vm_compute; congruence); repeat constructor; vm_compute; congruence.
  - split_and!; vm_compute; congruence.
  - exact I.
  - left. reflexivity.
Defined.

Lemma connected_socket_hands_over_strangers_witness :
  exists r1 r2 buf2',
    try_recv_from (fun _ _ _ => Ok 1) (udp_connect sample_socket (V4 host_b 9)) 5 true
      (Ok [d_frame 53 (sample_datagram host_a [1; 2; 3])]) [0] = Done (r1, [0], Ok None) /\
    s_connected_addr r1 = Some (V4 host_b 9) /\
    try_recv_from (fun _ _ _ => Ok 1) r1 6 true (Ok []) [0; 0; 0; 0]
      = Done (r2, buf2', Ok (Some (3, V4 host_a 7000))).
Proof.
  apply (connected_socket_hands_over_strangers (fun _ _ _ => Ok 1) (udp_connect sample_socket (V4 host_b 9)) 5 true [0]
    (sample_datagram host_a [1; 2; 3]) (V4 host_b 9) 6 true (Ok []) [0; 0; 0; 0]).
  - reflexivity.
  - apply sample_deliverable; try reflexivity;
      try (repeat split; vm_compute; congruence); repeat constructor; vm_compute; congruence.
  - split_and!; vm_compute; congruence.
  - reflexivity.
  - discriminate.
Defined.
