(* ===== verification/MpscRing.v ===== *)
(** * The multi-producer ring (dpdk-stdlib-udp/src/ring.rs, [MpscRing])

    Any number of producers run [enqueue], one consumer runs [dequeue], in any interleaving
    of their atomic accesses; a step is one access to shared memory.  Every location is read
    and written in one order that all threads see: the acquire and release orderings of the
    source pair each slot's data with its sequence number.

    Ghost state: [claimed] lists the items in the order in which producers claimed positions
    (with the producer), [delivered] those the consumer has taken out.  Counters are [u64]; the
    theorems are about the first 2^62 claims. *)

From stdpp Require Import base numbers list.
From Stdlib Require Import ZArith Lia.
From S2P Require Import Prelude Ring.

#[local] Open Scope Z_scope.

(** ** Slots of a power-of-two ring *)

Definition slot (capacity pos : Z) : nat := Z.to_nat (Z.land pos (capacity - 1)).

Definition pow2 (capacity : Z) : Prop := exists k, 1 <= k < 62 /\ capacity = 2 ^ k.

Section Slots.

Context (c : Z) (Hc : pow2 c).

Lemma pow2_bounds : 2 <= c <= 2 ^ 61.
Proof.
  destruct Hc as (k & Hk & ->). split.
  - change 2 with (2 ^ 1) at 1. apply Z.pow_le_mono_r; lia.
  - apply Z.pow_le_mono_r; lia.
Qed.

Lemma slot_mod x : slot c x = Z.to_nat (x mod c).
Proof. destruct Hc as (k & Hk & ->). unfold slot. rewrite SpscByteRing.land_mask by lia. done. Qed.

Lemma slot_lt x : (slot c x < Z.to_nat c)%nat.
Proof.
  rewrite slot_mod. pose proof pow2_bounds. pose proof (Z.mod_pos_bound x c ltac:(lia)). lia.
Qed.

(** Positions less than a lap apart have different slots. *)
Lemma slot_inj x y : - c < x - y < c -> slot c x = slot c y -> x = y.
Proof.
  intros Hxy. rewrite !slot_mod. pose proof pow2_bounds as Hb.
  pose proof (Z.mod_pos_bound x c ltac:(lia)). pose proof (Z.mod_pos_bound y c ltac:(lia)).
  intros E. assert (x mod c = y mod c) as E2 by lia.
  pose proof (Z.div_mod x c ltac:(lia)). pose proof (Z.div_mod y c ltac:(lia)).
  assert (x / c - y / c = 0) by nia. nia.
Qed.

Lemma slot_next_lap x : slot c (x + c) = slot c x.
Proof.
  rewrite !slot_mod. f_equal. pose proof pow2_bounds.
  replace (x + c) with (x + 1 * c) by lia. apply Z_mod_plus_full.
Qed.

End Slots.

Definition as_i64 (z : Z) : Z := if z <? 2 ^ 63 then z else z - 2 ^ 64.

Module Mpsc.

Section Mpsc.

Context {T : Type}.

(** A slot's [data] is [None] while it is not initialised: before the first write, and after
    [assume_init_read] has moved the item out. *)
Record ring := MkRing {
  head : Z;
  tail : Z;
  seqs : list Z;
  data : list (option T);
  capacity : Z }.

#[global] Instance eta_ring : Eta ring := fun r =>
  MkRing (head r) (tail r) (seqs r) (data r) (capacity r).

(** [MpscRing::new]. *)
Definition new (cap : Z) : ring :=
  let capacity := SpscByteRing.next_power_of_two (Z.max cap 2) in
  MkRing 0 0 (Z.of_nat <$> seq 0 (Z.to_nat capacity)) (replicate (Z.to_nat capacity) None) capacity.

(** A producer inside [enqueue]: about to load [head]; to load the slot's sequence number; to
    compare-and-exchange [head]; to write the data; to publish. *)
Inductive producer : Type :=
| PIdle
| PLoad (item : T)
| PSeq (item : T) (h : Z)
| PCas (item : T) (h : Z)
| PWrite (item : T) (h : Z)
| PPublish (h : Z).

(** The consumer inside [dequeue]: about to load the sequence number; to read the data; to
    give the slot back; to store [tail]. *)
Inductive consumer : Type :=
| CIdle
| CSeq (t : Z)
| CRead (t : Z)
| CReset (t : Z) (item : T)
| CAdvance (t : Z) (item : T).

Record sys := MkSys {
  r : ring;
  prods : list producer;
  cons_ : consumer;
  claimed : list (nat * T);
  delivered : list T;
  refused : list (nat * T) }.

#[global] Instance eta_sys : Eta sys := fun s =>
  MkSys (r s) (prods s) (cons_ s) (claimed s) (delivered s) (refused s).

Definition set_prod (s : sys) (p : nat) (st : producer) : sys := s <| prods := <[p := st]> (prods s) |>.

(** One step of [enqueue] by producer [p].  [weak] makes the [compare_exchange_weak] fail
    spuriously. *)
Definition enqueue_step (s : sys) (p : nat) (weak : bool) : option sys :=
  let R := r s in
  match prods s !! p with
  | Some (PLoad item) => Some (set_prod s p (PSeq item (head R)))
  | Some (PSeq item h) =>
      match seqs R !! slot (capacity R) h with
      | None => None
      | Some sq =>
          let diff := as_i64 sq - as_i64 h in
          Some (if diff =? 0 then set_prod s p (PCas item h)
                else if diff <? 0 then (set_prod s p PIdle) <| refused := refused s ++ [(p, item)] |>
                else set_prod s p (PLoad item))
      end
  | Some (PCas item h) =>
      Some (if negb weak && (head R =? h)
            then (set_prod s p (PWrite item h)) <| r := R <| head := u64 (h + 1) |> |>
                   <| claimed := claimed s ++ [(p, item)] |>
            else set_prod s p (PSeq item (head R)))
  | Some (PWrite item h) =>
      Some ((set_prod s p (PPublish h))
              <| r := R <| data := <[slot (capacity R) h := Some item]> (data R) |> |>)
  | Some (PPublish h) =>
      Some ((set_prod s p PIdle)
              <| r := R <| seqs := <[slot (capacity R) h := u64 (h + 1)]> (seqs R) |> |>)
  | Some PIdle | None => None
  end.

(** One step of [dequeue]; reading a slot that is not initialised is no step. *)
Definition dequeue_step (s : sys) : option sys :=
  let R := r s in
  match cons_ s with
  | CIdle => Some (s <| cons_ := CSeq (tail R) |>)
  | CSeq t =>
      match seqs R !! slot (capacity R) t with
      | None => None
      | Some sq => Some (s <| cons_ := if sq =? u64 (t + 1) then CRead t else CIdle |>)
      end
  | CRead t =>
      match data R !! slot (capacity R) t with
      | Some (Some item) =>
          Some (s <| cons_ := CReset t item |>
                  <| r := R <| data := <[slot (capacity R) t := None]> (data R) |> |>)
      | _ => None
      end
  | CReset t item =>
      Some (s <| cons_ := CAdvance t item |>
              <| r := R <| seqs := <[slot (capacity R) t := u64 (t + capacity R)]> (seqs R) |> |>
              <| delivered := delivered s ++ [item] |>)
  | CAdvance t _ => Some (s <| cons_ := CIdle |> <| r := R <| tail := u64 (t + 1) |> |>)
  end.

Inductive event : Type :=
| Call (p : nat) (item : T)
| Prod (p : nat) (weak : bool)
| Cons.

Definition step (s : sys) (e : event) : option sys :=
  match e with
  | Call p item => match prods s !! p with Some PIdle => Some (set_prod s p (PLoad item)) | _ => None end
  | Prod p weak => enqueue_step s p weak
  | Cons => dequeue_step s
  end.

Fixpoint run (s : sys) (es : list event) : option sys :=
  match es with
  | [] => Some s
  | e :: es => match step s e with Some s' => run s' es | None => None end
  end.

Definition init (cap : Z) (n : nat) : sys := MkSys (new cap) (replicate n PIdle) CIdle [] [] [].

(** ** Invariant *)

(** Positions: [nclaimed] is where the producers stand, [ndelivered] where the consumer. *)
Definition nclaimed (s : sys) : Z := Z.of_nat (length (claimed s)).
Definition ndelivered (s : sys) : Z := Z.of_nat (length (delivered s)).

Definition seq_at (s : sys) (q : Z) : option Z := seqs (r s) !! slot (capacity (r s)) q.
Definition data_at (s : sys) (q : Z) : option (option T) := data (r s) !! slot (capacity (r s)) q.
Definition claim_at (s : sys) (q : Z) : option (nat * T) := claimed s !! Z.to_nat q.

(** The slot of a position within a lap of the consumer: free, claimed and not written,
    written and not published, published, or read and not given back. *)
Inductive slot_ok (s : sys) (q : Z) : Prop :=
| slot_free :
    nclaimed s <= q -> seq_at s q = Some q -> data_at s q = Some None -> slot_ok s q
| slot_writing p item :
    claim_at s q = Some (p, item) -> prods s !! p = Some (PWrite item q) ->
    seq_at s q = Some q -> data_at s q = Some None -> slot_ok s q
| slot_written p item :
    claim_at s q = Some (p, item) -> prods s !! p = Some (PPublish q) ->
    seq_at s q = Some q -> data_at s q = Some (Some item) -> slot_ok s q
| slot_full p item :
    claim_at s q = Some (p, item) ->
    seq_at s q = Some (q + 1) -> data_at s q = Some (Some item) -> slot_ok s q
| slot_read p item :
    claim_at s q = Some (p, item) -> cons_ s = CReset q item ->
    seq_at s q = Some (q + 1) -> data_at s q = Some None -> slot_ok s q.

(** What a producer knows. *)
Definition prod_ok (s : sys) (p : nat) (st : producer) : Prop :=
  match st with
  | PIdle | PLoad _ => True
  | PSeq _ h => 0 <= h <= nclaimed s
  | PCas _ h => 0 <= h <= nclaimed s /\ (h = nclaimed s -> h < ndelivered s + capacity (r s))
  | PWrite item h => ndelivered s <= h < nclaimed s /\ claim_at s h = Some (p, item) /\ seq_at s h = Some h
  | PPublish h =>
      ndelivered s <= h < nclaimed s /\ (exists item, claim_at s h = Some (p, item)) /\ seq_at s h = Some h
  end.

Definition cons_ok (s : sys) : Prop :=
  match cons_ s with
  | CIdle => True
  | CSeq t => t = ndelivered s
  | CRead t => t = ndelivered s /\ t < nclaimed s /\ seq_at s t = Some (t + 1)
  | CReset t item =>
      t = ndelivered s /\ t < nclaimed s /\ seq_at s t = Some (t + 1) /\ data_at s t = Some None /\
      exists p, claim_at s t = Some (p, item)
  | CAdvance t _ => t + 1 = ndelivered s
  end.

Record inv (s : sys) : Prop := {
  i_cap : pow2 (capacity (r s));
  i_seqs : length (seqs (r s)) = Z.to_nat (capacity (r s));
  i_data : length (data (r s)) = Z.to_nat (capacity (r s));
  i_head : head (r s) = nclaimed s;
  i_tail : tail (r s) = match cons_ s with CAdvance t _ => t | _ => ndelivered s end;
  i_used : ndelivered s <= nclaimed s <= ndelivered s + capacity (r s);
  i_prefix : delivered s = take (length (delivered s)) (snd <$> claimed s);
  i_slots : forall q, ndelivered s <= q < ndelivered s + capacity (r s) -> slot_ok s q;
  i_prods : forall p st, prods s !! p = Some st -> prod_ok s p st;
  i_cons : cons_ok s }.

Definition in_flight (st : producer) : bool :=
  match st with PWrite _ _ | PPublish _ => true | _ => false end.

Lemma nclaimed_snoc s p item : Z.of_nat (length (claimed s ++ [(p, item)])) = nclaimed s + 1.
Proof. rewrite length_app. cbn. unfold nclaimed. lia. Qed.

Lemma claim_lt s q x : 0 <= q -> claim_at s q = Some x -> q < nclaimed s.
Proof. intros Hq E%lookup_lt_Some. unfold nclaimed. lia. Qed.

Lemma claim_snoc s x q :
  claim_at s q = Some x -> forall y, (claimed s ++ [y]) !! Z.to_nat q = Some x.
Proof. intros E y. by apply lookup_app_l_Some. Qed.

(** A slot whose owner is not in flight, or that has none, does not notice a change of the
    producer [p]. *)
Lemma slot_ok_prod s p st st' q :
  prods s !! p = Some st -> in_flight st = false -> slot_ok s q -> slot_ok (set_prod s p st') q.
Proof.
  intros Hp Hf Hq.
  assert (forall p' x, prods s !! p' = Some x -> in_flight x = true -> <[p := st']> (prods s) !! p' = Some x) as Hn.
  { intros p' x Hx Hi. rewrite list_lookup_insert_ne; [done|]. intros ->. congruence. }
  destruct Hq as [?|p' item ? E|p' item ? E|p' item|p' item].
  - by apply slot_free.
  - apply (slot_writing _ _ p' item); [done|by apply Hn|done..].
  - apply (slot_written _ _ p' item); [done|by apply Hn|done..].
  - by apply (slot_full _ _ p' item).
  - by apply (slot_read _ _ p' item).
Qed.

Lemma inv_quiet s p st st' :
  inv s -> prods s !! p = Some st -> in_flight st = false -> prod_ok s p st' -> inv (set_prod s p st').
Proof.
  intros H Hp Hf Hok. constructor; try apply H.
  - intros q Hq. eapply slot_ok_prod; [done..|]. by apply H.
  - intros p' x. cbn. intros [(-> & <- & _)|[_ Hx]]%list_lookup_insert_Some; [done|]. by apply (i_prods s H).
Qed.

Lemma inv_refused s l : inv s -> inv (s <| refused := l |>).
Proof.
  intros H. constructor; try apply H. intros q Hq.
  destruct (i_slots s H q Hq); [by apply slot_free|by eapply slot_writing|by eapply slot_written
    |by eapply slot_full|by eapply slot_read].
Qed.

Section Step.

Context (s : sys) (H : inv s) (Hb : nclaimed s <= 2 ^ 62).

#[local] Abbreviation C := (capacity (r s)).

Let Hc := i_cap s H.

Lemma positions : 0 <= ndelivered s /\ 0 <= nclaimed s /\ 2 <= C <= 2 ^ 61 /\ ndelivered s <= nclaimed s <= ndelivered s + C.
Proof. pose proof (pow2_bounds C Hc). pose proof (i_used s H). unfold ndelivered, nclaimed in *. lia. Qed.

(** Every position shares its slot with one within a lap of the consumer. *)
Lemma same_lap h :
  exists q k, ndelivered s <= q < ndelivered s + C /\ slot C q = slot C h /\ h = q + k * C.
Proof.
  pose proof positions as (_ & _ & H2 & _).
  exists (ndelivered s + (h - ndelivered s) mod C), ((h - ndelivered s) / C).
  pose proof (Z.mod_pos_bound (h - ndelivered s) C ltac:(lia)).
  pose proof (Z.div_mod (h - ndelivered s) C ltac:(lia)).
  split; [lia|]. split; [|lia]. rewrite !slot_mod by exact Hc. f_equal.
  rewrite Zplus_mod_idemp_r. f_equal. lia.
Qed.

(** The sequence number of a slot is its position, or one more. *)
Lemma slot_seq q :
  slot_ok s q -> exists sq, seq_at s q = Some sq /\
    (sq = q \/ sq = q + 1 /\ q < nclaimed s \/ q < 0).
Proof.
  intros Hq. destruct (Z.lt_ge_cases q 0); [destruct Hq; eauto 10|].
  destruct Hq as [?|p' item E|p' item E|p' item E|p' item E]; eauto 10;
    apply claim_lt in E; eauto 10.
Qed.

(** What a producer learns from a sequence number. *)
Lemma seq_read h sq :
  0 <= h <= nclaimed s -> seq_at s h = Some sq ->
  0 <= sq < 2 ^ 63 /\
  (sq = h -> h = nclaimed s -> h < ndelivered s + C) /\
  (sq < h -> nclaimed s = ndelivered s + C).
Proof.
  intros Hh E. pose proof positions as (H0 & H1 & H2 & H3).
  destruct (same_lap h) as (q & k & Hq & Es & Eh).
  assert (seq_at s q = Some sq) as E' by (unfold seq_at in *; by rewrite Es).
  destruct (slot_seq q (i_slots s H q Hq)) as (sq' & E2 & Hsq). rewrite E' in E2. injection E2 as <-.
  assert (sq = q \/ sq = q + 1 /\ q < nclaimed s) as Hsq' by (destruct Hsq as [|[]]; [by left|by right|lia]).
  split; [lia|]. split.
  - intros -> Hn. assert (k * C <> 1) by (destruct (Z.le_gt_cases k 0); nia). lia.
  - intros Hlt. assert (1 <= k) by nia. assert (C <= k * C) by nia. lia.
Qed.

Lemma seq_at_insert s' x v q :
  seqs (r s') = <[slot C x := v]> (seqs (r s)) -> capacity (r s') = C -> - C < x - q < C ->
  seq_at s' q = if x =? q then Some v else seq_at s q.
Proof.
  intros E Ec Hxq. unfold seq_at. rewrite E, Ec. bcase.
  - subst. apply list_lookup_insert_eq. rewrite (i_seqs s H). by apply slot_lt.
  - apply list_lookup_insert_ne. intros E'. by apply slot_inj in E'.
Qed.

Lemma data_at_insert s' x v q :
  data (r s') = <[slot C x := v]> (data (r s)) -> capacity (r s') = C -> - C < x - q < C ->
  data_at s' q = if x =? q then Some v else data_at s q.
Proof.
  intros E Ec Hxq. unfold data_at. rewrite E, Ec. bcase.
  - subst. apply list_lookup_insert_eq. rewrite (i_data s H). by apply slot_lt.
  - apply list_lookup_insert_ne. intros E'. by apply slot_inj in E'.
Qed.

(** A slot keeps its state when nothing it depends on changes. *)
Lemma slot_ok_frame s' q :
  slot_ok s q -> seq_at s' q = seq_at s q -> data_at s' q = data_at s q ->
  (forall x, claim_at s q = Some x -> claim_at s' q = Some x) ->
  (nclaimed s <= q -> nclaimed s' <= q) ->
  (forall p st, prods s !! p = Some st -> in_flight st = true -> (st = PPublish q \/ exists i, st = PWrite i q) ->
     prods s' !! p = Some st) ->
  (forall item, cons_ s = CReset q item -> cons_ s' = CReset q item) -> slot_ok s' q.
Proof.
  intros Hq Es Ed Ec Hn Hp Hcs. destruct Hq as [?|p' item ? E|p' item ? E|p' item|p' item].
  - apply slot_free; rewrite ?Es, ?Ed; auto.
  - apply (slot_writing _ _ p' item); rewrite ?Es, ?Ed; eauto.
  - apply (slot_written _ _ p' item); rewrite ?Es, ?Ed; eauto.
  - apply (slot_full _ _ p' item); rewrite ?Es, ?Ed; eauto.
  - apply (slot_read _ _ p' item); rewrite ?Es, ?Ed; eauto.
Qed.

Lemma inv_cas p item :
  prods s !! p = Some (PCas item (nclaimed s)) -> nclaimed s < 2 ^ 62 ->
  inv ((set_prod s p (PWrite item (nclaimed s)))
         <| r := (r s) <| head := u64 (nclaimed s + 1) |> |>
         <| claimed := claimed s ++ [(p, item)] |>).
Proof.
  intros Hp Hlt. match goal with |- inv ?x => set (s' := x) end. pose proof positions as (H0 & H1 & H2 & H3).
  destruct (i_prods s H p _ Hp) as [_ Hroom]. specialize (Hroom eq_refl).
  assert (nclaimed s' = nclaimed s + 1) as En by apply nclaimed_snoc.
  assert (ndelivered s' = ndelivered s) as Ed by done.
  assert (forall q x, claim_at s q = Some x -> claim_at s' q = Some x) as Hcl by (intros; by apply claim_snoc).
  assert (claim_at s' (nclaimed s) = Some (p, item)) as Hnew.
  { unfold claim_at, nclaimed. rewrite Nat2Z.id. change (claimed s') with (claimed s ++ [(p, item)]). rewrite lookup_app_r, Nat.sub_diag by done. done. }
  constructor; try apply H.
  - rewrite En. change (head (r s')) with (u64 (nclaimed s + 1)). unfold u64. rewrite Z.mod_small; [done|]. lia.
  - rewrite En. change (ndelivered s') with (ndelivered s). change (capacity (r s')) with C. lia.
  - change (delivered s = take (length (delivered s)) (snd <$> claimed s ++ [(p, item)])).
    rewrite fmap_app, take_app_le; [apply H|]. rewrite length_fmap. unfold ndelivered, nclaimed in H3. lia.
  - intros q Hq. change (ndelivered s') with (ndelivered s) in Hq. change (capacity (r s')) with C in Hq.
    destruct (Z.eq_dec q (nclaimed s)) as [->|Hne].
    + apply (slot_writing _ _ p item); [done| |..].
      * apply list_lookup_insert_eq. by eapply lookup_lt_Some.
      * destruct (i_slots s H _ Hq) as [|?? E|?? E|?? E|?? E]; [done|apply claim_lt in E; lia..].
      * destruct (i_slots s H _ Hq) as [|?? E|?? E|?? E|?? E]; [done|apply claim_lt in E; lia..].
    + apply slot_ok_frame; [by apply H|done|done|by apply Hcl|lia| |done].
      intros p' st Hp' Hf _. change (<[p := PWrite item (nclaimed s)]> (prods s) !! p' = Some st).
      rewrite list_lookup_insert_ne; [done|]. intros ->. by rewrite Hp in Hp'; simplify_eq.
  - intros p' st. change (prods s') with (<[p := PWrite item (nclaimed s)]> (prods s)). intros [(-> & <- & _)|[_ Hx]]%list_lookup_insert_Some.
    + cbn. rewrite En, Ed. split; [lia|]. split; [done|].
      destruct (i_slots s H (nclaimed s) ltac:(lia)) as [|?? E|?? E|?? E|?? E]; [done|apply claim_lt in E; lia..].
    + pose proof (i_prods s H p' st Hx) as Hok. destruct st; cbn in *; rewrite ?En, ?Ed; try done; try lia.
      * destruct Hok as (? & E & ?). split; [lia|]. split; [by apply Hcl|done].
      * destruct Hok as (? & (i & E) & ?). split; [lia|]. split; [exists i; by apply Hcl|done].
  - pose proof (i_cons s H) as Hk. unfold cons_ok in *. change (cons_ s') with (cons_ s). destruct (cons_ s); rewrite ?En, ?Ed; try done; try lia.
    + destruct Hk as (? & ? & ?). split_and!; [done|lia|done].
    + destruct Hk as (? & ? & ? & ? & x & E). split_and!; [done|lia|done|done|]. exists x. by apply Hcl.
Qed.

Lemma inv_write p item h :
  prods s !! p = Some (PWrite item h) ->
  inv ((set_prod s p (PPublish h)) <| r := (r s) <| data := <[slot C h := Some item]> (data (r s)) |> |>).
Proof.
  intros Hp. match goal with |- inv ?x => set (s' := x) end. pose proof positions as (H0 & H1 & H2 & H3).
  destruct (i_prods s H p _ Hp) as (Hh & Hcl & Hsq).
  assert (forall q, ndelivered s <= q < ndelivered s + C -> data_at s' q = if h =? q then Some (Some item) else data_at s q)
    as Hd by (intros q Hq; apply (data_at_insert s'); done || lia).
  constructor; try apply H.
  - change (length (<[slot C h := Some item]> (data (r s))) = Z.to_nat C). rewrite length_insert. apply H.
  - intros q Hq. change (ndelivered s') with (ndelivered s) in Hq. change (capacity (r s')) with C in Hq.
    specialize (Hd q Hq). destruct (Z.eqb_spec h q) as [->|Hne].
    + apply (slot_written _ _ p item); [done| |done..]. apply list_lookup_insert_eq. by eapply lookup_lt_Some.
    + apply slot_ok_frame; [by apply H|done|done|done|done| |done].
      intros p' st Hp' _ Hst. change (<[p := PPublish h]> (prods s) !! p' = Some st).
      rewrite list_lookup_insert_ne; [done|]. intros ->. rewrite Hp in Hp'. destruct Hst as [-> |[i ->]]; simplify_eq.
  - intros p' st. change (prods s') with (<[p := PPublish h]> (prods s)).
    intros [(-> & <- & _)|[_ Hx]]%list_lookup_insert_Some; [split; [exact Hh|split; [by exists item|exact Hsq]]|].
    by apply (i_prods s H).
  - pose proof (i_cons s H) as Hk. unfold cons_ok in *. change (cons_ s') with (cons_ s). destruct (cons_ s) as [ | | |t i| ]; try done.
    destruct Hk as (-> & ? & E & ? & ?). split_and!; try done.
    rewrite Hd by lia. destruct (Z.eqb_spec h (ndelivered s)) as [->|]; [|done]. rewrite Hsq in E. injection E. lia.
Qed.

Lemma inv_publish p h :
  prods s !! p = Some (PPublish h) ->
  inv ((set_prod s p PIdle) <| r := (r s) <| seqs := <[slot C h := u64 (h + 1)]> (seqs (r s)) |> |>).
Proof.
  intros Hp. match goal with |- inv ?x => set (s' := x) end. pose proof positions as (H0 & H1 & H2 & H3).
  destruct (i_prods s H p _ Hp) as (Hh & (item & Hcl) & Hsq).
  assert (forall q, ndelivered s <= q < ndelivered s + C -> seq_at s' q = if h =? q then Some (h + 1) else seq_at s q) as Hs.
  { intros q Hq. rewrite <- (Z.mod_small (h + 1) (2 ^ 64)) by lia. apply (seq_at_insert s'); done || lia. }
  constructor; try apply H.
  - change (length (<[slot C h := u64 (h + 1)]> (seqs (r s))) = Z.to_nat C). rewrite length_insert. apply H.
  - intros q Hq. change (ndelivered s') with (ndelivered s) in Hq. change (capacity (r s')) with C in Hq.
    specialize (Hs q Hq). destruct (Z.eqb_spec h q) as [->|Hne].
    + apply (slot_full _ _ p item); [done..|]. change (data_at s q = Some (Some item)).
      destruct (i_slots s H q Hq) as [|p' ? E|p' ? E|p' ? E E'|p' ? E ? E']; try congruence;
        [lia|rewrite Hsq in E'; injection E'; lia..].
    + apply slot_ok_frame; [by apply H|done|done|done|done| |done].
      intros p' st Hp' _ Hst. change (<[p := PIdle]> (prods s) !! p' = Some st).
      rewrite list_lookup_insert_ne; [done|]. intros ->. rewrite Hp in Hp'. destruct Hst as [-> |[i ->]]; simplify_eq.
  - intros p' st. change (prods s') with (<[p := PIdle]> (prods s)).
    intros [(-> & <- & _)|[Hne Hx]]%list_lookup_insert_Some; [done|].
    pose proof (i_prods s H p' st Hx) as Hok. destruct st as [ | | | |i h'|h']; try done.
    + destruct Hok as (Hh' & E & ?). split; [exact Hh'|split; [exact E|]]. rewrite Hs by lia.
      destruct (Z.eqb_spec h h') as [->|]; [|done]. congruence.
    + destruct Hok as (Hh' & (i & E) & ?). split; [exact Hh'|split; [by exists i|]]. rewrite Hs by lia.
      destruct (Z.eqb_spec h h') as [->|]; [|done]. congruence.
  - pose proof (i_cons s H) as Hk. unfold cons_ok in *. change (cons_ s') with (cons_ s).
    assert (seq_at s (ndelivered s) = Some (ndelivered s + 1) -> seq_at s' (ndelivered s) = seq_at s (ndelivered s)) as Hkeep.
    { intros E. rewrite Hs by lia. destruct (Z.eqb_spec h (ndelivered s)) as [->|]; [|done].
      rewrite Hsq in E. injection E. lia. }
    destruct (cons_ s) as [ | |t|t i| ]; try done.
    + destruct Hk as (-> & Hlt & E). split; [done|split; [exact Hlt|]]. by rewrite Hkeep.
    + destruct Hk as (-> & Hlt & E & Hk). split; [done|split; [exact Hlt|split; [by rewrite Hkeep|exact Hk]]].
Qed.

(** The steps of the consumer. *)
Lemma inv_consumer c :
  match cons_ s with CReset _ _ => False | _ => True end ->
  tail (r s) = match c with CAdvance t _ => t | _ => ndelivered s end ->
  cons_ok (s <| cons_ := c |>) -> inv (s <| cons_ := c |>).
Proof.
  intros Hn Ht Hok. constructor; try apply H; try done.
  intros q Hq. apply slot_ok_frame; [by apply H|done..|]. intros i E. by rewrite E in Hn.
Qed.

Lemma inv_read t item :
  cons_ s = CRead t -> data_at s t = Some (Some item) ->
  inv (s <| cons_ := CReset t item |> <| r := (r s) <| data := <[slot C t := None]> (data (r s)) |> |>).
Proof.
  intros Hcs Hdt. match goal with |- inv ?x => set (s' := x) end. pose proof positions as (H0 & H1 & H2 & H3).
  pose proof (i_cons s H) as Hk. unfold cons_ok in Hk. rewrite Hcs in Hk. destruct Hk as (Et & Hlt & Hsq).
  assert (exists p, claim_at s t = Some (p, item)) as [p Hcl].
  { destruct (i_slots s H t ltac:(lia)) as [|p' ? E ? E'|p' ? E ? E'|p' ? E E'|p' ? E ? E']; try congruence;
      [rewrite Hsq in *; simplify_eq; lia|rewrite Hdt in *; simplify_eq; by eexists]. }
  assert (forall q, ndelivered s <= q < ndelivered s + C -> data_at s' q = if t =? q then Some None else data_at s q)
    as Hd by (intros q Hq; apply (data_at_insert s'); done || lia).
  constructor; try apply H.
  - change (length (<[slot C t := None]> (data (r s))) = Z.to_nat C). rewrite length_insert. apply H.
  - change (cons_ s') with (CReset t item). pose proof (i_tail s H) as E. by rewrite Hcs in E.
  - intros q Hq. change (ndelivered s') with (ndelivered s) in Hq. change (capacity (r s')) with C in Hq.
    specialize (Hd q Hq). destruct (Z.eqb_spec t q) as [->|Hne]; [by apply (slot_read _ _ p item)|].
    apply slot_ok_frame; [by apply H|done..|]. intros i E. congruence.
  - cbn. split_and!; [done|done|done| |by exists p]. rewrite Hd by lia. by rewrite Z.eqb_refl.
Qed.

Lemma inv_reset t item :
  cons_ s = CReset t item ->
  inv (s <| cons_ := CAdvance t item |>
         <| r := (r s) <| seqs := <[slot C t := u64 (t + C)]> (seqs (r s)) |> |>
         <| delivered := delivered s ++ [item] |>).
Proof.
  intros Hcs. match goal with |- inv ?x => set (s' := x) end. pose proof positions as (H0 & H1 & H2 & H3).
  pose proof (i_cons s H) as Hk. unfold cons_ok in Hk. rewrite Hcs in Hk. destruct Hk as (Et & Hlt & Hsq & Hdt & p & Hcl).
  assert (ndelivered s' = ndelivered s + 1) as Ed.
  { unfold ndelivered. change (delivered s') with (delivered s ++ [item]). rewrite length_app. cbn. lia. }
  assert (nclaimed s' = nclaimed s) as En by done.
  assert (forall q, ndelivered s <= q < ndelivered s + C -> seq_at s' q = if t =? q then Some (t + C) else seq_at s q) as Hs.
  { intros q Hq. rewrite <- (Z.mod_small (t + C) (2 ^ 64)) by lia. apply (seq_at_insert s'); done || lia. }
  constructor; try apply H.
  - change (length (<[slot C t := u64 (t + C)]> (seqs (r s))) = Z.to_nat C). rewrite length_insert. apply H.
  - change (tail (r s) = t). pose proof (i_tail s H) as E. rewrite Hcs in E. lia.
  - rewrite Ed, En. change (capacity (r s')) with C. lia.
  - change (delivered s ++ [item] = take (length (delivered s ++ [item])) (snd <$> claimed s)).
    rewrite length_app, Nat.add_1_r. erewrite take_S_r; [f_equal; apply H|].
    unfold claim_at, ndelivered in *. rewrite Et, Nat2Z.id in Hcl. by rewrite list_lookup_fmap, Hcl.
  - intros q Hq. rewrite Ed in Hq. change (capacity (r s')) with C in Hq.
    destruct (Z.eq_dec q (t + C)) as [->|Hne].
    + specialize (Hs t ltac:(lia)). rewrite Z.eqb_refl in Hs. unfold seq_at, data_at in *.
      change (capacity (r s')) with C in *. change (data (r s')) with (data (r s)).
      apply slot_free; unfold seq_at, data_at; change (capacity (r s')) with C; rewrite ?slot_next_lap by exact Hc; done || lia.
    + specialize (Hs q ltac:(lia)). destruct (Z.eqb_spec t q) as [->|Hne']; [lia|].
      apply slot_ok_frame; [apply H; lia|done..|]. intros i E. rewrite Hcs in E. congruence.
  - intros p' st Hp'. change (prods s !! p' = Some st) in Hp'. pose proof (i_prods s H p' st Hp') as Hok.
    assert (forall h, ndelivered s <= h < nclaimed s -> seq_at s h = Some h -> ndelivered s + 1 <= h /\ seq_at s' h = Some h) as Hkeep.
    { intros h Hh E. rewrite Hs by lia. destruct (Z.eqb_spec t h) as [->|]; [congruence || (rewrite Hsq in E; injection E; lia)|].
      split; [lia|done]. }
    destruct st as [ | | | |i h'|h']; cbn in *; rewrite ?Ed, ?En; try done.
    + change (capacity (r s')) with C. lia.
    + destruct Hok as (Hh & E & E'). destruct (Hkeep _ Hh E'). split_and!; [lia..|done|done].
    + destruct Hok as (Hh & E & E'). destruct (Hkeep _ Hh E'). split_and!; [lia..|done|done].
  - change (t + 1 = ndelivered s'). lia.
Qed.

Lemma inv_advance t item :
  cons_ s = CAdvance t item -> inv (s <| cons_ := CIdle |> <| r := (r s) <| tail := u64 (t + 1) |> |>).
Proof.
  intros Hcs. match goal with |- inv ?x => set (s' := x) end. pose proof positions as (H0 & H1 & H2 & H3).
  pose proof (i_cons s H) as Hk. unfold cons_ok in Hk. rewrite Hcs in Hk.
  constructor; try apply H.
  - change (u64 (t + 1) = ndelivered s). unfold u64. rewrite Z.mod_small; lia.
  - intros q Hq. apply slot_ok_frame; [by apply H|done..|]. intros i E. congruence.
  - done.
Qed.

End Step.

(** ** Every step *)

Lemma claimed_grows s e s' : step s e = Some s' -> nclaimed s <= nclaimed s'.
Proof.
  assert (forall p st, nclaimed (set_prod s p st) = nclaimed s) as Hs by done.
  destruct e as [p item|p weak|]; cbn.
  - destruct (prods s !! p) as [[]|]; intros; simplify_eq; by rewrite Hs.
  - unfold enqueue_step. destruct (prods s !! p) as [[|i|i h|i h|i h|h]|]; intros; simplify_eq; try done.
    + destruct (seqs (r s) !! _); simplify_eq. by repeat case_match.
    + case_match; [|done]. unfold nclaimed. rsimpl. rewrite length_app. lia.
  - unfold dequeue_step. intros. by repeat case_match; simplify_eq.
Qed.

Lemma as_i64_small z : 0 <= z < 2 ^ 63 -> as_i64 z = z.
Proof. intros Hz. unfold as_i64. bcase; lia. Qed.

Lemma enqueue_inv s p weak s' :
  inv s -> nclaimed s' <= 2 ^ 62 -> enqueue_step s p weak = Some s' -> inv s'.
Proof.
  intros H Hb' E. assert (nclaimed s <= 2 ^ 62) as Hb by (pose proof (claimed_grows s (Prod p weak) s' E); lia).
  pose proof (positions s H) as Hpos. unfold enqueue_step in E.
  destruct (prods s !! p) as [[|i|i h|i h|i h|h]|] eqn:Ep; simplify_eq; pose proof (i_prods s H p _ Ep) as Hok; cbn in Hok.
  - eapply inv_quiet; [done..|]. cbn. rewrite (i_head s H). lia.
  - destruct (seqs (r s) !! slot (capacity (r s)) h) as [sq|] eqn:Es; simplify_eq.
    destruct (seq_read s H Hb h sq Hok Es) as (Hr & H1 & _).
    rewrite !as_i64_small by lia. bcase; [|bcase].
    + eapply inv_quiet; [done..|]. cbn. split; [done|]. apply H1. lia.
    + by eapply inv_refused, inv_quiet.
    + by eapply inv_quiet.
  - case_match eqn:Ec.
    + apply andb_prop in Ec as [_ Ec]. apply Z.eqb_eq in Ec. rewrite (i_head s H) in Ec. subst h.
      apply inv_cas; [done..|]. unfold nclaimed in Hb'. rsimpl_in Hb'. rewrite length_app in Hb'. cbn in Hb'. unfold nclaimed. lia.
    + eapply inv_quiet; [done..|]. cbn. rewrite (i_head s H). lia.
  - by apply inv_write.
  - by apply inv_publish.
Qed.

Lemma dequeue_inv s s' : inv s -> nclaimed s <= 2 ^ 62 -> dequeue_step s = Some s' -> inv s'.
Proof.
  intros H Hb E. unfold dequeue_step in E. pose proof (i_cons s H) as Hk. unfold cons_ok in Hk.
  pose proof (i_tail s H) as Ht. pose proof (positions s H) as Hpos.
  destruct (cons_ s) as [ |t|t|t item|t item] eqn:Ec; simplify_eq.
  - apply inv_consumer; [done|by rewrite Ec|done|done].
  - destruct (seqs (r s) !! _) as [sq|] eqn:Es; simplify_eq.
    apply inv_consumer; [done|by rewrite Ec|by bcase|]. bcase; [|done]. cbn.
    unfold u64 in *. rewrite Z.mod_small in * by lia. subst sq. split; [done|]. split; [|done].
    destruct (slot_seq s _ (i_slots s H (ndelivered s) ltac:(lia))) as (sq & E & [->|[[_ Hlt]|?]]); [|done|lia].
    unfold seq_at in E. rewrite Es in E. injection E. lia.
  - case_match eqn:Ed; [|done]. case_match; [|done]. simplify_eq. by apply inv_read.
  - by apply inv_reset.
  - by eapply inv_advance.
Qed.

Lemma step_inv s e s' : inv s -> nclaimed s' <= 2 ^ 62 -> step s e = Some s' -> inv s'.
Proof.
  intros H Hb E. destruct e as [p item|p weak|].
  - cbn in E. destruct (prods s !! p) as [[]|] eqn:Ep; simplify_eq. by eapply inv_quiet.
  - by eapply enqueue_inv.
  - pose proof (claimed_grows s Cons s' E). eapply dequeue_inv; [done| |done]. lia.
Qed.

Lemma run_grows es : forall s s', run s es = Some s' -> nclaimed s <= nclaimed s'.
Proof.
  induction es as [|e es IH]; cbn; intros s s' E; [by simplify_eq|].
  destruct (step s e) as [s1|] eqn:E1; [|done]. pose proof (claimed_grows s e s1 E1). specialize (IH s1 s' E). lia.
Qed.

Lemma run_inv es : forall s s', inv s -> nclaimed s' <= 2 ^ 62 -> run s es = Some s' -> inv s'.
Proof.
  induction es as [|e es IH]; cbn; intros s s' H Hb E; [by simplify_eq|].
  destruct (step s e) as [s1|] eqn:E1; [|done]. pose proof (run_grows es s1 s' E).
  eapply IH; [|done|done]. eapply step_inv; [done| |done]. lia.
Qed.

Lemma new_pow2 cap : cap <= 2 ^ 61 -> pow2 (capacity (new cap)).
Proof.
  intros Hc. exists (Z.log2_up (Z.max cap 2)). split; [|done].
  pose proof (Z.log2_up_pos (Z.max cap 2) ltac:(lia)).
  pose proof (Z.log2_up_le_mono (Z.max cap 2) (2 ^ 61) ltac:(lia)) as Hm. rewrite Z.log2_up_pow2 in Hm by lia. lia.
Qed.

Lemma mpsc_inv_init cap n : cap <= 2 ^ 61 -> inv (init cap n).
Proof.
  intros Hcap. pose proof (new_pow2 cap Hcap) as Hc. pose proof (pow2_bounds _ Hc) as Hb.
  change (capacity (new cap)) with (capacity (r (init cap n))) in *.
  constructor; try done; unfold ndelivered, nclaimed; cbn [init claimed delivered length Z.of_nat].
  - cbn. by rewrite length_fmap, length_seq.
  - cbn. by rewrite length_replicate.
  - lia.
  - intros q Hq. rewrite Z.add_0_l in Hq.
    assert (slot (capacity (r (init cap n))) q = Z.to_nat q) as Es by (rewrite slot_mod, Z.mod_small; done || lia).
    apply slot_free; [unfold nclaimed; cbn; lia|..]; unfold seq_at, data_at; rewrite Es.
    + cbn [init r new seqs]. rewrite list_lookup_fmap, lookup_seq_lt by (cbn in *; lia). cbn. f_equal. lia.
    + cbn [init r new data]. rewrite lookup_replicate_2 by (cbn in *; lia). done.
  - intros p st Hp. cbn in Hp. apply lookup_replicate in Hp as [-> _]. done.
Qed.

(** ** The specification: a bounded queue *)

(** The items claimed and not delivered, oldest first. *)
Definition queue (s : sys) : list T := drop (length (delivered s)) (snd <$> claimed s).

(** The item a producer has in hand: from the call of [enqueue] to the claim of a position. *)
Definition in_hand (st : producer) : option T :=
  match st with PLoad item | PSeq item _ | PCas item _ => Some item | _ => None end.

Definition holding (s : sys) (p : nat) : option T := prods s !! p ≫= in_hand.

(** What a step may do: a call puts an item into a producer's hand; the producer appends
    that item while there is room, or has it refused when there is none; the consumer hands
    out the oldest; everything else changes neither the queue nor what is in hand. *)
Inductive queue_step (s : sys) (e : event) (s' : sys) : Prop :=
| q_call p item :
    e = Call p item -> holding s p = None -> holding s' p = Some item ->
    claimed s' = claimed s -> delivered s' = delivered s -> refused s' = refused s ->
    queue s' = queue s -> queue_step s e s'
| q_enqueue p weak item :
    e = Prod p weak -> holding s p = Some item -> holding s' p = None ->
    claimed s' = claimed s ++ [(p, item)] -> delivered s' = delivered s -> refused s' = refused s ->
    zlen (queue s) < capacity (r s) -> queue s' = queue s ++ [item] -> queue_step s e s'
| q_full p weak item :
    e = Prod p weak -> holding s p = Some item -> holding s' p = None ->
    claimed s' = claimed s -> delivered s' = delivered s -> refused s' = refused s ++ [(p, item)] ->
    zlen (queue s) = capacity (r s) -> queue s' = queue s -> queue_step s e s'
| q_dequeue item :
    e = Cons -> prods s' = prods s ->
    claimed s' = claimed s -> delivered s' = delivered s ++ [item] -> refused s' = refused s ->
    queue s = item :: queue s' -> queue_step s e s'
| q_silent :
    (forall p item, e <> Call p item) -> (forall p, holding s' p = holding s p) ->
    claimed s' = claimed s -> delivered s' = delivered s -> refused s' = refused s ->
    queue s' = queue s -> queue_step s e s'.

Definition reachable (cap : Z) (n : nat) (s : sys) : Prop := exists es, run (init cap n) es = Some s.

Lemma mpsc_reachable_inv cap n s : cap <= 2 ^ 61 -> nclaimed s <= 2 ^ 62 -> reachable cap n s -> inv s.
Proof. intros Hc Hb [es E]. eapply run_inv; [by apply (mpsc_inv_init cap n)|done|done]. Qed.

Lemma zlen_queue s : inv s -> zlen (queue s) = nclaimed s - ndelivered s.
Proof.
  intros H. pose proof (i_used s H). unfold zlen, queue. rewrite length_drop, length_fmap. unfold nclaimed, ndelivered in *. lia.
Qed.

Lemma holding_self s p st st' : prods s !! p = Some st -> holding (set_prod s p st') p = in_hand st'.
Proof.
  intros Hp. unfold holding, set_prod. rsimpl.
  rewrite list_lookup_insert_eq by (by eapply lookup_lt_Some). done.
Qed.

Lemma holding_same s p st st' q :
  prods s !! p = Some st -> in_hand st' = in_hand st -> holding (set_prod s p st') q = holding s q.
Proof.
  intros Hp E. unfold holding, set_prod. rsimpl. destruct (decide (q = p)) as [->|].
  - rewrite list_lookup_insert_eq by (by eapply lookup_lt_Some). rewrite Hp. done.
  - by rewrite list_lookup_insert_ne by done.
Qed.

Lemma holding_of s p st : prods s !! p = Some st -> holding s p = in_hand st.
Proof. intros Hp. unfold holding. by rewrite Hp. Qed.

#[local] Ltac silent Ep :=
  apply q_silent; [done|intros ?; refine (holding_same _ _ _ _ _ Ep _); reflexivity|done..].

Lemma enqueue_queue_step s p weak s' :
  inv s -> nclaimed s <= 2 ^ 62 -> enqueue_step s p weak = Some s' -> queue_step s (Prod p weak) s'.
Proof.
  intros H Hb E. pose proof (positions s H) as Hpos. unfold enqueue_step in E.
  destruct (prods s !! p) as [[|i|i h|i h|i h|h]|] eqn:Ep; simplify_eq; pose proof (i_prods s H p _ Ep) as Hok; cbn in Hok.
  1,4,5: silent Ep.
  - destruct (seqs (r s) !! slot (capacity (r s)) h) as [sq|] eqn:Es; simplify_eq.
    destruct (seq_read s H Hb h sq Hok Es) as (Hr & _ & H1). rewrite !as_i64_small by lia.
    bcase; [silent Ep|].
    bcase; [|silent Ep].
    apply (q_full _ _ _ p weak i); try done; [exact (holding_of s p _ Ep)|exact (holding_self s p _ PIdle Ep)|].
    rewrite zlen_queue by done. rewrite H1; lia.
  - case_match eqn:Ec; [|silent Ep].
    apply andb_prop in Ec as [_ Ec]. apply Z.eqb_eq in Ec. rewrite (i_head s H) in Ec.
    apply (q_enqueue _ _ _ p weak i); try done;
      [exact (holding_of s p _ Ep)|exact (holding_self s p _ (PWrite i h) Ep)|rewrite zlen_queue by done; lia|].
    unfold queue. rsimpl. rewrite fmap_app. change (delivered (set_prod s p (PWrite i h))) with (delivered s).
    rewrite drop_app_le; [done|]. rewrite length_fmap. unfold ndelivered, nclaimed in Hpos. lia.
Qed.

Lemma dequeue_queue_step s s' : inv s -> dequeue_step s = Some s' -> queue_step s Cons s'.
Proof.
  intros H E. unfold dequeue_step in E. pose proof (i_cons s H) as Hk. unfold cons_ok in Hk.
  destruct (cons_ s) as [ |t|t|t item|t item] eqn:Ec; simplify_eq; try by apply q_silent.
  - destruct (seqs (r s) !! _) as [sq|]; simplify_eq. by apply q_silent.
  - case_match; [|done]. case_match; simplify_eq. by apply q_silent.
  - destruct Hk as (-> & Hlt & _ & _ & p & Hcl). apply (q_dequeue _ _ _ item); try done.
    unfold queue. rsimpl. rewrite length_app, Nat.add_1_r. apply drop_S.
    unfold claim_at, ndelivered in Hcl. rewrite Nat2Z.id in Hcl. by rewrite list_lookup_fmap, Hcl.
Qed.

Lemma call_queue_step s p item s' : step s (Call p item) = Some s' -> queue_step s (Call p item) s'.
Proof.
  cbn. destruct (prods s !! p) as [[]|] eqn:Ep; intros E; simplify_eq.
  apply (q_call _ _ _ p item); try done; [exact (holding_of s p _ Ep)|exact (holding_self s p _ (PLoad item) Ep)].
Qed.

(** ** Progress *)

(** The slot the consumer is about to read is initialised, with the item claimed for its
    position. *)
Lemma cread_initialised s t :
  inv s -> cons_ s = CRead t -> exists p item, claim_at s t = Some (p, item) /\ data_at s t = Some (Some item).
Proof.
  intros H Et. pose proof (positions s H) as Hpos. pose proof (i_cons s H) as Hk. unfold cons_ok in Hk.
  rewrite Et in Hk. destruct Hk as (-> & Hlt & Hsq).
  destruct (i_slots s H (ndelivered s) ltac:(lia)) as [|p' i E ? E'|p' i E ? E'|p' i E E'|p' i E E']; try congruence; [lia|..].
  1,2: rewrite Hsq in E'; injection E'; lia.
  by eexists _, _.
Qed.

Lemma seq_some s q : inv s -> is_Some (seqs (r s) !! slot (capacity (r s)) q).
Proof. intros H. apply lookup_lt_is_Some. rewrite (i_seqs s H). apply slot_lt, H. Qed.

Lemma enqueue_progress s p st weak :
  inv s -> prods s !! p = Some st -> st <> PIdle -> is_Some (enqueue_step s p weak).
Proof.
  intros H Ep Hn. unfold enqueue_step. rewrite Ep. destruct st as [|i|i h|i h|i h|h]; try done.
  destruct (seq_some s h H) as [sq ->]. done.
Qed.

Lemma dequeue_progress s : inv s -> is_Some (dequeue_step s).
Proof.
  intros H. unfold dequeue_step. destruct (cons_ s) as [ |t|t|t item|t item] eqn:Ec; try done.
  - destruct (seq_some s t H) as [sq ->]. done.
  - destruct (cread_initialised s t H Ec) as (p & item & _ & E). unfold data_at in E. by rewrite E.
Qed.

(** The slot at the head while there is room, and when there is none. *)
Lemma head_slot s :
  inv s -> nclaimed s < 2 ^ 62 -> exists sq, seq_at s (nclaimed s) = Some sq /\ 0 <= sq < 2 ^ 63 /\
    (if zlen (queue s) <? capacity (r s) then sq = nclaimed s else sq < nclaimed s).
Proof.
  intros H Hb. pose proof (positions s H) as Hpos. destruct (seq_some s (nclaimed s) H) as [sq Es]. exists sq.
  split; [exact Es|]. destruct (seq_read s H ltac:(lia) (nclaimed s) sq ltac:(lia) Es) as (Hr & _ & _). split; [exact Hr|].
  rewrite zlen_queue by done. bcase.
  - destruct (i_slots s H (nclaimed s) ltac:(lia)) as [_ E _|?? E|?? E|?? E|?? E]; [|apply claim_lt in E; lia..].
    unfold seq_at in E. rewrite Es in E. by injection E.
  - assert (nclaimed s = ndelivered s + capacity (r s)) as En by lia.
    destruct (slot_seq s _ (i_slots s H (ndelivered s) ltac:(lia))) as (sq' & E & Hs).
    unfold seq_at in E. rewrite <- (slot_next_lap _ (i_cap s H)), <- En, Es in E. injection E as ->. lia.
Qed.

(** What [enqueue] does when no other thread moves: the item is claimed, written into the
    slot of its position and published, or refused. *)
Definition solo_enqueue (s : sys) (p : nat) (item : T) (s' : sys) : Prop :=
  prods s' = prods s /\ cons_ s' = cons_ s /\ delivered s' = delivered s /\
  if zlen (queue s) <? capacity (r s) then
    run s (Call p item :: repeat (Prod p false) 5) = Some s' /\
    claimed s' = claimed s ++ [(p, item)] /\ refused s' = refused s /\
    data_at s' (nclaimed s) = Some (Some item) /\ seq_at s' (nclaimed s) = Some (nclaimed s + 1)
  else
    run s (Call p item :: repeat (Prod p false) 2) = Some s' /\
    claimed s' = claimed s /\ refused s' = refused s ++ [(p, item)] /\ r s' = r s.

(** One access of the only producer that moves. *)
#[local] Ltac producer_moves :=
  unfold enqueue_step at 1; rsimpl; rewrite list_lookup_insert_eq by done; unfold set_prod; rsimpl;
  rewrite ?list_insert_insert_eq.

Lemma solo_claims s p item h R :
  r s = R -> prods s !! p = Some PIdle -> head R = h -> seqs R !! slot (capacity R) h = Some h -> 0 <= h < 2 ^ 62 ->
  exists s', run s (Call p item :: repeat (Prod p false) 5) = Some s' /\ prods s' = prods s /\ cons_ s' = cons_ s /\
    claimed s' = claimed s ++ [(p, item)] /\ delivered s' = delivered s /\ refused s' = refused s /\
    r s' = MkRing (h + 1) (tail R) (<[slot (capacity R) h := h + 1]> (seqs R))
             (<[slot (capacity R) h := Some item]> (data R)) (capacity R).
Proof.
  intros ER Ep Eh Es Hh. pose proof (lookup_lt_Some _ _ _ Ep) as Hl.
  cbn [run step repeat]. rewrite Ep. unfold set_prod. rsimpl.
  producer_moves. rewrite ER, Eh.
  producer_moves. rewrite ER, Es, Z.sub_diag. cbn [Z.eqb]. unfold set_prod. rsimpl. rewrite ?list_insert_insert_eq.
  producer_moves. rewrite ER, Eh, Z.eqb_refl. cbn [negb andb]. unfold set_prod. rsimpl. rewrite ?list_insert_insert_eq.
  producer_moves. producer_moves.
  eexists. split; [reflexivity|]. rsimpl. unfold u64. rewrite (Z.mod_small (h + 1)) by lia. rewrite (list_insert_id _ _ _ Ep). done.
Qed.

Lemma solo_enqueues s p item :
  inv s -> nclaimed s < 2 ^ 62 -> prods s !! p = Some PIdle -> exists s', solo_enqueue s p item s'.
Proof.
  intros H Hb Ep. pose proof (positions s H) as Hpos. destruct (head_slot s H Hb) as (sq & Es & Hr & Hs). unfold solo_enqueue.
  destruct (zlen (queue s) <? capacity (r s)).
  - subst sq. destruct (solo_claims s p item (nclaimed s) (r s) eq_refl Ep (i_head s H) Es ltac:(lia))
      as (s' & E & E1 & E2 & E3 & E4 & E5 & E6).
    exists s'. split_and!; try done; unfold data_at, seq_at; rewrite E6; rsimpl; apply list_lookup_insert_eq;
      rewrite ?(i_data s H), ?(i_seqs s H); apply slot_lt, H.
  - pose proof (lookup_lt_Some _ _ _ Ep) as Hl. cbn [run step repeat]. rewrite Ep. unfold set_prod. rsimpl.
    producer_moves. producer_moves. rewrite (i_head s H). unfold seq_at in Es. rewrite Es.
    rewrite !as_i64_small by lia. bcase; [lia|]. bcase; [|lia]. unfold set_prod. rsimpl.
    rewrite ?list_insert_insert_eq, (list_insert_id _ _ _ Ep).
    by exists (s <| prods := prods s |> <| refused := refused s ++ [(p, item)] |>).
Qed.

(** What [dequeue] does when no other thread moves: it hands out the oldest item once that is
    published, and returns nothing while the queue is empty. *)
Definition solo_dequeue (s s' : sys) : Prop :=
  match claim_at s (ndelivered s) with
  | Some (p, item) =>
      (forall st, prods s !! p = Some st -> in_flight st = false) ->
      run s (repeat Cons 5) = Some s' /\ prods s' = prods s /\ cons_ s' = CIdle /\
      claimed s' = claimed s /\ delivered s' = delivered s ++ [item] /\ refused s' = refused s
  | None => run s (repeat Cons 2) = Some s' /\ s' = s
  end.

Lemma solo_takes s item :
  inv s -> nclaimed s <= 2 ^ 62 -> cons_ s = CIdle -> ndelivered s < nclaimed s ->
  seq_at s (ndelivered s) = Some (ndelivered s + 1) -> data_at s (ndelivered s) = Some (Some item) ->
  exists s', run s (repeat Cons 5) = Some s' /\ prods s' = prods s /\ cons_ s' = CIdle /\
    claimed s' = claimed s /\ delivered s' = delivered s ++ [item] /\ refused s' = refused s.
Proof.
  intros H Hb Hi Hlt Es Ed. pose proof (positions s H) as Hpos.
  pose proof (i_tail s H) as Et. rewrite Hi in Et. unfold seq_at, data_at in *.
  cbn [run step repeat]. unfold dequeue_step at 1. rewrite Hi. cbv beta zeta iota.
  unfold dequeue_step at 1. rsimpl. rewrite Et, Es. unfold u64. rewrite (Z.mod_small (ndelivered s + 1)) by lia.
  rewrite Z.eqb_refl. cbv beta zeta iota. unfold dequeue_step at 1. rsimpl.
  cbv beta zeta iota. rewrite Ed. cbv beta zeta iota.
  unfold dequeue_step at 1. rsimpl. cbv beta zeta iota. unfold dequeue_step at 1. rsimpl. by eexists.
Qed.

Lemma solo_dequeues s : inv s -> nclaimed s <= 2 ^ 62 -> cons_ s = CIdle -> exists s', solo_dequeue s s'.
Proof.
  intros H Hb Hi. pose proof (positions s H) as Hpos. unfold solo_dequeue.
  destruct (claim_at s (ndelivered s)) as [[p item]|] eqn:Hcl.
  - pose proof (claim_lt s (ndelivered s) _ ltac:(lia) Hcl) as Hlt.
    destruct (i_slots s H (ndelivered s) ltac:(lia)) as [|p' i E E'|p' i E E'|p' i E E' Ed|p' i E E']; [lia| | | |congruence];
      rewrite Hcl in E; simplify_eq.
    1,2: exists s; intros Hq; by specialize (Hq _ E').
    destruct (solo_takes s i H Hb Hi Hlt E' Ed) as (s' & Hs). by exists s'.
  - exists s. split; [|done].
    assert (nclaimed s <= ndelivered s) as Hle.
    { unfold claim_at in Hcl. apply lookup_ge_None in Hcl. unfold nclaimed. lia. }
    destruct (i_slots s H (ndelivered s) ltac:(lia)) as [_ E _|?? E|?? E|?? E|?? E]; [|apply claim_lt in E; lia..].
    pose proof (i_tail s H) as Et. rewrite Hi in Et. unfold seq_at in E.
    cbn [run step repeat]. unfold dequeue_step at 1. rewrite Hi. cbv beta zeta iota.
    unfold dequeue_step at 1. rsimpl. rewrite Et, E. unfold u64. rewrite Z.mod_small by lia. bcase; [lia|].
    destruct s. cbn in Hi. subst. done.
Qed.

(** C15: The ring is a bounded queue for any number of producers.  In every state that an
    interleaving of their atomic accesses with the consumer's can reach: (1) each step is a
    step of a bounded queue: a producer appends the very item it was called with while
    the queue has room, has it refused only when the queue holds [capacity] items, the
    consumer hands out the oldest item, or nothing changes; what was delivered and what
    is in the queue are what was claimed, in that order; (2) nobody is stuck: a producer in the
    middle of a call can always take its next step and so can the consumer, so that no slot
    is read before it is initialised; (3) undisturbed, [enqueue] takes the item or refuses it
    exactly by whether there is room, with the item in its slot and published at the end, and [dequeue] hands out
    the oldest item when that is published and nothing from an empty queue.  The counters do
    not wrap within the first 2^62 claims. *)
Theorem mpsc_refines_bounded_queue cap n s :
  cap <= 2 ^ 61 -> reachable cap n s -> nclaimed s < 2 ^ 62 ->
  (forall e s', step s e = Some s' -> queue_step s e s') /\
  delivered s ++ queue s = snd <$> claimed s /\ zlen (queue s) <= capacity (r s) /\
  (forall p st weak, prods s !! p = Some st -> st <> PIdle -> is_Some (step s (Prod p weak))) /\
  is_Some (step s Cons) /\
  (forall p item, prods s !! p = Some PIdle -> exists s', solo_enqueue s p item s') /\
  (cons_ s = CIdle -> exists s', solo_dequeue s s').
Proof.
  intros Hc Hr Hb. pose proof (mpsc_reachable_inv cap n s Hc ltac:(lia) Hr) as H. split_and!.
  - intros [p item|p weak|] s' E.
    + by apply call_queue_step.
    + apply enqueue_queue_step; [done|lia|done].
    + by apply dequeue_queue_step.
  - unfold queue. rewrite (i_prefix s H) at 1. apply take_drop.
  - rewrite zlen_queue by done. pose proof (i_used s H). lia.
  - intros p st weak. by apply enqueue_progress.
  - by apply dequeue_progress.
  - intros p item. by apply solo_enqueues.
  - apply solo_dequeues; [done|lia].
Qed.

(** No two threads touch a slot's data at once, and none touches it in the wrong state: while a
    producer is about to write, the slot holds no item and no other producer and not the
    consumer is about to access it. *)
Theorem mpsc_slots_are_exclusive cap n s :
  cap <= 2 ^ 61 -> nclaimed s <= 2 ^ 62 -> reachable cap n s ->
  (forall p item h, prods s !! p = Some (PWrite item h) ->
     data_at s h = Some None /\
     (forall p' item' h', prods s !! p' = Some (PWrite item' h') ->
        slot (capacity (r s)) h' = slot (capacity (r s)) h -> p' = p) /\
     (forall t, cons_ s = CRead t -> slot (capacity (r s)) t <> slot (capacity (r s)) h)).
Proof.
  intros Hc Hb Hr. pose proof (mpsc_reachable_inv cap n s Hc Hb Hr) as H. pose proof (positions s H) as Hpos.
  assert (forall t, cons_ s = CRead t -> ndelivered s <= t < nclaimed s /\ seq_at s t = Some (t + 1)) as Ht.
  { intros t Et. pose proof (i_cons s H) as Hk. unfold cons_ok in Hk. rewrite Et in Hk. destruct Hk as (-> & ? & ?). lia || (split; [lia|done]). }
  intros p item h Hp. destruct (i_prods s H p _ Hp) as (Hh & Hcl & Hsq). split_and!.
  - destruct (i_slots s H h ltac:(lia)) as [|p' ? E|p' ? E|p' ? E E'|p' ? E ? E']; try done; [congruence|].
    rewrite Hsq in E'. injection E'. lia.
  - intros p' item' h' Hp' Es. destruct (i_prods s H p' _ Hp') as (Hh' & Hcl' & _).
    apply slot_inj in Es; [|apply H|lia]. congruence.
  - intros t Et Es. destruct (Ht t Et) as [Hlt E']. apply slot_inj in Es; [|apply H|lia]. subst.
    rewrite Hsq in E'. injection E'. lia.
Qed.

End Mpsc.

(** ** Witness: two producers claim the first two positions of a ring of two *)

(** The second publishes first; its compare-and-exchange fails once because the
    first was faster, once spuriously. *)
Definition two_producers : list (event (T := Z)) :=
  [Call 0 70; Call 1 71; Prod 0 false; Prod 1 false; Prod 0 false; Prod 1 false; Prod 0 false; Prod 1 false;
   Prod 1 false; Prod 1 true; Prod 1 false; Prod 1 false; Prod 1 false; Prod 1 false].

Definition two_claims : sys :=
  MkSys (MkRing 2 0 [0; 2] [None; Some 71] 2) [PWrite 70 0; PIdle] CIdle [(0%nat, 70); (1%nat, 71)] [] [].

Lemma two_claims_reachable : reachable 2 2 two_claims.
Proof. exists two_producers. vm_compute. reflexivity. Qed.

Definition two_claims_more : sys := two_claims <| prods := [PWrite 70 0; PLoad 72] |>.

Lemma mpsc_refines_bounded_queue_witness :
  is_Some (step two_claims_more (Prod 1 false)) /\ is_Some (step two_claims_more Cons) /\ queue two_claims_more = [70; 71].
Proof.
  destruct (mpsc_refines_bounded_queue 2 2 two_claims_more) as (_ & Hq & _ & Hp & Hk & _).
  - vm_compute. congruence.
  - exists (two_producers ++ [Call 1 72]). vm_compute. reflexivity.
  - vm_compute. reflexivity.
  - split; [apply (Hp 1%nat (PLoad 72) false); [reflexivity|discriminate]|]. split; [exact Hk|exact Hq].
Defined.

Lemma mpsc_slots_are_exclusive_witness : data_at two_claims 0 = Some None.
Proof.
  edestruct (mpsc_slots_are_exclusive 2 2 two_claims) with (p := 0%nat) (item := 70) (h := 0) as [E _]; [| | | |exact E].
  - vm_compute. congruence.
  - vm_compute. congruence.
  - apply two_claims_reachable.
  - exact eq_refl.
Defined.

End Mpsc.
