(* ===== verification/FramePool.v ===== *)
(** * The frame pool (dpdk-stdlib-udp/src/frame_pool.rs)

    One thread allocates, any number of threads free, in any interleaving of their atomic
    accesses.  A frame index is held from the moment the allocator takes it out of the
    free list until its holder frees it; [held] lists the indices that threads hold, [posted]
    those put into the free list, in the order of their positions and with the thread that
    puts them there, [taken] how many the allocator has taken out.  The theorems are
    about the first 2^62 frees. *)

From stdpp Require Import base numbers list.
From Stdlib Require Import ZArith Lia.
From S2P Require Import Prelude Buffer Ring MpscRing.

#[local] Open Scope Z_scope.

Definition U32_MAX : Z := 4294967295.
Definition DEFAULT_FRAME_SIZE : Z := 10240.
Definition DEFAULT_POOL_CAPACITY : Z := 16384.

(** [FrameRef]. *)
Record FrameRef := MkRef { pool_idx : Z; fr_len : Z }.

Record FramePool := MkPool {
  buffer : list Z;
  frame_size : Z;
  pool_capacity : Z;
  free_head : Z;
  free_tail : Z;
  pool_free_list : list Z;
  free_capacity : Z }.

#[global] Instance eta_FramePool : Eta FramePool := fun p =>
  MkPool (buffer p) (frame_size p) (pool_capacity p) (free_head p) (free_tail p) (pool_free_list p)
    (free_capacity p).

(** [FramePool::new] and [with_defaults]. *)
Definition pool_new (capacity frame_size : Z) : FramePool :=
  let capacity := SpscByteRing.next_power_of_two (Z.max capacity 2) in
  let frame_size := Z.max frame_size 64 in
  let free_cap := SpscByteRing.next_power_of_two (capacity * 2) in
  MkPool (replicate (Z.to_nat (capacity * frame_size)) 0) frame_size capacity capacity 0
    ((fun i => if Z.of_nat i <? capacity then u32 (Z.of_nat i) else U32_MAX) <$> seq 0 (Z.to_nat free_cap))
    free_cap.

Definition with_defaults : FramePool := pool_new DEFAULT_POOL_CAPACITY DEFAULT_FRAME_SIZE.

(** [frame]: the bytes of a slot. *)
Definition frame (p : FramePool) (idx : Z) : outcome (list Z) :=
  let offset := Z.to_nat (idx * frame_size p) in
  slice (buffer p) offset (offset + Z.to_nat (frame_size p)).

(** The part of [alloc_copy] after the allocation: [frame_mut] and the copy. *)
Definition copy_frame (p : FramePool) (idx : Z) (data : list Z) : outcome (FramePool * FrameRef) :=
  let len := Nat.min (length data) (Z.to_nat (frame_size p)) in
  let offset := Z.to_nat (idx * frame_size p) in
  let! fr := slice (buffer p) offset (offset + Z.to_nat (frame_size p)) in
  let! bytes := slice data 0 len in
  let! fr := blit fr 0 len bytes in
  let! b := blit (buffer p) offset (offset + Z.to_nat (frame_size p)) fr in
  Done (p <| buffer := b |>, MkRef idx (u16 (Z.of_nat len))).

(** [get_frame_data]. *)
Definition get_frame_data (p : FramePool) (ref : FrameRef) : outcome (list Z) :=
  let offset := Z.to_nat (pool_idx ref * frame_size p) in
  slice (buffer p) offset (offset + Z.to_nat (fr_len ref)).

(** [alloc] and [free] without other threads: the swap that finds no index would spin for ever. *)
Definition pool_alloc (p : FramePool) : outcome (FramePool * option Z) :=
  if free_head p <=? free_tail p then Done (p, None)
  else
    let i := slot (free_capacity p) (free_tail p) in
    match pool_free_list p !! i with
    | None => Panic
    | Some v =>
        if v =? U32_MAX then OutOfFuel
        else Done (p <| pool_free_list := <[i := U32_MAX]> (pool_free_list p) |>
                     <| free_tail := u64 (free_tail p + 1) |>, Some v)
    end.

Definition pool_free (p : FramePool) (idx : Z) : outcome FramePool :=
  if idx <? pool_capacity p then
    let i := slot (free_capacity p) (free_head p) in
    if (i <? length (pool_free_list p))%nat
    then Done (p <| free_head := u64 (free_head p + 1) |> <| pool_free_list := <[i := idx]> (pool_free_list p) |>)
    else Panic
  else Panic.

(** [alloc_copy]. *)
Definition alloc_copy (p : FramePool) (data : list Z) : outcome (FramePool * option FrameRef) :=
  let! (p, i) := pool_alloc p in
  match i with
  | None => Done (p, None)
  | Some idx => let! (p, ref) := copy_frame p idx data in Done (p, Some ref)
  end.

(** [available] and [in_use]: the subtractions are checked. *)
Definition available (p : FramePool) : outcome Z :=
  if free_tail p <=? free_head p then Done (free_head p - free_tail p) else Panic.
Definition in_use (p : FramePool) : outcome Z :=
  let! a := available p in if a <=? pool_capacity p then Done (pool_capacity p - a) else Panic.

(** ** Concurrent allocation *)

(** The allocator: it has loaded its [tail], then [head], then it swaps until it finds an
    index, then it stores [tail]. *)
Inductive allocator : Type :=
| AIdle
| AHead (tail : Z)
| ASwap (tail : Z)
| ATail (tail idx : Z).

(** A thread inside [free], after its [fetch_add]. *)
Inductive freer : Type :=
| FIdle
| FStore (idx head : Z).

Record pool_sys := MkPoolSys {
  pool : FramePool;
  alloc_st : allocator;
  freers : list freer;
  held : list Z;
  posted : list (option nat * Z);
  taken : nat;
  answers : list (option Z) }.

#[global] Instance eta_pool_sys : Eta pool_sys := fun s =>
  MkPoolSys (pool s) (alloc_st s) (freers s) (held s) (posted s) (taken s) (answers s).

(** One step of [alloc]. *)
Definition alloc_step (s : pool_sys) : option pool_sys :=
  let P := pool s in
  match alloc_st s with
  | AIdle => Some (s <| alloc_st := AHead (free_tail P) |>)
  | AHead tail =>
      Some (if free_head P <=? tail
            then s <| alloc_st := AIdle |> <| answers := answers s ++ [None] |>
            else s <| alloc_st := ASwap tail |>)
  | ASwap tail =>
      let i := slot (free_capacity P) tail in
      match pool_free_list P !! i with
      | None => None
      | Some v =>
          let s := s <| pool := P <| pool_free_list := <[i := U32_MAX]> (pool_free_list P) |> |> in
          Some (if v =? U32_MAX then s
                else s <| alloc_st := ATail tail v |> <| held := v :: held s |> <| taken := S (taken s) |>)
      end
  | ATail tail idx =>
      Some (s <| alloc_st := AIdle |> <| pool := P <| free_tail := u64 (tail + 1) |> |>
              <| answers := answers s ++ [Some idx] |>)
  end.

(** A call of [free] by thread [p] with an index it holds, up to the [fetch_add]; it may
    be the index [alloc] is about to return only after it has returned. *)
Definition free_call (s : pool_sys) (p : nat) (idx : Z) : option pool_sys :=
  let P := pool s in
  match freers s !! p with
  | Some FIdle =>
      if bool_decide (idx ∈ held s)
         && negb (match alloc_st s with ATail _ i => i =? idx | _ => false end) then
        Some (s <| freers := <[p := FStore idx (free_head P)]> (freers s) |>
                <| pool := P <| free_head := u64 (free_head P + 1) |> |>
                <| held := filter (fun i => i <> idx) (held s) |>
                <| posted := posted s ++ [(Some p, idx)] |>)
      else None
  | _ => None
  end.

(** The store of [free]. *)
Definition free_step (s : pool_sys) (p : nat) : option pool_sys :=
  let P := pool s in
  match freers s !! p with
  | Some (FStore idx head) =>
      Some (s <| freers := <[p := FIdle]> (freers s) |>
              <| pool := P <| pool_free_list :=
                             <[slot (free_capacity P) head := idx]> (pool_free_list P) |> |>)
  | _ => None
  end.

Inductive pool_event : Type :=
| Alloc
| Free (p : nat) (idx : Z)
| Store (p : nat).

Definition pool_step (s : pool_sys) (e : pool_event) : option pool_sys :=
  match e with
  | Alloc => alloc_step s
  | Free p idx => free_call s p idx
  | Store p => free_step s p
  end.

Fixpoint pool_run (s : pool_sys) (es : list pool_event) : option pool_sys :=
  match es with
  | [] => Some s
  | e :: es => match pool_step s e with Some s' => pool_run s' es | None => None end
  end.

Definition pool_init (capacity frame_size : Z) (n : nat) : pool_sys :=
  let P := pool_new capacity frame_size in
  MkPoolSys P AIdle (replicate n FIdle) []
    ((fun i => (None, Z.of_nat i)) <$> seq 0 (Z.to_nat (pool_capacity P))) 0 [].

(** ** Invariant *)

Definition nposted (s : pool_sys) : Z := Z.of_nat (length (posted s)).
Definition ntaken (s : pool_sys) : Z := Z.of_nat (taken s).
Definition entry (s : pool_sys) (q : Z) : option Z :=
  pool_free_list (pool s) !! slot (free_capacity (pool s)) q.
Definition post (s : pool_sys) (q : Z) : option (option nat * Z) := posted s !! Z.to_nat q.

(** The indices in the free list, the ones on their way included. *)
Definition in_list (s : pool_sys) : list Z := snd <$> drop (taken s) (posted s).

Inductive entry_ok (s : pool_sys) (q : Z) : Prop :=
| entry_empty : nposted s <= q -> entry s q = Some U32_MAX -> entry_ok s q
| entry_full o idx : post s q = Some (o, idx) -> entry s q = Some idx -> entry_ok s q
| entry_coming p idx :
    post s q = Some (Some p, idx) -> freers s !! p = Some (FStore idx q) ->
    entry s q = Some U32_MAX -> entry_ok s q.

Definition freer_ok (s : pool_sys) (p : nat) (st : freer) : Prop :=
  match st with
  | FIdle => True
  | FStore idx h =>
      ntaken s <= h < nposted s /\ post s h = Some (Some p, idx) /\ entry s h = Some U32_MAX
  end.

Definition alloc_ok (s : pool_sys) : Prop :=
  match alloc_st s with
  | AIdle => free_tail (pool s) = ntaken s
  | AHead t => t = ntaken s /\ free_tail (pool s) = t
  | ASwap t => t = ntaken s /\ t < nposted s /\ free_tail (pool s) = t
  | ATail t idx => t + 1 = ntaken s /\ free_tail (pool s) = t /\ idx ∈ held s
  end.

Record pool_inv (s : pool_sys) : Prop := {
  p_cap : pow2 (free_capacity (pool s));
  p_size : 2 <= pool_capacity (pool s) <= 2 ^ 31 /\ pool_capacity (pool s) <= free_capacity (pool s);
  p_list : length (pool_free_list (pool s)) = Z.to_nat (free_capacity (pool s));
  p_head : free_head (pool s) = nposted s;
  p_taken : (taken s <= length (posted s))%nat;
  p_owned : held s ++ in_list s ≡ₚ seqZ 0 (pool_capacity (pool s));
  p_entries : forall q, ntaken s <= q < ntaken s + free_capacity (pool s) -> entry_ok s q;
  p_freers : forall p st, freers s !! p = Some st -> freer_ok s p st;
  p_alloc : alloc_ok s }.

Lemma filter_absent (l : list Z) x : x ∉ l -> filter (fun i => i <> x) l = l.
Proof.
  induction l as [|y l IH]; intros Hx; [done|]. apply not_elem_of_cons in Hx as [Hy Hx].
  rewrite filter_cons_True by done. by rewrite IH.
Qed.

Lemma filter_remove (l : list Z) x :
  NoDup l -> x ∈ l -> l ≡ₚ x :: filter (fun i => i <> x) l.
Proof.
  induction l as [|y l IH]; intros Hn Hx; [by apply elem_of_nil in Hx|]. apply NoDup_cons in Hn as [Hy Hn].
  rewrite filter_cons. destruct (decide (y <> x)) as [Hne|Heq].
  - rewrite IH at 1; [|done|by apply elem_of_cons in Hx as [->|]]. apply Permutation_swap.
  - apply dec_stable in Heq. subst y. by rewrite filter_absent.
Qed.

Section PoolStep.

Context (s : pool_sys) (H : pool_inv s).

#[local] Abbreviation C := (free_capacity (pool s)).

Lemma pool_positions :
  0 <= ntaken s <= nposted s /\ nposted s <= ntaken s + pool_capacity (pool s) /\ 2 <= C <= 2 ^ 61 /\
  2 <= pool_capacity (pool s) <= 2 ^ 31 /\ pool_capacity (pool s) <= C.
Proof.
  pose proof (pow2_bounds _ (p_cap s H)). pose proof (p_size s H). pose proof (p_taken s H).
  pose proof (Permutation_length (p_owned s H)) as E. rewrite length_app, length_seqZ in E.
  unfold in_list in E. rewrite length_fmap, length_drop in E. unfold ntaken, nposted. lia.
Qed.

(** Every index is in one place. *)
Lemma owned_nodup : NoDup (held s ++ in_list s).
Proof. rewrite (p_owned s H). apply NoDup_seqZ. Qed.

Lemma owned_range i : i ∈ held s ++ in_list s -> 0 <= i < pool_capacity (pool s).
Proof. rewrite (p_owned s H). intros Hi%elem_of_seqZ. lia. Qed.

Lemma entry_insert s' x v q :
  pool_free_list (pool s') = <[slot C x := v]> (pool_free_list (pool s)) -> free_capacity (pool s') = C ->
  - C < x - q < C -> entry s' q = if x =? q then Some v else entry s q.
Proof.
  intros E Ec Hxq. unfold entry. rewrite E, Ec. bcase.
  - subst. apply list_lookup_insert_eq. rewrite (p_list s H). apply slot_lt, H.
  - apply list_lookup_insert_ne. intros E'. apply slot_inj in E'; [done|apply H|done].
Qed.

Lemma post_lt q x : 0 <= q -> post s q = Some x -> q < nposted s.
Proof. intros Hq E%lookup_lt_Some. unfold nposted. lia. Qed.

(** A posted index is in range, so it is not the sentinel. *)
Lemma posted_range q o idx : ntaken s <= q -> post s q = Some (o, idx) -> 0 <= idx < pool_capacity (pool s).
Proof.
  intros Hq E. apply owned_range, elem_of_app. right. unfold in_list. apply list_elem_of_fmap.
  exists (o, idx). split; [done|]. apply list_elem_of_lookup. exists (Z.to_nat q - taken s)%nat.
  rewrite lookup_drop. unfold post, ntaken in *. by replace (taken s + (Z.to_nat q - taken s))%nat with (Z.to_nat q) by lia.
Qed.


(** What an entry depends on. *)
Lemma entry_ok_frame s' q :
  entry_ok s q -> entry s' q = entry s q -> (forall x, post s q = Some x -> post s' q = Some x) ->
  (nposted s <= q -> nposted s' <= q) ->
  (forall p idx, freers s !! p = Some (FStore idx q) -> freers s' !! p = Some (FStore idx q)) -> entry_ok s' q.
Proof.
  intros [ |o idx|p idx] Ee Hp Hn Hf; [apply entry_empty|apply (entry_full _ _ o idx)|apply (entry_coming _ _ p idx)];
    rewrite ?Ee; auto.
Qed.

Lemma inv_alloc_st a l :
  alloc_ok (s <| alloc_st := a |>) -> pool_inv (s <| alloc_st := a |> <| answers := l |>).
Proof. intros Ha. constructor; try apply H; [|done]. intros q Hq. by apply entry_ok_frame; [apply H|..]. Qed.

Lemma inv_tail t idx l :
  alloc_st s = ATail t idx -> nposted s <= 2 ^ 62 ->
  pool_inv (s <| alloc_st := AIdle |> <| pool := (pool s) <| free_tail := u64 (t + 1) |> |> <| answers := l |>).
Proof.
  intros Ha Hb. pose proof pool_positions as Hp. pose proof (p_alloc s H) as Hk. unfold alloc_ok in Hk. rewrite Ha in Hk.
  constructor; try apply H.
  - intros q Hq. by apply entry_ok_frame; [apply H|..].
  - change (u64 (t + 1) = ntaken s). unfold u64. rewrite Z.mod_small; lia.
Qed.

Lemma inv_spin t :
  alloc_st s = ASwap t -> entry s t = Some U32_MAX ->
  pool_inv (s <| pool := (pool s) <| pool_free_list := <[slot C t := U32_MAX]> (pool_free_list (pool s)) |> |>).
Proof.
  intros Ha E. unfold entry in E. rewrite list_insert_id by done. constructor; try apply H.
  intros q Hq. by apply entry_ok_frame; [apply H|..].
Qed.

Lemma inv_take t v :
  alloc_st s = ASwap t -> entry s t = Some v -> v <> U32_MAX ->
  pool_inv (s <| pool := (pool s) <| pool_free_list := <[slot C t := U32_MAX]> (pool_free_list (pool s)) |> |>
              <| alloc_st := ATail t v |> <| held := v :: held s |> <| taken := S (taken s) |>).
Proof.
  intros Ha E Hv. match goal with |- pool_inv ?x => set (s' := x) end. pose proof pool_positions as Hp.
  pose proof (p_alloc s H) as Hk. unfold alloc_ok in Hk. rewrite Ha in Hk. destruct Hk as (Et & Hlt & Eft).
  assert (ntaken s' = ntaken s + 1) as En by (unfold ntaken; change (taken s') with (S (taken s)); lia).
  assert (nposted s' = nposted s) as Ep by done.
  assert (forall q, ntaken s <= q < ntaken s + C -> entry s' q = if t =? q then Some U32_MAX else entry s q) as He
    by (intros q Hq; apply (entry_insert s'); done || lia).
  assert (exists o, post s t = Some (o, v)) as [o Hpost].
  { destruct (p_entries s H t ltac:(lia)) as [|o idx E1 E2|p idx E1 E2 E3]; [lia| |congruence].
    rewrite E in E2. injection E2 as ->. eauto. }
  assert (in_list s = v :: in_list s') as Ein.
  { unfold in_list. change (taken s') with (S (taken s)). change (posted s') with (posted s).
    unfold post in Hpost. rewrite Et in Hpost. unfold ntaken in Hpost. rewrite Nat2Z.id in Hpost.
    by rewrite (drop_S _ _ _ Hpost). }
  constructor; try apply H.
  - change (length (<[slot C t := U32_MAX]> (pool_free_list (pool s))) = Z.to_nat C). rewrite length_insert. apply H.
  - change (S (taken s) <= length (posted s))%nat. unfold ntaken, nposted in *. lia.
  - change ((v :: held s) ++ in_list s' ≡ₚ seqZ 0 (pool_capacity (pool s))). rewrite <- (p_owned s H), Ein.
    cbn. apply Permutation_middle.
  - intros q Hq. rewrite En in Hq. change (free_capacity (pool s')) with C in Hq.
    destruct (Z.eq_dec q (t + C)) as [->|Hne].
    + specialize (He t ltac:(lia)). rewrite Z.eqb_refl in He. apply entry_empty; [rewrite Ep; lia|].
      unfold entry in *. change (free_capacity (pool s')) with C in *. by rewrite slot_next_lap by apply H.
    + specialize (He q ltac:(lia)). destruct (Z.eqb_spec t q); [lia|].
      by apply entry_ok_frame; [apply H; lia|..].
  - intros p st Hst. change (freers s !! p = Some st) in Hst. pose proof (p_freers s H p st Hst) as Hok.
    destruct st as [|idx h]; [done|]. destruct Hok as (Hh & E1 & E2).
    assert (h <> t) by (intros ->; congruence). cbn. rewrite En, Ep.
    split; [lia|]. split; [done|]. rewrite He by lia. by destruct (Z.eqb_spec t h).
  - unfold alloc_ok. change (alloc_st s') with (ATail t v). split; [lia|]. split; [done|]. change (v ∈ v :: held s). by left.
Qed.

Lemma inv_free p idx :
  freers s !! p = Some FIdle -> idx ∈ held s -> nposted s < 2 ^ 62 ->
  match alloc_st s with ATail _ i => i <> idx | _ => True end ->
  pool_inv (s <| freers := <[p := FStore idx (free_head (pool s))]> (freers s) |>
              <| pool := (pool s) <| free_head := u64 (free_head (pool s) + 1) |> |>
              <| held := filter (fun i => i <> idx) (held s) |>
              <| posted := posted s ++ [(Some p, idx)] |>).
Proof.
  intros Hf Hh Hb Ha. match goal with |- pool_inv ?x => set (s' := x) end. pose proof pool_positions as Hp.
  pose proof (p_head s H) as Ehd.
  assert (nposted s' = nposted s + 1) as Ep.
  { unfold nposted. change (posted s') with (posted s ++ [(Some p, idx)]). rewrite length_app. cbn. lia. }
  assert (ntaken s' = ntaken s) as En by done.
  assert (forall q x, post s q = Some x -> post s' q = Some x) as Hpost by (intros q x E; by apply lookup_app_l_Some).
  assert (post s' (nposted s) = Some (Some p, idx)) as Hnew.
  { unfold post, nposted. rewrite Nat2Z.id. change (posted s') with (posted s ++ [(Some p, idx)]).
    rewrite lookup_app_r, Nat.sub_diag by done. done. }
  assert (held s ≡ₚ idx :: held s') as Eh.
  { change (held s') with (filter (fun i => i <> idx) (held s)).
    pose proof owned_nodup as Hn. apply NoDup_app in Hn as (Hn & _). by apply filter_remove. }
  assert (entry s (nposted s) = Some U32_MAX) as Ee.
  { destruct (p_entries s H (nposted s)) as [|o i E|p' i E]; [|done|apply post_lt in E; lia..].
    pose proof owned_nodup. pose proof (Permutation_length (p_owned s H)) as E. rewrite Eh, length_app in E.
    rewrite length_seqZ in E. unfold in_list in E. rewrite length_fmap, length_drop in E. cbn in E. unfold ntaken, nposted in *. lia. }
  constructor; try apply H.
  - change (u64 (free_head (pool s) + 1) = nposted s'). rewrite Ehd, Ep. unfold u64. rewrite Z.mod_small; lia.
  - change (taken s <= length (posted s ++ [(Some p, idx)]))%nat. rewrite length_app. pose proof (p_taken s H). lia.
  - change (pool_capacity (pool s')) with (pool_capacity (pool s)). rewrite <- (p_owned s H), Eh.
    assert (in_list s' = in_list s ++ [idx]) as ->.
    { unfold in_list. change (posted s') with (posted s ++ [(Some p, idx)]). change (taken s') with (taken s).
      rewrite drop_app_le by apply H. by rewrite fmap_app. }
    rewrite app_assoc, Permutation_app_comm. done.
  - intros q Hq. change (entry_ok s' q). destruct (Z.eq_dec q (nposted s)) as [->|Hne].
    + apply (entry_coming _ _ p idx); [done| |done]. change (freers s') with (<[p := FStore idx (free_head (pool s))]> (freers s)).
      rewrite Ehd. apply list_lookup_insert_eq. by eapply lookup_lt_Some.
    + apply entry_ok_frame; [by apply H|done|by apply Hpost|lia|].
      intros p' i Hi. change (<[p := FStore idx (free_head (pool s))]> (freers s) !! p' = Some (FStore i q)).
      rewrite list_lookup_insert_ne; [done|]. congruence.
  - intros p' st. change (freers s') with (<[p := FStore idx (free_head (pool s))]> (freers s)).
    intros [(-> & <- & _)|[_ Hx]]%list_lookup_insert_Some.
    + cbn. rewrite Ep, En, Ehd. split; [lia|]. done.
    + pose proof (p_freers s H p' st Hx) as Hok. destruct st as [|i h]; [done|]. destruct Hok as (? & E1 & E2).
      cbn. rewrite Ep, En. split; [lia|]. split; [by apply Hpost|done].
  - pose proof (p_alloc s H) as Hk. unfold alloc_ok in *. change (alloc_st s') with (alloc_st s).
    destruct (alloc_st s) as [ | | |t i]; rewrite ?En, ?Ep; try done.
    + destruct Hk as (? & ? & ?). split_and!; [done|lia|done].
    + destruct Hk as (? & ? & Hi). split_and!; [done|done|]. rewrite Eh in Hi. by apply elem_of_cons in Hi as [->|].
Qed.

Lemma inv_store p idx h :
  freers s !! p = Some (FStore idx h) ->
  pool_inv (s <| freers := <[p := FIdle]> (freers s) |>
              <| pool := (pool s) <| pool_free_list := <[slot C h := idx]> (pool_free_list (pool s)) |> |>).
Proof.
  intros Hf. match goal with |- pool_inv ?x => set (s' := x) end. pose proof pool_positions as Hp.
  destruct (p_freers s H p _ Hf) as (Hh & Hpost & Hent).
  assert (forall q, ntaken s <= q < ntaken s + C -> entry s' q = if h =? q then Some idx else entry s q) as He
    by (intros q Hq; apply (entry_insert s'); done || lia).
  constructor; try apply H.
  - change (length (<[slot C h := idx]> (pool_free_list (pool s))) = Z.to_nat C). rewrite length_insert. apply H.
  - intros q Hq. specialize (He q Hq). destruct (Z.eqb_spec h q) as [->|Hne]; [by apply (entry_full _ _ (Some p) idx)|].
    apply entry_ok_frame; [by apply H|done|done|done|]. intros p' i Hi.
    change (<[p := FIdle]> (freers s) !! p' = Some (FStore i q)). rewrite list_lookup_insert_ne; [done|]. congruence.
  - intros p' st. change (freers s') with (<[p := FIdle]> (freers s)).
    intros [(-> & <- & _)|[Hne Hx]]%list_lookup_insert_Some; [done|].
    pose proof (p_freers s H p' st Hx) as Hok. destruct st as [|i h']; [done|]. destruct Hok as (Hh' & E1 & E2).
    split; [exact Hh'|split; [exact E1|]]. rewrite He by lia. destruct (Z.eqb_spec h h') as [->|]; [|done]. congruence.
Qed.

End PoolStep.

(** ** Every step *)

Lemma posted_grows s e s' : pool_step s e = Some s' -> nposted s <= nposted s'.
Proof.
  destruct e as [|p idx|p]; cbn; unfold alloc_step, free_call, free_step; intros E;
    repeat case_match; simplify_eq; unfold nposted; rsimpl; rewrite ?length_app; lia.
Qed.

Lemma pool_step_inv s e s' : pool_inv s -> nposted s' <= 2 ^ 62 -> pool_step s e = Some s' -> pool_inv s'.
Proof.
  intros H Hb E. pose proof (posted_grows s e s' E) as Hg. pose proof (pool_positions s H) as Hp.
  destruct e as [|p idx|p]; cbn in E.
  - unfold alloc_step in E. pose proof (p_alloc s H) as Hk. unfold alloc_ok in Hk.
    destruct (alloc_st s) as [|t|t|t v] eqn:Ea; simplify_eq.
    + by apply (inv_alloc_st s H _ (answers s)).
    + destruct Hk as [Et Ef]. bcase; [apply inv_alloc_st; [done|]; by transitivity t|]. apply (inv_alloc_st s H _ (answers s)).
      pose proof (p_head s H). cbn. split_and!; [done|lia|done].
    + destruct (pool_free_list (pool s) !! slot _ t) as [v|] eqn:El; simplify_eq.
      bcase; [subst v; by apply inv_spin|exact (inv_take s H t v Ea El ltac:(done))].
    + apply (inv_tail s H t v); [done|lia].
  - unfold free_call in E. destruct (freers s !! p) as [[]|] eqn:Ef; try done.
    destruct (bool_decide_reflect (idx ∈ held s)); cbn in E; [|done]. case_match eqn:Ea; simplify_eq.
    apply inv_free; [done|done|done| |].
    + unfold nposted in Hb. rsimpl_in Hb. rewrite length_app in Hb. cbn in Hb. unfold nposted. lia.
    + destruct (alloc_st s) as [ | | |t i]; try done. apply negb_true_iff, Z.eqb_neq in Ea. done.
  - unfold free_step in E. destruct (freers s !! p) as [[|idx h]|] eqn:Ef; simplify_eq. by apply inv_store.
Qed.

Lemma pool_run_grows es : forall s s', pool_run s es = Some s' -> nposted s <= nposted s'.
Proof.
  induction es as [|e es IH]; cbn; intros s s' E; [by simplify_eq|].
  destruct (pool_step s e) as [s1|] eqn:E1; [|done]. pose proof (posted_grows s e s1 E1). specialize (IH s1 s' E). lia.
Qed.

Lemma pool_run_inv es : forall s s', pool_inv s -> nposted s' <= 2 ^ 62 -> pool_run s es = Some s' -> pool_inv s'.
Proof.
  induction es as [|e es IH]; cbn; intros s s' H Hb E; [by simplify_eq|].
  destruct (pool_step s e) as [s1|] eqn:E1; [|done]. pose proof (pool_run_grows es s1 s' E).
  eapply IH; [|done|done]. eapply pool_step_inv; [done| |done]. lia.
Qed.

Lemma next_pow2 n k : 2 <= n <= 2 ^ k -> 1 <= Z.log2_up n <= k.
Proof.
  intros Hn. assert (0 <= k) by (destruct (Z.neg_nonneg_cases k); [rewrite Z.pow_neg_r in Hn by done; lia|done]).
  pose proof (Z.log2_up_pos n ltac:(lia)).
  pose proof (Z.log2_up_le_mono n (2 ^ k) ltac:(lia)) as Hm. rewrite Z.log2_up_pow2 in Hm by lia. lia.
Qed.

(** The sizes and the free list of a new pool. *)
Lemma pool_new_sizes capacity frame_size :
  capacity <= 2 ^ 31 ->
  exists k, 1 <= k <= 31 /\ pool_capacity (pool_new capacity frame_size) = 2 ^ k /\
    free_capacity (pool_new capacity frame_size) = 2 ^ (k + 1) /\ 2 <= 2 ^ k <= 2 ^ 31 /\ 2 ^ (k + 1) = 2 * 2 ^ k.
Proof.
  intros Hc. set (k := Z.log2_up (Z.max capacity 2)). exists k.
  assert (1 <= k <= 31) as Hk by (apply next_pow2; lia).
  assert (2 ^ (k + 1) = 2 * 2 ^ k) as E2 by (rewrite Z.pow_add_r by lia; lia).
  split_and!; [lia..|done| | | |done].
  - cbn. unfold SpscByteRing.next_power_of_two. fold k. f_equal.
    replace (2 ^ k * 2) with (2 ^ (k + 1)) by lia. apply Z.log2_up_pow2. lia.
  - change 2 with (2 ^ 1) at 1. apply Z.pow_le_mono_r; lia.
  - apply Z.pow_le_mono_r; lia.
Qed.

Lemma pool_new_entry capacity frame_size q :
  capacity <= 2 ^ 31 -> 0 <= q < free_capacity (pool_new capacity frame_size) ->
  pool_free_list (pool_new capacity frame_size) !! slot (free_capacity (pool_new capacity frame_size)) q
  = Some (if q <? pool_capacity (pool_new capacity frame_size) then q else U32_MAX).
Proof.
  intros Hc Hq. destruct (pool_new_sizes capacity frame_size Hc) as (k & Hk & Ec & Ef & Hb & E2).
  rewrite slot_mod by (rewrite Ef; exists (k + 1); split; [lia|done]). rewrite Z.mod_small by done.
  set (C := pool_capacity (pool_new capacity frame_size)) in *. set (F := free_capacity (pool_new capacity frame_size)) in *.
  change (pool_free_list (pool_new capacity frame_size)) with
    ((fun i => if Z.of_nat i <? C then u32 (Z.of_nat i) else U32_MAX) <$> seq 0 (Z.to_nat F)).
  rewrite list_lookup_fmap, lookup_seq_lt by lia. cbn [fmap option_fmap option_map].
  rewrite Nat.add_0_l, Z2Nat.id by lia. f_equal. bcase; [|done]. apply u32_small. unfold is_u32. lia.
Qed.

Lemma pool_inv_init capacity frame_size n : capacity <= 2 ^ 31 -> pool_inv (pool_init capacity frame_size n).
Proof.
  intros Hc. destruct (pool_new_sizes capacity frame_size Hc) as (k & Hk & Ec & Ef & Hb & E2).
  assert (nposted (pool_init capacity frame_size n) = 2 ^ k) as En.
  { unfold nposted. cbn [pool_init posted]. rewrite length_fmap, length_seq, Ec. lia. }
  constructor; try done.
  - exists (k + 1). cbn [pool_init pool]. rewrite Ef. split; [lia|done].
  - cbn [pool_init pool]. rewrite Ec, Ef. lia.
  - cbn [pool_init pool pool_new pool_free_list free_capacity]. by rewrite length_fmap, length_seq.
  - cbn [pool_init pool]. rewrite En, <- Ec. done.
  - cbn [pool_init taken]. lia.
  - cbn [pool_init held]. unfold in_list. cbn [pool_init taken posted]. rewrite drop_0, app_nil_l.
    cbn [pool_init pool]. rewrite !Ec, <- list_fmap_compose. unfold seqZ.
    match goal with |- ?a ≡ₚ ?b => cut (a = b); [by intros ->|] end. apply list_fmap_ext. intros i x _. cbn. lia.
  - intros q Hq. unfold ntaken in Hq. cbn [pool_init taken pool] in Hq. change (Z.of_nat 0) with 0 in Hq.
    pose proof (pool_new_entry capacity frame_size q Hc ltac:(lia)) as Ee. rewrite Ec in Ee.
    destruct (Z.ltb_spec q (2 ^ k)).
    + apply (entry_full _ _ None q); [|done]. unfold post. cbn [pool_init posted]. rewrite Ec.
      rewrite list_lookup_fmap, lookup_seq_lt by lia. cbn. do 2 f_equal. lia.
    + apply entry_empty; [lia|done].
  - intros p st Hst. cbn in Hst. apply lookup_replicate in Hst as [-> _]. done.
Qed.

Definition pool_reachable (capacity frame_size : Z) (n : nat) (s : pool_sys) : Prop :=
  exists es, pool_run (pool_init capacity frame_size n) es = Some s.

Lemma pool_reachable_inv capacity frame_size n s :
  capacity <= 2 ^ 31 -> nposted s <= 2 ^ 62 -> pool_reachable capacity frame_size n s -> pool_inv s.
Proof. intros Hc Hb [es E]. eapply pool_run_inv; [by apply (pool_inv_init capacity frame_size n)|done|done]. Qed.

(** ** What the memory of the pool holds *)

(** The indices in the entries of the free list, and those that threads inside [free] are about
    to store there. *)
Definition stored (s : pool_sys) : list Z :=
  pool_free_list (pool s) ≫= fun v => if v =? U32_MAX then [] else [v].

Definition storing (s : pool_sys) : list Z :=
  freers s ≫= fun st => match st with FStore idx _ => [idx] | FIdle => [] end.

Definition accounted (s : pool_sys) : Prop :=
  held s ++ stored s ++ storing s ≡ₚ seqZ 0 (pool_capacity (pool s)).

Lemma bind_insert_perm {A B} (f : A -> list B) l i x y :
  l !! i = Some x -> (<[i := y]> l ≫= f) ++ f x ≡ₚ (l ≫= f) ++ f y.
Proof.
  revert i. induction l as [|z l IH]; intros [|i] E; try done; cbn in *; simplify_eq.
  - rewrite Permutation_app_comm, <- app_assoc. apply Permutation_app_head, Permutation_app_comm.
  - rewrite <- !app_assoc. apply Permutation_app_head, IH. done.
Qed.

Lemma elem_of_stored s v : v ∈ stored s <-> v <> U32_MAX /\ v ∈ pool_free_list (pool s).
Proof.
  unfold stored. rewrite list_elem_of_bind. split.
  - intros (w & Hv & Hw). destruct (Z.eqb_spec w U32_MAX); [by apply elem_of_nil in Hv|].
    apply list_elem_of_singleton in Hv as ->. done.
  - intros [Hv Hw]. exists v. rewrite (proj2 (Z.eqb_neq _ _)) by done. split; [by left|done].
Qed.

(** A swap that finds an index moves it from the list into the allocator's hand; the call of
    [free] moves one from a hand into flight, its store from there into the list. *)
Lemma take_accounted s s' i v :
  accounted s -> pool_free_list (pool s) !! i = Some v -> v <> U32_MAX ->
  pool_free_list (pool s') = <[i := U32_MAX]> (pool_free_list (pool s)) ->
  pool_capacity (pool s') = pool_capacity (pool s) ->
  held s' = v :: held s -> freers s' = freers s -> accounted s'.
Proof.
  unfold accounted, stored, storing. intros Hm Hv Hne -> -> -> ->. rewrite <- Hm.
  pose proof (bind_insert_perm (fun v => if v =? U32_MAX then [] else [v]) _ i v U32_MAX Hv) as E.
  cbv beta in E. rewrite (proj2 (Z.eqb_neq _ _)), Z.eqb_refl, app_nil_r in E by done. rewrite <- E.
  rewrite <- app_assoc. cbn [app]. rewrite !(app_assoc (held s)). apply Permutation_middle.
Qed.

Lemma free_accounted s s' p idx h :
  accounted s -> freers s !! p = Some FIdle -> held s ≡ₚ idx :: held s' ->
  freers s' = <[p := FStore idx h]> (freers s) -> pool_capacity (pool s') = pool_capacity (pool s) ->
  pool_free_list (pool s') = pool_free_list (pool s) -> accounted s'.
Proof.
  unfold accounted, stored, storing. intros Hm Hp Hh -> -> ->. rewrite <- Hm, Hh.
  pose proof (bind_insert_perm (fun st => match st with FStore idx _ => [idx] | FIdle => [] end) _ p _ (FStore idx h) Hp) as E.
  cbn in E. rewrite app_nil_r in E. rewrite E, !app_assoc, <- Permutation_cons_append. done.
Qed.

Lemma store_accounted s s' p idx h i :
  accounted s -> freers s !! p = Some (FStore idx h) -> idx <> U32_MAX ->
  pool_free_list (pool s) !! i = Some U32_MAX ->
  pool_free_list (pool s') = <[i := idx]> (pool_free_list (pool s)) ->
  freers s' = <[p := FIdle]> (freers s) -> pool_capacity (pool s') = pool_capacity (pool s) ->
  held s' = held s -> accounted s'.
Proof.
  unfold accounted, stored, storing. intros Hm Hp Hne Hi -> -> -> ->. rewrite <- Hm. apply Permutation_app_head.
  pose proof (bind_insert_perm (fun st => match st with FStore idx _ => [idx] | FIdle => [] end) _ p _ FIdle Hp) as E1.
  pose proof (bind_insert_perm (fun v => if v =? U32_MAX then [] else [v]) _ i U32_MAX idx Hi) as E2.
  cbn in E1. cbv beta in E2. rewrite Z.eqb_refl, (proj2 (Z.eqb_neq idx _)), app_nil_r in E2 by done. rewrite app_nil_r in E1.
  rewrite E2, <- E1, <- app_assoc. apply Permutation_app_head, Permutation_app_comm.
Qed.

Lemma posted_small s q o idx : pool_inv s -> ntaken s <= q -> post s q = Some (o, idx) -> idx <> U32_MAX.
Proof.
  intros H Hq E. pose proof (posted_range s H q o idx Hq E). pose proof (p_size s H). unfold U32_MAX. lia.
Qed.

Lemma pool_step_accounted s e s' : pool_inv s -> accounted s -> pool_step s e = Some s' -> accounted s'.
Proof.
  intros H Hm E. destruct e as [|p idx|p]; cbn in E.
  - unfold alloc_step in E. destruct (alloc_st s) as [|t|t|t v]; simplify_eq; [done|by bcase| |done].
    destruct (pool_free_list (pool s) !! slot _ t) as [v|] eqn:El; simplify_eq.
    bcase; [|by eapply take_accounted]. subst v. unfold accounted, stored. rsimpl. by rewrite list_insert_id.
  - unfold free_call in E. destruct (freers s !! p) as [[]|] eqn:Ef; try done.
    destruct (bool_decide_reflect (idx ∈ held s)); cbn in E; [|done]. case_match eqn:Ea; simplify_eq.
    eapply free_accounted; [exact Hm|exact Ef| |reflexivity..]. rsimpl.
    apply filter_remove; [|done]. pose proof (owned_nodup s H) as Hn. by apply NoDup_app in Hn as (Hn & _).
  - unfold free_step in E. destruct (freers s !! p) as [[|idx h]|] eqn:Ef; simplify_eq.
    destruct (p_freers s H p _ Ef) as (Hh & Hpost & Hent).
    eapply store_accounted; [exact Hm|exact Ef| |exact Hent|reflexivity..]. by eapply posted_small; [|apply Hh|].
Qed.

Lemma pool_run_accounted es : forall s s',
  pool_inv s -> nposted s' <= 2 ^ 62 -> accounted s -> pool_run s es = Some s' -> accounted s'.
Proof.
  induction es as [|e es IH]; cbn; intros s s' H Hb Hm E; [by simplify_eq|].
  destruct (pool_step s e) as [s1|] eqn:E1; [|done]. pose proof (pool_run_grows es s1 s' E).
  eapply IH; [|done| |done]; [eapply pool_step_inv; [done| |done]; lia|by eapply pool_step_accounted].
Qed.

Lemma bind_singletons {A B} (f : A -> list B) (g : A -> B) l :
  (forall x, x ∈ l -> f x = [g x]) -> l ≫= f = g <$> l.
Proof.
  induction l as [|x l IH]; intros Hf; [done|]. cbn. rewrite Hf by (by left). cbn. f_equal.
  apply IH. intros y Hy. apply Hf. by right.
Qed.

Lemma bind_empty {A B} (f : A -> list B) l : (forall x, x ∈ l -> f x = []) -> l ≫= f = [].
Proof.
  induction l as [|x l IH]; intros Hf; [done|]. cbn. rewrite Hf by (by left). cbn.
  apply IH. intros y Hy. apply Hf. by right.
Qed.

Lemma pool_init_accounted capacity frame_size n : capacity <= 2 ^ 31 -> accounted (pool_init capacity frame_size n).
Proof.
  intros Hc. destruct (pool_new_sizes capacity frame_size Hc) as (k & Hk & Ec & Ef & Hb & E2).
  unfold accounted. change (held (pool_init capacity frame_size n)) with (@nil Z). rewrite app_nil_l.
  assert (storing (pool_init capacity frame_size n) = []) as ->.
  { apply bind_empty. intros st Hst. apply elem_of_replicate in Hst as [-> _]. done. }
  rewrite app_nil_r. unfold stored. change (pool (pool_init capacity frame_size n)) with (pool_new capacity frame_size).
  set (C := pool_capacity (pool_new capacity frame_size)) in *. set (F := free_capacity (pool_new capacity frame_size)) in *.
  change (pool_free_list (pool_new capacity frame_size)) with
    ((fun i => if Z.of_nat i <? C then u32 (Z.of_nat i) else U32_MAX) <$> seq 0 (Z.to_nat F)).
  rewrite list_fmap_bind. replace (Z.to_nat F) with (Z.to_nat C + Z.to_nat C)%nat by lia.
  rewrite seq_app, bind_app, (bind_singletons _ Z.of_nat), bind_empty, app_nil_r.
  - unfold seqZ. match goal with |- ?a ≡ₚ ?b => cut (a = b); [by intros ->|] end.
    apply list_fmap_ext. intros i x _. lia.
  - intros i Hi%elem_of_seq. unfold compose. by rewrite (proj2 (Z.ltb_ge _ _)) by lia.
  - intros i Hi%elem_of_seq. unfold compose. rewrite (proj2 (Z.ltb_lt _ _)) by lia.
    rewrite u32_small by (unfold is_u32; lia). rewrite (proj2 (Z.eqb_neq _ _)); [done|unfold U32_MAX; lia].
Qed.

Lemma pool_reachable_accounted capacity frame_size n s :
  capacity <= 2 ^ 31 -> nposted s <= 2 ^ 62 -> pool_reachable capacity frame_size n s -> accounted s.
Proof.
  intros Hc Hb [es E]. eapply pool_run_accounted;
    [by apply (pool_inv_init capacity frame_size n)|done|by apply pool_init_accounted|done].
Qed.

(** What the next step of the allocator does, whatever it is in the middle of: [alloc] reports
    an empty pool only at an instant at which threads hold every frame; a swap takes an index
    that is stored, or finds the entry empty because a thread is in the middle of
    the [free] of that position, whose store makes the next swap succeed; then that
    index is the answer. *)
Definition alloc_progress (s s' : pool_sys) : Prop :=
  match alloc_st s with
  | AIdle => alloc_st s' = AHead (free_tail (pool s)) /\ held s' = held s /\ answers s' = answers s
  | AHead t =>
      held s' = held s /\
      ((alloc_st s' = AIdle /\ answers s' = answers s ++ [None] /\ held s ≡ₚ seqZ 0 (pool_capacity (pool s))) \/
       alloc_st s' = ASwap t /\ answers s' = answers s)
  | ASwap t =>
      (exists idx, idx ∈ stored s /\ (idx ∉ held s) /\ alloc_st s' = ATail t idx /\ held s' = idx :: held s /\
         answers s' = answers s) \/
      (s' = s /\ exists p idx s1 s2, freers s !! p = Some (FStore idx t) /\
         pool_step s (Store p) = Some s1 /\ pool_step s1 Alloc = Some s2 /\
         alloc_st s2 = ATail t idx /\ held s2 = idx :: held s)
  | ATail t idx => alloc_st s' = AIdle /\ idx ∈ held s /\ held s' = held s /\ answers s' = answers s ++ [Some idx]
  end.

(** A swap that finds no index waits for a thread inside [free]. *)
Lemma swap_waits s t :
  pool_inv s -> alloc_st s = ASwap t -> entry s t = Some U32_MAX ->
  exists p idx s1 s2, freers s !! p = Some (FStore idx t) /\
    pool_step s (Store p) = Some s1 /\ pool_step s1 Alloc = Some s2 /\
    alloc_st s2 = ATail t idx /\ held s2 = idx :: held s.
Proof.
  intros H Ea Ee. pose proof (pool_positions s H) as Hp. pose proof (p_alloc s H) as Hk. unfold alloc_ok in Hk.
  rewrite Ea in Hk. destruct Hk as (Et & Hlt & _).
  destruct (p_entries s H t ltac:(lia)) as [|o idx E1 E2|p idx E1 E2 E3]; [lia| |].
  - pose proof (posted_small s t o idx H ltac:(lia) E1). congruence.
  - pose proof (posted_small s t (Some p) idx H ltac:(lia) E1) as Hi.
    exists p, idx. cbn [pool_step]. unfold free_step. rewrite E2. eexists _, _.
    split; [done|]. split; [reflexivity|]. unfold alloc_step. rsimpl. rewrite Ea. cbv beta zeta iota. rewrite list_lookup_insert_eq
      by (rewrite (p_list s H); apply slot_lt, H).
    rewrite (proj2 (Z.eqb_neq _ _)) by done. split; [reflexivity|by split].
Qed.

Lemma accounted_disjoint s i : accounted s -> i ∈ stored s -> i ∉ held s.
Proof.
  unfold accounted. intros Hm Hi Hh. pose proof (NoDup_seqZ 0 (pool_capacity (pool s))) as Hn. rewrite <- Hm in Hn.
  apply NoDup_app in Hn as (_ & Hn & _). apply (Hn i Hh), elem_of_app. by left.
Qed.

Lemma alloc_progresses s : pool_inv s -> accounted s -> exists s', pool_step s Alloc = Some s' /\ alloc_progress s s'.
Proof.
  intros H Hm. unfold pool_step, alloc_step, alloc_progress. pose proof (p_alloc s H) as Hk. unfold alloc_ok in Hk.
  destruct (alloc_st s) as [|t|t|t v] eqn:Ea.
  - by eexists.
  - eexists. split; [reflexivity|]. destruct Hk as [Et _]. bcase; (split; [done|]); [left|by right].
    split; [done|]. split; [done|]. rewrite <- (p_owned s H). unfold in_list.
    rewrite drop_ge by (rewrite (p_head s H) in *; unfold nposted, ntaken in *; lia). by rewrite app_nil_r.
  - destruct (pool_free_list (pool s) !! slot (free_capacity (pool s)) t) as [v|] eqn:El.
    2:{ apply lookup_ge_None in El. rewrite (p_list s H) in El. pose proof (slot_lt _ (p_cap s H) t). lia. }
    bcase; eexists; (split; [reflexivity|]).
    + right. split; [|apply swap_waits; [done|done|unfold entry; by rewrite El; f_equal]].
      rewrite list_insert_id by (by rewrite El; f_equal). destruct s as [[] ? ? ? ? ? ?]. done.
    + left. exists v. assert (v ∈ stored s) as Hv by (apply elem_of_stored; split; [done|by apply list_elem_of_lookup_2 in El]).
      split; [done|]. split; [by apply accounted_disjoint|done].
  - eexists. split; [reflexivity|]. destruct Hk as (_ & _ & Hi). done.
Qed.

(** C17: A frame has one owner, and none is ever lost: in every interleaving of the allocator with
    any number of threads that free what they hold, every index of the pool is exactly once
    either held by a thread, or in an entry of the free list in memory, or about to be stored there by a thread
    inside [free].  The allocator can always go on, answers [None] only when
    threads hold every frame, takes only an index that is in the list and not
    held, and waits only for a store that is under way.  Bounds: at most 2^31
    frames and 2^62 frees, the allocator is one thread and threads free only what they
    hold, as the comments of the source demand. *)
Theorem pool_frames_have_one_owner capacity frame_size n s :
  capacity <= 2 ^ 31 -> nposted s <= 2 ^ 62 -> pool_reachable capacity frame_size n s ->
  held s ++ stored s ++ storing s ≡ₚ seqZ 0 (pool_capacity (pool s)) /\
  exists s', pool_step s Alloc = Some s' /\ alloc_progress s s'.
Proof.
  intros Hc Hb Hr. pose proof (pool_reachable_inv _ _ _ s Hc Hb Hr) as H.
  pose proof (pool_reachable_accounted _ _ _ s Hc Hb Hr) as Hm. split; [exact Hm|by apply alloc_progresses].
Qed.

(** ** Frame contents *)

Record wf_pool (p : FramePool) : Prop := {
  wp_buffer : zlen (buffer p) = pool_capacity p * frame_size p;
  wp_size : 64 <= frame_size p;
  wp_capacity : 2 <= pool_capacity p }.

Lemma pool_new_wf capacity frame_size : wf_pool (pool_new capacity frame_size).
Proof.
  assert (2 <= pool_capacity (pool_new capacity frame_size)) as Hc.
  { cbn. unfold SpscByteRing.next_power_of_two. change 2 with (2 ^ 1) at 1.
    apply Z.pow_le_mono_r; [lia|]. pose proof (Z.log2_up_pos (Z.max capacity 2)). lia. }
  constructor; [|cbn; lia|done]. unfold zlen. cbn [pool_new buffer pool_capacity FramePool.frame_size] in *.
  rewrite length_replicate, Z2Nat.id; [done|nia].
Qed.

(** The bytes of [l] outside the region survive a [blit]. *)
Lemma slice_blit_apart (l src l' : list Z) a b c d :
  blit l a b src = Done l' -> (d <= a \/ b <= c)%nat -> slice l' c d = slice l c d.
Proof.
  unfold blit. case_match eqn:E; [|done]. intros [= <-] Hd.
  apply andb_prop in E as [E Es]. apply andb_prop in E as [E1 E2].
  apply Nat.leb_le in E1, E2. apply Nat.eqb_eq in Es.
  unfold slice. rewrite !length_app, length_take, length_drop, Es.
  replace (a `min` length l + (b - a + (length l - b)))%nat with (length l) by lia.
  case_match eqn:E; [|done]. apply andb_prop in E as [E3 E4]. apply Nat.leb_le in E3, E4.
  f_equal. apply list_eq. intros i. destruct (Nat.lt_ge_cases i (d - c)) as [Hi|Hi]; [|by rewrite !lookup_take_ge by lia].
  rewrite !lookup_take_lt, !lookup_drop by done. destruct Hd.
  - rewrite lookup_app_l by (rewrite length_take; lia). by rewrite lookup_take_lt by lia.
  - rewrite lookup_app_r by (rewrite length_take; lia). rewrite length_take, lookup_app_r by lia.
    rewrite lookup_drop, Es. f_equal. lia.
Qed.

Section Contents.

Context (p : FramePool) (Hp : wf_pool p).

(** The regions of the frames lie in the buffer and do not overlap. *)
Lemma frame_region i j :
  0 <= i < pool_capacity p -> 0 <= j < pool_capacity p ->
  (Z.to_nat (i * frame_size p) + Z.to_nat (frame_size p) <= length (buffer p))%nat /\
  (i <> j -> (Z.to_nat (i * frame_size p) + Z.to_nat (frame_size p) <= Z.to_nat (j * frame_size p) \/
              Z.to_nat (j * frame_size p) + Z.to_nat (frame_size p) <= Z.to_nat (i * frame_size p))%nat).
Proof.
  intros Hi Hj. destruct Hp as [Hb Hs Hc]. unfold zlen in Hb.
  rewrite <- !Z2Nat.inj_add by nia. split.
  - apply Nat2Z.inj_le. rewrite Hb, Z2Nat.id by nia. nia.
  - intros Hne. assert (i < j \/ j < i) as [|] by lia; [left|right]; apply Z2Nat.inj_le; nia.
Qed.

(** What a thread copies into its frame is what it reads back, and the frames of all other
    indices keep their bytes: distinct indices are disjoint regions of the one buffer. *)
Lemma copy_frame_private idx data :
  0 <= idx < pool_capacity p -> frame_size p <= 65535 ->
  exists p' ref, copy_frame p idx data = Done (p', ref) /\
    pool_idx ref = idx /\ 0 <= fr_len ref <= frame_size p /\ p' = p <| buffer := buffer p' |> /\
    get_frame_data p' ref = Done (take (Z.to_nat (frame_size p)) data) /\
    (forall j, 0 <= j < pool_capacity p -> j <> idx -> frame p' j = frame p j) /\ wf_pool p'.
Proof.
  intros Hi Hf. destruct (frame_region idx idx Hi Hi) as [Hr _]. pose proof (wp_size p Hp) as Hs.
  unfold copy_frame. set (fs := Z.to_nat (frame_size p)) in *. set (o := Z.to_nat (idx * frame_size p)) in *.
  set (len := Nat.min (length data) fs).
  rewrite slice_in_range by lia. cbn [obind]. rewrite slice_in_range by (unfold len; lia). cbn [obind].
  set (fr := take (o + fs - o) (drop o (buffer p))).
  assert (length fr = fs) as Lf by (unfold fr; rewrite length_take, length_drop; lia).
  assert (blit fr 0 len (take (len - 0) (drop 0 data)) = Done (take len data ++ drop len fr)) as ->.
  { unfold blit. rewrite Nat.sub_0_r, drop_0, take_0, app_nil_l.
    rewrite (proj2 (Nat.leb_le _ _)), (proj2 (Nat.leb_le _ (length fr))) by (unfold len; lia).
    rewrite (proj2 (Nat.eqb_eq _ _)) by (rewrite length_take; unfold len; lia). done. }
  cbn [obind]. set (fr' := take len data ++ drop len fr).
  assert (length fr' = fs) as Lf' by (unfold fr', len; rewrite length_app, length_take, length_drop; lia).
  assert (blit (buffer p) o (o + fs) fr' = Done (take o (buffer p) ++ fr' ++ drop (o + fs) (buffer p))) as Hblit.
  { unfold blit. rewrite (proj2 (Nat.leb_le _ _)), (proj2 (Nat.leb_le _ (length (buffer p)))) by lia.
    rewrite (proj2 (Nat.eqb_eq _ _)) by lia. done. }
  rewrite Hblit. cbn [obind]. eexists _, _. split; [reflexivity|].
  split; [done|]. split; [cbn [fr_len]; rewrite u16_small by (unfold is_u16, len; lia); unfold len; lia|].
  split; [done|]. split_and!.
  - unfold get_frame_data. rsimpl. cbn [pool_idx fr_len]. fold o. rewrite u16_small by (unfold is_u16, len; lia).
    rewrite Nat2Z.id, slice_in_range by (rewrite !length_app, length_take, Lf'; unfold len; lia).
    rewrite drop_app_length' by (rewrite length_take; lia). f_equal.
    replace (o + len - o)%nat with len by lia. unfold fr'. rewrite <- app_assoc, take_app_length' by (rewrite length_take; unfold len; lia).
    unfold len. destruct (Nat.le_ge_cases (length data) fs); [|by rewrite Nat.min_r by done].
    rewrite Nat.min_l by done. by rewrite !take_ge by lia.
  - intros j Hj Hne. destruct (frame_region idx j Hi Hj) as [_ Ho]. specialize (Ho ltac:(congruence)). fold o fs in Ho.
    unfold frame. rsimpl. fold fs. eapply slice_blit_apart; [exact Hblit|]. lia.
  - destruct Hp as [Hb ? ?]. constructor; rsimpl; [|done|done]. rewrite <- Hb. unfold zlen.
    rewrite !length_app, length_take, length_drop, Lf'. f_equal. lia.
Qed.

End Contents.

(** ** One operation at a time *)

Definition list_entry (p : FramePool) (q : Z) : option Z := pool_free_list p !! slot (free_capacity p) q.

(** The free list holds [L], oldest first. *)
Record free_is (p : FramePool) (L : list Z) : Prop := {
  fi_pow2 : pow2 (free_capacity p);
  fi_len : length (pool_free_list p) = Z.to_nat (free_capacity p);
  fi_tail : 0 <= free_tail p;
  fi_head : free_head p = free_tail p + zlen L;
  fi_room : zlen L <= free_capacity p;
  fi_at : forall i idx, L !! i = Some idx -> list_entry p (free_tail p + Z.of_nat i) = Some idx;
  fi_rest : forall q, free_head p <= q < free_tail p + free_capacity p -> list_entry p q = Some U32_MAX }.

Lemma list_entry_insert p p' x v q :
  pow2 (free_capacity p) -> length (pool_free_list p) = Z.to_nat (free_capacity p) ->
  pool_free_list p' = <[slot (free_capacity p) x := v]> (pool_free_list p) -> free_capacity p' = free_capacity p ->
  - free_capacity p < x - q < free_capacity p -> list_entry p' q = if x =? q then Some v else list_entry p q.
Proof.
  intros Hc Hl E Ec Hxq. unfold list_entry. rewrite E, Ec. bcase.
  - subst. apply list_lookup_insert_eq. rewrite Hl. by apply slot_lt.
  - apply list_lookup_insert_ne. intros E'. by apply slot_inj in E'.
Qed.

Lemma pool_new_free capacity frame_size :
  capacity <= 2 ^ 31 ->
  free_is (pool_new capacity frame_size) (seqZ 0 (pool_capacity (pool_new capacity frame_size))).
Proof.
  intros Hc. destruct (pool_new_sizes capacity frame_size Hc) as (k & Hk & Ec & Ef & Hb & E2).
  constructor; try done.
  - rewrite Ef. exists (k + 1). split; [lia|done].
  - cbn [pool_new pool_free_list free_capacity]. by rewrite length_fmap, length_seq.
  - unfold zlen. rewrite length_seqZ, Z2Nat.id by lia. done.
  - unfold zlen. rewrite length_seqZ, Z2Nat.id by lia. lia.
  - intros i idx Hi. apply lookup_seqZ in Hi as [-> Hi]. change (free_tail (pool_new capacity frame_size)) with 0.
    unfold list_entry. rewrite pool_new_entry by lia. by rewrite (proj2 (Z.ltb_lt _ _)) by lia.
  - intros q Hq. change (free_tail (pool_new capacity frame_size)) with 0 in Hq.
    change (free_head (pool_new capacity frame_size)) with (pool_capacity (pool_new capacity frame_size)) in Hq.
    unfold list_entry. rewrite pool_new_entry by lia. by rewrite (proj2 (Z.ltb_ge _ _)) by lia.
Qed.

Lemma alloc_empty p : free_is p [] -> pool_alloc p = Done (p, None).
Proof.
  intros [_ _ _ Hh _ _ _]. unfold pool_alloc. rewrite Hh. change (zlen (@nil Z)) with 0. rewrite Z.add_0_r, Z.leb_refl. done.
Qed.

Lemma alloc_first p idx L :
  free_is p (idx :: L) -> idx <> U32_MAX -> free_head p <= 2 ^ 62 ->
  exists p', pool_alloc p = Done (p', Some idx) /\ free_is p' L /\ free_head p' = free_head p /\
    buffer p' = buffer p /\ frame_size p' = frame_size p /\ pool_capacity p' = pool_capacity p /\ free_capacity p' = free_capacity p.
Proof.
  intros [Hc Hl Ht Hh Hr Ha Hf] Hne Hb. pose proof (pow2_bounds _ Hc) as Hb'. pose proof (zlen_nonneg L).
  assert (zlen (idx :: L) = zlen L + 1) as Ez by (unfold zlen; cbn [length]; lia). rewrite Ez in *.
  unfold pool_alloc. rewrite (proj2 (Z.leb_gt _ _)) by lia.
  specialize (Ha 0%nat idx eq_refl) as H0. rewrite Z.add_0_r in H0. unfold list_entry in H0. rewrite H0.
  rewrite (proj2 (Z.eqb_neq _ _)) by done. cbv zeta. unfold u64. rewrite Z.mod_small by lia.
  eexists. split; [reflexivity|]. match goal with |- free_is ?x _ /\ _ => set (p' := x) end. split; [|done].
  assert (forall q, free_tail p <= q < free_tail p + free_capacity p ->
    list_entry p' q = if free_tail p =? q then Some U32_MAX else list_entry p q) as Hi
    by (intros q Hq; apply (list_entry_insert p p'); done || lia).
  assert (free_tail p' = free_tail p + 1 /\ free_head p' = free_head p /\ free_capacity p' = free_capacity p) as (E1 & E2 & E3) by done.
  constructor; rewrite ?E1, ?E2, ?E3; try done; try lia.
  - change (length (<[slot (free_capacity p) (free_tail p) := U32_MAX]> (pool_free_list p)) = Z.to_nat (free_capacity p)).
    by rewrite length_insert.
  - intros i x Hx. pose proof (lookup_lt_Some _ _ _ Hx) as Hlt. unfold zlen in *. rewrite Hi by lia. bcase; [lia|].
    rewrite <- (Ha (S i) x Hx). f_equal. lia.
  - intros q Hq. destruct (Z.eq_dec q (free_tail p + free_capacity p)) as [->|].
    + specialize (Hi (free_tail p) ltac:(lia)). rewrite Z.eqb_refl in Hi. unfold list_entry in *. rewrite E3 in *.
      by rewrite slot_next_lap.
    + rewrite Hi by lia. bcase; [done|]. apply Hf. lia.
Qed.

Lemma free_last p idx L :
  free_is p L -> 0 <= idx < pool_capacity p -> zlen L < free_capacity p -> free_head p < 2 ^ 62 ->
  exists p', pool_free p idx = Done p' /\ free_is p' (L ++ [idx]) /\ free_head p' = free_head p + 1 /\
    buffer p' = buffer p /\ frame_size p' = frame_size p /\ pool_capacity p' = pool_capacity p /\ free_capacity p' = free_capacity p.
Proof.
  intros [Hc Hl Ht Hh Hr Ha Hf] Hidx Hroom Hb. pose proof (pow2_bounds _ Hc) as Hb'. pose proof (zlen_nonneg L).
  unfold pool_free. rewrite (proj2 (Z.ltb_lt _ _)) by lia.
  rewrite (proj2 (Nat.ltb_lt _ _)) by (rewrite Hl; by apply slot_lt).
  unfold u64. rewrite Z.mod_small by lia. eexists. split; [reflexivity|].
  match goal with |- free_is ?x _ /\ _ => set (p' := x) end. split; [|done].
  assert (forall q, free_tail p <= q < free_tail p + free_capacity p ->
    list_entry p' q = if free_head p =? q then Some idx else list_entry p q) as Hi
    by (intros q Hq; apply (list_entry_insert p p'); done || lia).
  assert (free_tail p' = free_tail p /\ free_head p' = free_head p + 1 /\ free_capacity p' = free_capacity p) as (E1 & E2 & E3) by done.
  constructor; rewrite ?E1, ?E2, ?E3, ?zlen_app; try done; try (change (zlen [idx]) with 1; lia).
  - change (length (<[slot (free_capacity p) (free_head p) := idx]> (pool_free_list p)) = Z.to_nat (free_capacity p)).
    by rewrite length_insert.
  - intros i x Hx. rewrite Hi by (apply lookup_lt_Some in Hx; rewrite length_app in Hx; cbn in Hx; unfold zlen in *; lia).
    apply lookup_app_Some in Hx as [Hx|[Hge Hx]].
    + pose proof (lookup_lt_Some _ _ _ Hx). unfold zlen in *. bcase; [lia|]. by apply Ha.
    + destruct (i - length L)%nat as [|?] eqn:Ei; [|done]. injection Hx as <-. unfold zlen in *. by bcase; [|lia].
  - intros q Hq. rewrite Hi by lia. bcase; [lia|]. apply Hf. lia.
Qed.

(** ** Witnesses: a pool of two frames, two threads *)

(** Both frames are allocated; thread 0 has begun to free frame 0, and the allocator has already
    seen the new head. *)
Definition half_freed_run : list pool_event :=
  [Alloc; Alloc; Alloc; Alloc; Alloc; Alloc; Alloc; Alloc; Free 0 0; Alloc; Alloc].

Definition half_freed : pool_sys :=
  match pool_run (pool_init 2 64 2) half_freed_run with Some s => s | None => pool_init 2 64 2 end.

Lemma half_freed_reachable : pool_reachable 2 64 2 half_freed.
Proof. exists half_freed_run. vm_compute. reflexivity. Qed.

Lemma pool_frames_have_one_owner_witness :
  held half_freed = [1] /\ storing half_freed = [0] /\ held half_freed ++ stored half_freed ++ storing half_freed ≡ₚ seqZ 0 2.
Proof.
  split; [vm_compute; reflexivity|]. split; [vm_compute; reflexivity|].
  destruct (pool_frames_have_one_owner 2 64 2 half_freed) as (E & _).
  - vm_compute. congruence.
  - vm_compute. congruence.
  - apply half_freed_reachable.
  - exact E.
Defined.
