(* ===== verification/SpscRing.v ===== *)
(** * The single-producer ring of the pipeline (dpdk-stdlib-udp/src/ring.rs, [SpscRing])

    The operations as functions, what they promise to the pipeline (class [BoundedQueue]), and
    the interleaved steps of one producer and one consumer, which refine the same queue. *)

From stdpp Require Import base numbers list.
From Stdlib Require Import ZArith Lia.
From S2P Require Import Prelude Ring MpscRing.

#[local] Open Scope Z_scope.

(** ** What a ring promises

    A bounded queue: [q_items] are the items in it, oldest first; [q_total] counts the items ever
    put into it, which the 64-bit counters of an implementation bound. *)
Class BoundedQueue (Q : Type -> Type) := {
  q_enqueue : forall {T}, Q T -> T -> outcome (Q T * bool);
  q_dequeue : forall {T}, Q T -> outcome (Q T * option T);
  q_batch : forall {T}, Q T -> nat -> outcome (Q T * list T);
  q_items : forall {T}, Q T -> list T;
  q_capacity : forall {T}, Q T -> Z;
  q_total : forall {T}, Q T -> Z;
  q_ok : forall {T}, Q T -> Prop }.

Class BoundedQueueLaws (Q : Type -> Type) `{BoundedQueue Q} := {
  q_capacity_law : forall T (q : Q T), q_ok q -> 0 < q_capacity q;
  q_enqueue_law : forall T (q : Q T) x, q_ok q -> q_total q < 2 ^ 62 ->
    exists q' b, q_enqueue q x = Done (q', b) /\ q_ok q' /\ q_capacity q' = q_capacity q /\
      q_total q <= q_total q' <= q_total q + 1 /\
      (b = true /\ zlen (q_items q) < q_capacity q /\ q_items q' = q_items q ++ [x] \/
       b = false /\ zlen (q_items q) = q_capacity q /\ q' = q);
  q_dequeue_law : forall T (q : Q T), q_ok q -> q_total q <= 2 ^ 62 ->
    exists q', q_dequeue q = Done (q', head (q_items q)) /\ q_ok q' /\ q_capacity q' = q_capacity q /\
      q_total q' = q_total q /\ q_items q' = tail (q_items q);
  q_batch_law : forall T (q : Q T) n, q_ok q -> q_total q <= 2 ^ 62 ->
    exists q', q_batch q n = Done (q', take n (q_items q)) /\ q_ok q' /\ q_capacity q' = q_capacity q /\
      q_total q' = q_total q /\ q_items q' = drop n (q_items q) }.

(** ** The operations *)

(** A slot is [None] while it is not initialised. *)
Record SpscRing (T : Type) := MkSpsc {
  sp_head : Z;
  sp_tail : Z;
  sp_slots : list (option T);
  sp_capacity : Z }.

Arguments MkSpsc {T} _ _ _ _.
Arguments sp_head {T} _.
Arguments sp_tail {T} _.
Arguments sp_slots {T} _.
Arguments sp_capacity {T} _.

#[global] Instance eta_SpscRing {T} : Eta (SpscRing T) := fun r =>
  MkSpsc (sp_head r) (sp_tail r) (sp_slots r) (sp_capacity r).

(** [SpscRing::new]. *)
Definition spsc_new {T} (cap : Z) : SpscRing T :=
  let capacity := SpscByteRing.next_power_of_two (Z.max cap 2) in
  MkSpsc 0 0 (replicate (Z.to_nat capacity) None) capacity.

(** Checked [u64] arithmetic. *)
Definition csub64 (a b : Z) : outcome Z := if b <=? a then Done (a - b) else Panic.
Definition cadd64 (a b : Z) : outcome Z := if a + b <? 2 ^ 64 then Done (a + b) else Panic.

(** [write] and [assume_init_read] of a slot; reading a slot that is not
    initialised is not defined. *)
Definition write_slot {T} (r : SpscRing T) (i : nat) (item : T) : outcome (SpscRing T) :=
  if (i <? length (sp_slots r))%nat then Done (r <| sp_slots := <[i := Some item]> (sp_slots r) |>) else Panic.

Definition take_slot {T} (r : SpscRing T) (i : nat) : outcome (SpscRing T * T) :=
  match sp_slots r !! i with
  | Some (Some item) => Done (r <| sp_slots := <[i := None]> (sp_slots r) |>, item)
  | _ => Panic
  end.

(** [enqueue]: the ring and whether the item went in. *)
Definition spsc_enqueue {T} (r : SpscRing T) (item : T) : outcome (SpscRing T * bool) :=
  let head := sp_head r in
  let tail := sp_tail r in
  let! used := csub64 head tail in
  if sp_capacity r <=? used then Done (r, false)
  else
    let! r := write_slot r (slot (sp_capacity r) head) item in
    let! head := cadd64 head 1 in
    Done (r <| sp_head := head |>, true).

(** [dequeue]. *)
Definition spsc_dequeue {T} (r : SpscRing T) : outcome (SpscRing T * option T) :=
  let tail := sp_tail r in
  let head := sp_head r in
  if head <=? tail then Done (r, None)
  else
    let! (r, item) := take_slot r (slot (sp_capacity r) tail) in
    let! tail := cadd64 tail 1 in
    Done (r <| sp_tail := tail |>, Some item).

(** The loop of [dequeue_batch], from [tail] on. *)
Fixpoint batch_loop {T} (count : nat) (r : SpscRing T) (tail : Z) (result : list T)
    : outcome (SpscRing T * list T) :=
  match count with
  | O => Done (r, result)
  | S count =>
      let! (r, item) := take_slot r (slot (sp_capacity r) tail) in
      batch_loop count r (tail + 1) (result ++ [item])
  end.

(** [dequeue_batch]. *)
Definition spsc_dequeue_batch {T} (r : SpscRing T) (max : nat) : outcome (SpscRing T * list T) :=
  let tail := sp_tail r in
  let head := sp_head r in
  let! available := csub64 head tail in
  let count := Nat.min (Z.to_nat available) max in
  let! (r, result) := batch_loop count r tail [] in
  let! tail := cadd64 tail (Z.of_nat count) in
  Done (r <| sp_tail := tail |>, result).

(** [len], [is_empty] and [is_full], read by a thread that sees one state of the ring. *)
Definition spsc_len {T} (r : SpscRing T) : outcome Z := csub64 (sp_head r) (sp_tail r).
Definition spsc_is_empty {T} (r : SpscRing T) : outcome bool :=
  let! n := spsc_len r in Done (n =? 0).
Definition spsc_is_full {T} (r : SpscRing T) : outcome bool :=
  let! n := spsc_len r in Done (sp_capacity r <=? n).

(** ** The items of a ring *)

Definition spsc_at {T} (r : SpscRing T) (q : Z) : option (option T) := sp_slots r !! slot (sp_capacity r) q.

(** The items from position [from] on. *)
Fixpoint items_from {T} (r : SpscRing T) (from : Z) (n : nat) : list T :=
  match n with
  | O => []
  | S n => match spsc_at r from with Some (Some x) => x :: items_from r (from + 1) n | _ => [] end
  end.

Definition spsc_items {T} (r : SpscRing T) : list T :=
  items_from r (sp_tail r) (Z.to_nat (sp_head r - sp_tail r)).

(** The slots between [tail] and [head] are initialised, the others of the lap are not. *)
Record wf_spsc {T} (r : SpscRing T) : Prop := {
  ws_pow2 : pow2 (sp_capacity r);
  ws_slots : length (sp_slots r) = Z.to_nat (sp_capacity r);
  ws_range : 0 <= sp_tail r <= sp_head r /\ sp_head r <= sp_tail r + sp_capacity r;
  ws_full : forall q, sp_tail r <= q < sp_head r -> exists item, spsc_at r q = Some (Some item);
  ws_free : forall q, sp_head r <= q < sp_tail r + sp_capacity r -> spsc_at r q = Some None }.

Section Ring.

Context {T : Type}.

Lemma items_frame (r r' : SpscRing T) n : forall from,
  (forall q, from <= q < from + Z.of_nat n -> spsc_at r' q = spsc_at r q) ->
  items_from r' from n = items_from r from n.
Proof.
  induction n as [|n IH]; intros from Hq; [done|]. cbn. rewrite (Hq from) by lia.
  rewrite IH; [done|]. intros q Hq'. apply Hq. lia.
Qed.

Lemma items_snoc (r : SpscRing T) x n : forall from,
  (forall q, from <= q < from + Z.of_nat n -> exists y, spsc_at r q = Some (Some y)) ->
  spsc_at r (from + Z.of_nat n) = Some (Some x) -> items_from r from (S n) = items_from r from n ++ [x].
Proof.
  induction n as [|n IH]; intros from Hq Hx.
  - cbn in *. rewrite Z.add_0_r in Hx. by rewrite Hx.
  - change (items_from r from (S (S n))) with
      (match spsc_at r from with Some (Some x) => x :: items_from r (from + 1) (S n) | _ => [] end).
    change (items_from r from (S n)) with
      (match spsc_at r from with Some (Some x) => x :: items_from r (from + 1) n | _ => [] end).
    destruct (Hq from ltac:(lia)) as [y Hy]. rewrite Hy, IH; [done| |].
    + intros q Hq'. apply Hq. lia.
    + rewrite <- Hx. f_equal. lia.
Qed.

Lemma length_items (r : SpscRing T) n : forall from,
  (forall q, from <= q < from + Z.of_nat n -> exists y, spsc_at r q = Some (Some y)) -> length (items_from r from n) = n.
Proof.
  induction n as [|n IH]; intros from Hq; [done|]. cbn. destruct (Hq from ltac:(lia)) as [y ->]. cbn. f_equal.
  apply IH. intros q Hq'. apply Hq. lia.
Qed.

Section Wf.

Context (r : SpscRing T) (H : wf_spsc r).

Lemma spsc_positions :
  0 <= sp_tail r <= sp_head r /\ sp_head r <= sp_tail r + sp_capacity r /\ 2 <= sp_capacity r <= 2 ^ 61.
Proof. pose proof (pow2_bounds _ (ws_pow2 r H)). pose proof (ws_range r H). lia. Qed.

Lemma zlen_items : zlen (spsc_items r) = sp_head r - sp_tail r.
Proof.
  pose proof spsc_positions. unfold zlen, spsc_items. rewrite length_items; [lia|]. intros q Hq. apply H. lia.
Qed.

Lemma spsc_at_insert r' x v q :
  sp_slots r' = <[slot (sp_capacity r) x := v]> (sp_slots r) -> sp_capacity r' = sp_capacity r ->
  - sp_capacity r < x - q < sp_capacity r -> spsc_at r' q = if x =? q then Some v else spsc_at r q.
Proof.
  intros E Ec Hxq. unfold spsc_at. rewrite E, Ec. bcase.
  - subst. apply list_lookup_insert_eq. rewrite (ws_slots r H). apply slot_lt, H.
  - apply list_lookup_insert_ne. intros E'. apply slot_inj in E'; [done|apply H|done].
Qed.

(** The write of the producer at [head] and its publication. *)
Lemma wf_push item :
  sp_head r < sp_tail r + sp_capacity r ->
  let r' := r <| sp_slots := <[slot (sp_capacity r) (sp_head r) := Some item]> (sp_slots r) |>
              <| sp_head := sp_head r + 1 |> in
  wf_spsc r' /\ spsc_items r' = spsc_items r ++ [item].
Proof.
  intros Hroom r'. pose proof spsc_positions as Hp.
  assert (forall q, sp_tail r <= q < sp_tail r + sp_capacity r ->
    spsc_at r' q = if sp_head r =? q then Some (Some item) else spsc_at r q) as Ha
    by (intros q Hq; apply (spsc_at_insert r'); done || lia).
  assert (sp_head r' = sp_head r + 1 /\ sp_tail r' = sp_tail r /\ sp_capacity r' = sp_capacity r) as (Eh & Et & Ec) by done.
  split.
  - constructor; try apply H; rewrite ?Eh, ?Et, ?Ec; try lia.
    + change (length (<[slot (sp_capacity r) (sp_head r) := Some item]> (sp_slots r)) = Z.to_nat (sp_capacity r)).
      rewrite length_insert. apply H.
    + intros q Hq. rewrite Ha by lia. bcase; [eauto|]. apply H. lia.
    + intros q Hq. rewrite Ha by lia. bcase; [lia|]. apply H. lia.
  - unfold spsc_items. rewrite Eh, Et. replace (Z.to_nat (sp_head r + 1 - sp_tail r)) with (S (Z.to_nat (sp_head r - sp_tail r))) by lia.
    rewrite items_snoc with (x := item).
    + f_equal. apply items_frame. intros q Hq. rewrite Ha by lia. by bcase; [lia|].
    + intros q Hq. rewrite Ha by lia. bcase; [eauto|]. apply H. lia.
    + rewrite Ha by lia. by bcase; [|lia].
Qed.

(** The read of the consumer at [tail] and its release. *)
Lemma wf_pop item :
  sp_tail r < sp_head r -> spsc_at r (sp_tail r) = Some (Some item) ->
  let r' := r <| sp_slots := <[slot (sp_capacity r) (sp_tail r) := None]> (sp_slots r) |>
              <| sp_tail := sp_tail r + 1 |> in
  wf_spsc r' /\ spsc_items r = item :: spsc_items r'.
Proof.
  intros Hne Hx r'. pose proof spsc_positions as Hp.
  assert (forall q, sp_tail r <= q < sp_tail r + sp_capacity r ->
    spsc_at r' q = if sp_tail r =? q then Some None else spsc_at r q) as Ha
    by (intros q Hq; apply (spsc_at_insert r'); done || lia).
  assert (sp_head r' = sp_head r /\ sp_tail r' = sp_tail r + 1 /\ sp_capacity r' = sp_capacity r) as (Eh & Et & Ec) by done.
  split.
  - constructor; try apply H; rewrite ?Eh, ?Et, ?Ec; try lia.
    + change (length (<[slot (sp_capacity r) (sp_tail r) := None]> (sp_slots r)) = Z.to_nat (sp_capacity r)).
      rewrite length_insert. apply H.
    + intros q Hq. rewrite Ha by lia. bcase; [lia|]. apply H. lia.
    + intros q Hq. destruct (Z.eq_dec q (sp_tail r + sp_capacity r)) as [->|].
      * specialize (Ha (sp_tail r) ltac:(lia)). rewrite Z.eqb_refl in Ha. unfold spsc_at in *. rewrite Ec in *.
        by rewrite slot_next_lap by apply H.
      * rewrite Ha by lia. bcase; [lia|]. apply H. lia.
  - unfold spsc_items. rewrite Eh, Et. replace (Z.to_nat (sp_head r - sp_tail r)) with (S (Z.to_nat (sp_head r - (sp_tail r + 1)))) by lia.
    cbn [items_from]. rewrite Hx. f_equal. symmetry. apply items_frame. intros q Hq. rewrite Ha by lia. by bcase; [lia|].
Qed.

End Wf.

End Ring.

(** ** The operations keep the promise *)

Section Laws.

Context {T : Type}.

Lemma take_slot_pop (r : SpscRing T) :
  wf_spsc r -> sp_tail r < sp_head r ->
  exists item, spsc_at r (sp_tail r) = Some (Some item) /\
    take_slot r (slot (sp_capacity r) (sp_tail r))
    = Done (r <| sp_slots := <[slot (sp_capacity r) (sp_tail r) := None]> (sp_slots r) |>, item).
Proof.
  intros H Hlt. destruct (ws_full r H (sp_tail r)) as [item Hi]; [lia|]. exists item. split; [done|].
  unfold take_slot, spsc_at in *. by rewrite Hi.
Qed.

Lemma enqueue_law (r : SpscRing T) x :
  wf_spsc r -> sp_head r < 2 ^ 62 ->
  exists r' b, spsc_enqueue r x = Done (r', b) /\ wf_spsc r' /\ sp_capacity r' = sp_capacity r /\
    sp_head r <= sp_head r' <= sp_head r + 1 /\
    (b = true /\ zlen (spsc_items r) < sp_capacity r /\ spsc_items r' = spsc_items r ++ [x] \/
     b = false /\ zlen (spsc_items r) = sp_capacity r /\ r' = r).
Proof.
  intros H Hb. pose proof (spsc_positions r H) as Hp. rewrite zlen_items by done.
  unfold spsc_enqueue, csub64, write_slot, cadd64. rewrite (proj2 (Z.leb_le _ _)) by lia. cbn [obind]. bcase.
  - exists r, false. split_and!; [done..|lia|lia|]. right. split_and!; [done|lia|done].
  - rewrite (proj2 (Nat.ltb_lt _ _)) by (rewrite (ws_slots r H); apply slot_lt, H). cbn [obind].
    rewrite (proj2 (Z.ltb_lt _ _)) by lia. cbn [obind].
    destruct (wf_push r H x ltac:(lia)) as [Hw Hi]. eexists _, true. split; [reflexivity|].
    split_and!; [done|done|rsimpl; lia..|]. left. split_and!; [done|lia|done].
Qed.

Lemma dequeue_law (r : SpscRing T) :
  wf_spsc r -> sp_head r <= 2 ^ 62 ->
  exists r', spsc_dequeue r = Done (r', head (spsc_items r)) /\ wf_spsc r' /\ sp_capacity r' = sp_capacity r /\
    sp_head r' = sp_head r /\ spsc_items r' = tail (spsc_items r).
Proof.
  intros H Hb. pose proof (spsc_positions r H) as Hp. unfold spsc_dequeue. bcase.
  - assert (spsc_items r = []) as -> by (apply nil_length_inv; pose proof (zlen_items r H); unfold zlen in *; lia).
    exists r. split_and!; try done. by apply nil_length_inv; pose proof (zlen_items r H); unfold zlen in *; lia.
  - destruct (take_slot_pop r H ltac:(lia)) as (item & Hi & ->). cbn [obind]. unfold cadd64.
    rewrite (proj2 (Z.ltb_lt _ _)) by lia. cbn [obind]. destruct (wf_pop r H item ltac:(lia) Hi) as [Hw Hit].
    rewrite Hit. by eexists.
Qed.

(** The loop leaves [tail] where it is; the ring it works on is the one with [tail] moved. *)
Lemma batch_loop_law n : forall (r : SpscRing T) t acc,
  wf_spsc (r <| sp_tail := t |>) -> t + Z.of_nat n <= sp_head r ->
  exists r', batch_loop n r t acc = Done (r', acc ++ take n (spsc_items (r <| sp_tail := t |>))) /\
    wf_spsc (r' <| sp_tail := t + Z.of_nat n |>) /\ sp_capacity r' = sp_capacity r /\ sp_head r' = sp_head r /\
    spsc_items (r' <| sp_tail := t + Z.of_nat n |>) = drop n (spsc_items (r <| sp_tail := t |>)).
Proof.
  induction n as [|n IH]; intros r t acc H Hn.
  - exists r. cbn [batch_loop]. rewrite take_0, app_nil_r, drop_0, Z.add_0_r. done.
  - set (rt := r <| sp_tail := t |>) in *.
    destruct (take_slot_pop rt H ltac:(rsimpl; change (sp_tail rt) with t; change (sp_head rt) with (sp_head r); lia))
      as (item & Hi & _).
    destruct (wf_pop rt H item ltac:(change (sp_tail rt) with t; change (sp_head rt) with (sp_head r); lia) Hi) as [Hw Hit].
    cbn [batch_loop]. set (r1 := r <| sp_slots := <[slot (sp_capacity r) t := None]> (sp_slots r) |>).
    assert (take_slot r (slot (sp_capacity r) t) = Done (r1, item)) as ->.
    { unfold take_slot. change (sp_slots r !! slot (sp_capacity r) t) with (spsc_at rt (sp_tail rt)). by rewrite Hi. }
    cbn [obind]. destruct (IH r1 (t + 1) (acc ++ [item]) Hw) as (r' & E & Hw' & Hc & Hh & Hd);
      [change (sp_head r1) with (sp_head r); lia|].
    exists r'. rewrite E. replace (t + Z.of_nat (S n)) with (t + 1 + Z.of_nat n) by lia.
    change (spsc_items (r1 <| sp_tail := t + 1 |>)) with (spsc_items (rt <| sp_slots := <[slot (sp_capacity rt) (sp_tail rt) := None]> (sp_slots rt) |>
              <| sp_tail := sp_tail rt + 1 |>)) in *.
    rewrite Hit. cbn [take drop]. rewrite <- app_assoc. done.
Qed.

Lemma batch_law (r : SpscRing T) n :
  wf_spsc r -> sp_head r <= 2 ^ 62 ->
  exists r', spsc_dequeue_batch r n = Done (r', take n (spsc_items r)) /\ wf_spsc r' /\ sp_capacity r' = sp_capacity r /\
    sp_head r' = sp_head r /\ spsc_items r' = drop n (spsc_items r).
Proof.
  intros H Hb. pose proof (spsc_positions r H) as Hp. pose proof (zlen_items r H) as Hl.
  unfold spsc_dequeue_batch, csub64. rewrite (proj2 (Z.leb_le _ _)) by lia. cbn [obind].
  set (k := Nat.min _ n). assert (r <| sp_tail := sp_tail r |> = r) as Er by by destruct r.
  destruct (batch_loop_law k r (sp_tail r) []) as (r' & E & Hw & Hc & Hh & Hd); [by rewrite Er|unfold k; lia|].
  rewrite E. cbn [obind]. unfold cadd64. rewrite (proj2 (Z.ltb_lt _ _)) by (unfold k; lia). cbn [obind].
  rewrite Er in *. unfold zlen in Hl.
  assert (take k (spsc_items r) = take n (spsc_items r) /\ drop k (spsc_items r) = drop n (spsc_items r)) as [Ek Ek'].
  { unfold k. destruct (Nat.le_ge_cases n (Z.to_nat (sp_head r - sp_tail r))).
    - by rewrite Nat.min_r by done.
    - rewrite Nat.min_l, !take_ge, !drop_ge by lia. done. }
  rewrite app_nil_l, Ek. eexists. split; [reflexivity|]. by rewrite <- Ek'.
Qed.

Lemma spsc_new_wf cap : cap <= 2 ^ 61 -> wf_spsc (spsc_new (T := T) cap) /\ spsc_items (spsc_new (T := T) cap) = [].
Proof.
  intros Hc. pose proof (Mpsc.new_pow2 (T := T) cap Hc) as Hp. pose proof (pow2_bounds _ Hp) as Hb. split; [|done].
  change (Mpsc.capacity (Mpsc.new cap)) with (sp_capacity (spsc_new (T := T) cap)) in *.
  constructor; [done| | | |]; cbn [spsc_new sp_head sp_tail sp_slots] in *.
  - by rewrite length_replicate.
  - lia.
  - lia.
  - intros q Hq. unfold spsc_at. cbn [spsc_new sp_slots]. apply lookup_replicate_2. by apply (slot_lt _ Hp q).
Qed.

End Laws.

#[global] Instance spsc_queue : BoundedQueue SpscRing := {
  q_enqueue T := spsc_enqueue;
  q_dequeue T := spsc_dequeue;
  q_batch T := spsc_dequeue_batch;
  q_items T := spsc_items;
  q_capacity T := sp_capacity;
  q_total T := sp_head;
  q_ok T := wf_spsc }.

#[global] Instance spsc_queue_laws : BoundedQueueLaws SpscRing.
Proof.
  constructor; intros T q; cbn.
  - intros Hq. pose proof (pow2_bounds _ (ws_pow2 q Hq)). lia.
  - intros x. apply enqueue_law.
  - apply dequeue_law.
  - intros n. apply batch_law.
Qed.

(** ** Both threads at once

    One step per access to shared memory; [sent] lists the items whose position the producer has
    published, [rcvd] those whose position the consumer has released. *)
Module SpscConc.

Section SpscConc.

Context {T : Type}.

(** Inside [enqueue]: about to load [tail]; to write the slot; to store [head]. *)
Inductive producer : Type :=
| PIdle
| PTail (item : T) (h : Z)
| PWrite (item : T) (h : Z)
| PStore (item : T) (h : Z).

(** Inside [dequeue] ([None]) or [dequeue_batch] ([Some max]): about to load [head]; reading
    [count] slots, with the items read so far; about to store [tail]. *)
Inductive consumer : Type :=
| CIdle
| CHead (t : Z) (max : option nat)
| CRead (t : Z) (count : nat) (acc : list T).

Record sys := MkSys {
  ring : SpscRing T;
  prod : producer;
  cons_ : consumer;
  sent : list T;
  rcvd : list T;
  refused : list T }.

#[global] Instance eta_sys : Eta sys := fun s =>
  MkSys (ring s) (prod s) (cons_ s) (sent s) (rcvd s) (refused s).

Definition enqueue_step (s : sys) : option sys :=
  let R := ring s in
  match prod s with
  | PIdle => None
  | PTail item h =>
      match csub64 h (sp_tail R) with
      | Done used =>
          Some (if sp_capacity R <=? used
                then s <| prod := PIdle |> <| refused := refused s ++ [item] |>
                else s <| prod := PWrite item h |>)
      | _ => None
      end
  | PWrite item h =>
      match write_slot R (slot (sp_capacity R) h) item with
      | Done R => Some (s <| prod := PStore item h |> <| ring := R |>)
      | _ => None
      end
  | PStore item h =>
      match cadd64 h 1 with
      | Done h => Some (s <| prod := PIdle |> <| ring := R <| sp_head := h |> |> <| sent := sent s ++ [item] |>)
      | _ => None
      end
  end.

Definition dequeue_step (s : sys) : option sys :=
  let R := ring s in
  match cons_ s with
  | CIdle => None
  | CHead t None =>
      Some (s <| cons_ := if sp_head R <=? t then CIdle else CRead t 1 [] |>)
  | CHead t (Some max) =>
      match csub64 (sp_head R) t with
      | Done available => Some (s <| cons_ := CRead t (Nat.min (Z.to_nat available) max) [] |>)
      | _ => None
      end
  | CRead t count acc =>
      if (length acc <? count)%nat then
        match take_slot R (slot (sp_capacity R) (t + zlen acc)) with
        | Done (R, item) => Some (s <| cons_ := CRead t count (acc ++ [item]) |> <| ring := R |>)
        | _ => None
        end
      else
        match cadd64 t (Z.of_nat count) with
        | Done t => Some (s <| cons_ := CIdle |> <| ring := R <| sp_tail := t |> |> <| rcvd := rcvd s ++ acc |>)
        | _ => None
        end
  end.

(** A call loads the thread's own counter. *)
Inductive event : Type :=
| Enqueue (item : T)
| Dequeue (max : option nat)
| Prod
| Cons.

Definition step (s : sys) (e : event) : option sys :=
  match e with
  | Enqueue item =>
      match prod s with PIdle => Some (s <| prod := PTail item (sp_head (ring s)) |>) | _ => None end
  | Dequeue max =>
      match cons_ s with CIdle => Some (s <| cons_ := CHead (sp_tail (ring s)) max |>) | _ => None end
  | Prod => enqueue_step s
  | Cons => dequeue_step s
  end.

Fixpoint run (s : sys) (es : list event) : option sys :=
  match es with
  | [] => Some s
  | e :: es => match step s e with Some s' => run s' es | None => None end
  end.

Definition init (cap : Z) : sys := MkSys (spsc_new cap) PIdle CIdle [] [] [].

(** *** Invariant *)

Definition acc_of (s : sys) : list T := match cons_ s with CRead _ _ acc => acc | _ => [] end.

Definition written (s : sys) : option T := match prod s with PStore item _ => Some item | _ => None end.

Definition prod_ok (s : sys) : Prop :=
  match prod s with
  | PIdle => True
  | PTail _ h => h = sp_head (ring s)
  | PWrite _ h | PStore _ h => h = sp_head (ring s) /\ h < sp_tail (ring s) + sp_capacity (ring s)
  end.

Definition cons_ok (s : sys) : Prop :=
  match cons_ s with
  | CIdle => True
  | CHead t _ => t = sp_tail (ring s)
  | CRead t count acc =>
      t = sp_tail (ring s) /\ t + Z.of_nat count <= sp_head (ring s) /\ (length acc <= count)%nat /\
      acc = take (length acc) (drop (length (rcvd s)) (sent s))
  end.

Record inv (s : sys) : Prop := {
  c_pow2 : pow2 (sp_capacity (ring s));
  c_slots : length (sp_slots (ring s)) = Z.to_nat (sp_capacity (ring s));
  c_head : sp_head (ring s) = zlen (sent s);
  c_tail : sp_tail (ring s) = zlen (rcvd s);
  c_range : sp_tail (ring s) <= sp_head (ring s) <= sp_tail (ring s) + sp_capacity (ring s);
  c_prefix : rcvd s = take (length (rcvd s)) (sent s);
  c_full : forall q, sp_tail (ring s) + zlen (acc_of s) <= q < sp_head (ring s) ->
    exists item, sent s !! Z.to_nat q = Some item /\ spsc_at (ring s) q = Some (Some item);
  c_read : forall q, sp_tail (ring s) <= q < sp_tail (ring s) + zlen (acc_of s) -> spsc_at (ring s) q = Some None;
  c_free : forall q, sp_head (ring s) <= q < sp_tail (ring s) + sp_capacity (ring s) ->
    spsc_at (ring s) q = Some (if q =? sp_head (ring s) then written s else None);
  c_prod : prod_ok s;
  c_cons : cons_ok s }.

Lemma conc_inv_init cap : cap <= 2 ^ 61 -> inv (init cap).
Proof.
  intros Hc. destruct (spsc_new_wf (T := T) cap Hc) as [[H1 H2 H3 H4 H5] _].
  constructor; try done.
  - cbn [init ring]. lia.
  - change (zlen (acc_of (init cap))) with 0. intros q Hq. cbn in Hq. lia.
  - change (zlen (acc_of (init cap))) with 0. intros q Hq. cbn in Hq. lia.
  - intros q Hq. cbn [init ring] in *. rewrite H5 by done. by case_match.
Qed.

Section Step.

Context (s : sys) (H : inv s).

Lemma conc_positions :
  0 <= sp_tail (ring s) <= sp_head (ring s) /\ sp_head (ring s) <= sp_tail (ring s) + sp_capacity (ring s) /\
  2 <= sp_capacity (ring s) <= 2 ^ 61 /\ sp_tail (ring s) + zlen (acc_of s) <= sp_head (ring s).
Proof.
  pose proof (pow2_bounds _ (c_pow2 s H)). pose proof (c_range s H). pose proof (c_tail s H). pose proof (zlen_nonneg (rcvd s)).
  pose proof (c_cons s H) as Hk. unfold cons_ok, acc_of, zlen in *. destruct (cons_ s); cbn; lia.
Qed.

Lemma conc_at_insert r' x v q :
  sp_slots r' = <[slot (sp_capacity (ring s)) x := v]> (sp_slots (ring s)) -> sp_capacity r' = sp_capacity (ring s) ->
  - sp_capacity (ring s) < x - q < sp_capacity (ring s) ->
  spsc_at r' q = if x =? q then Some v else spsc_at (ring s) q.
Proof.
  intros E Ec Hxq. unfold spsc_at. rewrite E, Ec. bcase.
  - subst. apply list_lookup_insert_eq. rewrite (c_slots s H). apply slot_lt, H.
  - apply list_lookup_insert_ne. intros E'. apply slot_inj in E'; [done|apply H|done].
Qed.

Lemma inv_prod st l :
  written s = None -> (match st with PStore _ _ => False | _ => True end) ->
  prod_ok (s <| prod := st |>) -> inv (s <| prod := st |> <| refused := l |>).
Proof.
  intros Hw Hst Hok. constructor; try apply H; try done. intros q Hq.
  assert (written (s <| prod := st |> <| refused := l |>) = None) as -> by by destruct st.
  pose proof (c_free s H q Hq) as E. rewrite Hw in E. exact E.
Qed.

Lemma inv_cons_st st :
  acc_of s = [] -> (match st with CRead _ _ (_ :: _) => False | _ => True end) ->
  cons_ok (s <| cons_ := st |>) -> inv (s <| cons_ := st |>).
Proof.
  intros Ha Hst Hok. assert (acc_of (s <| cons_ := st |>) = acc_of s) as E.
  { rewrite Ha. unfold acc_of. rsimpl. by destruct st as [| |? ? []]. }
  constructor; try apply H; try done; rewrite E; apply H.
Qed.

Lemma inv_write_slot item h :
  prod s = PWrite item h ->
  inv (s <| prod := PStore item h |>
         <| ring := (ring s) <| sp_slots := <[slot (sp_capacity (ring s)) h := Some item]> (sp_slots (ring s)) |> |>).
Proof.
  intros Hp. match goal with |- inv ?x => set (s' := x) end. pose proof conc_positions as Hpos.
  pose proof (c_prod s H) as Hk. unfold prod_ok in Hk. rewrite Hp in Hk. destruct Hk as [-> Hlt].
  assert (forall q, sp_tail (ring s) <= q < sp_tail (ring s) + sp_capacity (ring s) ->
    spsc_at (ring s') q = if sp_head (ring s) =? q then Some (Some item) else spsc_at (ring s) q) as Ha
    by (intros q Hq; apply (conc_at_insert (ring s')); done || lia).
  pose proof (zlen_nonneg (acc_of s)).
  constructor; try apply H.
  - change (length (<[slot (sp_capacity (ring s)) (sp_head (ring s)) := Some item]> (sp_slots (ring s))) = Z.to_nat (sp_capacity (ring s))).
    rewrite length_insert. apply H.
  - intros q Hq. change (sp_tail (ring s) + zlen (acc_of s) <= q < sp_head (ring s)) in Hq.
    rewrite Ha by lia. bcase; [lia|]. by apply (c_full s H).
  - intros q Hq. change (sp_tail (ring s) <= q < sp_tail (ring s) + zlen (acc_of s)) in Hq.
    rewrite Ha by lia. bcase; [lia|]. by apply (c_read s H).
  - intros q Hq. change (sp_head (ring s) <= q < sp_tail (ring s) + sp_capacity (ring s)) in Hq.
    change (sp_head (ring s')) with (sp_head (ring s)). change (written s') with (Some item).
    rewrite Ha, (Z.eqb_sym q) by lia. bcase; [done|]. rewrite (c_free s H q Hq). by bcase; [lia|].
  - unfold prod_ok. change (prod s') with (PStore item (sp_head (ring s))). done.
Qed.

Lemma inv_publish_head item h :
  prod s = PStore item h ->
  inv (s <| prod := PIdle |> <| ring := (ring s) <| sp_head := h + 1 |> |> <| sent := sent s ++ [item] |>).
Proof.
  intros Hp. match goal with |- inv ?x => set (s' := x) end. pose proof conc_positions as Hpos.
  pose proof (c_prod s H) as Hk. unfold prod_ok in Hk. rewrite Hp in Hk. destruct Hk as [-> Hlt].
  pose proof (c_head s H) as Eh. pose proof (c_tail s H) as Et.
  constructor; try apply H; try done.
  - change (sp_head (ring s) + 1 = zlen (sent s ++ [item])). rewrite zlen_app, Eh. done.
  - change (sp_tail (ring s) <= sp_head (ring s) + 1 <= sp_tail (ring s) + sp_capacity (ring s)). lia.
  - change (rcvd s = take (length (rcvd s)) (sent s ++ [item])). rewrite take_app_le by (unfold zlen in *; lia). apply H.
  - intros q Hq. change (sp_tail (ring s) + zlen (acc_of s) <= q < sp_head (ring s) + 1) in Hq. pose proof (zlen_nonneg (acc_of s)).
    change (sent s') with (sent s ++ [item]). destruct (Z.eq_dec q (sp_head (ring s))) as [->|].
    + exists item. split.
      * rewrite Eh. unfold zlen. rewrite Nat2Z.id, lookup_app_r, Nat.sub_diag by done. done.
      * change (spsc_at (ring s) (sp_head (ring s)) = Some (Some item)). rewrite (c_free s H) by lia.
        rewrite Z.eqb_refl. unfold written. by rewrite Hp.
    + destruct (c_full s H q ltac:(lia)) as (x & E1 & E2). exists x. split; [by apply lookup_app_l_Some|done].
  - intros q Hq. change (sp_head (ring s) + 1 <= q < sp_tail (ring s) + sp_capacity (ring s)) in Hq.
    change (spsc_at (ring s) q = Some (if q =? sp_head (ring s) + 1 then None else None)). rewrite (c_free s H) by lia.
    bcase; [lia|]. by case_match.
  - pose proof (c_cons s H) as Hk. unfold cons_ok in *. change (cons_ s') with (cons_ s). destruct (cons_ s) as [|t m|t n acc]; try done.
    destruct Hk as (Hk1 & Hk2 & Hk3 & Hk4). split_and!; [done| |done|].
    + change (t + Z.of_nat n <= sp_head (ring s) + 1). lia.
    + change (acc = take (length acc) (drop (length (rcvd s)) (sent s ++ [item]))).
      rewrite drop_app_le, take_app_le; [done|..]; unfold zlen in *; rewrite ?length_drop; lia.
Qed.

Lemma read_next t n acc :
  cons_ s = CRead t n acc -> (length acc < n)%nat ->
  exists item, spsc_at (ring s) (t + zlen acc) = Some (Some item) /\
    acc ++ [item] = take (length (acc ++ [item])) (drop (length (rcvd s)) (sent s)).
Proof.
  intros Hc Hlt. pose proof (c_cons s H) as Hk. unfold cons_ok in Hk. rewrite Hc in Hk. destruct Hk as (Et & Hn & _ & Ha).
  assert (acc_of s = acc) as Eacc by (unfold acc_of; by rewrite Hc). pose proof (c_tail s H) as Er.
  destruct (c_full s H (t + zlen acc)) as (item & E1 & E2); [rewrite Eacc; unfold zlen; lia|].
  exists item. split; [done|]. rewrite length_app, Nat.add_1_r. erewrite take_S_r; [by f_equal|].
  rewrite lookup_drop, <- E1. f_equal. unfold zlen in *. lia.
Qed.

Lemma inv_read_slot t n acc item :
  cons_ s = CRead t n acc -> (length acc < n)%nat -> spsc_at (ring s) (t + zlen acc) = Some (Some item) ->
  acc ++ [item] = take (length (acc ++ [item])) (drop (length (rcvd s)) (sent s)) ->
  inv (s <| cons_ := CRead t n (acc ++ [item]) |>
         <| ring := (ring s) <| sp_slots := <[slot (sp_capacity (ring s)) (t + zlen acc) := None]> (sp_slots (ring s)) |> |>).
Proof.
  intros Hc Hlt Hi Hacc. match goal with |- inv ?x => set (s' := x) end. pose proof conc_positions as Hpos.
  pose proof (c_cons s H) as Hk. unfold cons_ok in Hk. rewrite Hc in Hk. destruct Hk as (Et & Hn & _ & _).
  assert (acc_of s = acc) as Eacc by (unfold acc_of; by rewrite Hc).
  assert (zlen (acc_of s') = zlen acc + 1) as Eacc' by (change (acc_of s') with (acc ++ [item]); by rewrite zlen_app).
  pose proof (zlen_nonneg acc).
  assert (forall q, sp_tail (ring s) <= q < sp_tail (ring s) + sp_capacity (ring s) ->
    spsc_at (ring s') q = if t + zlen acc =? q then Some None else spsc_at (ring s) q) as Ha.
  { intros q Hq. apply (conc_at_insert (ring s')); [done|done|]. unfold zlen in *. lia. }
  constructor; try apply H; rewrite ?Eacc'.
  - change (length (<[slot (sp_capacity (ring s)) (t + zlen acc) := None]> (sp_slots (ring s))) = Z.to_nat (sp_capacity (ring s))).
    rewrite length_insert. apply H.
  - intros q Hq. change (sp_tail (ring s) + (zlen acc + 1) <= q < sp_head (ring s)) in Hq.
    rewrite Ha by lia. bcase; [lia|]. apply (c_full s H). rewrite Eacc. lia.
  - intros q Hq. change (sp_tail (ring s) <= q < sp_tail (ring s) + (zlen acc + 1)) in Hq.
    rewrite Ha by (unfold zlen in *; lia). bcase; [done|]. apply (c_read s H). rewrite Eacc. lia.
  - intros q Hq. change (sp_head (ring s) <= q < sp_tail (ring s) + sp_capacity (ring s)) in Hq.
    rewrite Ha by lia. bcase; [unfold zlen in *; lia|]. by apply (c_free s H).
  - unfold cons_ok. change (cons_ s') with (CRead t n (acc ++ [item])). split_and!; [done|exact Hn| |exact Hacc].
    rewrite length_app. cbn. lia.
Qed.

Lemma inv_release t n acc :
  cons_ s = CRead t n acc -> length acc = n ->
  inv (s <| cons_ := CIdle |> <| ring := (ring s) <| sp_tail := t + Z.of_nat n |> |> <| rcvd := rcvd s ++ acc |>).
Proof.
  intros Hc Hl. match goal with |- inv ?x => set (s' := x) end. pose proof conc_positions as Hpos.
  pose proof (c_cons s H) as Hk. unfold cons_ok in Hk. rewrite Hc in Hk. destruct Hk as (-> & Hn & _ & Hacc).
  assert (acc_of s = acc) as Eacc by (unfold acc_of; by rewrite Hc). pose proof (c_tail s H) as Et.
  assert (zlen acc = Z.of_nat n) as Ez by (unfold zlen; lia). pose proof (c_head s H) as Eh.
  constructor; try apply H; try done; try (change (acc_of s') with (@nil T); change (zlen (@nil T)) with 0; rewrite Z.add_0_r).
  - change (sp_tail (ring s) + Z.of_nat n = zlen (rcvd s ++ acc)). rewrite zlen_app, Et. lia.
  - change (sp_tail (ring s) + Z.of_nat n <= sp_head (ring s) <= sp_tail (ring s) + Z.of_nat n + sp_capacity (ring s)). lia.
  - change (rcvd s ++ acc = take (length (rcvd s ++ acc)) (sent s)). rewrite length_app.
    rewrite <- (take_drop (length (rcvd s)) (sent s)). rewrite take_app_add'.
    + f_equal; [apply H|exact Hacc].
    + rewrite length_take. unfold zlen in *. lia.
  - intros q Hq. change (sp_tail (ring s) + Z.of_nat n <= q < sp_head (ring s)) in Hq. apply (c_full s H). rewrite Eacc. lia.
  - intros q Hq. lia.
  - intros q Hq. change (sp_head (ring s) <= q < sp_tail (ring s) + Z.of_nat n + sp_capacity (ring s)) in Hq.
    change (spsc_at (ring s) q = Some (if q =? sp_head (ring s) then written s else None)).
    destruct (Z.lt_ge_cases q (sp_tail (ring s) + sp_capacity (ring s))); [apply (c_free s H); lia|].
    assert ((if q =? sp_head (ring s) then written s else None) = None) as ->.
    { bcase; [|done]. unfold written. pose proof (c_prod s H) as Hp. unfold prod_ok in Hp. destruct (prod s); try done. lia. }
    replace q with (q - sp_capacity (ring s) + sp_capacity (ring s)) by lia. unfold spsc_at. rewrite slot_next_lap by apply H.
    apply (c_read s H). rewrite Eacc. lia.
  - pose proof (c_prod s H) as Hp. unfold prod_ok in *. change (prod s') with (prod s).
    destruct (prod s); try done; change (sp_tail (ring s')) with (sp_tail (ring s) + Z.of_nat n);
      change (sp_head (ring s')) with (sp_head (ring s)); change (sp_capacity (ring s')) with (sp_capacity (ring s)); lia.
Qed.

End Step.

(** *** Every step *)

Lemma sent_grows s e s' : step s e = Some s' -> zlen (sent s) <= zlen (sent s').
Proof.
  destruct e as [item|m| |]; cbn; unfold enqueue_step, dequeue_step; intros E;
    repeat case_match; simplify_eq; rsimpl; rewrite ?zlen_app; try done.
  change (zlen [item]) with 1. lia.
Qed.

Lemma conc_step_inv s e s' : inv s -> zlen (sent s') <= 2 ^ 62 -> step s e = Some s' -> inv s'.
Proof.
  intros H Hb E. pose proof (sent_grows s e s' E) as Hg. pose proof (conc_positions s H) as Hp.
  pose proof (c_prod s H) as Hpr. pose proof (c_cons s H) as Hco. pose proof (c_head s H) as Eh.
  destruct e as [item|m| |]; cbn in E; unfold enqueue_step, dequeue_step, csub64, cadd64 in E.
  - destruct (prod s) eqn:Ep; simplify_eq. apply (inv_prod s H _ (refused s)); [by unfold written; rewrite Ep|done|done].
  - destruct (cons_ s) eqn:Ec; simplify_eq. apply inv_cons_st; [done|by unfold acc_of; rewrite Ec|done|done].
  - unfold prod_ok in Hpr. destruct (prod s) as [|x h|x h|x h] eqn:Ep; simplify_eq.
    + try subst h. rewrite (proj2 (Z.leb_le _ _)) in E by lia. simplify_eq. bcase.
      * apply inv_prod; [done|by unfold written; rewrite Ep|done|done].
      * apply (inv_prod s H _ (refused s)); [by unfold written; rewrite Ep|done|]. unfold prod_ok. rsimpl. cbv iota. lia.
    + unfold write_slot in E. repeat case_match; simplify_eq. by apply inv_write_slot.
    + rewrite (proj2 (Z.ltb_lt _ _)) in E by lia. simplify_eq. by apply inv_publish_head.
  - unfold cons_ok in Hco. destruct (cons_ s) as [|t [m|]|t n acc] eqn:Ec; simplify_eq.
    + try subst t. rewrite (proj2 (Z.leb_le _ _)) in E by lia. simplify_eq.
      apply inv_cons_st; [done|by unfold acc_of; rewrite Ec|done|]. unfold cons_ok. rsimpl. cbn. split_and!; [done|lia|lia|done].
    + try subst t. apply inv_cons_st; [done|by unfold acc_of; rewrite Ec|by bcase|]. unfold cons_ok. rsimpl. bcase; [done|].
      cbn. split_and!; [done|lia|lia|done].
    + destruct Hco as (-> & Hn & Hl & Ha). bcase_on (length acc <? n)%nat.
      * destruct (read_next s H _ n acc Ec ltac:(lia)) as (x & Hx & Hacc). unfold take_slot in E.
        unfold spsc_at in Hx. rewrite Hx in E. simplify_eq. by apply inv_read_slot.
      * rewrite (proj2 (Z.ltb_lt _ _)) in E by lia. simplify_eq. apply inv_release; [done|done|lia].
Qed.

Lemma run_sent_grows es : forall s s', run s es = Some s' -> zlen (sent s) <= zlen (sent s').
Proof.
  induction es as [|e es IH]; cbn; intros s s' E; [by simplify_eq|].
  destruct (step s e) as [s1|] eqn:E1; [|done]. pose proof (sent_grows s e s1 E1). specialize (IH s1 s' E). lia.
Qed.

Lemma conc_run_inv es : forall s s', inv s -> zlen (sent s') <= 2 ^ 62 -> run s es = Some s' -> inv s'.
Proof.
  induction es as [|e es IH]; cbn; intros s s' H Hb E; [by simplify_eq|].
  destruct (step s e) as [s1|] eqn:E1; [|done]. pose proof (run_sent_grows es s1 s' E).
  eapply IH; [|done|done]. eapply conc_step_inv; [done| |done]. lia.
Qed.

(** *** The queue they share *)

Definition queue (s : sys) : list T := drop (length (rcvd s)) (sent s).

Inductive queue_step (s s' : sys) : Prop :=
| q_enqueue item :
    sent s' = sent s ++ [item] -> rcvd s' = rcvd s -> refused s' = refused s ->
    zlen (queue s) < sp_capacity (ring s) -> queue s' = queue s ++ [item] -> queue_step s s'
| q_full item :
    sent s' = sent s -> rcvd s' = rcvd s -> refused s' = refused s ++ [item] ->
    zlen (queue s) = sp_capacity (ring s) -> queue_step s s'
| q_dequeue l :
    sent s' = sent s -> rcvd s' = rcvd s ++ l -> refused s' = refused s -> queue s = l ++ queue s' -> queue_step s s'
| q_silent :
    sent s' = sent s -> rcvd s' = rcvd s -> refused s' = refused s -> queue_step s s'.

Definition reachable (cap : Z) (s : sys) : Prop := exists es, run (init cap) es = Some s.

Lemma zlen_queue_conc s : inv s -> zlen (queue s) = sp_head (ring s) - sp_tail (ring s).
Proof.
  intros H. pose proof (c_range s H). rewrite (c_head s H), (c_tail s H) in *. unfold queue, zlen in *. rewrite length_drop. lia.
Qed.

(** C16: The producer and the consumer of a ring share a bounded queue: in every interleaving of their
    accesses each step publishes one item at the end of the queue while there is room, refuses
    one only when the queue holds [capacity] items, releases items from its front in order, or leaves it alone; a step
    never reads a slot that is not initialised, and neither thread gets stuck. *)
Theorem spsc_refines_bounded_queue cap s e s' :
  cap <= 2 ^ 61 -> reachable cap s -> step s e = Some s' -> zlen (sent s') <= 2 ^ 62 ->
  queue_step s s' /\ rcvd s ++ queue s = sent s /\ zlen (queue s) <= sp_capacity (ring s) /\
  (prod s' <> PIdle -> zlen (sent s') < 2 ^ 62 -> is_Some (step s' Prod)) /\
  (cons_ s' <> CIdle -> is_Some (step s' Cons)).
Proof.
  intros Hc [es Er] E Hb. pose proof (sent_grows s e s' E) as Hg.
  pose proof (conc_run_inv es _ s (conc_inv_init cap Hc) ltac:(lia) Er) as H. pose proof (conc_positions s H) as Hp.
  pose proof (conc_step_inv s e s' H Hb E) as H'. pose proof (conc_positions s' H') as Hp'.
  pose proof (c_prod s H) as Hpr. pose proof (c_cons s H) as Hco. split_and!.
  - destruct e as [item|m| |]; cbn in E; unfold enqueue_step, dequeue_step, csub64, cadd64, write_slot, take_slot in E.
    + case_match; simplify_eq. by apply q_silent.
    + case_match; simplify_eq. by apply q_silent.
    + unfold prod_ok in Hpr. destruct (prod s) as [|x h|x h|x h] eqn:Ep; simplify_eq.
      * try subst h. rewrite (proj2 (Z.leb_le _ _)) in E by lia. simplify_eq. bcase; [|by apply q_silent].
        apply (q_full _ _ x); try done. rewrite zlen_queue_conc by done. lia.
      * repeat case_match; simplify_eq. by apply q_silent.
      * repeat case_match; simplify_eq. apply (q_enqueue _ _ x); try done; [rewrite zlen_queue_conc by done; lia|].
        unfold queue. rsimpl. rewrite drop_app_le; [done|]. rewrite (c_head s H), (c_tail s H) in Hp. unfold zlen in Hp. lia.
    + unfold cons_ok in Hco. destruct (cons_ s) as [|t [m|]|t n acc] eqn:Ec; simplify_eq.
      * repeat case_match; simplify_eq. by apply q_silent.
      * by apply q_silent.
      * destruct Hco as (-> & Hn & Hl & Ha). bcase_on (length acc <? n)%nat; repeat case_match; simplify_eq; [by apply q_silent|].
        apply (q_dequeue _ _ acc); try done. unfold queue. rsimpl. rewrite length_app, <- drop_drop.
        rewrite <- (take_drop (length acc) (drop _ _)) at 1. by f_equal.
  - unfold queue. rewrite (c_prefix s H) at 1. apply take_drop.
  - rewrite zlen_queue_conc by done. lia.
  - intros Hne Hlt. clear Hpr. pose proof (c_prod s' H') as Hpr. pose proof (c_head s' H'). cbn. unfold enqueue_step, csub64, cadd64, write_slot, prod_ok in *.
    destruct (prod s') as [|x h|x h|x h]; [done|..].
    + try subst h. rewrite (proj2 (Z.leb_le _ _)) by lia. eauto.
    + rewrite (proj2 (Nat.ltb_lt _ _)) by (rewrite (c_slots s' H'); apply slot_lt, H'). eauto.
    + rewrite (proj2 (Z.ltb_lt _ _)) by lia. eauto.
  - intros Hne. clear Hco. pose proof (c_cons s' H') as Hco. pose proof (c_head s' H'). cbn. unfold dequeue_step, csub64, cadd64, cons_ok in *.
    destruct (cons_ s') as [|t [m|]|t n acc] eqn:Ec; [done|..].
    + try subst t. rewrite (proj2 (Z.leb_le _ _)) by lia. eauto.
    + eauto.
    + destruct Hco as (-> & Hn & Hl & Ha). bcase_on (length acc <? n)%nat.
      * destruct (read_next s' H' _ n acc Ec ltac:(lia)) as (x & Hx & _). unfold take_slot, spsc_at in *. rewrite Hx. eauto.
      * rewrite (proj2 (Z.ltb_lt _ _)) by lia. eauto.
Qed.

End SpscConc.

(** *** Witness: the consumer takes a batch while the producer writes *)

Definition overlap_run : list (event (T := Z)) :=
  [Enqueue 7; Prod; Prod; Prod; Dequeue (Some 8%nat); Cons; Enqueue 8; Prod; Prod; Cons].

Definition overlap : sys :=
  match run (init 2) overlap_run with Some s => s | None => init 2 end.

Lemma spsc_refines_bounded_queue_witness :
  exists s', step overlap Cons = Some s' /\ queue_step overlap s' /\ rcvd s' = [7].
Proof.
  eexists. split; [vm_compute; reflexivity|]. split; [|reflexivity].
  apply (spsc_refines_bounded_queue 2 overlap Cons).
  - vm_compute. congruence.
  - exists overlap_run. vm_compute. reflexivity.
  - vm_compute. reflexivity.
  - vm_compute. congruence.
Defined.

End SpscConc.
