(* ===== verification/Pipeline.v ===== *)
(** * The multi-core pipeline (dpdk-stdlib-udp/src/topology.rs)

    One dispatcher thread takes frames from the NIC into the frame pool and hands references to
    the workers' rings; each worker parses and passes datagrams on to its application ring; the
    application copies the payload out and frees the frame.  The rings are any
    implementation of [BoundedQueue].  A step is one iteration of a thread's loop over a frame, which is atomic
    because each shared object it uses is (SpscRing, FramePool).  What the NIC delivers is an argument, what is
    handed to [send_fn] a list.  Performance counters and back-off are left out. *)

From stdpp Require Import base numbers list.
From Stdlib Require Import ZArith Lia.
From S2P Require Import Prelude State Buffer Checksum Codec Ring UdpChecksum UdpFrame UdpLayout Routing NeighborCache Arp Icmp UdpSocket UdpRobust MpscRing FramePool SpscRing.

#[local] Open Scope Z_scope.

(** ** Topology plans *)

Record TopologyConfig := MkTopoConfig { cfg_rx_queues : option Z }.

Inductive TopologySource : Type := Builder | Environment | AutoDetected | Stub.

Record TopologyPlan := MkPlan {
  rx_queues : Z;
  nb_tx_queues : Z;
  numa_node : Z;
  source : TopologySource }.

Definition is_run_to_completion (p : TopologyPlan) : bool := rx_queues p <=? 1.

Definition total_lcores_needed (p : TopologyPlan) : Z :=
  if is_run_to_completion p then 0 else rx_queues p.

Definition clamp_rx_queues (requested nic_max : Z) : Z :=
  if nic_max =? 0 then 1 else Z.max (Z.min requested nic_max) 1.

Definition auto_detect_queues (lcores nic_max : Z) : Z :=
  let available := ssub lcores 1 in
  if available <=? 1 then 1 else clamp_rx_queues (u16 available) nic_max.

Definition compute_tx_queues (rx_queues nic_max_tx_queues : Z) : Z :=
  if rx_queues <=? 1 then 1
  else if nic_max_tx_queues =? 0 then 2 else Z.min 2 nic_max_tx_queues.

(** [detect_topology]; [is_stub] and the parsed value of DPDK_RX_QUEUES are arguments. *)
Definition detect_topology (is_stub : bool) (env_rq : option Z) (config : TopologyConfig)
    (available_lcores nic_max_rx_queues nic_max_tx_queues nic_numa_node : Z) : TopologyPlan :=
  let numa_node := if 0 <=? nic_numa_node then nic_numa_node else 0 in
  let plan rx_queues src :=
    MkPlan rx_queues (compute_tx_queues rx_queues nic_max_tx_queues) numa_node src in
  if is_stub then MkPlan 1 1 numa_node Stub
  else match cfg_rx_queues config with
       | Some rq => plan (clamp_rx_queues rq nic_max_rx_queues) Builder
       | None =>
           match env_rq with
           | Some rq => plan (clamp_rx_queues rq nic_max_rx_queues) Environment
           | None => plan (auto_detect_queues available_lcores nic_max_rx_queues) AutoDetected
           end
       end.

(** ** Packets *)

Record AppPacket := MkApp {
  ap_frame_ref : FrameRef;
  payload_offset : Z;
  payload_len : Z;
  ap_src_addr : SocketAddr;
  ap_src_mac : Mac;
  ap_src_ip : Ipv4Addr }.

(** [&frame_pool.frame(idx)[..len]]. *)
Definition frame_slice (p : FramePool) (ref : FrameRef) : outcome (list Z) :=
  let! d := frame p (pool_idx ref) in slice d 0 (Z.to_nat (fr_len ref)).

(** [parsed.payload.as_ptr() - frame_slice.as_ptr()]: where [parse_udp_packet_ref] takes the payload from. *)
Definition payload_start (frame : list Z) : outcome nat :=
  let! layout := detect_vlan frame None in
  match layout with
  | None => Panic
  | Some layout =>
      let! b0 := idx frame (l3_offset layout) in
      Done (l3_offset layout + ihl_bytes b0 + UDP_HEADER_LEN)%nat
  end.

(** [dequeue_app_rings] (and [MultiCoreTopology::dequeue_app]): the loop over [offset]. *)
Section Rings.

Context {Q : Type -> Type} `{BoundedQueue Q}.

Fixpoint poll_rings {T} (offsets : list nat) (rings : list (Q T)) (rr_index : nat)
    : outcome (list (Q T) * nat * option T) :=
  match offsets with
  | [] => Done (rings, rr_index, None)
  | offset :: offsets =>
      let i := (offset mod length rings)%nat in
      match rings !! i with
      | None => Panic
      | Some q =>
          let! (q, o) := q_dequeue q in
          let rings := <[i := q]> rings in
          match o with
          | Some pkt => Done (rings, S i, Some pkt)
          | None => poll_rings offsets rings rr_index
          end
      end
  end.

Definition dequeue_app_rings {T} (rings : list (Q T)) (rr_index : nat)
    : outcome (list (Q T) * nat * option T) :=
  if (length rings =? 0)%nat then Done (rings, rr_index, None)
  else poll_rings (seq 0 (rr_index + length rings)) rings rr_index.

(** The dispatcher's search for a worker ring with room, from [target] on. *)
Fixpoint try_workers {T} (offsets : list nat) (target : nat) (rings : list (Q T)) (item : T)
    : outcome (list (Q T) * bool) :=
  match offsets with
  | [] => Done (rings, false)
  | offset :: offsets =>
      let i := ((target + offset) mod length rings)%nat in
      match rings !! i with
      | None => Panic
      | Some q =>
          let! (q, ok) := q_enqueue q item in
          let rings := <[i := q]> rings in
          if ok : bool then Done (rings, true) else try_workers offsets target rings item
      end
  end.

(** ** The threads *)

Record Pipeline := MkPipe {
  pl_pool : FramePool;
  pl_workers : list (Q FrameRef);
  pl_app_rings : list (Q AppPacket);
  pl_tx : Q (list Z);
  pl_arp : ArpHandler;
  pl_icmp : IcmpHandler;
  pl_rr : Z;
  pl_port : Z;
  pl_sent : list (list Z) }.

#[global] Instance eta_Pipeline : Eta Pipeline := fun p =>
  MkPipe (pl_pool p) (pl_workers p) (pl_app_rings p) (pl_tx p) (pl_arp p) (pl_icmp p) (pl_rr p) (pl_port p) (pl_sent p).

Definition free_frame (pl : Pipeline) (ref : FrameRef) : outcome Pipeline :=
  let! p := pool_free (pl_pool pl) (pool_idx ref) in Done (pl <| pl_pool := p |>).

Definition send_reply (pl : Pipeline) (reply : option (list Z)) : Pipeline :=
  match reply with Some f => pl <| pl_sent := pl_sent pl ++ [f] |> | None => pl end.

(** The end of the body of [rx_loop]: a data frame goes to a worker, or is freed. *)
Definition hand_to_worker (pl : Pipeline) (ref : FrameRef) : outcome Pipeline :=
  let num_workers := length (pl_workers pl) in
  if (num_workers =? 0)%nat then Panic
  else
    let target := Z.to_nat (pl_rr pl mod Z.of_nat num_workers) in
    let pl := pl <| pl_rr := u64 (pl_rr pl + 1) |> in
    let! (rings, sent) := try_workers (seq 0 num_workers) target (pl_workers pl) ref in
    let pl := pl <| pl_workers := rings |> in
    if sent : bool then Done pl else free_frame pl ref.

(** The body of [rx_loop] for one frame. *)
Definition dispatch_frame (pl : Pipeline) (now : Z) (ref : FrameRef) : outcome Pipeline :=
  let! frame_data := frame (pl_pool pl) (pool_idx ref) in
  if fr_len ref <? 14 then free_frame pl ref
  else
    let! fs := slice frame_data 0 (Z.to_nat (fr_len ref)) in
    let! ethertype := read16 fs 12 in
    if ethertype =? ETH_TYPE_ARP then
      let! (h, reply) := process_arp (pl_arp pl) now fs in
      free_frame (send_reply (pl <| pl_arp := h |>) reply) ref
    else
      let! is_icmp :=
        if (ethertype =? ETH_TYPE_IPV4) && (ETH_HEADER_LEN + 9 <? length fs)%nat then
          let! protocol := idx fs (ETH_HEADER_LEN + 9) in Done (protocol =? IP_PROTO_ICMP)
        else Done false in
      if is_icmp : bool then
        let! reply := process_icmp (pl_icmp pl) fs in
        free_frame (send_reply pl reply) ref
      else hand_to_worker pl ref.

(** The body of [worker_loop] for one frame of worker [w]. *)
Definition worker_frame (pl : Pipeline) (now : Z) (w : nat) (ref : FrameRef) : outcome Pipeline :=
  let! fs := frame_slice (pl_pool pl) ref in
  let! parsed := parse_udp_packet_ref fs in
  match parsed with
  | None => free_frame pl ref
  | Some p =>
      let! ok := verify_ipv4_checksum fs in
      let! ok := if ok : bool then verify_udp_checksum fs else Done false in
      if negb ok then free_frame pl ref
      else
        let! m := slice fs 6 12 in
        match to_mac m with
        | None => Panic
        | Some src_mac =>
            let pl := pl <| pl_arp := (pl_arp pl) <| arp_cache :=
                       insert_if_changed (arp_cache (pl_arp pl)) now (r_src_ip p) src_mac |> |> in
            if negb (r_dst_port p =? pl_port pl) then free_frame pl ref
            else
              let! o := payload_start fs in
              let app_pkt := MkApp ref (u16 (Z.of_nat o)) (u16 (zlen (r_payload p)))
                               (V4 (r_src_ip p) (r_src_port p)) src_mac (r_src_ip p) in
              match pl_app_rings pl !! w with
              | None => Panic
              | Some q =>
                  let! (q, ok) := q_enqueue q app_pkt in
                  let pl := pl <| pl_app_rings := <[w := q]> (pl_app_rings pl) |> in
                  if ok : bool then Done pl else free_frame pl ref
              end
        end
  end.

(** [make_recv_fn]: the frames of a burst into the pool; those without a slot are dropped. *)
Fixpoint recv_into_pool (p : FramePool) (frames : list (list Z)) : outcome (FramePool * list FrameRef) :=
  match frames with
  | [] => Done (p, [])
  | data :: frames =>
      let! (p, ref) := alloc_copy p data in
      let! (p, refs) := recv_into_pool p frames in
      Done (p, match ref with Some ref => ref :: refs | None => refs end)
  end.

(** [try_recv_from_pipeline]: the buffered queue first, then the application rings. *)
Definition try_recv_from_pipeline (s : UdpSocket) (pl : Pipeline) (rr_index : nat) (buf : list Z)
    : outcome (UdpSocket * Pipeline * nat * list Z * option (Z * SocketAddr)) :=
  let! (s, buf, popped) :=
    if s_has_buffered_packets s then
      let! (s, buf, popped) := rx_dequeue_into s buf in
      Done (match popped with Some _ => s | None => s <| s_has_buffered_packets := false |> end, buf, popped)
    else Done (s, buf, None) in
  match popped with
  | Some r => Done (s, pl, rr_index, buf, Some r)
  | None =>
      let! (rings, rr_index, packet) := dequeue_app_rings (pl_app_rings pl) rr_index in
      let pl := pl <| pl_app_rings := rings |> in
      match packet with
      | None => Done (s, pl, rr_index, buf, None)
      | Some app_pkt =>
          let start := Z.to_nat (payload_offset app_pkt) in
          let len := Z.to_nat (payload_len app_pkt) in
          let! frame_data := frame (pl_pool pl) (pool_idx (ap_frame_ref app_pkt)) in
          let copy_len := Nat.min (length buf) len in
          let! bytes := slice frame_data start (start + copy_len) in
          let! buf := blit buf 0 copy_len bytes in
          let! pl := free_frame pl (ap_frame_ref app_pkt) in
          let stranger := match s_connected_addr s with
                          | Some connected => negb (bool_decide (ap_src_addr app_pkt = connected))
                          | None => false
                          end in
          if stranger then
            let! data := slice buf 0 copy_len in
            Done (rx_enqueue s data (ap_src_addr app_pkt) (Z.of_nat copy_len), pl, rr_index, buf, None)
          else Done (s, pl, rr_index, buf, Some (Z.of_nat copy_len, ap_src_addr app_pkt))
      end
  end.

(** The two places of [rx_loop] that empty the transmit ring. *)
Definition drain_tx_frames (pl : Pipeline) : outcome Pipeline :=
  let! (q, tx_batch) := q_batch (pl_tx pl) 256 in
  Done (pl <| pl_tx := q |> <| pl_sent := pl_sent pl ++ tx_batch |>).

(** ** The threads together *)

(** [rx_refs] and [batches] are the frames the dispatcher and each worker still have to handle of their last
    poll; [delivered] is the ghost list of frames received, cut to the slot size, and
    [answers] what the application was given. *)
Record PipeSys := MkPipeSys {
  pipe : Pipeline;
  rx_refs : list FrameRef;
  batches : list (list FrameRef);
  app_socket : UdpSocket;
  app_rr : nat;
  delivered : list (list Z);
  answers : list (list Z * SocketAddr) }.

#[global] Instance eta_PipeSys : Eta PipeSys := fun s =>
  MkPipeSys (pipe s) (rx_refs s) (batches s) (app_socket s) (app_rr s) (delivered s) (answers s).

Inductive pipe_event : Type :=
| NicBurst (frames : list (list Z))
| Dispatch (now : Z)
| TxEnqueue (frame : list Z)
| TxDrain
| WorkerPoll (w : nat)
| WorkerFrame (w : nat) (now : Z)
| AppRecv (buf : list Z).

(** A thread polls again when it has handled its last batch. *)
Definition pipe_step (s : PipeSys) (e : pipe_event) : outcome PipeSys :=
  match e with
  | NicBurst frames =>
      match rx_refs s with
      | _ :: _ => Done s
      | [] =>
          let! (p, refs) := recv_into_pool (pl_pool (pipe s)) frames in
          Done (s <| pipe := (pipe s) <| pl_pool := p |> |> <| rx_refs := refs |>
                  <| delivered := delivered s ++ (take (Z.to_nat (frame_size p)) <$> frames) |>)
      end
  | Dispatch now =>
      match rx_refs s with
      | [] => Done s
      | ref :: refs =>
          let! pl := dispatch_frame (pipe s) now ref in
          Done (s <| pipe := pl |> <| rx_refs := refs |>)
      end
  | TxEnqueue frame =>
      let! (q, _) := q_enqueue (pl_tx (pipe s)) frame in
      Done (s <| pipe := (pipe s) <| pl_tx := q |> |>)
  | TxDrain => let! pl := drain_tx_frames (pipe s) in Done (s <| pipe := pl |>)
  | WorkerPoll w =>
      match batches s !! w, pl_workers (pipe s) !! w with
      | Some [], Some q =>
          let! (q, batch) := q_batch q 32 in
          Done (s <| pipe := (pipe s) <| pl_workers := <[w := q]> (pl_workers (pipe s)) |> |>
                  <| batches := <[w := batch]> (batches s) |>)
      | _, _ => Done s
      end
  | WorkerFrame w now =>
      match batches s !! w with
      | Some (ref :: refs) =>
          let! pl := worker_frame (pipe s) now w ref in
          Done (s <| pipe := pl |> <| batches := <[w := refs]> (batches s) |>)
      | _ => Done s
      end
  | AppRecv buf =>
      let! (sock, pl, rr, buf, r) := try_recv_from_pipeline (app_socket s) (pipe s) (app_rr s) buf in
      let! got := match r with
                  | Some (n, src) => let! d := slice buf 0 (Z.to_nat n) in Done [(d, src)]
                  | None => Done []
                  end in
      Done (s <| pipe := pl |> <| app_socket := sock |> <| app_rr := rr |>
              <| answers := answers s ++ got |>)
  end.

Fixpoint pipe_run (s : PipeSys) (es : list pipe_event) : outcome PipeSys :=
  match es with
  | [] => Done s
  | e :: es => let! s := pipe_step s e in pipe_run s es
  end.

End Rings.

Arguments Pipeline : clear implicits.
Arguments PipeSys : clear implicits.

(** ** Start-up *)

Record PipelineConfig := MkPipeConfig {
  pc_plan : TopologyPlan;
  pc_local_port : Z;
  pc_local_mac : Mac;
  pc_local_ip : Ipv4Addr;
  pc_arp_cache : ArpCache }.

(** The objects [start_pipeline] creates, for its two sizes. *)
Definition build_pipeline (ring_capacity slot_size : Z) (config : PipelineConfig)
    : option (Pipeline SpscRing) :=
  if is_run_to_completion (pc_plan config) then None
  else
    let num_workers := Z.to_nat (ssub (rx_queues (pc_plan config)) 1) in
    Some (MkPipe (pool_new ring_capacity slot_size)
            (replicate num_workers (spsc_new ring_capacity))
            (replicate num_workers (spsc_new ring_capacity))
            (spsc_new ring_capacity)
            (handler_with_cache (pc_local_mac config) (pc_local_ip config) (pc_arp_cache config))
            (icmp_handler_new (pc_local_mac config) (pc_local_ip config))
            0 (pc_local_port config) []).

Definition start_pipeline : PipelineConfig -> option (Pipeline SpscRing) := build_pipeline 16384 2048.
