(* ===== verification/PipelineInv.v ===== *)
(** * Frames in the pipeline: nothing leaks, nothing is shared, nothing is changed

    The pipeline as a transition system of its threads, for any rings that are bounded queues. *)

From stdpp Require Import base numbers list sets.
From Stdlib Require Import ZArith Lia.
From S2P Require Import Prelude State Buffer Checksum Codec CodecFrames Ring UdpChecksum UdpFrame UdpLayout Routing NeighborCache Arp Icmp UdpSocket UdpRobust MpscRing FramePool SpscRing Pipeline.

#[local] Open Scope Z_scope.

(** ** Lists of lists *)

(** Replacing one of the lists of a join. *)
Lemma join_insert {A} (ls : list (list A)) i l l' :
  ls !! i = Some l -> mjoin (<[i := l']> ls) ++ l ≡ₚ l' ++ mjoin ls.
Proof.
  revert i. induction ls as [|x ls IH]; intros [|i] E; cbn in *; [done..| |].
  - injection E as ->. rewrite <- app_assoc. f_equiv. apply Permutation_app_comm.
  - rewrite <- app_assoc, (IH i E). apply Permutation_app_swap_app.
Qed.

Lemma join_push {A} (ls : list (list A)) i l x :
  ls !! i = Some l -> mjoin (<[i := l ++ [x]]> ls) ≡ₚ x :: mjoin ls.
Proof.
  intros E. pose proof (join_insert ls i l (l ++ [x]) E) as Hp.
  apply (Permutation_app_inv_r l). rewrite Hp, <- app_assoc. rewrite Permutation_app_comm. cbn. done.
Qed.

Lemma join_split {A} (ls : list (list A)) i l l1 l2 :
  ls !! i = Some l -> l = l1 ++ l2 -> l1 ++ mjoin (<[i := l2]> ls) ≡ₚ mjoin ls.
Proof.
  intros E ->. pose proof (join_insert ls i _ l2 E) as Hp.
  apply (Permutation_app_inv_l l2). rewrite <- Hp, (Permutation_app_comm (mjoin _)), <- app_assoc.
  apply Permutation_app_swap_app.
Qed.

Lemma subseteq_more {A} (l k : list A) : l ⊆ l ++ k.
Proof. intros x Hx. apply elem_of_app. by left. Qed.

(** ** Payload positions *)

(** [payload_start] is where the payload of a parsed frame lies. *)
Lemma payload_start_spec f p :
  parse_udp_packet_ref f = Done (Some p) ->
  exists o, payload_start f = Done o /\ slice f o (o + length (r_payload p)) = Done (r_payload p) /\
    (o + length (r_payload p) <= length f)%nat /\ exists m mac, slice f 6 12 = Done m /\ to_mac m = Some mac.
Proof.
  unfold parse_udp_packet_ref, payload_start. destruct (detect_vlan_total f None) as ([l|] & -> & Hl); [|done].
  cbn [obind]. cbv zeta. destruct (Nat.ltb_spec (length f) (l3_offset l + IPV4_HEADER_LEN + UDP_HEADER_LEN)); [done|].
  destruct (negb _); [done|]. destruct (slice f 6 12) as [m| |] eqn:Em; cbn [obind]; [|done..].
  destruct (to_mac m) as [mac|] eqn:Emac; [|done].
  rewrite slice_from_done, obind_Done by (unfold IPV4_HEADER_LEN in *; lia). cbv beta.
  assert (idx (drop (l3_offset l) f) 0 = idx f (l3_offset l)) as -> by (rewrite idx_drop; f_equal; lia).
  destruct (idx f (l3_offset l)) as [b0| |]; cbn [obind]; [|done..].
  repeat (match goal with |- context [if ?c then _ else _] => destruct c eqn:? end; [done|]).
  intros E.
  repeat (first [match type of E with (obind ?m _) = _ => destruct m eqn:?; cbn [obind] in E; try done end
                |match type of E with (if ?c then _ else _) = _ => destruct c eqn:?; [done|] end]).
  injection E as <-. cbn [r_payload].
  match goal with Hs : slice f ?o ?e = Done ?d |- _ =>
    exists o; pose proof Hs as Hs'; unfold slice in Hs'; destruct ((o <=? e)%nat && (e <=? length f)%nat) eqn:Hc; [|done] end.
  apply andb_prop in Hc as [H1 H2]. apply Nat.leb_le in H1, H2. injection Hs' as <-.
  rewrite length_take, length_drop, Nat.min_l by lia. split_and!; [done| |lia|by exists m, mac].
  match goal with Hs : slice f ?o ?e = Done ?d |- slice f _ ?e' = _ => replace e' with e by lia; exact Hs end.
Qed.

(** ** Pool contents *)

Lemma frame_slice_other p p' ref :
  frame p' (pool_idx ref) = frame p (pool_idx ref) -> frame_slice p' ref = frame_slice p ref.
Proof. unfold frame_slice. by intros ->. Qed.

Lemma frame_same p p' j : buffer p' = buffer p -> frame_size p' = frame_size p -> frame p' j = frame p j.
Proof. unfold frame. by intros -> ->. Qed.

Lemma frame_slice_data p ref :
  wf_pool p -> 0 <= pool_idx ref < pool_capacity p -> 0 <= fr_len ref <= frame_size p ->
  frame_slice p ref = get_frame_data p ref.
Proof.
  intros Hp Hi Hl. destruct (frame_region p Hp _ _ Hi Hi) as [Hr _]. unfold frame_slice, frame, get_frame_data.
  rewrite (slice_in_range (buffer p)), obind_Done by lia. cbv beta.
  rewrite !slice_in_range by (rewrite ?length_take, ?length_drop; lia). f_equal.
  rewrite drop_0, Nat.sub_0_r, take_take. f_equal. lia.
Qed.

(** ** Invariant *)

Section Pipe.

Context {Q : Type -> Type} `{HQ : BoundedQueue Q} `{!BoundedQueueLaws Q}.

#[local] Abbreviation pline := (Pipeline Q).

(** Everything in a list of rings. *)
Definition ring_items {T} (rings : list (Q T)) : list T := mjoin (M:=list) (fmap (M:=list) q_items rings).

Definition worker_refs (pl : pline) : list FrameRef := ring_items (pl_workers pl).
Definition app_packets (pl : pline) : list AppPacket := ring_items (pl_app_rings pl).
Definition ring_refs (pl : pline) : list FrameRef := worker_refs pl ++ (ap_frame_ref <$> app_packets pl).

(** A reference to a frame the NIC delivered. *)
Definition ref_ok (rcv : list (list Z)) (p : FramePool) (ref : FrameRef) : Prop :=
  exists f, f ∈ rcv /\ frame_slice p ref = Done f.

(** [f] is a valid UDP frame for [port] with this payload and source. *)
Definition carries_datagram (port : Z) (f payload : list Z) (src : SocketAddr) : Prop :=
  exists u, parse_udp_packet_ref f = Done (Some u) /\ verify_ipv4_checksum f = Done true /\
    verify_udp_checksum f = Done true /\ r_dst_port u = port /\ payload = r_payload u /\
    src = V4 (r_src_ip u) (r_src_port u).

(** The packet [a] says where in the frame [f] the payload is. *)
Definition describes (p : FramePool) (a : AppPacket) (f payload : list Z) : Prop :=
  frame_slice p (ap_frame_ref a) = Done f /\ payload_len a = zlen payload /\ 0 <= payload_offset a /\
  slice f (Z.to_nat (payload_offset a)) (Z.to_nat (payload_offset a) + length payload) = Done payload.

(** A packet for the application describes the datagram of its frame. *)
Definition app_ok (rcv : list (list Z)) (port : Z) (p : FramePool) (a : AppPacket) : Prop :=
  exists f payload, f ∈ rcv /\ carries_datagram port f payload (ap_src_addr a) /\ describes p a f payload.

(** A ring in use after at most [b] steps. *)
Definition ring_ok {T} (b : Z) (q : Q T) : Prop := q_ok q /\ q_total q <= b.

(** [L] are the indices in the free list, [R] the references in the hands of threads; every
    index of the pool is in one place. *)
Record pl_ok (b : Z) (rcv : list (list Z)) (pl : pline) (L : list Z) (R : list FrameRef) : Prop := {
  po_free : free_is (pl_pool pl) L;
  po_perm : L ++ (pool_idx <$> R ++ ring_refs pl) ≡ₚ seqZ 0 (pool_capacity (pl_pool pl));
  po_wf : wf_pool (pl_pool pl);
  po_size : frame_size (pl_pool pl) <= 65535 /\ pool_capacity (pl_pool pl) <= 2 ^ 31 /\
            pool_capacity (pl_pool pl) <= free_capacity (pl_pool pl);
  po_head : free_head (pl_pool pl) <= pool_capacity (pl_pool pl) + b;
  po_workers : Forall (ring_ok b) (pl_workers pl) /\ pl_workers pl <> [];
  po_tx : ring_ok b (pl_tx pl);
  po_apps : Forall (ring_ok b) (pl_app_rings pl) /\ length (pl_app_rings pl) = length (pl_workers pl);
  po_refs : Forall (ref_ok rcv (pl_pool pl)) (R ++ ring_refs pl);
  po_packets : Forall (app_ok rcv (pl_port pl) (pl_pool pl)) (app_packets pl);
  po_bytes : Forall (Forall is_u8) rcv;
  po_bound : 0 <= b < 2 ^ 61 }.

(** The order of the references in hand does not matter. *)
#[global] Instance pl_ok_proper b rcv pl L : Proper ((≡ₚ) ==> iff) (pl_ok b rcv pl L).
Proof.
  assert (forall R R', R ≡ₚ R' -> pl_ok b rcv pl L R -> pl_ok b rcv pl L R') as Himp.
  { intros R R' HR []. constructor; try done; by rewrite <- HR. }
  intros R R' HR. split; apply Himp; done.
Qed.

Lemma pl_ok_later b b' rcv pl L R : b <= b' < 2 ^ 61 -> pl_ok b rcv pl L R -> pl_ok b' rcv pl L R.
Proof.
  intros Hb [? ? ? ? ? [Hw ?] Htx [Ha ?] ? ? ? ?].
  assert (forall T (l : list (Q T)), Forall (ring_ok b) l -> Forall (ring_ok b') l) as Hl.
  { intros T l Hf. eapply Forall_impl; [exact Hf|]. intros q [? ?]. split; [done|lia]. }
  constructor; try done; try lia; [split; auto|destruct Htx; split; [done|lia]|split; auto].
Qed.

(** Where the indices are. *)
Lemma pl_indices b rcv pl L R :
  pl_ok b rcv pl L R ->
  NoDup (L ++ (pool_idx <$> R ++ ring_refs pl)) /\
  Forall (fun i => 0 <= i < pool_capacity (pl_pool pl)) (L ++ (pool_idx <$> R ++ ring_refs pl)).
Proof.
  intros H. rewrite (po_perm _ _ _ _ _ H). split; [apply NoDup_seqZ|].
  apply Forall_forall. intros i Hi%elem_of_seqZ. lia.
Qed.

(** What no step changes. *)
Definition pl_fixed (pl : pline) : Z * Z * Z * nat :=
  (pl_port pl, frame_size (pl_pool pl), pool_capacity (pl_pool pl), length (pl_workers pl)).

Lemma describes_same p p' a f payload :
  frame p' (pool_idx (ap_frame_ref a)) = frame p (pool_idx (ap_frame_ref a)) ->
  describes p a f payload -> describes p' a f payload.
Proof. intros E (H & Hr). split; [|done]. by rewrite (frame_slice_other p). Qed.

Lemma app_ok_frames rcv rcv' port p p' a :
  rcv ⊆ rcv' -> frame p' (pool_idx (ap_frame_ref a)) = frame p (pool_idx (ap_frame_ref a)) ->
  app_ok rcv port p a -> app_ok rcv' port p' a.
Proof.
  intros Hs E (f & d & Hf & Hc & Hd). exists f, d. split_and!; [by apply Hs|done|by apply (describes_same p)].
Qed.

Lemma ref_ok_frames rcv rcv' p p' r :
  rcv ⊆ rcv' -> frame p' (pool_idx r) = frame p (pool_idx r) -> ref_ok rcv p r -> ref_ok rcv' p' r.
Proof.
  intros Hs E (f & Hf & Hsl). exists f. split; [by apply Hs|]. by rewrite (frame_slice_other p).
Qed.

(** *** Giving a frame back *)

Lemma release_ok b rcv pl L ref R :
  pl_ok b rcv pl L (ref :: R) -> b + 1 < 2 ^ 61 ->
  exists pl', free_frame pl ref = Done pl' /\ pl_ok (b + 1) rcv pl' (L ++ [pool_idx ref]) R /\
    pl_fixed pl' = pl_fixed pl.
Proof.
  intros H Hb. destruct (pl_indices _ _ _ _ _ H) as [Hn Hr]. pose proof H as [Hf Hp Hwf Hs Hh Hw Htx Ha Href Hpk Hby Hbd].
  assert (0 <= pool_idx ref < pool_capacity (pl_pool pl)) as Hi.
  { apply Forall_app in Hr as [_ Hr]. by apply Forall_cons in Hr as [Hr _]. }
  assert (zlen L < free_capacity (pl_pool pl)) as Hl.
  { pose proof (Permutation_length Hp) as E. rewrite length_app, length_seqZ in E. cbn in E. unfold zlen. lia. }
  unfold free_frame. destruct (free_last (pl_pool pl) (pool_idx ref) L Hf Hi Hl ltac:(lia))
    as (p' & -> & Hf' & Eh & Eb & Es & Ec & Ef). cbn [obind]. eexists. split; [reflexivity|].
  assert (forall j, frame p' j = frame (pl_pool pl) j) as Hfr by (intros j; by apply frame_same).
  split; [|unfold pl_fixed; rsimpl; by rewrite Es, Ec]. apply Forall_cons in Href as [_ Href].
  constructor; rsimpl; rewrite ?Es, ?Ec, ?Ef, ?Eh; try done; try lia.
  - change (ring_refs (pl <| pl_pool := p' |>)) with (ring_refs pl). rewrite <- Hp. cbn.
    rewrite <- app_assoc. done.
  - destruct Hwf as [? ? ?]. constructor; rewrite ?Eb, ?Es, ?Ec; done.
  - by apply (pl_ok_later b (b + 1) rcv pl L (ref :: R)); [lia|].
  - by apply (pl_ok_later b (b + 1) rcv pl L (ref :: R)); [lia|].
  - by apply (pl_ok_later b (b + 1) rcv pl L (ref :: R)); [lia|].
  - change (ring_refs (pl <| pl_pool := p' |>)) with (ring_refs pl). eapply Forall_impl; [exact Href|].
    intros r'. by apply ref_ok_frames.
  - change (app_packets (pl <| pl_pool := p' |>)) with (app_packets pl). eapply Forall_impl; [exact Hpk|].
    intros a. by apply app_ok_frames.
Qed.

(** The other fields do not matter. *)
Lemma pl_ok_ext b rcv pl pl' L R :
  pl_pool pl' = pl_pool pl -> pl_workers pl' = pl_workers pl -> pl_app_rings pl' = pl_app_rings pl ->
  pl_tx pl' = pl_tx pl -> pl_port pl' = pl_port pl -> pl_ok b rcv pl L R -> pl_ok b rcv pl' L R.
Proof.
  intros E1 E2 E3 E4 E5 []. constructor; unfold ring_refs, worker_refs, app_packets in *; rewrite ?E1, ?E2, ?E3, ?E4, ?E5; done.
Qed.

(** *** Rings of a pipeline *)

Lemma ring_push {T} b (rings : list (Q T)) i q x :
  Forall (ring_ok b) rings -> rings !! i = Some q -> b + 1 < 2 ^ 61 ->
  exists q' ok, q_enqueue q x = Done (q', ok) /\ Forall (ring_ok (b + 1)) (<[i := q']> rings) /\
    if ok then ring_items (<[i := q']> rings) ≡ₚ x :: ring_items rings else <[i := q']> rings = rings.
Proof.
  intros Hf Hi Hb. destruct (Forall_lookup_1 _ _ _ _ Hf Hi) as [Hq Ht].
  destruct (q_enqueue_law _ q x Hq ltac:(lia)) as (q' & ok & E & Hq' & _ & Ht' & Hc). exists q', ok.
  split; [done|]. split.
  - apply Forall_insert; [|split; [done|lia]]. eapply Forall_impl; [exact Hf|]. intros y [? ?]. split; [done|lia].
  - destruct Hc as [(-> & _ & Eq) | (-> & _ & ->)]; [|by apply list_insert_id].
    unfold ring_items. rewrite list_fmap_insert, Eq. apply join_push. by rewrite list_lookup_fmap, Hi.
Qed.

Lemma ring_take {T} b (rings : list (Q T)) i q n :
  Forall (ring_ok b) rings -> rings !! i = Some q -> b < 2 ^ 61 ->
  exists q' l, q_batch q n = Done (q', l) /\ Forall (ring_ok b) (<[i := q']> rings) /\
    l ++ ring_items (<[i := q']> rings) ≡ₚ ring_items rings.
Proof.
  intros Hf Hi Hb. destruct (Forall_lookup_1 _ _ _ _ Hf Hi) as [Hq Ht].
  destruct (q_batch_law _ q n Hq ltac:(lia)) as (q' & E & Hq' & _ & Ht' & Eq). eexists q', _.
  split; [done|]. split; [apply Forall_insert; [done|split; [done|lia]]|].
  unfold ring_items. rewrite list_fmap_insert, Eq. eapply join_split; [by rewrite list_lookup_fmap, Hi|].
  by rewrite take_drop.
Qed.

Lemma ring_pop {T} b (rings : list (Q T)) i q :
  Forall (ring_ok b) rings -> rings !! i = Some q -> b < 2 ^ 61 ->
  exists q', q_dequeue q = Done (q', head (q_items q)) /\ Forall (ring_ok b) (<[i := q']> rings) /\
    option_list (head (q_items q)) ++ ring_items (<[i := q']> rings) ≡ₚ ring_items rings.
Proof.
  intros Hf Hi Hb. destruct (Forall_lookup_1 _ _ _ _ Hf Hi) as [Hq Ht].
  destruct (q_dequeue_law _ q Hq ltac:(lia)) as (q' & E & Hq' & _ & Ht' & Eq). exists q'.
  split; [done|]. split; [apply Forall_insert; [done|split; [done|lia]]|].
  unfold ring_items. rewrite list_fmap_insert, Eq. eapply join_split; [by rewrite list_lookup_fmap, Hi|].
  by destruct (q_items q).
Qed.

Lemma try_workers_law {T} b (x : T) target : forall offsets (rings : list (Q T)),
  Forall (ring_ok b) rings -> rings <> [] -> 0 <= b -> b + 1 < 2 ^ 61 ->
  exists rings' ok, try_workers offsets target rings x = Done (rings', ok) /\
    Forall (ring_ok (b + 1)) rings' /\ length rings' = length rings /\
    if ok then ring_items rings' ≡ₚ x :: ring_items rings else rings' = rings.
Proof.
  induction offsets as [|o offsets IH]; intros rings Hf Hn Hb0 Hb; cbn.
  - eexists rings, false. split_and!; [done| |done..]. eapply Forall_impl; [exact Hf|]. intros y [? ?]. split; [done|lia].
  - assert ((target + o) mod length rings < length rings)%nat as Hlt
      by (apply Nat.mod_upper_bound; destruct rings; cbn; [done|lia]).
    destruct (lookup_lt_is_Some_2 _ _ Hlt) as [q Hq]. rewrite Hq.
    destruct (ring_push b rings _ q x Hf Hq Hb) as (q' & ok & -> & Hf' & Hc). cbn [obind].
    destruct ok; [|rewrite Hc; by apply IH]. eexists _, true. split_and!; [done|done|apply length_insert|done].
Qed.

(** References move between hands and rings. *)
Lemma pl_ok_move b b' rcv pl pl' L R R' :
  pl_ok b rcv pl L R -> b <= b' < 2 ^ 61 ->
  pl_pool pl' = pl_pool pl -> pl_port pl' = pl_port pl ->
  Forall (ring_ok b') (pl_workers pl') -> length (pl_workers pl') = length (pl_workers pl) ->
  Forall (ring_ok b') (pl_app_rings pl') -> length (pl_app_rings pl') = length (pl_app_rings pl) ->
  ring_ok b' (pl_tx pl') ->
  R' ++ ring_refs pl' ≡ₚ R ++ ring_refs pl ->
  Forall (app_ok rcv (pl_port pl) (pl_pool pl)) (app_packets pl') ->
  pl_ok b' rcv pl' L R'.
Proof.
  intros [Hf Hp Hwf Hs Hh [Hw Hne] Htx [Ha Hla] Href Hpk Hby Hbd] Hb E1 E2 Hw' Hlw Ha' Hla' Htx' HR Hpk'.
  constructor; rewrite ?E1, ?E2; try done; try lia.
  - by rewrite HR.
  - split; [done|]. intros E. rewrite E in Hlw. by destruct (pl_workers pl).
  - split; [done|lia].
  - by rewrite HR.
Qed.

Lemma hand_to_worker_ok b rcv pl L ref R :
  pl_ok b rcv pl L (ref :: R) -> b + 1 < 2 ^ 61 ->
  exists pl' L', hand_to_worker pl ref = Done pl' /\ pl_ok (b + 1) rcv pl' L' R /\ pl_fixed pl' = pl_fixed pl.
Proof.
  intros H Hb. pose proof H as [Hf Hp Hwf Hs Hh [Hw Hne] Htx [Ha Hla] Href Hpk Hby Hbd].
  unfold hand_to_worker. destruct (Nat.eqb_spec (length (pl_workers pl)) 0) as [E|_].
  { by apply nil_length_inv in E. }
  cbv zeta. rsimpl.
  destruct (try_workers_law b ref (Z.to_nat (pl_rr pl mod Z.of_nat (length (pl_workers pl))))
    (seq 0 (length (pl_workers pl))) (pl_workers pl) Hw Hne ltac:(lia) Hb) as (rings & ok & -> & Hw' & Hl & Hc).
  cbn [obind]. destruct (pl_ok_later b (b + 1) rcv pl L _ ltac:(lia) H) as [_ _ _ _ _ _ Htx' [Ha' _] _ _ _ _].
  destruct ok.
  - eexists _, L. split; [reflexivity|]. split; [|unfold pl_fixed; rsimpl; by rewrite Hl].
    apply (pl_ok_move b (b + 1) rcv pl _ L (ref :: R) R H); rsimpl; try done; try lia.
    unfold ring_refs, worker_refs, app_packets. rsimpl. rewrite Hc. cbn. by rewrite <- Permutation_middle.
  - subst rings.
    edestruct (release_ok b rcv) as (pl' & -> & Hok & E); [|done|exists pl'; eexists; split_and!; [done|exact Hok|exact E]].
    by apply (pl_ok_ext b rcv pl).
Qed.

(** What a thread sees of a frame it has a reference to. *)
Lemma held_frame b rcv pl L ref R :
  pl_ok b rcv pl L (ref :: R) ->
  exists d f, frame (pl_pool pl) (pool_idx ref) = Done d /\ slice d 0 (Z.to_nat (fr_len ref)) = Done f /\
    frame_slice (pl_pool pl) ref = Done f /\ f ∈ rcv /\ Forall is_u8 f /\ length f = Z.to_nat (fr_len ref) /\ zlen f <= 65535.
Proof.
  intros H. pose proof (po_refs _ _ _ _ _ H) as Hr. apply Forall_cons in Hr as [(f & Hf & E) _].
  pose proof E as E'. unfold frame_slice in E. destruct (frame (pl_pool pl) (pool_idx ref)) as [d| |] eqn:Ed; cbn [obind] in E; [|done..].
  exists d, f. assert (length f = Z.to_nat (fr_len ref) /\ (length f <= length d)%nat) as [El Hl].
  { unfold slice in E. destruct (Nat.leb_spec (Z.to_nat (fr_len ref)) (length d)); [|done]. cbn in E. injection E as <-.
    rewrite length_take, length_drop. lia. }
  assert (zlen d <= 65535) as Hd.
  { unfold frame, slice in Ed. destruct (_ && _); [|done]. injection Ed as <-. unfold zlen. rewrite length_take.
    pose proof (po_size _ _ _ _ _ H). lia. }
  split_and!; try done; [|unfold zlen in *; lia]. pose proof (po_bytes _ _ _ _ _ H) as Hby. rewrite Forall_forall in Hby. by apply Hby.
Qed.

Lemma echo_total h frame : exists r, process_icmp h frame = Done r.
Proof.
  unfold process_icmp, echo_answer. destruct (parse_icmp_total frame) as [[p|] ->]; cbn [obind]; [|by eexists].
  destruct (_ && _); [|by eexists]. destruct (make_echo_reply _ _); [|by eexists].
  rewrite build_icmp_frame_bytes. by eexists.
Qed.

Lemma dispatch_frame_ok b rcv pl L now ref R :
  pl_ok b rcv pl L (ref :: R) -> b + 1 < 2 ^ 61 ->
  exists pl' L', dispatch_frame pl now ref = Done pl' /\ pl_ok (b + 1) rcv pl' L' R /\ pl_fixed pl' = pl_fixed pl.
Proof.
  intros H Hb. destruct (held_frame _ _ _ _ _ _ H) as (d & f & Ed & Ef & _ & _ & _ & Hlen & _).
  assert (forall pl1, pl_pool pl1 = pl_pool pl -> pl_workers pl1 = pl_workers pl ->
    pl_app_rings pl1 = pl_app_rings pl -> pl_tx pl1 = pl_tx pl -> pl_port pl1 = pl_port pl ->
    exists pl' L', free_frame pl1 ref = Done pl' /\ pl_ok (b + 1) rcv pl' L' R /\ pl_fixed pl' = pl_fixed pl) as Hrel.
  { intros pl1 E1 E2 E3 E4 E5. destruct (release_ok b rcv pl1 L ref R) as (pl' & -> & Hok & Efx);
      [by apply (pl_ok_ext b rcv pl)|done|]. exists pl', (L ++ [pool_idx ref]). split_and!; [done..|].
    rewrite Efx. unfold pl_fixed. by rewrite E1, E2, E5. }
  unfold dispatch_frame. rewrite Ed. cbn [obind]. destruct (Z.ltb_spec (fr_len ref) 14); [by apply Hrel|].
  rewrite Ef. cbn [obind]. destruct (read16_total f 12 ltac:(lia)) as [et ->]. cbn [obind]. destruct (et =? ETH_TYPE_ARP).
  - destruct (arp_answer_total (pl_arp pl) now f) as (h & r & -> & _). cbn [obind]. destruct r; by apply Hrel.
  - destruct (_ && _) eqn:Ei.
    + apply andb_prop in Ei as [_ Ei]. apply Nat.ltb_lt in Ei.
      destruct (lookup_lt_is_Some_2 _ _ Ei) as [proto Hproto]. unfold idx. rewrite Hproto. cbn [obind].
      destruct (proto =? IP_PROTO_ICMP); [|by apply (hand_to_worker_ok b rcv pl L)].
      destruct (echo_total (pl_icmp pl) f) as [r ->]. cbn [obind]. destruct r; by apply Hrel.
    + cbn [obind]. by apply (hand_to_worker_ok b rcv pl L).
Qed.

(** What a worker enqueues for a datagram describes it. *)
Lemma app_packet_describes p ref f u o src_mac :
  frame_slice p ref = Done f -> zlen f <= 65535 ->
  slice f o (o + length (r_payload u)) = Done (r_payload u) -> (o + length (r_payload u) <= length f)%nat ->
  describes p (MkApp ref (u16 (Z.of_nat o)) (u16 (zlen (r_payload u)))
    (V4 (r_src_ip u) (r_src_port u)) src_mac (r_src_ip u)) f (r_payload u).
Proof.
  intros Hs Hl Hsl Ho. unfold describes. cbn. unfold zlen in *.
  rewrite !u16_small by (unfold is_u16; lia). rewrite Nat2Z.id. split_and!; try done; lia.
Qed.

Lemma worker_frame_ok b rcv pl L now w ref R :
  pl_ok b rcv pl L (ref :: R) -> (w < length (pl_workers pl))%nat -> b + 1 < 2 ^ 61 ->
  exists pl' L', worker_frame pl now w ref = Done pl' /\ pl_ok (b + 1) rcv pl' L' R /\ pl_fixed pl' = pl_fixed pl.
Proof.
  intros H Hw Hb. destruct (held_frame _ _ _ _ _ _ H) as (d & f & _ & _ & Ef & Hin & Hby & Hlen & Hmax).
  assert (forall c, exists pl' L', free_frame (pl <| pl_arp := c |>) ref = Done pl' /\
    pl_ok (b + 1) rcv pl' L' R /\ pl_fixed pl' = pl_fixed pl) as Hrel'.
  { intros c. destruct (release_ok b rcv (pl <| pl_arp := c |>) L ref R) as (pl' & -> & Hok & Efx);
      [by apply (pl_ok_ext b rcv pl)|done|]. by exists pl', (L ++ [pool_idx ref]). }
  assert (exists pl' L', free_frame pl ref = Done pl' /\ pl_ok (b + 1) rcv pl' L' R /\ pl_fixed pl' = pl_fixed pl) as Hrel.
  { destruct (release_ok b rcv pl L ref R H Hb) as (pl' & -> & Hok & Efx). by exists pl', (L ++ [pool_idx ref]). }
  unfold worker_frame. rewrite Ef. cbn [obind].
  destruct (udp_parsers_total_and_agree f) as (r & _ & Ep). destruct r as [u|]; cbn [option_map] in Ep; rewrite Ep; cbn [obind]; [|done].
  set (v := ref_of u) in *. destruct (payload_start_spec f v Ep) as (o & Eo & Hsl & Hol & m & mac & Em & Emac).
  destruct (verify_ipv4_total f) as [b4 E4]. rewrite E4. cbn [obind].
  destruct b4; [|done]. destruct (verify_udp_total f Hby Hmax) as [bu Eu]. rewrite Eu. cbn [obind].
  destruct bu; cbn [negb]; [|done]. rewrite Em. cbn [obind]. rewrite Emac. cbv zeta. rsimpl.
  destruct (Z.eqb_spec (r_dst_port v) (pl_port pl)) as [Eport|_]; cbn [negb]; [|done].
  rewrite Eo. cbn [obind]. pose proof (po_apps _ _ _ _ _ H) as [Ha Hla].
  destruct (lookup_lt_is_Some_2 (pl_app_rings pl) w ltac:(lia)) as [q Hq]. rewrite Hq.
  match goal with |- context [q_enqueue q ?a] => set (pkt := a);
    destruct (ring_push b (pl_app_rings pl) w q pkt Ha Hq Hb) as (q' & ok & -> & Ha' & Hc) end.
  cbn [obind]. destruct ok; [|rewrite Hc; apply Hrel'].
  eexists _, L. split; [reflexivity|]. split; [|done].
  destruct (pl_ok_later b (b + 1) rcv pl L _ ltac:(lia) H) as [_ _ _ _ _ [Hw' _] Htx' _ _ Hpk _ _].
  apply (pl_ok_move b (b + 1) rcv pl _ L (ref :: R) R H); rsimpl; try done; try lia.
  - apply length_insert.
  - unfold ring_refs, worker_refs, app_packets. rsimpl. rewrite Hc. cbn. by rewrite <- !Permutation_middle.
  - unfold app_packets. rsimpl. rewrite Hc. apply Forall_cons. split; [|done].
    exists f, (r_payload v). split_and!; [done|by exists v|by apply app_packet_describes].
Qed.

(** *** Taking frames in *)

(** A pool in which the frames in use are what they were, with [new] references more. *)
Lemma pl_ok_pool b rcv rcv' pl p' L L' R new :
  pl_ok b rcv pl L R -> rcv ⊆ rcv' -> Forall (Forall is_u8) rcv' ->
  free_is p' L' -> free_head p' = free_head (pl_pool pl) -> wf_pool p' ->
  frame_size p' = frame_size (pl_pool pl) -> pool_capacity p' = pool_capacity (pl_pool pl) ->
  free_capacity p' = free_capacity (pl_pool pl) ->
  (pool_idx <$> new) ++ L' ≡ₚ L -> Forall (ref_ok rcv' p') new ->
  (forall r, r ∈ R ++ ring_refs pl -> frame p' (pool_idx r) = frame (pl_pool pl) (pool_idx r)) ->
  pl_ok b rcv' (pl <| pl_pool := p' |>) L' (new ++ R).
Proof.
  intros [Hf Hp Hwf Hs Hh Hw Htx Ha Href Hpk _ Hbd] Hsub Hby Hf' Eh Hwf' Es Ec Efc HL Hnew Hfr.
  assert (ring_refs (pl <| pl_pool := p' |>) = ring_refs pl /\ app_packets (pl <| pl_pool := p' |>) = app_packets pl) as [E1 E2] by done.
  constructor; rsimpl; rewrite ?E1, ?E2, ?Es, ?Ec, ?Efc, ?Eh; try done.
  - rewrite <- Hp, <- HL, <- app_assoc, fmap_app. rewrite <- (app_assoc (pool_idx <$> new)). apply Permutation_app_swap_app.
  - rewrite <- app_assoc. apply Forall_app. split; [done|]. apply Forall_forall. intros r Hr. rewrite Forall_forall in Href.
    apply (ref_ok_frames rcv rcv' (pl_pool pl)); auto.
  - apply Forall_forall. intros a Hin. rewrite Forall_forall in Hpk. apply (app_ok_frames rcv rcv' _ (pl_pool pl)); auto.
    apply Hfr, elem_of_app. right. apply elem_of_app. right. by apply list_elem_of_fmap_2.
Qed.

Lemma alloc_copy_ok b rcv pl L R data :
  pl_ok b rcv pl L R -> Forall is_u8 data ->
  exists p' o L', alloc_copy (pl_pool pl) data = Done (p', o) /\ frame_size p' = frame_size (pl_pool pl) /\
    pl_ok b (rcv ++ [take (Z.to_nat (frame_size (pl_pool pl))) data]) (pl <| pl_pool := p' |>) L' (option_list o ++ R) /\
    pl_fixed (pl <| pl_pool := p' |>) = pl_fixed pl /\
    (forall ref, o = Some ref -> frame_slice p' ref = Done (take (Z.to_nat (frame_size (pl_pool pl))) data)) /\
    (o = None -> L = []).
Proof.
  intros H Hd. destruct (pl_indices _ _ _ _ _ H) as [Hn Hr]. pose proof H as [Hf Hp Hwf Hs Hh Hw Htx Ha Href Hpk Hby Hbd].
  assert (Forall (Forall is_u8) (rcv ++ [take (Z.to_nat (frame_size (pl_pool pl))) data])) as Hby'.
  { apply Forall_app. split; [done|]. constructor; [by apply Forall_take|done]. }
  unfold alloc_copy. destruct L as [|i L].
  - rewrite alloc_empty by done. cbn [obind]. eexists _, None, []. split; [reflexivity|]. split; [done|]. split; [|done].
    by apply (pl_ok_pool b rcv _ pl (pl_pool pl) [] [] R []); try done; apply subseteq_more.
  - apply Forall_cons in Hr as [Hi Hr]. apply NoDup_cons in Hn as [Hni Hn].
    destruct (alloc_first (pl_pool pl) i L Hf) as (p1 & -> & Hf1 & Eh1 & Eb1 & Es1 & Ec1 & Ef1); [unfold U32_MAX; lia|lia|].
    cbn [obind]. assert (wf_pool p1) as Hwf1 by (destruct Hwf; constructor; by rewrite ?Eb1, ?Es1, ?Ec1).
    destruct (copy_frame_private p1 Hwf1 i data) as (p2 & ref & -> & Eref & Hlen & Ep2 & Hdata & Hother & Hwf2); [lia|lia|].
    cbn [obind]. rewrite Es1 in *. rewrite Ec1 in *.
    assert (frame_size p2 = frame_size (pl_pool pl) /\ pool_capacity p2 = pool_capacity (pl_pool pl) /\
            free_capacity p2 = free_capacity (pl_pool pl) /\ free_head p2 = free_head (pl_pool pl)) as (Es2 & Ec2 & Ef2 & Eh2)
      by (rewrite Ep2; rsimpl; done).
    eexists p2, (Some ref), L. split; [reflexivity|]. split; [done|].
    assert (frame_slice p2 ref = Done (take (Z.to_nat (frame_size (pl_pool pl))) data)) as Hslice
      by (rewrite frame_slice_data by (rewrite ?Eref, ?Ec2, ?Es2; done || lia); done).
    split; [|split_and!; [unfold pl_fixed; rsimpl; by rewrite Es2, Ec2|by intros ? [= <-]|done]]. apply (pl_ok_pool b rcv _ pl p2 (i :: L) L R [ref]); try done.
    + by apply subseteq_more.
    + rewrite Ep2. destruct Hf1 as []; constructor; done.
    + cbn. by rewrite Eref.
    + constructor; [|done]. exists (take (Z.to_nat (frame_size (pl_pool pl))) data). split; [apply elem_of_app; right; by apply list_elem_of_singleton|].
      done.
    + intros r Hrin. assert (pool_idx r ∈ pool_idx <$> R ++ ring_refs pl) as Hin by (by apply list_elem_of_fmap_2).
      rewrite Hother, (frame_same (pl_pool pl)); [done..| |].
      * rewrite Forall_forall in Hr. apply Hr, elem_of_app. by right.
      * intros E. apply Hni. rewrite <- E. apply elem_of_app. by right.
Qed.

Lemma recv_into_pool_ok b : forall frames rcv pl L R,
  pl_ok b rcv pl L R -> Forall (Forall is_u8) frames ->
  exists p' refs L', recv_into_pool (pl_pool pl) frames = Done (p', refs) /\ frame_size p' = frame_size (pl_pool pl) /\
    pl_ok b (rcv ++ (take (Z.to_nat (frame_size (pl_pool pl))) <$> frames)) (pl <| pl_pool := p' |>) L' (refs ++ R) /\
    pl_fixed (pl <| pl_pool := p' |>) = pl_fixed pl.
Proof.
  induction frames as [|data frames IH]; intros rcv pl L R H Hb; cbn.
  - eexists _, [], L. split; [reflexivity|]. split; [done|]. rewrite app_nil_r. by destruct pl.
  - apply Forall_cons in Hb as [Hd Hb]. destruct (alloc_copy_ok b rcv pl L R data H Hd) as (p1 & o & L1 & -> & Es & H1 & E1 & _).
    cbn [obind]. destruct (IH _ _ _ _ H1 Hb) as (p2 & refs & L2 & E2 & Es2 & H2 & E3). rsimpl_in E2. rsimpl_in Es2. rsimpl_in H2.
    rewrite E2. cbn [obind]. eexists p2, _, L2. split; [reflexivity|]. split; [congruence|]. rewrite Es in H2.
    rewrite <- app_assoc in H2. cbn in H2. split; [|unfold pl_fixed in *; rsimpl; rsimpl_in E1; rsimpl_in E3; congruence].
    destruct o as [ref|]; cbn in H2 |- *; [|done]. by rewrite Permutation_middle.
Qed.

(** *** The application *)

Lemma poll_rings_law {T} b : forall offsets (rings : list (Q T)) rr,
  Forall (ring_ok b) rings -> (offsets = [] \/ rings <> []) -> b < 2 ^ 61 ->
  exists rings' rr' o, poll_rings offsets rings rr = Done (rings', rr', o) /\
    Forall (ring_ok b) rings' /\ length rings' = length rings /\ option_list o ++ ring_items rings' ≡ₚ ring_items rings.
Proof.
  induction offsets as [|off offsets IH]; intros rings rr Hf Hn Hb; cbn.
  - by eexists rings, rr, None.
  - destruct Hn as [|Hn]; [done|].
    assert (off mod length rings < length rings)%nat as Hlt by (apply Nat.mod_upper_bound; destruct rings; cbn; [done|lia]).
    destruct (lookup_lt_is_Some_2 _ _ Hlt) as [q Hq]. rewrite Hq.
    destruct (ring_pop b rings _ q Hf Hq Hb) as (q' & -> & Hf' & Hc). cbn [obind].
    destruct (head (q_items q)) as [x|].
    + eexists _, _, _. split; [reflexivity|]. split_and!; [done|apply length_insert|done].
    + cbn in Hc. destruct (IH (<[(off mod length rings)%nat := q']> rings) rr Hf') as (r2 & rr2 & o & E & Hf2 & Hl2 & Hc2); [|done|].
      { right. intros E. apply Hn, nil_length_inv. rewrite <- (length_insert rings (off mod length rings)%nat q'). by rewrite E. }
      exists r2, rr2, o. split_and!; [done|done|by rewrite Hl2, length_insert|by rewrite Hc2].
Qed.

Lemma dequeue_app_rings_law {T} b (rings : list (Q T)) rr :
  Forall (ring_ok b) rings -> b < 2 ^ 61 ->
  exists rings' rr' o, dequeue_app_rings rings rr = Done (rings', rr', o) /\
    Forall (ring_ok b) rings' /\ length rings' = length rings /\ option_list o ++ ring_items rings' ≡ₚ ring_items rings.
Proof.
  intros Hf Hb. unfold dequeue_app_rings. destruct (Nat.eqb_spec (length rings) 0); [by eexists rings, rr, None|].
  apply poll_rings_law; try done. right. by intros ->.
Qed.

(** A payload (prefix) and source that came in a valid frame for [port]. *)
Definition from_wire (rcv : list (list Z)) (port : Z) (a : list Z * SocketAddr) : Prop :=
  exists f payload, f ∈ rcv /\ carries_datagram port f payload (snd a) /\ fst a `prefix_of` payload.

Lemma from_wire_more rcv rcv' port a : rcv ⊆ rcv' -> from_wire rcv port a -> from_wire rcv' port a.
Proof. intros Hs (f & d & Hf & H). exists f, d. split; [by apply Hs|done]. Qed.

Definition queue_ok (rcv : list (list Z)) (port : Z) (s : UdpSocket) : Prop :=
  Forall (from_wire rcv port) (packets (s_queue s)).

Lemma prefix_take {A} n (l : list A) : take n l `prefix_of` l.
Proof. exists (drop n l). by rewrite take_drop. Qed.

(** A blit at the front of a buffer, read back. *)
Lemma blit_front (buf bytes : list Z) n :
  (n <= length buf)%nat -> length bytes = n ->
  exists buf', blit buf 0 n bytes = Done buf' /\ slice buf' 0 n = Done bytes /\ length buf' = length buf.
Proof.
  intros Hn Hl. unfold blit. rewrite (proj2 (Nat.leb_le _ _)), (proj2 (Nat.leb_le _ _)), (proj2 (Nat.eqb_eq _ _)) by lia.
  eexists. split; [reflexivity|]. rewrite take_0, app_nil_l, length_app, length_drop. split; [|lia].
  rewrite slice_in_range by (rewrite length_app; lia). by rewrite drop_0, Nat.sub_0_r, take_app_length'.
Qed.

Lemma rx_dequeue_ok rcv port s buf :
  queue_ok rcv port s ->
  exists s' buf' r, rx_dequeue_into s buf = Done (s', buf', r) /\ queue_ok rcv port s' /\
    match r with
    | Some (n, src) => exists d, slice buf' 0 (Z.to_nat n) = Done d /\ from_wire rcv port (d, src)
    | None => True
    end.
Proof.
  unfold queue_ok, rx_dequeue_into, pop_into. destruct (packets (s_queue s)) as [|[payload src] rest] eqn:E; intros Hq; cbn [obind].
  - eexists _, _, _. split; [reflexivity|]. split; [|done]. case_match; rsimpl; by rewrite E.
  - apply Forall_cons in Hq as [(f & d & Hf & Hd & Hpre) Hq]. rewrite slice_in_range, obind_Done by lia. cbv beta.
    rewrite drop_0, Nat.sub_0_r.
    edestruct (blit_front buf (take (length buf `min` length payload) payload)) as (buf' & -> & Hsl & _);
      [|rewrite length_take; lia|]; [lia|]. cbn [obind]. eexists _, _, _. split; [reflexivity|]. split.
    + by repeat match goal with |- context [if ?c then _ else _] => destruct c; rsimpl end.
    + exists (take (length buf `min` length payload) payload). split; [rewrite <- Hsl; f_equal; lia|].
      exists f, d. split_and!; [done..|]. cbn in *. by transitivity payload; [apply prefix_take|].
Qed.

Lemma rx_enqueue_ok rcv port s d src n : queue_ok rcv port s -> from_wire rcv port (d, src) -> queue_ok rcv port (rx_enqueue s d src n).
Proof.
  unfold queue_ok, rx_enqueue, push_slice. intros Hq Hd. cbv zeta. destruct (_ || _); rsimpl; [done|].
  apply Forall_app. by split; [|constructor].
Qed.

(** Reading a payload out of a held frame. *)
Lemma app_payload p a f payload n :
  describes p a f payload ->
  exists d, frame p (pool_idx (ap_frame_ref a)) = Done d /\ Z.to_nat (payload_len a) = length payload /\
    slice d (Z.to_nat (payload_offset a)) (Z.to_nat (payload_offset a) + Nat.min n (length payload)) = Done (take n payload).
Proof.
  intros (Hs & Hl & Ho & Hsl). unfold frame_slice in Hs.
  destruct (frame p _) as [d| |]; cbn [obind] in Hs; [|done..]. exists d.
  rewrite Hl. unfold zlen. rewrite Nat2Z.id. set (o := Z.to_nat (payload_offset a)) in *.
  unfold slice in Hs. destruct (Nat.leb_spec (Z.to_nat (fr_len (ap_frame_ref a))) (length d)) as [Hd|]; [|done]. cbn in Hs. injection Hs as <-.
  unfold slice in Hsl. rewrite length_take, Nat.sub_0_r in Hsl. destruct (_ && _) eqn:Eb; [|done]. injection Hsl as Hp. rewrite drop_0 in Hp.
  apply andb_prop in Eb as [_ Eb]. apply Nat.leb_le in Eb.
  split_and!; [done..|]. rewrite slice_in_range by lia. f_equal. rewrite Nat.add_comm, Nat.add_sub.
  transitivity (take n (take (o + length payload - o) (drop o (take (Z.to_nat (fr_len (ap_frame_ref a))) d)))); [|by rewrite Hp].
  rewrite skipn_firstn_comm, !take_take. f_equal. lia.
Qed.

(** What a receive call hands over. *)
Definition answer_ok (rcv : list (list Z)) (port : Z) (buf : list Z) (r : option (Z * SocketAddr)) : Prop :=
  forall n src, r = Some (n, src) -> exists d, slice buf 0 (Z.to_nat n) = Done d /\ from_wire rcv port (d, src).

Lemma take_packet_ok b rcv pl L R s rr buf :
  pl_ok b rcv pl L R -> queue_ok rcv (pl_port pl) s -> b + 1 < 2 ^ 61 -> s_has_buffered_packets s = false ->
  exists s' pl' rr' buf' r L', try_recv_from_pipeline s pl rr buf = Done (s', pl', rr', buf', r) /\
    pl_ok (b + 1) rcv pl' L' R /\ queue_ok rcv (pl_port pl) s' /\ pl_fixed pl' = pl_fixed pl /\ answer_ok rcv (pl_port pl) buf' r.
Proof.
  intros H Hq Hb Es. unfold try_recv_from_pipeline. rewrite Es. cbn [obind].
  pose proof (po_apps _ _ _ _ _ H) as [Ha Hla].
  destruct (dequeue_app_rings_law b (pl_app_rings pl) rr Ha ltac:(lia)) as (rings & rr' & o & -> & Ha' & Hl' & Hc).
  cbn [obind]. pose proof (po_packets _ _ _ _ _ H) as Hpk. unfold app_packets in Hpk. rewrite <- Hc in Hpk. apply Forall_app in Hpk as [Ho Hpk].
  assert (pl_ok b rcv (pl <| pl_app_rings := rings |>) L ((ap_frame_ref <$> option_list o) ++ R)) as H1.
  { apply (pl_ok_move b b rcv pl _ L R _ H); rsimpl; try done; try apply H.
    - pose proof (po_bound _ _ _ _ _ H). lia.
    - unfold ring_refs, worker_refs, app_packets. rsimpl. rewrite <- Hc, fmap_app. solve_Permutation. }
  destruct o as [a|]; cbn in H1; cbv zeta.
  2: { eexists _, _, _, _, _, L. split; [reflexivity|]. split_and!; [by apply (pl_ok_later b); [lia|]|done|done|]. intros ? ?. done. }
  apply Forall_cons in Ho as [Ho _]. rsimpl.
  destruct Ho as (f & payload & Hf & Hcar & Hdesc). destruct (app_payload (pl_pool pl) a f payload (length buf) Hdesc) as (d & Ed & El & Esl).
  assert (from_wire rcv (pl_port pl) (take (length buf) payload, ap_src_addr a)) as Hw
    by (exists f, payload; split_and!; [done..|apply prefix_take]).
  rewrite Ed, El. cbn [obind]. rewrite Esl. cbn [obind].
  destruct (blit_front buf (take (length buf) payload) (length buf `min` length payload)) as (buf' & -> & Hread & _);
    [lia|by rewrite length_take|]. cbn [obind].
  destruct (release_ok b rcv _ L _ R H1 Hb) as (pl' & -> & Hok & Efx). cbn [obind].
  assert (pl_fixed pl' = pl_fixed pl) as Efx' by (rewrite Efx; done).
  destruct (match s_connected_addr s with Some _ => _ | None => _ end).
  - rewrite Hread. cbn [obind]. eexists _, _, _, _, _, _. split; [reflexivity|]. split_and!; [exact Hok|by apply rx_enqueue_ok|done|].
    intros ? ?. done.
  - eexists _, _, _, _, _, _. split; [reflexivity|]. split_and!; [exact Hok|done|done|].
    intros n src [= <- <-]. eexists. by rewrite Nat2Z.id.
Qed.

Lemma try_recv_ok b rcv pl L R s rr buf :
  pl_ok b rcv pl L R -> queue_ok rcv (pl_port pl) s -> b + 1 < 2 ^ 61 ->
  exists s' pl' rr' buf' r L', try_recv_from_pipeline s pl rr buf = Done (s', pl', rr', buf', r) /\
    pl_ok (b + 1) rcv pl' L' R /\ queue_ok rcv (pl_port pl) s' /\ pl_fixed pl' = pl_fixed pl /\ answer_ok rcv (pl_port pl) buf' r.
Proof.
  intros H Hq Hb. destruct (s_has_buffered_packets s) eqn:Es; [|by apply (take_packet_ok b rcv pl L)].
  destruct (rx_dequeue_ok rcv (pl_port pl) s buf Hq) as (s1 & buf1 & r & E & Hq1 & Hr).
  destruct r as [[n src]|].
  - unfold try_recv_from_pipeline. rewrite Es, E. cbn [obind]. eexists _, _, _, _, _, L. split; [reflexivity|].
    split_and!; [by apply (pl_ok_later b); [lia|]|done|done|]. intros ? ? [= <- <-]. done.
  - assert (queue_ok rcv (pl_port pl) (s1 <| s_has_buffered_packets := false |>)) as Hq2 by (unfold queue_ok; rsimpl; exact Hq1).
    destruct (take_packet_ok b rcv pl L R _ rr buf1 H Hq2 Hb) as (s' & pl' & rr' & buf' & r & L' & E' & Hrest); [by rsimpl|].
    exists s', pl', rr', buf', r, L'. split; [|done]. rewrite <- E'. unfold try_recv_from_pipeline. by rewrite Es, E.
Qed.

(** ** The threads together *)

#[local] Abbreviation psys := (PipeSys Q).

Definition hand_refs (s : psys) : list FrameRef := rx_refs s ++ mjoin (batches s).

Record sys_inv (b : Z) (s : psys) (L : list Z) : Prop := {
  si_pipe : pl_ok b (delivered s) (pipe s) L (hand_refs s);
  si_batches : length (batches s) = length (pl_workers (pipe s));
  si_queue : queue_ok (delivered s) (pl_port (pipe s)) (app_socket s);
  si_answers : Forall (from_wire (delivered s) (pl_port (pipe s))) (answers s) }.

(** The frames an event brings in. *)
Definition event_frames (e : pipe_event) : list (list Z) := match e with NicBurst frames => frames | _ => [] end.

(** A step keeps the invariant, and keeps the sizes. *)
Definition step_ok (b : Z) (s s' : psys) (e : pipe_event) : Prop :=
  (exists L, sys_inv (b + 1) s' L) /\ pl_fixed (pipe s') = pl_fixed (pipe s) /\
  delivered s' ⊆ delivered s ++ (take (Z.to_nat (frame_size (pl_pool (pipe s)))) <$> event_frames e).

Lemma fixed_port (pl pl' : pline) : pl_fixed pl' = pl_fixed pl -> pl_port pl' = pl_port pl /\
  frame_size (pl_pool pl') = frame_size (pl_pool pl) /\ pool_capacity (pl_pool pl') = pool_capacity (pl_pool pl) /\
  length (pl_workers pl') = length (pl_workers pl).
Proof. unfold pl_fixed. by intros [= -> -> -> ->]. Qed.

(** The steps that only move the pipeline and the hands. *)
Lemma step_pipe b s L e s' L' :
  sys_inv b s L -> pl_ok (b + 1) (delivered s) (pipe s') L' (hand_refs s') -> pl_fixed (pipe s') = pl_fixed (pipe s) ->
  length (batches s') = length (batches s) ->
  delivered s' = delivered s -> app_socket s' = app_socket s -> answers s' = answers s ->
  step_ok b s s' e.
Proof.
  intros [Hp Hb Hq Ha] Hok Hf Hl E5 E6 E7. destruct (fixed_port _ _ Hf) as (E1 & _ & _ & E4).
  split; [|split; [done|rewrite E5; apply subseteq_more]]. exists L'. constructor; rewrite ?E1, ?E5, ?E6, ?E7; done || lia.
Qed.

Lemma step_same b s L e : sys_inv b s L -> b + 1 < 2 ^ 61 -> step_ok b s s e.
Proof.
  intros [Hp Hb Hq Ha] Hbb. split; [|split; [done|apply subseteq_more]]. exists L. constructor; try done.
  by apply (pl_ok_later b); [lia|].
Qed.

Lemma burst_step b s L frames :
  sys_inv b s L -> b + 1 < 2 ^ 61 -> Forall (Forall is_u8) frames ->
  exists s', pipe_step s (NicBurst frames) = Done s' /\ step_ok b s s' (NicBurst frames).
Proof.
  intros H Hb Hf. cbn. destruct (rx_refs s) as [|r rs] eqn:Er; [|eexists; split; [reflexivity|by eapply step_same]].
  destruct H as [Hp Hl Hq Ha]. unfold hand_refs in Hp. rewrite Er in Hp.
  destruct (recv_into_pool_ok b frames _ _ _ _ Hp Hf) as (p & refs & L' & -> & Es & Hok & Hfx). cbn [obind].
  eexists. split; [reflexivity|]. destruct (fixed_port _ _ Hfx) as (E1 & _ & _ & E4). rewrite Es.
  split; [|split; [by rsimpl|by rsimpl]]. exists L'. constructor; unfold hand_refs, queue_ok in *; rsimpl.
  - by apply (pl_ok_later b); [lia|].
  - done.
  - eapply Forall_impl; [exact Hq|]. intros a. apply from_wire_more, subseteq_more.
  - eapply Forall_impl; [exact Ha|]. intros a. apply from_wire_more, subseteq_more.
Qed.

Lemma poll_step b s L w :
  sys_inv b s L -> b + 1 < 2 ^ 61 -> exists s', pipe_step s (WorkerPoll w) = Done s' /\ step_ok b s s' (WorkerPoll w).
Proof.
  intros H Hb. cbn. destruct (batches s !! w) as [[|x xs]|] eqn:Eb; [|eexists; split; [reflexivity|by eapply step_same]..].
  destruct (pl_workers (pipe s) !! w) as [q|] eqn:Eq; [|eexists; split; [reflexivity|by eapply step_same]].
  pose proof (si_pipe _ _ _ H) as Hp. pose proof (po_workers _ _ _ _ _ Hp) as [Hw _]. pose proof (po_bound _ _ _ _ _ Hp).
  destruct (ring_take b (pl_workers (pipe s)) w q 32 Hw Eq ltac:(lia)) as (q' & l & -> & Hw' & Hc). cbn [obind].
  eexists. split; [reflexivity|].
  pose proof (join_insert (batches s) w [] l Eb) as Hj. rewrite app_nil_r in Hj.
  eapply (step_pipe b s L _ _ L H); unfold hand_refs; rsimpl; try done;
    [|unfold pl_fixed; rsimpl; by rewrite length_insert|apply length_insert].
  apply (pl_ok_later b); [lia|]. eapply (pl_ok_move b b _ _ _ _ _ _ Hp); rsimpl; try done; try lia; try apply Hp.
  - apply length_insert.
  - unfold hand_refs, ring_refs, worker_refs, app_packets. rsimpl. rewrite Hj, <- Hc. solve_Permutation.
Qed.

Lemma frame_step b s L w now :
  sys_inv b s L -> b + 1 < 2 ^ 61 -> exists s', pipe_step s (WorkerFrame w now) = Done s' /\ step_ok b s s' (WorkerFrame w now).
Proof.
  intros H Hb. cbn. destruct (batches s !! w) as [[|ref refs]|] eqn:Eb; [eexists; split; [reflexivity|by eapply step_same]| |
    eexists; split; [reflexivity|by eapply step_same]].
  pose proof (si_pipe _ _ _ H) as Hp.
  assert (hand_refs s ≡ₚ ref :: rx_refs s ++ mjoin (<[w := refs]> (batches s))) as HR.
  { unfold hand_refs. rewrite <- (join_split (batches s) w _ [ref] refs Eb eq_refl). cbn. by rewrite <- Permutation_middle. }
  rewrite HR in Hp.
  destruct (worker_frame_ok b _ _ L now w ref _ Hp) as (pl' & L' & -> & Hok & Hfx); [|done|].
  { rewrite <- (si_batches _ _ _ H). by apply lookup_lt_Some in Eb. }
  cbn [obind]. eexists. split; [reflexivity|]. eapply (step_pipe b s L _ _ L' H); unfold hand_refs; rsimpl; try done. apply length_insert.
Qed.

Lemma recv_step b s L buf :
  sys_inv b s L -> b + 1 < 2 ^ 61 -> exists s', pipe_step s (AppRecv buf) = Done s' /\ step_ok b s s' (AppRecv buf).
Proof.
  intros H Hb. cbn. destruct H as [Hp Hl Hq Ha].
  destruct (try_recv_ok b _ _ L _ (app_socket s) (app_rr s) buf Hp Hq Hb) as (sock & pl & rr & buf' & r & L' & -> & Hok & Hq' & Hfx & Hans).
  cbn [obind]. destruct (fixed_port _ _ Hfx) as (E1 & _ & _ & E4).
  assert (forall got, Forall (from_wire (delivered s) (pl_port (pipe s))) got ->
    step_ok b s (s <| pipe := pl |> <| app_socket := sock |> <| app_rr := rr |> <| answers := answers s ++ got |>) (AppRecv buf)) as Hstep.
  { intros got Hg. split; [|split; [by rsimpl|rsimpl; apply subseteq_more]].
    exists L'. constructor; unfold hand_refs in *; rsimpl; rewrite ?E1; try done; [lia|]. by apply Forall_app. }
  destruct r as [[n src]|]; cbn [obind].
  - destruct (Hans n src eq_refl) as (d & -> & Hd). cbn [obind]. eexists. split; [reflexivity|]. apply Hstep. by constructor.
  - eexists. split; [reflexivity|]. by apply Hstep.
Qed.

(** Every event keeps the invariant. *)
Lemma pipe_step_ok b s L e :
  sys_inv b s L -> b + 1 < 2 ^ 61 -> Forall (Forall is_u8) (event_frames e) ->
  exists s', pipe_step s e = Done s' /\ step_ok b s s' e.
Proof.
  intros H Hb He. destruct e as [frames|now|f| |w|w now|buf]; cbn in He.
  - by apply (burst_step b s L).
  - cbn. destruct (rx_refs s) as [|ref refs] eqn:Er; [eexists; split; [reflexivity|by eapply step_same]|].
    pose proof (si_pipe _ _ _ H) as Hp. unfold hand_refs in Hp. rewrite Er in Hp.
    destruct (dispatch_frame_ok b _ _ L now ref _ Hp Hb) as (pl' & L' & -> & Hok & Hfx). cbn [obind].
    eexists. split; [reflexivity|]. by apply (step_pipe b s L _ _ L' H).
  - pose proof (si_pipe _ _ _ H) as Hp. destruct (po_tx _ _ _ _ _ Hp) as [Ht1 Ht2].
    cbn. destruct (q_enqueue_law _ (pl_tx (pipe s)) f Ht1 ltac:(lia)) as (q & ok & -> & Hq & _ & Htot & _). cbn [obind].
    eexists. split; [reflexivity|]. apply (step_pipe b s L _ _ L H); try done. unfold hand_refs. rsimpl.
    eapply (pl_ok_move b (b + 1) _ _ _ _ _ _ Hp); rsimpl; try done; try apply (pl_ok_later b (b + 1) _ _ _ _ ltac:(lia) Hp); [lia|split; [done|lia]].
  - pose proof (si_pipe _ _ _ H) as Hp. destruct (po_tx _ _ _ _ _ Hp) as [Ht1 Ht2].
    cbn. unfold drain_tx_frames. destruct (q_batch_law _ (pl_tx (pipe s)) 256 Ht1 ltac:(lia)) as (q & -> & Hq & _ & Htot & _). cbn [obind].
    eexists. split; [reflexivity|].
    apply (step_pipe b s L _ _ L H); try done. unfold hand_refs. rsimpl.
    eapply (pl_ok_move b (b + 1) _ _ _ _ _ _ Hp); rsimpl; try done; try apply (pl_ok_later b (b + 1) _ _ _ _ ltac:(lia) Hp); [lia|split; [done|lia]].
  - by apply (poll_step b s L).
  - by apply (frame_step b s L).
  - by apply (recv_step b s L).
Qed.

Lemma pipe_run_ok : forall es b s L,
  sys_inv b s L -> b + Z.of_nat (length es) < 2 ^ 61 -> Forall (fun e => Forall (Forall is_u8) (event_frames e)) es ->
  exists s' L', pipe_run s es = Done s' /\ sys_inv (b + Z.of_nat (length es)) s' L' /\ pl_fixed (pipe s') = pl_fixed (pipe s) /\
    delivered s' ⊆ delivered s ++ (take (Z.to_nat (frame_size (pl_pool (pipe s)))) <$> mjoin (event_frames <$> es)).
Proof.
  induction es as [|e es IH]; intros b s L H Hb Hes; cbn [pipe_run].
  - exists s, L. split_and!; [done| |done|apply subseteq_more]. cbn. by rewrite Z.add_0_r.
  - apply Forall_cons in Hes as [He Hes]. cbn [length] in Hb. destruct (pipe_step_ok b s L e H ltac:(lia) He) as (s1 & -> & (L1 & H1) & Hf1 & Hd1).
    cbn [obind]. destruct (IH (b + 1) s1 L1 H1 ltac:(lia) Hes) as (s2 & L2 & E2 & H2 & Hf2 & Hd2).
    exists s2, L2. split_and!; [done| |congruence|].
    + replace (b + Z.of_nat (length (e :: es))) with (b + 1 + Z.of_nat (length es)) by (cbn [length]; lia). done.
    + destruct (fixed_port _ _ Hf1) as (_ & Es & _ & _). rewrite Es in Hd2. cbn. intros x Hx. specialize (Hd2 x Hx). specialize (Hd1 x).
      rewrite fmap_app, app_assoc. rewrite !elem_of_app in *. tauto.
Qed.

End Pipe.
