(* ===== verification/PipelineSafe.v ===== *)
(** * What the multi-core pipeline guarantees

    The pipeline [start_pipeline] builds, run through every interleaving of its threads. *)

From stdpp Require Import base numbers list sets.
From Stdlib Require Import ZArith Lia.
From S2P Require Import Prelude State Buffer Checksum Codec CodecFrames Ring UdpChecksum UdpFrame UdpLayout Routing NeighborCache Arp Icmp UdpSocket UdpRobust MpscRing FramePool SpscRing Pipeline PipelineInv.

#[local] Open Scope Z_scope.

(** ** Start *)

Definition pipe_init (pl : Pipeline SpscRing) (sock : UdpSocket) : PipeSys SpscRing :=
  MkPipeSys pl [] (replicate (length (pl_workers pl)) []) sock 0 [] [].

Lemma ring_items_empty {T} n cap : cap <= 2 ^ 61 -> ring_items (replicate n (spsc_new (T := T) cap)) = [].
Proof.
  intros Hc. destruct (spsc_new_wf (T := T) cap Hc) as [_ E]. induction n as [|n IH]; [done|]. unfold ring_items in *. cbn.
  rewrite E. exact IH.
Qed.

Lemma fresh_rings_ok {T} n cap : cap <= 2 ^ 61 -> Forall (ring_ok 0) (replicate n (spsc_new (T := T) cap)).
Proof. intros Hc. apply Forall_replicate. split; [by apply spsc_new_wf|done]. Qed.

Lemma join_replicate_nil {A} n : mjoin (replicate n (@nil A)) = [].
Proof. by induction n. Qed.

Lemma build_pipeline_ok cap size config pl sock :
  build_pipeline cap size config = Some pl -> cap <= 2 ^ 31 -> size <= 65535 -> packets (s_queue sock) = [] ->
  sys_inv 0 (pipe_init pl sock) (seqZ 0 (pool_capacity (pl_pool pl))) /\
  pl_port pl = pc_local_port config /\ pl_pool pl = pool_new cap size /\ pl_workers pl <> [].
Proof.
  unfold build_pipeline. destruct (is_run_to_completion _) eqn:Er; [done|]. intros [= <-] Hc Hs Hq.
  unfold is_run_to_completion in Er. apply Z.leb_gt in Er.
  set (n := Z.to_nat (ssub (rx_queues (pc_plan config)) 1)).
  assert (0 < n)%nat as Hn by (unfold n, ssub; lia).
  assert (replicate n (spsc_new (T := FrameRef) cap) <> []) as Hne by (by destruct n; [lia|]).
  split_and!; try done. destruct (pool_new_sizes cap size Hc) as (k & Hk & Ec & Ef & Hb & E2).
  constructor; unfold hand_refs, pipe_init, queue_ok; cbn [pipe rx_refs batches delivered app_socket answers pl_pool pl_workers pl_port].
  - rewrite length_replicate, join_replicate_nil. cbn [app].
    constructor; unfold ring_refs, worker_refs, app_packets; cbn [pl_pool pl_workers pl_app_rings pl_tx pl_port]; rewrite ?ring_items_empty by lia; try done.
    + by apply pool_new_free.
    + cbn. by rewrite app_nil_r.
    + apply pool_new_wf.
    + rewrite Ec, Ef. cbn [pool_new frame_size]. lia.
    + rewrite Ec. change (free_head (pool_new cap size)) with (pool_capacity (pool_new cap size)). lia.
    + split; [apply fresh_rings_ok; lia|done].
    + split; [apply spsc_new_wf; lia|done].
    + split; [apply fresh_rings_ok; lia|by rewrite !length_replicate].
  - by rewrite !length_replicate.
  - by rewrite Hq.
  - done.
Qed.

(** The bytes the NIC delivers. *)
Definition nic_frames (es : list pipe_event) : list (list Z) := mjoin (event_frames <$> es).

Definition nic_bytes (es : list pipe_event) : Prop := Forall (fun e => Forall (Forall is_u8) (event_frames e)) es.

#[global] Instance nic_bytes_dec es : Decision (nic_bytes es).
Proof. unfold nic_bytes, is_u8. apply _. Defined.

(** C11: The pipeline never panics, leaks or doubly uses a frame: for every plan with worker threads, every interleaving of
    the dispatcher, the workers and the application and whatever bytes the NIC delivers
    (up to 2^61 steps), every step returns; and afterwards the free list together with the references
    held by the dispatcher, by the workers and in the worker and application rings is the set of all indices of the
    pool, each exactly once. *)
Theorem pipeline_conserves_frames cap size config pl sock es :
  build_pipeline cap size config = Some pl -> cap <= 2 ^ 31 -> size <= 65535 -> packets (s_queue sock) = [] ->
  nic_bytes es -> Z.of_nat (length es) < 2 ^ 61 ->
  exists s free, pipe_run (pipe_init pl sock) es = Done s /\ free_is (pl_pool (pipe s)) free /\
    free ++ (pool_idx <$> rx_refs s ++ mjoin (batches s) ++ worker_refs (pipe s) ++ (ap_frame_ref <$> app_packets (pipe s)))
      ≡ₚ seqZ 0 (pool_capacity (pool_new cap size)).
Proof.
  intros Hb Hc Hs Hq Hes Hn. destruct (build_pipeline_ok cap size config pl sock Hb Hc Hs Hq) as (Hinv & _ & Ep & _).
  destruct (pipe_run_ok es 0 _ _ Hinv ltac:(lia) Hes) as (s & L & E & [Hp _ _ _] & Hfx & _).
  exists s, L. split_and!; [done|apply Hp|]. destruct (fixed_port _ _ Hfx) as (_ & _ & E3 & _). rewrite <- Ep.
  change (pl_pool pl) with (pl_pool (pipe (pipe_init pl sock))). rewrite <- E3, <- (po_perm _ _ _ _ _ Hp).
  unfold hand_refs, ring_refs. by rewrite <- !app_assoc.
Qed.

(** C12: Whatever the threads interleave, what the application is given is
    the payload (or, when its buffer is shorter, the start of it), with the source address, of a
    frame that the NIC delivered, that is a UDP datagram for the socket's port and whose IP and
    UDP checksums are right: no thread sees a frame that is being overwritten, and no payload
    is attributed to another sender. *)
Theorem pipeline_delivers_received_datagrams cap size config pl sock es :
  build_pipeline cap size config = Some pl -> cap <= 2 ^ 31 -> size <= 65535 -> packets (s_queue sock) = [] ->
  nic_bytes es -> Z.of_nat (length es) < 2 ^ 61 ->
  exists s, pipe_run (pipe_init pl sock) es = Done s /\
    forall d src, (d, src) ∈ answers s ->
      exists f payload, f ∈ nic_frames es /\
        carries_datagram (pc_local_port config) (take (Z.to_nat (frame_size (pool_new cap size))) f) payload src /\
        d `prefix_of` payload.
Proof.
  intros Hb Hc Hs Hq Hes Hn. destruct (build_pipeline_ok cap size config pl sock Hb Hc Hs Hq) as (Hinv & Epo & Ep & _).
  destruct (pipe_run_ok es 0 _ _ Hinv ltac:(lia) Hes) as (s & L & E & [_ _ _ Ha] & Hfx & Hd).
  exists s. split; [done|]. intros d src Hin. rewrite Forall_forall in Ha. destruct (Ha _ Hin) as (g & payload & Hg & Hcar & Hpre).
  destruct (fixed_port _ _ Hfx) as (E1 & _). rewrite E1 in Hcar. change (pl_port (pipe (pipe_init pl sock))) with (pl_port pl) in Hcar.
  apply Hd in Hg. cbn [app delivered pipe_init pipe] in Hg. rewrite Ep in Hg. apply list_elem_of_fmap in Hg as (f & -> & Hf).
  exists f, payload. rewrite <- Epo. done.
Qed.

(** ** Plans *)

Lemma clamp_bounds requested nic_max : 0 <= nic_max -> 1 <= clamp_rx_queues requested nic_max <= Z.max 1 nic_max.
Proof. intros H. unfold clamp_rx_queues. bcase; lia. Qed.

Lemma tx_bounds rx nic_max : 0 <= nic_max -> 1 <= compute_tx_queues rx nic_max <= 2 /\ (nic_max <> 0 -> compute_tx_queues rx nic_max <= nic_max).
Proof. intros H. unfold compute_tx_queues. repeat bcase; lia. Qed.

(** Every plan fits the NIC: whatever the configuration, the environment and the number of cores, at least one and
    no more receive queues than the NIC has are planned, and one or two transmit queues, within the NIC's limit
    when it states one; and the pipeline built from the plan needs no thread when it is run to completion, and
    otherwise exactly [total_lcores_needed]: a dispatcher and at least one worker, each with its two rings. *)
Theorem plan_fits_the_nic is_stub env_rq config lcores nic_rx nic_tx numa cap size port mac ip cache :
  0 <= nic_rx -> 0 <= nic_tx ->
  let p := detect_topology is_stub env_rq config lcores nic_rx nic_tx numa in
  1 <= rx_queues p <= Z.max 1 nic_rx /\ 1 <= nb_tx_queues p <= 2 /\ (nic_tx <> 0 -> nb_tx_queues p <= nic_tx) /\ 0 <= numa_node p /\
  match build_pipeline cap size (MkPipeConfig p port mac ip cache) with
  | None => total_lcores_needed p = 0 /\ rx_queues p = 1
  | Some pl => total_lcores_needed p = 1 + Z.of_nat (length (pl_workers pl)) /\ (1 <= length (pl_workers pl))%nat /\
               length (pl_app_rings pl) = length (pl_workers pl)
  end.
Proof.
  intros Hrx Htx p.
  assert (1 <= rx_queues p <= Z.max 1 nic_rx /\ (1 <= nb_tx_queues p <= 2 /\ (nic_tx <> 0 -> nb_tx_queues p <= nic_tx)) /\ 0 <= numa_node p)
    as (Hr & [Ht Ht'] & Hn).
  { unfold p, detect_topology. assert (0 <= if 0 <=? numa then numa else 0) by (bcase; lia).
    destruct is_stub; [cbn; lia|]. destruct (cfg_rx_queues config) as [rq|]; [|destruct env_rq as [rq|]]; cbn [rx_queues nb_tx_queues numa_node];
      (split; [|split; [by apply tx_bounds|done]]); try by apply clamp_bounds.
    unfold auto_detect_queues. bcase; [lia|by apply clamp_bounds]. }
  split_and!; try done; try lia. unfold build_pipeline, total_lcores_needed, is_run_to_completion. cbn [pc_plan]. bcase; [lia|].
  cbn [pl_workers pl_app_rings]. rewrite !length_replicate. unfold ssub. lia.
Qed.

Lemma plan_fits_the_nic_witness :
  rx_queues (detect_topology false (Some 9) (MkTopoConfig None) 8 4 1 0) = 4 /\
  nb_tx_queues (detect_topology false (Some 9) (MkTopoConfig None) 8 4 1 0) <= 1.
Proof.
  destruct (plan_fits_the_nic false (Some 9) (MkTopoConfig None) 8 4 1 0 4 64 53 mac_b host_b cache_new) as (_ & _ & H & _); [lia..|].
  split; [reflexivity|]. apply H. lia.
Defined.

(** ** Polling the application rings *)

(** [n] receives. *)
Fixpoint polls {T} (n : nat) (rings : list (SpscRing T)) (rr : nat) : outcome (list (SpscRing T) * nat * list T) :=
  match n with
  | O => Done (rings, rr, [])
  | S n =>
      let! (rings, rr, o) := dequeue_app_rings rings rr in
      let! (rings, rr, l) := polls n rings rr in
      Done (rings, rr, match o with Some x => x :: l | None => l end)
  end.

(** The application rings are not served in turn, although [rr_index] is kept for that: as long as the
    first worker's ring holds packets, every receive takes from it, whatever [rr_index] is, and the
    rings of the other workers are not looked at. *)
Theorem first_app_ring_is_always_preferred {T} (q : SpscRing T) rest rr n :
  wf_spsc q -> sp_head q <= 2 ^ 62 -> (n <= length (spsc_items q))%nat ->
  exists q' rr', polls n (q :: rest) rr = Done (q' :: rest, rr', take n (spsc_items q)) /\ wf_spsc q' /\
    spsc_items q' = drop n (spsc_items q).
Proof.
  revert q rr. induction n as [|n IH]; intros q rr Hq Hh Hn; cbn [polls]; [by exists q, rr|].
  unfold dequeue_app_rings. cbn [length]. rewrite (proj2 (Nat.eqb_neq _ _)) by lia.
  rewrite Nat.add_succ_r. cbn [seq poll_rings]. cbn [length]. rewrite Nat.Div0.mod_0_l. change ((q :: rest) !! 0%nat) with (Some q). cbv beta iota.
  destruct (dequeue_law q Hq Hh) as (q1 & E & Hq1 & _ & Hh1 & Hi1). change (q_dequeue q) with (spsc_dequeue q). rewrite E. cbn [obind].
  destruct (spsc_items q) as [|x l] eqn:Ei; [cbn in Hn; lia|]. cbn [head tail hd_error tl obind] in *.
  change (<[0%nat := q1]> (q :: rest)) with (q1 :: rest).
  destruct (IH q1 1%nat Hq1 ltac:(lia)) as (q' & rr' & E' & Hw' & Hi'); [rewrite Hi1; cbn in Hn; lia|].
  rewrite E'. cbn [obind]. exists q', rr'. rewrite Hi1 in *. split_and!; done.
Qed.

(** ** Samples *)

Definition sample_frame (src : Ipv4Addr) (payload : list Z) : list Z :=
  match build_udp_frame mac_a mac_b src host_b 7000 53 payload 64 with Done (Ok f) => f | _ => [] end.

Definition sample_config : PipelineConfig := MkPipeConfig (MkPlan 3 2 0 AutoDetected) 53 mac_b host_b cache_new.

Definition sample_pipeline : Pipeline SpscRing := default (MkPipe (pool_new 2 64) [] [] (spsc_new 2) (arp_handler_new mac_b host_b)
  (icmp_handler_new mac_b host_b) 0 53 []) (build_pipeline 4 64 sample_config).

(** Two datagrams and a frame of noise, interleaved through two workers. *)
Definition sample_events : list pipe_event :=
  [NicBurst [sample_frame host_a [1; 2; 3]; replicate 30 7; sample_frame host_a [4]]; Dispatch 1; Dispatch 1; WorkerPoll 1;
   Dispatch 1; WorkerPoll 0; WorkerFrame 1 2; WorkerFrame 0 2; AppRecv [0; 0]; WorkerFrame 0 3; AppRecv [0; 0]; AppRecv []].

Lemma pipeline_conserves_frames_witness :
  exists s free, pipe_run (pipe_init sample_pipeline sample_socket) sample_events = Done s /\ free_is (pl_pool (pipe s)) free /\
    free ≡ₚ [0; 1; 2; 3].
Proof.
  destruct (pipeline_conserves_frames 4 64 sample_config sample_pipeline sample_socket sample_events)
    as (s & free & E & Hf & Hp); [reflexivity|lia|lia|reflexivity|apply (bool_decide_unpack (nic_bytes sample_events)); vm_compute; exact I|vm_compute; reflexivity|].
  exists s, free. split_and!; [done|done|].
  assert (worker_refs (pipe s) = [] /\ app_packets (pipe s) = [] /\ rx_refs s = [] /\ mjoin (batches s) = []) as (H1 & H2 & H3 & H4)
    by (revert E; vm_compute; intros [= <-]; done).
  rewrite H1, H2, H3, H4 in Hp. cbn in Hp. rewrite app_nil_r in Hp. exact Hp.
Defined.

Lemma pipeline_delivers_received_datagrams_witness :
  exists s, pipe_run (pipe_init sample_pipeline sample_socket) sample_events = Done s /\
    answers s = [([1; 2], V4 host_a 7000); ([4], V4 host_a 7000)] /\
    exists f payload, f ∈ nic_frames sample_events /\ carries_datagram 53 (take 64 f) payload (V4 host_a 7000) /\
      [1; 2] `prefix_of` payload.
Proof.
  destruct (pipeline_delivers_received_datagrams 4 64 sample_config sample_pipeline sample_socket sample_events)
    as (s & E & H); [reflexivity|lia|lia|reflexivity|apply (bool_decide_unpack (nic_bytes sample_events)); vm_compute; exact I|vm_compute; reflexivity|].
  exists s. assert (answers s = [([1; 2], V4 host_a 7000); ([4], V4 host_a 7000)]) as Ea by (revert E; vm_compute; intros [= <-]; done).
  split_and!; [done|done|]. apply (H [1; 2] (V4 host_a 7000)). rewrite Ea. by left.
Defined.

Lemma first_app_ring_is_always_preferred_witness :
  exists q q', spsc_enqueue (spsc_new 2) 7 = Done (q, true) /\ polls 1 [q; q] 1 = Done ([q'; q], 1%nat, [7]).
Proof.
  destruct (spsc_new_wf (T := Z) 2 ltac:(lia)) as [Hw _].
  destruct (enqueue_law (spsc_new 2) 7 Hw ltac:(vm_compute; reflexivity)) as (q & b & E & Hq & _).
  pose proof E as E'. vm_compute in E'. injection E' as Eq Eb. subst b.
  destruct (first_app_ring_is_always_preferred q [q] 1 1 Hq) as (q' & rr' & H & _); [by rewrite <- Eq|by rewrite <- Eq|].
  exists q, q'. split; [done|]. rewrite H. rewrite <- Eq in H. vm_compute in H. injection H as <- <-. by rewrite <- Eq.
Defined.
