(* ===== verification/PipelineLive.v ===== *)
(** * Datagrams get through the multi-core pipeline

    One datagram after another through an idle pipeline, from the NIC to the application. *)

From stdpp Require Import base numbers list sets.
From Stdlib Require Import ZArith Lia.
From S2P Require Import Prelude State Buffer Checksum Codec CodecFrames Ring UdpChecksum UdpFrame UdpLayout Routing NeighborCache Arp Icmp UdpSocket UdpRobust MpscRing FramePool SpscRing Pipeline PipelineInv PipelineSafe.

#[local] Open Scope Z_scope.

(** ** The dispatcher *)

(** A UDP frame is neither ARP nor ICMP for the dispatcher. *)
Lemma udp_frame_class f u :
  parse_udp_packet_ref f = Done (Some u) ->
  exists et, (42 <= length f)%nat /\ read16 f 12 = Done et /\ et <> ETH_TYPE_ARP /\
    (et = ETH_TYPE_IPV4 -> idx f 23 = Done IP_PROTO_UDP).
Proof.
  unfold parse_udp_packet_ref, detect_vlan. destruct (Nat.ltb_spec (length f) ETH_HEADER_LEN); [done|].
  destruct (read16 f 12) as [et| |]; cbn [obind]; [|done..]. intros E. exists et.
  destruct (Z.eqb_spec et ETH_TYPE_VLAN) as [Ev|Hv]; [subst et|].
  - destruct (Nat.ltb_spec (length f) (ETH_HEADER_LEN + VLAN_TAG_LEN)); [done|].
    destruct (read16 f 14); cbn [obind] in E; [|done..]. destruct (read16 f 16); cbn [obind] in E; [|done..].
    cbn [l3_offset ethertype] in E. destruct (Nat.ltb_spec (length f) (ETH_HEADER_LEN + VLAN_TAG_LEN + IPV4_HEADER_LEN + UDP_HEADER_LEN)); [done|].
    unfold ETH_HEADER_LEN, VLAN_TAG_LEN, IPV4_HEADER_LEN, UDP_HEADER_LEN in *. split_and!; [lia|done..].
  - cbn [obind l3_offset ethertype] in E. destruct (Nat.ltb_spec (length f) (ETH_HEADER_LEN + IPV4_HEADER_LEN + UDP_HEADER_LEN)); [done|].
    destruct (Z.eqb_spec et ETH_TYPE_IPV4) as [Ev|]; cbn [negb] in E; [subst et|done].
    unfold ETH_HEADER_LEN, IPV4_HEADER_LEN, UDP_HEADER_LEN in *. split_and!; [lia|done|done|]. intros _.
    destruct (slice f 6 12); cbn [obind] in E; [|done..]. destruct (to_mac _); [|done].
    rewrite slice_from_done in E by lia. cbn [obind] in E. destruct (idx (drop 14 f) 0); cbn [obind] in E; [|done..].
    destruct (negb _); [done|]. destruct (Nat.ltb _ _); [done|]. rewrite idx_drop in E. change (14 + 9)%nat with 23%nat in E.
    destruct (idx f 23) as [pr| |]; cbn [obind] in E; [|done..]. destruct (Z.eqb_spec pr IP_PROTO_UDP) as [Ev|]; [by rewrite Ev|done].
Qed.

Section Live.

Context {Q : Type -> Type} `{HQ : BoundedQueue Q} `{!BoundedQueueLaws Q}.

#[local] Abbreviation pline := (Pipeline Q).
#[local] Abbreviation psys := (PipeSys Q).

Lemma dispatch_udp (pl : pline) now ref f u :
  frame_slice (pl_pool pl) ref = Done f -> parse_udp_packet_ref f = Done (Some u) ->
  dispatch_frame pl now ref = hand_to_worker pl ref.
Proof.
  intros Hs Hp. destruct (udp_frame_class f u Hp) as (et & Hl & Eet & Ha & Hi).
  unfold frame_slice in Hs. unfold dispatch_frame. destruct (frame _ _) as [d| |]; cbn [obind] in Hs |- *; [|done..].
  assert (length f = Z.to_nat (fr_len ref)) as El.
  { unfold slice in Hs. destruct (_ && _) eqn:E; [|done]. injection Hs as <-. apply andb_prop in E as [_ E]. apply Nat.leb_le in E.
    rewrite length_take, length_drop. lia. }
  rewrite (proj2 (Z.ltb_ge _ _)) by lia. rewrite Hs. cbn [obind]. rewrite Eet. cbn [obind].
  rewrite (proj2 (Z.eqb_neq _ _)) by done.
  destruct (Z.eqb_spec et ETH_TYPE_IPV4) as [E|]; cbn [andb obind]; [|done].
  change (ETH_HEADER_LEN + 9)%nat with 23%nat. rewrite (proj2 (Nat.ltb_lt _ _)) by lia. rewrite (Hi E). done.
Qed.

(** ** Rings with at most one item *)

(** The ring at [t] holds [l], the others nothing. *)
Definition only {T} (t : nat) (l : list T) (rings : list (Q T)) : Prop :=
  forall i q, rings !! i = Some q -> q_items q = if decide (i = t) then l else [].

Lemma ring_items_only {T} (rings : list (Q T)) t : ring_items rings = [] <-> only t [] rings.
Proof.
  unfold only, ring_items. split.
  - intros H i q Hi. assert (q_items q = []) as ->; [|by case_decide].
    destruct (q_items q) as [|x l] eqn:E; [done|]. pose proof (join_insert (fmap (M:=list) (q_items (T:=T)) rings) i (x :: l) []) as Hj.
    rewrite list_lookup_fmap, Hi in Hj. cbn in Hj. rewrite E, H in Hj. specialize (Hj eq_refl).
    apply Permutation_length in Hj. rewrite length_app in Hj. cbn in Hj. lia.
  - induction rings as [|q rings IH]; intros H; [done|]. cbn. pose proof (H 0%nat q eq_refl) as H0.
    assert (q_items q = []) as -> by (by rewrite H0; case_decide). apply IH. intros i q' Hi.
    rewrite (H (S i) q' Hi). by repeat case_decide.
Qed.

Lemma ring_items_at {T} : forall (rings : list (Q T)) t l, only t l rings -> (t < length rings)%nat -> ring_items rings = l.
Proof.
  induction rings as [|q rings IH]; intros t l H Ht; [cbn in Ht; lia|]. pose proof (H 0%nat q eq_refl) as H0.
  assert (forall i q', rings !! i = Some q' -> q_items q' = if decide (S i = t) then l else []) as Hr by (intros i q'; apply (H (S i) q')).
  destruct t as [|t]; cbn in H0.
  - assert (ring_items rings = []) as E.
    { apply (ring_items_only _ 0). intros i q' Hi. rewrite (Hr i q' Hi). by repeat case_decide. }
    unfold ring_items in *. cbn. rewrite H0. transitivity (l ++ []); [f_equal; exact E|apply app_nil_r].
  - unfold ring_items in *. cbn. rewrite H0. apply (IH t); [|cbn in Ht; lia]. intros i q' Hi. rewrite (Hr i q' Hi).
    by repeat case_decide; try lia.
Qed.

Lemma only_insert {T} (rings : list (Q T)) t q l l' : only t l rings -> q_items q = l' -> only t l' (<[t := q]> rings).
Proof.
  intros H E i q' Hi. apply list_lookup_insert_Some in Hi as [(<- & -> & _)|(Hne & Hi)]; [by rewrite decide_True|].
  rewrite (H i q' Hi). rewrite !decide_False by done. done.
Qed.

Lemma only_other {T} (rings : list (Q T)) i t q l : only t l rings -> i <> t -> q_items q = [] -> only t l (<[i := q]> rings).
Proof.
  intros H Hne E j q' Hj. apply list_lookup_insert_Some in Hj as [(<- & -> & _)|(Hne' & Hj)]; [by rewrite decide_False|]. by apply H.
Qed.

(** Room in an empty ring. *)
Lemma push_empty {T} b (q : Q T) x :
  ring_ok b q -> b < 2 ^ 61 -> q_items q = [] -> exists q', q_enqueue q x = Done (q', true) /\ q_items q' = [x] /\ ring_ok (b + 1) q'.
Proof.
  intros [Hq Ht] Hb E. destruct (q_enqueue_law _ q x Hq ltac:(lia)) as (q' & ok & -> & Hq' & _ & Ht' & Hc). rewrite E in Hc.
  destruct Hc as [(-> & _ & Hi)|(_ & Hz & _)]; [exists q'; split; [done|]; split; [done|]; split; [done|lia]|]. pose proof (q_capacity_law _ q Hq). change (zlen (@nil T)) with 0 in Hz. lia.
Qed.

(** The poll finds the one packet, wherever it is. *)
Lemma poll_only {T} b (x : T) t : forall offsets (rings : list (Q T)) rr,
  Forall (ring_ok b) rings -> b < 2 ^ 61 -> only t [x] rings -> (t < length rings)%nat -> t ∈ offsets ->
  exists rings', poll_rings offsets rings rr = Done (rings', S t, Some x) /\ ring_items rings' = [].
Proof.
  induction offsets as [|o offsets IH]; intros rings rr Hf Hb Ho Ht Hin; [by apply elem_of_nil in Hin|]. cbn.
  assert (o mod length rings < length rings)%nat as Hlt by (apply Nat.mod_upper_bound; lia).
  destruct (lookup_lt_is_Some_2 _ _ Hlt) as [q Hq]. rewrite Hq. pose proof (Ho _ _ Hq) as Hi.
  destruct (Forall_lookup_1 _ _ _ _ Hf Hq) as [Hok Htot].
  destruct (q_dequeue_law _ q Hok ltac:(lia)) as (q' & -> & Hok' & _ & Htot' & Ei). rewrite Hi in Ei |- *. cbn [obind].
  case_decide as E; cbn.
  - rewrite E. eexists. split; [reflexivity|]. apply (ring_items_only _ t). by eapply only_insert.
  - apply (IH (<[(o mod length rings)%nat := q']> rings)); [|done|by apply only_other|by rewrite length_insert|].
    + apply Forall_insert; [done|split; [done|lia]].
    + apply elem_of_cons in Hin as [->|]; [|done]. by rewrite Nat.mod_small in E.
Qed.

(** ** One frame through each thread *)

Definition target (pl : pline) : nat := Z.to_nat (pl_rr pl mod Z.of_nat (length (pl_workers pl))).

Lemma target_lt pl : pl_workers pl <> [] -> (target pl < length (pl_workers pl))%nat.
Proof.
  intros Hn. unfold target. assert (0 < Z.of_nat (length (pl_workers pl))) as H by (destruct (pl_workers pl); cbn; [done|lia]).
  pose proof (Z.mod_pos_bound (pl_rr pl) _ H). lia.
Qed.

Lemma hand_udp b pl ref q :
  pl_workers pl !! target pl = Some q -> ring_ok b q -> b < 2 ^ 61 -> q_items q = [] ->
  exists q', hand_to_worker pl ref = Done (pl <| pl_rr := u64 (pl_rr pl + 1) |> <| pl_workers := <[target pl := q']> (pl_workers pl) |>) /\
    q_items q' = [ref] /\ ring_ok (b + 1) q'.
Proof.
  intros Hq Hok Hb Hi. destruct (push_empty b q ref Hok Hb Hi) as (q' & E & Hi' & Hok'). exists q'. split; [|done].
  pose proof (lookup_lt_Some _ _ _ Hq) as Hlt. unfold hand_to_worker. rewrite (proj2 (Nat.eqb_neq _ _)) by lia.
  cbv zeta. fold (target pl). rsimpl. destruct (length (pl_workers pl)) as [|m] eqn:El; [lia|]. cbn [seq try_workers].
  rewrite El, Nat.add_0_r, Nat.mod_small by lia. rewrite Hq, E. done.
Qed.

Lemma worker_udp b pl now t ref f payload src q :
  frame_slice (pl_pool pl) ref = Done f -> zlen f <= 65535 -> carries_datagram (pl_port pl) f payload src ->
  pl_app_rings pl !! t = Some q -> ring_ok b q -> b < 2 ^ 61 -> q_items q = [] ->
  exists c q' a, worker_frame pl now t ref = Done (pl <| pl_arp := c |> <| pl_app_rings := <[t := q']> (pl_app_rings pl) |>) /\
    q_items q' = [a] /\ describes (pl_pool pl) a f payload /\ ap_src_addr a = src.
Proof.
  intros Hs Hl (u & Hp & H4 & Hu & Hport & -> & ->) Hq Hok Hb Hi.
  destruct (payload_start_spec f u Hp) as (o & Eo & Hsl & Hol & m & mac & Em & Emac).
  unfold worker_frame. rewrite Hs. cbn [obind]. rewrite Hp. cbn [obind]. rewrite H4. cbn [obind]. rewrite Hu. cbn [obind negb].
  rewrite Em. cbn [obind]. rewrite Emac. cbv zeta. rsimpl. rewrite Hport, Z.eqb_refl. cbn [negb]. rewrite Eo. cbn [obind]. rewrite Hq.
  match goal with |- context [q_enqueue q ?a] => destruct (push_empty b q a Hok Hb Hi) as (q' & -> & Hi' & _); exists
    ((pl_arp pl) <| arp_cache := insert_if_changed (arp_cache (pl_arp pl)) now (r_src_ip u) mac |>), q', a end.
  cbn [obind]. split_and!; [done..| |done]. by apply app_packet_describes.
Qed.

Lemma recv_udp b rcv pl L s rr buf a f payload t :
  pl_ok b rcv pl L [] -> b + 1 < 2 ^ 61 -> s_has_buffered_packets s = false ->
  s_connected_addr s = None \/ s_connected_addr s = Some (ap_src_addr a) ->
  only t [a] (pl_app_rings pl) -> (t < length (pl_app_rings pl))%nat -> describes (pl_pool pl) a f payload ->
  exists pl' rr' buf' n, try_recv_from_pipeline s pl rr buf = Done (s, pl', rr', buf', Some (n, ap_src_addr a)) /\
    slice buf' 0 (Z.to_nat n) = Done (take (length buf) payload) /\ pl_workers pl' = pl_workers pl /\
    ring_items (pl_app_rings pl') = [] /\ pl_rr pl' = pl_rr pl.
Proof.
  intros H Hb Hs Hconn Ho Ht Hd. pose proof (ring_items_at _ _ _ Ho Ht) as Hit. unfold try_recv_from_pipeline, dequeue_app_rings. rewrite Hs. cbn [obind].
  rewrite (proj2 (Nat.eqb_neq _ _)) by lia. pose proof (po_apps _ _ _ _ _ H) as [Ha _].
  destruct (poll_only b a t (seq 0 (rr + length (pl_app_rings pl))) (pl_app_rings pl) rr Ha ltac:(lia) Ho Ht) as (rings & E & Hr).
  { apply elem_of_seq. lia. }
  destruct (poll_rings_law b (seq 0 (rr + length (pl_app_rings pl))) (pl_app_rings pl) rr Ha) as (rings' & rr' & o & E' & Hok' & Hl' & _);
    [right; intros En; rewrite En in Ht; cbn in Ht; lia|lia|]. rewrite E in E'. injection E' as <- <- <-.
  rewrite E. cbn [obind]. cbv zeta. rsimpl. destruct (app_payload (pl_pool pl) a f payload (length buf) Hd) as (d & -> & -> & Esl).
  cbn [obind]. rewrite Esl. cbn [obind].
  destruct (blit_front buf (take (length buf) payload) (length buf `min` length payload)) as (buf' & -> & Hread & _);
    [lia|by rewrite length_take|]. cbn [obind].
  assert (pl_ok b rcv (pl <| pl_app_rings := rings |>) L [ap_frame_ref a]) as H1.
  { apply (pl_ok_move b b rcv pl _ L [] _ H); rsimpl; try done; try apply H.
    - pose proof (po_bound _ _ _ _ _ H). lia.
    - unfold ring_refs, worker_refs, app_packets. rsimpl. rewrite Hr, Hit. cbn. rewrite app_nil_r. by rewrite Permutation_app_comm.
    - unfold app_packets. rsimpl. by rewrite Hr. }
  destruct (release_ok b rcv _ L _ [] H1 Hb) as (pl' & Erel & _ & _). rewrite Erel. cbn [obind].
  assert (pl_workers pl' = pl_workers pl /\ pl_app_rings pl' = rings /\ pl_rr pl' = pl_rr pl) as (E1 & E2 & E3).
  { unfold free_frame in Erel. rsimpl_in Erel. destruct (pool_free _ _); cbn [obind] in Erel; [|done..]. by injection Erel as <-. }
  assert (match s_connected_addr s with Some c => negb (bool_decide (ap_src_addr a = c)) | None => false end = false) as ->.
  { destruct Hconn as [->| ->]; [done|]. by rewrite bool_decide_true. }
  eexists _, _, _, _. split; [reflexivity|]. rewrite Nat2Z.id, E1, E2, E3. done.
Qed.

(** ** A round *)

(** Nothing in the rings or in the hands of a thread. *)
Record idle (s : psys) : Prop := {
  id_rx : rx_refs s = [];
  id_batches : mjoin (batches s) = [];
  id_workers : worker_refs (pipe s) = [];
  id_apps : app_packets (pipe s) = [];
  id_socket : s_has_buffered_packets (app_socket s) = false }.

Definition round (t : nat) (now : Z) (f buf : list Z) : list pipe_event :=
  [NicBurst [f]; Dispatch now; WorkerPoll t; WorkerFrame t now; AppRecv buf].

(** The frame is in the pool, and the dispatcher has it. *)
Lemma round_nic b s L f :
  sys_inv b s L -> idle s -> Forall is_u8 f -> zlen f <= frame_size (pl_pool (pipe s)) ->
  exists p ref, pipe_step s (NicBurst [f]) =
      Done (s <| pipe := (pipe s) <| pl_pool := p |> |> <| rx_refs := [ref] |> <| delivered := delivered s ++ [f] |>) /\
    frame_slice p ref = Done f.
Proof.
  intros [Hp _ _ _] [I1 I2 I3 I4 _] Hf Hl. cbn [pipe_step]. rewrite I1.
  destruct (alloc_copy_ok b _ _ L _ f Hp Hf) as (p & o & L' & E & Es & _ & _ & Hsl & Hnone). cbn [recv_into_pool]. rewrite E. cbn [obind].
  assert (take (Z.to_nat (frame_size (pl_pool (pipe s)))) f = f) as Et by (apply take_ge; unfold zlen in Hl; lia).
  destruct o as [ref|].
  - exists p, ref. cbn [obind fmap list_fmap]. rewrite Es, Et. split; [done|]. rewrite <- Et. by apply Hsl.
  - pose proof (po_perm _ _ _ _ _ Hp) as HL. rewrite Hnone in HL by done. unfold hand_refs, ring_refs in HL. rewrite I1, I2, I3, I4 in HL.
    apply Permutation_length in HL. rewrite length_seqZ in HL. cbn in HL. pose proof (wp_capacity _ (po_wf _ _ _ _ _ Hp)). lia.
Qed.

(** It reaches the application ring of the worker whose turn it is. *)
Lemma round_worker b s L now f payload src :
  sys_inv b s L -> idle s -> b < 2 ^ 61 -> Forall is_u8 f -> zlen f <= frame_size (pl_pool (pipe s)) ->
  carries_datagram (pl_port (pipe s)) f payload src ->
  exists s' a, pipe_run s [NicBurst [f]; Dispatch now; WorkerPoll (target (pipe s)); WorkerFrame (target (pipe s)) now] = Done s' /\
    only (target (pipe s)) [a] (pl_app_rings (pipe s')) /\ length (pl_app_rings (pipe s')) = length (pl_app_rings (pipe s)) /\
    describes (pl_pool (pipe s')) a f payload /\ ap_src_addr a = src /\
    rx_refs s' = [] /\ mjoin (batches s') = [] /\ worker_refs (pipe s') = [] /\ app_socket s' = app_socket s /\
    answers s' = answers s /\ pl_rr (pipe s') = u64 (pl_rr (pipe s) + 1).
Proof.
  intros Hinv Hidle Hb Hf Hl Hc. set (t := target (pipe s)).
  destruct (round_nic b s L f Hinv Hidle Hf Hl) as (p & ref & E1 & Hsl). cbn [pipe_run]. rewrite E1. cbn [obind].
  destruct Hinv as [Hp Hbat _ _]. destruct Hidle as [I1 I2 I3 I4 _]. pose proof (po_workers _ _ _ _ _ Hp) as [Hw Hne].
  pose proof (po_apps _ _ _ _ _ Hp) as [Ha Hla]. pose proof (target_lt (pipe s) Hne) as Ht. fold t in Ht.
  apply (ring_items_only _ t) in I3, I4. destruct (lookup_lt_is_Some_2 _ _ Ht) as [q Hq].
  destruct (lookup_lt_is_Some_2 (pl_app_rings (pipe s)) t ltac:(lia)) as [qa Hqa].
  assert (batches s !! t = Some []) as Hbt.
  { destruct (lookup_lt_is_Some_2 (batches s) t ltac:(lia)) as [l El]. rewrite El. pose proof (join_insert _ _ _ [] El) as Hj.
    rewrite I2 in Hj. apply Permutation_length in Hj. rewrite length_app in Hj. cbn in Hj. destruct l; [done|cbn in Hj; lia]. }
  assert (q_items q = [] /\ q_items qa = []) as [Hiq Hiqa].
  { rewrite (I3 _ _ Hq), (I4 _ _ Hqa). by case_decide. }
  pose proof (Forall_lookup_1 _ _ _ _ Hw Hq) as Hokq. pose proof (Forall_lookup_1 _ _ _ _ Ha Hqa) as Hoka.
  (* dispatcher *)
  cbn [pipe_step]. rsimpl. pose proof Hc as (u & Hparse & _).
  rewrite (dispatch_udp ((pipe s) <| pl_pool := p |>) now ref f u) by done.
  assert (target ((pipe s) <| pl_pool := p |>) = t) as Et by (unfold target, t; by rsimpl).
  destruct (hand_udp b ((pipe s) <| pl_pool := p |>) ref q) as (q1 & E2 & Hi1 & Hok1); [by rewrite Et; rsimpl|done..|].
  rewrite E2, Et. cbn [obind]. rsimpl.
  (* worker's poll *)
  rewrite Hbt, list_lookup_insert_eq by done.
  destruct (q_batch_law _ q1 32 (proj1 Hok1) ltac:(destruct Hok1; lia)) as (q2 & E3 & _ & _ & _ & Hi2). rewrite E3, Hi1. rewrite Hi1 in Hi2.
  cbn [obind take drop] in *. rsimpl. rewrite list_insert_insert_eq.
  (* worker's frame *)
  rewrite list_lookup_insert_eq by lia. set (bs := <[t := [ref]]> (batches s)).
  match goal with |- context [worker_frame ?pl _ _ _] => set (pl3 := pl) end.
  destruct (worker_udp b pl3 now t ref f payload src qa) as (c & qa' & a & E4 & Hia & Hdesc & Hsrc); try done.
  { pose proof (po_size _ _ _ _ _ Hp). lia. }
  rewrite E4. cbn [obind]. eexists _, a. split; [reflexivity|]. unfold worker_refs, pl3 in *. rsimpl. rsimpl_in Hdesc. split_and!; try done.
  - by eapply only_insert.
  - apply length_insert.
  - unfold bs. rewrite list_insert_insert_eq, list_insert_id by done. done.
  - apply (ring_items_only _ t). by eapply only_insert.
Qed.

(** One datagram through an idle pipeline, which is idle again. *)
Lemma round_delivers b s L now f payload src buf :
  sys_inv b s L -> idle s -> b + 5 < 2 ^ 61 -> Forall is_u8 f -> zlen f <= frame_size (pl_pool (pipe s)) ->
  carries_datagram (pl_port (pipe s)) f payload src ->
  s_connected_addr (app_socket s) = None \/ s_connected_addr (app_socket s) = Some src ->
  exists s', pipe_run s (round (target (pipe s)) now f buf) = Done s' /\ idle s' /\ app_socket s' = app_socket s /\
    answers s' = answers s ++ [(take (length buf) payload, src)] /\ pl_rr (pipe s') = u64 (pl_rr (pipe s) + 1).
Proof.
  intros Hinv Hidle Hb Hf Hl Hc Hconn.
  destruct (round_worker b s L now f payload src Hinv Hidle ltac:(lia) Hf Hl Hc)
    as (s4 & a & E & Ho & Hla & Hd & Hsrc & R1 & R2 & R3 & R4 & R5 & R6).
  set (es := [NicBurst [f]; Dispatch now; WorkerPoll (target (pipe s)); WorkerFrame (target (pipe s)) now]) in *.
  destruct (pipe_run_ok es b s L Hinv ltac:(cbn; lia)) as (s4' & L4 & E' & [Hp _ _ _] & Hfx & _); [by repeat constructor|].
  rewrite E in E'. injection E' as <-. unfold hand_refs in Hp. rewrite R1, R2 in Hp. cbn [app] in Hp.
  change (round (target (pipe s)) now f buf) with (es ++ [AppRecv buf]).
  assert (pipe_run s (es ++ [AppRecv buf]) = pipe_run s4 [AppRecv buf]) as ->.
  { unfold es in *. cbn [app pipe_run] in *. repeat (match goal with |- context [pipe_step ?s ?e] => destruct (pipe_step s e); cbn [obind] in E |- *; [|done..] end).
    by injection E as ->. }
  pose proof Hinv as [Hp0 _ _ _]. pose proof (po_apps _ _ _ _ _ Hp0) as [_ Hl0]. pose proof (po_workers _ _ _ _ _ Hp0) as [_ Hne].
  pose proof (target_lt (pipe s) Hne) as Ht.
  destruct (recv_udp (b + Z.of_nat (length es)) _ _ L4 (app_socket s4) (app_rr s4) buf a f payload (target (pipe s)) Hp)
    as (pl' & rr' & buf' & n & Er & Hread & W1 & W2 & W3); try done.
  - cbn. lia.
  - rewrite R4. apply Hidle.
  - by rewrite R4, Hsrc.
  - lia.
  - cbn [pipe_run pipe_step]. rewrite Er. cbn [obind]. rewrite Hread. cbn [obind]. eexists. split; [reflexivity|].
    rsimpl. rewrite R5, W3, Hsrc. split_and!; try done. constructor; unfold worker_refs, app_packets in *; rsimpl; try done.
    + by rewrite W1.
    + rewrite R4. apply Hidle.
Qed.


(** ** Round after round *)

(** A frame of the wire with the datagram it carries, and the application's buffer. *)
Record Transfer := MkTransfer { x_now : Z; x_frame : list Z; x_payload : list Z; x_src : SocketAddr; x_buf : list Z }.

Definition transfer_ok (size port : Z) (sock : UdpSocket) (x : Transfer) : Prop :=
  Forall is_u8 (x_frame x) /\ zlen (x_frame x) <= size /\ carries_datagram port (x_frame x) (x_payload x) (x_src x) /\
  (s_connected_addr sock = None \/ s_connected_addr sock = Some (x_src x)).

Definition handed (x : Transfer) : list Z * SocketAddr := (take (length (x_buf x)) (x_payload x), x_src x).

(** The dispatcher gives each frame to the next of [n] workers. *)
Fixpoint rounds (n : nat) (rr : Z) (xs : list Transfer) : list pipe_event :=
  match xs with
  | [] => []
  | x :: xs => round (Z.to_nat (rr mod Z.of_nat n)) (x_now x) (x_frame x) (x_buf x) ++ rounds n (u64 (rr + 1)) xs
  end.

Lemma pipe_run_app s es es' : pipe_run s (es ++ es') = let! s' := pipe_run s es in pipe_run s' es'.
Proof.
  revert s. induction es as [|e es IH]; intros s; [done|]. cbn [app pipe_run]. destruct (pipe_step s e); cbn [obind]; [apply IH|done..].
Qed.

Lemma rounds_deliver : forall xs b s L,
  sys_inv b s L -> idle s -> b + 5 * zlen xs < 2 ^ 61 ->
  Forall (transfer_ok (frame_size (pl_pool (pipe s))) (pl_port (pipe s)) (app_socket s)) xs ->
  exists s', pipe_run s (rounds (length (pl_workers (pipe s))) (pl_rr (pipe s)) xs) = Done s' /\ idle s' /\
    answers s' = answers s ++ map handed xs.
Proof.
  induction xs as [|x xs IH]; intros b s L Hinv Hidle Hb Hx; cbn [rounds map].
  - exists s. by rewrite app_nil_r.
  - apply Forall_cons in Hx as [(Hf & Hl & Hc & Hconn) Hx]. unfold zlen in *. cbn [length] in Hb.
    destruct (round_delivers b s L (x_now x) (x_frame x) (x_payload x) (x_src x) (x_buf x) Hinv Hidle ltac:(lia) Hf Hl Hc Hconn)
      as (s1 & E & Hidle1 & Es & Ea & Err).
    fold (target (pipe s)). rewrite pipe_run_app, E. cbn [obind].
    destruct (pipe_run_ok (round (target (pipe s)) (x_now x) (x_frame x) (x_buf x)) b s L Hinv ltac:(cbn; lia))
      as (s1' & L1 & E' & Hinv1 & Hfx & _); [by repeat constructor|].
    rewrite E in E'. injection E' as <-. destruct (fixed_port _ _ Hfx) as (F1 & F2 & _ & F4).
    destruct (IH (b + 5) s1 L1) as (s2 & E2 & Hidle2 & Ea2); [done..|lia|by rewrite F1, F2, Es|].
    rewrite F4, Err in E2. exists s2. split_and!; [done..|]. rewrite Ea2, Ea, <- app_assoc. done.
Qed.

End Live.

(** ** Theorems *)

(** C13: Datagrams get through: in a pipeline that
    [start_pipeline] has built (any number of workers), frames that arrive one after another, each carrying a
    datagram for the socket's port with right checksums and fitting a pool slot, go from the NIC through the
    dispatcher, the worker whose turn it is and its ring to the application, which gets their payloads
    (cut to its buffer) and source addresses, all and in order, and leave the pipeline idle. *)
Theorem datagrams_reach_the_application cap size config pl sock xs :
  build_pipeline cap size config = Some pl -> cap <= 2 ^ 31 -> size <= 65535 ->
  packets (s_queue sock) = [] -> s_has_buffered_packets sock = false ->
  Forall (transfer_ok (Z.max size 64) (pc_local_port config) sock) xs -> 5 * zlen xs < 2 ^ 61 ->
  exists s, pipe_run (pipe_init pl sock) (rounds (length (pl_workers pl)) 0 xs) = Done s /\
    answers s = map handed xs /\ idle s.
Proof.
  intros Hb Hc Hs Hq Hbuf Hx Hn. destruct (build_pipeline_ok cap size config pl sock Hb Hc Hs Hq) as (Hinv & Epo & Ep & _).
  assert (pl_rr pl = 0 /\ worker_refs pl = [] /\ app_packets pl = []) as (Er & Hw & Ha).
  { unfold build_pipeline in Hb. destruct (is_run_to_completion _); [done|]. injection Hb as <-.
    split_and!; [done|apply ring_items_empty; lia..]. }
  destruct (rounds_deliver xs 0 (pipe_init pl sock) _ Hinv) as (s & E & Hi & Ea).
  - constructor; cbn; [done| |done..]. by apply join_replicate_nil.
  - lia.
  - cbn [pipe_init pipe app_socket]. by rewrite Ep, Epo.
  - exists s. cbn [pipe_init pipe] in E. rewrite Er in E. done.
Qed.

Lemma datagrams_reach_the_application_witness :
  exists s, pipe_run (pipe_init sample_pipeline sample_socket)
      (rounds 2 0 [MkTransfer 1 (sample_frame host_a [1; 2; 3]) [1; 2; 3] (V4 host_a 7000) [0; 0];
                   MkTransfer 2 (sample_frame host_a [4]) [4] (V4 host_a 7000) [0; 0]]) = Done s /\
    answers s = [([1; 2], V4 host_a 7000); ([4], V4 host_a 7000)].
Proof.
  destruct (datagrams_reach_the_application 4 64 sample_config sample_pipeline sample_socket
    [MkTransfer 1 (sample_frame host_a [1; 2; 3]) [1; 2; 3] (V4 host_a 7000) [0; 0];
     MkTransfer 2 (sample_frame host_a [4]) [4] (V4 host_a 7000) [0; 0]]) as (s & E & Ea & _).
  - reflexivity.
  - lia.
  - lia.
  - reflexivity.
  - reflexivity.
  - apply Forall_cons_2; [|apply Forall_cons_2; [|apply Forall_nil_2]]; cbn [x_frame x_payload x_src].
    all: split; [apply (bool_decide_unpack (Forall (fun z => 0 <= z < 256) _)); vm_compute; exact I|]; split; [vm_compute; congruence|].
    all: split; [eexists; split_and!; [vm_compute; reflexivity|reflexivity..]|left; reflexivity].
  - reflexivity.
  - exists s. split; [exact E|]. rewrite Ea. reflexivity.
Defined.
