(* ===== verification/MmapRing.v ===== *)
(** * The packet rings shared with the kernel (dpdk-stdlib-net/src/ring_buffer.rs)

    The PACKET_MMAP receive and transmit rings of the AF_PACKET backend, with [send_mmap] and [recv_mmap] of
    backend_raw.rs.  The mapping is modelled as the list of its frames ([frame_header] addresses frame [i]
    at byte [i * frame_size]); that all of them lie inside the mapping is part of
    [ring_config_fits].  An access that leaves a frame is a [Panic].  What the kernel writes into a frame is
    a parameter. *)

From stdpp Require Import base numbers list.
From Stdlib Require Import ZArith Lia.
From S2P Require Import Prelude Buffer State.

#[local] Open Scope Z_scope.

(** ** Geometry *)

Definition TP_STATUS_KERNEL : Z := 0.
Definition TP_STATUS_USER : Z := 1.
Definition TP_STATUS_SEND_REQUEST : Z := 1.
Definition TP_STATUS_AVAILABLE : Z := 0.

Record TpacketReq := MkReq { tp_block_size : Z; tp_block_nr : Z; tp_frame_size : Z; tp_frame_nr : Z }.

Definition TPACKET2_HDRLEN : Z := 32.
Definition TPACKET_ALIGNMENT : Z := 16.

Definition tpacket_align (x : Z) : Z := Z.land (x + TPACKET_ALIGNMENT - 1) (Z.lnot (TPACKET_ALIGNMENT - 1)).

Record RingConfig := MkRingConfig { rc_frame_size : Z; rc_frame_count : Z }.

Definition ring_config_default : RingConfig := MkRingConfig 2048 256.

(** The doubling loop of [block_size]. *)
Fixpoint block_loop (fuel : nat) (block_size frame_size : Z) : outcome Z :=
  match fuel with
  | O => OutOfFuel
  | S fuel =>
      if block_size <? frame_size then
        if 2 ^ 64 <=? block_size * 2 then Panic else block_loop fuel (block_size * 2) frame_size
      else Done block_size
  end.

Definition BLOCK_FUEL : nat := 53.

Definition block_size (c : RingConfig) : outcome Z :=
  let! b := block_loop BLOCK_FUEL 4096 (rc_frame_size c) in Done (u32 b).

(** A division by zero panics. *)
Definition cdiv (a b : Z) : outcome Z := if b =? 0 then Panic else Done (a / b).

Definition block_count (c : RingConfig) : outcome Z :=
  let! b := block_size c in
  let! frames_per_block := cdiv b (rc_frame_size c) in
  if frames_per_block =? 0 then Done (rc_frame_count c)
  else cdiv (u32 (rc_frame_count c + frames_per_block - 1)) (u32 frames_per_block).

Definition total_size (c : RingConfig) : outcome Z :=
  let! b := block_size c in let! n := block_count c in Done (b * n).

Definition to_tpacket_req (c : RingConfig) : outcome TpacketReq :=
  let! b := block_size c in
  let! frames_per_block := cdiv b (rc_frame_size c) in
  let! n := block_count c in
  Done (MkReq b n (u32 (rc_frame_size c)) (u32 (n * frames_per_block))).

(** ** The ring *)

Definition le32 (z : Z) : list Z := [u8 z; u8 (z / 256); u8 (z / 65536); u8 (z / 16777216)].
Definition of_le32 (l : list Z) : Z := match l with [a; b; c; d] => a + 256 * b + 65536 * c + 16777216 * d | _ => 0 end.
Definition of_le16 (l : list Z) : Z := match l with [a; b] => a + 256 * b | _ => 0 end.

(** The fields of [Tpacket2Hdr] the code uses, in the bytes of a frame. *)
Definition hdr_status (fr : list Z) : outcome Z := let! b := slice fr 0 4 in Done (of_le32 b).
Definition hdr_len (fr : list Z) : outcome Z := let! b := slice fr 4 8 in Done (of_le32 b).
Definition hdr_snaplen (fr : list Z) : outcome Z := let! b := slice fr 8 12 in Done (of_le32 b).
Definition hdr_mac (fr : list Z) : outcome Z := let! b := slice fr 12 14 in Done (of_le16 b).

Record MmapRing := MkMmap { mm_frames : list (list Z); mm_frame_size : nat; current_frame : nat }.

#[global] Instance eta_MmapRing : Eta MmapRing := fun r => MkMmap (mm_frames r) (mm_frame_size r) (current_frame r).

Definition frame_header (r : MmapRing) (index : nat) : outcome (list Z) :=
  match mm_frames r !! index with Some fr => Done fr | None => Panic end.

Definition frame_status (r : MmapRing) (index : nat) : outcome Z :=
  let! fr := frame_header r index in hdr_status fr.

Definition set_frame_status (r : MmapRing) (index : nat) (status : Z) : outcome MmapRing :=
  let! fr := frame_header r index in
  let! fr := blit fr 0 4 (le32 status) in
  Done (r <| mm_frames := <[index := fr]> (mm_frames r) |>).

(** [frame_data] of one frame. *)
Definition packet_data (fr : list Z) : outcome (option (list Z)) :=
  let! mac_offset := hdr_mac fr in
  let! snaplen := hdr_snaplen fr in
  if (mac_offset =? 0) || (snaplen =? 0) then Done None
  else let! d := slice fr (Z.to_nat mac_offset) (Z.to_nat mac_offset + Z.to_nat snaplen) in Done (Some d).

Definition frame_data (r : MmapRing) (index : nat) : outcome (option (list Z)) :=
  let! fr := frame_header r index in packet_data fr.

Definition DATA_OFFSET : nat := Z.to_nat (tpacket_align TPACKET2_HDRLEN).

(** [write_tx_frame]. *)
Definition write_tx_frame (r : MmapRing) (frame : list Z) : outcome (MmapRing * result nat ErrorKind) :=
  let index := current_frame r in
  let! status := frame_status r index in
  if negb (status =? TP_STATUS_AVAILABLE) then Done (r, Err KWouldBlock)
  else if (mm_frame_size r <? DATA_OFFSET)%nat then Panic
  else
    let available := (mm_frame_size r - DATA_OFFSET)%nat in
    if (available <? length frame)%nat then Done (r, Err KInvalidInput)
    else
      let! fr := frame_header r index in
      let! fr := blit fr DATA_OFFSET (DATA_OFFSET + length frame) frame in
      let! fr := blit fr 4 8 (le32 (zlen frame)) in
      let! fr := blit fr 8 12 (le32 (zlen frame)) in
      let r := r <| mm_frames := <[index := fr]> (mm_frames r) |> in
      let! r := set_frame_status r index TP_STATUS_SEND_REQUEST in
      Done (r, Ok (length frame)).

(** [read_rx_frame]. *)
Definition read_rx_frame (r : MmapRing) : outcome (MmapRing * option (list Z)) :=
  let index := current_frame r in
  let! status := frame_status r index in
  if Z.land status TP_STATUS_USER =? 0 then Done (r, None)
  else
    let! data := frame_data r index in
    match data with
    | None => Done (r, None)
    | Some frame => let! r := set_frame_status r index TP_STATUS_KERNEL in Done (r, Some frame)
    end.

Definition advance (r : MmapRing) : outcome MmapRing :=
  if (length (mm_frames r) =? 0)%nat then Panic
  else Done (r <| current_frame := ((current_frame r + 1) mod length (mm_frames r))%nat |>).

(** ** The backend's use of it (backend_raw.rs) *)

Inductive SendError : Type := Kind (k : ErrorKind) | OsError (errno : Z).

Definition ENOBUFS : Z := 105.

(** [send_mmap]; [ret] is the error of the [sendto] that wakes the kernel, if it fails. *)
Definition send_mmap (r : MmapRing) (frame : list Z) (ret : option Z) : outcome (MmapRing * result nat SendError) :=
  let! (r, res) := write_tx_frame r frame in
  match res with
  | Err e => Done (r, Err (Kind e))
  | Ok n =>
      let! r := advance r in
      match ret with
      | Some errno => if errno =? ENOBUFS then Done (r, Ok n) else Done (r, Err (OsError errno))
      | None => Done (r, Ok n)
      end
  end.

(** [recv_mmap]. *)
Fixpoint recv_mmap (max_frames : nat) (r : MmapRing) : outcome (MmapRing * list (list Z)) :=
  match max_frames with
  | O => Done (r, [])
  | S max_frames =>
      let! (r, o) := read_rx_frame r in
      match o with
      | None => Done (r, [])
      | Some frame =>
          let! r := advance r in
          let! (r, frames) := recv_mmap max_frames r in
          Done (r, frame :: frames)
      end
  end.

(** ** Geometry is consistent *)

Lemma block_loop_ok fs : fs <= 2 ^ 31 -> forall fuel j, 12 <= j <= 31 -> 31 - j < Z.of_nat fuel ->
  exists k, j <= k <= 31 /\ block_loop fuel (2 ^ j) fs = Done (2 ^ k) /\ fs <= 2 ^ k.
Proof.
  intros Hfs. induction fuel as [|fuel IH]; intros j Hj Hf; [lia|]. cbn [block_loop].
  destruct (Z.ltb_spec (2 ^ j) fs) as [Hlt|]; [|exists j; split_and!; [lia..|done|done]].
  assert (j <> 31) by (intros ->; lia).
  replace (2 ^ j * 2) with (2 ^ (j + 1)) by (rewrite Z.pow_add_r by lia; lia).
  pose proof (Z.pow_le_mono_r 2 (j + 1) 31 ltac:(lia) ltac:(lia)). rewrite (proj2 (Z.leb_gt _ _)) by lia.
  destruct (IH (j + 1)) as (k & Hk & E & Hle); [lia|lia|]. exists k. split_and!; [lia..|done|done].
Qed.

(** Where the kernel puts frame [i]: frames do not cross blocks. *)
Definition kernel_offset (frame_size block_size i : Z) : Z :=
  i / (block_size / frame_size) * block_size + i mod (block_size / frame_size) * frame_size.

(** The geometry the rings are set up with is sound: for every frame size up to 2 GiB and every number of frames the block size is a power of
    two of at least a page that holds a frame, at least as many frames as asked for are requested, no
    computation overflows, and every frame the code addresses lies inside the
    mapping; it is the kernel's frame if the frame size divides the block size, and from the second block on only then. *)
Theorem ring_config_fits c :
  0 < rc_frame_size c <= 2 ^ 31 -> 0 < rc_frame_count c < 2 ^ 31 ->
  exists req total, to_tpacket_req c = Done req /\ total_size c = Done total /\
    (exists k, 12 <= k /\ tp_block_size req = 2 ^ k) /\ rc_frame_size c <= tp_block_size req /\
    total = tp_block_size req * tp_block_nr req /\ rc_frame_count c <= tp_frame_nr req /\
    forall i, 0 <= i < tp_frame_nr req -> i * rc_frame_size c + rc_frame_size c <= total /\
      (i * rc_frame_size c = kernel_offset (rc_frame_size c) (tp_block_size req) i <->
       (rc_frame_size c | tp_block_size req) \/ i < tp_block_size req / rc_frame_size c).
Proof.
  destruct c as [fs n]. cbn [rc_frame_size rc_frame_count]. intros Hfs Hn.
  destruct (block_loop_ok fs ltac:(lia) BLOCK_FUEL 12 ltac:(lia) ltac:(unfold BLOCK_FUEL; lia)) as (k & Hk & Eb & Hle).
  change (2 ^ 12) with 4096 in Eb. pose proof (Z.pow_le_mono_r 2 k 31 ltac:(lia) ltac:(lia)) as Hmax.
  assert (block_size (MkRingConfig fs n) = Done (2 ^ k)) as Ebs.
  { unfold block_size. cbn [rc_frame_size]. rewrite Eb. cbn [obind]. by rewrite u32_small by (unfold is_u32; lia). }
  set (b := 2 ^ k) in *. set (f := b / fs).
  assert (1 <= f /\ f * fs <= b < f * fs + fs) as [Hf1 Hf2].
  { pose proof (Z.div_mod b fs ltac:(lia)). pose proof (Z.mod_pos_bound b fs ltac:(lia)). unfold f. nia. }
  assert (f <= 2 ^ 31) as Hfmax by nia.
  assert ((fs | b) -> b = f * fs) as Hdiv by (intros [x Hx]; unfold f; rewrite Hx at 2; rewrite Z.div_mul by lia; done).
  assert (block_count (MkRingConfig fs n) = Done ((n + f - 1) / f)) as Ebc.
  { unfold block_count. rewrite Ebs. cbn [obind rc_frame_size rc_frame_count]. unfold cdiv. rewrite (proj2 (Z.eqb_neq fs 0)) by lia. cbn [obind]. fold f.
    rewrite (proj2 (Z.eqb_neq f 0)) by lia. rewrite !u32_small by (unfold is_u32; lia). by rewrite (proj2 (Z.eqb_neq f 0)) by lia. }
  set (m := (n + f - 1) / f) in *.
  assert (n <= m * f < n + f) as Hm.
  { pose proof (Z.div_mod (n + f - 1) f ltac:(lia)). pose proof (Z.mod_pos_bound (n + f - 1) f ltac:(lia)). unfold m. nia. }
  exists (MkReq b m fs (m * f)), (b * m). cbn [tp_block_size tp_block_nr tp_frame_nr].
  split; [|split; [|split; [|split; [|split; [|split]]]]]; try done; try lia.
  - unfold to_tpacket_req. rewrite Ebs. cbn [obind rc_frame_size]. unfold cdiv. rewrite (proj2 (Z.eqb_neq fs 0)) by lia. cbn [obind].
    rewrite Ebc. cbn [obind]. fold f. by rewrite !u32_small by (unfold is_u32; lia).
  - unfold total_size. rewrite Ebs. cbn [obind]. rewrite Ebc. done.
  - exists k. split; [lia|done].
  - intros i Hi. split; [nia|]. unfold kernel_offset. fold f. pose proof (Z.div_mod i f ltac:(lia)) as Hdm. pose proof (Z.mod_pos_bound i f ltac:(lia)) as Hr.
    pose proof (Z.div_pos i f ltac:(lia) ltac:(lia)) as Hq. set (q := i / f) in *. set (r := i mod f) in *. split.
    + intros E. assert (q * (b - f * fs) = 0) as E0 by nia. apply Z.mul_eq_0 in E0 as [E0|E0]; [right; nia|left; exists f; lia].
    + intros [Hx|Hlt]; [rewrite (Hdiv Hx) at 1; nia|assert (q = 0) by nia; nia].
Qed.

Lemma ring_config_fits_witness :
  exists req total, to_tpacket_req ring_config_default = Done req /\ total_size ring_config_default = Done total /\
    256 <= tp_frame_nr req.
Proof.
  destruct (ring_config_fits ring_config_default) as (req & total & H1 & H2 & _ & _ & _ & H3 & _); [vm_compute; split; congruence|vm_compute; split; congruence|].
  exists req, total. split_and!; [exact H1|exact H2|exact H3].
Defined.

(** ** Positions *)

(** The position [j] places after [c] in a ring of [n] frames. *)
Definition nth_after (n c j : nat) : nat := ((c + j) mod n)%nat.

Definition at_pos (r : MmapRing) (j : nat) : nat := nth_after (length (mm_frames r)) (current_frame r) j.

Lemma nth_after_lt n c j : (0 < n)%nat -> (nth_after n c j < n)%nat.
Proof. intros H. apply Nat.mod_upper_bound. lia. Qed.

Lemma nth_after_wrap n c : nth_after n c n = nth_after n c 0.
Proof. unfold nth_after. rewrite Nat.add_0_r. replace (c + n)%nat with (c + 1 * n)%nat by lia. apply Nat.Div0.mod_add. Qed.

Lemma nth_after_assoc n c i j : nth_after n (nth_after n c i) j = nth_after n c (i + j).
Proof. unfold nth_after. rewrite Nat.Div0.add_mod_idemp_l. f_equal. lia. Qed.

Lemma nth_after_inj n c i j : (i < n)%nat -> (j < n)%nat -> nth_after n c i = nth_after n c j -> i = j.
Proof.
  unfold nth_after. intros Hi Hj E.
  pose proof (Nat.div_mod_eq (c + i) n) as Ei. pose proof (Nat.div_mod_eq (c + j) n) as Ej. rewrite E in Ei.
  set (a := ((c + i) / n)%nat) in *. set (b := ((c + j) / n)%nat) in *.
  destruct (Nat.lt_trichotomy a b) as [Hab|[Hab|Hab]]; [nia| |nia]. rewrite Hab in Ei. lia.
Qed.

(** ** Headers *)

Lemma le32_of z : is_u32 z -> of_le32 (le32 z) = z.
Proof.
  intros Hz. unfold le32, of_le32, u8, is_u32 in *.
  pose proof (Z.div_mod z 256 ltac:(lia)). pose proof (Z.div_mod (z / 256) 256 ltac:(lia)). pose proof (Z.div_mod (z / 256 / 256) 256 ltac:(lia)).
  replace (z / 65536) with (z / 256 / 256) by (rewrite Z.div_div by lia; done).
  replace (z / 16777216) with (z / 256 / 256 / 256) by (rewrite !Z.div_div by lia; done).
  rewrite (Z.mod_small (z / 256 / 256 / 256)); [lia|]. split; [repeat apply Z.div_pos; lia|].
  rewrite !Z.div_div by lia. apply Z.div_lt_upper_bound; lia.
Qed.

(** A store and a later load of a field. *)
Lemma blit_slice (fr : list Z) a b src :
  (a <= b <= length fr)%nat -> length src = (b - a)%nat ->
  exists fr', blit fr a b src = Done fr' /\ length fr' = length fr /\ slice fr' a b = Done src /\
    (forall x y, (x <= y <= a)%nat \/ (b <= x)%nat /\ (x <= y <= length fr)%nat -> slice fr' x y = slice fr x y).
Proof.
  intros Hab Hl. unfold blit.
  rewrite (proj2 (Nat.leb_le _ _)), (proj2 (Nat.leb_le _ _)), (proj2 (Nat.eqb_eq _ _)) by lia. eexists. split; [reflexivity|].
  assert (length (take a fr ++ src ++ drop b fr) = length fr) as El by (rewrite !length_app, length_take, length_drop; lia).
  split; [done|]. split.
  - replace b with (a + length src)%nat at 2 by lia. apply slice_mid; [rewrite length_take; lia|done].
  - intros x y Hxy. rewrite !slice_in_range by lia. f_equal. apply list_eq. intros i. rewrite !lookup_take.
    case_decide; [|done]. rewrite !lookup_drop. destruct Hxy as [Hxy|Hxy].
    + rewrite lookup_app_l by (rewrite length_take; lia). rewrite lookup_take. by rewrite decide_True by lia.
    + rewrite lookup_app_r by (rewrite length_take; lia). rewrite lookup_app_r by (rewrite length_take; lia).
      rewrite lookup_drop, length_take. f_equal. lia.
Qed.

(** Setting the status leaves the packet. *)
Lemma set_status_ok (fr : list Z) st :
  (32 <= length fr)%nat -> is_u32 st ->
  exists fr', blit fr 0 4 (le32 st) = Done fr' /\ length fr' = length fr /\ hdr_status fr' = Done st /\
    (forall x y, (4 <= x)%nat -> (x <= y <= length fr)%nat -> slice fr' x y = slice fr x y).
Proof.
  intros Hl Hst. destruct (blit_slice fr 0 4 (le32 st) ltac:(lia) eq_refl) as (fr' & E & Hl' & Hs & Ho).
  exists fr'. split_and!; [done..| |intros x y ? ?; apply Ho; lia]. unfold hdr_status. rewrite Hs. cbn [obind]. by rewrite le32_of.
Qed.

(** A frame that waits for its next packet, such as one of a fresh mapping. *)
Definition free_frame_ok (fs : nat) (fr : list Z) : Prop := length fr = fs /\ hdr_status fr = Done 0.

Lemma zero_frame_free fs : (32 <= fs)%nat -> free_frame_ok fs (replicate fs 0).
Proof.
  intros H. split; [apply length_replicate|]. unfold hdr_status. rewrite slice_in_range by (rewrite ?length_replicate; lia).
  by rewrite drop_0, take_replicate, Nat.min_l by lia.
Qed.

(** ** Receiving *)

Section Rx.

(** [fill fr d] is the frame [fr] after the kernel has put packet [d] into it: it is
    marked for the user and its header describes the packet. *)
Context (fill : list Z -> list Z -> list Z) (room : nat).

Definition fill_contract (fs : nat) : Prop := forall fr d, length fr = fs -> (0 < length d <= room)%nat ->
  length (fill fr d) = fs /\ (exists st, hdr_status (fill fr d) = Done st /\ Z.land st TP_STATUS_USER <> 0) /\
  packet_data (fill fr d) = Done (Some d).

(** The kernel's side: its own position, and what it does with a packet. *)
Record RxSys := MkRxSys { rx_ring : MmapRing; rx_kernel : nat }.

Definition kernel_receive (s : RxSys) (d : list Z) : outcome (RxSys * bool) :=
  let! fr := frame_header (rx_ring s) (rx_kernel s) in
  let! st := hdr_status fr in
  if st =? TP_STATUS_KERNEL then
    let r := (rx_ring s) <| mm_frames := <[rx_kernel s := fill fr d]> (mm_frames (rx_ring s)) |> in
    Done (MkRxSys r ((rx_kernel s + 1) mod length (mm_frames (rx_ring s)))%nat, true)
  else Done (s, false).

Inductive rx_event : Type := Arrives (d : list Z) | Recv (max_frames : nat).

Fixpoint rx_run (s : RxSys) (es : list rx_event) : outcome (RxSys * list (list (list Z))) :=
  match es with
  | [] => Done (s, [])
  | Arrives d :: es => let! (s, _) := kernel_receive s d in rx_run s es
  | Recv max_frames :: es =>
      let! (r, got) := recv_mmap max_frames (rx_ring s) in
      let! (s, gots) := rx_run (MkRxSys r (rx_kernel s)) es in
      Done (s, got :: gots)
  end.

(** The specification: a queue of at most [n] packets. *)
Fixpoint fifo_rx (n : nat) (q : list (list Z)) (es : list rx_event) : list (list (list Z)) :=
  match es with
  | [] => []
  | Arrives d :: es => fifo_rx n (if (length q <? n)%nat then q ++ [d] else q) es
  | Recv max_frames :: es => take max_frames q :: fifo_rx n (drop max_frames q) es
  end.

Definition full_frame_ok (fs : nat) (d fr : list Z) : Prop :=
  length fr = fs /\ (exists st, hdr_status fr = Done st /\ Z.land st TP_STATUS_USER <> 0) /\ packet_data fr = Done (Some d).

Record rx_inv (fs : nat) (s : RxSys) (q : list (list Z)) : Prop := {
  ri_size : mm_frame_size (rx_ring s) = fs /\ (32 <= fs)%nat;
  ri_current : (current_frame (rx_ring s) < length (mm_frames (rx_ring s)))%nat;
  ri_len : (length q <= length (mm_frames (rx_ring s)))%nat;
  ri_kernel : rx_kernel s = at_pos (rx_ring s) (length q);
  ri_frames : forall j, (j < length (mm_frames (rx_ring s)))%nat ->
    exists fr, mm_frames (rx_ring s) !! at_pos (rx_ring s) j = Some fr /\
      match q !! j with Some d => full_frame_ok fs d fr | None => free_frame_ok fs fr end }.

Lemma read_one fs s d q :
  rx_inv fs s (d :: q) ->
  exists r r', read_rx_frame (rx_ring s) = Done (r, Some d) /\ advance r = Done r' /\
    length (mm_frames r') = length (mm_frames (rx_ring s)) /\ rx_inv fs (MkRxSys r' (rx_kernel s)) q.
Proof.
  intros [[Hfs Hmin] Hc Hl Hk Hf]. set (R := rx_ring s) in *. set (n := length (mm_frames R)) in *.
  destruct (Hf 0%nat ltac:(lia)) as (fr & Hfr & Hfl & (st & Hst & Hu) & Hpk). unfold at_pos, nth_after in Hfr. fold n in Hfr. rewrite Nat.add_0_r, Nat.mod_small in Hfr by lia.
  destruct (set_status_ok fr TP_STATUS_KERNEL ltac:(lia) ltac:(done)) as (fr' & Eb & Hl' & Hst' & _).
  unfold read_rx_frame, frame_status, frame_data, set_frame_status, frame_header. rewrite Hfr. cbn [obind]. rewrite Hst. cbn [obind].
  rewrite (proj2 (Z.eqb_neq _ _)) by done. rewrite Hpk. cbn [obind]. rewrite Eb. cbn [obind].
  eexists _, _. split; [reflexivity|]. unfold advance. rsimpl. rewrite length_insert. fold n.
  rewrite (proj2 (Nat.eqb_neq n 0)) by lia. split; [reflexivity|]. rsimpl. split; [by rewrite length_insert|].
  assert (forall j, ((current_frame R + 1) mod n + j) mod n = (current_frame R + S j) mod n)%nat as Hpos
    by (intros j; rewrite Nat.Div0.add_mod_idemp_l; f_equal; lia).
  constructor; cbn [rx_ring rx_kernel]; unfold at_pos, nth_after; rsimpl; rewrite ?length_insert; fold n.
  - done.
  - apply Nat.mod_upper_bound. lia.
  - cbn in Hl. lia.
  - rewrite Hk. unfold at_pos, nth_after. fold n. cbn [length]. by rewrite Hpos.
  - intros j Hj. rewrite Hpos. destruct (decide (j = n - 1)%nat) as [->|Hne].
    + replace (current_frame R + S (n - 1))%nat with (current_frame R + 1 * n)%nat by lia. rewrite Nat.Div0.mod_add, Nat.mod_small by lia.
      rewrite list_lookup_insert_eq by lia. exists fr'. split; [done|].
      rewrite (proj2 (lookup_ge_None _ _)) by (cbn in Hl; lia). split; [lia|done].
    + destruct (Hf (S j) ltac:(lia)) as (g & Hg & Hg'). exists g. split; [|done].
      rewrite list_lookup_insert_ne; [done|]. intros E. assert (at_pos R 0 = at_pos R (S j)) as E'.
      { unfold at_pos, nth_after. fold n. rewrite Nat.add_0_r, <- E. by rewrite Nat.mod_small by lia. }
      apply nth_after_inj in E'; fold n; lia.
Qed.

Lemma recv_mmap_ok fs : forall max s q,
  rx_inv fs s q -> exists r, recv_mmap max (rx_ring s) = Done (r, take max q) /\
    length (mm_frames r) = length (mm_frames (rx_ring s)) /\ rx_inv fs (MkRxSys r (rx_kernel s)) (drop max q).
Proof.
  induction max as [|max IH]; intros s q H; cbn [recv_mmap take drop]; [by exists (rx_ring s); destruct s|].
  destruct q as [|d q].
  - destruct H as [Hfs Hc Hl Hk Hf]. destruct (Hf 0%nat ltac:(lia)) as (fr & Hfr & _ & Hst). unfold at_pos, nth_after in Hfr. rewrite Nat.add_0_r, Nat.mod_small in Hfr by lia.
    unfold read_rx_frame, frame_status, frame_header. rewrite Hfr. cbn [obind]. rewrite Hst. cbn. exists (rx_ring s). by destruct s.
  - destruct (read_one fs s d q H) as (r & r' & -> & Ha & Hlen & Hinv). cbn [obind]. rewrite Ha. cbn [obind].
    destruct (IH _ _ Hinv) as (r2 & E & Hl2 & H2). cbn [rx_ring] in E, Hl2. rewrite E. cbn [obind]. exists r2. split_and!; [done|congruence|done].
Qed.

Lemma kernel_receive_ok fs s q d :
  fill_contract fs -> rx_inv fs s q -> (0 < length d <= room)%nat ->
  exists s' b, kernel_receive s d = Done (s', b) /\ length (mm_frames (rx_ring s')) = length (mm_frames (rx_ring s)) /\
    rx_inv fs s' (if (length q <? length (mm_frames (rx_ring s)))%nat then q ++ [d] else q).
Proof.
  intros Hfill H Hd. pose proof H as [Hfs Hc Hl Hk Hf]. set (R := rx_ring s) in *. set (n := length (mm_frames R)) in *. unfold kernel_receive, frame_header.
  destruct (Nat.ltb_spec (length q) n) as [Hlt|Hge].
  - destruct (Hf (length q) Hlt) as (fr & Hfr & Hfree). rewrite (proj2 (lookup_ge_None q _)) in Hfree by lia. destruct Hfree as [Hfl Hst].
    rewrite Hk. fold R. rewrite Hfr. cbn [obind]. rewrite Hst. cbn [obind]. rewrite Z.eqb_refl.
    destruct (Hfill fr d Hfl Hd) as (F1 & F2 & F3). eexists _, true. split; [reflexivity|]. cbn [rx_ring]. rsimpl. rewrite length_insert. split; [done|].
    constructor; cbn [rx_ring rx_kernel]; rsimpl; rewrite ?length_insert; fold n; try done.
    + rewrite length_app. cbn. lia.
    + unfold at_pos, nth_after. rsimpl. rewrite length_insert. fold n. rewrite length_app. cbn [length]. rewrite Nat.Div0.add_mod_idemp_l. f_equal. lia.
    + intros j Hj. unfold at_pos, nth_after. rsimpl. rewrite length_insert. fold n. destruct (decide (j = length q)) as [->|Hne].
      * fold (at_pos R (length q)). rewrite list_lookup_insert_eq by (apply nth_after_lt; lia). eexists. split; [reflexivity|].
        rewrite list_lookup_middle by done. by repeat split.
      * destruct (Hf j Hj) as (g & Hg & Hg'). exists g. split.
        -- rewrite list_lookup_insert_ne; [done|]. intros E. apply nth_after_inj in E; lia.
        -- destruct (Nat.lt_ge_cases j (length q)); [by rewrite lookup_app_l by done|].
           rewrite (proj2 (lookup_ge_None q _)) in Hg' by lia. by rewrite (proj2 (lookup_ge_None _ _)) by (rewrite length_app; cbn; lia).
  - assert (length q = n) as Eq by lia. destruct (Hf 0%nat ltac:(lia)) as (fr & Hfr & Hfull).
    destruct (lookup_lt_is_Some_2 q 0 ltac:(lia)) as [d0 Hd0]. rewrite Hd0 in Hfull. destruct Hfull as (_ & (st & Hst & Hu) & _).
    assert (rx_kernel s = at_pos R 0) as ->.
    { rewrite Hk. unfold at_pos, nth_after. fold n. rewrite Eq, Nat.add_0_r. replace (current_frame R + n)%nat with (current_frame R + 1 * n)%nat by lia. apply Nat.Div0.mod_add. }
    fold R. rewrite Hfr. cbn [obind]. rewrite Hst. cbn [obind]. rewrite (proj2 (Z.eqb_neq _ _)) by (by intros ->). by exists s, false.
Qed.

(** C18: The receive ring is a bounded queue: for every sequence of packets arriving from the kernel and calls of [recv_mmap], the
    calls return the packets byte for byte in the order of arrival, up to the number asked for; a packet is lost only when all
    frames of the ring hold packets that have not been read. *)
Theorem mmap_rx_refines_fifo fs n es :
  fill_contract fs -> (32 <= fs)%nat -> (0 < n)%nat ->
  Forall (fun e => match e with Arrives d => (0 < length d <= room)%nat | Recv _ => True end) es ->
  exists s, rx_run (MkRxSys (MkMmap (replicate n (replicate fs 0)) fs 0) 0) es = Done (s, fifo_rx n [] es).
Proof.
  intros Hfill Hfs Hn Hes.
  assert (forall es s q, rx_inv fs s q -> length (mm_frames (rx_ring s)) = n ->
    Forall (fun e => match e with Arrives d => (0 < length d <= room)%nat | Recv _ => True end) es ->
    exists s', rx_run s es = Done (s', fifo_rx n q es)) as Hrun.
  { clear es Hes. induction es as [|[d|m] es IH]; intros s q H Hl Hes; cbn [rx_run fifo_rx]; [by exists s| |]; apply Forall_cons in Hes as [He Hes].
    - destruct (kernel_receive_ok fs s q d Hfill H He) as (s1 & b & -> & Hl1 & H1). cbn [obind]. rewrite Hl in H1. apply IH; [done|congruence|done].
    - destruct (recv_mmap_ok fs m s q H) as (r & -> & Hlr & H1). cbn [obind].
      destruct (IH _ _ H1) as (s2 & ->); [by rewrite <- Hl|done|by exists s2]. }
  apply Hrun; [|apply length_replicate|done]. constructor; cbn; rewrite ?length_replicate; try done; try lia.
  { unfold at_pos, nth_after. cbn. by rewrite Nat.Div0.mod_0_l. }
  intros j Hj. exists (replicate fs 0). unfold at_pos, nth_after. cbn. rewrite length_replicate, Nat.mod_small by lia. split; [by apply lookup_replicate_2|].
  by apply zero_frame_free.
Qed.

End Rx.

(** ** Sending *)

Section Tx.

(** What the kernel transmits of a frame, and the frame it gives back. *)
Context (transmitted : list Z -> list Z) (release : list Z -> list Z).

(** The packet [d] lies in the frame [fr], marked for sending. *)
Definition pending_frame (fs : nat) (d fr : list Z) : Prop :=
  length fr = fs /\ hdr_status fr = Done TP_STATUS_SEND_REQUEST /\ hdr_len fr = Done (zlen d) /\
  slice fr DATA_OFFSET (DATA_OFFSET + length d) = Done d.

(** What is relied on: the kernel sends the bytes the header announces and gives the frame back as available.  A frame it
    finds malformed, one longer than the device's MTU say, it marks [TP_STATUS_WRONG_FORMAT] instead; that case is left out:
    the code tests for available alone, so such a frame blocks the ring for good. *)
Definition tx_contract (fs : nat) : Prop := forall fr d, pending_frame fs d fr ->
  transmitted fr = d /\ length (release fr) = fs /\ hdr_status (release fr) = Done TP_STATUS_AVAILABLE.

Record TxSys := MkTxSys { tx_ring : MmapRing; tx_kernel : nat }.

(** The kernel sends up to [k] pending frames, in ring order. *)
Fixpoint kernel_transmit (k : nat) (s : TxSys) : outcome (TxSys * list (list Z)) :=
  match k with
  | O => Done (s, [])
  | S k =>
      let! fr := frame_header (tx_ring s) (tx_kernel s) in
      let! st := hdr_status fr in
      if st =? TP_STATUS_SEND_REQUEST then
        let r := (tx_ring s) <| mm_frames := <[tx_kernel s := release fr]> (mm_frames (tx_ring s)) |> in
        let! (s, sent) := kernel_transmit k (MkTxSys r (nth_after (length (mm_frames (tx_ring s))) (tx_kernel s) 1)) in
        Done (s, transmitted fr :: sent)
      else Done (s, [])
  end.

Inductive tx_event : Type := Send (frame : list Z) (ret : option Z) | Transmit (k : nat).
Inductive tx_output : Type := Returned (res : result nat SendError) | Wire (sent : list (list Z)).

Fixpoint tx_run (s : TxSys) (es : list tx_event) : outcome (TxSys * list tx_output) :=
  match es with
  | [] => Done (s, [])
  | Send frame ret :: es =>
      let! (r, res) := send_mmap (tx_ring s) frame ret in
      let! (s, out) := tx_run (MkTxSys r (tx_kernel s)) es in
      Done (s, Returned res :: out)
  | Transmit k :: es =>
      let! (s, sent) := kernel_transmit k s in
      let! (s, out) := tx_run s es in
      Done (s, Wire sent :: out)
  end.

(** The specification: a queue of at most [n] frames of at most [room] bytes. *)
Definition woken (frame : list Z) (ret : option Z) : result nat SendError :=
  match ret with
  | Some errno => if errno =? ENOBUFS then Ok (length frame) else Err (OsError errno)
  | None => Ok (length frame)
  end.

Fixpoint fifo_tx (n room : nat) (q : list (list Z)) (es : list tx_event) : list tx_output :=
  match es with
  | [] => []
  | Send frame ret :: es =>
      if (length q =? n)%nat then Returned (Err (Kind KWouldBlock)) :: fifo_tx n room q es
      else if (room <? length frame)%nat then Returned (Err (Kind KInvalidInput)) :: fifo_tx n room q es
      else Returned (woken frame ret) :: fifo_tx n room (q ++ [frame]) es
  | Transmit k :: es => Wire (take k q) :: fifo_tx n room (drop k q) es
  end.

Record tx_inv (fs n : nat) (s : TxSys) (q : list (list Z)) : Prop := {
  ti_size : mm_frame_size (tx_ring s) = fs /\ (32 <= fs)%nat /\ Z.of_nat fs <= 2 ^ 31;
  ti_n : length (mm_frames (tx_ring s)) = n /\ (0 < n)%nat;
  ti_kernel : (tx_kernel s < n)%nat;
  ti_len : (length q <= n)%nat;
  ti_current : current_frame (tx_ring s) = nth_after n (tx_kernel s) (length q);
  ti_frames : forall j, (j < n)%nat ->
    exists fr, mm_frames (tx_ring s) !! nth_after n (tx_kernel s) j = Some fr /\
      match q !! j with Some d => pending_frame fs d fr | None => free_frame_ok fs fr end }.

Lemma nth_after_0 n c : (c < n)%nat -> nth_after n c 0 = c.
Proof. intros H. unfold nth_after. rewrite Nat.add_0_r. by apply Nat.mod_small. Qed.

(** Writing a packet into a free frame. *)
Lemma write_frame_ok fs fr d :
  length fr = fs -> (32 + length d <= fs)%nat -> Z.of_nat fs <= 2 ^ 31 ->
  exists f1 f2 f3 f4, blit fr DATA_OFFSET (DATA_OFFSET + length d) d = Done f1 /\ blit f1 4 8 (le32 (zlen d)) = Done f2 /\
    blit f2 8 12 (le32 (zlen d)) = Done f3 /\ blit f3 0 4 (le32 TP_STATUS_SEND_REQUEST) = Done f4 /\ pending_frame fs d f4.
Proof.
  intros Hl Hd Hfs. change DATA_OFFSET with 32%nat. assert (is_u32 (zlen d)) as Hu by (unfold is_u32, zlen; lia).
  destruct (blit_slice fr 32 (32 + length d) d ltac:(lia) ltac:(lia)) as (f1 & E1 & L1 & S1 & _).
  destruct (blit_slice f1 4 8 (le32 (zlen d)) ltac:(lia) eq_refl) as (f2 & E2 & L2 & S2 & O2).
  destruct (blit_slice f2 8 12 (le32 (zlen d)) ltac:(lia) eq_refl) as (f3 & E3 & L3 & _ & O3).
  destruct (set_status_ok f3 TP_STATUS_SEND_REQUEST ltac:(lia) ltac:(done)) as (f4 & E4 & L4 & S4 & O4).
  exists f1, f2, f3, f4. split_and!; try done. split_and!; [lia|done| |].
  - unfold hdr_len. rewrite O4, O3, S2 by lia. cbn [obind]. by rewrite le32_of.
  - change DATA_OFFSET with 32%nat. by rewrite O4, O3, O2 by lia.
Qed.

Lemma send_mmap_ok fs n s q frame ret :
  tx_inv fs n s q ->
  exists r, send_mmap (tx_ring s) frame ret = Done (r,
      if (length q =? n)%nat then Err (Kind KWouldBlock) else if (fs - 32 <? length frame)%nat then Err (Kind KInvalidInput) else woken frame ret) /\
    tx_inv fs n (MkTxSys r (tx_kernel s))
      (if (length q =? n)%nat then q else if (fs - 32 <? length frame)%nat then q else q ++ [frame]).
Proof.
  intros H. pose proof H as [(Hfs & Hmin & Hmax) (Hn & Hpos) Hk Hl Hc Hf]. set (R := tx_ring s) in *.
  unfold send_mmap, write_tx_frame, frame_status, frame_header. rewrite Hc. destruct (Nat.eqb_spec (length q) n) as [Eq|Hne].
  - destruct (Hf 0%nat Hpos) as (fr & Hfr & Hp). destruct (lookup_lt_is_Some_2 q 0 ltac:(lia)) as [d0 Hd0]. rewrite Hd0 in Hp. destruct Hp as (_ & Hst & _).
    rewrite Eq, nth_after_wrap, Hfr. cbn [obind]. rewrite Hst. cbn. exists R. by destruct s.
  - destruct (Hf (length q) ltac:(lia)) as (fr & Hfr & Hp). rewrite (proj2 (lookup_ge_None q _)) in Hp by lia. destruct Hp as (Hfl & Hst).
    rewrite Hfr. cbn [obind]. rewrite Hst. cbn [obind]. rewrite Z.eqb_refl. cbn [negb]. rewrite Hfs. change DATA_OFFSET with 32%nat at 1.
    rewrite (proj2 (Nat.ltb_ge _ _)) by lia. change DATA_OFFSET with 32%nat at 1. destruct (Nat.ltb_spec (fs - 32) (length frame)) as [Hbig|Hsm].
    { cbn [obind]. exists R. by destruct s. }
    destruct (write_frame_ok fs fr frame Hfl ltac:(lia) Hmax) as (f1 & f2 & f3 & f4 & -> & E2 & E3 & E4 & Hp4). cbn [obind]. rewrite E2. cbn [obind]. rewrite E3. cbn [obind].
    unfold set_frame_status, frame_header. rsimpl. rewrite list_lookup_insert_eq by (rewrite Hn; by apply nth_after_lt). cbn [obind]. rewrite E4. cbn [obind].
    unfold advance. rsimpl. rewrite list_insert_insert_eq, length_insert, Hn, (proj2 (Nat.eqb_neq n 0)) by lia. cbn [obind].
    eexists. split; [unfold woken; destruct ret as [e|]; [destruct (e =? ENOBUFS)|]; reflexivity|].
    constructor; cbn [tx_ring tx_kernel]; rsimpl; rewrite ?length_insert, ?length_app; cbn [length]; try done; [lia|by rewrite Hc, <- nth_after_assoc|].
    intros j Hj. destruct (decide (j = length q)) as [->|Hnj].
    + rewrite list_lookup_insert_eq by (rewrite Hn; by apply nth_after_lt). exists f4. by rewrite list_lookup_middle.
    + destruct (Hf j Hj) as (g & Hg & Hg'). exists g. split.
      * rewrite list_lookup_insert_ne; [done|]. intros E. apply nth_after_inj in E; lia.
      * destruct (Nat.lt_ge_cases j (length q)); [by rewrite lookup_app_l by done|].
        rewrite (proj2 (lookup_ge_None q _)) in Hg' by lia. by rewrite (proj2 (lookup_ge_None _ _)) by (rewrite length_app; cbn; lia).
Qed.

Lemma kernel_transmit_ok fs n : tx_contract fs -> forall k s q, tx_inv fs n s q ->
  exists s', kernel_transmit k s = Done (s', take k q) /\ tx_inv fs n s' (drop k q).
Proof.
  intros Hct. induction k as [|k IH]; intros s q H; cbn [kernel_transmit take drop]; [by exists s|].
  pose proof H as [Hfs (Hn & Hpos) Hk Hl Hc Hf]. destruct (Hf 0%nat Hpos) as (fr & Hfr & Hp). rewrite (nth_after_0 n _ Hk) in Hfr.
  unfold frame_header. rewrite Hfr. cbn [obind]. destruct q as [|d q].
  { destruct Hp as (_ & ->). cbn. by exists s. }
  pose proof Hp as (Hfl & Hst & _). destruct (Hct fr d Hp) as (-> & Hr & Hrs). rewrite Hst. cbn [obind]. rewrite Z.eqb_refl.
  match goal with |- context [kernel_transmit k ?s1] => destruct (IH s1 q) as (s' & -> & H') end; [|cbn [obind]; by exists s'].
  constructor; cbn [tx_ring tx_kernel]; rsimpl; rewrite ?length_insert, ?Hn; cbn [length] in *; try done; [by apply nth_after_lt|lia|by rewrite Hc, nth_after_assoc|].
  intros j Hj. rewrite nth_after_assoc. destruct (decide (1 + j = n)%nat) as [E|Hne].
  - rewrite E, nth_after_wrap, (nth_after_0 n _ Hk), list_lookup_insert_eq by lia. exists (release fr). split; [done|].
    by rewrite (proj2 (lookup_ge_None q _)) by lia.
  - destruct (Hf (1 + j)%nat ltac:(lia)) as (g & Hg & Hg'). exists g. split; [|done].
    rewrite list_lookup_insert_ne; [done|]. rewrite <- (nth_after_0 n _ Hk) at 1. intros E. apply nth_after_inj in E; lia.
Qed.

(** C19: The transmit ring is a bounded queue: for every sequence of [send_mmap] calls and transmissions by the kernel, a frame goes on
    the wire byte for byte and in the order of the calls; [send_mmap] answers [WouldBlock] exactly when every frame of the
    ring is waiting to be sent, [InvalidInput] exactly for a frame that exceeds the frame size less the header, and queues nothing then.  A
    failing wake-up other than ENOBUFS is an error although the frame stays queued.  The kernel accepts every frame the
    ring holds ([tx_contract]: none is marked [TP_STATUS_WRONG_FORMAT]). *)
Theorem mmap_tx_refines_fifo fs n es :
  tx_contract fs -> (32 <= fs)%nat -> Z.of_nat fs <= 2 ^ 31 -> (0 < n)%nat ->
  exists s, tx_run (MkTxSys (MkMmap (replicate n (replicate fs 0)) fs 0) 0) es = Done (s, fifo_tx n (fs - 32) [] es).
Proof.
  intros Hct Hmin Hmax Hn.
  assert (forall es s q, tx_inv fs n s q -> exists s', tx_run s es = Done (s', fifo_tx n (fs - 32) q es)) as Hrun.
  { clear es. induction es as [|[f ret|k] es IH]; intros s q H; cbn [tx_run fifo_tx]; [by exists s| |].
    - destruct (send_mmap_ok fs n s q f ret H) as (r & -> & H1). cbn [obind]. destruct (IH _ _ H1) as (s2 & ->). cbn [obind]. exists s2.
      by destruct (length q =? n)%nat, (fs - 32 <? length f)%nat.
    - destruct (kernel_transmit_ok fs n Hct k s q H) as (s1 & -> & H1). cbn [obind]. destruct (IH _ _ H1) as (s2 & ->). by exists s2. }
  apply Hrun. constructor; cbn; rewrite ?length_replicate; try done; try lia; [by rewrite nth_after_0|].
  intros j Hj. exists (replicate fs 0). split; [apply lookup_replicate_2; by apply nth_after_lt|]. by apply zero_frame_free.
Qed.

End Tx.

(** ** Sample kernels *)

Definition sample_fill (fr d : list Z) : list Z :=
  [1; 0; 0; 0] ++ le32 (zlen d) ++ le32 (zlen d) ++ [48; 0; 0; 0] ++ replicate 32 0 ++ d ++ replicate (length fr - (48 + length d)) 0.

Lemma sample_fill_ok : fill_contract sample_fill 16 64.
Proof.
  intros fr d Hl Hd. split; [|split].
  - unfold sample_fill. rewrite !length_app, !length_replicate. cbn. lia.
  - by exists 1.
  - unfold packet_data, hdr_mac, hdr_snaplen.
    replace (slice (sample_fill fr d) 12 14) with (Done (A := list Z) [48; 0]) by done.
    replace (slice (sample_fill fr d) 8 12) with (Done (A := list Z) (le32 (zlen d))) by done. cbn [obind].
    rewrite le32_of by (unfold is_u32, zlen; lia). change (of_le16 [48; 0]) with 48. cbn [Z.eqb orb].
    rewrite (proj2 (Z.eqb_neq _ _)) by (unfold zlen; lia). unfold zlen. rewrite Nat2Z.id. change (Z.to_nat 48) with 48%nat.
    unfold sample_fill. rewrite !app_assoc, <- (app_assoc _ d). rewrite (slice_mid _ d); [done|by rewrite !length_app, length_replicate|done].
Qed.

Definition sample_transmitted (fr : list Z) : list Z :=
  match hdr_len fr with
  | Done l => match slice fr DATA_OFFSET (DATA_OFFSET + Z.to_nat l) with Done d => d | _ => [] end
  | _ => []
  end.

Definition sample_release (fr : list Z) : list Z := [0; 0; 0; 0] ++ drop 4 fr.

Lemma sample_tx_ok : tx_contract sample_transmitted sample_release 40.
Proof.
  intros fr d (Hl & Hst & Hlen & Hd). unfold sample_transmitted, sample_release. rewrite Hlen. unfold zlen. rewrite Nat2Z.id, Hd.
  split_and!; [done|rewrite length_app, length_drop; cbn; lia|done].
Qed.

Lemma mmap_rx_refines_fifo_witness :
  exists s, rx_run sample_fill (MkRxSys (MkMmap (replicate 2 (replicate 64 0)) 64 0) 0)
      [Arrives [1]; Arrives [2; 2]; Arrives [3]; Recv 1; Arrives [4]; Recv 5] = Done (s, [[[1]]; [[2; 2]; [4]]]).
Proof.
  apply (mmap_rx_refines_fifo sample_fill 16 64 2 [Arrives [1]; Arrives [2; 2]; Arrives [3]; Recv 1; Arrives [4]; Recv 5]);
    [apply sample_fill_ok|lia|lia|repeat constructor].
Defined.

Lemma mmap_tx_refines_fifo_witness :
  exists s, tx_run sample_transmitted sample_release (MkTxSys (MkMmap (replicate 2 (replicate 40 0)) 40 0) 0)
      [Send [1] None; Send [1; 2; 3; 4; 5; 6; 7; 8; 9] None; Send [2] (Some 105); Send [3] None; Transmit 1; Send [4] (Some 6); Transmit 9]
    = Done (s, [Returned (Ok 1%nat); Returned (Err (Kind KInvalidInput)); Returned (Ok 1%nat); Returned (Err (Kind KWouldBlock)); Wire [[1]];
                Returned (Err (OsError 6)); Wire [[2]; [4]]]).
Proof.
  apply (mmap_tx_refines_fifo sample_transmitted sample_release 40 2
    [Send [1] None; Send [1; 2; 3; 4; 5; 6; 7; 8; 9] None; Send [2] (Some 105); Send [3] None; Transmit 1; Send [4] (Some 6); Transmit 9]);
    [apply sample_tx_ok|lia|lia|lia].
Defined.
