(* ===== verification/Quic.v ===== *)
(** * The QUIC transport adapter (dpdk-stdlib-quic/src)

    ecn.rs, frame.rs, path_handle.rs, tx.rs, rx.rs, stats.rs, the body of the loop of event_loop.rs
    and the port allocator of provider.rs.  The QUIC implementation itself (crates s2n-quic
    and s2n-quic-core) is a parameter: the class [TxMessage] is its [tx::Message], the class
    [Endpoint] its [Endpoint], with the operations this crate calls.  The backend's answers and
    the clock readings are arguments. *)

From stdpp Require Import base numbers list.
From Stdlib Require Import ZArith Lia.
From S2P Require Import Prelude State Buffer Checksum Codec CodecFrames UdpChecksum UdpFrame UdpLayout Routing Icmp UdpRobust.

#[local] Open Scope Z_scope.

(** ** Congestion notification (ecn.rs) *)

Inductive ExplicitCongestionNotification : Type := NotEct | Ect1 | Ect0 | Ce.

#[global] Instance ecn_eq_dec : EqDecision ExplicitCongestionNotification.
Proof. solve_decision. Defined.

(** [extract_ecn]: the transmuted value is 0 to 3. *)
Definition extract_ecn (tos_byte : Z) : ExplicitCongestionNotification :=
  match Z.land tos_byte 3 with 0 => NotEct | 1 => Ect1 | 2 => Ect0 | _ => Ce end.

Definition ecn_to_tos_bits (ecn : ExplicitCongestionNotification) : Z :=
  match ecn with NotEct => 0 | Ect1 => 1 | Ect0 => 2 | Ce => 3 end.

(** ** Paths (path_handle.rs) *)

Record DpdkPathHandle := MkPath { p_remote : SocketAddr; p_local : SocketAddr }.

#[global] Instance path_eq_dec : EqDecision DpdkPathHandle.
Proof. solve_decision. Defined.

Definition is_ipv6 (a : SocketAddr) : bool := match a with V4 _ _ => false | V6 _ _ _ _ => true end.

(** [DpdkPathHandle::try_new]; [None] is [UnsupportedAddressFamily]. *)
Definition try_new (remote local : SocketAddr) : option DpdkPathHandle :=
  if is_ipv6 remote then None else if is_ipv6 local then None else Some (MkPath remote local).

(** [from_remote_address]; the default local address is 0.0.0.0:0. *)
Definition from_remote_address (remote : SocketAddr) : DpdkPathHandle := MkPath remote (V4 UNSPECIFIED 0).

Definition set_local_address (h : DpdkPathHandle) (local : SocketAddr) : DpdkPathHandle := MkPath (p_remote h) local.

(** ** Sending (frame.rs, tx.rs) *)

Definition build_quic_frame (out : list Z) (src_mac gateway_mac : Mac) (src_ip dst_ip : Ipv4Addr)
    (src_port dst_port : Z) (payload : list Z) (tos : Z) : outcome (list Z * result Z UdpError) :=
  build_udp_frame_into_with_tos out src_mac gateway_mac src_ip dst_ip src_port dst_port payload 64 tos.

Inductive TxError : Type := AtCapacity | EmptyPayload | UndersizedBuffer | OtherError.

Record Outcome := MkOutcome { o_len : nat; o_index : nat }.

(** [tx::Message]: [write_payload] is given the buffer and the offset, and returns the
    buffer and the number of bytes written. *)
Class TxMessage (M : Type) := {
  path_handle : M -> DpdkPathHandle;
  message_ecn : M -> M * ExplicitCongestionNotification;
  can_gso : M -> nat -> nat -> bool;
  write_payload : M -> list Z -> nat -> M * list Z * result nat TxError }.

Record DpdkTxQueue := MkTxQueue {
  pending : list (list Z);
  tx_capacity : nat;
  tx_local_addr : SocketAddr;
  tx_src_mac : Mac;
  tx_gateway_mac : Mac;
  frame_buf : list Z }.

#[global] Instance eta_DpdkTxQueue : Eta DpdkTxQueue := fun q =>
  MkTxQueue (pending q) (tx_capacity q) (tx_local_addr q) (tx_src_mac q) (tx_gateway_mac q) (frame_buf q).

Definition tx_queue_new (local_addr : SocketAddr) (capacity : nat) (src_mac gateway_mac : Mac) : DpdkTxQueue :=
  MkTxQueue [] capacity local_addr src_mac gateway_mac [].

Definition drain (q : DpdkTxQueue) : DpdkTxQueue * list (list Z) := (q <| pending := [] |>, pending q).

(** [tx::Queue::capacity]. *)
Definition tx_room (q : DpdkTxQueue) : nat := tx_capacity q - length (pending q).

Definition socket_address_to_v4 (a : SocketAddr) : option (Ipv4Addr * Z) :=
  match a with V4 ip p => Some (ip, p) | V6 _ _ _ _ => None end.

(** The source of a datagram: the path's, or the bound address where that is not set. *)
Definition source_address (local_addr : SocketAddr) (path : DpdkPathHandle) : Ipv4Addr * Z :=
  let bound_ip := match local_addr with V4 ip _ => ip | V6 _ _ _ _ => UNSPECIFIED end in
  let '(src_ip, src_port) :=
    match socket_address_to_v4 (p_local path) with
    | Some v => v
    | None => (bound_ip, port local_addr)
    end in
  (if bool_decide (src_ip = UNSPECIFIED) then bound_ip else src_ip,
   if src_port =? 0 then port local_addr else src_port).

Definition MAX_UDP_PAYLOAD : nat := 1472.

(** Building one segment's frame in [frame_buf] and queueing a copy. *)
Definition queue_segment (q : DpdkTxQueue) (src_ip dst_ip : Ipv4Addr) (src_port dst_port : Z) (payload : list Z)
    (tos : Z) : outcome (DpdkTxQueue * bool) :=
  let! (fb, r) := build_quic_frame [] (tx_src_mac q) (tx_gateway_mac q) src_ip dst_ip src_port dst_port payload tos in
  let q := q <| frame_buf := fb |> in
  match r with
  | Err _ => Done (q, false)
  | Ok _ => Done (q <| pending := pending q ++ [fb] |>, true)
  end.

Section Messages.

Context {M : Type} `{TxMessage M}.

(** The loop over further segments; each round queues a frame or ends the loop. *)
Fixpoint gso_loop (fuel : nat) (q : DpdkTxQueue) (message : M) (src_ip dst_ip : Ipv4Addr) (src_port dst_port tos : Z)
    (written gso_offset segment_count total_len : nat) : outcome (DpdkTxQueue * M * result nat TxError) :=
  match fuel with
  | O => OutOfFuel
  | S fuel =>
      if negb (can_gso message written (segment_count + 1)) then Done (q, message, Ok total_len)
      else if (tx_capacity q <=? length (pending q))%nat then Done (q, message, Ok total_len)
      else
        let '(message, seg_buf, r) := write_payload message (replicate MAX_UDP_PAYLOAD 0) gso_offset in
        match r with
        | Err _ => Done (q, message, Ok total_len)
        | Ok n =>
            if (n =? 0)%nat then Done (q, message, Ok total_len)
            else
              let! payload := slice seg_buf 0 n in
              let! (q, ok) := queue_segment q src_ip dst_ip src_port dst_port payload tos in
              if ok : bool then
                gso_loop fuel q message src_ip dst_ip src_port dst_port tos written (gso_offset + n)
                  (segment_count + 1) (total_len + n)
              else Done (q, message, Err UndersizedBuffer)
        end
  end.

(** [tx::Queue::push]. *)
Definition tx_push (q : DpdkTxQueue) (message : M) : outcome (DpdkTxQueue * M * result Outcome TxError) :=
  if (tx_capacity q <=? length (pending q))%nat then Done (q, message, Err AtCapacity)
  else
    let path := path_handle message in
    match socket_address_to_v4 (p_remote path) with
    | None => Panic
    | Some (dst_ip, dst_port) =>
        let '(src_ip, src_port) := source_address (tx_local_addr q) path in
        let '(message, ecn) := message_ecn message in
        let tos := ecn_to_tos_bits ecn in
        let index := length (pending q) in
        let '(message, payload_buf, r) := write_payload message (replicate MAX_UDP_PAYLOAD 0) 0 in
        match r with
        | Err e => Done (q, message, Err e)
        | Ok written =>
            if (written =? 0)%nat then Done (q, message, Err EmptyPayload)
            else
              let! payload := slice payload_buf 0 written in
              let! (q, ok) := queue_segment q src_ip dst_ip src_port dst_port payload tos in
              if negb ok then Done (q, message, Err UndersizedBuffer)
              else
                let! (q, message, r) := gso_loop (S (tx_room q)) q message src_ip dst_ip src_port dst_port tos
                                          written written 1 written in
                Done (q, message, match r with Ok total_len => Ok (MkOutcome total_len index) | Err e => Err e end)
        end
    end.

End Messages.

(** ** Receiving (rx.rs) *)

Record RxDatagram := MkRx { rx_path : DpdkPathHandle; rx_ecn : ExplicitCongestionNotification; rx_payload : list Z }.

Definition parse_to_rx_datagram (frame : list Z) (local_addr : SocketAddr) : outcome (option RxDatagram) :=
  let! parsed := parse_udp_packet_ref frame in
  match parsed with
  | None => Done None
  | Some p =>
      if negb (r_dst_port p =? port local_addr) then Done None
      else
        let! tos_byte := idx frame (ETH_HEADER_LEN + 1) in
        let path := set_local_address (from_remote_address (V4 (r_src_ip p) (r_src_port p))) (V4 (r_dst_ip p) (r_dst_port p)) in
        Done (Some (MkRx path (extract_ecn tos_byte) (r_payload p)))
  end.

(** ** The event loop (event_loop.rs, stats.rs) *)

Record ProviderStats := MkStats {
  rx_burst_calls : Z;
  tx_burst_calls : Z;
  datagrams_received : Z;
  datagrams_transmitted : Z;
  rx_drops : Z;
  tx_drops : Z;
  timer_wakeups : Z }.

#[global] Instance eta_ProviderStats : Eta ProviderStats := fun s =>
  MkStats (rx_burst_calls s) (tx_burst_calls s) (datagrams_received s) (datagrams_transmitted s) (rx_drops s)
    (tx_drops s) (timer_wakeups s).

Definition stats_new : ProviderStats := MkStats 0 0 0 0 0 0 0.

(** [Endpoint]: [ep_receive] also says whether it ran [for_each], which drains the queue; [ep_transmit]
    pushes messages to the queue. *)
Class Endpoint (E : Type) := {
  poll_wakeups : E -> Z -> E * bool;
  ep_receive : E -> list RxDatagram -> Z -> E * bool;
  ep_transmit : E -> DpdkTxQueue -> Z -> outcome (E * DpdkTxQueue);
  ep_timeout : E -> option Z }.

Record LoopConfig := MkLoopConfig { max_rx_burst : nat; max_tx_burst : nat; busy_poll_budget : Z }.

Definition loop_config_default : LoopConfig := MkLoopConfig 32 32 128.

(** What a turn of the loop ends with: [break], or the next turn, after a sleep (ns) or at once. *)
Inductive turn : Type := Break | Next (sleep : option Z).

Section Loop.

Context {E : Type} `{Endpoint E} (send_frame : list (list Z * bool) -> list Z -> bool).

(** [l_sent] lists what was handed to the backend with its answer; [l_given] the datagrams
    handed to the endpoint. *)
Record Loop := MkLoop {
  l_endpoint : E;
  l_rx : list RxDatagram;
  l_tx : DpdkTxQueue;
  l_idle : Z;
  l_stats : ProviderStats;
  l_sent : list (list Z * bool);
  l_given : list RxDatagram }.

#[global] Instance eta_Loop : Eta Loop := fun l =>
  MkLoop (l_endpoint l) (l_rx l) (l_tx l) (l_idle l) (l_stats l) (l_sent l) (l_given l).

Definition send (sent : list (list Z * bool)) (frame : list Z) : list (list Z * bool) :=
  sent ++ [(frame, send_frame sent frame)].

(** The loop over a burst: the queue, the backend and the count. *)
Fixpoint receive_frames (icmp : IcmpHandler) (local_addr : SocketAddr) (frames : list (list Z)) (rx : list RxDatagram)
    (sent : list (list Z * bool)) (count : Z) : outcome (list RxDatagram * list (list Z * bool) * Z) :=
  match frames with
  | [] => Done (rx, sent, count)
  | frame :: frames =>
      if default 0 (frame !! (ETH_HEADER_LEN + 9)%nat) =? IP_PROTO_ICMP then
        let! action := process_icmp_full icmp frame in
        let sent := match action with Some (ActReply reply) => send sent reply | _ => sent end in
        receive_frames icmp local_addr frames rx sent count
      else
        let! dgram := parse_to_rx_datagram frame local_addr in
        match dgram with
        | Some d => receive_frames icmp local_addr frames (rx ++ [d]) sent (count + 1)
        | None => receive_frames icmp local_addr frames rx sent count
        end
  end.

(** The loop over the drained frames: the backend, the frames sent and those refused. *)
Fixpoint transmit_frames (frames : list (list Z)) (sent : list (list Z * bool)) (tx_count drops : Z)
    : list (list Z * bool) * Z * Z :=
  match frames with
  | [] => (sent, tx_count, drops)
  | frame :: frames =>
      if send_frame sent frame then transmit_frames frames (send sent frame) (tx_count + 1) drops
      else transmit_frames frames (send sent frame) tx_count (drops + 1)
  end.

(** The cool-down: the idle counter and the sleep. *)
Definition cooldown (budget : Z) (endpoint : E) (now : Z) (idle_cycles : Z) (work_done : bool) : outcome (Z * option Z) :=
  if work_done then Done (0, None)
  else if 2 ^ 32 <=? idle_cycles + 1 then Panic
  else
    let idle_cycles := idle_cycles + 1 in
    if budget <? idle_cycles then
      Done (0, match ep_timeout endpoint with
               | Some timeout => if now <? timeout then Some (Z.min (timeout - now) 1000000) else None
               | None => Some 100000
               end)
    else Done (idle_cycles, None).

(** The body of [event_loop_with_tx_queue] (and of [event_loop]). *)
Definition loop_turn (icmp : IcmpHandler) (local_addr : SocketAddr) (config : LoopConfig) (shutdown : bool) (now : Z)
    (burst : result (list (list Z)) unit) (l : Loop) : outcome (Loop * turn) :=
  if shutdown then Done (l, Break)
  else
    let '(ep, closed) := poll_wakeups (l_endpoint l) now in
    let l := l <| l_endpoint := ep |> in
    if closed then Done (l, Break)
    else
      let st := l_stats l in
      let st := st <| timer_wakeups := u64 (timer_wakeups st + 1) |> <| rx_burst_calls := u64 (rx_burst_calls st + 1) |> in
      let! (rx, sent, rx_count, st) :=
        match burst with
        | Ok frames =>
            let! (rx, sent, count) := receive_frames icmp local_addr frames (l_rx l) (l_sent l) 0 in
            Done (rx, sent, count, st <| datagrams_received := u64 (datagrams_received st + count) |>)
        | Err _ => Done (l_rx l, l_sent l, 0, st <| rx_drops := u64 (rx_drops st + 1) |>)
        end in
      let '(ep, drained) := match rx with [] => (l_endpoint l, false) | _ => ep_receive (l_endpoint l) rx now end in
      let given := if drained : bool then l_given l ++ rx else l_given l in
      let rest := if drained : bool then [] else rx in
      let st := st <| tx_burst_calls := u64 (tx_burst_calls st + 1) |> in
      let! (ep, tx) := ep_transmit ep (l_tx l) now in
      let '(tx, frames) := drain tx in
      let '(sent, tx_count, drops) := transmit_frames frames sent 0 0 in
      let st := st <| tx_drops := u64 (tx_drops st + drops) |>
                   <| datagrams_transmitted := u64 (datagrams_transmitted st + tx_count) |> in
      let! (idle, sleep) :=
        cooldown (busy_poll_budget config) ep now (l_idle l) ((0 <? rx_count) || (0 <? tx_count)) in
      Done (MkLoop ep rest tx idle st sent given, Next sleep).

End Loop.

Arguments Loop : clear implicits.

(** ** Ephemeral ports (provider.rs) *)

Definition EPHEMERAL_FIRST : Z := 49152.
Definition EPHEMERAL_COUNT : Z := 16384.

(** [ephemeral_port]: the counter after the call and the port; [None] is an overflow of [u16]. *)
Definition ephemeral_port (pid : Z) (next : Z) : outcome (Z * Z) :=
  let seed := u16 (pid mod EPHEMERAL_COUNT) in
  let next := if next =? 0 then seed + 1 else next in
  let n := next in
  let p := EPHEMERAL_FIRST + u16 (n - 1) mod EPHEMERAL_COUNT in
  if p <? 65536 then Done (u16 (n + 1), p) else Panic.

(** ** Laws of the interfaces *)

(** A message fills at most the buffer it is given, with bytes. *)
Class TxMessageLaws (M : Type) `{TxMessage M} := {
  write_law : forall m buf off m' buf' r, write_payload m buf off = (m', buf', r) -> Forall is_u8 buf ->
    length buf' = length buf /\ Forall is_u8 buf' /\ (forall n, r = Ok n -> (n <= length buf)%nat) }.

(** ** Sending *)

Section Sending.

Context {M : Type} `{HM : TxMessage M} `{!TxMessageLaws M}.

(** The segments a message whose first segment has [first] bytes still writes, from [off] on, when it has written [count]
    segments and [room] more frames fit; and the message after that.  It goes on for as long as the message allows a further
    segment, a frame fits and the write gives bytes: the message's own answers and the room decide the list. *)
Inductive segments (first : nat) : M -> nat -> nat -> nat -> list (list Z) -> M -> Prop :=
| seg_refused m off count room : can_gso m first (count + 1) = false -> segments first m off count room [] m
| seg_full m off count : segments first m off count 0 [] m
| seg_failed m off count room m' buf e :
    can_gso m first (count + 1) = true -> write_payload m (replicate MAX_UDP_PAYLOAD 0) off = (m', buf, Err e) ->
    segments first m off count (S room) [] m'
| seg_empty m off count room m' buf :
    can_gso m first (count + 1) = true -> write_payload m (replicate MAX_UDP_PAYLOAD 0) off = (m', buf, Ok 0%nat) ->
    segments first m off count (S room) [] m'
| seg_next m off count room m' buf n segs m'' :
    can_gso m first (count + 1) = true -> write_payload m (replicate MAX_UDP_PAYLOAD 0) off = (m', buf, Ok n) -> (0 < n)%nat ->
    segments first m' (off + n) (count + 1) room segs m'' -> segments first m off count (S room) (take n buf :: segs) m''.

(** Two runs of a message write the same. *)
Lemma segments_unique first m off count room segs1 m1 segs2 m2 :
  segments first m off count room segs1 m1 -> segments first m off count room segs2 m2 -> segs1 = segs2 /\ m1 = m2.
Proof.
  intros Hs1. revert segs2 m2. induction Hs1 as [| | | |m off count room m' buf n segs m'' Hg Hw Hn _ IH]; intros segs2 m2 Hs2; inversion Hs2; subst;
    try (split; congruence); try congruence.
  - exfalso. assert (n = 0%nat) by congruence. lia.
  - exfalso. assert (n = 0%nat) by congruence. lia.
  - assert (n0 = n /\ buf0 = buf /\ m'0 = m') as (-> & -> & ->) by (split_and!; congruence).
    match goal with Hs : segments _ m' _ _ _ _ m2 |- _ => destruct (IH _ _ Hs) as [-> ->] end. done.
Qed.

Lemma written_bytes m off m' buf n :
  write_payload m (replicate MAX_UDP_PAYLOAD 0) off = (m', buf, Ok n) ->
  slice buf 0 n = Done (take n buf) /\ length (take n buf) = n /\ Forall is_u8 (take n buf) /\ zlen (take n buf) <= 1472.
Proof.
  intros E. destruct (write_law _ _ _ _ _ _ E) as (Hl & Hb & Hn); [apply Forall_replicate; done|].
  specialize (Hn n eq_refl). rewrite length_replicate in *. unfold MAX_UDP_PAYLOAD in *.
  rewrite slice_in_range by lia. rewrite drop_0, Nat.sub_0_r. unfold zlen. rewrite length_take. split_and!; [done|lia|by apply Forall_take|lia].
Qed.

Lemma join_cons_length (d : list Z) (segs : list (list Z)) : length (mjoin (d :: segs)) = (length d + length (mjoin segs))%nat.
Proof. apply length_app. Qed.

(** The frame of a segment. *)
Definition quic_frame (q : DpdkTxQueue) (src dst : Ipv4Addr) (sp dp tos : Z) (payload : list Z) : list Z :=
  udp_frame (tx_src_mac q) (tx_gateway_mac q) None src dst sp dp payload 64 tos.

Lemma queue_segment_ok q src dst sp dp payload tos :
  wf_ipv4 src -> wf_ipv4 dst -> Forall is_u8 payload -> zlen payload <= 1472 ->
  queue_segment q src dst sp dp payload tos =
    Done (q <| frame_buf := quic_frame q src dst sp dp tos payload |>
            <| pending := pending q ++ [quic_frame q src dst sp dp tos payload] |>, true).
Proof.
  intros Hs Hd Hp Hl. unfold queue_segment, build_quic_frame, build_udp_frame_into_with_tos, too_large, MAX_FRAME_SIZE.
  change (14 + 9001 - Z.of_nat TOTAL_HEADER_LEN)%Z with 8973%Z. rewrite (proj2 (Z.ltb_ge _ _)) by lia.
  rewrite put_udp_frame_layout by (rewrite ?length_resize; done || (split_and!; [done..|unfold zlen in *; lia])). done.
Qed.

(** What pushing does not change. *)
Definition queue_config (q : DpdkTxQueue) : nat * SocketAddr * Mac * Mac :=
  (tx_capacity q, tx_local_addr q, tx_src_mac q, tx_gateway_mac q).

Lemma quic_frame_config q q' src dst sp dp tos :
  queue_config q' = queue_config q -> quic_frame q' src dst sp dp tos = quic_frame q src dst sp dp tos.
Proof. unfold queue_config, quic_frame. by intros [= _ _ -> ->]. Qed.

(** The loop ends within its fuel and queues the further segments, as many as there is room for. *)
Lemma gso_loop_ok src dst sp dp tos written : wf_ipv4 src -> wf_ipv4 dst -> forall fuel q m off count total,
  (tx_room q < fuel)%nat -> (length (pending q) <= tx_capacity q)%nat ->
  exists q' m' segs, gso_loop fuel q m src dst sp dp tos written off count total =
      Done (q', m', Ok (total + length (mjoin segs))%nat) /\
    segments written m off count (tx_room q) segs m' /\ Forall (fun d => Forall is_u8 d /\ zlen d <= 1472) segs /\
    pending q' = pending q ++ map (quic_frame q src dst sp dp tos) segs /\
    (length (pending q') <= tx_capacity q)%nat /\ queue_config q' = queue_config q.
Proof.
  intros Hs Hd. induction fuel as [|fuel IH]; intros q m off count total Hf Hl; [lia|]. cbn [gso_loop].
  assert (forall m' : M, segments written m off count (tx_room q) [] m' ->
    exists q' m'' segs, Done (q, m', Ok (E := TxError) total) = Done (q', m'', Ok (total + length (mjoin segs))%nat) /\
    segments written m off count (tx_room q) segs m'' /\ Forall (fun d => Forall is_u8 d /\ zlen d <= 1472) segs /\
    pending q' = pending q ++ map (quic_frame q src dst sp dp tos) segs /\
    (length (pending q') <= tx_capacity q)%nat /\ queue_config q' = queue_config q) as Hstop.
  { intros m' Hm. exists q, m', []. cbn. rewrite app_nil_r, Nat.add_0_r. split_and!; try done; constructor. }
  destruct (can_gso _ _ _) eqn:Eg; cbn [negb]; [|by apply Hstop, seg_refused].
  destruct (Nat.leb_spec (tx_capacity q) (length (pending q))).
  { apply Hstop. replace (tx_room q) with 0%nat by (unfold tx_room; lia). apply seg_full. }
  assert (exists room, tx_room q = S room) as [room Eroom] by (exists (tx_room q - 1)%nat; unfold tx_room in *; lia). rewrite Eroom in *.
  destruct (write_payload _ _ _) as [[m1 buf] [n|e]] eqn:E; [|by eapply Hstop, seg_failed].
  destruct (Nat.eqb_spec n 0) as [->|Hn]; [by eapply Hstop, seg_empty|].
  destruct (written_bytes _ _ _ _ _ E) as (-> & Hlen & Hb & Hz). cbn [obind]. rewrite queue_segment_ok by done. cbn [obind].
  match goal with |- context [gso_loop fuel ?x] => set (q1 := x) end.
  assert (pending q1 = pending q ++ [quic_frame q src dst sp dp tos (take n buf)] /\ queue_config q1 = queue_config q /\ tx_capacity q1 = tx_capacity q)
    as (Ep & Ec & Ecap) by done.
  assert (length (pending q1) = S (length (pending q))) as Epl by (rewrite Ep, length_app; cbn; lia).
  destruct (IH q1 m1 (off + n)%nat (count + 1)%nat (total + n)%nat) as (q' & m' & segs & E' & Hseg & Hby & Hp' & Hl' & Hc').
  { unfold tx_room in *. rewrite Ecap, Epl. lia. } { rewrite Ecap, Epl. lia. }
  replace (tx_room q1) with room in Hseg by (unfold tx_room in *; rewrite Ecap, Epl; lia).
  exists q', m', (take n buf :: segs). rewrite E'. cbn [map]. rewrite Ep, <- app_assoc in Hp'. cbn [app] in Hp'. rewrite join_cons_length, Hlen.
  split_and!; [do 3 f_equal; lia|by eapply seg_next; [..|lia|]|by constructor| |lia|by rewrite Hc'].
  by rewrite (quic_frame_config q q1) in Hp' by done.
Qed.

(** What [push] does, case by case. *)
Lemma tx_push_cases q m dst dp :
  (length (pending q) < tx_capacity q)%nat -> p_remote (path_handle m) = V4 dst dp -> wf_ipv4 dst ->
  wf_ipv4 (source_address (tx_local_addr q) (path_handle m)).1 ->
  let '(src, sp) := source_address (tx_local_addr q) (path_handle m) in
  let '(m1, ecn) := message_ecn m in
  let '(m2, buf, r) := write_payload m1 (replicate MAX_UDP_PAYLOAD 0) 0 in
  match r with
  | Err e => tx_push q m = Done (q, m2, Err e)
  | Ok O => tx_push q m = Done (q, m2, Err EmptyPayload)
  | Ok n => exists q' m' segs more, tx_push q m = Done (q', m', Ok (MkOutcome (length (mjoin segs)) (length (pending q)))) /\
      segs = take n buf :: more /\ segments n m2 n 1 (tx_room q - 1) more m' /\ Forall (fun d => Forall is_u8 d /\ zlen d <= 1472) segs /\
      pending q' = pending q ++ map (quic_frame q src dst sp dp (ecn_to_tos_bits ecn)) segs /\
      (length (pending q') <= tx_capacity q)%nat /\ queue_config q' = queue_config q
  end.
Proof.
  intros Hl Hr Hd Hs. unfold tx_push. rewrite (proj2 (Nat.leb_gt _ _)) by done. cbv zeta. rewrite Hr. cbn [socket_address_to_v4].
  destruct (source_address _ _) as [src sp]. cbn [fst] in Hs. destruct (message_ecn m) as [m1 ecn].
  destruct (write_payload m1 _ 0) as [[m2 buf] [n|e]] eqn:E; [|done].
  destruct n as [|n]; [done|]. cbn [Nat.eqb]. destruct (written_bytes _ _ _ _ _ E) as (-> & Hlen & Hb & Hz). cbn [obind].
  rewrite queue_segment_ok by done. cbn [obind negb]. match goal with |- context [gso_loop _ ?x] => set (q1 := x) end.
  assert (pending q1 = pending q ++ [quic_frame q src dst sp dp (ecn_to_tos_bits ecn) (take (S n) buf)] /\ queue_config q1 = queue_config q /\
    tx_capacity q1 = tx_capacity q) as (Ep & Ec & Ecap) by done.
  destruct (gso_loop_ok src dst sp dp (ecn_to_tos_bits ecn) (S n) Hs Hd (S (tx_room q1)) q1 m2 (S n) 1 (S n)) as (q' & m' & segs & E' & Hseg & Hby & Hp' & Hl' & Hc').
  { lia. } { rewrite Ecap, Ep, length_app. cbn. lia. }
  replace (tx_room q1) with (tx_room q - 1)%nat in Hseg by (unfold tx_room; rewrite Ecap, Ep, length_app; cbn; lia).
  rewrite E'. cbn [obind]. exists q', m', (take (S n) buf :: segs), segs. cbn [map]. rewrite Ep, <- app_assoc in Hp'. cbn [app] in Hp'. rewrite join_cons_length, Hlen.
  split_and!; [do 4 f_equal; lia|done|done|by constructor| |lia|by rewrite Hc'].
  by rewrite (quic_frame_config q q1) in Hp' by done.
Qed.

End Sending.

(** ** Receiving *)

(** The byte the congestion notification is taken from. *)
Definition ecn_byte (tci : option Z) (tos : Z) : Z := match tci with None => tos | Some t => u8 t end.

Lemma quic_frame_read src_mac dst_mac tci src dst sp dp payload ttl tos pad local :
  wf_udp src dst payload -> is_u16 sp -> is_u16 dp -> (forall t, tci = Some t -> is_u16 t) -> port local = dp ->
  parse_to_rx_datagram (udp_frame src_mac dst_mac tci src dst sp dp payload ttl tos ++ pad) local
  = Done (Some (MkRx (MkPath (V4 src sp) (V4 dst dp)) (extract_ecn (ecn_byte tci tos)) payload)).
Proof.
  intros Hwf Hsp Hdp Ht Hp. set (f := udp_frame _ _ _ _ _ _ _ _ _ _ ++ pad).
  destruct (udp_parsers_total_and_agree f) as (r & E1 & E2). unfold f in E1. rewrite udp_frame_parses in E1 by done. injection E1 as <-.
  unfold parse_to_rx_datagram. rewrite E2. cbn [obind option_map ref_of r_dst_port u_dst_port]. rewrite Hp, Z.eqb_refl. cbn [negb].
  assert (idx f (ETH_HEADER_LEN + 1) = Done (ecn_byte tci tos)) as -> by (by destruct tci). done.
Qed.

Lemma parse_rx_total frame local : exists r, parse_to_rx_datagram frame local = Done r.
Proof.
  unfold parse_to_rx_datagram. destruct (udp_parsers_total_and_agree frame) as (r & _ & E). rewrite E. cbn [obind].
  destruct r as [u|]; cbn [option_map]; [|by eexists]. destruct (negb _); [by eexists|].
  assert (42 <= length frame)%nat as Hl.
  { revert E. unfold parse_udp_packet_ref. destruct (detect_vlan_total frame None) as ([l|] & -> & Hl); [|done].
    specialize (Hl l eq_refl). cbn [obind]. unfold IPV4_HEADER_LEN, UDP_HEADER_LEN. destruct (Nat.ltb_spec (length frame) (l3_offset l + 20 + 8)); [done|lia]. }
  unfold idx, ETH_HEADER_LEN. destruct (lookup_lt_is_Some_2 frame (14 + 1) ltac:(lia)) as [b ->]. by eexists.
Qed.

Lemma ecn_roundtrip ecn : extract_ecn (ecn_to_tos_bits ecn) = ecn.
Proof. by destruct ecn. Qed.

(** ** Theorems *)

(** C25: A QUIC datagram sent is received: [push] queues one frame for the first segment the message writes and one for
    every further segment it is asked for, which are exactly those written while the message allows another segment, the queue
    has room for another frame and the write gives bytes, in order; nothing that the message wrote is left out, the message
    given back is the one after the last of those writes, and the total length of the segments is reported.  A peer bound to
    the destination port that receives those frames, with whatever padding the link adds, hands its endpoint exactly the
    segments, with the sender's address as remote and its own as local address of the path and with the congestion mark of
    the message.  The message is any implementation that fills at most the buffer it is given. *)
Theorem quic_segments_over_the_wire {M} `{TxMessageLaws M} q m dst dp src sp m1 ecn m2 buf n peer :
  (length (pending q) < tx_capacity q)%nat -> p_remote (path_handle m) = V4 dst dp ->
  source_address (tx_local_addr q) (path_handle m) = (src, sp) ->
  wf_ipv4 src -> wf_ipv4 dst -> is_u16 sp -> is_u16 dp -> port peer = dp ->
  message_ecn m = (m1, ecn) -> write_payload m1 (replicate MAX_UDP_PAYLOAD 0) 0 = (m2, buf, Ok n) -> (0 < n)%nat ->
  exists q' m' more frames, let segs := take n buf :: more in
    segments n m2 n 1 (tx_capacity q - length (pending q) - 1) more m' /\
    tx_push q m = Done (q', m', Ok (MkOutcome (length (mjoin segs)) (length (pending q)))) /\
    pending q' = pending q ++ frames /\ (length (pending q') <= tx_capacity q)%nat /\
    Forall2 (fun frame seg => forall pad, parse_to_rx_datagram (frame ++ pad) peer
      = Done (Some (MkRx (MkPath (V4 src sp) (V4 dst dp)) ecn seg))) frames segs.
Proof.
  intros Hl Hr Hsrc Hws Hwd Hsp Hdp Hpeer Hecn Hw Hn. pose proof (tx_push_cases q m dst dp Hl Hr Hwd) as Hc.
  rewrite Hsrc, Hecn, Hw in Hc. destruct n as [|n]; [lia|]. destruct (Hc Hws) as (q' & m' & segs & more & E & -> & Hseg & Hby & Hp & Hcap & _).
  exists q', m', more, (map (quic_frame q src dst sp dp (ecn_to_tos_bits ecn)) (take (S n) buf :: more)). cbv zeta. split_and!; try done.
  apply Forall2_fmap_l, Forall_Forall2_diag. eapply Forall_impl; [exact Hby|]. intros d [Hd1 Hd2] pad. unfold compose, quic_frame.
  rewrite quic_frame_read by (done || (split_and!; [done..|unfold zlen in *; lia])). cbn [ecn_byte]. by rewrite ecn_roundtrip.
Qed.

(** An endpoint that sends to an IPv6 peer stops the transport: [from_remote_address] builds a path to any address, although
    the queue relies on IPv6 being refused there, and [push] panics on it. *)
Theorem ipv6_path_panics_push {M} `{TxMessage M} q m ip p fl sc :
  (length (pending q) < tx_capacity q)%nat -> path_handle m = from_remote_address (V6 ip p fl sc) -> tx_push q m = Panic.
Proof. intros Hl E. unfold tx_push. rewrite (proj2 (Nat.leb_gt _ _)) by done. cbv zeta. by rewrite E. Qed.

(** On a tagged link the congestion mark is lost: the mark of a datagram received with an 802.1Q tag is the low two bits of the
    tag, whatever its type-of-service byte says. *)
Theorem vlan_tag_read_as_ecn src_mac dst_mac tci src dst sp dp payload ttl tos local :
  wf_udp src dst payload -> is_u16 sp -> is_u16 dp -> is_u16 tci -> port local = dp ->
  parse_to_rx_datagram (udp_frame src_mac dst_mac (Some tci) src dst sp dp payload ttl tos) local
  = Done (Some (MkRx (MkPath (V4 src sp) (V4 dst dp)) (extract_ecn tci) payload)).
Proof.
  intros Hwf Hsp Hdp Ht Hp. rewrite <- (app_nil_r (udp_frame _ _ _ _ _ _ _ _ _ _)).
  rewrite quic_frame_read by (done || (by intros t [= <-])). cbn [ecn_byte].
  assert (Z.land (u8 tci) 3 = Z.land tci 3) as E.
  { change 3 with (Z.ones 2). rewrite !Z.land_ones by lia. unfold u8. apply Z.mod_mod_divide. by exists 64. }
  unfold extract_ecn. by rewrite E.
Qed.
