(* ===== verification/QuicLoop.v ===== *)
(** * A turn of the QUIC event loop (dpdk-stdlib-quic/src/event_loop.rs)

    For every endpoint that transmits by pushing messages with IPv4 paths, and every backend. *)

From stdpp Require Import base numbers list.
From Stdlib Require Import ZArith Lia.
From S2P Require Import Prelude State Buffer Checksum Codec CodecFrames UdpChecksum UdpFrame UdpLayout Routing Icmp NeighborCache Arp UdpRobust UdpSocket Quic.

#[local] Open Scope Z_scope.

(** ** Endpoints *)

Definition wf_addr (a : SocketAddr) : Prop := is_u16 (port a) /\ match a with V4 ip _ => wf_ipv4 ip | V6 _ _ _ _ => True end.

Lemma source_address_wf local path :
  wf_addr local -> wf_addr (p_local path) ->
  wf_ipv4 (source_address local path).1 /\ is_u16 (source_address local path).2.
Proof.
  intros [Hp Hl] [Hp' Hl']. assert (wf_ipv4 UNSPECIFIED) as Hu by (repeat split; cbn; lia).
  unfold source_address. destruct (p_local path) as [ip p|ip p f sc], local as [ip' p'|ip' p' f' sc'];
    cbn [socket_address_to_v4 port] in *; case_bool_decide; bcase; done.
Qed.

Section Endpoints.

Context {E M : Type} `{HE : Endpoint E} `{HM : TxMessage M} `{!TxMessageLaws M}.

Definition ipv4_message (m : M) : Prop :=
  exists dst dp, p_remote (path_handle m) = V4 dst dp /\ wf_ipv4 dst /\ is_u16 dp /\ wf_addr (p_local (path_handle m)).

(** A transmission: any number of messages pushed. *)
Inductive pushes : DpdkTxQueue -> DpdkTxQueue -> Prop :=
| push_none q : pushes q q
| push_one q m q1 m' r q2 : ipv4_message m -> tx_push q m = Done (q1, m', r) -> pushes q1 q2 -> pushes q q2.

(** A frame this crate builds. *)
Definition is_quic_frame (q : DpdkTxQueue) (f : list Z) : Prop :=
  exists src dst sp dp tos d, wf_udp src dst d /\ is_u16 sp /\ is_u16 dp /\ zlen d <= 1472 /\ f = quic_frame q src dst sp dp tos d.

Lemma pushes_ok q q' :
  pushes q q' -> (length (pending q) <= tx_capacity q)%nat -> wf_addr (tx_local_addr q) ->
  exists out, pending q' = pending q ++ out /\ (length (pending q') <= tx_capacity q)%nat /\
    Forall (is_quic_frame q) out /\ queue_config q' = queue_config q.
Proof.
  induction 1 as [q|q m q1 m' r q2 (dst & dp & Hr & Hd & Hdp & Hpl) Hpush _ IH]; intros Hl Hloc.
  { exists []. rewrite app_nil_r. by repeat split. }
  assert (exists out, pending q1 = pending q ++ out /\ (length (pending q1) <= tx_capacity q)%nat /\
    Forall (is_quic_frame q) out /\ queue_config q1 = queue_config q) as (out1 & P1 & L1 & F1 & C1).
  { destruct (Nat.le_gt_cases (tx_capacity q) (length (pending q))) as [Hfull|Hroom].
    { unfold tx_push in Hpush. rewrite (proj2 (Nat.leb_le _ _)) in Hpush by done. injection Hpush as <- _ _. exists []. rewrite app_nil_r. by repeat split. }
    destruct (source_address_wf (tx_local_addr q) (path_handle m) Hloc Hpl) as [Hsw Hsp].
    pose proof (tx_push_cases q m dst dp Hroom Hr Hd Hsw) as Hc. destruct (source_address _ _) as [src sp]. cbn [fst snd] in *.
    destruct (message_ecn m) as [m1 ecn]. destruct (write_payload m1 _ 0) as [[m2 buf] [[|n]|e]];
      [rewrite Hc in Hpush; injection Hpush as <- _ _; exists []; rewrite app_nil_r; by repeat split| |
       rewrite Hc in Hpush; injection Hpush as <- _ _; exists []; rewrite app_nil_r; by repeat split].
    destruct Hc as (q' & m'' & segs & more & E1 & _ & _ & Hby & Hp & Hcap & Hcfg). rewrite E1 in Hpush. injection Hpush as <- _ _.
    eexists. split; [exact Hp|]. split; [done|]. split; [|done]. apply Forall_fmap. eapply Forall_impl; [exact Hby|].
    intros d [Hd1 Hd2]. exists src, dst, sp, dp, (ecn_to_tos_bits ecn), d. split; [split_and!; [done..|unfold zlen in *; lia]|]. by split_and!. }
  assert (tx_capacity q1 = tx_capacity q /\ tx_local_addr q1 = tx_local_addr q) as [C2 C3] by (unfold queue_config in C1; split; congruence).
  destruct IH as (out2 & P2 & L2 & F2 & C4); [by rewrite C2|by rewrite C3|].
  exists (out1 ++ out2). rewrite app_assoc, <- P1. split_and!; [done|by rewrite <- C2| |congruence].
  apply Forall_app. split; [done|]. eapply Forall_impl; [exact F2|].
  intros f (src & dst' & sp & dp' & tos & d & H1 & H2 & H3 & H4 & ->). exists src, dst', sp, dp', tos, d.
  by rewrite (quic_frame_config q q1).
Qed.

End Endpoints.

(** An endpoint transmits by pushing messages. *)
Class EndpointLaws (E M : Type) `{Endpoint E} `{TxMessage M} := {
  transmit_law : forall ep q now, wf_addr (tx_local_addr q) -> exists ep' q', ep_transmit ep q now = Done (ep', q') /\ pushes (M := M) q q' }.

(** ** The parts of a turn *)

(** The datagrams a burst holds. *)
Definition accepted (local : SocketAddr) (frames : list (list Z)) : list RxDatagram :=
  omap (fun f => if default 0 (f !! 23%nat) =? IP_PROTO_ICMP then None
                 else match parse_to_rx_datagram f local with Done o => o | _ => None end) frames.

Lemma receive_frames_ok send_frame icmp local : forall frames rx sent count,
  Forall (fun f => zlen f <= 65535) frames ->
  exists replies, receive_frames send_frame icmp local frames rx sent count =
    Done (rx ++ accepted local frames, sent ++ replies, count + zlen (accepted local frames)).
Proof.
  induction frames as [|f frames IH]; intros rx sent count Hf; cbn [receive_frames].
  - exists []. rewrite !app_nil_r. by rewrite Z.add_0_r.
  - apply Forall_cons in Hf as [Hf Hfs]. change (ETH_HEADER_LEN + 9)%nat with 23%nat. unfold accepted. cbn [omap list_omap].
    destruct (default 0 (f !! 23%nat) =? IP_PROTO_ICMP).
    + destruct (icmp_answer_total icmp f Hf) as (r & -> & _). cbn [obind].
      match goal with |- context [receive_frames _ _ _ frames rx ?x] => destruct (IH rx x count Hfs) as [replies ->];
        destruct r as [[reply|]|]; unfold send; rewrite <- ?app_assoc; eexists; done end.
    + destruct (parse_rx_total f local) as [[d|] E]; rewrite E; cbn [obind].
      * destruct (IH (rx ++ [d]) sent (count + 1) Hfs) as [replies ->]. exists replies. rewrite <- app_assoc. do 2 f_equal.
        unfold accepted, zlen. cbn [length]. lia.
      * apply IH, Hfs.
Qed.

Lemma transmit_frames_ok send_frame : forall frames sent c d,
  exists out c' d', transmit_frames send_frame frames sent c d = (sent ++ out, c', d') /\ map fst out = frames /\
    c' + d' = c + d + zlen frames /\ c <= c' /\ d <= d'.
Proof.
  induction frames as [|f frames IH]; intros sent c d; cbn [transmit_frames].
  - exists [], c, d. rewrite app_nil_r. split_and!; [done..|unfold zlen; cbn; lia|lia|lia].
  - unfold send. destruct (send_frame sent f) eqn:Ef.
    + destruct (IH (sent ++ [(f, true)]) (c + 1) d) as (out & c' & d' & -> & Hm & Hs & Hc & Hd). exists ((f, true) :: out), c', d'.
      rewrite <- app_assoc. cbn. rewrite Hm. split_and!; try done; unfold zlen in *; cbn [length]; lia.
    + destruct (IH (sent ++ [(f, false)]) c (d + 1)) as (out & c' & d' & -> & Hm & Hs & Hc & Hd). exists ((f, false) :: out), c', d'.
      rewrite <- app_assoc. cbn. rewrite Hm. split_and!; try done; unfold zlen in *; cbn [length]; lia.
Qed.

Lemma cooldown_ok {E} `{Endpoint E} budget (ep : E) now idle work :
  0 <= idle <= budget -> budget < 2 ^ 32 - 1 ->
  exists idle' sleep, cooldown budget ep now idle work = Done (idle', sleep) /\ 0 <= idle' <= budget /\
    (forall d, sleep = Some d -> 0 < d <= 1000000 /\ forall t, ep_timeout ep = Some t -> now + d <= t).
Proof.
  intros Hi Hb. unfold cooldown. destruct work; [by eexists _, _; split_and!; [reflexivity|lia|lia|]|].
  rewrite (proj2 (Z.leb_gt _ _)) by lia. destruct (Z.ltb_spec budget (idle + 1)).
  - eexists _, _. split; [reflexivity|]. split; [lia|]. intros d Hd. destruct (ep_timeout ep) as [t|]; [|injection Hd as <-; split; [lia|done]].
    destruct (Z.ltb_spec now t); [|done]. injection Hd as <-. split; [lia|]. intros t' [= <-]. lia.
  - eexists _, None. split; [reflexivity|]. split; [lia|done].
Qed.

(** ** Theorem *)

(** A turn of the event loop returns whatever the NIC delivers, and loses and invents nothing: the datagrams of the burst are appended in order
    to those the endpoint has been given or still has queued; everything the endpoint pushes is handed
    to the backend in order, no more than the burst size, each a well-formed UDP frame, and
    counted as transmitted or dropped; the transmit queue is empty again; and the loop sleeps, if at all, no longer than a
    millisecond and no later than the endpoint's timeout. *)
Theorem quic_turn_accounts {E M} `{EndpointLaws E M} `{!TxMessageLaws M} send_frame icmp local config now frames (l : Loop E) ep :
  poll_wakeups (l_endpoint l) now = (ep, false) -> Forall (fun f => zlen f <= 65535) frames ->
  pending (l_tx l) = [] -> wf_addr (tx_local_addr (l_tx l)) -> 0 <= l_idle l <= busy_poll_budget config -> busy_poll_budget config < 2 ^ 32 - 1 ->
  exists l' sleep replies out,
    loop_turn send_frame icmp local config false now (Ok frames) l = Done (l', Next sleep) /\
    l_given l' ++ l_rx l' = l_given l ++ l_rx l ++ accepted local frames /\
    l_sent l' = l_sent l ++ replies ++ out /\ Forall (is_quic_frame (l_tx l)) (map fst out) /\
    (length out <= tx_capacity (l_tx l))%nat /\ pending (l_tx l') = [] /\ queue_config (l_tx l') = queue_config (l_tx l) /\
    (exists sent drops, sent + drops = zlen out /\
       datagrams_transmitted (l_stats l') = u64 (datagrams_transmitted (l_stats l) + sent) /\
       tx_drops (l_stats l') = u64 (tx_drops (l_stats l) + drops) /\
       datagrams_received (l_stats l') = u64 (datagrams_received (l_stats l) + zlen (accepted local frames))) /\
    0 <= l_idle l' <= busy_poll_budget config /\
    (forall d, sleep = Some d -> 0 < d <= 1000000 /\ forall t, ep_timeout (l_endpoint l') = Some t -> now + d <= t).
Proof.
  intros Hp Hf Hq Hloc Hi Hbud. unfold loop_turn. rewrite Hp. cbv zeta. rsimpl.
  destruct (receive_frames_ok send_frame icmp local frames (l_rx l) (l_sent l) 0 Hf) as [replies ->]. cbn [obind]. rewrite Z.add_0_l.
  set (rx := l_rx l ++ accepted local frames).
  destruct (match rx with [] => (ep, false) | _ => ep_receive ep rx now end) as [ep1 drained].
  destruct (transmit_law (M := M) ep1 (l_tx l) now Hloc) as (ep2 & q & -> & Hpush). cbn [obind].
  destruct (pushes_ok _ _ Hpush) as (frs & Hpend & Hcap & Hgood & Hcfg); [rewrite Hq; cbn; lia|done|]. rewrite Hq in Hpend. cbn in Hpend.
  unfold drain. rewrite Hpend. rewrite Hpend in Hcap.
  destruct (transmit_frames_ok send_frame frs (l_sent l ++ replies) 0 0) as (out & c & d & -> & Hout & Hsum & Hc & Hd).
  assert (zlen out = zlen frs /\ length out = length frs) as [Ez El] by (rewrite <- Hout; unfold zlen; by rewrite length_map).
  match goal with |- context [cooldown _ ep2 now (l_idle l) ?w] =>
    destruct (cooldown_ok (busy_poll_budget config) ep2 now (l_idle l) w Hi Hbud) as (idle & sleep & -> & Hidle & Hsleep) end.
  cbn [obind]. eexists _, sleep, replies, out. split; [reflexivity|]. cbn [l_given l_rx l_sent l_tx l_idle l_stats l_endpoint]. rsimpl.
  split; [by destruct drained; rewrite ?app_nil_r|]. split; [by rewrite <- app_assoc|]. split; [by rewrite Hout|].
  split; [lia|]. split; [done|]. split; [by unfold queue_config in *; rsimpl|]. split; [|done].
  exists c, d. split_and!; [lia|done..].
Qed.

(** ** Ephemeral ports *)

(** The ports of [n] calls. *)
Fixpoint ephemeral_ports (pid : Z) (n : nat) (next : Z) : outcome (list Z) :=
  match n with
  | O => Done []
  | S n => let! (next, p) := ephemeral_port pid next in let! l := ephemeral_ports pid n next in Done (p :: l)
  end.

(** The ports a process asks for are all in the dynamic range, and up to 16384 ports asked for in a row are distinct, as long as the
    counter does not wrap in between (which takes at least 49152 calls from the start). *)
Theorem ephemeral_ports_distinct pid next n :
  0 < next -> next + Z.of_nat n <= 65536 -> Z.of_nat n <= 16384 ->
  exists l, ephemeral_ports pid n next = Done l /\ length l = n /\ NoDup l /\ Forall (fun p => 49152 <= p <= 65535) l.
Proof.
  intros H0 H1 Hn.
  assert (forall n next, 0 < next -> next + Z.of_nat n <= 65536 ->
    ephemeral_ports pid n next = Done ((fun i => 49152 + (next - 1 + Z.of_nat i) mod 16384) <$> seq 0 n)) as Hl.
  { clear. induction n as [|n IH]; intros next H0 H1; [done|]. cbn [ephemeral_ports]. unfold ephemeral_port, EPHEMERAL_FIRST, EPHEMERAL_COUNT.
    cbv zeta.
    rewrite (proj2 (Z.eqb_neq _ _)) by lia. rewrite (u16_small (next - 1)) by (unfold is_u16; lia).
    pose proof (Z.mod_pos_bound (next - 1) 16384 ltac:(lia)). rewrite (proj2 (Z.ltb_lt _ _)) by lia. cbn [obind].
    destruct n as [|n]; [cbn [ephemeral_ports obind seq fmap list_fmap Z.of_nat]; by rewrite Z.add_0_r|].
    rewrite u16_small by (unfold is_u16; lia). rewrite IH by lia. cbn [obind]. change (seq 0 (S (S n))) with (0%nat :: seq 1 (S n)). rewrite fmap_cons. f_equal. f_equal; [by rewrite Z.add_0_r|].
    rewrite <- (fmap_S_seq 0 (S n)), <- list_fmap_compose. apply list_fmap_ext. intros i x _. unfold compose. do 2 f_equal. lia. }
  eexists. split; [by apply Hl|]. split; [by rewrite length_fmap, length_seq|]. split.
  - apply NoDup_fmap_2_strong; [|apply NoDup_seq]. intros i j Hi%elem_of_seq Hj%elem_of_seq E.
    assert ((next - 1 + Z.of_nat i) mod 16384 = (next - 1 + Z.of_nat j) mod 16384) as E' by lia. clear E.
    assert (((next - 1 + Z.of_nat i) - (next - 1 + Z.of_nat j)) mod 16384 = 0) as E2 by (rewrite Zminus_mod, E', Z.sub_diag; done).
    apply Z.mod_divide in E2 as [k Hk]; [|lia]. assert (k = 0) by lia. lia.
  - apply Forall_fmap, Forall_forall. intros i _. unfold compose. pose proof (Z.mod_pos_bound (next - 1 + Z.of_nat i) 16384 ltac:(lia)). lia.
Qed.

Lemma ephemeral_ports_distinct_witness : exists l, ephemeral_ports 7 3 1 = Done l /\ length l = 3%nat /\ NoDup l.
Proof. destruct (ephemeral_ports_distinct 7 1 3) as (l & H1 & H2 & H3 & _); [lia|lia|lia|]. exists l. done. Defined.

(** ** Samples *)

(** A message that writes [sm_payload] in segments of [sm_segment] bytes. *)
Record SampleMessage := MkSample {
  sm_path : DpdkPathHandle; sm_ecn : ExplicitCongestionNotification; sm_payload : list Z; sm_segment : nat; sm_max : nat }.

#[global] Instance sample_message : TxMessage SampleMessage := {
  path_handle := sm_path;
  message_ecn m := (m, sm_ecn m);
  can_gso m _ count := (count <=? sm_max m)%nat;
  write_payload m buf off :=
    let bytes := take (Nat.min (length buf) (sm_segment m)) (drop off (u8 <$> sm_payload m)) in
    (m, bytes ++ drop (length bytes) buf, Ok (length bytes)) }.

#[global] Instance sample_message_laws : TxMessageLaws SampleMessage.
Proof.
  constructor. intros m buf off m' buf' r. cbn. intros [= <- <- <-] Hb. rewrite length_app, length_drop, length_take.
  split; [lia|]. split; [|intros n [= <-]; lia].
  apply Forall_app. split; [|by apply Forall_drop]. apply Forall_take, Forall_drop, Forall_fmap, Forall_forall. intros z _. apply u8_range.
Qed.

(** An endpoint that sends the same message in each turn. *)
Record SampleEndpoint := MkEndpoint { se_payload : list Z; se_timeout : option Z }.

Definition sample_path : DpdkPathHandle := MkPath (V4 host_b 4433) (V4 UNSPECIFIED 0).

#[global] Instance sample_endpoint : Endpoint SampleEndpoint := {
  poll_wakeups ep _ := (ep, false);
  ep_receive ep _ _ := (ep, true);
  ep_transmit ep q _ :=
    let! (q, _, _) := tx_push q (MkSample sample_path Ect0 (se_payload ep) 2 3) in Done (ep, q);
  ep_timeout := se_timeout }.

#[global] Instance sample_endpoint_laws : EndpointLaws SampleEndpoint SampleMessage.
Proof.
  constructor. intros ep q now Hq. cbn [ep_transmit sample_endpoint]. set (m := MkSample _ _ _ _ _).
  assert (ipv4_message m) as Hm.
  { exists host_b, 4433. split_and!; [done|repeat split; cbn; lia|done|]. split; [done|]. repeat split; cbn; lia. }
  assert (exists q' m' r, tx_push q m = Done (q', m', r)) as (q' & m' & r & E).
  { pose proof Hm as (dst & dp & Hr & Hd & Hdp & Hpl).
    destruct (Nat.le_gt_cases (tx_capacity q) (length (pending q))) as [Hfull|Hroom].
    { unfold tx_push. rewrite (proj2 (Nat.leb_le _ _)) by done. by eexists _, _, _. }
    destruct (source_address_wf (tx_local_addr q) (path_handle m) Hq Hpl) as [Hsw _].
    pose proof (tx_push_cases q m dst dp Hroom Hr Hd Hsw) as Hc. destruct (source_address _ _). destruct (message_ecn m) as [m1 ecn].
    destruct (write_payload m1 _ 0) as [[m2 buf] [[|n]|e]]; [by eexists _, _, _| |by eexists _, _, _].
    destruct Hc as (q' & m' & segs & more & E & _). by eexists _, _, _. }
  rewrite E. cbn [obind]. exists ep, q'. split; [done|]. by eapply push_one; [|exact E|apply push_none].
Qed.

Definition sample_queue : DpdkTxQueue := tx_queue_new (V4 host_a 50000) 32 mac_a mac_b.

Definition sample_loop : Loop SampleEndpoint :=
  MkLoop (MkEndpoint [1; 2; 3] (Some 5000)) [] sample_queue 0 stats_new [] [].

Lemma quic_turn_accounts_witness :
  exists l' sleep replies out,
    loop_turn (fun _ _ => true) (icmp_handler_new mac_a host_a) (V4 host_a 50000) loop_config_default false 7
      (Ok [udp_frame mac_b mac_a None host_b host_a 4433 50000 [9] 64 3; [1; 2]]) sample_loop = Done (l', Next sleep) /\
    l_given l' ++ l_rx l' = [MkRx (MkPath (V4 host_b 4433) (V4 host_a 50000)) Ce [9]] /\
    l_sent l' = [] ++ replies ++ out /\ (length out <= 32)%nat /\ pending (l_tx l') = [].
Proof.
  destruct (quic_turn_accounts (E := SampleEndpoint) (M := SampleMessage) (fun _ _ => true) (icmp_handler_new mac_a host_a) (V4 host_a 50000) loop_config_default 7
    [udp_frame mac_b mac_a None host_b host_a 4433 50000 [9] 64 3; [1; 2]] sample_loop (MkEndpoint [1; 2; 3] (Some 5000)))
    as (l' & sleep & replies & out & E & Hg & Hs & _ & Hl & Hp & _).
  - reflexivity.
  - repeat constructor; vm_compute; congruence.
  - reflexivity.
  - split; [vm_compute; split; congruence|repeat split; vm_compute; congruence].
  - vm_compute. split; congruence.
  - reflexivity.
  - exists l', sleep, replies, out. split; [exact E|]. split; [rewrite Hg; reflexivity|]. split; [exact Hs|]. split; [exact Hl|exact Hp].
Defined.

Lemma quic_segments_over_the_wire_witness :
  exists q' m' frames, let segs := [[1; 2]; [3]] in
    tx_push sample_queue (MkSample sample_path Ect0 [1; 2; 3] 2 3) = Done (q', m', Ok (MkOutcome (length (mjoin segs)) 0)) /\
    pending q' = frames /\
    Forall2 (fun frame seg => forall pad, parse_to_rx_datagram (frame ++ pad) (V4 host_b 4433)
      = Done (Some (MkRx (MkPath (V4 host_a 50000) (V4 host_b 4433)) Ect0 seg))) frames segs.
Proof.
  destruct (quic_segments_over_the_wire sample_queue (MkSample sample_path Ect0 [1; 2; 3] 2 3) host_b 4433 host_a 50000
    (MkSample sample_path Ect0 [1; 2; 3] 2 3) Ect0 (MkSample sample_path Ect0 [1; 2; 3] 2 3)
    ([1; 2] ++ replicate 1470 0) 2 (V4 host_b 4433)) as (q' & m' & more & frames & Hm & E & Hp & _ & Hf).
  - vm_compute. lia.
  - reflexivity.
  - reflexivity.
  - repeat split; vm_compute; congruence.
  - repeat split; vm_compute; congruence.
  - vm_compute. split; congruence.
  - vm_compute. split; congruence.
  - reflexivity.
  - reflexivity.
  - reflexivity.
  - lia.
  - set (msg := MkSample sample_path Ect0 [1; 2; 3] 2 3) in *.
    assert (segments 2 msg 2 1 31 [[3]] msg) as Hs.
    { eapply (seg_next 2 msg 2 1 30 msg ([3] ++ replicate 1471 0) 1 []); [reflexivity|reflexivity|lia|].
      eapply seg_empty; [reflexivity|vm_compute; reflexivity]. }
    destruct (segments_unique _ _ _ _ _ _ _ _ _ Hm Hs) as [-> ->].
    exists q', msg, frames. split; [exact E|]. split; [exact Hp|exact Hf].
Defined.

Lemma ipv6_path_panics_push_witness :
  tx_push sample_queue (MkSample (from_remote_address (V6 1 443 0 0)) Ect0 [1] 2 3) = Panic.
Proof. apply (ipv6_path_panics_push sample_queue (MkSample (from_remote_address (V6 1 443 0 0)) Ect0 [1] 2 3) 1 443 0 0); [vm_compute; lia|reflexivity]. Defined.

Lemma vlan_tag_read_as_ecn_witness :
  parse_to_rx_datagram (udp_frame mac_b mac_a (Some 100) host_b host_a 4433 50000 [9] 64 3) (V4 host_a 50000)
  = Done (Some (MkRx (MkPath (V4 host_b 4433) (V4 host_a 50000)) NotEct [9])).
Proof.
  rewrite (vlan_tag_read_as_ecn mac_b mac_a 100 host_b host_a 4433 50000 [9] 64 3 (V4 host_a 50000)).
  - reflexivity.
  - split_and!; [repeat split; vm_compute; congruence..|repeat constructor; vm_compute; congruence|vm_compute; congruence].
  - vm_compute. split; congruence.
  - vm_compute. split; congruence.
  - vm_compute. split; congruence.
  - reflexivity.
Defined.
