(* ===== verification/DpdkPort.v ===== *)
(** * Ports, pools and their life cycle (dpdk/src/{eal,mbuf,port}.rs, dpdk-stdlib-net/src/backend_dpdk.rs)

    The wrapper over the DPDK library: initialisation of the environment, the creation of memory pools, the
    set-up, start, stop and release of Ethernet ports, and the construction and release of [DpdkBackend].  The C library
    itself is a parameter: what each call answers is a function of the calls so far.  The model records the calls, and
    [life] says which sequences of calls DPDK documents as legal. *)

From stdpp Require Import base numbers list.
From Stdlib Require Import ZArith Lia.
From S2P Require Import Prelude Routing.

#[local] Open Scope Z_scope.

(** ** Data *)

Inductive DpdkError : Type :=
| EalInitFailed (ret : Z) | PortConfigFailed (ret : Z) | InvalidPortId (port_id : Z) | MemoryAllocationFailed
| MempoolCreateFailed (errno : Z) | QueueSetupFailed (ret : Z) | InvalidName.

Record RxOffload := MkRxOffload { rx_vlan_strip : bool; rx_ipv4_cksum : bool; rx_udp_cksum : bool; rx_tcp_cksum : bool }.
Record TxOffload := MkTxOffload { tx_vlan_insert : bool; tx_ipv4_cksum : bool; tx_udp_cksum : bool; tx_tcp_cksum : bool }.

(** Bits of the offload words. *)
Definition OFFLOAD_VLAN : Z := 1.
Definition OFFLOAD_IPV4_CKSUM : Z := 2.
Definition OFFLOAD_UDP_CKSUM : Z := 4.
Definition OFFLOAD_TCP_CKSUM : Z := 8.

Definition or_flag (flags : Z) (b : bool) (bit : Z) : Z := if b then Z.lor flags bit else flags.

Definition rx_to_flags (o : RxOffload) : Z :=
  or_flag (or_flag (or_flag (or_flag 0 (rx_vlan_strip o) OFFLOAD_VLAN) (rx_ipv4_cksum o) OFFLOAD_IPV4_CKSUM)
    (rx_udp_cksum o) OFFLOAD_UDP_CKSUM) (rx_tcp_cksum o) OFFLOAD_TCP_CKSUM.

Definition tx_to_flags (o : TxOffload) : Z :=
  or_flag (or_flag (or_flag (or_flag 0 (tx_vlan_insert o) OFFLOAD_VLAN) (tx_ipv4_cksum o) OFFLOAD_IPV4_CKSUM)
    (tx_udp_cksum o) OFFLOAD_UDP_CKSUM) (tx_tcp_cksum o) OFFLOAD_TCP_CKSUM.

Record PortConfig := MkPortConfig {
  nb_rx_queues : Z; nb_tx_queues : Z; nb_rx_desc : Z; nb_tx_desc : Z;
  pc_promiscuous : bool; pc_mtu : Z; rx_offload : RxOffload; tx_offload : TxOffload }.

#[global] Instance eta_PortConfig : Eta PortConfig := fun c =>
  MkPortConfig (nb_rx_queues c) (nb_tx_queues c) (nb_rx_desc c) (nb_tx_desc c) (pc_promiscuous c) (pc_mtu c) (rx_offload c) (tx_offload c).

Definition port_config_default : PortConfig :=
  MkPortConfig 1 1 1024 1024 true 0 (MkRxOffload false false false false) (MkTxOffload false false false false).

Definition pc_with_mtu (c : PortConfig) (mtu : Z) : PortConfig := c <| pc_mtu := mtu |>.

Record DeviceCapabilities := MkCapa { rx_offload_capa : Z; tx_offload_capa : Z; max_rx_queues : Z; max_tx_queues : Z }.

Record Port := MkPort {
  port_id : Z; p_config : PortConfig; p_started : bool; p_mac_address : Mac;
  capabilities : DeviceCapabilities; active_rx_offload : Z; active_tx_offload : Z }.

#[global] Instance eta_Port : Eta Port := fun p =>
  MkPort (port_id p) (p_config p) (p_started p) (p_mac_address p) (capabilities p) (active_rx_offload p) (active_tx_offload p).

Record MempoolConfig := MkPoolConfig { mp_n : Z; mp_cache_size : Z; mp_data_room_size : Z; mp_socket_id : Z }.

(** [SOCKET_ID_ANY] is -1, the default room 10240 bytes and the headroom. *)
Definition mempool_config_default : MempoolConfig := MkPoolConfig 8192 256 10368 (-1).

(** ** Calls of the library *)

Inductive call : Type :=
| EalInit (args : list (list Z)) | EalCleanup
| PoolCreate (name : list Z) (config : MempoolConfig) | PoolFree | Errno
| CountAvail | InfoGet (p : Z) | Configure (p nb_rx nb_tx mtu rx_offloads tx_offloads : Z) | SocketId
| RxQueueSetup (p q desc : Z) | TxQueueSetup (p q desc : Z) | MacGet (p : Z)
| DevStart (p : Z) | DevStop (p : Z) | DevClose (p : Z)
| Promiscuous (p : Z) (enable : bool) | PromiscuousGet (p : Z) | Allmulticast (p : Z) (enable : bool) | AllmulticastGet (p : Z)
| SetMcAddrs (p : Z) (addrs : list Mac).

(** The calls so far with their answers. *)
Definition history : Type := list (call * Z).

Definition io (A : Type) : Type := history -> A * history.
Definition ret {A} (a : A) : io A := fun h => (a, h).
Definition bind {A B} (m : io A) (k : A -> io B) : io B := fun h => let '(a, h) := m h in k a h.

#[local] Notation "'let+' x := m 'in' k" := (bind m (fun x => k)) (at level 10, x pattern, m at level 100, k at level 200).

Section Library.

(** What the library answers; the device information and the address it writes back. *)
Context (answer : history -> call -> Z) (dev_info : history -> DeviceCapabilities) (mac_addr : history -> Mac).

Definition ffi (c : call) : io Z := fun h => (answer h c, h ++ [(c, answer h c)]).

(** ** The environment (eal.rs) *)

(** [Eal::init]; a NUL byte in an argument is an error. *)
Definition eal_init (args : list (list Z)) : io (result unit DpdkError) :=
  if existsb (existsb (Z.eqb 0)) args then ret (Err (EalInitFailed (-1)))
  else let+ result := ffi (EalInit args) in ret (if result <? 0 then Err (EalInitFailed result) else Ok tt).

Definition eal_drop : io unit := let+ _ := ffi EalCleanup in ret tt.

(** ** Memory pools (mbuf.rs) *)

Definition MAX_MEMPOOL_NAME_LEN : Z := 32.

(** [Mempool::create]; the answer 0 of the library stands for the null pointer. *)
Definition mempool_create (name : list Z) (config : MempoolConfig) : io (result unit DpdkError) :=
  if (zlen name =? 0) || (MAX_MEMPOOL_NAME_LEN <? zlen name) || existsb (Z.eqb 0) name then ret (Err InvalidName)
  else
    let+ ptr := ffi (PoolCreate name config) in
    if ptr =? 0 then let+ errno := ffi Errno in ret (Err (MempoolCreateFailed errno)) else ret (Ok tt).

Definition mempool_drop : io unit := let+ _ := ffi PoolFree in ret tt.

(** ** Ports (port.rs) *)

(** The loops over the queues of [Port::init]. *)
Fixpoint setup_queues (setup : Z -> call) (qs : list Z) : io (result unit DpdkError) :=
  match qs with
  | [] => ret (Ok tt)
  | q :: qs =>
      let+ r := ffi (setup q) in
      if negb (r =? 0) then ret (Err (PortConfigFailed r)) else setup_queues setup qs
  end.

(** [Port::init]. *)
Definition port_init (pid : Z) (config : PortConfig) : io (result Port DpdkError) :=
  let+ count := ffi CountAvail in
  if negb (pid <? count) then ret (Err (InvalidPortId pid))
  else
    let+ r := ffi (InfoGet pid) in
    if negb (r =? 0) then ret (Err (PortConfigFailed r))
    else
      let+ info := fun h => (dev_info h, h) in
      let nb_rx := Z.min (nb_rx_queues config) (max_rx_queues info) in
      let nb_tx := Z.min (nb_tx_queues config) (max_tx_queues info) in
      let active_rx := Z.land (rx_to_flags (rx_offload config)) (rx_offload_capa info) in
      let active_tx := Z.land (tx_to_flags (tx_offload config)) (tx_offload_capa info) in
      let+ r := ffi (Configure pid nb_rx nb_tx (pc_mtu config) active_rx active_tx) in
      if negb (r =? 0) then ret (Err (PortConfigFailed r))
      else
        let+ _ := ffi SocketId in
        let+ rxs := setup_queues (fun q => RxQueueSetup pid q (nb_rx_desc config)) (seqZ 0 nb_rx) in
        match rxs with
        | Err e => ret (Err e)
        | Ok _ =>
            let+ txs := setup_queues (fun q => TxQueueSetup pid q (nb_tx_desc config)) (seqZ 0 nb_tx) in
            match txs with
            | Err e => ret (Err e)
            | Ok _ =>
                let+ r := ffi (MacGet pid) in
                if negb (r =? 0) then ret (Err (PortConfigFailed r))
                else
                  let+ mac := fun h => (mac_addr h, h) in
                  ret (Ok (MkPort pid (config <| nb_rx_queues := nb_rx |> <| nb_tx_queues := nb_tx |>) false mac info active_rx active_tx))
            end
        end.

Definition port_start (p : Port) : io (Port * result unit DpdkError) :=
  if p_started p then ret (p, Ok tt)
  else
    let+ r := ffi (DevStart (port_id p)) in
    if negb (r =? 0) then ret (p, Err (PortConfigFailed r))
    else
      let+ _ := if pc_promiscuous (p_config p) then ffi (Promiscuous (port_id p) true) else ret 0 in
      ret (p <| p_started := true |>, Ok tt).

Definition port_stop (p : Port) : io (Port * result unit DpdkError) :=
  if negb (p_started p) then ret (p, Ok tt)
  else
    let+ r := ffi (DevStop (port_id p)) in
    if negb (r =? 0) then ret (p, Err (PortConfigFailed r)) else ret (p <| p_started := false |>, Ok tt).

Definition set_promiscuous (p : Port) (enable : bool) : io (Port * result unit DpdkError) :=
  let+ r := ffi (Promiscuous (port_id p) enable) in
  if negb (r =? 0) then ret (p, Err (PortConfigFailed r))
  else ret (p <| p_config := (p_config p) <| pc_promiscuous := enable |> |>, Ok tt).

Definition set_allmulticast (p : Port) (enable : bool) : io (result unit DpdkError) :=
  let+ r := ffi (Allmulticast (port_id p) enable) in
  ret (if negb (r =? 0) then Err (PortConfigFailed r) else Ok tt).

(** [set_multicast_addrs]; an empty slice is passed as a null pointer and the count 0. *)
Definition set_multicast_addrs (p : Port) (addrs : list Mac) : io (result unit DpdkError) :=
  let+ r := ffi (SetMcAddrs (port_id p) addrs) in
  ret (if negb (r =? 0) then Err (PortConfigFailed r) else Ok tt).

(** [Drop for Port]. *)
Definition port_drop (p : Port) : io unit :=
  let+ _ := (if p_started p then let+ _ := port_stop p in ret tt else ret tt) in
  let+ _ := ffi (DevClose (port_id p)) in ret tt.

(** ** The backend (backend_dpdk.rs) *)

Record DpdkBackend := MkBackend {
  b_eal : bool; b_port : Port; b_mac_address : Mac; b_promiscuous : bool; b_allmulticast : bool }.

Definition JUMBO_DATA_ROOM_SIZE : Z := 9216 + 128.

(** The common body of [new] and [new_real_nic]: what was acquired is dropped in reverse order on an early return. *)
Definition backend_acquire (args : list (list Z)) (pool_name : list Z) (pid : Z) : io (result DpdkBackend DpdkError) :=
  let+ eal := eal_init args in
  match eal with
  | Err e => ret (Err e)
  | Ok _ =>
      let+ pool := mempool_create pool_name (MkPoolConfig 8192 256 JUMBO_DATA_ROOM_SIZE (mp_socket_id mempool_config_default)) in
      match pool with
      | Err e => let+ _ := eal_drop in ret (Err e)
      | Ok _ =>
          let+ port := port_init pid (pc_with_mtu port_config_default 9001) in
          match port with
          | Err e => let+ _ := mempool_drop in let+ _ := eal_drop in ret (Err e)
          | Ok port =>
              let+ (port, started) := port_start port in
              match started with
              | Err e => let+ _ := port_drop port in let+ _ := mempool_drop in let+ _ := eal_drop in ret (Err e)
              | Ok _ =>
                  let+ promiscuous := ffi (PromiscuousGet pid) in
                  let+ allmulticast := ffi (AllmulticastGet pid) in
                  ret (Ok (MkBackend true port (p_mac_address port) (negb (promiscuous =? 0)) (negb (allmulticast =? 0))))
              end
          end
      end
  end.

(** [from_port_and_mempool]: the environment belongs to the caller. *)
Definition from_port_and_mempool (port : Port) : io DpdkBackend :=
  let+ promiscuous := ffi (PromiscuousGet (port_id port)) in
  let+ allmulticast := ffi (AllmulticastGet (port_id port)) in
  ret (MkBackend false port (p_mac_address port) (negb (promiscuous =? 0)) (negb (allmulticast =? 0))).

(** The drop of a backend: its fields in the order of their declaration. *)
Definition backend_drop (b : DpdkBackend) : io unit :=
  let+ _ := (if b_eal b then eal_drop else ret tt) in
  let+ _ := port_drop (b_port b) in
  mempool_drop.

End Library.

(** The arguments of [new] ("-l", "0", "-n", "4", "--no-pci") and its pool's name, as bytes. *)
Definition new_args : list (list Z) := [[45; 108]; [48]; [45; 110]; [52]; [45; 45; 110; 111; 45; 112; 99; 105]].
Definition new_pool : list Z := [98; 97; 99; 107; 101; 110; 100; 95; 112; 111; 111; 108].

Definition backend_new answer dev_info mac_addr (pid : Z) : io (result DpdkBackend DpdkError) :=
  backend_acquire answer dev_info mac_addr new_args new_pool pid.

(** The default arguments of [new_real_nic] ("dpdk-tcp", "-l", "0", "-n", "4") and its pool's name. *)
Definition nic_args : list (list Z) := [[100; 112; 100; 107; 45; 116; 99; 112]; [45; 108]; [48]; [45; 110]; [52]].
Definition nic_pool : list Z := [116; 99; 112; 95; 98; 97; 99; 107; 101; 110; 100; 95; 112; 111; 111; 108].

(** [env] is the value of DPDK_EAL_ARGS. *)
Definition resolve_eal_args (explicit : option (list text)) (env : option text) : list text :=
  match explicit with
  | Some a => a
  | None => match env with Some s => split_whitespace s | None => nic_args end
  end.

Definition backend_new_real_nic answer dev_info mac_addr (explicit : option (list text)) (env : option text) (pid : Z)
    : io (result DpdkBackend DpdkError) :=
  backend_acquire answer dev_info mac_addr (resolve_eal_args explicit env) nic_pool pid.

(** ** What DPDK allows *)

(** The state of the library as the calls leave it: the environment, the pool, the queues a port was configured for and those set
    up, and whether the port runs. *)
Record Life := MkLife {
  lf_eal : bool; lf_pool : bool; lf_conf : option (Z * Z); lf_rx : Z; lf_tx : Z; lf_running : bool }.

#[global] Instance eta_Life : Eta Life := fun l =>
  MkLife (lf_eal l) (lf_pool l) (lf_conf l) (lf_rx l) (lf_tx l) (lf_running l).

Definition life0 : Life := MkLife false false None 0 0 false.

(** One call: [None] is a call DPDK forbids.  Nothing but [rte_eal_init] may be called outside the environment; a port is configured
    and closed while it does not run, and started when all its queues are set up. *)
Definition life_step (l : Life) (cr : call * Z) : option Life :=
  let '(c, r) := cr in
  match c with
  | EalInit _ => if lf_eal l then None else Some (l <| lf_eal := negb (r <? 0) |>)
  | _ =>
    if negb (lf_eal l) then None
    else match c with
         | EalCleanup => Some (l <| lf_eal := false |>)
         | PoolCreate _ _ => if lf_pool l then None else Some (l <| lf_pool := negb (r =? 0) |>)
         | PoolFree => if lf_pool l then Some (l <| lf_pool := false |>) else None
         | Configure _ rx tx _ _ _ =>
             if lf_running l then None
             else Some (l <| lf_conf := if r =? 0 then Some (rx, tx) else None |> <| lf_rx := 0 |> <| lf_tx := 0 |>)
         | RxQueueSetup _ q _ =>
             match lf_conf l with
             | Some (rx, _) => if negb (lf_running l) && (q =? lf_rx l) && (q <? rx) && lf_pool l
                               then Some (l <| lf_rx := if r =? 0 then q + 1 else q |>) else None
             | None => None
             end
         | TxQueueSetup _ q _ =>
             match lf_conf l with
             | Some (_, tx) => if negb (lf_running l) && (q =? lf_tx l) && (q <? tx)
                               then Some (l <| lf_tx := if r =? 0 then q + 1 else q |>) else None
             | None => None
             end
         | DevStart _ =>
             match lf_conf l with
             | Some (rx, tx) => if negb (lf_running l) && (lf_rx l =? Z.max 0 rx) && (lf_tx l =? Z.max 0 tx)
                                then Some (l <| lf_running := (r =? 0) |>) else None
             | None => None
             end
         | DevStop _ => if lf_running l then Some (l <| lf_running := negb (r =? 0) |>) else None
         | DevClose _ => if lf_running l then None else Some (l <| lf_conf := None |>)
         | _ => Some l
         end
  end.

Fixpoint life_run (l : Life) (h : history) : option Life :=
  match h with [] => Some l | cr :: h => match life_step l cr with Some l => life_run l h | None => None end end.

(** The state of the library after a history; [None]: it was misused. *)
Definition life (h : history) : option Life := life_run life0 h.

Lemma life_run_app h h' : forall l, life_run l (h ++ h') = match life_run l h with Some l => life_run l h' | None => None end.
Proof. induction h as [|cr h IH]; intros l; cbn; [done|]. destruct (life_step l cr); [apply IH|done]. Qed.

Lemma life_snoc h cr : life (h ++ [cr]) = match life h with Some l => life_step l cr | None => None end.
Proof. unfold life. rewrite life_run_app. destruct (life_run life0 h) as [l|]; [|done]. cbn. by destruct (life_step l cr). Qed.

(** ** Specifications of operations *)

(** From every state with [P] the operation makes legal calls only, and ends with [Q]. *)
Definition spec {A} (P : Life -> Prop) (m : io A) (Q : A -> Life -> Prop) : Prop :=
  forall h l, life h = Some l -> P l -> exists l', life (snd (m h)) = Some l' /\ Q (fst (m h)) l'.

Lemma spec_ret {A} (a : A) (P : Life -> Prop) (Q : A -> Life -> Prop) : (forall l, P l -> Q a l) -> spec P (ret a) Q.
Proof. intros H h l Hl HP. exists l. cbn. auto. Qed.

Lemma spec_bind {A B} (m : io A) (k : A -> io B) P Q R :
  spec P m Q -> (forall a, spec (Q a) (k a) R) -> spec P (bind m k) R.
Proof.
  intros Hm Hk h l Hl HP. unfold bind. destruct (Hm h l Hl HP) as (l1 & Hl1 & HQ). destruct (m h) as [a h1]. cbn in *. by apply (Hk a h1 l1).
Qed.

Lemma spec_weaken {A} (m : io A) (P P' : Life -> Prop) (Q Q' : A -> Life -> Prop) :
  spec P m Q -> (forall l, P' l -> P l) -> (forall a l, Q a l -> Q' a l) -> spec P' m Q'.
Proof. intros H HP HQ h l Hl HP'. destruct (H h l Hl (HP l HP')) as (l' & ? & ?). exists l'. auto. Qed.

(** An operation whose answer is dropped. *)
Lemma spec_drop {A} (m : io A) (P Q : Life -> Prop) : spec P m (fun _ => Q) -> spec P (bind m (fun _ => ret tt)) (fun _ => Q).
Proof. intros H. eapply spec_bind; [exact H|]. intros a. by apply spec_ret. Qed.

Lemma spec_pure {A} (phi : Prop) (m : io A) (P : Life -> Prop) (Q : A -> Life -> Prop) : (phi -> spec P m Q) -> spec (fun l => P l /\ phi) m Q.
Proof. intros H h l Hl [HP Hphi]. by apply (H Hphi h l). Qed.

(** An operation that makes no call. *)
Lemma spec_read {A} (f : history -> A) (P : Life -> Prop) (Q : A -> Life -> Prop) : (forall a l, P l -> Q a l) -> spec P (fun h => (f h, h)) Q.
Proof. intros H h l Hl HP. exists l. cbn. auto. Qed.

Section Specs.

Context (answer : history -> call -> Z) (dev_info : history -> DeviceCapabilities) (mac_addr : history -> Mac).

Lemma spec_ffi c (P : Life -> Prop) (Q : Z -> Life -> Prop) :
  (forall l r, P l -> exists l', life_step l (c, r) = Some l' /\ Q r l') -> spec P (ffi answer c) Q.
Proof. intros H h l Hl HP. cbn. rewrite life_snoc, Hl. destruct (H l (answer h c) HP) as (l' & -> & ?). by exists l'. Qed.

(** The same with the answer the library gives. *)
Lemma spec_ffi_at c (P : Life -> Prop) (Q : Z -> Life -> Prop) :
  (forall h l, P l -> exists l', life_step l (c, answer h c) = Some l' /\ Q (answer h c) l') -> spec P (ffi answer c) Q.
Proof. intros H h l Hl HP. cbn. rewrite life_snoc, Hl. destruct (H h l HP) as (l' & -> & ?). by exists l'. Qed.

(** The states of a backend's resources. *)
Definition with_pool (l : Life) : Prop := l = MkLife true true (lf_conf l) (lf_rx l) (lf_tx l) false.
Definition port_ready (p : Port) (l : Life) : Prop :=
  exists rx tx, l = MkLife true true (Some (rx, tx)) (Z.max 0 rx) (Z.max 0 tx) (p_started p) /\
    nb_rx_queues (p_config p) = rx /\ nb_tx_queues (p_config p) = tx.

(** What [init] promises of the port. *)
Definition fits_device (config : PortConfig) (p : Port) : Prop :=
  nb_rx_queues (p_config p) = Z.min (nb_rx_queues config) (max_rx_queues (capabilities p)) /\
  nb_tx_queues (p_config p) = Z.min (nb_tx_queues config) (max_tx_queues (capabilities p)) /\
  (forall i, Z.testbit (active_rx_offload p) i = Z.testbit (rx_to_flags (rx_offload config)) i && Z.testbit (rx_offload_capa (capabilities p)) i) /\
  (forall i, Z.testbit (active_tx_offload p) i = Z.testbit (tx_to_flags (tx_offload config)) i && Z.testbit (tx_offload_capa (capabilities p)) i).

(** No environment, no pool, no port that runs. *)
Definition released (l : Life) : Prop := lf_eal l = false /\ lf_pool l = false /\ lf_running l = false.

(** Calls that only need the environment. *)
Definition harmless (c : call) : Prop := forall l r, lf_eal l = true -> life_step l (c, r) = Some l.

Lemma spec_harmless c (P : Life -> Prop) : harmless c -> (forall l, P l -> lf_eal l = true) -> spec P (ffi answer c) (fun _ => P).
Proof. intros Hc HP. apply spec_ffi. intros l r H. exists l. split; [by apply Hc, HP|done]. Qed.

Lemma harmless_calls p b a : harmless CountAvail /\ harmless (InfoGet p) /\ harmless SocketId /\ harmless (MacGet p) /\ harmless Errno /\
  harmless (Promiscuous p b) /\ harmless (PromiscuousGet p) /\ harmless (Allmulticast p b) /\ harmless (AllmulticastGet p) /\ harmless (SetMcAddrs p a).
Proof. repeat split; intros l r H; cbn; by rewrite H. Qed.

Lemma eal_init_spec args : spec released (eal_init answer args)
  (fun r l => match r with Ok _ => lf_eal l = true /\ lf_pool l = false /\ lf_running l = false | Err _ => released l end).
Proof.
  unfold eal_init. destruct (existsb _ args); [by apply spec_ret|]. eapply spec_bind.
  - apply spec_ffi. intros l r (He & Hp & Hr). cbn. rewrite He. eexists. split; [reflexivity|].
    instantiate (1 := fun r l => lf_eal l = negb (r <? 0) /\ lf_pool l = false /\ lf_running l = false). rsimpl. done.
  - intros r. apply spec_ret. intros l (He & ? & ?). destruct (r <? 0); done.
Qed.

Lemma eal_drop_spec (P : Life -> Prop) : (forall l, P l -> lf_eal l = true /\ lf_pool l = false /\ lf_running l = false) ->
  spec P (eal_drop answer) (fun _ => released).
Proof.
  intros HP. unfold eal_drop. apply spec_drop. apply spec_ffi. intros l r H. cbn.
  destruct (HP l H) as (-> & ? & ?). eexists. split; [reflexivity|]. unfold released. rsimpl. done.
Qed.

Lemma mempool_create_spec name config : spec (fun l => lf_eal l = true /\ lf_pool l = false /\ lf_running l = false) (mempool_create answer name config)
  (fun r l => match r with Ok _ => with_pool l | Err _ => lf_eal l = true /\ lf_pool l = false /\ lf_running l = false end).
Proof.
  unfold mempool_create. destruct (_ || _); [by apply spec_ret|]. eapply spec_bind.
  - apply spec_ffi. intros l r (He & Hp & Hr). cbn. rewrite He, Hp. cbn. eexists. split; [reflexivity|].
    instantiate (1 := fun r l => lf_eal l = true /\ lf_pool l = negb (r =? 0) /\ lf_running l = false). rsimpl. done.
  - intros r. destruct (Z.eqb_spec r 0) as [->|Hne].
    + eapply spec_bind; [apply spec_harmless; [apply (harmless_calls 0 true [])|by intros l (? & ? & ?)]|]. intros e. by apply spec_ret.
    + apply spec_ret. intros [e p c x y u] (? & Hp & ?). unfold with_pool. cbn in *. subst. by rewrite (proj2 (Z.eqb_neq _ _) Hne).
Qed.

Lemma mempool_drop_spec : spec with_pool (mempool_drop answer) (fun _ l => lf_eal l = true /\ lf_pool l = false /\ lf_running l = false).
Proof.
  unfold mempool_drop. apply spec_drop. apply spec_ffi. intros l r ->. eexists. split; [reflexivity|]. done.
Qed.

Lemma setup_rx_spec pid desc rx tx t : forall (n : nat) q, 0 <= q -> q + Z.of_nat n <= Z.max 0 rx ->
  spec (eq (MkLife true true (Some (rx, tx)) q t false)) (setup_queues answer (fun q => RxQueueSetup pid q desc) (seqZ q (Z.of_nat n)))
    (fun r l => match r with Ok _ => l = MkLife true true (Some (rx, tx)) (q + Z.of_nat n) t false | Err _ => with_pool l end).
Proof.
  induction n as [|n IH]; intros q H0 Hq; [rewrite Z.add_0_r; by apply spec_ret|].
  rewrite seqZ_cons by lia. cbn [setup_queues]. eapply spec_bind.
  - apply (spec_ffi _ _ (fun r l => l = MkLife true true (Some (rx, tx)) (if r =? 0 then q + 1 else q) t false)).
    intros l r <-. cbn. rewrite Z.eqb_refl, (proj2 (Z.ltb_lt _ _)) by lia. by eexists.
  - intros r. cbv beta. destruct (r =? 0); cbn [negb]; [|by apply spec_ret; intros l ->].
    replace (Z.pred (Z.of_nat (S n))) with (Z.of_nat n) by lia. replace (Z.succ q) with (q + 1) by lia.
    eapply spec_weaken; [apply IH; lia|by intros l ->|]. intros [] l; [|done]. intros ->. f_equal. lia.
Qed.

Lemma setup_tx_spec pid desc rx tx x : forall (n : nat) q, 0 <= q -> q + Z.of_nat n <= Z.max 0 tx ->
  spec (eq (MkLife true true (Some (rx, tx)) x q false)) (setup_queues answer (fun q => TxQueueSetup pid q desc) (seqZ q (Z.of_nat n)))
    (fun r l => match r with Ok _ => l = MkLife true true (Some (rx, tx)) x (q + Z.of_nat n) false | Err _ => with_pool l end).
Proof.
  induction n as [|n IH]; intros q H0 Hq; [rewrite Z.add_0_r; by apply spec_ret|].
  rewrite seqZ_cons by lia. cbn [setup_queues]. eapply spec_bind.
  - apply (spec_ffi _ _ (fun r l => l = MkLife true true (Some (rx, tx)) x (if r =? 0 then q + 1 else q) false)).
    intros l r <-. cbn. rewrite Z.eqb_refl, (proj2 (Z.ltb_lt _ _)) by lia. by eexists.
  - intros r. cbv beta. destruct (r =? 0); cbn [negb]; [|by apply spec_ret; intros l ->].
    replace (Z.pred (Z.of_nat (S n))) with (Z.of_nat n) by lia. replace (Z.succ q) with (q + 1) by lia.
    eapply spec_weaken; [apply IH; lia|by intros l ->|]. intros [] l; [|done]. intros ->. f_equal. lia.
Qed.

Lemma seqZ_of_nat n : seqZ 0 n = seqZ 0 (Z.of_nat (Z.to_nat n)).
Proof. destruct (Z.le_ge_cases 0 n); [by rewrite Z2Nat.id|]. by rewrite !seqZ_nil by lia. Qed.

(** A failing answer leaves the resources as they are. *)
Lemma spec_check {A} (r : Z) (k : io (result A DpdkError)) (P : Life -> Prop) (Q : result A DpdkError -> Life -> Prop) :
  (forall e l, P l -> Q (Err e) l) -> spec P k Q -> spec P (if negb (r =? 0) then ret (Err (PortConfigFailed r)) else k) Q.
Proof. intros HP Hk. destruct (r =? 0); [done|]. apply spec_ret. auto. Qed.

Lemma port_init_spec pid config : spec with_pool (port_init answer dev_info mac_addr pid config)
  (fun r l => match r with Ok p => port_ready p l /\ p_started p = false /\ port_id p = pid /\ fits_device config p | Err _ => with_pool l end).
Proof.
  destruct (harmless_calls pid true []) as (H1 & H2 & H3 & H4 & _). assert (forall l, with_pool l -> lf_eal l = true) as He by (by intros l ->).
  unfold port_init. eapply spec_bind; [by apply spec_harmless|]. intros count. destruct (pid <? count); cbn [negb]; [|by apply spec_ret].
  eapply spec_bind; [by apply spec_harmless|]. intros r0. apply spec_check; [done|].
  eapply spec_bind; [by apply (spec_read _ _ (fun _ => with_pool))|]. intros info. cbv zeta.
  set (rx := Z.min _ _). set (tx := Z.min _ _).
  eapply spec_bind.
  { apply (spec_ffi _ _ (fun r l => if r =? 0 then l = MkLife true true (Some (rx, tx)) 0 0 false else with_pool l)).
    intros l r ->. eexists. split; [reflexivity|]. cbn. by destruct (r =? 0). }
  intros r1. cbv beta. destruct (r1 =? 0); cbn [negb]; [|by apply spec_ret].
  eapply spec_bind; [apply spec_harmless; [done|by intros l ->]|]. intros sid.
  rewrite (seqZ_of_nat rx), (seqZ_of_nat tx).
  eapply spec_bind; [eapply spec_weaken; [apply (setup_rx_spec pid (nb_rx_desc config) rx tx 0 (Z.to_nat rx) 0); lia|by intros l ->|intros a l Ha; exact Ha]|].
  intros [u|e]; [|by apply spec_ret].
  eapply spec_bind; [eapply spec_weaken; [apply (setup_tx_spec pid (nb_tx_desc config) rx tx (0 + Z.of_nat (Z.to_nat rx)) (Z.to_nat tx) 0); lia|by intros l ->|intros a l Ha; exact Ha]|].
  intros [u'|e]; [|by apply spec_ret].
  eapply spec_bind; [apply spec_harmless; [done|by intros l ->]|]. intros r2. apply spec_check; [by intros e l ->|].
  eapply spec_bind; [eapply (spec_read _ _ (fun _ => eq _)); intros a l ->; reflexivity|]. intros mac. apply spec_ret. intros l <-.
  split; [|split; [done|split; [done|]]].
  - exists rx, tx. rsimpl. split_and!; [f_equal; lia|done|done].
  - unfold fits_device. rsimpl. split_and!; [done|done|intros i; apply Z.land_spec|intros i; apply Z.land_spec].
Qed.

Lemma port_ready_eal p l : port_ready p l -> lf_eal l = true.
Proof. by intros (rx & tx & -> & _). Qed.

Lemma port_start_spec p : spec (port_ready p) (port_start answer p)
  (fun r l => port_ready (fst r) l /\ match snd r with Ok _ => fst r = p <| p_started := true |> | Err _ => fst r = p /\ p_started p = false end).
Proof.
  unfold port_start. destruct p as [i c [] m k x y]; cbn [p_started]; [by apply spec_ret|].
  eapply spec_bind.
  - apply (spec_ffi _ _ (fun r => port_ready (MkPort i c (r =? 0) m k x y))). intros l r (rx & tx & -> & H1 & H2). cbn. rewrite !Z.eqb_refl. cbn.
    eexists. split; [reflexivity|]. by exists rx, tx.
  - intros r. cbv beta. destruct (r =? 0); cbn [negb]; [|by apply spec_ret].
    eapply (spec_bind _ _ _ (fun _ => port_ready (MkPort i c true m k x y))); [|by intros _; apply spec_ret].
    cbn [pc_promiscuous p_config port_id]. destruct (pc_promiscuous c); [|by apply spec_ret].
    apply spec_harmless; [apply (harmless_calls i true [])|apply port_ready_eal].
Qed.

Lemma port_stop_spec p : spec (port_ready p) (port_stop answer p)
  (fun r l => port_ready (fst r) l /\ match snd r with Ok _ => fst r = p <| p_started := false |> | Err _ => fst r = p end).
Proof.
  unfold port_stop. destruct p as [i c [] m k x y]; cbn [p_started negb]; [|by apply spec_ret].
  eapply spec_bind.
  - apply (spec_ffi _ _ (fun r => port_ready (MkPort i c (negb (r =? 0)) m k x y))). intros l r (rx & tx & -> & H1 & H2). cbn.
    eexists. split; [reflexivity|]. by exists rx, tx.
  - intros r. cbv beta. destruct (r =? 0); cbn [negb]; by apply spec_ret.
Qed.

(** A port that does not run is closed. *)
Lemma port_close_spec p i : p_started p = false -> spec (port_ready p) (let+ _ := ffi answer (DevClose i) in ret tt) (fun _ => with_pool).
Proof.
  intros Hp. apply spec_drop, spec_ffi. intros l r (rx & tx & -> & _). rewrite Hp. by eexists.
Qed.

Lemma port_drop_spec p : p_started p = false \/ (forall h i, answer h (DevStop i) = 0) -> spec (port_ready p) (port_drop answer p) (fun _ => with_pool).
Proof.
  intros Hp. unfold port_drop. destruct (p_started p) eqn:E.
  - destruct Hp as [|Hstop]; [done|]. eapply (spec_bind _ _ _ (fun _ => port_ready (p <| p_started := false |>))); [|intros []; by apply port_close_spec].
    apply spec_drop. unfold port_stop. rewrite E. cbn [negb]. eapply (spec_bind _ _ _ (fun r l => r = 0 /\ port_ready (p <| p_started := false |>) l)).
    + apply spec_ffi_at. intros h l (rx & tx & -> & H1 & H2). rewrite Hstop, E. cbn. eexists. split; [reflexivity|]. split; [done|]. by exists rx, tx.
    + intros r. destruct (Z.eqb_spec r 0) as [->|]; cbn [negb]; apply spec_ret; by intros l [? ?].
  - eapply (spec_bind _ _ _ (fun _ => port_ready p)); [by apply spec_ret|]. intros []. by apply port_close_spec.
Qed.

Lemma backend_acquire_spec args name pid : spec released (backend_acquire answer dev_info mac_addr args name pid)
  (fun r l => match r with
              | Ok b => port_ready (b_port b) l /\ b_eal b = true /\ p_started (b_port b) = true /\ port_id (b_port b) = pid /\
                        fits_device (pc_with_mtu port_config_default 9001) (b_port b) /\ b_mac_address b = p_mac_address (b_port b)
              | Err _ => released l
              end).
Proof.
  unfold backend_acquire. eapply spec_bind; [apply eal_init_spec|]. intros [[]|e]; [|by apply spec_ret].
  eapply spec_bind; [apply mempool_create_spec|]. intros [[]|e]; [|eapply spec_bind; [by apply eal_drop_spec|]; intros []; by apply spec_ret].
  eapply spec_bind; [apply port_init_spec|]. intros [p|e].
  2: { eapply spec_bind; [apply mempool_drop_spec|]. intros []. eapply spec_bind; [by apply eal_drop_spec|]. intros []. by apply spec_ret. }
  apply spec_pure. intros (Hs & Hid & Hfit).
  eapply spec_bind; [apply port_start_spec|]. intros [q [[]|e]]; cbn [fst snd]; apply spec_pure.
  - intros ->. destruct (harmless_calls pid true []) as (_ & _ & _ & _ & _ & _ & H1 & _ & H2 & _). pose proof (port_ready_eal (p <| p_started := true |>)) as He.
    eapply spec_bind; [by apply spec_harmless|]. intros a. eapply spec_bind; [by apply spec_harmless|]. intros b. apply spec_ret.
    intros l Hr. cbn [b_port b_eal b_mac_address]. done.
  - intros [-> _]. eapply spec_bind; [apply (port_drop_spec p); by left|]. intros [].
    eapply spec_bind; [apply mempool_drop_spec|]. intros []. eapply spec_bind; [by apply eal_drop_spec|]. intros []. by apply spec_ret.
Qed.

(** A backend over resources of its caller is released, and leaves the environment to the caller. *)
Lemma shared_backend_spec p : (forall h i, answer h (DevStop i) = 0) ->
  spec (port_ready p) (let+ b := from_port_and_mempool answer p in backend_drop answer b)
    (fun _ l => lf_eal l = true /\ lf_pool l = false /\ lf_running l = false).
Proof.
  intros Hstop. destruct (harmless_calls (port_id p) true []) as (_ & _ & _ & _ & _ & _ & H1 & _ & H2 & _). pose proof (port_ready_eal p) as He.
  eapply (spec_bind _ _ _ (fun b l => port_ready p l /\ b_eal b = false /\ b_port b = p)).
  - unfold from_port_and_mempool. eapply spec_bind; [by apply spec_harmless|]. intros r1. eapply spec_bind; [by apply spec_harmless|]. intros r2. by apply spec_ret.
  - intros b. apply spec_pure. intros [Hb Hp]. unfold backend_drop. rewrite Hb, Hp.
    eapply (spec_bind _ _ _ (fun _ => port_ready p)); [by apply spec_ret|]. intros []. eapply spec_bind; [apply port_drop_spec; by right|]. intros []. apply mempool_drop_spec.
Qed.

End Specs.

(** ** Sequences of operations *)

Inductive port_op : Type :=
| OpStart | OpStop | OpPromiscuous (enable : bool) | OpAllmulticast (enable : bool) | OpMulticast (addrs : list Mac).

Definition apply_op answer (p : Port) (o : port_op) : io (Port * result unit DpdkError) :=
  match o with
  | OpStart => port_start answer p
  | OpStop => port_stop answer p
  | OpPromiscuous enable => set_promiscuous answer p enable
  | OpAllmulticast enable => let+ r := set_allmulticast answer p enable in ret (p, r)
  | OpMulticast addrs => let+ r := set_multicast_addrs answer p addrs in ret (p, r)
  end.

Fixpoint apply_ops answer (p : Port) (os : list port_op) : io (Port * list (result unit DpdkError)) :=
  match os with
  | [] => ret (p, [])
  | o :: os => let+ (p, r) := apply_op answer p o in let+ (p, rs) := apply_ops answer p os in ret (p, r :: rs)
  end.

Lemma apply_op_spec answer p o : spec (port_ready p) (apply_op answer p o) (fun r l => port_ready (fst r) l).
Proof.
  destruct o as [| |b|b|a]; cbn [apply_op].
  - eapply spec_weaken; [apply port_start_spec|done|by intros a l [? _]].
  - eapply spec_weaken; [apply port_stop_spec|done|by intros a l [? _]].
  - unfold set_promiscuous. eapply spec_bind; [apply spec_harmless; [apply (harmless_calls (port_id p) b [])|apply port_ready_eal]|]. intros r. cbv beta.
    destruct (negb (r =? 0)); apply spec_ret; [done|]. intros l (rx & tx & Hl). by exists rx, tx.
  - eapply (spec_bind _ _ _ (fun _ => port_ready p)); [|by intros r; apply spec_ret]. unfold set_allmulticast.
    eapply spec_bind; [apply spec_harmless; [apply (harmless_calls (port_id p) b [])|apply port_ready_eal]|]. intros r. by apply spec_ret.
  - eapply (spec_bind _ _ _ (fun _ => port_ready p)); [|by intros r; apply spec_ret]. unfold set_multicast_addrs.
    eapply spec_bind; [apply spec_harmless; [apply (harmless_calls (port_id p) true a)|apply port_ready_eal]|]. intros r. by apply spec_ret.
Qed.

Lemma apply_ops_spec answer : forall os p, spec (port_ready p) (apply_ops answer p os) (fun r l => port_ready (fst r) l).
Proof.
  induction os as [|o os IH]; intros p; cbn [apply_ops]; [by apply spec_ret|].
  eapply spec_bind; [apply apply_op_spec|]. intros [p1 r]. cbn [fst]. eapply spec_bind; [apply IH|]. intros [p2 rs]. by apply spec_ret.
Qed.

(** ** Theorems *)

(** Whatever the library answers, [new] and [new_real_nic] use it as DPDK allows: no call outside the environment, the port configured
    before its queues and the queues set up one by one before the start.  They end with a running port within the queue
    and offload capabilities of the device, or with an error and everything acquired released in reverse order. *)
Theorem backend_construction_is_legal answer dev_info mac_addr args name pid h l :
  life h = Some l -> released l ->
  let '(r, h') := backend_acquire answer dev_info mac_addr args name pid h in
  exists l', life h' = Some l' /\
    match r with
    | Ok b => b_eal b = true /\ port_ready (b_port b) l' /\ p_started (b_port b) = true /\ port_id (b_port b) = pid /\
              fits_device (pc_with_mtu port_config_default 9001) (b_port b)
    | Err _ => released l'
    end.
Proof.
  intros Hl HP. destruct (backend_acquire_spec answer dev_info mac_addr args name pid h l Hl HP) as (l' & E & H).
  destruct (backend_acquire _ _ _ _ _ _ h) as [[b|e] h']; exists l'; cbn in *; [|done]. destruct H as (? & ? & ? & ? & ? & ?). done.
Qed.

(** C21: Whatever the library answers and in whatever order a port's operations are called, the port is started and stopped only when DPDK allows
    it, and its [started] flag says whether the device runs; releasing it afterwards stops and closes it,
    as long as a stop is not refused. *)
Theorem port_follows_life_cycle answer p os h l :
  life h = Some l -> port_ready p l ->
  (exists l', life (snd (apply_ops answer p os h)) = Some l' /\ lf_running l' = p_started (fst (fst (apply_ops answer p os h)))) /\
  ((forall h i, answer h (DevStop i) = 0) ->
   exists l', life (snd (port_drop answer (fst (fst (apply_ops answer p os h))) (snd (apply_ops answer p os h)))) = Some l' /\
     lf_running l' = false /\ lf_pool l' = true /\ lf_eal l' = true).
Proof.
  intros Hl HP. destruct (apply_ops_spec answer os p h l Hl HP) as (l' & E & Hr). split.
  - exists l'. split; [done|]. by destruct Hr as (rx & tx & -> & _).
  - intros Hstop. destruct (port_drop_spec answer (fst (fst (apply_ops answer p os h))) (or_intror Hstop) _ _ E Hr) as (l2 & E2 & Hw). exists l2. split; [done|]. by rewrite Hw.
Qed.

(** Dropping a backend that owns its environment misuses DPDK, whatever the library answers: the environment is the first field and is cleaned
    up first, and the port is stopped and closed, and the pool freed, after it. *)
Theorem owned_environment_is_cleaned_up_first answer dev_info mac_addr args name pid h l b h' :
  life h = Some l -> released l -> backend_acquire answer dev_info mac_addr args name pid h = (Ok b, h') ->
  life h' <> None /\ life (snd (backend_drop answer b h')) = None.
Proof.
  intros Hl HP E. destruct (backend_acquire_spec answer dev_info mac_addr args name pid h l Hl HP) as (l' & El & H). rewrite E in El, H. cbn [fst snd] in El, H.
  destruct H as ((rx & tx & -> & _) & Hb & Hs & _). rewrite Hs in El. split; [by rewrite El|].
  unfold backend_drop, eal_drop, port_drop, port_stop, mempool_drop. rewrite Hb, Hs. unfold bind, ffi, ret. cbn [negb].
  set (h1 := h' ++ [(EalCleanup, answer h' EalCleanup)]). set (r := answer h1 _).
  assert (life (h1 ++ [(DevStop (port_id (b_port b)), r)]) = None) as Hbad by (unfold h1; rewrite !life_snoc, El; done).
  destruct (negb (r =? 0)); cbn [fst snd]; rewrite life_snoc, (life_snoc (_ ++ [_])), Hbad; done.
Qed.

(** ** A sample device *)

Definition sample_answer (h : history) (c : call) : Z := match c with PoolCreate _ _ | CountAvail => 1 | _ => 0 end.
Definition sample_info (h : history) : DeviceCapabilities := MkCapa 14 14 4 4.
Definition sample_mac (h : history) : Mac := MkMac 2 0 0 0 0 1.
Definition sample_port : Port := MkPort 0 port_config_default false (MkMac 2 0 0 0 0 1) (MkCapa 14 14 4 4) 0 0.

Lemma backend_construction_is_legal_witness :
  exists b l', life (snd (backend_new sample_answer sample_info sample_mac 0 [])) = Some l' /\
    fst (backend_new sample_answer sample_info sample_mac 0 []) = Ok b /\ port_ready (b_port b) l'.
Proof.
  pose proof (backend_construction_is_legal sample_answer sample_info sample_mac new_args new_pool 0 [] life0 eq_refl
    ltac:(repeat split)) as H.
  destruct (backend_acquire sample_answer sample_info sample_mac new_args new_pool 0 []) as [[b|e] h'] eqn:E; [|vm_compute in E; discriminate].
  unfold backend_new. rewrite E. destruct H as (l' & El & _ & Hr & _). exists b, l'. split_and!; [exact El|reflexivity|exact Hr].
Defined.

Definition sample_history : history := snd (backend_new sample_answer sample_info sample_mac 0 []) ++ [(DevStop 0, 0)].

Lemma port_follows_life_cycle_witness :
  exists l', life (snd (apply_ops sample_answer sample_port [OpStart; OpStart; OpPromiscuous false; OpStop; OpStart] sample_history)) = Some l' /\
    lf_running l' = true.
Proof.
  destruct (port_follows_life_cycle sample_answer sample_port [OpStart; OpStart; OpPromiscuous false; OpStop; OpStart] sample_history
    (MkLife true true (Some (1, 1)) 1 1 false)) as [(l' & E & H) _]; [vm_compute; reflexivity|exists 1, 1; repeat split|].
  exists l'. split; [exact E|]. rewrite H. vm_compute. reflexivity.
Defined.

Lemma owned_environment_is_cleaned_up_first_witness :
  exists b h', backend_new sample_answer sample_info sample_mac 0 [] = (Ok b, h') /\ life (snd (backend_drop sample_answer b h')) = None.
Proof.
  destruct (backend_new sample_answer sample_info sample_mac 0 []) as [[b|e] h'] eqn:E; [|vm_compute in E; discriminate].
  exists b, h'. split; [reflexivity|].
  apply (owned_environment_is_cleaned_up_first sample_answer sample_info sample_mac new_args new_pool 0 [] life0 b h' eq_refl
    ltac:(repeat split) E).
Defined.
