(* ===== verification/DpdkMbuf.v ===== *)
(** * Packet buffers and the frames of the DPDK backend (dpdk/src/{mbuf,port}.rs, dpdk-stdlib-net/src/backend_dpdk.rs)

    The ownership of packet buffers: an [Mbuf] is a pointer the library has lent to the program, freed when it is
    dropped or handed to the driver by [tx_burst].  Using or freeing a buffer that is not lent is a
    [Panic].  The library (pool and driver) is a parameter: which buffer it gives, how many packets it accepts and which it
    delivers are functions of the state. *)

From stdpp Require Import base numbers list gmap sets.
From Stdlib Require Import ZArith Lia.
From S2P Require Import Prelude Buffer State DpdkPort.

#[local] Open Scope Z_scope.

(** ** Buffers *)

(** The fields of [rte_mbuf] the code uses; [buf] holds the bytes [buf_addr] points to, [None] is the null pointer. *)
Record rte_mbuf := MkMbuf {
  buf : option (list Z); buf_len : Z; data_off : Z; data_len : Z; pkt_len : Z; ol_flags : Z; vlan_tci : Z; mbuf_tx_offload : Z }.

#[global] Instance eta_rte_mbuf : Eta rte_mbuf := fun m =>
  MkMbuf (buf m) (buf_len m) (data_off m) (data_len m) (pkt_len m) (ol_flags m) (vlan_tci m) (mbuf_tx_offload m).

(** [mem]: the buffers the program holds; [sent]: what the driver was given to send. *)
Record Env := MkEnv { mem : gmap Z rte_mbuf; sent : list (list Z) }.

#[global] Instance eta_Env : Eta Env := fun e => MkEnv (mem e) (sent e).

(** An access through an [Mbuf]. *)
Definition get (e : Env) (p : Z) : outcome rte_mbuf := match mem e !! p with Some m => Done m | None => Panic end.

Definition modify (e : Env) (p : Z) (f : rte_mbuf -> rte_mbuf) : outcome Env :=
  let! m := get e p in Done (e <| mem := <[p := f m]> (mem e) |>).

(** [Mbuf::data]. *)
Definition mbuf_data (m : rte_mbuf) : outcome (option (list Z)) :=
  match buf m with
  | None => Done None
  | Some b => let! d := slice b (Z.to_nat (data_off m)) (Z.to_nat (data_off m) + Z.to_nat (data_len m)) in Done (Some d)
  end.

Definition set_data_len (e : Env) (p len : Z) : outcome Env := modify e p (fun m => m <| data_len := len |>).
Definition set_packet_len (e : Env) (p len : Z) : outcome Env := modify e p (fun m => m <| pkt_len := len |>).
Definition set_ol_flags (e : Env) (p flags : Z) : outcome Env := modify e p (fun m => m <| ol_flags := flags |>).
Definition set_vlan_tci (e : Env) (p tci : Z) : outcome Env := modify e p (fun m => m <| vlan_tci := tci |>).

(** The word [set_tx_offload] stores. *)
Definition tx_offload_word (l2_len l3_len l4_len : Z) : Z :=
  Z.lor (Z.lor l2_len (Z.shiftl l3_len 7)) (Z.shiftl l4_len 16).

Definition set_tx_offload (e : Env) (p l2_len l3_len l4_len : Z) : outcome Env :=
  modify e p (fun m => m <| mbuf_tx_offload := tx_offload_word l2_len l3_len l4_len |>).

(** [Drop for Mbuf]: the buffer goes back to its pool. *)
Definition mbuf_drop (e : Env) (p : Z) : outcome Env :=
  let! _ := get e p in Done (e <| mem := delete p (mem e) |>).

(** The drop of a vector. *)
Fixpoint drop_all (e : Env) (ps : list Z) : outcome Env :=
  match ps with [] => Done e | p :: ps => let! e := mbuf_drop e p in drop_all e ps end.

(** The pointers a call wrote, null pointers left out ([Mbuf::from_raw]). *)
Fixpoint lend (e : Env) (ms : list (option (Z * rte_mbuf))) : Env * list Z :=
  match ms with
  | [] => (e, [])
  | None :: ms => lend e ms
  | Some (p, m) :: ms => let '(e, ps) := lend (e <| mem := <[p := m]> (mem e) |>) ms in (e, p :: ps)
  end.

(** The driver takes over a packet. *)
Definition take_over (e : Env) (p : Z) : outcome Env :=
  let! m := get e p in
  let! d := mbuf_data m in
  Done (MkEnv (delete p (mem e)) (sent e ++ [default [] d])).

Fixpoint take_over_all (e : Env) (ps : list Z) : outcome Env :=
  match ps with [] => Done e | p :: ps => let! e := take_over e p in take_over_all e ps end.

(** What the library decides. *)
Class Library := {
  pool_pick : Env -> option (Z * rte_mbuf);
  pool_bulk : Env -> nat -> option (list (option (Z * rte_mbuf)));
  tx_accept : Env -> list Z -> nat;
  rx_deliver : Env -> nat -> list (option (Z * rte_mbuf)) }.

Section Io.

Context `{Library}.

(** [Mempool::alloc]. *)
Definition mempool_alloc (e : Env) : Env * result Z DpdkError :=
  match pool_pick e with
  | Some (p, m) => (e <| mem := <[p := m]> (mem e) |>, Ok p)
  | None => (e, Err MemoryAllocationFailed)
  end.

(** [Mempool::alloc_bulk]. *)
Definition alloc_bulk (e : Env) (count : nat) : outcome (Env * result (list Z) DpdkError) :=
  if (count =? 0)%nat then Done (e, Ok [])
  else
    match pool_bulk e count with
    | None => Done (e, Err MemoryAllocationFailed)
    | Some ptrs =>
        let '(e, mbufs) := lend e ptrs in
        if negb (length mbufs =? count)%nat then
          let! e := drop_all e mbufs in Done (e, Err MemoryAllocationFailed)
        else Done (e, Ok mbufs)
    end.

(** [Port::rx_burst]. *)
Definition rx_burst (e : Env) (started : bool) (max_packets : Z) : Env * list Z :=
  if negb started then (e, []) else lend e (rx_deliver e (Z.to_nat max_packets)).

(** [Port::tx_burst]: the packets left in the vector, and the number sent. *)
Definition tx_burst (e : Env) (started : bool) (packets : list Z) : outcome (Env * list Z * nat) :=
  if negb started || (length packets =? 0)%nat then Done (e, packets, O)
  else
    let nb_tx := tx_accept e (take (Z.to_nat (u16 (zlen packets))) packets) in
    let! e := take_over_all e (take nb_tx packets) in
    if (length packets <? nb_tx)%nat then Panic else Done (e, drop nb_tx packets, nb_tx).

(** [DpdkBackend::send_frame]. *)
Definition send_frame (e : Env) (started : bool) (frame : list Z) : outcome (Env * result nat ErrorKind) :=
  let '(e, r) := mempool_alloc e in
  match r with
  | Err _ => Done (e, Err KOther)
  | Ok p =>
      let! m := get e p in
      if buf_len m <? data_off m then Panic
      else if buf_len m - data_off m <? zlen frame then let! e := mbuf_drop e p in Done (e, Err KInvalidInput)
      else
        let! e := set_data_len e p (u16 (zlen frame)) in
        let! e := set_packet_len e p (u32 (zlen frame)) in
        let! m := get e p in
        match buf m with
        | None => let! e := mbuf_drop e p in Done (e, Err KOther)
        | Some b =>
            if data_len m <? zlen frame then Panic
            else
              let! b := blit b (Z.to_nat (data_off m)) (Z.to_nat (data_off m) + length frame) frame in
              let! e := modify e p (fun m => m <| buf := Some b |>) in
              let! (e, packets, n) := tx_burst e started [p] in
              let! e := drop_all e packets in
              if (n =? 0)%nat then Done (e, Err KWouldBlock) else Done (e, Ok (length frame))
        end
  end.

(** The loop of [recv_frames] over the packets. *)
Fixpoint copy_frames (e : Env) (ps : list Z) : outcome (list (list Z)) :=
  match ps with
  | [] => Done []
  | p :: ps =>
      let! m := get e p in
      let! data := mbuf_data m in
      let! frames := copy_frames e ps in
      Done (match data with
            | Some d => take (Nat.min (Z.to_nat (data_len m)) (length d)) d :: frames
            | None => frames
            end)
  end.

(** [DpdkBackend::recv_frames]. *)
Definition recv_frames (e : Env) (started : bool) (max_frames : Z) : outcome (Env * list (list Z)) :=
  let '(e, packets) := rx_burst e started (u16 max_frames) in
  let! frames := copy_frames e packets in
  let! e := drop_all e packets in
  Done (e, frames).

End Io.

(** ** What the library promises *)

(** A buffer as the library hands it out. *)
Definition wf_mbuf (m : rte_mbuf) : Prop :=
  exists b, buf m = Some b /\ zlen b = buf_len m /\ 0 <= data_off m /\ 0 <= data_len m /\ data_off m + data_len m <= buf_len m /\ buf_len m < 65536.

(** The bytes of a packet. *)
Definition mbuf_payload (m : rte_mbuf) : list Z :=
  take (Z.to_nat (data_len m)) (drop (Z.to_nat (data_off m)) (default [] (buf m))).

(** Buffers that are distinct and not lent yet. *)
Definition deliverable (e : Env) (ms : list (option (Z * rte_mbuf))) : Prop :=
  NoDup (fst <$> omap id ms) /\ Forall (fun pm => mem e !! pm.1 = None /\ wf_mbuf pm.2) (omap id ms).

Class LibraryLaws `{Library} : Prop := {
  pick_ok e p m : pool_pick e = Some (p, m) -> mem e !! p = None /\ wf_mbuf m;
  bulk_ok e n ms : pool_bulk e n = Some ms -> deliverable e ms;
  accept_ok e ps : (tx_accept e ps <= length ps)%nat;
  deliver_ok e n : deliverable e (rx_deliver e n) /\ (length (rx_deliver e n) <= n)%nat }.

(** ** Ownership *)

Lemma env_eq e e' : mem e = mem e' -> sent e = sent e' -> e = e'.
Proof. destruct e, e'. cbn. by intros -> ->. Qed.

Lemma drop_all_ok ps : forall e, NoDup ps -> Forall (fun p => is_Some (mem e !! p)) ps ->
  exists e', drop_all e ps = Done e' /\ sent e' = sent e /\ forall q, mem e' !! q = if decide (q ∈ ps) then None else mem e !! q.
Proof.
  induction ps as [|p ps IH]; intros e Hnd Hin; cbn [drop_all].
  { by exists e. }
  apply NoDup_cons in Hnd as [Hp Hnd]. apply Forall_cons in Hin as [[m Hm] Hin]. unfold mbuf_drop, get. rewrite Hm. cbn [obind].
  destruct (IH (e <| mem := delete p (mem e) |>)) as (e' & -> & Hs & Hl); [done|..].
  - rsimpl. rewrite Forall_forall in *. intros q Hq. rewrite lookup_delete_ne by (by intros ->). by apply Hin.
  - exists e'. split_and!; [done|done|]. intros q. rewrite Hl. rsimpl. destruct (decide (q = p)) as [->|Hne].
    + rewrite lookup_delete_eq. rewrite (decide_True (P := p ∈ p :: ps)) by set_solver. by case_decide.
    + rewrite lookup_delete_ne by done. by repeat case_decide; set_solver.
Qed.

Lemma lend_ok ms : forall e, NoDup (fst <$> omap id ms) ->
  exists e', lend e ms = (e', fst <$> omap id ms) /\ sent e' = sent e /\
    (forall q, q ∉ fst <$> omap id ms -> mem e' !! q = mem e !! q) /\ Forall (fun pm => mem e' !! pm.1 = Some pm.2) (omap id ms).
Proof.
  induction ms as [|[[p m]|] ms IH]; intros e Hnd; cbn [lend omap list_omap id].
  - by exists e.
  - change (omap id (Some (p, m) :: ms)) with ((p, m) :: omap id ms) in *. rewrite fmap_cons in *. cbn [fst] in *. apply NoDup_cons in Hnd as [Hp Hnd].
    destruct (IH (e <| mem := <[p := m]> (mem e) |>) Hnd) as (e' & -> & Hs & Ho & Hin). exists e'. split_and!; [done|done| |].
    + intros q Hq. rewrite Ho by set_solver. rsimpl. apply lookup_insert_ne. set_solver.
    + constructor; [|done]. cbn. rewrite Ho by done. rsimpl. apply lookup_insert_eq.
  - change (omap id (None :: ms)) with (omap id ms) in *. by apply IH.
Qed.

(** Lending and dropping again is as if nothing had happened. *)
Lemma lend_drop e ms : deliverable e ms ->
  exists e', lend e ms = (e', fst <$> omap id ms) /\ drop_all e' (fst <$> omap id ms) = Done e /\
    Forall (fun pm => mem e' !! pm.1 = Some pm.2) (omap id ms).
Proof.
  intros [Hnd Hf]. destruct (lend_ok ms e Hnd) as (e' & E & Hs & Ho & Hin). exists e'. split; [done|]. split; [|done].
  destruct (drop_all_ok (fst <$> omap id ms) e' Hnd) as (e2 & -> & Hs2 & Hl).
  { apply Forall_fmap. eapply Forall_impl; [exact Hin|]. intros [p m] ?. by eexists. }
  f_equal. apply env_eq; [|congruence]. apply map_eq. intros q. rewrite Hl. case_decide as Hq; [|by apply Ho].
  apply list_elem_of_fmap in Hq as ([p m] & -> & Hq). rewrite Forall_forall in Hf. by destruct (Hf _ Hq) as [-> _].
Qed.

Lemma mbuf_data_ok m : wf_mbuf m -> mbuf_data m = Done (Some (mbuf_payload m)) /\ length (mbuf_payload m) = Z.to_nat (data_len m).
Proof.
  intros (b & Hb & Hl & H1 & H2 & H3 & H4). unfold mbuf_data, mbuf_payload. rewrite Hb. unfold default. cbn [from_option]. unfold zlen, id in *.
  rewrite slice_in_range by lia. rewrite Nat.add_sub_swap, Nat.sub_diag by lia. split; [done|]. rewrite length_take, length_drop. lia.
Qed.

Lemma copy_frames_ok e l : Forall (fun pm => mem e !! pm.1 = Some pm.2) l -> Forall (fun pm => wf_mbuf pm.2) l ->
  copy_frames e (fst <$> l) = Done (mbuf_payload <$> (snd <$> l)).
Proof.
  induction 1 as [|[p m] l Hp Hl IH]; [done|]. intros [Hw Hws]%Forall_cons. cbn in *. unfold get. rewrite Hp. cbn [obind].
  destruct (mbuf_data_ok m Hw) as [-> Hlen]. cbn [obind]. rewrite (IH Hws). cbn [obind]. by rewrite Hlen, Nat.min_id, <- Hlen, firstn_all.
Qed.

(** ** Sending *)

Section Frames.

Context `{LibraryLaws}.

(** The buffer [send_frame] prepares. *)
Definition filled (m : rte_mbuf) (b frame : list Z) : rte_mbuf :=
  m <| data_len := u16 (zlen frame) |> <| pkt_len := u32 (zlen frame) |> <| buf := Some b |>.

Lemma filled_payload m frame : wf_mbuf m -> zlen frame <= buf_len m - data_off m ->
  exists b0 b, buf m = Some b0 /\ blit b0 (Z.to_nat (data_off m)) (Z.to_nat (data_off m) + length frame) frame = Done b /\
    mbuf_data (filled m b frame) = Done (Some frame).
Proof.
  intros (b0 & Hb & Hl & H1 & H2 & H3 & H4) Hfit. exists b0. unfold zlen in *. unfold blit.
  rewrite (proj2 (Nat.leb_le _ _)), (proj2 (Nat.leb_le _ _)), (proj2 (Nat.eqb_eq _ _)) by lia. eexists. split; [done|]. split; [reflexivity|].
  unfold mbuf_data, filled. rsimpl. unfold u16, zlen. rewrite Z.mod_small by lia. rewrite Nat2Z.id.
  rewrite slice_mid; [done|rewrite length_take; lia|done].
Qed.

(** Handing one buffer to the driver, and the drop of what it refuses. *)
Lemma tx_one e p m d started : mem e !! p = Some m -> mbuf_data m = Done (Some d) ->
  exists n packets, tx_burst e started [p] = Done (if (n =? 0)%nat then e else MkEnv (delete p (mem e)) (sent e ++ [d]), packets, n) /\
    drop_all (if (n =? 0)%nat then e else MkEnv (delete p (mem e)) (sent e ++ [d])) packets =
      Done (MkEnv (delete p (mem e)) (if (n =? 0)%nat then sent e else sent e ++ [d])) /\
    (n = O <-> started = false \/ tx_accept e [p] = O).
Proof.
  intros Hp Hd. unfold tx_burst. destruct started; cbn [negb orb].
  2: { exists O, [p]. cbn. unfold mbuf_drop, get. rewrite Hp. cbn. split_and!; [done|done|]. split; auto. }
  cbn [length Nat.eqb]. change (take (Z.to_nat (u16 (zlen [p]))) [p]) with [p]. pose proof (accept_ok e [p]) as Hn. cbn in Hn.
  destruct (tx_accept e [p]) as [|[|]]; [| |lia].
  - exists O, [p]. cbn. unfold mbuf_drop, get. rewrite Hp. cbn. split_and!; [done|done|]. split; auto.
  - exists 1%nat, []. cbn. unfold take_over, get. rewrite Hp. cbn. rewrite Hd. cbn. split_and!; [done|done|]. split; [done|]. by intros [?|?].
Qed.

(** What [send_frame] does to the frame. *)
Definition send_answer (e : Env) (started : bool) (frame : list Z) (r : result nat ErrorKind) (sent' : list (list Z)) : Prop :=
  match r with
  | Ok n => n = length frame /\ sent' = sent e ++ [frame]
  | Err k => sent' = sent e /\
      match pool_pick e with
      | None => k = KOther
      | Some (p, m) => if buf_len m - data_off m <? zlen frame then k = KInvalidInput
                       else k = KWouldBlock /\ (started = true -> exists e1, tx_accept e1 [p] = O)
      end
  end.

Lemma send_frame_ok e started frame :
  exists e' r, send_frame e started frame = Done (e', r) /\ mem e' = mem e /\ send_answer e started frame r (sent e').
Proof.
  unfold send_frame, send_answer, mempool_alloc. destruct (pool_pick e) as [[p m]|] eqn:Ep; [|by eexists _, _].
  destruct (pick_ok e p m Ep) as [Hfresh Hw]. assert (delete p (<[p := m]> (mem e)) = mem e) as Hdel by by rewrite delete_insert_eq, delete_id.
  unfold get. rsimpl. rewrite lookup_insert_eq. cbn [obind].
  pose proof Hw as (b0 & Hb & Hl & H1 & H2 & H3 & H4). rewrite (proj2 (Z.ltb_ge (buf_len m) _)) by lia.
  destruct (Z.ltb_spec (buf_len m - data_off m) (zlen frame)) as [Hbig|Hfit].
  { unfold mbuf_drop, get. rsimpl. rewrite lookup_insert_eq. cbn [obind]. eexists _, _. split; [reflexivity|]. rsimpl. by rewrite Hdel. }
  unfold set_data_len, set_packet_len, modify, get. rsimpl. rewrite lookup_insert_eq. cbn [obind]. rsimpl. rewrite insert_insert_eq, lookup_insert_eq. cbn [obind]. rsimpl.
  rewrite insert_insert_eq, lookup_insert_eq. cbn [obind]. rsimpl.
  destruct (filled_payload m frame Hw Hfit) as (b1 & b & -> & Hblit & Hdata). unfold u16 at 1. unfold zlen in Hfit. rewrite Z.mod_small by (unfold zlen; lia). rewrite Z.ltb_irrefl, Hblit. cbn [obind].
  match goal with |- context [tx_burst ?e1 started [p]] => set (e1' := e1) end.
  destruct (tx_one e1' p (filled m b frame) frame started) as (n & packets & -> & Hdrop & Hn); [unfold e1'; rsimpl; by rewrite lookup_insert_eq|done|].
  cbn [obind]. rewrite Hdrop. cbn [obind]. assert (delete p (mem e1') = mem e) as Hm by (unfold e1'; rsimpl; by rewrite insert_insert_eq, delete_insert_eq, delete_id).
  rewrite Hm. change (sent e1') with (sent e). destruct (Nat.eqb_spec n 0) as [->|Hne]; eexists _, _; (split; [reflexivity|]); cbn; [|done].
  split_and!; try done. intros ->. destruct (proj1 Hn eq_refl) as [|]; [done|by eexists].
Qed.

(** ** Receiving *)

Lemma recv_frames_ok e started max :
  recv_frames e started max = Done (e, if started then mbuf_payload <$> (snd <$> omap id (rx_deliver e (Z.to_nat (u16 max)))) else []).
Proof.
  unfold recv_frames, rx_burst. destruct started; [|done]. cbn [negb]. destruct (deliver_ok e (Z.to_nat (u16 max))) as [Hd _].
  destruct (lend_drop e _ Hd) as (e' & -> & Hdrop & Hin). destruct Hd as [_ Hf]. rewrite copy_frames_ok; [|done|].
  - cbn [obind]. by rewrite Hdrop.
  - eapply Forall_impl; [exact Hf|]. by intros pm [_ ?].
Qed.

(** ** Batches *)

Lemma alloc_bulk_ok e n :
  exists e' r, alloc_bulk e n = Done (e', r) /\ sent e' = sent e /\
    match r with
    | Err _ => e' = e
    | Ok ps => length ps = n /\ NoDup ps /\ forall q, q ∈ ps <-> mem e !! q = None /\ is_Some (mem e' !! q)
    end.
Proof.
  unfold alloc_bulk. destruct (Nat.eqb_spec n 0) as [->|Hn].
  { eexists _, _. split; [reflexivity|]. split_and!; try done; [constructor|]. intros q. split; [set_solver|]. intros [-> [? ?]]. done. }
  destruct (pool_bulk e n) as [ms|] eqn:Eb; [|by eexists _, _]. pose proof (bulk_ok e n ms Eb) as Hd.
  destruct (lend_drop e ms Hd) as (e1 & El & Hdrop & Hin). destruct Hd as [Hnd Hf]. destruct (lend_ok ms e Hnd) as (e1' & El' & Hs & Ho & _).
  rewrite El in El'. injection El' as <-. rewrite El. destruct (Nat.eqb_spec (length (fst <$> omap id ms)) n) as [Hl|Hl]; cbn [negb].
  - eexists _, _. split; [reflexivity|]. split; [done|]. split_and!; [done|done|]. intros q. split.
    + intros ([p m] & -> & Hq)%list_elem_of_fmap. rewrite Forall_forall in Hf, Hin. split; [apply (Hf _ Hq)|]. exists m. apply (Hin _ Hq).
    + intros [Hq1 [x Hq2]]. destruct (decide (q ∈ fst <$> omap id ms)) as [|Hq]; [done|]. rewrite (Ho q Hq) in Hq2. congruence.
  - rewrite Hdrop. cbn [obind]. by eexists _, _.
Qed.

(** ** Theorem *)

(** C20: The DPDK backend neither leaks nor double-frees a packet buffer, whatever the pool and the driver do: every
    call of [send_frame], [recv_frames] and [alloc_bulk] returns, uses and frees only buffers it holds, and holds afterwards
    exactly those it held before (with [alloc_bulk] also the distinct new ones it returns, and none when it fails).  A frame sent with
    success was handed to the driver byte for byte, one refused was not; the frames received are the payloads of the
    packets delivered, in order. *)
Theorem backend_returns_every_mbuf e started :
  (forall frame, exists e' r, send_frame e started frame = Done (e', r) /\ mem e' = mem e /\ send_answer e started frame r (sent e')) /\
  (forall max, recv_frames e started max =
     Done (e, if started then mbuf_payload <$> (snd <$> omap id (rx_deliver e (Z.to_nat (u16 max)))) else [])) /\
  (forall n, exists e' r, alloc_bulk e n = Done (e', r) /\ sent e' = sent e /\
     match r with
     | Err _ => e' = e
     | Ok ps => length ps = n /\ NoDup ps /\ forall q, q ∈ ps <-> mem e !! q = None /\ is_Some (mem e' !! q)
     end).
Proof. split_and!; [apply send_frame_ok|apply recv_frames_ok|apply alloc_bulk_ok]. Qed.

End Frames.

Lemma small_bits a n i : 0 <= a < 2 ^ n -> 0 <= n <= i -> Z.testbit a i = false.
Proof. intros Ha Hn. destruct (Z.eq_dec a 0) as [->|]; [apply Z.bits_0|]. apply Z.bits_above_log2; [lia|]. apply Z.log2_lt_pow2; [lia|]. pose proof (Z.pow_le_mono_r 2 n i ltac:(lia) ltac:(lia)). lia. Qed.

(** The header lengths the NIC reads are those that were stored, as long as they fit their 7, 9 and 8 bits. *)
Theorem tx_offload_fields l2 l3 l4 :
  0 <= l2 < 2 ^ 7 -> 0 <= l3 < 2 ^ 9 -> 0 <= l4 < 2 ^ 8 ->
  Z.land (tx_offload_word l2 l3 l4) (Z.ones 7) = l2 /\
  Z.land (Z.shiftr (tx_offload_word l2 l3 l4) 7) (Z.ones 9) = l3 /\
  Z.land (Z.shiftr (tx_offload_word l2 l3 l4) 16) (Z.ones 8) = l4.
Proof.
  intros H2 H3 H4. unfold tx_offload_word. split_and!; apply Z.bits_inj'; intros i Hi; rewrite Z.land_spec, ?Z.shiftr_spec, !Z.lor_spec, !Z.shiftl_spec, ?Z.testbit_ones_nonneg by lia.
  - destruct (Z.ltb_spec i 7); [|by rewrite andb_false_r, (small_bits l2 7)]. rewrite !(Z.testbit_neg_r _ (i - _)) by lia. by rewrite !orb_false_r, andb_true_r.
  - destruct (Z.ltb_spec i 9); [|by rewrite andb_false_r, (small_bits l3 9)]. rewrite (small_bits l2 7) by lia. rewrite (Z.testbit_neg_r _ (i + 7 - 16)) by lia.
    replace (i + 7 - 7) with i by lia. by rewrite orb_false_r, andb_true_r.
  - destruct (Z.ltb_spec i 8); [|by rewrite andb_false_r, (small_bits l4 8)]. rewrite (small_bits l2 7), (small_bits l3 9 (i + 16 - 7)) by lia.
    replace (i + 16 - 16) with i by lia. by rewrite andb_true_r.
Qed.

(** ** A sample library *)

Definition sample_mbuf (d : list Z) : rte_mbuf := MkMbuf (Some (replicate 4 0 ++ d ++ replicate (20 - length d) 0)) (4 + Z.of_nat (Nat.max 20 (length d))) 4 (zlen d) (zlen d) 0 0 0.

(** It always has a buffer, sends everything and delivers one packet. *)
#[global] Instance sample_library : Library := {
  pool_pick e := Some (fresh (dom (mem e)), sample_mbuf []);
  pool_bulk e n := None;
  tx_accept e ps := length ps;
  rx_deliver e n := if (n =? 0)%nat then [] else [Some (fresh (dom (mem e)), sample_mbuf [7; 8; 9])] }.

#[global] Instance sample_library_laws : LibraryLaws.
Proof.
  assert (forall e, mem e !! fresh (dom (mem e)) = None) as Hf by (intros e; apply not_elem_of_dom, is_fresh).
  assert (wf_mbuf (sample_mbuf []) /\ wf_mbuf (sample_mbuf [7; 8; 9])) as [H0 H3] by (split; eexists; repeat (split; [done|]); done).
  split.
  - intros e p m [= <- <-]. done.
  - done.
  - done.
  - intros e n. cbn. destruct (Nat.eqb_spec n 0) as [->|]; cbn; [by repeat constructor|]. split; [|lia]. split; cbn; [apply NoDup_singleton|]. apply Forall_singleton. by split; [apply Hf|].
Qed.

Lemma backend_returns_every_mbuf_witness :
  exists e', send_frame (MkEnv ∅ []) true [1; 2; 3] = Done (e', Ok 3%nat) /\ mem e' = ∅ /\ sent e' = [[1; 2; 3]] /\
    recv_frames e' true 32 = Done (e', [[7; 8; 9]]).
Proof.
  destruct (backend_returns_every_mbuf (MkEnv ∅ []) true) as [H _]. destruct (H [1; 2; 3]) as (e' & r & E & Hm & Ha).
  pose proof E as E2. vm_compute in E2. injection E2 as E3 E4. subst r. exists e'. destruct Ha as [_ Hs]. split_and!; [exact E|exact Hm|exact Hs|].
  destruct (backend_returns_every_mbuf e' true) as [_ [Hr _]]. rewrite Hr. reflexivity.
Defined.
