(* ===== verification/Async.v ===== *)
(** * The tokio adapters (dpdk-stdlib-tokio/src/idle_backoff.rs and compat/tcp.rs)

    Asynchronous reads and writes of a TCP stream: a task polls the shared handle, registers its waker and sleeps until
    the engine wakes it.  The task and the engine interleave at every access of the shared state.  And the receive
    loop of the UDP sockets with its idle backoff, over an arbitrary world the loop polls. *)

From stdpp Require Import base numbers list gmap.
From Stdlib Require Import ZArith Lia Relations.
From S2P Require Import Prelude Seq State Ring Contract.

#[local] Open Scope Z_scope.

(** ** Wakers (dpdk-stdlib-tcp/src/contract.rs) *)

(** The slot of an [AtomicWaker]: a waker is the name of the task it wakes. *)
Definition AtomicWaker : Type := option nat.

Definition register (slot : AtomicWaker) (waker : nat) : AtomicWaker := Some waker.

(** [wake]: the slot is emptied; the task that is woken. *)
Definition waker_wake (slot : AtomicWaker) : AtomicWaker * option nat := (None, slot).

(** ** A polled stream (compat/tcp.rs) *)

(** Where a task is in [poll_read_dpdk] or [poll_write_dpdk]; [PPending]: the poll returned [Pending] and the task sleeps unless it is scheduled. *)
Inductive ppc : Type := PRegister | PCheckError | PTransfer | PCheckEof | PPending | PReady (r : result Z ErrorKind).

Inductive role : Type := ReadTask | WriteTask.

(** [p_data]: the buffer to fill, or the bytes to write.  [p_scheduled]: the executor will poll the task again.  [p_owes]: the engine
    has changed the handle and will call [notify_all] or wake the writer. *)
Record psys := MkPsys {
  p_handle : ConnectionHandle; p_waker : AtomicWaker; p_data : list Z; p_pc : ppc; p_scheduled : bool; p_owes : bool;
  p_in : list Z; p_out : list Z }.

#[global] Instance eta_psys : Eta psys := fun s =>
  MkPsys (p_handle s) (p_waker s) (p_data s) (p_pc s) (p_scheduled s) (p_owes s) (p_in s) (p_out s).

Section Poll.

(** The task, and whether it reads or writes. *)
Context (task : nat) (who : role).

Inductive poll_step (s : psys) : psys -> Prop :=
| poll_again data r :
    p_pc s = PReady r -> poll_step s (s <| p_data := data |> <| p_scheduled := false |> <| p_pc := PRegister |>)
| poll_scheduled :
    p_pc s = PPending -> p_scheduled s = true -> poll_step s (s <| p_scheduled := false |> <| p_pc := PRegister |>)
| poll_register :
    p_pc s = PRegister -> poll_step s (s <| p_waker := register (p_waker s) task |> <| p_pc := PCheckError |>)
| poll_error e :
    p_pc s = PCheckError -> peek_error (p_handle s) = Some e -> poll_step s (s <| p_pc := PReady (Err (error_kind e)) |>)
| poll_no_error :
    p_pc s = PCheckError -> peek_error (p_handle s) = None -> poll_step s (s <| p_pc := PTransfer |>)
| poll_read_some ring buf n :
    who = ReadTask -> p_pc s = PTransfer -> SpscByteRing.read (rx_ring (p_handle s)) (p_data s) = Done (ring, buf, n) -> 0 < n ->
    poll_step s (s <| p_handle := (p_handle s) <| rx_ring := ring |> |> <| p_data := buf |>
                   <| p_out := p_out s ++ take (Z.to_nat n) buf |> <| p_pc := PReady (Ok n) |>)
| poll_read_none ring buf :
    who = ReadTask -> p_pc s = PTransfer -> SpscByteRing.read (rx_ring (p_handle s)) (p_data s) = Done (ring, buf, 0) ->
    poll_step s (s <| p_pc := PCheckEof |>)
| poll_eof :
    p_pc s = PCheckEof -> eof (p_handle s) = true -> poll_step s (s <| p_pc := PReady (Ok 0) |>)
| poll_read_pending :
    p_pc s = PCheckEof -> eof (p_handle s) = false -> poll_step s (s <| p_pc := PPending |>)
| poll_write_some ring n :
    who = WriteTask -> p_pc s = PTransfer -> SpscByteRing.write (tx_ring (p_handle s)) (p_data s) = Done (ring, n) -> 0 < n ->
    poll_step s (s <| p_handle := (p_handle s) <| tx_ring := ring |> |>
                   <| p_in := p_in s ++ take (Z.to_nat n) (p_data s) |> <| p_pc := PReady (Ok n) |>)
| poll_write_full ring :
    who = WriteTask -> p_pc s = PTransfer -> SpscByteRing.write (tx_ring (p_handle s)) (p_data s) = Done (ring, 0) ->
    poll_step s (s <| p_pc := PPending |>).

(** The engine: what it does to the handle, and the wake-up it owes then. *)
Inductive engine_step (s : psys) : psys -> Prop :=
| engine_data data ring w :
    who = ReadTask -> SpscByteRing.write (rx_ring (p_handle s)) data = Done (ring, w) ->
    engine_step s (s <| p_handle := (p_handle s) <| rx_ring := ring |> |> <| p_in := p_in s ++ take (Z.to_nat w) data |> <| p_owes := true |>)
| engine_drain buf ring buf' n :
    who = WriteTask -> SpscByteRing.read (tx_ring (p_handle s)) buf = Done (ring, buf', n) ->
    engine_step s (s <| p_handle := (p_handle s) <| tx_ring := ring |> |> <| p_out := p_out s ++ take (Z.to_nat n) buf' |> <| p_owes := true |>)
| engine_eof :
    engine_step s (s <| p_handle := set_eof (p_handle s) |> <| p_owes := true |>)
| engine_error e :
    engine_step s (s <| p_handle := latch_error (p_handle s) e |> <| p_owes := true |>)
| engine_wakes :
    engine_step s (s <| p_waker := fst (waker_wake (p_waker s)) |> <| p_owes := false |>
                     <| p_scheduled := p_scheduled s || bool_decide (snd (waker_wake (p_waker s)) = Some task) |>).

Definition pstep (s s' : psys) : Prop := poll_step s s' \/ engine_step s s'.

Definition ptask (h : ConnectionHandle) : psys := MkPsys h None [] (PReady (Ok 0)) false false [] [].

Definition pfresh (h : ConnectionHandle) : Prop :=
  SpscByteRing.wf (rx_ring h) /\ SpscByteRing.contents (rx_ring h) = [] /\
  SpscByteRing.wf (tx_ring h) /\ SpscByteRing.contents (tx_ring h) = [].

Inductive reachable_poll : psys -> Prop :=
| reach_ptask h : pfresh h -> reachable_poll (ptask h)
| reach_pstep s s' : reachable_poll s -> pstep s s' -> reachable_poll s'.

(** ** Invariant *)

(** What the poll can transfer. *)
Definition transferable (s : psys) : Prop :=
  match who with
  | ReadTask => 0 < SpscByteRing.available_read (rx_ring (p_handle s)) /\ p_data s <> []
  | WriteTask => SpscByteRing.available_read (tx_ring (p_handle s)) < SpscByteRing.capacity (tx_ring (p_handle s)) /\ p_data s <> []
  end.

(** What the poll has already looked at and would find now. *)
Definition pmissed (s : psys) : Prop :=
  match p_pc s with
  | PTransfer => error (p_handle s) <> None
  | PCheckEof => error (p_handle s) <> None \/ transferable s
  | PPending => error (p_handle s) <> None \/ transferable s \/ (who = ReadTask /\ eof (p_handle s) = true)
  | _ => False
  end.

(** From the registration to the next poll the waker is in its slot, unless it was taken to schedule the task. *)
Definition registered (s : psys) : Prop :=
  match p_pc s with PRegister | PReady _ => True | _ => p_waker s = Some task \/ p_scheduled s = true end.

Definition stream_ring (h : ConnectionHandle) : SpscByteRing.t := match who with ReadTask => rx_ring h | WriteTask => tx_ring h end.

Record poll_inv (s : psys) : Prop := {
  pi_rx : SpscByteRing.wf (rx_ring (p_handle s));
  pi_tx : SpscByteRing.wf (tx_ring (p_handle s));
  pi_stream : p_in s = p_out s ++ SpscByteRing.contents (stream_ring (p_handle s));
  pi_waker : forall w, p_waker s = Some w -> w = task;
  pi_registered : registered s;
  pi_missed : pmissed s -> p_scheduled s = true \/ p_owes s = true }.

(** A transfer of nothing: there was nothing to transfer. *)
Lemma read_nothing s ring buf : SpscByteRing.wf (rx_ring (p_handle s)) -> who = ReadTask ->
  SpscByteRing.read (rx_ring (p_handle s)) (p_data s) = Done (ring, buf, 0) -> ~ transferable s.
Proof.
  intros Hwf Hw E. destruct (SpscByteRing.read_spec _ (p_data s) Hwf) as (r' & E' & _). rewrite E in E'. injection E' as _ _ Hn.
  unfold transferable. rewrite Hw. intros [Ha Hd]. destruct (p_data s); [done|]. unfold zlen in Hn. cbn [length] in Hn. lia.
Qed.

Lemma write_nothing s ring : SpscByteRing.wf (tx_ring (p_handle s)) -> who = WriteTask ->
  SpscByteRing.write (tx_ring (p_handle s)) (p_data s) = Done (ring, 0) -> ~ transferable s.
Proof.
  intros Hwf Hw E. destruct (SpscByteRing.write_spec _ (p_data s) Hwf) as (r' & E' & _). rewrite E in E'. injection E' as _ Hn.
  unfold transferable. rewrite Hw. intros [Ha Hd]. destruct (p_data s); [done|]. unfold zlen in Hn. cbn [length] in Hn. lia.
Qed.

Lemma read_stream r out r' buf n : SpscByteRing.wf r -> SpscByteRing.read r out = Done (r', buf, n) ->
  SpscByteRing.wf r' /\ SpscByteRing.contents r = take (Z.to_nat n) buf ++ SpscByteRing.contents r'.
Proof.
  intros Hwf E. destruct (SpscByteRing.read_spec r out Hwf) as (r1 & E' & Hwf' & _ & Hc). rewrite E in E'. injection E' as -> -> ->. split; [done|].
  pose proof (SpscByteRing.available_contents r Hwf) as Hav. rewrite Hc, take_app_le, take_take, Nat.min_id, take_drop; [done|].
  rewrite length_take. unfold zlen in *. lia.
Qed.

Lemma write_stream r data r' n : SpscByteRing.wf r -> SpscByteRing.write r data = Done (r', n) ->
  SpscByteRing.wf r' /\ SpscByteRing.contents r' = SpscByteRing.contents r ++ take (Z.to_nat n) data.
Proof. intros Hwf E. destruct (SpscByteRing.write_spec r data Hwf) as (r1 & E' & Hwf' & _ & Hc). rewrite E in E'. by injection E' as -> ->. Qed.

Lemma poll_step_inv s s' : poll_inv s -> poll_step s s' -> poll_inv s'.
Proof.
  intros [Hrx Htx Hst Hwk Hreg Hmi] Hs. unfold registered, pmissed in Hreg, Hmi.
  destruct Hs as [data r Hpc|Hpc Hsch|Hpc|e Hpc He|Hpc He|ring buf n Hw Hpc E Hn|ring buf Hw Hpc E|Hpc He|Hpc He|ring n Hw Hpc E Hn|ring Hw Hpc E];
    rewrite Hpc in Hreg, Hmi; cbv beta iota in Hreg, Hmi.
  6: { destruct (read_stream _ _ _ _ _ Hrx E) as [Hwf' Hc]. constructor; unfold registered, pmissed, stream_ring in *; rsimpl; try done.
       rewrite Hw in *. rsimpl. by rewrite Hst, Hc, app_assoc. }
  9: { destruct (write_stream _ _ _ _ Htx E) as [Hwf' Hc]. constructor; unfold registered, pmissed, stream_ring in *; rsimpl; try done.
       rewrite Hw in *. rsimpl. by rewrite Hst, Hc, app_assoc. }
  all: constructor; unfold registered, pmissed, stream_ring, transferable in *; rsimpl; try done; try tauto.
  - by intros w [= <-].
  - by left.
  - intros [He|Ht]; [by apply Hmi|]. by apply (read_nothing s ring buf Hrx Hw E) in Ht.
  - intros [H|[H|[_ H]]]; [apply Hmi; by left|apply Hmi; by right|congruence].
  - intros [H|[H|[H _]]]; [by apply Hmi|by apply (write_nothing s ring Htx Hw E) in H|congruence].
Qed.

Lemma engine_step_inv s s' : poll_inv s -> engine_step s s' -> poll_inv s'.
Proof.
  intros [Hrx Htx Hst Hwk Hreg Hmi] Hs. destruct Hs as [data ring w Hw E|buf ring buf' n Hw E| |e|].
  - destruct (write_stream _ _ _ _ Hrx E) as [Hwf' Hc]. constructor; unfold registered, stream_ring in *; rsimpl; try done; [|by right].
    rewrite Hw in *. rsimpl. by rewrite Hst, Hc, app_assoc.
  - destruct (read_stream _ _ _ _ _ Htx E) as [Hwf' Hc]. constructor; unfold registered, stream_ring in *; rsimpl; try done; [|by right].
    rewrite Hw in *. rsimpl. by rewrite Hst, Hc, app_assoc.
  - constructor; unfold registered, stream_ring in *; rsimpl; try done. by right.
  - assert (rx_ring (latch_error (p_handle s) e) = rx_ring (p_handle s) /\ tx_ring (latch_error (p_handle s) e) = tx_ring (p_handle s)) as [Er Et]
      by (unfold latch_error; by destruct (error (p_handle s))).
    constructor; unfold registered, stream_ring in *; rsimpl; rewrite ?Er, ?Et; try done. by right.
  - assert (match p_pc s with PRegister | PReady _ => True | _ => p_scheduled s || bool_decide (p_waker s = Some task) = true end) as Hsch.
    { unfold registered in Hreg. destruct (p_pc s); try done; destruct Hreg as [-> | ->]; first [done|rewrite bool_decide_eq_true_2 by done; apply orb_true_r]. }
    constructor; unfold registered, stream_ring in *; rsimpl; try done.
    + destruct (p_pc s); auto.
    + intros Hm. left. unfold pmissed in Hm. rsimpl_in Hm. destruct (p_pc s); done.
Qed.

Lemma reachable_poll_inv s : reachable_poll s -> poll_inv s.
Proof.
  induction 1 as [h (H1 & H2 & H3 & H4)|s s' _ IH [Hs|Hs]]; [|by eapply poll_step_inv|by eapply engine_step_inv].
  constructor; cbn; try done. unfold stream_ring. cbn. by destruct who; rewrite ?H2, ?H4.
Qed.

(** No wake-up of a polled stream is lost: in every interleaving of a task that reads (or writes) and the engine, a task that sleeps although
    there is something for it (an error, bytes to read, the end of the stream, room to write) is scheduled already, or its
    waker is registered with an engine that has yet to wake it, and the engine's wake schedules it; and what was put into the ring is what was
    taken out of it followed by what it holds. *)
Theorem polled_stream_never_misses_wakeup s :
  reachable_poll s ->
  p_in s = p_out s ++ SpscByteRing.contents (stream_ring (p_handle s)) /\
  (p_pc s = PPending -> (error (p_handle s) <> None \/ transferable s \/ (who = ReadTask /\ eof (p_handle s) = true)) ->
   p_scheduled s = true \/
   (p_owes s = true /\ p_waker s = Some task /\ exists s', engine_step s s' /\ p_pc s' = PPending /\ p_scheduled s' = true)).
Proof.
  intros H%reachable_poll_inv. destruct H as [_ _ Hst _ Hreg Hmi]. split; [done|]. intros Hpc Hr. unfold registered, pmissed in Hreg, Hmi. rewrite Hpc in Hreg, Hmi.
  destruct (p_scheduled s) eqn:Hs; [by left|right]. destruct (Hmi Hr) as [|Ho]; [done|]. destruct Hreg as [Hw|]; [|done].
  split_and!; [done|done|]. eexists. split; [apply engine_wakes|]. rsimpl. split; [done|]. by rewrite Hs, Hw, bool_decide_eq_true_2.
Qed.

End Poll.

(** ** Empty buffers *)

(** A poll on its own, the engine standing still: what [poll_write_dpdk] returns. *)
Definition poll_write_dpdk (h : ConnectionHandle) (data : list Z) : outcome (ConnectionHandle * option (result Z ErrorKind)) :=
  match peek_error h with
  | Some e => Done (h, Some (Err (error_kind e)))
  | None =>
      let! (ring, n) := SpscByteRing.write (tx_ring h) data in
      if 0 <? n then Done (h <| tx_ring := ring |>, Some (Ok n)) else Done (h, None)
  end.

Definition poll_read_dpdk (h : ConnectionHandle) (buf : list Z) : outcome (ConnectionHandle * list Z * option (result Z ErrorKind)) :=
  match peek_error h with
  | Some e => Done (h, buf, Some (Err (error_kind e)))
  | None =>
      let! (ring, buf, n) := SpscByteRing.read (rx_ring h) buf in
      if 0 <? n then Done (h <| rx_ring := ring |>, buf, Some (Ok n))
      else if eof h then Done (h, buf, Some (Ok 0)) else Done (h, buf, None)
  end.

(** A write of nothing never completes: with an open connection [poll_write] of an empty buffer is [Pending] in every state of the ring, and so are all
    later polls; so is a read into an empty buffer until the end of the stream. *)
Theorem empty_transfer_is_pending h : SpscByteRing.wf (tx_ring h) -> SpscByteRing.wf (rx_ring h) -> error h = None ->
  poll_write_dpdk h [] = Done (h, None) /\ (eof h = false -> poll_read_dpdk h [] = Done (h, [], None)).
Proof.
  intros Htx Hrx He. unfold poll_write_dpdk, poll_read_dpdk, peek_error. rewrite He. split.
  - destruct (SpscByteRing.write_spec (tx_ring h) [] Htx) as (r & -> & _). pose proof (SpscByteRing.available_range _ Htx).
    cbn [obind]. rewrite (proj2 (Z.ltb_ge _ _)); [done|]. unfold zlen. cbn. lia.
  - intros Heof. destruct (SpscByteRing.read_spec (rx_ring h) [] Hrx) as (r & -> & _). pose proof (SpscByteRing.available_range _ Hrx).
    cbn [obind]. unfold zlen. cbn [length]. replace (Z.min _ _) with 0 by lia. by rewrite Heof.
Qed.

(** ** Idle backoff (idle_backoff.rs) *)

Definition MIN_IDLE_THRESHOLD : Z := 2000000.
Definition SLEEP_STEP : Z := 1000000.
Definition OFF : Z := 18446744073709551615.

(** The atomic word; durations in nanoseconds. *)
Definition backoff_new : Z := OFF.

Definition backoff_set (d : option Z) : Z :=
  match d with Some d => Z.min (if d <? 2 ^ 64 then d else OFF - 1) (OFF - 1) | None => OFF end.

Definition backoff_get (word : Z) : option Z := if word =? OFF then None else Some word.

Definition backoff_threshold (word : Z) : option Z :=
  match backoff_get word with Some d => Some (Z.max d MIN_IDLE_THRESHOLD) | None => None end.

Inductive pause : Type := YieldNow | Sleep (d : Z).

Section Backoff.

(** The world the loop polls; [pass] is what happens while it pauses. *)
Context {W T E : Type} (poll : W -> W * result (option T) E) (pass : W -> pause -> W) (clock : W -> Z).

(** The pause before the next poll. *)
Definition pace (threshold idle_since : option Z) (w : W) : pause :=
  match threshold, idle_since with
  | Some t, Some since => if t <=? clock w - since then Sleep SLEEP_STEP else YieldNow
  | _, _ => YieldNow
  end.

(** The loop, with the pauses taken. *)
Fixpoint backoff_loop (fuel : nat) (threshold idle_since : option Z) (w : W) : outcome (W * list pause * result T E) :=
  match fuel with
  | O => OutOfFuel
  | S fuel =>
      let p := pace threshold idle_since w in
      match poll (pass w p) with
      | (w, Err e) => Done (w, [p], Err e)
      | (w, Ok (Some r)) => Done (w, [p], Ok r)
      | (w, Ok None) => let! (w, ps, r) := backoff_loop fuel threshold idle_since w in Done (w, p :: ps, r)
      end
  end.

Definition recv_with_backoff (fuel : nat) (backoff : Z) (w : W) : outcome (W * list pause * result T E) :=
  match poll w with
  | (w, Err e) => Done (w, [], Err e)
  | (w, Ok (Some r)) => Done (w, [], Ok r)
  | (w, Ok None) =>
      let threshold := backoff_threshold backoff in
      backoff_loop fuel threshold (match threshold with Some _ => Some (clock w) | None => None end) w
  end.

(** ** Specification *)

(** The world after [n] empty polls and the pauses between them. *)
Fixpoint idle_world (threshold since : option Z) (w : W) (n : nat) : W :=
  match n with
  | O => w
  | S n => let w := idle_world threshold since w n in fst (poll (pass w (pace threshold since w)))
  end.

Lemma backoff_loop_ok threshold since : forall n fuel w,
  (n < fuel)%nat ->
  (forall i, (i < n)%nat -> let wi := idle_world threshold since w i in snd (poll (pass wi (pace threshold since wi))) = Ok None) ->
  let wn := idle_world threshold since w n in
  forall r, snd (poll (pass wn (pace threshold since wn))) = (match r with Ok x => Ok (Some x) | Err e => Err e end) ->
  backoff_loop fuel threshold since w =
    Done (fst (poll (pass wn (pace threshold since wn))), (fun i => pace threshold since (idle_world threshold since w i)) <$> seq 0 (S n), r).
Proof.
  induction n as [|n IH]; intros [|fuel] w Hf Hidle wn r Hr; try lia; cbn [backoff_loop].
  - subst wn. cbn [idle_world] in *. destruct (poll (pass w _)) as [w' [[x|]|e]]; cbn in *; destruct r; cbn in Hr; try discriminate; by injection Hr as ->.
  - pose proof (Hidle O ltac:(lia)) as H0. cbn [idle_world] in H0. destruct (poll (pass w (pace threshold since w))) as [w1 o] eqn:E1. cbn in H0. subst o.
    assert (forall i, idle_world threshold since w (S i) = idle_world threshold since w1 i) as Hsh.
    { induction i as [|i IHi]; [cbn; by rewrite E1|]. change (idle_world threshold since w (S (S i))) with
        (let x := idle_world threshold since w (S i) in fst (poll (pass x (pace threshold since x)))). cbv zeta. by rewrite IHi. }
    subst wn. rewrite Hsh in Hr |- *. rewrite (IH fuel w1 ltac:(lia)) with (r := r); [| |done].
    + cbn [obind]. do 2 f_equal. f_equal. change (seq 0 (S (S n))) with (O :: seq 1 (S n)). rewrite fmap_cons. f_equal.
      rewrite <- fmap_S_seq, <- list_fmap_compose. apply list_fmap_ext. intros i x _. cbn [compose]. by rewrite Hsh.
    + intros i Hi. cbv zeta. rewrite <- Hsh. apply (Hidle (S i)). lia.
Qed.

(** C39: A receive with idle backoff returns what the first poll that is not empty gives, value or error, and never misses it: after a first empty poll and
    [n] further ones it has paused [n + 1] times.  A pause is a 1 ms sleep exactly when the backoff is on and the
    socket has been idle for the configured time, at least 2 ms; otherwise, and always with the backoff off, it yields.  The setting is read back as
    it was set. *)
Theorem backoff_returns_first_arrival fuel d w n r :
  match d with Some d => 0 <= d < OFF | None => True end ->
  let since := clock (fst (poll w)) in
  let threshold := match d with Some d => Some (Z.max d MIN_IDLE_THRESHOLD) | None => None end in
  let world := idle_world threshold (match d with Some _ => Some since | None => None end) (fst (poll w)) in
  let paused i := match d with
                  | Some d => if Z.max d MIN_IDLE_THRESHOLD <=? clock (world i) - since then Sleep SLEEP_STEP else YieldNow
                  | None => YieldNow
                  end in
  snd (poll w) = Ok None -> (n < fuel)%nat ->
  (forall i, (i < n)%nat -> snd (poll (pass (world i) (paused i))) = Ok None) ->
  snd (poll (pass (world n) (paused n))) = (match r with Ok x => Ok (Some x) | Err e => Err e end) ->
  backoff_get (backoff_set d) = d /\
  recv_with_backoff fuel (backoff_set d) w = Done (fst (poll (pass (world n) (paused n))), paused <$> seq 0 (S n), r).
Proof.
  intros Hd since threshold world paused H0 Hf Hidle Hr.
  assert (backoff_get (backoff_set d) = d) as Hget.
  { unfold backoff_get, backoff_set. destruct d as [d|]; [|done]. unfold OFF in *. rewrite (proj2 (Z.ltb_lt _ _)) by lia. rewrite Z.min_l by lia.
    by rewrite (proj2 (Z.eqb_neq _ _)) by lia. }
  split; [done|]. unfold recv_with_backoff. destruct (poll w) as [w1 o] eqn:Ew. cbn in H0. subst o. unfold backoff_threshold. rewrite Hget.
  replace (match match d with Some d => _ | None => None end with Some _ => Some (clock w1) | None => None end)
    with (match d with Some _ => Some since | None => None end) by (by destruct d).
  fold threshold. assert (forall i, paused i = pace threshold (match d with Some _ => Some since | None => None end) (world i)) as Hp
    by (intros i; unfold paused, pace, threshold; by destruct d).
  rewrite (backoff_loop_ok _ _ n fuel w1 Hf) with (r := r).
  - cbn [fst] in *. fold world. rewrite <- Hp. do 3 f_equal. apply list_fmap_ext. intros i x _. by rewrite Hp.
  - intros i Hi. cbv zeta. cbn [fst] in world. fold world. rewrite <- Hp. by apply Hidle.
  - cbn [fst] in world. fold world. by rewrite <- Hp.
Qed.

End Backoff.

(** ** Samples *)

Definition sample_handle : ConnectionHandle :=
  handle_new 16 16 true (MkFourTuple (V4 (MkIpv4 10 0 0 2) 5000) (V4 (MkIpv4 10 0 0 1) 80)).

Definition sample_task (pc : ppc) (waker : AtomicWaker) : psys := MkPsys sample_handle waker [0; 0] pc false false [] [].

Definition sample_ring : SpscByteRing.t :=
  match SpscByteRing.write (rx_ring sample_handle) [1; 2; 3] with Done (r, _) => r | _ => SpscByteRing.new 16 end.

(** A reader that returned [Pending] just before three bytes arrived. *)
Definition sample_asleep : psys :=
  (sample_task PPending (Some 7%nat)) <| p_handle := sample_handle <| rx_ring := sample_ring |> |> <| p_in := [1; 2; 3] |> <| p_owes := true |>.

Lemma sample_checking_reachable : reachable_poll 7 ReadTask (sample_task PCheckEof (Some 7%nat)).
Proof.
  assert (reachable_poll 7 ReadTask (sample_task PRegister None)) as H1.
  { apply (reach_pstep _ _ (ptask sample_handle)); [apply reach_ptask|left; exact (poll_again 7 ReadTask (ptask sample_handle) [0; 0] (Ok 0) eq_refl)].
    destruct (SpscByteRing.new_spec 16 ltac:(lia)) as (Hw & Hn & _). split_and!; [exact Hw|exact Hn|exact Hw|exact Hn]. }
  assert (reachable_poll 7 ReadTask (sample_task PCheckError (Some 7%nat))) as H2.
  { apply (reach_pstep _ _ _ _ H1). left. exact (poll_register 7 ReadTask (sample_task PRegister None) eq_refl). }
  assert (reachable_poll 7 ReadTask (sample_task PTransfer (Some 7%nat))) as H3.
  { apply (reach_pstep _ _ _ _ H2). left. exact (poll_no_error 7 ReadTask (sample_task PCheckError (Some 7%nat)) eq_refl eq_refl). }
  apply (reach_pstep _ _ _ _ H3). left. refine (poll_read_none 7 ReadTask (sample_task PTransfer (Some 7%nat)) _ _ eq_refl eq_refl _). by vm_compute.
Qed.

Lemma sample_asleep_reachable : reachable_poll 7 ReadTask sample_asleep.
Proof.
  assert (reachable_poll 7 ReadTask (sample_task PPending (Some 7%nat))) as H5.
  { apply (reach_pstep _ _ _ _ sample_checking_reachable). left. exact (poll_read_pending 7 ReadTask (sample_task PCheckEof (Some 7%nat)) eq_refl eq_refl). }
  apply (reach_pstep _ _ _ _ H5). right. refine (engine_data 7 ReadTask (sample_task PPending (Some 7%nat)) [1; 2; 3] _ 3 eq_refl _). by vm_compute.
Qed.

Lemma polled_stream_never_misses_wakeup_witness :
  exists s', engine_step 7 ReadTask sample_asleep s' /\ p_pc s' = PPending /\ p_scheduled s' = true.
Proof.
  destruct (polled_stream_never_misses_wakeup 7 ReadTask sample_asleep sample_asleep_reachable) as [_ H].
  destruct (H eq_refl) as [H1|(_ & _ & H1)]; [right; left; split; [by vm_compute|discriminate]|discriminate H1|exact H1].
Defined.

(** The end of the stream may overtake its last bytes here too: a polled read that found the ring empty and then sees the flag returns
    [Ready] with no bytes, although the bytes the engine delivered before it are in the ring. *)
Theorem polled_eof_overtakes_data :
  exists s, reachable_poll 7 ReadTask s /\ p_pc s = PReady (Ok 0) /\ length (p_data s) = 2%nat /\
    SpscByteRing.contents (rx_ring (p_handle s)) = [1; 2; 3].
Proof.
  set (s1 := (sample_task PCheckEof (Some 7%nat)) <| p_handle := sample_handle <| rx_ring := sample_ring |> |> <| p_in := [1; 2; 3] |> <| p_owes := true |>).
  set (s2 := s1 <| p_handle := set_eof (p_handle s1) |> <| p_owes := true |>). exists (s2 <| p_pc := PReady (Ok 0) |>).
  split; [|split; [done|split; [done|by vm_compute]]].
  apply (reach_pstep _ _ s2); [|left; exact (poll_eof 7 ReadTask s2 eq_refl eq_refl)].
  apply (reach_pstep _ _ s1); [|right; exact (engine_eof 7 ReadTask s1)].
  apply (reach_pstep _ _ _ _ sample_checking_reachable). right. refine (engine_data 7 ReadTask (sample_task PCheckEof (Some 7%nat)) [1; 2; 3] _ 3 eq_refl _). by vm_compute.
Qed.

(** A world that is a clock in steps of 1.5 ms, with a datagram after 6 ms. *)
Definition sample_poll (t : Z) : Z * result (option Z) unit := (t, Ok (if 6000000 <=? t then Some 42 else None)).
Definition sample_pass (t : Z) (p : pause) : Z := t + 1500000.

Lemma backoff_returns_first_arrival_witness :
  recv_with_backoff sample_poll sample_pass id 9 (backoff_set (Some 10)) 0 =
    Done (6000000, [YieldNow; YieldNow; Sleep SLEEP_STEP; Sleep SLEEP_STEP], Ok 42).
Proof.
  refine (proj2 (backoff_returns_first_arrival sample_poll sample_pass id 9 (Some 10) 0 3 (Ok 42) _ _ _ _ _)).
  - unfold OFF. lia.
  - reflexivity.
  - lia.
  - intros i Hi. destruct i as [|[|[|i]]]; [vm_compute; reflexivity..|lia].
  - vm_compute. reflexivity.
Defined.
