(* ===== verification/Perf.v ===== *)
(** * Performance counters (dpdk-stdlib-udp/src/perf.rs)

    The latency sampler (one recording at a time), the running maximum as interleaved steps of the threads that update it, and the integer part of the rates between
    two snapshots.  Floating-point numbers are not modelled: the rank of a percentile, which the source computes
    with them, is a parameter. *)

From stdpp Require Import base numbers list sorting.
From Stdlib Require Import ZArith Lia.
From S2P Require Import Prelude.

#[local] Open Scope Z_scope.

(** ** The sampler *)

Record LatencySampler := MkSampler {
  samples : list Z; s_count : Z; write_idx : Z; sample_rate : Z; packet_count : Z }.

#[global] Instance eta_LatencySampler : Eta LatencySampler := fun s =>
  MkSampler (samples s) (s_count s) (write_idx s) (sample_rate s) (packet_count s).

Definition sampler_new (capacity : nat) (rate : Z) : LatencySampler :=
  MkSampler (replicate capacity 0) 0 0 (Z.max rate 1) 0.

Definition should_sample (s : LatencySampler) : LatencySampler * bool :=
  (s <| packet_count := u64 (packet_count s + 1) |>, packet_count s mod sample_rate s =? 0).

(** [record], in one go. *)
Definition sampler_record (s : LatencySampler) (duration_ns : Z) : LatencySampler :=
  let capacity := zlen (samples s) in
  if capacity =? 0 then s
  else
    let idx := write_idx s mod capacity in
    let s := s <| write_idx := u64 (write_idx s + 1) |> <| samples := <[Z.to_nat idx := duration_ns]> (samples s) |> in
    if s_count s <? capacity then s <| s_count := s_count s + 1 |> else s.

Definition sampler_reset (s : LatencySampler) : LatencySampler := s <| s_count := 0 |> <| write_idx := 0 |>.

Record LatencyPercentiles := MkPercentiles { p50_ns : Z; p95_ns : Z; p99_ns : Z; p999_ns : Z; max_ns : Z; lp_count : Z }.

Section Percentiles.

(** [rank pct n]: the rounded position of a percentile (in tenths) among [n] samples. *)
Context (rank : Z -> nat -> nat).

(** [percentiles]. *)
Definition percentiles (s : LatencySampler) : outcome LatencyPercentiles :=
  if s_count s =? 0 then Done (MkPercentiles 0 0 0 0 0 0)
  else
    let! window := slice (samples s) 0 (Z.to_nat (s_count s)) in
    let sorted := merge_sort Z.le window in
    let last := (length sorted - 1)%nat in
    let p pct := idx sorted (Nat.min (rank pct (length sorted)) last) in
    let! p50 := p 500 in
    let! p95 := p 950 in
    let! p99 := p 990 in
    let! p999 := p 999 in
    let! m := idx sorted last in
    Done (MkPercentiles p50 p95 p99 p999 m (s_count s)).

End Percentiles.

(** ** The running maximum *)

(** A thread in [update_latency_max]: its value and what it last read; [None] once it is done. *)
Record updater := MkUpdater { u_ns : Z; u_seen : option Z }.

(** The shared maximum and the threads; a weak exchange may fail although the value matches. *)
Inductive max_step : Z * list updater -> Z * list updater -> Prop :=
| max_done m us i ns c :
    us !! i = Some (MkUpdater ns (Some c)) -> ns <= c -> max_step (m, us) (m, <[i := MkUpdater ns None]> us)
| max_exchange us i ns c :
    us !! i = Some (MkUpdater ns (Some c)) -> c < ns -> max_step (c, us) (ns, <[i := MkUpdater ns None]> us)
| max_retry m us i ns c :
    us !! i = Some (MkUpdater ns (Some c)) -> c < ns -> max_step (m, us) (m, <[i := MkUpdater ns (Some m)]> us)
| max_start m us ns :
    max_step (m, us) (m, us ++ [MkUpdater ns (Some m)]).

(** ** Rates *)

(** The counters the integer rates are made of. *)
Record CounterSnapshot := MkSnapshot {
  sn_drops_ring : Z; sn_drops_buffer : Z; sn_tx_failures : Z; sn_arp_hits : Z; sn_arp_misses : Z;
  sn_worker_fail : Z; sn_app_fail : Z; sn_tx_fail : Z }.

Record RateSnapshot := MkRates {
  rx_drops_rate : Z; rx_ring_drops : Z; rx_buf_drops : Z; tx_fails : Z; rate_arp_hits : Z; rate_arp_misses : Z; ring_drops : Z }.

Definition rates_since (cur prev : CounterSnapshot) : outcome RateSnapshot :=
  let rx_ring := ssub (sn_drops_ring cur) (sn_drops_ring prev) in
  let rx_buf := ssub (sn_drops_buffer cur) (sn_drops_buffer prev) in
  let ring := ssub (sn_worker_fail cur) (sn_worker_fail prev) + ssub (sn_app_fail cur) (sn_app_fail prev) + ssub (sn_tx_fail cur) (sn_tx_fail prev) in
  if (2 ^ 64 <=? rx_ring + rx_buf) || (2 ^ 64 <=? ring) then Panic
  else Done (MkRates (rx_ring + rx_buf) rx_ring rx_buf (ssub (sn_tx_failures cur) (sn_tx_failures prev))
               (ssub (sn_arp_hits cur) (sn_arp_hits prev)) (ssub (sn_arp_misses cur) (sn_arp_misses prev)) ring).

(** ** The sampler keeps the last samples *)

Definition record_all (s : LatencySampler) (ds : list Z) : LatencySampler := foldl sampler_record s ds.

(** The samples after [ds] was recorded into an empty ring: the last ones, each at its number modulo the capacity. *)
Record holds (cap : nat) (s : LatencySampler) (ds : list Z) : Prop := {
  ho_len : length (samples s) = cap;
  ho_idx : write_idx s = zlen ds;
  ho_count : s_count s = Z.min (zlen ds) (Z.of_nat cap);
  ho_samples : forall j, (j < length ds)%nat -> (length ds <= j + cap)%nat -> samples s !! (j mod cap)%nat = ds !! j }.

Lemma record_holds cap s ds d : (0 < cap)%nat -> zlen ds + 1 < 2 ^ 64 -> holds cap s ds -> holds cap (sampler_record s d) (ds ++ [d]).
Proof.
  intros Hc Hb [Hl Hi Hn Hs]. unfold sampler_record. unfold zlen at 1. rewrite Hl. rewrite (proj2 (Z.eqb_neq _ _)) by lia. rsimpl. rewrite Hi, Hn. unfold zlen in *.
  assert (Z.to_nat (Z.of_nat (length ds) mod Z.of_nat cap) = (length ds mod cap)%nat) as Em by (rewrite <- Nat2Z.inj_mod; apply Nat2Z.id).
  rewrite Hl, Em. rewrite u64_small by (unfold is_u64; lia).
  assert (forall j, (j < length (ds ++ [d]))%nat -> (length (ds ++ [d]) <= j + cap)%nat ->
    <[(length ds mod cap)%nat := d]> (samples s) !! (j mod cap)%nat = (ds ++ [d]) !! j) as Hs'.
  { rewrite length_app. cbn. intros j Hj Hj2. assert (j mod cap < cap)%nat by (apply Nat.mod_upper_bound; lia).
    destruct (decide (j = length ds)) as [->|Hne].
    - rewrite list_lookup_insert_eq by lia. by rewrite list_lookup_middle.
    - rewrite lookup_app_l by lia. rewrite list_lookup_insert_ne; [apply Hs; lia|].
      intros E. pose proof (Nat.div_mod_eq j cap) as E1. pose proof (Nat.div_mod_eq (length ds) cap) as E2. rewrite E in E2.
      assert (length ds / cap = j / cap)%nat as Eq; [|rewrite Eq in E2; lia].
      set (a := (length ds / cap)%nat) in *. set (b := (j / cap)%nat) in *. destruct (Nat.lt_trichotomy a b) as [|[|]]; [nia|done|nia]. }
  rewrite length_app in Hs'. destruct (Z.ltb_spec (Z.min (Z.of_nat (length ds)) (Z.of_nat cap)) (Z.of_nat cap));
    constructor; rsimpl; unfold zlen; rewrite ?length_insert, ?length_app; cbn [length]; try done; try lia.
Qed.

Lemma record_all_holds cap rate ds : (0 < cap)%nat -> zlen ds < 2 ^ 64 -> holds cap (record_all (sampler_new cap rate) ds) ds.
Proof.
  intros Hc. induction ds as [|d ds IH] using rev_ind; intros Hb.
  - constructor; cbn; rewrite ?length_replicate; [done|done|unfold zlen; cbn; lia|intros; lia].
  - unfold zlen in Hb. rewrite length_app in Hb. cbn in Hb. unfold record_all. rewrite foldl_snoc. apply record_holds; [done|unfold zlen; lia|].
    apply IH. unfold zlen. lia.
Qed.

(** The samples still in the ring. *)
Definition latest (cap : nat) (ds : list Z) : list Z := drop (length ds - cap) ds.

Lemma holds_latest cap s ds : (0 < cap)%nat -> holds cap s ds ->
  exists window, slice (samples s) 0 (Z.to_nat (s_count s)) = Done window /\ Permutation window (latest cap ds).
Proof.
  intros Hc [Hl Hi Hn Hs]. unfold zlen in *. rewrite Hn. rewrite slice_in_range by lia. eexists. split; [reflexivity|].
  rewrite drop_0, Nat.sub_0_r. unfold latest. destruct (Nat.le_gt_cases (length ds) cap) as [Hle|Hgt].
  - replace (length ds - cap)%nat with O by lia. rewrite drop_0. replace (Z.to_nat _) with (length ds) by lia.
    replace (take (length ds) (samples s)) with ds; [done|]. apply list_eq. intros i. rewrite lookup_take. case_decide as Hi'; [|by rewrite lookup_ge_None_2 by lia].
    rewrite <- (Hs i) by lia. by rewrite Nat.mod_small by lia.
  - replace (Z.to_nat _) with cap by lia. rewrite take_ge by lia. set (k := ((length ds - cap) mod cap)%nat). assert (k < cap)%nat by (apply Nat.mod_upper_bound; lia).
    replace (drop (length ds - cap) ds) with (drop k (samples s) ++ take k (samples s)); [by rewrite Permutation_app_comm, take_drop|].
    apply list_eq. intros i. rewrite lookup_drop. destruct (Nat.lt_ge_cases i cap) as [Hic|Hic].
    2: { rewrite !lookup_ge_None_2; [done|lia|]. rewrite length_app, length_drop, length_take. lia. }
    rewrite <- (Hs (length ds - cap + i)%nat) by lia. rewrite <- Nat.Div0.add_mod_idemp_l. fold k.
    destruct (Nat.lt_ge_cases (k + i) cap).
    + rewrite Nat.mod_small by lia. rewrite lookup_app_l by (rewrite length_drop; lia). by rewrite lookup_drop.
    + rewrite lookup_app_r by (rewrite length_drop; lia). rewrite length_drop, lookup_take, decide_True by lia. f_equal.
      replace (k + i)%nat with (k + i - cap + 1 * cap)%nat by lia. rewrite Nat.Div0.mod_add, Nat.mod_small by lia. lia.
Qed.

Lemma sorted_lookup l i j x y : Sorted Z.le l -> l !! i = Some x -> l !! j = Some y -> (i <= j)%nat -> x <= y.
Proof.
  intros H%Sorted_StronglySorted; [|intros a b c; lia]. revert i j. induction H as [|a l Hs IH Ha]; intros i j Hi Hj Hij; [done|].
  destruct i as [|i], j as [|j]; cbn in Hi, Hj; [by simplify_eq| |lia|apply (IH i j); [done|done|lia]].
  simplify_eq. rewrite Forall_forall in Ha. apply Ha. by eapply list_elem_of_lookup_2.
Qed.

(** The sampler keeps the most recent samples, as many as it has slots, and its percentiles are those of exactly these: each is one of them, they grow
    with the percentage up to the largest, and no recording, in whatever number below 2^64, makes the computation fail. *)
Theorem percentiles_of_latest_samples rank cap rate ds :
  (forall n, (rank 500%Z n <= rank 950%Z n <= rank 990%Z n)%nat) -> (forall n, (rank 990%Z n <= rank 999%Z n)%nat) -> (0 < cap)%nat -> ds <> [] -> zlen ds < 2 ^ 64 ->
  exists p, percentiles rank (record_all (sampler_new cap rate) ds) = Done p /\
    lp_count p = zlen (latest cap ds) /\ p50_ns p <= p95_ns p <= p99_ns p /\ p99_ns p <= p999_ns p <= max_ns p /\
    Forall (fun x => x ∈ latest cap ds) [p50_ns p; p95_ns p; p99_ns p; p999_ns p; max_ns p] /\ Forall (fun x => x <= max_ns p) (latest cap ds).
Proof.
  intros H1 H2 Hc Hne Hb. pose proof (record_all_holds cap rate ds Hc Hb) as Hh. destruct (holds_latest cap _ ds Hc Hh) as (win & Hwin & Hperm).
  destruct Hh as [_ _ Hn _]. unfold percentiles. assert (0 < length ds)%nat by (destruct ds; [done|cbn; lia]). unfold zlen in Hn.
  rewrite (proj2 (Z.eqb_neq _ _)) by lia. rewrite Hwin. cbn [obind]. set (l := merge_sort Z.le win).
  assert (Permutation l (latest cap ds)) as Hp by (unfold l; by rewrite merge_sort_Permutation). assert (Sorted Z.le l) as Hsort by (apply Sorted_merge_sort; intros a b; lia).
  assert (length l = length (latest cap ds)) as El by (by apply Permutation_length). assert (length (latest cap ds) = Z.to_nat (s_count (record_all (sampler_new cap rate) ds))) as Elat
    by (unfold latest; rewrite length_drop; lia).
  assert (forall i, (i < length l)%nat -> exists x, idx l i = Done x /\ l !! i = Some x /\ x ∈ latest cap ds) as Hidx.
  { intros i Hi. destruct (lookup_lt_is_Some_2 l i Hi) as [x Hx]. exists x. unfold idx. rewrite Hx. split_and!; [done|done|]. rewrite <- Hp. by eapply list_elem_of_lookup_2. }
  set (last := (length l - 1)%nat). set (n := length l).
  destruct (Hidx (Nat.min (rank 500 n) last)) as (x1 & E1 & L1 & M1); [lia|]. destruct (Hidx (Nat.min (rank 950 n) last)) as (x2 & E2 & L2 & M2); [lia|].
  destruct (Hidx (Nat.min (rank 990 n) last)) as (x3 & E3 & L3 & M3); [lia|]. destruct (Hidx (Nat.min (rank 999 n) last)) as (x4 & E4 & L4 & M4); [lia|].
  destruct (Hidx last) as (x5 & E5 & L5 & M5); [lia|]. rewrite E1, E2, E3, E4, E5. cbn [obind]. eexists. split; [reflexivity|]. cbn.
  pose proof (H1 n). pose proof (H2 n). split_and!; [unfold zlen; lia|eapply sorted_lookup; [done|exact L1|exact L2|lia]|eapply sorted_lookup; [done|exact L2|exact L3|lia]
    |eapply sorted_lookup; [done|exact L3|exact L4|lia]|eapply sorted_lookup; [done|exact L4|exact L5|lia]|by repeat constructor|].
  rewrite <- Hp. apply Forall_lookup. intros i x Hx. eapply sorted_lookup; [done|exact Hx|exact L5|]. apply lookup_lt_Some in Hx. lia.
Qed.

(** ** The maximum is exact *)

Inductive max_reachable (m0 : Z) : Z * list updater -> Prop :=
| max_begin : max_reachable m0 (m0, [])
| max_next s s' : max_reachable m0 s -> max_step s s' -> max_reachable m0 s'.

Definition max_inv (m0 : Z) (s : Z * list updater) : Prop :=
  m0 <= s.1 /\ (s.1 = m0 \/ Exists (fun u => u_ns u = s.1) s.2) /\
  Forall (fun u => match u_seen u with None => u_ns u <= s.1 | Some c => c <= s.1 end) s.2.

Lemma exists_insert us i ns o o' m : us !! i = Some (MkUpdater ns o) ->
  Exists (fun u => u_ns u = m) us -> Exists (fun u => u_ns u = m) (<[i := MkUpdater ns o']> us).
Proof.
  intros Hi. rewrite !Exists_exists. intros (u & Hu & E). apply list_elem_of_lookup in Hu as [j Hj]. destruct (decide (i = j)) as [->|Hne].
  - exists (MkUpdater ns o'). split; [|by simplify_eq]. eapply list_elem_of_lookup_2. apply list_lookup_insert_eq. by eapply lookup_lt_Some.
  - exists u. split; [|done]. eapply list_elem_of_lookup_2. by rewrite list_lookup_insert_ne by done.
Qed.

Lemma max_step_inv m0 s s' : max_inv m0 s -> max_step s s' -> max_inv m0 s'.
Proof.
  intros (H0 & Hw & Hf) Hs. destruct Hs as [m us i ns c Hi Hle|us i ns c Hi Hlt|m us i ns c Hi Hlt|m us ns]; unfold max_inv; cbn in *.
  - pose proof (proj1 (Forall_lookup _ _) Hf _ _ Hi) as Hseen. cbn in Hseen. split_and!; [done|destruct Hw; [by left|right; by eapply exists_insert]|].
    apply Forall_insert; [done|]. cbn. lia.
  - split_and!; [lia| |].
    + right. apply Exists_exists. exists (MkUpdater ns None). split; [|done]. eapply list_elem_of_lookup_2. apply list_lookup_insert_eq. by eapply lookup_lt_Some.
    + apply Forall_insert; [|cbn; lia]. eapply Forall_impl; [exact Hf|]. intros [x [y|]]; cbn; lia.
  - split_and!; [done|destruct Hw; [by left|right; by eapply exists_insert]|]. apply Forall_insert; [done|]. cbn. lia.
  - split_and!; [done|destruct Hw; [by left|right; apply Exists_app; by left]|]. apply Forall_app. split; [done|]. apply Forall_singleton. cbn. lia.
Qed.

(** The running maximum is exact: in every interleaving of any number of threads that update it, with compare-and-exchanges that may also fail
    spuriously, it never decreases, and once all of them are done it is the largest of the values they recorded and the one before. *)
Theorem latency_max_is_exact m0 m us :
  max_reachable m0 (m, us) -> Forall (fun u => u_seen u = None) us -> m = foldr Z.max m0 (u_ns <$> us).
Proof.
  intros Hr Hd. assert (max_inv m0 (m, us)) as (H0 & Hw & Hf) by (induction Hr; [split_and!; [done|by left|constructor]|by eapply max_step_inv]). cbn in *.
  assert (Forall (fun u => u_ns u <= m) us) as Hle.
  { rewrite Forall_forall in *. intros u Hu. specialize (Hf u Hu). by rewrite (Hd u Hu) in Hf. }
  assert (foldr Z.max m0 (u_ns <$> us) <= m) as Hub by (clear -H0 Hle; induction Hle; cbn; lia).
  assert (m <= foldr Z.max m0 (u_ns <$> us)) as Hlb; [|lia].
  destruct Hw as [->|Hex]; [clear; induction us; cbn; lia|]. clear -Hex. induction Hex as [u us E|u us _ IH]; cbn; lia.
Qed.

(** ** Witnesses *)

(** The exact rank, rounded to the nearest. *)
Definition sample_rank (pct : Z) (n : nat) : nat := Z.to_nat ((2 * pct * (Z.of_nat n - 1) + 1000) / 2000).

Lemma sample_rank_mono n a b : 0 <= a <= b -> (sample_rank a n <= sample_rank b n)%nat.
Proof.
  intros Hab. unfold sample_rank. destruct (Z.le_gt_cases 1 (Z.of_nat n)); [apply Z2Nat.inj_le; [apply Z.div_pos; nia|apply Z.div_pos; nia|apply Z.div_le_mono; nia]|].
  destruct n; [|lia]. assert ((2 * a * (Z.of_nat 0 - 1) + 1000) / 2000 <= 0) by (apply Z.lt_succ_r, Z.div_lt_upper_bound; lia). lia.
Qed.

Lemma percentiles_of_latest_samples_witness :
  exists p, percentiles sample_rank (record_all (sampler_new 4 1) [90; 80; 10; 40; 20; 30]) = Done p /\ max_ns p = 40.
Proof.
  destruct (percentiles_of_latest_samples sample_rank 4 1 [90; 80; 10; 40; 20; 30]) as (p & E & _).
  - intros n. split; apply sample_rank_mono; lia.
  - intros n. apply sample_rank_mono. lia.
  - lia.
  - discriminate.
  - vm_compute. reflexivity.
  - exists p. split; [exact E|]. vm_compute in E. injection E as <-. reflexivity.
Defined.

Lemma latency_max_is_exact_witness :
  exists us, max_reachable 5 (9, us) /\ 9 = foldr Z.max 5 (u_ns <$> us).
Proof.
  exists [MkUpdater 7 None; MkUpdater 9 None].
  assert (max_reachable 5 (9, [MkUpdater 7 None; MkUpdater 9 None])) as H.
  { eapply max_next; [|exact (max_done 9 [MkUpdater 7 (Some 9); MkUpdater 9 None] 0 7 9 eq_refl ltac:(lia))].
    eapply max_next; [|exact (max_retry 9 [MkUpdater 7 (Some 5); MkUpdater 9 None] 0 7 5 eq_refl ltac:(lia))].
    eapply max_next; [|exact (max_exchange [MkUpdater 7 (Some 5); MkUpdater 9 (Some 5)] 1 9 5 eq_refl ltac:(lia))].
    eapply max_next; [|exact (max_start 5 [MkUpdater 7 (Some 5)] 9)].
    eapply max_next; [apply max_begin|exact (max_start 5 [] 7)]. }
  split; [exact H|]. apply (latency_max_is_exact 5 9 [MkUpdater 7 None; MkUpdater 9 None] H). repeat constructor.
Defined.
