(* ===== verification/PipelineRecv.v ===== *)
(** * Blocking receive of the multi-core pipeline

    [recv_from_pipeline] (dpdk-stdlib-udp/src/lib.rs) polls the application rings until a datagram arrives or the read
    timeout has passed, and backs off between polls as the pipeline threads do
    ([adaptive_wait], topology.rs).  It runs beside the threads of Pipeline: what they do between two polls is a list of events. *)

From stdpp Require Import base numbers list sets.
From Stdlib Require Import ZArith Lia.
From S2P Require Import Prelude State Buffer Checksum Codec CodecFrames Ring UdpChecksum UdpFrame UdpLayout Routing NeighborCache Arp Icmp UdpSocket UdpRobust MpscRing FramePool SpscRing Pipeline PipelineInv PipelineSafe.

#[local] Open Scope Z_scope.

(** ** Backing off *)

Definition SPIN_ITERS : Z := 64.
Definition YIELD_ITERS : Z := 16.
Definition SLEEP_US : Z := 1.

Inductive wait : Type := Spin | YieldThread | SleepMicros (us : Z).

(** [adaptive_wait], which [recv_from_pipeline] repeats with the numbers written out; the counter is [u32]. *)
Definition adaptive_wait (empty_polls : Z) : outcome (Z * wait) :=
  let empty_polls := empty_polls + 1 in
  if 2 ^ 32 <=? empty_polls then Panic
  else if empty_polls <=? SPIN_ITERS then Done (empty_polls, Spin)
  else if empty_polls <=? SPIN_ITERS + YIELD_ITERS then Done (empty_polls, YieldThread)
  else Done (empty_polls, SleepMicros SLEEP_US).

(** ** The loop *)

(** How a turn of the loop ends: [return], [continue] after a datagram of another sender, or the back-off. *)
Inductive recv_turn : Type := Got (n : Z) (src : SocketAddr) | Stranger | Nothing.

Section Receive.

Context {Q : Type -> Type} `{HQ : BoundedQueue Q}.

(** The body of the loop under the lock of [rx_state]. *)
Definition pipeline_turn (s : UdpSocket) (pl : Pipeline Q) (rr_index : nat) (buf : list Z)
    : outcome (UdpSocket * Pipeline Q * nat * list Z * recv_turn) :=
  let! (s, buf, popped) :=
    if s_has_buffered_packets s then
      let! (s, buf, popped) := rx_dequeue_into s buf in
      Done (match popped with Some _ => s | None => s <| s_has_buffered_packets := false |> end, buf, popped)
    else Done (s, buf, None) in
  match popped with
  | Some (n, src) => Done (s, pl, rr_index, buf, Got n src)
  | None =>
      let! (rings, rr_index, packet) := dequeue_app_rings (pl_app_rings pl) rr_index in
      let pl := pl <| pl_app_rings := rings |> in
      match packet with
      | None => Done (s, pl, rr_index, buf, Nothing)
      | Some app_pkt =>
          let start := Z.to_nat (payload_offset app_pkt) in
          let len := Z.to_nat (payload_len app_pkt) in
          let! frame_data := frame (pl_pool pl) (pool_idx (ap_frame_ref app_pkt)) in
          let copy_len := Nat.min (length buf) len in
          let! bytes := slice frame_data start (start + copy_len) in
          let! buf := blit buf 0 copy_len bytes in
          let! pl := free_frame pl (ap_frame_ref app_pkt) in
          let stranger := match s_connected_addr s with
                          | Some connected => negb (bool_decide (ap_src_addr app_pkt = connected))
                          | None => false
                          end in
          if stranger then
            let! data := slice buf 0 copy_len in
            Done (rx_enqueue s data (ap_src_addr app_pkt) (Z.of_nat copy_len), pl, rr_index, buf, Stranger)
          else
            let! s :=
              match s_connection_state s with
              | Some state =>
                  let! state := record_recv state (Z.of_nat copy_len) in
                  Done (s <| s_connection_state := Some state |>)
              | None => Done s
              end in
            Done (s, pl, rr_index, buf, Got (Z.of_nat copy_len) (ap_src_addr app_pkt))
      end
  end.

(** [recv_from_pipeline]: turn [i] starts at [clock i], after the events [others i] of the other threads; the ghost [answers] of the system
    records what is returned, and the list of waits what was done between turns. *)
Fixpoint recv_from_pipeline (fuel i : nat) (empty_polls : Z) (sys : PipeSys Q) (clock : nat -> Z)
    (others : nat -> list pipe_event) (deadline : option Z) (buf : list Z)
    : outcome (PipeSys Q * list wait * list Z * result (Z * SocketAddr) ErrorKind) :=
  match fuel with
  | O => OutOfFuel
  | S fuel =>
      let! sys := pipe_run sys (others i) in
      if match deadline with Some dl => dl <=? clock i | None => false end
      then Done (sys, [], buf, Err KWouldBlock)
      else
        let! (sock, pl, rr, buf, t) := pipeline_turn (app_socket sys) (pipe sys) (app_rr sys) buf in
        let sys := sys <| pipe := pl |> <| app_socket := sock |> <| app_rr := rr |> in
        match t with
        | Got n src =>
            let! d := slice buf 0 (Z.to_nat n) in
            Done (sys <| answers := answers sys ++ [(d, src)] |>, [], buf, Ok (n, src))
        | Stranger => recv_from_pipeline fuel (S i) 0 sys clock others deadline buf
        | Nothing =>
            let! (empty_polls, w) := adaptive_wait empty_polls in
            let! (sys, ws, buf, r) := recv_from_pipeline fuel (S i) empty_polls sys clock others deadline buf in
            Done (sys, w :: ws, buf, r)
        end
  end.

(** ** A turn is a non-blocking receive *)

Definition turn_answer (t : recv_turn) : option (Z * SocketAddr) :=
  match t with Got n src => Some (n, src) | Stranger | Nothing => None end.

Lemma dequeue_keeps s buf s' buf' r :
  rx_dequeue_into s buf = Done (s', buf', r) -> length buf' = length buf /\ s_connection_state s' = s_connection_state s.
Proof.
  destruct (dequeue_total s buf) as (s1 & b1 & r1 & -> & [_ Hk] & Hl). by intros [= <- <- <-].
Qed.

Lemma blit_len (buf src out : list Z) a n : blit buf a n src = Done out -> length out = length buf.
Proof.
  unfold blit. destruct (_ && _) eqn:E; [|done]. intros [= <-]. rewrite !andb_true_iff, !Nat.leb_le, Nat.eqb_eq in E.
  rewrite !length_app, length_take, length_drop. lia.
Qed.

Lemma record_room s (buf : list Z) n : room s buf -> (n <= length buf)%nat ->
  exists s', match s_connection_state s with
             | Some state => let! state := record_recv state (Z.of_nat n) in Done (s <| s_connection_state := Some state |>)
             | None => Done s
             end = Done s' /\ s_queue s' = s_queue s.
Proof.
  unfold room. intros Hr Hn. destruct (s_connection_state s) as [c|]; [|by exists s]. destruct Hr as [H1 H2]. unfold zlen in H2.
  unfold record_recv, add_u64. rewrite !(proj2 (Z.ltb_lt _ _)) by lia. cbn [obind]. eexists. split; [reflexivity|]. by rsimpl.
Qed.

Lemma turn_of_try s pl rr buf s0 pl' rr' buf' r :
  try_recv_from_pipeline s pl rr buf = Done (s0, pl', rr', buf', r) ->
  length buf' = length buf /\ s_connection_state s0 = s_connection_state s /\
  (room s buf -> exists s' t, pipeline_turn s pl rr buf = Done (s', pl', rr', buf', t) /\ turn_answer t = r /\ s_queue s' = s_queue s0 /\
    (r = None -> s' = s0)).
Proof.
  unfold try_recv_from_pipeline, pipeline_turn. intros H.
  set (m := if s_has_buffered_packets s then _ else _) in *.
  assert (forall s1 b1 o, m = Done (s1, b1, o) -> length b1 = length buf /\ s_connection_state s1 = s_connection_state s) as Hm.
  { subst m. intros s1 b1 o. destruct (s_has_buffered_packets s); [|by intros [= <- <- <-]].
    destruct (rx_dequeue_into s buf) as [[[s2 b2] o2]| |] eqn:E; cbn [obind]; [|done..]. destruct (dequeue_keeps _ _ _ _ _ E) as [? ?].
    intros [= <- <- <-]. split; [done|]. destruct o2; by rsimpl. }
  destruct m as [[[s1 b1] popped]| |]; cbn [obind] in *; [|done..]. destruct (Hm s1 b1 popped eq_refl) as [Hl Hc]. clear Hm.
  destruct popped as [[n src]|]; [injection H as <- <- <- <- <-; split_and!; [done..|]; by eexists _, (Got n src)|].
  destruct (dequeue_app_rings _ _) as [[[rings rr1] packet]| |]; cbn [obind] in *; [|done..].
  destruct packet as [a|]; [|injection H as <- <- <- <- <-; split_and!; [done..|]; by eexists _, Nothing].
  cbv zeta in *. destruct (frame _ _) as [d| |]; cbn [obind] in *; [|done..]. destruct (slice d _ _) as [bytes| |]; cbn [obind] in *; [|done..].
  destruct (blit b1 0 _ bytes) as [b2| |] eqn:Eb; cbn [obind] in *; [|done..]. apply blit_len in Eb.
  destruct (free_frame _ _) as [pl1| |]; cbn [obind] in *; [|done..].
  destruct (match s_connected_addr s1 with Some _ => _ | None => _ end).
  - destruct (slice b2 _ _) as [data| |]; cbn [obind] in *; [|done..]. injection H as <- <- <- <- <-. split; [lia|].
    split; [|by eexists _, Stranger]. unfold rx_enqueue. destruct (push_slice _ _ _) as [q []]; by rsimpl.
  - injection H as <- <- <- <- <-. split; [lia|]. split; [done|]. intros Hroom.
    destruct (record_room s1 b1 (length b1 `min` Z.to_nat (payload_len a))) as (s2 & -> & Hq); [|lia|].
    { unfold room in *. rewrite Hc. unfold zlen in *. by rewrite Hl. }
    cbn [obind]. eexists _, (Got _ _). split; [reflexivity|]. split_and!; done.
Qed.

(** What the other threads do leaves the counters of the connection alone. *)
Lemma step_counters s e s' : pipe_step s e = Done s' -> s_connection_state (app_socket s') = s_connection_state (app_socket s).
Proof.
  destruct e as [frames|now|f| |w|w now|buf]; cbn.
  1-6: repeat case_match; try (by intros [= <-]);
    match goal with |- obind ?m _ = _ -> _ => destruct m as [x| |]; cbn [obind]; [|done..]; try destruct x; by intros [= <-] end.
  destruct (try_recv_from_pipeline _ _ _ _) as [[[[[sock pl] rr] buf'] r]| |] eqn:E; cbn [obind]; [|done..].
  destruct (turn_of_try _ _ _ _ _ _ _ _ _ E) as (_ & Hc & _).
  destruct r as [[n src]|]; cbn [obind]; [destruct (slice _ _ _); cbn [obind]; [|done..]|]; by intros [= <-].
Qed.

Lemma run_counters : forall es s s', pipe_run s es = Done s' -> s_connection_state (app_socket s') = s_connection_state (app_socket s).
Proof.
  induction es as [|e es IH]; intros s s'; cbn; [by intros [= <-]|].
  destruct (pipe_step s e) as [s1| |] eqn:E; cbn [obind]; [|done..]. intros H. rewrite (IH _ _ H). by apply (step_counters s e).
Qed.

Context `{!BoundedQueueLaws Q}.

(** A turn keeps the invariant of the pipeline. *)
Lemma turn_ok b s L buf :
  sys_inv b s L -> b + 1 < 2 ^ 61 -> room (app_socket s) buf ->
  exists sock pl rr buf' t, pipeline_turn (app_socket s) (pipe s) (app_rr s) buf = Done (sock, pl, rr, buf', t) /\
    length buf' = length buf /\ pl_fixed pl = pl_fixed (pipe s) /\
    (turn_answer t = None -> s_connection_state sock = s_connection_state (app_socket s)) /\
    exists got L', sys_inv (b + 1) (s <| pipe := pl |> <| app_socket := sock |> <| app_rr := rr |> <| answers := answers s ++ got |>) L' /\
      match t with Got n src => exists d, slice buf' 0 (Z.to_nat n) = Done d /\ got = [(d, src)] | _ => got = [] end.
Proof.
  intros [Hp Hl Hq Ha] Hb Hr.
  destruct (try_recv_ok b _ _ L _ (app_socket s) (app_rr s) buf Hp Hq Hb) as (s0 & pl & rr & buf' & r & L' & E & Hok & Hq' & Hfx & Hans).
  destruct (turn_of_try _ _ _ _ _ _ _ _ _ E) as (Hlen & Hc & Ht). destruct (Ht Hr) as (sock & t & Et & <- & Eq & Hs).
  destruct (fixed_port _ _ Hfx) as (E1 & _ & _ & E4).
  exists sock, pl, rr, buf', t. split_and!; [done..| |].
  { intros Hn. by rewrite (Hs Hn). }
  assert (forall got, Forall (from_wire (delivered s) (pl_port (pipe s))) got ->
    sys_inv (b + 1) (s <| pipe := pl |> <| app_socket := sock |> <| app_rr := rr |> <| answers := answers s ++ got |>) L') as Hstep.
  { intros got Hg. constructor; unfold hand_refs, queue_ok in *; rsimpl; rewrite ?E1, ?Eq; try done; [lia|]. by apply Forall_app. }
  destruct t as [n src| |]; [|exists [], L'; split; [by apply Hstep|done]..].
  destruct (Hans n src eq_refl) as (d & Hd & Hw). exists [(d, src)], L'. split; [apply Hstep; by constructor|by exists d].
Qed.

(** The events of the other threads during turns [i] to [i + k]. *)
Definition meanwhile (others : nat -> list pipe_event) (i k : nat) : list pipe_event := mjoin (others <$> seq i (S k)).

(** The state when the loop returns. *)
Definition received (n : nat) (clock : nat -> Z) (dl : Z) (s : PipeSys Q) (buf : list Z) (es : list pipe_event)
    (s' : PipeSys Q) (buf' : list Z) (r : result (Z * SocketAddr) ErrorKind) : Prop :=
  (exists b L, sys_inv b s' L) /\ pl_fixed (pipe s') = pl_fixed (pipe s) /\
  delivered s' ⊆ delivered s ++ (take (Z.to_nat (frame_size (pl_pool (pipe s)))) <$> nic_frames es) /\
  length buf' = length buf /\
  match r with
  | Ok (k, src) => exists d, slice buf' 0 (Z.to_nat k) = Done d /\ (d, src) ∈ answers s'
  | Err e => e = KWouldBlock /\ exists j, (j <= n)%nat /\ dl <= clock j
  end.

(** What [received] says of a later start holds of an earlier one. *)
Lemma received_before n clock dl s s1 s' buf buf1 buf' es es' r :
  pl_fixed (pipe s1) = pl_fixed (pipe s) -> length buf1 = length buf ->
  delivered s1 ⊆ delivered s ++ (take (Z.to_nat (frame_size (pl_pool (pipe s)))) <$> nic_frames es) ->
  received n clock dl s1 buf1 es' s' buf' r -> received n clock dl s buf (es ++ es') s' buf' r.
Proof.
  intros Hf Hl Hd (Hi & Hf' & Hd' & Hl' & Hr). split; [done|]. split; [congruence|]. split; [|split; [congruence|done]].
  destruct (fixed_port _ _ Hf) as (_ & Es & _ & _). rewrite Es in Hd'. unfold nic_frames in *. rewrite fmap_app, join_app, fmap_app.
  intros x Hx. specialize (Hd' x Hx). specialize (Hd x). rewrite !elem_of_app in *. tauto.
Qed.

Lemma recv_loop_ok others clock dl n : (forall i, nic_bytes (others i)) ->
  forall k i ep s b L buf, (i + k = n)%nat -> sys_inv b s L ->
  b + Z.of_nat (S k + length (meanwhile others i k)) < 2 ^ 61 -> 0 <= ep -> ep + Z.of_nat k < 2 ^ 32 -> dl <= clock n ->
  room (app_socket s) buf ->
  exists s' ws buf' r, recv_from_pipeline (S k) i ep s clock others (Some dl) buf = Done (s', ws, buf', r) /\
    received n clock dl s buf (meanwhile others i k) s' buf' r.
Proof.
  intros Hes k. induction k as [k IH] using lt_wf_ind; intros i ep s b L buf Hi Hinv Hb He0 He Hdl Hroom.
  assert (meanwhile others i k = others i ++ mjoin (others <$> seq (S i) k)) as E0 by done. rewrite E0, length_app in Hb.
  destruct (pipe_run_ok (others i) b s L Hinv ltac:(lia) (Hes i)) as (s1 & L1 & E1 & Hinv1 & Hf1 & Hd1). fold (nic_frames (others i)) in Hd1.
  pose proof (run_counters _ _ _ E1) as Hc1. cbn [recv_from_pipeline]. rewrite E1. cbn [obind]. rewrite E0.
  destruct (Z.leb_spec dl (clock i)) as [Hlt|Hlt].
  { eexists _, _, _, _. split; [reflexivity|]. apply (received_before _ _ _ s s1 _ buf buf); [done..|].
    split; [by eexists _, _|]. split_and!; [done|apply subseteq_more|done|done|exists i; split; [lia|done]]. }
  destruct k as [|k]; [replace i with n in Hlt by lia; lia|].
  assert (mjoin (others <$> seq (S i) (S k)) = meanwhile others (S i) k) as E2 by done. rewrite E2 in *.
  assert (room (app_socket s1) buf) as Hroom1 by (unfold room in *; by rewrite Hc1).
  destruct (turn_ok _ s1 L1 buf Hinv1 ltac:(lia) Hroom1) as (sock & pl & rr & buf' & t & -> & Hl & Hfx & Hc & got & L2 & Hinv2 & Ht).
  cbn [obind]. cbv zeta. set (s2 := s1 <| pipe := pl |> <| app_socket := sock |> <| app_rr := rr |>) in *.
  assert (forall ep, turn_answer t = None -> got = [] -> 0 <= ep -> ep + Z.of_nat k < 2 ^ 32 ->
    exists s' ws buf2 r, recv_from_pipeline (S k) (S i) ep s2 clock others (Some dl) buf' = Done (s', ws, buf2, r) /\
      received n clock dl s buf (others i ++ meanwhile others (S i) k) s' buf2 r) as Hnext.
  { intros ep' Ht' -> Hep Hep'. assert (s2 <| answers := answers s1 ++ [] |> = s2) as Es2 by (rewrite app_nil_r; subst s2; by destruct s1).
    rewrite Es2 in Hinv2.
    destruct (IH k ltac:(lia) (S i) ep' s2 _ L2 buf' ltac:(lia) Hinv2) as (s' & ws & b' & r & E & Hrec); [lia..| |].
    { subst s2. unfold room in *. rsimpl. rewrite Hc by done. unfold zlen in *. by rewrite Hl. }
    eexists _, _, _, _. split; [exact E|]. apply (received_before _ _ _ s s2 _ buf buf'); [by subst s2; rsimpl; rewrite Hfx|done|subst s2; by rsimpl|done]. }
  destruct t as [m src| |].
  - destruct Ht as (d & Hd & ->). rewrite Hd. cbn [obind]. eexists _, _, _, _. split; [reflexivity|].
    apply (received_before _ _ _ s s1 _ buf buf); [done..|]. split; [by eexists _, L2|]. subst s2.
    split_and!; [by rsimpl|rsimpl; apply subseteq_more|done|]. exists d. split; [done|]. rsimpl. apply elem_of_app. right. by left.
  - apply Hnext; [done..|lia|lia].
  - unfold adaptive_wait. rewrite (proj2 (Z.leb_gt _ _)) by lia.
    destruct (Hnext (ep + 1) eq_refl Ht ltac:(lia) ltac:(lia)) as (s' & ws & b' & r & E & Hrec).
    destruct (_ <=? SPIN_ITERS); [|destruct (_ <=? SPIN_ITERS + _)]; cbn [obind]; rewrite E; by eexists _, _, _, _.
Qed.

(** A turn on empty rings. *)
Lemma empty_turn b (pl : Pipeline Q) sock rr buf :
  Forall (ring_ok b) (pl_app_rings pl) -> b < 2 ^ 61 -> app_packets pl = [] -> s_has_buffered_packets sock = false ->
  exists rings rr', pipeline_turn sock pl rr buf = Done (sock, pl <| pl_app_rings := rings |>, rr', buf, Nothing) /\
    Forall (ring_ok b) rings /\ ring_items rings = [].
Proof.
  intros Hr Hb Hi Hs. unfold pipeline_turn. rewrite Hs. cbn [obind].
  destruct (dequeue_app_rings_law b (pl_app_rings pl) rr Hr Hb) as (rings & rr' & o & -> & Hr' & _ & Hp). cbn [obind].
  unfold app_packets in Hi. rewrite Hi in Hp. symmetry in Hp. apply Permutation_nil_l in Hp. symmetry in Hp. apply app_eq_nil in Hp as [Ho He].
  destruct o; [done|]. by exists rings, rr'.
Qed.

Lemma idle_loop_overflows b clock buf : b < 2 ^ 61 -> forall fuel i ep (s : PipeSys Q),
  Forall (ring_ok b) (pl_app_rings (pipe s)) -> app_packets (pipe s) = [] -> s_has_buffered_packets (app_socket s) = false ->
  0 <= ep < 2 ^ 32 -> 2 ^ 32 <= ep + Z.of_nat fuel ->
  recv_from_pipeline fuel i ep s clock (fun _ => []) None buf = Panic.
Proof.
  intros Hb. induction fuel as [|fuel IH]; intros i ep s Hr Hi Hs He Hf; [lia|]. cbn [recv_from_pipeline pipe_run obind].
  destruct (empty_turn b (pipe s) (app_socket s) (app_rr s) buf Hr Hb Hi Hs) as (rings & rr' & -> & Hr' & Hi'). cbn [obind]. cbv zeta.
  unfold adaptive_wait. destruct (Z.leb_spec (2 ^ 32) (ep + 1)); [done|].
  assert (forall s' : PipeSys Q, pipe s' = (pipe s) <| pl_app_rings := rings |> -> app_socket s' = app_socket s ->
    recv_from_pipeline fuel (S i) (ep + 1) s' clock (fun _ => []) None buf = Panic) as Hnext.
  { intros s' E1 E2. apply IH; rewrite ?E1, ?E2; unfold app_packets in *; rsimpl; try done; lia. }
  destruct (_ <=? SPIN_ITERS); [|destruct (_ <=? SPIN_ITERS + _)]; cbn [obind]; rewrite Hnext; done.
Qed.

End Receive.

(** ** Theorems *)

(** C14: A blocking receive with a read timeout always returns, beside whatever the other threads do: in a pipeline that
    [start_pipeline] built, after any events [es] and with any events of the dispatcher, the workers and other
    receivers between its polls, the call ends by the first poll at or after its deadline.  It returns a payload (or the
    start of it that fits the buffer) with its source, of a frame that the NIC delivered, valid for the
    socket's port; or [WouldBlock], and then the deadline has passed.  No frame is lost or used twice. *)
Theorem blocking_receive_completes cap size config pl sock es others clock dl n buf :
  build_pipeline cap size config = Some pl -> cap <= 2 ^ 31 -> size <= 65535 -> packets (s_queue sock) = [] -> room sock buf ->
  nic_bytes es -> (forall i, nic_bytes (others i)) ->
  Z.of_nat (length es + (S n + length (meanwhile others 0 n))) < 2 ^ 61 -> Z.of_nat n < 2 ^ 32 -> dl <= clock n ->
  exists s s' ws buf' r free, pipe_run (pipe_init pl sock) es = Done s /\
    recv_from_pipeline (S n) 0 0 s clock others (Some dl) buf = Done (s', ws, buf', r) /\ length buf' = length buf /\
    free_is (pl_pool (pipe s')) free /\
    free ++ (pool_idx <$> rx_refs s' ++ mjoin (batches s') ++ worker_refs (pipe s') ++ (ap_frame_ref <$> app_packets (pipe s')))
      ≡ₚ seqZ 0 (pool_capacity (pool_new cap size)) /\
    match r with
    | Ok (k, src) => exists d f payload, slice buf' 0 (Z.to_nat k) = Done d /\ f ∈ nic_frames (es ++ meanwhile others 0 n) /\
        carries_datagram (pc_local_port config) (take (Z.to_nat (frame_size (pool_new cap size))) f) payload src /\
        d `prefix_of` payload
    | Err e => e = KWouldBlock /\ exists j, (j <= n)%nat /\ dl <= clock j
    end.
Proof.
  intros Hb Hc Hs Hq Hroom Hes Hot Hn Hn' Hdl. destruct (build_pipeline_ok cap size config pl sock Hb Hc Hs Hq) as (Hinv & Epo & Ep & _).
  destruct (pipe_run_ok es 0 _ _ Hinv ltac:(lia) Hes) as (s & L & E & Hinv1 & Hfx & Hd). pose proof (run_counters _ _ _ E) as Hcs.
  destruct (recv_loop_ok others clock dl n Hot n 0 0 s _ L buf eq_refl Hinv1) as (s' & ws & buf' & r & Er & Hrec); [lia..|unfold room in *; by rewrite Hcs|].
  apply (received_before _ _ _ (pipe_init pl sock) s _ buf buf _ es) in Hrec; [|done..].
  destruct Hrec as ((b' & L' & [Hp _ _ Ha]) & Hf & Hd' & Hl & Hr). destruct (fixed_port _ _ Hf) as (E1 & _ & E3 & _).
  exists s, s', ws, buf', r, L'. split_and!; [done..|apply Hp| |].
  - rewrite <- Ep. change (pl_pool pl) with (pl_pool (pipe (pipe_init pl sock))). rewrite <- E3, <- (po_perm _ _ _ _ _ Hp).
    unfold hand_refs, ring_refs. by rewrite <- !app_assoc.
  - destruct r as [[k src]|e]; [|done]. destruct Hr as (d & Hsl & Hin). rewrite Forall_forall in Ha.
    destruct (Ha _ Hin) as (g & payload & Hg & Hcar & Hpre). rewrite E1 in Hcar. change (pl_port (pipe (pipe_init pl sock))) with (pl_port pl) in Hcar.
    apply Hd' in Hg. cbn [app delivered pipe_init pipe] in Hg. rewrite Ep in Hg. apply list_elem_of_fmap in Hg as (f & -> & Hf').
    exists d, f, payload. rewrite <- Epo. done.
Qed.

(** A receive without a timeout on a socket that stays idle panics (where overflow is checked) at its 2^32nd empty poll: [empty_polls] counts
    on while the loop sleeps. *)
Theorem idle_receive_overflows cap size config pl sock clock buf fuel :
  build_pipeline cap size config = Some pl -> cap <= 2 ^ 31 -> s_has_buffered_packets sock = false -> 2 ^ 32 <= Z.of_nat fuel ->
  recv_from_pipeline fuel 0 0 (pipe_init pl sock) clock (fun _ => []) None buf = Panic.
Proof.
  unfold build_pipeline. destruct (is_run_to_completion _); [done|]. intros [= <-] Hc Hs Hf.
  apply (idle_loop_overflows 0); try done; [apply fresh_rings_ok; lia|apply ring_items_empty; lia].
Qed.

(** ** Samples *)

(** A receiver that polls every 10 ticks; the datagram goes through the pipeline before its third poll. *)
Definition sample_others (i : nat) : list pipe_event :=
  match i with
  | 1%nat => [NicBurst [sample_frame host_a [1; 2; 3]]; Dispatch 1]
  | 2%nat => [WorkerPoll 0; WorkerFrame 0 2]
  | _ => []
  end.

Lemma blocking_receive_completes_witness :
  exists s s' ws r free, pipe_run (pipe_init sample_pipeline sample_socket) [] = Done s /\
    recv_from_pipeline 9 0 0 s (fun i => 10 * Z.of_nat i) sample_others (Some 75) [0; 0] = Done (s', ws, [1; 2], r) /\
    ws = [Spin; Spin] /\ r = Ok (2, V4 host_a 7000) /\ free_is (pl_pool (pipe s')) free /\ free ≡ₚ [0; 1; 2; 3].
Proof.
  destruct (blocking_receive_completes 4 64 sample_config sample_pipeline sample_socket [] sample_others (fun i => 10 * Z.of_nat i) 75 8 [0; 0])
    as (s & s' & ws & buf' & r & free & E1 & E2 & Hl & Hf & Hp & Hr);
    [reflexivity|lia|lia|reflexivity|exact I|constructor| |vm_compute; reflexivity|lia|lia|].
  { intros [|[|[|i]]]; [apply (bool_decide_unpack (nic_bytes _)); vm_compute; exact I..|constructor]. }
  revert E1 E2 Hf Hp. intros [= <-]. intros E2 Hf Hp.
  assert (buf' = [1; 2] /\ ws = [Spin; Spin] /\ r = Ok (2, V4 host_a 7000) /\ worker_refs (pipe s') = [] /\ app_packets (pipe s') = [] /\ rx_refs s' = [] /\ mjoin (batches s') = [])
    as (H0 & H1 & H2 & H3 & H4 & H5 & H6) by (revert E2; vm_compute; intros [= <- <- <- <-]; done).
  rewrite H3, H4, H5, H6 in Hp. cbn in Hp. rewrite app_nil_r in Hp. subst buf'.
  exists (pipe_init sample_pipeline sample_socket), s', ws, r, free. split; [reflexivity|]. split; [exact E2|]. split; [exact H1|]. split; [exact H2|]. split; [exact Hf|exact Hp].
Defined.

Lemma idle_receive_overflows_witness :
  recv_from_pipeline (Z.to_nat (2 ^ 32)) 0 0 (pipe_init sample_pipeline sample_socket) (fun _ => 0) (fun _ => []) None [0; 0] = Panic.
Proof.
  refine (idle_receive_overflows 4 64 sample_config sample_pipeline sample_socket (fun _ => 0) [0; 0] (Z.to_nat (2 ^ 32)) eq_refl _ eq_refl _); [lia|].
  apply Z.eq_le_incl, eq_sym, Z2Nat.id. lia.
Defined.
