(* ===== verification/ProcTables.v ===== *)
(** * The kernel's ARP and route tables

    Three readers of [/proc/net/arp] and two of [/proc/net/route]: the detection of Routing, the seeding of the ARP cache
    (dpdk-stdlib-udp/src/lib.rs) and the look-up of the gateway's hardware address
    (dpdk-stdlib-quic/src/provider.rs).  The files' contents are arguments, [None] when they cannot be read.  The theorems are about what
    the kernel prints, whose formats are given here (arp_format_neigh_entry and fib_route_seq_show). *)

From stdpp Require Import base numbers list gmap.
From Stdlib Require Import ZArith Lia.
From Stdlib Require Strings.String Strings.Ascii.
From S2P Require Import Prelude State Buffer CodecFrames UdpFrame Tunnel Routing NeighborCache.

Import String.StringSyntax.

#[local] Open Scope Z_scope.

Definition str (s : String.string) : text := (fun c => Z.of_N (Ascii.N_of_ascii c)) <$> String.list_ascii_of_string s.

#[local] Arguments str s%_string_scope.

(** ** Readers *)

(** [split(':')], [filter_map(from_str_radix)], and six of them. *)
Definition mac_parts (s : text) : list Z := omap (from_str_radix 16 255) (split_on (Z.eqb 58) s []).

Definition six_parts (parts : list Z) : option Mac :=
  match parts with [a; b; c; d; e; f] => Some (MkMac a b c d e f) | _ => None end.

(** The body of the loop of [seed_arp_cache_from_kernel]; insertion [i] happens at [clock i]. *)
Definition seed_line (c : ArpCache) (now : Z) (line : text) : ArpCache :=
  match split_whitespace line with
  | f0 :: _ :: flags :: mac_str :: _ =>
      if bool_decide (flags = str "0x0") then c
      else match parse_ipv4 f0 with
           | None => c
           | Some ip => match six_parts (mac_parts mac_str) with Some mac => cache_insert c now ip mac | None => c end
           end
  | _ => c
  end.

Fixpoint seed_lines (c : ArpCache) (clock : nat -> Z) (i : nat) (ls : list text) : ArpCache :=
  match ls with [] => c | line :: ls => seed_lines (seed_line c (clock i) line) clock (S i) ls end.

Definition seed_arp_cache_from_kernel (c : ArpCache) (clock : nat -> Z) (file : option text) : ArpCache :=
  match file with None => c | Some content => seed_lines c clock 0 (drop 1 (lines content)) end.

(** [Display] of a [u8] and of an [Ipv4Addr]. *)
Fixpoint dec (fuel : nat) (v : Z) : text :=
  if v <? 10 then [48 + v]
  else match fuel with O => [] | S fuel => dec fuel (v / 10) ++ [48 + v mod 10] end.

Definition ip_to_string (ip : Ipv4Addr) : text :=
  dec 2 (oct0 ip) ++ 46 :: dec 2 (oct1 ip) ++ 46 :: dec 2 (oct2 ip) ++ 46 :: dec 2 (oct3 ip).

(** [lookup_arp_entry]. *)
Fixpoint find_arp (ip_str : text) (ls : list text) : option Mac :=
  match ls with
  | [] => None
  | line :: ls =>
      match split_whitespace line with
      | f0 :: _ :: f2 :: f3 :: _ =>
          if bool_decide (f0 = ip_str) && negb (bool_decide (f2 = str "0x0"))
          then match six_parts (mac_parts f3) with Some mac => Some mac | None => find_arp ip_str ls end
          else find_arp ip_str ls
      | _ => find_arp ip_str ls
      end
  end.

Definition lookup_arp_entry (file : option text) (ip : Ipv4Addr) : option Mac :=
  match file with None => None | Some content => find_arp (ip_to_string ip) (drop 1 (lines content)) end.

(** [read_default_gateway]. *)
Fixpoint find_gateway (ls : list text) : option Ipv4Addr :=
  match ls with
  | [] => None
  | line :: ls =>
      match split_whitespace line with
      | _ :: f1 :: f2 :: _ =>
          if bool_decide (f1 = str "00000000")
          then le_hex_to_ipv4 <$> from_str_radix 16 U32_MAX f2
          else find_gateway ls
      | _ => find_gateway ls
      end
  end.

Definition read_default_gateway (file : option text) : option Ipv4Addr :=
  match file with None => None | Some content => find_gateway (drop 1 (lines content)) end.

(** [resolve_gateway_mac]. *)
Definition zero_mac : Mac := MkMac 0 0 0 0 0 0.

Definition resolve_gateway_mac (explicit : option Mac) (route_file arp_file : option text) : Mac :=
  match explicit with
  | Some mac => mac
  | None =>
      match read_default_gateway route_file with
      | Some gw_ip => default zero_mac (lookup_arp_entry arp_file gw_ip)
      | None => zero_mac
      end
  end.

(** ** What the kernel prints *)

Definition pad (n : nat) (t : text) : text := t ++ replicate (n - length t) 32.

(** A line of [/proc/net/arp]. *)
Record arp_entry := MkArpEntry { ae_ip : Ipv4Addr; ae_hw : Z; ae_flags : Z; ae_mac : Mac; ae_device : text }.

Definition lower (v : Z) : Z := if v <? 10 then 48 + v else 87 + v.
Definition upper (v : Z) : Z := if v <? 10 then 48 + v else 55 + v.

(** [%x] and [%02x] of a byte. *)
Definition hex (v : Z) : text := if v <? 16 then [lower v] else [lower (v / 16); lower (v mod 16)].
Definition hex2 (v : Z) : text := [lower (v / 16); lower (v mod 16)].

Definition mac_text (m : Mac) : text :=
  hex2 (mac0 m) ++ 58 :: hex2 (mac1 m) ++ 58 :: hex2 (mac2 m) ++ 58 :: hex2 (mac3 m) ++ 58 :: hex2 (mac4 m) ++ 58 :: hex2 (mac5 m).

Definition flag_text (v : Z) : text := str "0x" ++ hex v.

Definition arp_row (e : arp_entry) : text :=
  pad 16 (ip_to_string (ae_ip e)) ++ str " " ++ pad 12 (flag_text (ae_hw e)) ++ pad 12 (flag_text (ae_flags e)) ++
  pad 17 (mac_text (ae_mac e)) ++ str "     " ++ str "*" ++ str "        " ++ ae_device e.

Fixpoint unlines (ls : list text) : text := match ls with [] => [] | l :: ls => l ++ 10 :: unlines ls end.

Definition table (header : String.string) (rows : list text) : text := unlines (str header :: rows).

#[local] Arguments table header%_string_scope rows.

Definition arp_table (es : list arp_entry) : text :=
  table "IP address       HW type     Flags       HW address            Mask     Device" (arp_row <$> es).

(** [%08X]. *)
Fixpoint hexn (n : nat) (v : Z) : text := match n with O => [] | S n => hexn n (v / 16) ++ [upper (v mod 16)] end.

(** A line of [/proc/net/route]; the columns no reader looks at are texts. *)
Record route_entry := MkRouteEntry {
  re_iface : text; re_destination : Z; re_gateway : Z; re_flags : text; re_refcnt : text; re_use : text; re_metric : text;
  re_mask : Z; re_mtu : Z; re_window : text; re_irtt : text }.

Definition tab : text := [9].

Definition route_row (e : route_entry) : text :=
  pad 127 (re_iface e ++ tab ++ hexn 8 (re_destination e) ++ tab ++ hexn 8 (re_gateway e) ++ tab ++ re_flags e ++ tab ++ re_refcnt e ++ tab ++
           re_use e ++ tab ++ re_metric e ++ tab ++ hexn 8 (re_mask e) ++ tab ++ dec 4 (re_mtu e) ++ tab ++ re_window e ++ tab ++ re_irtt e).

Definition route_table (es : list route_entry) : text :=
  table "Iface	Destination	Gateway 	Flags	RefCnt	Use	Metric	Mask		MTU	Window	IRTT" (route_row <$> es).

(** ** Words and lines *)

Definition token (t : text) : Prop := t <> [] /\ Forall (fun c => is_space c = false) t.

Definition blank (t : text) : Prop := Forall (fun c => is_space c = true) t.

Lemma split_on_part sep t : Forall (fun c => sep c = false) t -> forall rest cur, split_on sep (t ++ rest) cur = split_on sep rest (cur ++ t).
Proof.
  induction 1 as [|c t Hc Ht IH]; intros rest cur; cbn; [by rewrite app_nil_r|]. rewrite Hc, IH. by rewrite <- app_assoc.
Qed.

Lemma words_blank s rest : blank s -> split_whitespace (s ++ rest) = split_whitespace rest.
Proof. induction 1 as [|c s Hc Hs IH]; [done|]. unfold split_whitespace in *. cbn. by rewrite Hc. Qed.

Lemma words_token t sep rest : token t -> blank sep -> sep <> [] -> split_whitespace (t ++ sep ++ rest) = t :: split_whitespace rest.
Proof.
  intros [Hne Ht] Hs Hsep. destruct sep as [|c sep]; [done|]. apply Forall_cons_1 in Hs as [Hc Hs]. unfold split_whitespace at 1.
  rewrite split_on_part by done. cbn [split_on app]. rewrite Hc. cbn [List.filter]. rewrite (bool_decide_false (t = [])) by done. cbn [negb]. f_equal. by apply words_blank.
Qed.

Lemma words_last t : token t -> split_whitespace t = [t].
Proof.
  intros [Hne Ht]. unfold split_whitespace. rewrite <- (app_nil_r t) at 1. rewrite split_on_part by done.
  cbn [split_on app List.filter]. by rewrite (bool_decide_false (t = [])).
Qed.

Lemma blank_spaces n : blank (replicate n 32).
Proof. by apply Forall_replicate. Qed.

Lemma words_pad n t rest : token t -> (length t < n)%nat -> split_whitespace (pad n t ++ rest) = t :: split_whitespace rest.
Proof.
  intros Ht Hn. unfold pad. rewrite <- app_assoc. apply words_token; [done|apply blank_spaces|]. destruct (n - length t)%nat eqn:E; [lia|done].
Qed.

Lemma token_app a b : token a -> Forall (fun c => is_space c = false) b -> token (a ++ b).
Proof. intros [Hn Ha] Hb. split; [by destruct a|by apply Forall_app]. Qed.

(** A line: no newline and no carriage return. *)
Definition plain (t : text) : Prop := Forall (fun c => c <> 10 /\ c <> 13) t.

Lemma token_plain t : Forall (fun c => is_space c = false) t -> plain t.
Proof. apply List.Forall_impl. intros c Hc. split; intros ->; done. Qed.

Lemma split_lines (ls : list text) : Forall plain ls -> split_on (Z.eqb 10) (unlines ls) [] = ls ++ [[]].
Proof.
  induction 1 as [|l ls Hl Hls IH]; [done|]. cbn [unlines]. rewrite split_on_part; [cbn; by rewrite IH|].
  eapply List.Forall_impl; [|exact Hl]. intros c [Hc _]. apply Z.eqb_neq. congruence.
Qed.

Lemma strip_plain l : plain l -> strip_cr l = l.
Proof.
  intros Hl. unfold strip_cr. destruct (Z.eqb_spec (List.last l 0) 13) as [Ec|]; [|done]. exfalso. destruct l as [|c l]; [done|].
  unfold plain in Hl. rewrite List.Forall_forall in Hl. destruct (Hl 13) as [_ []]; [|done]. rewrite <- Ec.
  destruct (@exists_last _ (c :: l)) as (l' & x & ->); [done|]. rewrite last_last. apply in_or_app. right. by left.
Qed.

Lemma lines_of (ls : list text) : Forall plain ls -> lines (unlines ls) = ls.
Proof.
  intros H. unfold lines. rewrite split_lines by done. rewrite last_last, bool_decide_true by done. rewrite removelast_last.
  induction H as [|l ls Hl Hls IH]; [done|]. rewrite fmap_cons. f_equal; [by apply strip_plain|done].
Qed.

(** ** Numbers *)

Lemma all_below (P : Z -> bool) n v : forallb P (seqZ 0 n) = true -> 0 <= v < n -> P v = true.
Proof. intros H Hv. rewrite List.forallb_forall in H. apply H. apply list_elem_of_In, elem_of_seqZ. lia. Qed.

Definition dark (t : text) : bool := forallb (fun c => negb (is_space c)) t.

Lemma dark_spec t : dark t = true -> Forall (fun c => is_space c = false) t.
Proof. unfold dark. rewrite List.forallb_forall, List.Forall_forall. intros H c Hc. by apply negb_true_iff, H. Qed.

Lemma dark_token t : dark t = true -> t <> [] -> token t.
Proof. intros H Hn. split; [done|by apply dark_spec]. Qed.

Lemma dark_join c a b : is_space c = false -> dark (a ++ c :: b) = dark a && dark b.
Proof. intros Hc. unfold dark. rewrite forallb_app. cbn. by rewrite Hc. Qed.

(** No character of [t] is [c]. *)
Definition lacks (c : Z) (t : text) : bool := forallb (fun x => negb (c =? x)) t.

Lemma lacks_part c t rest cur : lacks c t = true -> split_on (Z.eqb c) (t ++ rest) cur = split_on (Z.eqb c) rest (cur ++ t).
Proof.
  intros H. apply split_on_part. unfold lacks in H. rewrite List.forallb_forall in H. rewrite List.Forall_forall.
  intros x Hx. by apply negb_true_iff, H.
Qed.

Lemma lacks_last c t : lacks c t = true -> split_on (Z.eqb c) t [] = [t].
Proof. intros H. rewrite <- (app_nil_r t) at 1. by rewrite lacks_part. Qed.

Lemma octet_text v : is_u8 v ->
  parse_octet (dec 2 v) = Some v /\ lacks 46 (dec 2 v) = true /\ dark (dec 2 v) = true /\ (1 <= length (dec 2 v) <= 3)%nat.
Proof.
  intros Hv. pose proof (all_below (fun v => bool_decide (parse_octet (dec 2 v) = Some v) && lacks 46 (dec 2 v) && dark (dec 2 v) &&
    (1 <=? length (dec 2 v))%nat && (length (dec 2 v) <=? 3)%nat) 256 v ltac:(by vm_compute) Hv) as H. cbv beta in H.
  rewrite !andb_true_iff, bool_decide_eq_true, !Nat.leb_le in H. destruct H as ((((H1 & H2) & H3) & H4) & H5). done.
Qed.

Lemma ip_text ip : wf_ipv4 ip ->
  parse_ipv4 (ip_to_string ip) = Some ip /\ token (ip_to_string ip) /\ (length (ip_to_string ip) < 16)%nat.
Proof.
  destruct ip as [a b c d]. intros (Ha & Hb & Hc & Hd). cbn [oct0 oct1 oct2 oct3] in *. unfold parse_ipv4, ip_to_string. cbn [oct0 oct1 oct2 oct3].
  destruct (octet_text a Ha) as (Pa & La & Da & Na), (octet_text b Hb) as (Pb & Lb & Db & Nb), (octet_text c Hc) as (Pc & Lc & Dc & Nc),
    (octet_text d Hd) as (Pd & Ld & Dd & Nd). split_and!.
  - rewrite lacks_part by done. cbn [split_on app Z.eqb Pos.eqb]. rewrite lacks_part by done. cbn [split_on app Z.eqb Pos.eqb].
    rewrite lacks_part by done. cbn [split_on app Z.eqb Pos.eqb]. rewrite lacks_last by done. by rewrite Pa, Pb, Pc, Pd.
  - apply dark_token; [|destruct (dec 2 a); [cbn in Na; lia|done]].
    rewrite !dark_join by done. by rewrite Da, Db, Dc, Dd.
  - repeat (rewrite length_app; cbn [length]). lia.
Qed.

Lemma ip_text_inj a b : wf_ipv4 a -> wf_ipv4 b -> ip_to_string a = ip_to_string b -> a = b.
Proof. intros Ha Hb E. destruct (ip_text a Ha) as [Pa _], (ip_text b Hb) as [Pb _]. congruence. Qed.

Lemma hex2_text v : is_u8 v -> from_str_radix 16 255 (hex2 v) = Some v /\ lacks 58 (hex2 v) = true /\ dark (hex2 v) = true.
Proof.
  intros Hv. pose proof (all_below (fun v => bool_decide (from_str_radix 16 255 (hex2 v) = Some v) && lacks 58 (hex2 v) && dark (hex2 v)) 256 v
    ltac:(by vm_compute) Hv) as H. cbv beta in H. rewrite !andb_true_iff, bool_decide_eq_true in H. tauto.
Qed.

Lemma mac_text_ok m : wf_mac m ->
  split_on (Z.eqb 58) (mac_text m) [] = hex2 <$> mac_bytes m /\ mapM (from_str_radix 16 255) (hex2 <$> mac_bytes m) = Some (mac_bytes m) /\
  mac_parts (mac_text m) = mac_bytes m /\ token (mac_text m).
Proof.
  destruct m as [a b c d e f]. unfold wf_mac, mac_bytes, mac_parts, mac_text. cbn [mac0 mac1 mac2 mac3 mac4 mac5]. intros H.
  repeat match type of H with Forall _ (_ :: _) => apply Forall_cons_1 in H as [? H] end.
  repeat match goal with H : is_u8 ?v |- _ => destruct (hex2_text v H) as (? & ? & ?); clear H end.
  assert (forall s rest, lacks 58 s = true -> split_on (Z.eqb 58) (s ++ 58 :: rest) [] = s :: split_on (Z.eqb 58) rest []) as Hsp
    by (intros s rest Hs; rewrite lacks_part by done; reflexivity).
  assert (split_on (Z.eqb 58) (hex2 a ++ 58 :: hex2 b ++ 58 :: hex2 c ++ 58 :: hex2 d ++ 58 :: hex2 e ++ 58 :: hex2 f) [] =
    [hex2 a; hex2 b; hex2 c; hex2 d; hex2 e; hex2 f]) as Es by (rewrite !Hsp, lacks_last by done; reflexivity).
  rewrite Es. split_and!; [done| | |].
  - cbn [fmap list_fmap mapM]. repeat match goal with H : from_str_radix _ _ _ = _ |- _ => rewrite H; clear H end. done.
  - cbn [omap list_omap]. repeat match goal with H : from_str_radix _ _ _ = _ |- _ => rewrite H; clear H end. done.
  - apply dark_token; [|done]. rewrite !dark_join by done. repeat match goal with H : dark _ = true |- _ => rewrite H; clear H end. done.
Qed.

Lemma flag_text_ok v : is_u8 v -> token (flag_text v) /\ (length (flag_text v) < 12)%nat /\ (flag_text v = str "0x0" <-> v = 0).
Proof.
  intros Hv. pose proof (all_below (fun v => dark (flag_text v) && (length (flag_text v) <? 12)%nat &&
    Bool.eqb (bool_decide (flag_text v = str "0x0")) (v =? 0)) 256 v ltac:(by vm_compute) Hv) as H. cbv beta in H.
  rewrite !andb_true_iff, Nat.ltb_lt, Bool.eqb_true_iff in H. destruct H as [[H1 H2] H3]. split_and!; [by apply dark_token|done|].
  destruct (Z.eqb_spec v 0) as [E|E]; [rewrite bool_decide_eq_true in H3|rewrite bool_decide_eq_false in H3]; tauto.
Qed.

Lemma digits_app radix max s s' : forall acc, digits radix max acc (s ++ s') = match digits radix max acc s with Some v => digits radix max v s' | None => None end.
Proof. induction s as [|c s IH]; intros acc; cbn; [done|]. destruct (digit radix c); [|done]. case_match; [apply IH|done]. Qed.

Lemma upper_digit v : 0 <= v < 16 -> digit 16 (upper v) = Some v /\ is_space (upper v) = false /\ upper v <> 43.
Proof.
  intros Hv. pose proof (all_below (fun v => bool_decide (digit 16 (upper v) = Some v) && negb (is_space (upper v)) && negb (upper v =? 43)) 16 v
    ltac:(by vm_compute) Hv) as H. cbv beta in H. rewrite !andb_true_iff, bool_decide_eq_true, !negb_true_iff, Z.eqb_neq in H. tauto.
Qed.

Lemma hexn_digits n : forall v max, 0 <= v < 16 ^ Z.of_nat n -> v <= max -> digits 16 max 0 (hexn n v) = Some v.
Proof.
  induction n as [|n IH]; intros v max Hv Hm; cbn [hexn]; [cbn in *; f_equal; lia|]. rewrite Nat2Z.inj_succ, Z.pow_succ_r in Hv by lia.
  pose proof (Z.mod_pos_bound v 16). rewrite digits_app, IH by (try apply Z.div_lt_upper_bound; mod_lia).
  cbn [digits]. destruct (upper_digit (v mod 16)) as [-> _]; [lia|]. replace (v / 16 * 16 + v mod 16) with v by mod_lia.
  by rewrite (proj2 (Z.leb_le _ _)).
Qed.

Lemma hexn_chars n : forall v, 0 <= v -> Forall (fun c => is_space c = false /\ c <> 43) (hexn n v).
Proof.
  induction n as [|n IH]; intros v Hv; cbn [hexn]; [done|]. apply Forall_app. split; [apply IH; mod_lia|].
  apply Forall_singleton. apply upper_digit. mod_lia.
Qed.

(** A number without sign. *)
Lemma unsigned radix max s : s <> [] -> Forall (fun c => is_space c = false /\ c <> 43) s ->
  from_str_radix radix max s = digits radix max 0 s /\ token s.
Proof.
  intros Hn Hc. split.
  - unfold from_str_radix. destruct s as [|c s]; [done|]. apply Forall_cons_1 in Hc as [[_ Hc] _]. repeat (case_match; try done).
  - split; [done|]. eapply List.Forall_impl; [|exact Hc]. by intros c [].
Qed.

Lemma digit_dec v : 0 <= v < 10 -> digit 10 (48 + v) = Some v /\ is_space (48 + v) = false /\ 48 + v <> 43.
Proof.
  intros Hv. pose proof (all_below (fun v => bool_decide (digit 10 (48 + v) = Some v) && negb (is_space (48 + v))) 10 v
    ltac:(by vm_compute) Hv) as H. cbv beta in H. rewrite andb_true_iff, bool_decide_eq_true, negb_true_iff in H. split_and!; [tauto..|lia].
Qed.

Lemma dec_digits n : forall v max, 0 <= v < 10 ^ Z.of_nat (S n) -> v <= max ->
  digits 10 max 0 (dec n v) = Some v /\ dec n v <> [] /\ Forall (fun c => is_space c = false /\ c <> 43) (dec n v).
Proof.
  induction n as [|n IH]; intros v max Hv Hm.
  all: assert (v < 10 -> digits 10 max 0 [48 + v] = Some v /\ [48 + v] <> [] /\ Forall (fun c => is_space c = false /\ c <> 43) [48 + v]) as Hlast.
  1, 3: intros H10; destruct (digit_dec v ltac:(lia)) as (E1 & E2); cbn [digits]; rewrite E1; cbn [Z.add Z.mul];
    rewrite (proj2 (Z.leb_le _ _)) by lia; split_and!; [done|done|by apply Forall_singleton].
  all: cbn [dec]; destruct (Z.ltb_spec v 10) as [H10|H10]; [by apply Hlast|].
  - cbn in Hv. lia.
  - rewrite Nat2Z.inj_succ, Z.pow_succ_r in Hv by lia. destruct (IH (v / 10) max) as (E1 & E2 & E3); [|mod_lia|].
    { split; [mod_lia|]. apply Z.div_lt_upper_bound; lia. }
    destruct (digit_dec (v mod 10)) as (E4 & E5); [mod_lia|]. split_and!.
    + rewrite digits_app, E1. cbn [digits]. rewrite E4. replace (v / 10 * 10 + v mod 10) with v by mod_lia. by rewrite (proj2 (Z.leb_le _ _)).
    + by destruct (dec n (v / 10)).
    + apply Forall_app. split; [done|by apply Forall_singleton].
Qed.

Lemma mtu_text v : 0 <= v < 65536 -> from_str_radix 10 U16_MAX (dec 4 v) = Some v /\ token (dec 4 v).
Proof.
  intros Hv. destruct (dec_digits 4 v U16_MAX) as (E1 & E2 & E3); [cbn; lia|unfold U16_MAX; lia|].
  destruct (unsigned 10 U16_MAX _ E2 E3) as [E4 E5]. split; [congruence|done].
Qed.

Lemma word_text v : 0 <= v < 2 ^ 32 -> from_str_radix 16 U32_MAX (hexn 8 v) = Some v /\ token (hexn 8 v).
Proof.
  intros Hv. pose proof (hexn_digits 8 v U32_MAX ltac:(lia) ltac:(unfold U32_MAX; lia)) as Hd.
  destruct (unsigned 16 U32_MAX (hexn 8 v)) as [E1 E2]; [change (hexn 8 v) with (hexn 7 (v / 16) ++ [upper (v mod 16)]); by intros [_ ?]%app_eq_nil|apply hexn_chars; lia|]. split; [congruence|done].
Qed.

(** ** Rows *)

Record wf_arp_row (e : arp_entry) : Prop := {
  wa_ip : wf_ipv4 (ae_ip e); wa_hw : is_u8 (ae_hw e); wa_flags : is_u8 (ae_flags e); wa_mac : wf_mac (ae_mac e); wa_device : token (ae_device e) }.

Record wf_route_entry (e : route_entry) : Prop := {
  wr_tokens : Forall token [re_iface e; re_flags e; re_refcnt e; re_use e; re_metric e; re_window e; re_irtt e];
  wr_words : Forall (fun v => 0 <= v < 2 ^ 32) [re_destination e; re_gateway e; re_mask e];
  wr_mtu : 0 <= re_mtu e < 65536 }.

Lemma blank_plain t : forallb (fun c => (c =? 32) || (c =? 9)) t = true -> blank t /\ plain t.
Proof.
  rewrite List.forallb_forall. unfold blank, plain. rewrite !List.Forall_forall. intros H.
  split; intros c Hc; specialize (H c Hc); rewrite orb_true_iff, !Z.eqb_eq in H; destruct H as [-> | ->]; done.
Qed.

Lemma plain_pad n t : plain t -> plain (pad n t).
Proof. intros H. unfold pad, plain. apply Forall_app. split; [done|]. by apply Forall_replicate. Qed.

Lemma token_is_plain t : token t -> plain t.
Proof. intros [_ H]. by apply token_plain. Qed.

Lemma arp_row_ok e : wf_arp_row e ->
  split_whitespace (arp_row e) = [ip_to_string (ae_ip e); flag_text (ae_hw e); flag_text (ae_flags e); mac_text (ae_mac e); str "*"; ae_device e] /\
  plain (arp_row e).
Proof.
  intros [Hi Hh Hf Hm Hd]. destruct (ip_text _ Hi) as (_ & Ti & Li), (flag_text_ok _ Hh) as (Th & Lh & _), (flag_text_ok _ Hf) as (Tf & Lf & _),
    (mac_text_ok _ Hm) as (_ & _ & _ & Tm).
  assert (pad 17 (mac_text (ae_mac e)) = mac_text (ae_mac e)) as Ep by (unfold pad; apply app_nil_r).
  unfold arp_row. rewrite Ep. split.
  - rewrite words_pad by done. f_equal. rewrite words_blank by (by apply blank_plain). rewrite words_pad by done. f_equal.
    rewrite words_pad by done. f_equal. rewrite words_token; [|done|by apply blank_plain|done]. f_equal.
    rewrite words_token; [|by apply dark_token|by apply blank_plain|done]. f_equal. by apply words_last.
  - unfold plain in *. rewrite !Forall_app. split_and!; try (by apply blank_plain); try (by apply token_is_plain); try (by apply plain_pad, token_is_plain).
    by apply (token_plain (str "*")), dark_spec.
Qed.

Lemma route_row_ok e : wf_route_entry e ->
  split_whitespace (route_row e) = [re_iface e; hexn 8 (re_destination e); hexn 8 (re_gateway e); re_flags e; re_refcnt e; re_use e; re_metric e;
    hexn 8 (re_mask e); dec 4 (re_mtu e); re_window e; re_irtt e] /\ plain (route_row e).
Proof.
  intros [Ht Hw Hm]. repeat match goal with H : Forall _ (_ :: _) |- _ => apply Forall_cons_1 in H as [? H] end.
  repeat match goal with H : 0 <= ?v < 2 ^ 32 |- _ => destruct (word_text v H) as [_ ?]; clear H end. destruct (mtu_text _ Hm) as [_ ?].
  assert (blank tab /\ plain tab) as [Hb Hp] by (by apply blank_plain). split.
  - unfold route_row, pad. rewrite <- !app_assoc. rewrite !words_token by done. repeat f_equal.
    destruct (127 - _)%nat as [|k]; [rewrite app_nil_r; by apply words_last|].
    rewrite <- (app_nil_r (replicate _ _)). rewrite words_token; [done|done|apply blank_spaces|done].
  - apply plain_pad. unfold plain in *. rewrite !Forall_app. split_and!; try done; by apply token_is_plain.
Qed.

(** ** Tables *)

Definition complete_for (ip : Ipv4Addr) (e : arp_entry) : bool := bool_decide (ae_ip e = ip) && negb (ae_flags e =? 0).

Lemma arp_rows es : Forall wf_arp_row es -> drop 1 (lines (arp_table es)) = arp_row <$> es.
Proof.
  intros H. unfold arp_table, table. rewrite lines_of; [done|]. apply Forall_cons. split; [|apply Forall_fmap; eapply List.Forall_impl; [|exact H]; intros e He; by apply arp_row_ok].
  apply (bool_decide_unpack (Forall _ _)). by vm_compute.
Qed.

Lemma route_rows rs : Forall wf_route_entry rs -> drop 1 (lines (route_table rs)) = route_row <$> rs.
Proof.
  intros H. unfold route_table, table. rewrite lines_of; [done|]. apply Forall_cons. split; [|apply Forall_fmap; eapply List.Forall_impl; [|exact H]; intros e He; by apply route_row_ok].
  apply (bool_decide_unpack (Forall _ _)). by vm_compute.
Qed.

Lemma six_of_text m : wf_mac m -> six_parts (mac_parts (mac_text m)) = Some m.
Proof. intros H. destruct (mac_text_ok m H) as (_ & _ & -> & _). by destruct m. Qed.

Lemma find_arp_spec ip es : Forall wf_arp_row es -> wf_ipv4 ip ->
  find_arp (ip_to_string ip) (arp_row <$> es) = ae_mac <$> List.find (complete_for ip) es.
Proof.
  intros H Hip. induction H as [|e es He Hes IH]; [done|]. rewrite fmap_cons. cbn [find_arp List.find]. destruct (arp_row_ok e He) as [-> _].
  rewrite six_of_text by apply He. destruct (flag_text_ok _ (wa_flags e He)) as (_ & _ & Hf). unfold complete_for at 1.
  replace (bool_decide (ip_to_string (ae_ip e) = ip_to_string ip)) with (bool_decide (ae_ip e = ip))
    by (apply bool_decide_ext; split; [by intros ->|apply ip_text_inj; [apply He|done]]).
  replace (bool_decide (flag_text (ae_flags e) = str "0x0")) with (ae_flags e =? 0)
    by (destruct (bool_decide_reflect (flag_text (ae_flags e) = str "0x0")), (Z.eqb_spec (ae_flags e) 0); tauto).
  destruct (bool_decide (ae_ip e = ip) && _); done.
Qed.

Lemma find_snoc {A} (p : A -> bool) l x :
  List.find p (l ++ [x]) = match List.find p l with Some y => Some y | None => if p x then Some x else None end.
Proof. induction l as [|y l IH]; cbn; [by destruct (p x)|]. destruct (p y); [done|exact IH]. Qed.

Lemma seed_lines_spec ip clock : forall es i c, Forall wf_arp_row es ->
  e_mac <$> entries (seed_lines c clock i (arp_row <$> es)) !! ip =
    match List.find (complete_for ip) (List.rev es) with Some e => Some (ae_mac e) | None => e_mac <$> entries c !! ip end.
Proof.
  intros es. induction es as [|e es IH]; intros i c H; [done|]. apply Forall_cons_1 in H as [He H]. rewrite fmap_cons. cbn [seed_lines List.rev].
  rewrite IH by done. unfold seed_line. destruct (arp_row_ok e He) as [-> _]. destruct (ip_text _ (wa_ip e He)) as (-> & _).
  rewrite six_of_text by apply He. destruct (flag_text_ok _ (wa_flags e He)) as (_ & _ & Hf).
  rewrite find_snoc.
  destruct (List.find (complete_for ip) (List.rev es)); [done|]. unfold complete_for.
  destruct (bool_decide_reflect (flag_text (ae_flags e) = str "0x0")) as [E|E].
  - rewrite (proj2 (Z.eqb_eq _ _)) by tauto. by rewrite andb_false_r.
  - rewrite (proj2 (Z.eqb_neq _ _)) by tauto. rewrite andb_true_r. unfold cache_insert. rsimpl.
    destruct (bool_decide_reflect (ae_ip e = ip)) as [->|En]; [by rewrite lookup_insert_eq|by rewrite lookup_insert_ne].
Qed.

(** A line of the route table with destination 0. *)
Definition default_route (e : route_entry) : bool := re_destination e =? 0.

Lemma zero_word v : 0 <= v < 2 ^ 32 -> (hexn 8 v = str "00000000" <-> v = 0).
Proof.
  intros Hv. split; [|by intros ->]. intros E. destruct (word_text v Hv) as [Ev _]. rewrite E in Ev. vm_compute in Ev. congruence.
Qed.

Lemma find_gateway_spec rs : Forall wf_route_entry rs ->
  find_gateway (route_row <$> rs) = (fun e => le_hex_to_ipv4 (re_gateway e)) <$> List.find default_route rs.
Proof.
  induction 1 as [|e rs He Hrs IH]; [done|]. rewrite fmap_cons. cbn [find_gateway List.find]. destruct (route_row_ok e He) as [-> _].
  pose proof (wr_words e He) as Hw. repeat match goal with H : Forall _ (_ :: _) |- _ => apply Forall_cons in H as [? H] end.
  destruct (word_text (re_gateway e)) as [-> _]; [done|]. unfold default_route at 1.
  destruct (bool_decide_reflect (hexn 8 (re_destination e) = str "00000000")) as [E|E]; rewrite zero_word in E by done.
  - by rewrite (proj2 (Z.eqb_eq _ _)).
  - by rewrite (proj2 (Z.eqb_neq _ _)).
Qed.

(** ** Theorems *)

(** C33: The readers understand what the kernel prints: from the text of its ARP table, the detection reads back every
    entry with address, hardware address and device; the look-up gives the hardware address of the
    first complete entry for the address; and the seeded cache holds, for every address, that of the last complete entry, and what it held before
    where there is none. *)
Theorem kernel_arp_table_read_back es c clock ip :
  Forall wf_arp_row es -> wf_ipv4 ip ->
  parse_proc_arp (arp_table es) = (fun e => MkProcArp (ae_ip e) (ae_mac e) (ae_device e)) <$> es /\
  lookup_arp_entry (Some (arp_table es)) ip = ae_mac <$> List.find (complete_for ip) es /\
  e_mac <$> entries (seed_arp_cache_from_kernel c clock (Some (arp_table es))) !! ip =
    match List.find (complete_for ip) (List.rev es) with Some e => Some (ae_mac e) | None => e_mac <$> entries c !! ip end.
Proof.
  intros Hes Hip. unfold parse_proc_arp, lookup_arp_entry, seed_arp_cache_from_kernel. rewrite arp_rows by done. split_and!.
  - induction Hes as [|e es He Hes IH]; [done|]. rewrite !fmap_cons. cbn [omap list_omap]. unfold parse_arp_line at 1.
    destruct (arp_row_ok e He) as [-> _]. destruct (ip_text _ (wa_ip e He)) as (-> & _).
    unfold parse_mac. destruct (mac_text_ok _ (wa_mac e He)) as (-> & -> & _). cbn. f_equal; [by destruct (ae_mac e)|exact IH].
  - by apply find_arp_spec.
  - by apply seed_lines_spec.
Qed.

(** The gateway is found: from the kernel's tables, the hardware address the provider sends to is that of the first complete ARP entry for
    the gateway of the first route with destination 0, zeros where there is none, and always the configured one where there
    is; and the detection reads back every route. *)
Theorem gateway_mac_from_kernel_tables rs es explicit :
  Forall wf_route_entry rs -> Forall wf_arp_row es ->
  parse_proc_route (route_table rs) = (fun e => MkProcRoute (re_iface e) (re_destination e) (re_gateway e) (re_mask e) (re_mtu e)) <$> rs /\
  resolve_gateway_mac explicit (Some (route_table rs)) (Some (arp_table es)) =
    match explicit with
    | Some mac => mac
    | None =>
        match List.find default_route rs with
        | Some r => default zero_mac (ae_mac <$> List.find (complete_for (le_hex_to_ipv4 (re_gateway r))) es)
        | None => zero_mac
        end
    end.
Proof.
  intros Hrs Hes. unfold parse_proc_route, resolve_gateway_mac, read_default_gateway. rewrite route_rows by done. split.
  - clear Hes. induction Hrs as [|e rs He Hrs IH]; [done|]. rewrite !fmap_cons. cbn [omap list_omap]. unfold parse_route_line at 1.
    destruct (route_row_ok e He) as [-> _]. pose proof (wr_words e He) as Hw.
    repeat match goal with H : Forall _ (_ :: _) |- _ => apply Forall_cons in H as [? H] end.
    destruct (word_text (re_destination e)) as [-> _]; [done|]. destruct (word_text (re_gateway e)) as [-> _]; [done|].
    destruct (word_text (re_mask e)) as [-> _]; [done|]. destruct (mtu_text _ (wr_mtu e He)) as [-> _]. cbn. f_equal. exact IH.
  - destruct explicit; [done|]. rewrite find_gateway_spec by done. destruct (List.find default_route rs) as [r|]; [|done].
    cbn [fmap option_fmap option_map]. unfold lookup_arp_entry. rewrite arp_rows by done. rewrite find_arp_spec; [done|done|].
    unfold le_hex_to_ipv4, wf_ipv4. cbn [oct0 oct1 oct2 oct3]. unfold is_u8. split_and!; wrap_lia.
Qed.

(** ** Samples *)

Definition sample_arp : list arp_entry :=
  [MkArpEntry (MkIpv4 10 0 1 1) 1 0 zero_mac (str "ens5");
   MkArpEntry (MkIpv4 10 0 1 7) 1 6 mac_b (str "ens5");
   MkArpEntry (MkIpv4 10 0 1 1) 1 2 (MkMac 14 18 171 205 239 1) (str "ens5")].

Definition sample_routes : list route_entry :=
  [MkRouteEntry (str "ens5") (10 + 256 * 256) 0 (str "0001") (str "0") (str "0") (str "100") 16777215 0 (str "0") (str "0");
   MkRouteEntry (str "ens5") 0 (10 + 65536 + 16777216) (str "0003") (str "0") (str "0") (str "100") 0 9001 (str "0") (str "0")].

Lemma sample_arp_ok : Forall wf_arp_row sample_arp.
Proof.
  repeat (apply Forall_cons; split); [..|done].
  all: constructor; unfold wf_ipv4, wf_mac, is_u8; cbn; [lia|lia|lia|repeat (apply Forall_cons; split); done || lia|by apply dark_token].
Qed.

Lemma sample_routes_ok : Forall wf_route_entry sample_routes.
Proof.
  repeat (apply Forall_cons; split); [..|done].
  all: constructor; [cbn [re_iface re_flags re_refcnt re_use re_metric re_window re_irtt]; repeat (apply Forall_cons; split); try done; by apply dark_token
    |cbn; repeat (apply Forall_cons; split); done || lia|cbn; lia].
Qed.

Lemma kernel_arp_table_read_back_witness :
  length (parse_proc_arp (arp_table sample_arp)) = 3%nat /\
  lookup_arp_entry (Some (arp_table sample_arp)) (MkIpv4 10 0 1 1) = Some (MkMac 14 18 171 205 239 1) /\
  e_mac <$> entries (seed_arp_cache_from_kernel cache_new (fun _ => 5) (Some (arp_table sample_arp))) !! MkIpv4 10 0 1 1 = Some (MkMac 14 18 171 205 239 1).
Proof.
  destruct (kernel_arp_table_read_back sample_arp cache_new (fun _ => 5) (MkIpv4 10 0 1 1) sample_arp_ok) as (-> & -> & ->).
  - unfold wf_ipv4, is_u8. cbn. lia.
  - done.
Defined.

Lemma gateway_mac_from_kernel_tables_witness :
  length (parse_proc_route (route_table sample_routes)) = 2%nat /\
  resolve_gateway_mac None (Some (route_table sample_routes)) (Some (arp_table sample_arp)) = MkMac 14 18 171 205 239 1.
Proof. destruct (gateway_mac_from_kernel_tables sample_routes sample_arp None sample_routes_ok sample_arp_ok) as [-> ->]. done. Defined.
