(* ===== verification/UdpSetup.v ===== *)
(** * Setting sockets up (dpdk-stdlib-udp/src/lib.rs)

    Binding over either version and over a given backend, and the builder that configures the network and starts the
    multi-core pipeline.  What initialising DPDK gives is an argument. *)

From stdpp Require Import base numbers list.
From Stdlib Require Import ZArith Lia.
From S2P Require Import Prelude State Buffer Checksum Codec CodecFrames Ring UdpChecksum UdpFrame UdpLayout Udp6Frame Tunnel Routing NeighborCache Arp Icmp Icmp6 Ndp UdpSocket UdpRobust MpscRing FramePool SpscRing Pipeline.

#[local] Open Scope Z_scope.

(** What a socket takes from the initialised port. *)
Record DpdkResources := MkResources { res_cache : ArpCache; res_backend : SocketBackend; res_mac : Mac; res_mtu : Z }.

Section Setup.

Context (answer : list (TxDesc * result Z ErrorKind) -> TxDesc -> bool -> result Z ErrorKind).

(** The port drawn when port 0 is asked for. *)
Definition choose_port (p next : Z) : Z * Z := if p =? 0 then allocate_ephemeral_port next else (p, next).

(** [send_gratuitous_na_if_enabled] of a socket just built, whose [auto_garp] is set; the result is ignored. *)
Definition send_gratuitous_na (s : UdpSocket) : outcome UdpSocket :=
  let! f := make_gratuitous_na (s_ndp s) in
  match f with
  | Some na_frame => let! (s, _) := send_frame_mode answer s na_frame None true in Done s
  | None => Done s
  end.

(** [bind_v6]. *)
Definition bind_v6 (ip : Ipv6Addr) (p flowinfo scope_id next : Z) (resources : result DpdkResources ErrorKind)
    : outcome (result UdpSocket ErrorKind * Z) :=
  let '(p, next) := choose_port p next in
  match resources with
  | Err e => Done (Err e, next)
  | Ok r =>
      let arp_handler := handler_with_cache (res_mac r) UNSPECIFIED (res_cache r) in
      let routing := table_new in
      let routing := if table_mtu routing <? res_mtu r then set_mtu routing (res_mtu r) else routing in
      let! s := send_gratuitous_na
                  (socket_new (V6 ip p flowinfo scope_id) (res_backend r) (res_mac r) arp_handler UNSPECIFIED ip routing) in
      Done (Ok s, next)
  end.

(** [bind] of a resolved address. *)
Definition udp_bind (addr : SocketAddr) (next now : Z) (resources : result DpdkResources ErrorKind)
    (found : option (NetworkConfig * list ProcArpEntry)) : outcome (result UdpSocket ErrorKind * Z) :=
  match addr with
  | V4 ip p =>
      match resources with
      | Err e => Done (Err e, next)
      | Ok r =>
          let! (s, next) := bind_v4_on answer ip p next now (res_cache r) (res_backend r) (res_mac r) (res_mtu r) found in
          Done (Ok s, next)
      end
  | V6 ip p flowinfo scope_id => bind_v6 ip p flowinfo scope_id next resources
  end.

(** [bind_with_backend]: the backend's hardware address, and whether its name is "dpdk". *)
Definition bind_with_backend (addr : SocketAddr) (next now : Z) (local_mac : Mac) (is_dpdk : bool)
    (resources : result DpdkResources ErrorKind) (found : option (NetworkConfig * list ProcArpEntry))
    : outcome (result UdpSocket ErrorKind * Z) :=
  let '(local_addr, next) :=
    match addr with
    | V4 ip p => let '(p, next) := choose_port p next in (V4 ip p, next)
    | V6 ip p f sc => let '(p, next) := choose_port p next in (V6 ip p f sc, next)
    end in
  let arp_ip := match local_addr with V4 ip _ => ip | V6 _ _ _ _ => UNSPECIFIED end in
  let arp_handler := handler_with_cache local_mac arp_ip cache_new in
  let local_ipv6 := match local_addr with V6 ip _ _ _ => ip | V4 _ _ => 0 end in
  match resources with
  | Err e => Done (Err e, next)
  | Ok r =>
      let '(routing, arp_handler) := auto_detect_routing arp_ip now found arp_handler in
      let routing := if is_dpdk && (table_mtu routing <? res_mtu r) then set_mtu routing (res_mtu r) else routing in
      let! (s, _) := send_gratuitous_arp answer (socket_new local_addr Generic local_mac arp_handler arp_ip local_ipv6 routing) in
      Done (Ok s, next)
  end.

(** ** The builder *)

Record UdpSocketBuilder := MkBuilder { b_rx_queues : option Z; b_network_config : option NetworkConfig }.

Definition builder_mtu (b : UdpSocketBuilder) : Z :=
  match b_network_config b with Some c => if 0 <? c_mtu c then c_mtu c else 9001 | None => 9001 end.

(** The routes, tag and tunnels of a configuration, which gives up the latter. *)
Definition apply_network (s : UdpSocket) (c : NetworkConfig) : UdpSocket :=
  s <| s_vlan := c_vlan c |> <| s_gue := c_gue c |> <| s_vxlan := c_vxlan c |> <| s_geneve := c_geneve c |>
    <| s_routing := with_config (c <| c_vlan := None |> <| c_gue := None |> <| c_vxlan := None |> <| c_geneve := None |>) |>.

(** The end of [UdpSocketBuilder::bind]: the pipeline for the plan, if it has worker threads. *)
Definition builder_pipeline (rx_queues : option Z) (is_stub : bool) (env_rq : option Z) (socket : UdpSocket) : option (Pipeline SpscRing) :=
  let nic := if is_stub then 1 else 16 in
  let plan := detect_topology is_stub env_rq (MkTopoConfig rx_queues) (if is_stub then 1 else 8) nic nic 0 in
  if is_run_to_completion plan then None
  else
    let local_port := match s_local_addr socket with V4 _ p => p | V6 _ _ _ _ => 0 end in
    let local_ip := match s_local_addr socket with V4 ip _ => ip | V6 _ _ _ _ => UNSPECIFIED end in
    start_pipeline (MkPipeConfig plan local_port (s_mac socket) local_ip (arp_cache (s_arp socket))).

(** [UdpSocketBuilder::bind]; [init mtu] is [get_or_init_dpdk(0, mtu)], which keeps the resources once it has succeeded. *)
Definition builder_bind (b : UdpSocketBuilder) (is_stub : bool) (env_rq : option Z) (addr : SocketAddr) (next now : Z)
    (init : Z -> result DpdkResources ErrorKind) (found : option (NetworkConfig * list ProcArpEntry))
    : outcome (result (UdpSocket * option (Pipeline SpscRing)) ErrorKind * Z) :=
  let! (r, next) :=
    udp_bind addr next now (match init (builder_mtu b) with Ok r => Ok r | Err _ => init 9001 end) found in
  match r with
  | Err e => Done (Err e, next)
  | Ok socket =>
      let socket := match b_network_config b with Some c => apply_network socket c | None => socket end in
      Done (Ok (socket, builder_pipeline (b_rx_queues b) is_stub env_rq socket), next)
  end.

(** ** Announcements *)


(** The buffers hold frames of [n] bytes. *)
Definition roomy (b : SocketBackend) (n : nat) : Prop :=
  match b with Generic => True | Dpdk _ room => exists k, room = Some k /\ (n <= k)%nat end.


(** Two bytes where a UDP header behind an IPv6 header has its checksum. *)
Definition over (f cksum : list Z) : list Z := take 60 f ++ cksum ++ drop 62 f.

(** What goes out for a descriptor of an IPv6 frame or a frame without flags, when the hardware computes [cksum]. *)
Definition on_wire (d : TxDesc) (cksum : list Z) : list Z :=
  if has_bit (tx_ol_flags d) RTE_MBUF_F_TX_UDP_CKSUM then over (tx_data d) cksum else tx_data d.


Lemma send_described s f d blocking : tx_desc (s_backend s) f None = Done (Ok d) ->
  exists r o, send_frame_mode answer s f None blocking = Done (s <| s_handed := s_handed s ++ [(d, r)] |>, o).
Proof.
  intros E. unfold send_frame_mode. rewrite E. cbn [obind]. rsimpl. exists (answer (s_handed s) d blocking).
  generalize (answer (s_handed s) d blocking). intros r. generalize (s_backend s). intros []; [destruct r|]; by eexists.
Qed.

Lemma described b f d fl l3 :
  roomy b (length f) -> zlen f < 65536 ->
  match b with Generic => d = f /\ fl = 0 | Dpdk off _ => tx_offload_data off f = Done (d, fl, l3) end ->
  exists desc, tx_desc b f None = Done (Ok desc) /\ tx_data desc = d /\ tx_ol_flags desc = fl.
Proof.
  intros Hb Hl E. unfold tx_desc. destruct b as [off room|]; [|destruct E as [-> ->]; by eexists]. destruct Hb as (k & -> & Hk).
  rewrite (proj2 (Nat.ltb_ge _ _)) by lia. pose proof (zlen_nonneg f). rewrite u16_small by (unfold is_u16; lia). rewrite Z.eqb_refl. cbn [negb].
  rewrite E. cbn [obind]. by eexists.
Qed.

(** No offload touches an ARP frame. *)
Lemma sent_arp s f blocking :
  roomy (s_backend s) (length f) -> zlen f < 65536 -> read16 f 12 = Done ETH_TYPE_ARP ->
  exists d r o, send_frame_mode answer s f None blocking = Done (s <| s_handed := s_handed s ++ [(d, r)] |>, o) /\
    forall c, on_wire d c = f.
Proof.
  intros Hb Hl Hty. destruct (described (s_backend s) f f 0 0 Hb Hl) as (d & E & Hd & Hf).
  { destruct (s_backend s) as [off room|]; [|done]. unfold tx_offload_data. destruct (_ && _); [|done]. by rewrite Hty. }
  destruct (send_described s f d blocking E) as (r & o & Es). exists d, r, o. split; [exact Es|]. intros c. unfold on_wire. by rewrite Hf, Hd.
Qed.









End Setup.



Lemma choose_port_ok p next p' next' : choose_port p next = (p', next') -> if p =? 0 then 32768 <= p' <= 60999 else p' = p.
Proof.
  unfold choose_port, allocate_ephemeral_port. destruct (p =? 0); [|by intros [= <- <-]].
  destruct (_ && _) eqn:E; intros [= <- <-]; [|lia]. rewrite andb_true_iff, !Z.leb_le in E. lia.
Qed.






(** Over a given backend an IPv6 socket announces the wrong thing: [bind_with_backend] broadcasts a gratuitous ARP for 0.0.0.0
    and sends no neighbour advertisement. *)
Theorem v6_backend_announces_unspecified answer ip p f sc next now mac is_dpdk r found :
  exists s next' d res, bind_with_backend answer (V6 ip p f sc) next now mac is_dpdk (Ok r) found = Done (Ok s, next') /\
    s_handed s = [(d, res)] /\ forall c, on_wire d c = eth_bytes broadcast_mac mac ETH_TYPE_ARP ++ arp_bytes (arp_request mac UNSPECIFIED UNSPECIFIED).
Proof.
  unfold bind_with_backend. destruct (choose_port p next) as [p' next']. cbn [auto_detect_routing bool_decide]. unfold auto_detect_routing.
  rewrite bool_decide_true by done. cbv zeta. unfold send_gratuitous_arp. set (sock := socket_new _ _ _ _ _ _ _).
  change (make_gratuitous_arp (s_arp sock)) with (let! f := build_gratuitous_arp mac UNSPECIFIED in Done (Some f)).
  unfold build_gratuitous_arp. rewrite build_arp_frame_bytes. cbn [obind].
  destruct (sent_arp answer sock (eth_bytes broadcast_mac mac ETH_TYPE_ARP ++ arp_bytes (arp_request mac UNSPECIFIED UNSPECIFIED)) true)
    as (d & res & o & -> & Hd); [done|done|done|].
  cbn [obind]. by eexists _, next', d, res.
Qed.

Lemma build_pipeline_port cap size config pl : build_pipeline cap size config = Some pl -> pl_port pl = pc_local_port config.
Proof. unfold build_pipeline. destruct (is_run_to_completion _); [done|]. by intros [= <-]. Qed.

Lemma builder_pipeline_port rq is_stub env_rq s pl ip p f sc :
  builder_pipeline rq is_stub env_rq s = Some pl -> s_local_addr s = V6 ip p f sc -> pl_port pl = 0.
Proof.
  unfold builder_pipeline. intros H E. destruct (is_run_to_completion _); [done|]. rewrite (build_pipeline_port _ _ _ _ H). cbn [pc_local_port]. by rewrite E.
Qed.

Lemma build_pipeline_starts cap size config : is_run_to_completion (pc_plan config) = false -> exists pl, build_pipeline cap size config = Some pl.
Proof. unfold build_pipeline. intros ->. by eexists. Qed.

Lemma builder_pipeline_starts rq env_rq s :
  is_run_to_completion (detect_topology false env_rq (MkTopoConfig rq) 8 16 16 0) = false -> exists pl, builder_pipeline rq false env_rq s = Some pl.
Proof. intros H. unfold builder_pipeline. cbv zeta. rewrite H. by apply build_pipeline_starts. Qed.

Lemma bind_v6_address answer ip p f sc next now r found s next' :
  udp_bind answer (V6 ip p f sc) next now r found = Done (Ok s, next') -> exists p', s_local_addr s = V6 ip p' f sc /\ (0 <= p -> 0 < p').
Proof.
  cbn [udp_bind]. unfold bind_v6. destruct (choose_port p next) as [p' nx] eqn:Ep. apply choose_port_ok in Ep. destruct r as [r|e]; [|done]. cbv zeta.
  intros H. exists p'. split; [|destruct (Z.eqb_spec p 0); lia]. revert H.
  set (sock := socket_new _ _ _ _ _ _ _). unfold send_gratuitous_na, send_frame_mode. destruct (make_gratuitous_na _) as [[na|]| |]; cbn [obind]; [|by intros [= <- <-]|done..].
  destruct (tx_desc _ _ _) as [[d|e]| |]; cbn [obind]; [| |done..]; [|by intros [= <- <-]]. cbv zeta. rsimpl.
  destruct (s_backend sock), (answer _ _ _); cbn [obind]; intros [= <- <-]; by rsimpl.
Qed.

(** A pipeline started for an IPv6 socket is deaf: its workers accept port 0, whatever port the socket is bound to. *)
Theorem v6_pipeline_is_deaf answer b is_stub env_rq ip p f sc next now init found s pl next' :
  builder_bind answer b is_stub env_rq (V6 ip p f sc) next now init found = Done (Ok (s, Some pl), next') -> 0 <= p ->
  pl_port pl = 0 /\ 0 < port (s_local_addr s).
Proof.
  intros H Hp. unfold builder_bind in H. destruct (udp_bind _ _ _ _ _ _) as [[[s1|e] n]| |] eqn:E; cbn [obind] in H; [|done..].
  apply bind_v6_address in E as (p' & Ea & Hp').
  assert (s_local_addr (match b_network_config b with Some c => apply_network s1 c | None => s1 end) = V6 ip p' f sc) as Ea2
    by (destruct (b_network_config b); [unfold apply_network; by rsimpl|done]).
  injection H as <- Hpl _. split; [by eapply builder_pipeline_port|]. rewrite Ea2. cbn [port]. by apply Hp'.
Qed.

(** ** Samples *)

(** With the offloads that the port initialisation asks for. *)
Definition sample_resources : DpdkResources := MkResources cache_new (Dpdk 7 (Some 2048%nat)) mac_a 9001.

Definition sample_v6 : SocketAddr := V6 (ipv6_new [8193; 3512; 0; 0; 0; 0; 0; 1]) 0 0 0.


Lemma v6_pipeline_is_deaf_witness :
  exists s pl, builder_bind (fun _ _ _ => Ok 1) (MkBuilder (Some 4) None) false None sample_v6 0 5 (fun _ => Ok sample_resources) None = Done (Ok (s, Some pl), 32769) /\
    pl_port pl = 0 /\ 0 < port (s_local_addr s).
Proof.
  assert (exists s, udp_bind (fun _ _ _ => Ok 1) sample_v6 0 5 (Ok sample_resources) None = Done (Ok s, 32769)) as [s E] by (eexists; vm_compute; reflexivity).
  destruct (builder_pipeline_starts (Some 4) None s) as [pl Epl]; [reflexivity|].
  assert (builder_bind (fun _ _ _ => Ok 1) (MkBuilder (Some 4) None) false None sample_v6 0 5 (fun _ => Ok sample_resources) None = Done (Ok (s, Some pl), 32769)) as Eb
    by (unfold builder_bind; cbn [builder_mtu b_network_config b_rx_queues]; rewrite E; cbn [obind]; rewrite Epl; reflexivity).
  exists s, pl. split; [exact Eb|]. apply (v6_pipeline_is_deaf _ _ _ _ _ _ _ _ _ _ _ _ _ _ _ Eb). lia.
Defined.
