(* ===== verification/RawBackend.v ===== *)
(** * The raw-socket backend (dpdk-stdlib-net/src/backend_raw.rs)

    Construction over a network interface, sending and receiving by system calls or through the mapped rings of MmapRing, the
    interface flags, and the drop.  What the kernel answers to a call, given all calls before, is a
    parameter: the return value, [errno], the bytes an [ioctl] or [recv] stores and the frames of a mapping. *)

From stdpp Require Import base numbers list sets.
From Stdlib Require Import ZArith Lia.
From S2P Require Import Prelude State Buffer Routing MmapRing.

#[local] Open Scope Z_scope.

(** ** Requests *)

(** [Ifreq]: the name in 16 bytes, and 24 bytes of data. *)
Record Ifreq := MkIfreq { ifr_name : list Z; ifr_data : list Z }.

(** [Ifreq::new]: at most 15 bytes of the name, so that a NUL follows. *)
Definition ifreq_new (name : text) : Ifreq :=
  MkIfreq (take 15 name ++ replicate (16 - length (take 15 name)) 0) (replicate 24 0).

Definition ifr_ifindex (i : Ifreq) : outcome Z :=
  let! b := slice (ifr_data i) 0 4 in Done (if of_le32 b <? 2 ^ 31 then of_le32 b else of_le32 b - 2 ^ 32).

(** The 16 bits of the flags; the source reads them as [i16]. *)
Definition ifr_flags (i : Ifreq) : outcome Z := let! b := slice (ifr_data i) 0 2 in Done (of_le16 b).

Definition set_ifr_flags (i : Ifreq) (flags : Z) : outcome Ifreq :=
  let! d := blit (ifr_data i) 0 2 [u8 flags; u8 (flags / 256)] in Done (MkIfreq (ifr_name i) d).

Definition ifr_hwaddr (i : Ifreq) : outcome (list Z) := slice (ifr_data i) 2 8.

Definition IFF_PROMISC : Z := 256.
Definition IFF_ALLMULTI : Z := 512.

(** ** System calls *)

Inductive syscall : Type :=
| SysSocket
| SysIfindex (fd : Z) (i : Ifreq) | SysHwaddr (fd : Z) (i : Ifreq) | SysGetFlags (fd : Z) (i : Ifreq) | SysSetFlags (fd : Z) (i : Ifreq)
| SysBind (fd if_index : Z)
| SysVersion (fd : Z) | SysRxRing (fd : Z) (r : TpacketReq) | SysTxRing (fd : Z) (r : TpacketReq)
| SysMmap (fd len : Z) | SysMunmap (ptr len : Z)
| SysSendto (fd : Z) (data : list Z) (addr : option (Z * list Z))
| SysRecv (fd len : Z)
| SysClose (fd : Z).

Definition calls : Type := list (syscall * Z).

(** Code that makes system calls, and may panic. *)
Definition sys (A : Type) : Type := calls -> outcome (A * calls).
Definition sret {A} (a : A) : sys A := fun h => Done (a, h).
Definition sbind {A B} (m : sys A) (k : A -> sys B) : sys B := fun h => let! (a, h) := m h in k a h.
Definition lift {A} (m : outcome A) : sys A := fun h => let! a := m in Done (a, h).

#[local] Notation "'let$' x := m 'in' k" := (sbind m (fun x => k)) (at level 10, x pattern, m at level 100, k at level 200).

Inductive RawError : Type := Os (errno : Z) | RawKind (k : ErrorKind).

Definition EAGAIN : Z := 11.

Record Mapping := MkMapping { mp_ptr : Z; mp_size : Z; mp_ring : MmapRing }.

#[global] Instance eta_Mapping : Eta Mapping := fun m => MkMapping (mp_ptr m) (mp_size m) (mp_ring m).

Record RawSocketBackend := MkRaw {
  rb_fd : Z; rb_interface : text; rb_if_index : Z; rb_mac_addr : list Z; rb_use_mmap : bool;
  rb_rx_ring : option Mapping; rb_tx_ring : option Mapping; rb_promiscuous : bool; rb_allmulticast : bool }.

#[global] Instance eta_Raw : Eta RawSocketBackend := fun b =>
  MkRaw (rb_fd b) (rb_interface b) (rb_if_index b) (rb_mac_addr b) (rb_use_mmap b) (rb_rx_ring b) (rb_tx_ring b) (rb_promiscuous b) (rb_allmulticast b).

Section Kernel.

Context (answer : calls -> syscall -> Z) (errno : calls -> Z) (stored : calls -> list Z) (frames_of : calls -> list (list Z)).

Definition do_call (c : syscall) : sys Z := fun h => Done (answer h c, h ++ [(c, answer h c)]).

(** [io::Error::last_os_error()]. *)
Definition last_os_error {A} : sys (result A RawError) := fun h => Done (Err (Os (errno h)), h).

(** The bytes the last call stored, over those of a buffer. *)
Definition overwrite (buf bytes : list Z) : list Z := take (length buf) bytes ++ drop (length bytes) buf.

(** What the last [ioctl] left in the request. *)
Definition filled_ifreq (i : Ifreq) : sys Ifreq := fun h => Done (MkIfreq (ifr_name i) (overwrite (ifr_data i) (stored h)), h).

(** [MmapRing::new] and its drop. *)
Definition mmap_ring_new (fd : Z) (config : RingConfig) (offset : Z) : sys (result Mapping RawError) :=
  let$ total := lift (total_size config) in
  let$ _ := lift (to_tpacket_req config) in
  let$ ptr := do_call (SysMmap fd (total + offset)) in
  if ptr =? -1 then last_os_error
  else fun h => Done (Ok (MkMapping (ptr + offset) total (MkMmap (frames_of h) (Z.to_nat (rc_frame_size config)) 0)), h).

Definition mapping_drop (m : Mapping) : sys unit :=
  if mp_ptr m =? 0 then sret tt else let$ _ := do_call (SysMunmap (mp_ptr m) (mp_size m)) in sret tt.

(** [setup_mmap_rings]. *)
Definition setup_mmap_rings (fd : Z) (config : RingConfig) : sys (result (Mapping * Mapping) RawError) :=
  let$ r := do_call (SysVersion fd) in
  if r <? 0 then last_os_error
  else
    let$ req := lift (to_tpacket_req config) in
    let$ r := do_call (SysRxRing fd req) in
    if r <? 0 then last_os_error
    else
      let$ r := do_call (SysTxRing fd req) in
      if r <? 0 then last_os_error
      else
        let$ rx_size := lift (total_size config) in
        let$ rx := mmap_ring_new fd config 0 in
        match rx with
        | Err e => sret (Err e)
        | Ok rx =>
            let$ tx := mmap_ring_new fd config rx_size in
            match tx with
            | Err e => let$ _ := mapping_drop rx in sret (Err e)
            | Ok tx => sret (Ok (rx, tx))
            end
        end.

(** [libc::close(fd)] and the error after it. *)
Definition close_with_error {A} (fd : Z) : sys (result A RawError) :=
  let$ _ := do_call (SysClose fd) in last_os_error.

(** The end of [with_mmap]: the flags of the interface, where they can be read. *)
Definition raw_finish (fd : Z) (interface : text) (if_index : Z) (mac_addr : list Z) (use_mmap : bool) (rings : option (Mapping * Mapping))
    : sys (result RawSocketBackend RawError) :=
  let$ r := do_call (SysGetFlags fd (ifreq_new interface)) in
  let$ flags := if 0 <=? r then let$ i := filled_ifreq (ifreq_new interface) in lift (ifr_flags i) else sret 0 in
  sret (Ok (MkRaw fd interface if_index mac_addr use_mmap (fst <$> rings) (snd <$> rings)
              (negb (Z.land flags IFF_PROMISC =? 0)) (negb (Z.land flags IFF_ALLMULTI =? 0)))).

(** [with_mmap]; [new] is [with_mmap] without rings. *)
Definition with_mmap (interface : text) (use_mmap : bool) (config : RingConfig) : sys (result RawSocketBackend RawError) :=
  let$ fd := do_call SysSocket in
  if fd <? 0 then last_os_error
  else
    let$ r := do_call (SysIfindex fd (ifreq_new interface)) in
    if r <? 0 then close_with_error fd
    else
      let$ ifr := filled_ifreq (ifreq_new interface) in
      let$ if_index := lift (ifr_ifindex ifr) in
      let$ r := do_call (SysHwaddr fd (ifreq_new interface)) in
      if r <? 0 then close_with_error fd
      else
        let$ ifr := filled_ifreq (ifreq_new interface) in
        let$ mac_addr := lift (ifr_hwaddr ifr) in
        let$ r := do_call (SysBind fd if_index) in
        if r <? 0 then close_with_error fd
        else if use_mmap then
          let$ rings := setup_mmap_rings fd config in
          match rings with
          | Err e => sret (Err e)
          | Ok rings => raw_finish fd interface if_index mac_addr use_mmap (Some rings)
          end
        else raw_finish fd interface if_index mac_addr use_mmap None.

Definition raw_new (interface : text) : sys (result RawSocketBackend RawError) := with_mmap interface false ring_config_default.

(** ** Frames *)

(** [send_basic]: the address is the frame's destination. *)
Definition send_basic (b : RawSocketBackend) (frame : list Z) : sys (result Z RawError) :=
  let sll_addr := if (6 <=? length frame)%nat then take 6 frame ++ [0; 0] else replicate 8 0 in
  let$ sent := do_call (SysSendto (rb_fd b) frame (Some (rb_if_index b, sll_addr))) in
  if sent <? 0 then last_os_error else sret (Ok sent).

(** [send_mmap]. *)
Definition raw_send_mmap (b : RawSocketBackend) (frame : list Z) : sys (RawSocketBackend * result Z RawError) :=
  match rb_tx_ring b with
  | None => sret (b, Err (RawKind KOther))
  | Some m =>
      let$ (ring, result) := lift (write_tx_frame (mp_ring m) frame) in
      let b := b <| rb_tx_ring := Some (m <| mp_ring := ring |>) |> in
      match result with
      | Err k => sret (b, Err (RawKind k))
      | Ok n =>
          let$ ring := lift (advance ring) in
          let b := b <| rb_tx_ring := Some (m <| mp_ring := ring |>) |> in
          let$ r := do_call (SysSendto (rb_fd b) [] None) in
          if r <? 0 then
            let$ e := last_os_error in
            match e with
            | Err (Os no) => if no =? ENOBUFS then sret (b, Ok (Z.of_nat n)) else sret (b, e)
            | _ => sret (b, e)
            end
          else sret (b, Ok (Z.of_nat n))
      end
  end.

(** The loop of [recv_basic] over its buffer. *)
Fixpoint recv_basic_loop (fd : Z) (n : nat) (buf : list Z) (frames : list (list Z)) : sys (result (list (list Z)) RawError) :=
  match n with
  | O => sret (Ok frames)
  | S n =>
      let$ len := do_call (SysRecv fd (zlen buf)) in
      if len <? 0 then
        let$ e := last_os_error in
        match e with
        | Err (Os no) => if no =? EAGAIN then sret (Ok frames)
                         else if bool_decide (frames = []) then sret e else sret (Ok frames)
        | _ => sret e
        end
      else
        let$ buf := fun h => Done (overwrite buf (stored h), h) in
        if 0 <? len then let$ f := lift (slice buf 0 (Z.to_nat len)) in recv_basic_loop fd n buf (frames ++ [f])
        else recv_basic_loop fd n buf frames
  end.

Definition RECV_BUF : nat := Z.to_nat 65536.

Definition recv_basic (b : RawSocketBackend) (max_frames : nat) : sys (result (list (list Z)) RawError) :=
  recv_basic_loop (rb_fd b) max_frames (replicate RECV_BUF 0) [].

Definition raw_recv_mmap (b : RawSocketBackend) (max_frames : nat) : sys (RawSocketBackend * result (list (list Z)) RawError) :=
  match rb_rx_ring b with
  | None => sret (b, Err (RawKind KOther))
  | Some m =>
      let$ (ring, frames) := lift (recv_mmap max_frames (mp_ring m)) in
      sret (b <| rb_rx_ring := Some (m <| mp_ring := ring |>) |>, Ok frames)
  end.

(** [send_frame] and [recv_frames]. *)
Definition raw_send_frame (b : RawSocketBackend) (frame : list Z) : sys (RawSocketBackend * result Z RawError) :=
  if rb_use_mmap b then raw_send_mmap b frame else let$ r := send_basic b frame in sret (b, r).

Definition raw_recv_frames (b : RawSocketBackend) (max_frames : nat) : sys (RawSocketBackend * result (list (list Z)) RawError) :=
  if rb_use_mmap b then raw_recv_mmap b max_frames else let$ r := recv_basic b max_frames in sret (b, r).

(** ** Flags *)

Definition modify_if_flags (b : RawSocketBackend) (flag : Z) (enable : bool) : sys (result unit RawError) :=
  let$ r := do_call (SysGetFlags (rb_fd b) (ifreq_new (rb_interface b))) in
  if r <? 0 then last_os_error
  else
    let$ ifr := filled_ifreq (ifreq_new (rb_interface b)) in
    let$ flags := lift (ifr_flags ifr) in
    let flags := if enable then Z.lor flags flag else Z.land flags (65535 - flag) in
    let$ ifr := lift (set_ifr_flags ifr flags) in
    let$ r := do_call (SysSetFlags (rb_fd b) ifr) in
    if r <? 0 then last_os_error else sret (Ok tt).

Definition raw_set_promiscuous (b : RawSocketBackend) (enable : bool) : sys (RawSocketBackend * result unit RawError) :=
  let$ r := modify_if_flags b IFF_PROMISC enable in
  sret (match r with Ok _ => b <| rb_promiscuous := enable |> | Err _ => b end, r).

Definition raw_set_allmulticast (b : RawSocketBackend) (enable : bool) : sys (RawSocketBackend * result unit RawError) :=
  let$ r := modify_if_flags b IFF_ALLMULTI enable in
  sret (match r with Ok _ => b <| rb_allmulticast := enable |> | Err _ => b end, r).

(** [Drop for RawSocketBackend]. *)
Definition raw_drop (b : RawSocketBackend) : sys unit :=
  let$ _ := match rb_rx_ring b with Some m => mapping_drop m | None => sret tt end in
  let$ _ := match rb_tx_ring b with Some m => mapping_drop m | None => sret tt end in
  if 0 <=? rb_fd b then let$ _ := do_call (SysClose (rb_fd b)) in sret tt else sret tt.

(** ** A program over a backend *)

Inductive raw_op : Type := OpSend (frame : list Z) | OpRecv (max_frames : nat) | OpPromiscuous (enable : bool) | OpAllmulticast (enable : bool).

Definition run_op (b : RawSocketBackend) (op : raw_op) : sys RawSocketBackend :=
  match op with
  | OpSend frame => let$ (b, _) := raw_send_frame b frame in sret b
  | OpRecv n => let$ (b, _) := raw_recv_frames b n in sret b
  | OpPromiscuous e => let$ (b, _) := raw_set_promiscuous b e in sret b
  | OpAllmulticast e => let$ (b, _) := raw_set_allmulticast b e in sret b
  end.

Fixpoint run_ops (b : RawSocketBackend) (ops : list raw_op) : sys RawSocketBackend :=
  match ops with [] => sret b | op :: ops => let$ b := run_op b op in run_ops b ops end.

(** Open, use, and drop at the end of the scope. *)
Definition raw_session (interface : text) (ops : list raw_op) : sys (result unit RawError) :=
  let$ r := raw_new interface in
  match r with
  | Err e => sret (Err e)
  | Ok b => let$ b := run_ops b ops in let$ _ := raw_drop b in sret (Ok tt)
  end.

(** ** Descriptors *)

Definition fd_of (c : syscall) : option Z :=
  match c with
  | SysSocket | SysMunmap _ _ => None
  | SysIfindex fd _ | SysHwaddr fd _ | SysGetFlags fd _ | SysSetFlags fd _ | SysBind fd _ | SysVersion fd
  | SysRxRing fd _ | SysTxRing fd _ | SysMmap fd _ | SysSendto fd _ _ | SysRecv fd _ | SysClose fd => Some fd
  end.

Fixpoint remove_fd (fd : Z) (o : list Z) : option (list Z) :=
  match o with [] => None | x :: o => if x =? fd then Some o else cons x <$> remove_fd fd o end.

(** The descriptors open after a call: a call on one that is not open has no successor. *)
Definition ledger_step (o : list Z) (cr : syscall * Z) : option (list Z) :=
  match cr with
  | (SysSocket, r) => Some (if r <? 0 then o else r :: o)
  | (SysClose fd, _) => remove_fd fd o
  | (c, _) => match fd_of c with Some fd => if bool_decide (fd ∈ o) then Some o else None | None => Some o end
  end.

Definition ledger (h : calls) : option (list Z) := foldl (fun o cr => o ≫= (fun o => ledger_step o cr)) (Some []) h.

Lemma ledger_snoc h cr : ledger (h ++ [cr]) = ledger h ≫= (fun o => ledger_step o cr).
Proof. unfold ledger. by rewrite foldl_app. Qed.

(** From descriptors [o] the code runs to its end, and every call is on an open descriptor. *)
Definition runs {A} (o : list Z) (m : sys A) (Q : A -> list Z -> Prop) : Prop :=
  forall h, ledger h = Some o -> exists a h' o', m h = Done (a, h') /\ ledger h' = Some o' /\ Q a o'.

Lemma runs_ret {A} o (a : A) (Q : A -> list Z -> Prop) : Q a o -> runs o (sret a) Q.
Proof. intros HQ h Hh. by exists a, h, o. Qed.

Lemma runs_bind {A B} o (m : sys A) (k : A -> sys B) Q R :
  runs o m Q -> (forall a o', Q a o' -> runs o' (k a) R) -> runs o (sbind m k) R.
Proof.
  intros Hm Hk h Hh. destruct (Hm h Hh) as (a & h' & o' & E & Hh' & HQ). destruct (Hk a o' HQ h' Hh') as (b & h2 & o2 & E2 & H2 & HR).
  exists b, h2, o2. unfold sbind. by rewrite E.
Qed.

Lemma runs_lift {A} o (m : outcome A) a (Q : A -> list Z -> Prop) : m = Done a -> Q a o -> runs o (lift m) Q.
Proof. intros -> HQ h Hh. by exists a, h, o. Qed.

Lemma runs_error {A} o (Q : result A RawError -> list Z -> Prop) : (forall e, Q (Err e) o) -> runs o last_os_error Q.
Proof. intros HQ h Hh. exists (Err (Os (errno h))), h, o. split_and!; [done|done|apply HQ]. Qed.

Lemma runs_call o c : (exists fd, fd_of c = Some fd /\ fd ∈ o /\ forall fd, c <> SysClose fd) -> runs o (do_call c) (fun _ o' => o' = o).
Proof.
  intros (fd & Hf & Hin & Hc) h Hh. exists (answer h c), (h ++ [(c, answer h c)]), o. split; [done|]. split; [|done].
  rewrite ledger_snoc, Hh. cbn. destruct c; cbn in Hf; try discriminate; injection Hf as ->; cbn; try (by rewrite bool_decide_true).
  by destruct (Hc fd).
Qed.

Lemma remove_fd_head x l : remove_fd x (x :: l) = Some l.
Proof. cbn. by rewrite Z.eqb_refl. Qed.

Lemma runs_close o fd : runs (fd :: o) (do_call (SysClose fd)) (fun _ o' => o' = o).
Proof.
  intros h Hh. exists (answer h (SysClose fd)), (h ++ [(SysClose fd, answer h (SysClose fd))]), o. split; [done|]. split; [|done].
  rewrite ledger_snoc, Hh. apply remove_fd_head.
Qed.

Lemma runs_socket o : runs o (do_call SysSocket) (fun fd o' => o' = if fd <? 0 then o else fd :: o).
Proof.
  intros h Hh. eexists (answer h SysSocket), (h ++ [(SysSocket, answer h SysSocket)]), _. split; [done|]. split; [|done].
  by rewrite ledger_snoc, Hh.
Qed.

Lemma runs_mono {A} o (m : sys A) (P Q : A -> list Z -> Prop) : runs o m P -> (forall a o', P a o' -> Q a o') -> runs o m Q.
Proof. intros Hm HPQ h Hh. destruct (Hm h Hh) as (a & h' & o' & ? & ? & ?). exists a, h', o'. split_and!; auto. Qed.

Lemma overwrite_length buf bytes : length (overwrite buf bytes) = length buf.
Proof. unfold overwrite. rewrite length_app, length_take, length_drop. lia. Qed.

Lemma runs_filled o i :
  length (ifr_data i) = 24%nat -> runs o (filled_ifreq i) (fun i' o' => o' = o /\ length (ifr_data i') = 24%nat).
Proof.
  intros Hl h Hh. eexists _, h, o. split; [done|]. split; [done|]. split; [done|]. cbn. by rewrite overwrite_length.
Qed.

Ltac call_open := eapply runs_bind; [apply runs_call; eexists; split_and!; [reflexivity|set_solver|discriminate]|intros ? ? ->].

Lemma runs_read {A} o i a b (f : list Z -> A) :
  length (ifr_data i) = 24%nat -> (a <= b <= 24)%nat ->
  runs o (lift (let! l := slice (ifr_data i) a b in Done (f l))) (fun _ o' => o' = o).
Proof. intros Hl Hr. rewrite slice_in_range by lia. by eapply runs_lift. Qed.

Lemma runs_close_error {A} o fd : runs (fd :: o) (close_with_error (A := A) fd) (fun r o' => match r with Ok _ => False | Err _ => o' = o end).
Proof. eapply runs_bind; [apply runs_close|intros ? ? ->]. by apply runs_error. Qed.

(** The outcome of an operation over an open descriptor. *)
Lemma runs_finish o fd interface if_index mac use rings :
  runs (fd :: o) (raw_finish fd interface if_index mac use rings)
    (fun r o' => exists b, r = Ok b /\ rb_fd b = fd /\ rb_use_mmap b = use /\ rb_rx_ring b = (fst <$> rings) /\ rb_tx_ring b = (snd <$> rings) /\ o' = fd :: o).
Proof.
  unfold raw_finish. call_open. eapply (runs_bind _ _ _ (fun _ o' => o' = fd :: o)).
  - destruct (0 <=? _); [|by apply runs_ret]. eapply runs_bind; [by apply runs_filled|]. intros i ? [-> Hl].
    unfold ifr_flags. apply runs_read; [done|lia].
  - intros flags ? ->. apply runs_ret. eexists. split; [reflexivity|]. by split_and!.
Qed.

Lemma runs_new o interface :
  runs o (raw_new interface)
    (fun r o' => match r with
                 | Err _ => o' = o
                 | Ok b => 0 <= rb_fd b /\ o' = rb_fd b :: o /\ rb_use_mmap b = false /\ rb_rx_ring b = None /\ rb_tx_ring b = None
                 end).
Proof.
  unfold raw_new, with_mmap. eapply runs_bind; [apply runs_socket|intros fd ? ->].
  destruct (fd <? 0) eqn:Hfd; [by apply runs_error|]. apply Z.ltb_ge in Hfd.
  assert (Hclose : runs (fd :: o) (close_with_error (A := RawSocketBackend) fd)
    (fun r o' => match r with Err _ => o' = o | Ok b => 0 <= rb_fd b /\ o' = rb_fd b :: o /\ rb_use_mmap b = false /\ rb_rx_ring b = None /\ rb_tx_ring b = None end)).
  { eapply runs_mono; [apply runs_close_error|]. by intros [?|?] ? ?. }
  call_open. destruct (_ <? 0); [exact Hclose|].
  eapply runs_bind; [by apply runs_filled|intros i ? [-> Hl]].
  eapply runs_bind; [apply runs_read; [done|lia]|intros if_index ? ->].
  call_open. destruct (_ <? 0); [exact Hclose|].
  eapply runs_bind; [by apply runs_filled|intros i' ? [-> Hl']].
  eapply (runs_bind _ _ _ (fun _ o' => o' = fd :: o)); [by eapply runs_lift; [apply slice_in_range; lia|]|intros mac ? ->].
  call_open. destruct (_ <? 0); [exact Hclose|].
  eapply runs_mono; [apply runs_finish|]. intros r o' (b & -> & Hf & Hu & Hr & Ht & ->). cbn in *. subst fd. auto.
Qed.

(** A backend in basic mode over its open descriptor. *)
Definition basic_on (o : list Z) (b : RawSocketBackend) (o' : list Z) : Prop :=
  0 <= rb_fd b /\ o' = rb_fd b :: o /\ rb_use_mmap b = false /\ rb_rx_ring b = None /\ rb_tx_ring b = None.

Lemma blit_in_range (l : list Z) a b src :
  (a <= b <= length l)%nat -> length src = (b - a)%nat -> blit l a b src = Done (take a l ++ src ++ drop b l).
Proof. intros Hr Hs. unfold blit. repeat bcase; (done || lia). Qed.

Lemma runs_modify o b flag enable : runs (rb_fd b :: o) (modify_if_flags b flag enable) (fun _ o' => o' = rb_fd b :: o).
Proof.
  unfold modify_if_flags. call_open. destruct (_ <? 0); [by apply runs_error|].
  eapply runs_bind; [by apply runs_filled|intros i ? [-> Hl]].
  eapply runs_bind; [apply runs_read; [done|lia]|intros flags ? ->].
  eapply (runs_bind _ _ _ (fun _ o' => o' = rb_fd b :: o)).
  { unfold set_ifr_flags. eapply runs_lift; [|done]. by rewrite (blit_in_range (ifr_data i) 0 2) by (cbn; lia). }
  intros i' ? ->. call_open. destruct (_ <? 0); [by apply runs_error|by apply runs_ret].
Qed.

Section Receiving.

Hypothesis recv_bounded : forall h fd len, 0 <= len -> answer h (SysRecv fd len) <= len.

Lemma runs_recv o fd len : fd ∈ o -> 0 <= len -> runs o (do_call (SysRecv fd len)) (fun r o' => o' = o /\ r <= len).
Proof.
  intros Hin Hlen h Hh. destruct (runs_call o (SysRecv fd len)) with (h := h) as (r & h' & o' & E & Hh' & ->);
    [by exists fd|done|].
  exists r, h', o. split_and!; [done|done|done|]. injection E as <- <-. by apply recv_bounded.
Qed.

Lemma runs_recv_loop o fd n : forall buf frames, runs (fd :: o) (recv_basic_loop fd n buf frames) (fun _ o' => o' = fd :: o).
Proof.
  induction n as [|n IH]; intros buf frames; cbn [recv_basic_loop]; [by apply runs_ret|].
  eapply runs_bind; [apply runs_recv; [set_solver|unfold zlen; lia]|intros len ? [-> Hlen]].
  destruct (len <? 0) eqn:Hneg.
  - eapply (runs_bind _ _ _ (fun _ o' => o' = fd :: o)); [by apply runs_error|intros e ? ->].
    destruct e as [?|[no|?]]; try by apply runs_ret. repeat case_match; by apply runs_ret.
  - eapply (runs_bind _ _ _ (fun (b : list Z) o' => o' = fd :: o /\ length b = length buf)).
    { intros h Hh. exists (overwrite buf (stored h)), h, (fd :: o). split_and!; [done|done|done|apply overwrite_length]. }
    intros buf' ? [-> Hb]. destruct (0 <? len); [|apply IH].
    eapply (runs_bind _ _ _ (fun _ o' => o' = fd :: o)); [eapply runs_lift; [apply slice_in_range; unfold zlen in *; lia|done]|].
    intros f ? ->. apply IH.
Qed.

Lemma runs_op o b op o1 : basic_on o b o1 -> runs o1 (run_op b op) (basic_on o).
Proof.
  intros (Hf & -> & Hu & Hr & Ht).
  assert (Hb : basic_on o b (rb_fd b :: o)) by done.
  destruct op as [frame|n|e|e]; cbn [run_op].
  - unfold raw_send_frame. rewrite Hu. unfold send_basic.
    eapply (runs_bind _ _ _ (fun br o' => br.1 = b /\ o' = rb_fd b :: o)).
    { eapply (runs_bind _ _ _ (fun _ o' => o' = rb_fd b :: o)); [|by intros ? ? ->; apply runs_ret].
      call_open. destruct (_ <? 0); [by apply runs_error|by apply runs_ret]. }
    intros [b' r] ? [E ->]. cbn in E. subst b'. by apply runs_ret.
  - unfold raw_recv_frames. rewrite Hu. unfold recv_basic.
    eapply (runs_bind _ _ _ (fun br o' => br.1 = b /\ o' = rb_fd b :: o)).
    { eapply runs_bind; [apply runs_recv_loop|]. by intros ? ? ->; apply runs_ret. }
    intros [b' r] ? [E ->]. cbn in E. subst b'. by apply runs_ret.
  - eapply (runs_bind _ _ _ (fun br o' => basic_on o br.1 o')); [|by intros [b' r] ? ?; apply runs_ret].
    eapply runs_bind; [apply runs_modify|intros r ? ->]. apply runs_ret. by destruct r.
  - eapply (runs_bind _ _ _ (fun br o' => basic_on o br.1 o')); [|by intros [b' r] ? ?; apply runs_ret].
    eapply runs_bind; [apply runs_modify|intros r ? ->]. apply runs_ret. by destruct r.
Qed.

Lemma runs_ops o ops : forall b o1, basic_on o b o1 -> runs o1 (run_ops b ops) (basic_on o).
Proof.
  induction ops as [|op ops IH]; intros b o1 Hb; cbn [run_ops]; [by apply runs_ret|].
  eapply runs_bind; [by apply runs_op|]. intros b' o2 Hb'. by apply IH.
Qed.

Lemma runs_drop o b o1 : basic_on o b o1 -> runs o1 (raw_drop b) (fun _ o' => o' = o).
Proof.
  intros (Hf & -> & Hu & Hr & Ht). unfold raw_drop. rewrite Hr, Ht.
  do 2 (eapply (runs_bind _ _ _ (fun _ o' => o' = rb_fd b :: o)); [by apply runs_ret|intros ? ? ->]).
  rewrite (proj2 (Z.leb_le _ _) Hf). eapply runs_bind; [apply runs_close|intros ? ? ->]. by apply runs_ret.
Qed.

(** C22: a program that opens a raw-socket backend, uses it in any way and lets go of it runs to its end whatever
    the kernel answers, makes no call on a descriptor that is not open, closes none twice, and leaves exactly the
    descriptors that were open before, on the error paths too. *)
Theorem raw_session_returns_descriptors interface ops h o :
  ledger h = Some o ->
  exists r h', raw_session interface ops h = Done (r, h') /\ ledger h' = Some o.
Proof.
  intros Hh. cut (runs o (raw_session interface ops) (fun _ o' => o' = o)).
  { intros Hr. destruct (Hr h Hh) as (r & h' & o' & E & Hh' & ->). by exists r, h'. }
  eapply runs_bind; [apply runs_new|]. intros [b|e] o1 Hn; [|subst o1; by apply runs_ret].
  eapply runs_bind; [apply runs_ops, Hn|]. intros b' o2 Hb'.
  eapply runs_bind; [by apply runs_drop|intros ? ? ->]. by apply runs_ret.
Qed.

(** The packets the kernel handed over in the calls [cs], made after [h]. *)
Fixpoint packets (h cs : calls) : list (list Z) :=
  match cs with
  | [] => []
  | c :: cs =>
      match c with (SysRecv _ _, r) => if 0 <? r then [take (Z.to_nat r) (stored (h ++ [c]))] else [] | _ => [] end ++ packets (h ++ [c]) cs
  end.

(** A batch ended early because the last call failed. *)
Definition cut_short (cs : calls) : Prop := exists c, last cs = Some c /\ c.2 < 0.

Hypothesis recv_stores : forall h fd len, 0 < answer h (SysRecv fd len) ->
  length (stored (h ++ [(SysRecv fd len, answer h (SysRecv fd len))])) = Z.to_nat (answer h (SysRecv fd len)).

Lemma overwrite_front (buf bytes : list Z) : (length bytes <= length buf)%nat -> slice (overwrite buf bytes) 0 (length bytes) = Done bytes.
Proof.
  intros Hl. unfold overwrite. rewrite (take_ge bytes) by lia. apply (slice_mid [] bytes); cbn; lia.
Qed.

Lemma last_cons_ne {A} (x : A) l : l <> [] -> last (x :: l) = last l.
Proof. by destruct l. Qed.

Lemma recv_loop_spec fd n : forall buf frames h,
  exists r cs, recv_basic_loop fd n buf frames h = Done (r, h ++ cs) /\ Forall (fun c => c.1 = SysRecv fd (zlen buf)) cs /\
    (length cs <= n)%nat /\ ((length cs < n)%nat -> cut_short cs) /\
    match r with Ok out => out = frames ++ packets h cs | Err _ => frames = [] /\ packets h cs = [] /\ cut_short cs end.
Proof.
  induction n as [|n IH]; intros buf frames h; cbn [recv_basic_loop].
  { exists (Ok frames), []. rewrite !app_nil_r. split_and!; [done|done|cbn; lia|cbn; lia|done]. }
  unfold sbind at 1. cbn [do_call]. unfold do_call.
  remember (SysRecv fd (zlen buf)) as c eqn:Ec. remember (answer h c) as len eqn:Elen. remember (h ++ [(c, len)]) as h1 eqn:Eh1. cbn.
  destruct (len <? 0) eqn:Hneg.
  - assert (Hcut : cut_short [(c, len)]) by (exists (c, len); cbn; split; [done|lia]).
    assert (Hp : packets h [(c, len)] = []) by (cbn; rewrite Ec; by rewrite (proj2 (Z.ltb_ge 0 len)) by lia).
    assert (Hc : Forall (fun x => x.1 = c) [(c, len)]) by by repeat constructor.
    unfold sbind, last_os_error, sret. cbn.
    destruct (errno h1 =? EAGAIN); [|destruct (bool_decide (frames = [])) eqn:Hb].
    + exists (Ok frames), [(c, len)]. rewrite Hp, app_nil_r. split_and!; [by rewrite Eh1|done|cbn; lia|done|done].
    + exists (Err (Os (errno h1))), [(c, len)]. apply bool_decide_eq_true in Hb.
      split_and!; [by rewrite Eh1|done|cbn; lia|done|done|done|done].
    + exists (Ok frames), [(c, len)]. rewrite Hp, app_nil_r. split_and!; [by rewrite Eh1|done|cbn; lia|done|done].
  - unfold sbind at 1. set (buf' := overwrite buf (stored h1)). cbn.
    assert (Hz : zlen buf' = zlen buf) by (unfold zlen, buf'; by rewrite overwrite_length).
    assert (Hgo : forall frames', frames' = frames ++ packets h [(c, len)] -> exists r cs,
      recv_basic_loop fd n buf' frames' h1 = Done (r, h ++ cs) /\ Forall (fun x => x.1 = c) cs /\
      (length cs <= S n)%nat /\ ((length cs < S n)%nat -> cut_short cs) /\
      match r with Ok out => out = frames ++ packets h cs | Err _ => frames = [] /\ packets h cs = [] /\ cut_short cs end).
    { intros frames' Hf'. destruct (IH buf' frames' h1) as (r & cs & E & Hcs & Hl & Hshort & Hr). rewrite Hz, <- Ec in Hcs.
      exists r, ((c, len) :: cs).
      assert (Hcut : cut_short cs -> cut_short ((c, len) :: cs)).
      { intros (x & Hx & Hx2). exists x. split; [|done]. rewrite last_cons_ne; [done|]. by intros ->. }
      assert (Hpk : packets h ((c, len) :: cs) = packets h [(c, len)] ++ packets h1 cs) by (cbn; by rewrite app_nil_r, Eh1).
      split_and!; [by rewrite E, Eh1, <- app_assoc|by constructor|cbn; lia|intros; apply Hcut, Hshort; cbn in *; lia|].
      rewrite Hpk. destruct r as [out|e].
      - by rewrite Hr, Hf', app_assoc.
      - destruct Hr as (H1 & H2 & H3). rewrite H2, app_nil_r. rewrite Hf' in H1. apply app_eq_nil in H1 as [-> ->]. split_and!; auto. }
    destruct (0 <? len) eqn:Hpos.
    + assert (Hst : length (stored h1) = Z.to_nat len) by (rewrite Eh1, Elen, Ec; apply recv_stores; rewrite <- Ec, <- Elen; lia).
      unfold sbind. cbn. unfold buf'. rewrite <- Hst, overwrite_front by (rewrite Hst; pose proof (recv_bounded h fd (zlen buf) ltac:(unfold zlen; lia)) as Hrb; rewrite <- Ec, <- Elen in Hrb; unfold zlen in Hrb; lia).
      cbn. apply Hgo. f_equal. cbn. rewrite Ec, <- Ec, <- Eh1, Hpos, <- Hst, take_ge by lia. done.
    + apply Hgo. cbn. rewrite Ec, Hpos. by rewrite app_nil_r.
Qed.

(** A batch receive in basic mode returns exactly the packets the kernel handed over, in their order and with their bytes;
    it makes at most [max_frames] calls and stops before only at a call that fails; it reports an error only when that
    call was the first to give anything, so a packet already taken from the socket is never dropped for a later error. *)
Theorem recv_basic_loses_nothing b max_frames h :
  exists r cs, recv_basic b max_frames h = Done (r, h ++ cs) /\ Forall (fun c => c.1 = SysRecv (rb_fd b) 65536) cs /\
    (length cs <= max_frames)%nat /\ ((length cs < max_frames)%nat -> cut_short cs) /\
    match r with Ok frames => frames = packets h cs | Err _ => packets h cs = [] /\ cut_short cs end.
Proof.
  destruct (recv_loop_spec (rb_fd b) max_frames (replicate RECV_BUF 0) [] h) as (r & cs & E & Hc & Hl & Hs & Hr).
  exists r, cs. assert (Hz : zlen (replicate RECV_BUF 0) = 65536) by (unfold zlen, RECV_BUF; rewrite length_replicate, Z2Nat.id; [reflexivity|discriminate]).
  rewrite Hz in Hc. split_and!; [exact E|exact Hc|exact Hl|exact Hs|]. clear E. destruct r; [exact Hr|exact (proj2 Hr)].
Qed.

End Receiving.

(** *** Interface flags *)

Lemma sbind_done {A B} (m : sys A) (k : A -> sys B) h a h' : m h = Done (a, h') -> sbind m k h = k a h'.
Proof. intros E. unfold sbind. by rewrite E. Qed.

Section Flags.

Context (flags_now : calls -> Z).
Hypothesis flags_width : forall h, 0 <= flags_now h < 65536.
Hypothesis get_flags : forall h fd i, 0 <= answer h (SysGetFlags fd i) ->
  exists rest, stored (h ++ [(SysGetFlags fd i, answer h (SysGetFlags fd i))]) = [u8 (flags_now h); u8 (flags_now h / 256)] ++ rest.
Hypothesis get_keeps : forall h fd i r, flags_now (h ++ [(SysGetFlags fd i, r)]) = flags_now h.
Hypothesis set_flags : forall h fd i r, 0 <= of_le16 (take 2 (ifr_data i)) < 65536 -> flags_now (h ++ [(SysSetFlags fd i, r)]) = if r <? 0 then flags_now h else of_le16 (take 2 (ifr_data i)).

Lemma le16_of (z : Z) : 0 <= z < 65536 -> of_le16 [u8 z; u8 (z / 256)] = z.
Proof.
  intros Hz. cbn. unfold u8. rewrite (Z.mod_small (z / 256)) by (split; [apply Z.div_pos; lia|apply Z.div_lt_upper_bound; lia]).
  pose proof (Z.div_mod z 256). lia.
Qed.

Lemma modify_if_flags_spec (b : RawSocketBackend) (flag : Z) (enable : bool) (h : calls) :
  let f := flags_now h in
  let f' := if enable then Z.lor f flag else Z.land f (65535 - flag) in
  0 <= f' < 65536 ->
  exists r h', modify_if_flags b flag enable h = Done (r, h') /\
    match r with Ok _ => flags_now h' = f' | Err _ => flags_now h' = f end.
Proof.
  intros f f' Hf'. set (q := ifreq_new (rb_interface b)). unfold modify_if_flags. fold q.
  pose proof (get_flags h (rb_fd b) q) as Hg. pose proof (get_keeps h (rb_fd b) q (answer h (SysGetFlags (rb_fd b) q))) as Hk.
  erewrite sbind_done by reflexivity. remember (answer h (SysGetFlags (rb_fd b) q)) as r eqn:Er. clear Er.
  remember (h ++ [(SysGetFlags (rb_fd b) q, r)]) as h1 eqn:Eh1. clear Eh1.
  destruct (r <? 0) eqn:Hr; [by exists (Err (Os (errno h1))), h1|].
  destruct (Hg ltac:(lia)) as [rest Est].
  set (tail := take 22 rest ++ drop (2 + length rest) (replicate 24 0)).
  assert (Ef : overwrite (ifr_data q) (stored h1) = [u8 f; u8 (f / 256)] ++ tail) by by rewrite Est.
  erewrite sbind_done by reflexivity. unfold ifr_flags, set_ifr_flags. cbn [ifr_data ifr_name]. rewrite Ef.
  rewrite (slice_mid [] [u8 f; u8 (f / 256)] tail) by reflexivity. rewrite (sbind_done _ _ _ _ _ eq_refl).
  rewrite (le16_of f) by apply flags_width. fold f'.
  rewrite (blit_mid [] [u8 f; u8 (f / 256)] tail) by reflexivity. rewrite (sbind_done _ _ _ _ _ eq_refl).
  rewrite (sbind_done _ _ _ _ _ eq_refl).
  set (q' := MkIfreq _ _). assert (Hq : of_le16 (take 2 (ifr_data q')) = f') by by apply le16_of.
  pose proof (set_flags h1 (rb_fd b) q' (answer h1 (SysSetFlags (rb_fd b) q')) ltac:(rewrite Hq; exact Hf')) as Hs. rewrite Hq in Hs.
  remember (answer h1 (SysSetFlags (rb_fd b) q')) as r2 eqn:Er2. clear Er2.
  remember (h1 ++ [(SysSetFlags (rb_fd b) q', r2)]) as h2 eqn:Eh2. clear Eh2.
  destruct (r2 <? 0) in *; [exists (Err (Os (errno h2))), h2|exists (Ok tt), h2]; (split; [done|]); [by rewrite Hs|done].
Qed.

(** Bits of the sixteen flags, one by one. *)
Ltac each_bit i := assert (i = 0 \/ i = 1 \/ i = 2 \/ i = 3 \/ i = 4 \/ i = 5 \/ i = 6 \/ i = 7 \/ i = 8 \/ i = 9 \/ i = 10 \/ i = 11 \/
  i = 12 \/ i = 13 \/ i = 14 \/ i = 15) as Hbits by lia; repeat destruct Hbits as [->|Hbits]; try subst i.

Lemma flag_update f k enable :
  0 <= f < 65536 -> 0 <= k < 16 ->
  let f' := if enable : bool then Z.lor f (2 ^ k) else Z.land f (65535 - 2 ^ k) in
  0 <= f' < 65536 /\ Z.testbit f' k = enable /\ forall i, 0 <= i < 16 -> i <> k -> Z.testbit f' i = Z.testbit f i.
Proof.
  intros Hf Hk f'. assert (Hb : 65535 - 2 ^ k = Z.ldiff 65535 (2 ^ k)) by (each_bit k; reflexivity).
  assert (Hbit : forall i, 0 <= i < 16 -> Z.testbit f' i = if i =? k then enable else Z.testbit f i).
  { intros i Hi. unfold f'. assert (Z.testbit 65535 i = true) as H1 by (each_bit i; reflexivity). destruct enable.
    - rewrite Z.lor_spec, Z.pow2_bits_eqb by lia. destruct (Z.eqb_spec i k) as [->|]; [by rewrite Z.eqb_refl, orb_true_r|].
      by rewrite (proj2 (Z.eqb_neq k i)), orb_false_r by lia.
    - rewrite Hb, Z.land_spec, Z.ldiff_spec, H1, Z.pow2_bits_eqb by lia. destruct (Z.eqb_spec i k) as [->|]; [by rewrite Z.eqb_refl, andb_false_r|].
      by rewrite (proj2 (Z.eqb_neq k i)), andb_true_r by lia. }
  split; [|split].
  - assert (H0 : 0 <= f').
    { unfold f'. destruct enable; [apply Z.lor_nonneg; split; [lia|apply Z.pow_nonneg; lia]|apply Z.land_nonneg; lia]. }
    split; [done|]. change 65536 with (2 ^ 16). apply Z.log2_lt_cancel. rewrite Z.log2_pow2 by lia.
    unfold f'. destruct enable.
    + rewrite Z.log2_lor by (try lia; apply Z.pow_nonneg; lia). rewrite Z.log2_pow2 by lia.
      apply Z.max_lub_lt; [|lia]. destruct (Z.eq_dec f 0) as [->|]; [done|]. apply Z.log2_lt_pow2; lia.
    + eapply Z.le_lt_trans; [apply Z.log2_land; [lia|]|].
      { each_bit k; cbn; lia. }
      apply Z.min_lt_iff. left. destruct (Z.eq_dec f 0) as [->|]; [done|]. apply Z.log2_lt_pow2; lia.
  - by rewrite Hbit, Z.eqb_refl by lia.
  - intros i Hi Hne. by rewrite Hbit, (proj2 (Z.eqb_neq _ _)) by lia.
Qed.

(** Setting promiscuous mode changes that flag of the interface and no other, and the cached mode follows; when
    a call fails, neither the interface nor the cached mode changes. *)
Theorem set_promiscuous_one_flag b enable h :
  exists b' r h', raw_set_promiscuous b enable h = Done ((b', r), h') /\
    match r with
    | Ok _ => rb_promiscuous b' = enable /\ Z.testbit (flags_now h') 8 = enable /\
              forall i, 0 <= i < 16 -> i <> 8 -> Z.testbit (flags_now h') i = Z.testbit (flags_now h) i
    | Err _ => b' = b /\ flags_now h' = flags_now h
    end.
Proof.
  destruct (flag_update (flags_now h) 8 enable (flags_width h)) as (Hw & Hon & Hoff); [lia|].
  destruct (modify_if_flags_spec b IFF_PROMISC enable h Hw) as (r & h' & E & Hr).
  unfold raw_set_promiscuous. erewrite sbind_done by exact E. destruct r as [u|e].
  - eexists _, (Ok u), h'. split; [reflexivity|]. rewrite Hr. by split_and!.
  - by exists b, (Err e), h'.
Qed.

End Flags.

(** *** Ring set-up *)

(** The bytes of the rings configured on a descriptor since it was opened. *)
Definition ring_step (fd n : Z) (cr : syscall * Z) : Z :=
  match cr with
  | (SysSocket, r) => if r =? fd then 0 else n
  | (SysRxRing fd' q, r) | (SysTxRing fd' q, r) => if (fd' =? fd) && (0 <=? r) then n + tp_block_size q * tp_block_nr q else n
  | _ => n
  end.

Definition ring_bytes (h : calls) (fd : Z) : Z := foldl (ring_step fd) 0 h.

Lemma ring_bytes_snoc h fd cr : ring_bytes (h ++ [cr]) fd = ring_step fd (ring_bytes h fd) cr.
Proof. unfold ring_bytes. by rewrite foldl_app. Qed.

Lemma ifindex_total i : length (ifr_data i) = 24%nat -> exists v, ifr_ifindex i = Done v.
Proof. intros Hl. unfold ifr_ifindex. rewrite slice_in_range by lia. by eexists. Qed.

Lemma hwaddr_total i : length (ifr_data i) = 24%nat -> exists v, ifr_hwaddr i = Done v.
Proof. intros Hl. unfold ifr_hwaddr. rewrite slice_in_range by lia. by eexists. Qed.

Section Mapping.

(** Both rings of a socket are mapped by one call, of exactly their size. *)
Hypothesis mmap_exact : forall h fd len, len <> ring_bytes h fd -> answer h (SysMmap fd len) = -1.

Lemma ledger_keeps h c r fd o :
  ledger h = Some (fd :: o) -> fd_of c = Some fd -> c <> SysClose fd -> ledger (h ++ [(c, r)]) = Some (fd :: o).
Proof.
  intros Hh Hc Hne. rewrite ledger_snoc, Hh. cbn.
  destruct c; cbn in Hc; try discriminate; injection Hc as ->; cbn; try (by rewrite bool_decide_true by set_solver). done.
Qed.

Lemma total_size_req config req : to_tpacket_req config = Done req -> total_size config = Done (tp_block_size req * tp_block_nr req).
Proof.
  unfold to_tpacket_req, total_size. destruct (block_size config) as [b| |]; cbn; [|discriminate..].
  destruct (cdiv b _) as [f| |]; cbn; [|discriminate..]. destruct (block_count config) as [n| |]; cbn; [|discriminate..].
  by intros [= <-].
Qed.

Lemma setup_mmap_refused fd config h o req :
  to_tpacket_req config = Done req -> 0 < tp_block_size req * tp_block_nr req ->
  ledger h = Some (fd :: o) -> ring_bytes h fd = 0 ->
  exists e h', setup_mmap_rings fd config h = Done (Err e, h') /\ ledger h' = Some (fd :: o) /\ exists cs, h' = h ++ cs.
Proof.
  intros Hreq Hpos Hl Hb. pose proof (total_size_req _ _ Hreq) as Htot. set (total := tp_block_size req * tp_block_nr req) in *. unfold setup_mmap_rings.
  rewrite (sbind_done _ _ _ _ _ eq_refl). set (r1 := answer h _). set (h1 := h ++ _).
  assert (L1 : ledger h1 = Some (fd :: o)) by by apply ledger_keeps.
  assert (B1 : ring_bytes h1 fd = 0) by (unfold h1; by rewrite ring_bytes_snoc).
  destruct (r1 <? 0); [exists (Os (errno h1)), h1; split_and!; [done|done|by eexists]|].
  rewrite Hreq, (sbind_done _ _ _ _ _ eq_refl), (sbind_done _ _ _ _ _ eq_refl). set (r2 := answer h1 _). set (h2 := h1 ++ _).
  assert (L2 : ledger h2 = Some (fd :: o)) by by apply ledger_keeps.
  assert (E2 : h2 = h ++ [(SysVersion fd, r1); (SysRxRing fd req, r2)]) by (unfold h2, h1; by rewrite <- app_assoc).
  assert (B2 : ring_bytes h2 fd = if 0 <=? r2 then total else 0).
  { unfold h2. rewrite ring_bytes_snoc, B1. cbn. rewrite Z.eqb_refl. cbn. by destruct (0 <=? r2). }
  destruct (r2 <? 0) eqn:Hr2; [exists (Os (errno h2)), h2; split_and!; [done|done|by eexists]|].
  rewrite (sbind_done _ _ _ _ _ eq_refl). set (r3 := answer h2 _). set (h3 := h2 ++ _).
  assert (L3 : ledger h3 = Some (fd :: o)) by by apply ledger_keeps.
  assert (E3 : h3 = h ++ [(SysVersion fd, r1); (SysRxRing fd req, r2); (SysTxRing fd req, r3)]) by (unfold h3; rewrite E2; by rewrite <- app_assoc).
  assert (B3 : ring_bytes h3 fd = (if 0 <=? r2 then total else 0) + if 0 <=? r3 then total else 0).
  { unfold h3. rewrite ring_bytes_snoc, B2. cbn. rewrite Z.eqb_refl. cbn. fold total. destruct (0 <=? r3); lia. }
  destruct (r3 <? 0) eqn:Hr3; [exists (Os (errno h3)), h3; split_and!; [done|done|by eexists]|].
  rewrite Htot, (sbind_done _ _ _ _ _ eq_refl).
  assert (Hno : mmap_ring_new fd config 0 h3 = Done (Err (Os (errno (h3 ++ [(SysMmap fd (total + 0), -1)]))), h3 ++ [(SysMmap fd (total + 0), -1)])).
  { unfold mmap_ring_new. rewrite Htot, (sbind_done _ _ _ _ _ eq_refl), Hreq, (sbind_done _ _ _ _ _ eq_refl), (sbind_done _ _ _ _ _ eq_refl).
    rewrite mmap_exact; [done|]. rewrite B3, !(proj2 (Z.leb_le _ _)) by lia. lia. }
  rewrite (sbind_done _ _ _ _ _ Hno). eexists _, _. split; [reflexivity|]. split; [by apply ledger_keeps|]. rewrite E3. by eexists; rewrite <- app_assoc.
Qed.

(** Construction fails: with the descriptor closed, or left open. *)
Definition left_open (h cs : calls) (o : list Z) : Prop :=
  exists fd if_index r, (SysBind fd if_index, r) ∈ cs /\ 0 <= r /\ ledger (h ++ cs) = Some (fd :: o).

Definition all_closed (h cs : calls) (o : list Z) : Prop :=
  ledger (h ++ cs) = Some o /\ forall fd if_index r, (SysBind fd if_index, r) ∈ cs -> r < 0.

Lemma closed_after {A} fd h h1 cs o :
  h1 = h ++ cs -> ledger h1 = Some (fd :: o) -> (forall fd i r, (SysBind fd i, r) ∈ cs -> r < 0) ->
  exists e cs, close_with_error (A := A) fd h1 = Done (Err e, h ++ cs) /\ (left_open h cs o \/ all_closed h cs o).
Proof.
  intros -> Hl Hcs. eexists _, (cs ++ [(SysClose fd, answer (h ++ cs) (SysClose fd))]). rewrite app_assoc. split; [reflexivity|].
  right. split; [rewrite app_assoc, ledger_snoc, Hl; apply remove_fd_head|]. intros f i r. rewrite elem_of_app, list_elem_of_singleton. intros [H|[=]]. by eapply Hcs.
Qed.

(** Where the kernel maps the rings of a socket only both at once, opening a backend with mapped rings never succeeds, and
    whenever the socket could be bound its descriptor stays open, although no value owns it. *)
Theorem mmap_mode_leaks_descriptor interface config req h o :
  to_tpacket_req config = Done req -> 0 < tp_block_size req * tp_block_nr req -> ledger h = Some o ->
  exists e cs, with_mmap interface true config h = Done (Err e, h ++ cs) /\ (left_open h cs o \/ all_closed h cs o).
Proof.
  intros Hreq Hpos Hl. unfold with_mmap. set (q := ifreq_new interface).
  rewrite (sbind_done _ _ _ _ _ eq_refl). set (fd := answer h SysSocket). set (h1 := h ++ _).
  assert (L1 : ledger h1 = Some (if fd <? 0 then o else fd :: o)) by (unfold h1; by rewrite ledger_snoc, Hl).
  assert (B1 : ring_bytes h1 fd = 0) by (unfold h1; rewrite ring_bytes_snoc; cbn; by rewrite Z.eqb_refl).
  destruct (fd <? 0) eqn:Hfd.
  { eexists _, _. split; [reflexivity|]. right. split; [exact L1|]. intros ? ? ? ?%list_elem_of_singleton. done. }
  rewrite (sbind_done _ _ _ _ _ eq_refl). set (r2 := answer h1 _). set (h2 := h1 ++ _).
  assert (L2 : ledger h2 = Some (fd :: o)) by by apply ledger_keeps.
  assert (E2 : h2 = h ++ [(SysSocket, fd); (SysIfindex fd q, r2)]) by (unfold h2, h1; by rewrite <- app_assoc).
  destruct (r2 <? 0); [by eapply closed_after; [exact E2|exact L2|set_solver]|].
  rewrite (sbind_done _ _ _ _ _ eq_refl).
  assert (F : forall h, length (ifr_data (MkIfreq (ifr_name q) (overwrite (ifr_data q) (stored h)))) = 24%nat) by (intros; apply overwrite_length).
  destruct (ifindex_total _ (F h2)) as [if_index Ei]. rewrite Ei, (sbind_done _ _ _ _ _ eq_refl), (sbind_done _ _ _ _ _ eq_refl).
  set (r3 := answer h2 _). set (h3 := h2 ++ _).
  assert (L3 : ledger h3 = Some (fd :: o)) by by apply ledger_keeps.
  assert (E3 : h3 = h ++ [(SysSocket, fd); (SysIfindex fd q, r2); (SysHwaddr fd q, r3)]) by (unfold h3; rewrite E2; by rewrite <- app_assoc).
  destruct (r3 <? 0); [by eapply closed_after; [exact E3|exact L3|set_solver]|].
  rewrite (sbind_done _ _ _ _ _ eq_refl). destruct (hwaddr_total _ (F h3)) as [mac Em].
  rewrite Em, (sbind_done _ _ _ _ _ eq_refl), (sbind_done _ _ _ _ _ eq_refl).
  set (r4 := answer h3 _). set (h4 := h3 ++ _).
  assert (L4 : ledger h4 = Some (fd :: o)) by by apply ledger_keeps.
  assert (E4 : h4 = h ++ [(SysSocket, fd); (SysIfindex fd q, r2); (SysHwaddr fd q, r3); (SysBind fd if_index, r4)])
    by (unfold h4; rewrite E3; by rewrite <- app_assoc).
  destruct (r4 <? 0) eqn:Hr4.
  { eapply closed_after; [exact E4|exact L4|]. intros f i r Hin. assert (r = r4) as -> by set_solver. lia. }
  assert (B4 : ring_bytes h4 fd = 0) by (unfold h4, h3, h2; by rewrite !ring_bytes_snoc, B1).
  destruct (setup_mmap_refused _ _ _ _ _ Hreq Hpos L4 B4) as (e & h5 & E5 & L5 & cs & ->).
  rewrite (sbind_done _ _ _ _ _ E5), E4 in *. rewrite <- app_assoc in L5 |- *. eexists e, _. split; [reflexivity|].
  left. exists fd, if_index, r4. split_and!; [|lia|exact L5]. rewrite elem_of_app. left. set_solver.
Qed.

End Mapping.

End Kernel.

(** ** A kernel *)

Module Sample.

(** Interface flags from the calls made: up and running at first. *)
Definition flags_step (f : Z) (cr : syscall * Z) : Z :=
  match cr with
  | (SysSetFlags _ i, r) => let v := of_le16 (take 2 (ifr_data i)) in if (r <? 0) || (v <? 0) || (65536 <=? v) then f else v
  | _ => f
  end.

Definition flags (h : calls) : Z := foldl flags_step 4163 h.

Definition received (h : calls) : nat := length (List.filter (fun cr : syscall * Z => match cr.1 with SysRecv _ _ => true | _ => false end) h).

(** A socket, two packets of four bytes, and mappings of the whole rings. *)
Definition answer (h : calls) (c : syscall) : Z :=
  match c with
  | SysSocket => 3
  | SysRecv _ len => if (received h <? 2)%nat then Z.min 4 len else -1
  | SysMmap fd len => if len =? ring_bytes h fd then 4096 else -1
  | _ => 0
  end.

Definition stored (h : calls) : list Z :=
  match last h with
  | Some (SysRecv _ _, r) => replicate (Z.to_nat r) 7
  | Some (SysGetFlags _ _, _) => [u8 (flags h); u8 (flags h / 256)]
  | _ => replicate 24 2
  end.

Definition eth0 : text := [101; 116; 104; 48].
Definition backend : RawSocketBackend := MkRaw 3 eth0 2 [2; 2; 2; 2; 2; 2] false None None false false.

Lemma flags_snoc h cr : flags (h ++ [cr]) = flags_step (flags h) cr.
Proof. unfold flags. by rewrite foldl_app. Qed.

Lemma flags_range h : 0 <= flags h < 65536.
Proof.
  induction h as [|cr h IH] using rev_ind; [done|]. rewrite flags_snoc. destruct cr as [[] r]; cbn; try exact IH.
  repeat case_match; try lia.
Qed.

Lemma recv_within h fd len : 0 <= len -> answer h (SysRecv fd len) <= len.
Proof. cbn. case_match; lia. Qed.

Lemma recv_fills h fd len : 0 < answer h (SysRecv fd len) ->
  length (stored (h ++ [(SysRecv fd len, answer h (SysRecv fd len))])) = Z.to_nat (answer h (SysRecv fd len)).
Proof. intros _. unfold stored. by rewrite last_snoc, length_replicate. Qed.

Lemma mmap_whole h fd len : len <> ring_bytes h fd -> answer h (SysMmap fd len) = -1.
Proof. intros Hne. cbn. by rewrite (proj2 (Z.eqb_neq _ _)). Qed.

End Sample.

(** A session on a kernel that has packets: the descriptor is back, and the calls run. *)
Lemma raw_session_returns_descriptors_witness :
  exists r h', raw_session Sample.answer (fun _ => 11) Sample.stored (fun _ => []) Sample.eth0
      [OpSend [1; 2; 3; 4; 5; 6; 7]; OpRecv 4; OpPromiscuous true] [] = Done (r, h') /\ ledger h' = Some [].
Proof. apply raw_session_returns_descriptors; [exact Sample.recv_within|reflexivity]. Defined.

Lemma recv_basic_loses_nothing_witness :
  exists r cs, recv_basic Sample.answer (fun _ => 11) Sample.stored Sample.backend 4 [] = Done (r, [] ++ cs) /\ (length cs <= 4)%nat.
Proof.
  destruct (recv_basic_loses_nothing Sample.answer (fun _ => 11) Sample.stored Sample.recv_within Sample.recv_fills Sample.backend 4 [])
    as (r & cs & E & _ & Hl & _). exists r, cs. split; [exact E|exact Hl].
Defined.

Lemma set_promiscuous_one_flag_witness :
  exists b' r h', raw_set_promiscuous Sample.answer (fun _ => 11) Sample.stored Sample.backend true [] = Done ((b', r), h').
Proof.
  destruct (set_promiscuous_one_flag Sample.answer (fun _ => 11) Sample.stored Sample.flags Sample.flags_range) with (b := Sample.backend) (enable := true) (h := @nil (syscall * Z))
    as (b' & r & h' & E & _).
  - intros h fd i _. unfold Sample.stored. rewrite last_snoc, Sample.flags_snoc. by exists [].
  - intros h fd i r. by rewrite Sample.flags_snoc.
  - intros h fd i r Hv. rewrite Sample.flags_snoc. cbn -[of_le16 take]. destruct (r <? 0); [done|].
    by rewrite (proj2 (Z.ltb_ge _ _)), (proj2 (Z.leb_gt _ _)) by lia.
  - exists b', r, h'. exact E.
Defined.

Lemma mmap_mode_leaks_descriptor_witness :
  exists e cs, with_mmap Sample.answer (fun _ => 22) Sample.stored (fun _ => []) Sample.eth0 true ring_config_default [] = Done (Err e, [] ++ cs) /\
    (left_open [] cs [] \/ all_closed [] cs []).
Proof.
  eapply mmap_mode_leaks_descriptor; [exact Sample.mmap_whole|reflexivity|vm_compute; reflexivity|reflexivity].
Defined.

(** It is the first case: descriptor 3 stays open. *)
Example mmap_mode_sample :
  match with_mmap Sample.answer (fun _ => 22) Sample.stored (fun _ => []) Sample.eth0 true ring_config_default [] with
  | Done (Err (Os 22), cs) => ledger cs = Some [3]
  | _ => False
  end.
Proof. vm_compute. reflexivity. Qed.
