(* ===== verification/UdpInit.v ===== *)
(** * Bringing the port up, and the choice of a backend (dpdk-stdlib-udp/src/lib.rs)

    The resources all sockets share, initialised once over the library of DpdkPort; multicast groups; and
    [create_backend], which tries the DPDK backend and then the raw sockets of RawBackend. *)

From stdpp Require Import base numbers list.
From Stdlib Require Import ZArith Lia.
From S2P Require Import Prelude State UdpFrame Routing MmapRing RawBackend NeighborCache ProcTables DpdkPort.

#[local] Open Scope Z_scope.

#[local] Notation "'let+' x := m 'in' k" := (bind m (fun x => k)) (at level 10, x pattern, m at level 100, k at level 200).

(** ** The port's configuration *)

Definition with_queues (c : PortConfig) (rx tx : Z) : PortConfig := c <| nb_rx_queues := rx |> <| nb_tx_queues := tx |>.
Definition with_descriptors (c : PortConfig) (rx tx : Z) : PortConfig := c <| nb_rx_desc := rx |> <| nb_tx_desc := tx |>.

Definition with_checksum_offload (c : PortConfig) : PortConfig :=
  c <| rx_offload := MkRxOffload (rx_vlan_strip (rx_offload c)) true true true |>
    <| tx_offload := MkTxOffload (tx_vlan_insert (tx_offload c)) true true true |>.

Definition with_vlan_offload (c : PortConfig) : PortConfig :=
  c <| rx_offload := MkRxOffload true (rx_ipv4_cksum (rx_offload c)) (rx_udp_cksum (rx_offload c)) (rx_tcp_cksum (rx_offload c)) |>
    <| tx_offload := MkTxOffload true (tx_ipv4_cksum (tx_offload c)) (tx_udp_cksum (tx_offload c)) (tx_tcp_cksum (tx_offload c)) |>.

(** The room of a buffer, in [u16] arithmetic. *)
Definition data_room_size (mtu : Z) : outcome Z := if 65536 <=? mtu + 14 + 128 then Panic else Done (mtu + 14 + 128).

Definition udp_port_config (mtu : Z) : PortConfig :=
  let desc_n := if 1500 <? mtu then 512 else 1024 in
  with_vlan_offload (with_checksum_offload (pc_with_mtu (with_descriptors (with_queues port_config_default 1 2) desc_n desc_n) mtu)).

(** "udp_pool", and the arguments "dpdk-app", "-l", "0", "-n", "4". *)
Definition udp_pool : list Z := [117; 100; 112; 95; 112; 111; 111; 108].
Definition udp_args : list (list Z) := [[100; 112; 100; 107; 45; 97; 112; 112]; [45; 108]; [48]; [45; 110]; [52]].

Record Resources := MkRes {
  r_port : Port; r_src_mac : Mac; r_arp_cache : ArpCache; r_active_tx_offload : Z; r_active_rx_offload : Z; r_mtu : Z }.

Section Init.

Context (answer : history -> call -> Z) (dev_info : history -> DeviceCapabilities) (mac_addr : history -> Mac).

(** [init_dpdk_resources]: [env] is DPDK_EAL_ARGS, [arp] the kernel's table and [clock] the time of its insertions.  A panic
    drops what was acquired. *)
Definition init_dpdk_resources (env : option text) (arp : option text) (clock : nat -> Z) (pid mtu : Z)
    : io (outcome (result Resources ErrorKind)) :=
  let+ eal := eal_init answer (match env with Some s => split_whitespace s | None => udp_args end) in
  match eal with
  | Err _ => ret (Done (Err KOther))
  | Ok _ =>
      match data_room_size mtu with
      | Done room =>
          let pool_n := if 1500 <? mtu then 4096 else 8192 in
          let+ pool := mempool_create answer udp_pool (MkPoolConfig pool_n 256 room (mp_socket_id mempool_config_default)) in
          match pool with
          | Err _ => let+ _ := eal_drop answer in ret (Done (Err KOther))
          | Ok _ =>
              let+ port := port_init answer dev_info mac_addr pid (udp_port_config mtu) in
              match port with
              | Err _ => let+ _ := mempool_drop answer in let+ _ := eal_drop answer in ret (Done (Err KOther))
              | Ok port =>
                  let src_mac := p_mac_address port in
                  let tx := active_tx_offload port in
                  let rx := active_rx_offload port in
                  let+ (port, started) := port_start answer port in
                  match started with
                  | Err _ => let+ _ := port_drop answer port in let+ _ := mempool_drop answer in let+ _ := eal_drop answer in ret (Done (Err KOther))
                  | Ok _ => ret (Done (Ok (MkRes port src_mac (seed_arp_cache_from_kernel cache_new clock arp) tx rx mtu)))
                  end
              end
          end
      | _ => let+ _ := eal_drop answer in ret Panic
      end
  end.

(** [get_or_init_dpdk]: the global is set once. *)
Definition get_or_init_dpdk (env arp : option text) (clock : nat -> Z) (guard : option Resources) (pid mtu : Z)
    : io (option Resources * outcome (result Resources ErrorKind)) :=
  match guard with
  | Some r => ret (guard, Done (Ok r))
  | None =>
      let+ r := init_dpdk_resources env arp clock pid mtu in
      ret (match r with Done (Ok res) => Some res | _ => None end, r)
  end.

(** ** Multicast groups *)

Definition is_multicast_v4 (ip : Ipv4Addr) : bool := (224 <=? oct0 ip) && (oct0 ip <=? 239).

Definition join_multicast_v4 (p : Port) (ip : Ipv4Addr) : io (result unit ErrorKind) :=
  if negb (is_multicast_v4 ip) then ret (Err KInvalidInput)
  else
    let+ r := set_multicast_addrs answer p [MkMac 1 0 94 (Z.land (oct1 ip) 127) (oct2 ip) (oct3 ip)] in
    ret (match r with Ok _ => Ok tt | Err _ => Err KOther end).

Definition leave_multicast_v4 (p : Port) (ip : Ipv4Addr) : io (result unit ErrorKind) :=
  if negb (is_multicast_v4 ip) then ret (Err KInvalidInput)
  else let+ r := set_multicast_addrs answer p [] in ret (match r with Ok _ => Ok tt | Err _ => Err KOther end).

End Init.

(** ** The choice of a backend *)

Inductive BackendType : Type := BtDpdk | BtRawSocketMmap | BtRawSocket | BtAuto.

Record BackendConfig := MkBackendConfig {
  backend_type : BackendType; interface_name : option text; dpdk_port_id : Z; use_mmap : bool;
  ring_frame_size : Z; ring_frame_count : Z; bc_promiscuous : bool }.

#[global] Instance eta_BackendConfig : Eta BackendConfig := fun c =>
  MkBackendConfig (backend_type c) (interface_name c) (dpdk_port_id c) (use_mmap c) (ring_frame_size c) (ring_frame_count c) (bc_promiscuous c).

Definition backend_config_default : BackendConfig := MkBackendConfig BtAuto None 0 true 2048 256 false.

Definition with_dpdk (c : BackendConfig) (pid : Z) : BackendConfig := c <| backend_type := BtDpdk |> <| dpdk_port_id := pid |>.
Definition with_raw_socket (c : BackendConfig) (i : text) : BackendConfig :=
  c <| backend_type := BtRawSocket |> <| interface_name := Some i |> <| use_mmap := false |>.
Definition with_raw_socket_mmap (c : BackendConfig) (i : text) : BackendConfig :=
  c <| backend_type := BtRawSocketMmap |> <| interface_name := Some i |> <| use_mmap := true |>.

Inductive AnyBackend : Type := ADpdk (b : DpdkBackend) | ARaw (b : RawSocketBackend).

(** Code that calls both the DPDK library and the kernel. *)
Definition both (A : Type) : Type := history * calls -> outcome (A * (history * calls)).

Section Create.

Context (answer : history -> call -> Z) (dev_info : history -> DeviceCapabilities) (mac_addr : history -> Mac).
Context (kernel : calls -> syscall -> Z) (errno : calls -> Z) (stored : calls -> list Z) (frames_of : calls -> list (list Z)).

Definition via_dpdk {A B} (m : io A) (k : A -> both B) : both B := fun '(h, c) => let '(a, h) := m h in k a (h, c).
Definition via_kernel {A B} (m : sys A) (k : A -> both B) : both B := fun '(h, c) => let! (a, c) := m c in k a (h, c).
Definition give {A} (a : A) : both A := fun s => Done (a, s).

Definition ring_of (c : BackendConfig) : RingConfig := MkRingConfig (ring_frame_size c) (ring_frame_count c).

(** [create_backend]. *)
Definition create_backend (config : BackendConfig) : both (result AnyBackend RawError) :=
  match backend_type config with
  | BtDpdk => via_dpdk (backend_new answer dev_info mac_addr (dpdk_port_id config))
                (fun r => give (match r with Ok b => Ok (ADpdk b) | Err _ => Err (RawKind KOther) end))
  | BtRawSocketMmap =>
      match interface_name config with
      | None => give (Err (RawKind KInvalidInput))
      | Some iface => via_kernel (with_mmap kernel errno stored frames_of iface true (ring_of config))
                        (fun r => give (match r with Ok b => Ok (ARaw b) | Err e => Err e end))
      end
  | BtRawSocket =>
      match interface_name config with
      | None => give (Err (RawKind KInvalidInput))
      | Some iface => via_kernel (raw_new kernel errno stored frames_of iface)
                        (fun r => give (match r with Ok b => Ok (ARaw b) | Err e => Err e end))
      end
  | BtAuto =>
      via_dpdk (backend_new answer dev_info mac_addr (dpdk_port_id config)) (fun r =>
        match r with
        | Ok b => give (Ok (ADpdk b))
        | Err _ =>
            match interface_name config with
            | None => give (Err (RawKind KOther))
            | Some iface =>
                via_kernel (with_mmap kernel errno stored frames_of iface true (ring_of config)) (fun r =>
                  match r with
                  | Ok b => give (Ok (ARaw b))
                  | Err _ =>
                      via_kernel (raw_new kernel errno stored frames_of iface) (fun r =>
                        match r with Ok b => give (Ok (ARaw b)) | Err _ => give (Err (RawKind KOther)) end)
                  end)
            end
        end)
  end.

End Create.

(** ** Theorems *)

Lemma init_spec answer dev_info mac_addr env arp clock pid mtu :
  spec released (init_dpdk_resources answer dev_info mac_addr env arp clock pid mtu)
    (fun r l => match r with
                | Done (Ok res) => port_ready (r_port res) l /\ p_started (r_port res) = true /\ port_id (r_port res) = pid /\
                                   fits_device (udp_port_config mtu) (r_port res) /\ r_mtu res = mtu /\ r_src_mac res = p_mac_address (r_port res) /\
                                   r_active_tx_offload res = active_tx_offload (r_port res) /\ mtu + 142 < 65536
                | Done (Err _) => released l
                | _ => released l /\ 65536 <= mtu + 142
                end).
Proof.
  unfold init_dpdk_resources. eapply spec_bind; [apply eal_init_spec|]. intros [[]|e]; [|by apply spec_ret].
  unfold data_room_size. destruct (Z.leb_spec 65536 (mtu + 14 + 128)) as [Hbig|Hfit].
  { eapply spec_bind; [by apply eal_drop_spec|]. intros []. apply spec_ret. intros l Hl. split; [done|lia]. }
  cbv zeta. eapply spec_bind; [apply mempool_create_spec|].
  intros [[]|e]; [|eapply spec_bind; [by apply eal_drop_spec|]; intros []; by apply spec_ret].
  eapply spec_bind; [apply port_init_spec|]. intros [p|e].
  2: { eapply spec_bind; [apply mempool_drop_spec|]. intros []. eapply spec_bind; [by apply eal_drop_spec|]. intros []. by apply spec_ret. }
  apply spec_pure. intros (Hs & Hid & Hfits).
  eapply spec_bind; [apply port_start_spec|]. intros [q [[]|e]]; cbn [fst snd]; apply spec_pure.
  - intros ->. apply spec_ret. intros l Hr. rsimpl. cbn [r_port r_mtu r_src_mac r_active_tx_offload]. split_and!; try done; lia.
  - intros [-> _]. eapply spec_bind; [apply (port_drop_spec answer p); by left|]. intros [].
    eapply spec_bind; [apply mempool_drop_spec|]. intros []. eapply spec_bind; [by apply eal_drop_spec|]. intros []. by apply spec_ret.
Qed.

(** Initialising the port uses DPDK as it allows, whatever the library answers: it ends with a running port within the device's
    capabilities, that the sockets then share, or with everything acquired released in reverse order, also when it panics;
    and it panics exactly for an MTU whose buffers do not fit 16 bits. *)
Theorem init_resources_is_legal answer dev_info mac_addr env arp clock pid mtu h l :
  life h = Some l -> released l ->
  let '((guard, r), h') := get_or_init_dpdk answer dev_info mac_addr env arp clock None pid mtu h in
  exists l', life h' = Some l' /\
    match r with
    | Done (Ok res) => guard = Some res /\ port_ready (r_port res) l' /\ p_started (r_port res) = true /\ fits_device (udp_port_config mtu) (r_port res) /\
        r_mtu res = mtu /\ forall pid' mtu', get_or_init_dpdk answer dev_info mac_addr env arp clock guard pid' mtu' h' = ((guard, Done (Ok res)), h')
    | Done (Err _) => guard = None /\ released l'
    | _ => guard = None /\ released l' /\ 65536 <= mtu + 142
    end.
Proof.
  intros Hl HP. destruct (init_spec answer dev_info mac_addr env arp clock pid mtu h l Hl HP) as (l' & E & H).
  unfold get_or_init_dpdk. unfold bind. destruct (init_dpdk_resources _ _ _ _ _ _ _ _ h) as [r h']. cbn [ret fst snd] in *. exists l'. split; [done|].
  destruct r as [[res|e]| |]; [|done|by destruct H|by destruct H].
  destruct H as (? & ? & ? & ? & ? & ? & ? & ?). by split_and!.
Qed.

(** ** Multicast filter *)

(** The addresses the port accepts: those of the last successful call. *)
Definition filter_step (p : Z) (f : list Mac) (cr : call * Z) : list Mac :=
  match cr with (SetMcAddrs q addrs, r) => if (q =? p) && (r =? 0) then addrs else f | _ => f end.

Definition mc_filter (p : Z) (h : history) : list Mac := foldl (filter_step p) [] h.

Definition group_mac (ip : Ipv4Addr) : Mac := MkMac 1 0 94 (Z.land (oct1 ip) 127) (oct2 ip) (oct3 ip).

(** Groups replace each other: after a successful join the port accepts that group only, whatever it had
    joined before; after a successful leave of any group it accepts none. *)
Theorem last_group_wins answer p ip h :
  is_multicast_v4 ip = true ->
  (forall h', join_multicast_v4 answer p ip h = (Ok tt, h') -> mc_filter (port_id p) h' = [group_mac ip]) /\
  (forall h', leave_multicast_v4 answer p ip h = (Ok tt, h') -> mc_filter (port_id p) h' = []).
Proof.
  intros Hm. unfold join_multicast_v4, leave_multicast_v4. rewrite Hm. cbn [negb].
  assert (Hset : forall addrs h' (u : result unit ErrorKind), u = Ok tt ->
    (let+ r := set_multicast_addrs answer p addrs in ret (match r with Ok _ => Ok tt | Err _ => Err KOther end)) h = (u, h') -> mc_filter (port_id p) h' = addrs).
  { intros addrs h' u -> E. unfold set_multicast_addrs, bind, ffi, ret in E. destruct (answer h (SetMcAddrs (port_id p) addrs) =? 0) eqn:E0; cbn [negb] in E; [|done].
    injection E as <-. unfold mc_filter. rewrite foldl_app. cbn. by rewrite Z.eqb_refl, E0. }
  split; intros h' E; by eapply Hset.
Qed.

(** ** The fallback *)

Section Fallback.

Context (answer : history -> call -> Z) (dev_info : history -> DeviceCapabilities) (mac_addr : history -> Mac).
Context (kernel : calls -> syscall -> Z) (errno : calls -> Z) (stored : calls -> list Z) (frames_of : calls -> list (list Z)).
Hypothesis mmap_exact : forall h fd len, len <> ring_bytes h fd -> kernel h (SysMmap fd len) = -1.

(** The automatic choice, where the kernel maps rings only both at once: it is the DPDK backend, with no socket opened, when that can be
    built; otherwise the DPDK library is released, and the backend is a raw socket in basic mode, never one with mapped
    rings, or an error; in both cases the failed attempt at mapped rings may have left one descriptor open. *)
Theorem auto_backend_falls_back config iface req h l c o :
  backend_type config = BtAuto -> interface_name config = Some iface ->
  to_tpacket_req (ring_of config) = Done req -> 0 < tp_block_size req * tp_block_nr req ->
  life h = Some l -> released l -> ledger c = Some o ->
  exists r h' c' l', create_backend answer dev_info mac_addr kernel errno stored frames_of config (h, c) = Done (r, (h', c')) /\ life h' = Some l' /\
    match r with
    | Ok (ADpdk b) => port_ready (b_port b) l' /\ p_started (b_port b) = true /\ c' = c
    | Ok (ARaw b) => released l' /\ rb_use_mmap b = false /\ exists left, (length left <= 1)%nat /\ ledger c' = Some (rb_fd b :: left ++ o)
    | Err _ => released l' /\ exists left, (length left <= 1)%nat /\ ledger c' = Some (left ++ o)
    end.
Proof.
  intros Ht Hi Hreq Hpos Hl HP Ho. unfold create_backend. rewrite Ht, Hi. unfold via_dpdk, backend_new.
  destruct (backend_acquire_spec answer dev_info mac_addr new_args new_pool (dpdk_port_id config) h l Hl HP) as (l' & El & Hb).
  destruct (backend_acquire answer dev_info mac_addr new_args new_pool (dpdk_port_id config) h) as [[b|e] h']; cbn [fst snd] in El, Hb.
  { exists (Ok (ADpdk b)), h', c, l'. split; [reflexivity|]. split; [done|]. destruct Hb as (? & ? & ? & _). done. }
  unfold via_kernel.
  destruct (mmap_mode_leaks_descriptor kernel errno stored frames_of mmap_exact iface (ring_of config) req c o Hreq Hpos Ho) as (e1 & cs & E1 & Hleft).
  rewrite E1. cbn [obind].
  assert (exists left, (length left <= 1)%nat /\ ledger (c ++ cs) = Some (left ++ o)) as (left & Hlen & Hled).
  { destruct Hleft as [(fd & i & r & _ & _ & H)|[H _]]; [by exists [fd]; split; [cbn; lia|]|by exists []; split; [cbn; lia|]]. }
  destruct (runs_new kernel errno stored frames_of (left ++ o) iface (c ++ cs) Hled) as (r & c' & o' & E2 & Ho' & Hr). rewrite E2. cbn [obind].
  destruct r as [b|e2].
  - destruct Hr as (Hfd & -> & Hu & _). exists (Ok (ARaw b)), h', c', l'. split; [reflexivity|]. split_and!; [done|done|done|]. by exists left.
  - subst o'. exists (Err (RawKind KOther)), h', c', l'. split; [reflexivity|]. split_and!; [done|done|]. by exists left.
Qed.

End Fallback.

(** ** Samples *)

(** A device whose library works, and one whose environment does not start. *)
Lemma init_resources_is_legal_witness :
  exists res h' l', get_or_init_dpdk sample_answer sample_info sample_mac None None (fun _ => 0) None 0 1500 [] = ((Some res, Done (Ok res)), h') /\
    life h' = Some l' /\ p_started (r_port res) = true.
Proof.
  pose proof (init_resources_is_legal sample_answer sample_info sample_mac None None (fun _ => 0) 0 1500 [] life0 eq_refl ltac:(repeat split)) as H.
  destruct (get_or_init_dpdk sample_answer sample_info sample_mac None None (fun _ => 0) None 0 1500 []) as [[g r] h'] eqn:E.
  destruct r as [[res|e]| |]; [|vm_compute in E; discriminate..]. destruct H as (l' & El & -> & _ & Hs & _).
  exists res, h', l'. split_and!; [reflexivity|exact El|exact Hs].
Defined.

Lemma last_group_wins_witness :
  mc_filter 0 (snd (join_multicast_v4 sample_answer sample_port (MkIpv4 239 1 2 4) (snd (join_multicast_v4 sample_answer sample_port (MkIpv4 239 1 2 3) [])))) =
    [group_mac (MkIpv4 239 1 2 4)].
Proof.
  destruct (last_group_wins sample_answer sample_port (MkIpv4 239 1 2 4) (snd (join_multicast_v4 sample_answer sample_port (MkIpv4 239 1 2 3) [])) eq_refl) as [H _].
  apply H. reflexivity.
Defined.

Lemma auto_backend_falls_back_witness :
  exists r h' c' l', create_backend (fun _ _ => -1) sample_info sample_mac Sample.answer (fun _ => 22) Sample.stored (fun _ => [])
      (backend_config_default <| interface_name := Some Sample.eth0 |>) ([], []) = Done (r, (h', c')) /\ life h' = Some l' /\
    match r with Ok (ARaw b) => ledger c' = Some [rb_fd b; 3] | _ => False end.
Proof.
  destruct (auto_backend_falls_back (fun _ _ => -1) sample_info sample_mac Sample.answer (fun _ => 22) Sample.stored (fun _ => []) Sample.mmap_whole
    (backend_config_default <| interface_name := Some Sample.eth0 |>) Sample.eth0 (MkReq 4096 128 2048 256) [] life0 [] []) as (r & h' & c' & l' & E & El & _);
    [reflexivity|reflexivity|vm_compute; reflexivity|reflexivity|reflexivity|repeat split|reflexivity|].
  exists r, h', c', l'. split; [exact E|]. split; [exact El|]. vm_compute in E. injection E as <- <- <-. vm_compute. reflexivity.
Defined.
