(* ===== verification/UdpMbuf.v ===== *)
(** * Socket frames in packet buffers (dpdk-stdlib-udp/src/lib.rs)

    The transmit paths of the sockets over DPDK, down to the buffers of DpdkMbuf: the DPDK arm of
    [SocketBackend::send_frame_mode], and the two senders of the pipeline, [make_send_fn] and [make_direct_send_fn].  UdpSocket models the first by the
    descriptor the hardware is given; here this description is justified. *)

From stdpp Require Import base numbers list gmap sets.
From Stdlib Require Import ZArith Lia.
From S2P Require Import Prelude State Buffer CodecFrames UdpFrame UdpLayout NeighborCache UdpSocket UdpRobust UdpWire FramePool Pipeline DpdkPort DpdkMbuf UdpInit.

#[local] Open Scope Z_scope.

Section Send.

Context `{Library}.

(** The burst and the drop of the vector: what is not sent is freed. *)
Definition burst (e : Env) (started : bool) (p : Z) (frame : list Z) : outcome (Env * result Z ErrorKind) :=
  let! (e, packets, n) := tx_burst e started [p] in
  let! e := drop_all e packets in
  Done (e, if (n =? 0)%nat then Err KWouldBlock else Ok (zlen frame)).

(** [data_mut] and [copy_from_slice], which panics when the lengths differ. *)
Definition write_data (e : Env) (p : Z) (b data : list Z) : outcome Env :=
  let! m := get e p in
  if negb (data_len m =? zlen data) then Panic
  else
    let! b := blit b (Z.to_nat (data_off m)) (Z.to_nat (data_off m) + length data) data in
    modify e p (fun m => m <| buf := Some b |>).

(** What [send_frame_mode] does to a buffer that is large enough: lengths, tag, bytes, and what is left to the hardware;
    [false] when the buffer has no data. *)
Definition prepare (e : Env) (p tx_offload : Z) (frame : list Z) (hw_vlan_tci : option Z) : outcome (Env * bool) :=
  let! e := set_data_len e p (u16 (zlen frame)) in
  let! e := set_packet_len e p (u32 (zlen frame)) in
  let vlan := match hw_vlan_tci with
              | Some tci => if has_bit tx_offload RTE_ETH_TX_OFFLOAD_VLAN_INSERT then Some tci else None
              | None => None
              end in
  let! e := match vlan with Some tci => set_vlan_tci e p tci | None => Done e end in
  let f0 := match vlan with Some _ => RTE_MBUF_F_TX_VLAN | None => 0 end in
  let! m := get e p in
  match buf m with
  | None => Done (e, false)
  | Some b =>
      let! (data, flags, l3_len) := tx_offload_data tx_offload frame in
      let! e := write_data e p b data in
      let! e := if 0 <? l3_len then set_tx_offload e p 14 l3_len 8 else Done e in
      let! e := if Z.lor f0 flags =? 0 then Done e else set_ol_flags e p (Z.lor f0 flags) in
      Done (e, true)
  end.

(** The DPDK arm of [send_frame_mode]; [free]: the queue's lock is not held. *)
Definition mbuf_send (e : Env) (started : bool) (tx_offload : Z) (frame : list Z) (hw_vlan_tci : option Z) (blocking free : bool)
    : outcome (Env * result Z ErrorKind) :=
  let '(e, r) := mempool_alloc e in
  match r with
  | Err _ => Done (e, Err KOther)
  | Ok p =>
      let! m := get e p in
      if buf_len m <? data_off m then Panic
      else if buf_len m - data_off m <? zlen frame then let! e := mbuf_drop e p in Done (e, Err KInvalidInput)
      else
        let! (e, ok) := prepare e p tx_offload frame hw_vlan_tci in
        if negb ok then let! e := mbuf_drop e p in Done (e, Err KOther)
        else if blocking || free then burst e started p frame
        else let! e := mbuf_drop e p in Done (e, Err KWouldBlock)
  end.

(** [make_send_fn] and [make_direct_send_fn]: no test of the room, and [copy_from_slice] writes where [data_mut] points. *)
Definition direct_send (e : Env) (started : bool) (tx_offload : Z) (frame : list Z) (hw_vlan_tci : option Z)
    : outcome (Env * result Z ErrorKind) :=
  let '(e, r) := mempool_alloc e in
  match r with
  | Err _ => Done (e, Err KOther)
  | Ok p =>
      let! e := set_data_len e p (u16 (zlen frame)) in
      let! e := set_packet_len e p (u32 (zlen frame)) in
      let! m := get e p in
      match buf m with
      | None => let! e := mbuf_drop e p in Done (e, Err KOther)
      | Some b =>
          let! e := write_data e p b frame in
          let! e := match hw_vlan_tci with
                    | Some tci => if has_bit tx_offload RTE_ETH_TX_OFFLOAD_VLAN_INSERT
                                  then let! e := set_vlan_tci e p tci in set_ol_flags e p RTE_MBUF_F_TX_VLAN else Done e
                    | None => Done e
                    end in
          burst e started p frame
      end
  end.

Definition pipeline_send (e : Env) (started : bool) (frame : list Z) : outcome (Env * result Z ErrorKind) :=
  direct_send e started 0 frame None.

(** The loop of [make_recv_fn]: from the buffer into a slot of the pool, without a copy in between. *)
Fixpoint copy_to_pool (e : Env) (ps : list Z) (pool : FramePool) : outcome (FramePool * list FrameRef) :=
  match ps with
  | [] => Done (pool, [])
  | p :: ps =>
      let! m := get e p in
      let! data := mbuf_data m in
      match data with
      | Some d =>
          let! bytes := slice d 0 (Nat.min (Z.to_nat (data_len m)) (length d)) in
          let! (pool, ref) := alloc_copy pool bytes in
          let! (pool, refs) := copy_to_pool e ps pool in
          Done (pool, match ref with Some ref => ref :: refs | None => refs end)
      | None => copy_to_pool e ps pool
      end
  end.

(** [make_recv_fn]. *)
Definition pipeline_recv (e : Env) (started : bool) (max_frames : Z) (pool : FramePool) : outcome (Env * FramePool * list FrameRef) :=
  let '(e, packets) := rx_burst e started (u16 max_frames) in
  let! (pool, refs) := copy_to_pool e packets pool in
  let! e := drop_all e packets in
  Done (e, pool, refs).

End Send.

(** ** What the hardware is given *)

Lemma bind_done {A B} (m : outcome A) (k : A -> outcome B) b : obind m k = Done b -> exists a, m = Done a /\ k a = Done b.
Proof. destruct m; cbn; [eauto|done..]. Qed.

Lemma blit_length (l : list Z) a b src out : blit l a b src = Done out -> length out = length l.
Proof.
  unfold blit. destruct ((a <=? b)%nat) eqn:E1; [|done]. destruct (b <=? length l)%nat eqn:E2; [|done]. destruct (length src =? b - a)%nat eqn:E3; [|done].
  apply Nat.leb_le in E1, E2. apply Nat.eqb_eq in E3. intros [= <-]. rewrite !length_app, length_take, length_drop. lia.
Qed.

Lemma store_length (l : list Z) i v out : store l i v = Done out -> length out = length l.
Proof. unfold store. destruct (_ <? _)%nat; [|done]. intros [= <-]. apply length_insert. Qed.

(** Unfolds what ran before a result. *)
Ltac ran := repeat match goal with
  | E : obind _ _ = Done _ |- _ => apply bind_done in E as (? & ? & E)
  | x : (_ * _)%type |- _ => destruct x
  | E : Done _ = Done _ |- _ => injection E as E; subst
  | E : store _ _ _ = Done _ |- _ => apply store_length in E
  | E : blit _ _ _ _ = Done _ |- _ => apply blit_length in E
  end.

Lemma offload4_length off f d fl l3 : offload_ipv4 off f = Done (d, fl, l3) -> length d = length f.
Proof.
  unfold offload_ipv4. generalize (has_bit off RTE_ETH_TX_OFFLOAD_IPV4_CKSUM) as b1, (has_bit off RTE_ETH_TX_OFFLOAD_UDP_CKSUM) as b2.
  intros b2 b1 E. destruct b1, b2; cbn [orb] in E; ran; congruence.
Qed.

Lemma offload6_length off f d fl l3 : offload_ipv6 off f = Done (d, fl, l3) -> length d = length f.
Proof. unfold offload_ipv6. intros E. destruct (has_bit _ _); ran; congruence. Qed.

Lemma offload_length off f d fl l3 : tx_offload_data off f = Done (d, fl, l3) -> length d = length f.
Proof.
  unfold tx_offload_data. intros E. destruct (_ && _); [|by injection E as <-]. apply bind_done in E as (ty & _ & E).
  destruct (_ && _); [by eapply offload4_length|]. destruct (_ && _); [by eapply offload6_length|by injection E as <-].
Qed.

Section Frames.

Context `{LibraryLaws}.

(** The buffer handed over for a descriptor: its bytes, lengths, flags, tag and header lengths. *)
Record carries_desc (m0 m : rte_mbuf) (d : TxDesc) : Prop := {
  cd_data : mbuf_data m = Done (Some (tx_data d));
  cd_len : pkt_len m = zlen (tx_data d);
  cd_flags : ol_flags m = if tx_ol_flags d =? 0 then ol_flags m0 else tx_ol_flags d;
  cd_vlan : DpdkMbuf.vlan_tci m = default (DpdkMbuf.vlan_tci m0) (tx_vlan_tci d);
  cd_offload : mbuf_tx_offload m = if 0 <? tx_l3_len d then tx_offload_word 14 (tx_l3_len d) 8 else mbuf_tx_offload m0 }.

Lemma modify_at e p m f : mem e !! p = Some m -> modify e p f = Done (e <| mem := <[p := f m]> (mem e) |>).
Proof. intros Hp. unfold modify, get. by rewrite Hp. Qed.

(** A chain of changes of one buffer. *)
Definition put (e : Env) (p : Z) (m : rte_mbuf) : Env := MkEnv (<[p := m]> (mem e)) (sent e).

Lemma put_modify e p m f : modify (put e p m) p f = Done (put e p (f m)).
Proof. rewrite (modify_at _ _ m) by apply lookup_insert_eq. unfold put. f_equal. apply env_eq; [|done]. cbn. apply insert_insert_eq. Qed.

Lemma put_get e p m : get (put e p m) p = Done m.
Proof. unfold get, put. cbn. by rewrite lookup_insert_eq. Qed.

Lemma put_drop e p m : mem e !! p = None -> mbuf_drop (put e p m) p = Done e.
Proof.
  intros Hp. unfold mbuf_drop. rewrite put_get. cbn [obind]. f_equal. apply env_eq; [|done]. cbn. by rewrite delete_insert_eq, delete_id.
Qed.

Lemma burst_ok e p m d started frame : mem e !! p = None -> mbuf_data m = Done (Some d) ->
  let ok := started && negb (tx_accept (put e p m) [p] =? 0)%nat in
  burst (put e p m) started p frame = Done (MkEnv (mem e) (if ok then sent e ++ [d] else sent e), if ok then Ok (zlen frame) else Err KWouldBlock).
Proof.
  intros Hp Hd ok. unfold burst. destruct (tx_one (put e p m) p m d started) as (n & packets & -> & Hdrop & Hn); [apply lookup_insert_eq|done|].
  cbn [obind]. rewrite Hdrop. cbn [obind]. assert (delete p (mem (put e p m)) = mem e) as -> by (cbn; by rewrite delete_insert_eq, delete_id).
  change (sent (put e p m)) with (sent e).
  assert ((n =? 0)%nat = negb ok) as ->.
  { unfold ok. destruct (Nat.eqb_spec n 0) as [E|E].
    - destruct (proj1 Hn E) as [->| ->]; [done|]. by rewrite andb_false_r.
    - destruct started; [|by destruct E; apply Hn; left]. cbn. destruct (Nat.eqb_spec (tx_accept (put e p m) [p]) 0) as [E2|]; [|done]. destruct E. apply Hn. by right. }
  by destruct ok.
Qed.

Lemma write_data_ok e p m b data : buf m = Some b -> zlen b = buf_len m -> 0 <= data_off m -> data_off m + zlen data <= buf_len m -> data_len m = zlen data ->
  exists b', write_data (put e p m) p b data = Done (put e p (m <| buf := Some b' |>)) /\ mbuf_data (m <| buf := Some b' |>) = Done (Some data).
Proof.
  intros Hb Hl H1 H2 H3. unfold write_data. rewrite put_get. cbn [obind]. rewrite H3, Z.eqb_refl. cbn [negb]. unfold zlen in *.
  unfold blit. rewrite (proj2 (Nat.leb_le _ _)), (proj2 (Nat.leb_le _ _)), (proj2 (Nat.eqb_eq _ _)) by lia. cbn [andb obind]. rewrite put_modify.
  eexists. split; [reflexivity|]. unfold mbuf_data. rsimpl. rewrite H3, Nat2Z.id. rewrite slice_mid; [done|rewrite length_take; lia|done].
Qed.

(** The room of the buffer the pool gives next. *)
Definition room (m : rte_mbuf) : nat := Z.to_nat (buf_len m - data_off m).
Definition next_room (e : Env) : option nat := (fun pm => room pm.2) <$> pool_pick e.

(** The same buffer after the lengths and the tag were set. *)
Definition sized (m : rte_mbuf) (frame : list Z) (vlan : option Z) : rte_mbuf :=
  let m := m <| data_len := zlen frame |> <| pkt_len := u32 (zlen frame) |> in
  match vlan with Some t => m <| DpdkMbuf.vlan_tci := t |> | None => m end.

(** And after the bytes, header lengths and flags. *)
Definition dressed (m : rte_mbuf) (l3 flags : Z) : rte_mbuf :=
  let m := if 0 <? l3 then m <| mbuf_tx_offload := tx_offload_word 14 l3 8 |> else m in
  if flags =? 0 then m else m <| ol_flags := flags |>.

Lemma put_if e p m (b : bool) f : (if b then modify (put e p m) p f else Done (put e p m)) = Done (put e p (if b then f m else m)).
Proof. destruct b; [apply put_modify|done]. Qed.

Lemma dressed_desc m m3 d :
  mbuf_data m3 = Done (Some (tx_data d)) -> pkt_len m3 = zlen (tx_data d) -> ol_flags m3 = ol_flags m ->
  DpdkMbuf.vlan_tci m3 = default (DpdkMbuf.vlan_tci m) (tx_vlan_tci d) -> mbuf_tx_offload m3 = mbuf_tx_offload m ->
  carries_desc m (dressed m3 (tx_l3_len d) (tx_ol_flags d)) d.
Proof. intros H1 H2 H3 H4 H5. unfold dressed. split; destruct (0 <? tx_l3_len d), (tx_ol_flags d =? 0); done. Qed.

Lemma prepare_ok e p m tx_offload frame tci :
  wf_mbuf m -> zlen frame <= buf_len m - data_off m -> sendable frame ->
  exists m' d, prepare (put e p m) p tx_offload frame tci = Done (put e p m', true) /\
    tx_desc (Dpdk tx_offload (Some (room m))) frame tci = Done (Ok d) /\ carries_desc m m' d.
Proof.
  intros (b & Hbuf & Hlen & H1 & H2 & H3 & H4) Hfit Hs. unfold prepare, tx_desc. pose proof (zlen_nonneg frame) as Hz.
  rewrite (proj2 (Nat.ltb_ge _ _)) by (unfold room, zlen in *; lia). rewrite u16_small, Z.eqb_refl by (unfold is_u16; lia). cbn [negb]. cbv zeta.
  set (vlan := match tci with Some t => if has_bit _ _ then Some t else None | None => None end).
  unfold set_data_len, set_packet_len, set_vlan_tci, set_tx_offload, set_ol_flags. rewrite put_modify. cbn [obind]. rewrite put_modify. cbn [obind].
  set (m1 := m <| data_len := _ |> <| pkt_len := _ |>).
  assert (match vlan with Some t => modify (put e p m1) p (fun m => m <| DpdkMbuf.vlan_tci := t |>) | None => Done (put e p m1) end =
    Done (put e p (sized m frame vlan))) as -> by (unfold sized; destruct vlan; [apply put_modify|done]).
  cbn [obind]. rewrite put_get. cbn [obind]. replace (buf (sized m frame vlan)) with (Some b) by (unfold sized; destruct vlan; by rewrite <- Hbuf).
  destruct (tx_offload_total tx_offload frame Hs) as [[[data fl] l3] E]. rewrite E. cbn [obind]. apply offload_length in E.
  assert (Hzd : zlen data = zlen frame) by (unfold zlen; by rewrite E).
  destruct (write_data_ok e p (sized m frame vlan) b data) as (b' & -> & Hd); [unfold sized; destruct vlan; rsimpl; try done..|].
  { lia. } { lia. }
  cbn [obind]. rewrite put_if. cbn [obind]. set (flags := Z.lor _ fl).
  assert (forall m, (if flags =? 0 then Done (put e p m) else modify (put e p m) p (fun m => m <| ol_flags := flags |>)) =
    Done (put e p (if flags =? 0 then m else m <| ol_flags := flags |>))) as -> by (intros m4; destruct (flags =? 0); [done|apply put_modify]).
  cbn [obind]. eexists _, _. split; [reflexivity|]. split; [reflexivity|]. apply (dressed_desc m ((sized m frame vlan) <| buf := Some b' |>) (MkTx data flags vlan l3)); cbn [tx_data tx_vlan_tci].
  - exact Hd.
  - rewrite Hzd, <- (u32_small (zlen frame)) by (unfold is_u32; lia). unfold sized. by destruct vlan.
  - unfold sized. by destruct vlan.
  - unfold sized. by destruct vlan.
  - unfold sized. by destruct vlan.
Qed.

(** C23: The description of the DPDK send in the socket model is right.  For a socket whose backend has the room of the buffer the
    pool gives next: where the model reports an error before the hardware (no buffer, frame too long), the send through buffers returns
    the same error and changes nothing; otherwise the driver is given one buffer with the bytes, flags, tag and header lengths of the
    model's descriptor, if the call blocks or the queue's lock is free, and answers with the number it accepts (0 if the port is not started), and is not called, which counts as [WouldBlock], if the call must not
    wait for a lock that is held; for this answer both sends return the same result, the buffer is handed over exactly if it was accepted, and
    no buffer is leaked or freed twice. *)
Theorem socket_send_refines_descriptor e started tx_offload frame tci blocking free s :
  sendable frame -> s_backend s = Dpdk tx_offload (next_room e) ->
  exists e' r, mbuf_send e started tx_offload frame tci blocking free = Done (e', r) /\ mem e' = mem e /\
    match tx_desc (s_backend s) frame tci with
    | Done (Err k) => r = Err k /\ e' = e /\ forall answer, send_frame_mode answer s frame tci blocking = Done (s, Err k)
    | Done (Ok d) => exists p m0 m,
        let a := if blocking || free then Ok (if started then Z.of_nat (tx_accept (put e p m) [p]) else 0) else Err KWouldBlock in
        pool_pick e = Some (p, m0) /\ carries_desc m0 m d /\
        send_frame_mode (fun _ _ _ => a) s frame tci blocking = Done (s <| s_handed := s_handed s ++ [(d, a)] |>, r) /\
        sent e' = match r with Ok _ => sent e ++ [tx_data d] | Err _ => sent e end
    | _ => False
    end.
Proof.
  intros Hs Hb. unfold mbuf_send, mempool_alloc. rewrite Hb. unfold next_room.
  destruct (pool_pick e) as [[p m]|] eqn:Ep; cbn [fmap option_fmap option_map snd].
  2: { exists e, (Err KOther). split_and!; [done..|]. cbn [tx_desc]. split_and!; [done..|]. intros answer. unfold send_frame_mode. rewrite Hb. unfold next_room. by rewrite Ep. }
  destruct (pick_ok e p m Ep) as [Hfresh Hwf]. pose proof Hwf as (b & Hbuf & Hlen & H1 & H2 & H3 & H4).
  change (e <| mem := <[p:=m]> (mem e) |>) with (put e p m). rewrite put_get. cbn [obind].
  rewrite (proj2 (Z.ltb_ge (buf_len m) _)) by lia.
  destruct (Z.ltb_spec (buf_len m - data_off m) (zlen frame)) as [Hbig|Hfit].
  { rewrite put_drop by done. cbn [obind]. exists e, (Err KInvalidInput). split_and!; [done..|].
    assert (tx_desc (Dpdk tx_offload (Some (room m))) frame tci = Done (Err KInvalidInput)) as E
      by (unfold tx_desc; by rewrite (proj2 (Nat.ltb_lt _ _)) by (unfold room, zlen in *; lia)).
    rewrite E. split_and!; [done..|]. intros answer. unfold send_frame_mode. rewrite Hb. unfold next_room. rewrite Ep. cbn [fmap option_fmap option_map snd]. by rewrite E. }
  destruct (prepare_ok e p m tx_offload frame tci Hwf Hfit Hs) as (m' & d & -> & E & Hd). cbn [obind negb]. rewrite E.
  assert (forall a, send_frame_mode (fun _ _ _ => a) s frame tci blocking =
    Done (s <| s_handed := s_handed s ++ [(d, a)] |>, match a with Ok n => if n =? 0 then Err KWouldBlock else Ok (zlen frame) | Err k => Err k end)) as Hsend.
  { intros a. unfold send_frame_mode. rewrite Hb. unfold next_room. rewrite Ep. cbn [fmap option_fmap option_map snd]. rewrite E. cbn [obind]. rsimpl. rewrite Hb. by destruct a. }
  destruct (blocking || free).
  - pose proof (burst_ok e p m' (tx_data d) started frame Hfresh (cd_data _ _ _ Hd)) as Hburst. cbv zeta in Hburst. rewrite Hburst. clear Hburst.
    eexists _, _. split; [reflexivity|]. split; [done|]. exists p, m, m'. cbv zeta. rewrite Hsend. split_and!; [done|done| |].
    + destruct started; [|done]. cbn [andb]. destruct (Nat.eqb_spec (tx_accept (put e p m') [p]) 0) as [->|Hn]; [done|]. by rewrite (proj2 (Z.eqb_neq _ _)) by lia.
    + by destruct (started && _).
  - rewrite put_drop by done. cbn [obind]. eexists _, _. split; [reflexivity|]. split; [done|]. exists p, m, m'. cbv zeta. rewrite Hsend. by split_and!.
Qed.

(** ** The senders of the pipeline *)

Lemma direct_send_fits e started tx_offload frame tci p m :
  pool_pick e = Some (p, m) -> zlen frame <= buf_len m - data_off m ->
  exists e' r, direct_send e started tx_offload frame tci = Done (e', r) /\ mem e' = mem e /\
    match r with Ok _ => sent e' = sent e ++ [frame] | Err k => k = KWouldBlock /\ sent e' = sent e end.
Proof.
  intros Ep Hfit. destruct (pick_ok e p m Ep) as [Hfresh (b & Hbuf & Hlen & H1 & H2 & H3 & H4)]. unfold direct_send, mempool_alloc. rewrite Ep.
  change (e <| mem := <[p:=m]> (mem e) |>) with (put e p m). pose proof (zlen_nonneg frame) as Hz.
  unfold set_data_len, set_packet_len, set_vlan_tci, set_ol_flags. rewrite put_modify. cbn [obind]. rewrite put_modify. cbn [obind]. rewrite put_get. cbn [obind].
  set (m1 := m <| data_len := _ |> <| pkt_len := _ |>). replace (buf m1) with (Some b) by by rewrite <- Hbuf.
  destruct (write_data_ok e p m1 b frame) as (b' & -> & Hd); [by rewrite <- Hbuf|done|done|unfold m1; rsimpl; lia|unfold m1; rsimpl; apply u16_small; unfold is_u16; lia|].
  cbn [obind]. set (m2 := m1 <| buf := Some b' |>) in *.
  assert (exists m3, match tci with
    | Some t => if has_bit tx_offload RTE_ETH_TX_OFFLOAD_VLAN_INSERT
                then let! e := modify (put e p m2) p (fun m => m <| DpdkMbuf.vlan_tci := t |>) in modify e p (fun m => m <| ol_flags := RTE_MBUF_F_TX_VLAN |>)
                else Done (put e p m2)
    | None => Done (put e p m2) end = Done (put e p m3) /\ mbuf_data m3 = mbuf_data m2) as (m3 & -> & Hm3).
  { destruct tci; [|by exists m2]. destruct (has_bit _ _); [|by exists m2]. rewrite put_modify. cbn [obind]. rewrite put_modify. by eexists. }
  rewrite Hd in Hm3. cbn [obind]. pose proof (burst_ok e p m3 frame started frame Hfresh Hm3) as Hburst. cbv zeta in Hburst. rewrite Hburst.
  destruct (started && _); eexists _, _; (split; [reflexivity|]); done.
Qed.

Lemma direct_send_too_long e started tx_offload frame tci blocking free p m :
  pool_pick e = Some (p, m) -> zlen frame <= 65535 -> buf_len m - data_off m < zlen frame ->
  mbuf_send e started tx_offload frame tci blocking free = Done (e, Err KInvalidInput) /\
  direct_send e started tx_offload frame tci = Panic.
Proof.
  intros Ep Hs Hbig.
  destruct (pick_ok e p m Ep) as [Hfresh (b & Hbuf & Hlen & H1 & H2 & H3 & H4)]. unfold mbuf_send, direct_send, mempool_alloc. rewrite Ep.
  change (e <| mem := <[p:=m]> (mem e) |>) with (put e p m). rewrite put_get. cbn [obind]. rewrite (proj2 (Z.ltb_ge (buf_len m) _)), (proj2 (Z.ltb_lt _ _)) by lia.
  rewrite put_drop by done. cbn [obind]. split; [done|].
  unfold set_data_len, set_packet_len. rewrite put_modify. cbn [obind]. rewrite put_modify. cbn [obind]. rewrite put_get. cbn [obind]. rsimpl. rewrite Hbuf.
  unfold write_data. rewrite put_get. cbn [obind]. rsimpl. rewrite u16_small by (pose proof (zlen_nonneg frame); unfold is_u16; lia). rewrite Z.eqb_refl. cbn [negb].
  unfold blit. rewrite (proj2 (Nat.leb_gt _ (length b))) by (unfold zlen in *; lia). by rewrite andb_false_r.
Qed.

(** The pipeline's senders do not test the room of the buffer: a frame that fits is handed over byte for byte and no buffer is
    leaked; for any longer one, where the ordinary send reports [InvalidInput], the copy runs past the end of the buffer. *)
Theorem direct_send_overruns_buffer e started tx_offload frame tci blocking free p m :
  pool_pick e = Some (p, m) -> sendable frame ->
  (zlen frame <= buf_len m - data_off m ->
     exists e' r, direct_send e started tx_offload frame tci = Done (e', r) /\ mem e' = mem e /\
       match r with Ok _ => sent e' = sent e ++ [frame] | Err k => k = KWouldBlock /\ sent e' = sent e end) /\
  (buf_len m - data_off m < zlen frame ->
     mbuf_send e started tx_offload frame tci blocking free = Done (e, Err KInvalidInput) /\
     direct_send e started tx_offload frame tci = Panic).
Proof.
  intros Ep [Hs _]. split; [intros Hfit; by eapply direct_send_fits|]. intros Hbig. by eapply direct_send_too_long.
Qed.

(** *** Receiving *)

Lemma copy_to_pool_ok e l : forall pool, Forall (fun pm => mem e !! pm.1 = Some pm.2) l -> Forall (fun pm => wf_mbuf pm.2) l ->
  copy_to_pool e (fst <$> l) pool = recv_into_pool pool (mbuf_payload <$> (snd <$> l)).
Proof.
  induction l as [|[p m] l IH]; intros pool Hin Hw; [done|]. apply Forall_cons in Hin as [Hp Hin], Hw as [Hm Hw]. cbn in *. unfold get. rewrite Hp. cbn [obind].
  destruct (mbuf_data_ok m Hm) as [-> Hlen]. cbn [obind]. rewrite Hlen, Nat.min_id, <- Hlen, slice_in_range by lia. cbn [obind]. rewrite Nat.sub_0_r, drop_0, firstn_all.
  destruct (alloc_copy pool (mbuf_payload m)) as [[pool' ref]| |]; cbn [obind]; [|done..]. by rewrite IH.
Qed.

(** The packets a burst delivers, as the pipeline model takes them: their payloads are copied into the pool, and every buffer is given
    back. *)
Theorem pipeline_recv_refines_pool e (started : bool) (max : Z) pool pool' refs :
  let frames := if started then mbuf_payload <$> (snd <$> omap id (rx_deliver e (Z.to_nat (u16 max)))) else [] in
  recv_into_pool pool frames = Done (pool', refs) -> pipeline_recv e started max pool = Done (e, pool', refs).
Proof.
  intros frames E. unfold pipeline_recv, rx_burst. destruct started; cbn [negb]; [|by injection E as <- <-].
  destruct (deliver_ok e (Z.to_nat (u16 max))) as [Hd _]. destruct (lend_drop e _ Hd) as (e' & -> & Hdrop & Hin). destruct Hd as [_ Hf].
  rewrite copy_to_pool_ok; [|done|eapply Forall_impl; [exact Hf|]; by intros pm [_ ?]]. fold frames. rewrite E. cbn [obind]. by rewrite Hdrop.
Qed.

(** A frame with a datagram over IPv4, tagged or not, can be handed to the transmit paths. *)
Lemma udp_frame_sendable src_mac dst_mac tci src dst sp dp payload ttl tos :
  zlen payload <= 8969 -> sendable (udp_frame src_mac dst_mac tci src dst sp dp payload ttl tos).
Proof.
  intros Hl. unfold zlen in Hl. split; [unfold zlen; rewrite length_udp_frame; destruct tci; unfold link_len; lia|]. intros _ E. exfalso. revert E.
  unfold udp_frame, link_bytes. destruct tci; vm_compute; congruence.
Qed.

(** The buffers of the port hold the datagrams of its MTU, but not their tags: with buffers of the size the port
    is initialised with and the headroom of 128 bytes, the frame of the largest datagram is handed over by the pipeline's sender, and the same frame with an
    802.1Q tag, as the builder makes it, is written past the end of the buffer. *)
Theorem tagged_datagram_overruns_buffer e started tx_offload out src_mac dst_mac src dst sp dp payload ttl vlan mtu size p m :
  28 <= mtu <= 8997 -> data_room_size mtu = Done size -> zlen payload = mtu - 28 -> wf_udp src dst payload ->
  pool_pick e = Some (p, m) -> buf_len m = size -> data_off m = 128 ->
  (exists e' r, direct_send e started tx_offload (udp_frame src_mac dst_mac None src dst sp dp payload ttl 0) None = Done (e', r) /\ mem e' = mem e) /\
  (exists f n, build_udp_frame_into_vlan out src_mac dst_mac src dst sp dp payload ttl vlan = Done (f, Ok n) /\
     direct_send e started tx_offload f None = Panic).
Proof.
  intros Hmtu Hsize Hlen Hwf Ep Hb Hoff. unfold data_room_size in Hsize. destruct (65536 <=? mtu + 14 + 128); [done|]. injection Hsize as <-.
  assert (Hn : forall tci, zlen (udp_frame src_mac dst_mac tci src dst sp dp payload ttl 0) = Z.of_nat (link_len tci) + mtu)
    by (intros tci; unfold zlen in *; rewrite length_udp_frame; lia).
  split.
  - destruct (direct_send_fits e started tx_offload (udp_frame src_mac dst_mac None src dst sp dp payload ttl 0) None p m Ep) as (e' & r & E & Hm & _);
      [rewrite Hn; cbn [link_len]; lia|]. by exists e', r.
  - eexists _, _. split; [apply build_vlan_layout; [done|lia]|]. set (f := udp_frame _ _ (Some _) _ _ _ _ _ _ _).
    assert (Hs : sendable f) by (apply udp_frame_sendable; lia).
    eapply (direct_send_too_long e started tx_offload f None true true p m Ep); [apply Hs|].
    unfold f. rewrite Hn, Hb, Hoff. cbn [link_len]. lia.
Qed.

End Frames.

(** ** Samples *)

Lemma socket_send_refines_descriptor_witness :
  exists e' r p m0 m, mbuf_send (MkEnv ∅ []) true 0 [1; 2; 3] None true true = Done (e', r) /\ mem e' = ∅ /\
    carries_desc m0 m (MkTx [1; 2; 3] 0 None 0) /\
    send_frame_mode (fun _ _ _ => Ok (Z.of_nat (tx_accept (put (MkEnv ∅ []) p m) [p]))) (sample_socket <| s_backend := Dpdk 0 (Some 20%nat) |>) [1; 2; 3] None true =
      Done (sample_socket <| s_backend := Dpdk 0 (Some 20%nat) |>
              <| s_handed := [(MkTx [1; 2; 3] 0 None 0, Ok (Z.of_nat (tx_accept (put (MkEnv ∅ []) p m) [p])))] |>, r).
Proof.
  destruct (socket_send_refines_descriptor (MkEnv ∅ []) true 0 [1; 2; 3] None true true (sample_socket <| s_backend := Dpdk 0 (Some 20%nat) |>))
    as (e' & r & E & Hm & p & m0 & m & _ & Hd & Es & _); [apply short_sendable; cbn; lia|reflexivity|].
  exists e', r, p, m0, m. split_and!; [exact E|exact Hm|exact Hd|exact Es].
Defined.

Lemma direct_send_overruns_buffer_witness :
  direct_send (MkEnv ∅ []) true 0 (replicate 30 7) None = Panic.
Proof.
  destruct (direct_send_overruns_buffer (MkEnv ∅ []) true 0 (replicate 30 7) None true true (fresh (∅ : gset Z)) (sample_mbuf [])) as [_ H];
    [reflexivity|apply short_sendable; cbn; lia|]. apply H. vm_compute. reflexivity.
Defined.

(** A pool with the buffers of a port of MTU 100. *)
Definition room_library : Library := {|
  pool_pick e := Some (fresh (dom (mem e)), MkMbuf (Some (replicate 242 0)) 242 128 0 0 0 0 0);
  pool_bulk e n := None;
  tx_accept e ps := length ps;
  rx_deliver e n := [] |}.

Lemma room_library_laws : LibraryLaws (H := room_library).
Proof.
  split.
  - intros e p m [= <- <-]. split; [apply not_elem_of_dom, is_fresh|]. eexists. repeat (split; [done|]). done.
  - done.
  - done.
  - intros e n. cbn. split; [split; cbn; constructor|lia].
Qed.

Lemma tagged_datagram_overruns_buffer_witness :
  exists f n, build_udp_frame_into_vlan [] mac_a mac_b host_a host_b 1 2 (replicate 72 7) 64 (MkVlan 5 0 false PortTagging true) = Done (f, Ok n) /\
    direct_send (H := room_library) (MkEnv ∅ []) true 0 f None = Panic.
Proof.
  destruct (tagged_datagram_overruns_buffer (H := room_library) (H0 := room_library_laws) (MkEnv ∅ []) true 0 [] mac_a mac_b host_a host_b 1 2 (replicate 72 7) 64
    (MkVlan 5 0 false PortTagging true) 100 242 (fresh (∅ : gset Z)) (MkMbuf (Some (replicate 242 0)) 242 128 0 0 0 0 0)) as [_ H];
    [lia|reflexivity|reflexivity| |reflexivity|reflexivity|reflexivity|exact H].
  split_and!; [vm_compute; split_and!; congruence|vm_compute; split_and!; congruence|apply Forall_replicate; vm_compute; split; congruence|vm_compute; congruence].
Defined.
