(* ===== verification/Ipv6Text.v ===== *)
(** * IPv6 addresses as text (dpdk-stdlib-udp/src/{ipv6_addr,ndp}.rs)

    Scoped addresses and the kernel's neighbour listing.  Both rest on [str::parse::<Ipv6Addr>] of the standard
    library, whose recursive-descent parser is written out, with groups, [::] and an embedded IPv4 address. *)

From stdpp Require Import base numbers list sets.
From Stdlib Require Import ZArith Lia.
From Stdlib Require Strings.String Strings.Ascii.
From S2P Require Import Prelude State Buffer CodecFrames UdpFrame Udp6Frame Tunnel Routing NeighborCache Ndp ProcTables.

Import String.StringSyntax.

#[local] Open Scope Z_scope.

#[local] Arguments str s%_string_scope.

(** ** The standard library's parser *)

(** The loop of [read_number]: digits are taken as long as there are any; [None] when the value or their number is too large. *)
Fixpoint read_digits (radix max : Z) (limit : nat) (s : text) (count : nat) (acc : Z) : option (Z * nat * text) :=
  match s with
  | [] => Some (acc, count, [])
  | c :: s' =>
      match digit radix c with
      | None => Some (acc, count, s)
      | Some d =>
          let v := acc * radix + d in
          if (max <? v) || (limit <? S count)%nat then None else read_digits radix max limit s' (S count) v
      end
  end.

Definition read_number (radix max : Z) (limit : nat) (allow_zero_prefix : bool) (s : text) : option (Z * text) :=
  match read_digits radix max limit s 0 0 with
  | Some (v, n, rest) =>
      if (n =? 0)%nat then None
      else if negb allow_zero_prefix && bool_decide (head s = Some 48) && (1 <? n)%nat then None
      else Some (v, rest)
  | None => None
  end.

Definition read_given_char (c : Z) (s : text) : option text :=
  match s with x :: s => if x =? c then Some s else None | [] => None end.

(** [read_separator]: before every part but the first. *)
Definition read_separator {A} (c : Z) (i : nat) (p : text -> option (A * text)) (s : text) : option (A * text) :=
  if (i =? 0)%nat then p s else s ← read_given_char c s; p s.

Definition read_octet (i : nat) : text -> option (Z * text) := read_separator 46 i (read_number 10 255 3 false).

Definition read_ipv4_addr (s : text) : option (Ipv4Addr * text) :=
  '(a, s) ← read_octet 0 s; '(b, s) ← read_octet 1 s; '(c, s) ← read_octet 2 s; '(d, s) ← read_octet 3 s;
  Some (MkIpv4 a b c d, s).

Definition read_group (i : nat) : text -> option (Z * text) := read_separator 58 i (read_number 16 65535 4 true).

(** [read_groups] into the last [n] of [limit] places: what was read, and whether it ends in an IPv4 address. *)
Fixpoint read_groups (n i limit : nat) (s : text) (groups : list Z) : list Z * bool * text :=
  match n with
  | O => (groups, false, s)
  | S n =>
      match (if (i <? limit - 1)%nat then read_separator 58 i read_ipv4_addr s else None) with
      | Some (ip, s) => (groups ++ [oct0 ip * 256 + oct1 ip; oct2 ip * 256 + oct3 ip], true, s)
      | None =>
          match read_group i s with
          | Some (g, s) => read_groups n (S i) limit s (groups ++ [g])
          | None => (groups, false, s)
          end
      end
  end.

Definition read_ipv6_addr (s : text) : option (Ipv6Addr * text) :=
  let '(head, head_ipv4, s) := read_groups 8 0 8 s [] in
  if (length head =? 8)%nat then Some (ipv6_new head, s)
  else if head_ipv4 then None
  else
    s ← read_given_char 58 s; s ← read_given_char 58 s;
    let limit := (8 - (length head + 1))%nat in
    let '(tail, _, s) := read_groups limit 0 limit s [] in
    Some (ipv6_new (head ++ replicate (8 - length head - length tail) 0 ++ tail), s).

(** [parse::<Ipv6Addr>]: nothing may be left. *)
Definition parse_ipv6 (s : text) : option Ipv6Addr :=
  match read_ipv6_addr s with Some (a, []) => Some a | _ => None end.

(** ** Scoped addresses (ipv6_addr.rs) *)

Record ScopedIpv6Addr := MkScoped { sc_addr : Ipv6Addr; sc_scope_id : option text }.

(** [find('%')], with the text before and after it. *)
Fixpoint split_at_percent (s before : text) : option (text * text) :=
  match s with
  | [] => None
  | c :: s => if c =? 37 then Some (before, s) else split_at_percent s (before ++ [c])
  end.

Definition parse_scoped_address (s : text) : option ScopedIpv6Addr :=
  match split_at_percent s [] with
  | Some (addr_str, scope_str) =>
      addr ← parse_ipv6 addr_str;
      if bool_decide (scope_str = []) then None else Some (MkScoped addr (Some scope_str))
  | None => addr ← parse_ipv6 s; Some (MkScoped addr None)
  end.

(** ** The neighbour listing (ndp.rs) *)

Record ProcNeighEntry := MkNeigh { ne_ip : Ipv6Addr; ne_mac : Mac; ne_interface : text }.

(** [parse_mac_str]: exactly six parts, and all of them bytes. *)
Definition parse_mac_str (s : text) : option Mac :=
  let parts := split_on (Z.eqb 58) s [] in
  if negb (length parts =? 6)%nat then None
  else match mapM (from_str_radix 16 255) parts with Some [a; b; c; d; e; f] => Some (MkMac a b c d e f) | _ => None end.

(** [trim_start_matches("0x")]. *)
Fixpoint trim_0x (s : text) : text :=
  match s with 48 :: 120 :: s => trim_0x s | _ => s end.

Definition neigh_line (line : text) : option ProcNeighEntry :=
  match split_whitespace line with
  | f0 :: _ :: f2 :: f3 :: _ :: f5 :: _ =>
      ip ← parse_ipv6 f0; mac ← parse_mac_str f2; state ← from_str_radix 16 U32_MAX (trim_0x f3);
      if negb (state =? 1) && negb (state =? 2) then None
      else if bool_decide (mac = zero_mac) then None
      else Some (MkNeigh ip mac f5)
  | _ => None
  end.

Definition parse_proc_ipv6_neigh (content : text) : list ProcNeighEntry := omap neigh_line (lines content).

(** ** The standard library's printer *)

Definition segment (a : Ipv6Addr) (i : nat) : Z := (a / 2 ^ (16 * Z.of_nat (7 - i))) mod 65536.
Definition segments (a : Ipv6Addr) : list Z := segment a <$> seq 0 8.

(** [{:x}]. *)
Fixpoint hexs (fuel : nat) (v : Z) : text :=
  if v <? 16 then [lower v]
  else match fuel with O => [] | S fuel => hexs fuel (v / 16) ++ [lower (v mod 16)] end.

Fixpoint fmt_subslice (gs : list Z) : text :=
  match gs with [] => [] | [g] => hexs 3 g | g :: gs => hexs 3 g ++ 58 :: fmt_subslice gs end.

(** The first of the longest runs of zeros: where it starts and how long it is. *)
Fixpoint zero_run (gs : list Z) (i : nat) (current longest : nat * nat) : nat * nat :=
  match gs with
  | [] => longest
  | g :: gs =>
      if g =? 0 then
        let current := (if (current.2 =? 0)%nat then i else current.1, S current.2) in
        zero_run gs (S i) current (if (longest.2 <? current.2)%nat then current else longest)
      else zero_run gs (S i) (0, 0)%nat longest
  end.

Definition show_groups (gs : list Z) : text :=
  let '(start, len) := zero_run gs 0 (0, 0)%nat (0, 0)%nat in
  if (1 <? len)%nat then fmt_subslice (take start gs) ++ str "::" ++ fmt_subslice (drop (start + len) gs)
  else fmt_subslice gs.

Definition show_segments (gs : list Z) : text :=
  match gs with
  | [0; 0; 0; 0; 0; 65535; x; y] => str "::ffff:" ++ ip_to_string (MkIpv4 (x / 256) (x mod 256) (y / 256) (y mod 256))
  | _ => show_groups gs
  end.

(** [Display] of an address. *)
Definition show_ipv6 (a : Ipv6Addr) : text := show_segments (segments a).

Example parse_examples :
  parse_ipv6 (str "fe80::1122:33ff:fe44:5566") = Some (ipv6_new [65152; 0; 0; 0; 4386; 13311; 65092; 21862]) /\
  parse_ipv6 (str "::") = Some 0 /\ parse_ipv6 (str "::1") = Some 1 /\ parse_ipv6 (str "1:2:3:4:5:6:7:8") = Some (ipv6_new [1; 2; 3; 4; 5; 6; 7; 8]) /\
  parse_ipv6 (str "::ffff:10.0.0.1") = Some (ipv6_new [0; 0; 0; 0; 0; 65535; 2560; 1]) /\ parse_ipv6 (str "1::2::3") = None /\
  parse_ipv6 (str "12345::") = None /\ parse_ipv6 (str "1:2:3:4:5:6:7::") = Some (ipv6_new [1; 2; 3; 4; 5; 6; 7; 0]) /\
  parse_ipv6 (str "::1:2:3:4:5:6:7:8") = None /\ parse_ipv6 (str "") = None /\
  show_ipv6 (ipv6_new [8193; 3512; 0; 0; 1; 0; 0; 1]) = str "2001:db8::1:0:0:1" /\ show_ipv6 0 = str "::" /\
  show_ipv6 (ipv6_new [1; 0; 0; 2; 0; 0; 0; 3]) = str "1:0:0:2::3".
Proof. vm_compute. split_and!; reflexivity. Qed.

(** ** Reading numbers back *)

(** What follows a number: nothing, or no digit. *)
Definition stops (radix : Z) (rest : text) : Prop := match rest with [] => True | c :: _ => digit radix c = None end.

Lemma read_digits_app radix max limit rest : stops radix rest -> forall ds count acc v n,
  read_digits radix max limit ds count acc = Some (v, n, []) -> read_digits radix max limit (ds ++ rest) count acc = Some (v, n, rest).
Proof.
  intros Hr. induction ds as [|c ds IH]; intros count acc v n; cbn [read_digits app].
  - intros [= <- <-]. destruct rest as [|c rest]; [done|]. cbn in *. by rewrite Hr.
  - destruct (digit radix c); [|done]. cbv zeta. destruct (_ || _); [done|]. apply IH.
Qed.

Lemma read_number_app radix max limit zero ds v rest :
  ds <> [] -> stops radix rest -> read_number radix max limit zero ds = Some (v, []) -> read_number radix max limit zero (ds ++ rest) = Some (v, rest).
Proof.
  intros Hne Hr. unfold read_number. destruct (read_digits radix max limit ds 0 0) as [[[v' n] r]|] eqn:E; [|done].
  destruct (n =? 0)%nat eqn:En; [done|]. destruct ds as [|c ds]; [done|]. cbn [head app].
  destruct (negb zero && bool_decide (Some c = Some 48) && (1 <? n)%nat) eqn:Ez; [done|]. intros [= -> ->].
  change (c :: ds ++ rest) with ((c :: ds) ++ rest). rewrite (read_digits_app _ _ _ _ Hr _ _ _ _ _ E), En. cbn [app head]. by rewrite Ez.
Qed.

Lemma octet_read v : is_u8 v -> read_number 10 255 3 false (dec 2 v) = Some (v, []) /\ dec 2 v <> [].
Proof.
  intros Hv. pose proof (all_below (fun v => bool_decide (read_number 10 255 3 false (dec 2 v) = Some (v, [])) && negb (bool_decide (dec 2 v = []))) 256 v
    ltac:(by vm_compute) Hv) as H. cbv beta in H. rewrite andb_true_iff, negb_true_iff, bool_decide_eq_true, bool_decide_eq_false in H. done.
Qed.

Lemma ip_read ip : wf_ipv4 ip -> read_ipv4_addr (ip_to_string ip) = Some (ip, []).
Proof.
  destruct ip as [a b c d]. intros (Ha & Hb & Hc & Hd). unfold read_ipv4_addr, ip_to_string. cbn [oct0 oct1 oct2 oct3] in *.
  destruct (octet_read a Ha) as [Ra Na], (octet_read b Hb) as [Rb Nb], (octet_read c Hc) as [Rc Nc], (octet_read d Hd) as [Rd Nd].
  unfold read_octet, read_separator. cbn [Nat.eqb]. rewrite (read_number_app _ _ _ _ _ a _ Na) by done. cbn [mbind option_bind read_given_char Z.eqb Pos.eqb].
  rewrite (read_number_app _ _ _ _ _ b _ Nb) by done. cbn [mbind option_bind read_given_char Z.eqb Pos.eqb].
  rewrite (read_number_app _ _ _ _ _ c _ Nc) by done. cbn [mbind option_bind read_given_char Z.eqb Pos.eqb]. by rewrite Rd.
Qed.

Lemma lower_digit v : 0 <= v < 16 -> digit 16 (lower v) = Some v /\ lower v <> 46 /\ lower v <> 58 /\ lower v <> 37 /\ is_space (lower v) = false.
Proof.
  intros Hv. pose proof (all_below (fun v => bool_decide (digit 16 (lower v) = Some v) && negb (lower v =? 46) && negb (lower v =? 58) && negb (lower v =? 37) &&
    negb (is_space (lower v))) 16 v ltac:(by vm_compute) Hv) as H. cbv beta in H. rewrite !andb_true_iff, bool_decide_eq_true, !negb_true_iff, !Z.eqb_neq in H. tauto.
Qed.

(** The digits of a group. *)
Lemma hexs_shape g : 0 <= g < 65536 -> exists ds, hexs 3 g = lower <$> ds /\ ds <> [] /\ (length ds <= 4)%nat /\ Forall (fun d => 0 <= d < 16) ds /\
  foldl (fun acc d => acc * 16 + d) 0 ds = g.
Proof.
  intros Hg. cbn [hexs]. destruct (Z.ltb_spec g 16); [exists [g]|destruct (Z.ltb_spec (g / 16) 16); [exists [g / 16; g mod 16]|
    destruct (Z.ltb_spec (g / 16 / 16) 16); [exists [g / 16 / 16; (g / 16) mod 16; g mod 16]|exists [g / 16 / 16 / 16; (g / 16 / 16) mod 16; (g / 16) mod 16; g mod 16]]]].
  all: split_and!; [|done|cbn; lia| |cbn [foldl]; mod_lia].
  all: try reflexivity; try (repeat constructor; mod_lia).
  cbn [hexs]. destruct (Z.ltb_spec (g / 16 / 16 / 16) 16); [reflexivity|mod_lia].
Qed.

Lemma read_lower_digits ds : forall count acc, Forall (fun d => 0 <= d < 16) ds -> (count + length ds <= 4)%nat -> 0 <= acc ->
  foldl (fun acc d => acc * 16 + d) acc ds <= 65535 ->
  read_digits 16 65535 4 (lower <$> ds) count acc = Some (foldl (fun acc d => acc * 16 + d) acc ds, (count + length ds)%nat, []).
Proof.
  induction ds as [|d ds IH]; intros count acc Hd Hl Ha Hm; cbn [fmap list_fmap read_digits foldl length] in *; [by rewrite Nat.add_0_r|].
  apply Forall_cons_1 in Hd as [Hd Hds]. destruct (lower_digit d Hd) as [-> _]. cbv zeta.
  assert (forall l a, Forall (fun d => 0 <= d < 16) l -> 0 <= a -> a <= foldl (fun acc d => acc * 16 + d) a l) as Hmono.
  { clear. induction l as [|x l IH]; intros a Hl Ha; cbn [foldl]; [lia|]. apply Forall_cons_1 in Hl as [Hx Hl]. pose proof (IH (a * 16 + x) Hl). lia. }
  pose proof (Hmono ds (acc * 16 + d) Hds ltac:(lia)) as Hv. rewrite (proj2 (Z.ltb_ge _ _)) by lia. rewrite (proj2 (Nat.ltb_ge _ _)) by lia. cbn [orb].
  rewrite IH by (try done; lia). by rewrite Nat.add_succ_comm.
Qed.

Lemma group_read g : 0 <= g < 65536 -> read_number 16 65535 4 true (hexs 3 g) = Some (g, []) /\ hexs 3 g <> [] /\
  Forall (fun c => c <> 46 /\ c <> 58 /\ c <> 37 /\ is_space c = false) (hexs 3 g).
Proof.
  intros Hg. destruct (hexs_shape g Hg) as (ds & -> & Hne & Hl & Hd & Hf). split_and!.
  - unfold read_number. rewrite read_lower_digits by (try done; lia). rewrite Hf. destruct ds; done.
  - by destruct ds.
  - apply Forall_fmap. eapply List.Forall_impl; [|exact Hd]. intros d Hd'. cbn. by destruct (lower_digit d Hd') as (_ & ? & ? & ? & ?).
Qed.

(** ** No address of version 4 without a dot *)

Lemma read_digits_rest radix max limit : forall s count acc v n rest, read_digits radix max limit s count acc = Some (v, n, rest) -> exists pre, s = pre ++ rest.
Proof.
  induction s as [|c s IH]; intros count acc v n rest; cbn [read_digits]; [intros [= _ _ <-]; by exists []|].
  destruct (digit radix c); [|intros [= _ _ <-]; by exists []]. cbv zeta. destruct (_ || _); [done|]. intros [pre ->]%IH. by exists (c :: pre).
Qed.

Lemma read_number_rest radix max limit zero s v rest : read_number radix max limit zero s = Some (v, rest) -> exists pre, s = pre ++ rest.
Proof.
  unfold read_number. destruct (read_digits radix max limit s 0 0) as [[[v' n] r]|] eqn:E; [|done].
  destruct (n =? 0)%nat; [done|]. destruct (_ && _ && _); [done|]. intros [= -> ->]. by eapply read_digits_rest.
Qed.

Lemma no_dot s : 46 ∉ s -> read_ipv4_addr s = None.
Proof.
  intros Hs. unfold read_ipv4_addr. destruct (read_octet 0 s) as [[v rest]|] eqn:E; [|done]. cbn [mbind option_bind].
  unfold read_octet, read_separator in E. cbn [Nat.eqb] in E. apply read_number_rest in E as [pre ->].
  replace (read_octet 1 rest) with (@None (Z * text)); [done|]. unfold read_octet, read_separator. cbn [Nat.eqb].
  destruct rest as [|c rest]; [done|]. cbn [read_given_char]. destruct (Z.eqb_spec c 46) as [->|]; [|done]. destruct Hs. apply elem_of_app. right. by left.
Qed.

Lemma no_dot_sep i s : 46 ∉ s -> read_separator 58 i read_ipv4_addr s = None.
Proof.
  intros Hs. unfold read_separator. destruct (i =? 0)%nat; [by apply no_dot|]. destruct s as [|c s]; [done|]. cbn [read_given_char]. destruct (c =? 58); [|done].
  cbn [mbind option_bind]. apply no_dot. set_solver.
Qed.

(** ** Groups *)

(** Groups after the first. *)
Fixpoint later (gs : list Z) : text := match gs with [] => [] | g :: gs => 58 :: hexs 3 g ++ later gs end.

Lemma fmt_cons g gs : fmt_subslice (g :: gs) = hexs 3 g ++ later gs.
Proof. revert g. induction gs as [|g' gs IH]; intros g; [by rewrite app_nil_r|]. change (fmt_subslice (g :: g' :: gs)) with (hexs 3 g ++ 58 :: fmt_subslice (g' :: gs)). by rewrite IH. Qed.

(** Where no further group starts. *)
Definition blocked (rest : text) : Prop := rest = [] \/ exists r, rest = 58 :: 58 :: r.

Lemma blocked_group i rest : blocked rest -> read_group i rest = None.
Proof. intros [->|[r ->]]; unfold read_group, read_separator; by destruct (i =? 0)%nat. Qed.

Lemma later_stops gs rest : blocked rest -> stops 16 (later gs ++ rest).
Proof. intros Hb. destruct gs as [|g gs]; [|done]. by destruct Hb as [->|[r ->]]. Qed.

Definition no_dots (t : text) : Prop := 46 ∉ t.

Lemma later_no_dot gs rest : Forall (fun g => 0 <= g < 65536) gs -> 46 ∉ rest -> 46 ∉ later gs ++ rest.
Proof.
  intros Hg Hr. induction Hg as [|g gs Hg Hgs IH]; [done|]. cbn [later app]. destruct (group_read g Hg) as (_ & _ & Hc). rewrite Forall_forall in Hc.
  rewrite not_elem_of_cons, <- app_assoc, not_elem_of_app. split_and!; [done| |done]. intros Hin. by destruct (Hc _ Hin).
Qed.

Lemma read_later gs : forall n i limit acc rest, Forall (fun g => 0 <= g < 65536) gs -> (0 < i)%nat -> (length gs <= n)%nat -> blocked rest -> 46 ∉ rest ->
  read_groups n i limit (later gs ++ rest) acc = (acc ++ gs, false, rest).
Proof.
  induction gs as [|g gs IH]; intros n i limit acc rest Hg Hi Hn Hb Hd.
  - rewrite app_nil_r. destruct n as [|n]; [done|]. cbn [read_groups later app]. rewrite no_dot_sep, blocked_group by done. by destruct (_ <? _)%nat.
  - destruct n as [|n]; [cbn in Hn; lia|]. cbn [read_groups]. rewrite no_dot_sep by (by apply later_no_dot). apply Forall_cons_1 in Hg as [Hg Hgs].
    destruct (group_read g Hg) as (Hr & Hne & _). cbn [later app]. unfold read_group, read_separator. rewrite (proj2 (Nat.eqb_neq i 0)) by lia.
    cbn [read_given_char]. rewrite Z.eqb_refl. cbn [mbind option_bind]. rewrite <- app_assoc, (read_number_app _ _ _ _ _ g _ Hne) by (try done; by apply later_stops).
    rewrite IH by (try done; cbn in Hn; lia). rewrite <- app_assoc. by destruct (_ <? _)%nat.
Qed.

Lemma read_all gs n limit rest : Forall (fun g => 0 <= g < 65536) gs -> (length gs <= n)%nat -> blocked rest -> 46 ∉ rest ->
  read_groups n 0 limit (fmt_subslice gs ++ rest) [] = (gs, false, rest).
Proof.
  intros Hg Hn Hb Hd. destruct gs as [|g gs].
  - destruct n as [|n]; [done|]. cbn [read_groups fmt_subslice app]. rewrite no_dot_sep, blocked_group by done. by destruct (_ <? _)%nat.
  - destruct n as [|n]; [cbn in Hn; lia|]. rewrite fmt_cons, <- app_assoc. cbn [read_groups]. rewrite no_dot_sep.
    2: { pose proof (later_no_dot (g :: gs) rest Hg Hd) as H. cbn [later app] in H. rewrite <- app_assoc in H. set_solver. }
    apply Forall_cons_1 in Hg as [Hg Hgs]. destruct (group_read g Hg) as (Hr & Hne & _). unfold read_group, read_separator. cbn [Nat.eqb].
    rewrite (read_number_app _ _ _ _ _ g _ Hne) by (try done; by apply later_stops). rewrite read_later by (try done; cbn in Hn; lia). by destruct (_ <? _)%nat.
Qed.

(** ** The run of zeros *)

Definition zeros (gs : list Z) (run : nat * nat) : Prop := forall k, (run.1 <= k < run.1 + run.2)%nat -> gs !! k = Some 0.

Lemma zero_run_ok gs : forall rest i current longest,
  drop i gs = rest -> zeros gs current -> (current.2 = 0 \/ current.1 + current.2 = i)%nat -> zeros gs longest -> zeros gs (zero_run rest i current longest).
Proof.
  induction rest as [|g rest IH]; intros i current longest Hd Hc Hi Hl; cbn [zero_run]; [done|].
  assert (gs !! i = Some g) as Hg by (rewrite <- (Nat.add_0_r i), <- lookup_drop, Hd; done).
  assert (drop (S i) gs = rest) as Hd' by (by apply drop_S in Hg; rewrite Hg in Hd; injection Hd).
  destruct (Z.eqb_spec g 0) as [->|]; [|apply IH; [done| |by left|done]; intros k Hk; cbn in Hk; lia].
  cbv zeta. set (c := (if (current.2 =? 0)%nat then i else current.1, S current.2)).
  assert (zeros gs c /\ c.1 + c.2 = S i)%nat as [Hzc Hci].
  { unfold c. destruct (Nat.eqb_spec current.2 0) as [E|E]; cbn; split; [|lia| |lia]; intros k Hk; cbn in Hk.
    - by replace k with i by lia.
    - destruct (decide (k = i)) as [->|]; [done|]. apply Hc. lia. }
  apply IH; [done|done|by right|]. by destruct (_ <? _)%nat.
Qed.

Lemma zeros_split gs s l : zeros gs (s, l) -> (1 < l)%nat ->
  (s + l <= length gs)%nat /\ gs = take s gs ++ replicate l 0 ++ drop (s + l) gs.
Proof.
  intros Hz Hl. assert (s + l <= length gs)%nat as Hlen.
  { pose proof (Hz (s + l - 1)%nat ltac:(cbn; lia)) as H. apply lookup_lt_Some in H. lia. }
  split; [done|]. rewrite <- (take_drop s gs) at 1. f_equal. rewrite <- (take_drop l (drop s gs)) at 1. rewrite drop_drop. f_equal.
  apply list_eq_same_length with l; [by rewrite length_replicate|rewrite length_take, length_drop; lia|]. intros k x y Hk Hx Hy.
  rewrite lookup_take, decide_True, lookup_drop in Hx by lia. rewrite Hz in Hx by (cbn; lia). apply lookup_replicate in Hy as [-> _]. congruence.
Qed.

(** ** Addresses read back *)

Lemma fmt_no_dot gs : Forall (fun g => 0 <= g < 65536) gs -> Forall (fun c => c <> 46 /\ c <> 37 /\ is_space c = false) (fmt_subslice gs).
Proof.
  assert (forall gs, Forall (fun g => 0 <= g < 65536) gs -> Forall (fun c => c <> 46 /\ c <> 37 /\ is_space c = false) (later gs)) as Hlater.
  { induction 1 as [|g l Hg Hl IH]; [done|]. cbn [later]. constructor; [done|]. apply Forall_app. split; [|done].
    destruct (group_read g Hg) as (_ & _ & H). eapply List.Forall_impl; [|exact H]. by intros c (? & ? & ? & ?). }
  intros Hg. destruct gs as [|g gs]; [done|]. rewrite fmt_cons. apply Forall_cons_1 in Hg as [Hg Hgs]. apply Forall_app. split; [|by apply Hlater].
  destruct (group_read g Hg) as (_ & _ & H). eapply List.Forall_impl; [|exact H]. by intros c (? & ? & ? & ?).
Qed.

Lemma fmt_dotless gs : Forall (fun g => 0 <= g < 65536) gs -> 46 ∉ fmt_subslice gs.
Proof. intros Hg Hin. pose proof (fmt_no_dot gs Hg) as H. rewrite Forall_forall in H. by destruct (H _ Hin). Qed.

Lemma parse_plain gs : Forall (fun g => 0 <= g < 65536) gs -> length gs = 8%nat -> parse_ipv6 (fmt_subslice gs) = Some (ipv6_new gs).
Proof.
  intros Hg Hl. unfold parse_ipv6, read_ipv6_addr. rewrite <- (app_nil_r (fmt_subslice gs)), read_all; [|done|lia|by left|set_solver].
  by rewrite Hl.
Qed.

Lemma parse_compressed gs s l : Forall (fun g => 0 <= g < 65536) gs -> length gs = 8%nat -> zeros gs (s, l) -> (1 < l)%nat ->
  parse_ipv6 (fmt_subslice (take s gs) ++ str "::" ++ fmt_subslice (drop (s + l) gs)) = Some (ipv6_new gs).
Proof.
  intros Hg Hl Hz H1. destruct (zeros_split gs s l Hz H1) as [Hlen Hsplit]. unfold parse_ipv6, read_ipv6_addr.
  assert (length (take s gs) = s) as Ls by (rewrite length_take; lia).
  assert (length (drop (s + l) gs) = 8 - s - l)%nat as Ld by (rewrite length_drop; lia).
  rewrite read_all; [|by apply Forall_take|lia|right; by eexists|].
  2: { change (str "::") with [58; 58]. intros [Hin|Hin]%elem_of_app; [set_solver|]. by eapply fmt_dotless, Hin; apply Forall_drop. }
  rewrite Ls, (proj2 (Nat.eqb_neq s 8)) by lia. change (str "::") with [58; 58]. cbn [app read_given_char Z.eqb Pos.eqb mbind option_bind].
  rewrite <- (app_nil_r (fmt_subslice (drop _ _))), read_all; [|by apply Forall_drop|lia|by left|set_solver].
  cbn [mbind option_bind]. rewrite Ld. replace (8 - s - (8 - s - l))%nat with l by lia. by rewrite <- Hsplit.
Qed.

Lemma parse_mapped x y : 0 <= x < 65536 -> 0 <= y < 65536 ->
  parse_ipv6 (str "::ffff:" ++ ip_to_string (MkIpv4 (x / 256) (x mod 256) (y / 256) (y mod 256))) = Some (ipv6_new [0; 0; 0; 0; 0; 65535; x; y]).
Proof.
  intros Hx Hy. set (ip := MkIpv4 _ _ _ _). assert (wf_ipv4 ip) as Hip by (unfold wf_ipv4, is_u8, ip; cbn; split_and!; mod_lia).
  pose proof (ip_read ip Hip) as Hr. unfold parse_ipv6, read_ipv6_addr.
  change (str "::ffff:" ++ ip_to_string ip) with (58 :: 58 :: 102 :: 102 :: 102 :: 102 :: 58 :: ip_to_string ip).
  set (t := ip_to_string ip) in *. change (read_groups 8 0 8 (58 :: 58 :: 102 :: 102 :: 102 :: 102 :: 58 :: t) []) with (@nil Z, false, 58 :: 58 :: 102 :: 102 :: 102 :: 102 :: 58 :: t).
  cbn [length Nat.eqb read_given_char Z.eqb Pos.eqb mbind option_bind]. 
  change (read_groups (8 - (0 + 1)) 0 (8 - (0 + 1)) (102 :: 102 :: 102 :: 102 :: 58 :: t) []) with (read_groups 6 1 7 (58 :: t) [65535]).
  cbn [read_groups Nat.ltb Nat.leb Nat.sub]. unfold read_separator at 1. cbn [Nat.eqb read_given_char Z.eqb Pos.eqb mbind option_bind]. rewrite Hr.
  cbn [app length Nat.sub replicate]. unfold ip. cbn [oct0 oct1 oct2 oct3]. f_equal. f_equal. repeat f_equal; mod_lia.
Qed.

Lemma parse_shown gs : Forall (fun g => 0 <= g < 65536) gs -> length gs = 8%nat -> parse_ipv6 (show_segments gs) = Some (ipv6_new gs).
Proof.
  intros Hg Hl.
  assert (parse_ipv6 (show_groups gs) = Some (ipv6_new gs)) as Hgen.
  { unfold show_groups. pose proof (zero_run_ok gs gs 0 (0, 0)%nat (0, 0)%nat eq_refl) as Hz. destruct (zero_run gs 0 (0, 0)%nat (0, 0)%nat) as [s l].
    destruct (Nat.ltb_spec 1 l); [|by apply parse_plain]. apply parse_compressed; [done|done| |done]. apply Hz; [|by left|]; intros k Hk; cbn in Hk; lia. }
  unfold show_segments. revert Hgen. generalize (show_groups gs). intros t Hgen.
  repeat (case_match; try exact Hgen). subst.
  repeat match goal with H : Forall _ (_ :: _) |- _ => apply Forall_cons_1 in H as [? H] end. by apply parse_mapped.
Qed.

Lemma segments_range a : Forall (fun g => 0 <= g < 65536) (segments a).
Proof. apply Forall_fmap, List.Forall_forall. intros i _. apply Z.mod_pos_bound. lia. Qed.

Lemma segments_value a : 0 <= a < 2 ^ 128 -> ipv6_new (segments a) = a.
Proof.
  intros Ha. unfold segments, ipv6_new, segment. cbn [seq fmap list_fmap fold_left Nat.sub].
  change (16 * Z.of_nat 7) with 112. change (16 * Z.of_nat 6) with 96. change (16 * Z.of_nat 5) with 80. change (16 * Z.of_nat 4) with 64.
  change (16 * Z.of_nat 3) with 48. change (16 * Z.of_nat 2) with 32. change (16 * Z.of_nat 1) with 16. change (a / 2 ^ (16 * Z.of_nat 0)) with (a / 1). rewrite Z.div_1_r.
  assert (forall k, 0 <= k -> a / 2 ^ k = 65536 * (a / 2 ^ (k + 16)) + (a / 2 ^ k) mod 65536) as Hq.
  { intros k Hk. rewrite Z.pow_add_r by lia. rewrite <- Z.div_div by (try lia; apply Z.pow_nonzero; lia). apply (Z.div_mod (a / 2 ^ k) 65536). lia. }
  pose proof (Z.div_mod a 65536 ltac:(lia)) as H0. change 65536 with (2 ^ 16) in H0 at 2.
  pose proof (Hq 16 ltac:(lia)) as H1. pose proof (Hq 32 ltac:(lia)) as H2. pose proof (Hq 48 ltac:(lia)) as H3. pose proof (Hq 64 ltac:(lia)) as H4.
  pose proof (Hq 80 ltac:(lia)) as H5. pose proof (Hq 96 ltac:(lia)) as H6. pose proof (Hq 112 ltac:(lia)) as H7.
  change (112 + 16) with 128 in H7. rewrite (Z.div_small a (2 ^ 128)) in H7 by lia. change (16 + 16) with 32 in H1. change (32 + 16) with 48 in H2.
  change (48 + 16) with 64 in H3. change (64 + 16) with 80 in H4. change (80 + 16) with 96 in H5. change (96 + 16) with 112 in H6.
  clear Hq Ha. revert H0 H1 H2 H3 H4 H5 H6 H7.
  generalize (a / 2 ^ 16), (a / 2 ^ 32), (a / 2 ^ 48), (a / 2 ^ 64), (a / 2 ^ 80), (a / 2 ^ 96), (a / 2 ^ 112). intros q1 q2 q3 q4 q5 q6 q7.
  generalize (a mod 65536), (q1 mod 65536), (q2 mod 65536), (q3 mod 65536), (q4 mod 65536), (q5 mod 65536), (q6 mod 65536), (q7 mod 65536). intros. lia.
Qed.

Definition clean (t : text) : Prop := Forall (fun c => c <> 37 /\ is_space c = false) t.

Lemma ip_clean ip : wf_ipv4 ip -> clean (ip_to_string ip).
Proof.
  assert (forall v, is_u8 v -> clean (dec 2 v)) as Hd.
  { intros v Hv. pose proof (all_below (fun v => dark (dec 2 v) && lacks 37 (dec 2 v)) 256 v ltac:(by vm_compute) Hv) as H. cbv beta in H.
    unfold dark, lacks in H. rewrite andb_true_iff, !List.forallb_forall in H. destruct H as [H1 H2]. apply List.Forall_forall. intros c Hc.
    specialize (H1 c Hc). specialize (H2 c Hc). rewrite negb_true_iff, Z.eqb_neq in *. split; [congruence|done]. }
  destruct ip as [a b c d]. intros (Ha & Hb & Hc & Hd'). unfold ip_to_string, clean. cbn [oct0 oct1 oct2 oct3] in *.
  repeat (apply Forall_app; split; [by apply Hd|constructor; [done|]]). by apply Hd.
Qed.

Lemma fmt_clean gs : Forall (fun g => 0 <= g < 65536) gs -> clean (fmt_subslice gs).
Proof. intros Hg. eapply List.Forall_impl; [|by apply fmt_no_dot]. by intros c (? & ? & ?). Qed.

Lemma show_clean gs : Forall (fun g => 0 <= g < 65536) gs -> length gs = 8%nat -> clean (show_segments gs) /\ show_segments gs <> [].
Proof.
  intros Hg Hl.
  assert (clean (show_groups gs) /\ show_groups gs <> []) as Hgen.
  { unfold show_groups. destruct (zero_run _ _ _ _) as [s l]. destruct (1 <? l)%nat; split.
    - apply Forall_app. split; [by apply fmt_clean, Forall_take|]. apply Forall_app. split; [|by apply fmt_clean, Forall_drop]. by repeat constructor.
    - by intros [_ ?]%app_eq_nil.
    - by apply fmt_clean.
    - destruct gs as [|g gs]; [done|]. rewrite fmt_cons. apply Forall_cons_1 in Hg as [Hg _]. destruct (group_read g Hg) as (_ & Hne & _). by destruct (hexs 3 g). }
  unfold show_segments. revert Hgen. generalize (show_groups gs). intros t Hgen.
  repeat (case_match; try exact Hgen). subst.
  repeat match goal with H : Forall _ (_ :: _) |- _ => apply Forall_cons_1 in H as [? H] end. split; [|done].
  apply Forall_app. split; [by repeat constructor|]. apply ip_clean. unfold wf_ipv4, is_u8. cbn. split_and!; mod_lia.
Qed.

Lemma show_ipv6_ok a : 0 <= a < 2 ^ 128 -> parse_ipv6 (show_ipv6 a) = Some a /\ clean (show_ipv6 a) /\ token (show_ipv6 a).
Proof.
  intros Ha. destruct (show_clean (segments a) (segments_range a) eq_refl) as [Hc Hn]. split_and!; [|done|split; [done|]].
  - unfold show_ipv6. rewrite parse_shown; [by rewrite segments_value|apply segments_range|done].
  - eapply List.Forall_impl; [|exact Hc]. by intros c [].
Qed.

Lemma percent_found t z : forall before, Forall (fun c => c <> 37) t -> split_at_percent (t ++ 37 :: z) before = Some (before ++ t, z).
Proof.
  induction t as [|c t IH]; intros before Ht; cbn [app split_at_percent]; [by rewrite Z.eqb_refl, app_nil_r|].
  apply Forall_cons_1 in Ht as [Hc Ht]. rewrite (proj2 (Z.eqb_neq _ _) Hc), IH by done. by rewrite <- app_assoc.
Qed.

Lemma percent_absent t : forall before, Forall (fun c => c <> 37) t -> split_at_percent t before = None.
Proof. induction t as [|c t IH]; intros before Ht; [done|]. apply Forall_cons_1 in Ht as [Hc Ht]. cbn [split_at_percent]. by rewrite (proj2 (Z.eqb_neq _ _) Hc), IH. Qed.

(** ** Theorems *)

(** Every IPv6 address, as the standard library prints it, with the longest run of zeros compressed or an embedded IPv4 address, and with any
    non-empty scope after a percent sign, is read back as this address with this scope. *)
Theorem scoped_address_roundtrip a scope :
  0 <= a < 2 ^ 128 -> scope <> Some [] ->
  parse_scoped_address (show_ipv6 a ++ match scope with Some z => 37 :: z | None => [] end) = Some (MkScoped a scope).
Proof.
  intros Ha Hs. destruct (show_ipv6_ok a Ha) as (Hp & Hc & _). unfold parse_scoped_address.
  assert (Forall (fun c => c <> 37) (show_ipv6 a)) as H37 by (eapply List.Forall_impl; [|exact Hc]; by intros c []). destruct scope as [z|].
  - rewrite percent_found by done. cbn [app]. rewrite Hp. cbn [mbind option_bind]. rewrite bool_decide_false; [done|]. congruence.
  - rewrite app_nil_r, percent_absent by done. by rewrite Hp.
Qed.

(** A line of the neighbour listing, in the format the reader documents. *)
Record neigh_row := MkNeighRow { nr_ip : Ipv6Addr; nr_index : text; nr_mac : Mac; nr_state : Z; nr_flags : text; nr_device : text }.

Definition neigh_text (r : neigh_row) : text :=
  show_ipv6 (nr_ip r) ++ str " " ++ nr_index r ++ str " " ++ mac_text (nr_mac r) ++ str " " ++ flag_text (nr_state r) ++ str " " ++ nr_flags r ++ str " " ++ nr_device r.

Record wf_neigh_row (r : neigh_row) : Prop := {
  wn_ip : 0 <= nr_ip r < 2 ^ 128; wn_index : token (nr_index r); wn_mac : wf_mac (nr_mac r); wn_state : is_u8 (nr_state r);
  wn_flags : token (nr_flags r); wn_device : token (nr_device r) }.

Lemma state_text v : is_u8 v -> from_str_radix 16 U32_MAX (trim_0x (flag_text v)) = Some v.
Proof.
  intros Hv. pose proof (all_below (fun v => bool_decide (from_str_radix 16 U32_MAX (trim_0x (flag_text v)) = Some v)) 256 v ltac:(by vm_compute) Hv) as H.
  by apply bool_decide_eq_true in H.
Qed.

Lemma neigh_row_ok r : wf_neigh_row r ->
  split_whitespace (neigh_text r) = [show_ipv6 (nr_ip r); nr_index r; mac_text (nr_mac r); flag_text (nr_state r); nr_flags r; nr_device r] /\ plain (neigh_text r).
Proof.
  intros [Hi Hx Hm Hs Hf Hd]. destruct (show_ipv6_ok _ Hi) as (_ & _ & Ti), (mac_text_ok _ Hm) as (_ & _ & _ & Tm), (flag_text_ok _ Hs) as (Ts & _).
  assert (blank (str " ") /\ plain (str " ")) as [Hb Hp] by (by apply blank_plain). split.
  - unfold neigh_text. rewrite !words_token by done. repeat f_equal. by apply words_last.
  - unfold neigh_text, plain in *. rewrite !Forall_app. split_and!; try done; by apply token_is_plain.
Qed.

(** The entries worth keeping: state 1 or 2, and a hardware address. *)
Definition keep_row (r : neigh_row) : option ProcNeighEntry :=
  if ((nr_state r =? 1) || (nr_state r =? 2)) && negb (bool_decide (nr_mac r = zero_mac)) then Some (MkNeigh (nr_ip r) (nr_mac r) (nr_device r)) else None.

(** The neighbour listing, as documented, is read back: exactly the entries in state 1 or 2 with a hardware address, in their order. *)
Theorem neigh_listing_read_back rs :
  Forall wf_neigh_row rs -> parse_proc_ipv6_neigh (unlines (neigh_text <$> rs)) = omap keep_row rs.
Proof.
  intros Hrs. unfold parse_proc_ipv6_neigh. rewrite lines_of.
  2: { apply Forall_fmap. eapply List.Forall_impl; [|exact Hrs]. intros r Hr. by apply neigh_row_ok. }
  induction Hrs as [|r rs Hr Hrs IH]; [done|]. rewrite fmap_cons. cbn [omap list_omap]. replace (neigh_line (neigh_text r)) with (keep_row r).
  { destruct (keep_row r); [f_equal|]; exact IH. }
  unfold neigh_line, keep_row. destruct (neigh_row_ok r Hr) as [-> _]. destruct (show_ipv6_ok _ (wn_ip r Hr)) as (-> & _). cbn [mbind option_bind].
  unfold parse_mac_str. destruct (mac_text_ok _ (wn_mac r Hr)) as (-> & -> & _). cbn [length fmap list_fmap mac_bytes Nat.eqb negb].
  rewrite state_text by apply Hr. replace (MkMac _ _ _ _ _ _) with (nr_mac r) by (by destruct (nr_mac r)). cbn [mbind option_bind].
  destruct (nr_state r =? 1), (nr_state r =? 2), (bool_decide (nr_mac r = zero_mac)); done.
Qed.

(** ** Samples *)

Lemma scoped_address_roundtrip_witness :
  parse_scoped_address (str "fe80::1%eth0") = Some (MkScoped (ipv6_new [65152; 0; 0; 0; 0; 0; 0; 1]) (Some (str "eth0"))).
Proof. apply (scoped_address_roundtrip (ipv6_new [65152; 0; 0; 0; 0; 0; 0; 1]) (Some (str "eth0"))); [vm_compute; split; congruence|discriminate]. Defined.

Definition sample_neigh : list neigh_row :=
  [MkNeighRow 1 (str "2") (MkMac 2 0 0 0 0 1) 2 (str "0x00") (str "eth0"); MkNeighRow 2 (str "2") (MkMac 2 0 0 0 0 2) 4 (str "0x00") (str "eth0")].

Lemma neigh_listing_read_back_witness :
  parse_proc_ipv6_neigh (unlines (neigh_text <$> sample_neigh)) = [MkNeigh 1 (MkMac 2 0 0 0 0 1) (str "eth0")].
Proof.
  apply (neigh_listing_read_back sample_neigh). repeat constructor; try (by apply dark_token); vm_compute; try congruence; split; congruence.
Defined.
